(* ===== verification/_CoqProject ===== *)
-Q . S2P
Prelude.v
RustStd.v
Effects.v
Tcp.v
Crates.v
SwapTypes.v
Http.v
Float32.v
BitcoinCore.v
BtcRoutines.v
BtcScript.v
Slate.v
SlateV4.v
SlateBin.v
StateM.v
Wallet.v
Address.v
Selection.v
Updater.v
WalletTx.v
Slatepack.v
Serde.v
Ser.v
Armor.v
Scan.v
Owner.v
Packer.v
Foreign.v
Frames.v
Api.v
Invariant.v
Locks.v
Seed.v
Lifecycle.v
Json.v
NodeHttp.v
Sender.v
Facade.v
Sound.v
UpdaterThread.v
Rpc.v
SecureApi.v
Server.v
WalletCmd.v
WalletArgs.v
GrinRoutines.v
GrinCore.v
GrinTx.v
Protocol.v
SlateDisk.v
Commands.v
Main.v
Swap.v
Toy.v
ToyWallet.v
Witnesses.v
WalletWitnesses.v
ApiWitnesses.v
PackWitnesses.v
LifeWitnesses.v
NetToy.v
NetWitnesses.v
CmdWitnesses.v
Visitor.v
SerWitnesses.v
