(* ===== verification/Prelude.v ===== *)
(** * mw-btc-swap: a verification development

    The program (src/src) swaps bitcoins for Grin between two parties that trust
    nobody.  Alice owns Grin, Bob owns bitcoins.  In the setup Bob locks his coins
    in a P2SH output that Alice's key together with a secret x opens, or Bob's own
    key after a block height; the two then move Alice's coins to a Grin output
    whose key both share, and prepare the height-locked transaction that returns
    it.  In the execution they spend the shared output to Bob with a signature
    that hides x: publishing it hands x to Alice, who takes the bitcoins.  If
    that does not happen both take their coins back.

    ** The layers, bottom up

    - [Prelude]: results ([Res]: a value, a returned error or a panic), 64-bit
      integers with overflow as the build profile has it, tactics and hints.
      [RustStd]: number formatting and parsing and the string functions used.
      [Effects]: the monads.  [M] draws random numbers; [prog] is a program that
      may also send, receive, call a node, sleep, connect and accept.  [run] gives
      it scripted messages, [finish] runs it without a peer, and [duet] runs two
      programs against each other: a send of one is a receive of the other.
    - [Crates]: the code that is not in the repository (secp256k1-zkp, grin_core,
      rust-bitcoin, hex) as classes of operations, with separate law classes
      ([TxLaws], [KeyLaws], [AdaptorLaws], [BitcoinLaws] ...) for the documented
      behaviour a theorem relies on.
    - [Tcp] (net/tcp.rs): lines over a byte stream with the reader's buffer, the UTF-8 check, a socket
      that may take less than it is given or fail, and every panic of it ([truncate_inside_character],
      [receive_not_utf8], [send_refused]); and the message level the rest of the program is modelled at.  [Http] (net/http.rs).
    - [SwapTypes] (enums.rs, constants.rs, settings.rs, bitcoin_types.rs,
      grin_types.rs, swap_types.rs): the data.  A field assignment
      of the code is a [set_] function.
    - [Float32] and [BitcoinCore] (bitcoin_core.rs): binary32 arithmetic of the
      balance and the client of the Bitcoin node.
    - [BtcRoutines] (btcroutines.rs): lock script, transactions, signing.
      [BtcScript] is a machine for the opcodes the lock script uses; it
      is not code of the repository but the meaning of the scripts it builds.
    - [Slate], [SlateV4], [SlateBin] (libwallet slate.rs, slate_versions): the
      transaction under construction, its rounds, its
      finalisation, and its journey through the JSON and the binary format.  [Ser] (slate_versions/ser.rs and the
      attributes of v4.rs) is the JSON itself, field by field; [Serde] says what the derive macros of serde promise
      and [Visitor] is an implementation of them.
    - The Grin wallet below the slate (src/grin-wallet): [StateM], a state with errors
      ([W] in the following), whose [leaves] says what a method does not change;
      [Wallet] (types.rs, impls/backends/lmdb.rs, internal/keys.rs): outputs, the log,
      the data base as a map for each prefix, batches ([with_batch]: dropped
      unless [commit] is reached), the keychain behind its mask; [Address]
      (address.rs, ov3.rs, slatepack/address.rs); [Selection] (internal/selection.rs);
      [Updater] (internal/updater.rs), where every answer of the node is a
      parameter; [WalletTx] (internal/tx.rs); [Scan] (internal/scan.rs), the search
      of the chain for the wallet's outputs.
    - What a wallet offers: [Owner] (api_impl/owner.rs and types.rs) and [Foreign]
      (api_impl/foreign.rs), method by method on [W].  [Frames] shows by hints that no
      method exchanges the keychain, its checksum or the active account; [Api] holds the theorems about whole methods.
      [Invariant] goes through every method once more, with hints for [invar] of [StateM],
      and makes the commands of a wallet one type [Command] with one step [call].
    - [Slatepack] (slatepack/types.rs, byte_ser.rs), [Armor] (slatepack/armor.rs), [Packer]
      (slatepack/packer.rs and the message functions of api_impl/owner.rs): a slate as bytes,
      with or without encryption, as text between two words, and as a message from one
      wallet to another.  age, base58 and the hashes are parameters.
    - [Seed] (impls/lifecycle/seed.rs): a disk of directories and files whose operations may fail,
      and the file that holds the seed, with its backups.  [Lifecycle] (impls/lifecycle/default.rs):
      creating, opening, closing and deleting wallets over a store for each directory, the
      recovery phrase and the password; an [Event] is one of these or a command to the wallet that is open.
    - The wallet and the network: [Json] (impls/client_utils: JSON-RPC and its HTTP client over [prog]),
      [NodeHttp] (impls/node_clients: an instance of the class [NodeClient] that the wallet uses), [Sender]
      (impls/adapters/http.rs: a slate to another wallet, over Tor).
    - The servers of the wallet: [Facade] (api/owner.rs, api/foreign.rs: the methods of the two APIs on the wallet behind
      its lock, the attempt to send, the flag and the messages of the updater), [UpdaterThread]
      (api_impl/owner_updater.rs: the threads, as a step relation [step] with labels), [Rpc] (api/owner_rpc.rs, api/foreign_rpc.rs:
      calls as data; [exec_owner_step] shows that each is a step of [UpdaterThread]), [SecureApi] (api/types.rs,
      controller/controller.rs: the handshake, sealed requests, the handlers from body to reply), and [Server], what they guarantee.
      [Sound] says of each method of the two APIs that the wallets stay well-formed, with hints for [Server] and what follows.
    - The command line of the wallet: [WalletCmd] (controller/command.rs, adapters/slatepack.rs: the commands over the owner API, with the files
      on the provider's disk and what the terminal shows) and [WalletArgs] (cmd/wallet_args.rs: arguments, prompts, which command is run).
    - [Locks] goes through the methods of a wallet as [Invariant] does: which of them may lock a coin.
    - [GrinRoutines], [GrinCore], [GrinTx] (src/src/grin): keys and multiparty
      bulletproofs; the transaction algorithms; the two-party protocols.  The
      [_alice] and [_bob] functions are programs, meant to be run by [duet].
    - [Protocol] (swap/protocol.rs): the six phases, which carry the swap slate
      as state, and the guards on the heights.
    - [SlateDisk] (swap/slate.rs), [Commands] (commands/cmd_types), [Main] (parser.rs,
      main.rs): files, the eight commands as instances of a class, clap's [App] as
      data, the process from its arguments to the files it leaves.
    - [Swap]: the composition of the two sides over setup, execution and refund.
    - [Toy], [ToyWallet], [Witnesses], [WalletWitnesses], [ApiWitnesses],
      [PackWitnesses], [LifeWitnesses], [NetToy], [NetWitnesses], [CmdWitnesses], [SerWitnesses]: an instance of every class in which all laws hold and
      programs compute, and, for each property with hypotheses, its use on a
      run in that instance; [ApiWitnesses] runs a payment between two wallets to its
      verified proof, and two runs in which the code does what it does not mean to;
      [PackWitnesses] packs that payment, and asks a new wallet one thing after another;
      [LifeWitnesses] creates a wallet, uses it and changes its password, also on a disk that fails;
      [NetWitnesses] makes a handshake with a server and creates a wallet through it; [CmdWitnesses] pays an invoice at the prompt,
      and locks a payment twice that was to be locked late.

    ** What the theorems show

    - The swap (Swap, C1 to C4): after a completed setup the slates describe the
      same swap, about the output of the transaction that was published ([lock_published]) and one shared coin
      ([coin_of_both]); a completed execution has spent this output with the secret that the Grin slate
      revealed ([claims], [reveals]); each refund spends what the setup locked, through its own branch or as its only input.  They are about successful runs: two finished sides
      are a hypothesis, since neither the network nor the peer can be
      forced.  What one side keeps when the other stops is in C3, C4,
      C37 and [failed_command_leaves_disk].
    - The Grin protocols (GrinTx, C5 to C6) and slates (Slate, GrinCore, SlateV4,
      SlateBin, Ser, C8 to C11, C32, and [required_entries_suffice], [ser_pairs_roundtrip], [height_lock_lost_on_the_wire]): the secret comes out as it went in; values, entries and
      signatures are conserved; the exact condition of finalisation;
      what survives the wire, and the locks that do not; [short_proof_signature_panics] says what a slate from outside can do.
    - Bitcoin (BtcScript, BtcRoutines, C7, [final_transaction_never_refunds], C31,
      [spend_lock_cases] and [large_odd_balance_unreadable]): the lock script has exactly two ways; values are conserved;
      where the arithmetic fails.
    - The wallet (C26 to C30, and [change_exact], [private_context_roundtrip], [onion_address_roundtrip]): the choice of coins ends and decides; what is locked
      cannot be chosen again, is really locked, and comes back when the payment is
      cancelled; no other call locks a coin (C28); the transitions an output can go through, whatever the node says;
      the summary against the selection; contexts, addresses and payment proofs.
      The invariant they share is [keyed]: an output is stored under its own key.
      C15 is the invariant of the whole: [wf] holds between any two
      commands, whatever they are and however they end.
      For whole methods (C12 to C14, C23 to C25): a payment is finalised and received
      at most once, its proof can be exported and is accepted, a refresh cancels what
      has expired, a scan repairs exactly what differs from the chain, and without a node nothing changes.
    - The life of a wallet (C16, [created_wallet_opens], C17): a seed stays readable whatever
      fails; what was created can be opened; a change of password changes nothing else.  [every_store_well_formed]
      takes the invariant through the whole life, and [bad_phrase_hides_seed] shows what a bad recovery phrase does.
    - The servers (C18 to C20): nobody without the key of the handshake has an effect, who
      made one is served, and all stores stay well-formed under requests and updaters together.
      The network ([slate_sent_after_agreement], C33) and the updater (C34, and [messages_in_order], [stop_overridden]
      and [failed_updater_freezes]): no slate without an agreement, no output lost between requests, and what stopping an
      updater does and does not.  [version_404_unseen], [version_page_panics] and [unsent_invoice_panics] say where the code fails hard.
    - The commands: what a payment of an invoice waits for (C35), what [send] leaves ([send_ends_locked]), proofs
      in files ([proof_file_roundtrip]), all wallets well-formed under any commands ([commands_keep_wallets]);
      [end_of_input_pays], [paid_over_tor_unlocked], [late_lock_entered_twice], [id_wraps] and [repost_needs_id] say where the code does what it does not mean to.
    - Messages (C21, C22, [encrypted_slatepack_opens], [slatepack_bin_roundtrip]):
      what is packed is delivered to each of its recipients; texts are read back
      exactly; [short_length_overflows] and [truncated_armor_aborts] say where reading fails hard.
    - The protocol's guards and sessions (Protocol, Commands, C36 to C38),
      files and the command line (C39, [failed_command_leaves_disk]), and the stream (Tcp,
      C40, and [ack_coalesced_loses_message]).  Theorems without a number round these off.

    ** Bounds

    Integers are [Z] with [u64_add] and its kin at the operations: an overflow
    panics or wraps by [BuildProfile].  The wait for the funds has the 120
    attempts of the code.  [serve] has a bound on the clients, which
    [listener_fuel] shows to be no restriction; the loop of the wallet's selection
    has one more round than there are coins, which C26 shows to be enough;
    the loop over the outputs of the chain ends, by [collect_terminates], when the node advances;
    the search for the name of a backup by [backup_name_found] (its counter, an i32 in the code, has no bound here);
    [duet] recurses on the programs and needs none.

    ** Not modelled

    Log output (but a panic inside it is), the random generator beyond a tape of
    numbers, TLS and HTTP below a request and its reply, JSON texts
    (parameters with a round-trip law; those of slates down to the values), clap's own parsing, secp256k1's
    arithmetic (parameters), LMDB itself and the failures of its calls.  Of the
    vendored Grin wallet the configuration file, the start of listeners and of Tor with their
    routes and passwords (grin_api), files and Keybase as ways to send, the interactive command line and the tables it shows.  A call of the wallet's APIs is
    one step; two calls do not interleave in the middle, and what a caller sends while another holds the wallet waits. *)
From stdpp Require Export prelude gmap strings list.
From Stdlib Require Export ZArith Lia.

#[export] Set Default Goal Selector "!".

Declare Scope swap_scope.
Delimit Scope swap_scope with swap.
#[global] Open Scope Z_scope.
#[global] Arguments Z.ltb : simpl never.
#[global] Arguments Z.leb : simpl never.
#[global] Arguments Z.eqb : simpl never.

(** ** Results, errors and panics

    A Rust function that returns [Result<T, String>] (or [Result<T, &str>], or
    a libwallet [Result<T, Error>], whose error is named by its kind) and that
    may also panic is a value of [Res].  [Panic] is not a value the program can
    inspect: every combinator lets it through. *)
Inductive Res (A : Type) : Type :=
| Ok (a : A)
| Err (e : string)
| Panic (e : string).
Arguments Ok {A} a.
Arguments Err {A} e.
Arguments Panic {A} e.

#[export] Instance Res_ret : MRet Res := fun _ a => Ok a.
#[export] Instance Res_bind : MBind Res := fun _ _ k r =>
  match r with Ok a => k a | Err e => Err e | Panic e => Panic e end.
#[export] Instance Res_fmap : FMap Res := fun _ _ f r =>
  match r with Ok a => Ok (f a) | Err e => Err e | Panic e => Panic e end.

(** [Result::unwrap], [Result::expect], [Option::unwrap], [Option::expect]. *)
Definition unwrap {A} (r : Res A) : Res A :=
  match r with Err e => Panic e | _ => r end.
Definition expect {A} (msg : string) (r : Res A) : Res A :=
  match r with Err e => Panic (msg +:+ ": " +:+ e) | _ => r end.
Definition unwrap_opt {A} (o : option A) : Res A :=
  match o with Some a => Ok a | None => Panic "called `Option::unwrap()` on a `None` value" end.
Definition expect_opt {A} (msg : string) (o : option A) : Res A :=
  match o with Some a => Ok a | None => Panic msg end.
Definition ok_or {A} (e : string) (o : option A) : Res A :=
  match o with Some a => Ok a | None => Err e end.
(** [Result::unwrap_or]: a panic is still a panic. *)
Definition unwrap_or {A} (d : A) (r : Res A) : Res A :=
  match r with Err _ => Ok d | _ => r end.

(** The outcome of [r?; Ok(b)]. *)
Definition res_map_ok {A B} (b : B) (r : Res A) : Res B :=
  match r with Ok _ => Ok b | Err e => Err e | Panic e => Panic e end.

Definition is_ok {A} (r : Res A) : bool := match r with Ok _ => true | _ => false end.
Definition is_panic {A} (r : Res A) : bool := match r with Panic _ => true | _ => false end.

(** A left fold that stops at the first failure: the [for] loops of the code. *)
Fixpoint res_fold {A B} (f : B -> A -> Res B) (b : B) (l : list A) : Res B :=
  match l with
  | [] => Ok b
  | a :: l' => b' ← f b a; res_fold f b' l'
  end.

Fixpoint res_map {A B} (f : A -> Res B) (l : list A) : Res (list B) :=
  match l with
  | [] => Ok []
  | a :: l' => b ← f a; bs ← res_map f l'; Ok (b :: bs)
  end.

(** ** Machine integers

    Unsigned and signed integers are [Z] with their range checked where the
    code computes.  Rust's [+], [-] and [*] panic on overflow when the crate is
    built with overflow checks (the default of a debug build) and wrap around
    otherwise (the default of a release build, which is what the Docker image
    copies); the build is a parameter, so that every theorem says what happens
    in both. *)
Class BuildProfile := overflow_checks : bool.

Definition u64_modulus : Z := 18446744073709551616.
Definition u32_modulus : Z := 4294967296.
Definition i64_max : Z := 9223372036854775807.
Definition i64_min : Z := -9223372036854775808.

Definition in_u64 (x : Z) : Prop := 0 <= x < u64_modulus.
Definition in_i64 (x : Z) : Prop := i64_min <= x <= i64_max.
Definition in_u64b (x : Z) : bool := (0 <=? x) && (x <? u64_modulus).
Definition in_i64b (x : Z) : bool := (i64_min <=? x) && (x <=? i64_max).

Definition wrap_u64 (x : Z) : Z := x mod u64_modulus.
Definition wrap_i64 (x : Z) : Z := (x - i64_min) mod u64_modulus + i64_min.

Section arith.
Context `{BuildProfile}.

Definition u64_result (what : string) (x : Z) : Res Z :=
  if in_u64b x then Ok x
  else if overflow_checks then Panic ("attempt to " +:+ what +:+ " with overflow")
  else Ok (wrap_u64 x).
Definition i64_result (what : string) (x : Z) : Res Z :=
  if in_i64b x then Ok x
  else if overflow_checks then Panic ("attempt to " +:+ what +:+ " with overflow")
  else Ok (wrap_i64 x).
Definition u64_add (x y : Z) : Res Z := u64_result "add" (x + y).
Definition u64_sub (x y : Z) : Res Z := u64_result "subtract" (x - y).
Definition u64_mul (x y : Z) : Res Z := u64_result "multiply" (x * y).
Definition i64_sub (x y : Z) : Res Z := i64_result "subtract" (x - y).
End arith.

(** [T::try_from]: the conversions the code uses. *)
Definition try_from_err : string := "out of range integral type conversion attempted".
Definition i64_try_from (x : Z) : Res Z := if in_i64b x then Ok x else Err try_from_err.
Definition u64_try_from (x : Z) : Res Z := if in_u64b x then Ok x else Err try_from_err.
Definition u32_try_from (x : Z) : Res Z :=
  if (0 <=? x) && (x <? u32_modulus) then Ok x else Err try_from_err.

(** ** Lemmas on results *)
Lemma res_bind_Ok {A B} (r : Res A) (k : A -> Res B) (b : B) :
  r ≫= k = Ok b <-> exists a, r = Ok a /\ k a = Ok b.
Proof.
  destruct r; cbn; [naive_solver|..]; (split; [discriminate|intros (?&?&?); discriminate]).
Qed.

Lemma unwrap_Ok {A} (r : Res A) a : unwrap r = Ok a <-> r = Ok a.
Proof. destruct r; cbn; naive_solver. Qed.
Lemma expect_Ok {A} m (r : Res A) a : expect m r = Ok a <-> r = Ok a.
Proof. destruct r; cbn; naive_solver. Qed.
Lemma unwrap_opt_Ok {A} (o : option A) a : unwrap_opt o = Ok a <-> o = Some a.
Proof. destruct o; cbn; naive_solver. Qed.
Lemma expect_opt_Ok {A} m (o : option A) a : expect_opt m o = Ok a <-> o = Some a.
Proof. destruct o; cbn; naive_solver. Qed.
Lemma ok_or_Ok {A} m (o : option A) a : ok_or m o = Ok a <-> o = Some a.
Proof. destruct o; cbn; naive_solver. Qed.

Lemma res_map_Ok {A B} (f : A -> Res B) l l' :
  res_map f l = Ok l' <-> Forall2 (fun a b => f a = Ok b) l l'.
Proof.
  revert l'; induction l as [|a l IH]; intros l'; cbn.
  - split; [intros [= <-]; constructor | inversion 1; done].
  - destruct (f a) eqn:E; cbn.
    + destruct (res_map f l) eqn:E'; cbn.
      * split; [intros [= <-]; constructor; [done|by apply IH]|].
        inversion 1 as [|? b' ? l'' H1 H2]; subst. apply IH in H2. congruence.
      * split; [done|]. inversion 1 as [|? b' ? l'' H1 H2]; subst. apply IH in H2. congruence.
      * split; [done|]. inversion 1 as [|? b' ? l'' H1 H2]; subst. apply IH in H2. congruence.
    + split; [done|]. inversion 1; congruence.
    + split; [done|]. inversion 1; congruence.
Qed.

Lemma res_fold_app {A B} (f : B -> A -> Res B) b l1 l2 :
  res_fold f b (l1 ++ l2) = res_fold f b l1 ≫= fun b' => res_fold f b' l2.
Proof.
  revert b; induction l1 as [|a l1 IH]; intros b; cbn; [done|].
  destruct (f b a); cbn; [apply IH|done|done].
Qed.

(** ** Lemmas on machine integers *)
Lemma in_u64b_spec x : in_u64b x = true <-> in_u64 x.
Proof. unfold in_u64b, in_u64. rewrite andb_true_iff, Z.leb_le, Z.ltb_lt. lia. Qed.
Lemma in_i64b_spec x : in_i64b x = true <-> in_i64 x.
Proof. unfold in_i64b, in_i64. rewrite andb_true_iff, !Z.leb_le. lia. Qed.

#[export] Instance in_u64_dec x : Decision (in_u64 x).
Proof. unfold in_u64. apply _. Defined.
#[export] Instance in_i64_dec x : Decision (in_i64 x).
Proof. unfold in_i64. apply _. Defined.

Lemma wrap_u64_range x : in_u64 (wrap_u64 x).
Proof. unfold in_u64, wrap_u64. apply Z.mod_pos_bound. reflexivity. Qed.
Lemma wrap_u64_id x : in_u64 x -> wrap_u64 x = x.
Proof. apply Z.mod_small. Qed.

Lemma in_u64_alt x : in_u64 x <-> 0 <= x < 18446744073709551616.
Proof. reflexivity. Qed.
Lemma in_i64_alt x : in_i64 x <-> -9223372036854775808 <= x <= 9223372036854775807.
Proof. reflexivity. Qed.

(** [lia] after the integer ranges are written out. *)
Ltac int_lia :=
  repeat match goal with
  | H : in_u64 _ |- _ => rewrite in_u64_alt in H
  | H : in_i64 _ |- _ => rewrite in_i64_alt in H
  end; rewrite ?in_u64_alt, ?in_i64_alt in *; lia.

Section arith_lemmas.
Context `{BuildProfile}.

Lemma u64_result_in w x : in_u64 x -> u64_result w x = Ok x.
Proof. intros Hx. unfold u64_result. by rewrite (proj2 (in_u64b_spec x) Hx). Qed.
Lemma i64_result_in w x : in_i64 x -> i64_result w x = Ok x.
Proof. intros Hx. unfold i64_result. by rewrite (proj2 (in_i64b_spec x) Hx). Qed.
Lemma u64_add_ok x y : in_u64 (x + y) -> u64_add x y = Ok (x + y).
Proof. apply u64_result_in. Qed.
Lemma u64_sub_ok x y : in_u64 (x - y) -> u64_sub x y = Ok (x - y).
Proof. apply u64_result_in. Qed.
Lemma u64_mul_ok x y : in_u64 (x * y) -> u64_mul x y = Ok (x * y).
Proof. apply u64_result_in. Qed.
Lemma i64_sub_ok x y : in_i64 (x - y) -> i64_sub x y = Ok (x - y).
Proof. apply i64_result_in. Qed.

(** The three ways a checked operation can end. *)
Lemma u64_result_cases w x :
  (in_u64 x /\ u64_result w x = Ok x)
  \/ (~ in_u64 x /\ overflow_checks = true
      /\ u64_result w x = Panic ("attempt to " +:+ w +:+ " with overflow"))
  \/ (~ in_u64 x /\ overflow_checks = false /\ u64_result w x = Ok (wrap_u64 x)).
Proof.
  unfold u64_result. destruct (in_u64b x) eqn:E.
  - left. split; [by apply in_u64b_spec|done].
  - right. assert (~ in_u64 x) by (rewrite <- in_u64b_spec; congruence).
    destruct overflow_checks; [left|right]; done.
Qed.

Lemma u64_result_range w x y : u64_result w x = Ok y -> in_u64 y.
Proof.
  intros E. destruct (u64_result_cases w x) as [[? E']|[(?&?&E')|(?&?&E')]];
    rewrite E' in E; simplify_eq; [done|]. apply wrap_u64_range.
Qed.
End arith_lemmas.

Lemma i64_try_from_ok x : in_i64 x -> i64_try_from x = Ok x.
Proof. intros Hx. unfold i64_try_from. by rewrite (proj2 (in_i64b_spec x) Hx). Qed.
Lemma u64_try_from_ok x : in_u64 x -> u64_try_from x = Ok x.
Proof. intros Hx. unfold u64_try_from. by rewrite (proj2 (in_u64b_spec x) Hx). Qed.

(** ** Automation

    [res_inv] takes apart every hypothesis that says a composed computation
    succeeded. *)
Ltac res_inv_step :=
  match goal with
  | H : mbind _ _ = Ok _ |- _ => apply res_bind_Ok in H as (? & ? & H)
  | H : mret _ = Ok _ |- _ => cbn in H
  | H : unwrap _ = Ok _ |- _ => apply (proj1 (unwrap_Ok _ _)) in H
  | H : expect _ _ = Ok _ |- _ => apply (proj1 (expect_Ok _ _ _)) in H
  | H : unwrap_opt _ = Ok _ |- _ => apply (proj1 (unwrap_opt_Ok _ _)) in H
  | H : expect_opt _ _ = Ok _ |- _ => apply (proj1 (expect_opt_Ok _ _ _)) in H
  | H : ok_or _ _ = Ok _ |- _ => apply (proj1 (ok_or_Ok _ _ _)) in H
  | H : Ok _ = Ok _ |- _ => injection H as H
  | H : Err _ = Ok _ |- _ => discriminate H
  | H : Panic _ = Ok _ |- _ => discriminate H
  | H1 : ?x = Ok _, H2 : ?x = Ok _ |- _ => rewrite H1 in H2; injection H2 as H2
  end.
Ltac res_inv := repeat res_inv_step; simplify_eq/=.

Create HintDb swap discriminated.
Create Rewrite HintDb swap.
#[export] Hint Resolve u64_add_ok u64_sub_ok u64_mul_ok i64_sub_ok i64_try_from_ok
  u64_try_from_ok wrap_u64_range : swap.

(** ** Lemmas on strings *)
Lemma append_cons a (s t : string) : String a s +:+ t = String a (s +:+ t).
Proof. reflexivity. Qed.
Lemma append_assoc (a b c : string) : (a +:+ b) +:+ c = a +:+ b +:+ c.
Proof. induction a as [|? a IH]; [done|]. rewrite !append_cons. congruence. Qed.
Lemma append_nil_r (a : string) : a +:+ "" = a.
Proof. induction a as [|? a IH]; [done|]. rewrite !append_cons. congruence. Qed.
Lemma length_append (a b : string) :
  String.length (a +:+ b) = (String.length a + String.length b)%nat.
Proof. induction a as [|? a IH]; [done|]. rewrite append_cons. cbn. congruence. Qed.
Lemma append_inj_l (a b c : string) : a +:+ b = a +:+ c -> b = c.
Proof. induction a as [|x a IH]; [done|]. rewrite !append_cons. intros [= E]. by apply IH. Qed.
Lemma substring_prefix (a b : string) : String.substring 0 (String.length a) (a +:+ b) = a.
Proof. induction a as [|x a IH]; [by destruct b|]. rewrite append_cons. cbn. by rewrite IH. Qed.
Lemma substring_all (a : string) : String.substring 0 (String.length a) a = a.
Proof. rewrite <- (append_nil_r a) at 2. apply substring_prefix. Qed.
Lemma substring_suffix (a b : string) :
  String.substring (String.length a) (String.length b) (a +:+ b) = b.
Proof. induction a as [|c a IH]; [|exact IH]. apply substring_all. Qed.
Lemma get_append_end (a : string) c b : String.get (String.length a) (a +:+ String c b) = Some c.
Proof. induction a as [|x a IH]; [done|exact IH]. Qed.
