(* ===== verification/RustStd.v ===== *)
(** * The standard-library functions on strings and integers the code calls

    [u64::to_string], [str::parse] for [u64], [u32] and [i64] (with their error
    cases), [str::eq_ignore_ascii_case] and [str::to_uppercase].  A Rust string
    is the list of its UTF-8 bytes. *)
From S2P Require Import Prelude.
From Stdlib Require Import Ascii DecimalString DecimalN DecimalPos.

(** ** Printing integers *)
Definition fmt_u64 (n : Z) : string := NilZero.string_of_uint (N.to_uint (Z.to_N n)).
Definition fmt_i64 (n : Z) : string := if n <? 0 then "-" +:+ fmt_u64 (- n) else fmt_u64 n.

(** ** Parsing integers: [from_str_radix(_, 10)] *)
Definition parse_empty : string := "cannot parse integer from empty string".
Definition parse_invalid : string := "invalid digit found in string".
Definition parse_pos_overflow : string := "number too large to fit in target type".
Definition parse_neg_overflow : string := "number too small to fit in target type".

Definition to_digit (a : ascii) : option Z :=
  let n := Z.of_nat (nat_of_ascii a) in
  if (48 <=? n) && (n <=? 57) then Some (n - 48) else None.

(** The positive loop: [result * 10 + digit], both steps checked against the
    largest value of the type. *)
Fixpoint parse_pos (max acc : Z) (s : string) : Res Z :=
  match s with
  | EmptyString => Ok acc
  | String a s' =>
      match to_digit a with
      | None => Err parse_invalid
      | Some d => if acc * 10 + d <=? max then parse_pos max (acc * 10 + d) s'
                  else Err parse_pos_overflow
      end
  end.

(** The negative loop: [result * 10 - digit], checked against the smallest. *)
Fixpoint parse_neg (min acc : Z) (s : string) : Res Z :=
  match s with
  | EmptyString => Ok acc
  | String a s' =>
      match to_digit a with
      | None => Err parse_invalid
      | Some d => if min <=? acc * 10 - d then parse_neg min (acc * 10 - d) s'
                  else Err parse_neg_overflow
      end
  end.

Definition parse_int (min max : Z) (s : string) : Res Z :=
  match s with
  | EmptyString => Err parse_empty
  | String "+"%char EmptyString => Err parse_invalid
  | String "-"%char EmptyString => Err parse_invalid
  | String "+"%char s' => parse_pos max 0 s'
  | String "-"%char s' => if min <? 0 then parse_neg min 0 s' else parse_pos max 0 s
  | _ => parse_pos max 0 s
  end.

Definition parse_u64 (s : string) : Res Z := parse_int 0 (u64_modulus - 1) s.
Definition parse_u32 (s : string) : Res Z := parse_int 0 (u32_modulus - 1) s.
Definition parse_i64 (s : string) : Res Z := parse_int i64_min i64_max s.

(** ** Case *)
Definition ascii_lower (a : ascii) : ascii :=
  let n := nat_of_ascii a in
  if (65 <=? n)%nat && (n <=? 90)%nat then ascii_of_nat (n + 32) else a.
Definition ascii_upper (a : ascii) : ascii :=
  let n := nat_of_ascii a in
  if (97 <=? n)%nat && (n <=? 122)%nat then ascii_of_nat (n - 32) else a.

Fixpoint to_ascii_lowercase (s : string) : string :=
  match s with
  | EmptyString => EmptyString
  | String a s' => String (ascii_lower a) (to_ascii_lowercase s')
  end.

Definition eq_ignore_ascii_case (s t : string) : bool :=
  bool_decide (to_ascii_lowercase s = to_ascii_lowercase t).

(** [str::to_uppercase].  Besides the ASCII letters, the characters whose
    Unicode upper case is made of ASCII letters only are mapped: U+0131, U+017F,
    U+00DF and the ligatures U+FB00 to U+FB06.  The upper case of every other
    character holds a non-ASCII character, as does the character itself; those
    are left alone, which no comparison with an ASCII string can tell. *)
Definition byte_is (a : ascii) (n : nat) : bool := (nat_of_ascii a =? n)%nat.
Definition ligature (a : ascii) : option string :=
  match nat_of_ascii a with
  | 128%nat => Some "FF" | 129%nat => Some "FI" | 130%nat => Some "FL"
  | 131%nat => Some "FFI" | 132%nat => Some "FFL"
  | 133%nat => Some "ST" | 134%nat => Some "ST"
  | _ => None
  end%string.

Fixpoint to_uppercase (s : string) : string :=
  match s with
  | EmptyString => EmptyString
  | String a s1 =>
      let plain := String (ascii_upper a) (to_uppercase s1) in
      match s1 with
      | EmptyString => plain
      | String b s2 =>
          if byte_is a 196 && byte_is b 177 then String "I" (to_uppercase s2)
          else if byte_is a 197 && byte_is b 191 then String "S" (to_uppercase s2)
          else if byte_is a 195 && byte_is b 159 then "SS" +:+ to_uppercase s2
          else match s2 with
               | String c s3 =>
                   if byte_is a 239 && byte_is b 172 then
                     match ligature c with
                     | Some l => l +:+ to_uppercase s3
                     | None => plain
                     end
                   else plain
               | EmptyString => plain
               end
      end
  end.

(** ** UTF-8: [str::from_utf8] and [String::from_utf8] *)
Definition in_bytes (lo hi : nat) (a : ascii) : bool := (lo <=? nat_of_ascii a)%nat && (nat_of_ascii a <=? hi)%nat.
Definition continuation : ascii -> bool := in_bytes 128 191.
(** The well-formed sequences, by their first byte. *)
Fixpoint utf8_valid (s : string) : bool :=
  match s with
  | EmptyString => true
  | String a s1 =>
      if in_bytes 0 127 a then utf8_valid s1 else
      match s1 with
      | EmptyString => false
      | String b s2 =>
          if in_bytes 194 223 a then continuation b && utf8_valid s2 else
          match s2 with
          | EmptyString => false
          | String c s3 =>
              if in_bytes 224 239 a then
                (if byte_is a 224 then in_bytes 160 191 b
                 else if byte_is a 237 then in_bytes 128 159 b else continuation b)
                && continuation c && utf8_valid s3
              else
                match s3 with
                | EmptyString => false
                | String d s4 =>
                    in_bytes 240 244 a
                    && (if byte_is a 240 then in_bytes 144 191 b
                        else if byte_is a 244 then in_bytes 128 143 b else continuation b)
                    && continuation c && continuation d && utf8_valid s4
                end
          end
      end
  end.
Definition from_utf8 (bytes : string) : option string := if utf8_valid bytes then Some bytes else None.

Lemma utf8_app s t : utf8_valid s = true -> utf8_valid t = true -> utf8_valid (s +:+ t) = true.
Proof.
  intros Hs Ht. remember (String.length s) as n eqn:En. revert s En Hs.
  induction (lt_wf n) as [n _ IH]. intros s -> Hs.
  destruct s as [|a s1]; [done|]. rewrite append_cons. cbn [utf8_valid] in Hs |- *.
  destruct (in_bytes 0 127 a); [eapply IH; [|done|done]; cbn; lia|].
  destruct s1 as [|b s2]; [done|]. rewrite append_cons. cbn [utf8_valid].
  destruct (in_bytes 194 223 a).
  { apply andb_true_iff in Hs as [-> Hs]. eapply IH; [|done|done]. cbn; lia. }
  destruct s2 as [|c s3]; [done|]. rewrite append_cons.
  destruct (in_bytes 224 239 a).
  { apply andb_true_iff in Hs as [-> Hs]. eapply IH; [|done|done]. cbn; lia. }
  destruct s3 as [|d s4]; [done|]. rewrite append_cons.
  apply andb_true_iff in Hs as [-> Hs]. eapply IH; [|done|done]. cbn; lia.
Qed.

(** ** Splitting: [s.split(c)] for a character *)
Fixpoint split_char (c : ascii) (s : string) : list string :=
  match s with
  | EmptyString => [""]
  | String a s' =>
      if Ascii.eqb a c then "" :: split_char c s'
      else match split_char c s' with
           | w :: ws => String a w :: ws
           | [] => [String a ""]
           end
  end.
(** Up to the first [c], which is left out, as is what follows. *)
Fixpoint take_until (c : ascii) (s : string) : string :=
  match s with
  | EmptyString => EmptyString
  | String a s' => if Ascii.eqb a c then EmptyString else String a (take_until c s')
  end.
Fixpoint filter_chars (p : ascii -> bool) (s : string) : string :=
  match s with
  | EmptyString => EmptyString
  | String a s' => if p a then String a (filter_chars p s') else filter_chars p s'
  end.

(** ** Round trips *)
Lemma parse_pos_uint max d : forall acc : positive,
  Z.of_N (N.pos (Pos.of_uint_acc d acc)) <= max ->
  parse_pos max (Z.pos acc) (NilEmpty.string_of_uint d) = Ok (Z.pos (Pos.of_uint_acc d acc)).
Proof.
  assert (mono : forall d (a b : positive), (a <= b)%positive ->
            (a <= Pos.of_uint_acc d b)%positive).
  { induction d0; intros a b Hab; cbn [Pos.of_uint_acc]; [exact Hab|..]; apply IHd0; lia. }
  induction d; intros acc Hmax; cbn [Pos.of_uint_acc NilEmpty.string_of_uint parse_pos] in *;
    [done|..].
  all: match goal with |- context [Pos.of_uint_acc ?d0 ?b] =>
         pose proof (mono d0 b b ltac:(lia)); cbn [to_digit];
         replace (to_digit _) with (Some (Z.pos b - 10 * Z.pos acc)) by
           (vm_compute to_digit; f_equal; lia);
         rewrite (proj2 (Z.leb_le _ _)) by lia;
         replace (Z.pos acc * 10 + (Z.pos b - 10 * Z.pos acc)) with (Z.pos b) by lia
       end; by apply IHd.
Qed.

Lemma parse_pos_uint0 max d :
  Z.of_N (N.of_uint d) <= max ->
  parse_pos max 0 (NilEmpty.string_of_uint d) = Ok (Z.of_N (N.of_uint d)).
Proof.
  unfold N.of_uint.
  assert (mono : forall d (b : positive), (b <= Pos.of_uint_acc d b)%positive).
  { assert (mono : forall d (a b : positive), (a <= b)%positive ->
              (a <= Pos.of_uint_acc d b)%positive).
    { induction d0; intros a b Hab; cbn [Pos.of_uint_acc]; [exact Hab|..]; apply IHd0; lia. }
    intros d0 b. apply mono. lia. }
  induction d; intros Hmax;
    cbn [Pos.of_uint NilEmpty.string_of_uint parse_pos] in *; [done|..].
  { change (to_digit _) with (Some 0). cbn -[Z.leb]. destruct max; [by apply IHd..|].
    pose proof (N2Z.is_nonneg (Pos.of_uint d)). lia. }
  all: match goal with |- context [Pos.of_uint_acc ?d0 ?b] =>
         pose proof (mono d0 b);
         change (to_digit _) with (Some (Z.pos b)); cbn [Z.mul Z.add];
         rewrite (proj2 (Z.leb_le _ _)) by lia
       end; by apply parse_pos_uint.
Qed.

Lemma to_uint_head n :
  exists a s, NilZero.string_of_uint (N.to_uint n) = String a s
    /\ a <> "+"%char /\ a <> "-"%char
    /\ NilZero.string_of_uint (N.to_uint n) = NilEmpty.string_of_uint (N.to_uint n).
Proof.
  assert (Hn : N.to_uint n <> Decimal.Nil).
  { destruct n as [|p]; [done|]. cbn. intros E.
    pose proof (DecimalPos.Unsigned.to_uint_nonnil p). done. }
  destruct (N.to_uint n); [done|..]; cbn; eexists _, _; repeat split; done.
Qed.

(** What [to_string] prints, [parse] reads back. *)
Lemma parse_int_fmt min max n :
  0 <= n <= max -> parse_int min max (fmt_u64 n) = Ok n.
Proof.
  intros [H0 Hmax]. unfold fmt_u64.
  destruct (to_uint_head (Z.to_N n)) as (a & s & E & Hp & Hm & E').
  assert (P : parse_pos max 0 (NilZero.string_of_uint (N.to_uint (Z.to_N n))) = Ok n).
  { rewrite E', parse_pos_uint0; rewrite DecimalN.Unsigned.of_to, Z2N.id; done. }
  rewrite E in P |- *. rewrite <- P. unfold parse_int.
  destruct a as [[] [] [] [] [] [] [] []]; try reflexivity; done.
Qed.

Lemma parse_u64_fmt n : in_u64 n -> parse_u64 (fmt_u64 n) = Ok n.
Proof. intros Hn. apply parse_int_fmt. unfold u64_modulus. int_lia. Qed.
Lemma parse_i64_fmt_u64 n : 0 <= n <= i64_max -> parse_i64 (fmt_u64 n) = Ok n.
Proof. apply parse_int_fmt. Qed.
Lemma fmt_i64_pos n : 0 <= n -> fmt_i64 n = fmt_u64 n.
Proof. intros. unfold fmt_i64. by rewrite (proj2 (Z.ltb_ge _ _)). Qed.
Lemma parse_i64_fmt n : 0 <= n <= i64_max -> parse_i64 (fmt_i64 n) = Ok n.
Proof. intros. rewrite fmt_i64_pos; [by apply parse_int_fmt|lia]. Qed.

Lemma fmt_u64_inj m n : in_u64 m -> in_u64 n -> fmt_u64 m = fmt_u64 n -> m = n.
Proof. intros Hm Hn E. apply parse_u64_fmt in Hm, Hn. congruence. Qed.

Lemma fmt_inj m n : 0 <= m -> 0 <= n -> fmt_u64 m = fmt_u64 n -> m = n.
Proof.
  intros Hm Hn E. assert (E2 : parse_int 0 (Z.max m n) (fmt_u64 m) = parse_int 0 (Z.max m n) (fmt_u64 n)) by by rewrite E.
  rewrite !parse_int_fmt in E2 by lia. by injection E2.
Qed.

(** A parsed number fits its type. *)
Lemma parse_pos_range max s : forall acc n,
  0 <= acc <= max -> parse_pos max acc s = Ok n -> 0 <= n <= max.
Proof.
  induction s as [|a s IH]; cbn; intros acc n Hacc; [naive_solver|].
  unfold to_digit. destruct ((48 <=? _) && _) eqn:Ed; [|done].
  apply andb_true_iff in Ed as [E1%Z.leb_le E2%Z.leb_le].
  case_match eqn:E; [|done]. apply Z.leb_le in E. apply IH. lia.
Qed.

Lemma parse_int_unsigned_range max s n :
  0 <= max -> parse_int 0 max s = Ok n -> 0 <= n <= max.
Proof.
  intros Hmax. unfold parse_int.
  destruct s as [|[[] [] [] [] [] [] [] []] [|b s]]; cbn -[parse_pos]; try discriminate;
    apply parse_pos_range; lia.
Qed.

Lemma parse_u64_range s n : parse_u64 s = Ok n -> in_u64 n.
Proof. intros E%parse_int_unsigned_range; [|done]. unfold u64_modulus in *. int_lia. Qed.

Lemma eq_ignore_ascii_case_refl s : eq_ignore_ascii_case s s = true.
Proof. by apply bool_decide_eq_true. Qed.

#[export] Hint Resolve parse_u64_fmt parse_i64_fmt parse_i64_fmt_u64
  eq_ignore_ascii_case_refl : swap.

Example parse_u64_ex :
  parse_u64 "18446744073709551615" = Ok 18446744073709551615
  /\ parse_u64 "18446744073709551616" = Err parse_pos_overflow
  /\ parse_u64 "+7" = Ok 7 /\ parse_u64 "" = Err parse_empty /\ parse_u64 "-1" = Err parse_invalid
  /\ parse_i64 "-9223372036854775808" = Ok i64_min /\ to_uppercase "bitcoin" = "BITCOIN".
Proof. vm_compute. done. Qed.
