(* ===== verification/Effects.v ===== *)
(** * Effects: randomness, messages, RPC calls

    A computation that only draws random values ([M]) is a function of the
    entropy tape.  A computation that also talks to the peer, to the two nodes
    or to the clock is a finite tree of events ([prog]); [P] adds the Rust
    results.  [run] executes a tree against a scripted peer, [duet] executes
    the two parties of a protocol against each other. *)
From S2P Require Import Prelude.

(** ** Randomness: the entropy of the operating system *)
Record Tape := MkTape { tape_src : nat -> Z; tape_pos : nat }.

Definition M (A : Type) : Type := Tape -> Res A * Tape.

#[export] Instance M_ret : MRet M := fun _ a t => (Ok a, t).
#[export] Instance M_bind : MBind M := fun _ _ k m t =>
  match m t with
  | (Ok a, t') => k a t'
  | (Err e, t') => (Err e, t')
  | (Panic e, t') => (Panic e, t')
  end.

Definition draw : M Z := fun t => (Ok (tape_src t (tape_pos t)), MkTape (tape_src t) (S (tape_pos t))).
Definition liftM {A} (r : Res A) : M A := fun t => (r, t).
Definition errM {A} (e : string) : M A := liftM (Err e).
Definition unwrapM {A} (m : M A) : M A := fun t => let '(r, t') := m t in (unwrap r, t').
Definition expectM {A} (msg : string) (m : M A) : M A :=
  fun t => let '(r, t') := m t in (expect msg r, t').

(** ** Events *)
Record WireRequest := MkWire {
  wire_url : string;
  wire_body : string;
  wire_auth : option (string * option string);
  wire_timeout : Z;
  wire_proxy : option string }.

(** What comes back from the network: no response, a response whose text cannot
    be read, or a status code and a text. *)
Inductive WireReply :=
| WireFail (e : string)
| WireBadText (e : string)
| WireText (status : Z) (content : string).

(** Opening a socket: to a peer, or to listen on. *)
Inductive SockAddr := ConnectTo (addr : string) | BindTo (addr : string).

Inductive prog (A : Type) : Type :=
| Ret (a : A)
| Local {X : Type} (m : M X) (k : Res X -> prog A)
| Send (m : string) (k : prog A)
| Recv (k : string -> prog A)
| Http (r : WireRequest) (k : WireReply -> prog A)
| Sleep (secs : Z) (k : prog A)
| Connect (addr : SockAddr) (k : bool -> prog A)
| Accept (k : prog A)
| Wait.
Arguments Ret {A} a.
Arguments Local {A X} m k.
Arguments Send {A} m k.
Arguments Recv {A} k.
Arguments Http {A} r k.
Arguments Sleep {A} secs k.
Arguments Connect {A} addr k.
Arguments Accept {A} k.
Arguments Wait {A}.

Fixpoint pbind {A B} (p : prog A) (k : A -> prog B) : prog B :=
  match p with
  | Ret a => k a
  | Local m f => Local m (fun r => pbind (f r) k)
  | Send m p' => Send m (pbind p' k)
  | Recv f => Recv (fun m => pbind (f m) k)
  | Http r f => Http r (fun x => pbind (f x) k)
  | Sleep s p' => Sleep s (pbind p' k)
  | Connect a f => Connect a (fun b => pbind (f b) k)
  | Accept p' => Accept (pbind p' k)
  | Wait => Wait
  end.

Definition P (A : Type) : Type := prog (Res A).

#[export] Instance P_ret : MRet P := fun _ a => Ret (Ok a).
#[export] Instance P_bind : MBind P := fun A B k p =>
  pbind p (fun r => match r with
                    | Ok a => k a
                    | Err e => Ret (Err e)
                    | Panic e => Ret (Panic e)
                    end).

Definition liftP {A} (r : Res A) : P A := Ret r.
Definition okP {A} (a : A) : P A := Ret (Ok a).
Definition errP {A} (e : string) : P A := Ret (Err e).
Definition local {A} (m : M A) : P A := Local m Ret.
Definition pmap {A B} (f : Res A -> Res B) (p : P A) : P B := pbind p (fun r => Ret (f r)).
Definition unwrapP {A} (p : P A) : P A := pmap unwrap p.

(** ** Worlds *)
Inductive Event :=
| EvSent (m : string)
| EvReceived (m : string)
| EvHttp (r : WireRequest)
| EvSlept (secs : Z)
| EvConnected (addr : SockAddr)
| EvAccepted.

(** A world: the entropy, the messages waiting on the current stream, those of
    the clients that will connect later, who can be reached, the nodes (whose
    answers may depend on everything done before) and the log, newest first. *)
Record World := MkWorld {
  w_tape : Tape;
  w_inbox : list string;
  w_clients : list (list string);
  w_reachable : SockAddr -> bool;
  w_nodes : list Event -> WireRequest -> WireReply;
  w_log : list Event }.

Definition set_tape (t : Tape) (w : World) : World :=
  MkWorld t (w_inbox w) (w_clients w) (w_reachable w) (w_nodes w) (w_log w).
Definition set_inbox (l : list string) (w : World) : World :=
  MkWorld (w_tape w) l (w_clients w) (w_reachable w) (w_nodes w) (w_log w).
Definition set_clients (l : list (list string)) (w : World) : World :=
  MkWorld (w_tape w) (w_inbox w) l (w_reachable w) (w_nodes w) (w_log w).
Definition log (e : Event) (w : World) : World :=
  MkWorld (w_tape w) (w_inbox w) (w_clients w) (w_reachable w) (w_nodes w) (e :: w_log w).
Definition answer (w : World) (r : WireRequest) : WireReply := w_nodes w (w_log w) r.

Inductive Outcome (A : Type) : Type :=
| Done (a : A)       (* the computation returned *)
| Blocked            (* it waits for input that does not come *)
| Disconnected       (* the peer is gone *)
| Clash.             (* both sides wrote where one had to acknowledge *)
Arguments Done {A} a.
Arguments Blocked {A}.
Arguments Disconnected {A}.
Arguments Clash {A}.

(** ** One party against a script *)
Fixpoint run {A} (p : prog A) (w : World) : Outcome A * World :=
  match p with
  | Ret a => (Done a, w)
  | Local m k => let '(r, t) := m (w_tape w) in run (k r) (set_tape t w)
  | Send m k => run k (log (EvSent m) w)
  | Recv k => match w_inbox w with
              | [] => (Blocked, w)
              | m :: ms => run (k m) (log (EvReceived m) (set_inbox ms w))
              end
  | Http r k => run (k (answer w r)) (log (EvHttp r) w)
  | Sleep s k => run k (log (EvSlept s) w)
  | Connect a k => if w_reachable w a then run (k true) (log (EvConnected a) w) else run (k false) w
  | Accept k => match w_clients w with
                | [] => (Blocked, w)
                | c :: cs => run k (log EvAccepted (set_clients cs (set_inbox c w)))
                end
  | Wait => (Blocked, w)
  end.

(** One party after the peer's process has ended. *)
Fixpoint finish {A} (p : prog A) (w : World) : Outcome A * World :=
  match p with
  | Ret a => (Done a, w)
  | Local m k => let '(r, t) := m (w_tape w) in finish (k r) (set_tape t w)
  | Send _ _ | Recv _ => (Disconnected, w)
  | Http r k => finish (k (answer w r)) (log (EvHttp r) w)
  | Sleep s k => finish k (log (EvSlept s) w)
  | Connect a k => finish (k true) (log (EvConnected a) w)
  | Accept k => finish k (log EvAccepted w)
  | Wait => (Blocked, w)
  end.

(** ** Two parties against each other

    Every message is acknowledged before the sender goes on, so a message is
    exchanged when one side sends and the other receives.  The local steps of
    the two sides commute; the left side is run first. *)
Section duet.
Context {A B : Type}.
Abbreviation result := ((Outcome A * World) * (Outcome B * World))%type.

Fixpoint duet (p : prog A) : prog B -> World -> World -> result :=
  match p with
  | Ret a => fun q wa wb => ((Done a, wa), finish q wb)
  | Local m k => fun q wa wb =>
      let '(r, t) := m (w_tape wa) in duet (k r) q (set_tape t wa) wb
  | Http r k => fun q wa wb => duet (k (answer wa r)) q (log (EvHttp r) wa) wb
  | Sleep s k => fun q wa wb => duet k q (log (EvSlept s) wa) wb
  | Connect a k => fun q wa wb => duet (k true) q (log (EvConnected a) wa) wb
  | Accept k => fun q wa wb => duet k q (log EvAccepted wa) wb
  | Wait => fun q wa wb => ((Blocked, wa), finish q wb)
  | Send m p' =>
      fix go (q : prog B) (wa wb : World) {struct q} : result :=
      match q with
      | Ret b => ((Disconnected, wa), (Done b, wb))
      | Local f k => let '(r, t) := f (w_tape wb) in go (k r) wa (set_tape t wb)
      | Http r k => go (k (answer wb r)) wa (log (EvHttp r) wb)
      | Sleep s k => go k wa (log (EvSlept s) wb)
      | Connect a k => go (k true) wa (log (EvConnected a) wb)
      | Accept k => go k wa (log EvAccepted wb)
      | Wait => ((Disconnected, wa), (Blocked, wb))
      | Send _ _ => ((Clash, wa), (Clash, wb))
      | Recv k => duet p' (k m) (log (EvSent m) wa) (log (EvReceived m) wb)
      end
  | Recv f =>
      fix go (q : prog B) (wa wb : World) {struct q} : result :=
      match q with
      | Ret b => ((Disconnected, wa), (Done b, wb))
      | Local g k => let '(r, t) := g (w_tape wb) in go (k r) wa (set_tape t wb)
      | Http r k => go (k (answer wb r)) wa (log (EvHttp r) wb)
      | Sleep s k => go k wa (log (EvSlept s) wb)
      | Connect a k => go (k true) wa (log (EvConnected a) wb)
      | Accept k => go k wa (log EvAccepted wb)
      | Wait => ((Disconnected, wa), (Blocked, wb))
      | Send m q' => duet (f m) q' (log (EvReceived m) wa) (log (EvSent m) wb)
      | Recv _ => ((Blocked, wa), (Blocked, wb))
      end
  end.
End duet.

(** ** Laws *)
Definition outcome_bind {A B} (x : Outcome A * World) (k : A -> World -> Outcome B * World) :
    Outcome B * World :=
  match x with
  | (Done a, w) => k a w
  | (Blocked, w) => (Blocked, w)
  | (Disconnected, w) => (Disconnected, w)
  | (Clash, w) => (Clash, w)
  end.

Lemma run_pbind {A B} (p : prog A) (k : A -> prog B) : forall w,
  run (pbind p k) w = outcome_bind (run p w) (fun a w' => run (k a) w').
Proof.
  induction p as [a|X m f IH|m p IH|f IH|r f IH|s p IH|a f IH|p IH|]; intros w; cbn; auto.
  - destruct (m (w_tape w)). apply IH.
  - destruct (w_inbox w); [done|apply IH].
  - case_match; apply IH.
  - destruct (w_clients w); [done|apply IH].
Qed.

Lemma finish_pbind {A B} (p : prog A) (k : A -> prog B) : forall w,
  finish (pbind p k) w = outcome_bind (finish p w) (fun a w' => finish (k a) w').
Proof.
  induction p as [a|X m f IH|m p IH|f IH|r f IH|s p IH|a f IH|p IH|]; intros w; cbn; auto.
  destruct (m (w_tape w)). apply IH.
Qed.

(** A step of either side that exchanges no message runs on its own. *)
Lemma duet_left {A A' B} (p : prog A) (k : A -> prog A') (q : prog B) a : forall wa wa' wb,
  finish p wa = (Done a, wa') -> duet (pbind p k) q wa wb = duet (k a) q wa' wb.
Proof.
  induction p as [a0|X m f IH|m p IH|f IH|r f IH|s p IH|a0 f IH|p IH|];
    intros wa wa' wb E; cbn in *; try discriminate; auto.
  - by injection E as -> ->.
  - destruct (m (w_tape wa)) as [r t]. by apply IH.
Qed.

Lemma duet_right {A B B'} (p : prog A) (q : prog B) (k : B -> prog B') b : forall wa wb wb',
  finish q wb = (Done b, wb') -> duet p (pbind q k) wa wb = duet p (k b) wa wb'.
Proof.
  induction p as [a0|X m f IH|m p IH|f IH|r f IH|s p IH|a0 f IH|p IH|]; intros wa wb wb' E.
  - cbn. f_equal. rewrite finish_pbind, E. done.
  - cbn. destruct (m (w_tape wa)). by apply IH.
  - clear IH. revert wb E. induction q as [b0|X n g IHq|n q IHq|g IHq|r g IHq|s q IHq|b0 g IHq|q IHq|];
      intros wb E; cbn in E; try discriminate; try (cbn; apply IHq; exact E).
    + by injection E as -> ->.
    + cbn. destruct (n (w_tape wb)). by apply IHq.
  - clear IH. revert wb E. induction q as [b0|X n g IHq|n q IHq|g IHq|r g IHq|s q IHq|b0 g IHq|q IHq|];
      intros wb E; cbn in E; try discriminate; try (cbn; apply IHq; exact E).
    + by injection E as -> ->.
    + cbn. destruct (n (w_tape wb)). by apply IHq.
  - cbn. by apply IH.
  - cbn. by apply IH.
  - cbn. by apply IH.
  - cbn. by apply IH.
  - cbn. f_equal. rewrite finish_pbind, E. done.
Qed.

(** Two conversations that both come to their end compose. *)
Lemma duet_pbind {A A' B B'} (p : prog A) (kp : A -> prog A') (kq : B -> prog B') a b :
  forall (q : prog B) wa wa' wb wb',
  duet p q wa wb = ((Done a, wa'), (Done b, wb')) ->
  duet (pbind p kp) (pbind q kq) wa wb = duet (kp a) (kq b) wa' wb'.
Proof.
  induction p as [a0|X m f IH|m p IH|f IH|r f IH|s p IH|a0 f IH|p IH|]; intros q wa wa' wb wb' E.
  - cbn in E. injection E as -> -> E. cbn. by apply duet_right.
  - cbn in *. destruct (m (w_tape wa)). by apply IH.
  - revert wb E. induction q as [b0|X n g IHq|n q IHq|g IHq|r g IHq|s q IHq|b0 g IHq|q IHq|];
      intros wb E; cbn in E; try discriminate; try (cbn; apply IHq; exact E).
    + cbn. destruct (n (w_tape wb)). by apply IHq.
    + cbn. by apply IH.
  - revert wb E. induction q as [b0|X n g IHq|n q IHq|g IHq|r g IHq|s q IHq|b0 g IHq|q IHq|];
      intros wb E; cbn in E; try discriminate; try (cbn; apply IHq; exact E).
    + cbn. destruct (n (w_tape wb)). by apply IHq.
    + cbn. by apply IH.
  - cbn in *. by apply IH.
  - cbn in *. by apply IH.
  - cbn in *. by apply IH.
  - cbn in *. by apply IH.
  - cbn in E. discriminate.
Qed.

Lemma duet_send_recv {A B} m (p : prog A) (k : string -> prog B) wa wb :
  duet (Send m p) (Recv k) wa wb = duet p (k m) (log (EvSent m) wa) (log (EvReceived m) wb).
Proof. reflexivity. Qed.
Lemma duet_recv_send {A B} m (k : string -> prog A) (q : prog B) wa wb :
  duet (Recv k) (Send m q) wa wb = duet (k m) q (log (EvReceived m) wa) (log (EvSent m) wb).
Proof. reflexivity. Qed.

(** ** The same for computations that return Rust results *)
Lemma finish_local {A} (m : M A) w r t :
  m (w_tape w) = (r, t) -> finish (local m) w = (Done r, set_tape t w).
Proof. intros E. cbn. by rewrite E. Qed.

Lemma duet_left_ok {A A' B} (p : P A) (k : A -> P A') (q : prog B) a wa wa' wb :
  finish p wa = (Done (Ok a), wa') -> duet (p ≫= k) q wa wb = duet (k a) q wa' wb.
Proof. intros E. exact (duet_left p _ q (Ok a) wa wa' wb E). Qed.
Lemma duet_right_ok {A B B'} (p : prog A) (q : P B) (k : B -> P B') b wa wb wb' :
  finish q wb = (Done (Ok b), wb') -> duet p (q ≫= k) wa wb = duet p (k b) wa wb'.
Proof. intros E. exact (duet_right p q _ (Ok b) wa wb wb' E). Qed.
Lemma duet_bind_ok {A A' B B'} (p : P A) (kp : A -> P A') (q : P B) (kq : B -> P B') a b
    wa wa' wb wb' :
  duet p q wa wb = ((Done (Ok a), wa'), (Done (Ok b), wb')) ->
  duet (p ≫= kp) (q ≫= kq) wa wb = duet (kp a) (kq b) wa' wb'.
Proof. intros E. exact (duet_pbind p _ _ (Ok a) (Ok b) q wa wa' wb wb' E). Qed.

Lemma M_bind_ok {A B} (m : M A) (k : A -> M B) t a t' :
  m t = (Ok a, t') -> (m ≫= k) t = k a t'.
Proof. intros E. unfold mbind, M_bind. by rewrite E. Qed.
Lemma set_tape_same w : set_tape (w_tape w) w = w.
Proof. by destruct w. Qed.

(** ** Taking a successful computation apart *)
Lemma M_bind_Ok {A B} (m : M A) (k : A -> M B) t b t' :
  (m ≫= k) t = (Ok b, t') <-> exists a t1, m t = (Ok a, t1) /\ k a t1 = (Ok b, t').
Proof.
  unfold mbind, M_bind. destruct (m t) as [[a|e|e] t1].
  - split; [eauto|]. by intros (a' & t2 & [= -> ->] & E).
  - split; [done|]. by intros (? & ? & ? & ?).
  - split; [done|]. by intros (? & ? & ? & ?).
Qed.
Lemma liftM_Ok {A} (r : Res A) t a t' : liftM r t = (Ok a, t') <-> r = Ok a /\ t' = t.
Proof. unfold liftM. split; [by intros [= -> ->]|by intros [-> ->]]. Qed.
Lemma mretM_Ok {A} (a b : A) t t' : @mret M _ A a t = (Ok b, t') <-> b = a /\ t' = t.
Proof. unfold mret, M_ret. split; [by intros [= -> ->]|by intros [-> ->]]. Qed.
Lemma draw_Ok t z t' :
  draw t = (Ok z, t') <-> z = tape_src t (tape_pos t) /\ t' = MkTape (tape_src t) (S (tape_pos t)).
Proof. unfold draw. split; [by intros [= <- <-]|by intros [-> ->]]. Qed.
Lemma unwrapM_Ok {A} (m : M A) t a t' : unwrapM m t = (Ok a, t') <-> m t = (Ok a, t').
Proof.
  unfold unwrapM. destruct (m t) as [[x|e|e] t1]; cbn; split; intros E; by simplify_eq.
Qed.
Lemma expectM_Ok {A} msg (m : M A) t a t' : expectM msg m t = (Ok a, t') <-> m t = (Ok a, t').
Proof.
  unfold expectM. destruct (m t) as [[x|e|e] t1]; cbn; split; intros E; by simplify_eq.
Qed.

(** [m_inv] takes apart the hypotheses that say a computation of [M] or of [Res]
    succeeded. *)
Ltac m_inv_step :=
  match goal with
  | H : mbind _ _ _ = (Ok _, _) |- _ => apply M_bind_Ok in H as (? & ? & ? & H)
  | H : liftM _ _ = (Ok _, _) |- _ => apply liftM_Ok in H as [H ->]
  | H : errM _ _ = (Ok _, _) |- _ => discriminate H
  | H : mret _ _ = (Ok _, _) |- _ => apply mretM_Ok in H as [H ->]
  | H : draw _ = (Ok _, _) |- _ => apply draw_Ok in H as [-> ->]
  | H : unwrapM _ _ = (Ok _, _) |- _ => apply (proj1 (unwrapM_Ok _ _ _ _)) in H
  | H : expectM _ _ _ = (Ok _, _) |- _ => apply (proj1 (expectM_Ok _ _ _ _ _)) in H
  end.
Ltac m_inv := repeat first [m_inv_step | res_inv_step]; simplify_eq/=.

(** ** What every way out of a program satisfies *)
Fixpoint ensures {A} (Q : A -> Prop) (p : prog A) : Prop :=
  match p with
  | Ret a => Q a
  | Local m k => forall t, ensures Q (k (m t).1)
  | Send _ k | Sleep _ k | Accept k => ensures Q k
  | Recv k => forall m, ensures Q (k m)
  | Http _ k => forall x, ensures Q (k x)
  | Connect _ k => forall b, ensures Q (k b)
  | Wait => True
  end.

Lemma ensures_pbind {A B} (R : A -> Prop) (Q : B -> Prop) (p : prog A) (k : A -> prog B) :
  ensures R p -> (forall a, R a -> ensures Q (k a)) -> ensures Q (pbind p k).
Proof. intros Hp Hk. induction p; cbn in *; auto. Qed.

Lemma ensures_mono {A} (R Q : A -> Prop) (p : prog A) :
  ensures R p -> (forall a, R a -> Q a) -> ensures Q p.
Proof. intros Hp Hi. induction p; cbn in *; auto. Qed.

Lemma ensures_True {A} (p : prog A) : ensures (fun _ => True) p.
Proof. induction p; cbn; auto. Qed.

Lemma ensures_run {A} (Q : A -> Prop) (p : prog A) : forall w a w',
  ensures Q p -> run p w = (Done a, w') -> Q a.
Proof.
  induction p as [a|X m f IH|m p IH|f IH|r f IH|s p IH|a f IH|p IH|]; intros w b w' Hp E; cbn in *.
  - congruence.
  - destruct (m (w_tape w)) as [r t] eqn:Em. eapply IH; [|exact E]. specialize (Hp (w_tape w)).
    by rewrite Em in Hp.
  - by eapply IH.
  - destruct (w_inbox w); [done|]. by eapply IH.
  - by eapply IH.
  - by eapply IH.
  - case_match; by eapply IH.
  - destruct (w_clients w); [done|]. by eapply IH.
  - done.
Qed.

Lemma ensures_finish {A} (Q : A -> Prop) (p : prog A) : forall w a w',
  ensures Q p -> finish p w = (Done a, w') -> Q a.
Proof.
  induction p as [a|X m f IH|m p IH|f IH|r f IH|s p IH|a f IH|p IH|]; intros w b w' Hp E; cbn in *;
    try done; try (by eapply IH).
  - congruence.
  - destruct (m (w_tape w)) as [r t] eqn:Em. eapply IH; [|exact E]. specialize (Hp (w_tape w)).
    by rewrite Em in Hp.
Qed.

(** In a conversation both sides keep what they ensure. *)
Lemma ensures_duet {A B} (Q : A -> Prop) (R : B -> Prop) (p : prog A) : forall (q : prog B) wa wb a b wa' wb',
  ensures Q p -> ensures R q -> duet p q wa wb = ((Done a, wa'), (Done b, wb')) -> Q a /\ R b.
Proof.
  induction p as [a0|X m f IH|m p IH|f IH|r f IH|s p IH|a0 f IH|p IH|];
    intros q wa wb a b wa' wb' Hp Hq E.
  - cbn in E. destruct (finish q wb) as [[b0| | |] w] eqn:Eq; simplify_eq.
    split; [done|]. by eapply ensures_finish.
  - cbn in E. destruct (m (w_tape wa)) as [r t] eqn:Em. eapply IH; [|done|exact E].
    specialize (Hp (w_tape wa)). by rewrite Em in Hp.
  - revert wb E. induction q as [b0|Y n g IHq|n q IHq|g IHq|r g IHq|s q IHq|b0 g IHq|q IHq|];
      intros wb E; cbn in E; try done; try (by eapply IHq).
    + destruct (n (w_tape wb)) as [r t] eqn:En. eapply IHq; [|exact E].
      specialize (Hq (w_tape wb)). by rewrite En in Hq.
    + eapply IH; [..|exact E]; auto.
  - revert wb E. induction q as [b0|Y n g IHq|n q IHq|g IHq|r g IHq|s q IHq|b0 g IHq|q IHq|];
      intros wb E; cbn in E; try done; try (by eapply IHq).
    + destruct (n (w_tape wb)) as [r t] eqn:En. eapply IHq; [|exact E].
      specialize (Hq (w_tape wb)). by rewrite En in Hq.
    + eapply IH; [..|exact E]; auto.
  - by eapply IH.
  - by eapply IH.
  - by eapply IH.
  - by eapply IH.
  - cbn in E. done.
Qed.

(** ** Programs that exchange no message and do not wait *)
Fixpoint quiet {A} (p : prog A) : Prop :=
  match p with
  | Ret _ => True
  | Local m k => forall t, quiet (k (m t).1)
  | Send _ _ | Recv _ | Wait => False
  | Http _ k => forall x, quiet (k x)
  | Sleep _ k | Accept k => quiet k
  | Connect _ k => forall b, quiet (k b)
  end.

Lemma quiet_pbind {A B} (p : prog A) (k : A -> prog B) :
  quiet p -> (forall a, quiet (k a)) -> quiet (pbind p k).
Proof. intros Hp Hk. induction p; cbn in *; try done; auto. Qed.

Lemma quiet_finish {A} (p : prog A) : forall w,
  quiet p -> exists a w', finish p w = (Done a, w').
Proof.
  induction p as [a|X m f IH|m p IH|f IH|r f IH|s p IH|a f IH|p IH|]; intros w Hp; cbn in *;
    try done; eauto.
  destruct (m (w_tape w)) as [r t] eqn:Em. apply IH. specialize (Hp (w_tape w)).
  by rewrite Em in Hp.
Qed.

Lemma quiet_bind {A B} (p : P A) (k : A -> P B) :
  quiet p -> (forall a, quiet (k a)) -> quiet (p ≫= k).
Proof. intros Hp Hk. apply quiet_pbind; [done|]. intros [a|e|e]; cbn; auto. Qed.
Lemma quiet_pmap {A B} (f : Res A -> Res B) (p : P A) : quiet p -> quiet (pmap f p).
Proof. intros Hp. apply quiet_pbind; [done|]. done. Qed.
Lemma quiet_local {A} (m : M A) : quiet (local m).
Proof. done. Qed.
#[export] Hint Resolve quiet_bind quiet_pmap quiet_local : swap.

(** The clients that wait never become more. *)
Lemma run_clients {A} (p : prog A) : forall w o w',
  run p w = (o, w') -> (length (w_clients w') <= length (w_clients w))%nat.
Proof.
  induction p as [a|X m f IH|m p IH|f IH|r f IH|s p IH|a f IH|p IH|]; intros w o w' E; cbn in E.
  - by injection E as _ <-.
  - destruct (m (w_tape w)). by apply IH in E.
  - by apply IH in E.
  - destruct (w_inbox w); [by injection E as _ <-|]. by apply IH in E.
  - by apply IH in E.
  - by apply IH in E.
  - case_match; by apply IH in E.
  - destruct (w_clients w) as [|c cs] eqn:Ec; [injection E as _ <-; by rewrite Ec|].
    apply IH in E. cbn in *. lia.
  - by injection E as _ <-.
Qed.

(** ** Taking a conversation that succeeded on both sides apart *)
Lemma duet_quiet_left {A A' B} (p : prog A) (k : A -> prog A') (q : prog B) wa wb :
  quiet p -> exists a w1, finish p wa = (Done a, w1) /\ duet (pbind p k) q wa wb = duet (k a) q w1 wb.
Proof.
  intros Hq. destruct (quiet_finish p wa Hq) as (a & w1 & E). exists a, w1. split; [done|].
  by apply duet_left.
Qed.
Lemma duet_quiet_right {A B B'} (p : prog A) (q : prog B) (k : B -> prog B') wa wb :
  quiet q -> exists b w1, finish q wb = (Done b, w1) /\ duet p (pbind q k) wa wb = duet p (k b) wa w1.
Proof.
  intros Hq. destruct (quiet_finish q wb Hq) as (b & w1 & E). exists b, w1. split; [done|].
  by apply duet_right.
Qed.

Lemma duet_inv_left {A A' B} (p : P A) (k : A -> P A') (q : P B) wa wb a wa' b wb' :
  quiet p -> duet (p ≫= k) q wa wb = ((Done (Ok a), wa'), (Done (Ok b), wb')) ->
  exists y w1, finish p wa = (Done (Ok y), w1)
    /\ duet (k y) q w1 wb = ((Done (Ok a), wa'), (Done (Ok b), wb')).
Proof.
  intros Hq E. unfold mbind, P_bind in E.
  destruct (duet_quiet_left p (fun r => match r with Ok a => k a | Err e => Ret (Err e)
    | Panic e => Ret (Panic e) end) q wa wb Hq) as (r & w1 & Ef & Ed).
  rewrite Ed in E. destruct r as [y|e|e]; [eauto|..];
    cbn in E; destruct (finish q wb) as [[]]; simplify_eq.
Qed.

Lemma duet_inv_right {A B B'} (p : P A) (q : P B) (k : B -> P B') wa wb a wa' b wb' :
  quiet q -> duet p (q ≫= k) wa wb = ((Done (Ok a), wa'), (Done (Ok b), wb')) ->
  exists y w1, finish q wb = (Done (Ok y), w1)
    /\ duet p (k y) wa w1 = ((Done (Ok a), wa'), (Done (Ok b), wb')).
Proof.
  intros Hq E. unfold mbind, P_bind in E.
  destruct (duet_quiet_right p q (fun r => match r with Ok a => k a | Err e => Ret (Err e)
    | Panic e => Ret (Panic e) end) wa wb Hq) as (r & w1 & Ef & Ed).
  rewrite Ed in E. destruct r as [y|e|e]; [eauto|..];
    eapply (ensures_duet (fun _ => True) (fun r => is_ok r = false)) in E as [_ E];
    try done; apply ensures_True.
Qed.

Lemma finish_local_Ok {A} (m : M A) w a w' :
  finish (local m) w = (Done (Ok a), w') -> m (w_tape w) = (Ok a, w_tape w') /\ w' = set_tape (w_tape w') w.
Proof. cbn. destruct (m (w_tape w)) as [r t]. intros [= -> <-]. done. Qed.
Lemma finish_lift_Ok {A} (r : Res A) w a w' :
  finish (liftP r) w = (Done (Ok a), w') -> r = Ok a /\ w' = w.
Proof. cbn. by intros [= -> <-]. Qed.

(** A side that has written waits for the peer, who never listens. *)
Lemma duet_send_quiet {A B} m (p : prog A) (q : prog B) : forall wa wb o wa' b wb',
  quiet q -> duet (Send m p) q wa wb = ((o, wa'), (Done b, wb')) -> o = Disconnected.
Proof.
  induction q as [b0|Y n g IHq|n q IHq|g IHq|r g IHq|s q IHq|b0 g IHq|q IHq|];
    intros wa wb o wa' b wb' Hq E; cbn in *; try done; try (eapply IHq; [apply Hq|exact E]).
  - congruence.
  - destruct (n (w_tape wb)) as [r t] eqn:En. eapply IHq; [|exact E].
    specialize (Hq (w_tape wb)). by rewrite En in Hq.
Qed.
Lemma duet_recv_quiet {A B} (f : string -> prog A) (q : prog B) : forall wa wb o wa' b wb',
  quiet q -> duet (Recv f) q wa wb = ((o, wa'), (Done b, wb')) -> o = Disconnected.
Proof.
  induction q as [b0|Y n g IHq|n q IHq|g IHq|r g IHq|s q IHq|b0 g IHq|q IHq|];
    intros wa wb o wa' b wb' Hq E; cbn in *; try done; try (eapply IHq; [apply Hq|exact E]).
  - congruence.
  - destruct (n (w_tape wb)) as [r t] eqn:En. eapply IHq; [|exact E].
    specialize (Hq (w_tape wb)). by rewrite En in Hq.
Qed.
Lemma duet_quiet_both {A B} (p : prog A) : forall (q : prog B) wa wb,
  quiet p -> duet p q wa wb = (finish p wa, finish q wb).
Proof.
  induction p as [a|X m f IH|m p IH|f IH|r f IH|s p IH|a f IH|p IH|]; intros q wa wb Hp; cbn in *;
    try done; auto.
  destruct (m (w_tape wa)) as [r t] eqn:Em. apply IH. specialize (Hp (w_tape wa)).
  by rewrite Em in Hp.
Qed.

(** When neither side says anything more afterwards, a conversation that succeeded
    is one that came to its end, followed by what each does alone. *)
Lemma duet_split {A A' B B'} (p : prog A) (k : A -> prog A') : forall (q : prog B) (k' : B -> prog B')
    wa wb a wa' b wb',
  (forall x, quiet (k x)) -> (forall y, quiet (k' y)) ->
  duet (pbind p k) (pbind q k') wa wb = ((Done a, wa'), (Done b, wb')) ->
  exists x wa1 y wb1, duet p q wa wb = ((Done x, wa1), (Done y, wb1))
    /\ finish (k x) wa1 = (Done a, wa') /\ finish (k' y) wb1 = (Done b, wb').
Proof.
  induction p as [a0|X m f IH|m p IH|f IH|r f IH|s p IH|a0 f IH|p IH|];
    intros q k' wa wb a wa' b wb' Hk Hk' E.
  - cbn in E. rewrite duet_quiet_both, finish_pbind in E by apply Hk.
    cbn. destruct (finish q wb) as [[y| | |] w1]; cbn in E; [|done..].
    injection E as E1 E2. eauto 10.
  - cbn in *. destruct (m (w_tape wa)) as [r t]. eapply IH in E; eauto.
  - revert wb E. induction q as [b0|Y n g IHq|n q IHq|g IHq|r g IHq|s q IHq|b0 g IHq|q IHq|];
      intros wb E; try (cbn in E; done); try (cbn in *; by apply IHq).
    + cbn [pbind] in E. by apply duet_send_quiet in E.
    + cbn in *. destruct (n (w_tape wb)). by apply IHq.
    + cbn in *. by apply IH.
  - revert wb E. induction q as [b0|Y n g IHq|n q IHq|g IHq|r g IHq|s q IHq|b0 g IHq|q IHq|];
      intros wb E; try (cbn in E; done); try (cbn in *; by apply IHq).
    + cbn [pbind] in E. by apply duet_recv_quiet in E.
    + cbn in *. destruct (n (w_tape wb)). by apply IHq.
    + cbn in *. by apply IH.
  - cbn in *. by apply IH.
  - cbn in *. by apply IH.
  - cbn in *. by apply IH.
  - cbn in *. by apply IH.
  - cbn in E. done.
Qed.

(** The same inside a longer conversation: [K] is what follows, and it does not
    succeed when the part before it did not. *)
Lemma duet_assoc_left {A B C D} (p : prog A) (f : A -> prog B) (k : B -> prog C) :
  forall (q : prog D) wa wb,
  duet (pbind (pbind p f) k) q wa wb = duet (pbind p (fun x => pbind (f x) k)) q wa wb.
Proof.
  induction p as [a|X m g IH|m p IH|g IH|r g IH|s p IH|a g IH|p IH|]; intros q wa wb; cbn; auto.
  - destruct (m (w_tape wa)). apply IH.
  - revert wa wb. induction q as [b0|Y n h IHq|n q IHq|h IHq|r h IHq|s q IHq|b0 h IHq|q IHq|];
      intros wa wb; cbn; auto. destruct (n (w_tape wb)). apply IHq.
  - revert wa wb. induction q as [b0|Y n h IHq|n q IHq|h IHq|r h IHq|s q IHq|b0 h IHq|q IHq|];
      intros wa wb; cbn; auto. destruct (n (w_tape wb)). apply IHq.
Qed.

Lemma finish_assoc {A B C} (p : prog A) (f : A -> prog B) (k : B -> prog C) w :
  finish (pbind (pbind p f) k) w = finish (pbind p (fun x => pbind (f x) k)) w.
Proof.
  rewrite !finish_pbind. destruct (finish p w) as [[]]; cbn; try done. by rewrite finish_pbind.
Qed.

Lemma duet_assoc_right {A B C D} (p : prog D) (r : prog A) (f : A -> prog B) (k : B -> prog C) :
  forall wa wb,
  duet p (pbind (pbind r f) k) wa wb = duet p (pbind r (fun x => pbind (f x) k)) wa wb.
Proof.
  revert r. induction p as [a|X m g IH|m p IH|g IH|x g IH|s p IH|a g IH|p IH|]; intros r wa wb;
    try (cbn; rewrite finish_assoc; done); try (cbn; apply IH).
  - cbn. destruct (m (w_tape wa)). apply IH.
  - revert wa wb. induction r as [b0|Y n h IHq|n q IHq|h IHq|x h IHq|s q IHq|b0 h IHq|q IHq|];
      intros wa wb; try done; try (cbn; apply IHq).
    + cbn. destruct (n (w_tape wb)). apply IHq.
    + cbn. apply (IH (h m)).
  - revert wa wb. induction r as [b0|Y n h IHq|n q IHq|h IHq|x h IHq|s q IHq|b0 h IHq|q IHq|];
      intros wa wb; try done; try (cbn; apply IHq).
    + cbn. destruct (n (w_tape wb)). apply IHq.
    + cbn. apply (IH n q).
Qed.

Definition strict {Y C} (good : C -> Prop) (K : Res Y -> prog C) : Prop :=
  forall r, is_ok r = false -> ensures (fun c => ~ good c) (K r).

Lemma conv_inv_left {X Y C D} (good : C -> Prop) (p : P X) (f : X -> P Y) (K : Res Y -> prog C)
    (q : prog D) wa wb c wa' d wb' :
  strict good K -> quiet p -> good c ->
  duet (pbind (p ≫= f) K) q wa wb = ((Done c, wa'), (Done d, wb')) ->
  exists y w1, finish p wa = (Done (Ok y), w1)
    /\ duet (pbind (f y) K) q w1 wb = ((Done c, wa'), (Done d, wb')).
Proof.
  intros HK Hq Hc E. unfold mbind, P_bind in E. rewrite duet_assoc_left in E.
  match type of E with duet (pbind _ ?k) _ _ _ = _ =>
    destruct (duet_quiet_left p k q wa wb Hq) as (r & w1 & Ef & Ed) end.
  rewrite Ed in E. destruct r as [y|e|e]; [eauto|..];
    (apply (ensures_duet (fun c => ~ good c) (fun _ => True)) in E as [E _];
      [done|by apply HK|apply ensures_True]).
Qed.

Lemma conv_inv_right {X Y C D} (good : C -> Prop) (p : prog D) (q : P X) (f : X -> P Y)
    (K : Res Y -> prog C) wa wb c wa' d wb' :
  strict good K -> quiet q -> good c ->
  duet p (pbind (q ≫= f) K) wa wb = ((Done d, wa'), (Done c, wb')) ->
  exists y w1, finish q wb = (Done (Ok y), w1)
    /\ duet p (pbind (f y) K) wa w1 = ((Done d, wa'), (Done c, wb')).
Proof.
  intros HK Hq Hc E. unfold mbind, P_bind in E. rewrite duet_assoc_right in E.
  match type of E with duet _ (pbind _ ?k) _ _ = _ =>
    destruct (duet_quiet_right p q k wa wb Hq) as (r & w1 & Ef & Ed) end.
  rewrite Ed in E. destruct r as [y|e|e]; [eauto|..];
    (apply (ensures_duet (fun _ => True) (fun c => ~ good c)) in E as [_ E];
      [done|apply ensures_True|by apply HK]).
Qed.

Lemma strict_Ret {Y} : strict (fun r : Res Y => is_ok r = true) Ret.
Proof. intros r Hr. cbn. by rewrite Hr. Qed.

(** What was logged stays logged. *)
Lemma log_grows e w0 w : w_log w0 `suffix_of` w_log w -> w_log w0 `suffix_of` w_log (log e w).
Proof. intros Hs. cbn. by apply suffix_cons_r. Qed.

Lemma finish_grows {A} (p : prog A) : forall w o w',
  finish p w = (o, w') -> w_log w `suffix_of` w_log w'.
Proof.
  assert (Hc : forall e w w1, w_log (log e w) `suffix_of` w_log w1 -> w_log w `suffix_of` w_log w1).
  { intros e w w1 Hs. etransitivity; [|exact Hs]. by apply log_grows. }
  induction p as [a|X m f IH|m p IH|f IH|r f IH|s p IH|a f IH|p IH|]; intros w o w' E; cbn in E;
    try (by injection E as _ <-); try (eapply Hc, IH; exact E).
  destruct (m (w_tape w)) as [r t]. exact (IH _ _ _ _ E).
Qed.

Lemma duet_grows {A B} (p : prog A) : forall (q : prog B) wa wb o wa' o' wb',
  duet p q wa wb = ((o, wa'), (o', wb')) ->
  w_log wa `suffix_of` w_log wa' /\ w_log wb `suffix_of` w_log wb'.
Proof.
  assert (Hc : forall e w w1, w_log (log e w) `suffix_of` w_log w1 -> w_log w `suffix_of` w_log w1).
  { intros e w w1 Hs. etransitivity; [|exact Hs]. by apply log_grows. }
  induction p as [a0|X m f IH|m p IH|f IH|r f IH|s p IH|a0 f IH|p IH|];
    intros q wa wb o wa' o' wb' E.
  - cbn in E. injection E as _ <- E. split; [done|by eapply finish_grows].
  - cbn in E. destruct (m (w_tape wa)) as [r t]. exact (IH _ _ _ _ _ _ _ _ E).
  - revert wb E. induction q as [b0|Y n g IHq|n q IHq|g IHq|r g IHq|s q IHq|b0 g IHq|q IHq|];
      intros wb E; cbn in E; try (by injection E as _ <- _ <-); try (apply IHq in E as [? ?%Hc]; done).
    + destruct (n (w_tape wb)) as [r t]. exact (IHq _ _ E).
    + by apply IH in E as [?%Hc ?%Hc].
  - revert wb E. induction q as [b0|Y n g IHq|n q IHq|g IHq|r g IHq|s q IHq|b0 g IHq|q IHq|];
      intros wb E; cbn in E; try (by injection E as _ <- _ <-); try (apply IHq in E as [? ?%Hc]; done).
    + destruct (n (w_tape wb)) as [r t]. exact (IHq _ _ E).
    + by apply IH in E as [?%Hc ?%Hc].
  - cbn in E. by apply IH in E as [?%Hc ?].
  - cbn in E. by apply IH in E as [?%Hc ?].
  - cbn in E. by apply IH in E as [?%Hc ?].
  - cbn in E. by apply IH in E as [?%Hc ?].
  - cbn in E. injection E as _ <- E. split; [done|by eapply finish_grows].
Qed.

(** Which side comes first makes no difference to a conversation that succeeds. *)
Lemma duet_finish_left {A B} (p : prog A) (q : prog B) a : forall wa wa' wb,
  finish p wa = (Done a, wa') -> duet p q wa wb = ((Done a, wa'), finish q wb).
Proof.
  induction p as [a0|X m f IH|m p IH|f IH|r f IH|s p IH|a0 f IH|p IH|];
    intros wa wa' wb E; cbn in *; try discriminate; auto.
  - by injection E as -> ->.
  - destruct (m (w_tape wa)). by apply IH.
Qed.

Lemma duet_swap {A B} (p : prog A) : forall (q : prog B) wa wb a wa' b wb',
  duet p q wa wb = ((Done a, wa'), (Done b, wb')) ->
  duet q p wb wa = ((Done b, wb'), (Done a, wa')).
Proof.
  induction p as [a0|X m f IH|m p IH|f IH|r f IH|s p IH|a0 f IH|p IH|];
    intros q wa wb a wa' b wb' E.
  - cbn in E. injection E as -> -> E. rewrite (duet_finish_left _ _ b _ wb') by done. done.
  - cbn in E. destruct (m (w_tape wa)) as [r t] eqn:Em.
    transitivity (duet q (f r) wb (set_tape t wa)); [|by apply IH].
    apply (duet_right q (Local m Ret) f r). cbn. by rewrite Em.
  - revert wb E. induction q as [b0|Y n g IHq|n q IHq|g IHq|r g IHq|s q IHq|b0 g IHq|q IHq|];
      intros wb E; cbn in E; try done; try (cbn; by apply IHq); [|cbn; by apply IH].
    cbn. destruct (n (w_tape wb)). by apply IHq.
  - revert wb E. induction q as [b0|Y n g IHq|n q IHq|g IHq|r g IHq|s q IHq|b0 g IHq|q IHq|];
      intros wb E; cbn in E; try done; try (cbn; by apply IHq); [|cbn; by apply IH].
    cbn. destruct (n (w_tape wb)). by apply IHq.
  - etransitivity; [exact (duet_right q (Http r Ret) f _ wb wa _ eq_refl)|]. by apply IH.
  - etransitivity; [exact (duet_right q (Sleep s (Ret tt)) (fun _ => p) _ wb wa _ eq_refl)|]. by apply IH.
  - etransitivity; [exact (duet_right q (Connect a0 Ret) f _ wb wa _ eq_refl)|]. by apply IH.
  - etransitivity; [exact (duet_right q (Accept (Ret tt)) (fun _ => p) _ wb wa _ eq_refl)|]. by apply IH.
  - cbn in E. discriminate.
Qed.
