(* ===== verification/Tcp.v ===== *)
(** * src/net/tcp.rs: messages over a TCP stream

    Two views of the same four functions.  Module [Bytes] is the code as it is
    written: lines on a byte stream, a fresh [BufReader] for every read, an
    [ACK] line after every message.  [send_msg] and [receive_msg] at the end are
    the events of [Effects]; [wire_refines] is the simulation between the two. *)
From S2P Require Import Prelude.
From S2P Require Import RustStd.
From S2P Require Import Effects.
From Stdlib Require Import Ascii.

Definition newline : ascii := "010"%char.
Definition newline_s : string := String newline EmptyString.

Module Bytes.
(** What one [read] on the socket returns: some bytes (as many as have arrived),
    the end of the stream, or an error (an interrupted call is tried again by
    the standard library and is no entry).  When the list is used up the read
    blocks. *)
Inductive Arrival := Chunk (bytes : string) | Eof | ReadErr (e : string).

(** What one [write] returns: how many of the bytes it was given the socket
    took, or an error.  When the list is used up the write blocks. *)
Inductive Room := Took (n : nat) | WriteErr (e : string).

(** The socket: its reads, its writes, and the bytes it took so far. *)
Record Stream := mkStream { arrivals : list Arrival; room : list Room; written : string }.

Inductive IORes (A : Type) := IOk (a : A) | IOPanic (e : string) | IOBlocks.
Arguments IOk {A} a.
Arguments IOPanic {A} e.
Arguments IOBlocks {A}.

Definition IO (A : Type) : Type := Stream -> IORes A * Stream.
#[global] Instance IO_ret : MRet IO := fun _ a s => (IOk a, s).
#[global] Instance IO_bind : MBind IO := fun _ _ k m s =>
  match m s with
  | (IOk a, s') => k a s'
  | (IOPanic e, s') => (IOPanic e, s')
  | (IOBlocks, s') => (IOBlocks, s')
  end.

(** [BufRead::read_until]: the bytes up to and including the first newline. *)
Fixpoint upto_newline (s : string) : option string :=
  match s with
  | EmptyString => None
  | String a s' => if Ascii.eqb a newline then Some newline_s
                   else String a <$> upto_newline s'
  end.

(** The reader takes chunks until one holds a newline.  What follows the newline
    in that chunk stays in the reader's buffer, and is dropped with it. *)
Fixpoint read_until (l : list Arrival) (acc : string) : IORes (string + string) * list Arrival :=
  match l with
  | [] => (IOBlocks, [])
  | Chunk c :: l' => match upto_newline c with
                     | Some line => (IOk (inl (acc +:+ line)), l')
                     | None => read_until l' (acc +:+ c)
                     end
  | Eof :: l' => (IOk (inl acc), Eof :: l')
  | ReadErr e :: l' => (IOk (inr e), l')
  end.

(** [BufRead::read_line] on an empty [String]: the line's bytes, when they are
    UTF-8; the bytes of a line that is not are consumed all the same. *)
Definition read_line (l : list Arrival) : IORes (string + string) * list Arrival :=
  match read_until l "" with
  | (IOk (inl line), l') => (IOk (match from_utf8 line with
                                  | Some msg => inl msg
                                  | None => inr "stream did not contain valid UTF-8"
                                  end), l')
  | x => x
  end.

(** [str::is_char_boundary]: the two ends, and every byte that does not continue
    a character. *)
Definition is_char_boundary (s : string) (n : Z) : bool :=
  (n =? 0) || (n =? Z.of_nat (String.length s))
  || match String.get (Z.to_nat n) s with
     | Some c => negb (in_bytes 128 191 c)
     | None => false
     end.

(** [String::truncate]: nothing beyond the length, a panic inside a character. *)
Definition truncate (n : Z) (s : string) : Res string :=
  if Z.of_nat (String.length s) <? n then Ok s
  else if is_char_boundary s n then Ok (String.substring 0 (Z.to_nat n) s)
  else Panic "assertion failed: self.is_char_boundary(new_len)".

Definition io_panic {A} (e : string) : IO A := fun s => (IOPanic e, s).

(** [Write::write_all]: one [write] after the other until the bytes are gone. *)
Fixpoint write_all (l : list Room) (bytes taken : string)
    : IORes (unit + string) * list Room * string :=
  match bytes with
  | EmptyString => (IOk (inl tt), l, taken)
  | _ => match l with
         | [] => (IOBlocks, [], taken)
         | Took 0 :: l' => (IOk (inr "failed to write whole buffer"), l', taken)
         | Took n :: l' => write_all l' (String.substring n (String.length bytes - n) bytes)
                            (taken +:+ String.substring 0 n bytes)
         | WriteErr e :: l' => (IOk (inr e), l', taken)
         end
  end.

Definition put (bytes : string) : IO (unit + string) := fun s =>
  let '(r, l, taken) := write_all (room s) bytes (written s) in (r, mkStream (arrivals s) l taken).

Section code.
Context `{BuildProfile}.

(** [msg.truncate(len - 1)]: [len] is a [usize], taken to be 64 bits wide. *)
Definition read_from_stream : IO (string + string) := fun s =>
  match read_line (arrivals s) with
  | (IOk (inl msg), l) =>
      (match (n ← u64_sub (Z.of_nat (String.length msg)) 1; truncate n msg) with
       | Ok msg' => IOk (inl msg')
       | Err e | Panic e => IOPanic e
       end, mkStream l (room s) (written s))
  | (IOk (inr e), l) => (IOk (inr e), mkStream l (room s) (written s))
  | (IOPanic e, l) => (IOPanic e, mkStream l (room s) (written s))
  | (IOBlocks, l) => (IOBlocks, mkStream l (room s) (written s))
  end.

(** [writeln!(stream, "{}", msg)]: the message, then the newline; the first
    error ends it. *)
Definition write_to_stream (msg : string) : IO (unit + string) :=
  r ← put msg;
  match r with
  | inl _ => put newline_s
  | inr e => mret (inr e)
  end.

Definition io_unwrap {A} (x : A + string) : IO A := fun s =>
  match x with inl a => (IOk a, s) | inr e => (IOPanic e, s) end.

Definition send_msg (msg : string) : IO unit :=
  _ ← (x ← write_to_stream msg; io_unwrap x);
  r ← (x ← read_from_stream; io_unwrap x);
  if bool_decide (r = "ACK") then mret tt
  else io_panic "assertion failed: `(left == right)`".

Definition receive_msg : IO string :=
  msg ← (x ← read_from_stream; io_unwrap x);
  _ ← (x ← write_to_stream "ACK"; io_unwrap x);
  mret msg.
End code.

(** ** What a line-aligned arrival is *)
Fixpoint no_newline (s : string) : Prop :=
  match s with
  | EmptyString => True
  | String a s' => a <> newline /\ no_newline s'
  end.

(** The line [m] arrives in pieces, and its last piece ends with the newline:
    nothing of the next line has arrived by then. *)
Inductive line_arrives : string -> list Arrival -> Prop :=
| line_last m : no_newline m -> line_arrives m [Chunk (m +:+ newline_s)]
| line_piece m1 m2 l : no_newline m1 -> line_arrives m2 l ->
    line_arrives (m1 +:+ m2) (Chunk m1 :: l).

(** The socket takes [m], in as many pieces as it likes. *)
Inductive accepts : string -> list Room -> Prop :=
| accepts_all : accepts "" []
| accepts_piece n m1 m2 l : String.length m1 = S n -> accepts m2 l ->
    accepts (m1 +:+ m2) (Took (S n) :: l).

Lemma upto_newline_none m : no_newline m -> upto_newline m = None.
Proof.
  induction m as [|a m IH]; cbn -[Ascii.eqb newline]; [done|]. intros [Ha Hm].
  rewrite (proj2 (Ascii.eqb_neq _ _) Ha). by rewrite IH.
Qed.
Lemma upto_newline_line m rest :
  no_newline m -> upto_newline (m +:+ String newline rest) = Some (m +:+ newline_s).
Proof.
  induction m as [|a m IH]; [done|]. intros [Ha Hm]. rewrite !append_cons.
  cbn -[Ascii.eqb newline]. rewrite (proj2 (Ascii.eqb_neq _ _) Ha). by rewrite IH.
Qed.

Lemma read_until_line m l rest acc :
  line_arrives m l -> read_until (l ++ rest) acc = (IOk (inl (acc +:+ m +:+ newline_s)), rest).
Proof.
  intros Hl; revert acc. induction Hl as [m Hm|m1 m2 l Hm Hl IH]; intros acc; cbn.
  - by rewrite (upto_newline_line m "" Hm : upto_newline (m +:+ newline_s) = _).
  - rewrite upto_newline_none by done. rewrite IH. by rewrite !append_assoc.
Qed.

Lemma read_line_line m l rest :
  line_arrives m l -> utf8_valid m = true ->
  read_line (l ++ rest) = (IOk (inl (m +:+ newline_s)), rest).
Proof.
  intros Hl Hm. unfold read_line. rewrite (read_until_line m l rest "" Hl). unfold from_utf8.
  by rewrite (utf8_app m newline_s Hm eq_refl : utf8_valid ("" +:+ m +:+ newline_s) = true).
Qed.

Lemma truncate_line m :
  truncate (Z.of_nat (String.length (m +:+ newline_s)) - 1) (m +:+ newline_s) = Ok m.
Proof.
  assert (El : Z.of_nat (String.length (m +:+ newline_s)) - 1 = Z.of_nat (String.length m))
    by (rewrite length_append; cbn [String.length newline_s]; lia).
  unfold truncate. rewrite El, (proj2 (Z.ltb_ge _ _)) by (rewrite length_append; lia).
  unfold is_char_boundary, newline_s. rewrite Nat2Z.id, get_append_end, substring_prefix.
  by rewrite orb_true_r.
Qed.

Lemma write_all_took n l bytes taken :
  bytes <> "" ->
  write_all (Took (S n) :: l) bytes taken
  = write_all l (String.substring (S n) (String.length bytes - S n) bytes)
      (taken +:+ String.substring 0 (S n) bytes).
Proof. by destruct bytes. Qed.

Lemma write_all_accepts m l rest taken :
  accepts m l -> write_all (l ++ rest) m taken = (IOk (inl tt), rest, taken +:+ m).
Proof.
  intros Ha; revert taken. induction Ha as [|n m1 m2 l Hn Ha IH]; intros taken.
  - destruct rest; cbn; by rewrite append_nil_r.
  - cbn [app]. rewrite write_all_took by (by destruct m1). rewrite <- Hn, substring_prefix, length_append.
    replace (_ + _ - _)%nat with (String.length m2) by lia.
    rewrite substring_suffix, IH. by rewrite append_assoc.
Qed.

Lemma put_accepts m l rest arr out :
  accepts m l -> put m (mkStream arr (l ++ rest) out) = (IOk (inl tt), mkStream arr rest (out +:+ m)).
Proof. intros Ha. unfold put. cbn [room written arrivals]. by rewrite write_all_accepts. Qed.

(** The room a whole line takes. *)
Definition accepts_line (m : string) (l : list Room) : Prop :=
  exists l1 l2, l = l1 ++ l2 /\ accepts m l1 /\ accepts newline_s l2.

Lemma write_line m l rest arr out :
  accepts_line m l ->
  write_to_stream m (mkStream arr (l ++ rest) out)
  = (IOk (inl tt), mkStream arr rest (out +:+ m +:+ newline_s)).
Proof.
  intros (l1 & l2 & -> & H1 & H2). unfold write_to_stream, mbind, IO_bind.
  rewrite <- app_assoc, (put_accepts m) by done. cbn iota.
  rewrite (put_accepts newline_s) by done. by rewrite append_assoc.
Qed.

Section facts.
Context `{BuildProfile}.

(** A message that fits the address space is what [read_from_stream] returns. *)
Lemma read_from_stream_line m l rest rm out :
  line_arrives m l -> utf8_valid m = true -> in_u64 (Z.of_nat (String.length m) + 1) ->
  read_from_stream (mkStream (l ++ rest) rm out) = (IOk (inl m), mkStream rest rm out).
Proof.
  intros Hl Hm Hlen. unfold read_from_stream; cbn [arrivals written room].
  rewrite (read_line_line m l rest Hl Hm), u64_sub_ok.
  - cbn [mbind Res_bind]. by rewrite truncate_line.
  - rewrite length_append. cbn [String.length newline_s]. int_lia.
Qed.

Lemma receive_msg_line m l rest rm rest' out :
  line_arrives m l -> utf8_valid m = true -> in_u64 (Z.of_nat (String.length m) + 1) ->
  accepts_line "ACK" rm ->
  receive_msg (mkStream (l ++ rest) (rm ++ rest') out)
  = (IOk m, mkStream rest rest' (out +:+ "ACK" +:+ newline_s)).
Proof.
  intros Hl Hm Hlen Hr. unfold receive_msg, mbind, IO_bind.
  rewrite (read_from_stream_line m) by done. cbn [io_unwrap].
  by rewrite (write_line "ACK") by done.
Qed.

Lemma send_msg_line m l rest rm rest' out :
  line_arrives "ACK" l -> accepts_line m rm ->
  send_msg m (mkStream (l ++ rest) (rm ++ rest') out)
  = (IOk tt, mkStream rest rest' (out +:+ m +:+ newline_s)).
Proof.
  intros Hl Hr. unfold send_msg, mbind, IO_bind. rewrite write_line by done. cbn [io_unwrap].
  rewrite (read_from_stream_line "ACK"); done.
Qed.
End facts.
End Bytes.

(** ** The messages as events *)
Definition send_msg (msg : string) : P unit := Send msg (Ret (Ok tt)).
Definition receive_msg : P string := Recv (fun m => Ret (Ok m)).

(** The byte level of a whole computation: [run] with every message sent and
    received by the code of module [Bytes].  A panic of that code ends it.  One
    connection carries it: a second [accept] is not followed. *)
Section wire.
Context `{BuildProfile}.
Import Bytes.

Fixpoint run_wire {A} (p : prog A) (w : World) : Stream -> IORes A * World * Stream := fun s =>
  match p with
  | Ret a => (IOk a, w, s)
  | Local m k => let '(r, t) := m (w_tape w) in run_wire (k r) (set_tape t w) s
  | Send m k => match Bytes.send_msg m s with
                | (IOk _, s') => run_wire k (log (EvSent m) w) s'
                | (IOPanic e, s') => (IOPanic e, w, s')
                | (IOBlocks, s') => (IOBlocks, w, s')
                end
  | Recv k => match Bytes.receive_msg s with
              | (IOk m, s') => run_wire (k m) (log (EvReceived m) (set_inbox (tail (w_inbox w)) w)) s'
              | (IOPanic e, s') => (IOPanic e, w, s')
              | (IOBlocks, s') => (IOBlocks, w, s')
              end
  | Http r k => run_wire (k (answer w r)) (log (EvHttp r) w) s
  | Sleep t k => run_wire k (log (EvSlept t) w) s
  | Connect a k => if w_reachable w a then run_wire (k true) (log (EvConnected a) w) s
                   else run_wire (k false) w s
  | Accept _ | Wait => (IOBlocks, w, s)
  end.

(** A well-paced peer on a socket that works, for a run of [p]: the arrivals are
    an [ACK] line for every message this side sends and the line of every message
    it receives, in UTF-8 and each line on its own; the socket takes every line
    this side writes, in pieces of any size; and [bytes] are those lines. *)
Inductive paced {A} : prog A -> World -> list Arrival -> list Room -> string -> Prop :=
| paced_ret a w : paced (Ret a) w [] [] ""
| paced_local {X} (m : M X) k w r t l rm bytes : m (w_tape w) = (r, t) ->
    paced (k r) (set_tape t w) l rm bytes -> paced (Local m k) w l rm bytes
| paced_send m k w l1 l rm1 rm bytes : line_arrives "ACK" l1 -> accepts_line m rm1 ->
    paced k (log (EvSent m) w) l rm bytes ->
    paced (Send m k) w (l1 ++ l) (rm1 ++ rm) (m +:+ newline_s +:+ bytes)
| paced_recv k w m ms l1 l rm1 rm bytes : w_inbox w = m :: ms -> line_arrives m l1 ->
    utf8_valid m = true -> in_u64 (Z.of_nat (String.length m) + 1) -> accepts_line "ACK" rm1 ->
    paced (k m) (log (EvReceived m) (set_inbox ms w)) l rm bytes ->
    paced (Recv k) w (l1 ++ l) (rm1 ++ rm) ("ACK" +:+ newline_s +:+ bytes)
| paced_http r k w l rm bytes : paced (k (answer w r)) (log (EvHttp r) w) l rm bytes ->
    paced (Http r k) w l rm bytes
| paced_sleep t k w l rm bytes : paced k (log (EvSlept t) w) l rm bytes -> paced (Sleep t k) w l rm bytes
| paced_connect a k w l rm bytes : w_reachable w a = true ->
    paced (k true) (log (EvConnected a) w) l rm bytes -> paced (Connect a k) w l rm bytes.
End wire.

(** ** Properties *)

(** C40: Message-level runs are a sound abstraction of the byte stream when the
    peer is well paced and the socket works: the code that reads and writes
    lines returns the result of the message level, leaves the same world,
    consumes exactly the arrivals and writes exactly the lines of the messages
    sent and of the acknowledgements. *)
Theorem wire_refines `{BuildProfile} {A} (p : prog A) (w : World) l rm bytes rest rest' out :
  paced p w l rm bytes ->
  exists a w',
    run p w = (Done a, w')
    /\ run_wire p w (Bytes.mkStream (l ++ rest) (rm ++ rest') out)
       = (Bytes.IOk a, w', Bytes.mkStream rest rest' (out +:+ bytes)).
Proof.
  intros Hp. revert out.
  induction Hp as [a w|X m k w r t l rm bytes E Hp IH|m k w l1 l rm1 rm bytes Hl Hr Hp IH
                  |k w m ms l1 l rm1 rm bytes Hi Hl Hu Hlen Hr Hp IH
                  |r k w l rm bytes Hp IH|t k w l rm bytes Hp IH|a k w l rm bytes Hr Hp IH];
    intros out; cbn [run run_wire].
  - rewrite append_nil_r. by eexists _, _.
  - rewrite E. apply IH.
  - rewrite <- !app_assoc, Bytes.send_msg_line by done. destruct (IH (out +:+ m +:+ newline_s)) as (a & w' & E & E').
    exists a, w'. rewrite E, E'. by rewrite !append_assoc.
  - rewrite Hi, <- !app_assoc, (Bytes.receive_msg_line m) by done.
    destruct (IH (out +:+ "ACK" +:+ newline_s)) as (a & w' & E & E').
    exists a, w'. rewrite E. cbn [tail]. rewrite E'. by rewrite !append_assoc.
  - apply IH.
  - apply IH.
  - rewrite Hr. apply IH.
Qed.

(** A message that follows an acknowledgement closely is lost.  The reader of
    the acknowledgement buffers whatever has arrived, and the buffer is dropped:
    when the peer's next message is in the same read as its [ACK], [send_msg]
    succeeds, and the [receive_msg] after it waits for a message that was
    already read. *)
Theorem ack_coalesced_loses_message `{BuildProfile} (mine theirs : string) rm rest' out :
  Bytes.accepts_line mine rm ->
  (_ ← Bytes.send_msg mine; Bytes.receive_msg)
    (Bytes.mkStream [Bytes.Chunk ("ACK" +:+ newline_s +:+ theirs +:+ newline_s)] (rm ++ rest') out)
  = (Bytes.IOBlocks, Bytes.mkStream [] rest' (out +:+ mine +:+ newline_s)).
Proof.
  intros Hr. unfold mbind, Bytes.IO_bind, Bytes.send_msg, mbind, Bytes.IO_bind.
  rewrite Bytes.write_line by done. cbn [Bytes.io_unwrap].
  unfold Bytes.read_from_stream at 1, Bytes.read_line. cbn [Bytes.arrivals Bytes.room Bytes.written Bytes.read_until].
  assert (E : Bytes.upto_newline ("ACK" +:+ newline_s +:+ theirs +:+ newline_s) = Some ("ACK" +:+ newline_s)).
  { apply (Bytes.upto_newline_line "ACK" (theirs +:+ newline_s)). cbn. repeat split; done. }
  rewrite E. reflexivity.
Qed.

(** When the peer closes the stream, [receive_msg] aborts in a build with
    overflow checks ([len - 1] with [len = 0]), and in a build without them it
    delivers an empty message as if the peer had sent one. *)
Theorem receive_at_eof `{BuildProfile} l rm rest' out :
  Bytes.accepts_line "ACK" rm ->
  Bytes.receive_msg (Bytes.mkStream (Bytes.Eof :: l) (rm ++ rest') out) =
    if overflow_checks
    then (Bytes.IOPanic "attempt to subtract with overflow", Bytes.mkStream (Bytes.Eof :: l) (rm ++ rest') out)
    else (Bytes.IOk "", Bytes.mkStream (Bytes.Eof :: l) rest' (out +:+ "ACK" +:+ newline_s)).
Proof.
  intros Hr.
  assert (E : Bytes.read_from_stream (Bytes.mkStream (Bytes.Eof :: l) (rm ++ rest') out)
    = (if overflow_checks then Bytes.IOPanic "attempt to subtract with overflow" else Bytes.IOk (inl ""),
       Bytes.mkStream (Bytes.Eof :: l) (rm ++ rest') out)).
  { unfold Bytes.read_from_stream, Bytes.read_line, u64_sub, u64_result. by destruct overflow_checks. }
  unfold Bytes.receive_msg, mbind, Bytes.IO_bind. rewrite E. destruct overflow_checks; [done|].
  cbn [Bytes.io_unwrap]. by rewrite (Bytes.write_line "ACK") by done.
Qed.

(** When the peer closes the stream behind a line without its newline, the last
    byte is cut off as if it were the newline.  Inside a character of two bytes
    that aborts. *)
Theorem truncate_inside_character `{BuildProfile} rm out :
  Bytes.receive_msg (Bytes.mkStream [Bytes.Chunk (String "195" (String "169" "")); Bytes.Eof] rm out)
  = (Bytes.IOPanic "assertion failed: self.is_char_boundary(new_len)", Bytes.mkStream [Bytes.Eof] rm out).
Proof.
  unfold Bytes.receive_msg, mbind, Bytes.IO_bind, mbind, Bytes.IO_bind, Bytes.read_from_stream.
  cbn [Bytes.arrivals Bytes.room Bytes.written]. vm_compute (Bytes.read_line _). cbn iota.
  rewrite u64_sub_ok; [reflexivity|]. vm_compute. done.
Qed.

(** A line that is not UTF-8, and a write the socket refuses, end the exchange. *)
Theorem receive_not_utf8 `{BuildProfile} line rest rm out :
  Bytes.line_arrives line [Bytes.Chunk (line +:+ newline_s)] -> utf8_valid (line +:+ newline_s) = false ->
  Bytes.receive_msg (Bytes.mkStream (Bytes.Chunk (line +:+ newline_s) :: rest) rm out)
  = (Bytes.IOPanic "stream did not contain valid UTF-8", Bytes.mkStream rest rm out).
Proof.
  intros Hl Hu. unfold Bytes.receive_msg, mbind, Bytes.IO_bind, mbind, Bytes.IO_bind, Bytes.read_from_stream.
  cbn [Bytes.arrivals Bytes.room Bytes.written]. unfold Bytes.read_line, from_utf8.
  rewrite (Bytes.read_until_line line [_] rest "" Hl : Bytes.read_until (_ :: rest) "" = _).
  by rewrite (Hu : utf8_valid ("" +:+ _) = false).
Qed.
Theorem send_refused `{BuildProfile} c msg e l rm out :
  Bytes.send_msg (String c msg) (Bytes.mkStream l (Bytes.WriteErr e :: rm) out)
  = (Bytes.IOPanic e, Bytes.mkStream l rm out).
Proof. reflexivity. Qed.

Lemma finish_send m w : finish (send_msg m) w = (Disconnected, w).
Proof. reflexivity. Qed.

(** One exchange, from either side. *)
Lemma duet_send {A B} m (k : unit -> P A) (k' : string -> P B) wa wb :
  duet (send_msg m ≫= k) (receive_msg ≫= k') wa wb
  = duet (k tt) (k' m) (log (EvSent m) wa) (log (EvReceived m) wb).
Proof. reflexivity. Qed.
Lemma duet_receive {A B} m (k : string -> P A) (k' : unit -> P B) wa wb :
  duet (receive_msg ≫= k) (send_msg m ≫= k') wa wb
  = duet (k m) (k' tt) (log (EvReceived m) wa) (log (EvSent m) wb).
Proof. reflexivity. Qed.
