(* ===== verification/Crates.v ===== *)
(** * The third-party crates, as interfaces

    secp256k1-zkp, [grin_core], [grin_keychain] and [grin_util] (class
    [GrinCrates]), rust-bitcoin and its secp256k1 (class [BitcoinCrates]) and the
    [hex] crate (class [HexCrate]) are not part of the repository: their types
    and functions are parameters of everything below.  A value the code builds
    by naming its fields ([Input], [TxKernel], [TxIn], ...) is a record here, so
    that the construction is visible; bytes are strings.

    The classes [TxLaws], [KeyLaws], [AdaptorLaws], [HexLaws] and [BitcoinLaws]
    state the documented behaviour that theorems rely on, each where it is used;
    [Toy] has concrete instances of all of them. *)
From S2P Require Import Prelude.

(** ** Grin *)
Class GrinTypes := {
  SecretKey : Type;
  PublicKey : Type;
  Commitment : Type;
  RangeProof : Type;
  Signature : Type;
  BlindingFactor : Type;
  Message : Type;
  FeeFields : Type;
  NRDRelativeHeight : Type;
  Transaction : Type;
  Uuid : Type;
  DalekPublicKey : Type;
  DalekSignature : Type;
  Identifier : Type;
  BuildElem : Type;   (* Box<build::Append<K, B>> *)
  PublicKey_eq :: EqDecision PublicKey;
  Commitment_eq :: EqDecision Commitment;
  Signature_eq :: EqDecision Signature;
  BlindingFactor_eq :: EqDecision BlindingFactor;
}.

Section grin_data.
Context `{GrinTypes}.

Inductive OutputFeatures := OFPlain | OFCoinbase.

Record Input := mkInput { in_features : OutputFeatures; in_commit : Commitment }.
Record Output := mkOutput {
  out_features : OutputFeatures; out_commit : Commitment; out_proof : RangeProof }.

(** [Inputs]: with or without the features of the outputs they spend. *)
Inductive Inputs :=
| CommitOnly (l : list Commitment)
| FeaturesAndCommit (l : list Input).

Definition inputs_len (i : Inputs) : nat :=
  match i with CommitOnly l => length l | FeaturesAndCommit l => length l end.
Definition inputs_commits (i : Inputs) : list Commitment :=
  match i with CommitOnly l => l | FeaturesAndCommit l => in_commit <$> l end.

Inductive KernelFeatures :=
| KPlain (fee : FeeFields)
| KCoinbase
| KHeightLocked (fee : FeeFields) (lock_height : Z)
| KNoRecentDuplicate (fee : FeeFields) (relative_height : NRDRelativeHeight).

Record TxKernel := mkKernel {
  kern_features : KernelFeatures; kern_excess : Commitment; kern_sig : Signature }.

(** [BlindSum]: the calls made on the builder, in order. *)
Inductive BlindOp := AddBF (b : BlindingFactor) | SubBF (b : BlindingFactor).
Definition BlindSum : Type := list BlindOp.
End grin_data.

(** What [bullet_proof_multisig] returns: the proof (in the last step) and the
    new values of the arguments passed by reference. *)
Record MultisigOut `{GrinTypes} := mkMultisigOut {
  mo_proof : option RangeProof;
  mo_tau_x : option SecretKey;
  mo_t_1 : option PublicKey;
  mo_t_2 : option PublicKey }.

Class GrinCrates `{GT : GrinTypes} := {
  (* keys *)
  sk_new : Z -> SecretKey;
  ZERO_KEY : SecretKey;
  sk_from_slice : string -> option SecretKey;
  sk_bytes : SecretKey -> string;
  sk_add_assign : SecretKey -> SecretKey -> option SecretKey;
  sk_neg_assign : SecretKey -> option SecretKey;
  pk_new : PublicKey;
  pk_is_valid : PublicKey -> bool;
  pk_from_secret_key : SecretKey -> option PublicKey;
  pk_from_combination : list PublicKey -> Res PublicKey;
  pk_serialize_compressed : PublicKey -> string;
  pk_from_slice : string -> option PublicKey;
  (* commitments and range proofs *)
  secp_commit : Z -> SecretKey -> option Commitment;
  secp_commit_sum : list Commitment -> list Commitment -> option Commitment;
  commit_bytes : Commitment -> string;
  commit_from_vec : string -> Commitment;
  commit_from_pubkey : PublicKey -> Res Commitment;
  bullet_proof : Z -> SecretKey -> SecretKey -> SecretKey -> RangeProof;
  verify_bullet_proof : Commitment -> RangeProof -> bool;
  bullet_proof_multisig : Z -> SecretKey -> SecretKey -> option SecretKey ->
    option PublicKey -> option PublicKey -> list Commitment -> option SecretKey -> Z -> MultisigOut;
  (* signatures: [secp::aggsig] and [libtx::aggsig] *)
  sign_single : Message -> SecretKey -> option SecretKey -> option SecretKey ->
    option PublicKey -> option PublicKey -> option PublicKey -> option Signature;
  verify_single : Signature -> Message -> option PublicKey -> PublicKey ->
    option PublicKey -> option PublicKey -> bool -> bool;
  calculate_partial_sig : SecretKey -> SecretKey -> PublicKey -> option PublicKey -> Message ->
    Res Signature;
  verify_partial_sig : Signature -> PublicKey -> PublicKey -> option PublicKey -> Message -> Res unit;
  add_signatures : list Signature -> PublicKey -> Res Signature;
  verify_completed_sig : Signature -> PublicKey -> option PublicKey -> Message -> Res unit;
  sig_to_raw_data : Signature -> string;
  sig_from_raw_data : string -> option Signature;
  (* keychain *)
  bf_zero : BlindingFactor;
  bf_from_secret_key : SecretKey -> BlindingFactor;
  bf_secret_key : BlindingFactor -> option SecretKey;
  bf_split : BlindingFactor -> BlindingFactor -> option BlindingFactor;
  keychain_blind_sum : BlindSum -> Res BlindingFactor;
  keychain_derive_key : Z -> Identifier -> Res SecretKey;
  identifier_zero : Identifier;
  (* fees *)
  fee_new : Z -> Z -> option FeeFields;
  fee_fee : FeeFields -> Z -> Z;
  fee_zero : FeeFields;
  ff_is_zero : FeeFields -> bool;
  tx_fee : nat -> nat -> nat -> Z;
  YEAR_HEIGHT : Z;   (* consensus::YEAR_HEIGHT *)
  (* transactions *)
  tx_empty : Transaction;
  tx_new : Inputs -> list Output -> list TxKernel -> Transaction;
  tx_inputs : Transaction -> Inputs;
  tx_outputs : Transaction -> list Output;
  tx_kernels : Transaction -> list TxKernel;
  tx_offset : Transaction -> BlindingFactor;
  tx_set_offset : BlindingFactor -> Transaction -> Transaction;
  tx_with_output : Output -> Transaction -> Transaction;
  tx_with_kernel : TxKernel -> Transaction -> Transaction;
  tx_replace_kernel : TxKernel -> Transaction -> Transaction;
  tx_replace_inputs : Inputs -> Transaction -> Transaction;
  tx_replace_outputs : list Output -> Transaction -> Transaction;
  tx_fee_at : Transaction -> Z -> Z;
  tx_validate : Transaction -> Res unit;
  partial_transaction : Transaction -> list BuildElem -> Res (Transaction * BlindingFactor);
  amount_to_hr_string : Z -> bool -> string;
  inputs_from_slice : list Input -> Inputs;
  kernel_with_features : KernelFeatures -> TxKernel;
  kernel_verify : TxKernel -> Res unit;
  kernel_sig_msg : KernelFeatures -> Res Message;
  nrd_height_new : Z -> Res NRDRelativeHeight;
  uuid_new_v4 : Z -> Uuid;
}.

(** Documented behaviour of [grin_core]'s transaction builder.  [replace_*]
    replace, [with_output] inserts, [Transaction::new] sorts its arguments. *)
Class TxLaws `{GrinCrates} := {
  tx_inputs_replace_inputs i t : tx_inputs (tx_replace_inputs i t) = i;
  tx_outputs_replace_inputs i t : tx_outputs (tx_replace_inputs i t) = tx_outputs t;
  tx_kernels_replace_inputs i t : tx_kernels (tx_replace_inputs i t) = tx_kernels t;
  tx_offset_replace_inputs i t : tx_offset (tx_replace_inputs i t) = tx_offset t;
  tx_inputs_replace_outputs l t : tx_inputs (tx_replace_outputs l t) = tx_inputs t;
  tx_outputs_replace_outputs l t : tx_outputs (tx_replace_outputs l t) = l;
  tx_kernels_replace_outputs l t : tx_kernels (tx_replace_outputs l t) = tx_kernels t;
  tx_inputs_replace_kernel k t : tx_inputs (tx_replace_kernel k t) = tx_inputs t;
  tx_outputs_replace_kernel k t : tx_outputs (tx_replace_kernel k t) = tx_outputs t;
  tx_kernels_replace_kernel k t : tx_kernels (tx_replace_kernel k t) = [k];
  tx_offset_replace_kernel k t : tx_offset (tx_replace_kernel k t) = tx_offset t;
  tx_inputs_set_offset o t : tx_inputs (tx_set_offset o t) = tx_inputs t;
  tx_outputs_set_offset o t : tx_outputs (tx_set_offset o t) = tx_outputs t;
  tx_kernels_set_offset o t : tx_kernels (tx_set_offset o t) = tx_kernels t;
  tx_offset_set_offset o t : tx_offset (tx_set_offset o t) = o;
  tx_inputs_with_output o t : tx_inputs (tx_with_output o t) = tx_inputs t;
  tx_outputs_with_output o t : o ∉ tx_outputs t -> tx_outputs (tx_with_output o t) ≡ₚ o :: tx_outputs t;
  tx_kernels_with_output o t : tx_kernels (tx_with_output o t) = tx_kernels t;
  tx_offset_with_output o t : tx_offset (tx_with_output o t) = tx_offset t;
  tx_inputs_new i o k : inputs_commits (tx_inputs (tx_new i o k)) ≡ₚ inputs_commits i;
  tx_outputs_new i o k : tx_outputs (tx_new i o k) ≡ₚ o;
  tx_outputs_empty : tx_outputs tx_empty = [];
  tx_kernels_empty : tx_kernels tx_empty = [];
  tx_kernels_with_kernel k t : tx_kernels t = [] -> tx_kernels (tx_with_kernel k t) = [k];
  kern_features_with f : kern_features (kernel_with_features f) = f;
  inputs_from_slice_features l : inputs_from_slice l = FeaturesAndCommit l;
}.

(** Documented behaviour of keys and their encodings. *)
Class KeyLaws `{GrinCrates} := {
  pk_from_secret_key_valid sk pk : pk_from_secret_key sk = Some pk -> pk_is_valid pk = true;
  pk_from_combination_valid l pk : pk_from_combination l = Ok pk -> pk_is_valid pk = true;
  pk_from_serialized p : pk_is_valid p = true -> pk_from_slice (pk_serialize_compressed p) = Some p;
  sk_from_bytes k : k <> ZERO_KEY -> sk_from_slice (sk_bytes k) = Some k;
  commit_from_bytes c : commit_from_vec (commit_bytes c) = c;
  (* the sum of a key and its negation is zero, which is no valid key *)
  sk_add_neg k n : sk_neg_assign k = Some n -> sk_add_assign k n = None;
}.

(** Adaptor signatures (the fork of secp256k1-zkp this program uses): with the
    same key, nonce and sums, the signature made with the extra secret [x]
    differs from the plain one by [x] in its second half, the scalar [s]. *)
Definition sig_scalar `{GrinCrates} (sig : Signature) : option SecretKey :=
  let raw := sig_to_raw_data sig in
  sk_from_slice (String.substring 32 (String.length raw - 32) raw).

Class AdaptorLaws `{GrinCrates} :=
  adaptor_difference msg key nonce x pn pb fn sig apt s t u v :
    sign_single msg key (Some nonce) None pn pb fn = Some sig ->
    sign_single msg key (Some nonce) (Some x) pn pb fn = Some apt ->
    sig_scalar sig = Some s -> sig_scalar apt = Some t ->
    sk_neg_assign s = Some u -> sk_add_assign t u = Some v -> v = x.

(** ** Bitcoin *)
Class BitcoinTypes := {
  BSecretKey : Type;
  BPublicKey : Type;
  BSignature : Type;
  BMessage : Type;
  Script : Type;
  Txid : Type;
  Address : Type;
}.

Inductive Network := Bitcoin | Testnet.

(** The opcodes the code names. *)
Inductive Opcode :=
| OP_IF | OP_ELSE | OP_ENDIF | OP_CLTV | OP_DROP | OP_CHECKSIG | OP_CHECKMULTISIG
| OP_PUSHNUM_2 | OP_PUSHBYTES_0.

Section bitcoin_data.
Context `{BitcoinTypes}.

Record BPrivateKey := mkPrivateKey {
  key_compressed : bool; key_network : Network; key_key : BSecretKey }.

Record OutPoint := mkOutPoint { op_txid : Txid; op_vout : Z }.
Record TxIn := mkTxIn {
  txin_previous_output : OutPoint;
  txin_script_sig : Script;
  txin_sequence : Z;
  txin_witness : list string }.
Record TxOut := mkTxOut { txout_value : Z; txout_script_pubkey : Script }.
Record BTransaction := mkBTx {
  btx_version : Z; btx_lock_time : Z; btx_input : list TxIn; btx_output : list TxOut }.

(** [script::Builder]: the calls made on the builder, in order. *)
Inductive ScriptOp :=
| PushOpcode (o : Opcode)
| PushInt (n : Z)
| PushKey (k : BPublicKey)
| PushSlice (bytes : string).
End bitcoin_data.

Class BitcoinCrates `{BT : BitcoinTypes} := {
  bsk_new : Z -> BSecretKey;
  bsk_from_slice : string -> option BSecretKey;
  to_wif : BPrivateKey -> string;
  from_wif : string -> option BPrivateKey;
  private_key_bytes : BPrivateKey -> string;
  bpk_from_private_key : BPrivateKey -> BPublicKey;
  bpk_to_string : BPublicKey -> string;
  bpk_from_str : string -> option BPublicKey;
  bpk_bytes : BPublicKey -> string;
  txid_from_str : string -> option Txid;
  txid_to_string : Txid -> string;
  btx_txid : BTransaction -> Txid;
  script_empty : Script;
  into_script : list ScriptOp -> Script;
  new_p2sh_of : Script -> Script;          (* Script::new_p2sh(&s.script_hash()) *)
  new_p2pkh_of : BPublicKey -> Script;     (* Script::new_p2pkh(&pk.pubkey_hash()) *)
  script_to_bytes : Script -> string;
  script_from_bytes : string -> Script;
  signature_hash : BTransaction -> nat -> Script -> Z -> string;
  message_from_slice : string -> option BMessage;
  bsign : BMessage -> BSecretKey -> BSignature;
  serialize_der : BSignature -> string;
  address_from_script : Script -> Network -> option Address;
  address_to_string : Address -> string;
  btx_serialize : BTransaction -> string;          (* consensus bytes *)
  btx_deserialize : string -> option BTransaction;
}.

Class HexCrate := {
  hex_encode : string -> string;
  hex_decode : string -> option string;
}.
Class HexLaws `{HexCrate} := { hex_decode_encode b : hex_decode (hex_encode b) = Some b }.

Class Base64Crate := {
  base64_encode : string -> string;
  base64_decode : string -> option string;
}.
Class Base64Laws `{Base64Crate} := { base64_decode_encode b : base64_decode (base64_encode b) = Some b }.

(** Documented round trips of rust-bitcoin: WIF, the text form of a public key and of
    a transaction id, the bytes of a script and the consensus encoding of a transaction. *)
Class BitcoinLaws `{BitcoinCrates} := {
  from_to_wif k : from_wif (to_wif k) = Some k;
  bpk_from_to_string p : bpk_from_str (bpk_to_string p) = Some p;
  script_from_to_bytes s : script_from_bytes (script_to_bytes s) = s;
  btx_deserialize_serialize t : btx_deserialize (btx_serialize t) = Some t;
  txid_from_to_string t : txid_from_str (txid_to_string t) = Some t;
}.
