(* ===== verification/SwapTypes.v ===== *)
(** * The data of a swap

    src/enums.rs, src/constants.rs, src/settings.rs, src/swap/swap_types.rs and
    the records of src/bitcoin/bitcoin_types.rs and src/grin/grin_types.rs, with
    the field updates the protocol makes. *)
From S2P Require Import Prelude.
From S2P Require Import RustStd.
From S2P Require Import Crates.

(** ** enums.rs *)
Inductive HttpMethod := GET | POST.
Inductive Currency := BTC | GRIN.
Inductive SwapStatus := INITIALIZED | SETUP | EXECUTING | FINISHED | FAILED.
Inductive SwapType := OFFERED | REQUESTED.

#[export] Instance HttpMethod_eq : EqDecision HttpMethod.
Proof. solve_decision. Defined.
#[export] Instance Currency_eq : EqDecision Currency.
Proof. solve_decision. Defined.
#[export] Instance SwapStatus_eq : EqDecision SwapStatus.
Proof. solve_decision. Defined.
#[export] Instance SwapType_eq : EqDecision SwapType.
Proof. solve_decision. Defined.

Definition parse_currency_from_string (cur : string) : Res Currency :=
  if bool_decide (to_uppercase cur = "BTC") || bool_decide (to_uppercase cur = "BITCOIN")
  then Ok BTC
  else if bool_decide (to_uppercase cur = "GRIN") then Ok GRIN
  else Panic "Invalid Currency provided".

(** ** constants.rs *)
Definition BTC_SATS : Z := 100000000.
Definition NANO_GRIN : Z := 1000000000.
Definition GRIN_MAX_NANOGRIN : Z := 10000000 * NANO_GRIN.
Definition BTC_MAX_SATS : Z := 21000000 * 100000000.
Definition MAX_TIMEOUT : Z := 60 * 24 * 5.
Definition BTC_BLOCK_TIME : Z := 10.
Definition GRIN_BLOCK_TIME : Z := 1.
Definition TEST_NET : bool := true.
Definition FFFFFFFF : Z := 4294967295.
Definition SIGHASH_ALL : Z := 1.
Definition BTC_FEE : Z := 500.
Definition MAX_ATTEMPTS_VERF_FUNDS : Z := 120.

(** ** settings.rs *)
Record BtcNodeSettings := mkBtcNodeSettings {
  bns_url : string; bns_user : string; bns_pass : string; bns_port : Z; bns_id : string }.
Record GrinNodeSettings := mkGrinNodeSettings {
  gns_url : string; gns_user : string; gns_pass : string; gns_port : Z; gns_id : string }.
Record Settings := mkSettings {
  st_btc : BtcNodeSettings;
  st_grin : GrinNodeSettings;
  st_tcp_addr : string;
  st_tcp_port : string;
  st_slate_directory : string }.

Definition BtcNodeSettings_clone (s : BtcNodeSettings) : BtcNodeSettings :=
  {| bns_url := bns_url s; bns_user := bns_user s; bns_pass := bns_pass s;
     bns_port := bns_port s; bns_id := bns_id s |}.
Definition GrinNodeSettings_clone (s : GrinNodeSettings) : GrinNodeSettings :=
  {| gns_url := gns_url s; gns_user := gns_user s; gns_pass := gns_pass s;
     gns_port := gns_port s; gns_id := gns_id s |}.

(** ** bitcoin_types.rs, grin_types.rs: coins as they are stored *)
Record BTCInput := mkBTCInput {
  bi_txid : string;
  bi_vout : Z;
  bi_value : Z;
  bi_secret : string;
  bi_pub_key : string;
  bi_pub_script : string }.

Record MWCoin := mkMWCoin {
  coin_commitment : string;
  coin_blinding_factor : string;
  coin_value : Z }.

Definition BTCInput_new (txid : string) (vout value : Z) (secret pub_key pub_script : string) :
    BTCInput := mkBTCInput txid vout value secret pub_key pub_script.

Definition BTCInput_to_string (b : BTCInput) : string :=
  "txid: " +:+ bi_txid b +:+ ", vout: " +:+ fmt_u64 (bi_vout b) +:+ ", value: "
  +:+ fmt_u64 (bi_value b) +:+ ", sk : " +:+ bi_secret b +:+ ", pk : " +:+ bi_pub_key b
  +:+ ", pubScript: " +:+ bi_pub_script b.

Definition MWCoin_to_string (c : MWCoin) : string :=
  "Commitment : " +:+ coin_commitment c +:+ ", blinding_factor : " +:+ coin_blinding_factor c
  +:+ ", value : " +:+ fmt_u64 (coin_value c).

(** ** swap_types.rs *)
Record Meta := mkMeta { meta_server : string; meta_port : string }.

Record MWPub := mkMWPub {
  mwp_amount : Z;
  mwp_timelock : Z;
  mwp_lock_time : option Z;
  mwp_swap_type : SwapType }.

Record BTCPub := mkBTCPub {
  bp_amount : Z;
  bp_timelock : Z;
  bp_swap_type : SwapType;
  bp_lock_time : option Z;
  bp_pub_a : option string;
  bp_pub_b : option string;
  bp_pub_x : option string }.

Record SwapSlatePub := mkSwapSlatePub {
  pub_status : SwapStatus;
  pub_mw : MWPub;
  pub_btc : BTCPub;
  pub_meta : Meta }.

Section priv.
Context `{GrinTypes}.

Record MWPriv := mkMWPriv {
  mws_inputs : list MWCoin;
  mws_partial_key : Z;
  mws_shared_coin : option MWCoin;
  mws_change_coin : option MWCoin;
  mws_refund_coin : option MWCoin;
  mws_swapped_coin : option MWCoin;
  mws_refund_tx : option Transaction }.

Record BTCPriv := mkBTCPriv {
  bs_inputs : list BTCInput;
  bs_witness : Z;
  bs_sk : option string;
  bs_x : option string;
  bs_r_sk : option string;
  bs_change : option BTCInput;
  bs_swapped : option BTCInput;
  bs_lock : option BTCInput;
  bs_refunded : option BTCInput }.

Record SwapSlatePriv := mkSwapSlatePriv { prv_mw : MWPriv; prv_btc : BTCPriv }.

Record SwapSlate := mkSwapSlate {
  sw_id : Z;
  sw_pub : SwapSlatePub;
  sw_prv : SwapSlatePriv }.

(** The private part every new slate starts with (it is written out in
    init.rs and again in slate.rs). *)
Definition empty_priv : SwapSlatePriv :=
  {| prv_mw := {| mws_inputs := []; mws_partial_key := 0; mws_shared_coin := None;
                  mws_change_coin := None; mws_refund_coin := None; mws_swapped_coin := None;
                  mws_refund_tx := None |};
     prv_btc := {| bs_inputs := []; bs_witness := 0; bs_sk := None; bs_x := None;
                   bs_r_sk := None; bs_change := None; bs_swapped := None; bs_lock := None;
                   bs_refunded := None |} |}.
End priv.

(** ** Field updates: [slate.pub_slate.btc.pub_a = ...] *)
Section updates.
Context `{GrinTypes}.
Implicit Types s : SwapSlate.

Definition upd_pub (f : SwapSlatePub -> SwapSlatePub) s : SwapSlate :=
  mkSwapSlate (sw_id s) (f (sw_pub s)) (sw_prv s).
Definition upd_prv_mw (f : MWPriv -> MWPriv) s : SwapSlate :=
  mkSwapSlate (sw_id s) (sw_pub s) (mkSwapSlatePriv (f (prv_mw (sw_prv s))) (prv_btc (sw_prv s))).
Definition upd_prv_btc (f : BTCPriv -> BTCPriv) s : SwapSlate :=
  mkSwapSlate (sw_id s) (sw_pub s) (mkSwapSlatePriv (prv_mw (sw_prv s)) (f (prv_btc (sw_prv s)))).
Definition upd_pub_btc (f : BTCPub -> BTCPub) s : SwapSlate :=
  upd_pub (fun p => mkSwapSlatePub (pub_status p) (pub_mw p) (f (pub_btc p)) (pub_meta p)) s.
Definition upd_pub_mw (f : MWPub -> MWPub) s : SwapSlate :=
  upd_pub (fun p => mkSwapSlatePub (pub_status p) (f (pub_mw p)) (pub_btc p) (pub_meta p)) s.

Definition set_status (x : SwapStatus) s : SwapSlate :=
  upd_pub (fun p => mkSwapSlatePub x (pub_mw p) (pub_btc p) (pub_meta p)) s.
Definition set_mw_lock_time (x : Z) s : SwapSlate :=
  upd_pub_mw (fun m => mkMWPub (mwp_amount m) (mwp_timelock m) (Some x) (mwp_swap_type m)) s.
Definition set_btc_lock_time (x : Z) s : SwapSlate :=
  upd_pub_btc (fun b => mkBTCPub (bp_amount b) (bp_timelock b) (bp_swap_type b) (Some x)
                          (bp_pub_a b) (bp_pub_b b) (bp_pub_x b)) s.
Definition set_pub_a (x : string) s : SwapSlate :=
  upd_pub_btc (fun b => mkBTCPub (bp_amount b) (bp_timelock b) (bp_swap_type b) (bp_lock_time b)
                          (Some x) (bp_pub_b b) (bp_pub_x b)) s.
Definition set_pub_b (x : string) s : SwapSlate :=
  upd_pub_btc (fun b => mkBTCPub (bp_amount b) (bp_timelock b) (bp_swap_type b) (bp_lock_time b)
                          (bp_pub_a b) (Some x) (bp_pub_x b)) s.
Definition set_pub_x (x : string) s : SwapSlate :=
  upd_pub_btc (fun b => mkBTCPub (bp_amount b) (bp_timelock b) (bp_swap_type b) (bp_lock_time b)
                          (bp_pub_a b) (bp_pub_b b) (Some x)) s.

Definition set_sk (x : string) s : SwapSlate :=
  upd_prv_btc (fun b => mkBTCPriv (bs_inputs b) (bs_witness b) (Some x) (bs_x b) (bs_r_sk b)
                          (bs_change b) (bs_swapped b) (bs_lock b) (bs_refunded b)) s.
Definition set_x (x : string) s : SwapSlate :=
  upd_prv_btc (fun b => mkBTCPriv (bs_inputs b) (bs_witness b) (bs_sk b) (Some x) (bs_r_sk b)
                          (bs_change b) (bs_swapped b) (bs_lock b) (bs_refunded b)) s.
Definition set_r_sk (x : string) s : SwapSlate :=
  upd_prv_btc (fun b => mkBTCPriv (bs_inputs b) (bs_witness b) (bs_sk b) (bs_x b) (Some x)
                          (bs_change b) (bs_swapped b) (bs_lock b) (bs_refunded b)) s.
Definition set_change (x : BTCInput) s : SwapSlate :=
  upd_prv_btc (fun b => mkBTCPriv (bs_inputs b) (bs_witness b) (bs_sk b) (bs_x b) (bs_r_sk b)
                          (Some x) (bs_swapped b) (bs_lock b) (bs_refunded b)) s.
Definition set_swapped (x : BTCInput) s : SwapSlate :=
  upd_prv_btc (fun b => mkBTCPriv (bs_inputs b) (bs_witness b) (bs_sk b) (bs_x b) (bs_r_sk b)
                          (bs_change b) (Some x) (bs_lock b) (bs_refunded b)) s.
Definition set_lock (x : BTCInput) s : SwapSlate :=
  upd_prv_btc (fun b => mkBTCPriv (bs_inputs b) (bs_witness b) (bs_sk b) (bs_x b) (bs_r_sk b)
                          (bs_change b) (bs_swapped b) (Some x) (bs_refunded b)) s.
Definition set_refunded (x : BTCInput) s : SwapSlate :=
  upd_prv_btc (fun b => mkBTCPriv (bs_inputs b) (bs_witness b) (bs_sk b) (bs_x b) (bs_r_sk b)
                          (bs_change b) (bs_swapped b) (bs_lock b) (Some x)) s.
Definition push_btc_input (x : BTCInput) s : SwapSlate :=
  upd_prv_btc (fun b => mkBTCPriv (bs_inputs b ++ [x]) (bs_witness b) (bs_sk b) (bs_x b)
                          (bs_r_sk b) (bs_change b) (bs_swapped b) (bs_lock b) (bs_refunded b)) s.

Definition set_shared_coin (x : MWCoin) s : SwapSlate :=
  upd_prv_mw (fun m => mkMWPriv (mws_inputs m) (mws_partial_key m) (Some x) (mws_change_coin m)
                         (mws_refund_coin m) (mws_swapped_coin m) (mws_refund_tx m)) s.
Definition set_change_coin (x : option MWCoin) s : SwapSlate :=
  upd_prv_mw (fun m => mkMWPriv (mws_inputs m) (mws_partial_key m) (mws_shared_coin m) x
                         (mws_refund_coin m) (mws_swapped_coin m) (mws_refund_tx m)) s.
Definition set_refund_coin (x : option MWCoin) s : SwapSlate :=
  upd_prv_mw (fun m => mkMWPriv (mws_inputs m) (mws_partial_key m) (mws_shared_coin m)
                         (mws_change_coin m) x (mws_swapped_coin m) (mws_refund_tx m)) s.
Definition set_swapped_coin (x : option MWCoin) s : SwapSlate :=
  upd_prv_mw (fun m => mkMWPriv (mws_inputs m) (mws_partial_key m) (mws_shared_coin m)
                         (mws_change_coin m) (mws_refund_coin m) x (mws_refund_tx m)) s.
Definition set_refund_tx (x : option Transaction) s : SwapSlate :=
  upd_prv_mw (fun m => mkMWPriv (mws_inputs m) (mws_partial_key m) (mws_shared_coin m)
                         (mws_change_coin m) (mws_refund_coin m) (mws_swapped_coin m) x) s.
Definition push_mw_input (x : MWCoin) s : SwapSlate :=
  upd_prv_mw (fun m => mkMWPriv (mws_inputs m ++ [x]) (mws_partial_key m) (mws_shared_coin m)
                         (mws_change_coin m) (mws_refund_coin m) (mws_swapped_coin m)
                         (mws_refund_tx m)) s.
End updates.

(** ** Facts *)
(** Exactly the two currencies are recognised; anything else aborts. *)
Lemma parse_currency_cases cur :
  parse_currency_from_string cur =
    if bool_decide (to_uppercase cur ∈ ["BTC"; "BITCOIN"]) then Ok BTC
    else if bool_decide (to_uppercase cur = "GRIN") then Ok GRIN
    else Panic "Invalid Currency provided".
Proof.
  unfold parse_currency_from_string. rewrite <- bool_decide_or.
  rewrite (bool_decide_ext (to_uppercase cur = "BTC" \/ to_uppercase cur = "BITCOIN")
             (to_uppercase cur ∈ ["BTC"; "BITCOIN"])); [done|set_solver].
Qed.

Lemma limits_fit : in_u64 GRIN_MAX_NANOGRIN /\ in_u64 BTC_MAX_SATS /\ in_u64 MAX_TIMEOUT.
Proof. vm_compute. repeat split; discriminate. Qed.
