(* ===== verification/Http.v ===== *)
(** * src/net/http.rs: JSON-RPC requests over HTTP *)
From S2P Require Import Prelude.
From S2P Require Import RustStd.
From S2P Require Import Crates.
From S2P Require Import SwapTypes.
From S2P Require Import Effects.

Section types.
Context `{GrinTypes}.

(** [#[serde(untagged)] enum JsonRpcParam] *)
Inductive JsonRpcParam :=
| ParamString (s : string)
| ParamInt (n : Z)
| ParamBool (b : bool)
| ParamVec (l : list string)
| ParamTx (t : Transaction).

Record JsonRpc := mkJsonRpc {
  rpc_jsonrpc : string; rpc_id : string; rpc_method : string; rpc_params : list JsonRpcParam }.

Record BasicAuth := mkBasicAuth { auth_username : string; auth_password : option string }.

Record HttpResponse := mkHttpResponse { resp_status : Z; resp_content : string }.

Record RequestFactory := mkRequestFactory { rf_response_stub : option HttpResponse }.

Record HttpRequest := mkHttpRequest {
  req_url : string;
  req_method : HttpMethod;
  req_body : JsonRpc;
  req_auth : option BasicAuth;
  req_response_stub : option HttpResponse }.

Definition HttpResponse_clone (r : HttpResponse) : HttpResponse :=
  mkHttpResponse (resp_status r) (resp_content r).

Definition JsonRpc_new (jsonrpc id method : string) (params : list JsonRpcParam) : JsonRpc :=
  mkJsonRpc jsonrpc id method params.

Definition RequestFactory_new (response_stub : option HttpResponse) : RequestFactory :=
  mkRequestFactory response_stub.

Definition new_json_rpc_request (self : RequestFactory) (url : string) (body : JsonRpc)
    (username password : string) : HttpRequest :=
  {| req_url := url;
     req_method := POST;
     req_body := body;
     req_auth := Some (mkBasicAuth username (Some password));
     req_response_stub := option_map HttpResponse_clone (rf_response_stub self) |}.
End types.

(** [serde_json::to_string] on a request. *)
Class JsonRpcJson `{GrinTypes} := json_of_rpc : JsonRpc -> string.

Section execute.
Context `{GrinTypes, !JsonRpcJson}.

(** [StatusCode::is_success]: 2xx. *)
Definition is_success (status : Z) : bool := (200 <=? status) && (status <? 300).

Definition http_execute (self : HttpRequest) : P HttpResponse :=
  match req_response_stub self with
  | Some r =>
      if negb (resp_status r =? 200)
      then errP ("RPC Request failed with invalid respcode: " +:+ fmt_u64 (resp_status r))
      else okP (mkHttpResponse (resp_status r) (resp_content r))
  | None =>
      if bool_decide (req_method self = POST) then
        let wire := MkWire (req_url self) (json_of_rpc (req_body self))
                      (option_map (fun a => (auth_username a, auth_password a)) (req_auth self)) 30 None in
        Http wire (fun reply =>
          match reply with
          | WireFail e => Ret (Panic ("Http Request failed: " +:+ e))
          | WireBadText e => Ret (Panic ("Failed to read http response: " +:+ e))
          | WireText status content =>
              if is_success status then okP (mkHttpResponse status content)
              else errP ("RPC Request failed with invalid respcode: " +:+ fmt_u64 status
                         +:+ " " +:+ content)
          end)
      else errP "Http method currently not implemented"
  end.

(** The requests of the two clients are POSTs of a JSON-RPC body with basic
    authentication; only the reply decides how the call ends. *)
Lemma execute_post f url body user pass w :
  rf_response_stub f = None ->
  finish (http_execute (new_json_rpc_request f url body user pass)) w =
    let wire := MkWire url (json_of_rpc body) (Some (user, Some pass)) 30 None in
    (Done (match answer w wire with
           | WireFail e => Panic ("Http Request failed: " +:+ e)
           | WireBadText e => Panic ("Failed to read http response: " +:+ e)
           | WireText status content =>
               if is_success status then Ok (mkHttpResponse status content)
               else Err ("RPC Request failed with invalid respcode: " +:+ fmt_u64 status
                         +:+ " " +:+ content)
           end), log (EvHttp wire) w).
Proof.
  intros E. unfold http_execute, new_json_rpc_request. cbn. rewrite E. cbn.
  rewrite bool_decide_true by done. cbn. destruct (answer w _) as [e|e|st c]; [done|done|]. by destruct (is_success st).
Qed.

(** With a stub no request leaves the process, and any status but 200 is an
    error whose text names the status. *)
Lemma execute_stub f url body user pass r w :
  rf_response_stub f = Some r ->
  run (http_execute (new_json_rpc_request f url body user pass)) w =
    (Done (if resp_status r =? 200 then Ok r
           else Err ("RPC Request failed with invalid respcode: " +:+ fmt_u64 (resp_status r))), w).
Proof.
  intros E. unfold http_execute, new_json_rpc_request. cbn -[Z.eqb]. rewrite E.
  destruct r as [st c]. cbn -[Z.eqb]. by destruct (st =? 200).
Qed.
End execute.
