(* ===== verification/Float32.v ===== *)
(** * [f32]: the amounts Bitcoin Core reports

    bitcoin_core_responses.rs reads [UTXO.amount] into an [f32] and
    bitcoin_core.rs multiplies it by [100_000_000.0].  The arithmetic is the
    binary32 arithmetic of the standard library's [SpecFloat] (round to nearest,
    ties to even); [as u64] truncates and saturates. *)
From S2P Require Import Prelude.
From Stdlib Require Import SpecFloat.

Definition f32 : Type := spec_float.
Definition f32_prec : Z := 24.
Definition f32_emax : Z := 128.

Definition f32_mul (x y : f32) : f32 := SFmul f32_prec f32_emax x y.

(** [100_000_000.0_f32], which is exact. *)
Definition f32_1e8 : f32 := S754_finite false 12500000 3.

Definition u64_max : Z := u64_modulus - 1.

Definition f32_as_u64 (x : f32) : Z :=
  match x with
  | S754_finite false m e =>
      Z.min u64_max (if 0 <=? e then Z.pos m * 2 ^ e else Z.pos m / 2 ^ (- e))
  | S754_infinity false => u64_max
  | _ => 0
  end.

(** The [f32] nearest to [n / 10^8]: what a JSON parser returns for an amount of
    [n] satoshis written in bitcoins. *)
Definition f32_of_sats (n : Z) : f32 :=
  match n with
  | Z.pos p => SFdiv f32_prec f32_emax (S754_finite false p 0) (S754_finite false 100000000 0)
  | _ => S754_zero false
  end.

Definition sats_of_amount (amount : f32) : Z := f32_as_u64 (f32_mul amount f32_1e8).

(** ** The significand of a rounded number has at most 24 bits *)
Lemma shr_1_m mrs : 0 <= shr_m mrs -> shr_m (shr_1 mrs) = shr_m mrs / 2.
Proof.
  destruct mrs as [m r s]. cbn [shr_m]. intros Hm. unfold shr_1.
  destruct m as [|p|p]; [done| |lia]. destruct p as [p|p|]; cbn [shr_m]; [| |done].
  - rewrite Pos2Z.inj_xI. apply Z.div_unique with 1; lia.
  - rewrite Pos2Z.inj_xO. apply Z.div_unique with 0; lia.
Qed.

Lemma iter_shr_m p : forall mrs, 0 <= shr_m mrs ->
  shr_m (iter_pos shr_1 p mrs) = shr_m mrs / 2 ^ Z.pos p.
Proof.
  assert (twice : forall q : positive, 2 ^ Z.pos q * 2 ^ Z.pos q = 2 ^ (2 * Z.pos q)).
  { intros q. rewrite <- Z.pow_add_r by lia. f_equal. lia. }
  induction p as [p IH|p IH|]; intros mrs Hm; cbn [iter_pos].
  - assert (H1 : 0 <= shr_m (shr_1 mrs)) by (rewrite shr_1_m by done; apply Z.div_pos; lia).
    assert (H2 : 0 <= shr_m (iter_pos shr_1 p (shr_1 mrs)))
      by (rewrite IH by done; apply Z.div_pos; lia).
    rewrite IH, IH, shr_1_m, !Z.div_div by (try done; lia).
    f_equal. rewrite Pos2Z.inj_xI, Z.pow_add_r, <- twice, Z.pow_1_r by lia. ring.
  - assert (H2 : 0 <= shr_m (iter_pos shr_1 p mrs))
      by (rewrite IH by done; apply Z.div_pos; lia).
    rewrite IH, IH, Z.div_div by (try done; lia). by rewrite twice, Pos2Z.inj_xO.
  - apply shr_1_m, Hm.
Qed.

Lemma digits2_bound p : Z.pos p < 2 ^ Z.pos (digits2_pos p).
Proof.
  induction p as [p IH|p IH|]; cbn [digits2_pos]; [| |done];
    rewrite Pos2Z.inj_succ, Z.pow_succ_r by lia; lia.
Qed.

Lemma Zdigits2_bound m : 0 <= m -> m < 2 ^ Zdigits2 m.
Proof. destruct m; cbn; [lia| |lia]. intros _. apply digits2_bound. Qed.

Lemma shr_fexp_bound m e mrs e' :
  0 <= m -> shr_fexp f32_prec f32_emax m e loc_Exact = (mrs, e') -> 0 <= shr_m mrs < 2 ^ 24.
Proof.
  unfold shr_fexp, shr_record_of_loc. intros Hm.
  set (n := fexp _ _ _ - e).
  assert (Hn : Zdigits2 m - 24 <= n).
  { unfold n, fexp, emin, f32_prec, f32_emax. lia. }
  pose proof (Zdigits2_bound m Hm) as Hd.
  assert (Hd0 : 0 <= Zdigits2 m) by (destruct m; cbn; lia).
  unfold shr. destruct n as [|p|p]; intros [= <- <-].
  - cbn [shr_m]. split; [lia|]. eapply Z.lt_le_trans; [exact Hd|]. apply Z.pow_le_mono_r; lia.
  - rewrite iter_shr_m by done. cbn [shr_m]. split; [apply Z.div_pos; lia|].
    apply Z.div_lt_upper_bound; [lia|]. rewrite <- Z.pow_add_r by lia.
    eapply Z.lt_le_trans; [exact Hd|]. apply Z.pow_le_mono_r; lia.
  - cbn [shr_m]. split; [lia|]. eapply Z.lt_le_trans; [exact Hd|]. apply Z.pow_le_mono_r; lia.
Qed.

Lemma round_nearest_even_nonneg m l : 0 <= m -> 0 <= round_nearest_even m l.
Proof. unfold round_nearest_even. destruct l as [|[]]; try lia. destruct (Z.even m); lia. Qed.

Lemma shr_fexp_nonneg m e l mrs e' :
  0 <= m -> shr_fexp f32_prec f32_emax m e l = (mrs, e') -> 0 <= shr_m mrs.
Proof.
  unfold shr_fexp. intros Hm. set (r := shr_record_of_loc m l).
  assert (Hr : shr_m r = m) by (unfold r; by destruct l as [|[]]).
  unfold shr. destruct (fexp _ _ _ - e); intros [= <- <-].
  - lia.
  - rewrite iter_shr_m by lia. apply Z.div_pos; lia.
  - lia.
Qed.

Lemma round_aux_bound s m e m' e' s' :
  0 <= m -> binary_round_aux f32_prec f32_emax s m e loc_Exact = S754_finite s' m' e' ->
  Z.pos m' < 2 ^ 24.
Proof.
  unfold binary_round_aux. intros Hm.
  destruct (shr_fexp _ _ m e _) as [mrs1 e1] eqn:E1. apply shr_fexp_nonneg in E1; [|done].
  destruct (shr_fexp _ _ _ e1 _) as [mrs2 e2] eqn:E2.
  apply shr_fexp_bound in E2; [|by apply round_nearest_even_nonneg].
  destruct (shr_m mrs2) as [|p|p]; [done| |done]. destruct (e2 <=? _); [|done].
  intros [= _ <- _]. lia.
Qed.

(** ** Amounts above 2^24 satoshis come out even *)
Lemma f32_mul_as_u64_even x y :
  2 ^ 24 <= f32_as_u64 (f32_mul x y) < u64_max -> Z.even (f32_as_u64 (f32_mul x y)) = true.
Proof.
  unfold f32_mul. intros Hv.
  destruct (SFmul _ _ x y) as [|[]| |[] m e] eqn:E; cbn in Hv |- *;
    try (exfalso; unfold u64_max, u64_modulus in Hv; lia).
  assert (Hm : Z.pos m < 2 ^ 24).
  { destruct x as [| | |sx mx ex], y as [| | |sy my ey]; cbn in E; try discriminate.
    apply round_aux_bound in E; [done|lia]. }
  destruct (Z.leb_spec 0 e) as [He|He].
  - rewrite Z.min_r in Hv |- * by lia.
    destruct (Z.eq_dec e 0) as [->|Hne]; [lia|].
    replace e with (1 + (e - 1)) by lia. rewrite Z.pow_add_r, Z.mul_assoc, Z.pow_1_r by lia.
    rewrite !Z.even_mul. cbn. by rewrite orb_true_r.
  - exfalso. assert (Z.pos m / 2 ^ (- e) <= Z.pos m).
    { apply Z.div_le_upper_bound; [lia|]. assert (1 <= 2 ^ (- e)) by (apply Z.pow_le_mono_r with (b := 0); lia). nia. }
    lia.
Qed.
