(* ===== verification/BitcoinCore.v ===== *)
(** * src/bitcoin/bitcoin_core.rs: the Bitcoin Core RPC client

    With the responses of src/bitcoin/bitcoin_core_responses.rs.  The JSON
    parsers ([serde_json]) are parameters, gathered in [BitcoinCoreJson]. *)
From S2P Require Import Prelude.
From S2P Require Import RustStd.
From S2P Require Import Crates.
From S2P Require Import SwapTypes.
From S2P Require Import Effects.
From S2P Require Import Http.
From S2P Require Import Float32.

(** ** bitcoin_core_responses.rs *)
Record BError := mkBError { be_code : Z; be_message : string }.

Record NetworkInfoResult := mkNetworkInfoResult {
  ni_version : Z; ni_subversion : string; ni_localservices : string;
  ni_localservicesnames : list string; ni_localrelay : bool; ni_timeoffset : Z;
  ni_networkactive : bool; ni_connections : Z; ni_relayfee : f32; ni_incrementalfee : f32;
  ni_warnings : string }.

Record UTXO := mkUTXO {
  utxo_txid : string; utxo_vout : Z; utxo_address : string; utxo_label : string;
  utxo_scriptPubKey : string; utxo_amount : f32; utxo_confirmations : Z;
  utxo_spendable : bool; utxo_solvable : bool; utxo_safe : bool }.

(** [NetworkInfo], [JsonRpcResponse<T>], [ListUnspentResponse] and
    [SendRawTxResponse] have one shape. *)
Record JsonRpcResponse (T : Type) := mkJsonRpcResponse {
  jr_result : option T; jr_error : option BError; jr_id : string }.
Arguments mkJsonRpcResponse {T}.
Arguments jr_result {T}.
Arguments jr_error {T}.
Arguments jr_id {T}.

Definition NetworkInfo : Type := JsonRpcResponse NetworkInfoResult.
Definition ListUnspentResponse : Type := JsonRpcResponse (list UTXO).
Definition SendRawTxResponse : Type := JsonRpcResponse string.

Record BlockCountResponse := mkBlockCountResponse {
  bc_result : Z; bc_error : option BError; bc_id : string }.

Class BitcoinCoreJson := {
  parse_network_info : string -> Res NetworkInfo;
  parse_unit_response : string -> Res (JsonRpcResponse unit);
  parse_list_unspent : string -> Res ListUnspentResponse;
  parse_block_count : string -> Res BlockCountResponse;
  parse_send_raw_tx : string -> Res SendRawTxResponse;
}.

(** ** The client *)
Record BitcoinCore := mkBitcoinCore { bcore_settings : BtcNodeSettings; bcore_req_factory : RequestFactory }.

Definition BitcoinCore_new (settings : BtcNodeSettings) (f : RequestFactory) : BitcoinCore :=
  mkBitcoinCore settings f.

Section client.
Context `{BuildProfile, GrinTypes, !JsonRpcJson, BitcoinCrates, HexCrate, BitcoinCoreJson}.
Implicit Types self : BitcoinCore.

Definition get_url self : string :=
  "http://" +:+ bns_url (bcore_settings self) +:+ ":" +:+ fmt_u64 (bns_port (bcore_settings self)).

(** The five methods build a request in the same way ... *)
Definition bcore_call self (method : string) (params : list JsonRpcParam) : P HttpResponse :=
  let rpc := JsonRpc_new "1.0" (bns_id (bcore_settings self)) method params in
  http_execute (new_json_rpc_request (bcore_req_factory self) (get_url self) rpc
                  (bns_user (bcore_settings self)) (bns_pass (bcore_settings self))).

(** ... and check the id of the response, then its error field. *)
Definition check_response {A} self (id mismatch : string) (error : option BError) (k : P A) : P A :=
  if negb (bool_decide (id = bns_id (bcore_settings self))) then errP mismatch
  else match error with
       | Some e => errP (be_message e)
       | None => k
       end.

Definition get_network_info self : P NetworkInfoResult :=
  x ← bcore_call self "getnetworkinfo" [];
  parsed ← liftP (expect "Failed to parse networkinfo Json response"
                    (parse_network_info (resp_content x)));
  check_response self (jr_id parsed) "RPC Request and Response id didn't match!" (jr_error parsed)
    (liftP (expect_opt "GetNetworkInfo result was empty" (jr_result parsed))).

Definition import_btc_address self (addr : Address) : P unit :=
  x ← bcore_call self "importaddress"
        [ParamString (address_to_string addr); ParamString ""; ParamBool false];
  parsed ← liftP (expect "Failed to parse import_btc_address response"
                    (parse_unit_response (resp_content x)));
  check_response self (jr_id parsed) "RPC Request and Response id didn't match" (jr_error parsed)
    (okP tt).

(** [balance = balance + (e.amount * 100_000_000.0) as u64] *)
Definition sum_unspent (l : list UTXO) : Res Z :=
  res_fold (fun balance e => u64_add balance (sats_of_amount (utxo_amount e))) 0 l.

Definition get_address_final_balance self (addr : string) : P Z :=
  x ← bcore_call self "listunspent" [ParamInt 0; ParamInt 9999999; ParamVec [addr]];
  parsed ← liftP (expect "Failed to parse listunspent rpc response"
                    (parse_list_unspent (resp_content x)));
  check_response self (jr_id parsed) "RPC Request and Response id didn't match!" (jr_error parsed)
    (l ← liftP (expect_opt "GetAddressFinalBalance Result was empty" (jr_result parsed));
     liftP (sum_unspent l)).

Definition get_current_block_height self : P Z :=
  x ← bcore_call self "getblockcount" [];
  parsed ← liftP (unwrap (parse_block_count (resp_content x)));
  check_response self (bc_id parsed) "RPC Request and Response id mismacht" (bc_error parsed)
    (okP (bc_result parsed)).

Definition get_address_final_balance_addr self (addr : Address) : P Z :=
  get_address_final_balance self (address_to_string addr).

Definition send_raw_transaction self (tx : BTransaction) : P unit :=
  let txhex := btx_serialize tx in
  x ← bcore_call self "sendrawtransaction" [ParamString (hex_encode txhex)];
  parsed ← liftP (expect "Failed to parse sendrawtx rpc response"
                    (parse_send_raw_tx (resp_content x)));
  check_response self (jr_id parsed) "RPC Request and Response id didn't match" (jr_error parsed)
    (okP tt).

(** ** How a call ends *)

(** The request a method puts on the wire. *)
Definition bcore_wire self (method : string) (params : list JsonRpcParam) : WireRequest :=
  MkWire (get_url self)
    (json_of_rpc (JsonRpc_new "1.0" (bns_id (bcore_settings self)) method params))
    (Some (bns_user (bcore_settings self), Some (bns_pass (bcore_settings self)))) 30 None.

Definition live self : Prop := rf_response_stub (bcore_req_factory self) = None.

(** The verdict on a reply, for a response type with parser [parse]. *)
Definition bcore_verdict {T A} self (msg mismatch : string) (parse : string -> Res T)
    (idof : T -> string) (errof : T -> option BError) (k : T -> Res A) (r : WireReply) : Res A :=
  match r with
  | WireFail e => Panic ("Http Request failed: " +:+ e)
  | WireBadText e => Panic ("Failed to read http response: " +:+ e)
  | WireText status content =>
      if is_success status then
        parsed ← expect msg (parse content);
        if negb (bool_decide (idof parsed = bns_id (bcore_settings self))) then Err mismatch
        else match errof parsed with Some e => Err (be_message e) | None => k parsed end
      else Err ("RPC Request failed with invalid respcode: " +:+ fmt_u64 status +:+ " " +:+ content)
  end.

Lemma finish_call self method params w :
  live self ->
  finish (bcore_call self method params) w =
    (Done (match answer w (bcore_wire self method params) with
           | WireFail e => Panic ("Http Request failed: " +:+ e)
           | WireBadText e => Panic ("Failed to read http response: " +:+ e)
           | WireText status content =>
               if is_success status then Ok (mkHttpResponse status content)
               else Err ("RPC Request failed with invalid respcode: " +:+ fmt_u64 status
                         +:+ " " +:+ content)
           end), log (EvHttp (bcore_wire self method params)) w).
Proof. intros Hl. unfold bcore_call. by rewrite execute_post. Qed.

(** One call, one request; the result is the verdict on the node's reply. *)
Lemma finish_bind_call {T A} self method params msg mismatch (parse : string -> Res T) idof errof
    (k : T -> Res A) w :
  live self ->
  finish (x ← bcore_call self method params;
          parsed ← liftP (expect msg (parse (resp_content x)));
          check_response self (idof parsed) mismatch (errof parsed) (liftP (k parsed))) w =
    (Done (bcore_verdict self msg mismatch parse idof errof k (answer w (bcore_wire self method params))),
     log (EvHttp (bcore_wire self method params)) w).
Proof.
  intros Hl. unfold mbind at 1, P_bind at 1. rewrite finish_pbind, finish_call by done.
  unfold bcore_verdict. destruct (answer _ _) as [e|e|st c]; [done|done|].
  destruct (is_success st); cbn; [|done].
  destruct (parse c) as [t|e|e]; cbn; [|done|done].
  unfold check_response. destruct (negb _); [done|]. by destruct (errof t).
Qed.

Lemma finish_get_current_block_height self w :
  live self ->
  finish (get_current_block_height self) w =
    (Done (match answer w (bcore_wire self "getblockcount" []) with
           | WireText status content =>
               if is_success status then
                 parsed ← unwrap (parse_block_count content);
                 if negb (bool_decide (bc_id parsed = bns_id (bcore_settings self)))
                 then Err "RPC Request and Response id mismacht"
                 else match bc_error parsed with
                      | Some e => Err (be_message e)
                      | None => Ok (bc_result parsed)
                      end
               else Err ("RPC Request failed with invalid respcode: " +:+ fmt_u64 status
                         +:+ " " +:+ content)
           | WireFail e => Panic ("Http Request failed: " +:+ e)
           | WireBadText e => Panic ("Failed to read http response: " +:+ e)
           end), log (EvHttp (bcore_wire self "getblockcount" [])) w).
Proof.
  intros Hl. unfold get_current_block_height. unfold mbind at 1, P_bind at 1.
  rewrite finish_pbind, finish_call by done.
  destruct (answer _ _) as [e|e|st c]; [done|done|].
  destruct (is_success st); cbn; [|done].
  destruct (parse_block_count c) as [t|e|e]; cbn; [|done|done].
  unfold check_response. destruct (negb _); [done|]. by destruct (bc_error t).
Qed.

Lemma finish_send_raw_transaction self tx w :
  live self ->
  let wire := bcore_wire self "sendrawtransaction" [ParamString (hex_encode (btx_serialize tx))] in
  finish (send_raw_transaction self tx) w =
    (Done (bcore_verdict self "Failed to parse sendrawtx rpc response"
             "RPC Request and Response id didn't match" parse_send_raw_tx jr_id jr_error
             (fun _ => Ok tt) (answer w wire)), log (EvHttp wire) w).
Proof. intros Hl. exact (finish_bind_call self _ _ _ _ _ _ _ (fun _ => Ok tt) w Hl). Qed.

(** The balance of an address is the truncated sum over the outputs the node
    lists for it. *)
Lemma finish_get_address_final_balance self addr w :
  live self ->
  let wire := bcore_wire self "listunspent" [ParamInt 0; ParamInt 9999999; ParamVec [addr]] in
  finish (get_address_final_balance self addr) w =
    (Done (bcore_verdict self "Failed to parse listunspent rpc response"
             "RPC Request and Response id didn't match!" parse_list_unspent jr_id jr_error
             (fun p => l ← expect_opt "GetAddressFinalBalance Result was empty" (jr_result p);
                       sum_unspent l) (answer w wire)), log (EvHttp wire) w).
Proof.
  intros Hl wire. unfold wire.
  etransitivity; [|exact (finish_bind_call self "listunspent" _ _ _ parse_list_unspent jr_id jr_error
                (fun p => l ← expect_opt "GetAddressFinalBalance Result was empty" (jr_result p);
                          sum_unspent l) w Hl)].
  unfold get_address_final_balance, mbind, P_bind. rewrite !finish_pbind.
  destruct (finish (bcore_call _ _ _) w) as [[[x|e|e]| | |] w'] eqn:E; cbn; try done.
  destruct (expect _ (parse_list_unspent _)) as [p|e|e]; cbn; try done.
  unfold check_response. destruct (negb _); [done|]. destruct (jr_error p); [done|].
  cbn. by destruct (jr_result p).
Qed.
End client.

(** ** Properties *)
Section properties.
Context `{BuildProfile}.

Lemma sats_of_amount_range a : 0 <= sats_of_amount a <= u64_max.
Proof.
  assert (Hmax : 0 <= u64_max) by (unfold u64_max, u64_modulus; lia).
  unfold sats_of_amount, f32_as_u64. destruct (f32_mul _ _) as [|[]| |[] m ex]; try lia.
  split; [apply Z.min_glb; [done|]|apply Z.le_min_l].
  destruct (Z.leb_spec 0 ex).
  - apply Z.mul_nonneg_nonneg; [lia|]. apply Z.pow_nonneg; lia.
  - apply Z.div_pos; [lia|]. apply Z.pow_pos_nonneg; lia.
Qed.

Fixpoint total_sats (l : list UTXO) : Z :=
  match l with [] => 0 | e :: l' => sats_of_amount (utxo_amount e) + total_sats l' end.

Lemma total_sats_nonneg l : 0 <= total_sats l.
Proof.
  induction l as [|e l IH]; cbn; [lia|]. pose proof (sats_of_amount_range (utxo_amount e)). lia.
Qed.

(** Sums of what the node reports: exact as long as they fit. *)
Lemma sum_unspent_ok l : in_u64 (total_sats l) -> sum_unspent l = Ok (total_sats l).
Proof.
  unfold sum_unspent.
  assert (G : forall b, 0 <= b -> in_u64 (b + total_sats l) ->
    res_fold (fun balance e => u64_add balance (sats_of_amount (utxo_amount e))) b l
    = Ok (b + total_sats l)).
  { induction l as [|e l IH]; intros b Hb Hr; cbn in *.
    - f_equal. lia.
    - pose proof (sats_of_amount_range (utxo_amount e)). pose proof (total_sats_nonneg l).
      rewrite u64_add_ok by int_lia. cbn. rewrite IH by int_lia. f_equal. lia. }
  intros Hr. rewrite G; [done|lia|done].
Qed.
End properties.

(** A single output above 2^24 satoshis is never read back with an odd
    value: an amount agreed upon in an odd number of satoshis beyond 0.16777216
    bitcoins cannot be recognised on the chain. *)
Theorem large_odd_balance_unreadable `{BuildProfile} (u : UTXO) (balance : Z) :
  sum_unspent [u] = Ok balance -> 2 ^ 24 <= balance < u64_max -> Z.even balance = true.
Proof.
  unfold sum_unspent. cbn. destruct (u64_add _ _) as [b|e|e] eqn:E; cbn; [|done|done].
  intros [= ->] Hb. unfold u64_add in E.
  pose proof (sats_of_amount_range (utxo_amount u)) as Hs.
  rewrite Z.add_0_l, u64_result_in in E by (unfold u64_max, u64_modulus in Hs; int_lia).
  injection E as <-. apply f32_mul_as_u64_even, Hb.
Qed.

Lemma large_odd_balance_unreadable_witness :
  exists u b, @sum_unspent true [u] = Ok b /\ 2 ^ 24 <= b < u64_max /\ Z.even b = true.
Proof.
  exists (mkUTXO "" 0 "" "" "" (f32_of_sats 123456789) 1 true true true), 123456792.
  assert (E : @sum_unspent true [mkUTXO "" 0 "" "" "" (f32_of_sats 123456789) 1 true true true]
              = Ok 123456792) by (vm_compute; reflexivity).
  split; [exact E|]. split; [unfold u64_max, u64_modulus; lia|].
  apply (large_odd_balance_unreadable _ _ E). unfold u64_max, u64_modulus. lia.
Defined.
