(* ===== verification/BtcRoutines.v ===== *)
(** * src/bitcoin/btcroutines.rs: keys, scripts and transactions on Bitcoin *)
From S2P Require Import Prelude.
From S2P Require Import RustStd.
From S2P Require Import Crates.
From S2P Require Import SwapTypes.
From S2P Require Import Effects.

Section code.
Context `{BuildProfile, BitcoinCrates, HexCrate}.

(** ** Keys and encodings *)
Definition create_private_key : M BPrivateKey :=
  seed ← draw;
  mret (mkPrivateKey true (if TEST_NET then Testnet else Bitcoin) (bsk_new seed)).

Definition serialize_priv_key (sk : BPrivateKey) : string := to_wif sk.
Definition deserialize_priv_key (s : string) : Res BPrivateKey := unwrap_opt (from_wif s).
Definition serialize_pub_key (pk : BPublicKey) : string := bpk_to_string pk.
Definition deserialize_pub_key (s : string) : Res BPublicKey := unwrap_opt (bpk_from_str s).
Definition serialize_script (s : Script) : string := hex_encode (script_to_bytes s).
Definition deserialize_script (s : string) : Res Script :=
  bytes ← unwrap_opt (hex_decode s); mret (script_from_bytes bytes).
Definition serialize_btc_tx (tx : BTransaction) : string := hex_encode (btx_serialize tx).
Definition deserialize_btc_tx (s : string) : Res BTransaction :=
  bytes ← unwrap_opt (hex_decode s); unwrap_opt (btx_deserialize bytes).

(** [sk.0], the bytes of the Grin key, is what the conversion reads. *)
Definition private_key_from_grin_sk `{GrinCrates} (sk : SecretKey) : Res BPrivateKey :=
  btc_sk ← unwrap_opt (bsk_from_slice (sk_bytes sk));
  mret (mkPrivateKey true Testnet btc_sk).

(** [BTCInput::new2] of bitcoin_types.rs. *)
Definition BTCInput_new2 (txid : string) (vout value : Z) (secret : BPrivateKey)
    (pub_key : BPublicKey) (pub_script : Script) : BTCInput :=
  mkBTCInput txid vout value (serialize_priv_key secret) (serialize_pub_key pub_key)
    (serialize_script pub_script).

(** ** Scripts *)
Definition lock_script_ops (recv_pk pub_x refund_pk : BPublicKey) (refund_time : Z) : list ScriptOp :=
  [PushOpcode OP_IF; PushInt refund_time; PushOpcode OP_CLTV; PushOpcode OP_DROP;
   PushKey refund_pk; PushOpcode OP_CHECKSIG; PushOpcode OP_ELSE; PushOpcode OP_PUSHNUM_2;
   PushKey recv_pk; PushKey pub_x; PushOpcode OP_PUSHNUM_2; PushOpcode OP_CHECKMULTISIG;
   PushOpcode OP_ENDIF].

Definition get_lock_pub_script (recv_pk pub_x refund_pk : BPublicKey) (refund_time : Z)
    (wrap_in_p2sh : bool) : Script :=
  let script := into_script (lock_script_ops recv_pk pub_x refund_pk refund_time) in
  if wrap_in_p2sh then new_p2sh_of script else script.

Definition get_p2pkh_pub_script (recv_pk : BPublicKey) : Script := new_p2pkh_of recv_pk.

Definition script_to_address (s : Script) : Res Address :=
  unwrap_opt (address_from_script s (if TEST_NET then Testnet else Bitcoin)).

(** ** Transactions *)

(** The body of the loop over the inputs: the amount so far and the inputs. *)
Definition add_lock_input (st : Z * list TxIn) (btcinp : BTCInput) : Res (Z * list TxIn) :=
  txid ← expect_opt "Failed to parse tx id from string" (txid_from_str (bi_txid btcinp));
  inp_amount ← u64_add st.1 (bi_value btcinp);
  mret (inp_amount, st.2 ++ [mkTxIn (mkOutPoint txid (bi_vout btcinp)) script_empty FFFFFFFF []]).

Definition create_lock_transaction (recv_pk pub_x refund_pk change_pk : BPublicKey)
    (inputs : list BTCInput) (amount fee refund_time : Z) : Res BTransaction :=
  '(inp_amount, txinp) ← res_fold add_lock_input (0, []) inputs;
  needed ← u64_add amount fee;
  if inp_amount <? needed then Err "Input coin amount is too little"
  else
    let lock_script_pub := get_lock_pub_script recv_pk pub_x refund_pk refund_time true in
    let ch_script_pub := get_p2pkh_pub_script change_pk in
    rest ← u64_sub inp_amount amount;
    change ← u64_sub rest fee;
    Ok (mkBTx 1 0 txinp [mkTxOut amount lock_script_pub; mkTxOut change ch_script_pub]).

Definition create_spend_lock_transaction (recv_pk : BPublicKey) (input : BTCInput)
    (amount fee lock_time : Z) : Res BTransaction :=
  let inp_amount := bi_value input in
  txid ← unwrap_opt (txid_from_str (bi_txid input));
  let txinp := [mkTxIn (mkOutPoint txid (bi_vout input)) script_empty
                  (if lock_time =? 0 then FFFFFFFF else 0) []] in
  if negb (inp_amount =? amount) then Err "Please fully redeem input coin"
  else
    value ← u64_sub amount fee;
    Ok (mkBTx 1 lock_time txinp [mkTxOut value (new_p2pkh_of recv_pk)]).

(** [sig.serialize_der()] with the flag byte pushed at the end. *)
Definition byte_string (n : Z) : string := String (Ascii.ascii_of_N (Z.to_N n)) "".
Definition serialize_sig_der_with_sighash (sig : BSignature) (sig_hash : Z) : string :=
  serialize_der sig +:+ byte_string sig_hash.

(** The message that is signed for input [i]. *)
Definition sighash_message (tx : BTransaction) (i : nat) (script : Script) : Res BMessage :=
  unwrap_opt (message_from_slice (signature_hash tx i script SIGHASH_ALL)).

Definition with_script_sig (i : TxIn) (s : Script) : TxIn :=
  mkTxIn (txin_previous_output i) s (txin_sequence i) (txin_witness i).

(** [for (i, inp) in tx.input.iter().enumerate() { signed_inp.push(f(i, inp)) }] *)
Fixpoint sign_inputs (f : nat -> TxIn -> Res TxIn) (i : nat) (l : list TxIn) : Res (list TxIn) :=
  match l with
  | [] => Ok []
  | inp :: l' => inp' ← f i inp; rest ← sign_inputs f (S i) l'; Ok (inp' :: rest)
  end.

Definition with_inputs (tx : BTransaction) (l : list TxIn) : BTransaction :=
  mkBTx (btx_version tx) (btx_lock_time tx) l (btx_output tx).

(** The scripts of the signatures, as the builder calls. *)
Definition p2pkh_sig_ops (sig : BSignature) (pk : BPublicKey) : list ScriptOp :=
  [PushSlice (serialize_sig_der_with_sighash sig SIGHASH_ALL); PushKey pk].
Definition redeemer_ops (sig_a sig_x : BSignature) (lock_script : Script) : list ScriptOp :=
  [PushOpcode OP_PUSHBYTES_0;
   PushSlice (serialize_sig_der_with_sighash sig_a SIGHASH_ALL);
   PushSlice (serialize_sig_der_with_sighash sig_x SIGHASH_ALL);
   PushOpcode OP_PUSHBYTES_0; PushSlice (script_to_bytes lock_script)].
Definition refund_ops (sig : BSignature) (lock_script : Script) : list ScriptOp :=
  [PushSlice (serialize_sig_der_with_sighash sig SIGHASH_ALL); PushInt 1;
   PushSlice (script_to_bytes lock_script)].

Definition sign_p2pkh_input (tx : BTransaction) (script_pubkeys : list Script)
    (skeys : list BPrivateKey) (pkeys : list BPublicKey) (i : nat) (inp : TxIn) : Res TxIn :=
  script_pubkey ← unwrap_opt (script_pubkeys !! i);
  signing_key ← unwrap_opt (skeys !! i);
  pub_key ← unwrap_opt (pkeys !! i);
  msg ← sighash_message tx i script_pubkey;
  let sig := bsign msg (key_key signing_key) in
  Ok (with_script_sig inp (into_script (p2pkh_sig_ops sig pub_key))).

Definition sign_p2pkh_transaction (tx : BTransaction) (script_pubkeys : list Script)
    (skeys : list BPrivateKey) (pkeys : list BPublicKey) : Res BTransaction :=
  signed_inp ← sign_inputs (sign_p2pkh_input tx script_pubkeys skeys pkeys) 0 (btx_input tx);
  Ok (with_inputs tx signed_inp).

Definition sign_lock_transaction_redeemer (tx : BTransaction) (ix : nat) (lock_script : Script)
    (sk x : BPrivateKey) : Res BTransaction :=
  signed_inp ← sign_inputs (fun i inp =>
      if (i =? ix)%nat then
        msg ← sighash_message tx ix lock_script;
        let sig_a := bsign msg (key_key sk) in
        let sig_x := bsign msg (key_key x) in
        Ok (with_script_sig inp (into_script (redeemer_ops sig_a sig_x lock_script)))
      else Ok inp) 0 (btx_input tx);
  Ok (with_inputs tx signed_inp).

Definition sign_lock_transaction_refund (tx : BTransaction) (ix : nat) (lock_script : Script)
    (sk : BPrivateKey) : Res BTransaction :=
  signed_inp ← sign_inputs (fun i inp =>
      if (i =? ix)%nat then
        msg ← sighash_message tx ix lock_script;
        let sig := bsign msg (key_key sk) in
        Ok (with_script_sig inp (into_script (refund_ops sig lock_script)))
      else Ok inp) 0 (btx_input tx);
  Ok (with_inputs tx signed_inp).

(** ** Shape of what the builders return *)
Fixpoint btc_total (l : list BTCInput) : Z :=
  match l with [] => 0 | i :: l' => bi_value i + btc_total l' end.

Definition lock_txin (btcinp : BTCInput) (i : TxIn) : Prop :=
  exists txid, txid_from_str (bi_txid btcinp) = Some txid
    /\ i = mkTxIn (mkOutPoint txid (bi_vout btcinp)) script_empty FFFFFFFF [].

Lemma btc_total_nonneg l : Forall (fun i => in_u64 (bi_value i)) l -> 0 <= btc_total l.
Proof. induction 1 as [|i l Hi Hl IH]; cbn; [lia|]. int_lia. Qed.

(** The loop over the inputs: every one is spent, in order, and the amount is
    their sum, unless some id cannot be read. *)
Lemma add_lock_inputs_total l : forall acc txs,
  0 <= acc -> Forall (fun i => in_u64 (bi_value i)) l -> in_u64 (acc + btc_total l) ->
  match res_fold add_lock_input (acc, txs) l with
  | Ok (amt, ins) => amt = acc + btc_total l /\ exists new, ins = txs ++ new /\ Forall2 lock_txin l new
  | Err _ => False
  | Panic _ => exists i, i ∈ l /\ txid_from_str (bi_txid i) = None
  end.
Proof.
  induction l as [|i l IH]; intros acc txs Hacc Hv Hr; cbn [res_fold btc_total] in *.
  - split; [lia|]. exists []. by rewrite app_nil_r.
  - apply Forall_cons in Hv as [Hi Hl]. pose proof (btc_total_nonneg l Hl).
    destruct (txid_from_str (bi_txid i)) as [t|] eqn:Et.
    2: { unfold add_lock_input. rewrite Et. cbn. exists i. rewrite elem_of_cons. auto. }
    assert (Ea : add_lock_input (acc, txs) i = Ok (acc + bi_value i,
              txs ++ [mkTxIn (mkOutPoint t (bi_vout i)) script_empty FFFFFFFF []])).
    { unfold add_lock_input. rewrite Et. cbn. by rewrite u64_add_ok by int_lia. }
    rewrite Ea. cbn [mbind Res_bind].
    specialize (IH (acc + bi_value i) (txs ++ [mkTxIn (mkOutPoint t (bi_vout i)) script_empty FFFFFFFF []])
      ltac:(int_lia) Hl ltac:(by rewrite <- Z.add_assoc)).
    destruct (res_fold add_lock_input _ l) as [[amt ins]|e|e]; [|done|].
    + destruct IH as [-> (new & -> & Hn)]. split; [lia|]. rewrite <- app_assoc.
      eexists. split; [reflexivity|]. constructor; [by exists t|done].
    + destruct IH as (j & Hj & Ej). exists j. rewrite elem_of_cons. auto.
Qed.

Lemma add_lock_inputs_spent l amt ins :
  res_fold add_lock_input (0, []) l = Ok (amt, ins) -> Forall2 lock_txin l ins.
Proof.
  assert (G : forall l st z, res_fold add_lock_input st l = Ok z ->
            exists new, z.2 = st.2 ++ new /\ Forall2 lock_txin l new).
  { clear. induction l as [|i l IH]; intros st z E; cbn in E.
    - injection E as <-. exists []. by rewrite app_nil_r.
    - apply res_bind_Ok in E as (st1 & E1 & E). unfold add_lock_input in E1.
      apply res_bind_Ok in E1 as (tid & Et & E1). apply res_bind_Ok in E1 as (v & _ & [= <-]).
      apply IH in E as (new & -> & Hn). cbn [snd]. rewrite <- app_assoc.
      eexists. split; [reflexivity|]. constructor; [|done]. exists tid. split; [|done].
      destruct (txid_from_str (bi_txid i)); [by injection Et as ->|done]. }
  intros E. apply G in E as (new & Ez & Hn). cbn in Ez. by rewrite Ez.
Qed.

Lemma sign_inputs_ok f : forall l i l',
  sign_inputs f i l = Ok l' -> length l' = length l
  /\ forall j inp, l !! j = Some inp -> exists inp', l' !! j = Some inp' /\ f (i + j)%nat inp = Ok inp'.
Proof.
  induction l as [|inp l IH]; intros i l' E; cbn in E.
  - injection E as <-. split; [done|]. intros j inp Hj. by rewrite lookup_nil in Hj.
  - apply res_bind_Ok in E as (inp' & E1 & E). apply res_bind_Ok in E as (rest & E2 & E).
    injection E as <-. apply IH in E2 as [Hlen Hall]. split; [cbn; congruence|].
    intros [|j] x Hx; cbn in Hx.
    + injection Hx as ->. exists inp'. by rewrite Nat.add_0_r.
    + apply Hall in Hx as (x' & Hx & Ef). exists x'. split; [done|].
      by rewrite Nat.add_succ_r.
Qed.
End code.

(** ** Properties *)
Section properties.
Context `{BuildProfile, BitcoinCrates, HexCrate}.

(** C31: The lock transaction, whatever is asked for.  It spends exactly the imported
    coins, pays the agreed amount to the lock script and everything else but the fee to
    the change key, so that no satoshi appears or disappears; imported coins worth less
    than amount and fee are refused; and the only way to end the program is a coin whose
    transaction id cannot be read.  (For values, their total and the amount with the fee
    within 64 bits.) *)
Theorem lock_transaction_conserves recv_pk pub_x refund_pk change_pk inputs amount fee refund_time :
  Forall (fun i => in_u64 (bi_value i)) inputs -> in_u64 (btc_total inputs) ->
  0 <= amount -> 0 <= fee -> in_u64 (amount + fee) ->
  match create_lock_transaction recv_pk pub_x refund_pk change_pk inputs amount fee refund_time with
  | Ok tx => Forall2 lock_txin inputs (btx_input tx)
      /\ exists change, btx_output tx =
           [mkTxOut amount (new_p2sh_of (into_script (lock_script_ops recv_pk pub_x refund_pk refund_time)));
            mkTxOut change (new_p2pkh_of change_pk)]
         /\ btc_total inputs = amount + change + fee /\ 0 <= change
  | Err e => e = "Input coin amount is too little" /\ btc_total inputs < amount + fee
  | Panic _ => exists i, i ∈ inputs /\ txid_from_str (bi_txid i) = None
  end.
Proof.
  intros Hv Hr Ha Hf Haf. unfold create_lock_transaction.
  pose proof (add_lock_inputs_total inputs 0 [] ltac:(lia) Hv Hr) as G.
  destruct (res_fold add_lock_input (0, []) inputs) as [[amt ins]|e|e]; cbn -[u64_add]; [|done|done].
  destruct G as [-> (new & -> & Hn)]. rewrite Z.add_0_l, u64_add_ok by done. cbn.
  destruct (Z.ltb_spec (btc_total inputs) (amount + fee)); [done|].
  rewrite u64_sub_ok by int_lia. cbn. rewrite u64_sub_ok by int_lia. cbn.
  split; [done|]. eexists. split; [done|]. lia.
Qed.

(** What spending the locked coin can give, case by case: the coin must be
    redeemed in full, and an amount below the fee aborts the program or, without
    overflow checks, asks for an output of about 2^64 satoshis. *)
Theorem spend_lock_cases recv_pk input amount fee lock_time txid :
  txid_from_str (bi_txid input) = Some txid -> in_u64 amount -> in_u64 fee ->
  create_spend_lock_transaction recv_pk input amount fee lock_time =
    if negb (bi_value input =? amount) then Err "Please fully redeem input coin"
    else
      let tx v := mkBTx 1 lock_time
        [mkTxIn (mkOutPoint txid (bi_vout input)) script_empty
           (if lock_time =? 0 then FFFFFFFF else 0) []] [mkTxOut v (new_p2pkh_of recv_pk)] in
      if fee <=? amount then Ok (tx (amount - fee))
      else if overflow_checks then Panic "attempt to subtract with overflow"
      else Ok (tx (u64_modulus + amount - fee)).
Proof.
  intros Et Ha Hf. unfold create_spend_lock_transaction. rewrite Et. cbn -[Z.eqb].
  destruct (negb _); [done|]. unfold u64_sub.
  destruct (Z.leb_spec fee amount).
  - by rewrite u64_result_in by int_lia.
  - destruct (u64_result_cases "subtract" (amount - fee)) as [[Hin _]|[(_&->&->)|(_&->&->)]];
      [int_lia|done|]. cbn. do 3 f_equal. unfold wrap_u64.
    rewrite <- (Z_mod_plus_full _ 1), Z.mod_small; [do 2 f_equal; lia|].
    unfold u64_modulus in *. int_lia.
Qed.

(** Signing changes nothing but the script of the signed input. *)
Definition same_but_script (i j : TxIn) : Prop :=
  txin_previous_output i = txin_previous_output j /\ txin_sequence i = txin_sequence j
  /\ txin_witness i = txin_witness j.

Definition same_but_scripts (t u : BTransaction) : Prop :=
  btx_version t = btx_version u /\ btx_lock_time t = btx_lock_time u
  /\ btx_output t = btx_output u /\ Forall2 same_but_script (btx_input t) (btx_input u).

Lemma sign_inputs_same f l i l' :
  (forall j inp inp', f j inp = Ok inp' -> same_but_script inp inp') ->
  sign_inputs f i l = Ok l' -> Forall2 same_but_script l l'.
Proof.
  intros Hf E. apply sign_inputs_ok in E as [Hlen Hall].
  apply Forall2_same_length_lookup_2; [done|]. intros j x y Hx Hy.
  apply Hall in Hx as (x' & Hx & Ef). rewrite Hx in Hy. injection Hy as <-. by eapply Hf.
Qed.

Lemma with_script_sig_same i s : same_but_script i (with_script_sig i s).
Proof. done. Qed.

Lemma sign_p2pkh_same tx ss sks pks tx' :
  sign_p2pkh_transaction tx ss sks pks = Ok tx' -> same_but_scripts tx tx'.
Proof.
  intros E. apply res_bind_Ok in E as (l & E & [= <-]). repeat split; [].
  eapply sign_inputs_same; [|done]. intros j inp inp' Ef. unfold sign_p2pkh_input in Ef.
  res_inv. apply with_script_sig_same.
Qed.

(** The redeemer's signature fills in the script of the input it is asked for
    and leaves the rest of the transaction as it was. *)
Lemma sign_redeemer_spec tx ix lock_script sk x tx' :
  sign_lock_transaction_redeemer tx ix lock_script sk x = Ok tx' ->
  same_but_scripts tx tx'
  /\ forall inp, btx_input tx !! ix = Some inp -> exists msg,
       sighash_message tx ix lock_script = Ok msg
       /\ btx_input tx' !! ix = Some (with_script_sig inp
            (into_script (redeemer_ops (bsign msg (key_key sk)) (bsign msg (key_key x)) lock_script))).
Proof.
  intros E. apply res_bind_Ok in E as (l & E & [= <-]). split.
  - repeat split; []. eapply sign_inputs_same; [|done]. intros j inp inp' Ef; cbn beta in Ef.
    destruct (Nat.eqb j ix); res_inv; [apply with_script_sig_same|done].
  - intros inp Hinp. apply sign_inputs_ok in E as [_ Hall].
    apply Hall in Hinp as (inp' & Hl & Ef). rewrite Nat.add_0_l, Nat.eqb_refl in Ef.
    res_inv. eauto.
Qed.

Lemma sign_refund_spec tx ix lock_script sk tx' :
  sign_lock_transaction_refund tx ix lock_script sk = Ok tx' ->
  same_but_scripts tx tx'
  /\ forall inp, btx_input tx !! ix = Some inp -> exists msg,
       sighash_message tx ix lock_script = Ok msg
       /\ btx_input tx' !! ix = Some (with_script_sig inp
            (into_script (refund_ops (bsign msg (key_key sk)) lock_script))).
Proof.
  intros E. apply res_bind_Ok in E as (l & E & [= <-]). split.
  - repeat split; []. eapply sign_inputs_same; [|done]. intros j inp inp' Ef; cbn beta in Ef.
    destruct (Nat.eqb j ix); res_inv; [apply with_script_sig_same|done].
  - intros inp Hinp. apply sign_inputs_ok in E as [_ Hall].
    apply Hall in Hinp as (inp' & Hl & Ef). rewrite Nat.add_0_l, Nat.eqb_refl in Ef.
    res_inv. eauto.
Qed.
End properties.

(** Round trips of the encodings, from those of the crates. *)
Section roundtrips.
Context `{BuildProfile, BitcoinCrates, !BitcoinLaws, HexCrate, !HexLaws}.

Lemma priv_key_roundtrip sk : deserialize_priv_key (serialize_priv_key sk) = Ok sk.
Proof. unfold deserialize_priv_key, serialize_priv_key. by rewrite from_to_wif. Qed.
Lemma pub_key_roundtrip pk : deserialize_pub_key (serialize_pub_key pk) = Ok pk.
Proof. unfold deserialize_pub_key, serialize_pub_key. by rewrite bpk_from_to_string. Qed.
Lemma script_roundtrip s : deserialize_script (serialize_script s) = Ok s.
Proof.
  unfold deserialize_script, serialize_script. rewrite hex_decode_encode. cbn.
  by rewrite script_from_to_bytes.
Qed.
Lemma btc_tx_roundtrip tx : deserialize_btc_tx (serialize_btc_tx tx) = Ok tx.
Proof.
  unfold deserialize_btc_tx, serialize_btc_tx. rewrite hex_decode_encode. cbn.
  by rewrite btx_deserialize_serialize.
Qed.
End roundtrips.
#[export] Hint Rewrite @priv_key_roundtrip @pub_key_roundtrip @script_roundtrip @btc_tx_roundtrip
  using typeclasses eauto : swap.
