(* ===== verification/BtcScript.v ===== *)
(** * The lock script against the rules of the Bitcoin network

    A specification, not code of the repository: what the network does with the
    opcodes the lock script uses (the stack machine of Bitcoin Script, with BIP 16
    for P2SH and BIP 65 for OP_CHECKLOCKTIMEVERIFY).  It states what the scripts
    and signatures btcroutines.rs builds are for, and the theorems relate the two:
    the lock can be spent in exactly two ways, and the two signing functions
    produce spends of the two kinds. *)
From S2P Require Import Prelude.
From S2P Require Import RustStd.
From S2P Require Import Crates.
From S2P Require Import SwapTypes.
From S2P Require Import Effects.
From S2P Require Import BtcRoutines.

(** ** The stack machine *)
Section machine.
Context `{BitcoinTypes}.

Inductive Item := IBytes (b : string) | INum (n : Z) | IKey (k : BPublicKey).

(** The part of the spending transaction the script can see. *)
Record SpendCtx := mkSpendCtx {
  sc_lock_time : Z;
  sc_sequence : Z;
  sc_check_sig : string -> BPublicKey -> bool }.

(** [CastToBool]: some byte is not zero, the sign bit of the last one aside. *)
Fixpoint cast_to_bool (b : string) : bool :=
  match b with
  | EmptyString => false
  | String a EmptyString => negb (byte_is a 0 || byte_is a 128)
  | String a b' => negb (byte_is a 0) || cast_to_bool b'
  end.

Definition truthy (i : Item) : bool :=
  match i with IBytes b => cast_to_bool b | INum n => negb (n =? 0) | IKey _ => true end.

Definition of_bool (b : bool) : Item := if b then INum 1 else INum 0.

Definition check_sig (c : SpendCtx) (sig : Item) (key : Item) : bool :=
  match sig, key with IBytes s, IKey k => sc_check_sig c s k | _, _ => false end.

(** OP_CHECKMULTISIG: each signature, in order, must match one of the keys that
    are left. *)
Fixpoint check_multi (c : SpendCtx) (sigs keys : list Item) : bool :=
  match sigs with
  | [] => true
  | s :: sigs' =>
      (fix go keys :=
         match keys with
         | [] => false
         | k :: keys' => if check_sig c s k then check_multi c sigs' keys' else go keys'
         end) keys
  end.

Definition pop_counted (stack : list Item) : option (list Item * list Item) :=
  match stack with
  | INum n :: rest =>
      if (0 <=? n) && (n <=? Z.of_nat (length rest))
      then Some (take (Z.to_nat n) rest, drop (Z.to_nat n) rest) else None
  | _ => None
  end.

(** BIP 65, for lock times given as block heights. *)
Definition lock_height_threshold : Z := 500000000.
Definition cltv_ok (c : SpendCtx) (n : Z) : bool :=
  (0 <=? n) && Bool.eqb (n <? lock_height_threshold) (sc_lock_time c <? lock_height_threshold)
  && (n <=? sc_lock_time c) && negb (sc_sequence c =? FFFFFFFF).

Definition exec_op (c : SpendCtx) (o : ScriptOp) (stack : list Item) : option (list Item) :=
  match o, stack with
  | PushInt n, _ => Some (INum n :: stack)
  | PushKey k, _ => Some (IKey k :: stack)
  | PushSlice b, _ => Some (IBytes b :: stack)
  | PushOpcode OP_PUSHBYTES_0, _ => Some (IBytes "" :: stack)
  | PushOpcode OP_PUSHNUM_2, _ => Some (INum 2 :: stack)
  | PushOpcode OP_DROP, _ :: rest => Some rest
  | PushOpcode OP_CLTV, INum n :: _ => if cltv_ok c n then Some stack else None
  | PushOpcode OP_CHECKSIG, k :: s :: rest => Some (of_bool (check_sig c s k) :: rest)
  | PushOpcode OP_CHECKMULTISIG, _ =>
      '(keys, rest) ← pop_counted stack;
      '(sigs, rest') ← pop_counted rest;
      match rest' with
      | _ :: rest'' => Some (of_bool (check_multi c sigs keys) :: rest'')
      | [] => None
      end
  | _, _ => None
  end.

(** [cond] holds the branches of the conditionals the script is in. *)
Fixpoint eval (c : SpendCtx) (ops : list ScriptOp) (cond : list bool) (stack : list Item) :
    option (list Item) :=
  match ops with
  | [] => match cond with [] => Some stack | _ => None end
  | o :: ops' =>
      let executing := forallb id cond in
      match o with
      | PushOpcode OP_IF =>
          if executing then
            match stack with
            | i :: rest => eval c ops' (truthy i :: cond) rest
            | [] => None
            end
          else eval c ops' (false :: cond) stack
      | PushOpcode OP_ELSE =>
          match cond with b :: cond' => eval c ops' (negb b :: cond') stack | [] => None end
      | PushOpcode OP_ENDIF =>
          match cond with _ :: cond' => eval c ops' cond' stack | [] => None end
      | _ => if executing then stack' ← exec_op c o stack; eval c ops' cond stack'
             else eval c ops' cond stack
      end
  end.

Definition accepts (c : SpendCtx) (ops : list ScriptOp) (stack : list Item) : bool :=
  match eval c ops [] stack with Some (top :: _) => truthy top | _ => false end.

(** The stack a signature script leaves; for P2SH its last push is the script
    itself, and is taken off before that script runs. *)
Fixpoint pushes (ops : list ScriptOp) : list Item :=
  match ops with
  | [] => []
  | PushInt n :: l => pushes l ++ [INum n]
  | PushKey k :: l => pushes l ++ [IKey k]
  | PushSlice b :: l => pushes l ++ [IBytes b]
  | PushOpcode OP_PUSHBYTES_0 :: l => pushes l ++ [IBytes ""]
  | PushOpcode _ :: l => pushes l
  end.
Definition p2sh_stack (sig_ops : list ScriptOp) : list Item := tail (pushes sig_ops).
End machine.

(** ** The two ways *)
Section two_ways.
Context `{BitcoinTypes}.
Variables (recv_pk pub_x refund_pk : BPublicKey) (refund_time : Z).
Abbreviation lock := (lock_script_ops recv_pk pub_x refund_pk refund_time).

(** The refund branch, as a predicate on the spending transaction. *)
Definition refund_way (c : SpendCtx) : Prop :=
  (exists s, sc_check_sig c s refund_pk = true) /\ cltv_ok c refund_time = true.
(** The swap branch: both keys sign. *)
Definition swap_way (c : SpendCtx) : Prop :=
  (exists s, sc_check_sig c s recv_pk = true) /\ (exists s, sc_check_sig c s pub_x = true).

Lemma check_sig_true c s k :
  check_sig c s (IKey k) = true -> exists b, s = IBytes b /\ sc_check_sig c b k = true.
Proof. destruct s; cbn; [eauto|done|done]. Qed.

Lemma refund_branch c stack r :
  eval c (tail lock) [true] stack = Some r -> (exists i r', r = i :: r' /\ truthy i = true) -> refund_way c.
Proof.
  cbn. destruct (cltv_ok c refund_time) eqn:E; [|done]. cbn.
  destruct stack as [|s rest]; [done|]. cbn. intros [= <-] (i & r' & [= <- <-] & Ht).
  unfold of_bool in Ht. destruct (check_sig c s _) eqn:Es; [|done].
  apply check_sig_true in Es as (b & -> & Es). split; [by exists b|done].
Qed.

Lemma check_multi_2 c s1 s2 k1 k2 :
  check_multi c [s1; s2] [k1; k2] = true -> check_sig c s1 k1 = true /\ check_sig c s2 k2 = true.
Proof.
  cbn. destruct (check_sig c s1 k1); [|destruct (check_sig c s1 k2); done].
  destruct (check_sig c s2 k2); done.
Qed.

Lemma pop_two a b rest : pop_counted (INum 2 :: a :: b :: rest) = Some ([a; b], rest).
Proof. unfold pop_counted. rewrite (proj2 (Z.leb_le 2 _)) by (cbn; lia). done. Qed.

Lemma swap_branch c stack r :
  eval c (tail lock) [false] stack = Some r -> (exists i r', r = i :: r' /\ truthy i = true) -> swap_way c.
Proof.
  cbn -[pop_counted check_multi]. destruct stack as [|s1 [|s2 [|d rest]]]; try done.
  rewrite pop_two. cbn -[pop_counted check_multi]. rewrite pop_two.
  cbn [mbind option_bind]. cbn -[check_multi of_bool].
  intros [= <-] (i & r' & [= <- <-] & Ht).
  assert (Em : check_multi c [s1; s2] [IKey pub_x; IKey recv_pk] = true).
  { cbn in Ht |- *. unfold of_bool in *. repeat case_match; done. }
  apply check_multi_2 in Em as [Hx Hr]. split.
  - apply check_sig_true in Hr as (b & -> & Hr). by exists b.
  - apply check_sig_true in Hx as (b & -> & Hx). by exists b.
Qed.
End two_ways.

Lemma accepts_two_ways `{BitcoinTypes} (recv_pk pub_x refund_pk : BPublicKey)
    (refund_time : Z) (c : SpendCtx) (stack : list Item) :
  accepts c (lock_script_ops recv_pk pub_x refund_pk refund_time) stack = true ->
  refund_way refund_pk refund_time c \/ swap_way recv_pk pub_x c.
Proof.
  unfold accepts. destruct (eval _ _ _ _) as [[|top rest]|] eqn:E; try done. intros Ht.
  destruct stack as [|i stack]; [done|].
  change (eval c (tail (lock_script_ops recv_pk pub_x refund_pk refund_time)) [truthy i] stack
          = Some (top :: rest)) in E.
  destruct (truthy i).
  - left. by eapply refund_branch; eauto.
  - right. by eapply swap_branch; eauto.
Qed.

Section spending_stacks.
Context `{BitcoinTypes}.

Lemma accepts_swap c recv_pk pub_x refund_pk t s1 s2 lock :
  sc_check_sig c s1 recv_pk = true -> sc_check_sig c s2 pub_x = true ->
  accepts c (lock_script_ops recv_pk pub_x refund_pk t)
    (p2sh_stack [PushOpcode OP_PUSHBYTES_0; PushSlice s1; PushSlice s2;
                 PushOpcode OP_PUSHBYTES_0; PushSlice lock]) = true.
Proof.
  intros E1 E2.
  unfold accepts. cbn -[pop_counted check_multi]. rewrite pop_two.
  cbn -[pop_counted check_multi]. rewrite pop_two. cbn. rewrite E2, E1. done.
Qed.

Lemma accepts_refund c recv_pk pub_x refund_pk t s lock :
  cltv_ok c t = true -> sc_check_sig c s refund_pk = true ->
  accepts c (lock_script_ops recv_pk pub_x refund_pk t)
    (p2sh_stack [PushSlice s; PushInt 1; PushSlice lock]) = true.
Proof. intros E1 E2. unfold accepts. cbn. rewrite E1. cbn. rewrite E2. done. Qed.

Lemma cltv_ok_final c t : cltv_ok c t = true -> t <= sc_lock_time c /\ sc_sequence c <> FFFFFFFF.
Proof.
  unfold cltv_ok. intros [[_ Hle%Z.leb_le]%andb_true_iff Hseq%negb_true_iff%Z.eqb_neq]%andb_true_iff.
  done.
Qed.

(** C7: The locked bitcoins can leave the lock script in exactly two ways: with a
    signature by the refund key in a transaction that passes
    OP_CHECKLOCKTIMEVERIFY, which is then not final before the refund time, or with
    signatures by both the receiver's key and X. *)
Theorem lock_script_two_ways (recv_pk pub_x refund_pk : BPublicKey) (refund_time : Z) (c : SpendCtx) :
  ((exists stack, accepts c (lock_script_ops recv_pk pub_x refund_pk refund_time) stack = true)
   <-> refund_way refund_pk refund_time c \/ swap_way recv_pk pub_x c)
  /\ (refund_way refund_pk refund_time c ->
      refund_time <= sc_lock_time c /\ sc_sequence c <> FFFFFFFF).
Proof.
  split; [split|intros [_ Hc]; by apply cltv_ok_final].
  - intros [stack E]. by eapply accepts_two_ways.
  - intros [[[s Hs] Hc]|[[s1 H1'] [s2 H2']]].
    + eexists. by apply (accepts_refund c recv_pk pub_x refund_pk refund_time s "").
    + eexists. by apply (accepts_swap c recv_pk pub_x refund_pk refund_time s1 s2 "").
Qed.
End spending_stacks.

(** ** What the network checks of a transaction *)
Class NetworkSigs `{BitcoinCrates} := {
  net_check_sig : BMessage -> string -> BPublicKey -> bool;
  (* a signature made with a key checks against the public key *)
  net_check_sig_sign m k b :
    b = serialize_der (bsign m (key_key k)) +:+ byte_string SIGHASH_ALL ->
    net_check_sig m b (bpk_from_private_key k) = true;
  (* the digest that is signed does not cover the signature scripts *)
  net_sighash_blank `{BuildProfile} t u i s f :
    same_but_scripts t u -> signature_hash t i s f = signature_hash u i s f;
}.

Section spends.
Context `{BuildProfile, BitcoinCrates, !NetworkSigs}.

(** What the script of input [ix] of [tx] sees. *)
Definition spend_ctx (tx : BTransaction) (msg : BMessage) (inp : TxIn) : SpendCtx :=
  mkSpendCtx (btx_lock_time tx) (txin_sequence inp) (net_check_sig msg).

(** Input [ix] of [tx] spends a coin locked by [ops]: its signature script is the
    one given, the digest is the network's own for the transaction as it is. *)
Definition spends (tx : BTransaction) (ix : nat) (ops : list ScriptOp) : Prop :=
  exists inp msg sig_ops,
    btx_input tx !! ix = Some inp
    /\ sighash_message tx ix (into_script ops) = Ok msg
    /\ txin_script_sig inp = into_script sig_ops
    /\ accepts (spend_ctx tx msg inp) ops (p2sh_stack sig_ops) = true.

Lemma sighash_message_same t u ix s :
  same_but_scripts t u -> sighash_message u ix s = sighash_message t ix s.
Proof. intros Hs. unfold sighash_message. by rewrite (net_sighash_blank t u ix s). Qed.

(** The transaction the redeemer builds and signs with its key and the secret
    x spends the lock, whatever the refund time and the height. *)
Lemma redeem_spends_lock recv_sk x_sk refund_pk refund_time out_pk input amount fee tx tx' :
  let lock := lock_script_ops (bpk_from_private_key recv_sk) (bpk_from_private_key x_sk)
                refund_pk refund_time in
  create_spend_lock_transaction out_pk input amount fee 0 = Ok tx ->
  sign_lock_transaction_redeemer tx 0 (into_script lock) recv_sk x_sk = Ok tx' ->
  spends tx' 0 lock.
Proof.
  intros lock E E'. apply sign_redeemer_spec in E' as [Hsame Hin].
  unfold create_spend_lock_transaction in E. res_inv. destruct (negb _); res_inv.
  destruct (Hin _ eq_refl) as (msg & Em & Ei). eexists _, msg, _. split; [exact Ei|].
  split; [by rewrite (sighash_message_same _ _ _ _ Hsame)|]. split; [reflexivity|].
  apply accepts_swap; apply net_check_sig_sign; reflexivity.
Qed.

(** The refund transaction the lock's owner builds for the lock height spends
    the lock: lock time and sequence number satisfy OP_CHECKLOCKTIMEVERIFY. *)
Lemma refund_spends_lock recv_pk pub_x refund_sk refund_time out_pk input amount fee tx tx' :
  let lock := lock_script_ops recv_pk pub_x (bpk_from_private_key refund_sk) refund_time in
  0 < refund_time < lock_height_threshold ->
  create_spend_lock_transaction out_pk input amount fee refund_time = Ok tx ->
  sign_lock_transaction_refund tx 0 (into_script lock) refund_sk = Ok tx' ->
  spends tx' 0 lock.
Proof.
  intros lock Ht E E'. apply sign_refund_spec in E' as [Hsame Hin].
  pose proof Hsame as (_ & Hlt & _).
  unfold create_spend_lock_transaction in E. res_inv. destruct (negb _); res_inv.
  destruct (Hin _ eq_refl) as (msg & Em & Ei). eexists _, msg, _. split; [exact Ei|].
  split; [by rewrite (sighash_message_same _ _ _ _ Hsame)|]. split; [reflexivity|].
  apply accepts_refund; [|apply net_check_sig_sign; reflexivity].
  unfold cltv_ok, spend_ctx. cbn.
  rewrite (proj2 (Z.eqb_neq (btx_lock_time tx') 0)), (proj2 (Z.leb_le 0 _)),
    (proj2 (Z.ltb_lt _ _)), Z.leb_refl by lia. done.
Qed.

(** The same transaction built with lock time 0, as the redeemer's is, can
    never take the refund branch: its sequence number is final. *)
Theorem final_transaction_never_refunds recv_pk pub_x refund_pk refund_time out_pk input amount fee
    tx inp msg stack :
  create_spend_lock_transaction out_pk input amount fee 0 = Ok tx ->
  btx_input tx !! 0%nat = Some inp ->
  accepts (spend_ctx tx msg inp) (lock_script_ops recv_pk pub_x refund_pk refund_time) stack = true ->
  swap_way recv_pk pub_x (spend_ctx tx msg inp).
Proof.
  intros E Hin Ha. apply accepts_two_ways in Ha as [[_ [_ Hseq]%cltv_ok_final]|]; [|done].
  unfold create_spend_lock_transaction in E. res_inv. destruct (negb _); res_inv.
Qed.
End spends.
