(* ===== verification/Slate.v ===== *)
(** * grin-wallet/libwallet/src/slate.rs: the Grin transaction slate

    The operations on a slate that the swap and the wallet use, with the context
    of a participant (libwallet types.rs).  A libwallet [Error] is the name of
    its [ErrorKind]; the keychain and the curve are parameters (class
    [GrinCrates]).  The conversions of the second half of slate.rs are in
    [SlateV4]. *)
From S2P Require Import Prelude.
From S2P Require Import RustStd.
From S2P Require Import Crates.
From S2P Require Import Effects.

Section data.
Context `{GrinTypes}.

(** ** Participants *)
Record PaymentInfo := mkPaymentInfo {
  sender_address : DalekPublicKey;
  receiver_address : DalekPublicKey;
  receiver_signature : option DalekSignature }.

Record ParticipantData := mkParticipantData {
  public_blind_excess : PublicKey;
  public_nonce : PublicKey;
  part_sig : option Signature }.

Definition is_complete (p : ParticipantData) : bool :=
  match part_sig p with Some _ => true | None => false end.

(** ** The slate *)
Inductive SlateState :=
| Unknown | Standard1 | Standard2 | Standard3 | Invoice1 | Invoice2 | Invoice3.

Definition SlateState_fmt (s : SlateState) : string :=
  match s with
  | Unknown => "UN" | Standard1 => "S1" | Standard2 => "S2" | Standard3 => "S3"
  | Invoice1 => "I1" | Invoice2 => "I2" | Invoice3 => "I3"
  end.

Record KernelFeaturesArgs := mkKernelFeaturesArgs { lock_height : Z }.
Definition KernelFeaturesArgs_default : KernelFeaturesArgs := mkKernelFeaturesArgs 0.

Record VersionCompatInfo := mkVersionCompatInfo { vci_version : Z; vci_block_header_version : Z }.

Record Slate := mkSlate {
  sl_version_info : VersionCompatInfo;
  sl_num_participants : Z;
  sl_id : Uuid;
  sl_state : SlateState;
  sl_tx : option Transaction;
  sl_amount : Z;
  sl_fee_fields : FeeFields;
  sl_ttl_cutoff_height : Z;
  sl_kernel_features : Z;
  sl_offset : BlindingFactor;
  sl_participant_data : list ParticipantData;
  sl_payment_proof : option PaymentInfo;
  sl_kernel_features_args : option KernelFeaturesArgs }.

(** Field updates. *)
Definition set_sl_tx (t : option Transaction) (s : Slate) : Slate :=
  mkSlate (sl_version_info s) (sl_num_participants s) (sl_id s) (sl_state s) t (sl_amount s)
    (sl_fee_fields s) (sl_ttl_cutoff_height s) (sl_kernel_features s) (sl_offset s)
    (sl_participant_data s) (sl_payment_proof s) (sl_kernel_features_args s).
Definition set_sl_participants (l : list ParticipantData) (s : Slate) : Slate :=
  mkSlate (sl_version_info s) (sl_num_participants s) (sl_id s) (sl_state s) (sl_tx s) (sl_amount s)
    (sl_fee_fields s) (sl_ttl_cutoff_height s) (sl_kernel_features s) (sl_offset s)
    l (sl_payment_proof s) (sl_kernel_features_args s).
Definition set_sl_offset (o : BlindingFactor) (s : Slate) : Slate :=
  mkSlate (sl_version_info s) (sl_num_participants s) (sl_id s) (sl_state s) (sl_tx s) (sl_amount s)
    (sl_fee_fields s) (sl_ttl_cutoff_height s) (sl_kernel_features s) o
    (sl_participant_data s) (sl_payment_proof s) (sl_kernel_features_args s).
Definition set_sl_amount (a : Z) (s : Slate) : Slate :=
  mkSlate (sl_version_info s) (sl_num_participants s) (sl_id s) (sl_state s) (sl_tx s) a
    (sl_fee_fields s) (sl_ttl_cutoff_height s) (sl_kernel_features s) (sl_offset s)
    (sl_participant_data s) (sl_payment_proof s) (sl_kernel_features_args s).
Definition set_sl_fee_fields (f : FeeFields) (s : Slate) : Slate :=
  mkSlate (sl_version_info s) (sl_num_participants s) (sl_id s) (sl_state s) (sl_tx s) (sl_amount s)
    f (sl_ttl_cutoff_height s) (sl_kernel_features s) (sl_offset s)
    (sl_participant_data s) (sl_payment_proof s) (sl_kernel_features_args s).

(** ** The context of a participant (types.rs, api_impl/types.rs) *)
Record SlatepackAddress := mkSlatepackAddress { spa_hrp : string; spa_pub_key : DalekPublicKey }.

Record InitTxSendArgs := mkInitTxSendArgs {
  ita_dest : string; ita_post_tx : bool; ita_fluff : bool; ita_skip_tor : bool }.

Record InitTxArgs := mkInitTxArgs {
  ita_src_acct_name : option string;
  ita_amount : Z;
  ita_minimum_confirmations : Z;
  ita_max_outputs : Z;
  ita_num_change_outputs : Z;
  ita_selection_strategy_is_use_all : bool;
  ita_target_slate_version : option Z;
  ita_ttl_blocks : option Z;
  ita_payment_proof_recipient_address : option SlatepackAddress;
  ita_estimate_only : option bool;
  ita_late_lock : option bool;
  ita_send_args : option InitTxSendArgs }.

Record Context_ := mkContext {
  ctx_parent_key_id : Identifier;
  ctx_sec_key : SecretKey;
  ctx_sec_nonce : SecretKey;
  ctx_initial_sec_key : SecretKey;
  ctx_initial_sec_nonce : SecretKey;
  ctx_output_ids : list (Identifier * option Z * Z);
  ctx_input_ids : list (Identifier * option Z * Z);
  ctx_amount : Z;
  ctx_fee : option FeeFields;
  ctx_payment_proof_derivation_index : option Z;
  ctx_late_lock_args : option InitTxArgs;
  ctx_calculated_excess : option Commitment }.
End data.

#[export] Instance SlateState_eq : EqDecision SlateState.
Proof. solve_decision. Defined.

(** [slate_versions/mod.rs] *)
Definition CURRENT_SLATE_VERSION : Z := 4.
Definition GRIN_BLOCK_HEADER_VERSION : Z := 3.

Section code.
Context `{BuildProfile, GrinCrates}.
Implicit Types s : Slate.

Definition tx_or_err s : Res Transaction :=
  match sl_tx s with Some t => Ok t | None => Err "SlateTransactionRequired" end.

Definition num_participants s : Z :=
  if sl_num_participants s =? 0 then 2 else sl_num_participants s.

Definition compact s : Res Slate := Ok (set_sl_tx None s).

Definition empty_transaction : Transaction := tx_replace_inputs (FeaturesAndCommit []) tx_empty.

Definition blank_with_kernel_features (num_parts : Z) (is_invoice : bool) (kernel_feat_param : Z)
    (lock_height_param : option Z) : M Slate :=
  let np := if num_parts =? 0 then 2 else num_parts in
  let state := if is_invoice then Invoice1 else Standard1 in
  let kernel_features := if 3 <? kernel_feat_param then 0 else kernel_feat_param in
  let kernel_feat_args :=
    match lock_height_param with
    | Some h => if (kernel_features =? 2) || (kernel_features =? 3)
                then Some (mkKernelFeaturesArgs h) else None
    | None => None
    end in
  seed ← draw;
  mret {| sl_num_participants := np;
          sl_id := uuid_new_v4 seed;
          sl_state := state;
          sl_tx := Some empty_transaction;
          sl_amount := 0;
          sl_fee_fields := fee_zero;
          sl_ttl_cutoff_height := 0;
          sl_kernel_features := kernel_features;
          sl_offset := bf_zero;
          sl_participant_data := [];
          sl_version_info := mkVersionCompatInfo CURRENT_SLATE_VERSION GRIN_BLOCK_HEADER_VERSION;
          sl_payment_proof := None;
          sl_kernel_features_args := kernel_feat_args |}.

Definition blank (num_parts : Z) (is_invoice : bool) : M Slate :=
  blank_with_kernel_features num_parts is_invoice 0 None.

(** "This entry is mine": both public keys match. *)
Definition mine (pub_excess pub_nonce : PublicKey) (p : ParticipantData) : bool :=
  bool_decide (public_blind_excess p = pub_excess) && bool_decide (public_nonce p = pub_nonce).

Definition remove_other_sigdata s (sec_nonce sec_key : SecretKey) : Res Slate :=
  pub_nonce ← ok_or "Secp" (pk_from_secret_key sec_nonce);
  pub_key ← ok_or "Secp" (pk_from_secret_key sec_key);
  Ok (set_sl_participants (filter (fun v => mine pub_key pub_nonce v = true) (sl_participant_data s)) s).

(** ** The kernel *)
Definition kernel_features s : Res KernelFeatures :=
  match sl_kernel_features s with
  | 0 => Ok (KPlain (sl_fee_fields s))
  | 1 => Err "InvalidKernelFeatures(1)"
  | 2 => match sl_kernel_features_args s with
         | Some a => Ok (KHeightLocked (sl_fee_fields s) (lock_height a))
         | None => Err "KernelFeaturesMissing(lock_height)"
         end
  | 3 => match sl_kernel_features_args s with
         | Some a => h ← nrd_height_new (lock_height a); Ok (KNoRecentDuplicate (sl_fee_fields s) h)
         | None => Err "KernelFeaturesMissing(lock_height)"
         end
  | n => Err ("UnknownKernelFeatures(" +:+ fmt_u64 n +:+ ")")
  end.

Definition update_kernel s : Res Slate :=
  tx ← tx_or_err s;
  features ← kernel_features s;
  Ok (set_sl_tx (Some (tx_replace_kernel (kernel_with_features features) tx)) s).

Definition add_transaction_elements s (elems : list BuildElem) : Res (Slate * BlindingFactor) :=
  s ← update_kernel s;
  match elems with
  | [] => Ok (s, bf_zero)
  | _ => tx ← tx_or_err s;
         '(tx', blind) ← partial_transaction tx elems;
         Ok (set_sl_tx (Some tx') s, blind)
  end.

Definition msg_to_sign s : Res Message := features ← kernel_features s; kernel_sig_msg features.

(** ** Signing *)
Definition pub_nonce_sum s : Res PublicKey :=
  match public_nonce <$> sl_participant_data s with
  | [] => Err "Commit(Participant nonces cannot be empty)"
  | l => pk_from_combination l
  end.

Definition pub_blind_sum s : Res PublicKey :=
  match public_blind_excess <$> sl_participant_data s with
  | [] => Err "Commit(Participant Blind sums cannot be empty)"
  | l => pk_from_combination l
  end.

Definition part_sigs s : list Signature := omap part_sig (sl_participant_data s).

(** [part_sig == None && mine]: the signature already present is kept. *)
Definition keep_sig (pub_key pub_nonce : PublicKey) (acc : option Signature) (v : ParticipantData) :
    option Signature :=
  if mine pub_key pub_nonce v && bool_decide (acc = None) then part_sig v else acc.

Definition add_participant_info s (context : Context_) (sig : option Signature) : Res Slate :=
  pub_key ← ok_or "Secp" (pk_from_secret_key (ctx_sec_key context));
  pub_nonce ← ok_or "Secp" (pk_from_secret_key (ctx_sec_nonce context));
  let kept := foldl (keep_sig pub_key pub_nonce) sig (sl_participant_data s) in
  let others := filter (fun v => mine pub_key pub_nonce v = false) (sl_participant_data s) in
  Ok (set_sl_participants (others ++ [mkParticipantData pub_key pub_nonce kept]) s).

Definition fill_round_1 s (context : Context_) : Res Slate := add_participant_info s context None.

Definition verify_part_sigs s : Res unit :=
  res_fold (fun _ p =>
    match part_sig p with
    | Some sig =>
        nonce_sum ← pub_nonce_sum s;
        blind_sum ← pub_blind_sum s;
        msg ← msg_to_sign s;
        verify_partial_sig sig nonce_sum (public_blind_excess p) (Some blind_sum) msg
    | None => Ok tt
    end) tt (sl_participant_data s).

(** [for i in 0..n { if test(data[i]) { data[i].part_sig = Some(sig); break; } }] *)
Definition with_part_sig (sig : Signature) (p : ParticipantData) : ParticipantData :=
  mkParticipantData (public_blind_excess p) (public_nonce p) (Some sig).

Fixpoint set_first (test : ParticipantData -> bool) (sig : Signature) (n i : nat)
    (l : list ParticipantData) : Res (list ParticipantData) :=
  match n with
  | O => Ok l
  | S n' => match l !! i with
            | None => Panic "index out of bounds"
            | Some p => if test p then Ok (<[i := with_part_sig sig p]> l)
                        else set_first test sig n' (S i) l
            end
  end.

Definition set_first_in (test : ParticipantData -> bool) (sig : Signature) s : Res Slate :=
  l ← set_first test sig (Z.to_nat (num_participants s)) 0 (sl_participant_data s);
  Ok (set_sl_participants l s).

Definition fill_round_2 s (sec_key sec_nonce : SecretKey) : Res Slate :=
  _ ← verify_part_sigs s;
  nonce_sum ← pub_nonce_sum s;
  blind_sum ← pub_blind_sum s;
  msg ← msg_to_sign s;
  sig_part ← calculate_partial_sig sec_key sec_nonce nonce_sum (Some blind_sum) msg;
  pub_excess ← ok_or "Secp" (pk_from_secret_key sec_key);
  pub_nonce ← ok_or "Secp" (pk_from_secret_key sec_nonce);
  set_first_in (mine pub_excess pub_nonce) sig_part s.

(** ** The offset *)
Definition derive_bf (k : Identifier * option Z * Z) : Res BlindingFactor :=
  let '(id, _, amount) := k in sk ← keychain_derive_key amount id; Ok (bf_from_secret_key sk).

Definition adjust_offset s (context : Context_) : Res Slate :=
  let sum := [AddBF (sl_offset s); SubBF (bf_from_secret_key (ctx_initial_sec_key context))] in
  ins ← res_map derive_bf (ctx_input_ids context);
  outs ← res_map derive_bf (ctx_output_ids context);
  offset ← keychain_blind_sum (sum ++ (SubBF <$> ins) ++ (AddBF <$> outs));
  Ok (set_sl_offset offset s).

(** ** Finalising *)
Definition check_fees s : Res unit :=
  tx ← tx_or_err s;
  let fee := tx_fee (inputs_len (tx_inputs tx)) (length (tx_outputs tx)) (length (tx_kernels tx)) in
  if tx_fee_at tx (2 * YEAR_HEIGHT) <? fee then
    Err ("Fee(Fee Dispute Error: " +:+ fmt_u64 (tx_fee_at tx (2 * YEAR_HEIGHT)) +:+ ", "
         +:+ fmt_u64 fee +:+ ")")
  else
    total ← u64_add (sl_amount s) (fee_fee (sl_fee_fields s) (2 * YEAR_HEIGHT));
    if total <? fee then
      Err ("Fee(Rejected the transfer because transaction fee (" +:+ amount_to_hr_string fee false
           +:+ ") exceeds received amount (" +:+ amount_to_hr_string total false +:+ ").)")
    else Ok tt.

Definition finalize_signature s : Res Signature :=
  _ ← verify_part_sigs s;
  nonce_sum ← pub_nonce_sum s;
  final_pubkey ← pub_blind_sum s;
  final_sig ← add_signatures (part_sigs s) nonce_sum;
  msg ← msg_to_sign s;
  _ ← verify_completed_sig final_sig final_pubkey (Some final_pubkey) msg;
  Ok final_sig.

Definition calc_excess s : Res Commitment := sum ← pub_blind_sum s; commit_from_pubkey sum.

Definition finalize_transaction s (final_sig : Signature) : Res Slate :=
  _ ← check_fees s;
  final_excess ← calc_excess s;
  final_tx ← tx_or_err s;
  match tx_kernels final_tx with
  | [k] =>
      let kernel := mkKernel (kern_features k) final_excess final_sig in
      let final_tx := tx_replace_kernel kernel final_tx in
      k0 ← match tx_kernels final_tx with
           | k0 :: _ => Ok k0
           | [] => Panic "index out of bounds"
           end;
      _ ← kernel_verify k0;
      _ ← tx_validate final_tx;
      Ok (set_sl_tx (Some final_tx) s)
  | _ => Panic "assertion failed: `(left == right)`"
  end.

Definition finalize s : Res Slate :=
  final_sig ← finalize_signature s;
  finalize_transaction s final_sig.
End code.

(** ** Lemmas *)
Section lemmas.
Context `{BuildProfile, GrinCrates}.
Implicit Types s : Slate.

Lemma mine_true k n p : mine k n p = true <-> public_blind_excess p = k /\ public_nonce p = n.
Proof. unfold mine. by rewrite andb_true_iff, !bool_decide_eq_true. Qed.
Lemma mine_with_sig k n sig p : mine k n (with_part_sig sig p) = mine k n p.
Proof. reflexivity. Qed.

(** Everything but the participants. *)
Definition same_but_participants s t : Prop :=
  set_sl_participants [] s = set_sl_participants [] t.
#[global] Instance same_but_participants_equiv : Equivalence same_but_participants.
Proof. split; unfold same_but_participants; [done|intros ??|intros ???]; congruence. Qed.

Lemma set_participants_same l s : same_but_participants (set_sl_participants l s) s.
Proof. done. Qed.

Lemma same_num_participants s t : same_but_participants s t -> num_participants s = num_participants t.
Proof. intros E. unfold num_participants. by injection E as _ -> _. Qed.

Lemma foldl_keep_sig k n l :
  Forall (fun v => mine k n v = false) l -> foldl (keep_sig k n) None l = None.
Proof. induction 1 as [|v l Hv _ IH]; [done|]. cbn. unfold keep_sig at 2. by rewrite Hv. Qed.

Lemma filter_mine_all k n l :
  Forall (fun v => mine k n v = false) l -> filter (fun v => mine k n v = false) l = l.
Proof.
  induction 1 as [|v l Hv _ IH]; [done|]. rewrite filter_cons_True by done. by f_equal.
Qed.

(** [fill_round_1] puts the participant's entry last, once, and keeps a signature
    that was already there. *)
Lemma fill_round_1_spec s c s' :
  fill_round_1 s c = Ok s' ->
  exists k n sig,
    pk_from_secret_key (ctx_sec_key c) = Some k /\ pk_from_secret_key (ctx_sec_nonce c) = Some n
    /\ same_but_participants s' s
    /\ sl_participant_data s' =
         filter (fun v => mine k n v = false) (sl_participant_data s) ++ [mkParticipantData k n sig]
    /\ (Forall (fun v => mine k n v = false) (sl_participant_data s) -> sig = None).
Proof.
  unfold fill_round_1, add_participant_info. intros E. res_inv.
  eexists _, _, _. split; [done|]. split; [done|]. split; [done|]. split; [reflexivity|].
  apply foldl_keep_sig.
Qed.

(** A participant that is not in the slate yet is appended, without a signature. *)
Lemma fill_round_1_new s c k n :
  pk_from_secret_key (ctx_sec_key c) = Some k -> pk_from_secret_key (ctx_sec_nonce c) = Some n ->
  Forall (fun v => mine k n v = false) (sl_participant_data s) ->
  fill_round_1 s c =
    Ok (set_sl_participants (sl_participant_data s ++ [mkParticipantData k n None]) s).
Proof.
  intros Ek En Hn. unfold fill_round_1, add_participant_info. rewrite Ek, En.
  cbn -[filter foldl]. by rewrite filter_mine_all, foldl_keep_sig by done.
Qed.

Lemma filter_mine_false k n l :
  Forall (fun v => mine k n v = false) (filter (fun v => mine k n v = false) l).
Proof. apply Forall_forall. intros v Hv. by apply list_elem_of_filter in Hv as [Hv _]. Qed.

(** The loop that stores a signature: the first entry that passes the test within
    the declared number of participants gets it, and only that one. *)
Lemma set_first_spec test sig n : forall i l l',
  set_first test sig n i l = Ok l' ->
  (l' = l /\ forall j p, (i <= j < i + n)%nat -> l !! j = Some p -> test p = false)
  \/ exists j p, (i <= j < i + n)%nat /\ l !! j = Some p /\ test p = true
       /\ l' = <[j := with_part_sig sig p]> l
       /\ forall j' p', (i <= j' < j)%nat -> l !! j' = Some p' -> test p' = false.
Proof.
  induction n as [|n IH]; intros i l l' E; cbn in E.
  - left. injection E as <-. split; [done|]. intros. lia.
  - destruct (l !! i) as [p|] eqn:Ei; [|done]. destruct (test p) eqn:Et.
    + right. injection E as <-. exists i, p. repeat split; [lia|lia|done|done|]. intros. lia.
    + apply IH in E as [[-> Hf]|(j & q & Hj & Eq & Hq & -> & Hf)].
      * left. split; [done|]. intros j q Hj Eq. destruct (decide (j = i)) as [->|]; [congruence|].
        apply (Hf j); [lia|done].
      * right. exists j, q. repeat split; [lia|lia|done|done|]. intros j' p' Hj' Ep.
        destruct (decide (j' = i)) as [->|]; [congruence|]. apply (Hf j'); [lia|done].
Qed.

(** It never runs past the end when the entries are all there. *)
Lemma set_first_total test sig n : forall i l,
  (i + n <= length l)%nat -> is_ok (set_first test sig n i l) = true.
Proof.
  induction n as [|n IH]; intros i l Hl; cbn; [done|].
  destruct (lookup_lt_is_Some_2 l i) as [p ->]; [lia|].
  destruct (test p); [done|]. apply IH. lia.
Qed.

Lemma set_first_length test sig n i l l' :
  set_first test sig n i l = Ok l' -> length l' = length l.
Proof.
  intros E. apply set_first_spec in E as [[-> _]|(j & p & _ & _ & _ & -> & _)]; [done|].
  by rewrite length_insert.
Qed.

(** Public keys and nonces are never changed by storing a signature. *)
Lemma set_first_keys test sig n i l l' j p' :
  set_first test sig n i l = Ok l' -> l' !! j = Some p' ->
  exists p, l !! j = Some p /\ public_blind_excess p = public_blind_excess p'
            /\ public_nonce p = public_nonce p'.
Proof.
  intros E Ej. apply set_first_spec in E as [[-> _]|(j0 & p0 & _ & E0 & _ & -> & _)]; [eauto|].
  destruct (decide (j = j0)) as [->|Hne].
  - rewrite list_lookup_insert_eq in Ej by eauto using lookup_lt_Some. injection Ej as <-. eauto.
  - rewrite list_lookup_insert_ne in Ej by done. eauto.
Qed.

Lemma set_first_in_same test sig s s' : set_first_in test sig s = Ok s' -> same_but_participants s' s.
Proof. unfold set_first_in. intros E. res_inv. done. Qed.

Lemma verify_part_sigs_same s t :
  sl_participant_data s = sl_participant_data t -> msg_to_sign s = msg_to_sign t ->
  verify_part_sigs s = verify_part_sigs t.
Proof.
  intros Ep Em. unfold verify_part_sigs, pub_nonce_sum, pub_blind_sum. by rewrite Ep, Em.
Qed.

(** Every partial signature was checked against the sums of all the keys. *)
Lemma verify_part_sigs_ok s : verify_part_sigs s = Ok tt ->
  forall p sig, p ∈ sl_participant_data s -> part_sig p = Some sig ->
  exists nonce_sum blind_sum msg,
    pub_nonce_sum s = Ok nonce_sum /\ pub_blind_sum s = Ok blind_sum /\ msg_to_sign s = Ok msg
    /\ verify_partial_sig sig nonce_sum (public_blind_excess p) (Some blind_sum) msg = Ok tt.
Proof.
  unfold verify_part_sigs. generalize (sl_participant_data s) as l.
  induction l as [|q l IH]; intros E p sig Hp Es; [by apply not_elem_of_nil in Hp|].
  cbn in E. apply res_bind_Ok in E as ([] & E1 & E2).
  apply elem_of_cons in Hp as [->|Hp]; [|by eapply IH].
  rewrite Es in E1. res_inv. eauto 8.
Qed.
End lemmas.

(** ** Properties *)
Section properties.
Context `{BuildProfile, GrinCrates}.
Implicit Types s : Slate.

(** The kernel a slate asks for. *)
Definition kernel_asked s (f : KernelFeatures) : Prop :=
  (sl_kernel_features s = 0 /\ f = KPlain (sl_fee_fields s))
  \/ (exists a, sl_kernel_features_args s = Some a
      /\ ((sl_kernel_features s = 2 /\ f = KHeightLocked (sl_fee_fields s) (lock_height a))
          \/ (exists h, sl_kernel_features s = 3 /\ nrd_height_new (lock_height a) = Ok h
              /\ f = KNoRecentDuplicate (sl_fee_fields s) h))).

Lemma kernel_features_asked s f : kernel_features s = Ok f <-> kernel_asked s f.
Proof.
  unfold kernel_features, kernel_asked. split.
  - destruct (sl_kernel_features s) as [|[[|[]|]|[|[]|]|]|]; intros Ef; try done;
      [left; res_inv; done|..]; destruct (sl_kernel_features_args s) as [a|]; try done; res_inv;
      right; exists a; eauto 8.
  - intros [[E ->]|(a & Ea & [[E ->]|(h & E & Eh & ->)])]; rewrite E; [done|by rewrite Ea|].
    rewrite Ea. by rewrite Eh.
Qed.

(** [verify_part_sigs] accepts exactly the slates whose partial signatures all verify. *)
Lemma verify_part_sigs_all s nonce_sum blind_sum msg :
  pub_nonce_sum s = Ok nonce_sum -> pub_blind_sum s = Ok blind_sum -> msg_to_sign s = Ok msg ->
  (forall p sig, p ∈ sl_participant_data s -> part_sig p = Some sig ->
     verify_partial_sig sig nonce_sum (public_blind_excess p) (Some blind_sum) msg = Ok tt) ->
  verify_part_sigs s = Ok tt.
Proof.
  intros En Eb Em. unfold verify_part_sigs. rewrite En, Eb, Em. generalize (sl_participant_data s) as l.
  induction l as [|p l IH]; intros Hl; [done|]. cbn. destruct (part_sig p) as [sig|] eqn:Es.
  - rewrite (Hl p sig) by (by constructor || done). cbn. apply IH. intros q qs Hq. apply Hl. by right.
  - cbn. apply IH. intros q qs Hq. apply Hl. by right.
Qed.

(** What a finalised slate is.  Its transaction had one kernel, and its participants sum
    up: the public keys to [blind_sum], the nonces to [nonce_sum].  Every partial signature
    verifies for its participant's key, both sums and the message of the kernel that was asked for;
    their sum verifies for the sum of the keys.  The transaction pays the fee of its weight, and
    amount and fee of the slate together cover it.  The kernel gets the summed excess and
    signature; it verifies, and the chain accepts the transaction. *)
Definition finalised s s' : Prop :=
  exists tx k f msg blind_sum nonce_sum sig excess total,
    let parts := sl_participant_data s in
    let fee := tx_fee (inputs_len (tx_inputs tx)) (length (tx_outputs tx)) 1 in
    let fin := tx_replace_kernel (mkKernel (kern_features k) excess sig) tx in
    sl_tx s = Some tx /\ tx_kernels tx = [k]
    /\ kernel_asked s f /\ kernel_sig_msg f = Ok msg
    /\ parts <> [] /\ pk_from_combination (public_blind_excess <$> parts) = Ok blind_sum
    /\ pk_from_combination (public_nonce <$> parts) = Ok nonce_sum
    /\ (forall p psig, p ∈ parts -> part_sig p = Some psig ->
          verify_partial_sig psig nonce_sum (public_blind_excess p) (Some blind_sum) msg = Ok tt)
    /\ fee <= tx_fee_at tx (2 * YEAR_HEIGHT)
    /\ u64_add (sl_amount s) (fee_fee (sl_fee_fields s) (2 * YEAR_HEIGHT)) = Ok total /\ fee <= total
    /\ add_signatures (omap part_sig parts) nonce_sum = Ok sig
    /\ verify_completed_sig sig blind_sum (Some blind_sum) msg = Ok tt
    /\ commit_from_pubkey blind_sum = Ok excess
    /\ s' = set_sl_tx (Some fin) s /\ tx_validate fin = Ok tt
    /\ forall k0, head (tx_kernels fin) = Some k0 -> kernel_verify k0 = Ok tt.

Lemma blind_sum_ok s b :
  pub_blind_sum s = Ok b <->
  sl_participant_data s <> [] /\ pk_from_combination (public_blind_excess <$> sl_participant_data s) = Ok b.
Proof. unfold pub_blind_sum. destruct (sl_participant_data s); cbn; naive_solver. Qed.
Lemma nonce_sum_ok s n :
  pub_nonce_sum s = Ok n <->
  sl_participant_data s <> [] /\ pk_from_combination (public_nonce <$> sl_participant_data s) = Ok n.
Proof. unfold pub_nonce_sum. destruct (sl_participant_data s); cbn; naive_solver. Qed.
Lemma msg_ok s msg :
  msg_to_sign s = Ok msg <-> exists f, kernel_asked s f /\ kernel_sig_msg f = Ok msg.
Proof.
  unfold msg_to_sign. rewrite res_bind_Ok. by setoid_rewrite kernel_features_asked.
Qed.
Lemma check_fees_ok s tx k :
  sl_tx s = Some tx -> tx_kernels tx = [k] ->
  let fee := tx_fee (inputs_len (tx_inputs tx)) (length (tx_outputs tx)) 1 in
  check_fees s = Ok tt <->
  fee <= tx_fee_at tx (2 * YEAR_HEIGHT)
  /\ exists total, u64_add (sl_amount s) (fee_fee (sl_fee_fields s) (2 * YEAR_HEIGHT)) = Ok total /\ fee <= total.
Proof.
  intros Et Ek fee. unfold check_fees, tx_or_err. rewrite Et. cbn [mbind Res_bind]. rewrite Ek. cbn [length]. fold fee.
  destruct (Z.ltb_spec (tx_fee_at tx (2 * YEAR_HEIGHT)) fee); [split; [done|lia]|].
  destruct (u64_add _ _) as [total|e|e]; cbn; [|naive_solver..].
  destruct (Z.ltb_spec total fee); split; [done|intros (_ & t & [= <-] & Hle); lia|eauto|done].
Qed.

Lemma finalize_finalised s s' : finalize s = Ok s' -> finalised s s'.
Proof.
  intros E. unfold finalize in E. apply res_bind_Ok in E as (sig & Es & E).
  unfold finalize_signature in Es. apply res_bind_Ok in Es as ([] & Ev & Es).
  apply res_bind_Ok in Es as (ns & En & Es). apply res_bind_Ok in Es as (bs & Eb & Es).
  apply res_bind_Ok in Es as (sig' & Ea & Es). apply res_bind_Ok in Es as (msg & Em & Es).
  apply res_bind_Ok in Es as ([] & Ec & [= ->]).
  unfold finalize_transaction, calc_excess in E. rewrite Eb in E. apply res_bind_Ok in E as ([] & Ef & E).
  apply res_bind_Ok in E as (ex & Ex & E). cbn in Ex. unfold tx_or_err in E.
  destruct (sl_tx s) as [tx|] eqn:Et; [|done]. cbn in E.
  destruct (tx_kernels tx) as [|k [|]] eqn:Ek; [done| |done].
  destruct (tx_kernels (tx_replace_kernel _ _)) as [|k0 l] eqn:Ek0; [done|]. cbn in E.
  apply res_bind_Ok in E as ([] & Hk & E). apply res_bind_Ok in E as ([] & Hv & [= <-]).
  pose proof (proj1 (check_fees_ok _ _ _ Et Ek) Ef) as (F1 & total & F2 & F3).
  apply msg_ok in Em as Em'. destruct Em' as (f & Hf & Hm).
  apply blind_sum_ok in Eb as Eb'. destruct Eb' as [Hne Hb]. apply nonce_sum_ok in En as En'. destruct En' as [_ Hn].
  exists tx, k, f, msg, bs, ns, sig, ex, total. do 7 (split; [done|]). split; [|do 8 (split; [done|])].
  - intros p psig Hp Hs. destruct (verify_part_sigs_ok s Ev p psig Hp Hs) as (n' & b' & m' & E1 & E2 & E3 & E4).
    congruence.
  - rewrite Ek0. intros k1 E1. cbn in E1. by injection E1 as <-.
Qed.

(** The transaction of a finalised slate. *)
Lemma finalised_tx s s' : finalised s s' ->
  exists tx k sig excess, let fin := tx_replace_kernel (mkKernel (kern_features k) excess sig) tx in
    sl_tx s = Some tx /\ tx_kernels tx = [k] /\ s' = set_sl_tx (Some fin) s /\ tx_validate fin = Ok tt.
Proof.
  intros (tx & k & _ & _ & _ & _ & sig & excess & _ & Et & Ek & _ & _ & _ & _ & _ & _ & _ & _ & _ & _ & _ & _ & Es & Hv & _).
  by exists tx, k, sig, excess.
Qed.

(** C8: A slate can be finalised exactly when it may be: [finalize] succeeds if and
    only if every partial signature verifies for its participant and their sum for all of
    them, the transaction pays its fee and the slate's amount and fee cover it, and
    the kernel and the transaction verify; and the result carries the summed excess and
    signature. *)
Theorem finalize_sound `{!TxLaws} s s' : finalize s = Ok s' <-> finalised s s'.
Proof.
  split; [apply finalize_finalised|].
  intros (tx & k & f & msg & bs & ns & sig & ex & total & Et & Ek & Hf & Hm & Hne & Hb & Hn & Hp & F1 & F2 & F3 & Ea & Ec & Ex
    & -> & Hv & Hk).
  assert (Em : msg_to_sign s = Ok msg) by (apply msg_ok; eauto).
  assert (Eb : pub_blind_sum s = Ok bs) by (by apply blind_sum_ok).
  assert (En : pub_nonce_sum s = Ok ns) by (by apply nonce_sum_ok).
  assert (Ef : check_fees s = Ok tt) by (apply (check_fees_ok _ _ _ Et Ek); eauto).
  unfold finalize, finalize_signature, finalize_transaction, calc_excess, tx_or_err.
  rewrite (verify_part_sigs_all s ns bs msg) by done. rewrite En, Eb. cbn. unfold part_sigs. rewrite Ea, Em. cbn. rewrite Ec. cbn.
  rewrite Ef. cbn. rewrite Ex. cbn. rewrite Et. cbn. rewrite Ek, tx_kernels_replace_kernel. cbn.
  rewrite Hk by by rewrite tx_kernels_replace_kernel. cbn. by rewrite Hv.
Qed.

(** A slate can be signed only when its kernel feature is plain, height locked
    or no-recent-duplicate, the last two with their argument, and the message is
    that of this very kernel: fee and lock height are signed. *)
Theorem msg_to_sign_kernel s msg :
  msg_to_sign s = Ok msg ->
  exists f, kernel_sig_msg f = Ok msg /\ kernel_asked s f.
Proof. intros (f & Hf & Em)%msg_ok. eauto. Qed.

(** Adding one's signature leaves the keys, the nonces and the signatures of
    the others alone; it goes into the first entry with one's own keys, and only
    after every signature already present was verified. *)
Theorem fill_round_2_frame s sec_key sec_nonce s' :
  fill_round_2 s sec_key sec_nonce = Ok s' ->
  verify_part_sigs s = Ok tt /\ same_but_participants s' s
  /\ length (sl_participant_data s') = length (sl_participant_data s)
  /\ exists k n nonce_sum blind_sum msg sig,
       pk_from_secret_key sec_key = Some k /\ pk_from_secret_key sec_nonce = Some n
       /\ pub_nonce_sum s = Ok nonce_sum /\ pub_blind_sum s = Ok blind_sum /\ msg_to_sign s = Ok msg
       /\ calculate_partial_sig sec_key sec_nonce nonce_sum (Some blind_sum) msg = Ok sig
       /\ forall j p, sl_participant_data s !! j = Some p ->
            sl_participant_data s' !! j = Some p
            \/ (mine k n p = true /\ sl_participant_data s' !! j = Some (with_part_sig sig p)
                /\ forall i q, (i < j)%nat -> sl_participant_data s !! i = Some q -> mine k n q = false).
Proof.
  unfold fill_round_2. intros E. res_inv. destruct x. unfold set_first_in in E. res_inv.
  match goal with H : set_first _ _ _ _ _ = Ok _ |- _ => rename H into Hs end.
  split; [done|]. split; [done|]. split; [by eapply set_first_length|].
  do 6 eexists. repeat (split; [eassumption|]). intros j p Hj. cbn.
  apply set_first_spec in Hs as [[-> _]|(i & q & Hi & Hq & Hm & -> & Hf)]; [by left|].
  destruct (decide (j = i)) as [->|Hne].
  - right. assert (q = p) as -> by congruence. split; [done|].
    split; [apply list_lookup_insert_eq; by eapply lookup_lt_Some|].
    intros i' q' Hlt Hq'. apply (Hf i' q'); [lia|done].
  - left. by rewrite list_lookup_insert_ne.
Qed.

(** Round 1 is idempotent on membership: however often the same participant
    enters, it has exactly one entry, the last one. *)
Theorem fill_round_1_once s c s' :
  fill_round_1 s c = Ok s' ->
  exists k n sig others,
    sl_participant_data s' = others ++ [mkParticipantData k n sig]
    /\ pk_from_secret_key (ctx_sec_key c) = Some k /\ pk_from_secret_key (ctx_sec_nonce c) = Some n
    /\ Forall (fun v => mine k n v = false) others
    /\ others = filter (fun v => mine k n v = false) (sl_participant_data s).
Proof.
  intros E. apply fill_round_1_spec in E as (k & n & sig & Ek & En & _ & -> & _).
  exists k, n, sig, (filter (fun v => mine k n v = false) (sl_participant_data s)).
  split; [done|]. split; [done|]. split; [done|]. split; [apply filter_mine_false|done].
Qed.
End properties.
