(* ===== verification/SlateV4.v ===== *)
(** * Version 4 of the slate: slate_versions/v4.rs, mod.rs and the conversions of slate.rs

    A slate travels as the JSON text of a [SlateV4].  The text codec (serde) is a
    parameter; the conversions in both directions, the rebuilding of the
    transaction from the commitments ([tx_from_slate_v4]) and the serde defaults
    are the code's. *)
From S2P Require Import Prelude.
From S2P Require Import RustStd.
From S2P Require Import Crates.
From S2P Require Import Effects.
From S2P Require Import Slate.

Section data.
Context `{GrinTypes}.

(** ** v4.rs *)
Inductive SlateStateV4 :=
| UnknownV4 | Standard1V4 | Standard2V4 | Standard3V4 | Invoice1V4 | Invoice2V4 | Invoice3V4.

Record KernelFeaturesArgsV4 := mkKernelFeaturesArgsV4 { lock_hgt : Z }.
Record VersionCompatInfoV4 := mkVersionCompatInfoV4 { v4_version : Z; v4_block_header_version : Z }.
Record ParticipantDataV4 := mkParticipantDataV4 {
  v4_xs : PublicKey; v4_nonce : PublicKey; v4_part : option Signature }.
Record PaymentInfoV4 := mkPaymentInfoV4 {
  v4_saddr : DalekPublicKey; v4_raddr : DalekPublicKey; v4_rsig : option DalekSignature }.

(** [OutputFeaturesV4(pub u8)] *)
Definition OutputFeaturesV4 : Type := Z.

Record CommitsV4 := mkCommitsV4 {
  com_f : OutputFeaturesV4; com_c : Commitment; com_p : option RangeProof }.

Record SlateV4 := mkSlateV4 {
  v4_ver : VersionCompatInfoV4;
  v4_id : Uuid;
  v4_sta : SlateStateV4;
  v4_off : BlindingFactor;
  v4_num_parts : Z;
  v4_amt : Z;
  v4_fee : FeeFields;
  v4_feat : Z;
  v4_ttl : Z;
  v4_sigs : list ParticipantDataV4;
  v4_coms : option (list CommitsV4);
  v4_proof : option PaymentInfoV4;
  v4_feat_args : option KernelFeaturesArgsV4 }.

(** ** mod.rs *)
Inductive SlateVersion := SV4.
Inductive VersionedSlate := VS4 (s : SlateV4).
Inductive VersionedBinSlate := VBS4 (s : SlateV4).   (* [SlateV4Bin] wraps a [SlateV4] *)

Definition VersionedSlate_version (v : VersionedSlate) : SlateVersion :=
  match v with VS4 _ => SV4 end.
Definition bin_of_versioned (v : VersionedSlate) : Res VersionedBinSlate :=
  match v with VS4 s => Ok (VBS4 s) end.
Definition versioned_of_bin (v : VersionedBinSlate) : VersionedSlate :=
  match v with VBS4 s => VS4 s end.
End data.

(** The serde text of a version 4 slate. *)
Class SlateJson `{GrinTypes} := {
  slate_v4_to_json : SlateV4 -> Res string;
  versioned_slate_of_json : string -> Res VersionedSlate;
}.

Section code.
Context `{BuildProfile, GrinCrates}.

(** *** serde defaults: what is left out of the text, and what is put back *)
Definition offset_is_zero (o : BlindingFactor) : bool := bool_decide (o = bf_zero).
Definition default_offset_zero : BlindingFactor := bf_zero.
Definition num_parts_is_2 (n : Z) : bool := n =? 2.
Definition default_num_participants_2 : Z := 2.
Definition u64_is_blank (u : Z) : bool := u =? 0.
Definition default_u64_0 : Z := 0.
Definition u8_is_blank (u : Z) : bool := u =? 0.
Definition default_u8_0 : Z := 0.
Definition fee_is_zero (f : FeeFields) : bool := ff_is_zero f.
Definition default_fee : FeeFields := fee_zero.
Definition output_feature_is_plain (o : OutputFeaturesV4) : bool := o =? 0.
Definition default_output_feature : OutputFeaturesV4 := 0.

Definition sig_is_blank (s : Signature) : bool :=
  forallb (fun b => Ascii.eqb b Ascii.zero) (String.list_ascii_of_string (sig_to_raw_data s)).

(** *** Outputs and inputs as commitments *)
Definition v4_of_output_features (f : OutputFeatures) : OutputFeaturesV4 :=
  match f with OFPlain => 0 | OFCoinbase => 1 end.
Definition output_features_of_v4 (f : OutputFeaturesV4) : OutputFeatures :=
  match f with 1 => OFCoinbase | _ => OFPlain end.

Definition v4_of_output (o : Output) : CommitsV4 :=
  mkCommitsV4 (v4_of_output_features (out_features o)) (out_commit o) (Some (out_proof o)).
Definition v4_of_input (i : Input) : CommitsV4 :=
  mkCommitsV4 (v4_of_output_features (in_features i)) (in_commit i) None.

(** [From<&Slate> for Option<Vec<CommitsV4>>] *)
Definition coms_of_slate (s : Slate) : option (list CommitsV4) :=
  match sl_tx s with
  | None => None
  | Some tx =>
      let ins := match tx_inputs tx with
                 | CommitOnly l => (fun c => v4_of_input (mkInput OFPlain c)) <$> l
                 | FeaturesAndCommit l => v4_of_input <$> l
                 end in
      Some (ins ++ (v4_of_output <$> tx_outputs tx))
  end.

(** *** The parts of a slate *)
Definition v4_of_participant (d : ParticipantData) : ParticipantDataV4 :=
  mkParticipantDataV4 (public_blind_excess d) (public_nonce d) (part_sig d).
Definition participant_of_v4 (d : ParticipantDataV4) : ParticipantData :=
  mkParticipantData (v4_xs d) (v4_nonce d) (v4_part d).

Definition v4_of_state (s : SlateState) : SlateStateV4 :=
  match s with
  | Unknown => UnknownV4 | Standard1 => Standard1V4 | Standard2 => Standard2V4
  | Standard3 => Standard3V4 | Invoice1 => Invoice1V4 | Invoice2 => Invoice2V4
  | Invoice3 => Invoice3V4
  end.
Definition state_of_v4 (s : SlateStateV4) : SlateState :=
  match s with
  | UnknownV4 => Unknown | Standard1V4 => Standard1 | Standard2V4 => Standard2
  | Standard3V4 => Standard3 | Invoice1V4 => Invoice1 | Invoice2V4 => Invoice2
  | Invoice3V4 => Invoice3
  end.

Definition v4_of_args (a : KernelFeaturesArgs) : KernelFeaturesArgsV4 :=
  mkKernelFeaturesArgsV4 (lock_height a).
Definition args_of_v4 (a : KernelFeaturesArgsV4) : KernelFeaturesArgs :=
  mkKernelFeaturesArgs (lock_hgt a).

Definition v4_of_version (v : VersionCompatInfo) : VersionCompatInfoV4 :=
  mkVersionCompatInfoV4 (vci_version v) (vci_block_header_version v).
Definition version_of_v4 (v : VersionCompatInfoV4) : VersionCompatInfo :=
  mkVersionCompatInfo (v4_version v) (v4_block_header_version v).

Definition v4_of_payment (p : PaymentInfo) : PaymentInfoV4 :=
  mkPaymentInfoV4 (sender_address p) (receiver_address p) (receiver_signature p).
Definition payment_of_v4 (p : PaymentInfoV4) : PaymentInfo :=
  mkPaymentInfo (v4_saddr p) (v4_raddr p) (v4_rsig p).

(** *** The slate: [From<Slate>] and [From<&Slate> for SlateV4] *)
Definition v4_of_slate (s : Slate) : SlateV4 :=
  {| v4_num_parts := sl_num_participants s;
     v4_id := sl_id s;
     v4_sta := v4_of_state (sl_state s);
     v4_coms := coms_of_slate s;
     v4_amt := sl_amount s;
     v4_fee := sl_fee_fields s;
     v4_feat := sl_kernel_features s;
     v4_ttl := sl_ttl_cutoff_height s;
     v4_off := sl_offset s;
     v4_sigs := v4_of_participant <$> sl_participant_data s;
     v4_ver := v4_of_version (sl_version_info s);
     v4_proof := option_map v4_of_payment (sl_payment_proof s);
     v4_feat_args := option_map v4_of_args (sl_kernel_features_args s) |}.

(** The outputs are the commitments with a proof, the inputs those without. *)
Definition output_of_com (c : CommitsV4) : option Output :=
  match com_p c with
  | Some p => Some (mkOutput (output_features_of_v4 (com_f c)) (com_c c) p)
  | None => None
  end.
Definition input_of_com (c : CommitsV4) : option Input :=
  match com_p c with
  | Some _ => None
  | None => Some (mkInput (output_features_of_v4 (com_f c)) (com_c c))
  end.

Definition zero_sig_bytes : string := String.string_of_list_ascii (repeat Ascii.zero 64).

(** [match r { Ok(x) => x, Err(_) => d }]: a panic goes through. *)
Definition or_else {A} (r : Res A) (d : Res A) : Res A :=
  match r with Ok a => Ok a | Err _ => d | Panic e => Panic e end.

Definition kernel_features_of_v4 (s : SlateV4) : KernelFeatures :=
  match v4_feat s with
  | 0 => KPlain (v4_fee s)
  | 1 => KHeightLocked (v4_fee s) (match v4_feat_args s with Some a => lock_hgt a | None => 0 end)
  | _ => KPlain (v4_fee s)
  end.

Definition tx_from_slate_v4 (s : SlateV4) : M (option Transaction) :=
  match v4_coms s with
  | None => mret None
  | Some coms =>
      calc_slate ← blank 2 false;
      let calc_slate := set_sl_participants (participant_of_v4 <$> v4_sigs s)
                          (set_sl_fee_fields (v4_fee s) calc_slate) in
      excess ← liftM (or_else (calc_excess calc_slate) (Ok (commit_from_vec (String Ascii.zero ""))));
      excess_sig ← liftM (or_else (finalize_signature calc_slate)
                            (unwrap_opt (sig_from_raw_data zero_sig_bytes)));
      let kernel := mkKernel (kernel_features_of_v4 s) excess excess_sig in
      let tx := tx_with_kernel kernel empty_transaction in
      let tx := tx_replace_inputs (inputs_from_slice (omap input_of_com coms)) tx in
      let tx := tx_replace_outputs (omap output_of_com coms) tx in
      mret (Some (tx_set_offset (v4_off s) tx))
  end.

Definition slate_of_v4 (s : SlateV4) : M Slate :=
  tx ← tx_from_slate_v4 s;
  mret {| sl_num_participants := v4_num_parts s;
          sl_id := v4_id s;
          sl_state := state_of_v4 (v4_sta s);
          sl_tx := tx;
          sl_amount := v4_amt s;
          sl_fee_fields := v4_fee s;
          sl_kernel_features := v4_feat s;
          sl_ttl_cutoff_height := v4_ttl s;
          sl_offset := v4_off s;
          sl_participant_data := participant_of_v4 <$> v4_sigs s;
          sl_version_info := version_of_v4 (v4_ver s);
          sl_payment_proof := option_map payment_of_v4 (v4_proof s);
          sl_kernel_features_args := option_map args_of_v4 (v4_feat_args s) |}.

(** *** Versions *)
Definition into_version (s : Slate) (v : SlateVersion) : Res VersionedSlate :=
  match v with SV4 => Ok (VS4 (v4_of_slate s)) end.

Definition upgrade (v : VersionedSlate) : M Slate := match v with VS4 s => slate_of_v4 s end.

Context `{!SlateJson}.

(** [serde_json::to_string(&slate)] *)
Definition slate_to_json (s : Slate) : Res string := slate_v4_to_json (v4_of_slate s).

Definition deserialize_upgrade (slate_json : string) : M Slate :=
  match versioned_slate_of_json slate_json with
  | Ok v => upgrade v
  | Err _ => errM "SlateVersionParse"
  | Panic e => liftM (Panic e)
  end.
End code.

(** The text of a slate reads back, as long as its public keys can be printed:
    the zero key has no compressed form. *)
Section laws.
Context `{GrinCrates}.

Definition valid_participant_v4 (d : ParticipantDataV4) : Prop :=
  pk_is_valid (v4_xs d) = true /\ pk_is_valid (v4_nonce d) = true.
Definition valid_participant (d : ParticipantData) : Prop :=
  pk_is_valid (public_blind_excess d) = true /\ pk_is_valid (public_nonce d) = true.
Definition valid_slate (s : Slate) : Prop := Forall valid_participant (sl_participant_data s).
End laws.

Class SlateJsonLaws `{GrinCrates, !SlateJson} :=
  versioned_slate_of_to_json s : Forall valid_participant_v4 (v4_sigs s) ->
    exists text, slate_v4_to_json s = Ok text /\ versioned_slate_of_json text = Ok (VS4 s).

(** ** Lemmas *)
Section lemmas.
Context `{BuildProfile, GrinCrates}.
Implicit Types s : Slate.

Lemma participant_v4_roundtrip d : participant_of_v4 (v4_of_participant d) = d.
Proof. by destruct d. Qed.
Lemma participants_v4_roundtrip (l : list ParticipantData) : participant_of_v4 <$> (v4_of_participant <$> l) = l.
Proof.
  rewrite <- list_fmap_compose. induction l as [|d l IH]; [done|]. cbn. rewrite IH.
  by destruct d.
Qed.
Lemma state_v4_roundtrip x : state_of_v4 (v4_of_state x) = x.
Proof. by destruct x. Qed.
Lemma version_v4_roundtrip v : version_of_v4 (v4_of_version v) = v.
Proof. by destruct v. Qed.
Lemma args_v4_roundtrip o : option_map args_of_v4 (option_map v4_of_args o) = o.
Proof. by destruct o as [[]|]. Qed.
Lemma payment_v4_roundtrip o : option_map payment_of_v4 (option_map v4_of_payment o) = o.
Proof. by destruct o as [[]|]. Qed.
Lemma output_features_roundtrip f : output_features_of_v4 (v4_of_output_features f) = f.
Proof. by destruct f. Qed.

Lemma omap_outputs (ins : list Input) (outs : list Output) :
  omap output_of_com ((v4_of_input <$> ins) ++ (v4_of_output <$> outs)) = outs.
Proof.
  rewrite omap_app. replace (omap output_of_com (v4_of_input <$> ins)) with (@nil Output).
  - induction outs as [|[f c p] outs IH]; [done|]. cbn. rewrite output_features_roundtrip.
    f_equal. exact IH.
  - by induction ins.
Qed.
Lemma omap_inputs (ins : list Input) (outs : list Output) :
  omap input_of_com ((v4_of_input <$> ins) ++ (v4_of_output <$> outs)) = ins.
Proof.
  rewrite omap_app. replace (omap input_of_com (v4_of_output <$> outs)) with (@nil Input).
  - rewrite app_nil_r. induction ins as [|[f c] ins IH]; [done|]. cbn.
    rewrite output_features_roundtrip. f_equal. exact IH.
  - by induction outs.
Qed.

(** The inputs as they are after a journey: with features, plain if unknown. *)
Definition inputs_with_features (i : Inputs) : list Input :=
  match i with CommitOnly l => mkInput OFPlain <$> l | FeaturesAndCommit l => l end.

Lemma inputs_with_features_commits i : in_commit <$> inputs_with_features i = inputs_commits i.
Proof.
  destruct i as [l|l]; cbn; [|done]. rewrite <- list_fmap_compose.
  induction l as [|c l IH]; cbn; [done|]. f_equal. exact IH.
Qed.

Lemma coms_of_slate_some s tx : sl_tx s = Some tx ->
  coms_of_slate s = Some ((v4_of_input <$> inputs_with_features (tx_inputs tx))
                          ++ (v4_of_output <$> tx_outputs tx)).
Proof.
  intros E. unfold coms_of_slate. rewrite E. destruct (tx_inputs tx) as [l|l]; [|done].
  cbn [inputs_with_features]. by rewrite <- list_fmap_compose.
Qed.

(** What an [Ok] of the rebuilding is. *)
Lemma tx_from_slate_v4_ok `{!TxLaws} v t o t' :
  tx_from_slate_v4 v t = (Ok o, t') ->
  match v4_coms v with
  | None => o = None
  | Some coms => exists tx excess sig, o = Some tx
      /\ tx_inputs tx = FeaturesAndCommit (omap input_of_com coms)
      /\ tx_outputs tx = omap output_of_com coms
      /\ tx_offset tx = v4_off v
      /\ tx_kernels tx = [mkKernel (kernel_features_of_v4 v) excess sig]
  end.
Proof.
  unfold tx_from_slate_v4. destruct (v4_coms v) as [coms|]; [|by intros [= <- _]].
  intros E. unfold blank in E. m_inv. eexists _, _, _. split; [done|].
  rewrite tx_inputs_set_offset, tx_inputs_replace_outputs, tx_inputs_replace_inputs,
    inputs_from_slice_features, tx_outputs_set_offset, tx_outputs_replace_outputs,
    tx_offset_set_offset, tx_kernels_set_offset, tx_kernels_replace_outputs,
    tx_kernels_replace_inputs, tx_kernels_with_kernel; [done|].
  unfold empty_transaction. by rewrite tx_kernels_replace_inputs, tx_kernels_empty.
Qed.

Lemma valid_slate_v4 s : valid_slate s -> Forall valid_participant_v4 (v4_sigs (v4_of_slate s)).
Proof. intros Hv. cbn. apply Forall_fmap. by eapply Forall_impl. Qed.

(** A slate crosses the wire as its version 4 form. *)
Lemma deserialize_to_json `{!SlateJson, !SlateJsonLaws} s text :
  valid_slate s -> slate_to_json s = Ok text -> deserialize_upgrade text = slate_of_v4 (v4_of_slate s).
Proof.
  intros Hv%valid_slate_v4 E. unfold deserialize_upgrade, slate_to_json in *.
  destruct (versioned_slate_of_to_json _ Hv) as (text' & E' & Hd).
  rewrite E in E'. injection E' as <-. by rewrite Hd.
Qed.

Lemma slate_of_v4_ok s t s' t' :
  slate_of_v4 (v4_of_slate s) t = (Ok s', t') ->
  exists o, tx_from_slate_v4 (v4_of_slate s) t = (Ok o, t') /\ s' = set_sl_tx o s.
Proof.
  unfold slate_of_v4, mbind, M_bind. destruct (tx_from_slate_v4 _ t) as [[o|e|e] t1]; cbn; try done.
  intros [= <- <-]. exists o. split; [done|]. unfold set_sl_tx.
  rewrite participants_v4_roundtrip, state_v4_roundtrip, version_v4_roundtrip,
    payment_v4_roundtrip, args_v4_roundtrip. done.
Qed.
End lemmas.

(** ** Properties *)
Section properties.
Context `{BuildProfile, GrinCrates, !TxLaws}.
Implicit Types s : Slate.

(** C10: A slate that goes to the peer and back keeps every field but the
    transaction, and the transaction keeps its inputs and outputs; its offset
    becomes the slate's, and its kernel is rebuilt from scratch. *)
Theorem slate_v4_roundtrip s t s' t' :
  slate_of_v4 (v4_of_slate s) t = (Ok s', t') ->
  set_sl_tx None s' = set_sl_tx None s
  /\ match sl_tx s with
     | None => sl_tx s' = None
     | Some tx => exists tx' excess sig, sl_tx s' = Some tx'
         /\ tx_inputs tx' = FeaturesAndCommit (inputs_with_features (tx_inputs tx))
         /\ inputs_commits (tx_inputs tx') = inputs_commits (tx_inputs tx)
         /\ tx_outputs tx' = tx_outputs tx
         /\ tx_offset tx' = sl_offset s
         /\ tx_kernels tx' = [mkKernel (kernel_features_of_v4 (v4_of_slate s)) excess sig]
     end.
Proof.
  intros E. apply slate_of_v4_ok in E as (o & E & ->). split; [done|].
  apply tx_from_slate_v4_ok in E. cbn [v4_coms v4_of_slate] in E.
  destruct (sl_tx s) as [tx|] eqn:Et.
  - rewrite (coms_of_slate_some s tx Et) in E. destruct E as (tx' & ex & sig & -> & Ei & Eo & Ef & Ek).
    rewrite omap_inputs in Ei. rewrite omap_outputs in Eo.
    exists tx', ex, sig. rewrite Ei. split; [done|]. split; [done|].
    split; [apply inputs_with_features_commits|]. done.
  - unfold coms_of_slate in E. by rewrite Et in E.
Qed.

(** A height lock does not survive the journey.  The feature number of a height
    locked kernel is 2; the code that rebuilds the transaction takes 1 for it, so
    the kernel that comes back is plain, until [update_kernel] restores it. *)
Theorem height_lock_lost_on_the_wire s a t s' t' :
  sl_kernel_features s = 2 -> sl_kernel_features_args s = Some a -> sl_tx s <> None ->
  slate_of_v4 (v4_of_slate s) t = (Ok s', t') ->
  (exists tx' k, sl_tx s' = Some tx' /\ tx_kernels tx' = [k]
     /\ kern_features k = KPlain (sl_fee_fields s))
  /\ kernel_features s' = Ok (KHeightLocked (sl_fee_fields s) (lock_height a))
  /\ exists tx2, update_kernel s' = Ok (set_sl_tx (Some tx2) s')
     /\ tx_kernels tx2 = [kernel_with_features (KHeightLocked (sl_fee_fields s) (lock_height a))].
Proof.
  intros Ef Ea Ht E. apply slate_of_v4_ok in E as (o & E & ->).
  apply tx_from_slate_v4_ok in E. destruct (sl_tx s) as [tx|] eqn:Et; [|done].
  cbn [v4_coms v4_of_slate] in E. rewrite (coms_of_slate_some s tx Et) in E.
  destruct E as (tx' & ex & sig & -> & _ & _ & _ & Ek).
  assert (Efe : kernel_features (set_sl_tx (Some tx') s)
                = Ok (KHeightLocked (sl_fee_fields s) (lock_height a))).
  { unfold kernel_features. cbn. by rewrite Ef, Ea. }
  split; [|split; [done|]].
  - eexists tx', _. split; [done|]. split; [exact Ek|]. cbn. unfold kernel_features_of_v4. cbn.
    by rewrite Ef.
  - unfold update_kernel, tx_or_err. cbn [sl_tx set_sl_tx]. rewrite Efe. cbn.
    eexists. split; [reflexivity|]. apply tx_kernels_replace_kernel.
Qed.
End properties.
