(* ===== verification/SlateBin.v ===== *)
(** * slate_versions/v4_bin.rs: the binary form of a version 4 slate

    [Writeable] and [Readable] are traits of [grin_core]; their instances in this
    file are modelled, those of the library's own types and the primitive writers
    are parameters ([BinCrates]) with the law that a value is read back from in front
    of whatever follows it ([BinLaws]). *)
From S2P Require Import Prelude.
From S2P Require Import RustStd.
From S2P Require Import Crates.
From S2P Require Import Effects.
From S2P Require Import Slate.
From S2P Require Import SlateV4.

(** ** Writers and readers *)

(** What a [write] puts on the writer, or its error. *)
Definition Written : Type := Res string.
Definition wseq (a b : Written) : Written := x ← a; y ← b; Ok (x +:+ y).
Definition wnil : Written := Ok "".
Infix "⊕" := wseq (at level 60, right associativity) : swap_scope.
#[local] Open Scope swap_scope.
Definition wif (c : bool) (a : Written) : Written := if c then a else wnil.
Definition wconcat {A} (f : A -> Written) (l : list A) : Written := foldr (fun a w => wseq (f a) w) wnil l.

(** A reader takes what it reads from the front of the input. *)
Definition Reader (A : Type) : Type := string -> Res (A * string).
#[global] Instance Reader_ret : MRet Reader := fun _ a s => Ok (a, s).
#[global] Instance Reader_bind : MBind Reader := fun _ _ k m s =>
  match m s with
  | Ok (a, s') => k a s'
  | Err e => Err e
  | Panic e => Panic e
  end.
Definition rlift {A} (r : Res A) : Reader A := fun s => a ← r; Ok (a, s).
(** [if c { rd? } else { d }] *)
Definition rif {A} (c : bool) (rd : Reader A) (d : A) : Reader A := if c then rd else mret d.
Fixpoint rtimes {A} (n : nat) (rd : Reader A) : Reader (list A) :=
  match n with
  | O => mret []
  | S n' => a ← rd; l ← rtimes n' rd; mret (a :: l)
  end.

(** What the file takes from [grin_core], [uuid] and [ed25519_dalek]. *)
Class BinCrates `{GrinTypes} := {
  write_u8 : Z -> Written; read_u8 : Reader Z;
  write_u16 : Z -> Written; read_u16 : Reader Z;
  write_u64 : Z -> Written; read_u64 : Reader Z;
  write_fixed_bytes : string -> Written; read_fixed_bytes : nat -> Reader string;
  pk_write : PublicKey -> Written; pk_read : Reader PublicKey;
  sig_write : Signature -> Written; sig_read : Reader Signature;
  commit_write : Commitment -> Written; commit_read : Reader Commitment;
  proof_write : RangeProof -> Written; proof_read : Reader RangeProof;
  bf_write : BlindingFactor -> Written; bf_read : Reader BlindingFactor;
  fee_write : FeeFields -> Written; fee_read : Reader FeeFields;
  of_write : OutputFeatures -> Written; of_read : Reader OutputFeatures;
  uuid_as_bytes : Uuid -> string; uuid_from_bytes : string -> Uuid;
  dalek_pk_bytes : DalekPublicKey -> string; dalek_pk_from_bytes : string -> option DalekPublicKey;
  dalek_sig_bytes : DalekSignature -> string; dalek_sig_from_bytes : string -> option DalekSignature;
}.

(** [rd] reads [a] back from what [w] wrote, whatever follows. *)
Definition reads {A} (w : Written) (rd : Reader A) (a : A) : Prop :=
  forall b r, w = Ok b -> rd (b +:+ r) = Ok (a, r).

Class BinLaws `{BinCrates} := {
  u8_reads n : 0 <= n < 256 -> reads (write_u8 n) read_u8 n;
  u16_reads n : 0 <= n < 65536 -> reads (write_u16 n) read_u16 n;
  u64_reads n : in_u64 n -> reads (write_u64 n) read_u64 n;
  fixed_bytes_reads n b : String.length b = n -> reads (write_fixed_bytes b) (read_fixed_bytes n) b;
  pk_reads p : reads (pk_write p) pk_read p;
  sig_reads s : reads (sig_write s) sig_read s;
  commit_reads c : reads (commit_write c) commit_read c;
  proof_reads p : reads (proof_write p) proof_read p;
  bf_reads b : reads (bf_write b) bf_read b;
  fee_reads f : reads (fee_write f) fee_read f;
  of_reads o : reads (of_write o) of_read o;
  uuid_length u : String.length (uuid_as_bytes u) = 16%nat;
  uuid_from_as_bytes u : uuid_from_bytes (uuid_as_bytes u) = u;
  dalek_pk_length p : String.length (dalek_pk_bytes p) = 32%nat;
  dalek_pk_from_to p : dalek_pk_from_bytes (dalek_pk_bytes p) = Some p;
  dalek_sig_length s : String.length (dalek_sig_bytes s) = 64%nat;
  dalek_sig_from_to s : dalek_sig_from_bytes (dalek_sig_bytes s) = Some s;
}.

Section code.
Context `{BuildProfile, GC : GrinCrates, !BinCrates}.

(** ** State and identifier *)
Definition state_write (s : SlateStateV4) : Written :=
  write_u8 (match s with
            | UnknownV4 => 0 | Standard1V4 => 1 | Standard2V4 => 2 | Standard3V4 => 3
            | Invoice1V4 => 4 | Invoice2V4 => 5 | Invoice3V4 => 6
            end).
Definition state_read : Reader SlateStateV4 :=
  b ← read_u8;
  mret (match b with
        | 0 => UnknownV4 | 1 => Standard1V4 | 2 => Standard2V4 | 3 => Standard3V4
        | 4 => Invoice1V4 | 5 => Invoice2V4 | 6 => Invoice3V4 | _ => UnknownV4
        end).

Definition uuid_write (u : Uuid) : Written := write_fixed_bytes (uuid_as_bytes u).
Definition uuid_read : Reader Uuid := bytes ← read_fixed_bytes 16; mret (uuid_from_bytes bytes).

(** ** Optional fields: a status byte says which are there *)
Record SlateOptFields := mkSlateOptFields {
  of_num_parts : Z; of_amt : Z; of_fee : FeeFields; of_feat : Z; of_ttl : Z }.

Definition set_flag (c : bool) (bit status : Z) : Z := if c then Z.lor status bit else status.
Definition has_flag (status bit : Z) : bool := 0 <? Z.land status bit.

Definition fields_status (f : SlateOptFields) : Z :=
  let status := set_flag (negb (of_num_parts f =? 2)) 1 0 in
  let status := set_flag (0 <? of_amt f) 2 status in
  let status := set_flag (0 <? fee_fee (of_fee f) (2 * YEAR_HEIGHT)) 4 status in
  let status := set_flag (0 <? of_feat f) 8 status in
  set_flag (0 <? of_ttl f) 16 status.

Definition fields_write (f : SlateOptFields) : Written :=
  let status := fields_status f in
  write_u8 status
  ⊕ wif (has_flag status 1) (write_u8 (of_num_parts f))
  ⊕ wif (has_flag status 2) (write_u64 (of_amt f))
  ⊕ wif (has_flag status 4) (fee_write (of_fee f))
  ⊕ wif (has_flag status 8) (write_u8 (of_feat f))
  ⊕ wif (has_flag status 16) (write_u64 (of_ttl f)).

Definition fields_read : Reader SlateOptFields :=
  status ← read_u8;
  num_parts ← rif (has_flag status 1) read_u8 2;
  amt ← rif (has_flag status 2) read_u64 0;
  fee ← rif (has_flag status 4) fee_read fee_zero;
  feat ← rif (has_flag status 8) read_u8 0;
  ttl ← rif (has_flag status 16) read_u64 0;
  mret (mkSlateOptFields num_parts amt fee feat ttl).

(** ** Signatures *)
Definition participant_write (s : ParticipantDataV4) : Written :=
  (match v4_part s with Some _ => write_u8 1 | None => write_u8 0 end)
  ⊕ pk_write (v4_xs s) ⊕ pk_write (v4_nonce s)
  ⊕ match v4_part s with Some p => sig_write p | None => wnil end.
Definition participant_read : Reader ParticipantDataV4 :=
  has_partial ← read_u8;
  xs ← pk_read;
  nonce ← pk_read;
  part ← match has_partial with
         | 1 => s ← sig_read; mret (Some s)
         | _ => mret None
         end;
  mret (mkParticipantDataV4 xs nonce part).

(** [self.0.len() as u8] *)
Definition sigs_write (l : list ParticipantDataV4) : Written :=
  write_u8 (Z.of_nat (length l) mod 256) ⊕ wconcat participant_write l.
Definition sigs_read : Reader (list ParticipantDataV4) :=
  sigs_len ← read_u8; rtimes (Z.to_nat sigs_len) participant_read.

(** ** Commitments *)
Definition com_write (o : CommitsV4) : Written :=
  (match com_p o with Some _ => write_u8 1 | None => write_u8 0 end)
  ⊕ of_write (output_features_of_v4 (com_f o)) ⊕ commit_write (com_c o)
  ⊕ match com_p o with Some p => proof_write p | None => wnil end.
Definition com_read : Reader CommitsV4 :=
  is_output ← read_u8;
  f ← of_read;
  c ← commit_read;
  p ← match is_output with
      | 1 => p ← proof_read; mret (Some p)
      | _ => mret None
      end;
  mret (mkCommitsV4 (v4_of_output_features f) c p).

(** [self.0.len() as u16] *)
Definition coms_write (l : list CommitsV4) : Written :=
  write_u16 (Z.of_nat (length l) mod 65536) ⊕ wconcat com_write l.
Definition coms_read : Reader (list CommitsV4) :=
  coms_len ← read_u16; rtimes (Z.to_nat coms_len) com_read.

(** ** Payment proof *)
Definition proof_info_write (p : PaymentInfoV4) : Written :=
  write_fixed_bytes (dalek_pk_bytes (v4_saddr p))
  ⊕ write_fixed_bytes (dalek_pk_bytes (v4_raddr p))
  ⊕ match v4_rsig p with
    | Some s => write_u8 1 ⊕ write_fixed_bytes (dalek_sig_bytes s)
    | None => write_u8 0
    end.
Definition proof_info_read : Reader PaymentInfoV4 :=
  b ← read_fixed_bytes 32;
  saddr ← rlift (unwrap_opt (dalek_pk_from_bytes b));
  b ← read_fixed_bytes 32;
  raddr ← rlift (unwrap_opt (dalek_pk_from_bytes b));
  has_sig ← read_u8;
  rsig ← match has_sig with
         | 0 => mret None
         | _ => b ← read_fixed_bytes 64; s ← rlift (unwrap_opt (dalek_sig_from_bytes b)); mret (Some s)
         end;
  mret (mkPaymentInfoV4 saddr raddr rsig).

(** ** Optional structures *)
Record SlateOptStructs := mkSlateOptStructs {
  os_coms : option (list CommitsV4); os_proof : option PaymentInfoV4 }.

Definition is_some {A} (o : option A) : bool := match o with Some _ => true | None => false end.

Definition structs_write (s : SlateOptStructs) : Written :=
  let status := set_flag (is_some (os_coms s)) 1 0 in
  let status := set_flag (is_some (os_proof s)) 2 status in
  write_u8 status
  ⊕ match os_coms s with Some c => coms_write c | None => wnil end
  ⊕ match os_proof s with Some p => proof_info_write p | None => wnil end.
Definition structs_read : Reader SlateOptStructs :=
  status ← read_u8;
  coms ← rif (has_flag status 1) (c ← coms_read; mret (Some c)) None;
  proof ← rif (has_flag status 2) (p ← proof_info_read; mret (Some p)) None;
  mret (mkSlateOptStructs coms proof).

(** ** The slate *)
Definition slate_bin_write (v4 : SlateV4) : Written :=
  write_u16 (v4_version (v4_ver v4))
  ⊕ write_u16 (v4_block_header_version (v4_ver v4))
  ⊕ uuid_write (v4_id v4)
  ⊕ state_write (v4_sta v4)
  ⊕ bf_write (v4_off v4)
  ⊕ fields_write (mkSlateOptFields (v4_num_parts v4) (v4_amt v4) (v4_fee v4) (v4_feat v4) (v4_ttl v4))
  ⊕ sigs_write (v4_sigs v4)
  ⊕ structs_write (mkSlateOptStructs (v4_coms v4) (v4_proof v4))
  ⊕ wif (v4_feat v4 =? 2)
        (write_u64 (match v4_feat_args v4 with Some l => lock_hgt l | None => 0 end)).

Definition slate_bin_read : Reader SlateV4 :=
  version ← read_u16;
  block_header_version ← read_u16;
  id ← uuid_read;
  sta ← state_read;
  off ← bf_read;
  opts ← fields_read;
  sigs ← sigs_read;
  opt_structs ← structs_read;
  feat_args ← rif (of_feat opts =? 2) (h ← read_u64; mret (Some (mkKernelFeaturesArgsV4 h))) None;
  mret {| v4_ver := mkVersionCompatInfoV4 version block_header_version;
          v4_id := id;
          v4_sta := sta;
          v4_off := off;
          v4_num_parts := of_num_parts opts;
          v4_amt := of_amt opts;
          v4_fee := of_fee opts;
          v4_feat := of_feat opts;
          v4_ttl := of_ttl opts;
          v4_sigs := sigs;
          v4_coms := os_coms opt_structs;
          v4_proof := os_proof opt_structs;
          v4_feat_args := feat_args |}.

(** serde's view: the bytes, and the slate read from their front. *)
Definition bin_serialize (v4 : SlateV4) : Res string := slate_bin_write v4.
Definition bin_visit_bytes (value : string) : Res SlateV4 := '(s, _) ← slate_bin_read value; Ok s.
End code.

(** ** Lemmas: what is written can be read *)
Section lemmas.
Context `{BuildProfile, GC : GrinCrates, !BinCrates}.

Lemma reads_bind {A B} w1 w2 (rd : Reader A) (k : A -> Reader B) a c :
  reads w1 rd a -> reads w2 (k a) c -> reads (w1 ⊕ w2) (rd ≫= k) c.
Proof.
  intros Ha Hc b r E. apply res_bind_Ok in E as (x & Ex & E). apply res_bind_Ok in E as (y & Ey & E).
  injection E as <-. rewrite append_assoc. unfold mbind, Reader_bind. rewrite (Ha _ _ Ex). by apply Hc.
Qed.

Lemma reads_ret {A} (a : A) : reads wnil (mret a) a.
Proof. by intros b r [= <-]. Qed.

(** The last item, and what is computed from it. *)
Lemma reads_last {A B} w (rd : Reader A) (k : A -> Reader B) a c :
  reads w rd a -> reads wnil (k a) c -> reads w (rd ≫= k) c.
Proof.
  intros Ha Hc b r E. unfold mbind, Reader_bind. rewrite (Ha _ _ E). exact (Hc "" r eq_refl).
Qed.

(** A step that reads nothing. *)
Lemma reads_skip {A B} w (rd : Reader A) (k : A -> Reader B) a c :
  reads wnil rd a -> reads w (k a) c -> reads w (rd ≫= k) c.
Proof.
  intros Ha Hc b r E. unfold mbind, Reader_bind. rewrite (Ha "" _ eq_refl : rd (b +:+ r) = _). by apply Hc.
Qed.

Lemma reads_lift {A B} w (x : Res A) (k : A -> Reader B) a c :
  x = Ok a -> reads w (k a) c -> reads w (rlift x ≫= k) c.
Proof. intros -> Hc. eapply reads_skip; [|exact Hc]. apply reads_ret. Qed.

Lemma reads_if {A} (c : bool) w (rd : Reader A) a d :
  (c = true -> reads w rd a) -> reads (wif c w) (rif c rd d) (if c then a else d).
Proof. destruct c; intros Ha; [by apply Ha|apply reads_ret]. Qed.

Lemma reads_times {A B} (f : A -> Written) (rd : Reader B) (g : A -> B) l :
  Forall (fun a => reads (f a) rd (g a)) l -> reads (wconcat f l) (rtimes (length l) rd) (g <$> l).
Proof.
  induction 1 as [|a l Ha Hl IH]; cbn; [apply reads_ret|].
  eapply reads_bind; [exact Ha|]. eapply reads_last; [exact IH|]. apply reads_ret.
Qed.

Lemma wconcat_app {A} (f : A -> Written) l1 l2 : wconcat f (l1 ++ l2) = wconcat f l1 ⊕ wconcat f l2.
Proof.
  induction l1 as [|a l1 IH]; cbn.
  - change (foldr (fun a w => f a ⊕ w) wnil l2) with (wconcat f l2). destruct (wconcat f l2); reflexivity.
  - change (f a ⊕ wconcat f (l1 ++ l2) = (f a ⊕ wconcat f l1) ⊕ wconcat f l2). rewrite IH. unfold wseq.
    destruct (f a); cbn; [|done..]. destruct (wconcat f l1); cbn; [|done..].
    destruct (wconcat f l2); cbn; [|done..]. by rewrite append_assoc.
Qed.

Context `{!BinLaws}.

Lemma state_reads s : reads (state_write s) state_read s.
Proof. eapply reads_last; [apply u8_reads; by destruct s|]. destruct s; apply reads_ret. Qed.

Lemma uuid_reads u : reads (uuid_write u) uuid_read u.
Proof.
  eapply reads_last; [apply fixed_bytes_reads, uuid_length|]. rewrite uuid_from_as_bytes. apply reads_ret.
Qed.

Lemma participant_reads s : reads (participant_write s) participant_read s.
Proof.
  destruct s as [xs nonce part].
  eapply (reads_bind _ _ _ _ (if is_some part then 1 else 0)); [destruct part; by apply u8_reads|].
  eapply reads_bind; [apply pk_reads|]. eapply reads_bind; [apply pk_reads|].
  destruct part as [p|].
  - eapply reads_last; [|apply reads_ret]. eapply reads_last; [apply sig_reads|]. apply reads_ret.
  - eapply reads_last; [|apply reads_ret]. apply reads_ret.
Qed.

(** The features of a commitment are one byte; every value but 1 is read as 0. *)
Definition com_normal (c : CommitsV4) : CommitsV4 :=
  mkCommitsV4 (v4_of_output_features (output_features_of_v4 (com_f c))) (com_c c) (com_p c).

Lemma com_reads c : reads (com_write c) com_read (com_normal c).
Proof.
  destruct c as [f c p].
  eapply (reads_bind _ _ _ _ (if is_some p then 1 else 0)); [destruct p; by apply u8_reads|].
  eapply reads_bind; [apply of_reads|]. eapply reads_bind; [apply commit_reads|].
  destruct p as [p|].
  - eapply reads_last; [|apply reads_ret]. eapply reads_last; [apply proof_reads|]. apply reads_ret.
  - eapply reads_last; [|apply reads_ret]. apply reads_ret.
Qed.

Lemma proof_info_reads p : reads (proof_info_write p) proof_info_read p.
Proof.
  destruct p as [sa ra rs].
  eapply reads_bind; [apply fixed_bytes_reads, dalek_pk_length|].
  eapply reads_lift; [by rewrite dalek_pk_from_to|].
  eapply reads_bind; [apply fixed_bytes_reads, dalek_pk_length|].
  eapply reads_lift; [by rewrite dalek_pk_from_to|]. cbn [v4_rsig].
  destruct rs as [s|].
  - eapply reads_bind; [by apply u8_reads|]. eapply reads_last; [|apply reads_ret].
    eapply reads_last; [apply fixed_bytes_reads, dalek_sig_length|].
    eapply reads_lift; [by rewrite dalek_sig_from_to|]. apply reads_ret.
  - eapply reads_last; [by apply u8_reads|]. eapply reads_last; apply reads_ret.
Qed.

(** The status byte says of each field whether it is there. *)
Lemma fields_flags f :
  let status := fields_status f in
  0 <= status < 256
  /\ has_flag status 1 = negb (of_num_parts f =? 2)
  /\ has_flag status 2 = (0 <? of_amt f)
  /\ has_flag status 4 = (0 <? fee_fee (of_fee f) (2 * YEAR_HEIGHT))
  /\ has_flag status 8 = (0 <? of_feat f)
  /\ has_flag status 16 = (0 <? of_ttl f).
Proof.
  unfold fields_status. destruct (of_num_parts f =? 2), (0 <? of_amt f), (0 <? fee_fee _ _),
    (0 <? of_feat f), (0 <? of_ttl f); vm_compute; repeat split; congruence.
Qed.

(** A fee that counts as zero comes back as the zero fee. *)
Definition fee_normal (f : FeeFields) : FeeFields :=
  if 0 <? fee_fee f (2 * YEAR_HEIGHT) then f else fee_zero.

Definition fields_fit (f : SlateOptFields) : Prop :=
  0 <= of_num_parts f < 256 /\ in_u64 (of_amt f) /\ 0 <= of_feat f < 256 /\ in_u64 (of_ttl f).

Lemma if_positive n : 0 <= n -> (if 0 <? n then n else 0) = n.
Proof. intros Hn. destruct (Z.ltb_spec 0 n); lia. Qed.

Lemma fields_reads f :
  fields_fit f ->
  reads (fields_write f) fields_read
    (mkSlateOptFields (of_num_parts f) (of_amt f) (fee_normal (of_fee f)) (of_feat f) (of_ttl f)).
Proof.
  intros (Hn & Ha & Hf & Ht). destruct (fields_flags f) as (Hs & E1 & E2 & E4 & E8 & E16).
  unfold fields_write, fields_read. eapply reads_bind; [by apply u8_reads|].
  rewrite E1, E2, E4, E8, E16.
  eapply reads_bind; [apply reads_if; intros _; by apply u8_reads|].
  eapply reads_bind; [apply reads_if; intros _; by apply u64_reads|].
  eapply reads_bind; [apply reads_if; intros _; apply fee_reads|].
  eapply reads_bind; [apply reads_if; intros _; by apply u8_reads|].
  eapply reads_last; [apply reads_if; intros _; by apply u64_reads|].
  replace (if negb (of_num_parts f =? 2) then of_num_parts f else 2) with (of_num_parts f)
    by (by destruct (Z.eqb_spec (of_num_parts f) 2)).
  rewrite !if_positive by (unfold in_u64 in *; lia). apply reads_ret.
Qed.

(** A list behind its length, which must fit its byte or its two. *)
Lemma reads_counted {A} (wlen : Z -> Written) (rlen : Reader Z) (m : Z)
    (f : A -> Written) (rd : Reader A) (g : A -> A) l :
  (forall n, 0 <= n < m -> reads (wlen n) rlen n) -> (forall a, reads (f a) rd (g a)) ->
  Z.of_nat (length l) < m ->
  reads (wlen (Z.of_nat (length l) mod m) ⊕ wconcat f l) (n ← rlen; rtimes (Z.to_nat n) rd) (g <$> l).
Proof.
  intros Hlen Hf Hm. rewrite Z.mod_small by lia.
  eapply reads_bind; [apply Hlen; lia|]. rewrite Nat2Z.id. apply reads_times.
  apply Forall_true. exact Hf.
Qed.

Lemma sigs_reads l : Z.of_nat (length l) < 256 -> reads (sigs_write l) sigs_read l.
Proof.
  intros Hl. rewrite <- (list_fmap_id l) at 2. apply reads_counted; [exact u8_reads|exact participant_reads|done].
Qed.
Lemma coms_reads l : Z.of_nat (length l) < 65536 -> reads (coms_write l) coms_read (com_normal <$> l).
Proof. intros Hl. apply reads_counted; [exact u16_reads|exact com_reads|done]. Qed.

Lemma structs_reads c p :
  match c with Some l => Z.of_nat (length l) < 65536 | None => True end ->
  reads (structs_write (mkSlateOptStructs c p)) structs_read
    (mkSlateOptStructs (option_map (fmap com_normal) c) p).
Proof.
  intros Hc. unfold structs_write, structs_read.
  eapply reads_bind; [apply u8_reads; by destruct c, p|].
  assert (E : forall st, st = set_flag (is_some p) 2 (set_flag (is_some c) 1 0) ->
    has_flag st 1 = is_some c /\ has_flag st 2 = is_some p) by (intros st ->; by destruct c, p).
  destruct (E _ eq_refl) as [E1 E2]. cbn [os_coms os_proof]. rewrite E1, E2.
  eapply (reads_bind _ _ _ _ (option_map (fmap com_normal) c)).
  - destruct c as [l|]; [|apply reads_ret]. eapply reads_last; [by apply coms_reads|apply reads_ret].
  - eapply (reads_last _ _ _ p); [|apply reads_ret]. destruct p as [p|]; [|apply reads_ret].
    eapply reads_last; [apply proof_info_reads|apply reads_ret].
Qed.
End lemmas.

(** ** Properties *)
Section properties.
Context `{BuildProfile, GC : GrinCrates, !BinCrates, !BinLaws}.

(** The fields of a slate are in the range of their Rust types, and its lists can be
    counted in a byte and in two. *)
Record bin_fits (v : SlateV4) : Prop := {
  fits_version : 0 <= v4_version (v4_ver v) < 65536;
  fits_header : 0 <= v4_block_header_version (v4_ver v) < 65536;
  fits_fields : fields_fit (mkSlateOptFields (v4_num_parts v) (v4_amt v) (v4_fee v) (v4_feat v) (v4_ttl v));
  fits_sigs : Z.of_nat (length (v4_sigs v)) < 256;
  fits_coms : match v4_coms v with Some l => Z.of_nat (length l) < 65536 | None => True end;
  fits_lock : match v4_feat_args v with Some l => in_u64 (lock_hgt l) | None => True end;
}.

(** What of a slate the binary form keeps. *)
Definition bin_normal (v : SlateV4) : SlateV4 :=
  {| v4_ver := v4_ver v; v4_id := v4_id v; v4_sta := v4_sta v; v4_off := v4_off v;
     v4_num_parts := v4_num_parts v; v4_amt := v4_amt v; v4_fee := fee_normal (v4_fee v);
     v4_feat := v4_feat v; v4_ttl := v4_ttl v; v4_sigs := v4_sigs v;
     v4_coms := option_map (fmap com_normal) (v4_coms v); v4_proof := v4_proof v;
     v4_feat_args := if v4_feat v =? 2
                     then Some (mkKernelFeaturesArgsV4
                                  (match v4_feat_args v with Some l => lock_hgt l | None => 0 end))
                     else None |}.

Lemma slate_bin_reads v : bin_fits v -> reads (slate_bin_write v) slate_bin_read (bin_normal v).
Proof.
  intros [Hv Hh Hf Hs Hc Hl]. unfold slate_bin_write, slate_bin_read.
  eapply reads_bind; [by apply u16_reads|]. eapply reads_bind; [by apply u16_reads|].
  eapply reads_bind; [apply uuid_reads|]. eapply reads_bind; [apply state_reads|].
  eapply reads_bind; [apply bf_reads|]. eapply reads_bind; [by apply fields_reads|].
  eapply reads_bind; [by apply sigs_reads|]. eapply reads_bind; [by apply structs_reads|].
  cbn [of_feat].
  eapply reads_last; [|destruct v as [[] ? ? ? ? ? ? ? ? ? ? ? ?]; apply reads_ret].
  apply reads_if. intros _. eapply reads_last; [|apply reads_ret]. apply u64_reads.
  destruct (v4_feat_args v); [done|]. by split.
Qed.

(** C11: The binary form of a slate, exactly.  Reading back what was written gives the
    slate in front of whatever follows, with three differences and no other: a
    fee that counts as zero is the zero fee, the features of a commitment are
    plain or coinbase, and the argument of the kernel is there if and only if it is
    height locked. *)
Theorem slate_bin_roundtrip v b r :
  bin_fits v -> bin_serialize v = Ok b ->
  slate_bin_read (b +:+ r) = Ok (bin_normal v, r)
  /\ bin_visit_bytes b = Ok (bin_normal v).
Proof.
  intros Hf E. pose proof (slate_bin_reads v Hf) as Hr. split; [by apply Hr|].
  unfold bin_visit_bytes. rewrite <- (append_nil_r b). by rewrite (Hr _ "" E).
Qed.

(** A no-recent-duplicate kernel does not survive the binary form.  Its lock
    height is not written, since only feature 2 is, and the slate that is read back
    can no longer be signed; a height lock is kept. *)
Theorem nrd_lock_lost_in_binary s b v t s' t' :
  bin_fits (v4_of_slate s) -> bin_serialize (v4_of_slate s) = Ok b -> bin_visit_bytes b = Ok v ->
  slate_of_v4 v t = (Ok s', t') ->
  (sl_kernel_features s = 3 -> msg_to_sign s' = Err "KernelFeaturesMissing(lock_height)")
  /\ (sl_kernel_features s = 2 -> forall a, sl_kernel_features_args s = Some a ->
        kernel_features s' = Ok (KHeightLocked (fee_normal (sl_fee_fields s)) (lock_height a))).
Proof.
  intros Hf E Ev Es. unfold bin_visit_bytes in Ev.
  rewrite <- (append_nil_r b), (slate_bin_reads _ Hf b "" E) in Ev. injection Ev as <-.
  unfold slate_of_v4, mbind, M_bind in Es.
  destruct (tx_from_slate_v4 _ t) as [[tx|e|e] t1]; [injection Es as <- _|discriminate Es..].
  split.
  - intros E3. unfold msg_to_sign, kernel_features. cbn. by rewrite E3.
  - intros E2 a Ea. unfold kernel_features. cbn. by rewrite E2, Ea.
Qed.

(** More participants than a byte can count are cut off.  The length is written
    modulo 256, so what is read back are the first of them, as many as the byte
    says, and the rest is taken for what follows. *)
Theorem sigs_cut_off l b r :
  let n := Z.to_nat (Z.of_nat (length l) mod 256) in
  sigs_write l = Ok b ->
  exists rest, sigs_read (b +:+ r) = Ok (take n l, rest +:+ r)
    /\ wconcat participant_write (drop n l) = Ok rest.
Proof.
  intros n E. pose proof (Z.mod_pos_bound (Z.of_nat (length l)) 256 eq_refl) as Hb.
  pose proof (Z.mod_le (Z.of_nat (length l)) 256 ltac:(lia) ltac:(lia)) as Hle.
  apply res_bind_Ok in E as (x & Ex & E). apply res_bind_Ok in E as (y & Ey & E). injection E as <-.
  rewrite <- (take_drop n l), wconcat_app in Ey.
  apply res_bind_Ok in Ey as (y1 & E1 & E). apply res_bind_Ok in E as (rest & E2 & E). injection E as <-.
  exists rest. split; [|done]. rewrite !append_assoc.
  unfold sigs_read, mbind, Reader_bind. rewrite (u8_reads _ Hb _ _ Ex). fold n.
  assert (Hn : length (take n l) = n) by (rewrite length_take; unfold n; lia).
  rewrite <- Hn at 1. rewrite <- (list_fmap_id (take n l)) at 2.
  apply (reads_times participant_write participant_read id); [|done].
  apply Forall_true. exact participant_reads.
Qed.
End properties.
