(* ===== verification/StateM.v ===== *)
(** * State with errors: the wallet's operations

    A method on [&mut self] that returns [Result] and may panic is a function of
    the state: the result and the state it leaves, also when it fails. *)
From S2P Require Import Prelude.

Definition ST (S A : Type) : Type := S -> Res A * S.

#[export] Instance ST_ret {S} : MRet (ST S) := fun _ a s => (Ok a, s).
#[export] Instance ST_bind {S} : MBind (ST S) := fun _ _ k m s =>
  match m s with
  | (Ok a, s') => k a s'
  | (Err e, s') => (Err e, s')
  | (Panic e, s') => (Panic e, s')
  end.

Section code.
Context {S : Type}.

Definition liftS {A} (r : Res A) : ST S A := fun s => (r, s).
Definition errS {A} (e : string) : ST S A := liftS (Err e).
Definition getS {A} (f : S -> A) : ST S A := fun s => (Ok (f s), s).
Definition modifyS (f : S -> S) : ST S unit := fun s => (Ok tt, f s).
(** [.unwrap()] on the result of a method. *)
Definition unwrapS {A} (m : ST S A) : ST S A := fun s => let '(r, s') := m s in (unwrap r, s').
(** What goes out of scope: [f] is run on every way out. *)
Definition finallyS {A} (f : S -> S) (m : ST S A) : ST S A := fun s => let '(r, s') := m s in (r, f s').
Definition whenS (c : bool) (m : ST S unit) : ST S unit := if c then m else mret tt.
(** [if let Ok(a) = m { .. }] *)
Definition tryS {A} (m : ST S A) : ST S (option A) := fun s =>
  match m s with
  | (Ok a, s') => (Ok (Some a), s')
  | (Err _, s') => (Ok None, s')
  | (Panic e, s') => (Panic e, s')
  end.
(** The result itself, to be looked at. *)
Definition attemptS {A} (m : ST S A) : ST S (A + string) := fun s =>
  match m s with
  | (Ok a, s') => (Ok (inl a), s')
  | (Err e, s') => (Ok (inr e), s')
  | (Panic e, s') => (Panic e, s')
  end.

(** [for] loops. *)
Fixpoint foreachS {A} (f : A -> ST S unit) (l : list A) : ST S unit :=
  match l with
  | [] => mret tt
  | a :: l' => _ ← f a; foreachS f l'
  end.
Fixpoint foldS {A B} (f : B -> A -> ST S B) (b : B) (l : list A) : ST S B :=
  match l with
  | [] => mret b
  | a :: l' => b' ← f b a; foldS f b' l'
  end.
Fixpoint mapS {A B} (f : A -> ST S B) (l : list A) : ST S (list B) :=
  match l with
  | [] => mret []
  | a :: l' => b ← f a; bs ← mapS f l'; mret (b :: bs)
  end.
End code.

(** ** Inversion *)
Section lemmas.
Context {S : Type}.
Implicit Types s : S.

Lemma ST_bind_Ok {A B} (m : ST S A) (k : A -> ST S B) s b s' :
  (m ≫= k) s = (Ok b, s') <-> exists a s1, m s = (Ok a, s1) /\ k a s1 = (Ok b, s').
Proof.
  unfold mbind, ST_bind. destruct (m s) as [[a|e|e] s1].
  - split; [eauto|]. by intros (a' & t2 & [= -> ->] & E).
  - split; [done|]. by intros (? & ? & ? & ?).
  - split; [done|]. by intros (? & ? & ? & ?).
Qed.
Lemma ST_bind_run {A B} (m : ST S A) (k : A -> ST S B) s a s' : m s = (Ok a, s') -> (m ≫= k) s = k a s'.
Proof. unfold mbind, ST_bind. by intros ->. Qed.
Lemma ST_bind_err {A B} (m : ST S A) (k : A -> ST S B) s e s' :
  m s = (Err e, s') -> (m ≫= k) s = (Err e, s').
Proof. unfold mbind, ST_bind. by intros ->. Qed.
Lemma liftS_run {A} (r : Res A) s a : r = Ok a -> liftS r s = (Ok a, s).
Proof. by intros ->. Qed.
Lemma liftS_Ok {A} (r : Res A) s a s' : liftS r s = (Ok a, s') <-> r = Ok a /\ s' = s.
Proof. unfold liftS. split; [by intros [= -> ->]|by intros [-> ->]]. Qed.
Lemma mretS_Ok {A} (a b : A) s s' : @mret (ST S) _ A a s = (Ok b, s') <-> b = a /\ s' = s.
Proof. unfold mret, ST_ret. split; [by intros [= -> ->]|by intros [-> ->]]. Qed.
Lemma getS_Ok {A} (f : S -> A) s a s' : getS f s = (Ok a, s') <-> a = f s /\ s' = s.
Proof. unfold getS. split; [by intros [= <- <-]|by intros [-> ->]]. Qed.
Lemma modifyS_Ok f s u s' : modifyS f s = (Ok u, s') <-> u = tt /\ s' = f s.
Proof. unfold modifyS. split; [by intros [= <- <-]|by intros [-> ->]]. Qed.
Lemma unwrapS_Ok {A} (m : ST S A) s a s' : unwrapS m s = (Ok a, s') <-> m s = (Ok a, s').
Proof. unfold unwrapS. destruct (m s) as [[x|e|e] s1]; cbn; split; intros E; by simplify_eq. Qed.
Lemma finallyS_Ok {A} f (m : ST S A) s a s' :
  finallyS f m s = (Ok a, s') <-> exists s1, m s = (Ok a, s1) /\ s' = f s1.
Proof. unfold finallyS. destruct (m s) as [r s1]. naive_solver. Qed.
Lemma tryS_Some {A} (m : ST S A) s a s' : tryS m s = (Ok (Some a), s') <-> m s = (Ok a, s').
Proof. unfold tryS. destruct (m s) as [[x|e|e] s1]; split; intros E; by simplify_eq. Qed.
Lemma tryS_None {A} (m : ST S A) s s' : tryS m s = (Ok None, s') <-> exists e, m s = (Err e, s').
Proof. unfold tryS. destruct (m s) as [[x|e|e] s1]; naive_solver. Qed.
Lemma attemptS_inl {A} (m : ST S A) s a s' : attemptS m s = (Ok (inl a), s') <-> m s = (Ok a, s').
Proof. unfold attemptS. destruct (m s) as [[x|e|e] s1]; split; intros E; by simplify_eq. Qed.
Lemma attemptS_inr {A} (m : ST S A) s e s' : attemptS m s = (Ok (inr e), s') <-> m s = (Err e, s').
Proof. unfold attemptS. destruct (m s) as [[x|e1|e1] s1]; split; intros E; by simplify_eq. Qed.
End lemmas.

Lemma mapS_Ok {S A B C} (f : A -> ST S B) (g : B -> C) (h : A -> C) l (s : S) bs s' :
  (forall a s b s', a ∈ l -> f a s = (Ok b, s') -> g b = h a) ->
  mapS f l s = (Ok bs, s') -> g <$> bs = h <$> l.
Proof.
  revert s bs. induction l as [|a l IH]; intros s bs Hf E; cbn in E; [by injection E as <- _|].
  apply ST_bind_Ok in E as (b & s1 & E1 & E). apply ST_bind_Ok in E as (bs' & s2 & E2 & E).
  apply mretS_Ok in E as [-> ->]. cbn. f_equal; [by eapply Hf, E1; apply list_elem_of_here|].
  eapply IH, E2. intros ???? Hin. by eapply Hf, list_elem_of_further.
Qed.

(** [st_inv] takes apart the hypotheses that say a method succeeded. *)
Ltac st_inv_step :=
  match goal with
  | H : mbind _ _ _ = (Ok _, _) |- _ => apply ST_bind_Ok in H as (? & ? & ? & H)
  | H : liftS _ _ = (Ok _, _) |- _ => apply liftS_Ok in H as [H ->]
  | H : errS _ _ = (Ok _, _) |- _ => discriminate H
  | H : mret _ _ = (Ok _, _) |- _ => apply mretS_Ok in H as [H ->]
  | H : getS _ _ = (Ok _, _) |- _ => apply getS_Ok in H as [H ->]
  | H : modifyS _ _ = (Ok _, _) |- _ => apply modifyS_Ok in H as [H ->]
  | H : unwrapS _ _ = (Ok _, _) |- _ => apply (proj1 (unwrapS_Ok _ _ _ _)) in H
  | H : finallyS _ _ _ = (Ok _, _) |- _ => apply finallyS_Ok in H as (? & H & ->)
  end.
Ltac st_inv := repeat first [st_inv_step | res_inv_step]; simplify_eq/=.

(** ** What a method leaves *)

(** [leaves f m]: [m] does not change [f] of the state, however it ends. *)
Definition leaves {S A X} (f : S -> X) (m : ST S A) : Prop := forall s, f (m s).2 = f s.

Section leaves.
Context {S X : Type} (f : S -> X).

Lemma leaves_ret {A} (a : A) : leaves f (mret a).
Proof. done. Qed.
Lemma leaves_lift {A} (r : Res A) : leaves f (liftS r).
Proof. done. Qed.
Lemma leaves_get {A} (g : S -> A) : leaves f (getS g).
Proof. done. Qed.
Lemma leaves_modify g : (forall s, f (g s) = f s) -> leaves f (modifyS g).
Proof. intros Hg s. apply Hg. Qed.
Lemma leaves_bind {A B} (m : ST S A) (k : A -> ST S B) :
  leaves f m -> (forall a, leaves f (k a)) -> leaves f (m ≫= k).
Proof.
  intros Hm Hk s. specialize (Hm s). unfold mbind, ST_bind. destruct (m s) as [[a|e|e] s1]; cbn in *; [|done..].
  by rewrite Hk.
Qed.
Lemma leaves_unwrap {A} (m : ST S A) : leaves f m -> leaves f (unwrapS m).
Proof. intros Hm s. specialize (Hm s). unfold unwrapS. by destruct (m s) as [r s1]. Qed.
Lemma leaves_finally {A} g (m : ST S A) : (forall s, f (g s) = f s) -> leaves f m -> leaves f (finallyS g m).
Proof. intros Hg Hm s. specialize (Hm s). unfold finallyS. destruct (m s) as [r s1]; cbn in *. by rewrite Hg. Qed.
Lemma leaves_try {A} (m : ST S A) : leaves f m -> leaves f (tryS m).
Proof. intros Hm s. specialize (Hm s). unfold tryS. by destruct (m s) as [[a|e|e] s1]. Qed.
Lemma leaves_attempt {A} (m : ST S A) : leaves f m -> leaves f (attemptS m).
Proof. intros Hm s. specialize (Hm s). unfold attemptS. by destruct (m s) as [[a|e|e] s1]. Qed.
Lemma leaves_foreach {A} (g : A -> ST S unit) l : (forall a, leaves f (g a)) -> leaves f (foreachS g l).
Proof. intros Hg. induction l as [|a l IH]; [done|]. by apply leaves_bind. Qed.
Lemma leaves_fold {A B} (g : B -> A -> ST S B) b l : (forall b a, leaves f (g b a)) -> leaves f (foldS g b l).
Proof. intros Hg. revert b. induction l as [|a l IH]; intros b; [done|]. by apply leaves_bind. Qed.
Lemma leaves_map {A B} (g : A -> ST S B) l : (forall a, leaves f (g a)) -> leaves f (mapS g l).
Proof.
  intros Hg. induction l as [|a l IH]; [done|]. apply leaves_bind; [done|]. intros b. by apply leaves_bind.
Qed.
Lemma leaves_if {A} (c : bool) (m1 m2 : ST S A) : leaves f m1 -> leaves f m2 -> leaves f (if c then m1 else m2).
Proof. by destruct c. Qed.
Lemma leaves_Ok {A} (m : ST S A) s a s' : leaves f m -> m s = (Ok a, s') -> f s' = f s.
Proof. intros Hm E. specialize (Hm s). by rewrite E in Hm. Qed.
End leaves.

Create HintDb leaves discriminated.
#[export] Hint Resolve leaves_ret leaves_lift leaves_get leaves_unwrap leaves_try leaves_attempt leaves_bind leaves_foreach
  leaves_fold leaves_map leaves_if : leaves.

(** [invar I m]: [m] keeps [I], however it ends. *)
Definition invar {S A} (I : S -> Prop) (m : ST S A) : Prop := forall s, I s -> I (m s).2.

Section invar.
Context {S : Type} (I : S -> Prop).

Lemma invar_ret {A} (a : A) : invar I (mret a).
Proof. by intros s. Qed.
Lemma invar_lift {A} (r : Res A) : invar I (liftS r).
Proof. by intros s. Qed.
Lemma invar_get {A} (g : S -> A) : invar I (getS g).
Proof. by intros s. Qed.
Lemma invar_modify g : (forall s, I s -> I (g s)) -> invar I (modifyS g).
Proof. intros Hg s. apply Hg. Qed.
(** What the first part found may be used for the second, which may keep more. *)
Lemma invar_bind_Ok {A B} (m : ST S A) (k : A -> ST S B) :
  invar I m -> (forall s a s', I s -> m s = (Ok a, s') -> I (k a s').2) -> invar I (m ≫= k).
Proof.
  intros Hm Hk s Hs. specialize (Hm s Hs). specialize (Hk s). unfold mbind, ST_bind.
  destruct (m s) as [[a|e|e] s1]; cbn in *; [by apply Hk|done..].
Qed.
Lemma invar_bind {A B} (m : ST S A) (k : A -> ST S B) :
  invar I m -> (forall a, invar I (k a)) -> invar I (m ≫= k).
Proof.
  intros Hm Hk. apply invar_bind_Ok; [done|]. intros s a s' Hs E. apply Hk. specialize (Hm s Hs). by rewrite E in Hm.
Qed.
Lemma invar_unwrap {A} (m : ST S A) : invar I m -> invar I (unwrapS m).
Proof. intros Hm s Hs. specialize (Hm s Hs). unfold unwrapS. by destruct (m s) as [r s1]. Qed.
Lemma invar_try {A} (m : ST S A) : invar I m -> invar I (tryS m).
Proof. intros Hm s Hs. specialize (Hm s Hs). unfold tryS. by destruct (m s) as [[a|e|e] s1]. Qed.
Lemma invar_attempt {A} (m : ST S A) : invar I m -> invar I (attemptS m).
Proof. intros Hm s Hs. specialize (Hm s Hs). unfold attemptS. by destruct (m s) as [[a|e|e] s1]. Qed.
Lemma invar_foreach_in {A} (g : A -> ST S unit) l : (forall a, a ∈ l -> invar I (g a)) -> invar I (foreachS g l).
Proof.
  induction l as [|a l IH]; intros Hg; [apply invar_ret|]. apply invar_bind; [apply Hg; by left|]. intros u.
  apply IH. intros b Hb. apply Hg. by right.
Qed.
Lemma invar_foreach {A} (g : A -> ST S unit) l : (forall a, invar I (g a)) -> invar I (foreachS g l).
Proof. intros Hg. apply invar_foreach_in. intros a _. apply Hg. Qed.
Lemma invar_fold {A B} (g : B -> A -> ST S B) b l : (forall b a, invar I (g b a)) -> invar I (foldS g b l).
Proof. intros Hg. revert b. induction l as [|a l IH]; intros b; [apply invar_ret|]. by apply invar_bind. Qed.
Lemma invar_map {A B} (g : A -> ST S B) l : (forall a, invar I (g a)) -> invar I (mapS g l).
Proof.
  intros Hg. induction l as [|a l IH]; [apply invar_ret|]. apply invar_bind; [done|]. intros b.
  apply invar_bind; [done|]. intros bs. apply invar_ret.
Qed.
End invar.

Create HintDb keeps.
(** [keep] goes through the body of a method. *)
Ltac keep_step :=
  match goal with
  | |- invar _ (mret _) => apply invar_ret
  | |- invar _ (liftS _) => apply invar_lift
  | |- invar _ (errS _) => apply invar_lift
  | |- invar _ (getS _) => apply invar_get
  | |- invar _ (mbind _ _) => apply invar_bind; [|intros ?]
  | |- invar _ (unwrapS _) => apply invar_unwrap
  | |- invar _ (tryS _) => apply invar_try
  | |- invar _ (attemptS _) => apply invar_attempt
  | |- invar _ (foreachS _ _) => apply invar_foreach; intros ?
  | |- invar _ (foldS _ _ _) => apply invar_fold; intros ? ?
  | |- invar _ (mapS _ _) => apply invar_map; intros ?
  | |- invar _ (whenS _ _) => unfold whenS
  | |- invar _ (match ?x with _ => _ end) => destruct x
  end.
Ltac keep := repeat first [progress cbv zeta | solve [auto with keeps nocore] | keep_step].
