(* ===== verification/Wallet.v ===== *)
(** * The wallet: libwallet's types.rs, internal/keys.rs, impls/backends/lmdb.rs

    Outputs and log entries with their operations, the data base behind the wallet
    with the batch that changes it, the keychain behind its mask, and the keys of
    accounts.  The wallet is the state of [W].  LMDB itself is a map from keys to
    values for each prefix; the keys are built by [grin_store]
    ([to_key], [to_key_u64]), whose failures are not modelled. *)
From S2P Require Import Prelude.
From S2P Require Import RustStd.
From S2P Require Import Crates.
From S2P Require Import Effects.
From S2P Require Import Slate.
From S2P Require Import SlateV4.
From S2P Require Import SlateBin.
From S2P Require Import StateM.
From Stdlib Require Import Ascii.
From stdpp Require Import sorting.
#[local] Open Scope Z_scope.

(** ** Data *)
Inductive OutputStatus := Unconfirmed | Unspent | Locked | Spent | Reverted.
Inductive TxLogEntryType :=
| ConfirmedCoinbase | TxReceived | TxSent | TxReceivedCancelled | TxSentCancelled | TxReverted.
#[export] Instance OutputStatus_eq : EqDecision OutputStatus.
Proof. solve_decision. Defined.
#[export] Instance TxLogEntryType_eq : EqDecision TxLogEntryType.
Proof. solve_decision. Defined.

(** [ExtKeychainPath]: a depth and four child numbers. *)
Record ExtKeychainPath := mkPath { kp_depth : Z; kp_path : list Z }.

Section data.
Context `{GrinTypes}.

Record OutputData := mkOutputData {
  od_root_key_id : Identifier;
  od_key_id : Identifier;
  od_n_child : Z;
  od_commit : option string;
  od_mmr_index : option Z;
  od_value : Z;
  od_status : OutputStatus;
  od_height : Z;
  od_lock_height : Z;
  od_is_coinbase : bool;
  od_tx_log_entry : option Z }.

Record StoredProofInfo := mkStoredProofInfo {
  sp_receiver_address : DalekPublicKey;
  sp_receiver_signature : option DalekSignature;
  sp_sender_address_path : Z;
  sp_sender_address : DalekPublicKey;
  sp_sender_signature : option DalekSignature }.

(** Times are nanoseconds. *)
Record TxLogEntry := mkTxLogEntry {
  tl_parent_key_id : Identifier;
  tl_id : Z;
  tl_tx_slate_id : option Uuid;
  tl_tx_type : TxLogEntryType;
  tl_creation_ts : Z;
  tl_confirmation_ts : option Z;
  tl_confirmed : bool;
  tl_num_inputs : Z;
  tl_num_outputs : Z;
  tl_amount_credited : Z;
  tl_amount_debited : Z;
  tl_fee : option FeeFields;
  tl_ttl_cutoff_height : option Z;
  tl_stored_tx : option string;
  tl_kernel_excess : option Commitment;
  tl_kernel_lookup_min_height : option Z;
  tl_payment_proof : option StoredProofInfo;
  tl_reverted_after : option Z }.

Record AcctPathMapping := mkAcctPathMapping { ap_label : string; ap_path : Identifier }.
Record ScannedBlockInfo := mkScannedBlockInfo {
  sb_height : Z; sb_hash : string; sb_start_pmmr_index : Z; sb_last_pmmr_index : Z }.
Inductive WalletInitStatus := InitNeedsScanning | InitNoScanning | InitComplete.

Record WalletInfo := mkWalletInfo {
  wi_last_confirmed_height : Z;
  wi_minimum_confirmations : Z;
  wi_total : Z;
  wi_amount_awaiting_finalization : Z;
  wi_amount_awaiting_confirmation : Z;
  wi_amount_immature : Z;
  wi_amount_currently_spendable : Z;
  wi_amount_locked : Z;
  wi_amount_reverted : Z }.

(** Assignments to fields. *)
Definition set_od_status (st : OutputStatus) (o : OutputData) : OutputData :=
  mkOutputData (od_root_key_id o) (od_key_id o) (od_n_child o) (od_commit o) (od_mmr_index o) (od_value o)
    st (od_height o) (od_lock_height o) (od_is_coinbase o) (od_tx_log_entry o).
Definition set_od_height (h : Z) (o : OutputData) : OutputData :=
  mkOutputData (od_root_key_id o) (od_key_id o) (od_n_child o) (od_commit o) (od_mmr_index o) (od_value o)
    (od_status o) h (od_lock_height o) (od_is_coinbase o) (od_tx_log_entry o).
Definition set_od_tx_log_entry (t : option Z) (o : OutputData) : OutputData :=
  mkOutputData (od_root_key_id o) (od_key_id o) (od_n_child o) (od_commit o) (od_mmr_index o) (od_value o)
    (od_status o) (od_height o) (od_lock_height o) (od_is_coinbase o) t.

(** ** Outputs *)
Definition od_lock : OutputData -> OutputData := set_od_status Locked.
End data.

Section outputs.
Context `{GrinTypes, BuildProfile}.
Implicit Types o : OutputData.

Definition num_confirmations o (current_height : Z) : Res Z :=
  if current_height <? od_height o then Ok 0
  else if bool_decide (od_status o = Unconfirmed) then Ok 0
  else d ← u64_sub current_height (od_height o); u64_add 1 d.

Definition eligible_to_spend o (current_height minimum_confirmations : Z) : Res bool :=
  if bool_decide (od_status o ∈ [Spent; Locked])
     || (bool_decide (od_status o = Unconfirmed) && od_is_coinbase o)
     || (current_height <? od_lock_height o)
  then Ok false
  else
    confirmed ← if bool_decide (od_status o = Unspent)
                then n ← num_confirmations o current_height; Ok (minimum_confirmations <=? n)
                else Ok false;
    Ok (confirmed || (bool_decide (od_status o = Unconfirmed) && (minimum_confirmations =? 0))).

Definition mark_unspent o : OutputData :=
  match od_status o with
  | Unconfirmed | Reverted => set_od_status Unspent o
  | _ => o
  end.
Definition mark_spent o : OutputData :=
  match od_status o with
  | Unspent | Locked => set_od_status Spent o
  | _ => o
  end.
Definition mark_reverted o : OutputData :=
  match od_status o with
  | Unspent => set_od_status Reverted o
  | _ => o
  end.

(** ** Log entries *)
Definition TxLogEntry_new (now : Z) (parent_key_id : Identifier) (t : TxLogEntryType) (id : Z) : TxLogEntry :=
  {| tl_parent_key_id := parent_key_id; tl_tx_type := t; tl_id := id; tl_tx_slate_id := None;
     tl_creation_ts := now; tl_confirmation_ts := None; tl_confirmed := false;
     tl_amount_credited := 0; tl_amount_debited := 0; tl_num_inputs := 0; tl_num_outputs := 0;
     tl_fee := None; tl_ttl_cutoff_height := None; tl_stored_tx := None; tl_kernel_excess := None;
     tl_kernel_lookup_min_height := None; tl_payment_proof := None; tl_reverted_after := None |}.

Definition sum_confirmed (txs : list TxLogEntry) : Res (Z * Z) :=
  res_fold (fun acc tx =>
    if tl_confirmed tx then
      c ← u64_add acc.1 (tl_amount_credited tx); d ← u64_add acc.2 (tl_amount_debited tx); Ok (c, d)
    else Ok acc) (0, 0) txs.
End outputs.

(** Assignments to a log entry. *)
Section log_entry.
Context `{GrinTypes}.
Implicit Types t : TxLogEntry.
Definition set_tl_type ty t : TxLogEntry :=
  mkTxLogEntry (tl_parent_key_id t) (tl_id t) (tl_tx_slate_id t) ty (tl_creation_ts t)
    (tl_confirmation_ts t) (tl_confirmed t) (tl_num_inputs t) (tl_num_outputs t) (tl_amount_credited t)
    (tl_amount_debited t) (tl_fee t) (tl_ttl_cutoff_height t) (tl_stored_tx t) (tl_kernel_excess t)
    (tl_kernel_lookup_min_height t) (tl_payment_proof t) (tl_reverted_after t).
Definition set_tl_confirmed (b : bool) t : TxLogEntry :=
  mkTxLogEntry (tl_parent_key_id t) (tl_id t) (tl_tx_slate_id t) (tl_tx_type t) (tl_creation_ts t)
    (tl_confirmation_ts t) b (tl_num_inputs t) (tl_num_outputs t) (tl_amount_credited t)
    (tl_amount_debited t) (tl_fee t) (tl_ttl_cutoff_height t) (tl_stored_tx t) (tl_kernel_excess t)
    (tl_kernel_lookup_min_height t) (tl_payment_proof t) (tl_reverted_after t).
Definition set_tl_reverted_after (d : option Z) t : TxLogEntry :=
  mkTxLogEntry (tl_parent_key_id t) (tl_id t) (tl_tx_slate_id t) (tl_tx_type t) (tl_creation_ts t)
    (tl_confirmation_ts t) (tl_confirmed t) (tl_num_inputs t) (tl_num_outputs t) (tl_amount_credited t)
    (tl_amount_debited t) (tl_fee t) (tl_ttl_cutoff_height t) (tl_stored_tx t) (tl_kernel_excess t)
    (tl_kernel_lookup_min_height t) (tl_payment_proof t) d.
Definition set_tl_kernel_excess (e : option Commitment) t : TxLogEntry :=
  mkTxLogEntry (tl_parent_key_id t) (tl_id t) (tl_tx_slate_id t) (tl_tx_type t) (tl_creation_ts t)
    (tl_confirmation_ts t) (tl_confirmed t) (tl_num_inputs t) (tl_num_outputs t) (tl_amount_credited t)
    (tl_amount_debited t) (tl_fee t) (tl_ttl_cutoff_height t) (tl_stored_tx t) e
    (tl_kernel_lookup_min_height t) (tl_payment_proof t) (tl_reverted_after t).
Definition set_tl_payment_proof (p : option StoredProofInfo) t : TxLogEntry :=
  mkTxLogEntry (tl_parent_key_id t) (tl_id t) (tl_tx_slate_id t) (tl_tx_type t) (tl_creation_ts t)
    (tl_confirmation_ts t) (tl_confirmed t) (tl_num_inputs t) (tl_num_outputs t) (tl_amount_credited t)
    (tl_amount_debited t) (tl_fee t) (tl_ttl_cutoff_height t) (tl_stored_tx t) (tl_kernel_excess t)
    (tl_kernel_lookup_min_height t) p (tl_reverted_after t).
Definition update_confirmation_ts (now : Z) t : TxLogEntry :=
  mkTxLogEntry (tl_parent_key_id t) (tl_id t) (tl_tx_slate_id t) (tl_tx_type t) (tl_creation_ts t)
    (Some now) (tl_confirmed t) (tl_num_inputs t) (tl_num_outputs t) (tl_amount_credited t)
    (tl_amount_debited t) (tl_fee t) (tl_ttl_cutoff_height t) (tl_stored_tx t) (tl_kernel_excess t)
    (tl_kernel_lookup_min_height t) (tl_payment_proof t) (tl_reverted_after t).
End log_entry.

(** ** What the wallet takes from the libraries *)

(** How [File::create], [write_all] and [sync_all] on a file end: all of them
    succeed, or the first one that fails does so with this error, [write_all]
    after so many bytes. *)
Inductive FileWrite :=
| FileWritten
| CreateFails (e : string)
| WriteFails (n : nat) (e : string)
| SyncFails (e : string).

Class WalletCrates `{GC : GrinCrates, !BinCrates} := {
  Identifier_eq :: EqDecision Identifier;
  Uuid_eq :: EqDecision Uuid;
  id_to_bytes : Identifier -> string;
  id_to_path : Identifier -> ExtKeychainPath;
  id_from_path : ExtKeychainPath -> Identifier;
  id_to_string : Identifier -> string;
  last_path_index : ExtKeychainPath -> Z;
  uuid_to_string : Uuid -> string;
  (* grin_keychain: a keychain that may be masked *)
  Keychain : Type;
  kc_root_key : Keychain -> Res SecretKey;      (* derive_key(0, &K::root_key_id(), Regular) *)
  kc_mask_master_key : SecretKey -> Keychain -> Res Keychain;
  kc_commit : Keychain -> Z -> Identifier -> Res Commitment;
  kc_address_key : Keychain -> Identifier -> Res SecretKey;   (* derive_key(0, id, None) *)
  (* blake2b with 32 bytes of output *)
  blake2b : string -> string;
  (* the bytes of a key, xored with others *)
  sk_xor : SecretKey -> string -> SecretKey;
  sk_eqb : SecretKey -> SecretKey -> bool;
  sk_new_test : Z -> SecretKey;                 (* SecretKey::new(StepRng::new(seed, 1)) *)
  create_secnonce : Z -> Res SecretKey;
  (* grin_store *)
  to_key : string -> string -> string;
  to_key_u64 : string -> string -> Z -> string;
  (* does an iterator made by a batch see what the batch wrote? *)
  batch_iter_sees_writes : bool;
  (* the operating system: how writing a file ends, which depends on what the
     environment holds at that point *)
  disk_answer : Tape -> string -> FileWrite;
  (* grin_core *)
  build_input : Z -> Identifier -> BuildElem;
  build_coinbase_input : Z -> Identifier -> BuildElem;
  build_output : Z -> Identifier -> BuildElem;
  fee_try_from : Z -> option FeeFields;
  fee_as_opt : FeeFields -> option FeeFields;
  tx_ser_vec : Transaction -> Res string;
  tx_deserialize : string -> Res Transaction;
  secp_commit_value : Z -> Res Commitment;
}.

(** Documented behaviour: encodings are injective and of fixed length, a mask is
    taken off by the key it was put on with. *)
Class WalletLaws `{WalletCrates} := {
  id_bytes_inj i j : id_to_bytes i = id_to_bytes j -> i = j;
  id_bytes_length i : String.length (id_to_bytes i) = 17%nat;
  uuid_bytes_length u : String.length (uuid_as_bytes u) = 16%nat;
  to_key_inj p k k' : to_key p k = to_key p k' -> k = k';
  to_key_u64_inj p k n k' n' :
    in_u64 n -> in_u64 n' -> to_key_u64 p k n = to_key_u64 p k' n' -> k = k' /\ n = n';
  to_key_length p k k' :
    (String.length (to_key p k) + String.length k' = String.length (to_key p k') + String.length k)%nat;
  to_key_u64_length p k n : String.length (to_key_u64 p k n) = (String.length (to_key p k) + 8)%nat;
  sk_xor_xor k m : sk_xor (sk_xor k m) m = k;
  sk_eqb_spec k k' : sk_eqb k k' = true <-> k = k';
}.

Section backend.
Context `{BuildProfile, GC : GrinCrates, !BinCrates, !WalletCrates, !HexCrate}.

(** ** The data base, by prefix *)
Definition OUTPUT_PREFIX : string := "o".
Definition DERIV_PREFIX : string := "d".
Definition CONFIRMED_HEIGHT_PREFIX : string := "c".
Definition PRIVATE_TX_CONTEXT_PREFIX : string := "p".
Definition TX_LOG_ENTRY_PREFIX : string := "t".
Definition TX_LOG_ID_PREFIX : string := "i".
Definition ACCOUNT_PATH_MAPPING_PREFIX : string := "a".
Definition LAST_SCANNED_BLOCK : string := "l".
Definition LAST_SCANNED_KEY : string := "LAST_SCANNED_KEY".
Definition WALLET_INIT_STATUS : string := "w".
Definition WALLET_INIT_STATUS_KEY : string := "WALLET_INIT_STATUS".

Record Db := mkDb {
  db_outputs : gmap string OutputData;
  db_child_index : gmap string Z;
  db_confirmed_height : gmap string Z;
  db_contexts : gmap string Context_;
  db_tx_log : gmap string TxLogEntry;
  db_tx_log_ids : gmap string Z;
  db_accounts : gmap string AcctPathMapping;
  db_scanned : gmap string ScannedBlockInfo;
  db_init_status : gmap string WalletInitStatus }.
Definition empty_db : Db := mkDb ∅ ∅ ∅ ∅ ∅ ∅ ∅ ∅ ∅.

Definition set_db_outputs m (d : Db) : Db :=
  mkDb m (db_child_index d) (db_confirmed_height d) (db_contexts d) (db_tx_log d) (db_tx_log_ids d)
    (db_accounts d) (db_scanned d) (db_init_status d).
Definition set_db_child_index m (d : Db) : Db :=
  mkDb (db_outputs d) m (db_confirmed_height d) (db_contexts d) (db_tx_log d) (db_tx_log_ids d)
    (db_accounts d) (db_scanned d) (db_init_status d).
Definition set_db_confirmed_height m (d : Db) : Db :=
  mkDb (db_outputs d) (db_child_index d) m (db_contexts d) (db_tx_log d) (db_tx_log_ids d)
    (db_accounts d) (db_scanned d) (db_init_status d).
Definition set_db_contexts m (d : Db) : Db :=
  mkDb (db_outputs d) (db_child_index d) (db_confirmed_height d) m (db_tx_log d) (db_tx_log_ids d)
    (db_accounts d) (db_scanned d) (db_init_status d).
Definition set_db_tx_log m (d : Db) : Db :=
  mkDb (db_outputs d) (db_child_index d) (db_confirmed_height d) (db_contexts d) m (db_tx_log_ids d)
    (db_accounts d) (db_scanned d) (db_init_status d).
Definition set_db_tx_log_ids m (d : Db) : Db :=
  mkDb (db_outputs d) (db_child_index d) (db_confirmed_height d) (db_contexts d) (db_tx_log d) m
    (db_accounts d) (db_scanned d) (db_init_status d).
Definition set_db_accounts m (d : Db) : Db :=
  mkDb (db_outputs d) (db_child_index d) (db_confirmed_height d) (db_contexts d) (db_tx_log d)
    (db_tx_log_ids d) m (db_scanned d) (db_init_status d).
Definition set_db_scanned m (d : Db) : Db :=
  mkDb (db_outputs d) (db_child_index d) (db_confirmed_height d) (db_contexts d) (db_tx_log d)
    (db_tx_log_ids d) (db_accounts d) m (db_init_status d).
Definition set_db_init_status m (d : Db) : Db :=
  mkDb (db_outputs d) (db_child_index d) (db_confirmed_height d) (db_contexts d) (db_tx_log d)
    (db_tx_log_ids d) (db_accounts d) (db_scanned d) m.

(** An iterator goes through the values in the order of their keys. *)
Definition key_le {A} (x y : string * A) : Prop := String.leb x.1 y.1 = true.
#[global] Instance key_le_dec {A} : RelDecision (@key_le A).
Proof. intros x y. unfold key_le. apply _. Defined.
Definition db_iter {A} (m : gmap string A) : list A := snd <$> merge_sort key_le (map_to_list m).

(** ** The wallet

    [LMDBBackend], the files of stored transactions, and what the environment
    gives: random numbers, the time and the answers of the node are drawn from
    the tape.  [wa_batch] is the batch that is open: the data base with its changes
    and its keychain. *)
Record Wallet := mkWallet {
  wa_db : Db;
  wa_batch : option (Db * option Keychain);
  wa_files : gmap string string;
  wa_keychain : option Keychain;
  wa_master_checksum : option string;
  wa_parent_key_id : Identifier;
  wa_slate_counter : Z;     (* the static SLATE_COUNTER of internal/tx.rs *)
  wa_tape : Tape }.
#[local] Abbreviation W := (ST Wallet).

Definition set_wa_db d (w : Wallet) : Wallet :=
  mkWallet d (wa_batch w) (wa_files w) (wa_keychain w) (wa_master_checksum w) (wa_parent_key_id w)
    (wa_slate_counter w) (wa_tape w).
Definition set_wa_batch b (w : Wallet) : Wallet :=
  mkWallet (wa_db w) b (wa_files w) (wa_keychain w) (wa_master_checksum w) (wa_parent_key_id w)
    (wa_slate_counter w) (wa_tape w).
Definition set_wa_files f (w : Wallet) : Wallet :=
  mkWallet (wa_db w) (wa_batch w) f (wa_keychain w) (wa_master_checksum w) (wa_parent_key_id w)
    (wa_slate_counter w) (wa_tape w).
Definition set_wa_keychain k (w : Wallet) : Wallet :=
  mkWallet (wa_db w) (wa_batch w) (wa_files w) k (wa_master_checksum w) (wa_parent_key_id w)
    (wa_slate_counter w) (wa_tape w).
Definition set_wa_master_checksum c (w : Wallet) : Wallet :=
  mkWallet (wa_db w) (wa_batch w) (wa_files w) (wa_keychain w) c (wa_parent_key_id w)
    (wa_slate_counter w) (wa_tape w).
Definition set_wa_parent_key_id i (w : Wallet) : Wallet :=
  mkWallet (wa_db w) (wa_batch w) (wa_files w) (wa_keychain w) (wa_master_checksum w) i
    (wa_slate_counter w) (wa_tape w).
Definition set_wa_tape t (w : Wallet) : Wallet :=
  mkWallet (wa_db w) (wa_batch w) (wa_files w) (wa_keychain w) (wa_master_checksum w) (wa_parent_key_id w)
    (wa_slate_counter w) t.
Definition set_wa_slate_counter n (w : Wallet) : Wallet :=
  mkWallet (wa_db w) (wa_batch w) (wa_files w) (wa_keychain w) (wa_master_checksum w) (wa_parent_key_id w)
    n (wa_tape w).

(** Random numbers, and the time. *)
Definition drawn {A} (m : M A) : W A := fun w => let '(r, t) := m (wa_tape w) in (r, set_wa_tape t w).
Definition utc_now : W Z := drawn draw.

(** ** Unsigned integers of other widths *)
Definition uint_result (m : Z) (what : string) (x : Z) : Res Z :=
  if (0 <=? x) && (x <? m) then Ok x
  else if overflow_checks then Panic ("attempt to " +:+ what +:+ " with overflow") else Ok (x mod m).
Definition u32_add (x y : Z) : Res Z := uint_result u32_modulus "add" (x + y).
Definition u8_add (x y : Z) : Res Z := uint_result 256 "add" (x + y).

(** ** The keychain behind its mask *)
Definition set_keychain (k : Keychain) (mask use_test_rng : bool) : W (option SecretKey) :=
  root_key ← liftS (kc_root_key k);
  _ ← modifyS (set_wa_master_checksum (Some (blake2b (sk_bytes root_key))));
  '(mask_value, k) ← (if mask then
      mask_value ← (if use_test_rng then mret (sk_new_test 1234567890)
                    else seed ← drawn draw; mret (sk_new seed));
      k ← liftS (kc_mask_master_key mask_value k);
      mret (Some mask_value, k)
    else mret (None, k));
  _ ← modifyS (set_wa_keychain (Some k));
  mret mask_value.

Definition close : W unit := modifyS (set_wa_keychain None).

Definition keychain (mask : option SecretKey) : W Keychain :=
  stored ← getS wa_keychain;
  match stored with
  | Some k =>
      k_masked ← liftS (match mask with Some m => kc_mask_master_key m k | None => Ok k end);
      root_key ← liftS (kc_root_key k_masked);
      checksum ← getS wa_master_checksum;
      if bool_decide (checksum = Some (blake2b (sk_bytes root_key))) then mret k_masked
      else errS "InvalidKeychainMask"
  | None => errS "KeychainDoesntExist"
  end.

Definition calc_commit_for_cache (mask : option SecretKey) (amount : Z) (id : Identifier) :
    W (option string) :=
  k ← keychain mask;
  c ← liftS (kc_commit k amount id);
  mret (Some (hex_encode (commit_bytes c))).

(** ** Reading *)
Definition output_key (id : Identifier) (mmr_index : option Z) : string :=
  match mmr_index with
  | Some i => to_key_u64 OUTPUT_PREFIX (id_to_bytes id) i
  | None => to_key OUTPUT_PREFIX (id_to_bytes id)
  end.
Definition not_found {A} (what : string) (o : option A) : Res A := ok_or ("NotFoundErr(" +:+ what +:+ ")") o.

Definition wallet_iter : W (list OutputData) := getS (fun w => db_iter (db_outputs (wa_db w))).
Definition wallet_get (id : Identifier) (mmr_index : option Z) : W OutputData :=
  m ← getS (fun w => db_outputs (wa_db w));
  liftS (not_found ("Key Id: " +:+ id_to_string id) (m !! output_key id mmr_index)).
Definition get_tx_log_entry (u : Uuid) : W (option TxLogEntry) :=
  getS (fun w => db_tx_log (wa_db w) !! to_key TX_LOG_ENTRY_PREFIX (uuid_as_bytes u)).
Definition tx_log_iter : W (list TxLogEntry) := getS (fun w => db_iter (db_tx_log (wa_db w))).
Definition acct_path_iter : W (list AcctPathMapping) := getS (fun w => db_iter (db_accounts (wa_db w))).
Definition get_acct_path (label : string) : W (option AcctPathMapping) :=
  getS (fun w => db_accounts (wa_db w) !! to_key ACCOUNT_PATH_MAPPING_PREFIX label).
Definition current_child_index (parent_key_id : Identifier) : W Z :=
  getS (fun w => default 0 (db_child_index (wa_db w) !! to_key DERIV_PREFIX (id_to_bytes parent_key_id))).
Definition last_confirmed_height : W Z :=
  getS (fun w => default 0
    (db_confirmed_height (wa_db w) !! to_key CONFIRMED_HEIGHT_PREFIX (id_to_bytes (wa_parent_key_id w)))).
Definition last_scanned_block : W ScannedBlockInfo :=
  getS (fun w => default (mkScannedBlockInfo 0 "" 0 0)
    (db_scanned (wa_db w) !! to_key LAST_SCANNED_BLOCK LAST_SCANNED_KEY)).
Definition init_status : W WalletInitStatus :=
  getS (fun w => default InitComplete (db_init_status (wa_db w) !! to_key WALLET_INIT_STATUS WALLET_INIT_STATUS_KEY)).

Definition set_parent_key_id (id : Identifier) : W unit := modifyS (set_wa_parent_key_id id).
Definition parent_key_id : W Identifier := getS wa_parent_key_id.
Definition set_parent_key_id_by_name (label : string) : W unit :=
  accounts ← acct_path_iter;
  match find (fun l => bool_decide (ap_label l = label)) accounts with
  | Some a => set_parent_key_id (ap_path a)
  | None => errS ("UnknownAccountLabel(" +:+ label +:+ ")")
  end.

(** ** Stored transactions *)
Definition tx_file (uuid : string) : string := uuid +:+ ".grintx".
Definition put_file (file content : string) : W unit :=
  modifyS (fun w => set_wa_files (<[file := content]> (wa_files w)) w).
(** The file is created, and emptied, before the transaction is serialised; what
    was written stays there when a later step fails. *)
Definition store_tx (uuid : string) (tx : Transaction) : W unit :=
  let path := tx_file uuid in
  answer ← getS (fun w => disk_answer (wa_tape w) path);
  match answer with
  | CreateFails e => errS ("IO(" +:+ e +:+ ")")
  | _ =>
      _ ← put_file path "";
      bytes ← liftS (unwrap (tx_ser_vec tx));
      let tx_hex := hex_encode bytes in
      match answer with
      | WriteFails n e => _ ← put_file path (String.substring 0 n tx_hex); errS ("IO(" +:+ e +:+ ")")
      | SyncFails e => _ ← put_file path tx_hex; errS ("IO(" +:+ e +:+ ")")
      | _ => put_file path tx_hex
      end
  end.
Definition get_stored_tx (uuid : string) : W (option Transaction) :=
  files ← getS wa_files;
  content ← liftS (ok_or "IO(No such file or directory)" (files !! tx_file uuid));
  tx_bin ← liftS (unwrap_opt (hex_decode content));
  tx ← liftS (unwrap (tx_deserialize tx_bin));
  mret (Some tx).

(** ** Batches *)
Definition open_batch (k : option Keychain) : W unit :=
  modifyS (fun w => set_wa_batch (Some (wa_db w, k)) w).
(** [let mut batch = wallet.batch(mask)?; ..]: a batch that is not committed
    is dropped with its changes. *)
Definition with_batch {A} (mask : option SecretKey) (body : W A) : W A :=
  finallyS (set_wa_batch None) (k ← keychain mask; _ ← open_batch (Some k); body).
Definition with_batch_no_mask {A} (body : W A) : W A :=
  finallyS (set_wa_batch None) (_ ← open_batch None; body).

(** [self.db.borrow().as_ref().unwrap()] *)
Definition batch_db : W Db :=
  b ← getS wa_batch; liftS (p ← unwrap_opt b; Ok p.1).
Definition batch_update (f : Db -> Db) : W unit :=
  b ← getS wa_batch;
  p ← liftS (unwrap_opt b);
  modifyS (set_wa_batch (Some (f p.1, p.2))).
Definition batch_keychain : W Keychain :=
  b ← getS wa_batch;
  liftS (unwrap_opt (b ≫= snd)).
Definition iter_db : W Db :=
  d ← batch_db; committed ← getS wa_db;
  mret (if batch_iter_sees_writes then d else committed).

Definition save (out : OutputData) : W unit :=
  batch_update (fun d =>
    set_db_outputs (<[output_key (od_key_id out) (od_mmr_index out) := out]> (db_outputs d)) d).
Definition batch_get (id : Identifier) (mmr_index : option Z) : W OutputData :=
  d ← batch_db;
  liftS (not_found ("Key ID: " +:+ id_to_string id) (db_outputs d !! output_key id mmr_index)).
Definition batch_iter : W (list OutputData) := d ← iter_db; mret (db_iter (db_outputs d)).
(** The result of the deletion is not looked at. *)
Definition batch_delete (id : Identifier) (mmr_index : option Z) : W unit :=
  batch_update (fun d => set_db_outputs (delete (output_key id mmr_index) (db_outputs d)) d).
Definition next_tx_log_id (parent_key_id : Identifier) : W Z :=
  d ← batch_db;
  let tx_id_key := to_key TX_LOG_ID_PREFIX (id_to_bytes parent_key_id) in
  let last_tx_log_id := default 0 (db_tx_log_ids d !! tx_id_key) in
  next ← liftS (u32_add last_tx_log_id 1);
  _ ← batch_update (fun d => set_db_tx_log_ids (<[tx_id_key := next]> (db_tx_log_ids d)) d);
  mret last_tx_log_id.
Definition batch_tx_log_iter : W (list TxLogEntry) := d ← iter_db; mret (db_iter (db_tx_log d)).
Definition save_last_confirmed_height (parent_key_id : Identifier) (height : Z) : W unit :=
  batch_update (fun d =>
    set_db_confirmed_height
      (<[to_key CONFIRMED_HEIGHT_PREFIX (id_to_bytes parent_key_id) := height]> (db_confirmed_height d)) d).
Definition save_last_scanned_block (b : ScannedBlockInfo) : W unit :=
  batch_update (fun d =>
    set_db_scanned (<[to_key LAST_SCANNED_BLOCK LAST_SCANNED_KEY := b]> (db_scanned d)) d).
Definition save_init_status (v : WalletInitStatus) : W unit :=
  batch_update (fun d =>
    set_db_init_status (<[to_key WALLET_INIT_STATUS WALLET_INIT_STATUS_KEY := v]> (db_init_status d)) d).
Definition save_child_index (parent_id : Identifier) (child_n : Z) : W unit :=
  batch_update (fun d =>
    set_db_child_index (<[to_key DERIV_PREFIX (id_to_bytes parent_id) := child_n]> (db_child_index d)) d).
Definition save_tx_log_entry (tx_in : TxLogEntry) (parent_id : Identifier) : W unit :=
  batch_update (fun d =>
    set_db_tx_log
      (<[to_key_u64 TX_LOG_ENTRY_PREFIX (id_to_bytes parent_id) (tl_id tx_in) := tx_in]> (db_tx_log d)) d).
Definition save_acct_path (m : AcctPathMapping) : W unit :=
  batch_update (fun d =>
    set_db_accounts (<[to_key ACCOUNT_PATH_MAPPING_PREFIX (ap_label m) := m]> (db_accounts d)) d).
Definition batch_acct_path_iter : W (list AcctPathMapping) := d ← iter_db; mret (db_iter (db_accounts d)).
Definition lock_output (out : OutputData) : W unit := save (od_lock out).

Definition commit : W unit :=
  b ← getS wa_batch;
  p ← liftS (unwrap_opt b);
  _ ← modifyS (set_wa_batch None);
  modifyS (set_wa_db p.1).

(** ** Private contexts *)
Definition private_ctx_xor_keys (k : Keychain) (slate_id : string) : Res (string * string) :=
  root_key ← kc_root_key k;
  Ok (blake2b (sk_bytes root_key +:+ slate_id +:+ "blind"), blake2b (sk_bytes root_key +:+ slate_id +:+ "nonce")).

Definition xor_ctx (keys : string * string) (c : Context_) : Context_ :=
  mkContext (ctx_parent_key_id c) (sk_xor (ctx_sec_key c) keys.1) (sk_xor (ctx_sec_nonce c) keys.2)
    (ctx_initial_sec_key c) (ctx_initial_sec_nonce c) (ctx_output_ids c) (ctx_input_ids c) (ctx_amount c)
    (ctx_fee c) (ctx_payment_proof_derivation_index c) (ctx_late_lock_args c) (ctx_calculated_excess c).

Definition ctx_key (slate_id : string) : string := to_key_u64 PRIVATE_TX_CONTEXT_PREFIX slate_id 0.
Definition get_private_context (mask : option SecretKey) (slate_id : string) : W Context_ :=
  k ← keychain mask;
  keys ← liftS (private_ctx_xor_keys k slate_id);
  m ← getS (fun w => db_contexts (wa_db w));
  ctx ← liftS (not_found "Slate id" (m !! ctx_key slate_id));
  mret (xor_ctx keys ctx).
Definition save_private_context (slate_id : string) (ctx : Context_) : W unit :=
  k ← batch_keychain;
  keys ← liftS (private_ctx_xor_keys k slate_id);
  batch_update (fun d => set_db_contexts (<[ctx_key slate_id := xor_ctx keys ctx]> (db_contexts d)) d).
(** [del_key] of LMDB fails on a key that is not there. *)
Definition delete_private_context (slate_id : string) : W unit :=
  d ← batch_db;
  match db_contexts d !! ctx_key slate_id with
  | None => errS "Backend(LMDB error: NOTFOUND)"
  | Some _ => batch_update (fun d => set_db_contexts (delete (ctx_key slate_id) (db_contexts d)) d)
  end.

(** ** Child keys *)
Definition set_path_at (i v : Z) (p : ExtKeychainPath) : Res ExtKeychainPath :=
  if (0 <=? i) && (i <? Z.of_nat (length (kp_path p)))
  then Ok (mkPath (kp_depth p) (<[Z.to_nat i := v]> (kp_path p)))
  else Panic "index out of bounds".

(** The path one level below [p], at number [child]. *)
Definition child_path (p : ExtKeychainPath) (child : Z) : Res ExtKeychainPath :=
  depth ← u8_add (kp_depth p) 1;
  set_path_at (depth - 1) child (mkPath depth (kp_path p)).

Definition next_child (mask : option SecretKey) : W Identifier :=
  parent ← parent_key_id;
  deriv_idx ← current_child_index parent;
  return_path ← liftS (child_path (id_to_path parent) deriv_idx);
  next ← liftS (u32_add deriv_idx 1);
  _ ← with_batch mask (_ ← save_child_index parent next; commit);
  mret (id_from_path return_path).

Definition default_path : Identifier := id_from_path (mkPath 2 [0; 0; 0; 0]).
(** [LMDBBackend::new] on the data base and the files it finds. *)
Definition LMDBBackend_new (db : Db) (files : gmap string string) (tape : Tape) : Wallet :=
  let acct := mkAcctPathMapping "default" default_path in
  mkWallet
    (set_db_accounts (<[to_key ACCOUNT_PATH_MAPPING_PREFIX (ap_label acct) := acct]> (db_accounts db)) db)
    None files None None default_path 0 tape.

(** ** Contexts *)
Definition ONES : string := String.concat "" (repeat (String (ascii_of_nat 1) "") 32).

Definition Context_with_excess (sec_key : SecretKey) (parent_key_id : Identifier) (use_test_rng : bool) :
    W Context_ :=
  sec_nonce ← (if use_test_rng then liftS (unwrap_opt (sk_from_slice ONES))
               else seed ← drawn draw; liftS (unwrap (create_secnonce seed)));
  mret {| ctx_parent_key_id := parent_key_id; ctx_sec_key := sec_key; ctx_sec_nonce := sec_nonce;
          ctx_initial_sec_key := sec_key; ctx_initial_sec_nonce := sec_nonce;
          ctx_input_ids := []; ctx_output_ids := []; ctx_amount := 0; ctx_fee := None;
          ctx_payment_proof_derivation_index := None; ctx_late_lock_args := None;
          ctx_calculated_excess := None |}.

Definition Context_new (parent_key_id : Identifier) (use_test_rng is_initiator : bool) : W Context_ :=
  sec_key ← (if use_test_rng then mret (sk_new_test (if is_initiator then 1234567890 else 1234567891))
             else seed ← drawn draw; mret (sk_new seed));
  Context_with_excess sec_key parent_key_id use_test_rng.

Definition ctx_add_output (id : Identifier) (mmr_index : option Z) (amount : Z) (c : Context_) : Context_ :=
  mkContext (ctx_parent_key_id c) (ctx_sec_key c) (ctx_sec_nonce c) (ctx_initial_sec_key c)
    (ctx_initial_sec_nonce c) (ctx_output_ids c ++ [(id, mmr_index, amount)]) (ctx_input_ids c) (ctx_amount c)
    (ctx_fee c) (ctx_payment_proof_derivation_index c) (ctx_late_lock_args c) (ctx_calculated_excess c).
Definition ctx_add_input (id : Identifier) (mmr_index : option Z) (amount : Z) (c : Context_) : Context_ :=
  mkContext (ctx_parent_key_id c) (ctx_sec_key c) (ctx_sec_nonce c) (ctx_initial_sec_key c)
    (ctx_initial_sec_nonce c) (ctx_output_ids c) (ctx_input_ids c ++ [(id, mmr_index, amount)]) (ctx_amount c)
    (ctx_fee c) (ctx_payment_proof_derivation_index c) (ctx_late_lock_args c) (ctx_calculated_excess c).
Definition set_ctx_amount (amount : Z) (c : Context_) : Context_ :=
  mkContext (ctx_parent_key_id c) (ctx_sec_key c) (ctx_sec_nonce c) (ctx_initial_sec_key c)
    (ctx_initial_sec_nonce c) (ctx_output_ids c) (ctx_input_ids c) amount
    (ctx_fee c) (ctx_payment_proof_derivation_index c) (ctx_late_lock_args c) (ctx_calculated_excess c).
Definition set_ctx_fee (fee : option FeeFields) (c : Context_) : Context_ :=
  mkContext (ctx_parent_key_id c) (ctx_sec_key c) (ctx_sec_nonce c) (ctx_initial_sec_key c)
    (ctx_initial_sec_nonce c) (ctx_output_ids c) (ctx_input_ids c) (ctx_amount c)
    fee (ctx_payment_proof_derivation_index c) (ctx_late_lock_args c) (ctx_calculated_excess c).
Definition set_ctx_initial_sec_key (k : SecretKey) (c : Context_) : Context_ :=
  mkContext (ctx_parent_key_id c) (ctx_sec_key c) (ctx_sec_nonce c) k
    (ctx_initial_sec_nonce c) (ctx_output_ids c) (ctx_input_ids c) (ctx_amount c)
    (ctx_fee c) (ctx_payment_proof_derivation_index c) (ctx_late_lock_args c) (ctx_calculated_excess c).
Definition set_ctx_late_lock_args (a : option InitTxArgs) (c : Context_) : Context_ :=
  mkContext (ctx_parent_key_id c) (ctx_sec_key c) (ctx_sec_nonce c) (ctx_initial_sec_key c)
    (ctx_initial_sec_nonce c) (ctx_output_ids c) (ctx_input_ids c) (ctx_amount c)
    (ctx_fee c) (ctx_payment_proof_derivation_index c) a (ctx_calculated_excess c).

Definition get_private_keys (c : Context_) : SecretKey * SecretKey := (ctx_sec_key c, ctx_sec_nonce c).
Definition get_public_keys (c : Context_) : Res (PublicKey * PublicKey) :=
  k ← unwrap_opt (pk_from_secret_key (ctx_sec_key c));
  n ← unwrap_opt (pk_from_secret_key (ctx_sec_nonce c));
  Ok (k, n).

(** ** Accounts and keys (internal/keys.rs) *)
Definition next_available_key (mask : option SecretKey) : W Identifier := next_child mask.

Definition retrieve_existing_key (key_id : Identifier) (mmr_index : option Z) : W (Identifier * Z) :=
  existing ← wallet_get key_id mmr_index;
  mret (od_key_id existing, od_n_child existing).

Definition accounts : W (list AcctPathMapping) := acct_path_iter.

(** [path[0]] of an identifier. *)
Definition account_number (i : Identifier) : Z := nth 0 (kp_path (id_to_path i)) 0.
(** [max_by]: the last of the greatest. *)
Definition max_account (acc : option AcctPathMapping) (a : AcctPathMapping) : option AcctPathMapping :=
  match acc with
  | Some b => if account_number (ap_path b) <=? account_number (ap_path a) then Some a else Some b
  | None => Some a
  end.

Definition new_acct_path (mask : option SecretKey) (label : string) : W Identifier :=
  l ← acct_path_iter;
  if existsb (fun a => bool_decide (ap_label a = label)) l
  then errS ("AccountLabelAlreadyExists(" +:+ label +:+ ")") else
  return_id ← liftS (match foldl max_account None l with
    | Some e =>
        let p := id_to_path (ap_path e) in
        n ← u32_add (account_number (ap_path e)) 1;
        p ← set_path_at 0 n p;
        Ok (id_from_path p)
    | None => Ok (id_from_path (mkPath 2 [0; 0; 0; 0]))
    end);
  with_batch mask (_ ← save_acct_path (mkAcctPathMapping label return_id); _ ← commit; mret return_id).

Definition set_acct_path (mask : option SecretKey) (label : string) (path : Identifier) : W unit :=
  with_batch mask (_ ← save_acct_path (mkAcctPathMapping label path); commit).
End backend.

Abbreviation W := (ST Wallet).

(** ** Lemmas: what changes the data base *)

(** The batch that is open. *)
Ltac batch_inv :=
  match goal with H : wa_batch _ = Some ?p |- _ => destruct p; rewrite H end.
Section lemmas.
Context `{BuildProfile, GC : GrinCrates, !BinCrates, !WalletCrates, !HexCrate}.
Implicit Types (w : Wallet) (d : Db).

(** The data base that a batch sees: its own, or the wallet's when none is open. *)
Definition pending w : Db := match wa_batch w with Some (d, _) => d | None => wa_db w end.
Definition is_open w : Prop := is_Some (wa_batch w).

Lemma leaves_drawn {X A} (f : Wallet -> X) (m : M A) :
  (forall t w, f (set_wa_tape t w) = f w) -> leaves f (drawn m).
Proof. intros Hf w. unfold drawn. destruct (m (wa_tape w)) as [r t]. apply Hf. Qed.
Lemma leaves_keychain {X} (f : Wallet -> X) mask : leaves f (keychain mask).
Proof.
  apply leaves_bind; [apply leaves_get|]. intros [k|]; [|apply leaves_lift].
  apply leaves_bind; [apply leaves_lift|]. intros k'. apply leaves_bind; [apply leaves_lift|]. intros r.
  apply leaves_bind; [apply leaves_get|]. intros c. case_bool_decide; [apply leaves_ret|apply leaves_lift].
Qed.
Lemma leaves_calc_commit {X} (f : Wallet -> X) mask a i : leaves f (calc_commit_for_cache mask a i).
Proof.
  apply leaves_bind; [apply leaves_keychain|]. intros k. apply leaves_bind; [apply leaves_lift|].
  intros c. apply leaves_ret.
Qed.
Lemma leaves_batch_update f : leaves wa_db (batch_update f).
Proof.
  apply leaves_bind; [apply leaves_get|]. intros b. apply leaves_bind; [apply leaves_lift|].
  intros p. by apply leaves_modify.
Qed.
Lemma leaves_batch_db {X} (f : Wallet -> X) : leaves f batch_db.
Proof. apply leaves_bind; [apply leaves_get|]. intros b. apply leaves_lift. Qed.
Lemma leaves_batch_get {X} (f : Wallet -> X) i m : leaves f (batch_get i m).
Proof. apply leaves_bind; [apply leaves_batch_db|]. intros d. apply leaves_lift. Qed.
Lemma leaves_next_tx_log_id i : leaves wa_db (next_tx_log_id i).
Proof.
  apply leaves_bind; [apply leaves_batch_db|]. intros d. apply leaves_bind; [apply leaves_lift|].
  intros n. apply leaves_bind; [apply leaves_batch_update|]. intros u. apply leaves_ret.
Qed.
Lemma leaves_utc_now : leaves wa_db utc_now.
Proof. by apply leaves_drawn. Qed.

(** What a successful step of a batch does. *)
Lemma keychain_Ok mask w k w' : keychain mask w = (Ok k, w') -> w' = w.
Proof. intros E. exact (leaves_Ok id _ _ _ _ (leaves_keychain id mask) E). Qed.
Lemma calc_commit_Ok mask a i w c w' : calc_commit_for_cache mask a i w = (Ok c, w') -> w' = w.
Proof. intros E. exact (leaves_Ok id _ _ _ _ (leaves_calc_commit id mask a i) E). Qed.
Lemma batch_update_Ok f w u w' :
  batch_update f w = (Ok u, w') ->
  is_open w /\ is_open w' /\ pending w' = f (pending w) /\ wa_db w' = wa_db w /\ wa_files w' = wa_files w.
Proof.
  unfold batch_update, is_open, pending. intros E. st_inv. batch_inv. by repeat split.
Qed.
Lemma batch_get_Ok i m w o w' :
  batch_get i m w = (Ok o, w') ->
  w' = w /\ is_open w /\ db_outputs (pending w) !! output_key i m = Some o.
Proof.
  unfold batch_get, batch_db, is_open, pending, not_found. intros E. st_inv. batch_inv. by repeat split.
Qed.
Lemma drawn_Ok {A} (m : M A) w a w' :
  drawn m w = (Ok a, w') -> pending w' = pending w /\ wa_db w' = wa_db w /\ wa_batch w' = wa_batch w /\ wa_files w' = wa_files w.
Proof. unfold drawn. destruct (m (wa_tape w)) as [r t]. by intros [= -> <-]. Qed.

(** A batch that gives a result was committed or not; an error leaves what it kept. *)
Lemma with_batch_Ok {A} mask (body : W A) w a w' :
  with_batch mask body w = (Ok a, w') ->
  exists k w1, keychain mask w = (Ok k, w) /\ body (set_wa_batch (Some (wa_db w, Some k)) w) = (Ok a, w1)
    /\ w' = set_wa_batch None w1.
Proof.
  unfold with_batch, open_batch. intros E. st_inv. match goal with H : keychain _ _ = _ |- _ =>
    pose proof (keychain_Ok _ _ _ _ H); subst end. by eexists _, _.
Qed.
Lemma commit_Ok w u w' :
  commit w = (Ok u, w') -> is_open w /\ wa_db w' = pending w /\ wa_files w' = wa_files w.
Proof.
  unfold commit, is_open, pending. intros E. st_inv. by batch_inv.
Qed.

(** A transaction that was stored is the content of its file, in hexadecimal. *)
Lemma store_tx_Ok uuid tx w u w' :
  store_tx uuid tx w = (Ok u, w') ->
  exists bytes, tx_ser_vec tx = Ok bytes
    /\ w' = set_wa_files (<[tx_file uuid := hex_encode bytes]> (wa_files w)) w.
Proof.
  unfold store_tx, put_file. intros E. apply ST_bind_Ok in E as (answer & w1 & E1 & E). apply getS_Ok in E1 as [-> ->].
  destruct (disk_answer _ _); st_inv; eexists; (split; [eassumption|]); cbn; by rewrite insert_insert_eq.
Qed.
Lemma delete_private_context_Ok sid w u w' :
  delete_private_context sid w = (Ok u, w') ->
  is_open w' /\ pending w' = set_db_contexts (delete (ctx_key sid) (db_contexts (pending w))) (pending w)
  /\ wa_db w' = wa_db w /\ wa_files w' = wa_files w.
Proof.
  unfold delete_private_context. intros E. apply ST_bind_Ok in E as (d & w1 & E1 & E).
  assert (w1 = w) as -> by (unfold batch_db in E1; by st_inv).
  destruct (_ !! _); [|discriminate E]. apply batch_update_Ok in E as (_ & Ho & Hp & Hd & Hf). by rewrite Hp.
Qed.

(** Everything is stored under its own key. *)
Definition keyed d : Prop :=
  map_Forall (fun k o => k = output_key (od_key_id o) (od_mmr_index o)) (db_outputs d).
Lemma keyed_save d o :
  keyed d -> keyed (set_db_outputs (<[output_key (od_key_id o) (od_mmr_index o) := o]> (db_outputs d)) d).
Proof. intros Hd. by apply map_Forall_insert_2. Qed.
Lemma keyed_delete d i m : keyed d -> keyed (set_db_outputs (delete (output_key i m) (db_outputs d)) d).
Proof. intros Hd. by apply map_Forall_delete. Qed.

(** An iterator gives every value once. *)
Lemma elem_of_db_iter {A} (m : gmap string A) (a : A) : a ∈ db_iter m <-> exists k, m !! k = Some a.
Proof.
  unfold db_iter. rewrite merge_sort_Permutation, list_elem_of_fmap. split.
  - intros ([k b] & -> & Hin%elem_of_map_to_list). by exists k.
  - intros (k & Hk%elem_of_map_to_list). by exists (k, a).
Qed.
Lemma db_iter_perm {A} (m : gmap string A) : db_iter m ≡ₚ (map_to_list m).*2.
Proof. unfold db_iter. by rewrite merge_sort_Permutation. Qed.
End lemmas.

(** ** Private contexts *)
Section contexts.
Context `{BuildProfile, GC : GrinCrates, !BinCrates, !WalletCrates, !HexCrate, !WalletLaws}.
Implicit Types (w : Wallet) (c : Context_).

(** The keychain depends on what is stored of it, and on the checksum. *)
Lemma keychain_ext mask w k w1 w' :
  keychain mask w = (Ok k, w1) -> wa_keychain w' = wa_keychain w -> wa_master_checksum w' = wa_master_checksum w ->
  keychain mask w' = (Ok k, w').
Proof.
  intros E Hk Hc. unfold keychain in *. unfold mbind, ST_bind, getS, liftS, errS, mret, ST_ret in *. rewrite Hk.
  destruct (wa_keychain w) as [k0|]; [|done]. destruct (match mask with Some _ => _ | None => _ end); try done.
  destruct (kc_root_key a); try done. rewrite Hc. case_bool_decide; by simplify_eq.
Qed.

Lemma xor_ctx_xor keys c : xor_ctx keys (xor_ctx keys c) = c.
Proof. destruct c. unfold xor_ctx. cbn. by rewrite !sk_xor_xor. Qed.
Lemma ctx_key_inj s s' : ctx_key s = ctx_key s' -> s = s'.
Proof. intros E. by apply to_key_u64_inj in E as [-> _]. Qed.

Lemma save_private_context_Ok sid c w u w' :
  save_private_context sid c w = (Ok u, w') ->
  exists d k keys, wa_batch w = Some (d, Some k) /\ private_ctx_xor_keys k sid = Ok keys
  /\ w' = set_wa_batch (Some (set_db_contexts (<[ctx_key sid := xor_ctx keys c]> (db_contexts d)) d, Some k)) w.
Proof.
  unfold save_private_context, batch_keychain, batch_update. intros E. st_inv.
  destruct (wa_batch w) as [[d [k|]]|] eqn:Eb; try done. st_inv. by eexists _, _, _.
Qed.

(** The private context of a payment is written masked with keys of the wallet and comes
    back as it was, when the keychain still opens; other contexts are not touched.  The
    mask is on the two secrets only: the initial secrets are written in the clear, and
    for a new context they are the same as the secrets. *)
Theorem private_context_roundtrip mask sid c w w' :
  with_batch mask (_ ← save_private_context sid c; commit) w = (Ok tt, w') ->
  get_private_context mask sid w' = (Ok c, w')
  /\ (forall s, s <> sid -> db_contexts (wa_db w') !! ctx_key s = db_contexts (wa_db w) !! ctx_key s)
  /\ (exists k keys stored, keychain mask w = (Ok k, w) /\ private_ctx_xor_keys k sid = Ok keys
      /\ db_contexts (wa_db w') !! ctx_key sid = Some stored
      /\ ctx_sec_key stored = sk_xor (ctx_sec_key c) keys.1 /\ ctx_sec_nonce stored = sk_xor (ctx_sec_nonce c) keys.2
      /\ ctx_initial_sec_key stored = ctx_initial_sec_key c /\ ctx_initial_sec_nonce stored = ctx_initial_sec_nonce c)
  /\ (forall parent rng init w0 c0 w1, Context_new parent rng init w0 = (Ok c0, w1) ->
       ctx_initial_sec_key c0 = ctx_sec_key c0 /\ ctx_initial_sec_nonce c0 = ctx_sec_nonce c0).
Proof.
  intros E. apply with_batch_Ok in E as (k & w1 & Ek & E & ->).
  apply ST_bind_Ok in E as (u & w2 & E1 & E). apply save_private_context_Ok in E1 as (d & k' & keys & [= <- <-] & Ekeys & ->).
  unfold commit in E. st_inv. split_and!.
  - unfold get_private_context.
    match goal with |- context [mbind _ _ ?w'] => rewrite (ST_bind_run _ _ w' k w') by by eapply keychain_ext end.
    rewrite (ST_bind_run _ _ _ _ _ (liftS_run _ _ _ Ekeys)). erewrite ST_bind_run by reflexivity. cbn.
    rewrite lookup_insert_eq. unfold not_found, ok_or. cbn. unfold mret, ST_ret, mbind, ST_bind. cbn. by rewrite xor_ctx_xor.
  - intros s Hs. apply lookup_insert_ne. intros ?%ctx_key_inj. congruence.
  - exists k, keys. eexists. split_and!; [done|done|apply lookup_insert_eq|done..].
  - intros parent rng init w0 c0 w1 E. unfold Context_new, Context_with_excess in E.
    apply ST_bind_Ok in E as (? & ? & _ & E). apply ST_bind_Ok in E as (? & ? & _ & E).
    apply mretS_Ok in E as [-> _]. done.
Qed.

(** ** Looking for a log entry *)
Definition log_keyed (d : Db) : Prop :=
  map_Forall (fun k t => k = to_key_u64 TX_LOG_ENTRY_PREFIX (id_to_bytes (tl_parent_key_id t)) (tl_id t)) (db_tx_log d).

(** No entry is ever found by the number of its slate: entries are saved under the
    account and their number, which are longer. *)
Lemma get_tx_log_entry_misses u w : log_keyed (wa_db w) -> get_tx_log_entry u w = (Ok None, w).
Proof.
  intros Hk. unfold get_tx_log_entry, getS. do 2 f_equal. apply eq_None_not_Some. intros [t Ht].
  specialize (Hk _ _ Ht). cbn in Hk.
  pose proof (f_equal String.length Hk) as Hl. rewrite to_key_u64_length in Hl.
  pose proof (to_key_length TX_LOG_ENTRY_PREFIX (uuid_as_bytes u) (id_to_bytes (tl_parent_key_id t))) as Hl2.
  rewrite uuid_bytes_length, id_bytes_length in Hl2. lia.
Qed.
End contexts.

#[export] Hint Resolve leaves_keychain leaves_calc_commit leaves_batch_update leaves_batch_db leaves_batch_get
  leaves_next_tx_log_id leaves_utc_now : leaves.
