(* ===== verification/Address.v ===== *)
(** * Addresses: libwallet's address.rs and slatepack/address.rs, util's ov3.rs

    The key an address belongs to, the onion form and the bech32 form of a public
    key, and their parsers. *)
From S2P Require Import Prelude.
From S2P Require Import RustStd.
From S2P Require Import Crates.
From S2P Require Import Effects.
From S2P Require Import Slate.
From S2P Require Import SlateV4.
From S2P Require Import SlateBin.
From S2P Require Import StateM.
From S2P Require Import Wallet.
From Stdlib Require Import Ascii.
#[local] Open Scope Z_scope.
#[local] Open Scope swap_scope.

(** Curve, hash and text encodings; [is_mainnet] is [global::get_chain_type()]. *)
Class AddressCrates `{WalletCrates} := {
  DalekSecretKey : Type;
  dalek_sk_from_bytes : string -> option DalekSecretKey;
  dalek_public : DalekSecretKey -> DalekPublicKey;
  sha3_256 : string -> string;
  base32_encode : string -> string;
  base32_decode : string -> option string;
  bech32_encode : string -> string -> Res string;     (* prefix, bytes *)
  bech32_decode : string -> Res (string * string);
  is_mainnet : bool;
}.

(** The digits of base 32: capital letters and 2 to 7. *)
Definition base32_char (c : ascii) : bool :=
  let n := nat_of_ascii c in ((65 <=? n) && (n <=? 90) || (50 <=? n) && (n <=? 55))%nat.
Fixpoint all_chars (p : ascii -> bool) (s : string) : bool :=
  match s with EmptyString => true | String c s' => p c && all_chars p s' end.

(** Documented behaviour: the encoders are injective on the alphabets they use. *)
Class AddressLaws `{AddressCrates} := {
  sha3_length s : String.length (sha3_256 s) = 32%nat;
  (* for seven groups of five bytes: eight digits each, and no padding *)
  base32_round s : String.length s = 35%nat -> base32_decode (base32_encode s) = Some s;
  base32_length s : String.length s = 35%nat -> String.length (base32_encode s) = 56%nat;
  base32_alphabet s : String.length s = 35%nat -> all_chars base32_char (base32_encode s) = true;
  bech32_round p b s : bech32_encode p b = Ok s -> bech32_decode s = Ok (p, b);
  bech32_utf8 p b s : bech32_encode p b = Ok s -> from_utf8 s = Some s;
}.

(** ** String functions *)
Definition starts_with (p s : string) : bool := String.prefix p s.
Fixpoint ends_with (p s : string) : bool :=
  String.eqb p s || match s with EmptyString => false | String _ s' => ends_with p s' end.
Fixpoint drop_chars (n : nat) (s : string) : string :=
  match n, s with
  | S n', String _ s' => drop_chars n' s'
  | _, _ => s
  end.
(** [s.replace(p, "")] for a pattern that is not empty. *)
Fixpoint remove_all (fuel : nat) (p s : string) : string :=
  match fuel, s with
  | O, _ => s
  | _, EmptyString => EmptyString
  | S n, String c s' =>
      if String.prefix p s then remove_all n p (drop_chars (String.length p) s)
      else String c (remove_all n p s')
  end.
Definition str_remove (p s : string) : string := remove_all (S (String.length s)) p s.
(** [&s[lo..lo + n]] *)
Definition slice (lo n : nat) (s : string) : Res string :=
  if bool_decide (lo + n <= String.length s)%nat then Ok (String.substring lo n s)
  else Panic "range end index out of range".

Section code.
Context `{BuildProfile, GC : GrinCrates, !BinCrates, !WalletCrates, !AddressCrates, !HexCrate}.

(** ** address.rs *)
Definition address_path (p : ExtKeychainPath) (index : Z) : Res ExtKeychainPath :=
  p ← set_path_at 1 1 p;
  depth ← u8_add (kp_depth p) 1;
  set_path_at (depth - 1) index (mkPath depth (kp_path p)).

Definition address_from_derivation_path (k : Keychain) (parent_key_id : Identifier) (index : Z) :
    Res SecretKey :=
  key_path ← address_path (id_to_path parent_key_id) index;
  sec_key ← kc_address_key k (id_from_path key_path);
  ok_or "Secp" (sk_from_slice (blake2b (sk_bytes sec_key))).

(** ** ov3.rs: an address is the 32 bytes of a public key *)
Definition OnionV3Address : Type := string.

Definition ov3_from_private (key : string) : Res OnionV3Address :=
  match dalek_sk_from_bytes key with
  | Some k => Ok (dalek_pk_bytes (dalek_public k))
  | None => Err "OnionV3Address(InvalidPrivateKey)"
  end.
Definition ov3_to_ed25519 (a : OnionV3Address) : Res DalekPublicKey :=
  match dalek_pk_from_bytes a with
  | Some k => Ok k
  | None => Err "OnionV3Address(InvalidPrivateKey)"
  end.

Definition VERSION_BYTE : string := String (ascii_of_nat 3) "".
Definition to_ov3_str (a : OnionV3Address) : string :=
  let checksum := sha3_256 (".onion checksum" +:+ a +:+ VERSION_BYTE) in
  let address_bytes := a +:+ String.substring 0 2 checksum +:+ VERSION_BYTE in
  to_ascii_lowercase (base32_encode address_bytes).
Definition to_http_str (a : OnionV3Address) : string := "http://" +:+ to_ov3_str a +:+ ".onion".

Definition ov3_decoding (e : string) : string := "OnionV3Address(AddressDecoding(" +:+ e +:+ "))".

(** What the parser takes off an upper-case address. *)
Definition strip_url (input : string) : string :=
  let input :=
    if starts_with "HTTP://" input || starts_with "HTTPS://" input
    then str_remove "HTTPS://" (str_remove "HTTP://" input) else input in
  if ends_with ".ONION" input then str_remove ".ONION" input else input.

Definition ov3_from_base32 (input : string) : Res OnionV3Address :=
  if negb (String.length input =? 56)%nat then Err (ov3_decoding "Input address is wrong length") else
  match base32_decode input with
  | None => Err (ov3_decoding "Input address is not base 32")
  | Some address =>
      retval ← slice 0 32 address;
      if negb (bool_decide (to_uppercase (to_ov3_str retval) = to_uppercase input))
      then Err (ov3_decoding "Provided onion V3 address is invalid (no match)")
      else Ok retval
  end.

Definition ov3_try_from (input : string) : Res OnionV3Address :=
  match hex_decode input with
  | Some b => if (String.length b =? 32)%nat then Ok b else Err (ov3_decoding "Public key is wrong length")
  | None => ov3_from_base32 (strip_url (to_uppercase input))
  end.

(** ** slatepack/address.rs *)
Definition SlatepackAddress_new (pub_key : DalekPublicKey) : SlatepackAddress :=
  mkSlatepackAddress (if is_mainnet then "grin" else "tgrin") pub_key.
Definition SlatepackAddress_random (bytes : string) : Res SlatepackAddress :=
  k ← unwrap_opt (dalek_sk_from_bytes bytes);
  Ok (SlatepackAddress_new (dalek_public k)).
Definition SlatepackAddress_to_string (a : SlatepackAddress) : Res string :=
  bech32_encode (spa_hrp a) (dalek_pk_bytes (spa_pub_key a)).
Definition SlatepackAddress_from_str (encoded : string) : Res SlatepackAddress :=
  '(hrp, bytes) ← bech32_decode encoded;
  match dalek_pk_from_bytes bytes with
  | Some k => Ok (mkSlatepackAddress hrp k)
  | None => Err "ED25519Key"
  end.
Definition SlatepackAddress_fmt (a : SlatepackAddress) : Res string := unwrap (SlatepackAddress_to_string a).
Definition encoded_len (a : SlatepackAddress) : Res Z :=
  encoded ← SlatepackAddress_to_string a; Ok (Z.of_nat (String.length encoded) + 1).

Definition ov3_of_slatepack (a : SlatepackAddress) : OnionV3Address := dalek_pk_bytes (spa_pub_key a).
Definition slatepack_of_ov3 (a : OnionV3Address) : Res SlatepackAddress :=
  k ← ov3_to_ed25519 a; Ok (SlatepackAddress_new k).
Definition slatepack_of_secret (key : SecretKey) : Res SlatepackAddress :=
  match dalek_sk_from_bytes (sk_bytes key) with
  | Some k => Ok (SlatepackAddress_new (dalek_public k))
  | None => Err "ED25519Key(Can't create slatepack address from SecretKey)"
  end.

(** An error of the text form is corrupted data to the binary form. *)
Definition corrupted {A} (r : Res A) : Res A :=
  match r with Err _ => Err "CorruptedData" | _ => r end.
Definition slatepack_address_write (a : SlatepackAddress) : Written :=
  encoded ← corrupted (SlatepackAddress_to_string a);
  if (255 <? String.length encoded)%nat then Err "CorruptedData"
  else write_u8 (Z.of_nat (String.length encoded)) ⊕ write_fixed_bytes encoded.
Definition slatepack_address_read : Reader SlatepackAddress :=
  len ← read_u8;
  bytes ← read_fixed_bytes (Z.to_nat len);
  encoded ← rlift (ok_or "CorruptedData" (from_utf8 bytes));
  rlift (corrupted (SlatepackAddress_from_str encoded)).
End code.

(** ** Lemmas on strings *)
Lemma substring_front (a b : string) : String.substring 0 (String.length a) (a +:+ b) = a.
Proof. induction a as [|c a IH]; [by destruct b|]. rewrite append_cons. cbn. by f_equal. Qed.
Lemma substring_length n s : (n <= String.length s)%nat -> String.length (String.substring 0 n s) = n.
Proof.
  revert s. induction n as [|n IH]; intros s Hs; [by destruct s|]. destruct s as [|c s]; cbn in *; [lia|].
  f_equal. apply IH. lia.
Qed.
Lemma all_chars_app p a b : all_chars p (a +:+ b) = all_chars p a && all_chars p b.
Proof. induction a as [|c a IH]; [done|]. rewrite append_cons. cbn. by rewrite IH, andb_assoc. Qed.
Lemma all_chars_impl (p q : ascii -> bool) s :
  (forall c, p c = true -> q c = true) -> all_chars p s = true -> all_chars q s = true.
Proof.
  intros Hpq. induction s as [|c s IH]; cbn; [done|]. rewrite !andb_true_iff. intros [H1 H2]. auto.
Qed.

(** Plain ASCII: the upper case is taken letter by letter. *)
Definition plain_ascii (c : ascii) : bool := (nat_of_ascii c <? 128)%nat.
Lemma to_uppercase_plain c s :
  plain_ascii c = true -> to_uppercase (String c s) = String (ascii_upper c) (to_uppercase s).
Proof.
  intros Hc. assert (Hb : forall n, (128 <= n)%nat -> byte_is c n = false).
  { intros n Hn. unfold byte_is, plain_ascii in *. apply Nat.eqb_neq. apply Nat.ltb_lt in Hc. lia. }
  destruct s as [|b [|d s]]; cbn [to_uppercase]; [done|..]; by rewrite !Hb by lia.
Qed.
Lemma to_uppercase_app a b :
  all_chars plain_ascii a = true -> to_uppercase (a +:+ b) = to_uppercase a +:+ to_uppercase b.
Proof.
  induction a as [|c a IH]; [done|]. cbn [all_chars]. rewrite andb_true_iff. intros [Hc Ha].
  rewrite append_cons, !to_uppercase_plain, IH, append_cons by done. reflexivity.
Qed.
Lemma base32_plain c : base32_char c = true -> plain_ascii c = true.
Proof. destruct c as [[] [] [] [] [] [] [] []]; by vm_compute. Qed.
Lemma base32_lower_plain c : base32_char c = true -> plain_ascii (ascii_lower c) = true.
Proof. destruct c as [[] [] [] [] [] [] [] []]; by vm_compute. Qed.
Lemma base32_upper c : base32_char c = true -> ascii_upper c = c.
Proof. destruct c as [[] [] [] [] [] [] [] []]; by vm_compute. Qed.
Lemma base32_upper_lower c : base32_char c = true -> ascii_upper (ascii_lower c) = c.
Proof. destruct c as [[] [] [] [] [] [] [] []]; by vm_compute. Qed.

Lemma base32_uppercase s : all_chars base32_char s = true -> to_uppercase s = s.
Proof.
  induction s as [|c s IH]; [done|]. cbn [all_chars]. rewrite andb_true_iff. intros [Hc Hs].
  rewrite to_uppercase_plain, base32_upper, IH by auto using base32_plain. done.
Qed.
Lemma base32_uppercase_lower s :
  all_chars base32_char s = true ->
  to_uppercase (to_ascii_lowercase s) = s /\ all_chars plain_ascii (to_ascii_lowercase s) = true.
Proof.
  induction s as [|c s IH]; [done|]. cbn [all_chars to_ascii_lowercase]. rewrite andb_true_iff. intros [Hc Hs].
  destruct (IH Hs) as [IH1 IH2]. rewrite to_uppercase_plain, base32_upper_lower, IH1 by auto using base32_lower_plain.
  split; [done|]. by rewrite base32_lower_plain.
Qed.

(** A pattern with a character that does not occur is not found. *)
Lemma prefix_absent p s d :
  String.prefix p s = true -> all_chars (fun c => negb (Ascii.eqb c d)) s = true ->
  all_chars (fun c => negb (Ascii.eqb c d)) p = true.
Proof.
  revert s. induction p as [|c p IH]; intros s; [done|]. destruct s as [|b s]; [done|]. cbn.
  destruct (ascii_dec c b) as [->|]; [|done]. rewrite !andb_true_iff. intros Hp [Hb Hs]. eauto.
Qed.
Lemma remove_all_absent fuel p s d :
  all_chars (fun c => negb (Ascii.eqb c d)) p = false -> all_chars (fun c => negb (Ascii.eqb c d)) s = true ->
  remove_all fuel p s = s.
Proof.
  intros Hp. revert s. induction fuel as [|n IH]; intros s Hs; [done|]. destruct s as [|c s]; [done|].
  cbn [remove_all]. destruct (String.prefix p (String c s)) eqn:E.
  { by rewrite (prefix_absent _ _ _ E Hs) in Hp. }
  rewrite IH; [done|]. cbn in Hs. by apply andb_true_iff in Hs as [_ Hs].
Qed.
Lemma prefix_app p s : String.prefix p (p +:+ s) = true.
Proof.
  induction p as [|c p IH]; [by destruct s|]. rewrite append_cons. cbn. by destruct (ascii_dec c c).
Qed.
Lemma drop_chars_app p s : drop_chars (String.length p) (p +:+ s) = s.
Proof. by induction p as [|c p IH]; [destruct s|]. Qed.
Lemma remove_all_prefix fuel p s : p <> "" -> remove_all (S fuel) p (p +:+ s) = remove_all fuel p s.
Proof.
  destruct p as [|c p]; [done|]. intros _. rewrite append_cons.
  change (remove_all (S fuel) (String c p) (String c (p +:+ s)))
    with (if String.prefix (String c p) (String c p +:+ s)
          then remove_all fuel (String c p) (drop_chars (String.length (String c p)) (String c p +:+ s))
          else String c (remove_all fuel (String c p) (p +:+ s))).
  by rewrite prefix_app, drop_chars_app.
Qed.
Lemma ends_with_absent p s d :
  all_chars (fun c => negb (Ascii.eqb c d)) p = false -> all_chars (fun c => negb (Ascii.eqb c d)) s = true ->
  ends_with p s = false.
Proof.
  intros Hp. assert (Hne : forall s, all_chars (fun c => negb (Ascii.eqb c d)) s = true -> String.eqb p s = false).
  { intros t Ht. apply String.eqb_neq. intros ->. by rewrite Ht in Hp. }
  induction s as [|c s IH]; intros Hs; cbn; [by rewrite Hne|]. rewrite Hne by done. apply IH.
  cbn in Hs. by apply andb_true_iff in Hs as [_ Hs].
Qed.

(** ** Properties *)
Section properties.
Context `{BuildProfile, GC : GrinCrates, !BinCrates, !WalletCrates, !AddressCrates, !HexCrate}.
Context `{!BinLaws, !AddressLaws}.
Implicit Types a : OnionV3Address.

Definition address_bytes a : string :=
  a +:+ String.substring 0 2 (sha3_256 (".onion checksum" +:+ a +:+ VERSION_BYTE)) +:+ VERSION_BYTE.

Lemma address_bytes_length a : String.length a = 32%nat -> String.length (address_bytes a) = 35%nat.
Proof.
  intros Ha. unfold address_bytes. rewrite !length_append, Ha, substring_length; [done|].
  rewrite sha3_length. lia.
Qed.

Lemma to_ov3_upper a :
  String.length a = 32%nat ->
  to_uppercase (to_ov3_str a) = base32_encode (address_bytes a) /\ all_chars plain_ascii (to_ov3_str a) = true.
Proof. intros Ha. by apply base32_uppercase_lower, base32_alphabet, address_bytes_length. Qed.

Lemma base32_without d s :
  base32_char d = false -> all_chars base32_char s = true -> all_chars (fun c => negb (Ascii.eqb c d)) s = true.
Proof.
  intros Hd. apply all_chars_impl. intros c Hc. destruct (Ascii.eqb_spec c d) as [->|]; [congruence|done].
Qed.

(** The digits of an address are read back. *)
Lemma ov3_from_base32_str a :
  String.length a = 32%nat -> ov3_from_base32 (base32_encode (address_bytes a)) = Ok a.
Proof.
  intros Ha. pose proof (address_bytes_length a Ha) as Hl. unfold ov3_from_base32.
  rewrite base32_length, Nat.eqb_refl, base32_round by done. cbn [negb].
  unfold slice. rewrite bool_decide_eq_true_2 by lia.
  assert (E : String.substring 0 32 (address_bytes a) = a) by (rewrite <- Ha; apply substring_front).
  rewrite E. cbn. rewrite (proj1 (to_ov3_upper a Ha)), base32_uppercase by by apply base32_alphabet.
  by rewrite bool_decide_eq_true_2.
Qed.

Lemma no_prefix p d s :
  base32_char d = false -> all_chars (fun c => negb (Ascii.eqb c d)) p = false -> all_chars base32_char s = true ->
  String.prefix p s = false.
Proof.
  intros Hd Hp Hs. destruct (String.prefix p s) eqn:E; [|done].
  rewrite (prefix_absent _ _ _ E (base32_without _ _ Hd Hs)) in Hp. done.
Qed.

Lemma strip_url_bare s : all_chars base32_char s = true -> strip_url s = s.
Proof.
  intros Hs. unfold strip_url, starts_with.
  rewrite (no_prefix "HTTP://" ":"), (no_prefix "HTTPS://" ":") by done. cbn [orb].
  by rewrite (ends_with_absent _ s ".") by (done || by apply base32_without).
Qed.

Lemma ends_with_app p s : ends_with p (s +:+ p) = true.
Proof.
  induction s as [|c s IH].
  - change ("" +:+ p) with p. destruct p; cbn [ends_with]; by rewrite String.eqb_refl.
  - rewrite append_cons. cbn [ends_with]. by rewrite IH, orb_true_r.
Qed.

(** The ending of an address is removed, which occurs nowhere else. *)
Lemma remove_onion fuel s :
  (String.length s < fuel)%nat -> all_chars base32_char s = true ->
  remove_all fuel ".ONION" (s +:+ ".ONION") = s.
Proof.
  revert fuel. induction s as [|c s IH]; intros [|fuel] Hf Hs; cbn [String.length] in Hf; [lia| |lia|].
  - cbn. by destruct fuel.
  - cbn [all_chars] in Hs. apply andb_true_iff in Hs as [Hc Hs].
    rewrite append_cons. cbn [remove_all].
    destruct (String.prefix ".ONION" (String c (s +:+ ".ONION"))) eqn:E.
    { cbn [String.prefix] in E. destruct (ascii_dec "." c) as [<-|]; [by vm_compute in Hc|done]. }
    rewrite IH by (done || lia). done.
Qed.

Lemma strip_url_http s :
  all_chars base32_char s = true -> strip_url ("HTTP://" +:+ s +:+ ".ONION") = s.
Proof.
  intros Hs. assert (Hu : all_chars (fun c => negb (Ascii.eqb c ":")) (s +:+ ".ONION") = true).
  { rewrite all_chars_app. by rewrite base32_without. }
  unfold strip_url, starts_with. rewrite prefix_app. cbn [orb].
  assert (E : str_remove "HTTP://" ("HTTP://" +:+ s +:+ ".ONION") = s +:+ ".ONION").
  { unfold str_remove. rewrite remove_all_prefix by done. by apply (remove_all_absent _ "HTTP://" _ ":"). }
  assert (E' : str_remove "HTTPS://" (s +:+ ".ONION") = s +:+ ".ONION")
    by by apply (remove_all_absent _ "HTTPS://" _ ":").
  rewrite E, E', ends_with_app. apply remove_onion; [|done]. rewrite length_append. lia.
Qed.

(** An onion address is read back from its text, bare or as a URL.  The one
    exception is a bare address that happens to be hexadecimal (all its 56 digits
    are a to f or 2 to 7): it is taken for a public key in hexadecimal and
    refused. *)
Theorem onion_address_roundtrip a :
  String.length a = 32%nat ->
  (hex_decode (to_ov3_str a) = None -> ov3_try_from (to_ov3_str a) = Ok a)
  /\ (hex_decode (to_http_str a) = None -> ov3_try_from (to_http_str a) = Ok a)
  /\ (forall b, hex_decode (to_ov3_str a) = Some b -> String.length b = 28%nat ->
        ov3_try_from (to_ov3_str a) = Err (ov3_decoding "Public key is wrong length")).
Proof.
  intros Ha. destruct (to_ov3_upper a Ha) as [Hup Hpl].
  pose proof (base32_alphabet _ (address_bytes_length a Ha)) as Hal. unfold ov3_try_from. split_and!.
  - intros ->. rewrite Hup, strip_url_bare by done. by apply ov3_from_base32_str.
  - intros ->. unfold to_http_str. rewrite to_uppercase_app by done.
    rewrite to_uppercase_app, Hup by done.
    change (to_uppercase "http://") with "HTTP://". change (to_uppercase ".onion") with ".ONION".
    rewrite strip_url_http by done. by apply ov3_from_base32_str.
  - by intros b -> ->.
Qed.

(** A slatepack address goes through its text and through its bytes unchanged,
    also in front of other bytes; a text longer than a byte can count is refused
    when it is written. *)
Theorem slatepack_address_roundtrip (a : SlatepackAddress) s r :
  SlatepackAddress_to_string a = Ok s ->
  SlatepackAddress_from_str s = Ok a
  /\ ((String.length s <= 255)%nat -> forall b, slatepack_address_write a = Ok b ->
        slatepack_address_read (b +:+ r) = Ok (a, r))
  /\ ((255 < String.length s)%nat -> slatepack_address_write a = Err "CorruptedData").
Proof.
  intros E. assert (Es : SlatepackAddress_from_str s = Ok a).
  { unfold SlatepackAddress_from_str. rewrite (bech32_round _ _ _ E). cbn. rewrite dalek_pk_from_to. by destruct a. }
  split; [done|]. unfold slatepack_address_write. rewrite E. cbn [corrupted mbind Res_bind].
  split; intros Hl.
  - destruct (Nat.ltb_spec 255 (String.length s)); [lia|]. intros b Hb.
    assert (Hr : reads (write_u8 (Z.of_nat (String.length s)) ⊕ write_fixed_bytes s) slatepack_address_read a);
      [|by apply Hr].
    eapply reads_bind; [apply u8_reads; lia|]. rewrite Nat2Z.id.
    eapply reads_last; [by apply fixed_bytes_reads|].
    eapply reads_lift; [by rewrite (bech32_utf8 _ _ _ E)|]. cbn. rewrite Es. cbn. apply reads_ret.
  - by destruct (Nat.ltb_spec 255 (String.length s)); [|lia].
Qed.
End properties.
