(* ===== verification/Selection.v ===== *)
(** * internal/selection.rs: which coins a payment spends

    The choice of the coins, the change, the locking of what was chosen, and the
    output of a receiver. *)
From S2P Require Import Prelude.
From S2P Require Import RustStd.
From S2P Require Import Crates.
From S2P Require Import Effects.
From S2P Require Import Slate.
From S2P Require Import SlateV4.
From S2P Require Import SlateBin.
From S2P Require Import StateM.
From S2P Require Import Wallet.
From S2P Require Import Address.
From stdpp Require Import sorting.
#[local] Open Scope Z_scope.

(** ** Lists *)

(** A filter whose test may panic. *)
Fixpoint res_filter {A} (f : A -> Res bool) (l : list A) : Res (list A) :=
  match l with
  | [] => Ok []
  | a :: l' => b ← f a; r ← res_filter f l'; Ok (if b : bool then a :: r else r)
  end.

(** [sort_by_key]: a stable sort. *)
Definition key_order {A} (key : A -> Z) (a b : A) : Prop := key a <= key b.
#[global] Instance key_order_dec {A} (key : A -> Z) : RelDecision (key_order key).
Proof. intros a b. unfold key_order. apply _. Defined.
Definition sort_by_key {A} (key : A -> Z) (l : list A) : list A := merge_sort (key_order key) l.

(** [l.windows(n)] for [n] at most the length. *)
Definition windows {A} (n : nat) (l : list A) : list (list A) :=
  (fun i => take n (drop i l)) <$> seq 0 (S (length l) - n).

(** [if let Ok(e) = r] *)
Definition ok_opt {A} (r : Res A) : Res (option A) :=
  match r with Ok a => Ok (Some a) | Err _ => Ok None | Panic e => Panic e end.

(** Integer division and remainder panic on zero. *)
Definition checked_div (a b : Z) : Res Z :=
  if b =? 0 then Panic "attempt to divide by zero" else Ok (a / b).
Definition checked_rem (a b : Z) : Res Z :=
  if b =? 0 then Panic "attempt to calculate the remainder with a divisor of zero" else Ok (a mod b).

Section code.
Context `{BuildProfile, GC : GrinCrates, !BinCrates, !WalletCrates, !AddressCrates, !HexCrate}.

(** ** Coins *)
Definition sum_of_coins (l : list OutputData) : Res Z :=
  res_fold (fun acc x => u64_add acc (od_value x)) 0 l.

(** [take_while] with the sum of what went before. *)
Fixpoint take_enough (amount selected_amount : Z) (l : list OutputData) : Res (list OutputData) :=
  match l with
  | [] => Ok []
  | out :: l' =>
      next ← u64_add selected_amount (od_value out);
      if selected_amount <? amount then rest ← take_enough amount next l'; Ok (out :: rest) else Ok []
  end.

Definition select_from (amount : Z) (select_all : bool) (outputs : list OutputData) :
    Res (option (list OutputData)) :=
  total ← sum_of_coins outputs;
  if amount <=? total then
    if select_all then Ok (Some outputs) else l ← take_enough amount 0 outputs; Ok (Some l)
  else Ok None.

(** The first window from which the amount can be paid. *)
Fixpoint select_window (amount : Z) (select_all : bool) (ws : list (list OutputData)) :
    Res (option (list OutputData)) :=
  match ws with
  | [] => Ok None
  | w :: ws' =>
      r ← select_from amount select_all w;
      match r with Some outputs => Ok (Some outputs) | None => select_window amount select_all ws' end
  end.

(** What [select_coins] makes of the eligible outputs, sorted by value. *)
Definition choose (amount : Z) (max_outputs : nat) (select_all : bool) (eligible : list OutputData) :
    Res (list OutputData) :=
  r ← (if (max_outputs <? length eligible)%nat then
         w ← (if (max_outputs =? 0)%nat then Panic "size is zero"
              else select_window amount select_all (windows max_outputs eligible));
         match w with
         | Some outputs => Ok (Some outputs)
         | None => select_from amount false eligible
         end
       else select_from amount select_all eligible);
  Ok (default (take max_outputs (reverse eligible)) r).

Definition is_eligible (current_height minimum_confirmations : Z) (parent : Identifier) (out : OutputData) :
    Res bool :=
  if bool_decide (od_root_key_id out = parent) then eligible_to_spend out current_height minimum_confirmations
  else Ok false.

Definition eligible_outputs (current_height minimum_confirmations : Z) (parent : Identifier)
    (outs : list OutputData) : Res (list OutputData) :=
  eligible ← res_filter (is_eligible current_height minimum_confirmations parent) outs;
  Ok (sort_by_key od_value eligible).

Definition select_coins (amount current_height minimum_confirmations : Z) (max_outputs : nat)
    (select_all : bool) (parent : Identifier) : W (nat * list OutputData) :=
  outs ← wallet_iter;
  eligible ← liftS (eligible_outputs current_height minimum_confirmations parent outs);
  coins ← liftS (choose amount max_outputs select_all eligible);
  mret (length eligible, coins).

(** ** Coins and fee *)
Definition not_enough_funds (available needed : Z) : string :=
  "NotEnoughFunds(" +:+ fmt_u64 available +:+ ", " +:+ fmt_u64 needed +:+ ")".
Definition OUT_OF_FUEL : string := "out of fuel".

(** [while total < amount_with_fee]; [sel] is [select_coins] for an amount. *)
Fixpoint grow (sel : Z -> W (nat * list OutputData)) (fuel max_outputs num_outputs : nat) (amount : Z)
    (coins : list OutputData) (total amount_with_fee fee : Z) : W (list OutputData * Z * Z) :=
  if total <? amount_with_fee then
    match fuel with
    | O => errS OUT_OF_FUEL
    | S fuel' =>
        if (length coins =? max_outputs)%nat then errS (not_enough_funds total amount_with_fee) else
        '(_, coins) ← sel amount_with_fee;
        let fee := tx_fee (length coins) num_outputs 1 in
        total ← liftS (sum_of_coins coins);
        amount_with_fee ← liftS (u64_add amount fee);
        grow sel fuel' max_outputs num_outputs amount coins total amount_with_fee fee
    end
  else mret (coins, total, fee).

Definition select_coins_and_fee (amount current_height minimum_confirmations : Z)
    (max_outputs change_outputs : nat) (use_all : bool) (parent : Identifier) :
    W (list OutputData * Z * Z * Z) :=
  '(max_outputs, coins) ← select_coins amount current_height minimum_confirmations max_outputs use_all parent;
  let fee := tx_fee (length coins) 1 1 in
  total ← liftS (sum_of_coins coins);
  amount_with_fee ← liftS (u64_add amount fee);
  if total =? 0 then errS (not_enough_funds 0 amount_with_fee)
  else if (total <? amount_with_fee) && (length coins =? max_outputs)%nat
  then errS (not_enough_funds total amount_with_fee)
  else
    let num_outputs := (change_outputs + 1)%nat in
    if total =? amount_with_fee then mret (coins, total, amount, fee)
    else
      let fee := tx_fee (length coins) num_outputs 1 in
      amount_with_fee ← liftS (u64_add amount fee);
      '(coins, total, fee) ←
        grow (fun a => select_coins a current_height minimum_confirmations max_outputs use_all parent)
          (S max_outputs) max_outputs num_outputs amount coins total amount_with_fee fee;
      mret (coins, total, amount, fee).

(** ** Change *)
Definition build_coin (value : Z) (coinbase : bool) (key : Identifier) : BuildElem :=
  if coinbase then build_coinbase_input value key else build_input value key.

(** The [x]-th of [n] change outputs. *)
Definition change_amount (part_change remainder_change : Z) (n x : nat) : Res Z :=
  if (x =? n - 1)%nat then u64_add part_change remainder_change else Ok part_change.

Definition inputs_and_change (coins : list OutputData) (mask : option SecretKey) (amount fee : Z)
    (num_change_outputs : nat) (include_inputs_in_sum : bool) :
    W (list BuildElem * list (Z * Identifier * option Z)) :=
  total ← liftS (sum_of_coins coins);
  rest ← liftS (u64_sub total amount);
  change ← liftS (u64_sub rest fee);
  let parts := if include_inputs_in_sum
               then (fun c => build_coin (od_value c) (od_is_coinbase c) (od_key_id c)) <$> coins else [] in
  if change =? 0 then mret (parts, [])
  else
    part_change ← liftS (checked_div change (Z.of_nat num_change_outputs));
    remainder_change ← liftS (checked_rem change part_change);
    change_amounts ← mapS (fun x =>
        a ← liftS (change_amount part_change remainder_change num_change_outputs x);
        key ← unwrapS (next_child mask);
        mret (a, key, None)) (seq 0 num_change_outputs);
    mret (parts ++ ((fun c => build_output c.1.1 c.1.2) <$> change_amounts), change_amounts).

Definition select_send_tx (mask : option SecretKey) (amount current_height minimum_confirmations : Z)
    (max_outputs change_outputs : nat) (use_all : bool) (parent : Identifier) (include_inputs_in_sum : bool) :
    W (list BuildElem * list OutputData * list (Z * Identifier * option Z) * Z) :=
  '(coins, _, amount, fee) ←
    select_coins_and_fee amount current_height minimum_confirmations max_outputs change_outputs use_all parent;
  '(parts, change_amounts) ← inputs_and_change coins mask amount fee change_outputs include_inputs_in_sum;
  mret (parts, coins, change_amounts, fee).

(** ** The sender's transaction *)
Definition build_send_tx (mask : option SecretKey) (slate : Slate) (current_height minimum_confirmations : Z)
    (max_outputs change_outputs : nat) (use_all : bool) (fixed_fee : option Z) (parent : Identifier)
    (use_test_nonce is_initiator : bool) : W (Context_ * Slate) :=
  '(elems, inputs, change_amounts, fee) ←
    select_send_tx mask (sl_amount slate) current_height minimum_confirmations max_outputs change_outputs
      use_all parent false;
  if match fixed_fee with Some f => negb (fee =? f) | None => false end
  then errS "Fee(The initially selected fee is not sufficient)"
  else
    fee_fields ← liftS (unwrap_opt (fee_try_from fee));
    '(slate, _) ← liftS (add_transaction_elements (set_sl_fee_fields fee_fields slate) elems);
    context ← Context_new parent use_test_nonce is_initiator;
    let context := set_ctx_amount (sl_amount slate) (set_ctx_fee (Some (sl_fee_fields slate)) context) in
    let context := foldl (fun c i => ctx_add_input (od_key_id i) (od_mmr_index i) (od_value i) c) context inputs in
    context ← foldS (fun c p =>
        let '(change_amount, id, mmr_index) := p in
        _ ← calc_commit_for_cache mask change_amount id;
        mret (ctx_add_output id mmr_index change_amount c)) context change_amounts;
    mret (context, slate).

(** ** Locking what was chosen *)

(** [HashMap<Identifier, _>]: the last entry for a key counts. *)
Definition hm_get {V} (k : Identifier) (m : list (Identifier * V)) : option V :=
  snd <$> find (fun p => bool_decide (p.1 = k)) m.

Definition ttl_of (slate : Slate) : option Z :=
  if sl_ttl_cutoff_height slate =? 0 then None else Some (sl_ttl_cutoff_height slate).

(** An output of one's own that the chain does not know yet. *)
Definition fresh_output (parent id : Identifier) (commit : option string) (value height : Z) (log_id : Z) :
    OutputData :=
  {| od_root_key_id := parent; od_key_id := id; od_n_child := last_path_index (id_to_path id);
     od_commit := commit; od_mmr_index := None; od_value := value; od_status := Unconfirmed;
     od_height := height; od_lock_height := 0; od_is_coinbase := false; od_tx_log_entry := Some log_id |}.

Definition lock_input (log_id : Z) (acc : Z) (id : Identifier * option Z * Z) : W Z :=
  coin ← unwrapS (batch_get id.1.1 id.1.2);
  let coin := set_od_tx_log_entry (Some log_id) coin in
  acc ← liftS (u64_add acc (od_value coin));
  _ ← lock_output coin;
  mret acc.

Definition change_commits (mask : option SecretKey) (context : Context_) :
    W (list (Identifier * (option string * Z)) * Z) :=
  foldS (fun acc p =>
    let '(id, _, change_amount) := p in
    commit ← calc_commit_for_cache mask change_amount id;
    total ← liftS (u64_add acc.2 change_amount);
    mret ((id, (commit, change_amount)) :: acc.1, total)) ([], 0) (ctx_output_ids context).

Definition save_change (parent : Identifier) (height log_id : Z)
    (commits : list (Identifier * (option string * Z))) (acc : Z * Z) (p : Identifier * option Z * Z) :
    W (Z * Z) :=
  let id := p.1.1 in
  '(commit, change_amount) ← liftS (unwrap_opt (hm_get id commits));
  credited ← liftS (u64_add acc.2 change_amount);
  _ ← save (fresh_output parent id commit change_amount height log_id);
  mret (acc.1 + 1, credited).

Definition stored_proof (k : Keychain) (parent : Identifier) (slate : Slate) (context : Context_) :
    Res (option StoredProofInfo) :=
  match sl_payment_proof slate with
  | None => Ok None
  | Some p =>
      match ctx_payment_proof_derivation_index context with
      | None => Err "PaymentProof(Payment proof derivation index required)"
      | Some path =>
          sender_key ← address_from_derivation_path k parent path;
          sender_address ← ov3_from_private (sk_bytes sender_key);
          sender ← ov3_to_ed25519 sender_address;
          Ok (Some (mkStoredProofInfo (receiver_address p) (receiver_signature p) path sender None))
      end
  end.

(** What is written in one batch: the locked inputs, the change and the log entry. *)
Definition lock_batch (k : Keychain) (slate : Slate) (height : Z) (context : Context_)
    (excess_override : option Commitment) (output_commits : list (Identifier * (option string * Z))) :
    W (option Uuid) :=
  let parent := ctx_parent_key_id context in
  log_id ← next_tx_log_id parent;
  now ← utc_now;
  excess ← liftS (ok_opt (calc_excess slate));
  let lock_inputs := ctx_input_ids context in
  amount_debited ← foldS (lock_input log_id) 0 lock_inputs;
  proof ← liftS (stored_proof k parent slate context);
  '(num_outputs, amount_credited) ←
    foldS (save_change parent height log_id output_commits) (0, 0) (ctx_output_ids context);
  let t := {|
    tl_parent_key_id := parent; tl_id := log_id; tl_tx_slate_id := Some (sl_id slate);
    tl_tx_type := TxSent; tl_creation_ts := now; tl_confirmation_ts := None; tl_confirmed := false;
    tl_num_inputs := Z.of_nat (length lock_inputs); tl_num_outputs := num_outputs;
    tl_amount_credited := amount_credited; tl_amount_debited := amount_debited;
    tl_fee := ctx_fee context; tl_ttl_cutoff_height := ttl_of slate;
    tl_stored_tx := Some (tx_file (uuid_to_string (sl_id slate)));
    tl_kernel_excess := match excess_override with Some e => Some e | None => excess end;
    tl_kernel_lookup_min_height := Some height; tl_payment_proof := proof;
    tl_reverted_after := None |} in
  _ ← save_tx_log_entry t parent;
  _ ← commit;
  mret (tl_tx_slate_id t).

Definition lock_tx_context (mask : option SecretKey) (slate : Slate) (current_height : Z) (context : Context_)
    (excess_override : option Commitment) : W unit :=
  '(output_commits, _) ← change_commits mask context;
  k ← keychain mask;
  tx_slate_id ← with_batch mask (lock_batch k slate current_height context excess_override output_commits);
  id ← liftS (unwrap_opt tx_slate_id);
  tx ← liftS (tx_or_err slate);
  store_tx (uuid_to_string id) tx.

(** ** The receiver's output *)
Definition build_recipient_output (mask : option SecretKey) (slate : Slate) (current_height : Z)
    (parent : Identifier) (use_test_rng is_initiator : bool) :
    W (Identifier * Context_ * TxLogEntry * Slate) :=
  key_id ← unwrapS (next_available_key mask);
  _ ← keychain mask;
  let amount := sl_amount slate in
  '(slate, _) ← liftS (add_transaction_elements slate [build_output amount key_id]);
  context ← Context_new parent use_test_rng is_initiator;
  let context := set_ctx_fee (fee_as_opt (sl_fee_fields slate))
                   (set_ctx_amount amount (ctx_add_output key_id None amount context)) in
  commit_str ← calc_commit_for_cache mask amount key_id;
  t ← with_batch mask (
    log_id ← next_tx_log_id parent;
    now ← utc_now;
    excess ← liftS (ok_opt (calc_excess slate));
    let t := {|
      tl_parent_key_id := parent; tl_id := log_id; tl_tx_slate_id := Some (sl_id slate);
      tl_tx_type := TxReceived; tl_creation_ts := now; tl_confirmation_ts := None; tl_confirmed := false;
      tl_num_inputs := 0; tl_num_outputs := 1; tl_amount_credited := amount; tl_amount_debited := 0;
      tl_fee := None; tl_ttl_cutoff_height := ttl_of slate; tl_stored_tx := None;
      tl_kernel_excess := excess; tl_kernel_lookup_min_height := Some current_height;
      tl_payment_proof := None; tl_reverted_after := None |} in
    _ ← save (fresh_output parent key_id commit_str amount current_height log_id);
    _ ← save_tx_log_entry t parent;
    _ ← commit;
    mret t);
  mret (key_id, context, t, slate).

(** ** Putting one's elements back into a slate *)
Definition repopulate_tx (mask : option SecretKey) (slate : Slate) (context : Context_) (update_fee : bool) :
    W Slate :=
  let slate := set_sl_amount (ctx_amount context) slate in
  slate ← (if update_fee
           then fee ← liftS (ok_or "Fee(Missing fee fields)" (ctx_fee context)); mret (set_sl_fee_fields fee slate)
           else mret slate);
  _ ← keychain mask;
  slate ← liftS (add_participant_info slate context None);
  inputs ← mapS (fun p =>
      let '(id, _, value) := p in
      outs ← wallet_iter;
      mret (match find (fun out => bool_decide (od_key_id out = id)) outs with
            | Some i => [build_coin value (od_is_coinbase i) (od_key_id i)]
            | None => []
            end)) (ctx_input_ids context);
  outputs ← mapS (fun p =>
      let '(id, _, value) := p in
      outs ← wallet_iter;
      mret (match find (fun out => bool_decide (od_key_id out = id)) outs with
            | Some i => [build_output value (od_key_id i)]
            | None => []
            end)) (ctx_output_ids context);
  '(slate, _) ← liftS (add_transaction_elements slate (concat inputs ++ concat outputs));
  tx ← liftS (tx_or_err slate);
  mret (set_sl_tx (Some (tx_set_offset (sl_offset slate) tx)) slate).
End code.

(** ** Lemmas on lists *)
Lemma res_filter_Ok {A} (f : A -> Res bool) l l' :
  res_filter f l = Ok l' -> l' `sublist_of` l /\ Forall (fun a => f a = Ok true) l'.
Proof.
  revert l'. induction l as [|a l IH]; intros l' E; cbn in E.
  { injection E as <-. by split. }
  apply res_bind_Ok in E as (b & Eb & E). apply res_bind_Ok in E as (r & Er & E). injection E as <-.
  destruct (IH _ Er) as [Hs Hf]. destruct b; split; [by apply sublist_skip|by constructor|by apply sublist_cons|done].
Qed.
Lemma sort_by_key_perm {A} (key : A -> Z) l : sort_by_key key l ≡ₚ l.
Proof. apply merge_sort_Permutation. Qed.
Lemma windows_sub {A} n (l w : list A) : w ∈ windows n l -> w `sublist_of` l.
Proof.
  unfold windows. intros (i & -> & _)%list_elem_of_fmap.
  etrans; [apply sublist_take|apply sublist_drop].
Qed.

Section lemmas.
Context `{BuildProfile, GC : GrinCrates, !BinCrates, !WalletCrates, !AddressCrates, !HexCrate}.
Implicit Types (l E : list OutputData) (o : OutputData).

(** ** Sums that fit *)
Definition total_of l : Z := foldr (fun o a => od_value o + a) 0 l.
Definition values_ok l : Prop := Forall (fun o => 0 <= od_value o) l /\ total_of l < u64_modulus.

Lemma total_of_app l1 l2 : total_of (l1 ++ l2) = total_of l1 + total_of l2.
Proof. induction l1 as [|o l1 IH]; cbn; [done|]. unfold total_of in *. lia. Qed.
Lemma total_of_perm l1 l2 : l1 ≡ₚ l2 -> total_of l1 = total_of l2.
Proof. induction 1; cbn; unfold total_of in *; lia. Qed.
Lemma total_of_nonneg l : Forall (fun o => 0 <= od_value o) l -> 0 <= total_of l.
Proof. induction 1; cbn; [done|]. unfold total_of in *. lia. Qed.
Lemma values_ok_sub l1 l2 : l1 ⊆+ l2 -> values_ok l2 -> values_ok l1 /\ total_of l1 <= total_of l2.
Proof.
  intros [k Hk]%submseteq_Permutation [Hv Ht]. rewrite Hk in Hv. apply Forall_app in Hv as [Hl Hr].
  rewrite (total_of_perm _ _ Hk), total_of_app in *. pose proof (total_of_nonneg _ Hr).
  split; [split; [done|lia]|lia].
Qed.

Lemma res_fold_sum l acc :
  Forall (fun o => 0 <= od_value o) l -> 0 <= acc -> acc + total_of l < u64_modulus ->
  res_fold (fun acc x => u64_add acc (od_value x)) acc l = Ok (acc + total_of l).
Proof.
  intros Hl. revert acc. induction Hl as [|o l Ho Hl IH]; intros acc Ha Hs; cbn in *; [f_equal; lia|].
  pose proof (total_of_nonneg _ Hl). fold (total_of l) in *.
  rewrite u64_add_ok by (unfold in_u64; lia). cbn. rewrite IH by lia. f_equal. lia.
Qed.
Lemma sum_of_coins_ok l : values_ok l -> sum_of_coins l = Ok (total_of l).
Proof. intros [Hv Ht]. unfold sum_of_coins. by rewrite res_fold_sum by (done || lia). Qed.

(** [take_enough] stops as soon as the amount is reached. *)
Lemma take_enough_ok amount l acc :
  Forall (fun o => 0 <= od_value o) l -> 0 <= acc -> acc + total_of l < u64_modulus -> amount <= acc + total_of l ->
  exists k, take_enough amount acc l = Ok (take k l) /\ (k <= length l)%nat
    /\ amount <= acc + total_of (take k l)
    /\ (forall j, (j < k)%nat -> acc + total_of (take j l) < amount).
Proof.
  intros Hl. revert acc. induction Hl as [|o l Ho Hl IH]; intros acc Ha Hs Hm.
  { exists O. cbn in *. split_and!; [done|lia|lia|lia]. }
  cbn [take_enough total_of foldr] in *. fold (total_of l) in *. pose proof (total_of_nonneg _ Hl).
  rewrite u64_add_ok by (unfold in_u64; lia). cbn [mbind Res_bind].
  destruct (Z.ltb_spec acc amount).
  - destruct (IH (acc + od_value o)) as (k & E & Hk & Hk1 & Hk2); [lia..|].
    exists (S k). rewrite E. cbn. fold (total_of (take k l)). split_and!; [done|lia|lia|].
    intros [|j] Hj; cbn; [lia|]. fold (total_of (take j l)). specialize (Hk2 j). lia.
  - exists O. cbn. split_and!; [done|lia|lia|lia].
Qed.

(** What a choice is made of, and whether it is enough. *)
Lemma select_from_ok amount all l :
  values_ok l ->
  select_from amount all l
  = if amount <=? total_of l then
      if all then Ok (Some l) else l' ← take_enough amount 0 l; Ok (Some l')
    else Ok None.
Proof. intros Hl. unfold select_from. by rewrite sum_of_coins_ok. Qed.

Lemma select_from_sub amount all l r :
  values_ok l -> select_from amount all l = Ok (Some r) ->
  (exists k, r = take k l) /\ amount <= total_of r.
Proof.
  intros Hl. rewrite select_from_ok by done. destruct (Z.leb_spec amount (total_of l)); [|done].
  destruct all.
  - intros [= <-]. split; [|done]. exists (length l). by rewrite take_ge.
  - destruct (take_enough_ok amount l 0) as (k & -> & _ & Hk & _); [apply Hl|lia|apply Hl|lia|].
    cbn. intros [= <-]. split; [by exists k|lia].
Qed.

Lemma select_window_sub amount all ws r :
  Forall values_ok ws -> select_window amount all ws = Ok (Some r) ->
  (exists w k, w ∈ ws /\ r = take k w) /\ amount <= total_of r.
Proof.
  intros Hw. induction Hw as [|w ws Hw Hws IH]; [done|]. cbn [select_window]. intros E.
  apply res_bind_Ok in E as ([outs|] & E1 & E).
  - injection E as <-. destruct (select_from_sub _ _ _ _ Hw E1) as [[k ->] Ht].
    split; [|done]. exists w, k. split; [apply list_elem_of_here|done].
  - destruct (IH E) as [(w' & k & Hin & ->) Ht]. split; [|done]. exists w', k.
    split; [by apply list_elem_of_further|done].
Qed.

(** Every choice is made of eligible coins, each at most once. *)
Lemma choose_sub amount m all E r : values_ok E -> choose amount m all E = Ok r -> r ⊆+ E.
Proof.
  intros HE. unfold choose. intros Hc. apply res_bind_Ok in Hc as (o & Ho & [= <-]).
  assert (Htake : forall k l, l ⊆+ E -> take k l ⊆+ E).
  { intros k l Hl. etrans; [apply sublist_submseteq, sublist_take|exact Hl]. }
  destruct o as [r|]; cbn; [|apply Htake; by rewrite reverse_Permutation].
  destruct (m <? length E)%nat.
  - apply res_bind_Ok in Ho as (w & Ew & Ho). destruct (m =? 0)%nat; [done|]. destruct w as [outs|].
    + injection Ho as ->.
      assert (Hok : Forall values_ok (windows m E)).
      { apply Forall_forall. intros w Hw%windows_sub%sublist_submseteq. by apply (values_ok_sub w E). }
      destruct (select_window_sub _ _ _ _ Hok Ew) as [(w & k & Hin & ->) _].
      apply Htake. by eapply sublist_submseteq, windows_sub.
    + destruct (select_from_sub _ _ _ _ HE Ho) as [[k ->] _]. by apply Htake.
  - destruct (select_from_sub _ _ _ _ HE Ho) as [[k ->] _]. by apply Htake.
Qed.
End lemmas.

(** ** The loop ends *)
Section termination.
Context `{BuildProfile, GC : GrinCrates, !BinCrates, !WalletCrates, !AddressCrates, !HexCrate}.
Implicit Types (l E : list OutputData) (o : OutputData).

Lemma total_of_take E j k :
  Forall (fun o => 0 <= od_value o) E -> (j <= k)%nat -> total_of (take j E) <= total_of (take k E).
Proof.
  intros HE Hjk. replace (take j E) with (take j (take k E)) by (rewrite take_take; f_equal; lia).
  rewrite <- (take_drop j (take k E)) at 2. rewrite total_of_app.
  assert (0 <= total_of (drop j (take k E))); [|lia].
  apply total_of_nonneg, Forall_drop, Forall_take, HE.
Qed.

(** With all available coins allowed, what is chosen is a prefix that is enough, or
    everything. *)
Lemma choose_available a all E :
  values_ok E ->
  exists r, choose a (length E) all E = Ok r
    /\ ((exists k, r = take k E /\ a <= total_of r) \/ (total_of E < a /\ length r = length E)).
Proof.
  intros HE. unfold choose. rewrite Nat.ltb_irrefl, select_from_ok by done.
  destruct (Z.leb_spec a (total_of E)).
  - destruct all; cbn.
    + exists E. split; [done|]. left. exists (length E). by rewrite take_ge.
    + destruct (take_enough_ok a E 0) as (k & -> & _ & Hk & _); [apply HE|lia|apply HE|lia|].
      cbn. eexists. split; [done|]. left. exists k. split; [done|lia].
  - cbn. eexists. split; [done|]. right. split; [done|]. rewrite length_take, length_reverse. lia.
Qed.

Lemma all_of_it l E : l ⊆+ E -> length l = length E -> total_of l = total_of E.
Proof. intros Hs Hl. apply total_of_perm, submseteq_length_Permutation; [done|lia]. Qed.

(** How many more rounds there can be. *)
Definition rounds_left E coins (fuel : nat) : Prop :=
  ((exists k, coins = take k E) \/ length coins = length E) /\ (length E - length coins < fuel)%nat
  \/ (length E < fuel)%nat.

Lemma rounds_step E coins a r fuel :
  values_ok E -> coins ⊆+ E -> length coins <> length E -> total_of coins < a -> 0 <= total_of coins ->
  rounds_left E coins (S fuel) ->
  (exists k, r = take k E /\ a <= total_of r) \/ (total_of E < a /\ length r = length E) ->
  rounds_left E r fuel.
Proof.
  intros [HE _] Hs Hlen Ha Hpos Hf Hr. pose proof (submseteq_length _ _ Hs) as Hle.
  assert (Hpos' : (0 < fuel)%nat) by (destruct Hf as [[_ ?]|?]; lia).
  destruct Hr as [(k & -> & Hk)|[_ Hr]]; left; (split; [by eauto|]); [|lia].
  assert (Hk1 : (1 <= length (take k E))%nat).
  { destruct (take k E); cbn in *; lia. }
  destruct Hf as [[[[j ->]|?] Hf]|Hf]; [|lia|lia].
  assert (Hjk : (j < k)%nat).
  { destruct (decide (k <= j)%nat) as [Hkj|]; [|lia].
    pose proof (total_of_take E k j HE Hkj). lia. }
  rewrite !length_take in *. lia.
Qed.

Lemma grow_decides sel fuel n amount E all w coins total awf fee :
  values_ok E ->
  (forall a, exists r, sel a w = (Ok (length E, r), w) /\ choose a (length E) all E = Ok r) ->
  (forall k, (k <= length E)%nat -> in_u64 (amount + tx_fee k n 1)) ->
  coins ⊆+ E -> total = total_of coins -> fee = tx_fee (length coins) n 1 -> awf = amount + fee ->
  rounds_left E coins fuel ->
  (exists coins' fee', grow sel fuel (length E) n amount coins total awf fee w = (Ok (coins', total_of coins', fee'), w)
     /\ coins' ⊆+ E /\ fee' = tx_fee (length coins') n 1 /\ amount + fee' <= total_of coins')
  \/ (grow sel fuel (length E) n amount coins total awf fee w
        = (Err (not_enough_funds (total_of E) (amount + tx_fee (length E) n 1)), w)
      /\ total_of E < amount + tx_fee (length E) n 1).
Proof.
  intros HE Hsel Hfee. revert coins total awf fee. induction fuel as [|fuel IH];
    intros coins total awf fee Hs -> -> -> Hf.
  { destruct (Z.ltb_spec (total_of coins) (amount + tx_fee (length coins) n 1)) as [Hlt|Hge].
    - exfalso. pose proof (submseteq_length _ _ Hs). destruct Hf as [[_ ?]|?]; lia.
    - left. exists coins, (tx_fee (length coins) n 1). unfold grow.
      rewrite (proj2 (Z.ltb_ge _ _) Hge). done. }
  cbn [grow]. destruct (Z.ltb_spec (total_of coins) (amount + tx_fee (length coins) n 1)) as [Hlt|Hge].
  2:{ left. by exists coins, (tx_fee (length coins) n 1). }
  destruct (Nat.eqb_spec (length coins) (length E)) as [Hl|Hl].
  { right. rewrite <- Hl in *. by rewrite <- (all_of_it _ _ Hs Hl). }
  destruct (Hsel (amount + tx_fee (length coins) n 1)) as (r & Er & Ec).
  destruct (choose_available (amount + tx_fee (length coins) n 1) all E HE) as (r' & Ec' & Hr).
  rewrite Ec in Ec'. injection Ec' as <-. pose proof (choose_sub _ _ _ _ _ HE Ec) as Hsr.
  destruct (values_ok_sub _ _ Hsr HE) as [Hvr _]. destruct (values_ok_sub _ _ Hs HE) as [Hvc _].
  assert (Ef : u64_add amount (tx_fee (length r) n 1) = Ok (amount + tx_fee (length r) n 1))
    by apply u64_add_ok, Hfee, submseteq_length, Hsr.
  rewrite (ST_bind_run _ _ _ _ _ Er), (ST_bind_run _ _ _ _ _ (liftS_run _ w _ (sum_of_coins_ok r Hvr))),
    (ST_bind_run _ _ _ _ _ (liftS_run _ w _ Ef)).
  apply IH; [done..|]. eapply rounds_step; [done|exact Hs|done|done| |done|done].
  apply total_of_nonneg, Hvc.
Qed.
End termination.

(** ** What is chosen *)
Section chosen.
Context `{BuildProfile, GC : GrinCrates, !BinCrates, !WalletCrates, !AddressCrates, !HexCrate}.
Implicit Types (l E : list OutputData) (o : OutputData).

(** An output that may be spent, as a proposition. *)
Definition spendable (current_height minimum_confirmations : Z) o : Prop :=
  od_lock_height o <= current_height
  /\ ((od_status o = Unspent
        /\ (od_height o <= current_height /\ num_confirmations o current_height = Ok (1 + (current_height - od_height o))
              /\ minimum_confirmations <= 1 + (current_height - od_height o)
            \/ current_height < od_height o /\ minimum_confirmations <= 0))
      \/ od_status o = Unconfirmed /\ minimum_confirmations = 0 /\ od_is_coinbase o = false).

Lemma num_confirmations_ok o cur :
  0 <= od_height o -> 0 <= cur < u64_modulus - 1 -> od_status o <> Unconfirmed ->
  num_confirmations o cur = Ok (if cur <? od_height o then 0 else 1 + (cur - od_height o)).
Proof.
  intros Hh Hc Hst. unfold num_confirmations. rewrite (bool_decide_eq_false_2 _ Hst).
  destruct (Z.ltb_spec cur (od_height o)); [done|].
  rewrite u64_sub_ok by (unfold in_u64; lia). cbn. apply u64_add_ok. unfold in_u64; lia.
Qed.

Lemma eligible_spec o cur mc :
  0 <= od_height o -> 0 <= cur < u64_modulus - 1 ->
  exists b, eligible_to_spend o cur mc = Ok b /\ (b = true <-> spendable cur mc o).
Proof.
  intros Hh Hc. unfold eligible_to_spend, spendable.
  destruct (Z.ltb_spec cur (od_lock_height o)).
  { rewrite orb_true_r. exists false. split; [done|]. split; [done|lia]. }
  rewrite orb_false_r. destruct (od_status o) eqn:Es; cbn.
  - destruct (od_is_coinbase o); cbn; [exists false; naive_solver|].
    exists (mc =? 0). split; [done|]. rewrite Z.eqb_eq. naive_solver.
  - rewrite num_confirmations_ok by (done || by rewrite Es). cbn.
    eexists; split; [reflexivity|]. rewrite orb_false_r, Z.leb_le.
    destruct (Z.ltb_spec cur (od_height o)); naive_solver lia.
  - eexists; split; [reflexivity|]. naive_solver.
  - eexists; split; [reflexivity|]. naive_solver.
  - eexists; split; [reflexivity|]. naive_solver.
Qed.

(** Heights that do not overflow. *)
Definition heights_ok (current_height : Z) l : Prop :=
  0 <= current_height < u64_modulus - 1 /\ Forall (fun o => 0 <= od_height o) l.

Lemma is_eligible_true cur mc parent o :
  0 <= od_height o -> 0 <= cur < u64_modulus - 1 -> is_eligible cur mc parent o = Ok true ->
  od_root_key_id o = parent /\ spendable cur mc o.
Proof.
  intros Hh Hc. unfold is_eligible. case_bool_decide as Hp; [|done]. intros E. split; [done|].
  destruct (eligible_spec o cur mc Hh Hc) as (b & Eb & Hb). apply Hb. congruence.
Qed.

Lemma eligible_outputs_spec cur mc parent outs E :
  heights_ok cur outs -> eligible_outputs cur mc parent outs = Ok E ->
  E ⊆+ outs /\ Forall (fun o => od_root_key_id o = parent /\ spendable cur mc o) E
  /\ StronglySorted (key_order od_value) E.
Proof.
  intros [Hc Hh] Ee. apply res_bind_Ok in Ee as (l & El & [= <-]).
  destruct (res_filter_Ok _ _ _ El) as [Hs Hf]. split_and!.
  - rewrite sort_by_key_perm. by apply sublist_submseteq.
  - rewrite sort_by_key_perm. rewrite Forall_forall in *. intros o Ho.
    apply is_eligible_true; [|done|by apply Hf]. apply Hh. by eapply elem_of_submseteq, sublist_submseteq.
  - apply StronglySorted_merge_sort; unfold key_order; [intros x y z; lia|intros x y; lia].
Qed.

(** There is always a choice: enough, or the greatest coins. *)
Lemma select_from_total amount all l : values_ok l -> exists r, select_from amount all l = Ok r.
Proof.
  intros Hl. rewrite select_from_ok by done. destruct (Z.leb_spec amount (total_of l)); [|by eexists].
  destruct all; [by eexists|].
  destruct (take_enough_ok amount l 0) as (k & -> & _); [apply Hl|lia|apply Hl|lia|]. by eexists.
Qed.
Lemma select_window_total amount all ws : Forall values_ok ws -> exists r, select_window amount all ws = Ok r.
Proof.
  induction 1 as [|w ws Hw _ IH]; [by eexists|]. cbn.
  destruct (select_from_total amount all w Hw) as [[r|] ->]; cbn; [by eexists|exact IH].
Qed.

Lemma choose_total amount M all E :
  (0 < M)%nat -> values_ok E ->
  exists r, choose amount M all E = Ok r /\ (amount <= total_of r \/ r = take M (reverse E)).
Proof.
  intros HM HE. unfold choose.
  assert (Hw : Forall values_ok (windows M E)).
  { apply Forall_forall. intros w Hw%windows_sub%sublist_submseteq. by apply (values_ok_sub w E). }
  assert (Hs : forall b, exists r, select_from amount b E = Ok r
             /\ (amount <= total_of (default (take M (reverse E)) r) \/ r = None)).
  { intros b. destruct (select_from_total amount b E HE) as [[r|] Er]; exists (Some r) || exists None; (split; [done|]).
    - left. cbn. by apply (select_from_sub _ _ _ _ HE Er).
    - by right. }
  destruct (M <? length E)%nat.
  - destruct (Nat.eqb_spec M 0); [lia|]. destruct (select_window_total amount all _ Hw) as [[r|] Er]; rewrite Er; cbn.
    + eexists. split; [done|]. left. by apply (select_window_sub _ _ _ _ Hw Er).
    + destruct (Hs false) as (r & -> & Hr). cbn. eexists. split; [done|]. destruct Hr as [Hr| ->]; auto.
  - destruct (Hs all) as (r & -> & Hr). cbn. eexists. split; [done|]. destruct Hr as [Hr| ->]; auto.
Qed.

Lemma total_of_zero l : Forall (fun o => od_value o = 0) l -> total_of l = 0.
Proof. induction 1 as [|o l Ho _ IH]; [done|]. cbn. fold (total_of l). lia. Qed.

(** The greatest coins are worth nothing only if there are no funds. *)
Lemma greatest_zero M E :
  (0 < M)%nat -> Forall (fun o => 0 <= od_value o) E -> StronglySorted (key_order od_value) E ->
  total_of (take M (reverse E)) = 0 -> total_of E = 0.
Proof.
  intros HM Hv Hs Hz. destruct E as [|x E _] using rev_ind; [done|].
  rewrite reverse_snoc in Hz. destruct M as [|M]; [lia|]. cbn in Hz. fold (total_of (take M (reverse E))) in Hz.
  apply Forall_app in Hv as [Hv [Hx _]%Forall_cons].
  assert (0 <= total_of (take M (reverse E))) by (apply total_of_nonneg, Forall_take; by rewrite reverse_Permutation).
  apply StronglySorted_app in Hs as (Hs & _).
  assert (HE : Forall (fun o => od_value o = 0) E).
  { rewrite Forall_forall in *. intros o Ho. specialize (Hv o Ho).
    specialize (Hs o x Ho ltac:(by apply list_elem_of_singleton)). unfold key_order in Hs. lia. }
  rewrite total_of_app, (total_of_zero E HE). cbn. lia.
Qed.

Lemma select_coins_run amount cur mc m all parent w E r :
  eligible_outputs cur mc parent (db_iter (db_outputs (wa_db w))) = Ok E -> choose amount m all E = Ok r ->
  select_coins amount cur mc m all parent w = (Ok (length E, r), w).
Proof.
  intros Ee Er. unfold select_coins. rewrite (ST_bind_run _ _ _ _ _ (eq_refl : wallet_iter w = (Ok _, w))).
  by rewrite (ST_bind_run _ _ _ _ _ (liftS_run _ w _ Ee)), (ST_bind_run _ _ _ _ _ (liftS_run _ w _ Er)).
Qed.

(** C26: The choice of coins for a payment ends and is right.  It changes nothing in
    the wallet.  Either it gives coins of the account, each at most once and each
    spendable, that are worth at least the amount and the fee, which is the one for
    their number (with one output if nothing is left over, with the change
    otherwise); or it fails for want of funds, and then all spendable coins of the
    account together do not suffice.  The loop never runs longer than there are
    coins. *)
Theorem selection_decides amount cur mc M change all parent w E :
  let outs := db_iter (db_outputs (wa_db w)) in
  eligible_outputs cur mc parent outs = Ok E ->
  heights_ok cur outs -> values_ok outs -> (0 < M)%nat -> 0 < amount ->
  (forall k n, (k <= length E)%nat -> n ∈ [1%nat; (change + 1)%nat] ->
     0 <= tx_fee k n 1 /\ amount + tx_fee k n 1 < u64_modulus) ->
  (exists coins fee,
     select_coins_and_fee amount cur mc M change all parent w = (Ok (coins, total_of coins, amount, fee), w)
     /\ coins ⊆+ outs /\ Forall (fun o => od_root_key_id o = parent /\ spendable cur mc o) coins
     /\ amount + fee <= total_of coins
     /\ (fee = tx_fee (length coins) 1 1 /\ total_of coins = amount + fee
         \/ fee = tx_fee (length coins) (change + 1) 1))
  \/ (exists needed,
     select_coins_and_fee amount cur mc M change all parent w = (Err (not_enough_funds (total_of E) needed), w)
     /\ total_of E < needed
     /\ (needed = amount + tx_fee (length E) 1 1 \/ needed = amount + tx_fee (length E) (change + 1) 1
         \/ total_of E = 0)).
Proof.
  intros outs Ee Hh Hv HM Ha Hfee. destruct (eligible_outputs_spec _ _ _ _ _ Hh Ee) as (HEs & HEf & HEo).
  destruct (values_ok_sub _ _ HEs Hv) as [HEv _]. assert (Hsub : forall l, l ⊆+ E ->
    l ⊆+ outs /\ Forall (fun o => od_root_key_id o = parent /\ spendable cur mc o) l).
  { intros l Hl. split; [by etrans|]. rewrite Forall_forall in *. intros o Ho. by eapply HEf, elem_of_submseteq. }
  destruct (choose_total amount M all E HM HEv) as (r & Ec & Hr).
  pose proof (choose_sub _ _ _ _ _ HEv Ec) as Hs. destruct (values_ok_sub _ _ Hs HEv) as [Hvr _].
  pose proof (submseteq_length _ _ Hs) as Hlen. fold outs in Ee.
  assert (Hfr : forall k n, (k <= length E)%nat -> n ∈ [1%nat; (change + 1)%nat] ->
    u64_add amount (tx_fee k n 1) = Ok (amount + tx_fee k n 1)).
  { intros k n Hk Hn. destruct (Hfee k n Hk Hn). apply u64_add_ok. unfold in_u64. lia. }
  unfold select_coins_and_fee. rewrite (ST_bind_run _ _ _ _ _ (select_coins_run _ _ _ _ _ _ w _ _ Ee Ec)),
    (ST_bind_run _ _ _ _ _ (liftS_run _ w _ (sum_of_coins_ok r Hvr))),
    (ST_bind_run _ _ _ _ _ (liftS_run _ w _ (Hfr _ 1%nat Hlen ltac:(set_solver)))).
  destruct (Hfee (length r) 1%nat Hlen ltac:(set_solver)) as [Hf0 _].
  destruct (Z.eqb_spec (total_of r) 0) as [Hz|Hz].
  { right. assert (HE0 : total_of E = 0).
    { destruct Hr as [?|Hr]; [lia|]. rewrite Hr in Hz. by eapply greatest_zero, Hz; [|apply HEv|]. }
    eexists. rewrite HE0. split; [reflexivity|]. split; [lia|by right; right]. }
  destruct ((total_of r <? amount + tx_fee (length r) 1 1) && (length r =? length E)%nat) eqn:Eb.
  { right. apply andb_true_iff in Eb as [Hlt%Z.ltb_lt Hl%Nat.eqb_eq].
    rewrite (all_of_it _ _ Hs Hl), Hl in *. eexists. split; [reflexivity|]. split; [lia|by left]. }
  destruct (Z.eqb_spec (total_of r) (amount + tx_fee (length r) 1 1)) as [He|He].
  { left. exists r, (tx_fee (length r) 1 1). destruct (Hsub r Hs). split_and!; [done..|lia|by left]. }
  rewrite (ST_bind_run _ _ _ _ _ (liftS_run _ w _ (Hfr _ (change + 1)%nat Hlen ltac:(set_solver)))).
  destruct (grow_decides (fun a => select_coins a cur mc (length E) all parent) (S (length E)) (change + 1)
    amount E all w r (total_of r) (amount + tx_fee (length r) (change + 1) 1)
    (tx_fee (length r) (change + 1) 1) HEv) as [(coins & fee & Eg & Hc & Hfe & Hge)|[Eg Hlt]];
    try done.
  - intros a. destruct (choose_available a all E HEv) as (r' & Er' & _). exists r'.
    split; [by apply select_coins_run|done].
  - intros k Hk. destruct (Hfee k (change + 1)%nat Hk ltac:(set_solver)). unfold in_u64. lia.
  - right. lia.
  - left. exists coins, fee. rewrite (ST_bind_run _ _ _ _ _ Eg). destruct (Hsub coins Hc).
    split_and!; [done..|by right].
  - right. rewrite (ST_bind_err _ _ _ _ _ Eg). eexists. split; [reflexivity|]. split; [done|by right; left].
Qed.
End chosen.

(** ** Change *)
Section change.
Context `{BuildProfile, GC : GrinCrates, !BinCrates, !WalletCrates, !AddressCrates, !HexCrate}.
Implicit Types (coins : list OutputData).

Definition sum_amounts (l : list (Z * Identifier * option Z)) : Z := foldr Z.add 0 ((fun c => c.1.1) <$> l).

(** What the [n] change outputs are worth together. *)
Lemma sum_parts part rem n :
  (0 < n)%nat ->
  foldr Z.add 0 ((fun x => if (x =? n - 1)%nat then part + rem else part) <$> seq 0 n) = Z.of_nat n * part + rem.
Proof.
  intros Hn. destruct n as [|n]; [lia|]. rewrite seq_S, fmap_app. cbn. rewrite Nat.sub_0_r, Nat.eqb_refl.
  assert (E : forall l, Forall (fun x => (x < n)%nat) l ->
    foldr Z.add 0 (((fun x => if (x =? n)%nat then part + rem else part) <$> l) ++ [part + rem])
    = Z.of_nat (S (length l)) * part + rem).
  { induction 1 as [|x l Hx _ IH]; cbn [fmap list_fmap app foldr length]; [lia|].
    destruct (Nat.eqb_spec x n); [lia|]. rewrite IH. lia. }
  rewrite E, length_seq; [done|]. apply Forall_seq. lia.
Qed.

Lemma remainder_of_remainder change n :
  0 < n -> n <= change ->
  (n * (change / n) + change mod (change / n) = change <-> change mod n < change / n)
  /\ n * (change / n) + change mod (change / n) <= change.
Proof.
  intros Hn Hc. pose proof (Z.div_mod change n ltac:(lia)) as Hd.
  assert (Hp : 0 < change / n) by (apply Z.div_str_pos; lia).
  pose proof (Z.mod_pos_bound change n Hn) as Hr.
  assert (E : change mod (change / n) = (change mod n) mod (change / n)).
  { rewrite Hd at 1. rewrite Z.add_comm, Z.mod_add by lia. done. }
  rewrite E. pose proof (Z.mod_pos_bound (change mod n) (change / n) Hp).
  pose proof (Z.mod_le (change mod n) (change / n) ltac:(lia) Hp).
  split; [split; intros He|lia].
  - lia.
  - rewrite (Z.mod_small (change mod n)) by lia. lia.
Qed.

(** The change of a payment, exactly.  What is left after the amount and the fee
    is split into the given number of outputs, and no change means no outputs.
    The last output takes what does not divide; but the code takes the remainder of
    a division by the size of a part and not by the number of parts, so the
    outputs add up to the change if and only if the true remainder is below the
    size of a part, and to less otherwise.  A change of fewer units than outputs,
    or no outputs at all, panics. *)
Theorem change_exact coins mask amount fee n inc w r w' :
  let change := total_of coins - amount - fee in
  inputs_and_change coins mask amount fee n inc w = (r, w') ->
  values_ok coins -> 0 <= amount -> 0 <= fee -> amount + fee <= total_of coins ->
  (change = 0 -> forall parts l, r = Ok (parts, l) -> l = [])
  /\ (0 < change -> change < Z.of_nat n \/ n = O -> is_panic r = true)
  /\ (0 < change -> forall parts l, r = Ok (parts, l) ->
        (0 < n)%nat /\ Z.of_nat n <= change /\ length l = n
        /\ (sum_amounts l = change <-> change mod Z.of_nat n < change / Z.of_nat n)
        /\ sum_amounts l <= change).
Proof.
  intros change E Hv Ha Hf Ht. unfold inputs_and_change in E.
  rewrite (ST_bind_run _ _ _ _ _ (liftS_run _ w _ (sum_of_coins_ok coins Hv))) in E.
  assert (Hc : 0 <= total_of coins < u64_modulus) by (destruct Hv; split; [by apply total_of_nonneg|done]).
  rewrite (ST_bind_run _ _ _ _ _ (liftS_run _ w _ (u64_sub_ok (total_of coins) amount ltac:(unfold in_u64; lia)))) in E.
  rewrite (ST_bind_run _ _ _ _ _ (liftS_run _ w _ (u64_sub_ok (total_of coins - amount) fee ltac:(unfold in_u64; lia)))) in E.
  fold change in E. destruct (Z.eqb_spec change 0) as [Hz|Hz].
  { injection E as <- _. split_and!; [intros _ ? ? ?; by simplify_eq|lia|lia]. }
  split; [done|]. unfold checked_div in E. destruct (Z.eqb_spec (Z.of_nat n) 0) as [Hn|Hn].
  { injection E as <- _. split; [done|]. by intros _ ? ?. }
  rewrite (ST_bind_run _ _ _ _ _ (liftS_run (Ok (change / Z.of_nat n)) w _ eq_refl)) in E. unfold checked_rem in E.
  destruct (Z.eqb_spec (change / Z.of_nat n) 0) as [Hp|Hp].
  { injection E as <- _. split; [done|]. by intros _ ? ?. }
  rewrite (ST_bind_run _ _ _ _ _ (liftS_run (Ok _) w _ eq_refl)) in E.
  assert (Hnc : Z.of_nat n <= change).
  { destruct (Z.le_gt_cases (Z.of_nat n) change); [done|]. rewrite Z.div_small in Hp by lia. done. }
  split; [lia|]. intros _ parts l ->. apply ST_bind_Ok in E as (bs & w1 & Em & E).
  apply mretS_Ok in E as [[= -> ->] _].
  set (part := change / Z.of_nat n) in *. set (rem := change mod part) in *.
  destruct (remainder_of_remainder change (Z.of_nat n)) as [Hiff Hle]; [lia|done|]. fold part rem in Hiff, Hle.
  assert (Hpp : 0 < part) by (apply Z.div_str_pos; lia).
  pose proof (Z.mod_pos_bound change part Hpp) as Hrr. fold rem in Hrr.
  assert (Hpr : part + rem <= change) by nia.
  assert (Hfst : (fun c => c.1.1) <$> bs = (fun x => if (x =? n - 1)%nat then part + rem else part) <$> seq 0 n).
  { eapply mapS_Ok, Em. intros x s b s' _ Eb. cbn beta in Eb. unfold change_amount in Eb.
    rewrite u64_add_ok in Eb by (unfold in_u64; lia). by destruct (x =? n - 1)%nat; st_inv. }
  assert (Hl : length bs = n) by (apply (f_equal length) in Hfst; by rewrite !length_fmap, length_seq in Hfst).
  unfold sum_amounts. rewrite Hfst, sum_parts by lia. split_and!; [lia|done|done|exact Hiff|exact Hle].
Qed.
End change.

(** ** Locking *)
Section locking.
Context `{BuildProfile, GC : GrinCrates, !BinCrates, !WalletCrates, !AddressCrates, !HexCrate}.
Implicit Types (w : Wallet) (d : Db) (o : OutputData) (p : Identifier * option Z * Z).

Definition input_key p : string := output_key p.1.1 p.1.2.
(** What locking makes of a coin. *)
Definition locked_by (log_id : Z) o : OutputData := od_lock (set_od_tx_log_entry (Some log_id) o).

Lemma locked_by_idemp log_id o : locked_by log_id (locked_by log_id o) = locked_by log_id o.
Proof. done. Qed.
Lemma locked_by_key log_id o :
  output_key (od_key_id (locked_by log_id o)) (od_mmr_index (locked_by log_id o)) = output_key (od_key_id o) (od_mmr_index o).
Proof. done. Qed.

(** The outputs of [d'] are those of [d], with [f] applied under the given keys. *)
Definition relabelled (ks : list string) (f : OutputData -> OutputData) d d' : Prop :=
  d' = set_db_outputs (db_outputs d') d
  /\ (forall k, db_outputs d' !! k = if bool_decide (k ∈ ks) then f <$> (db_outputs d !! k) else db_outputs d !! k)
  /\ (forall k, k ∈ ks -> is_Some (db_outputs d !! k)).

Lemma lock_input_Ok log_id acc p w acc' w' :
  keyed (pending w) -> lock_input log_id acc p w = (Ok acc', w') ->
  relabelled [input_key p] (locked_by log_id) (pending w) (pending w') /\ keyed (pending w') /\ wa_files w' = wa_files w
  /\ exists v, od_value <$> (db_outputs (pending w) !! input_key p) = Some v /\ u64_add acc v = Ok acc'.
Proof.
  intros Hk E. unfold lock_input in E. st_inv.
  match goal with H : batch_get _ _ _ = _ |- _ => apply batch_get_Ok in H as (-> & _ & Ho) end.
  unfold lock_output, save in *. match goal with H : batch_update _ _ = _ |- _ =>
    apply batch_update_Ok in H as (_ & _ & Hp & _ & Hf) end.
  cbn in Ho. pose proof (Hk _ _ Ho) as Hko. cbn in Hko. fold (input_key p) in *.
  rewrite Hp, Hf. split_and!; [|by apply (keyed_save _ (locked_by log_id _))|done|].
  2:{ rewrite Ho. by eexists. }
  cbn [od_key_id od_mmr_index od_lock set_od_status set_od_tx_log_entry]. rewrite <- Hko.
  split_and!; cbn.
  - done.
  - intros k. case_bool_decide as Hin.
    + apply list_elem_of_singleton in Hin as ->. unfold input_key in *. by rewrite Ho, lookup_insert_eq.
    + rewrite lookup_insert_ne; [done|]. intros <-. by apply Hin, list_elem_of_singleton.
  - intros k ->%list_elem_of_singleton. by eexists.
Qed.

Lemma relabelled_trans ks1 ks2 f d1 d2 d3 :
  (forall o, f (f o) = f o) -> relabelled ks1 f d1 d2 -> relabelled ks2 f d2 d3 -> relabelled (ks1 ++ ks2) f d1 d3.
Proof.
  intros Hf (E1 & L1 & P1) (E2 & L2 & P2). split_and!.
  - rewrite E2. destruct d1, d3. by rewrite E1.
  - intros k. rewrite L2, L1. repeat case_bool_decide; try set_solver.
    destruct (db_outputs d1 !! k); cbn; by rewrite ?Hf.
  - intros k [Hk|Hk]%elem_of_app; [by apply P1|]. specialize (P2 k Hk). rewrite L1 in P2.
    case_bool_decide; [by apply fmap_is_Some in P2|done].
Qed.
Lemma relabelled_nil f d : relabelled [] f d d.
Proof. split_and!; [by destruct d|done|by intros k ?%elem_of_nil]. Qed.

(** The values that are locked, in the order of the inputs. *)
Definition input_values d (ins : list (Identifier * option Z * Z)) (vs : list Z) : Prop :=
  Forall2 (fun p v => od_value <$> (db_outputs d !! input_key p) = Some v) ins vs.

Lemma relabelled_values ks log_id d d' k :
  relabelled ks (locked_by log_id) d d' -> od_value <$> (db_outputs d' !! k) = od_value <$> (db_outputs d !! k).
Proof. intros (_ & Hl & _). rewrite Hl. case_bool_decide; [|done]. by destruct (db_outputs d !! k). Qed.

Lemma lock_inputs_Ok log_id ins acc w acc' w' :
  keyed (pending w) -> foldS (lock_input log_id) acc ins w = (Ok acc', w') ->
  relabelled (input_key <$> ins) (locked_by log_id) (pending w) (pending w') /\ keyed (pending w')
  /\ wa_files w' = wa_files w
  /\ exists vs, input_values (pending w) ins vs /\ res_fold u64_add acc vs = Ok acc'.
Proof.
  revert acc w. induction ins as [|p ins IH]; intros acc w Hk E; cbn [foldS] in E; st_inv.
  { split_and!; [apply relabelled_nil|done..|]. exists []. by split; [constructor|]. }
  match goal with H : lock_input _ _ _ _ = _ |- _ =>
    apply lock_input_Ok in H as (Hr & Hk1 & Hf1 & v & Hv & Ha); [|done] end.
  match goal with H : foldS _ _ _ _ = _ |- _ => apply IH in H as (Hr2 & Hk2 & Hf2 & vs & Hvs & Hs); [|done] end.
  split_and!; [|done|congruence|].
  { by apply (relabelled_trans [_] _ _ _ _ _ (locked_by_idemp log_id) Hr Hr2). }
  exists (v :: vs). split; [|cbn; by rewrite Ha]. constructor; [done|].
  eapply Forall2_impl; [exact Hvs|]. intros q u. cbn beta. by rewrite (relabelled_values _ _ _ _ _ Hr).
Qed.

(** ** Change outputs *)
Definition change_key p : string := output_key p.1.1 None.
#[local] Arguments change_key : simpl never.
#[local] Arguments output_key : simpl never.

Lemma change_commits_get mask context w commits total w' :
  NoDup ((fun p => p.1.1) <$> ctx_output_ids context) ->
  change_commits mask context w = (Ok (commits, total), w') ->
  w' = w /\ forall p, p ∈ ctx_output_ids context -> exists c, hm_get p.1.1 commits = Some (c, p.2).
Proof.
  unfold change_commits. assert (Hgen : forall l acc commits total w',
    foldS (fun acc p =>
      let '(id, _, change_amount) := p in
      commit ← calc_commit_for_cache mask change_amount id;
      total ← liftS (u64_add acc.2 change_amount);
      mret ((id, (commit, change_amount)) :: acc.1, total)) acc l w = (Ok (commits, total), w') ->
    NoDup ((fun p => p.1.1) <$> l) ->
    w' = w /\ (forall i, i ∉ (fun p => p.1.1) <$> l -> hm_get i commits = hm_get i acc.1)
    /\ forall p, p ∈ l -> exists c, hm_get p.1.1 commits = Some (c, p.2)).
  { induction l as [|[[i m] a] l IH]; intros acc cs t w1 E Hn; cbn [foldS] in E.
    { st_inv. split_and!; [done..|]. by intros p ?%elem_of_nil. }
    apply ST_bind_Ok in E as (acc1 & w2 & E1 & E2). st_inv.
    match goal with H : calc_commit_for_cache _ _ _ _ = _ |- _ => apply calc_commit_Ok in H as -> end.
    cbn in Hn. apply NoDup_cons in Hn as [Hi Hn]. destruct (IH _ _ _ _ E2 Hn) as (-> & Hget & Hall). cbn in *.
    split_and!; [done| |].
    - intros j Hj. apply not_elem_of_cons in Hj as [Hj1 Hj2]. rewrite Hget by done. cbn.
      unfold hm_get. cbn. by rewrite bool_decide_eq_false_2 by congruence.
    - intros p [->|Hp]%elem_of_cons; [|by apply Hall]. cbn. rewrite Hget by done. unfold hm_get. cbn.
      rewrite bool_decide_eq_true_2 by done. by eexists. }
  intros Hn E. destruct (Hgen _ _ _ _ _ E Hn) as (-> & _ & Hall). by split.
Qed.

Context `{!WalletLaws}.

Lemma change_key_inj p q : change_key p = change_key q -> p.1.1 = q.1.1.
Proof. intros E%to_key_inj. by apply id_bytes_inj. Qed.

Lemma save_changes_Ok parent h log_id commits l acc w acc' w' :
  foldS (save_change parent h log_id commits) acc l w = (Ok acc', w') ->
  (exists m, pending w' = set_db_outputs m (pending w))
  /\ wa_files w' = wa_files w
  /\ (keyed (pending w) -> keyed (pending w'))
  /\ (forall k, k ∉ change_key <$> l -> db_outputs (pending w') !! k = db_outputs (pending w) !! k)
  /\ (forall p c v, p ∈ l -> hm_get p.1.1 commits = Some (c, v) ->
        db_outputs (pending w') !! change_key p = Some (fresh_output parent p.1.1 c v h log_id))
  /\ acc'.1 = acc.1 + Z.of_nat (length l).
Proof.
  revert acc w. induction l as [|p l IH]; intros acc w E; cbn [foldS] in E.
  { st_inv. split_and!; [by exists (db_outputs (pending w)); destruct (pending w)|done..| |lia]. by intros p c v ?%elem_of_nil. }
  apply ST_bind_Ok in E as (acc1 & w1 & E1 & E2). apply IH in E2 as ((m & Hm) & Hf & Hk & Ho & Hn & Hc).
  unfold save_change in E1. st_inv. destruct x as [c v]. st_inv. unfold save in *.
  match goal with H : batch_update _ _ = _ |- _ => apply batch_update_Ok in H as (_ & _ & Hp & _ & Hf1) end.
  rewrite Hp in *. cbn in *. split_and!.
  - eexists. by rewrite Hm.
  - congruence.
  - intros Hd. apply Hk. by apply (keyed_save _ (fresh_output _ _ _ _ _ _)).
  - intros k Hin. apply not_elem_of_cons in Hin as [Hin1 Hin2]. rewrite Ho by done. by rewrite lookup_insert_ne.
  - intros q c' v' Hq Hg. destruct (decide (change_key q ∈ change_key <$> l)) as [Hin|Hin].
    + apply list_elem_of_fmap in Hin as (q' & Eq & Hin). rewrite Eq. apply change_key_inj in Eq. rewrite Eq in *. auto.
    + rewrite Ho by done. apply elem_of_cons in Hq as [->|Hq].
      * unfold change_key. rewrite lookup_insert_eq. congruence.
      * exfalso. by apply Hin, list_elem_of_fmap_2.
  - lia.
Qed.

(** A locked coin is not spendable. *)
Lemma locked_not_spendable cur mc log_id o : ~ spendable cur mc (locked_by log_id o).
Proof. unfold spendable. cbn. naive_solver. Qed.

(** The next number of the log of an account. *)
Definition next_log_id d (i : Identifier) : Z := default 0 (db_tx_log_ids d !! to_key TX_LOG_ID_PREFIX (id_to_bytes i)).

Lemma next_tx_log_id_Ok i w id w' :
  next_tx_log_id i w = (Ok id, w') ->
  id = next_log_id (pending w) i /\ wa_files w' = wa_files w
  /\ exists m, pending w' = set_db_tx_log_ids m (pending w).
Proof.
  unfold next_tx_log_id, batch_db. intros E. st_inv.
  match goal with H : batch_update _ _ = _ |- _ => apply batch_update_Ok in H as (_ & _ & Hp & _ & Hf) end.
  rewrite Hp. unfold pending in *. unfold next_log_id. batch_inv. cbn in *. split_and!; [done..|by eexists].
Qed.

(** What the batch leaves: the coins locked, the change there, the entry in the log. *)
Definition lock_effect slate h context d d' : Prop :=
  let parent := ctx_parent_key_id context in let log := next_log_id d parent in
  (forall p, p ∈ ctx_input_ids context -> input_key p ∉ change_key <$> ctx_output_ids context ->
     exists o, db_outputs d !! input_key p = Some o /\ db_outputs d' !! input_key p = Some (locked_by log o))
  /\ (forall p, p ∈ ctx_output_ids context ->
        exists c, db_outputs d' !! change_key p = Some (fresh_output parent p.1.1 c p.2 h log))
  /\ (forall k, k ∉ input_key <$> ctx_input_ids context -> k ∉ change_key <$> ctx_output_ids context ->
        db_outputs d' !! k = db_outputs d !! k)
  /\ (exists t, db_tx_log d' = <[to_key_u64 TX_LOG_ENTRY_PREFIX (id_to_bytes parent) log := t]> (db_tx_log d)
        /\ tl_id t = log /\ tl_parent_key_id t = parent /\ tl_tx_type t = TxSent /\ tl_confirmed t = false
        /\ tl_tx_slate_id t = Some (sl_id slate)
        /\ tl_stored_tx t = Some (tx_file (uuid_to_string (sl_id slate)))
        /\ tl_num_outputs t = Z.of_nat (length (ctx_output_ids context))
        /\ exists vs, input_values d (ctx_input_ids context) vs /\ res_fold u64_add 0 vs = Ok (tl_amount_debited t)).

Lemma lock_batch_Ok k slate h context ov commits w r w' :
  lock_batch k slate h context ov commits w = (Ok r, w') -> keyed (pending w) ->
  (forall p, p ∈ ctx_output_ids context -> exists c, hm_get p.1.1 commits = Some (c, p.2)) ->
  r = Some (sl_id slate) /\ lock_effect slate h context (pending w) (wa_db w') /\ keyed (wa_db w').
Proof.
  intros E Hk Hc. unfold lock_batch in E.
  apply ST_bind_Ok in E as (log & w1 & E1 & E). apply next_tx_log_id_Ok in E1 as (-> & _ & m1 & P1).
  apply ST_bind_Ok in E as (now & w2 & E2 & E). apply drawn_Ok in E2 as (P2 & _ & _ & _).
  apply ST_bind_Ok in E as (ex & w3 & E3 & E). apply liftS_Ok in E3 as [_ ->].
  apply ST_bind_Ok in E as (debited & w4 & E4 & E).
  assert (Hk2 : keyed (pending w2)) by (rewrite P2, P1; exact Hk).
  apply lock_inputs_Ok in E4 as ((P4 & L4 & I4) & Hk4 & _ & vs & Hvs & Hd); [|done].
  apply ST_bind_Ok in E as (proof & w5 & E5 & E). apply liftS_Ok in E5 as [_ ->].
  apply ST_bind_Ok in E as ([n cr] & w6 & E6 & E).
  apply save_changes_Ok in E6 as ((m6 & P6) & _ & Hk6 & O6 & N6 & C6). cbn in C6.
  apply ST_bind_Ok in E as (u & w7 & E7 & E). apply batch_update_Ok in E7 as (_ & _ & P7 & _ & _).
  apply ST_bind_Ok in E as (u' & w8 & E8 & E). apply commit_Ok in E8 as (_ & D8 & _).
  apply mretS_Ok in E as [-> ->]. rewrite D8, P7. split; [done|].
  assert (O2 : db_outputs (pending w2) = db_outputs (pending w)) by (by rewrite P2, P1).
  split; [|exact (Hk6 Hk4)]. unfold lock_effect. cbn [db_outputs db_tx_log set_db_tx_log]. split_and!.
  - intros p Hp Hnc. rewrite O6, L4 by done. rewrite bool_decide_eq_true_2 by by apply list_elem_of_fmap_2.
    destruct (I4 (input_key p)) as [o Ho]; [by apply list_elem_of_fmap_2|]. exists o. rewrite Ho. by rewrite <- O2.
  - intros p Hp. destruct (Hc p Hp) as [c Hg]. exists c. by apply N6.
  - intros key Hi Ho. by rewrite O6, L4, bool_decide_eq_false_2, O2.
  - eexists. rewrite P6, P4, P2, P1. cbn. split_and!; [reflexivity..|cbn; lia|].
    exists vs. split; [|done]. unfold input_values in *. by rewrite <- O2.
Qed.

(** The file of a transaction holds its bytes, in hexadecimal. *)
Definition file_holds w (id : Uuid) (tx : option Transaction) : Prop :=
  exists t bytes, tx = Some t /\ tx_ser_vec t = Ok bytes
    /\ wa_files w !! tx_file (uuid_to_string id) = Some (hex_encode bytes).

Lemma lock_tx_context_Ok mask slate h context ov w w' :
  lock_tx_context mask slate h context ov w = (Ok tt, w') ->
  keyed (wa_db w) -> NoDup ((fun p => p.1.1) <$> ctx_output_ids context) ->
  lock_effect slate h context (wa_db w) (wa_db w')
  /\ file_holds w' (sl_id slate) (sl_tx slate)
  /\ keyed (wa_db w').
Proof.
  intros E Hk Hn. unfold lock_tx_context in E. apply ST_bind_Ok in E as ([commits total] & w0 & E0 & E).
  apply change_commits_get in E0 as [-> Hcs]; [|done].
  apply ST_bind_Ok in E as (k & w1 & E1 & E). apply keychain_Ok in E1 as ->.
  apply ST_bind_Ok in E as (id & w2 & E2 & E). apply with_batch_Ok in E2 as (k' & w3 & _ & E3 & ->).
  apply lock_batch_Ok in E3 as (-> & He & Hk3); [|done..].
  apply ST_bind_Ok in E as (id & w4 & E4 & E). apply liftS_Ok in E4 as [[= <-] ->].
  apply ST_bind_Ok in E as (tx & w5 & E5 & E). apply liftS_Ok in E5 as [E5 ->].
  apply store_tx_Ok in E as (bytes & Eb & ->). unfold tx_or_err in E5.
  split_and!; [exact He| |exact Hk3].
  exists tx, bytes. destruct (sl_tx slate); [injection E5 as ->|done]. cbn. by rewrite lookup_insert_eq.
Qed.

(** C27: Locking the coins of a payment.  When it succeeds, every input of the context
    was in the wallet and is now locked under the new entry of the log, so that no
    further payment can choose it; every change output is there, unconfirmed and with the
    value it has in the context; no other output has changed; the log has one new
    entry, a payment sent and not confirmed, with what was debited and the name of the
    file; and the content of that file is the transaction of the slate, serialised. *)
Theorem lock_tx_context_effect mask slate h context ov w w' :
  lock_tx_context mask slate h context ov w = (Ok tt, w') ->
  keyed (wa_db w) -> NoDup ((fun p => p.1.1) <$> ctx_output_ids context) ->
  lock_effect slate h context (wa_db w) (wa_db w')
  /\ (forall o log cur mc, ~ spendable cur mc (locked_by log o))
  /\ file_holds w' (sl_id slate) (sl_tx slate)
  /\ keyed (wa_db w').
Proof.
  intros E Hk Hn. destruct (lock_tx_context_Ok _ _ _ _ _ _ _ E Hk Hn) as (He & Hf & Hk').
  by split_and!; [|intros; apply locked_not_spendable| |].
Qed.
End locking.
