(* ===== verification/Updater.v ===== *)
(** * internal/updater.rs: the wallet and the chain

    What the wallet holds, what the node says about it, and how the one is brought
    into line with the other; cancelling; the summary of the funds.  Every answer of
    the node is a parameter that also gets a number from the tape, so that it may
    differ from call to call. *)
From S2P Require Import Prelude.
From S2P Require Import RustStd.
From S2P Require Import Crates.
From S2P Require Import Effects.
From S2P Require Import Slate.
From S2P Require Import SlateV4.
From S2P Require Import SlateBin.
From S2P Require Import StateM.
From S2P Require Import Wallet.
From S2P Require Import Address.
From S2P Require Import Selection.
From stdpp Require Import sorting.
#[local] Open Scope Z_scope.

(** [trait NodeClient] (types.rs), and what building a coinbase takes from
    [grin_core]. *)
Class NodeClient `{GrinTypes} := {
  nc_get_chain_tip : Z -> Res (Z * string);
  nc_get_outputs_from_node : Z -> list Commitment -> Res (list (Commitment * (string * Z * Z)));
  nc_get_kernel : Z -> Commitment -> option Z -> option Z -> Res (option (TxKernel * Z * Z));
  nc_post_tx : Z -> Transaction -> bool -> Res unit;
  nc_valid_header_version : Z -> Z -> bool;       (* consensus::valid_header_version *)
  coinbase_maturity : Z;
  block_reward : Z -> Z;                          (* consensus::reward *)
  reward_output : Identifier -> Z -> bool -> Res (Output * TxKernel);
}.

(** api_impl/types.rs *)
Section data.
Context `{GrinTypes}.
Record OutputCommitMapping := mkOutputCommitMapping { ocm_output : OutputData; ocm_commit : Commitment }.
Record BlockFees := mkBlockFees { bf_fees : Z; bf_height : Z; bf_key_id : option Identifier }.
Record CbData := mkCbData { cb_output : Output; cb_kernel : TxKernel; cb_key_id : option Identifier }.
End data.

Section code.
Context `{BuildProfile, GC : GrinCrates, !BinCrates, !WalletCrates, !AddressCrates, !HexCrate, !NodeClient}.

(** A value of the outputs map: key, index, log entry, and whether it was unspent. *)
Definition WalletOutput : Type := Identifier * option Z * option Z * bool.
Definition WalletOutputs : Type := list (Commitment * WalletOutput).
Definition ApiOutputs : Type := list (Commitment * (string * Z * Z)).

(** [HashMap<Commitment, _>]: the entries in some order. *)
Definition map_get {V} (c : Commitment) (m : list (Commitment * V)) : option V :=
  snd <$> find (fun p => bool_decide (p.1 = c)) m.
Definition map_insert {V} (c : Commitment) (v : V) (m : list (Commitment * V)) : list (Commitment * V) :=
  (c, v) :: filter (fun p => p.1 <> c) m.

(** The node is asked. *)
Definition get_chain_tip : W (Z * string) := n ← drawn draw; liftS (nc_get_chain_tip n).

(** ** Reading *)
Definition has_status (st : OutputStatus) (o : OutputData) : bool := bool_decide (od_status o = st).

Definition output_commit (k : Keychain) (output : OutputData) : Res Commitment :=
  match od_commit output with
  | Some c => b ← unwrap_opt (hex_decode c); Ok (commit_from_vec b)
  | None => unwrap (kc_commit k (od_value output) (od_key_id output))
  end.

Definition retrieve_outputs (mask : option SecretKey) (show_spent : bool) (tx_id : option Z)
    (parent : option Identifier) : W (list OutputCommitMapping) :=
  outs ← wallet_iter;
  let outputs := filter (fun o => show_spent || negb (has_status Spent o) = true) outs in
  let outputs := match tx_id with
                 | Some id => filter (fun o => od_tx_log_entry o = Some id) outputs
                 | None => outputs
                 end in
  let outputs := match parent with
                 | Some k => filter (fun o => od_root_key_id o = k) outputs
                 | None => outputs
                 end in
  let outputs := sort_by_key od_n_child outputs in
  k ← keychain mask;
  liftS (res_map (fun output => c ← output_commit k output; Ok (mkOutputCommitMapping output c)) outputs).

Definition is_outstanding (t : TxLogEntry) : bool :=
  negb (tl_confirmed t)
  && (bool_decide (tl_tx_type t = TxReceived) || bool_decide (tl_tx_type t = TxSent)
      || bool_decide (tl_tx_type t = TxReverted)).

Definition tx_filter (tx_id : option Z) (tx_slate_id : option Uuid) (parent : option Identifier)
    (outstanding_only : bool) (t : TxLogEntry) : bool :=
  match parent with Some k => bool_decide (tl_parent_key_id t = k) | None => true end
  && match tx_id with Some i => tl_id t =? i | None => true end
  && match tx_slate_id with Some u => bool_decide (tl_tx_slate_id t = Some u) | None => true end
  && (if outstanding_only then is_outstanding t else true).

Definition retrieve_txs (tx_id : option Z) (tx_slate_id : option Uuid) (parent : option Identifier)
    (outstanding_only : bool) : W (list TxLogEntry) :=
  entries ← tx_log_iter;
  mret (sort_by_key tl_creation_ts (filter (fun t => tx_filter tx_id tx_slate_id parent outstanding_only t = true) entries)).

(** ** The outputs to ask the node for *)
Definition in_outstanding (tx_entries : list TxLogEntry) (x : OutputData) : bool :=
  match od_tx_log_entry x with
  | Some t => existsb (fun te => tl_id te =? t) tx_entries
  | None => true
  end.

Definition map_wallet_outputs (mask : option SecretKey) (parent : Identifier) (update_all : bool) : W WalletOutputs :=
  k ← keychain mask;
  outs ← wallet_iter;
  let unspents := filter (fun x => od_root_key_id x = parent /\ od_status x <> Spent) outs in
  tx_entries ← retrieve_txs None None (Some parent) true;
  let unspents := if update_all then unspents else filter (fun x => in_outstanding tx_entries x = true) unspents in
  liftS (res_fold (fun m out =>
    c ← output_commit k out;
    Ok (map_insert c (od_key_id out, od_mmr_index out, od_tx_log_entry out, has_status Unspent out) m)) [] unspents).

(** ** Cancelling *)
Definition cancel_output (o : OutputData) : W unit :=
  _ ← whenS (has_status Unconfirmed o || has_status Reverted o) (batch_delete (od_key_id o) (od_mmr_index o));
  whenS (has_status Locked o) (save (set_od_status Unspent o)).

Definition cancelled_type (ty : TxLogEntryType) : TxLogEntryType :=
  match ty with
  | TxSent => TxSentCancelled
  | TxReceived | TxReverted => TxReceivedCancelled
  | _ => ty
  end.

Definition cancel_tx_and_outputs (mask : option SecretKey) (tx : TxLogEntry) (outputs : list OutputData)
    (parent : Identifier) : W unit :=
  with_batch mask (
    _ ← foreachS cancel_output outputs;
    _ ← save_tx_log_entry (set_tl_type (cancelled_type (tl_tx_type tx)) tx) parent;
    commit).

(** ** What the node says *)

(** A coinbase output that is confirmed gets an entry in the log. *)
Definition log_coinbase (c : Commitment) (parent : Identifier) (height : Z) (output : OutputData) : W OutputData :=
  log_id ← next_tx_log_id parent;
  created ← utc_now;
  over_commit ← liftS (secp_commit_value (od_value output));
  excess ← liftS (ok_or "Secp" (secp_commit_sum [c] [over_commit]));
  now ← utc_now;
  let t := {|
    tl_parent_key_id := parent; tl_id := log_id; tl_tx_slate_id := None;
    tl_tx_type := ConfirmedCoinbase; tl_creation_ts := created; tl_confirmation_ts := Some now;
    tl_confirmed := true; tl_num_inputs := 0; tl_num_outputs := 1;
    tl_amount_credited := od_value output; tl_amount_debited := 0;
    tl_fee := None; tl_ttl_cutoff_height := None; tl_stored_tx := None; tl_kernel_excess := Some excess;
    tl_kernel_lookup_min_height := Some height; tl_payment_proof := None; tl_reverted_after := None |} in
  _ ← save_tx_log_entry t parent;
  mret (set_od_tx_log_entry (Some log_id) output).

(** The payment of an output that is confirmed is confirmed. *)
Definition confirm_tx (parent : Identifier) (output : OutputData) : W unit :=
  entries ← batch_tx_log_iter;
  match find (fun t => bool_decide (Some (tl_id t) = od_tx_log_entry output)
                       && bool_decide (tl_parent_key_id t = parent)) entries with
  | Some t =>
      let t := if bool_decide (tl_tx_type t = TxReverted)
               then set_tl_reverted_after None (set_tl_type TxReceived t) else t in
      now ← utc_now;
      save_tx_log_entry (set_tl_confirmed true (update_confirmation_ts now t)) parent
  | None => mret tt
  end.

Definition is_reverted (reverted_kernels : list Z) (output : OutputData) : bool :=
  negb (od_is_coinbase output)
  && match od_tx_log_entry output with Some i => bool_decide (i ∈ reverted_kernels) | None => false end.

Definition apply_output (api_outputs : ApiOutputs) (reverted_kernels : list Z) (height : Z) (parent : Identifier)
    (p : Commitment * WalletOutput) : W unit :=
  let '(c, (id, mmr_index, _, _)) := p in
  found ← tryS (batch_get id mmr_index);
  match found with
  | None => mret tt
  | Some output =>
      output ← match map_get c api_outputs with
        | Some o =>
            output ← (if od_is_coinbase output && has_status Unconfirmed output
                      then log_coinbase c parent height output else mret output);
            _ ← whenS (negb (od_is_coinbase output) && (has_status Unconfirmed output || has_status Reverted output))
                  (confirm_tx parent output);
            mret (mark_unspent (set_od_height o.1.2 output))
        | None => mret (if is_reverted reverted_kernels output then mark_reverted output else mark_spent output)
        end;
      save output
  end.

(** [(now - t).to_std().ok()] *)
Definition to_std (d : Z) : option Z := if 0 <=? d then Some d else None.
Definition revert_tx (reverted_kernels : list Z) (parent : Identifier) (tx : TxLogEntry) : W unit :=
  if bool_decide (tl_id tx ∈ reverted_kernels) && bool_decide (tl_parent_key_id tx = parent) then
    after ← match tl_confirmation_ts tx with
            | Some t => now ← utc_now; mret (to_std (now - t))
            | None => mret None
            end;
    save_tx_log_entry (set_tl_confirmed false (set_tl_reverted_after after (set_tl_type TxReverted tx))) parent
  else mret tt.

Definition apply_api_outputs (mask : option SecretKey) (wallet_outputs : WalletOutputs) (api_outputs : ApiOutputs)
    (reverted_kernels : list Z) (height : Z) (parent : Identifier) : W unit :=
  last ← last_confirmed_height;
  if height <? last then mret tt
  else with_batch mask (
    _ ← foreachS (apply_output api_outputs reverted_kernels height parent) wallet_outputs;
    entries ← batch_tx_log_iter;
    _ ← foreachS (revert_tx reverted_kernels parent) entries;
    _ ← save_last_confirmed_height parent height;
    commit).

Definition disappeared (api_outputs : ApiOutputs) (p : Commitment * WalletOutput) : option Z :=
  let '(c, (_, _, tx_id, was_unspent)) := p in
  match tx_id with
  | Some i => if was_unspent && match map_get c api_outputs with Some _ => false | None => true end
              then Some i else None
  | None => None
  end.

Definition find_reverted_kernels (wallet_outputs : WalletOutputs) (api_outputs : ApiOutputs) (parent : Identifier) :
    W (list Z) :=
  let ids := omap (disappeared api_outputs) wallet_outputs in
  entries ← tx_log_iter;
  let kernels := omap (fun t => e ← tl_kernel_excess t; Some (tl_id t, e, tl_kernel_lookup_min_height t))
    (filter (fun t => tl_id t ∈ ids /\ tl_parent_key_id t = parent /\ tl_tx_type t = TxReceived) entries) in
  foldS (fun reverted k =>
    let '(id, excess, min_height) := k in
    n ← drawn draw;
    found ← liftS (nc_get_kernel n excess min_height None);
    mret (match found with None => id :: reverted | Some _ => reverted end)) [] kernels.

Definition old_unconfirmed (height : Z) (out : OutputData) : Res bool :=
  if has_status Unconfirmed out && (0 <? od_height out) then
    h ← u64_sub height 50; Ok ((od_height out <? h) && od_is_coinbase out)
  else Ok false.

Definition clean_old_unconfirmed (mask : option SecretKey) (height : Z) : W unit :=
  if height <? 50 then mret tt
  else
    outs ← wallet_iter;
    ids_to_del ← liftS (res_filter (old_unconfirmed height) outs);
    with_batch mask (
      _ ← foreachS (fun o => batch_delete (od_key_id o) None) ids_to_del;
      commit).

Definition refresh_output_state (mask : option SecretKey) (height : Z) (parent : Identifier) (update_all : bool) :
    W unit :=
  wallet_outputs ← map_wallet_outputs mask parent update_all;
  n ← drawn draw;
  api_outputs ← liftS (nc_get_outputs_from_node n (fst <$> wallet_outputs));
  reverted_kernels ← find_reverted_kernels wallet_outputs api_outputs parent;
  _ ← apply_api_outputs mask wallet_outputs api_outputs reverted_kernels height parent;
  clean_old_unconfirmed mask height.

Definition refresh_outputs (mask : option SecretKey) (parent : Identifier) (update_all : bool) : W unit :=
  tip ← get_chain_tip;
  refresh_output_state mask tip.1 parent update_all.

(** ** The summary of the funds *)
Record Totals := mkTotals {
  to_unspent : Z; to_immature : Z; to_awaiting : Z; to_unconfirmed : Z; to_locked : Z; to_reverted : Z }.

Definition count_output (current_height minimum_confirmations : Z) (t : Totals) (out : OutputData) : Res Totals :=
  let '(mkTotals un im aw uc lo re) := t in
  let v := od_value out in
  match od_status out with
  | Unspent =>
      if od_is_coinbase out && (current_height <? od_lock_height out)
      then im ← u64_add im v; Ok (mkTotals un im aw uc lo re)
      else
        n ← num_confirmations out current_height;
        if n <? minimum_confirmations then uc ← u64_add uc v; Ok (mkTotals un im aw uc lo re)
        else un ← u64_add un v; Ok (mkTotals un im aw uc lo re)
  | Unconfirmed =>
      if od_is_coinbase out then Ok t
      else if minimum_confirmations =? 0 then uc ← u64_add uc v; Ok (mkTotals un im aw uc lo re)
      else aw ← u64_add aw v; Ok (mkTotals un im aw uc lo re)
  | Locked => lo ← u64_add lo v; Ok (mkTotals un im aw uc lo re)
  | Reverted => re ← u64_add re v; Ok (mkTotals un im aw uc lo re)
  | Spent => Ok t
  end.

Definition info_of (current_height minimum_confirmations : Z) (t : Totals) : Res WalletInfo :=
  s ← u64_add (to_unspent t) (to_unconfirmed t);
  total ← u64_add s (to_immature t);
  Ok {| wi_last_confirmed_height := current_height; wi_minimum_confirmations := minimum_confirmations;
        wi_total := total; wi_amount_awaiting_finalization := to_awaiting t;
        wi_amount_awaiting_confirmation := to_unconfirmed t; wi_amount_immature := to_immature t;
        wi_amount_locked := to_locked t; wi_amount_currently_spendable := to_unspent t;
        wi_amount_reverted := to_reverted t |}.

Definition retrieve_info (parent : Identifier) (minimum_confirmations : Z) : W WalletInfo :=
  current_height ← last_confirmed_height;
  outs ← wallet_iter;
  let outputs := filter (fun out => od_root_key_id out = parent) outs in
  t ← liftS (res_fold (count_output current_height minimum_confirmations) (mkTotals 0 0 0 0 0 0) outputs);
  liftS (info_of current_height minimum_confirmations t).

(** ** Coinbase *)
Definition coinbase_key (mask : option SecretKey) (key_id : option Identifier) : W Identifier :=
  match key_id with
  | Some key_id =>
      existing ← tryS (retrieve_existing_key key_id None);
      match existing with
      | Some k => mret k.1
      | None => next_available_key mask
      end
  | None => next_available_key mask
  end.

Definition receive_coinbase (mask : option SecretKey) (block_fees : BlockFees) (test_mode : bool) :
    W (Output * TxKernel * BlockFees) :=
  let height := bf_height block_fees in
  lock_height ← liftS (u64_add height coinbase_maturity);
  parent ← parent_key_id;
  key_id ← coinbase_key mask (bf_key_id block_fees);
  let amount := block_reward (bf_fees block_fees) in
  commit_str ← calc_commit_for_cache mask amount key_id;
  _ ← with_batch mask (
    _ ← save {| od_root_key_id := parent; od_key_id := key_id; od_n_child := last_path_index (id_to_path key_id);
                od_mmr_index := None; od_commit := commit_str; od_value := amount; od_status := Unconfirmed;
                od_height := height; od_lock_height := lock_height; od_is_coinbase := true;
                od_tx_log_entry := None |};
    commit);
  _ ← keychain mask;
  '(out, kern) ← liftS (reward_output key_id (bf_fees block_fees) test_mode);
  mret (out, kern, mkBlockFees (bf_fees block_fees) height (Some key_id)).

Definition build_coinbase (mask : option SecretKey) (block_fees : BlockFees) (test_mode : bool) : W CbData :=
  '(out, kern, block_fees) ← receive_coinbase mask block_fees test_mode;
  mret (mkCbData out kern (bf_key_id block_fees)).
End code.

(** ** Lemmas: cancelling *)
Section cancelling.
Context `{BuildProfile, GC : GrinCrates, !BinCrates, !WalletCrates, !AddressCrates, !HexCrate, !NodeClient}.
Implicit Types (w : Wallet) (d : Db) (o : OutputData).

Definition own_key o : string := output_key (od_key_id o) (od_mmr_index o).
#[local] Arguments output_key : simpl never.

(** What cancelling makes of an output. *)
Definition cancelled o : option OutputData :=
  match od_status o with
  | Unconfirmed | Reverted => None
  | Locked => Some (set_od_status Unspent o)
  | _ => Some o
  end.

Lemma cancel_output_Ok o w u w' :
  cancel_output o w = (Ok u, w') -> is_open w -> keyed (pending w) ->
  db_outputs (pending w) !! own_key o = Some o ->
  is_open w' /\ keyed (pending w') /\ (exists m, pending w' = set_db_outputs m (pending w))
  /\ db_outputs (pending w') !! own_key o = cancelled o
  /\ (forall k, k <> own_key o -> db_outputs (pending w') !! k = db_outputs (pending w) !! k)
  /\ wa_files w' = wa_files w.
Proof.
  intros E Hw Hk Ho. unfold cancel_output in E. unfold cancelled, has_status, own_key in *.
  destruct (od_status o) eqn:Es; cbn -[batch_delete save] in E; apply ST_bind_Ok in E as (u1 & w1 & E1 & E);
    first [apply mretS_Ok in E1 as [-> ->]|apply batch_update_Ok in E1 as (_ & Hw1 & P & _ & F)];
    first [apply mretS_Ok in E as [-> ->]|apply batch_update_Ok in E as (_ & Hw1 & P & _ & F)];
    try (split_and!; [done|done|by exists (db_outputs (pending w)); destruct (pending w)|done..]).
  all: rewrite P; cbn; split_and!; [done| |by eexists| | |done].
  all: try (by apply keyed_delete); try (by apply (keyed_save _ (set_od_status Unspent o)));
    try (by apply lookup_delete_eq); try (by apply lookup_insert_eq);
    intros k Hne; (by apply lookup_delete_ne) || (by apply lookup_insert_ne).
Qed.

Lemma cancel_outputs_Ok l w u w' :
  foreachS cancel_output l w = (Ok u, w') -> is_open w -> keyed (pending w) -> NoDup (own_key <$> l) ->
  (forall o, o ∈ l -> db_outputs (pending w) !! own_key o = Some o) ->
  keyed (pending w') /\ (exists m, pending w' = set_db_outputs m (pending w))
  /\ (forall o, o ∈ l -> db_outputs (pending w') !! own_key o = cancelled o)
  /\ (forall k, k ∉ own_key <$> l -> db_outputs (pending w') !! k = db_outputs (pending w) !! k)
  /\ wa_files w' = wa_files w.
Proof.
  revert w. induction l as [|o l IH]; intros w E Hw Hk Hn Hl; cbn [foreachS] in E.
  { st_inv. split_and!; [done|by exists (db_outputs (pending w)); destruct (pending w)| |done..]. by intros o ?%elem_of_nil. }
  apply ST_bind_Ok in E as (u1 & w1 & E1 & E2). cbn in Hn. apply NoDup_cons in Hn as [Hno Hn].
  apply cancel_output_Ok in E1 as (Hw1 & Hk1 & (m1 & M1) & O1 & R1 & F1); [|done|done|by apply Hl; left].
  assert (Hne : forall q, q ∈ l -> own_key q <> own_key o).
  { intros q Hq Eq. apply Hno. rewrite <- Eq. by apply list_elem_of_fmap_2. }
  apply IH in E2 as (Hk2 & (m2 & M2) & O2 & R2 & F2); [|done..|].
  2:{ intros q Hq. rewrite R1 by by apply Hne. by apply Hl; right. }
  split_and!; [done|eexists; by rewrite M2, M1| | |congruence].
  - intros q [->|Hq]%elem_of_cons; [|by apply O2]. by rewrite R2.
  - intros k Hin. apply not_elem_of_cons in Hin as [H1' H2']. by rewrite R2, R1.
Qed.

(** The outputs of a transaction, as the wallet finds them. *)
Lemma db_iter_own_keys d : keyed d -> own_key <$> db_iter (db_outputs d) ≡ₚ (map_to_list (db_outputs d)).*1.
Proof.
  intros Hk. rewrite db_iter_perm. unfold list_fmap. rewrite <- list_fmap_compose.
  assert (E : forall l, Forall (fun p => p.1 = own_key p.2) l -> (own_key ∘ snd) <$> l = l.*1).
  { induction 1 as [|p l Hp _ IHl]; [done|]. cbn. by f_equal. }
  rewrite E; [done|]. apply Forall_forall. intros [k o] Hin%elem_of_map_to_list. by apply Hk in Hin.
Qed.
Lemma db_iter_NoDup d : keyed d -> NoDup (own_key <$> db_iter (db_outputs d)).
Proof. intros Hk. rewrite db_iter_own_keys by done. apply NoDup_fst_map_to_list. Qed.

(** What cancelling entry [log] of account [parent] concerns. *)
Definition involved (log : Z) (parent : Identifier) o : Prop :=
  od_status o <> Spent /\ od_tx_log_entry o = Some log /\ od_root_key_id o = parent.
#[global] Instance involved_dec log parent o : Decision (involved log parent o).
Proof. unfold involved. apply _. Defined.

Lemma output_commits_Ok k l r :
  res_map (fun output => c ← output_commit k output; Ok (mkOutputCommitMapping output c)) l = Ok r ->
  ocm_output <$> r = l.
Proof.
  rewrite res_map_Ok. induction 1 as [|o m l r E _ IH]; cbn; [done|].
  apply res_bind_Ok in E as (c & _ & [= <-]). by rewrite IH.
Qed.

Lemma retrieve_outputs_Ok mask log parent w r w' :
  retrieve_outputs mask false (Some log) (Some parent) w = (Ok r, w') ->
  w' = w /\ exists l, ocm_output <$> r = l /\ l ⊆+ db_iter (db_outputs (wa_db w))
  /\ forall o, o ∈ l <-> o ∈ db_iter (db_outputs (wa_db w)) /\ involved log parent o.
Proof.
  unfold retrieve_outputs. intros E.
  apply ST_bind_Ok in E as (outs & w1 & E1 & E). apply getS_Ok in E1 as [-> ->].
  apply ST_bind_Ok in E as (k & w2 & E2 & E). apply keychain_Ok in E2 as ->.
  apply liftS_Ok in E as [E ->]. apply output_commits_Ok in E. split; [done|].
  eexists. split; [exact E|]. split.
  - rewrite sort_by_key_perm. apply sublist_submseteq.
    do 2 (etrans; [apply sublist_filter|]). apply sublist_filter.
  - intros o. rewrite sort_by_key_perm, !list_elem_of_filter. unfold involved, has_status. cbn.
    rewrite negb_true_iff, bool_decide_eq_false. naive_solver.
Qed.

(** The wallet after entry [log] is cancelled. *)
Definition cancel_effect (parent : Identifier) (tx : TxLogEntry) d d' : Prop :=
  (forall k, db_outputs d' !! k
     = db_outputs d !! k ≫= fun o => if decide (involved (tl_id tx) parent o) then cancelled o else Some o)
  /\ db_tx_log d' = <[to_key_u64 TX_LOG_ENTRY_PREFIX (id_to_bytes parent) (tl_id tx)
                      := set_tl_type (cancelled_type (tl_tx_type tx)) tx]> (db_tx_log d)
  /\ d' = set_db_outputs (db_outputs d') (set_db_tx_log (db_tx_log d') d).

Lemma cancel_tx_and_outputs_Ok mask tx l parent w u w' :
  cancel_tx_and_outputs mask tx l parent w = (Ok u, w') -> keyed (wa_db w) ->
  l ⊆+ db_iter (db_outputs (wa_db w)) ->
  (forall o, o ∈ l <-> o ∈ db_iter (db_outputs (wa_db w)) /\ involved (tl_id tx) parent o) ->
  cancel_effect parent tx (wa_db w) (wa_db w') /\ keyed (wa_db w') /\ wa_files w' = wa_files w.
Proof.
  intros E Hk Hs Hl. unfold cancel_tx_and_outputs in E. apply with_batch_Ok in E as (k & w1 & _ & E & ->).
  apply ST_bind_Ok in E as (u1 & w2 & E1 & E).
  assert (Hn : NoDup (own_key <$> l)).
  { apply submseteq_Permutation in Hs as [l2 Hs]. pose proof (db_iter_NoDup _ Hk) as Hn. rewrite Hs, fmap_app in Hn.
    by apply NoDup_app in Hn as [Hn _]. }
  destruct (cancel_outputs_Ok _ _ _ _ E1) as (Hk1 & (m & M) & O & R & F); [by eexists|done|done| |].
  { intros o [[ko Ho]%elem_of_db_iter _]%Hl. cbn. rewrite <- Ho. f_equal. symmetry. by apply (Hk ko). }
  apply ST_bind_Ok in E as (u2 & w3 & E2 & E). apply batch_update_Ok in E2 as (_ & _ & P & _ & F2).
  apply commit_Ok in E as (_ & D & F3). cbn in *. rewrite D, P, F3, F2, F. split_and!; [|exact Hk1|done].
  unfold cancel_effect. cbn. rewrite M in *. cbn in *. split_and!; [|done..]. intros key.
  destruct (db_outputs (wa_db w) !! key) as [o|] eqn:Ho; cbn.
  - assert (Eo : key = own_key o) by by apply (Hk key). case_decide as Hi.
    + rewrite Eo. apply O, Hl. split; [|done]. apply elem_of_db_iter. by exists key.
    + rewrite R; [done|]. intros (q & Eq & [[kq Hq]%elem_of_db_iter Hiq]%Hl)%list_elem_of_fmap.
      pose proof (Hk _ _ Hq) as Ekq. cbn in Ekq. fold (own_key q) in Ekq. congruence.
  - rewrite R; [done|]. intros (q & Eq & [[kq Hq]%elem_of_db_iter Hiq]%Hl)%list_elem_of_fmap.
    pose proof (Hk _ _ Hq) as Ekq. cbn in Ekq. fold (own_key q) in Ekq. congruence.
Qed.
End cancelling.

(** ** Lemmas: bringing the wallet up to date *)
Section refreshing.
Context `{BuildProfile, GC : GrinCrates, !BinCrates, !WalletCrates, !AddressCrates, !HexCrate, !NodeClient}.
Implicit Types (w : Wallet) (d : Db) (o : OutputData) (p : Commitment * WalletOutput) (api : ApiOutputs).
#[local] Arguments output_key : simpl never.

(** A step of an open batch that leaves the outputs alone. *)
Definition log_step w w' : Prop :=
  is_open w' /\ db_outputs (pending w') = db_outputs (pending w) /\ wa_db w' = wa_db w.
Definition logs {A} (m : W A) : Prop := forall w a w', m w = (Ok a, w') -> is_open w -> log_step w w'.

Lemma log_step_trans w1 w2 w3 : log_step w1 w2 -> log_step w2 w3 -> log_step w1 w3.
Proof. intros (O1 & E1 & D1) (O2 & E2 & D2). split_and!; [done|congruence..]. Qed.
Lemma logs_ret {A} (a : A) : logs (mret a).
Proof. intros w b w' [-> ->]%mretS_Ok Ho. done. Qed.
Lemma logs_lift {A} (r : Res A) : logs (liftS r).
Proof. intros w b w' [_ ->]%liftS_Ok Ho. done. Qed.
Lemma logs_bind {A B} (m : W A) (k : A -> W B) : logs m -> (forall a, logs (k a)) -> logs (m ≫= k).
Proof.
  intros Hm Hk w b w' (a & w1 & E1 & E2)%ST_bind_Ok Ho. pose proof (Hm _ _ _ E1 Ho) as S1.
  eapply log_step_trans; [exact S1|]. eapply Hk; [exact E2|apply S1].
Qed.
Lemma logs_when c m : logs m -> logs (whenS c m).
Proof. destruct c; [done|intros _; apply logs_ret]. Qed.
Lemma logs_update f : (forall d, db_outputs (f d) = db_outputs d) -> logs (batch_update f).
Proof. intros Hf w u w' (_ & Ho & P & D & _)%batch_update_Ok _. unfold log_step. by rewrite P, D. Qed.
Lemma logs_utc_now : logs utc_now.
Proof. intros w a w' (P & D & B & _)%drawn_Ok Ho. unfold log_step, is_open. by rewrite P, D, B. Qed.
Lemma logs_batch_db : logs batch_db.
Proof. intros w a w' E Ho. unfold batch_db in E. st_inv. done. Qed.
Lemma logs_tx_iter : logs batch_tx_log_iter.
Proof. intros w a w' E Ho. unfold batch_tx_log_iter, iter_db, batch_db in E. st_inv. done. Qed.
Lemma logs_next_tx_log_id i : logs (next_tx_log_id i).
Proof.
  apply logs_bind; [apply logs_batch_db|]. intros d. apply logs_bind; [apply logs_lift|]. intros n.
  apply logs_bind; [by apply logs_update|]. intros u. apply logs_ret.
Qed.
Lemma logs_save_tx t i : logs (save_tx_log_entry t i).
Proof. by apply logs_update. Qed.
#[local] Hint Resolve logs_ret logs_lift logs_bind logs_when logs_utc_now logs_tx_iter logs_next_tx_log_id
  logs_save_tx : core.

Lemma logs_log_coinbase c parent h o : logs (log_coinbase c parent h o).
Proof. unfold log_coinbase. auto 20. Qed.
Lemma logs_confirm_tx parent o : logs (confirm_tx parent o).
Proof. unfold confirm_tx. apply logs_bind; [done|]. intros l. destruct (find _ l); auto 10. Qed.
Lemma logs_revert_tx rev parent t : logs (revert_tx rev parent t).
Proof.
  unfold revert_tx. destruct (_ && _); [|done]. apply logs_bind; [|auto]. destruct (tl_confirmation_ts t); auto.
Qed.
Lemma logs_foreach {A} (f : A -> W unit) l : (forall a, logs (f a)) -> logs (foreachS f l).
Proof. intros Hf. induction l as [|a l IH]; cbn; auto. Qed.

(** ** What the node's answer makes of an output

    All but the log entry, which a confirmed coinbase gets anew. *)
Definition refreshed api (reverted : list Z) (c : Commitment) o : OutputData :=
  match map_get c api with
  | Some a => mark_unspent (set_od_height a.1.2 o)
  | None => if is_reverted reverted o then mark_reverted o else mark_spent o
  end.
(** Equal but for the log entry. *)
Definition same_but_log o o' : Prop := set_od_tx_log_entry None o = set_od_tx_log_entry None o'.

Definition found_at p : string := output_key p.2.1.1.1 p.2.1.1.2.

Lemma same_but_log_refl o : same_but_log o o.
Proof. done. Qed.
Lemma mark_unspent_key o : own_key (mark_unspent o) = own_key o.
Proof. unfold mark_unspent. by destruct (od_status o). Qed.
Lemma refreshed_key api rev c o : own_key (refreshed api rev c o) = own_key o.
Proof.
  unfold refreshed, mark_unspent, mark_spent, mark_reverted. destruct (map_get c api); [|destruct (is_reverted _ _)];
    by destruct (od_status o) eqn:E; cbn; rewrite ?E.
Qed.

Lemma same_but_log_spec api rev c o o' :
  same_but_log (refreshed api rev c o) o' ->
  o' = set_od_tx_log_entry (od_tx_log_entry o') (set_od_status (od_status o') (set_od_height (od_height o') o))
  /\ match map_get c api with
     | Some a => od_height o' = a.1.2
         /\ od_status o' = match od_status o with Unconfirmed | Reverted => Unspent | st => st end
     | None => od_height o' = od_height o
         /\ od_status o' = match od_status o with
             | Locked => if is_reverted rev o then Locked else Spent
             | Unspent => if is_reverted rev o then Reverted else Spent
             | st => st
             end
     end.
Proof.
  unfold same_but_log, refreshed, mark_unspent, mark_spent, mark_reverted.
  destruct o as [? ? ? ? ? ? st ? ? ? ?], o' as [? ? ? ? ? ? st' ? ? ? ?].
  destruct (map_get c api) as [a|]; [|destruct (is_reverted _ _)]; destruct st; cbn;
    by intros [= <- <- <- <- <- <- <- <- <- <-].
Qed.

Lemma apply_output_Ok api rev h parent p w u w' :
  apply_output api rev h parent p w = (Ok u, w') -> is_open w -> keyed (pending w) ->
  is_open w' /\ keyed (pending w') /\ wa_db w' = wa_db w
  /\ (forall k, k <> found_at p -> db_outputs (pending w') !! k = db_outputs (pending w) !! k)
  /\ match db_outputs (pending w) !! found_at p with
     | Some o => exists o', db_outputs (pending w') !! found_at p = Some o' /\ same_but_log (refreshed api rev p.1 o) o'
     | None => db_outputs (pending w') !! found_at p = None
     end.
Proof.
  destruct p as [c [[[id mmr] tx] un]]. unfold apply_output, found_at. cbn [fst snd]. intros E Ho Hk.
  apply ST_bind_Ok in E as ([o|] & w1 & E1 & E).
  2:{ apply tryS_None in E1 as [e E1]. apply mretS_Ok in E as [_ ->].
      pose proof (leaves_batch_get (fun w0 => w0) id mmr w) as Hw. rewrite E1 in Hw. cbn in Hw. subst w1.
      split_and!; [done..|]. destruct (_ !! _) eqn:Eo; [|done]. exfalso.
      unfold batch_get, batch_db, pending, is_open in *. destruct Ho as [[d k] Ho].
      unfold mbind, ST_bind, getS, liftS in E1. rewrite Ho in E1, Eo. cbn in E1, Eo. by rewrite Eo in E1. }
  apply tryS_Some, batch_get_Ok in E1 as (-> & _ & Eo). rewrite Eo.
  assert (Ek : output_key id mmr = own_key o) by (by apply (Hk _ o)).
  apply ST_bind_Ok in E as (o' & w2 & E2 & E). apply batch_update_Ok in E as (_ & Ho' & P & D & _).
  assert (Hs : log_step w w2 /\ same_but_log (refreshed api rev c o) o' /\ own_key o' = own_key o).
  { unfold refreshed. destruct (map_get c api) as [a|].
    - apply ST_bind_Ok in E2 as (o1 & w3 & E2 & E3). apply ST_bind_Ok in E3 as (u3 & w4 & E3 & E4).
      apply mretS_Ok in E4 as [-> ->].
      assert (H1' : log_step w w3 /\ exists n, o1 = set_od_tx_log_entry n o).
      { destruct (_ && _).
        - split; [by eapply logs_log_coinbase|]. unfold log_coinbase in E2.
          repeat (apply ST_bind_Ok in E2 as (? & ? & _ & E2)). apply mretS_Ok in E2 as [-> _]. by eexists.
        - apply mretS_Ok in E2 as [-> ->]. split; [done|]. exists (od_tx_log_entry o). by destruct o. }
      destruct H1' as [S3 [n ->]]. split_and!.
      + eapply log_step_trans; [exact S3|]. eapply (logs_when _ _ (logs_confirm_tx _ _)); [exact E3|apply S3].
      + unfold same_but_log, mark_unspent. cbn. by destruct (od_status o).
      + by rewrite mark_unspent_key.
    - apply mretS_Ok in E2 as [-> ->]. split_and!; [done|done|].
      pose proof (refreshed_key [] rev c o) as Hr. unfold refreshed in Hr. by cbn in Hr. }
  destruct Hs as ((_ & O2 & D2) & Hs & Hk').
  assert (Hp : pending w' = set_db_outputs (<[own_key o := o']> (db_outputs (pending w))) (pending w2)).
  { rewrite P. unfold own_key in Hk' |- *. by rewrite Hk', O2. }
  rewrite Hp, D, D2, Ek. cbn. split_and!; [done| |done| |].
  - unfold keyed. cbn. apply map_Forall_insert_2; [by symmetry|exact Hk].
  - intros k Hne. by apply lookup_insert_ne.
  - exists o'. by rewrite lookup_insert_eq.
Qed.

Lemma apply_outputs_Ok api rev h parent l w u w' :
  foreachS (apply_output api rev h parent) l w = (Ok u, w') -> is_open w -> keyed (pending w) ->
  NoDup (found_at <$> l) ->
  is_open w' /\ keyed (pending w') /\ wa_db w' = wa_db w
  /\ (forall k, k ∉ found_at <$> l -> db_outputs (pending w') !! k = db_outputs (pending w) !! k)
  /\ (forall p, p ∈ l -> match db_outputs (pending w) !! found_at p with
     | Some o => exists o', db_outputs (pending w') !! found_at p = Some o' /\ same_but_log (refreshed api rev p.1 o) o'
     | None => db_outputs (pending w') !! found_at p = None
     end).
Proof.
  revert w. induction l as [|p l IH]; intros w E Ho Hk Hn; cbn [foreachS] in E.
  { apply mretS_Ok in E as [-> ->]. split_and!; [done..|]. by intros p ?%elem_of_nil. }
  apply ST_bind_Ok in E as (u1 & w1 & E1 & E2). cbn in Hn. apply NoDup_cons in Hn as [Hnp Hn].
  apply apply_output_Ok in E1 as (Ho1 & Hk1 & D1 & R1 & P1); [|done..].
  apply IH in E2 as (Ho2 & Hk2 & D2 & R2 & P2); [|done..].
  split_and!; [done|done|congruence| |].
  - intros k Hin. apply not_elem_of_cons in Hin as [H1' H2']. by rewrite R2, R1.
  - intros q [->|Hq]%elem_of_cons; [by rewrite R2|].
    specialize (P2 q Hq). rewrite R1 in P2; [done|]. intros Eq. apply Hnp. rewrite <- Eq. by apply list_elem_of_fmap_2.
Qed.

(** C30: Bringing the wallet up to date with the node.  A node that is behind changes
    nothing.  Otherwise every output that was asked for and is still in the wallet
    goes through this and no other change of state: if the node knows it, an
    unconfirmed or reverted one becomes unspent, and it takes the node's height; if
    the node does not, a locked or unspent one is spent; but when the
    kernel of its payment has disappeared and it is no coinbase, an unspent one is
    reverted and a locked one stays locked.  A spent
    output stays spent, nothing but status, height and log entry changes, no other
    output changes, and the height is recorded. *)
Theorem refresh_transitions mask wo api rev height parent w w' :
  apply_api_outputs mask wo api rev height parent w = (Ok tt, w') ->
  keyed (wa_db w) -> NoDup (found_at <$> wo) ->
  let last := default 0 (db_confirmed_height (wa_db w) !! to_key CONFIRMED_HEIGHT_PREFIX (id_to_bytes (wa_parent_key_id w))) in
  (height < last -> w' = w)
  /\ (last <= height ->
      (forall k, k ∉ found_at <$> wo -> db_outputs (wa_db w') !! k = db_outputs (wa_db w) !! k)
      /\ (forall p, p ∈ wo -> db_outputs (wa_db w) !! found_at p = None -> db_outputs (wa_db w') !! found_at p = None)
      /\ (forall p o, p ∈ wo -> db_outputs (wa_db w) !! found_at p = Some o ->
           exists o', db_outputs (wa_db w') !! found_at p = Some o'
           /\ o' = set_od_tx_log_entry (od_tx_log_entry o') (set_od_status (od_status o') (set_od_height (od_height o') o))
           /\ match map_get p.1 api with
              | Some a => od_height o' = a.1.2
                  /\ od_status o' = match od_status o with Unconfirmed | Reverted => Unspent | st => st end
              | None => od_height o' = od_height o
                  /\ od_status o' = match od_status o with
                      | Locked => if is_reverted rev o then Locked else Spent
                      | Unspent => if is_reverted rev o then Reverted else Spent
                      | st => st
                      end
              end)
      /\ db_confirmed_height (wa_db w') !! to_key CONFIRMED_HEIGHT_PREFIX (id_to_bytes parent) = Some height
      /\ keyed (wa_db w')).
Proof.
  intros E Hk Hn. unfold apply_api_outputs in E. apply ST_bind_Ok in E as (l & w0 & E0 & E).
  apply getS_Ok in E0 as [-> ->]. cbv zeta. destruct (Z.ltb_spec height
    (default 0 (db_confirmed_height (wa_db w) !! to_key CONFIRMED_HEIGHT_PREFIX (id_to_bytes (wa_parent_key_id w))))).
  { apply mretS_Ok in E as [_ ->]. split; [done|lia]. }
  split; [lia|]. intros _. apply with_batch_Ok in E as (k & w1 & _ & E & ->).
  apply ST_bind_Ok in E as (u1 & w2 & E1 & E).
  destruct (apply_outputs_Ok _ _ _ _ _ _ _ _ E1) as (Ho & Hk2 & D2 & R & P); [by eexists|done|done|]. cbn in R, P.
  apply ST_bind_Ok in E as (es & w3 & E3 & E). pose proof (logs_tx_iter _ _ _ E3 Ho) as (O3 & L3 & _).
  apply ST_bind_Ok in E as (u4 & w4 & E4 & E).
  pose proof (logs_foreach _ _ (logs_revert_tx rev parent) _ _ _ E4 O3) as (O4 & L4 & _).
  apply ST_bind_Ok in E as (u5 & w5 & E5 & E). apply batch_update_Ok in E5 as (_ & _ & P5 & _ & _).
  apply commit_Ok in E as (_ & D6 & _). cbn. rewrite D6, P5. cbn. rewrite L4, L3. split_and!.
  - exact R.
  - intros p Hp Hnone. specialize (P p Hp). by rewrite Hnone in P.
  - intros p o Hp Hs. specialize (P p Hp). rewrite Hs in P. destruct P as (o' & Ho' & Hsame).
    exists o'. split; [done|]. apply same_but_log_spec in Hsame. exact Hsame.
  - apply lookup_insert_eq.
  - unfold keyed. cbn. rewrite L4, L3. exact Hk2.
Qed.
End refreshing.

(** ** Lemmas: the summary *)
Section summary.
Context `{BuildProfile, GC : GrinCrates, !BinCrates, !WalletCrates, !AddressCrates, !HexCrate, !NodeClient}.
Implicit Types (w : Wallet) (o : OutputData) (l : list OutputData) (t : Totals).

(** The amount an output is counted in. *)
Inductive Bin := BSpendable | BImmature | BAwaiting | BUnconfirmed | BLocked | BReverted | BNone.
#[local] Instance Bin_eq : EqDecision Bin.
Proof. solve_decision. Defined.
Definition bin (cur mc : Z) o : Bin :=
  match od_status o with
  | Unspent =>
      if od_is_coinbase o && (cur <? od_lock_height o) then BImmature
      else if (if cur <? od_height o then 0 else 1 + (cur - od_height o)) <? mc then BUnconfirmed else BSpendable
  | Unconfirmed => if od_is_coinbase o then BNone else if mc =? 0 then BUnconfirmed else BAwaiting
  | Locked => BLocked
  | Reverted => BReverted
  | Spent => BNone
  end.
Definition get_bin (b : Bin) t : Z :=
  match b with
  | BSpendable => to_unspent t | BImmature => to_immature t | BAwaiting => to_awaiting t
  | BUnconfirmed => to_unconfirmed t | BLocked => to_locked t | BReverted => to_reverted t | BNone => 0
  end.
Definition add_bin (b : Bin) (v : Z) t : Totals :=
  let '(mkTotals un im aw uc lo re) := t in
  match b with
  | BSpendable => mkTotals (un + v) im aw uc lo re
  | BImmature => mkTotals un (im + v) aw uc lo re
  | BAwaiting => mkTotals un im (aw + v) uc lo re
  | BUnconfirmed => mkTotals un im aw (uc + v) lo re
  | BLocked => mkTotals un im aw uc (lo + v) re
  | BReverted => mkTotals un im aw uc lo (re + v)
  | BNone => t
  end.
Definition totals_ok t (room : Z) : Prop :=
  (forall b, 0 <= get_bin b t)
  /\ to_unspent t + to_immature t + to_awaiting t + to_unconfirmed t + to_locked t + to_reverted t + room < u64_modulus.

Lemma totals_ok_add b v t room : totals_ok t (v + room) -> 0 <= v -> 0 <= room -> totals_ok (add_bin b v t) room.
Proof.
  intros [Hn Hs] Hv Hr. split.
  - intros b'. specialize (Hn b'). destruct t, b, b'; cbn in *; lia.
  - destruct t, b; cbn in *; lia.
Qed.
Lemma add_get b t v room :
  totals_ok t (v + room) -> 0 <= v -> 0 <= room -> u64_add (get_bin b t) v = Ok (get_bin b t + v).
Proof.
  intros [Hn Hs] Hv Hr. apply u64_add_ok. pose proof (Hn BSpendable). pose proof (Hn BImmature).
  pose proof (Hn BAwaiting). pose proof (Hn BUnconfirmed). pose proof (Hn BLocked). pose proof (Hn BReverted).
  unfold in_u64. destruct b; cbn in *; lia.
Qed.

Lemma count_output_ok cur mc t o room :
  0 <= cur < u64_modulus - 1 -> 0 <= od_height o -> 0 <= od_value o -> 0 <= room -> totals_ok t (od_value o + room) ->
  count_output cur mc t o = Ok (add_bin (bin cur mc o) (od_value o) t).
Proof.
  intros Hc Hh Hv Hr Ht. pose proof (fun b => add_get b t _ _ Ht Hv Hr) as Ha.
  pose proof (Ha BSpendable) as A1. pose proof (Ha BImmature) as A2. pose proof (Ha BAwaiting) as A3.
  pose proof (Ha BUnconfirmed) as A4. pose proof (Ha BLocked) as A5. pose proof (Ha BReverted) as A6.
  destruct t as [un im aw uc lo re]. unfold count_output, bin, add_bin. cbn in A1, A2, A3, A4, A5, A6.
  destruct (od_status o) eqn:Es; [| |by rewrite A5|done|by rewrite A6].
  - by destruct (od_is_coinbase o); [|destruct (mc =? 0); rewrite ?A3, ?A4].
  - destruct (_ && _); [by rewrite A2|].
    rewrite num_confirmations_ok by (done || by rewrite Es). cbn [mbind Res_bind].
    destruct (_ <? mc); by rewrite ?A1, ?A4.
Qed.

Definition in_bin (cur mc : Z) (b : Bin) l : list OutputData := filter (fun o => bin cur mc o = b) l.

Definition in_bin_add (b b' : Bin) (v : Z) : Z := if decide (b' = b) then v else 0.
Lemma in_bin_cons cur mc b o l :
  total_of (in_bin cur mc b (o :: l)) = in_bin_add b (bin cur mc o) (od_value o) + total_of (in_bin cur mc b l).
Proof. unfold in_bin, in_bin_add. rewrite filter_cons. by case_decide. Qed.
Lemma get_add b b' v t : b <> BNone -> get_bin b (add_bin b' v t) = get_bin b t + in_bin_add b b' v.
Proof. intros Hn. unfold in_bin_add. destruct t, b, b'; try done; cbn; case_decide; done || lia. Qed.

Lemma count_outputs_ok cur mc l t :
  heights_ok cur l -> Forall (fun o => 0 <= od_value o) l -> totals_ok t (total_of l) ->
  exists t', res_fold (count_output cur mc) t l = Ok t' /\ totals_ok t' 0
    /\ forall b, b <> BNone -> get_bin b t' = get_bin b t + total_of (in_bin cur mc b l).
Proof.
  intros [Hc Hh] Hv. revert t. induction Hv as [|o l Ho Hv IH]; intros t Ht; cbn.
  { exists t. split_and!; [done|done|]. intros b _. cbn. lia. }
  apply Forall_cons in Hh as [Hho Hh]. pose proof (total_of_nonneg _ Hv) as Hr. cbn in Ht. fold (total_of l) in Ht.
  rewrite (count_output_ok _ _ _ _ _ Hc Hho Ho Hr Ht). cbn [mbind Res_bind].
  destruct (IH Hh (add_bin (bin cur mc o) (od_value o) t)) as (t' & E & Hok & Hb); [by apply totals_ok_add|].
  exists t'. split_and!; [done|done|]. intros b Hn. rewrite Hb, get_add by done.
  change (get_bin b t + in_bin_add b (bin cur mc o) (od_value o) + total_of (in_bin cur mc b l)
          = get_bin b t + total_of (in_bin cur mc b (o :: l))).
  rewrite in_bin_cons. lia.
Qed.

(** The bins make up the whole. *)
Lemma bins_partition cur mc l :
  total_of (in_bin cur mc BSpendable l) + total_of (in_bin cur mc BImmature l) + total_of (in_bin cur mc BAwaiting l)
  + total_of (in_bin cur mc BUnconfirmed l) + total_of (in_bin cur mc BLocked l) + total_of (in_bin cur mc BReverted l)
  = total_of (filter (fun o => bin cur mc o <> BNone) l).
Proof.
  induction l as [|o l IH]; [done|]. rewrite filter_cons, !in_bin_cons. unfold in_bin_add.
  destruct (bin cur mc o); repeat case_decide; try done; cbn; fold (total_of (filter (fun o => bin cur mc o <> BNone) l)); lia.
Qed.
Lemma bin_counted cur mc o : bin cur mc o <> BNone <-> od_status o <> Spent /\ ~ (od_is_coinbase o = true /\ od_status o = Unconfirmed).
Proof.
  unfold bin. destruct (od_status o), (od_is_coinbase o); cbn; repeat case_match; by intuition.
Qed.
Lemma bin_locked cur mc o : bin cur mc o = BLocked <-> od_status o = Locked.
Proof. unfold bin. destruct (od_status o), (od_is_coinbase o); cbn; repeat case_match; split; done. Qed.
Lemma bin_spendable cur mc o :
  0 <= od_height o -> 0 <= cur < u64_modulus - 1 -> 0 < mc -> (od_is_coinbase o = false -> od_lock_height o <= cur) ->
  bin cur mc o = BSpendable <-> spendable cur mc o.
Proof.
  intros Hh Hc Hmc Hl. unfold bin, spendable. destruct (od_status o) eqn:Es.
  - destruct (od_is_coinbase o); [by intuition|]. destruct (Z.eqb_spec mc 0); [lia|by intuition].
  - rewrite num_confirmations_ok by (done || by rewrite Es).
    destruct (od_is_coinbase o && (cur <? od_lock_height o)) eqn:Eb.
    + apply andb_true_iff in Eb as [_ Eb%Z.ltb_lt]. split; [done|lia].
    + assert (od_lock_height o <= cur).
      { apply andb_false_iff in Eb as [Eb|Eb%Z.ltb_ge]; [by apply Hl|done]. }
      destruct (Z.ltb_spec cur (od_height o)).
      * destruct (Z.ltb_spec 0 mc); split; intuition lia || done.
      * destruct (Z.ltb_spec (1 + (cur - od_height o)) mc); split; intuition lia || (try done; intuition lia).
  - by intuition.
  - by intuition.
  - by intuition.
Qed.

(** The coins a payment may spend, when no height overflows. *)
Lemma eligible_outputs_run cur mc parent l :
  heights_ok cur l ->
  exists E, eligible_outputs cur mc parent l = Ok E
    /\ E ≡ₚ filter (fun o => bool_decide (od_root_key_id o = parent)
                   && match eligible_to_spend o cur mc with Ok b => b | _ => false end = true) l.
Proof.
  intros [Hc Hh]. unfold eligible_outputs.
  assert (R : res_filter (is_eligible cur mc parent) l = Ok (filter (fun o => bool_decide (od_root_key_id o = parent)
                   && match eligible_to_spend o cur mc with Ok b => b | _ => false end = true) l)).
  { induction Hh as [|o l Ho Hh IH]; [done|]. cbn [res_filter]. rewrite IH, filter_cons.
    destruct (eligible_spec o cur mc Ho Hc) as (b & Eb & _). unfold is_eligible. rewrite Eb.
    case_bool_decide; cbn; [|by rewrite decide_False]. by destruct b; case_decide. }
  rewrite R. eexists. split; [reflexivity|]. apply sort_by_key_perm.
Qed.

Lemma filter_iff_in (P Q : OutputData -> Prop) `{!forall o, Decision (P o), !forall o, Decision (Q o)} l :
  (forall o, o ∈ l -> P o <-> Q o) -> filter P l = filter Q l.
Proof.
  intros Hi. induction l as [|o l IH]; [done|]. rewrite !filter_cons, IH by (intros; apply Hi; by right).
  specialize (Hi o (list_elem_of_here _ _)). repeat case_decide; tauto.
Qed.
Definition confirmed_height w : Z :=
  default 0 (db_confirmed_height (wa_db w) !! to_key CONFIRMED_HEIGHT_PREFIX (id_to_bytes (wa_parent_key_id w))).
Definition of_account (parent : Identifier) l : list OutputData := filter (fun o => od_root_key_id o = parent) l.

Lemma eligible_total cur mc parent l :
  heights_ok cur l -> 0 < mc ->
  (forall o, o ∈ of_account parent l -> od_is_coinbase o = false -> od_lock_height o <= cur) ->
  exists E, eligible_outputs cur mc parent l = Ok E /\ total_of E = total_of (in_bin cur mc BSpendable (of_account parent l)).
Proof.
  intros Hh Hmc Hl. destruct (eligible_outputs_run cur mc parent l Hh) as (E & EE & HE).
  exists E. split; [done|]. rewrite (total_of_perm _ _ HE). f_equal. unfold in_bin, of_account.
  rewrite list_filter_filter. apply filter_iff_in. intros o Hin. destruct Hh as [Hc Hh].
  rewrite Forall_forall in Hh. specialize (Hh o Hin).
  destruct (eligible_spec o cur mc Hh Hc) as (b & -> & Hb). rewrite andb_true_iff, bool_decide_eq_true.
  split.
  - intros [Hp ->]. split; [|done]. apply bin_spendable; [done..| |by apply Hb].
    intros Hcb. apply Hl; [|done]. by apply list_elem_of_filter.
  - intros [Hbin Hp]. split; [done|]. apply Hb. apply bin_spendable; [done..| |done].
    intros Hcb. apply Hl; [|done]. by apply list_elem_of_filter.
Qed.

(** The summary of the funds.  It can be given whenever the wallet's values add up to a
    64-bit number.  Its amounts count every output of the account that is not spent
    exactly once, but for coinbase outputs that the chain does not know yet; the total
    is what is spendable, awaits confirmation or is immature.  When some
    confirmations are asked for and no output but a coinbase has a lock height to
    wait for, the spendable amount is what the coins are worth from which a payment is
    made. *)
Theorem summary_of_funds parent mc w :
  let cur := confirmed_height w in let outs := db_iter (db_outputs (wa_db w)) in
  heights_ok cur outs -> values_ok outs ->
  exists i, retrieve_info parent mc w = (Ok i, w)
  /\ wi_total i = wi_amount_currently_spendable i + wi_amount_awaiting_confirmation i + wi_amount_immature i
  /\ wi_total i + wi_amount_awaiting_finalization i + wi_amount_locked i + wi_amount_reverted i
     = total_of (filter (fun o => od_status o <> Spent /\ ~ (od_is_coinbase o = true /\ od_status o = Unconfirmed))
                   (of_account parent outs))
  /\ wi_amount_locked i = total_of (filter (fun o => od_status o = Locked) (of_account parent outs))
  /\ (0 < mc -> (forall o, o ∈ of_account parent outs -> od_is_coinbase o = false -> od_lock_height o <= cur) ->
      exists E, eligible_outputs cur mc parent outs = Ok E /\ wi_amount_currently_spendable i = total_of E).
Proof.
  intros cur outs Hh Hv.
  assert (Hs : of_account parent outs ⊆+ outs) by apply sublist_submseteq, sublist_filter.
  destruct (values_ok_sub _ _ Hs Hv) as [[Hv' Ht] _].
  assert (Hh' : heights_ok cur (of_account parent outs)).
  { destruct Hh as [Hc Hh]. split; [done|]. rewrite Forall_forall in *. intros o Ho. by eapply Hh, elem_of_submseteq. }
  destruct (count_outputs_ok cur mc _ (mkTotals 0 0 0 0 0 0) Hh' Hv') as (t & E & [Hn Hsum] & Hb).
  { split; [by intros []|cbn; lia]. }
  pose proof (Hb BSpendable) as B1. pose proof (Hb BImmature) as B2. pose proof (Hb BAwaiting) as B3.
  pose proof (Hb BUnconfirmed) as B4. pose proof (Hb BLocked) as B5. pose proof (Hb BReverted) as B6.
  pose proof (Hn BSpendable). pose proof (Hn BImmature). pose proof (Hn BAwaiting). pose proof (Hn BUnconfirmed).
  pose proof (Hn BLocked). pose proof (Hn BReverted). pose proof (bins_partition cur mc (of_account parent outs)) as Hp.
  cbn [get_bin to_unspent to_immature to_awaiting to_unconfirmed to_locked to_reverted] in *.
  assert (EI : info_of cur mc t = Ok {| wi_last_confirmed_height := cur; wi_minimum_confirmations := mc;
        wi_total := to_unspent t + to_unconfirmed t + to_immature t; wi_amount_awaiting_finalization := to_awaiting t;
        wi_amount_awaiting_confirmation := to_unconfirmed t; wi_amount_immature := to_immature t;
        wi_amount_locked := to_locked t; wi_amount_currently_spendable := to_unspent t;
        wi_amount_reverted := to_reverted t |}).
  { unfold info_of. do 2 (rewrite u64_add_ok by (unfold in_u64; lia); cbn [mbind Res_bind]). done. }
  eexists. split.
  { unfold retrieve_info. erewrite ST_bind_run by reflexivity. erewrite ST_bind_run by reflexivity.
    erewrite ST_bind_run by (apply liftS_run, E). by apply liftS_run. }
  cbn. split_and!; [lia| | |].
  - rewrite B1, B2, B3, B4, B5, B6 by done.
    transitivity (total_of (filter (fun o => bin cur mc o <> BNone) (of_account parent outs))); [lia|].
    f_equal. apply list_filter_iff. intros o. apply bin_counted.
  - rewrite B5 by done. cbn. rewrite Z.add_0_l. f_equal. apply list_filter_iff. intros o. apply bin_locked.
  - intros Hmc Hl. destruct (eligible_total _ _ _ _ Hh Hmc Hl) as (Es & EE & HE). exists Es. split; [done|].
    rewrite B1 by done. lia.
Qed.
End summary.
