(* ===== verification/WalletTx.v ===== *)
(** * internal/tx.rs: the steps of a payment

    A new slate, the sender's inputs and the receiver's output, completion,
    cancelling, the entry of a payment in the log and payment proofs. *)
From S2P Require Import Prelude.
From S2P Require Import RustStd.
From S2P Require Import Crates.
From S2P Require Import Effects.
From S2P Require Import Slate.
From S2P Require Import SlateV4.
From S2P Require Import SlateBin.
From S2P Require Import StateM.
From S2P Require Import Wallet.
From S2P Require Import Address.
From S2P Require Import Selection.
From S2P Require Import Updater.
From Stdlib Require Import Ascii.
#[local] Open Scope Z_scope.

(** ed25519 signatures. *)
Class DalekCrates `{AddressCrates} := {
  DalekPublicKey_eq :: EqDecision DalekPublicKey;
  dalek_sign : DalekSecretKey -> string -> DalekSignature;
  dalek_verify : DalekPublicKey -> string -> DalekSignature -> bool;
}.

(** ** Big-endian bytes *)
Definition byte (n : Z) : ascii := ascii_of_N (Z.to_N (n mod 256)).
Fixpoint be_bytes (k : nat) (n : Z) : string :=
  match k with
  | O => EmptyString
  | S k' => be_bytes k' (n / 256) +:+ String (byte n) ""
  end.
Fixpoint be_value (acc : Z) (s : string) : Z :=
  match s with
  | EmptyString => acc
  | String c s' => be_value (acc * 256 + Z.of_N (N_of_ascii c)) s'
  end.

Section data.
Context `{GrinTypes}.
Implicit Types s : Slate.
Definition set_sl_ttl (h : Z) s : Slate :=
  mkSlate (sl_version_info s) (sl_num_participants s) (sl_id s) (sl_state s) (sl_tx s) (sl_amount s)
    (sl_fee_fields s) h (sl_kernel_features s) (sl_offset s) (sl_participant_data s) (sl_payment_proof s)
    (sl_kernel_features_args s).
Definition set_sl_id (i : Uuid) s : Slate :=
  mkSlate (sl_version_info s) (sl_num_participants s) i (sl_state s) (sl_tx s) (sl_amount s)
    (sl_fee_fields s) (sl_ttl_cutoff_height s) (sl_kernel_features s) (sl_offset s) (sl_participant_data s)
    (sl_payment_proof s) (sl_kernel_features_args s).
Definition set_sl_header_version (v : Z) s : Slate :=
  mkSlate (mkVersionCompatInfo (vci_version (sl_version_info s)) v) (sl_num_participants s) (sl_id s)
    (sl_state s) (sl_tx s) (sl_amount s) (sl_fee_fields s) (sl_ttl_cutoff_height s) (sl_kernel_features s)
    (sl_offset s) (sl_participant_data s) (sl_payment_proof s) (sl_kernel_features_args s).
Definition set_sl_kernel_features (k : Z) s : Slate :=
  mkSlate (sl_version_info s) (sl_num_participants s) (sl_id s) (sl_state s) (sl_tx s) (sl_amount s)
    (sl_fee_fields s) (sl_ttl_cutoff_height s) k (sl_offset s) (sl_participant_data s) (sl_payment_proof s)
    (sl_kernel_features_args s).
End data.

Section code.
Context `{BuildProfile, GC : GrinCrates, !BinCrates, !WalletCrates, !AddressCrates, !HexCrate, !NodeClient,
  !DalekCrates}.

(** ** A new slate *)
Definition test_id_prefix : string :=
  String.concat "" ((fun n => String (byte n) "") <$> [4; 54; 67; 12; 43; 2; 98; 76; 32; 50; 87; 5; 1; 33; 43]).

Definition header_version (current_height : Z) (slate : Slate) : Slate :=
  foldl (fun s v => if nc_valid_header_version current_height v then set_sl_header_version v s else s)
    slate [1; 2; 3].

Definition new_tx_slate (amount : Z) (is_invoice : bool) (num_participants : Z) (use_test_rng : bool)
    (ttl_blocks : option Z) : W Slate :=
  '(current_height, _) ← get_chain_tip;
  slate ← drawn (blank num_participants is_invoice);
  slate ← match ttl_blocks with
          | Some b => h ← liftS (u64_add current_height b); mret (set_sl_ttl h slate)
          | None => mret slate
          end;
  slate ← (if use_test_rng then
             sc ← getS wa_slate_counter;
             next ← liftS (u8_add sc 1);
             _ ← modifyS (set_wa_slate_counter next);
             mret (set_sl_id (uuid_from_bytes (test_id_prefix +:+ String (byte sc) "")) slate)
           else mret slate);
  mret (set_sl_kernel_features 0 (header_version current_height (set_sl_amount amount slate))).

(** ** The sender *)
Definition estimate_send_tx (mask : option SecretKey) (amount minimum_confirmations : Z)
    (max_outputs num_change_outputs : nat) (use_all : bool) (parent : Identifier) : W (Z * Z) :=
  '(current_height, _) ← get_chain_tip;
  _ ← refresh_outputs mask parent false;
  '(_, total, _, fee) ← select_coins_and_fee amount current_height minimum_confirmations max_outputs
                          num_change_outputs use_all parent;
  mret (total, fee).

Definition add_inputs_to_slate (mask : option SecretKey) (slate : Slate) (current_height minimum_confirmations : Z)
    (max_outputs num_change_outputs : nat) (use_all : bool) (parent : Identifier)
    (is_initiator use_test_rng : bool) : W (Context_ * Slate) :=
  _ ← refresh_outputs mask parent false;
  _ ← keychain mask;
  '(context, slate) ← build_send_tx mask slate current_height minimum_confirmations max_outputs
                        num_change_outputs use_all None parent use_test_rng is_initiator;
  _ ← keychain mask;
  slate ← liftS (fill_round_1 slate context);
  let context := set_ctx_initial_sec_key (ctx_sec_key context) context in
  slate ← (if is_initiator then mret slate
           else _ ← keychain mask; liftS (fill_round_2 slate (ctx_sec_key context) (ctx_sec_nonce context)));
  mret (context, slate).

(** ** The receiver *)
Definition add_output_to_slate (mask : option SecretKey) (slate : Slate) (current_height : Z) (parent : Identifier)
    (is_initiator use_test_rng : bool) : W (Context_ * Slate) :=
  _ ← keychain mask;
  '(_, context, tx, slate) ← build_recipient_output mask slate current_height parent use_test_rng is_initiator;
  slate ← liftS (fill_round_1 slate context);
  let context := set_ctx_initial_sec_key (ctx_sec_key context) context in
  slate ← (if is_initiator then mret slate
           else
             slate ← liftS (fill_round_2 slate (ctx_sec_key context) (ctx_sec_nonce context));
             with_batch mask (
               excess ← liftS (calc_excess slate);
               _ ← save_tx_log_entry (set_tl_kernel_excess (Some excess) tx) parent;
               _ ← commit;
               mret slate));
  mret (context, slate).

(** ** Late locking *)
Definition create_late_lock_context (mask : option SecretKey) (slate : Slate) (current_height : Z)
    (init_tx_args : InitTxArgs) (parent : Identifier) (use_test_rng : bool) : W (Context_ * Slate) :=
  _ ← refresh_outputs mask parent false;
  '(_, _, _, fee) ← select_coins_and_fee (ita_amount init_tx_args) current_height
                      (ita_minimum_confirmations init_tx_args) (Z.to_nat (ita_max_outputs init_tx_args))
                      (Z.to_nat (ita_num_change_outputs init_tx_args))
                      (ita_selection_strategy_is_use_all init_tx_args) parent;
  fee_fields ← liftS (ok_or "FeeFields" (fee_new 0 fee));
  let slate := set_sl_fee_fields fee_fields slate in
  _ ← keychain mask;
  context ← Context_new parent use_test_rng true;
  let context := set_ctx_late_lock_args (Some init_tx_args)
                   (set_ctx_amount (sl_amount slate) (set_ctx_fee (Some (sl_fee_fields slate)) context)) in
  _ ← keychain mask;
  slate ← liftS (fill_round_1 slate context);
  mret (context, slate).

(** ** Completion *)
Definition complete_tx (mask : option SecretKey) (slate : Slate) (context : Context_) : W Slate :=
  let '(sec_key, sec_nonce) :=
    if negb (sk_eqb (ctx_initial_sec_key context) (ctx_sec_key context))
       && negb (sk_eqb (ctx_initial_sec_nonce context) (ctx_sec_nonce context))
    then (ctx_initial_sec_key context, ctx_initial_sec_nonce context)
    else (ctx_sec_key context, ctx_sec_nonce context) in
  _ ← keychain mask;
  slate ← liftS (fill_round_2 slate sec_key sec_nonce);
  _ ← keychain mask;
  liftS (finalize slate).

(** ** Cancelling *)
Definition cancel_tx (mask : option SecretKey) (parent : Identifier) (tx_id : option Z) (tx_slate_id : option Uuid) :
    W unit :=
  let tx_id_string := match tx_id, tx_slate_id with
                      | Some i, _ => fmt_u64 i
                      | None, Some u => uuid_to_string u
                      | None, None => ""
                      end in
  tx_vec ← retrieve_txs tx_id tx_slate_id (Some parent) false;
  match tx_vec with
  | [tx] =>
      if negb (bool_decide (tl_tx_type tx ∈ [TxSent; TxReceived; TxReverted]))
      then errS ("TransactionNotCancellable(" +:+ tx_id_string +:+ ")")
      else if tl_confirmed tx then errS ("TransactionNotCancellable(" +:+ tx_id_string +:+ ")")
      else
        res ← retrieve_outputs mask false (Some (tl_id tx)) (Some parent);
        cancel_tx_and_outputs mask tx (ocm_output <$> res) parent
  | _ => errS ("TransactionDoesntExist(" +:+ tx_id_string +:+ ")")
  end.

(** ** Payment proofs *)
Definition payment_proof_message (amount : Z) (kernel_commitment : Commitment) (sender : DalekPublicKey) :
    Res string :=
  Ok (be_bytes 8 amount +:+ commit_bytes kernel_commitment +:+ dalek_pk_bytes sender).

Definition decode_payment_proof_message (msg : string) : Res (Z * Commitment * DalekPublicKey) :=
  if bool_decide (8 + 33 + 32 <= String.length msg)%nat then
    sender ← unwrap_opt (dalek_pk_from_bytes (String.substring 41 32 msg));
    Ok (be_value 0 (String.substring 0 8 msg), commit_from_vec (String.substring 8 33 msg), sender)
  else Err "IO(failed to fill whole buffer)".

Definition create_payment_proof_signature (amount : Z) (kernel_commitment : Commitment) (sender : DalekPublicKey)
    (sec_key : SecretKey) : Res DalekSignature :=
  msg ← payment_proof_message amount kernel_commitment sender;
  match dalek_sk_from_bytes (sk_bytes sec_key) with
  | Some d_skey => Ok (dalek_sign d_skey msg)
  | None => Err "ED25519Key"
  end.

(** The address of an account, as a public key. *)
Definition account_address (k : Keychain) (parent : Identifier) (index : Z) : Res (SecretKey * DalekPublicKey) :=
  key ← address_from_derivation_path k parent index;
  a ← ov3_from_private (sk_bytes key);
  p ← ov3_to_ed25519 a;
  Ok (key, p).

(** ** The entry of a payment, brought up to date *)
Definition is_entry_of (is_invoiced : bool) (t : TxLogEntry) : bool :=
  (bool_decide (tl_tx_type t = TxSent) && negb is_invoiced)
  || (bool_decide (tl_tx_type t = TxReceived) && is_invoiced).

Definition signed_proof (k : Keychain) (active_parent : Identifier) (context : Context_) (slate : Slate)
    (p : PaymentInfo) : Res StoredProofInfo :=
  let derivation_index := default 0 (ctx_payment_proof_derivation_index context) in
  excess ← calc_excess slate;
  sender_key ← address_from_derivation_path k active_parent derivation_index;
  onion ← ov3_from_private (sk_bytes sender_key);
  sig ← create_payment_proof_signature (sl_amount slate) excess (sender_address p) sender_key;
  sender ← ov3_to_ed25519 onion;
  Ok (mkStoredProofInfo (receiver_address p) (receiver_signature p) derivation_index sender (Some sig)).

Definition update_stored_tx (mask : option SecretKey) (context : Context_) (slate : Slate) (is_invoiced : bool) :
    W unit :=
  tx_vec ← retrieve_txs None (Some (sl_id slate)) None false;
  tx ← liftS (ok_or ("TransactionDoesntExist(" +:+ uuid_to_string (sl_id slate) +:+ ")")
                (find (is_entry_of is_invoiced) tx_vec));
  let parent_key := tl_parent_key_id tx in
  _ ← keychain mask;
  excess ← liftS (calc_excess slate);
  let tx := set_tl_kernel_excess (Some excess) tx in
  tx ← match sl_payment_proof slate with
       | Some p =>
           k ← keychain mask;
           active ← parent_key_id;
           proof ← liftS (signed_proof k active context slate p);
           mret (set_tl_payment_proof (Some proof) tx)
       | None => mret tx
       end;
  id ← liftS (unwrap_opt (tl_tx_slate_id tx));
  t ← liftS (tx_or_err slate);
  _ ← store_tx (uuid_to_string id) t;
  with_batch mask (_ ← save_tx_log_entry tx parent_key; commit).

Definition proof_err (e : string) : string := "PaymentProof(" +:+ e +:+ ")".

(** What is checked of the proof on a slate. *)
Definition check_proof (k : Keychain) (parent : Identifier) (context : Context_) (slate : Slate)
    (orig_proof_info : option StoredProofInfo) (p : PaymentInfo) : Res unit :=
  orig ← ok_or (proof_err "Original proof info not stored in tx") orig_proof_info;
  index ← ok_or (proof_err "Payment proof derivation index required") (ctx_payment_proof_derivation_index context);
  '(_, orig_sender) ← account_address k parent index;
  if negb (bool_decide (sender_address p = orig_sender))
  then Err (proof_err "Sender address on slate does not match original sender address")
  else if negb (bool_decide (sp_receiver_address orig = receiver_address p))
  then Err (proof_err "Recipient address on slate does not match original recipient address")
  else
    excess ← calc_excess slate;
    msg ← payment_proof_message (sl_amount slate) excess orig_sender;
    sig ← ok_or (proof_err "Recipient did not provide requested proof signature") (receiver_signature p);
    if dalek_verify (receiver_address p) msg sig then Ok tt else Err (proof_err "Invalid proof signature").

Definition verify_slate_payment_proof (mask : option SecretKey) (parent : Identifier) (context : Context_)
    (slate : Slate) : W unit :=
  tx_vec ← retrieve_txs None (Some (sl_id slate)) (Some parent) false;
  match tx_vec with
  | [] => errS (proof_err "TxLogEntry with original proof info not found (is account correct?)")
  | tx :: _ =>
      match tl_payment_proof tx, sl_payment_proof slate with
      | Some _, None => errS (proof_err "Expected Payment Proof for this Transaction is not present")
      | _, None => mret tt
      | orig, Some p =>
          _ ← liftS (ok_or (proof_err "Original proof info not stored in tx") orig);
          k ← keychain mask;
          liftS (check_proof k parent context slate orig p)
      end
  end.
End code.

(** ** Cancelling undoes locking *)
Section cancelling.
Context `{BuildProfile, GC : GrinCrates, !BinCrates, !WalletCrates, !AddressCrates, !HexCrate, !NodeClient,
  !DalekCrates}.
Implicit Types (w : Wallet) (d : Db) (o : OutputData).

(** The entries of the log that a command names. *)
Definition matching (parent : Identifier) (tx_id : option Z) (u : option Uuid) d : list TxLogEntry :=
  filter (fun t => tx_filter tx_id u (Some parent) false t = true) (db_iter (db_tx_log d)).
Definition cancellable (t : TxLogEntry) : Prop :=
  tl_tx_type t ∈ [TxSent; TxReceived; TxReverted] /\ tl_confirmed t = false.

Lemma retrieve_txs_run parent tx_id u w :
  exists l, retrieve_txs tx_id u (Some parent) false w = (Ok l, w) /\ l ≡ₚ matching parent tx_id u (wa_db w).
Proof. eexists. split; [reflexivity|]. apply sort_by_key_perm. Qed.

Lemma leaves_retrieve_outputs {X} (f : Wallet -> X) mask b t p : leaves f (retrieve_outputs mask b t p).
Proof.
  apply leaves_bind; [apply leaves_get|]. intros outs. apply leaves_bind; [apply leaves_keychain|]. intros k. apply leaves_lift.
Qed.

(** A batch whose last step is the commit either fails and changes nothing, or is committed. *)
Lemma with_batch_commit mask (body : W unit) w :
  (forall w0, wa_db (body w0).2 = wa_db w0) ->
  (exists u w', with_batch mask (_ ← body; commit) w = (Ok u, w'))
  \/ wa_db (with_batch mask (_ ← body; commit) w).2 = wa_db w.
Proof.
  intros Hb. unfold with_batch, finallyS.
  match goal with |- context [let '(_, _) := ?m in _] => destruct m as [r w'] eqn:E end.
  destruct r as [u|e|e]; [left; by eexists _, _|right; cbn..].
  all: unfold mbind, ST_bind in E; pose proof (leaves_keychain (fun w0 => w0) mask w) as Hk;
    destruct (keychain mask w) as [[k|e1|e1] w1]; cbn in Hk; subst w1; simplify_eq/=; try done;
    specialize (Hb (set_wa_batch (Some (wa_db w, Some k)) w));
    destruct (body _) as [[u1|e1|e1] w2]; cbn in Hb; simplify_eq/=; try done;
    unfold commit, mbind, ST_bind, getS, liftS, modifyS in E; destruct (wa_batch w2); simplify_eq/=; done.
Qed.

Lemma cancel_tx_and_outputs_leaves mask tx l parent w :
  (exists u w', cancel_tx_and_outputs mask tx l parent w = (Ok u, w'))
  \/ wa_db (cancel_tx_and_outputs mask tx l parent w).2 = wa_db w.
Proof.
  assert (E : forall w0, cancel_tx_and_outputs mask tx l parent w0 = with_batch mask (
    _ ← (_ ← foreachS cancel_output l;
         save_tx_log_entry (set_tl_type (cancelled_type (tl_tx_type tx)) tx) parent); commit) w0).
  { intros w0. unfold cancel_tx_and_outputs, with_batch, finallyS, mbind, ST_bind.
    destruct (keychain mask w0) as [[k|e|e] w1]; [|done..]. destruct (open_batch (Some k) w1) as [[u|e|e] w2]; [|done..].
    by destruct (foreachS cancel_output l w2) as [[u2|e|e] w3]. }
  rewrite E. apply with_batch_commit. change (leaves wa_db (_ ← foreachS cancel_output l;
    save_tx_log_entry (set_tl_type (cancelled_type (tl_tx_type tx)) tx) parent)).
  apply leaves_bind; [|intros u; apply leaves_batch_update]. apply leaves_foreach. intros o.
  apply leaves_bind; [|intros u]; apply leaves_if; auto with leaves; apply leaves_batch_update || apply leaves_ret.
Qed.

(** Cancelling a payment.  Unless exactly one entry of the account's log is named
    and it is one that can be cancelled (sent, received or reverted, and not
    confirmed), the command fails and nothing changes.  Otherwise either the data base
    does not change, or the whole of the change is this: of the outputs of the
    account that carry the number of the entry, the locked ones are unspent again,
    the unconfirmed and the reverted ones are gone, the entry is marked as
    cancelled, and everything else is as it was. *)
Theorem cancel_tx_decides mask parent tx_id u w :
  keyed (wa_db w) ->
  let l := matching parent tx_id u (wa_db w) in
  ((forall t, l = [t] -> ~ cancellable t) -> exists e, cancel_tx mask parent tx_id u w = (Err e, w))
  /\ (forall t, l = [t] -> cancellable t ->
       (exists w', cancel_tx mask parent tx_id u w = (Ok tt, w')
          /\ cancel_effect parent t (wa_db w) (wa_db w') /\ keyed (wa_db w') /\ wa_files w' = wa_files w)
       \/ wa_db (cancel_tx mask parent tx_id u w).2 = wa_db w).
Proof.
  intros Hk l. unfold cancel_tx.
  destruct (retrieve_txs_run parent tx_id u w) as (l' & Er & Hp). rewrite (ST_bind_run _ _ _ _ _ Er). fold l in Hp.
  split.
  - intros Hl. destruct l' as [|t [|t' l']]; [by eexists| |by eexists]. symmetry in Hp.
    apply Permutation_singleton_r in Hp. specialize (Hl t Hp). unfold cancellable in Hl.
    case_bool_decide as Ht; cbn [negb]; [|by eexists].
    destruct (tl_confirmed t); [by eexists|]. exfalso. by apply Hl.
  - intros t -> [Ht Hc]. apply Permutation_singleton_r in Hp as ->.
    rewrite (bool_decide_eq_true_2 _ Ht), Hc. cbn [negb].
    match goal with |- context [(retrieve_outputs ?a ?b ?c ?e ≫= ?k) w] =>
      pose proof (leaves_retrieve_outputs (fun w0 => w0) a b c e w) as Hw;
      destruct (retrieve_outputs a b c e w) as [[r|er|er] w1] eqn:E1 end; cbn in Hw; subst w1.
    2: right; unfold mbind, ST_bind; rewrite E1; done.
    2: right; unfold mbind, ST_bind; rewrite E1; done.
    rewrite (ST_bind_run _ _ _ _ _ E1). apply retrieve_outputs_Ok in E1 as (_ & os & Eo & Hs & Ho). rewrite Eo.
    destruct (cancel_tx_and_outputs_leaves mask t os parent w) as [([] & w' & E2)|E2]; [|by right].
    left. exists w'. split; [done|]. by eapply cancel_tx_and_outputs_Ok.
Qed.

Lemma cancel_tx_inv mask parent tx_id u w v w' :
  cancel_tx mask parent tx_id u w = (Ok v, w') -> keyed (wa_db w) ->
  exists t, matching parent tx_id u (wa_db w) = [t] /\ cancel_effect parent t (wa_db w) (wa_db w').
Proof.
  unfold cancel_tx. intros E Hk.
  destruct (retrieve_txs_run parent tx_id u w) as (l' & Er & Hp). rewrite (ST_bind_run _ _ _ _ _ Er) in E.
  destruct l' as [|t [|t' l']]; [done| |done]. symmetry in Hp. apply Permutation_singleton_r in Hp. exists t. split; [done|].
  destruct (negb _); [done|]. destruct (tl_confirmed t); [done|].
  apply ST_bind_Ok in E as (r & w1 & E1 & E). apply retrieve_outputs_Ok in E1 as (-> & os & Eo & Hs & Ho).
  rewrite Eo in E. by eapply cancel_tx_and_outputs_Ok.
Qed.

(** What happened to the log: one entry, which could be cancelled, is marked. *)
Lemma cancel_tx_log mask parent tx_id u w v w' :
  cancel_tx mask parent tx_id u w = (Ok v, w') ->
  exists t, matching parent tx_id u (wa_db w) = [t] /\ cancellable t
    /\ db_tx_log (wa_db w') = <[to_key_u64 TX_LOG_ENTRY_PREFIX (id_to_bytes parent) (tl_id t)
                                := set_tl_type (cancelled_type (tl_tx_type t)) t]> (db_tx_log (wa_db w))
    /\ wa_db w' = set_db_outputs (db_outputs (wa_db w')) (set_db_tx_log (db_tx_log (wa_db w')) (wa_db w)).
Proof.
  unfold cancel_tx. intros E.
  destruct (retrieve_txs_run parent tx_id u w) as (l' & Er & Hp). rewrite (ST_bind_run _ _ _ _ _ Er) in E.
  destruct l' as [|t [|t' l']]; [done| |done]. symmetry in Hp. apply Permutation_singleton_r in Hp. exists t. split; [done|].
  case_bool_decide as Ht; [|done]. cbn [negb] in E. destruct (tl_confirmed t) eqn:Ec; [done|]. split; [done|].
  apply ST_bind_Ok in E as (r & w1 & E1 & E). assert (w1 = w) as -> by exact (leaves_Ok (fun w0 => w0) _ _ _ _ (leaves_retrieve_outputs _ _ _ _ _) E1).
  unfold cancel_tx_and_outputs in E. apply with_batch_Ok in E as (k & w2 & _ & E & ->).
  apply ST_bind_Ok in E as (u3 & w3 & E3 & E).
  assert (exists m, pending w3 = set_db_outputs m (wa_db w)) as [m P3].
  { clear -E3. change (wa_db w) with (pending (set_wa_batch (Some (wa_db w, Some k)) w)).
    revert E3. generalize (set_wa_batch (Some (wa_db w, Some k)) w). induction (ocm_output <$> r) as [|o l IH]; intros w0 E3.
    { apply mretS_Ok in E3 as [_ ->]. exists (db_outputs (pending w0)). by destruct (pending w0). }
    apply ST_bind_Ok in E3 as (u1 & w1 & E1 & E3). apply IH in E3 as [m ->].
    assert (exists m1, pending w1 = set_db_outputs m1 (pending w0)) as [m1 ->]; [|by eexists].
    unfold cancel_output in E1. apply ST_bind_Ok in E1 as (u2 & w2 & E1 & E2).
    assert (forall c (f : Db -> gmap string OutputData) wa ua wb,
      whenS c (batch_update (fun d => set_db_outputs (f d) d)) wa = (Ok ua, wb) ->
      exists m, pending wb = set_db_outputs m (pending wa)) as Hw.
    { intros [] f wa ua wb Ew; [|apply mretS_Ok in Ew as [_ ->]; exists (db_outputs (pending wa)); by destruct (pending wa)].
      apply batch_update_Ok in Ew as (_ & _ & P & _). rewrite P. by eexists. }
    apply Hw in E1 as [ma Ea]. apply Hw in E2 as [mb Eb]. rewrite Eb, Ea. by eexists. }
  apply ST_bind_Ok in E as (u4 & w4 & E4 & E). apply batch_update_Ok in E4 as (_ & _ & P4 & _).
  apply commit_Ok in E as (_ & D & _). cbn. rewrite D, P4, P3. cbn. by split.
Qed.

Context `{!WalletLaws}.

(** C29: Locking and cancelling.  When a payment that locked its coins is cancelled under
    its number in the log, each of its inputs is unspent again and, but for that
    number, as before; its change outputs are gone; no other output of the wallet has
    changed; and the entry is a cancelled one.  (An input that was not confirmed when
    it was chosen is counted as unspent afterwards, whether it is on the chain or
    not.) *)
Theorem cancel_after_lock mask mask' slate h context ov w w1 w2 :
  let parent := ctx_parent_key_id context in let log := next_log_id (wa_db w) parent in
  lock_tx_context mask slate h context ov w = (Ok tt, w1) ->
  cancel_tx mask' parent (Some log) None w1 = (Ok tt, w2) ->
  keyed (wa_db w) -> NoDup ((fun p => p.1.1) <$> ctx_output_ids context) ->
  (forall k o, db_outputs (wa_db w) !! k = Some o -> ~ involved log parent o) ->
  (forall p o, p ∈ ctx_input_ids context -> db_outputs (wa_db w) !! input_key p = Some o -> od_root_key_id o = parent) ->
  (forall p, p ∈ ctx_input_ids context -> input_key p ∉ change_key <$> ctx_output_ids context) ->
  (forall p, p ∈ ctx_input_ids context -> exists o, db_outputs (wa_db w) !! input_key p = Some o
     /\ db_outputs (wa_db w2) !! input_key p = Some (set_od_status Unspent (set_od_tx_log_entry (Some log) o)))
  /\ (forall p, p ∈ ctx_output_ids context -> db_outputs (wa_db w2) !! change_key p = None)
  /\ (forall k, k ∉ input_key <$> ctx_input_ids context -> k ∉ change_key <$> ctx_output_ids context ->
       db_outputs (wa_db w2) !! k = db_outputs (wa_db w) !! k)
  /\ (exists t, db_tx_log (wa_db w2) !! to_key_u64 TX_LOG_ENTRY_PREFIX (id_to_bytes parent) log = Some t
       /\ tl_tx_type t = TxSentCancelled /\ tl_tx_slate_id t = Some (sl_id slate)).
Proof.
  intros parent log EL EC Hk Hn Hfresh Hroot Hdis.
  apply lock_tx_context_Ok in EL as ((Hin & Hch & Hoth & t & Et & Ei & Ep & Ety & Ec & Es & _) & _ & Hk1); [|done..].
  fold parent log in Hin, Hch, Hoth, Et, Ei, Ep.
  apply cancel_tx_inv in EC as (t' & Em & (Ho & Hlog & _)); [|done].
  assert (t = t') as <-.
  { apply list_elem_of_singleton. rewrite <- Em. apply list_elem_of_filter. split.
    - unfold tx_filter. rewrite Ep, Ei, bool_decide_eq_true_2, Z.eqb_refl by done. done.
    - apply elem_of_db_iter. rewrite Et. eexists. apply lookup_insert_eq. }
  split_and!.
  - intros p Hp. destruct (Hin p Hp (Hdis p Hp)) as (o & E0 & E1). exists o. split; [done|].
    rewrite Ho, E1. cbn. rewrite Ei, decide_True; [done|]. unfold involved. cbn. split_and!; [done..|by eapply Hroot].
  - intros p Hp. destruct (Hch p Hp) as (c & E1). rewrite Ho, E1. cbn. rewrite Ei, decide_True; done.
  - intros k H1' H2'. rewrite Ho, (Hoth k H1' H2'). destruct (db_outputs (wa_db w) !! k) as [o|] eqn:E0; [|done]. cbn.
    rewrite Ei, decide_False; [done|]. by eapply Hfresh.
  - eexists. rewrite Hlog, Ei, lookup_insert_eq. split; [reflexivity|]. cbn. by rewrite Ety.
Qed.
End cancelling.

(** ** Lemmas: payment proofs *)
Lemma be_bytes_length k n : String.length (be_bytes k n) = k.
Proof. revert n. induction k as [|k IH]; intros n; [done|]. cbn. rewrite length_append, IH. cbn. lia. Qed.
Lemma be_value_app acc s t : be_value acc (s +:+ t) = be_value (be_value acc s) t.
Proof. revert acc. induction s as [|c s IH]; intros acc; [done|]. apply IH. Qed.
Lemma be_value_bytes k n acc : 0 <= n < 256 ^ Z.of_nat k -> be_value acc (be_bytes k n) = acc * 256 ^ Z.of_nat k + n.
Proof.
  revert n acc. induction k as [|k IH]; intros n acc Hn; [cbn in *; lia|].
  rewrite Nat2Z.inj_succ, Z.pow_succ_r in * by lia. cbn [be_bytes]. rewrite be_value_app, IH.
  - cbn [be_value]. unfold byte. rewrite N_ascii_embedding by (pose proof (Z.mod_pos_bound n 256); lia).
    rewrite Z2N.id by (apply Z.mod_pos_bound; lia). pose proof (Z.div_mod n 256). nia.
  - split; [apply Z.div_pos; lia|]. apply Z.div_lt_upper_bound; lia.
Qed.

(** ** Lemmas on strings *)
Lemma substring_skip a n b : String.substring (String.length a) n (a +:+ b) = String.substring 0 n b.
Proof. induction a as [|c a IH]; [done|]. rewrite append_cons. exact IH. Qed.

Section proofs.
Context `{BuildProfile, GC : GrinCrates, !KeyLaws, !BinCrates, !BinLaws, !WalletCrates, !AddressCrates, !HexCrate,
  !NodeClient, !DalekCrates}.
Implicit Types (w : Wallet).

(** The message a payment proof signs has a fixed layout, from which amount, kernel
    and sender can be read back: no two payments have the same message. *)
Theorem payment_proof_message_roundtrip a c s msg :
  in_u64 a -> String.length (commit_bytes c) = 33%nat -> payment_proof_message a c s = Ok msg ->
  decode_payment_proof_message msg = Ok (a, c, s).
Proof.
  intros Ha Hc E. unfold payment_proof_message in E.
  assert (msg = be_bytes 8 a +:+ commit_bytes c +:+ dalek_pk_bytes s) as -> by congruence.
  unfold decode_payment_proof_message.
  assert (E1 : String.substring 0 8 (be_bytes 8 a +:+ commit_bytes c +:+ dalek_pk_bytes s) = be_bytes 8 a).
  { rewrite <- (be_bytes_length 8 a) at 1. apply substring_front. }
  assert (E2 : String.substring 8 33 (be_bytes 8 a +:+ commit_bytes c +:+ dalek_pk_bytes s) = commit_bytes c).
  { rewrite <- (be_bytes_length 8 a) at 1. rewrite <- Hc. by rewrite substring_skip, substring_front. }
  assert (E3 : String.substring 41 32 (be_bytes 8 a +:+ commit_bytes c +:+ dalek_pk_bytes s) = dalek_pk_bytes s).
  { replace 41%nat with (String.length (be_bytes 8 a +:+ commit_bytes c)) by (by rewrite length_append, be_bytes_length, Hc).
    rewrite <- (dalek_pk_length s) at 1. rewrite <- append_assoc, substring_skip. apply substring_all. }
  rewrite bool_decide_eq_true_2.
  2:{ rewrite (length_append (be_bytes 8 a)), (length_append (commit_bytes c)), be_bytes_length, Hc, dalek_pk_length. lia. }
  rewrite E1, E2, E3, dalek_pk_from_to, commit_from_bytes, be_value_bytes by exact Ha. done.
Qed.

Lemma check_proof_Ok k parent context slate orig_info p :
  check_proof k parent context slate orig_info p = Ok tt ->
  exists orig index key excess msg sig,
    orig_info = Some orig
    /\ sp_receiver_address orig = receiver_address p
    /\ ctx_payment_proof_derivation_index context = Some index
    /\ account_address k parent index = Ok (key, sender_address p)
    /\ calc_excess slate = Ok excess
    /\ payment_proof_message (sl_amount slate) excess (sender_address p) = Ok msg
    /\ receiver_signature p = Some sig /\ dalek_verify (receiver_address p) msg sig = true.
Proof.
  intros E. unfold check_proof in E. destruct orig_info as [orig|]; [|done]. cbn [ok_or mbind Res_bind] in E.
  destruct (ctx_payment_proof_derivation_index context) as [index|]; [|done].
  cbn [ok_or mbind Res_bind] in E. apply res_bind_Ok in E as ([key sender] & Ea & E).
  case_bool_decide as Es; [|done]. case_bool_decide as Er; [|done]. cbn [negb] in E.
  apply res_bind_Ok in E as (excess & Ex & E). apply res_bind_Ok in E as (msg & Em & E).
  destruct (receiver_signature p) as [sig|]; [|done]. cbn [ok_or mbind Res_bind] in E.
  destruct (dalek_verify (receiver_address p) msg sig) eqn:Ev; [|done]. subst sender.
  by exists orig, index, key, excess, msg, sig.
Qed.

(** What a checked payment proof means.  When the sender accepts the slate, nothing in
    the wallet has changed; and if the slate carries a proof, the first entry of the
    account for it asked for one from the same receiver, the sender named is the
    wallet's own address, and the receiver has signed the amount, the excess of the
    kernel and that address.  If it carries none, that entry did not ask for one. *)
Theorem payment_proof_checked mask parent context slate w w' :
  verify_slate_payment_proof mask parent context slate w = (Ok tt, w') ->
  w' = w /\ exists tx rest, sort_by_key tl_creation_ts (filter (fun t => tx_filter None (Some (sl_id slate)) (Some parent) false t = true)
                                   (db_iter (db_tx_log (wa_db w)))) = tx :: rest
  /\ match sl_payment_proof slate with
     | None => tl_payment_proof tx = None
     | Some p => exists orig index k key excess msg sig,
         tl_payment_proof tx = Some orig
         /\ sp_receiver_address orig = receiver_address p
         /\ ctx_payment_proof_derivation_index context = Some index
         /\ keychain mask w = (Ok k, w) /\ account_address k parent index = Ok (key, sender_address p)
         /\ calc_excess slate = Ok excess
         /\ payment_proof_message (sl_amount slate) excess (sender_address p) = Ok msg
         /\ receiver_signature p = Some sig /\ dalek_verify (receiver_address p) msg sig = true
     end.
Proof.
  unfold verify_slate_payment_proof. intros E. apply ST_bind_Ok in E as (l & w1 & E1 & E).
  unfold retrieve_txs in E1. apply ST_bind_Ok in E1 as (es & w0 & E0 & E1). apply getS_Ok in E0 as [-> ->].
  apply mretS_Ok in E1 as [El ->].
  destruct l as [|tx rest]; [done|].
  destruct (tl_payment_proof tx) as [orig|] eqn:Eo, (sl_payment_proof slate) as [p|]; [|done|done|].
  2:{ apply mretS_Ok in E as [_ ->]. split; [done|]. by exists tx, rest. }
  apply ST_bind_Ok in E as (o1 & w2 & E2 & E). apply liftS_Ok in E2 as [_ ->].
  apply ST_bind_Ok in E as (k & w3 & E3 & E). pose proof (keychain_Ok _ _ _ _ E3) as ->.
  apply liftS_Ok in E as [E ->]. split; [done|]. exists tx, rest. split; [done|].
  apply check_proof_Ok in E as (orig' & index & key & excess & msg & sig & [= <-] & Er & Ei & Ea & Ex & Em & Es & Ev).
  by exists orig, index, k, key, excess, msg, sig.
Qed.
End proofs.
