(* ===== verification/Slatepack.v ===== *)
(** * Slatepacks: slatepack/types.rs and util's byte_ser.rs

    A slate in its envelope: version, mode, sender, and a payload that may be
    encrypted to the addresses of its recipients together with the sender and the
    recipients themselves.  [age], the curve behind it and [grin_core]'s primitive
    writers are parameters. *)
From S2P Require Import Prelude.
From S2P Require Import RustStd.
From S2P Require Import Crates.
From S2P Require Import Effects.
From S2P Require Import Slate.
From S2P Require Import SlateV4.
From S2P Require Import SlateBin.
From S2P Require Import StateM.
From S2P Require Import Wallet.
From S2P Require Import Address.
From Stdlib Require Import Ascii.
#[local] Open Scope Z_scope.
#[local] Open Scope swap_scope.

(** What an [age] file can be opened with. *)
Inductive AgeDecryptor := Recipients | Passphrase.

Class SlatepackCrates `{AddressCrates} := {
  (* grin_core's ser and byteorder *)
  write_u32 : Z -> Written; read_u32 : Reader Z;
  write_bytes : string -> Written; read_bytes_len_prefix : Reader string;
  be_write_u32 : Z -> string; be_read_u32 : string -> Z;
  (* curves and encryption *)
  sha512 : string -> string;
  dalek_sk_bytes : DalekSecretKey -> string;
  StaticSecret : Type; XPublicKey : Type;
  static_secret : string -> StaticSecret;
  x_public : StaticSecret -> XPublicKey;
  edwards_to_montgomery : string -> option XPublicKey;   (* decompress, to_montgomery *)
  age_encrypt : Z -> list XPublicKey -> string -> Res string;
  age_decryptor : string -> Res AgeDecryptor;
  age_decrypt : StaticSecret -> string -> Res string;
}.

(** Documented behaviour. *)
Class SlatepackLaws `{SlatepackCrates} := {
  u32_reads n : 0 <= n < u32_modulus -> reads (write_u32 n) read_u32 n;
  (* [read_fixed_bytes] refuses more than 100,000 bytes *)
  bytes_reads b : Z.of_nat (String.length b) <= 100000 -> reads (write_bytes b) read_bytes_len_prefix b;
  write_u32_be n : 0 <= n < u32_modulus -> write_u32 n = Ok (be_write_u32 n);
  be_length n : String.length (be_write_u32 n) = 4%nat;
  be_read_write n : 0 <= n < u32_modulus -> be_read_u32 (be_write_u32 n) = n;
  read_u8_any c s : exists n, read_u8 (String c s) = Ok (n, s);
  u8_length n b : write_u8 n = Ok b -> String.length b = 1%nat;
  u16_length n b : write_u16 n = Ok b -> String.length b = 2%nat;
  bytes_length s b : write_bytes s = Ok b -> (String.length s <= String.length b)%nat;
  fixed_bytes_length s b : write_fixed_bytes s = Ok b -> String.length b = String.length s;
  sha512_length s : String.length (sha512 s) = 64%nat;
  dalek_sk_length k : String.length (dalek_sk_bytes k) = 32%nat;
  (* the Montgomery form of an ed25519 public key is the x25519 public key of the
     scalar that its secret key is hashed to *)
  montgomery_public k :
    edwards_to_montgomery (dalek_pk_bytes (dalek_public k))
    = Some (x_public (static_secret (String.substring 0 32 (sha512 (dalek_sk_bytes k)))));
  age_round n keys data enc sec :
    age_encrypt n keys data = Ok enc -> x_public sec ∈ keys ->
    age_decryptor enc = Ok Recipients /\ age_decrypt sec enc = Ok data;
}.

(** ** util's byte_ser.rs: bytes as they are *)
Section byte_ser.
Context `{BuildProfile}.
(** [to_bytes] of what serialises itself as bytes, an error becomes [e]. *)
Definition to_bytes_or (e : string) (w : Written) : Res string :=
  match w with Err _ => Err e | _ => w end.
Definition from_bytes {A} (rd : Reader A) (bytes : string) : Res A := '(a, _) ← rd bytes; Ok a.
End byte_ser.

Section data.
Context `{GrinTypes}.
Definition SLATEPACK_MAJOR_VERSION : Z := 1.
Definition SLATEPACK_MINOR_VERSION : Z := 0.
Record SlatepackVersion := mkSlatepackVersion { sv_major : Z; sv_minor : Z }.
Record SlatepackEncMetadata := mkSlatepackEncMetadata {
  em_sender : option SlatepackAddress; em_recipients : list SlatepackAddress }.
Record Slatepack := mkSlatepack {
  sp_slatepack : SlatepackVersion;
  sp_mode : Z;                                   (* 0 = plain text, 1 = age encrypted *)
  sp_sender : option SlatepackAddress;
  sp_encrypted_meta : SlatepackEncMetadata;
  sp_payload : string;
  sp_future_test_mode : bool }.

(** serde defaults *)
Definition default_sender_none : option SlatepackAddress := None.
Definition default_recipients_empty : list SlatepackAddress := [].
Definition default_enc_metadata : SlatepackEncMetadata := mkSlatepackEncMetadata None [].
Definition default_future_test_mode : bool := false.
Definition recipients_empty (value : list SlatepackAddress) : bool := match value with [] => true | _ => false end.
Definition enc_metadata_is_empty (d : SlatepackEncMetadata) : bool :=
  negb (is_some (em_sender d)) && recipients_empty (em_recipients d).
Definition Slatepack_default : Slatepack :=
  mkSlatepack (mkSlatepackVersion SLATEPACK_MAJOR_VERSION SLATEPACK_MINOR_VERSION) 0 None default_enc_metadata "" false.

Definition set_sp_sender (s : option SlatepackAddress) (p : Slatepack) : Slatepack :=
  mkSlatepack (sp_slatepack p) (sp_mode p) s (sp_encrypted_meta p) (sp_payload p) (sp_future_test_mode p).
Definition set_sp_payload (b : string) (p : Slatepack) : Slatepack :=
  mkSlatepack (sp_slatepack p) (sp_mode p) (sp_sender p) (sp_encrypted_meta p) b (sp_future_test_mode p).
Definition add_recipient (address : SlatepackAddress) (p : Slatepack) : Slatepack :=
  mkSlatepack (sp_slatepack p) (sp_mode p) (sp_sender p)
    (mkSlatepackEncMetadata (em_sender (sp_encrypted_meta p)) (em_recipients (sp_encrypted_meta p) ++ [address]))
    (sp_payload p) (sp_future_test_mode p).
Definition recipients (p : Slatepack) : list SlatepackAddress := em_recipients (sp_encrypted_meta p).
(** Newer than what this code was written for: only a warning. *)
Definition ver_check_warn (p : Slatepack) : bool :=
  (SLATEPACK_MAJOR_VERSION <? sv_major (sp_slatepack p))
  || (sv_major (sp_slatepack p) =? SLATEPACK_MAJOR_VERSION) && (SLATEPACK_MINOR_VERSION <? sv_minor (sp_slatepack p)).

(** The version in the JSON form. *)
Definition version_serialize (v : SlatepackVersion) : string := fmt_u64 (sv_major v) +:+ "." +:+ fmt_u64 (sv_minor v).
Definition parse_u8 (s : string) : Res Z := parse_int 0 255 s.
Definition version_part (s : string) : Res Z :=
  match parse_u8 s with Err e => Err ("Cannot parse version: " +:+ e) | r => r end.
Definition version_deserialize (s : string) : Res SlatepackVersion :=
  match split_char "." s with
  | [major; minor] => u ← version_part major; v ← version_part minor; Ok (mkSlatepackVersion u v)
  | _ => Err "Cannot parse version"
  end.
End data.

Section code.
Context `{BuildProfile, GC : GrinCrates, !BinCrates, !WalletCrates, !AddressCrates, !SlatepackCrates}.

Definition u32_sub (x y : Z) : Res Z := uint_result u32_modulus "subtract" (x - y).
Definition as_u32 (x : Z) : Z := x mod u32_modulus.
Definition wopt {A} (f : A -> Written) (o : option A) : Written := match o with Some a => f a | None => wnil end.

(** ** The binary form *)
Definition version_write (v : SlatepackVersion) : Written := write_u8 (sv_major v) ⊕ write_u8 (sv_minor v).
Definition version_read : Reader SlatepackVersion :=
  major ← read_u8; minor ← read_u8; mret (mkSlatepackVersion major minor).

Definition opt_fields_len (sp : Slatepack) : Res Z :=
  match sp_sender sp with Some s => unwrap (encoded_len s) | None => Ok 0 end.

Definition slatepack_write (sp : Slatepack) : Written :=
  version_write (sp_slatepack sp)
  ⊕ write_u8 (sp_mode sp)
  ⊕ write_u16 (set_flag (is_some (sp_sender sp)) 1 0)
  ⊕ (n ← opt_fields_len sp; write_u32 (as_u32 n))
  ⊕ wopt slatepack_address_write (sp_sender sp)
  ⊕ write_bytes (sp_payload sp).

(** An address, taken off the number of bytes that are left. *)
Definition address_counted (remaining : Z) : Reader (SlatepackAddress * Z) :=
  addr ← slatepack_address_read;
  len ← rlift (corrupted (encoded_len addr));
  remaining ← rlift (u32_sub remaining (as_u32 len));
  mret (addr, remaining).
Definition opt_address (present : bool) (remaining : Z) : Reader (option SlatepackAddress * Z) :=
  rif present ('(addr, remaining) ← address_counted remaining; mret (Some addr, remaining)) (None, remaining).
(** [while n > 0 { read_u8()?; n -= 1 }] *)
Fixpoint skip_bytes (n : nat) : Reader unit :=
  match n with
  | O => mret tt
  | S n' => _ ← read_u8; skip_bytes n'
  end.

Definition slatepack_read : Reader Slatepack :=
  slatepack ← version_read;
  mode ← read_u8;
  if 1 <? mode then rlift (Err "UnexpectedData") else
  opt_flags ← read_u16;
  bytes_to_payload ← read_u32;
  '(sender, bytes_to_payload) ← opt_address (has_flag opt_flags 1) bytes_to_payload;
  _ ← skip_bytes (Z.to_nat bytes_to_payload);
  payload ← read_bytes_len_prefix;
  mret (mkSlatepack slatepack mode sender default_enc_metadata payload false).

(** ** The metadata that is encrypted with the payload *)
Definition meta_encoded_len (m : SlatepackEncMetadata) : Res Z :=
  let length := 2 in
  length ← match em_sender m with Some s => n ← encoded_len s; Ok (length + n) | None => Ok length end;
  if recipients_empty (em_recipients m) then Ok length
  else res_fold (fun l r => n ← encoded_len r; Ok (l + n)) (length + 2) (em_recipients m).

(** [if len as u16 > std::u16::MAX { .. }] *)
Definition recipients_write (l : list SlatepackAddress) : Written :=
  if recipients_empty l then wnil else
  let len := Z.of_nat (length l) in
  if 65535 <? len mod 65536 then Err "CorruptedData"
  else write_u16 (len mod 65536) ⊕ wconcat slatepack_address_write l.

Definition meta_write (m : SlatepackEncMetadata) : Written :=
  (n ← corrupted (meta_encoded_len m); write_u32 (as_u32 n))
  ⊕ write_u16 (set_flag (negb (recipients_empty (em_recipients m))) 2 (set_flag (is_some (em_sender m)) 1 0))
  ⊕ wopt slatepack_address_write (em_sender m)
  ⊕ recipients_write (em_recipients m).

Fixpoint addresses_counted (count : nat) (remaining : Z) : Reader (list SlatepackAddress * Z) :=
  match count with
  | O => mret ([], remaining)
  | S n =>
      '(addr, remaining) ← address_counted remaining;
      '(l, remaining) ← addresses_counted n remaining;
      mret (addr :: l, remaining)
  end.

Definition recipients_counted (present : bool) (remaining : Z) : Reader (list SlatepackAddress * Z) :=
  rif present
    (count ← read_u16;
     remaining ← rlift (u32_sub remaining 2);
     addresses_counted (Z.to_nat count) remaining) ([], remaining).

Definition meta_read : Reader SlatepackEncMetadata :=
  bytes_remaining ← read_u32;
  opt_flags ← read_u16;
  bytes_remaining ← rlift (u32_sub bytes_remaining 2);
  '(sender, bytes_remaining) ← opt_address (has_flag opt_flags 1) bytes_remaining;
  '(recipients, bytes_remaining) ← recipients_counted (has_flag opt_flags 2) bytes_remaining;
  _ ← skip_bytes (Z.to_nat bytes_remaining);
  mret (mkSlatepackEncMetadata sender recipients).

(** ** Encryption *)
(** slatepack/address.rs: the x25519 key of an address. *)
Definition x_of_address (a : SlatepackAddress) : Res XPublicKey :=
  ok_or "ED25519Key(Can't decompress ed25519 Edwards Point)" (edwards_to_montgomery (dalek_pk_bytes (spa_pub_key a))).

(** [rand::random::<u8>()] *)
Definition random_u8 : M ascii := n ← draw; mret (ascii_of_N (Z.to_N (n mod 256))).
Fixpoint random_bytes (n : nat) : M string :=
  match n with
  | O => mret ""
  | S n' => c ← random_u8; r ← random_bytes n'; mret (String c r)
  end.
Definition slice_from (n : nat) (s : string) : Res string :=
  if (n <=? String.length s)%nat then Ok (drop_chars n s) else Panic "range start index out of range".
Definition pad_test_data (data : string) : M string :=
  let extra_bytes := 139 in
  len_bytes ← liftM (slice 0 4 data);
  meta_len ← liftM (u32_add (be_read_u32 len_bytes) extra_bytes);
  extra ← random_bytes 139;
  mret (be_write_u32 meta_len +:+ drop_chars 4 data +:+ extra).

Definition try_encrypt_payload (recipients : list SlatepackAddress) (sp : Slatepack) : M Slatepack :=
  match recipients with
  | [] => mret sp
  | _ =>
      let meta := mkSlatepackEncMetadata (sp_sender sp) (em_recipients (sp_encrypted_meta sp)) in
      bin_meta ← liftM (to_bytes_or "SlatepackSer" (meta_write meta));
      bin_meta ← (if sp_future_test_mode sp then pad_test_data bin_meta else mret bin_meta);
      keys ← liftM (res_map x_of_address recipients);
      n ← draw;
      encrypted ← liftM (age_encrypt n keys (bin_meta +:+ sp_payload sp));
      mret (mkSlatepack (sp_slatepack sp) 1 None meta encrypted (sp_future_test_mode sp))
  end.

(** The key of a recipient, from the secret key of the address. *)
Definition decryption_key (k : DalekSecretKey) : StaticSecret :=
  static_secret (String.substring 0 32 (sha512 (dalek_sk_bytes k))).

Definition try_decrypt_payload (dec_key : option DalekSecretKey) (sp : Slatepack) : Res Slatepack :=
  if sp_mode sp =? 0 then Ok sp else
  match dec_key with
  | None => Ok sp
  | Some k =>
      decryptor ← age_decryptor (sp_payload sp);
      match decryptor with
      | Passphrase => Panic "internal error: entered unreachable code"
      | Recipients =>
          decrypted ← age_decrypt (decryption_key k) (sp_payload sp);
          len_bytes ← slice 0 4 decrypted;
          let meta_len := be_read_u32 len_bytes in
          payload ← slice_from (Z.to_nat meta_len + 4) decrypted;
          meta ← match from_bytes meta_read (String.substring 0 (Z.to_nat meta_len + 4) decrypted) with
                 | Err _ => Err "SlatepackSer"
                 | r => r
                 end;
          Ok (mkSlatepack (sp_slatepack sp) 0 (em_sender meta)
                (mkSlatepackEncMetadata (em_sender (sp_encrypted_meta sp)) (em_recipients meta))
                payload (sp_future_test_mode sp))
      end
  end.
End code.

(** ** Lemmas: addresses *)
Section lemmas.
Context `{BuildProfile, GC : GrinCrates, !BinCrates, !WalletCrates, !AddressCrates, !SlatepackCrates,
  !BinLaws, !AddressLaws, !SlatepackLaws}.
Implicit Types (a : SlatepackAddress) (m : SlatepackEncMetadata) (sp : Slatepack).

Lemma rbind_run {A B} (rd : Reader A) (k : A -> Reader B) s x s' : rd s = Ok (x, s') -> (rd ≫= k) s = k x s'.
Proof. unfold mbind, Reader_bind. by intros ->. Qed.
Lemma rlift_run {A} (r : Res A) x s : r = Ok x -> rlift r s = Ok (x, s).
Proof. by intros ->. Qed.
Lemma wseq_Ok w1 w2 b : w1 ⊕ w2 = Ok b -> exists x y, w1 = Ok x /\ w2 = Ok y /\ b = x +:+ y.
Proof.
  intros E. apply res_bind_Ok in E as (x & Ex & E). apply res_bind_Ok in E as (y & Ey & E).
  injection E as <-. eauto.
Qed.

Definition len (s : string) : Z := Z.of_nat (String.length s).
Lemma len_app s1 s2 : len (s1 +:+ s2) = len s1 + len s2.
Proof. unfold len. rewrite length_append. lia. Qed.
Lemma len_nonneg s : 0 <= len s.
Proof. unfold len. lia. Qed.

Lemma address_write_inv a b :
  slatepack_address_write a = Ok b -> encoded_len a = Ok (len b) /\ 0 < len b <= 256
    /\ forall r, slatepack_address_read (b +:+ r) = Ok (a, r).
Proof.
  intros E. pose proof E as E0. unfold slatepack_address_write in E. apply res_bind_Ok in E as (s & Es & E).
  destruct (SlatepackAddress_to_string a) as [s'|e|e] eqn:Ea; [|discriminate Es..]. injection Es as ->.
  destruct (Nat.ltb_spec 255 (String.length s)) as [|Hl]; [discriminate E|].
  apply wseq_Ok in E as (x & y & Ex & Ey & ->). apply u8_length in Ex. apply fixed_bytes_length in Ey.
  split_and!; [|unfold len; rewrite length_append; lia..|].
  - unfold encoded_len. rewrite Ea. cbn. f_equal. unfold len. rewrite length_append. lia.
  - intros r. by apply (slatepack_address_roundtrip a s r Ea).
Qed.

Lemma u32_sub_ok x y : 0 <= x - y < u32_modulus -> u32_sub x y = Ok (x - y).
Proof.
  intros Hx. unfold u32_sub, uint_result. rewrite (proj2 (Z.leb_le _ _)), (proj2 (Z.ltb_lt _ _)) by lia. done.
Qed.
Lemma as_u32_id x : 0 <= x < u32_modulus -> as_u32 x = x.
Proof. apply Z.mod_small. Qed.

Lemma address_counted_run a b rem r :
  slatepack_address_write a = Ok b -> len b <= rem < u32_modulus ->
  address_counted rem (b +:+ r) = Ok ((a, rem - len b), r).
Proof.
  intros Ea Hr. apply address_write_inv in Ea as (El & Hb & Er). unfold address_counted.
  rewrite (rbind_run _ _ _ _ _ (Er r)), El. cbn [corrupted].
  rewrite (rbind_run _ _ _ _ _ (rlift_run _ _ _ eq_refl)).
  rewrite as_u32_id by lia. by rewrite (rbind_run _ _ _ _ _ (rlift_run _ _ _ (u32_sub_ok rem (len b) ltac:(lia)))).
Qed.

Lemma opt_address_run o b rem r :
  wopt slatepack_address_write o = Ok b -> len b <= rem < u32_modulus ->
  opt_address (is_some o) rem (b +:+ r) = Ok ((o, rem - len b), r).
Proof.
  destruct o as [a|]; cbn; intros Ea Hr.
  - unfold opt_address, rif. by rewrite (rbind_run _ _ _ _ _ (address_counted_run a b rem r Ea Hr)).
  - injection Ea as <-. unfold opt_address, rif. cbn. by rewrite Z.sub_0_r.
Qed.

Lemma skip_bytes_run s r : skip_bytes (String.length s) (s +:+ r) = Ok (tt, r).
Proof.
  induction s as [|c s IH]; [done|]. destruct (read_u8_any c (s +:+ r)) as [n E].
  cbn [String.length skip_bytes]. rewrite append_cons. by rewrite (rbind_run _ _ _ _ _ E).
Qed.
Lemma skip_len_run s r n : n = len s -> skip_bytes (Z.to_nat n) (s +:+ r) = Ok (tt, r).
Proof. intros ->. unfold len. rewrite Nat2Z.id. apply skip_bytes_run. Qed.

(** ** The binary form *)

(** What fits: bytes for the version, a known mode, and a payload the reader accepts. *)
Definition slatepack_fits sp : Prop :=
  0 <= sv_major (sp_slatepack sp) < 256 /\ 0 <= sv_minor (sp_slatepack sp) < 256 /\ 0 <= sp_mode sp <= 1
  /\ len (sp_payload sp) <= 100000.
(** What the binary form keeps. *)
Definition on_the_wire sp : Slatepack :=
  mkSlatepack (sp_slatepack sp) (sp_mode sp) (sp_sender sp) default_enc_metadata (sp_payload sp) false.

(** The bytes of a slatepack with fields that are not known yet: flags, and bytes
    in front of the payload. *)
Definition future_write (flags : Z) (fields : string) sp : Written :=
  version_write (sp_slatepack sp)
  ⊕ write_u8 (sp_mode sp)
  ⊕ write_u16 flags
  ⊕ (n ← opt_fields_len sp; write_u32 (n + len fields))
  ⊕ wopt slatepack_address_write (sp_sender sp)
  ⊕ Ok fields
  ⊕ write_bytes (sp_payload sp).

Lemma wopt_len o b :
  wopt slatepack_address_write o = Ok b ->
  match o with Some s => unwrap (encoded_len s) | None => Ok 0 end = Ok (len b) /\ len b <= 256.
Proof.
  destruct o as [s|]; cbn; intros E.
  - apply address_write_inv in E as (-> & Hl & _). split; [done|lia].
  - injection E as <-. split; [done|]. by vm_compute.
Qed.

Lemma future_reads flags fields sp b r :
  slatepack_fits sp -> 0 <= flags < 65536 -> has_flag flags 1 = is_some (sp_sender sp) -> len fields < 2 ^ 31 ->
  future_write flags fields sp = Ok b ->
  slatepack_read (b +:+ r) = Ok (on_the_wire sp, r).
Proof.
  intros (Hma & Hmi & Hmo & Hp) Hf Hs Hx E. unfold future_write in E.
  apply wseq_Ok in E as (bv & y & Ev & E & ->). apply wseq_Ok in Ev as (b1 & b2 & E1 & E2 & ->).
  apply wseq_Ok in E as (bm & y2 & Em & E & ->). apply wseq_Ok in E as (bf & y3 & Ef & E & ->).
  apply wseq_Ok in E as (bl & y4 & El & E & ->). apply wseq_Ok in E as (bs & y5 & Es & E & ->).
  apply wseq_Ok in E as (bx & bp & Ex & Ep & ->). injection Ex as ->.
  destruct (wopt_len _ _ Es) as [Hlen Hb]. unfold opt_fields_len in El. rewrite Hlen in El. cbn in El.
  pose proof (len_nonneg bs). pose proof (len_nonneg bx).
  unfold slatepack_read. rewrite !append_assoc. unfold version_read.
  assert (Hv : version_read (b1 +:+ b2 +:+ bm +:+ bf +:+ bl +:+ bs +:+ bx +:+ bp +:+ r)
    = Ok (sp_slatepack sp, bm +:+ bf +:+ bl +:+ bs +:+ bx +:+ bp +:+ r)).
  { unfold version_read. rewrite (rbind_run _ _ _ _ _ (u8_reads _ Hma _ _ E1)).
    rewrite (rbind_run _ _ _ _ _ (u8_reads _ Hmi _ _ E2)). by destruct (sp_slatepack sp). }
  rewrite (rbind_run _ _ _ _ _ Hv). rewrite (rbind_run _ _ _ _ _ (u8_reads (sp_mode sp) ltac:(lia) _ _ Em)).
  destruct (Z.ltb_spec 1 (sp_mode sp)); [lia|].
  rewrite (rbind_run _ _ _ _ _ (u16_reads _ Hf _ _ Ef)).
  rewrite (rbind_run _ _ _ _ _ (u32_reads (len bs + len bx) ltac:(unfold u32_modulus; lia) _ _ El)). rewrite Hs.
  rewrite (rbind_run _ _ _ _ _ (opt_address_run _ _ (len bs + len bx) _ Es ltac:(unfold u32_modulus; lia))).
  rewrite (rbind_run _ _ _ _ _ (skip_len_run bx (bp +:+ r) (len bs + len bx - len bs) ltac:(lia))).
  by rewrite (rbind_run _ _ _ _ _ (bytes_reads _ Hp _ _ Ep)).
Qed.

Lemma slatepack_write_future sp :
  slatepack_write sp = future_write (set_flag (is_some (sp_sender sp)) 1 0) "" sp
  \/ forall b, slatepack_write sp <> Ok b.
Proof.
  destruct (slatepack_write sp) as [b|e|e] eqn:E; [left|by right..]. rewrite <- E.
  unfold slatepack_write in E. do 4 apply wseq_Ok in E as (? & ? & ? & E & ->).
  apply wseq_Ok in E as (bs & bp & Es & Ep & _). destruct (wopt_len _ _ Es) as [Hlen Hb].
  unfold slatepack_write, future_write, opt_fields_len. rewrite Hlen. cbn [mbind Res_bind].
  pose proof (len_nonneg bs). rewrite as_u32_id by (unfold u32_modulus; lia).
  rewrite Es, Ep. cbn. by rewrite Z.add_0_r.
Qed.

Lemma slatepack_reads sp : slatepack_fits sp -> reads (slatepack_write sp) slatepack_read (on_the_wire sp).
Proof.
  intros Hf b r E. destruct (slatepack_write_future sp) as [E'|Hn]; [|by destruct (Hn b)].
  eapply (future_reads (set_flag (is_some (sp_sender sp)) 1 0) "" sp); [done| | |done|by rewrite <- E'].
  - by destruct (sp_sender sp); vm_compute.
  - by destruct (sp_sender sp).
Qed.

(** A slatepack is read back from its binary form, in front of whatever follows, but
    for the metadata that is only written when the payload is encrypted; and the form
    may grow: with unknown flags set, and unknown fields in front of the payload
    that the length counts, it is read as the same slatepack. *)
Theorem slatepack_bin_roundtrip sp b r :
  slatepack_fits sp ->
  (slatepack_write sp = Ok b -> slatepack_read (b +:+ r) = Ok (on_the_wire sp, r))
  /\ (forall flags fields, 0 <= flags < 65536 -> has_flag flags 1 = is_some (sp_sender sp) ->
        len fields < 2 ^ 31 -> future_write flags fields sp = Ok b ->
        slatepack_read (b +:+ r) = Ok (on_the_wire sp, r)).
Proof.
  intros Hf. split; [by apply slatepack_reads|intros; by eapply future_reads].
Qed.

(** ** The encrypted metadata *)
Lemma addresses_len l b n0 :
  wconcat slatepack_address_write l = Ok b ->
  res_fold (fun l r => n ← encoded_len r; Ok (l + n)) n0 l = Ok (n0 + len b)
  /\ len b <= 256 * Z.of_nat (length l).
Proof.
  revert b n0. induction l as [|a l IH]; intros b n0 E.
  - injection E as <-. cbn [res_fold]. change (len "") with 0. rewrite Z.add_0_r. split; [done|]. cbn. lia.
  - apply wseq_Ok in E as (x & y & Ex & Ey & ->). apply address_write_inv in Ex as (El & Hx & _).
    cbn [res_fold]. rewrite El. cbn. destruct (IH y (n0 + len x) Ey) as [-> Hy]. rewrite len_app. split; [|lia].
    f_equal. lia.
Qed.

Lemma addresses_counted_run l b rem r :
  wconcat slatepack_address_write l = Ok b -> len b <= rem < u32_modulus ->
  addresses_counted (length l) rem (b +:+ r) = Ok ((l, rem - len b), r).
Proof.
  revert b rem. induction l as [|a l IH]; intros b rem E Hr.
  - injection E as <-. cbn. by rewrite Z.sub_0_r.
  - apply wseq_Ok in E as (x & y & Ex & Ey & ->). rewrite len_app in Hr. pose proof (len_nonneg y).
    rewrite append_assoc. cbn [length addresses_counted].
    rewrite (rbind_run _ _ _ _ _ (address_counted_run a x rem _ Ex ltac:(lia))).
    pose proof (address_write_inv a x Ex) as (_ & Hx & _).
    rewrite (rbind_run _ _ _ _ _ (IH y (rem - len x) Ey ltac:(lia))). rewrite len_app. by rewrite Z.sub_add_distr.
Qed.

Definition counted m : Prop := Z.of_nat (length (em_recipients m)) < 65536.

Lemma recipients_write_inv l b :
  l <> [] -> Z.of_nat (length l) < 65536 -> recipients_write l = Ok b ->
  exists x y, write_u16 (Z.of_nat (length l)) = Ok x /\ wconcat slatepack_address_write l = Ok y
    /\ b = x +:+ y /\ len x = 2.
Proof.
  intros Hne Hl E. unfold recipients_write in E. destruct l as [|a l]; [done|]. cbn [recipients_empty] in E.
  rewrite Z.mod_small in E by lia. destruct (Z.ltb_spec 65535 (Z.of_nat (length (a :: l)))); [lia|].
  apply wseq_Ok in E as (x & y & Ex & Ey & ->). exists x, y. split_and!; [done..|].
  apply u16_length in Ex. unfold len. lia.
Qed.

Lemma recipients_len l b n0 :
  Z.of_nat (length l) < 65536 -> recipients_write l = Ok b ->
  (if recipients_empty l then Ok n0 else res_fold (fun l r => n ← encoded_len r; Ok (l + n)) (n0 + 2) l)
    = Ok (n0 + len b) /\ len b <= 2 ^ 24 + 2.
Proof.
  intros Hl E. destruct (decide (l = [])) as [->|Hne].
  - injection E as <-. change (len "") with 0. rewrite Z.add_0_r. split; [done|lia].
  - destruct (recipients_write_inv l b Hne Hl E) as (x & y & Ex & Ey & -> & Hx).
    destruct (addresses_len l y (n0 + 2) Ey) as [Hf Hy]. rewrite len_app, Hx. split; [|lia].
    destruct l; [done|]. cbn [recipients_empty]. rewrite Hf. f_equal. lia.
Qed.

Lemma recipients_counted_run l b rem r :
  Z.of_nat (length l) < 65536 -> recipients_write l = Ok b -> len b <= rem < u32_modulus ->
  recipients_counted (negb (recipients_empty l)) rem (b +:+ r) = Ok ((l, rem - len b), r).
Proof.
  intros Hl E Hr. destruct (decide (l = [])) as [->|Hne].
  - injection E as <-. cbn. by rewrite Z.sub_0_r.
  - destruct (recipients_write_inv l b Hne Hl E) as (x & y & Ex & Ey & -> & Hx). rewrite len_app, Hx in *.
    pose proof (len_nonneg y). assert (recipients_empty l = false) as -> by by destruct l.
    unfold recipients_counted, rif. cbn [negb]. rewrite append_assoc.
    rewrite (rbind_run _ _ _ _ _ (u16_reads (Z.of_nat (length l)) ltac:(lia) _ _ Ex)), Nat2Z.id.
    rewrite (rbind_run _ _ _ _ _ (rlift_run _ _ _ (u32_sub_ok rem 2 ltac:(lia)))).
    rewrite (addresses_counted_run l y (rem - 2) r Ey ltac:(lia)). by rewrite Z.sub_add_distr.
Qed.

Lemma meta_write_inv m b :
  counted m -> meta_write m = Ok b ->
  exists body, b = be_write_u32 (len body) +:+ body /\ 2 <= len body < 2 ^ 25
    /\ forall extra r, len extra < 2 ^ 31 ->
         meta_read (be_write_u32 (len body + len extra) +:+ body +:+ extra +:+ r) = Ok (m, r).
Proof.
  intros Hc E. unfold meta_write in E. apply wseq_Ok in E as (bl & y & El & E & ->).
  apply wseq_Ok in E as (bf & y2 & Ef & E & ->). apply wseq_Ok in E as (bs & br & Es & Er & ->).
  destruct (wopt_len _ _ Es) as [Hs Hsl]. destruct (recipients_len _ _ (2 + len bs) Hc Er) as [Hr Hrl].
  pose proof (len_nonneg bs). pose proof (len_nonneg br).
  assert (Hf : len bf = 2) by (apply u16_length in Ef; unfold len; lia).
  assert (Hm : meta_encoded_len m = Ok (2 + len bs + len br)).
  { unfold meta_encoded_len. rewrite <- Hr. destruct (em_sender m) as [a|].
    - cbn in Es. apply address_write_inv in Es as (-> & _). done.
    - injection Es as <-. done. }
  rewrite Hm in El. cbn in El. rewrite as_u32_id, write_u32_be in El by (unfold u32_modulus; lia).
  injection El as <-. exists (bf +:+ bs +:+ br).
  assert (Hb : len (bf +:+ bs +:+ br) = 2 + len bs + len br) by (rewrite !len_app; lia).
  rewrite Hb. split; [done|]. split; [lia|]. intros extra r Hx. pose proof (len_nonneg extra).
  set (n := 2 + len bs + len br + len extra). unfold meta_read.
  rewrite (rbind_run _ _ _ _ _ (u32_reads n ltac:(unfold u32_modulus; lia) _ _
    (write_u32_be n ltac:(unfold u32_modulus; lia)))).
  set (flags := set_flag _ _ _) in Ef.
  assert (Hfl : 0 <= flags < 65536) by (unfold flags; by destruct (em_sender m), (em_recipients m)).
  rewrite !append_assoc. rewrite (rbind_run _ _ _ _ _ (u16_reads _ Hfl _ _ Ef)).
  rewrite (rbind_run _ _ _ _ _ (rlift_run _ _ _ (u32_sub_ok n 2 ltac:(unfold u32_modulus; lia)))).
  assert (has_flag flags 1 = is_some (em_sender m)) as ->
    by (unfold flags; by destruct (em_sender m), (em_recipients m)).
  rewrite (rbind_run _ _ _ _ _ (opt_address_run _ bs (n - 2) _ Es ltac:(unfold u32_modulus; lia))).
  assert (has_flag flags 2 = negb (recipients_empty (em_recipients m))) as ->
    by (unfold flags; by destruct (em_sender m), (em_recipients m)).
  rewrite (rbind_run _ _ _ _ _ (recipients_counted_run _ br (n - 2 - len bs) _ Hc Er ltac:(unfold u32_modulus; lia))).
  rewrite (rbind_run _ _ _ _ _ (skip_len_run extra r (n - 2 - len bs - len br) ltac:(lia))).
  by destruct m.
Qed.

(** ** Encryption *)
Lemma slice_front n s1 s2 : String.length s1 = n -> slice 0 n (s1 +:+ s2) = Ok s1.
Proof.
  intros <-. unfold slice. rewrite bool_decide_eq_true_2 by (rewrite length_append; lia). by rewrite substring_front.
Qed.
Lemma slice_from_app s1 s2 : slice_from (String.length s1) (s1 +:+ s2) = Ok s2.
Proof.
  unfold slice_from. rewrite length_append, (proj2 (Nat.leb_le _ _)) by lia. by rewrite drop_chars_app.
Qed.
Lemma random_bytes_Ok n t b t' : random_bytes n t = (Ok b, t') -> String.length b = n.
Proof.
  revert t b t'. induction n as [|n IH]; intros t b t' E; [by injection E as <- _|].
  cbn [random_bytes] in E. apply M_bind_Ok in E as (c & t1 & _ & E). apply M_bind_Ok in E as (r & t2 & Er & E).
  injection E as <- _. cbn. by rewrite (IH _ _ _ Er).
Qed.
Lemma pad_test_data_Ok n body t b t' :
  0 <= n < 2 ^ 25 -> pad_test_data (be_write_u32 n +:+ body) t = (Ok b, t') ->
  exists extra, len extra = 139 /\ b = be_write_u32 (n + len extra) +:+ body +:+ extra.
Proof.
  intros Hn E. unfold pad_test_data in E. apply M_bind_Ok in E as (lb & t1 & El & E).
  rewrite slice_front in El by apply be_length. apply liftM_Ok in El as [[= <-] ->].
  apply M_bind_Ok in E as (ml & t1 & El & E). rewrite be_read_write in El by (unfold u32_modulus; lia).
  apply liftM_Ok in El as [El ->]. unfold u32_add, uint_result in El.
  rewrite (proj2 (Z.leb_le _ _)), (proj2 (Z.ltb_lt _ _)) in El by (unfold u32_modulus; lia). injection El as <-.
  apply M_bind_Ok in E as (extra & t2 & Ee & E). apply mretM_Ok in E as [-> _]. apply random_bytes_Ok in Ee.
  exists extra. unfold len. rewrite Ee. split; [done|].
  pose proof (drop_chars_app (be_write_u32 n) body) as Ed. rewrite be_length in Ed. by rewrite Ed.
Qed.

Lemma x_of_address_key a k :
  spa_pub_key a = dalek_public k -> x_of_address a = Ok (x_public (decryption_key k)).
Proof. unfold x_of_address. intros ->. by rewrite montgomery_public. Qed.

(** Decryption of a payload that starts with metadata as it was written, with or without
    bytes that are not known yet. *)
Lemma decrypt_run k sp body extra m payload :
  sp_mode sp = 1 -> age_decryptor (sp_payload sp) = Ok Recipients ->
  age_decrypt (decryption_key k) (sp_payload sp) = Ok ((be_write_u32 (len body + len extra) +:+ body +:+ extra) +:+ payload) ->
  len body < 2 ^ 25 -> len extra < 2 ^ 31 ->
  meta_read (be_write_u32 (len body + len extra) +:+ body +:+ extra +:+ "") = Ok (m, "") ->
  try_decrypt_payload (Some k) sp
  = Ok (mkSlatepack (sp_slatepack sp) 0 (em_sender m)
          (mkSlatepackEncMetadata (em_sender (sp_encrypted_meta sp)) (em_recipients m)) payload (sp_future_test_mode sp)).
Proof.
  intros Hm Hd Hk Hb Hx Er. pose proof (len_nonneg body). pose proof (len_nonneg extra).
  unfold try_decrypt_payload. rewrite Hm, Hd, Hk. cbn [Z.eqb mbind Res_bind].
  rewrite append_assoc, slice_front by apply be_length. cbn [mbind Res_bind].
  rewrite be_read_write by (unfold u32_modulus; lia).
  set (meta_bytes := be_write_u32 (len body + len extra) +:+ body +:+ extra).
  assert (Hl : (Z.to_nat (len body + len extra) + 4)%nat = String.length meta_bytes).
  { unfold meta_bytes. rewrite !length_append, be_length. unfold len in *. lia. }
  assert (Es : be_write_u32 (len body + len extra) +:+ (body +:+ extra) +:+ payload = meta_bytes +:+ payload)
    by (unfold meta_bytes; by rewrite !append_assoc).
  rewrite Es, Hl, slice_from_app, substring_front. cbn [mbind Res_bind].
  unfold from_bytes. rewrite append_nil_r in Er. fold meta_bytes in Er. rewrite Er. done.
Qed.

Lemma opens rs sp sp' t t' k a :
  try_encrypt_payload rs sp t = (Ok sp', t') ->
  a ∈ rs -> spa_pub_key a = dalek_public k -> Z.of_nat (length (recipients sp)) < 65536 ->
  sp_slatepack sp' = sp_slatepack sp /\ sp_mode sp' = 1 /\ sp_sender sp' = None /\ try_decrypt_payload None sp' = Ok sp'
  /\ try_decrypt_payload (Some k) (on_the_wire sp')
     = Ok (mkSlatepack (sp_slatepack sp) 0 (sp_sender sp) (mkSlatepackEncMetadata None (recipients sp)) (sp_payload sp) false).
Proof.
  intros E Ha Hk Hc. destruct rs as [|r0 rs]; [by apply elem_of_nil in Ha|].
  set (m := mkSlatepackEncMetadata (sp_sender sp) (em_recipients (sp_encrypted_meta sp))).
  unfold try_encrypt_payload in E. fold m in E. apply M_bind_Ok in E as (bin & t1 & Eb & E).
  apply liftM_Ok in Eb as [Eb ->]. unfold to_bytes_or in Eb.
  destruct (meta_write m) as [b|e|e] eqn:Ew; [|discriminate Eb..]. injection Eb as ->.
  destruct (meta_write_inv m bin Hc Ew) as (body & -> & Hb & Hread).
  apply M_bind_Ok in E as (bin2 & t2 & Eb2 & E). apply M_bind_Ok in E as (keys & t3 & Ek & E).
  apply liftM_Ok in Ek as [Ek ->]. apply M_bind_Ok in E as (n & t4 & _ & E).
  apply M_bind_Ok in E as (enc & t5 & Ee & E). apply liftM_Ok in Ee as [Ee ->]. injection E as <- _.
  assert (Hx : exists extra, len extra < 2 ^ 31 /\ bin2 = be_write_u32 (len body + len extra) +:+ body +:+ extra).
  { destruct (sp_future_test_mode sp).
    - destruct (pad_test_data_Ok (len body) body _ _ _ ltac:(lia) Eb2) as (extra & Hl & ->). exists extra. by rewrite Hl.
    - injection Eb2 as <- _. exists "". change (len "") with 0. by rewrite Z.add_0_r, append_nil_r. }
  destruct Hx as (extra & Hx & ->). split_and!; [done..|].
  assert (Hin : x_public (decryption_key k) ∈ keys).
  { apply res_map_Ok in Ek. apply list_elem_of_lookup in Ha as [i Hi].
    destruct (Forall2_lookup_l _ _ _ _ _ Ek Hi) as (x & Hxi & Exi). rewrite (x_of_address_key a k Hk) in Exi.
    injection Exi as <-. by eapply list_elem_of_lookup_2. }
  destruct (age_round _ _ _ _ _ Ee Hin) as [Hdec Hopen].
  exact (decrypt_run k (on_the_wire (mkSlatepack (sp_slatepack sp) 1 None m enc (sp_future_test_mode sp)))
    body extra m (sp_payload sp) eq_refl Hdec Hopen ltac:(lia) Hx (Hread extra "" Hx)).
Qed.

(** An encrypted slatepack can be opened with the key of any of the addresses it
    was encrypted to, and gives back payload, sender and recipients, also when the
    metadata carries bytes that this version does not know (the test mode).  Before that
    the sender is not to be seen, and without a key the slatepack is
    given back as it is. *)
Theorem encrypted_slatepack_opens rs sp sp' t t' k a :
  try_encrypt_payload rs sp t = (Ok sp', t') ->
  a ∈ rs -> spa_pub_key a = dalek_public k -> Z.of_nat (length (recipients sp)) < 65536 ->
  sp_mode sp' = 1 /\ sp_sender sp' = None /\ try_decrypt_payload None sp' = Ok sp'
  /\ try_decrypt_payload (Some k) (on_the_wire sp')
     = Ok (mkSlatepack (sp_slatepack sp) 0 (sp_sender sp) (mkSlatepackEncMetadata None (recipients sp)) (sp_payload sp) false).
Proof. intros E Ha Hk Hc. by destruct (opens rs sp sp' t t' k a E Ha Hk Hc) as (_ & H'). Qed.

(** Too many recipients are not refused: the check casts the count to two bytes before it
    compares, so it never holds, and what is written is the count modulo 65536. *)
Theorem recipients_check_idle l :
  l <> [] ->
  recipients_write l = write_u16 (Z.of_nat (length l) mod 65536) ⊕ wconcat slatepack_address_write l.
Proof.
  intros Hl. unfold recipients_write. destruct l as [|a l]; [done|]. cbn [recipients_empty].
  pose proof (Z.mod_pos_bound (Z.of_nat (length (a :: l))) 65536 eq_refl).
  by destruct (Z.ltb_spec 65535 (Z.of_nat (length (a :: l)) mod 65536)); [lia|].
Qed.

(** A length that is too small for the sender it announces: the subtraction overflows,
    which aborts the reader or makes it ask for about 2^32 bytes more. *)
Theorem short_length_overflows a b rem r :
  slatepack_address_write a = Ok b -> 0 <= rem < len b ->
  address_counted rem (b +:+ r)
  = if overflow_checks then Panic "attempt to subtract with overflow"
    else Ok ((a, u32_modulus + rem - len b), r).
Proof.
  intros Ea Hr. apply address_write_inv in Ea as (El & Hb & Er). unfold address_counted.
  rewrite (rbind_run _ _ _ _ _ (Er r)), El. cbn [corrupted].
  rewrite (rbind_run _ _ _ _ _ (rlift_run _ _ _ eq_refl)). rewrite as_u32_id by (unfold u32_modulus; lia).
  unfold u32_sub, uint_result. destruct (Z.leb_spec 0 (rem - len b)); [lia|]. cbn [andb].
  unfold mbind, Reader_bind, rlift. destruct overflow_checks; [done|]. cbn [mbind Res_bind].
  assert ((rem - len b) mod u32_modulus = u32_modulus + rem - len b) as ->; [|done].
  symmetry. apply (Z.mod_unique _ _ (-1)); unfold u32_modulus; lia.
Qed.
End lemmas.

(** ** The version as text *)
Lemma split_char_none c s : all_chars (fun x => negb (Ascii.eqb x c)) s = true -> split_char c s = [s].
Proof.
  induction s as [|x s IH]; [done|]. cbn. rewrite andb_true_iff. intros [Hx Hs].
  destruct (Ascii.eqb x c); [done|]. by rewrite IH.
Qed.
Lemma split_char_app c s1 s2 :
  all_chars (fun x => negb (Ascii.eqb x c)) s1 = true -> split_char c (s1 +:+ String c s2) = s1 :: split_char c s2.
Proof.
  induction s1 as [|x s IH]; intros Hs.
  - change ("" +:+ String c s2) with (String c s2). cbn. by rewrite Ascii.eqb_refl.
  - rewrite append_cons. cbn in *. apply andb_true_iff in Hs as [Hx Hs]. destruct (Ascii.eqb x c); [done|].
    by rewrite IH.
Qed.
Lemma byte_text n :
  0 <= n < 256 -> version_part (fmt_u64 n) = Ok n /\ all_chars (fun x => negb (Ascii.eqb x ".")) (fmt_u64 n) = true.
Proof.
  intros Hn. set (good n := match version_part (fmt_u64 n) with Ok n' => n' =? n | _ => false end
                 && all_chars (fun x => negb (Ascii.eqb x ".")) (fmt_u64 n)).
  assert (Hg : forallb good (Z.of_nat <$> seq 0 256) = true) by (vm_compute; reflexivity).
  apply forallb_forall with (x := n) in Hg.
  - apply andb_true_iff in Hg as [H1 H2]. split; [|done]. destruct (version_part (fmt_u64 n)); [|done..].
    by apply Z.eqb_eq in H1 as ->.
  - apply list_elem_of_In, list_elem_of_fmap. exists (Z.to_nat n). split; [lia|]. apply elem_of_seq. lia.
Qed.
Lemma version_text_roundtrip v :
  0 <= sv_major v < 256 -> 0 <= sv_minor v < 256 -> version_deserialize (version_serialize v) = Ok v.
Proof.
  intros H1 H2. destruct (byte_text _ H1) as [P1 D1], (byte_text _ H2) as [P2 D2].
  unfold version_deserialize, version_serialize. change ("." +:+ fmt_u64 (sv_minor v)) with (String "." (fmt_u64 (sv_minor v))).
  rewrite split_char_app, split_char_none, P1 by done. cbn. rewrite P2. by destruct v.
Qed.
