(* ===== verification/Serde.v ===== *)
(** * serde: values, fields and what derived code promises

    serde and serde_json are not part of the repository.  [Tree] is a value of serde_json; a
    struct that derives [Serialize] and [Deserialize] is the list of its fields, each with its
    attributes as the source gives them: the functions of [with], the predicate of
    [skip_serializing_if] and the [default].  What the crates do with them is the class
    [SerdeCrate], and what is documented of it [SerdeLaws].  [Visitor] is an implementation. *)
From S2P Require Import Prelude.
From S2P Require Import RustStd.
#[local] Open Scope Z_scope.

(** ** Values; the only numbers in them are integers *)
Inductive Tree :=
| TNull | TBool (b : bool) | TNum (n : Z) | TStr (s : string) | TArr (l : list Tree) | TObj (l : list (string * Tree)).

(** [Some] as its value and [None] as null; the elements of a vector. *)
Definition ser_option {A} (ser : A -> Tree) (o : option A) : Tree := from_option ser TNull o.
Definition ser_vec {A} (ser : A -> Tree) (l : list A) : Tree := TArr (ser <$> l).

(** ** Structs *)
Record Field := mkField {
  fd_type : Type;
  fd_name : string;
  fd_ser : fd_type -> Tree;
  fd_de : Tree -> Res fd_type;
  fd_skip : fd_type -> bool;             (* skip_serializing_if *)
  fd_default : option fd_type }.         (* default *)
Arguments mkField {fd_type} _ _ _ _ _.
Definition required {A} (name : string) (ser : A -> Tree) (de : Tree -> Res A) : Field :=
  mkField name ser de (fun _ => false) None.

(** The values of the fields, and the entries they are written as. *)
Fixpoint Vals (fs : list Field) : Type :=
  match fs with [] => unit | f :: fs' => fd_type f * Vals fs' end.
Fixpoint entries (fs : list Field) : Vals fs -> list (string * Tree) :=
  match fs with
  | [] => fun _ => []
  | f :: fs' => fun v =>
      if fd_skip f v.1 then entries fs' v.2 else (fd_name f, fd_ser f v.1) :: entries fs' v.2
  end.

(** ** What a field must do to be read back *)
Definition field_ok (f : Field) (x : fd_type f) : Prop :=
  if fd_skip f x then fd_default f = Some x else fd_de f (fd_ser f x) = Ok x.
Fixpoint vals_ok (fs : list Field) : Vals fs -> Prop :=
  match fs with [] => fun _ => True | f :: fs' => fun v => field_ok f v.1 /\ vals_ok fs' v.2 end.
Definition names (fs : list Field) : list string := fd_name <$> fs.
Definition known (fs : list Field) (e : string * Tree) : Prop := e.1 ∈ names fs.
#[export] Instance known_dec fs e : Decision (known fs e) := decide (e.1 ∈ names fs).

(** What comes under a name is read by its field, or makes its decoder panic. *)
Fixpoint reads_entry (fs : list Field) (k : string) (t : Tree) : Prop :=
  match fs with
  | [] => True
  | f :: fs' => if decide (fd_name f = k) then exists x, fd_de f t = Ok x else reads_entry fs' k t
  end.
Fixpoint panics_on (fs : list Field) (k : string) (t : Tree) (e : string) : Prop :=
  match fs with
  | [] => False
  | f :: fs' => if decide (fd_name f = k) then fd_de f t = Panic e else panics_on fs' k t e
  end.

(** ** The crates *)
Class SerdeCrate := {
  de_string : Tree -> Res string;                                      (* String::deserialize *)
  de_option : forall {A}, (Tree -> Res A) -> Tree -> Res (option A);   (* Option::<T>::deserialize *)
  de_vec : forall {A}, (Tree -> Res A) -> Tree -> Res (list A);        (* Vec::<T>::deserialize *)
  de_uint : Z -> Tree -> Res Z;                                        (* u8 and so on, by its maximum *)
  ser_struct : forall fs, Vals fs -> Tree;                             (* derived *)
  de_struct : forall fs, Tree -> Res (Vals fs);
}.
Class SerdeLaws `{SerdeCrate} := {
  de_string_str s : de_string (TStr s) = Ok s;
  de_string_calm t e : de_string t <> Panic e;
  de_option_null {A} (de : Tree -> Res A) : de_option de TNull = Ok None;
  de_option_value {A} (de : Tree -> Res A) t : t <> TNull -> de_option de t = (x ← de t; Ok (Some x));
  de_vec_array {A} (de : Tree -> Res A) l : de_vec de (TArr l) = res_map de l;
  de_uint_num max n : 0 <= n <= max -> de_uint max (TNum n) = Ok n;
  ser_struct_entries fs v : ser_struct fs v = TObj (entries fs v);
  (* fields come in any order, and unknown names are passed over *)
  struct_any_order fs v l :
    NoDup (names fs) -> vals_ok fs v -> filter (known fs) l ≡ₚ entries fs v -> de_struct fs (TObj l) = Ok v;
  (* entries are read as they come: a panic ends it *)
  struct_panics fs l k t l2 e :
    NoDup l.*1 -> Forall (fun p => reads_entry fs p.1 p.2) l -> k ∉ l.*1 -> panics_on fs k t e ->
    de_struct fs (TObj (l ++ (k, t) :: l2)) = Panic e;
}.

(** ** Lemmas *)
Lemma entries_names fs v e : e ∈ entries fs v -> e.1 ∈ names fs.
Proof.
  induction fs as [|f fs IH]; cbn; [by intros ?%elem_of_nil|].
  case_match; [intros ?%IH; by right|]. intros [->|He]%elem_of_cons; [by left|right; by eapply IH].
Qed.
Lemma entries_nodup fs v : NoDup (names fs) -> NoDup (entries fs v).*1.
Proof.
  induction fs as [|f fs IH]; cbn; [constructor|]. intros [Hf Hn]%NoDup_cons. case_match; [by apply IH|].
  cbn. constructor; [|by apply IH]. intros (e & E & He)%list_elem_of_fmap. apply Hf. cbn in E. rewrite E. by apply entries_names in He.
Qed.

(** What fields write they read. *)
Lemma reads_entry_tail f fs e : e.1 ∈ names fs -> fd_name f ∉ names fs -> reads_entry fs e.1 e.2 -> reads_entry (f :: fs) e.1 e.2.
Proof. intros He Hf Hr. cbn. case_decide as E; [|done]. by rewrite E in Hf. Qed.
Lemma entries_read fs v : NoDup (names fs) -> vals_ok fs v -> Forall (fun p => reads_entry fs p.1 p.2) (entries fs v).
Proof.
  induction fs as [|f fs IH]; [constructor|]. intros [Hf Hn]%NoDup_cons [Ho Hv]. specialize (IH _ Hn Hv).
  assert (Ht : Forall (fun p => reads_entry (f :: fs) p.1 p.2) (entries fs v.2)).
  { rewrite Forall_forall in IH |- *. intros e He. apply reads_entry_tail; [by apply entries_names in He|done|by apply IH]. }
  unfold field_ok in Ho. cbn [entries]. destruct (fd_skip f v.1); [done|]. constructor; [|done].
  cbn. rewrite decide_True by done. by eexists.
Qed.
Lemma filter_known_entries fs v : filter (known fs) (entries fs v) = entries fs v.
Proof.
  assert (H : Forall (known fs) (entries fs v)) by (apply Forall_forall; intros e; apply entries_names).
  induction H as [|e l He _ IH]; [done|]. rewrite filter_cons_True by done. by f_equal.
Qed.

Section lemmas.
Context `{SerdeCrate, !SerdeLaws}.

Lemma de_option_ser {A} (ser : A -> Tree) (de : Tree -> Res A) (o : option A) :
  (forall x, ser x <> TNull) -> (forall x, o = Some x -> de (ser x) = Ok x) ->
  de_option de (ser_option ser o) = Ok o.
Proof.
  intros Hn Hd. destruct o as [x|]; [|apply de_option_null]. cbn. by rewrite de_option_value, (Hd x eq_refl) by done.
Qed.
Lemma de_vec_ser {A} (ser : A -> Tree) (de : Tree -> Res A) (l : list A) :
  Forall (fun x => de (ser x) = Ok x) l -> de_vec de (ser_vec ser l) = Ok l.
Proof. intros Hl. unfold ser_vec. rewrite de_vec_array. apply res_map_Ok. by apply Forall2_fmap_l, Forall_Forall2_diag. Qed.
Lemma struct_roundtrip fs v : NoDup (names fs) -> vals_ok fs v -> de_struct fs (ser_struct fs v) = Ok v.
Proof. intros Hn Hv. rewrite ser_struct_entries. apply struct_any_order; [done..|]. by rewrite filter_known_entries. Qed.
Lemma struct_not_null fs v : ser_struct fs v <> TNull.
Proof. by rewrite ser_struct_entries. Qed.
End lemmas.
