(* ===== verification/Ser.v ===== *)
(** * The JSON of slates: slate_versions/ser.rs and the attributes of v4.rs

    The texts of keys, addresses, signatures and proofs, each as the pair of functions that
    serde calls [with]; the fields of a [SlateV4] with their attributes, as structs of
    [Serde].  The functions of [grin_core] ([secp_ser]) are parameters.  [ser_slate_json] is
    the [SlateJson] of [SlateV4] made of them, over any text form of values. *)
From S2P Require Import Prelude.
From S2P Require Import RustStd.
From S2P Require Import Crates.
From S2P Require Import Effects.
From S2P Require Import Slate.
From S2P Require Import SlateV4.
From S2P Require Import SlateBin.
From S2P Require Import StateM.
From S2P Require Import Wallet.
From S2P Require Import Address.
From S2P Require Import Updater.
From S2P Require Import Slatepack.
From S2P Require Import Serde.
From Stdlib Require Import Ascii DecimalString.
#[local] Open Scope Z_scope.
#[local] Open Scope swap_scope.

(** What the code takes from [ed25519_dalek], [x25519_dalek], [secp256k1zkp], [uuid] and
    [grin_core::libtx::secp_ser]. *)
Class SerCrates `{AddressCrates} := {
  dalek_sk_bytes : DalekSecretKey -> string;
  xDalekPublicKey : Type;
  x_pk_bytes : xDalekPublicKey -> string;
  x_pk_from : string -> xDalekPublicKey;                 (* of 32 bytes *)
  rangeproof_bytes : RangeProof -> string;
  rangeproof_deserialize : string -> Res RangeProof;
  blind_as_hex : BlindingFactor -> Tree;
  blind_from_hex : Tree -> Res BlindingFactor;
  commitment_as_hex : Commitment -> Tree;
  commitment_from_hex : Tree -> Res Commitment;
  rangeproof_as_hex : RangeProof -> Tree;
  pubkey_ser : PublicKey -> Tree;
  pubkey_de : Tree -> Res PublicKey;
  sig_ser : Signature -> Tree;
  option_sig_ser : option Signature -> Tree;
  option_sig_de : Tree -> Res (option Signature);
  string_or_u64_ser : Z -> Tree;
  string_or_u64_de : Tree -> Res Z;
  fee_ser : FeeFields -> Tree;
  fee_de : Tree -> Res FeeFields;
  uuid_ser : Uuid -> Tree;
  uuid_de : Tree -> Res Uuid;
  identifier_ser : Identifier -> Tree;
}.
(** Documented behaviour: what is written is read back. *)
Class SerLaws `{SerCrates} := {
  dalek_sk_from_to k : dalek_sk_from_bytes (dalek_sk_bytes k) = Some k;
  x_pk_length k : String.length (x_pk_bytes k) = 32%nat;
  x_pk_from_to k : x_pk_from (x_pk_bytes k) = k;
  rangeproof_from_to p : rangeproof_deserialize (rangeproof_bytes p) = Ok p;
  blind_from_to b : blind_from_hex (blind_as_hex b) = Ok b;
  commitment_from_to c : commitment_from_hex (commitment_as_hex c) = Ok c;
  pubkey_from_to k : pk_is_valid k = true -> pubkey_de (pubkey_ser k) = Ok k;
  option_sig_from_to s : option_sig_de (option_sig_ser (Some s)) = Ok (Some s);
  u64_from_to n : in_u64 n -> string_or_u64_de (string_or_u64_ser n) = Ok n;
  fee_from_to f : fee_de (fee_ser f) = Ok f;
  fee_zero_only f : ff_is_zero f = true -> f = fee_zero;
  fee_zero_zero : ff_is_zero fee_zero = true;
  uuid_from_to u : uuid_de (uuid_ser u) = Ok u;
}.
(** [serde_json::to_string] of a value, and [serde_json::from_str]. *)
Class SerdeText := { tree_to_string : Tree -> string; tree_from_str : string -> Res Tree }.
Class SerdeTextLaws `{SerdeText} := tree_from_to t : tree_from_str (tree_to_string t) = Ok t.

Section code.
Context `{BuildProfile, GC : GrinCrates, BC : !BinCrates, WC : !WalletCrates, AC : !AddressCrates, !HexCrate, !Base64Crate, SD : !SerdeCrate, SC : !SerCrates}.

(** ** ser.rs *)
Definition as_base64 (bytes : string) : Tree := TStr (base64_encode bytes).
Definition from_base64 (s : string) : Res string := ok_or "base64" (base64_decode s).
Definition bytes_from_base64 (t : Tree) : Res string := s ← de_string t; from_base64 s.
Definition to_hex (bytes : string) : Tree := TStr (hex_encode bytes).
Definition from_hex (s : string) : Res string := ok_or "hex" (hex_decode s).
Definition bytes_from_hex (t : Tree) : Res string := s ← de_string t; from_hex s.
(** [Option::<String>::deserialize(d).and_then(|res| match res ..)] *)
Definition with_option {A} (k : string -> Res A) (t : Tree) : Res (option A) :=
  res ← de_option de_string t;
  match res with Some s => x ← k s; Ok (Some x) | None => Ok None end.
(** [let mut b = [0u8; n]; b.copy_from_slice(&bytes[0..n])] *)
Definition array (n : nat) (bytes : string) : Res string := slice 0 n bytes.
Definition pk_from_bytes (b : string) : Res DalekPublicKey := ok_or "signature error" (dalek_pk_from_bytes b).
Definition sig_from_bytes (b : string) : Res DalekSignature := ok_or "signature error" (dalek_sig_from_bytes b).

Definition option_rangeproof_hex_ser : option RangeProof -> Tree := ser_option (fun p => to_hex (rangeproof_bytes p)).
Definition option_rangeproof_hex_de : Tree -> Res (option RangeProof) :=
  with_option (fun s => val ← from_hex s; rangeproof_deserialize val).

Definition ov3_ser (a : OnionV3Address) : Tree := TStr (to_ov3_str a).
Definition ov3_de (t : Tree) : Res OnionV3Address := s ← de_string t; ov3_try_from s.
Definition option_ov3_ser : option OnionV3Address -> Tree := ser_option ov3_ser.
Definition option_ov3_de : Tree -> Res (option OnionV3Address) := with_option ov3_try_from.

Definition dalek_seckey_ser (k : DalekSecretKey) : Tree := to_hex (dalek_sk_bytes k).
Definition dalek_seckey_de (t : Tree) : Res DalekSecretKey :=
  bytes ← bytes_from_hex t; ok_or "signature error" (dalek_sk_from_bytes bytes).

Definition dalek_pubkey_ser (k : DalekPublicKey) : Tree := to_hex (dalek_pk_bytes k).
Definition dalek_pubkey_de (t : Tree) : Res DalekPublicKey := bytes ← bytes_from_hex t; pk_from_bytes bytes.
Definition option_dalek_pubkey_ser : option DalekPublicKey -> Tree := ser_option dalek_pubkey_ser.
Definition option_dalek_pubkey_de : Tree -> Res (option DalekPublicKey) :=
  with_option (fun s => bytes ← from_hex s; b ← array 32 bytes; pk_from_bytes b).

Definition dalek_pubkey_base64_ser (k : DalekPublicKey) : Tree := as_base64 (dalek_pk_bytes k).
Definition dalek_pubkey_base64_de (t : Tree) : Res DalekPublicKey := bytes ← bytes_from_base64 t; pk_from_bytes bytes.
Definition option_dalek_pubkey_base64_ser : option DalekPublicKey -> Tree := ser_option dalek_pubkey_base64_ser.
Definition option_dalek_pubkey_base64_de : Tree -> Res (option DalekPublicKey) :=
  with_option (fun s => bytes ← from_base64 s; b ← array 32 bytes; pk_from_bytes b).

Definition dalek_xpubkey_ser (k : xDalekPublicKey) : Tree := to_hex (x_pk_bytes k).
Definition dalek_xpubkey_de (t : Tree) : Res xDalekPublicKey := bytes ← bytes_from_hex t; b ← array 32 bytes; Ok (x_pk_from b).
Definition option_xdalek_pubkey_ser : option xDalekPublicKey -> Tree := ser_option dalek_xpubkey_ser.
Definition option_xdalek_pubkey_de : Tree -> Res (option xDalekPublicKey) :=
  with_option (fun s => bytes ← from_hex s; b ← array 32 bytes; Ok (x_pk_from b)).

Definition dalek_sig_ser (s : DalekSignature) : Tree := to_hex (dalek_sig_bytes s).
Definition dalek_sig_de (t : Tree) : Res DalekSignature := bytes ← bytes_from_hex t; b ← array 64 bytes; sig_from_bytes b.
Definition option_dalek_sig_ser : option DalekSignature -> Tree := ser_option dalek_sig_ser.
Definition option_dalek_sig_de : Tree -> Res (option DalekSignature) :=
  with_option (fun s => bytes ← from_hex s; b ← array 64 bytes; sig_from_bytes b).
Definition option_dalek_sig_base64_ser : option DalekSignature -> Tree := ser_option (fun s => as_base64 (dalek_sig_bytes s)).
Definition option_dalek_sig_base64_de : Tree -> Res (option DalekSignature) :=
  with_option (fun s => bytes ← from_base64 s; b ← array 64 bytes; sig_from_bytes b).

Definition uuid_base64_ser (u : Uuid) : Tree := as_base64 (uuid_as_bytes u).
Definition uuid_base64_de (t : Tree) : Res Uuid := bytes ← bytes_from_base64 t; b ← array 16 bytes; Ok (uuid_from_bytes b).

(** [u16::from_str_radix(s, 10)] *)
Definition parse_u16 (s : string) : Res Z :=
  match parse_int 0 65535 s with Err e => Err ("Cannot parse version: " +:+ e) | r => r end.
Definition version_info_ser (v : VersionCompatInfoV4) : Tree :=
  TStr (fmt_u64 (v4_version v) +:+ ":" +:+ fmt_u64 (v4_block_header_version v)).
Definition version_info_de (t : Tree) : Res VersionCompatInfoV4 :=
  s ← de_string t;
  match split_char ":" s with
  | [a; b] => u ← parse_u16 a; v ← parse_u16 b; Ok (mkVersionCompatInfoV4 u v)
  | _ => Err "Cannot parse version"
  end.

Definition state_label (st : SlateStateV4) : string :=
  match st with
  | UnknownV4 => "NA" | Standard1V4 => "S1" | Standard2V4 => "S2" | Standard3V4 => "S3"
  | Invoice1V4 => "I1" | Invoice2V4 => "I2" | Invoice3V4 => "I3"
  end.
Definition slate_state_ser (st : SlateStateV4) : Tree := TStr (state_label st).
Definition slate_state_de (t : Tree) : Res SlateStateV4 :=
  s ← de_string t;
  if String.eqb s "NA" then Ok UnknownV4 else if String.eqb s "S1" then Ok Standard1V4
  else if String.eqb s "S2" then Ok Standard2V4 else if String.eqb s "S3" then Ok Standard3V4
  else if String.eqb s "I1" then Ok Invoice1V4 else if String.eqb s "I2" then Ok Invoice2V4
  else if String.eqb s "I3" then Ok Invoice3V4 else Err "Invalid Slate state".

(** ** v4.rs: the fields and their attributes *)
Definition is_none {A} (o : option A) : bool := negb (is_some o).
Definition default_payment_none : option PaymentInfoV4 := None.
Definition default_coms_none : option (list CommitsV4) := None.
Definition default_kernel_features_none : option KernelFeaturesArgsV4 := None.
Definition default_part_sig_none : option Signature := None.
Definition default_receiver_signature_none : option DalekSignature := None.
Definition default_range_proof : option RangeProof := None.

Definition participant_v4_fields : list Field :=
  [ required "xs" pubkey_ser pubkey_de;
    required "nonce" pubkey_ser pubkey_de;
    mkField "part" option_sig_ser option_sig_de is_none (Some default_part_sig_none) ].
Definition participant_v4_vals (d : ParticipantDataV4) : Vals participant_v4_fields :=
  (v4_xs d, (v4_nonce d, (v4_part d, tt))).
Definition participant_v4_ser (d : ParticipantDataV4) : Tree := ser_struct participant_v4_fields (participant_v4_vals d).
Definition participant_v4_de (t : Tree) : Res ParticipantDataV4 :=
  '(xs, (nonce, (part, _))) ← de_struct participant_v4_fields t; Ok (mkParticipantDataV4 xs nonce part).

Definition payment_v4_fields : list Field :=
  [ required "saddr" dalek_pubkey_ser dalek_pubkey_de;
    required "raddr" dalek_pubkey_ser dalek_pubkey_de;
    mkField "rsig" option_dalek_sig_ser option_dalek_sig_de is_none (Some default_receiver_signature_none) ].
Definition payment_v4_vals (p : PaymentInfoV4) : Vals payment_v4_fields := (v4_saddr p, (v4_raddr p, (v4_rsig p, tt))).
Definition payment_v4_ser (p : PaymentInfoV4) : Tree := ser_struct payment_v4_fields (payment_v4_vals p).
Definition payment_v4_de (t : Tree) : Res PaymentInfoV4 :=
  '(saddr, (raddr, (rsig, _))) ← de_struct payment_v4_fields t; Ok (mkPaymentInfoV4 saddr raddr rsig).

Definition commits_v4_fields : list Field :=
  [ mkField "f" TNum (de_uint 255) output_feature_is_plain (Some default_output_feature);
    required "c" commitment_as_hex commitment_from_hex;
    mkField "p" option_rangeproof_hex_ser option_rangeproof_hex_de is_none (Some default_range_proof) ].
Definition commits_v4_vals (c : CommitsV4) : Vals commits_v4_fields := (com_f c, (com_c c, (com_p c, tt))).
Definition commits_v4_ser (c : CommitsV4) : Tree := ser_struct commits_v4_fields (commits_v4_vals c).
Definition commits_v4_de (t : Tree) : Res CommitsV4 :=
  '(f, (c, (p, _))) ← de_struct commits_v4_fields t; Ok (mkCommitsV4 f c p).

Definition args_v4_fields : list Field := [ required "lock_hgt" TNum (de_uint (u64_modulus - 1)) ].
Definition args_v4_vals (a : KernelFeaturesArgsV4) : Vals args_v4_fields := (lock_hgt a, tt).
Definition args_v4_ser (a : KernelFeaturesArgsV4) : Tree := ser_struct args_v4_fields (args_v4_vals a).
Definition args_v4_de (t : Tree) : Res KernelFeaturesArgsV4 :=
  '(h, _) ← de_struct args_v4_fields t; Ok (mkKernelFeaturesArgsV4 h).

Definition slate_v4_fields : list Field :=
  [ required "ver" version_info_ser version_info_de;
    required "id" uuid_ser uuid_de;
    required "sta" slate_state_ser slate_state_de;
    mkField "off" blind_as_hex blind_from_hex offset_is_zero (Some default_offset_zero);
    mkField "num_parts" TNum (de_uint 255) num_parts_is_2 (Some default_num_participants_2);
    mkField "amt" string_or_u64_ser string_or_u64_de u64_is_blank (Some default_u64_0);
    mkField "fee" fee_ser fee_de fee_is_zero (Some default_fee);
    mkField "feat" TNum (de_uint 255) u8_is_blank (Some default_u8_0);
    mkField "ttl" string_or_u64_ser string_or_u64_de u64_is_blank (Some default_u64_0);
    required "sigs" (ser_vec participant_v4_ser) (de_vec participant_v4_de);
    mkField "coms" (ser_option (ser_vec commits_v4_ser)) (de_option (de_vec commits_v4_de)) is_none (Some default_coms_none);
    mkField "proof" (ser_option payment_v4_ser) (de_option payment_v4_de) is_none (Some default_payment_none);
    mkField "feat_args" (ser_option args_v4_ser) (de_option args_v4_de) is_none (Some default_kernel_features_none) ].
Definition slate_v4_vals (s : SlateV4) : Vals slate_v4_fields :=
  (v4_ver s, (v4_id s, (v4_sta s, (v4_off s, (v4_num_parts s, (v4_amt s, (v4_fee s, (v4_feat s, (v4_ttl s,
    (v4_sigs s, (v4_coms s, (v4_proof s, (v4_feat_args s, tt))))))))))))).
Definition slate_v4_ser (s : SlateV4) : Tree := ser_struct slate_v4_fields (slate_v4_vals s).
Definition slate_v4_de (t : Tree) : Res SlateV4 :=
  '(ver, (id, (sta, (off, (num_parts, (amt, (fee, (feat, (ttl, (sigs, (coms, (proof, (feat_args, _))))))))))))) ←
    de_struct slate_v4_fields t;
  Ok (mkSlateV4 ver id sta off num_parts amt fee feat ttl sigs coms proof feat_args).

(** *** mod.rs: an untagged enum of one variant *)
Definition versioned_slate_de (t : Tree) : Res VersionedSlate :=
  match slate_v4_de t with
  | Ok s => Ok (VS4 s)
  | Err _ => Err "data did not match any variant of untagged enum VersionedSlate"
  | Panic e => Panic e
  end.
Definition versioned_slate_ser (v : VersionedSlate) : Tree := match v with VS4 s => slate_v4_ser s end.

Definition ser_slate_json `{!SerdeText} : SlateJson := {|
  slate_v4_to_json s := Ok (tree_to_string (slate_v4_ser s));
  versioned_slate_of_json s := t ← tree_from_str s; versioned_slate_de t |}.

(** *** The coinbase a mining node asks for; the features are unit variants *)
Inductive CbFeatures := CbCoinbase.
Record CbOutputV4 := mkCbOutputV4 { cbo_features : CbFeatures; cbo_commit : Commitment; cbo_proof : RangeProof }.
Record CbKernelV4 := mkCbKernelV4 { cbk_features : CbFeatures; cbk_excess : Commitment; cbk_excess_sig : Signature }.
Record CoinbaseV4 := mkCoinbaseV4 { cbv_output : CbOutputV4; cbv_kernel : CbKernelV4; cbv_key_id : option Identifier }.
Inductive VersionedCoinbase := VC4 (c : CoinbaseV4).

Definition cb_output_of (o : Output) : CbOutputV4 := mkCbOutputV4 CbCoinbase (out_commit o) (out_proof o).
Definition cb_kernel_of (k : TxKernel) : CbKernelV4 := mkCbKernelV4 CbCoinbase (kern_excess k) (kern_sig k).
Definition coinbase_of (cb : CbData) : CoinbaseV4 := mkCoinbaseV4 (cb_output_of (cb_output cb)) (cb_kernel_of (cb_kernel cb)) (cb_key_id cb).
Definition coinbase_into_version (cb : CbData) (v : SlateVersion) : VersionedCoinbase := match v with SV4 => VC4 (coinbase_of cb) end.

Definition cb_output_ser (o : CbOutputV4) : Tree :=
  TObj [("features", TStr "Coinbase"); ("commit", commitment_as_hex (cbo_commit o)); ("proof", rangeproof_as_hex (cbo_proof o))].
Definition cb_kernel_ser (k : CbKernelV4) : Tree :=
  TObj [("features", TStr "Coinbase"); ("excess", commitment_as_hex (cbk_excess k)); ("excess_sig", sig_ser (cbk_excess_sig k))].
Definition coinbase_ser (c : CoinbaseV4) : Tree :=
  TObj [("output", cb_output_ser (cbv_output c)); ("kernel", cb_kernel_ser (cbv_kernel c)); ("key_id", ser_option identifier_ser (cbv_key_id c))].
End code.

(** ** What fits the types of the source *)
Section fits.
Context `{GrinTypes}.
Definition typed_slate_v4 (s : SlateV4) : Prop :=
  0 <= v4_version (v4_ver s) <= 65535 /\ 0 <= v4_block_header_version (v4_ver s) <= 65535
  /\ 0 <= v4_num_parts s <= 255 /\ in_u64 (v4_amt s) /\ 0 <= v4_feat s <= 255 /\ in_u64 (v4_ttl s)
  /\ (forall coms, v4_coms s = Some coms -> Forall (fun c => 0 <= com_f c <= 255) coms)
  /\ (forall a, v4_feat_args s = Some a -> in_u64 (lock_hgt a)).
End fits.

(** ** Lemmas *)
(** One goal per field: its default is what was left out, or what was written is read. *)
Ltac fields :=
  repeat refine (conj _ _);
  [unfold field_ok, required; cbn [fd_skip fd_default fd_de fd_ser fst snd participant_v4_vals payment_v4_vals commits_v4_vals args_v4_vals
     slate_v4_vals]..|exact I].
Section lemmas.
Context `{BuildProfile, GC : GrinCrates, BC : !BinCrates, !BinLaws, WC : !WalletCrates, AC : !AddressCrates, !HexCrate, !HexLaws,
  !Base64Crate, !Base64Laws, SD : !SerdeCrate, !SerdeLaws, SC : !SerCrates, !SerLaws}.

Lemma from_hex_encode b : from_hex (hex_encode b) = Ok b.
Proof. unfold from_hex. by rewrite hex_decode_encode. Qed.
Lemma from_base64_encode b : from_base64 (base64_encode b) = Ok b.
Proof. unfold from_base64. by rewrite base64_decode_encode. Qed.
(** Of what is too long only the front is taken; too little is a panic. *)
Lemma array_front n b r : String.length b = n -> array n (b +:+ r) = Ok b.
Proof. apply slice_front. Qed.
Lemma array_exact n b : String.length b = n -> array n b = Ok b.
Proof. intros Hb. rewrite <- (append_nil_r b) at 1. by apply array_front. Qed.
Lemma array_short n b : (String.length b < n)%nat -> array n b = Panic "range end index out of range".
Proof. intros Hb. unfold array, slice. by rewrite bool_decide_eq_false_2 by lia. Qed.

Lemma with_option_ser {A} (ser : A -> Tree) (k : string -> Res A) (o : option A) :
  (forall x, exists s, ser x = TStr s /\ k s = Ok x) -> with_option k (ser_option ser o) = Ok o.
Proof.
  intros Hk. unfold with_option. destruct o as [x|]; cbn [ser_option from_option]; [|by rewrite de_option_null].
  destruct (Hk x) as (s & E & Es). rewrite E, de_option_value, de_string_str by done. cbn. by rewrite Es.
Qed.
Lemma with_option_str {A} (k : string -> Res A) s : with_option k (TStr s) = (x ← k s; Ok (Some x)).
Proof. unfold with_option. by rewrite de_option_value, de_string_str by done. Qed.

Lemma uint_text_chars c (d : Decimal.uint) :
  (nat_of_ascii c < 48 \/ 57 < nat_of_ascii c)%nat -> all_chars (fun x => negb (Ascii.eqb x c)) (NilZero.string_of_uint d) = true.
Proof.
  intros Hc. assert (Hn : forall x, (48 <= nat_of_ascii x <= 57)%nat -> negb (Ascii.eqb x c) = true).
  { intros x Hx. destruct (Ascii.eqb_spec x c) as [->|]; [lia|done]. }
  assert (Hd : all_chars (fun x => negb (Ascii.eqb x c)) (NilEmpty.string_of_uint d) = true).
  { induction d as [|d IH|d IH|d IH|d IH|d IH|d IH|d IH|d IH|d IH|d IH]; cbn [NilEmpty.string_of_uint all_chars]; [done|..];
      (rewrite IH, Hn; [done|cbv; lia]). }
  destruct d; try exact Hd. change (negb (Ascii.eqb "0" c) && true = true). by rewrite Hn by (cbv; lia).
Qed.
Lemma parse_u16_fmt n : 0 <= n <= 65535 -> parse_u16 (fmt_u64 n) = Ok n.
Proof. intros Hn. unfold parse_u16. by rewrite parse_int_fmt. Qed.
Lemma parse_u16_range s n : parse_u16 s = Ok n -> 0 <= n <= 65535.
Proof. unfold parse_u16. case_match eqn:E; [|done..]. intros [= <-]. by eapply parse_int_unsigned_range in E. Qed.

Lemma version_info_from_to v :
  0 <= v4_version v <= 65535 -> 0 <= v4_block_header_version v <= 65535 -> version_info_de (version_info_ser v) = Ok v.
Proof.
  intros Hv Hb. unfold version_info_de, version_info_ser. rewrite de_string_str. cbn [mbind Res_bind].
  change (":" +:+ fmt_u64 (v4_block_header_version v)) with (String ":" (fmt_u64 (v4_block_header_version v))).
  rewrite split_char_app, split_char_none by (apply uint_text_chars; cbv; lia). rewrite parse_u16_fmt by done. cbn.
  rewrite parse_u16_fmt by done. by destruct v.
Qed.
Lemma slate_state_from_to st : slate_state_de (slate_state_ser st) = Ok st.
Proof. unfold slate_state_de, slate_state_ser. rewrite de_string_str. by destruct st. Qed.
Lemma dalek_pubkey_from_to k : dalek_pubkey_de (dalek_pubkey_ser k) = Ok k.
Proof. unfold dalek_pubkey_de, bytes_from_hex, dalek_pubkey_ser, to_hex. rewrite de_string_str. cbn. rewrite from_hex_encode. cbn. unfold pk_from_bytes. by rewrite dalek_pk_from_to. Qed.
Lemma option_dalek_sig_from_to s : option_dalek_sig_de (option_dalek_sig_ser s) = Ok s.
Proof.
  apply with_option_ser. intros x. eexists. split; [done|]. rewrite from_hex_encode. cbn.
  rewrite array_exact by apply dalek_sig_length. cbn. unfold sig_from_bytes. by rewrite dalek_sig_from_to.
Qed.
Lemma option_rangeproof_from_to p : option_rangeproof_hex_de (option_rangeproof_hex_ser p) = Ok p.
Proof. apply with_option_ser. intros x. eexists. split; [done|]. rewrite from_hex_encode. apply rangeproof_from_to. Qed.

(** *** The parts of a slate *)
Lemma option_field {A} (ser : option A -> Tree) (de : Tree -> Res (option A)) (o : option A) :
  (forall x, o = Some x -> de (ser (Some x)) = Ok (Some x)) ->
  if is_none o then Some (None : option A) = Some o else de (ser o) = Ok o.
Proof. intros Hs. destruct o as [x|]; [by apply Hs|done]. Qed.

Lemma participant_v4_from_to d : valid_participant_v4 d -> participant_v4_de (participant_v4_ser d) = Ok d.
Proof.
  intros [Hx Hn]. unfold participant_v4_de, participant_v4_ser. rewrite struct_roundtrip; [by destruct d|by apply (bool_decide_unpack _)|].
  fields; [by apply pubkey_from_to..|]. apply option_field. intros x _. apply option_sig_from_to.
Qed.
Lemma payment_v4_from_to p : payment_v4_de (payment_v4_ser p) = Ok p.
Proof.
  unfold payment_v4_de, payment_v4_ser. rewrite struct_roundtrip; [by destruct p|by apply (bool_decide_unpack _)|].
  fields; [by apply dalek_pubkey_from_to..|]. apply option_field. intros x _. apply option_dalek_sig_from_to.
Qed.
Lemma commits_v4_from_to c : 0 <= com_f c <= 255 -> commits_v4_de (commits_v4_ser c) = Ok c.
Proof.
  intros Hf. unfold commits_v4_de, commits_v4_ser. rewrite struct_roundtrip; [by destruct c|by apply (bool_decide_unpack _)|].
  fields.
  - unfold output_feature_is_plain. destruct (Z.eqb_spec (com_f c) 0) as [->|]; [done|by apply de_uint_num].
  - by apply commitment_from_to.
  - apply option_field. intros x _. apply option_rangeproof_from_to.
Qed.
Lemma args_v4_from_to a : in_u64 (lock_hgt a) -> args_v4_de (args_v4_ser a) = Ok a.
Proof.
  intros Ha. unfold args_v4_de, args_v4_ser. rewrite struct_roundtrip; [by destruct a|by apply (bool_decide_unpack _)|].
  fields. apply de_uint_num. unfold u64_modulus. int_lia.
Qed.
End lemmas.

(** ** Properties *)
Section properties.
Context `{BuildProfile, GC : GrinCrates, BC : !BinCrates, !BinLaws, WC : !WalletCrates, AC : !AddressCrates, !HexCrate, !HexLaws,
  !Base64Crate, !Base64Laws, SD : !SerdeCrate, !SerdeLaws, SC : !SerCrates, !SerLaws, !SerdeText, !SerdeTextLaws}.

Lemma slate_v4_vals_ok s : typed_slate_v4 s -> Forall valid_participant_v4 (v4_sigs s) -> vals_ok slate_v4_fields (slate_v4_vals s).
Proof.
  intros (Hv & Hb & Hn & Ha & Hf & Ht & Hc & Hl) Hs. fields.
  - by apply version_info_from_to.
  - apply uuid_from_to.
  - apply slate_state_from_to.
  - unfold offset_is_zero. case_bool_decide as E; [by rewrite E|apply blind_from_to].
  - unfold num_parts_is_2. destruct (Z.eqb_spec (v4_num_parts s) 2) as [->|]; [done|by apply de_uint_num].
  - unfold u64_is_blank. destruct (Z.eqb_spec (v4_amt s) 0) as [->|]; [done|by apply u64_from_to].
  - unfold fee_is_zero. destruct (ff_is_zero (v4_fee s)) eqn:E; [by rewrite (fee_zero_only _ E)|apply fee_from_to].
  - unfold u8_is_blank. destruct (Z.eqb_spec (v4_feat s) 0) as [->|]; [done|by apply de_uint_num].
  - unfold u64_is_blank. destruct (Z.eqb_spec (v4_ttl s) 0) as [->|]; [done|by apply u64_from_to].
  - apply de_vec_ser. eapply Forall_impl; [exact Hs|]. apply participant_v4_from_to.
  - apply option_field. intros coms E. apply de_option_ser; [done|]. intros x [= <-]. apply de_vec_ser.
    eapply Forall_impl; [by apply Hc|]. apply commits_v4_from_to.
  - apply option_field. intros p _. apply de_option_ser; [intros x; apply struct_not_null|]. intros x _. apply payment_v4_from_to.
  - apply option_field. intros a E. apply de_option_ser; [intros x; apply struct_not_null|]. intros x [= <-]. by apply args_v4_from_to, Hl.
Qed.
Lemma slate_v4_names : NoDup (names slate_v4_fields).
Proof. by apply (bool_decide_unpack _). Qed.
Lemma slate_de_any_order s l :
  typed_slate_v4 s -> Forall valid_participant_v4 (v4_sigs s) ->
  filter (known slate_v4_fields) l ≡ₚ entries slate_v4_fields (slate_v4_vals s) -> versioned_slate_de (TObj l) = Ok (VS4 s).
Proof.
  intros Ht Hv Hl. unfold versioned_slate_de, slate_v4_de.
  rewrite (struct_any_order _ _ _ slate_v4_names (slate_v4_vals_ok s Ht Hv) Hl). by destruct s.
Qed.

(** C32: The JSON of a slate, for every slate of the types of the source whose keys can be
    printed: it is read back from its text, and from every object that has the same entries,
    in whatever order and among whatever others; and with this JSON a slate crosses the wire
    as its version 4 form. *)
Theorem slate_json_roundtrip s :
  typed_slate_v4 (v4_of_slate s) -> valid_slate s ->
  (forall l, filter (known slate_v4_fields) l ≡ₚ entries slate_v4_fields (slate_v4_vals (v4_of_slate s)) ->
     versioned_slate_de (TObj l) = Ok (VS4 (v4_of_slate s)))
  /\ let SJ := ser_slate_json in
     exists text, slate_to_json s = Ok text /\ deserialize_upgrade text = slate_of_v4 (v4_of_slate s).
Proof.
  intros Ht Hv. apply valid_slate_v4 in Hv. split; [by intros l; apply slate_de_any_order|]. intros SJ.
  exists (tree_to_string (slate_v4_ser (v4_of_slate s))). split; [done|].
  unfold deserialize_upgrade. cbn [versioned_slate_of_json slate_v4_to_json SJ ser_slate_json]. rewrite tree_from_to. cbn [mbind Res_bind].
  unfold slate_v4_ser. rewrite ser_struct_entries. rewrite (slate_de_any_order (v4_of_slate s)); [done..|]. by rewrite filter_known_entries.
Qed.

(** Four entries make a slate.  The rest has its documented default: two participants,
    nothing to pay, no fee, a plain kernel, no expiry, no offset. *)
Theorem required_entries_suffice ver id sta sigs :
  0 <= v4_version ver <= 65535 -> 0 <= v4_block_header_version ver <= 65535 -> Forall valid_participant_v4 sigs ->
  versioned_slate_de (TObj [("sigs", ser_vec participant_v4_ser sigs); ("sta", slate_state_ser sta); ("id", uuid_ser id); ("ver", version_info_ser ver)])
  = Ok (VS4 (mkSlateV4 ver id sta bf_zero 2 0 fee_zero 0 0 sigs None None None)).
Proof.
  intros Hv Hb Hs. set (s := mkSlateV4 ver id sta bf_zero 2 0 fee_zero 0 0 sigs None None None).
  apply (slate_de_any_order s); [repeat match goal with |- _ /\ _ => split | |- typed_slate_v4 _ => unfold typed_slate_v4; cbn end; done || int_lia|done|].
  assert (E : entries slate_v4_fields (slate_v4_vals s)
    = [("ver", version_info_ser ver); ("id", uuid_ser id); ("sta", slate_state_ser sta); ("sigs", ser_vec participant_v4_ser sigs)]).
  { cbn. unfold offset_is_zero, fee_is_zero. by rewrite bool_decide_eq_true_2, fee_zero_zero. }
  rewrite E. etrans; [|apply (reverse_Permutation [_; _; _; _])]. by cbv -[version_info_ser uuid_ser slate_state_ser ser_vec].
Qed.

(** Every pair of functions of ser.rs reads what it writes, whatever the key, the signature,
    the proof or the identifier; the two forms of a version are [version_info_from_to] and
    [slate_state_from_to], an onion address is that of [Address]. *)
Theorem ser_pairs_roundtrip :
  (forall b, bytes_from_base64 (as_base64 b) = Ok b)
  /\ (forall p, option_rangeproof_hex_de (option_rangeproof_hex_ser p) = Ok p)
  /\ (forall k, dalek_seckey_de (dalek_seckey_ser k) = Ok k)
  /\ (forall k, dalek_pubkey_de (dalek_pubkey_ser k) = Ok k)
  /\ (forall k, option_dalek_pubkey_de (option_dalek_pubkey_ser k) = Ok k)
  /\ (forall k, dalek_pubkey_base64_de (dalek_pubkey_base64_ser k) = Ok k)
  /\ (forall k, option_dalek_pubkey_base64_de (option_dalek_pubkey_base64_ser k) = Ok k)
  /\ (forall k, dalek_xpubkey_de (dalek_xpubkey_ser k) = Ok k)
  /\ (forall k, option_xdalek_pubkey_de (option_xdalek_pubkey_ser k) = Ok k)
  /\ (forall s, dalek_sig_de (dalek_sig_ser s) = Ok s)
  /\ (forall s, option_dalek_sig_de (option_dalek_sig_ser s) = Ok s)
  /\ (forall s, option_dalek_sig_base64_de (option_dalek_sig_base64_ser s) = Ok s)
  /\ (forall u, uuid_base64_de (uuid_base64_ser u) = Ok u).
Proof.
  assert (Hh : forall b, bytes_from_hex (to_hex b) = Ok b)
    by (intros b; unfold bytes_from_hex, to_hex; rewrite de_string_str; apply from_hex_encode).
  assert (Hb : forall b, bytes_from_base64 (as_base64 b) = Ok b)
    by (intros b; unfold bytes_from_base64, as_base64; rewrite de_string_str; apply from_base64_encode).
  assert (Hs : forall s, sig_from_bytes (dalek_sig_bytes s) = Ok s) by (intros s; unfold sig_from_bytes; by rewrite dalek_sig_from_to).
  assert (Hk : forall k, pk_from_bytes (dalek_pk_bytes k) = Ok k) by (intros k; unfold pk_from_bytes; by rewrite dalek_pk_from_to).
  split; [exact Hb|]. split; [apply option_rangeproof_from_to|].
  split; [intros k; unfold dalek_seckey_de, dalek_seckey_ser; rewrite Hh; cbn; by rewrite dalek_sk_from_to|].
  split; [apply dalek_pubkey_from_to|].
  split; [intros k; apply with_option_ser; intros x; eexists; split; [done|]; rewrite from_hex_encode; cbn;
          rewrite array_exact by apply dalek_pk_length; apply Hk|].
  split; [intros k; unfold dalek_pubkey_base64_de, dalek_pubkey_base64_ser; rewrite Hb; apply Hk|].
  split; [intros k; apply with_option_ser; intros x; eexists; split; [done|]; rewrite from_base64_encode; cbn;
          rewrite array_exact by apply dalek_pk_length; apply Hk|].
  split; [intros k; unfold dalek_xpubkey_de, dalek_xpubkey_ser; rewrite Hh; cbn;
          rewrite array_exact by apply x_pk_length; cbn; by rewrite x_pk_from_to|].
  split; [intros k; apply with_option_ser; intros x; eexists; split; [done|]; rewrite from_hex_encode; cbn;
          rewrite array_exact by apply x_pk_length; cbn; by rewrite x_pk_from_to|].
  split; [intros s; unfold dalek_sig_de, dalek_sig_ser; rewrite Hh; cbn; rewrite array_exact by apply dalek_sig_length; apply Hs|].
  split; [apply option_dalek_sig_from_to|].
  split; [intros s; apply with_option_ser; intros x; eexists; split; [done|]; rewrite from_base64_encode; cbn;
          rewrite array_exact by apply dalek_sig_length; apply Hs|].
  intros u. unfold uuid_base64_de, uuid_base64_ser. rewrite Hb. cbn. rewrite array_exact by apply uuid_length. cbn. by rewrite uuid_from_as_bytes.
Qed.

(** *** A signature that was cut off *)
Lemma payment_panics sender receiver sig b rest :
  hex_decode sig = Some b -> (String.length b < 64)%nat ->
  payment_v4_de (TObj (("saddr", dalek_pubkey_ser sender) :: ("raddr", dalek_pubkey_ser receiver) :: ("rsig", TStr sig) :: rest))
  = Panic "range end index out of range".
Proof.
  intros Hd Hb. unfold payment_v4_de.
  change (("saddr", dalek_pubkey_ser sender) :: ("raddr", dalek_pubkey_ser receiver) :: ("rsig", TStr sig) :: rest)
    with ([("saddr", dalek_pubkey_ser sender); ("raddr", dalek_pubkey_ser receiver)] ++ ("rsig", TStr sig) :: rest).
  erewrite struct_panics; [done| | | |].
  - by apply (bool_decide_unpack _).
  - repeat constructor; eexists; apply dalek_pubkey_from_to.
  - by apply (bool_decide_unpack _).
  - change (option_dalek_sig_de (TStr sig) = Panic "range end index out of range").
    unfold option_dalek_sig_de, from_hex. rewrite with_option_str, Hd. cbn. by rewrite (array_short _ _ Hb).
Qed.
Lemma slate_panics l e : payment_v4_de (TObj l) = Panic e -> panics_on slate_v4_fields "proof" (TObj l) e.
Proof.
  intros E. change (de_option payment_v4_de (TObj l) = Panic e). by rewrite de_option_value, E by done.
Qed.

(** A slate can make the wallet panic: one whose payment proof has a receiver signature of
    fewer than 64 bytes, with anything that can be read in front of it, is not refused but
    ends the call, since the decoder takes the first 64 bytes of what it got.  A public key,
    which is read in another way, never does that. *)
Theorem short_proof_signature_panics l sender receiver sig b rest l2 t :
  NoDup l.*1 -> Forall (fun p => reads_entry slate_v4_fields p.1 p.2) l -> "proof" ∉ l.*1 ->
  hex_decode sig = Some b -> (String.length b < 64)%nat ->
  let SJ := ser_slate_json in
  deserialize_upgrade (tree_to_string (TObj (l ++ ("proof",
    TObj (("saddr", dalek_pubkey_ser sender) :: ("raddr", dalek_pubkey_ser receiver) :: ("rsig", TStr sig) :: rest)) :: l2))) t
  = (Panic "range end index out of range", t)
  /\ (forall key e, dalek_pubkey_de key <> Panic e).
Proof.
  intros Hn Hl Hp Hd Hb SJ. split.
  - pose proof (payment_panics sender receiver sig b rest Hd Hb) as Ep.
    unfold deserialize_upgrade. cbn [versioned_slate_of_json SJ ser_slate_json]. rewrite tree_from_to. cbn [mbind Res_bind].
    unfold versioned_slate_de, slate_v4_de. by erewrite struct_panics; [|exact Hn|exact Hl|exact Hp|by apply slate_panics].
  - intros key e. unfold dalek_pubkey_de, bytes_from_hex, from_hex, pk_from_bytes. pose proof (de_string_calm key) as Hs.
    destruct (de_string key) as [s|s|s]; [|done|by destruct (Hs s)]. cbn.
    destruct (hex_decode s) as [x|]; [|done]. cbn. by destruct (dalek_pk_from_bytes x).
Qed.
End properties.
