(* ===== verification/Armor.v ===== *)
(** * Armor: slatepack/armor.rs

    The text form of a slatepack: base 58 with a checksum, framed by a header and a
    footer, wrapped in words and lines.  [bs58] and [sha2] are parameters. *)
From S2P Require Import Prelude.
From S2P Require Import RustStd.
From S2P Require Import Crates.
From S2P Require Import Effects.
From S2P Require Import Slate.
From S2P Require Import SlateV4.
From S2P Require Import SlateBin.
From S2P Require Import StateM.
From S2P Require Import Wallet.
From S2P Require Import Address.
From S2P Require Import Slatepack.
From Stdlib Require Import Ascii.
#[local] Open Scope Z_scope.

(** The digits of base 58: no 0, O, I and l. *)
Definition base58_char (c : ascii) : bool :=
  (in_bytes 49 57 c || in_bytes 65 90 c || in_bytes 97 122 c)
  && negb (byte_is c 73) && negb (byte_is c 79) && negb (byte_is c 108).

Class ArmorCrates := {
  sha256 : string -> string;
  bs58_encode : string -> string;
  bs58_decode : string -> option string;
  max_tx_weight : Z;                        (* grin_core::global *)
}.
Class ArmorLaws `{ArmorCrates} := {
  sha256_length s : String.length (sha256 s) = 32%nat;
  bs58_round s : bs58_decode (bs58_encode s) = Some s;
  bs58_longer s : (String.length s <= String.length (bs58_encode s))%nat;
  bs58_alphabet s : all_chars base58_char (bs58_encode s) = true;
}.

Definition HEADER : string := "BEGINSLATEPACK.".
Definition FOOTER : string := ". ENDSLATEPACK.".
Definition WORD_LENGTH : nat := 15.
Definition WORDS_PER_LINE : nat := 200.
Definition WEIGHT_RATIO : Z := 32.

Definition u64_saturate (x : Z) : Z := Z.min (u64_modulus - 1) x.

(** [WHITESPACE_LIST], and the class the regular expressions use. *)
Definition whitespace (c : ascii) : bool :=
  byte_is c 62 || byte_is c 10 || byte_is c 13 || byte_is c 9 || byte_is c 32.
Fixpoint drop_while (p : ascii -> bool) (s : string) : string :=
  match s with String c s' => if p c then drop_while p s' else s | EmptyString => EmptyString end.
(** The expression [^[>\n\r\t ]*WORD[>\n\r\t ]*$]. *)
Definition framed (word s : string) : bool :=
  let s' := drop_while whitespace s in
  starts_with word s' && all_chars whitespace (drop_chars (String.length word) s').
Definition HEADER_REGEX : string -> bool := framed "BEGINSLATEPACK".
Definition FOOTER_REGEX : string -> bool := framed "ENDSLATEPACK".

Section code.
Context `{ArmorCrates}.

Definition max_size : Z :=
  u64_saturate (u64_saturate (u64_saturate (max_tx_weight * WEIGHT_RATIO) + Z.of_nat (String.length HEADER))
                + Z.of_nat (String.length FOOTER)).
Definition min_size : Z := Z.of_nat (String.length HEADER).

Definition bad_bytes : string := "SlatepackDeser(Bad bytes)".
Definition check_header (header : string) : Res unit :=
  framing ← ok_or bad_bytes (from_utf8 header);
  if HEADER_REGEX framing then Ok tt else Err "InvalidSlatepackData(Bad armor header)".
Definition check_footer (footer : string) : Res unit :=
  framing ← ok_or bad_bytes (from_utf8 footer);
  if FOOTER_REGEX framing then Ok tt else Err "InvalidSlatepackData(Bad armor footer)".

(** The first four bytes of the double hash. *)
Definition generate_check (payload : string) : string := String.substring 0 4 (sha256 (sha256 payload)).
Definition error_check (error_code slate_bytes : string) : Res unit :=
  if bool_decide (error_code = generate_check slate_bytes) then Ok tt
  else Err "InvalidSlatepackData(Bad slate error code- some data was corrupted)".

Definition base58check (slate : string) : string := bs58_encode (generate_check slate +:+ slate).

(** A space in front of every word but the first, a new line in front of every 200th. *)
Fixpoint format_from (i : nat) (slatepack : string) : string :=
  match slatepack with
  | EmptyString => EmptyString
  | String c s =>
      let rest := String c (format_from (S i) s) in
      if (negb (i =? 0) && (i mod WORD_LENGTH =? 0))%nat
      then if (negb (WORDS_PER_LINE =? 0) && (i mod (WORD_LENGTH * WORDS_PER_LINE) =? 0))%nat
           then String (ascii_of_nat 10) rest else String " " rest
      else rest
  end.
Definition format_slatepack (slatepack : string) : string := format_from 0 slatepack.

Definition SlatepackArmor_decode (armor_bytes : string) : Res string :=
  let header_bytes := take_until "." armor_bytes in
  _ ← check_header header_bytes;
  let header_len := (String.length header_bytes + 1)%nat in
  rest ← slice_from header_len armor_bytes;
  let payload_bytes := take_until "." rest in
  let payload_len := String.length payload_bytes in
  let consumed_bytes := (header_len + payload_len + 1)%nat in
  rest ← slice_from consumed_bytes armor_bytes;
  let footer_bytes := take_until "." rest in
  _ ← check_footer footer_bytes;
  let clean_payload := filter_chars (fun c => negb (whitespace c)) payload_bytes in
  base_decode ← ok_or bad_bytes (bs58_decode clean_payload);
  error_code ← slice 0 4 base_decode;
  slatepack_bytes ← slice_from 4 base_decode;
  _ ← error_check error_code slatepack_bytes;
  Ok slatepack_bytes.
End code.

Section encode.
Context `{BuildProfile, GC : GrinCrates, !BinCrates, !WalletCrates, !AddressCrates, !SlatepackCrates, !ArmorCrates}.
Definition SlatepackArmor_encode (slatepack : Slatepack) : Res string :=
  slatepack_bytes ← to_bytes_or "SlatepackSer" (slatepack_write slatepack);
  let encoded_slatepack := base58check slatepack_bytes in
  let formatted_slatepack := format_slatepack (HEADER +:+ encoded_slatepack) in
  Ok (formatted_slatepack +:+ FOOTER +:+ String (ascii_of_nat 10) "").
End encode.

(** ** Lemmas on framing *)
Definition not_dot (c : ascii) : bool := negb (Ascii.eqb c ".").

Lemma take_until_app s r : all_chars not_dot s = true -> take_until "." (s +:+ String "." r) = s.
Proof.
  unfold not_dot. induction s as [|c s IH]; [done|]. rewrite append_cons. cbn. rewrite andb_true_iff.
  intros [Hc Hs]. destruct (Ascii.eqb c "."); [done|]. by rewrite IH.
Qed.
Lemma take_until_none s : all_chars not_dot s = true -> take_until "." s = s.
Proof.
  unfold not_dot. induction s as [|c s IH]; [done|]. cbn. rewrite andb_true_iff.
  intros [Hc Hs]. destruct (Ascii.eqb c "."); [done|]. by rewrite IH.
Qed.
Lemma slice_from_dot s r : slice_from (String.length s + 1) (s +:+ String "." r) = Ok r.
Proof.
  replace (s +:+ String "." r) with ((s +:+ ".") +:+ r) by by rewrite append_assoc.
  replace (String.length s + 1)%nat with (String.length (s +:+ ".")) by (rewrite length_append; done).
  apply slice_from_app.
Qed.
Lemma slice_from_short s n : (String.length s < n)%nat -> slice_from n s = Panic "range start index out of range".
Proof. intros Hn. unfold slice_from. by destruct (Nat.leb_spec n (String.length s)); [lia|]. Qed.

Lemma prefix_split w s : String.prefix w s = true -> s = w +:+ drop_chars (String.length w) s.
Proof.
  revert s. induction w as [|c w IH]; intros s E; [by destruct s|]. destruct s as [|d s]; [done|]. cbn in E.
  destruct (ascii_dec c d) as [->|]; [|done]. rewrite append_cons. cbn. f_equal. by apply IH.
Qed.
(** Framed text is made of white space and the word. *)
Lemma framed_chars (p : ascii -> bool) w s :
  framed w s = true -> all_chars p w = true -> (forall c, whitespace c = true -> p c = true) -> all_chars p s = true.
Proof.
  intros E Hw Hp. assert (Hd : forall s, all_chars p (drop_while whitespace s) = true -> all_chars p s = true).
  { induction s0 as [|c s0 IH]; [done|]. cbn. destruct (whitespace c) eqn:Hc; [|done].
    intros Hs. rewrite IH by done. by rewrite Hp. }
  apply Hd. unfold framed in E. apply andb_true_iff in E as [E1 E2].
  rewrite (prefix_split _ _ E1), all_chars_app, Hw. cbn. by eapply all_chars_impl.
Qed.
Lemma whitespace_cases c : whitespace c = true -> plain_ascii c = true /\ not_dot c = true.
Proof. destruct c as [[] [] [] [] [] [] [] []]; by vm_compute. Qed.
Lemma utf8_plain s : all_chars plain_ascii s = true -> utf8_valid s = true.
Proof.
  induction s as [|c s IH]; [done|]. cbn [all_chars utf8_valid]. rewrite andb_true_iff. intros [Hc Hs].
  assert (in_bytes 0 127 c = true) as ->; [|by apply IH].
  unfold in_bytes. unfold plain_ascii in Hc. apply Nat.ltb_lt in Hc. apply andb_true_iff.
  split; apply Nat.leb_le; lia.
Qed.
Lemma framed_utf8 w s :
  framed w s = true -> all_chars plain_ascii w = true -> from_utf8 s = Some s.
Proof.
  intros E Hw. unfold from_utf8. rewrite utf8_plain; [done|]. eapply framed_chars; [exact E|done|].
  intros c Hc. by apply whitespace_cases.
Qed.
Lemma framed_no_dot w s : framed w s = true -> all_chars not_dot w = true -> all_chars not_dot s = true.
Proof. intros E Hw. eapply framed_chars; [exact E|done|]. intros c Hc. by apply whitespace_cases. Qed.

Lemma filter_chars_app p a b : filter_chars p (a +:+ b) = filter_chars p a +:+ filter_chars p b.
Proof.
  induction a as [|c a IH]; [done|]. rewrite append_cons. cbn. destruct (p c); [rewrite append_cons|]; by rewrite IH.
Qed.

Lemma base58_clean c : base58_char c = true -> negb (whitespace c) = true /\ not_dot c = true.
Proof. destruct c as [[] [] [] [] [] [] [] []]; by vm_compute. Qed.

(** Wrapping adds white space and nothing else. *)
Lemma format_from_clean i s :
  all_chars base58_char s = true ->
  filter_chars (fun c => negb (whitespace c)) (format_from i s) = s /\ all_chars not_dot (format_from i s) = true.
Proof.
  revert i. induction s as [|c s IH]; intros i; [done|]. cbn [all_chars format_from]. rewrite andb_true_iff.
  intros [Hc Hs]. destruct (IH (S i) Hs) as [E1 E2]. destruct (base58_clean c Hc) as [Hw Hd].
  destruct (_ && _); [destruct (_ && _)|]; cbn; by rewrite Hw, Hd, E1, E2.
Qed.

Section decode.
Context `{ArmorCrates, !ArmorLaws}.

Lemma generate_check_length s : String.length (generate_check s) = 4%nat.
Proof. unfold generate_check. apply substring_length. rewrite sha256_length. lia. Qed.

Lemma decode_framed h p f r bytes :
  HEADER_REGEX h = true -> FOOTER_REGEX f = true -> all_chars not_dot p = true ->
  filter_chars (fun c => negb (whitespace c)) p = base58check bytes ->
  r = "" \/ (exists r', r = String "." r') ->
  SlatepackArmor_decode (h +:+ String "." (p +:+ String "." (f +:+ r))) = Ok bytes.
Proof.
  intros Hh Hf Hp Hc Hr.
  assert (Hhd : all_chars not_dot h = true) by by eapply framed_no_dot.
  assert (Hfd : all_chars not_dot f = true) by by eapply framed_no_dot.
  assert (Hft : take_until "." (f +:+ r) = f).
  { destruct Hr as [->|[r' ->]]; [rewrite append_nil_r; by apply take_until_none|by apply take_until_app]. }
  unfold SlatepackArmor_decode. rewrite take_until_app by done. unfold check_header.
  rewrite (framed_utf8 "BEGINSLATEPACK") by done. cbn [ok_or mbind Res_bind]. rewrite Hh. cbn [mbind Res_bind].
  rewrite slice_from_dot. cbn [mbind Res_bind]. rewrite take_until_app by done.
  assert (E : slice_from (String.length h + 1 + String.length p + 1) (h +:+ String "." (p +:+ String "." (f +:+ r))) = Ok (f +:+ r)).
  { assert (h +:+ String "." (p +:+ String "." (f +:+ r)) = (h +:+ String "." p) +:+ String "." (f +:+ r)) as ->
      by (rewrite append_assoc, append_cons; done).
    replace (String.length h + 1 + String.length p + 1)%nat with (String.length (h +:+ String "." p) + 1)%nat
      by (rewrite length_append; cbn; lia).
    apply slice_from_dot. }
  rewrite E. cbn [mbind Res_bind]. rewrite Hft. unfold check_footer.
  rewrite (framed_utf8 "ENDSLATEPACK") by done. cbn [ok_or mbind Res_bind]. rewrite Hf. cbn [mbind Res_bind].
  rewrite Hc. unfold base58check. rewrite bs58_round. cbn [ok_or mbind Res_bind].
  rewrite slice_front by apply generate_check_length. cbn [mbind Res_bind].
  rewrite <- (generate_check_length bytes) at 1. rewrite slice_from_app. cbn [mbind Res_bind].
  unfold error_check. by rewrite bool_decide_eq_true_2.
Qed.

(** What is accepted carries its own checksum. *)
Theorem decode_checked armor bytes :
  SlatepackArmor_decode armor = Ok bytes ->
  exists payload, bs58_decode payload = Some (generate_check bytes +:+ bytes)
    /\ HEADER_REGEX (take_until "." armor) = true.
Proof.
  unfold SlatepackArmor_decode. intros E. apply res_bind_Ok in E as (u & Eh & E).
  apply res_bind_Ok in E as (r1 & _ & E). apply res_bind_Ok in E as (r2 & _ & E).
  apply res_bind_Ok in E as (u2 & _ & E). apply res_bind_Ok in E as (base & Eb & E).
  apply res_bind_Ok in E as (code & Ec & E). apply res_bind_Ok in E as (bs & Es & E).
  apply res_bind_Ok in E as (u3 & Ek & E). injection E as <-. apply ok_or_Ok in Eb.
  unfold error_check in Ek. case_bool_decide as Hk; [|done]. subst code.
  unfold slice in Ec. case_bool_decide as Hl; [|done]. injection Ec as Ec.
  unfold slice_from in Es. destruct (4 <=? String.length base)%nat; [|done]. injection Es as <-.
  eexists. split; [rewrite Eb; f_equal|].
  - rewrite <- Ec. assert (Hs : forall n s, (n <= String.length s)%nat -> s = String.substring 0 n s +:+ drop_chars n s).
    { induction n as [|n IH]; intros s Hn; [by destruct s|]. destruct s as [|c s]; [cbn in Hn; lia|].
      cbn [String.substring drop_chars]. rewrite append_cons. f_equal. apply IH. cbn in Hn. lia. }
    apply Hs. lia.
  - unfold check_header in Eh. apply res_bind_Ok in Eh as (fr & Ef & Eh). apply ok_or_Ok in Ef.
    unfold from_utf8 in Ef. destruct (utf8_valid _); [|done]. injection Ef as <-. by destruct (HEADER_REGEX _).
Qed.

(** A message that breaks off is not refused: without the second period the slice behind
    the payload starts past the end, and with less than four bytes of payload the
    checksum cannot be cut off. *)
Theorem truncated_armor_aborts h p f :
  HEADER_REGEX h = true -> all_chars not_dot p = true -> FOOTER_REGEX f = true ->
  SlatepackArmor_decode (h +:+ String "." p) = Panic "range start index out of range"
  /\ (forall base, bs58_decode (filter_chars (fun c => negb (whitespace c)) p) = Some base ->
        (String.length base < 4)%nat ->
        SlatepackArmor_decode (h +:+ String "." (p +:+ String "." f)) = Panic "range end index out of range").
Proof.
  intros Hh Hp Hf. assert (Hhd : all_chars not_dot h = true) by by eapply framed_no_dot.
  assert (Hhead : forall r, take_until "." (h +:+ String "." r) = h) by (intros; by apply take_until_app).
  assert (Hck : check_header h = Ok tt).
  { unfold check_header. rewrite (framed_utf8 "BEGINSLATEPACK") by done. cbn. by rewrite Hh. }
  unfold SlatepackArmor_decode. split.
  - rewrite Hhead, Hck. cbn [mbind Res_bind]. rewrite slice_from_dot. cbn [mbind Res_bind].
    rewrite take_until_none by done. rewrite slice_from_short; [done|]. rewrite length_append. cbn. lia.
  - intros base Eb Hl. rewrite Hhead, Hck. cbn [mbind Res_bind]. rewrite slice_from_dot. cbn [mbind Res_bind].
    rewrite take_until_app by done.
    assert (h +:+ String "." (p +:+ String "." f) = (h +:+ String "." p) +:+ String "." f) as ->
      by (rewrite append_assoc, append_cons; done).
    replace (String.length h + 1 + String.length p + 1)%nat with (String.length (h +:+ String "." p) + 1)%nat
      by (rewrite length_append; cbn; lia).
    rewrite slice_from_dot. cbn [mbind Res_bind].
    assert (Hfd : all_chars not_dot f = true) by by eapply framed_no_dot.
    rewrite take_until_none by done. unfold check_footer. rewrite (framed_utf8 "ENDSLATEPACK") by done.
    cbn [ok_or mbind Res_bind]. rewrite Hf. cbn [mbind Res_bind]. rewrite Eb. cbn [ok_or mbind Res_bind].
    unfold slice. by rewrite bool_decide_eq_false_2 by lia.
Qed.
End decode.

Lemma format_from_longer i s : (String.length s <= String.length (format_from i s))%nat.
Proof.
  revert i. induction s as [|c s IH]; intros i; [done|]. cbn [format_from]. specialize (IH (S i)).
  destruct (_ && _); [destruct (_ && _)|]; cbn; lia.
Qed.

Section roundtrip.
Context `{BuildProfile, GC : GrinCrates, !BinCrates, !WalletCrates, !AddressCrates, !SlatepackCrates, !ArmorCrates,
  !ArmorLaws}.

(** The text of a slatepack, in its three parts. *)
Lemma encode_parts sp text :
  SlatepackArmor_encode sp = Ok text ->
  exists bytes, slatepack_write sp = Ok bytes
    /\ text = "BEGINSLATEPACK" +:+ String "." (format_from 15 (base58check bytes)
              +:+ String "." (" ENDSLATEPACK" +:+ String "." (String (ascii_of_nat 10) ""))).
Proof.
  unfold SlatepackArmor_encode, to_bytes_or. intros E. apply res_bind_Ok in E as (bytes & Eb & E).
  destruct (slatepack_write sp) as [b|e|e]; [|discriminate Eb..]. injection Eb as <-. injection E as <-.
  exists b. split; [done|]. unfold format_slatepack. generalize (base58check b). intros enc. cbn. reflexivity.
Qed.

Lemma decode_encoded sp text :
  SlatepackArmor_encode sp = Ok text ->
  exists bytes, slatepack_write sp = Ok bytes /\ SlatepackArmor_decode text = Ok bytes.
Proof.
  intros E. apply encode_parts in E as (bytes & Eb & ->). exists bytes. split; [done|].
  destruct (format_from_clean 15 (base58check bytes) ltac:(apply bs58_alphabet)) as [Hc Hd].
  apply decode_framed; eauto.
Qed.

(** C22: Armor.  The text a slatepack is written as is read back to exactly its bytes; and
    so is every text with the same digits between the same words, however it is broken
    into lines, indented or quoted with [>]. *)
Theorem armor_roundtrip sp text :
  SlatepackArmor_encode sp = Ok text ->
  exists bytes, slatepack_write sp = Ok bytes
    /\ SlatepackArmor_decode text = Ok bytes
    /\ (forall h p f r, HEADER_REGEX h = true -> FOOTER_REGEX f = true -> all_chars not_dot p = true ->
          filter_chars (fun c => negb (whitespace c)) p = base58check bytes ->
          SlatepackArmor_decode (h +:+ String "." (p +:+ String "." (f +:+ String "." r))) = Ok bytes).
Proof.
  intros E. destruct (decode_encoded _ _ E) as (bytes & Eb & Ed). exists bytes. split_and!; [done..|].
  intros h p f r Hh Hf Hp Hcl. apply decode_framed; eauto.
Qed.
End roundtrip.
