(* ===== verification/Scan.v ===== *)
(** * internal/scan.rs: the wallet's outputs, from the chain

    Every output of the chain in a range of heights is looked at; those that the
    keychain can open are compared with what the wallet holds, and what is missing or
    wrong is put right.  The messages on the status channel, whose errors are
    ignored, are not modelled, nor is the percentage in them. *)
From S2P Require Import Prelude.
From S2P Require Import RustStd.
From S2P Require Import Crates.
From S2P Require Import Effects.
From S2P Require Import Slate.
From S2P Require Import SlateV4.
From S2P Require Import SlateBin.
From S2P Require Import StateM.
From S2P Require Import Wallet.
From S2P Require Import Address.
From S2P Require Import Selection.
From S2P Require Import Updater.
#[local] Open Scope Z_scope.

(** An output as the node gives it: commitment, proof, coinbase, height, index. *)
Definition ChainOutput `{GrinTypes} : Type := Commitment * RangeProof * bool * Z * Z.

Class ScanCrates `{WalletCrates} := {
  (* NodeClient: last index available, last index retrieved, outputs *)
  nc_get_outputs_by_pmmr_index : Z -> Z -> option Z -> Z -> Res (Z * Z * list ChainOutput);
  nc_height_range_to_pmmr_indices : Z -> Z -> option Z -> Res (Z * Z);
  WEEK_HEIGHT : Z;                              (* consensus::WEEK_HEIGHT *)
  (* proof::rewind with the legacy builder and with the new one *)
  rewind_legacy : Keychain -> Commitment -> RangeProof -> Res (option (Z * Identifier));
  rewind : Keychain -> Commitment -> RangeProof -> Res (option (Z * Identifier));
  parent_path : Identifier -> Identifier;
  (* the order in which a HashMap is gone through *)
  hash_order : Z -> list (Identifier * Z) -> list (Identifier * Z);
}.
Class ScanLaws `{ScanCrates} := hash_order_perm n l : hash_order n l ≡ₚ l.

Definition saturating_sub (x y : Z) : Z := Z.max 0 (x - y).

Section code.
Context `{BuildProfile, GC : GrinCrates, !BinCrates, !WalletCrates, !AddressCrates, !HexCrate, !NodeClient,
  !ScanCrates}.

Record OutputResult := mkOutputResult {
  or_commit : Commitment;
  or_key_id : Identifier;
  or_n_child : Z;
  or_mmr_index : Z;
  or_value : Z;
  or_height : Z;
  or_lock_height : Z;
  or_is_coinbase : bool }.
Record RestoredTxStats := mkRestoredTxStats { rs_log_id : Z; rs_amount_credited : Z; rs_num_outputs : Z }.

(** ** Whose outputs they are *)
Definition rewind_output (k : Keychain) (o : ChainOutput) : Res (option (Z * Identifier)) :=
  let '(commit, proof, is_coinbase, height, mmr_index) := o in
  info_legacy ← (if nc_valid_header_version (saturating_sub height (2 * WEEK_HEIGHT)) 1
                 then rewind_legacy k commit proof else Ok None);
  match info_legacy with
  | None => rewind k commit proof
  | Some i => Ok (Some i)
  end.

Definition identify_output (k : Keychain) (o : ChainOutput) : Res (option OutputResult) :=
  let '(commit, proof, is_coinbase, height, mmr_index) := o in
  info ← rewind_output k o;
  match info with
  | None => Ok None
  | Some (amount, key_id) =>
      lock_height ← (if is_coinbase : bool then u64_add height coinbase_maturity else Ok height);
      Ok (Some {| or_commit := commit; or_key_id := key_id; or_n_child := last_path_index (id_to_path key_id);
                  or_value := amount; or_height := height; or_lock_height := lock_height;
                  or_is_coinbase := is_coinbase; or_mmr_index := mmr_index |})
  end.

Definition identify_utxo_outputs (k : Keychain) (outputs : list ChainOutput) : Res (list OutputResult) :=
  l ← res_map (identify_output k) outputs;
  Ok (omap (M := list) id l).

(** [loop { .. }]: it ends when the node says that nothing is left. *)
Fixpoint collect_chain_outputs (fuel : nat) (k : Keychain) (start_index : Z) (end_index : option Z)
    (result_vec : list OutputResult) : W (list OutputResult * Z) :=
  match fuel with
  | O => errS OUT_OF_FUEL
  | S fuel' =>
      n ← drawn draw;
      '(highest_index, last_retrieved_index, outputs) ←
        liftS (nc_get_outputs_by_pmmr_index n start_index end_index 1000);
      l ← liftS (identify_utxo_outputs k outputs);
      let result_vec := result_vec ++ l in
      if highest_index <=? last_retrieved_index then mret (result_vec, last_retrieved_index)
      else
        start_index ← liftS (u64_add last_retrieved_index 1);
        collect_chain_outputs fuel' k start_index end_index result_vec
  end.

(** ** Putting back what is missing *)

(** [HashMap<Identifier, V>] *)
Definition hm_insert {V} (k : Identifier) (v : V) (m : list (Identifier * V)) : list (Identifier * V) :=
  (k, v) :: filter (fun p => p.1 <> k) m.
Definition Parents : Type := list (Identifier * Z).
Definition Stats : Type := option (list (Identifier * RestoredTxStats)).

(** The parent of an output, when it is met for the first time. *)
Definition meet_parent (parent : Identifier) (found_parents : Parents) (tx_stats : Stats) : W (Parents * Stats) :=
  match hm_get parent found_parents with
  | Some _ => mret (found_parents, tx_stats)
  | None =>
      tx_stats ← match tx_stats with
                 | Some s => log_id ← next_tx_log_id parent;
                             mret (Some (hm_insert parent (mkRestoredTxStats log_id 0 0) s))
                 | None => mret None
                 end;
      mret (hm_insert parent 0 found_parents, tx_stats)
  end.

Definition restored_entry (now : Z) (parent : Identifier) (output : OutputResult) (log_id : Z) : TxLogEntry :=
  {| tl_parent_key_id := parent; tl_id := log_id; tl_tx_slate_id := None;
     tl_tx_type := if or_is_coinbase output then ConfirmedCoinbase else TxReceived;
     tl_creation_ts := now; tl_confirmation_ts := None; tl_confirmed := true;
     tl_num_inputs := 0; tl_num_outputs := 1; tl_amount_credited := or_value output; tl_amount_debited := 0;
     tl_fee := None; tl_ttl_cutoff_height := None; tl_stored_tx := None; tl_kernel_excess := None;
     tl_kernel_lookup_min_height := None; tl_payment_proof := None; tl_reverted_after := None |}.

(** The number of the log entry of a restored output. *)
Definition restored_log_id (parent : Identifier) (output : OutputResult) (tx_stats : Stats) : W (Z * Stats) :=
  match (if or_is_coinbase output then None else tx_stats) with
  | None =>
      log_id ← next_tx_log_id parent;
      created ← utc_now;
      now ← utc_now;
      _ ← save_tx_log_entry (update_confirmation_ts now (restored_entry created parent output log_id)) parent;
      mret (log_id, tx_stats)
  | Some s =>
      ts ← liftS (unwrap_opt (hm_get parent s));
      credited ← liftS (u64_add (rs_amount_credited ts) (or_value output));
      outputs ← liftS (u64_add (rs_num_outputs ts) 1);
      mret (rs_log_id ts, Some (hm_insert parent (mkRestoredTxStats (rs_log_id ts) credited outputs) s))
  end.

Definition restored (parent : Identifier) (output : OutputResult) (commit : option string) (log_id : Z) : OutputData :=
  {| od_root_key_id := parent; od_key_id := or_key_id output; od_n_child := or_n_child output;
     od_mmr_index := Some (or_mmr_index output); od_commit := commit; od_value := or_value output;
     od_status := Unspent; od_height := or_height output; od_lock_height := or_lock_height output;
     od_is_coinbase := or_is_coinbase output; od_tx_log_entry := Some log_id |}.

Definition restore_missing_output (mask : option SecretKey) (output : OutputResult) (found_parents : Parents)
    (tx_stats : Stats) : W (Parents * Stats) :=
  commit_str ← calc_commit_for_cache mask (or_value output) (or_key_id output);
  let parent := parent_path (or_key_id output) in
  with_batch mask (
    '(found_parents, tx_stats) ← meet_parent parent found_parents tx_stats;
    '(log_id, tx_stats) ← restored_log_id parent output tx_stats;
    _ ← save (restored parent output commit_str log_id);
    max_child_index ← liftS (unwrap_opt (hm_get parent found_parents));
    let found_parents := if max_child_index <=? or_n_child output
                         then hm_insert parent (or_n_child output) found_parents else found_parents in
    _ ← commit;
    mret (found_parents, tx_stats)).

(** ** Cancelling the payment of an output *)
Definition scan_cancelled_type (ty : TxLogEntryType) : TxLogEntryType :=
  match ty with TxSent => TxSentCancelled | TxReceived => TxReceivedCancelled | _ => ty end.

Definition cancel_tx_log_entry (mask : option SecretKey) (output : OutputData) : W unit :=
  let parent := parent_path (od_key_id output) in
  updated ← match od_tx_log_entry output with
            | Some _ =>
                entries ← retrieve_txs (od_tx_log_entry output) None (Some parent) false;
                mret (match entries with
                      | entry :: _ => Some (set_tl_type (scan_cancelled_type (tl_tx_type entry)) entry)
                      | [] => None
                      end)
            | None => mret None
            end;
  with_batch mask (
    _ ← match updated with Some t => save_tx_log_entry t parent | None => mret tt end;
    commit).

(** An output that is on the chain is unspent. *)
Definition make_unspent (mask : option SecretKey) (output : OutputData) : W unit :=
  let o := set_od_status Unspent output in
  _ ← cancel_tx_log_entry mask o;
  with_batch mask (_ ← save o; commit).

Definition delete_unconfirmed_output (mask : option SecretKey) (o : OutputData) : W unit :=
  _ ← cancel_tx_log_entry mask o;
  with_batch mask (_ ← batch_delete (od_key_id o) (od_mmr_index o); commit).

(** ** The scan *)
Definition matched_out (wallet_outputs : list OutputCommitMapping) (deffo : OutputResult) : option OutputCommitMapping :=
  find (fun wo => bool_decide (ocm_commit wo = or_commit deffo)) wallet_outputs.
(** The outputs of the wallet, in a given state, that the chain holds. *)
Definition matched_with (st : OutputStatus) (wallet_outputs : list OutputCommitMapping) (chain_outs : list OutputResult) :
    list OutputData :=
  omap (fun deffo => match matched_out wallet_outputs deffo with
                     | Some s => if has_status st (ocm_output s) then Some (ocm_output s) else None
                     | None => None
                     end) chain_outs.
Definition missing_outs (wallet_outputs : list OutputCommitMapping) (chain_outs : list OutputResult) :
    list OutputResult :=
  filter (fun deffo => matched_out wallet_outputs deffo = None) chain_outs.

(** Names, paths and child numbers of the accounts that were found. *)
Definition restore_account (mask : option SecretKey) (accounts : list Identifier) (acct_index : Z)
    (p : Identifier * Z) : W Z :=
  let '(path, max_child_index) := p in
  acct_index ← (if bool_decide (path ∈ accounts) then mret acct_index
                else _ ← set_acct_path mask ("account_" +:+ fmt_u64 acct_index) path; mret (acct_index + 1));
  current ← current_child_index path;
  _ ← whenS (current <=? max_child_index) (with_batch mask (
        next ← liftS (u32_add max_child_index 1);
        _ ← save_child_index path next;
        commit));
  mret acct_index.

Definition scan (fuel : nat) (mask : option SecretKey) (delete_unconfirmed : bool) (start_height end_height : Z) :
    W ScannedBlockInfo :=
  k ← keychain mask;
  n ← drawn draw;
  pmmr_range ← liftS (nc_height_range_to_pmmr_indices n start_height (Some end_height));
  '(chain_outs, last_index) ← collect_chain_outputs fuel k pmmr_range.1 (Some pmmr_range.2) [];
  wallet_outputs ← retrieve_outputs mask true None None;
  _ ← foreachS (make_unspent mask) (matched_with Spent wallet_outputs chain_outs);
  '(found_parents, _) ← foldS (fun acc m => restore_missing_output mask m acc.1 acc.2) ([], None)
                          (missing_outs wallet_outputs chain_outs);
  _ ← whenS delete_unconfirmed (
        _ ← foreachS (make_unspent mask) (matched_with Locked wallet_outputs chain_outs);
        foreachS (delete_unconfirmed_output mask)
          (filter (fun o => od_status o = Unconfirmed) (ocm_output <$> wallet_outputs)));
  l ← acct_path_iter;
  let accounts := ap_path <$> l in
  order ← drawn draw;
  _ ← foldS (restore_account mask accounts) (Z.of_nat (length accounts)) (hash_order order found_parents);
  mret {| sb_height := end_height; sb_hash := ""; sb_start_pmmr_index := pmmr_range.1;
          sb_last_pmmr_index := last_index |}.
End code.

(** ** Lemmas: the hash maps *)
Lemma filter_all {A} (P : A -> Prop) `{!forall x, Decision (P x)} (l : list A) : (forall x, P x) -> filter P l = l.
Proof. intros HP. induction l as [|x l IH]; [done|]. by rewrite filter_cons_True, IH. Qed.
Section hash_maps.
Context `{WalletCrates} {V : Type}.
Implicit Types (k : Identifier) (m : list (Identifier * V)).

Lemma hm_get_elem k v m : hm_get k m = Some v -> (k, v) ∈ m.
Proof.
  unfold hm_get. intros (p & E & ->)%fmap_Some. apply find_some in E as [Hin Hk%bool_decide_eq_true_1].
  subst k. destruct p. by apply list_elem_of_In.
Qed.
Lemma hm_get_insert k v m : hm_get k (hm_insert k v m) = Some v.
Proof. unfold hm_get, hm_insert. cbn. by rewrite bool_decide_eq_true_2. Qed.
Lemma hm_get_insert_ne k k' v m : k' <> k -> hm_get k' (hm_insert k v m) = hm_get k' m.
Proof.
  intros Hne. unfold hm_get, hm_insert. cbn. rewrite bool_decide_eq_false_2 by congruence. f_equal.
  induction m as [|p m IH]; [done|]. rewrite filter_cons. case_decide as Hp; cbn.
  - by rewrite IH.
  - rewrite IH. by rewrite (bool_decide_eq_false_2 (p.1 = k')) by congruence.
Qed.
Lemma hm_insert_NoDup k v m : NoDup m.*1 -> NoDup (hm_insert k v m).*1.
Proof.
  intros Hn. cbn. apply NoDup_cons. split.
  - intros (p & -> & Hp)%list_elem_of_fmap. by apply list_elem_of_filter in Hp as [Hp _].
  - eapply sublist_NoDup; [exact Hn|apply fmap_sublist, sublist_filter].
Qed.
Lemma hm_insert_elem k v m p : p ∈ hm_insert k v m -> p = (k, v) \/ p ∈ m.
Proof. unfold hm_insert. intros [->|[_ Hp]%list_elem_of_filter]%elem_of_cons; [by left|by right]. Qed.
End hash_maps.

(** ** Lemmas: one output *)
Section steps.
Context `{BuildProfile, GC : GrinCrates, !BinCrates, !WalletCrates, !AddressCrates, !HexCrate, !NodeClient,
  !ScanCrates}.
Implicit Types (w : Wallet) (d : Db) (o : OutputData) (c : OutputResult).
#[local] Arguments output_key : simpl never.

Definition chain_key c : string := output_key (or_key_id c) (Some (or_mmr_index c)).
(** Nothing but outputs and log has changed. *)
Definition but_outputs d d' : Prop :=
  d' = set_db_outputs (db_outputs d') (set_db_tx_log (db_tx_log d') (set_db_tx_log_ids (db_tx_log_ids d') d)).

Lemma but_outputs_refl d : but_outputs d d.
Proof. by destruct d. Qed.
Lemma but_outputs_trans d1 d2 d3 : but_outputs d1 d2 -> but_outputs d2 d3 -> but_outputs d1 d3.
Proof. unfold but_outputs. destruct d1, d2, d3. cbn. intros E1 E2. injection E1. injection E2. intros. by subst. Qed.

Lemma cancel_tx_log_entry_Ok mask o w u w' :
  cancel_tx_log_entry mask o w = (Ok u, w') ->
  db_outputs (wa_db w') = db_outputs (wa_db w) /\ but_outputs (wa_db w) (wa_db w').
Proof.
  unfold cancel_tx_log_entry. intros E. apply ST_bind_Ok in E as (updated & w1 & E1 & E).
  assert (w1 = w) as ->.
  { destruct (od_tx_log_entry o); [|by apply mretS_Ok in E1 as [_ ->]].
    apply ST_bind_Ok in E1 as (es & w2 & E2 & E1). apply mretS_Ok in E1 as [_ ->].
    unfold retrieve_txs in E2. apply ST_bind_Ok in E2 as (? & ? & E0 & E2).
    apply getS_Ok in E0 as [-> ->]. by apply mretS_Ok in E2 as [_ ->]. }
  apply with_batch_Ok in E as (k & w2 & _ & E & ->). apply ST_bind_Ok in E as (u1 & w3 & E2 & E).
  apply commit_Ok in E as (_ & D & _). cbn. rewrite D. destruct updated as [t|].
  - apply batch_update_Ok in E2 as (_ & _ & P & _ & _). rewrite P. cbn. split; [done|]. by destruct (wa_db w).
  - apply mretS_Ok in E2 as [_ ->]. split; [done|]. apply but_outputs_refl.
Qed.

Lemma save_batch_Ok mask f w u w' :
  with_batch mask (_ ← batch_update f; commit) w = (Ok u, w') -> wa_db w' = f (wa_db w).
Proof.
  intros E. apply with_batch_Ok in E as (k & w1 & _ & E & ->). apply ST_bind_Ok in E as (u1 & w2 & E1 & E).
  apply batch_update_Ok in E1 as (_ & _ & P & _). apply commit_Ok in E as (_ & D & _). cbn. by rewrite D, P.
Qed.

Lemma make_unspent_Ok mask o w u w' :
  make_unspent mask o w = (Ok u, w') ->
  db_outputs (wa_db w') = <[own_key o := set_od_status Unspent o]> (db_outputs (wa_db w)) /\ but_outputs (wa_db w) (wa_db w').
Proof.
  unfold make_unspent. intros E. apply ST_bind_Ok in E as (u1 & w1 & E1 & E).
  apply cancel_tx_log_entry_Ok in E1 as [Eo Eb]. apply save_batch_Ok in E as ->. cbn. rewrite Eo. split; [done|].
  eapply but_outputs_trans; [exact Eb|]. by destruct (wa_db w1).
Qed.

Lemma delete_unconfirmed_Ok mask o w u w' :
  delete_unconfirmed_output mask o w = (Ok u, w') ->
  db_outputs (wa_db w') = delete (own_key o) (db_outputs (wa_db w)) /\ but_outputs (wa_db w) (wa_db w').
Proof.
  unfold delete_unconfirmed_output. intros E. apply ST_bind_Ok in E as (u1 & w1 & E1 & E).
  apply cancel_tx_log_entry_Ok in E1 as [Eo Eb]. apply save_batch_Ok in E as ->. cbn. rewrite Eo. split; [done|].
  eapply but_outputs_trans; [exact Eb|]. by destruct (wa_db w1).
Qed.

(** The greatest child number met under each parent. *)
Definition covers (found : Parents) c : Prop :=
  exists v, hm_get (parent_path (or_key_id c)) found = Some v /\ or_n_child c <= v.

Lemma next_tx_log_id_but i w id w' :
  next_tx_log_id i w = (Ok id, w') ->
  db_outputs (pending w') = db_outputs (pending w) /\ but_outputs (pending w) (pending w').
Proof. intros (_ & _ & m & P)%next_tx_log_id_Ok. rewrite P. split; [done|]. by destruct (pending w). Qed.

Lemma restore_missing_output_Ok mask c found w found' stats w' :
  restore_missing_output mask c found None w = (Ok (found', stats), w') ->
  stats = None
  /\ (exists commit log, db_outputs (wa_db w')
        = <[chain_key c := restored (parent_path (or_key_id c)) c commit log]> (db_outputs (wa_db w)))
  /\ but_outputs (wa_db w) (wa_db w')
  /\ covers found' c /\ (forall q, covers found q -> covers found' q)
  /\ (NoDup found.*1 -> NoDup found'.*1)
  /\ (forall p, p ∈ found' -> p ∈ found \/ p.1 = parent_path (or_key_id c) /\ (p.2 = 0 \/ p.2 = or_n_child c)).
Proof.
  unfold restore_missing_output. intros E. apply ST_bind_Ok in E as (commit_str & w1 & E1 & E).
  apply calc_commit_Ok in E1 as ->. set (parent := parent_path (or_key_id c)) in *.
  apply with_batch_Ok in E as (k & w2 & _ & E & ->). apply ST_bind_Ok in E as ([found1 stats1] & w3 & E1 & E).
  assert (w3 = set_wa_batch (Some (wa_db w, Some k)) w /\ stats1 = None
    /\ found1 = match hm_get parent found with Some _ => found | None => hm_insert parent 0 found end) as (-> & -> & Ef).
  { unfold meet_parent in E1. destruct (hm_get parent found).
    - by apply mretS_Ok in E1 as [[= -> ->] ->].
    - apply ST_bind_Ok in E1 as (s & w4 & E1 & E2). apply mretS_Ok in E1 as [-> ->].
      by apply mretS_Ok in E2 as [[= -> ->] ->]. }
  apply ST_bind_Ok in E as ([log stats2] & w4 & E2 & E).
  assert (db_outputs (pending w4) = db_outputs (wa_db w) /\ but_outputs (wa_db w) (pending w4) /\ stats2 = None) as (O4 & B4 & ->).
  { unfold restored_log_id in E2. replace (if or_is_coinbase c then None else None) with (@None (list (Identifier * RestoredTxStats))) in E2
      by by destruct (or_is_coinbase c).
    apply ST_bind_Ok in E2 as (l & w5 & E2 & E3). apply next_tx_log_id_but in E2 as [O5 B5].
    apply ST_bind_Ok in E3 as (t1 & w6 & E3 & E4). apply drawn_Ok in E3 as (P6 & _).
    apply ST_bind_Ok in E4 as (t2 & w7 & E4 & E5). apply drawn_Ok in E4 as (P7 & _).
    apply ST_bind_Ok in E5 as (u & w8 & E5 & E6). apply batch_update_Ok in E5 as (_ & _ & P8 & _).
    apply mretS_Ok in E6 as [[= -> ->] ->]. rewrite P8, P7, P6. cbn. cbn in O5, B5. rewrite O5. split_and!; [done| |done].
    eapply but_outputs_trans; [exact B5|]. by destruct (pending w5). }
  apply ST_bind_Ok in E as (u & w5 & E3 & E). apply batch_update_Ok in E3 as (_ & _ & P5 & _).
  apply ST_bind_Ok in E as (mx & w6 & E4 & E). apply liftS_Ok in E4 as [E4 ->].
  apply ST_bind_Ok in E as (u6 & w7 & E5 & E). apply commit_Ok in E5 as (_ & D7 & _).
  apply mretS_Ok in E as [[= -> ->] ->]. cbn. rewrite D7, P5. cbn. rewrite O4.
  assert (Hmx : hm_get parent found1 = Some mx) by (destruct (hm_get parent found1); cbn in E4; congruence).
  split_and!; [done|by eexists _, _| | | | |].
  - eapply but_outputs_trans; [exact B4|]. by destruct (pending w4).
  - unfold covers. fold parent. destruct (Z.leb_spec mx (or_n_child c)).
    + eexists. rewrite hm_get_insert. split; [done|lia].
    + exists mx. split; [done|lia].
  - intros q (v & Ev & Hv). unfold covers.
    assert (Ev1 : hm_get (parent_path (or_key_id q)) found1 = Some v).
    { rewrite Ef. destruct (hm_get parent found) eqn:Eg; [done|].
      rewrite hm_get_insert_ne; [done|]. intros Eq. by rewrite Eq, Eg in Ev. }
    destruct (Z.leb_spec mx (or_n_child c)); [|by exists v].
    destruct (decide (parent_path (or_key_id q) = parent)) as [Heq|Hne].
    + rewrite Heq in Ev1 |- *. rewrite Ev1 in Hmx. injection Hmx as ->. eexists. rewrite hm_get_insert. split; [done|lia].
    + exists v. by rewrite hm_get_insert_ne.
  - intros Hn. assert (NoDup found1.*1) by (rewrite Ef; destruct (hm_get parent found); [done|by apply hm_insert_NoDup]).
    destruct (Z.leb_spec mx (or_n_child c)); [by apply hm_insert_NoDup|done].
  - intros p Hp. assert (p ∈ found1 \/ p = (parent, or_n_child c)) as [Hp1|Hp1]; [| |subst p; right; auto].
    { destruct (Z.leb_spec mx (or_n_child c)); [|by left]. apply hm_insert_elem in Hp as [->|Hp]; [by right|by left]. }
    rewrite Ef in Hp1. destruct (hm_get parent found); [by left|].
    apply hm_insert_elem in Hp1 as [->|Hp1]; [right; auto|by left].
Qed.
End steps.

(** ** Lemmas: the loops *)
Section loops.
Context `{BuildProfile, GC : GrinCrates, !BinCrates, !WalletCrates, !AddressCrates, !HexCrate, !NodeClient,
  !ScanCrates}.
Implicit Types (w : Wallet) (d : Db) (o : OutputData) (c : OutputResult).
#[local] Arguments output_key : simpl never.

Lemma make_all_unspent_Ok mask l w u w' :
  foreachS (make_unspent mask) l w = (Ok u, w') ->
  (forall o, o ∈ l -> exists q, q ∈ l /\ own_key q = own_key o
     /\ db_outputs (wa_db w') !! own_key o = Some (set_od_status Unspent q))
  /\ (forall k, k ∉ own_key <$> l -> db_outputs (wa_db w') !! k = db_outputs (wa_db w) !! k)
  /\ but_outputs (wa_db w) (wa_db w').
Proof.
  revert w. induction l as [|o l IH]; intros w E; cbn [foreachS] in E.
  { apply mretS_Ok in E as [-> ->]. split_and!; [by intros o ?%elem_of_nil|done|apply but_outputs_refl]. }
  apply ST_bind_Ok in E as (u1 & w1 & E1 & E2). apply make_unspent_Ok in E1 as [O1 B1].
  apply IH in E2 as (Hl & Ho & B2). split_and!.
  - intros q Hq. destruct (decide (own_key q ∈ own_key <$> l)) as [Hin|Hin].
    + apply list_elem_of_fmap in Hin as (r & Er & Hr). destruct (Hl r Hr) as (s & Hs & Es & Eq). exists s.
      rewrite Er. split; [by right|]. by split.
    + apply elem_of_cons in Hq as [->|Hq]; [|by apply (list_elem_of_fmap_2 own_key) in Hq].
      exists o. split; [by left|]. split; [done|]. by rewrite Ho, O1, lookup_insert_eq.
  - intros k Hk. apply not_elem_of_cons in Hk as [H1' H2']. by rewrite Ho, O1, lookup_insert_ne.
  - by eapply but_outputs_trans.
Qed.

Lemma delete_all_Ok mask l w u w' :
  foreachS (delete_unconfirmed_output mask) l w = (Ok u, w') ->
  (forall k, db_outputs (wa_db w') !! k = if bool_decide (k ∈ own_key <$> l) then None else db_outputs (wa_db w) !! k)
  /\ but_outputs (wa_db w) (wa_db w').
Proof.
  revert w. induction l as [|o l IH]; intros w E; cbn [foreachS] in E.
  { apply mretS_Ok in E as [-> ->]. split; [done|apply but_outputs_refl]. }
  apply ST_bind_Ok in E as (u1 & w1 & E1 & E2). apply delete_unconfirmed_Ok in E1 as [O1 B1].
  apply IH in E2 as (Ho & B2). split; [|by eapply but_outputs_trans]. intros k. rewrite Ho, O1. cbn.
  destruct (decide (k = own_key o)) as [->|Hne].
  - rewrite lookup_delete_eq. rewrite (bool_decide_eq_true_2 (_ ∈ own_key o :: _)) by left. by destruct (bool_decide _).
  - rewrite lookup_delete_ne by done. repeat case_bool_decide; set_solver.
Qed.

Lemma restore_all_Ok mask l found w found' stats w' :
  foldS (fun acc m => restore_missing_output mask m acc.1 acc.2) (found, None) l w = (Ok (found', stats), w') ->
  NoDup found.*1 ->
  (forall c, c ∈ l -> exists q commit log, q ∈ l /\ chain_key q = chain_key c
     /\ db_outputs (wa_db w') !! chain_key c = Some (restored (parent_path (or_key_id q)) q commit log))
  /\ (forall k, k ∉ chain_key <$> l -> db_outputs (wa_db w') !! k = db_outputs (wa_db w) !! k)
  /\ but_outputs (wa_db w) (wa_db w')
  /\ (forall c, c ∈ l \/ covers found c -> covers found' c)
  /\ NoDup found'.*1
  /\ (forall p, p ∈ found' -> p ∈ found
        \/ exists c, c ∈ l /\ p.1 = parent_path (or_key_id c) /\ (p.2 = 0 \/ p.2 = or_n_child c)).
Proof.
  revert found w. induction l as [|c l IH]; intros found w E Hn; cbn [foldS] in E.
  { apply mretS_Ok in E as [[= -> ->] ->]. split_and!; [by intros c ?%elem_of_nil|done|apply but_outputs_refl| |done|by left].
    by intros c [?%elem_of_nil|]. }
  apply ST_bind_Ok in E as ([found1 stats1] & w1 & E1 & E2).
  apply restore_missing_output_Ok in E1 as (-> & (cm & log & O1) & B1 & C1 & M1 & N1 & V1).
  apply IH in E2 as (Hl & Ho & B2 & Hc & N2 & V2); [|by apply N1]. split_and!; [| | | |done|].
  - intros q Hq. destruct (decide (chain_key q ∈ chain_key <$> l)) as [Hin|Hin].
    + apply list_elem_of_fmap in Hin as (r & Er & Hr). destruct (Hl r Hr) as (s & cs & ls & Hs & Es & Eq).
      exists s, cs, ls. rewrite Er. split; [by right|]. by split.
    + apply elem_of_cons in Hq as [->|Hq]; [|by apply (list_elem_of_fmap_2 chain_key) in Hq].
      exists c, cm, log. split; [by left|]. split; [done|]. by rewrite Ho, O1, lookup_insert_eq.
  - intros k Hk. apply not_elem_of_cons in Hk as [H1' H2']. by rewrite Ho, O1, lookup_insert_ne.
  - by eapply but_outputs_trans.
  - intros q [[->|Hq]%elem_of_cons|Hq]; apply Hc; [by right|by left|right; by apply M1].
  - intros p [Hp|(q & Hq & Hp)]%V2; [|right; exists q; split; [by right|done]].
    apply V1 in Hp as [Hp|Hp]; [by left|right; exists c; split; [by left|done]].
Qed.

(** The number the next child of an account gets. *)
Definition next_child_of d (i : Identifier) : Z := default 0 (db_child_index d !! to_key DERIV_PREFIX (id_to_bytes i)).

Context `{!WalletLaws}.

Lemma restore_account_Ok mask accounts n p w n' w' :
  restore_account mask accounts n p w = (Ok n', w') ->
  db_outputs (wa_db w') = db_outputs (wa_db w)
  /\ (overflow_checks = true \/ p.2 < u32_modulus - 1 -> p.2 < next_child_of (wa_db w') p.1)
  /\ (forall i, i <> p.1 -> next_child_of (wa_db w') i = next_child_of (wa_db w) i).
Proof.
  destruct p as [path mx]. cbn [fst snd]. unfold restore_account. intros E. apply ST_bind_Ok in E as (n1 & w1 & E1 & E).
  assert (db_outputs (wa_db w1) = db_outputs (wa_db w) /\ db_child_index (wa_db w1) = db_child_index (wa_db w)) as [O1 C1].
  { case_bool_decide; [by apply mretS_Ok in E1 as [_ ->]|]. apply ST_bind_Ok in E1 as (u & w2 & E1 & E2).
    apply mretS_Ok in E2 as [_ ->]. unfold set_acct_path, save_acct_path in E1. by apply save_batch_Ok in E1 as ->. }
  apply ST_bind_Ok in E as (current & w2 & E2 & E). apply getS_Ok in E2 as [-> ->]. fold (next_child_of (wa_db w1) path) in E.
  apply ST_bind_Ok in E as (u & w3 & E3 & E). apply mretS_Ok in E as [-> ->].
  assert (Hi : forall i, next_child_of (wa_db w1) i = next_child_of (wa_db w) i) by (intros i; unfold next_child_of; by rewrite C1).
  destruct (Z.leb_spec (next_child_of (wa_db w1) path) mx).
  - cbn [whenS] in E3. apply with_batch_Ok in E3 as (k & w4 & _ & E3 & ->).
    apply ST_bind_Ok in E3 as (next & w5 & E4 & E3). apply liftS_Ok in E4 as [E4 ->].
    apply ST_bind_Ok in E3 as (u5 & w6 & E5 & E3). apply batch_update_Ok in E5 as (_ & _ & P & _).
    apply commit_Ok in E3 as (_ & D & _). cbn. rewrite D, P. cbn. split_and!; [done| |].
    + intros Hb. unfold next_child_of. cbn. rewrite lookup_insert_eq. cbn.
      unfold u32_add, uint_result in E4. destruct (Z.leb_spec 0 (mx + 1)); cbn [andb] in E4.
      * destruct (Z.ltb_spec (mx + 1) u32_modulus); [injection E4 as <-; lia|].
        destruct Hb as [Hb|Hb]; [by rewrite Hb in E4|lia].
      * destruct overflow_checks; [done|]. injection E4 as <-.
        pose proof (Z.mod_pos_bound (mx + 1) u32_modulus ltac:(unfold u32_modulus; lia)). lia.
    + intros i Hne. rewrite <- Hi. unfold next_child_of. cbn. rewrite lookup_insert_ne; [done|].
      intros Eq%to_key_inj%id_bytes_inj. by subst.
  - apply mretS_Ok in E3 as [_ ->]. split_and!; [done|lia|]. intros i _. apply Hi.
Qed.

Lemma restore_accounts_Ok mask accounts l n w n' w' :
  foldS (restore_account mask accounts) n l w = (Ok n', w') -> NoDup l.*1 ->
  db_outputs (wa_db w') = db_outputs (wa_db w)
  /\ (forall p, p ∈ l -> overflow_checks = true \/ p.2 < u32_modulus - 1 -> p.2 < next_child_of (wa_db w') p.1)
  /\ (forall i, i ∉ l.*1 -> next_child_of (wa_db w') i = next_child_of (wa_db w) i).
Proof.
  revert n w. induction l as [|p l IH]; intros n w E Hn; cbn [foldS] in E.
  { apply mretS_Ok in E as [-> ->]. split_and!; [done|by intros p ?%elem_of_nil|done]. }
  apply ST_bind_Ok in E as (n1 & w1 & E1 & E2). apply restore_account_Ok in E1 as (O1 & C1 & R1).
  cbn in Hn. apply NoDup_cons in Hn as [Hp Hn]. apply IH in E2 as (O2 & C2 & R2); [|done]. split_and!; [congruence| |].
  - intros q [->|Hq]%elem_of_cons Hb; [rewrite R2 by done; by apply C1|by apply C2].
  - intros i Hi. apply not_elem_of_cons in Hi as [H1' H2']. by rewrite R2, R1.
Qed.
End loops.

(** ** What a scan does *)
Section properties.
Context `{BuildProfile, GC : GrinCrates, !BinCrates, !WalletCrates, !AddressCrates, !HexCrate, !NodeClient,
  !ScanCrates}.
Implicit Types (w : Wallet) (d : Db) (o : OutputData) (c : OutputResult).
#[local] Arguments output_key : simpl never.

(** Rounds of answers of the node, from an index to where it says that nothing is left,
    and the wallet's own outputs among them. *)
Inductive collected (k : Keychain) (end_index : option Z) : Z -> list OutputResult -> Z -> Prop :=
| collected_last n s highest last outs l :
    nc_get_outputs_by_pmmr_index n s end_index 1000 = Ok (highest, last, outs) ->
    identify_utxo_outputs k outs = Ok l -> highest <= last -> collected k end_index s l last
| collected_more n s highest last outs l s' l' last' :
    nc_get_outputs_by_pmmr_index n s end_index 1000 = Ok (highest, last, outs) ->
    identify_utxo_outputs k outs = Ok l -> last < highest -> u64_add last 1 = Ok s' ->
    collected k end_index s' l' last' -> collected k end_index s (l ++ l') last'.

Lemma collect_Ok fuel k s e acc w r last w' :
  collect_chain_outputs fuel k s e acc w = (Ok (r, last), w') ->
  wa_db w' = wa_db w /\ exists l, r = acc ++ l /\ collected k e s l last.
Proof.
  revert s acc w. induction fuel as [|fuel IH]; intros s acc w E; [done|]. cbn [collect_chain_outputs] in E.
  apply ST_bind_Ok in E as (n & w1 & E1 & E). apply drawn_Ok in E1 as (_ & D1 & _).
  apply ST_bind_Ok in E as ([[highest lst] outs] & w2 & E2 & E). apply liftS_Ok in E2 as [E2 ->].
  apply ST_bind_Ok in E as (l & w3 & E3 & E). apply liftS_Ok in E3 as [E3 ->].
  destruct (Z.leb_spec highest lst).
  - apply mretS_Ok in E as [[= -> ->] ->]. split; [done|]. exists l. split; [done|]. by eapply collected_last.
  - apply ST_bind_Ok in E as (s' & w4 & E4 & E). apply liftS_Ok in E4 as [E4 ->].
    apply IH in E as (D & l' & -> & Hc). split; [congruence|]. exists (l ++ l'). rewrite app_assoc. split; [done|].
    by eapply collected_more.
Qed.

(** A node that always answers, gets further with every answer, and has no output after
    [highest]. *)
Definition node_advances (e : option Z) (top : Z) : Prop :=
  top < u64_modulus - 1
  /\ forall n s, 0 <= s -> exists highest last outs,
       nc_get_outputs_by_pmmr_index n s e 1000 = Ok (highest, last, outs) /\ highest <= top /\ s <= last.
Definition opens_all (k : Keychain) : Prop := forall outs, exists l, identify_utxo_outputs k outs = Ok l.

(** Walking over the outputs of the chain ends: with a node that advances, as many rounds
    as there are indices are enough. *)
Theorem collect_terminates fuel k s e top acc w :
  node_advances e top -> opens_all k -> 0 <= s -> (Z.to_nat (top - s) < fuel)%nat ->
  exists l last w', collect_chain_outputs fuel k s e acc w = (Ok (acc ++ l, last), w') /\ collected k e s l last
  /\ wa_db w' = wa_db w.
Proof.
  intros (Htop & Hnode) Hk. revert s acc w. induction fuel as [|fuel IH]; intros s acc w Hs Hf; [lia|].
  cbn [collect_chain_outputs].
  destruct (drawn draw w) as [rn w1] eqn:E1. assert (exists n, rn = Ok n) as [n ->].
  { unfold drawn, draw in E1. by injection E1 as <- _; eexists. }
  pose proof (drawn_Ok _ _ _ _ E1) as (_ & D1 & _). rewrite (ST_bind_run _ _ _ _ _ E1).
  destruct (Hnode n s Hs) as (highest & lst & outs & E2 & Hh & Hl). rewrite (ST_bind_run _ _ _ _ _ (liftS_run _ _ _ E2)).
  destruct (Hk outs) as [l E3]. rewrite (ST_bind_run _ _ _ _ _ (liftS_run _ _ _ E3)).
  destruct (Z.leb_spec highest lst).
  - exists l, lst, w1. split; [done|]. split; [|done]. by eapply collected_last.
  - assert (E4 : u64_add lst 1 = Ok (lst + 1)) by (apply u64_add_ok; unfold in_u64; lia).
    rewrite (ST_bind_run _ _ _ _ _ (liftS_run _ _ _ E4)).
    destruct (IH (lst + 1) (acc ++ l) w1) as (l' & last' & w' & E5 & Hc & D5); [lia|lia|].
    exists (l ++ l'), last', w'. rewrite E5, <- app_assoc. split; [done|]. split; [|congruence]. by eapply collected_more.
Qed.

(** The outputs of the wallet with their commitments. *)
Definition own_outputs k d (l : list OutputCommitMapping) : Prop :=
  ocm_output <$> l ≡ₚ db_iter (db_outputs d)
  /\ Forall (fun m => output_commit k (ocm_output m) = Ok (ocm_commit m)) l.

Lemma retrieve_all_Ok mask w r w' :
  retrieve_outputs mask true None None w = (Ok r, w') ->
  w' = w /\ exists k, keychain mask w = (Ok k, w) /\ own_outputs k (wa_db w) r.
Proof.
  unfold retrieve_outputs. intros E.
  apply ST_bind_Ok in E as (outs & w1 & E1 & E). apply getS_Ok in E1 as [-> ->].
  apply ST_bind_Ok in E as (k & w2 & E2 & E). pose proof (keychain_Ok _ _ _ _ E2) as ->.
  apply liftS_Ok in E as [E ->]. split; [done|]. exists k. split; [done|]. split.
  - rewrite (output_commits_Ok _ _ _ E), sort_by_key_perm. by rewrite filter_all.
  - apply res_map_Ok in E. clear -E. induction E as [|o m l r E _ IH]; constructor; [|done].
    apply res_bind_Ok in E as (c & Ec & [= <-]). done.
Qed.

Lemma matched_out_Some l c m : matched_out l c = Some m -> m ∈ l /\ ocm_commit m = or_commit c.
Proof. intros [Hin Hc%bool_decide_eq_true_1]%find_some. by apply list_elem_of_In in Hin. Qed.
Lemma matched_out_None l c : matched_out l c = None <-> forall m, m ∈ l -> ocm_commit m <> or_commit c.
Proof.
  split.
  - intros E m Hm%list_elem_of_In Ec. pose proof (find_none _ _ E m Hm) as Hf. cbn in Hf.
    by apply bool_decide_eq_false_1 in Hf.
  - intros Hall. destruct (matched_out l c) as [m|] eqn:E; [|done]. apply matched_out_Some in E as [Hm Ec].
    by apply (Hall m) in Ec.
Qed.
Lemma matched_with_elem st l cs o :
  o ∈ matched_with st l cs <-> exists c m, c ∈ cs /\ matched_out l c = Some m /\ ocm_output m = o /\ od_status o = st.
Proof.
  unfold matched_with. rewrite list_elem_of_omap. split.
  - intros (c & Hc & E). destruct (matched_out l c) as [m|] eqn:Em; [|done].
    destruct (has_status st (ocm_output m)) eqn:Es; [|done]. injection E as <-. exists c, m.
    apply bool_decide_eq_true_1 in Es. done.
  - intros (c & m & Hc & Em & <- & Es). exists c. split; [done|]. rewrite Em. unfold has_status.
    by rewrite bool_decide_eq_true_2.
Qed.

(** The wallet's outputs that a scan makes unspent, and those it deletes. *)
Definition to_unspend (repair : bool) mine chain_outs : list OutputData :=
  matched_with Spent mine chain_outs ++ (if repair then matched_with Locked mine chain_outs else []).
Definition to_delete (repair : bool) (mine : list OutputCommitMapping) : list OutputData :=
  if repair then filter (fun o => od_status o = Unconfirmed) (ocm_output <$> mine) else [].

(** What a scan does to the outputs. *)
Definition repaired (repair : bool) (mine : list OutputCommitMapping) (chain_outs : list OutputResult) d d' : Prop :=
  let unspend := to_unspend repair mine chain_outs in
  let missing := missing_outs mine chain_outs in
  let gone := own_key <$> to_delete repair mine in
  (forall key, key ∈ gone -> db_outputs d' !! key = None)
  /\ (forall c, c ∈ missing -> chain_key c ∉ gone -> chain_key c ∉ own_key <$> unspend ->
        exists q commit log, q ∈ missing /\ chain_key q = chain_key c
        /\ db_outputs d' !! chain_key c = Some (restored (parent_path (or_key_id q)) q commit log))
  /\ (forall o, o ∈ unspend -> own_key o ∉ gone -> own_key o ∉ chain_key <$> missing ->
        exists q, q ∈ unspend /\ own_key q = own_key o /\ db_outputs d' !! own_key o = Some (set_od_status Unspent q))
  /\ (forall key, key ∈ own_key <$> unspend -> key ∈ chain_key <$> missing -> key ∉ gone ->
        exists o, db_outputs d' !! key = Some o /\ od_status o = Unspent)
  /\ (forall key, key ∉ gone -> key ∉ own_key <$> unspend -> key ∉ chain_key <$> missing ->
        db_outputs d' !! key = db_outputs d !! key).

(** What the keychain depends on. *)
Definition sealed w : option Keychain * option string := (wa_keychain w, wa_master_checksum w).

Lemma leaves_collect {X} (f : Wallet -> X) fuel k s e acc :
  (forall t w, f (set_wa_tape t w) = f w) -> leaves f (collect_chain_outputs fuel k s e acc).
Proof.
  intros Hf. revert s acc. induction fuel as [|fuel IH]; intros s acc; cbn [collect_chain_outputs]; [done|].
  apply leaves_bind; [by apply leaves_drawn|]. intros n. apply leaves_bind; [apply leaves_lift|]. intros [[h l] outs].
  apply leaves_bind; [apply leaves_lift|]. intros r. destruct (h <=? l); [apply leaves_ret|].
  apply leaves_bind; [apply leaves_lift|]. intros s'. apply IH.
Qed.

(** The three loops over the outputs. *)
Lemma repair_outputs_Ok mask repair mine chain_outs w0 u1 w1 found stats w2 u3 w3 :
  foreachS (make_unspent mask) (matched_with Spent mine chain_outs) w0 = (Ok u1, w1) ->
  foldS (fun acc m => restore_missing_output mask m acc.1 acc.2) ([], None) (missing_outs mine chain_outs) w1
    = (Ok (found, stats), w2) ->
  whenS repair (
        _ ← foreachS (make_unspent mask) (matched_with Locked mine chain_outs);
        foreachS (delete_unconfirmed_output mask)
          (filter (fun o => od_status o = Unconfirmed) (ocm_output <$> mine))) w2 = (Ok u3, w3) ->
  repaired repair mine chain_outs (wa_db w0) (wa_db w3)
  /\ (forall c, c ∈ missing_outs mine chain_outs -> covers found c) /\ NoDup found.*1
  /\ (forall p, p ∈ found -> exists c, c ∈ missing_outs mine chain_outs
        /\ p.1 = parent_path (or_key_id c) /\ (p.2 = 0 \/ p.2 = or_n_child c))
  /\ but_outputs (wa_db w0) (wa_db w3).
Proof.
  intros E1 E2 E3. apply make_all_unspent_Ok in E1 as (U1 & R1 & B1).
  apply restore_all_Ok in E2 as (M2 & R2 & B2 & C2 & N2 & V2); [|apply NoDup_nil_2].
  assert (exists l w, (forall o, o ∈ l -> exists q, q ∈ l /\ own_key q = own_key o
       /\ db_outputs (wa_db w) !! own_key o = Some (set_od_status Unspent q))
    /\ (forall k, k ∉ own_key <$> l -> db_outputs (wa_db w) !! k = db_outputs (wa_db w2) !! k)
    /\ to_unspend repair mine chain_outs = matched_with Spent mine chain_outs ++ l
    /\ (forall k, db_outputs (wa_db w3) !! k
         = if bool_decide (k ∈ own_key <$> to_delete repair mine) then None else db_outputs (wa_db w) !! k)
    /\ but_outputs (wa_db w2) (wa_db w3))
    as (l & w & U3 & R3 & El & G3 & B3).
  { destruct repair; cbn [whenS] in E3.
    - apply ST_bind_Ok in E3 as (u & w & E3 & E4). apply make_all_unspent_Ok in E3 as (U3 & R3 & B3).
      apply delete_all_Ok in E4 as [G B4]. exists (matched_with Locked mine chain_outs), w.
      split_and!; [done..|]. by eapply but_outputs_trans.
    - apply mretS_Ok in E3 as [_ ->]. exists [], w2. split_and!; [by intros o ?%elem_of_nil|done..|apply but_outputs_refl]. }
  split_and!; [|intros c Hc; apply C2; by left|done| |].
  2:{ intros p [?%elem_of_nil|?]%V2; done. }
  2:{ by eapply but_outputs_trans; [|eapply but_outputs_trans]. }
  unfold repaired. rewrite El. clear E3 El. cbv zeta. split_and!.
  - intros k Hg. rewrite G3. by rewrite bool_decide_eq_true_2.
  - intros c Hc Hg Hu. rewrite fmap_app, not_elem_of_app in Hu. destruct Hu as [Hu1 Hu2].
    rewrite G3, bool_decide_eq_false_2, R3 by done. by apply M2.
  - intros o Ho Hg Hm. rewrite G3, bool_decide_eq_false_2 by done.
    destruct (decide (own_key o ∈ own_key <$> l)) as [Hl|Hl].
    + apply list_elem_of_fmap in Hl as (q & Eq & Hq). destruct (U3 q Hq) as (r & Hr & Er & Es). exists r.
      rewrite Eq. split; [apply elem_of_app; by right|]. by split.
    + apply elem_of_app in Ho as [Ho|Ho]; [|by apply (list_elem_of_fmap_2 own_key) in Ho].
      destruct (U1 o Ho) as (q & Hq & Eq & Es). exists q. rewrite R3, R2 by done. split; [apply elem_of_app; by left|]. by split.
  - intros k Hu Hm Hg. rewrite G3, bool_decide_eq_false_2 by done.
    destruct (decide (k ∈ own_key <$> l)) as [Hl|Hl].
    + apply list_elem_of_fmap in Hl as (q & -> & Hq). destruct (U3 q Hq) as (r & _ & _ & Es). by eexists.
    + rewrite R3 by done. apply list_elem_of_fmap in Hm as (c & -> & Hc). destruct (M2 c Hc) as (q & cm & log & _ & _ & Es).
      by eexists.
  - intros k Hg Hu Hm. rewrite fmap_app, not_elem_of_app in Hu. destruct Hu as [Hu1 Hu2].
    by rewrite G3, bool_decide_eq_false_2, R3, R2, R1.
Qed.

(** C24: Scanning.  When a scan of the wallet succeeds, the outputs of the wallet are
    compared with the wallet's own among those that the node gave for the range: what the
    wallet did not know by its commitment is there afterwards, unspent, under its key
    and index; what it held as spent is unspent again; and when the
    wallet is to be repaired, what it held as locked is unspent too and what it held
    as unconfirmed is gone.  Every other output is as it was.  In an account with a restored
    output the next child gets a greater number than every output restored there has, so that
    no restored key is given out again: always in a build that checks for overflow, and in any other as long as
    the restored outputs have numbers below 2^32-1.  The next child of every other account is the one it was. *)
Theorem scan_repairs `{!WalletLaws, !ScanLaws} fuel mask repair start_height end_height w info w' :
  scan fuel mask repair start_height end_height w = (Ok info, w') ->
  exists k chain_outs mine n range,
    keychain mask w = (Ok k, w) /\ own_outputs k (wa_db w) mine
    /\ nc_height_range_to_pmmr_indices n start_height (Some end_height) = Ok range
    /\ collected k (Some range.2) range.1 chain_outs (sb_last_pmmr_index info)
    /\ repaired repair mine chain_outs (wa_db w) (wa_db w')
    /\ (overflow_checks = true \/ (forall c, c ∈ missing_outs mine chain_outs -> or_n_child c < u32_modulus - 1) ->
         forall c, c ∈ missing_outs mine chain_outs ->
           or_n_child c < next_child_of (wa_db w') (parent_path (or_key_id c)))
    /\ (forall i, (forall c, c ∈ missing_outs mine chain_outs -> parent_path (or_key_id c) <> i) ->
         next_child_of (wa_db w') i = next_child_of (wa_db w) i).
Proof.
  intros E. unfold scan in E. apply ST_bind_Ok in E as (k & w1 & E1 & E). pose proof (keychain_Ok _ _ _ _ E1) as ->.
  apply ST_bind_Ok in E as (n & w2 & E2 & E).
  pose proof (leaves_Ok _ _ _ _ _ (leaves_drawn sealed draw (fun _ _ => eq_refl)) E2) as K2.
  apply drawn_Ok in E2 as (_ & D2 & _).
  apply ST_bind_Ok in E as (range & w3 & E3 & E). apply liftS_Ok in E3 as [E3 ->].
  apply ST_bind_Ok in E as ([chain_outs last] & w4 & E4 & E).
  pose proof (leaves_Ok _ _ _ _ _ (leaves_collect sealed _ _ _ _ _ (fun _ _ => eq_refl)) E4) as K4.
  apply collect_Ok in E4 as (D4 & l & -> & Hcol). cbn [app] in *.
  apply ST_bind_Ok in E as (mine & w5 & E5 & E). apply retrieve_all_Ok in E5 as (-> & k' & Ek & Hown).
  rewrite K2 in K4. injection K4 as K4 S4. rewrite (keychain_ext _ _ _ _ w4 E1 K4 S4) in Ek. injection Ek as <-. rewrite D4, D2 in Hown.
  apply ST_bind_Ok in E as (u6 & w6 & E6 & E). apply ST_bind_Ok in E as ([found stats] & w7 & E7 & E).
  apply ST_bind_Ok in E as (u8 & w8 & E8 & E).
  pose proof (repair_outputs_Ok _ _ _ _ _ _ _ _ _ _ _ _ E6 E7 E8) as (Hr & Hc & Hn & Hv & HB). rewrite D4, D2 in Hr, HB.
  apply ST_bind_Ok in E as (l9 & w9 & E9 & E). apply getS_Ok in E9 as [-> ->].
  apply ST_bind_Ok in E as (order & w10 & E10 & E). apply drawn_Ok in E10 as (_ & D10 & _).
  apply ST_bind_Ok in E as (idx & w11 & E11 & E). apply mretS_Ok in E as [-> ->]. cbn [sb_last_pmmr_index].
  apply restore_accounts_Ok in E11 as (O11 & C11 & F11); [|by rewrite hash_order_perm].
  exists k, l, mine, n, range. split_and!; [done..| | |].
  - unfold repaired in *. by rewrite O11, D10.
  - intros Hb c Hm. destruct (Hc c Hm) as (v & Ev & Hle). apply hm_get_elem in Ev.
    assert (Hv1 : overflow_checks = true \/ v < u32_modulus - 1).
    { destruct Hb as [Hb|Hb]; [by left|right].
      apply Hv in Ev as Hv'. cbn in Hv'. destruct Hv' as (q & Hq & _ & [->| ->]); [done|by apply Hb]. }
    specialize (C11 (parent_path (or_key_id c), v)). cbn in C11. rewrite hash_order_perm in C11. specialize (C11 Ev Hv1). lia.
  - intros i Hi. rewrite F11; [unfold next_child_of; by rewrite D10, HB|].
    rewrite hash_order_perm. intros (p & -> & Hp)%list_elem_of_fmap. apply Hv in Hp as (c & Hm & Ep & _). by apply (Hi c).
Qed.
End properties.
