(* ===== verification/Owner.v ===== *)
(** * api_impl/owner.rs: what the owner of a wallet can do

    Each function takes the wallet, which is open and locked for as long as it is used:
    [wallet_lock!] is the state of [W].  Messages on the status channel are not
    modelled.  Sections: bringing the wallet up to date, looking at it, payments,
    payment proofs. *)
From S2P Require Import Prelude.
From S2P Require Import RustStd.
From S2P Require Import Crates.
From S2P Require Import Effects.
From S2P Require Import Slate.
From S2P Require Import SlateV4.
From S2P Require Import SlateBin.
From S2P Require Import StateM.
From S2P Require Import Wallet.
From S2P Require Import Address.
From S2P Require Import Selection.
From S2P Require Import Updater.
From S2P Require Import WalletTx.
From S2P Require Import Scan.
#[local] Open Scope Z_scope.

Class OwnerCrates `{WalletCrates} := {
  (* Transaction::aggregate_fee_fields *)
  tx_aggregate_fee_fields : Transaction -> Z -> Res FeeFields;
}.

Section data.
Context `{GrinTypes}.

(** api_impl/types.rs *)
Record IssueInvoiceTxArgs := mkIssueInvoiceTxArgs {
  iita_dest_acct_name : option string; iita_amount : Z; iita_target_slate_version : option Z }.
Record NodeHeightResult := mkNodeHeightResult { nh_height : Z; nh_header_hash : string; nh_updated_from_node : bool }.
Record PaymentProof := mkPaymentProof {
  pp_amount : Z;
  pp_excess : Commitment;
  pp_recipient_address : SlatepackAddress;
  pp_recipient_sig : DalekSignature;
  pp_sender_address : SlatepackAddress;
  pp_sender_sig : DalekSignature }.

(** Assignments. *)
Implicit Types (s : Slate) (c : Context_).
Definition set_sl_version (v : Z) s : Slate :=
  mkSlate (mkVersionCompatInfo v (vci_block_header_version (sl_version_info s))) (sl_num_participants s) (sl_id s)
    (sl_state s) (sl_tx s) (sl_amount s) (sl_fee_fields s) (sl_ttl_cutoff_height s) (sl_kernel_features s)
    (sl_offset s) (sl_participant_data s) (sl_payment_proof s) (sl_kernel_features_args s).
Definition set_sl_state (st : SlateState) s : Slate :=
  mkSlate (sl_version_info s) (sl_num_participants s) (sl_id s) st (sl_tx s) (sl_amount s)
    (sl_fee_fields s) (sl_ttl_cutoff_height s) (sl_kernel_features s) (sl_offset s) (sl_participant_data s)
    (sl_payment_proof s) (sl_kernel_features_args s).
Definition set_sl_payment_proof (p : option PaymentInfo) s : Slate :=
  mkSlate (sl_version_info s) (sl_num_participants s) (sl_id s) (sl_state s) (sl_tx s) (sl_amount s)
    (sl_fee_fields s) (sl_ttl_cutoff_height s) (sl_kernel_features s) (sl_offset s) (sl_participant_data s)
    p (sl_kernel_features_args s).
Definition set_ctx_payment_proof_index (i : option Z) c : Context_ :=
  mkContext (ctx_parent_key_id c) (ctx_sec_key c) (ctx_sec_nonce c) (ctx_initial_sec_key c)
    (ctx_initial_sec_nonce c) (ctx_output_ids c) (ctx_input_ids c) (ctx_amount c)
    (ctx_fee c) i (ctx_late_lock_args c) (ctx_calculated_excess c).
Definition set_ctx_calculated_excess (e : option Commitment) c : Context_ :=
  mkContext (ctx_parent_key_id c) (ctx_sec_key c) (ctx_sec_nonce c) (ctx_initial_sec_key c)
    (ctx_initial_sec_nonce c) (ctx_output_ids c) (ctx_input_ids c) (ctx_amount c)
    (ctx_fee c) (ctx_payment_proof_derivation_index c) (ctx_late_lock_args c) e.
Definition set_ctx_initial_sec_nonce (n : SecretKey) c : Context_ :=
  mkContext (ctx_parent_key_id c) (ctx_sec_key c) (ctx_sec_nonce c) (ctx_initial_sec_key c)
    n (ctx_output_ids c) (ctx_input_ids c) (ctx_amount c)
    (ctx_fee c) (ctx_payment_proof_derivation_index c) (ctx_late_lock_args c) (ctx_calculated_excess c).
Definition set_ctx_ids (output_ids input_ids : list (Identifier * option Z * Z)) c : Context_ :=
  mkContext (ctx_parent_key_id c) (ctx_sec_key c) (ctx_sec_nonce c) (ctx_initial_sec_key c)
    (ctx_initial_sec_nonce c) output_ids input_ids (ctx_amount c)
    (ctx_fee c) (ctx_payment_proof_derivation_index c) (ctx_late_lock_args c) (ctx_calculated_excess c).
End data.

Section code.
Context `{BuildProfile, GC : GrinCrates, !BinCrates, !WalletCrates, !AddressCrates, !HexCrate, !NodeClient,
  !DalekCrates, !ScanCrates, !OwnerCrates}.

(** ** Accounts *)
Definition owner_accounts : W (list AcctPathMapping) := accounts.
Definition create_account_path (mask : option SecretKey) (label : string) : W Identifier := new_acct_path mask label.
Definition set_active_account (label : string) : W unit := set_parent_key_id_by_name label.

(** The account a command names, or the active one. *)
Definition account_or_active (name : option string) : W Identifier :=
  match name with
  | Some d =>
      pm ← get_acct_path d;
      match pm with Some p => mret (ap_path p) | None => parent_key_id end
  | None => parent_key_id
  end.

Definition get_slatepack_address (mask : option SecretKey) (index : Z) : W SlatepackAddress :=
  parent ← parent_key_id;
  k ← keychain mask;
  sec_addr_key ← liftS (address_from_derivation_path k parent index);
  liftS (slatepack_of_secret sec_addr_key).
Definition get_slatepack_secret_key (mask : option SecretKey) (index : Z) : W DalekSecretKey :=
  parent ← parent_key_id;
  k ← keychain mask;
  sec_addr_key ← liftS (address_from_derivation_path k parent index);
  liftS (ok_or "OnionV3Address(InvalidPrivateKey)" (dalek_sk_from_bytes (sk_bytes sec_addr_key))).

(** ** Bringing the wallet up to date *)
Definition INVALID_MASK : string := "InvalidKeychainMask".

Definition update_outputs (mask : option SecretKey) (update_all : bool) : W bool :=
  parent ← parent_key_id;
  r ← attemptS (refresh_outputs mask parent update_all);
  match r with
  | inl _ => mret true
  | inr e => if bool_decide (e = INVALID_MASK) then errS e else mret false
  end.

(** One transaction, looked up by its kernel; nothing when the node does not answer. *)
Definition update_tx_via_kernel (mask : option SecretKey) (parent : Identifier) (height : Z) (tx : TxLogEntry) :
    W (option TxLogEntry) :=
  if tl_confirmed tx then mret (Some tx)
  else if negb (tl_amount_debited tx =? 0) && negb (tl_amount_credited tx =? 0) then mret (Some tx)
  else match tl_kernel_excess tx with
  | Some e =>
      n ← drawn draw;
      res ← attemptS (liftS (nc_get_kernel n e (tl_kernel_lookup_min_height tx) (Some height)));
      match res with
      | inr _ => mret None
      | inl None => mret (Some tx)
      | inl (Some _) =>
          tx ← with_batch mask (
            now ← utc_now;
            let tx := update_confirmation_ts now (set_tl_confirmed true tx) in
            _ ← save_tx_log_entry tx parent;
            _ ← commit;
            mret tx);
          mret (Some tx)
      end
  | None => mret (Some tx)
  end.

(** [for tx in txs.iter_mut()]: false when the node does not answer. *)
Fixpoint update_each (mask : option SecretKey) (parent : Identifier) (height : Z) (txs : list TxLogEntry) :
    W (bool * list TxLogEntry) :=
  match txs with
  | [] => mret (true, [])
  | tx :: txs' =>
      r ← update_tx_via_kernel mask parent height tx;
      match r with
      | None => mret (false, txs)
      | Some tx' => '(b, l) ← update_each mask parent height txs'; mret (b, tx' :: l)
      end
  end.

Definition update_txs_via_kernel (mask : option SecretKey) (txs : list TxLogEntry) : W (bool * list TxLogEntry) :=
  parent ← parent_key_id;
  tip ← attemptS get_chain_tip;
  match tip with
  | inr _ => mret (false, txs)
  | inl h => update_each mask parent h.1 txs
  end.

(** Where the last scan got to. *)
Definition scanned_before (tip : Z * string) : W ScannedBlockInfo :=
  status ← init_status;
  match status with
  | InitNeedsScanning => mret (mkScannedBlockInfo 0 "" 0 0)
  | InitNoScanning => mret (mkScannedBlockInfo tip.1 tip.2 0 0)
  | InitComplete => last_scanned_block
  end.

Definition set_sb_hash (h : string) (b : ScannedBlockInfo) : ScannedBlockInfo :=
  mkScannedBlockInfo (sb_height b) h (sb_start_pmmr_index b) (sb_last_pmmr_index b).

Definition cancel_expired (mask : option SecretKey) (tip_height : Z) (tx : TxLogEntry) : W unit :=
  match tl_ttl_cutoff_height tx with
  | Some e => if e <=? tip_height then parent ← parent_key_id; cancel_tx mask parent (Some (tl_id tx)) None
              else mret tt
  | None => mret tt
  end.

Definition update_wallet_state (fuel : nat) (mask : option SecretKey) (update_all : bool) : W bool :=
  parent ← parent_key_id;
  result ← update_outputs mask update_all;
  if negb result then mret result else
  txs ← retrieve_txs None None (Some parent) true;
  '(result, txs) ← update_txs_via_kernel mask txs;
  if negb result then mret result else
  res ← attemptS get_chain_tip;
  match res with
  | inr _ => mret false
  | inl tip =>
      last ← scanned_before tip;
      info ← scan fuel mask false (saturating_sub (sb_height last) 100) tip.1;
      _ ← with_batch mask (
        _ ← save_last_scanned_block (set_sb_hash tip.2 info);
        _ ← save_init_status InitComplete;
        commit);
      _ ← foreachS (cancel_expired mask tip.1) txs;
      mret result
  end.

(** [if refresh_from_node { .. } else { false }] *)
Definition refreshed_first (fuel : nat) (mask : option SecretKey) (refresh_from_node : bool) : W bool :=
  if refresh_from_node then update_wallet_state fuel mask false else mret false.

Definition owner_scan (fuel : nat) (mask : option SecretKey) (start_height : option Z) (delete_unconfirmed : bool) :
    W unit :=
  _ ← update_outputs mask true;
  tip ← get_chain_tip;
  info ← scan fuel mask delete_unconfirmed (default 1 start_height) tip.1;
  with_batch mask (_ ← save_last_scanned_block (set_sb_hash tip.2 info); commit).

(** ** Looking at the wallet *)
Definition owner_retrieve_outputs (fuel : nat) (mask : option SecretKey) (include_spent refresh_from_node : bool)
    (tx_id : option Z) : W (bool * list OutputCommitMapping) :=
  validated ← refreshed_first fuel mask refresh_from_node;
  parent ← parent_key_id;
  outputs ← retrieve_outputs mask include_spent tx_id (Some parent);
  mret (validated, outputs).

Definition owner_retrieve_txs (fuel : nat) (mask : option SecretKey) (refresh_from_node : bool) (tx_id : option Z)
    (tx_slate_id : option Uuid) : W (bool * list TxLogEntry) :=
  validated ← refreshed_first fuel mask refresh_from_node;
  parent ← parent_key_id;
  txs ← retrieve_txs tx_id tx_slate_id (Some parent) false;
  mret (validated, txs).

Definition retrieve_summary_info (fuel : nat) (mask : option SecretKey) (refresh_from_node : bool)
    (minimum_confirmations : Z) : W (bool * WalletInfo) :=
  validated ← refreshed_first fuel mask refresh_from_node;
  parent ← parent_key_id;
  wallet_info ← retrieve_info parent minimum_confirmations;
  mret (validated, wallet_info).

(** [iter().max()] *)
Definition greatest_height (l : list OutputCommitMapping) : Z :=
  foldl (fun h m => Z.max h (od_height (ocm_output m))) 0 l.

Definition node_height (fuel : nat) (mask : option SecretKey) : W NodeHeightResult :=
  res ← attemptS get_chain_tip;
  match res with
  | inl r => mret (mkNodeHeightResult r.1 r.2 true)
  | inr _ =>
      outputs ← owner_retrieve_outputs fuel mask true false None;
      mret (mkNodeHeightResult (greatest_height outputs.2) "" false)
  end.

Definition owner_get_stored_tx (tx_id : option Z) (slate_id : option Uuid) : W (option Slate) :=
  entries ← tx_log_iter;
  let uuid := match tx_id with
              | Some i => t ← find (fun t => tl_id t =? i) entries; tl_tx_slate_id t
              | None => None
              end in
  match (match uuid with Some u => Some u | None => slate_id end) with
  | None => errS "StoredTx(Both the provided Transaction Id and Slate UUID are invalid.)"
  | Some id =>
      tx_res ← get_stored_tx (uuid_to_string id);
      match tx_res with
      | Some tx =>
          slate ← drawn (blank 2 false);
          fee ← liftS (unwrap (tx_aggregate_fee_fields tx 0));
          mret (Some (set_sl_state Standard3 (set_sl_offset (tx_offset tx) (set_sl_id id (set_sl_fee_fields fee
            (set_sl_tx (Some tx) slate))))))
      | None => mret None
      end
  end.

(** ** Payments *)
Definition check_ttl (slate : Slate) : W unit :=
  last ← last_confirmed_height;
  if negb (sl_ttl_cutoff_height slate =? 0) && (sl_ttl_cutoff_height slate <=? last)
  then errS "TransactionExpired" else mret tt.

Definition context_id (slate : Slate) : string := uuid_as_bytes (sl_id slate).
Definition store_context (mask : option SecretKey) (slate : Slate) (context : Context_) : W unit :=
  with_batch mask (_ ← save_private_context (context_id slate) context; commit).
Definition forget_context (mask : option SecretKey) (slate : Slate) : W unit :=
  with_batch mask (_ ← delete_private_context (context_id slate); commit).

Definition with_version (v : option Z) (slate : Slate) : Slate :=
  match v with Some v => set_sl_version v slate | None => slate end.

Definition estimate (mask : option SecretKey) (args : InitTxArgs) (parent : Identifier) (slate : Slate) : W Slate :=
  '(total, fee) ← estimate_send_tx mask (ita_amount args) (ita_minimum_confirmations args)
                    (Z.to_nat (ita_max_outputs args)) (Z.to_nat (ita_num_change_outputs args))
                    (ita_selection_strategy_is_use_all args) parent;
  fee ← liftS (unwrap_opt (fee_try_from fee));
  mret (set_sl_fee_fields fee (set_sl_amount total slate)).

(** The sender asks for a proof: both addresses go on the slate. *)
Definition ask_for_proof (mask : option SecretKey) (args : InitTxArgs) (parent : Identifier) (context : Context_)
    (slate : Slate) : W (Context_ * Slate) :=
  match ita_payment_proof_recipient_address args with
  | Some a =>
      k ← keychain mask;
      '(_, sender) ← liftS (account_address k parent 0);
      mret (set_ctx_payment_proof_index (Some 0) context,
            set_sl_payment_proof (Some (mkPaymentInfo sender (spa_pub_key a) None)) slate)
  | None => mret (context, slate)
  end.

Definition init_send_tx (mask : option SecretKey) (args : InitTxArgs) (use_test_rng : bool) : W Slate :=
  parent ← account_or_active (ita_src_acct_name args);
  slate ← new_tx_slate (ita_amount args) false 2 use_test_rng (ita_ttl_blocks args);
  let slate := with_version (ita_target_slate_version args) slate in
  if match ita_estimate_only args with Some b => b | None => false end then estimate mask args parent slate else
  '(height, _) ← get_chain_tip;
  '(context, slate) ← (if default false (ita_late_lock args)
    then create_late_lock_context mask slate height args parent use_test_rng
    else add_inputs_to_slate mask slate height (ita_minimum_confirmations args) (Z.to_nat (ita_max_outputs args))
           (Z.to_nat (ita_num_change_outputs args)) (ita_selection_strategy_is_use_all args) parent true use_test_rng);
  '(context, slate) ← ask_for_proof mask args parent context slate;
  _ ← store_context mask slate context;
  liftS (compact slate).

Definition issue_invoice_tx (mask : option SecretKey) (args : IssueInvoiceTxArgs) (use_test_rng : bool) : W Slate :=
  parent ← account_or_active (iita_dest_acct_name args);
  slate ← new_tx_slate (iita_amount args) true 2 use_test_rng None;
  '(height, _) ← get_chain_tip;
  '(context, slate) ← add_output_to_slate mask slate height parent true use_test_rng;
  let slate := with_version (iita_target_slate_version args) slate in
  _ ← store_context mask slate context;
  liftS (compact slate).

(** [for t in &tx]: is there an entry of this type for the slate already? *)
Definition already_done (ty : TxLogEntryType) (slate : Slate) (parent : Identifier) (outstanding_only : bool) : W unit :=
  l ← retrieve_txs None (Some (sl_id slate)) (Some parent) outstanding_only;
  if existsb (fun t => bool_decide (tl_tx_type t = ty)) l
  then errS ("TransactionAlreadyReceived(" +:+ uuid_to_string (sl_id slate) +:+ ")") else mret tt.

(** When the wallet pays itself, the context of the other side is kept in the same one. *)
Definition merge_contexts (context c : Context_) : Context_ :=
  set_ctx_ids (ctx_output_ids context ++ ctx_output_ids c) (ctx_input_ids context ++ ctx_input_ids c)
    (set_ctx_amount (ctx_amount c) (set_ctx_fee (ctx_fee c)
      (set_ctx_initial_sec_nonce (ctx_initial_sec_nonce c) (set_ctx_initial_sec_key (ctx_initial_sec_key c) context)))).

Definition process_invoice_tx (mask : option SecretKey) (slate : Slate) (args : InitTxArgs) (use_test_rng : bool) :
    W Slate :=
  _ ← check_ttl slate;
  parent ← account_or_active (ita_src_acct_name args);
  _ ← already_done TxSent slate parent use_test_rng;
  '(height, _) ← get_chain_tip;
  ret_slate ← match ita_ttl_blocks args with
              | Some b => ttl ← liftS (u64_add height b); mret (set_sl_ttl ttl slate)
              | None => mret slate
              end;
  let ret_slate := set_sl_tx (Some empty_transaction) ret_slate in
  context_res ← attemptS (get_private_context mask (context_id slate));
  '(context, ret_slate) ← add_inputs_to_slate mask ret_slate height (ita_minimum_confirmations args)
    (Z.to_nat (ita_max_outputs args)) (Z.to_nat (ita_num_change_outputs args))
    (ita_selection_strategy_is_use_all args) parent false use_test_rng;
  _ ← keychain mask;
  ret_slate ← liftS (adjust_offset ret_slate
                       (match context_res with inl _ => set_ctx_ids [] [] context | inr _ => context end));
  excess ← liftS (calc_excess ret_slate);
  let context := set_ctx_calculated_excess (Some excess) context in
  let context := match context_res with inl c => merge_contexts context c | inr _ => context end in
  ret_slate ← repopulate_tx mask ret_slate context false;
  _ ← store_context mask slate context;
  ret_slate ← liftS (remove_other_sigdata (set_sl_amount 0 ret_slate) (ctx_sec_nonce context) (ctx_sec_key context));
  mret (set_sl_state Invoice2 ret_slate).

Definition tx_lock_outputs (mask : option SecretKey) (slate : Slate) : W unit :=
  context ← get_private_context mask (context_id slate);
  sl ← match sl_tx slate with
       | None => repopulate_tx mask (set_sl_tx (Some empty_transaction) slate) context true
       | Some _ => mret slate
       end;
  let excess_override := if (length (sl_participant_data slate) =? 1)%nat then ctx_calculated_excess context else None in
  '(height, _) ← get_chain_tip;
  lock_tx_context mask sl height context excess_override.

(** A payment that was not locked when it was made: the coins are chosen and locked now. *)
Definition lock_late (mask : option SecretKey) (parent : Identifier) (args : InitTxArgs) (context : Context_)
    (sl : Slate) : W Context_ :=
  '(current_height, _) ← get_chain_tip;
  temp_sl ← new_tx_slate (ctx_amount context) false 2 false (ita_ttl_blocks args);
  '(temp_context, _) ← build_send_tx mask temp_sl current_height (ita_minimum_confirmations args)
    (Z.to_nat (ita_max_outputs args)) (Z.to_nat (ita_num_change_outputs args))
    (ita_selection_strategy_is_use_all args)
    (Some (match ctx_fee context with Some f => fee_fee f current_height | None => 0 end)) parent false true;
  let context := set_ctx_ids (ctx_output_ids temp_context) (ctx_input_ids temp_context) context in
  _ ← store_context mask sl context;
  _ ← tx_lock_outputs mask sl;
  mret context.

Definition owner_finalize (mask : option SecretKey) (slate : Slate) : W Slate :=
  _ ← check_ttl slate;
  context ← get_private_context mask (context_id slate);
  _ ← keychain mask;
  parent ← parent_key_id;
  context ← match ctx_late_lock_args context with
            | Some args => lock_late mask parent args (set_ctx_late_lock_args None context) slate
            | None => mret context
            end;
  sl ← liftS (adjust_offset slate context);
  sl ← repopulate_tx mask sl context true;
  sl ← complete_tx mask sl context;
  _ ← verify_slate_payment_proof mask parent context sl;
  _ ← update_stored_tx mask context sl false;
  _ ← forget_context mask sl;
  mret (set_sl_amount 0 (set_sl_state Standard3 sl)).

Definition owner_cancel_tx (fuel : nat) (mask : option SecretKey) (tx_id : option Z) (tx_slate_id : option Uuid) :
    W unit :=
  updated ← update_wallet_state fuel mask false;
  if negb updated
  then errS "TransactionCancellationError(Can't contact running Grin node. Not Cancelling.)"
  else
    parent ← parent_key_id;
    cancel_tx mask parent tx_id tx_slate_id.

Definition post_tx (tx : Transaction) (fluff : bool) : W unit :=
  n ← drawn draw; liftS (nc_post_tx n tx fluff).

(** ** Payment proofs *)
Definition retrieval_err {A} (e : string) : Res A := Err ("PaymentProofRetrieval(" +:+ e +:+ ")").

(** The amount a log entry stands for. *)
Definition proof_amount (tx : TxLogEntry) : Res Z :=
  if tl_amount_debited tx <=? tl_amount_credited tx then u64_sub (tl_amount_credited tx) (tl_amount_debited tx)
  else
    rest ← u64_sub (tl_amount_debited tx) (tl_amount_credited tx);
    u64_sub rest (match tl_fee tx with Some f => fee_fee f (2 * YEAR_HEIGHT) | None => 0 end).

Definition proof_of_entry (tx : TxLogEntry) : Res PaymentProof :=
  match tl_payment_proof tx with
  | None => retrieval_err "Transaction does not contain a payment proof"
  | Some proof =>
      amount ← proof_amount tx;
      match tl_kernel_excess tx, sp_receiver_signature proof, sp_sender_signature proof with
      | None, _, _ => retrieval_err "Transaction does not contain kernel excess"
      | Some _, None, _ => retrieval_err "Proof does not contain receiver signature "
      | Some _, Some _, None => retrieval_err "Proof does not contain sender signature "
      | Some excess, Some r_sig, Some s_sig =>
          Ok {| pp_amount := amount; pp_excess := excess;
                pp_recipient_address := SlatepackAddress_new (sp_receiver_address proof); pp_recipient_sig := r_sig;
                pp_sender_address := SlatepackAddress_new (sp_sender_address proof); pp_sender_sig := s_sig |}
      end
  end.

Definition retrieve_payment_proof (fuel : nat) (mask : option SecretKey) (refresh_from_node : bool)
    (tx_id : option Z) (tx_slate_id : option Uuid) : W PaymentProof :=
  match tx_id, tx_slate_id with
  | None, None => liftS (retrieval_err "Transaction ID or Slate UUID must be specified")
  | _, _ =>
      _ ← refreshed_first fuel mask refresh_from_node;
      txs ← owner_retrieve_txs fuel mask refresh_from_node tx_id tx_slate_id;
      match txs.2 with
      | [tx] => liftS (proof_of_entry tx)
      | _ => liftS (retrieval_err "Transaction doesn't exist")
      end
  end.

(** The key of the address of an account, as a public key. *)
Definition own_address (k : Keychain) (parent : Identifier) : Res DalekPublicKey :=
  sec_key ← address_from_derivation_path k parent 0;
  d_skey ← ok_or "ED25519Key" (dalek_sk_from_bytes (sk_bytes sec_key));
  Ok (dalek_public d_skey).

Definition verify_payment_proof (mask : option SecretKey) (proof : PaymentProof) : W (bool * bool) :=
  let sender_pubkey := spa_pub_key (pp_sender_address proof) in
  let recipient_pubkey := spa_pub_key (pp_recipient_address proof) in
  msg ← liftS (payment_proof_message (pp_amount proof) (pp_excess proof) sender_pubkey);
  parent ← parent_key_id;
  k ← keychain mask;
  n ← drawn draw;
  res ← attemptS (liftS (nc_get_kernel n (pp_excess proof) None None));
  match res with
  | inr e => errS (proof_err ("Error retrieving kernel from chain: " +:+ e))
  | inl None => errS (proof_err "Transaction kernel with excess not found on chain")
  | inl (Some _) =>
      if negb (dalek_verify recipient_pubkey msg (pp_recipient_sig proof))
      then errS (proof_err "Invalid recipient signature")
      else if negb (dalek_verify sender_pubkey msg (pp_sender_sig proof))
      then errS (proof_err "Invalid sender signature")
      else
        my_address_pubkey ← liftS (own_address k parent);
        mret (bool_decide (my_address_pubkey = sender_pubkey), bool_decide (my_address_pubkey = recipient_pubkey))
  end.
End code.
