(* ===== verification/Packer.v ===== *)
(** * Slatepack messages: slatepack/packer.rs and the message methods of api_impl/owner.rs *)
From S2P Require Import Prelude.
From S2P Require Import RustStd.
From S2P Require Import Crates.
From S2P Require Import Effects.
From S2P Require Import Slate.
From S2P Require Import SlateV4.
From S2P Require Import SlateBin.
From S2P Require Import StateM.
From S2P Require Import Wallet.
From S2P Require Import Address.
From S2P Require Import Slatepack.
From S2P Require Import Armor.
From S2P Require Import Selection.
From S2P Require Import Updater.
From S2P Require Import WalletTx.
From S2P Require Import Scan.
From S2P Require Import Owner.
From Stdlib Require Import Ascii.
#[local] Open Scope Z_scope.

(** The JSON form of a slatepack (serde), with the codecs of its fields. *)
Class SlatepackJson `{SlatepackCrates} := { slatepack_of_json : string -> Res Slatepack }.

Section code.
Context `{BuildProfile, GC : GrinCrates, !BinCrates, !WalletCrates, !AddressCrates, !SlatepackCrates, !ArmorCrates,
  !SlatepackJson}.

Record SlatepackerArgs := mkSlatepackerArgs {
  spk_sender : option SlatepackAddress;
  spk_recipients : list SlatepackAddress;
  spk_dec_key : option DalekSecretKey }.

Definition slatepack_deser_err {A} (e : string) : Res A := Err ("SlatepackDeser(" +:+ e +:+ ")").

(** Out of its armor, if it is armored. *)
Definition unarmor (data : string) : Res string :=
  let test_header := String.substring 0 (String.length HEADER) data in
  match from_utf8 test_header with
  | Some s => if bool_decide (s = HEADER) then SlatepackArmor_decode data else Ok data
  | None => Ok data
  end.
(** As binary first, then as JSON; the position an error of [String::from_utf8] names is left out. *)
Definition bin_or_json (data : string) : Res Slatepack :=
  match from_bytes slatepack_read data with
  | Err _ =>
      content ← ok_or "SlatepackDeser(invalid utf-8 sequence)" (from_utf8 data);
      match slatepack_of_json content with
      | Err e => slatepack_deser_err ("Error reading JSON slatepack: " +:+ e)
      | r => r
      end
  | r => r
  end.

Definition deser_slatepack (packer : SlatepackerArgs) (data : string) (decrypt : bool) : Res Slatepack :=
  let data_len := len data in
  if (data_len <? min_size) || (max_size <? data_len) then slatepack_deser_err "Data invalid length" else
  data ← unarmor data;
  slatepack ← bin_or_json data;
  if decrypt then try_decrypt_payload (spk_dec_key packer) slatepack else Ok slatepack.

Definition create_slatepack (packer : SlatepackerArgs) (slate : Slate) : M Slatepack :=
  out_slate ← liftM (into_version slate SV4);
  bin_slate ← liftM (bin_of_versioned out_slate);
  payload ← liftM (match bin_slate with VBS4 s => to_bytes_or "SlatepackSer" (bin_serialize s) end);
  try_encrypt_payload (spk_recipients packer)
    (set_sp_sender (spk_sender packer) (set_sp_payload payload Slatepack_default)).

Definition armor_slatepack (slatepack : Slatepack) : Res string := SlatepackArmor_encode slatepack.

Definition get_slate (slatepack : Slatepack) : M Slate :=
  slate_bin ← liftM (match bin_visit_bytes (sp_payload slatepack) with
                     | Ok s => Ok (VBS4 s)
                     | Err _ => slatepack_deser_err "data did not match any variant of untagged enum VersionedBinSlate"
                     | Panic e => Panic e
                     end);
  upgrade (versioned_of_bin slate_bin).

(** ** owner.rs *)
Context `{!HexCrate, !NodeClient, !DalekCrates, !ScanCrates, !OwnerCrates}.

Definition create_slatepack_message (mask : option SecretKey) (slate : Slate) (sender_index : option Z)
    (recipients : list SlatepackAddress) : W string :=
  sender ← match sender_index with
           | Some i => a ← get_slatepack_address mask i; mret (Some a)
           | None => mret None
           end;
  slatepack ← drawn (create_slatepack (mkSlatepackerArgs sender recipients None) slate);
  liftS (armor_slatepack slatepack).

Definition no_packer : SlatepackerArgs := mkSlatepackerArgs None [] None.
(** [for index in secret_indices]: the first key that opens the slatepack. *)
Fixpoint open_with_any (mask : option SecretKey) (slatepack : string) (secret_indices : list Z) :
    W (option Slatepack) :=
  match secret_indices with
  | [] => mret None
  | index :: rest =>
      dec_key ← get_slatepack_secret_key mask index;
      res ← attemptS (liftS (deser_slatepack (mkSlatepackerArgs None [] (Some dec_key)) slatepack true));
      match res with
      | inl sp => mret (Some sp)
      | inr _ => open_with_any mask slatepack rest
      end
  end.

Definition slate_from_slatepack_message (mask : option SecretKey) (slatepack : string) (secret_indices : list Z) :
    W Slate :=
  match secret_indices with
  | [] => sp ← liftS (deser_slatepack no_packer slatepack true); drawn (get_slate sp)
  | _ =>
      r ← open_with_any mask slatepack secret_indices;
      match r with
      | Some sp => drawn (get_slate sp)
      | None => errS "SlatepackDecryption(Could not decrypt slatepack with any provided index on the address derivation path)"
      end
  end.

Definition decode_slatepack_message (mask : option SecretKey) (slatepack : string) (secret_indices : list Z) :
    W Slatepack :=
  match secret_indices with
  | [] => liftS (deser_slatepack no_packer slatepack false)
  | _ =>
      r ← open_with_any mask slatepack secret_indices;
      match r with
      | Some sp => mret sp
      | None => liftS (deser_slatepack no_packer slatepack false)
      end
  end.
End code.

(** ** Lemmas *)
Section lemmas.
Context `{BuildProfile, GC : GrinCrates, !BinCrates, !WalletCrates, !AddressCrates, !SlatepackCrates, !ArmorCrates,
  !SlatepackJson, !HexCrate, !NodeClient, !DalekCrates, !ScanCrates, !OwnerCrates}.

(** The key a slatepack can be opened with belongs to the address. *)
Lemma secret_of_address mask i w a w' :
  get_slatepack_address mask i w = (Ok a, w') ->
  exists k, get_slatepack_secret_key mask i w = (Ok k, w) /\ spa_pub_key a = dalek_public k.
Proof.
  unfold get_slatepack_address, get_slatepack_secret_key. intros E.
  apply ST_bind_Ok in E as (parent & w1 & E1 & E). assert (w1 = w) as -> by by apply getS_Ok in E1 as [_ ->].
  apply ST_bind_Ok in E as (kc & w2 & E2 & E). pose proof (keychain_Ok _ _ _ _ E2) as ->.
  apply ST_bind_Ok in E as (sk & w3 & E3 & E). apply liftS_Ok in E3 as [E3 ->]. apply liftS_Ok in E as [E _].
  unfold slatepack_of_secret in E. destruct (dalek_sk_from_bytes (sk_bytes sk)) as [k|] eqn:Ek; [|done].
  injection E as <-. exists k. split; [|done].
  rewrite (ST_bind_run _ _ _ _ _ E1), (ST_bind_run _ _ _ _ _ E2), (ST_bind_run _ _ _ _ _ (liftS_run _ _ _ E3)).
  apply liftS_run. by rewrite Ek.
Qed.

Context `{!BinLaws, !AddressLaws, !SlatepackLaws, !ArmorLaws}.

Lemma encode_longer sp text :
  SlatepackArmor_encode sp = Ok text -> len (sp_payload sp) <= len text /\ 15 <= len text.
Proof.
  intros E. apply encode_parts in E as (bytes & Eb & ->). unfold slatepack_write in Eb.
  do 5 apply wseq_Ok in Eb as (? & ? & _ & Eb & ->). apply bytes_length in Eb.
  match goal with |- context [base58check ?b] => pose proof (bs58_longer (generate_check b +:+ b)) as Hl end.
  unfold base58check. match type of Hl with (_ <= String.length ?e)%nat => pose proof (format_from_longer 15 e) as Hf end.
  unfold len. rewrite !length_append in *. cbn [String.length] in *. rewrite !length_append in *. lia.
Qed.

Lemma deser_armored packer sp text decrypt :
  SlatepackArmor_encode sp = Ok text -> slatepack_fits sp -> len text <= max_size ->
  deser_slatepack packer text decrypt
  = if decrypt then try_decrypt_payload (spk_dec_key packer) (on_the_wire sp) else Ok (on_the_wire sp).
Proof.
  intros E Hf Hl. pose proof (encode_longer _ _ E) as [_ Hlo].
  destruct (decode_encoded sp text E) as (bytes & Eb & Ed).
  unfold deser_slatepack. assert (min_size = 15) as -> by reflexivity.
  destruct (Z.ltb_spec (len text) 15); [lia|]. destruct (Z.ltb_spec max_size (len text)); [lia|]. cbn [orb].
  assert (Eu : unarmor text = Ok bytes).
  { unfold unarmor. assert (String.substring 0 (String.length HEADER) text = HEADER) as ->.
    { apply encode_parts in E as (b & _ & ->). exact (substring_front HEADER _). }
    change (from_utf8 HEADER) with (Some HEADER). cbn iota. by rewrite bool_decide_eq_true_2. }
  rewrite Eu. cbn [mbind Res_bind]. unfold bin_or_json, from_bytes.
  rewrite <- (append_nil_r bytes). by rewrite (slatepack_reads sp Hf _ "" Eb).
Qed.

Lemma get_address_same mask i w a w' : get_slatepack_address mask i w = (Ok a, w') -> w' = w.
Proof.
  unfold get_slatepack_address. intros E.
  apply ST_bind_Ok in E as (parent & w1 & E1 & E). assert (w1 = w) as -> by by apply getS_Ok in E1 as [_ ->].
  apply ST_bind_Ok in E as (kc & w2 & E2 & E). pose proof (keychain_Ok _ _ _ _ E2) as ->.
  apply ST_bind_Ok in E as (sk & w3 & E3 & E). apply liftS_Ok in E3 as [_ ->]. by apply liftS_Ok in E as [_ ->].
Qed.

(** What the sender packs: the slate, in the binary form, and who it is from. *)
Definition packed (sender : option SlatepackAddress) (payload : string) : Slatepack :=
  set_sp_sender sender (set_sp_payload payload Slatepack_default).

Lemma create_slatepack_Ok sender rs key slate t sp t' :
  create_slatepack (mkSlatepackerArgs sender rs key) slate t = (Ok sp, t') ->
  exists payload, bin_serialize (v4_of_slate slate) = Ok payload
    /\ try_encrypt_payload rs (packed sender payload) t = (Ok sp, t').
Proof.
  unfold create_slatepack. intros E. apply M_bind_Ok in E as (vs & t1 & Ev & E). apply liftM_Ok in Ev as [[= <-] ->].
  apply M_bind_Ok in E as (bs & t1 & Eb & E). apply liftM_Ok in Eb as [[= <-] ->].
  apply M_bind_Ok in E as (payload & t1 & Ep & E). apply liftM_Ok in Ep as [Ep ->].
  unfold to_bytes_or in Ep. destruct (bin_serialize (v4_of_slate slate)) as [b|e|e] eqn:Es; [|discriminate Ep..].
  injection Ep as ->. by exists payload.
Qed.

Lemma get_packed slate sender payload w :
  bin_fits (v4_of_slate slate) -> bin_serialize (v4_of_slate slate) = Ok payload ->
  drawn (get_slate (packed sender payload)) w = drawn (upgrade (VS4 (bin_normal (v4_of_slate slate)))) w.
Proof.
  intros Hfit Ep. unfold get_slate, packed, bin_visit_bytes. cbn [sp_payload set_sp_sender set_sp_payload].
  rewrite <- (append_nil_r payload). by rewrite (slate_bin_reads _ Hfit _ "" Ep).
Qed.
Lemma drawn_run {A} (m : M A) w x w' : drawn m w = (Ok x, w') -> exists t, m (wa_tape w) = (Ok x, t).
Proof. unfold drawn. destruct (m (wa_tape w)) as [r t]. intros [= -> _]. by exists t. Qed.

(** The reader has the key of one of the recipients under the first index, or nothing was
    encrypted and no index is given. *)
Definition can_open mask rs (indices : list Z) (w : Wallet) : Prop :=
  match indices with
  | [] => rs = []
  | i :: _ => exists a w', get_slatepack_address mask i w = (Ok a, w') /\ a ∈ rs
  end.

Lemma open_first mask i more text w k sp :
  get_slatepack_secret_key mask i w = (Ok k, w) ->
  deser_slatepack (mkSlatepackerArgs None [] (Some k)) text true = Ok sp ->
  open_with_any mask text (i :: more) w = (Ok (Some sp), w).
Proof.
  intros Ek Ed. cbn [open_with_any]. rewrite (ST_bind_run _ _ _ _ _ Ek).
  erewrite ST_bind_run by (apply attemptS_inl; apply liftS_run; exact Ed). done.
Qed.

(** C21: Slatepack messages.  What a wallet packs for a list of recipients can be unpacked
    by any of them, with the key of the address that was given as the first index, and by everybody when there
    are none: the slatepack names the sender, and the slate is the one that was sent, as the
    binary form keeps it. *)
Theorem message_delivered mask slate index rs w text w1 mask2 indices w2 :
  create_slatepack_message mask slate index rs w = (Ok text, w1) ->
  can_open mask2 rs indices w2 ->
  bin_fits (v4_of_slate slate) -> len text <= max_size -> len text <= 100000 ->
  exists payload sender,
    decode_slatepack_message mask2 text indices w2 = (Ok (packed sender payload), w2)
    /\ bin_serialize (v4_of_slate slate) = Ok payload
    /\ match index with
       | Some i => exists a, sender = Some a /\ get_slatepack_address mask i w = (Ok a, w)
       | None => sender = None
       end
    /\ slate_from_slatepack_message mask2 text indices w2
       = drawn (upgrade (VS4 (bin_normal (v4_of_slate slate)))) w2.
Proof.
  intros E Ho Hfit Hmax H100. unfold create_slatepack_message in E.
  apply ST_bind_Ok in E as (sender & w3 & E1 & E). apply ST_bind_Ok in E as (sp & w4 & E2 & E).
  apply liftS_Ok in E as [E _]. apply drawn_run in E2 as (t & E2).
  apply create_slatepack_Ok in E2 as (payload & Ep & E2). exists payload, sender.
  pose proof (encode_longer _ _ E) as [Hlen _].
  assert (Hget : forall w', drawn (get_slate (packed sender payload)) w'
    = drawn (upgrade (VS4 (bin_normal (v4_of_slate slate)))) w') by (intros; by apply get_packed).
  assert (Hs : match index with
               | Some i => exists a, sender = Some a /\ get_slatepack_address mask i w = (Ok a, w)
               | None => sender = None
               end).
  { destruct index as [i|]; [|by apply mretS_Ok in E1 as [-> _]]. apply ST_bind_Ok in E1 as (a & w5 & Ea & E1).
    apply mretS_Ok in E1 as [-> _]. exists a. by rewrite <- (get_address_same _ _ _ _ _ Ea) at 2. }
  destruct indices as [|i more]; cbn [can_open] in Ho.
  - subst rs. injection E2 as <- _.
    assert (Hf : slatepack_fits (packed sender payload)) by (split_and!; (done||(cbn in *; lia))).
    unfold decode_slatepack_message, slate_from_slatepack_message. rewrite !(deser_armored _ _ _ _ E Hf Hmax).
    split_and!; [done..|]. apply Hget.
  - destruct Ho as (a & w' & Ea & Hin). destruct (secret_of_address _ _ _ _ _ Ea) as (k & Ek & Hk).
    destruct (opens rs (packed sender payload) sp _ _ k a E2 Hin Hk ltac:(done)) as (Hv & Hm & _ & _ & Hopen).
    assert (Hf : slatepack_fits sp) by (unfold slatepack_fits; rewrite Hv, Hm; split_and!; (done||(cbn in *; lia))).
    assert (Ho : open_with_any mask2 text (i :: more) w2 = (Ok (Some (packed sender payload)), w2)).
    { apply (open_first _ _ _ _ _ k); [done|]. rewrite (deser_armored _ _ _ _ E Hf Hmax). exact Hopen. }
    unfold decode_slatepack_message, slate_from_slatepack_message. rewrite !(ST_bind_run _ _ _ _ _ Ho).
    split_and!; [done..|]. apply Hget.
Qed.
End lemmas.
