(* ===== verification/Foreign.v ===== *)
(** * api_impl/foreign.rs: what others can ask of a wallet

    Receiving a payment, finalizing one that came back, and building a coinbase. *)
From S2P Require Import Prelude.
From S2P Require Import RustStd.
From S2P Require Import Crates.
From S2P Require Import Effects.
From S2P Require Import Slate.
From S2P Require Import SlateV4.
From S2P Require Import SlateBin.
From S2P Require Import StateM.
From S2P Require Import Wallet.
From S2P Require Import Address.
From S2P Require Import Selection.
From S2P Require Import Updater.
From S2P Require Import WalletTx.
From S2P Require Import Scan.
From S2P Require Import Owner.
#[local] Open Scope Z_scope.

Section code.
Context `{BuildProfile, GC : GrinCrates, !BinCrates, !WalletCrates, !AddressCrates, !HexCrate, !NodeClient,
  !DalekCrates, !ScanCrates, !OwnerCrates}.

Definition FOREIGN_API_VERSION : Z := 2.
Record VersionInfo := mkVersionInfo { vi_foreign_api_version : Z; vi_supported_slate_versions : list SlateVersion }.
Definition check_version : VersionInfo := mkVersionInfo FOREIGN_API_VERSION [SV4].

Definition foreign_build_coinbase (mask : option SecretKey) (block_fees : BlockFees) (test_mode : bool) : W CbData :=
  build_coinbase mask block_fees test_mode.

(** The receiver signs what was paid, to whom and by which kernel. *)
Definition sign_proof (k : Keychain) (parent : Identifier) (excess : Commitment) (slate : Slate) : Res Slate :=
  match sl_payment_proof slate with
  | Some p =>
      key ← address_from_derivation_path k parent 0;
      sig ← create_payment_proof_signature (sl_amount slate) excess (sender_address p) key;
      Ok (set_sl_payment_proof (Some (mkPaymentInfo (sender_address p) (receiver_address p) (Some sig))) slate)
  | None => Ok slate
  end.

Definition receive_tx (mask : option SecretKey) (slate : Slate) (dest_acct_name : option string)
    (use_test_rng : bool) : W Slate :=
  _ ← check_ttl slate;
  parent ← account_or_active dest_acct_name;
  _ ← already_done TxReceived slate parent use_test_rng;
  let ret_slate := set_sl_tx (Some empty_transaction) slate in
  height ← last_confirmed_height;
  k ← keychain mask;
  '(context, ret_slate) ← add_output_to_slate mask ret_slate height parent false use_test_rng;
  ret_slate ← liftS (adjust_offset ret_slate context);
  excess ← liftS (calc_excess ret_slate);
  ret_slate ← liftS (sign_proof k parent excess ret_slate);
  let ret_slate := set_sl_fee_fields fee_zero (set_sl_amount 0 ret_slate) in
  ret_slate ← liftS (remove_other_sigdata ret_slate (ctx_sec_nonce context) (ctx_sec_key context));
  mret (set_sl_state Standard2 ret_slate).

(** An invoice that was paid. *)
Definition finalize_invoice (mask : option SecretKey) (context : Context_) (slate : Slate) : W Slate :=
  _ ← check_ttl slate;
  _ ← keychain mask;
  sl ← liftS (adjust_offset slate context);
  let temp_ctx := mkContext (ctx_parent_key_id context) (ctx_initial_sec_key context) (ctx_initial_sec_nonce context)
    (ctx_initial_sec_key context) (ctx_initial_sec_nonce context) (ctx_output_ids context) (ctx_input_ids context)
    (ctx_amount context) (ctx_fee context) (ctx_payment_proof_derivation_index context)
    (ctx_late_lock_args context) (ctx_calculated_excess context) in
  sl ← repopulate_tx mask sl temp_ctx false;
  sl ← complete_tx mask sl context;
  _ ← update_stored_tx mask context sl true;
  _ ← forget_context mask sl;
  mret (set_sl_amount 0 (set_sl_state Invoice3 sl)).

Definition foreign_finalize_tx (mask : option SecretKey) (slate : Slate) (post_automatically : bool) : W Slate :=
  context ← get_private_context mask (context_id slate);
  sl ← (if bool_decide (sl_state slate = Invoice2) then finalize_invoice mask context slate
        else owner_finalize mask slate);
  _ ← whenS post_automatically (tx ← liftS (tx_or_err sl); post_tx tx true);
  mret sl.
End code.
