(* ===== verification/Frames.v ===== *)
(** * What the operations of a wallet leave as it is

    No operation of the updater, of a payment, of a scan or of the two interfaces
    changes the keychain, its checksum or the active account: a command
    that follows another finds the same keys. *)
From S2P Require Import Prelude.
From S2P Require Import RustStd.
From S2P Require Import Crates.
From S2P Require Import Effects.
From S2P Require Import Slate.
From S2P Require Import SlateV4.
From S2P Require Import SlateBin.
From S2P Require Import StateM.
From S2P Require Import Wallet.
From S2P Require Import Address.
From S2P Require Import Selection.
From S2P Require Import Updater.
From S2P Require Import WalletTx.
From S2P Require Import Scan.
From S2P Require Import Owner.
From S2P Require Import Foreign.
#[local] Open Scope Z_scope.

(** [leave] goes through the body of a method. *)
Ltac leave_step :=
  match goal with
  | |- leaves _ (mret _) => apply leaves_ret
  | |- leaves _ (liftS _) => apply leaves_lift
  | |- leaves _ (errS _) => apply leaves_lift
  | |- leaves _ (getS _) => apply leaves_get
  | |- leaves _ (mbind _ _) => apply leaves_bind; [|intros ?]
  | |- leaves _ (unwrapS _) => apply leaves_unwrap
  | |- leaves _ (tryS _) => apply leaves_try
  | |- leaves _ (attemptS _) => apply leaves_attempt
  | |- leaves _ (foreachS _ _) => apply leaves_foreach; intros ?
  | |- leaves _ (foldS _ _ _) => apply leaves_fold; intros ? ?
  | |- leaves _ (mapS _ _) => apply leaves_map; intros ?
  | |- leaves _ (whenS _ _) => unfold whenS
  | |- leaves _ (match ?x with _ => _ end) => destruct x
  end.
Ltac leave := repeat first [progress cbv zeta | solve [auto with leaves nocore] | leave_step].

Section frames.
Context `{BuildProfile, GC : GrinCrates, !BinCrates, !WalletCrates, !AddressCrates, !HexCrate, !NodeClient,
  !DalekCrates, !ScanCrates, !OwnerCrates}.
Implicit Types (w : Wallet).

(** Keychain, checksum and active account. *)
Definition held w : option Keychain * option string * Identifier :=
  (wa_keychain w, wa_master_checksum w, wa_parent_key_id w).

Lemma held_drawn {A} (m : M A) : leaves held (drawn m).
Proof. by apply leaves_drawn. Qed.
Lemma held_batch_update g : leaves held (batch_update g).
Proof. unfold batch_update. leave. by apply leaves_modify. Qed.
Lemma held_with_batch {A} mask (m : W A) : leaves held m -> leaves held (with_batch mask m).
Proof. intros Hm. unfold with_batch, open_batch. apply leaves_finally; [done|]. leave. by apply leaves_modify. Qed.
Lemma held_commit : leaves held commit.
Proof. unfold commit. leave; by apply leaves_modify. Qed.
Lemma held_store_tx u t : leaves held (store_tx u t).
Proof. unfold store_tx, put_file. leave; by apply leaves_modify. Qed.
Lemma held_parent : leaves held parent_key_id.
Proof. apply leaves_get. Qed.
#[local] Hint Resolve held_drawn held_batch_update held_with_batch held_commit held_store_tx held_parent : leaves.
#[local] Hint Unfold save batch_delete save_last_confirmed_height save_last_scanned_block save_init_status
  save_child_index save_tx_log_entry save_acct_path lock_output delete_private_context batch_db utc_now get_chain_tip
  wallet_iter wallet_get tx_log_iter acct_path_iter get_acct_path current_child_index last_confirmed_height
  last_scanned_block init_status : leaves.
Ltac leave_held := autounfold with leaves; leave; repeat (apply held_with_batch; leave).

Lemma held_next_tx_log_id i : leaves held (next_tx_log_id i).
Proof. unfold next_tx_log_id. leave_held. Qed.
Lemma held_save_context s c : leaves held (save_private_context s c).
Proof. unfold save_private_context, batch_keychain. leave_held. Qed.
Lemma held_get_context m s : leaves held (get_private_context m s).
Proof. unfold get_private_context. leave_held. Qed.
Lemma held_next_child m : leaves held (next_child m).
Proof. unfold next_child. leave_held. Qed.
#[local] Hint Resolve held_next_tx_log_id held_save_context held_get_context held_next_child : leaves.
Lemma held_context_new p r i : leaves held (Context_new p r i).
Proof. unfold Context_new, Context_with_excess. leave_held. Qed.
Lemma held_account n : leaves held (account_or_active n).
Proof. unfold account_or_active. leave_held. Qed.
#[local] Hint Resolve held_context_new held_account : leaves.

(** ** The updater *)
Lemma held_retrieve_outputs m s t p : leaves held (retrieve_outputs m s t p).
Proof. unfold retrieve_outputs. leave_held. Qed.
Lemma held_retrieve_txs t s p o : leaves held (retrieve_txs t s p o).
Proof. unfold retrieve_txs. leave_held. Qed.
#[local] Hint Resolve held_retrieve_outputs held_retrieve_txs : leaves.
Lemma held_apply_output api r h p x : leaves held (apply_output api r h p x).
Proof. unfold apply_output, log_coinbase, confirm_tx, batch_tx_log_iter, iter_db. leave_held. Qed.
Lemma held_revert_tx r p t : leaves held (revert_tx r p t).
Proof. unfold revert_tx. leave_held. Qed.
#[local] Hint Resolve held_apply_output held_revert_tx : leaves.
Lemma held_refresh m p u : leaves held (refresh_outputs m p u).
Proof.
  unfold refresh_outputs, refresh_output_state, map_wallet_outputs, find_reverted_kernels, apply_api_outputs,
    clean_old_unconfirmed, batch_tx_log_iter, iter_db. leave_held.
Qed.
Lemma held_cancel_tx m p t s : leaves held (cancel_tx m p t s).
Proof. unfold cancel_tx, cancel_tx_and_outputs, cancel_output. leave_held. Qed.
#[local] Hint Resolve held_refresh held_cancel_tx : leaves.

(** ** Payments *)
Lemma held_select_coins a h c n b p : leaves held (select_coins a h c n b p).
Proof. unfold select_coins. leave_held. Qed.
#[local] Hint Resolve held_select_coins : leaves.
Lemma held_grow sel fuel m n a cs t awf fee :
  (forall x, leaves held (sel x)) -> leaves held (grow sel fuel m n a cs t awf fee).
Proof.
  intros Hs. revert cs t awf fee. induction fuel as [|fuel IH]; intros cs t awf fee; cbn [grow]; leave_held.
Qed.
#[local] Hint Resolve held_grow : leaves.
Lemma held_coins_and_fee a h c n k b p : leaves held (select_coins_and_fee a h c n k b p).
Proof. unfold select_coins_and_fee. leave_held. Qed.
Lemma held_change cs m a f n b : leaves held (inputs_and_change cs m a f n b).
Proof. unfold inputs_and_change. leave_held. Qed.
#[local] Hint Resolve held_coins_and_fee held_change : leaves.
Lemma held_build_send m s h c n k b f p r i : leaves held (build_send_tx m s h c n k b f p r i).
Proof. unfold build_send_tx, select_send_tx. leave_held. Qed.
Lemma held_lock_tx m s h c e : leaves held (lock_tx_context m s h c e).
Proof. unfold lock_tx_context, change_commits, lock_batch, lock_input, save_change. leave_held. Qed.
Lemma held_recipient m s h p r i : leaves held (build_recipient_output m s h p r i).
Proof. unfold build_recipient_output, next_available_key. leave_held. Qed.
Lemma held_repopulate m s c u : leaves held (repopulate_tx m s c u).
Proof. unfold repopulate_tx. leave_held. Qed.
Lemma held_new_slate a i n r t : leaves held (new_tx_slate a i n r t).
Proof. unfold new_tx_slate. leave_held. Qed.
#[local] Hint Resolve held_build_send held_lock_tx held_recipient held_repopulate held_new_slate : leaves.
Lemma held_add_inputs m s h c n k b p i r : leaves held (add_inputs_to_slate m s h c n k b p i r).
Proof. unfold add_inputs_to_slate. leave_held. Qed.
Lemma held_add_output m s h p i r : leaves held (add_output_to_slate m s h p i r).
Proof. unfold add_output_to_slate. leave_held. Qed.
Lemma held_complete m s c : leaves held (complete_tx m s c).
Proof. unfold complete_tx. leave_held. Qed.
Lemma held_update_stored m c s i : leaves held (update_stored_tx m c s i).
Proof. unfold update_stored_tx. leave_held. Qed.
Lemma held_verify_proof m p c s : leaves held (verify_slate_payment_proof m p c s).
Proof. unfold verify_slate_payment_proof. leave_held. Qed.
#[local] Hint Resolve held_add_inputs held_add_output held_complete held_update_stored held_verify_proof : leaves.
Lemma held_lock_outputs m s : leaves held (tx_lock_outputs m s).
Proof. unfold tx_lock_outputs. leave_held. Qed.
#[local] Hint Resolve held_lock_outputs : leaves.
Lemma held_finalize m s : leaves held (owner_finalize m s).
Proof. unfold owner_finalize, check_ttl, lock_late, store_context, forget_context. leave_held. Qed.
Lemma held_receive m s n r : leaves held (receive_tx m s n r).
Proof. unfold receive_tx, check_ttl, already_done. leave_held. Qed.
Lemma held_init_send m a r : leaves held (init_send_tx m a r).
Proof.
  unfold init_send_tx, estimate, estimate_send_tx, create_late_lock_context, ask_for_proof, store_context. leave_held.
Qed.

(** ** The scan *)
Lemma held_collect fuel k s e acc : leaves held (collect_chain_outputs fuel k s e acc).
Proof. by apply leaves_collect. Qed.
Lemma held_cancel_entry m o : leaves held (cancel_tx_log_entry m o).
Proof. unfold cancel_tx_log_entry. leave_held. Qed.
#[local] Hint Resolve held_collect held_cancel_entry : leaves.
Lemma held_restore m o f s : leaves held (restore_missing_output m o f s).
Proof. unfold restore_missing_output, meet_parent, restored_log_id. leave_held. Qed.
#[local] Hint Resolve held_restore : leaves.
Lemma held_scan fuel m r s e : leaves held (scan fuel m r s e).
Proof. unfold scan, make_unspent, delete_unconfirmed_output, restore_account, set_acct_path. leave_held. Qed.
#[local] Hint Resolve held_scan : leaves.
Lemma held_update_each m p h l : leaves held (update_each m p h l).
Proof. induction l as [|t l IH]; cbn [update_each]; [leave_held|]. unfold update_tx_via_kernel. leave_held. Qed.
#[local] Hint Resolve held_update_each : leaves.
Lemma held_update_wallet fuel m u : leaves held (update_wallet_state fuel m u).
Proof.
  unfold update_wallet_state, update_outputs, update_txs_via_kernel, scanned_before, cancel_expired. leave_held.
Qed.
End frames.

#[export] Hint Resolve held_drawn held_batch_update held_with_batch held_commit held_store_tx held_parent
  held_next_tx_log_id held_save_context held_get_context held_next_child held_context_new held_account
  held_retrieve_outputs held_retrieve_txs held_refresh held_cancel_tx held_build_send held_lock_tx held_recipient
  held_repopulate held_new_slate held_add_inputs held_add_output held_complete held_update_stored held_verify_proof
  held_lock_outputs held_finalize held_receive held_scan held_update_wallet : leaves.
