(* ===== verification/Api.v ===== *)
(** * What the two interfaces of a wallet promise

    A payment that comes back is completed once; a payment is received once; what
    the sender's wallet exports as a proof is what [verify_payment_proof] accepts; a
    wallet without its node stays as it is. *)
From S2P Require Import Prelude.
From S2P Require Import RustStd.
From S2P Require Import Crates.
From S2P Require Import Effects.
From S2P Require Import Slate.
From S2P Require Import SlateV4.
From S2P Require Import SlateBin.
From S2P Require Import StateM.
From S2P Require Import Wallet.
From S2P Require Import Address.
From S2P Require Import Selection.
From S2P Require Import Updater.
From S2P Require Import WalletTx.
From S2P Require Import Scan.
From S2P Require Import Owner.
From S2P Require Import Foreign.
From S2P Require Import Frames.
#[local] Open Scope Z_scope.

(** Documented behaviour: what a key signs, its public key verifies. *)
Class DalekLaws `{DalekCrates} :=
  dalek_verify_sign sk m : dalek_verify (dalek_public sk) m (dalek_sign sk m) = true.

(** ** Slates *)
Section slates.
Context `{BuildProfile, GrinCrates}.
Implicit Types s : Slate.

(** What neither signing nor building changes. *)
Definition about s : Uuid * Z * option PaymentInfo * Z * SlateState :=
  (sl_id s, sl_amount s, sl_payment_proof s, sl_ttl_cutoff_height s, sl_state s).

Lemma adjust_offset_about s c s' : adjust_offset s c = Ok s' -> about s' = about s.
Proof. unfold adjust_offset. intros E. by res_inv. Qed.
Lemma add_participant_about s c sig s' : add_participant_info s c sig = Ok s' -> about s' = about s.
Proof. unfold add_participant_info. intros E. by res_inv. Qed.
Lemma update_kernel_about s s' : update_kernel s = Ok s' -> about s' = about s.
Proof. unfold update_kernel. intros E. by res_inv. Qed.
Lemma add_elements_about s l s' b : add_transaction_elements s l = Ok (s', b) -> about s' = about s.
Proof.
  unfold add_transaction_elements. intros E. apply res_bind_Ok in E as (s1 & E1 & E).
  apply update_kernel_about in E1. rewrite <- E1. destruct l as [|e l]. { by injection E as <- _. }
  apply res_bind_Ok in E as (tx & _ & E). apply res_bind_Ok in E as ([tx' b'] & _ & E). by injection E as <- _.
Qed.
Lemma set_first_about test sig s s' : set_first_in test sig s = Ok s' -> about s' = about s.
Proof. unfold set_first_in. intros E. by res_inv. Qed.
Lemma fill_round_2_about s k n s' : fill_round_2 s k n = Ok s' -> about s' = about s.
Proof.
  unfold fill_round_2. intros E. do 7 (apply res_bind_Ok in E as (? & _ & E)). by eapply set_first_about.
Qed.
Lemma finalised_about s s' : finalised s s' -> about s' = about s.
Proof. by intros (tx & k & sig & ex & _ & _ & -> & _)%finalised_tx. Qed.
End slates.

(** ** Lemmas: the steps of completion *)
Section completion.
Context `{BuildProfile, GC : GrinCrates, !BinCrates, !WalletCrates, !AddressCrates, !HexCrate, !NodeClient,
  !DalekCrates, !ScanCrates, !OwnerCrates}.
Implicit Types (w : Wallet) (d : Db) (s : Slate) (c : Context_).

Lemma mapS_leaves {A B} (f : A -> W B) l w r w' :
  (forall a, leaves (fun w0 => w0) (f a)) -> mapS f l w = (Ok r, w') -> w' = w.
Proof. intros Hf E. exact (leaves_Ok _ _ _ _ _ (leaves_map _ _ _ Hf) E). Qed.

Lemma repopulate_tx_Ok mask s c u w s' w' :
  repopulate_tx mask s c u w = (Ok s', w') ->
  w' = w /\ sl_id s' = sl_id s /\ sl_amount s' = ctx_amount c /\ sl_payment_proof s' = sl_payment_proof s.
Proof.
  unfold repopulate_tx. intros E.
  apply ST_bind_Ok in E as (s1 & w1 & E1 & E).
  assert (w1 = w /\ about s1 = about (set_sl_amount (ctx_amount c) s)) as [-> A1].
  { destruct u; [|by apply mretS_Ok in E1 as [-> ->]]. apply ST_bind_Ok in E1 as (f & w2 & E1 & E2).
    apply liftS_Ok in E1 as [_ ->]. by apply mretS_Ok in E2 as [-> ->]. }
  apply ST_bind_Ok in E as (k & w2 & E2 & E). apply keychain_Ok in E2 as ->.
  apply ST_bind_Ok in E as (s2 & w3 & E3 & E). apply liftS_Ok in E3 as [E3 ->]. apply add_participant_about in E3.
  apply ST_bind_Ok in E as (ins & w4 & E4 & E). apply mapS_leaves in E4 as ->.
  2:{ intros [[i m] v]. apply leaves_bind; [apply leaves_get|]. intros l. apply leaves_ret. }
  apply ST_bind_Ok in E as (outs & w5 & E5 & E). apply mapS_leaves in E5 as ->.
  2:{ intros [[i m] v]. apply leaves_bind; [apply leaves_get|]. intros l. apply leaves_ret. }
  apply ST_bind_Ok in E as ([s3 b] & w6 & E6 & E). apply liftS_Ok in E6 as [E6 ->]. apply add_elements_about in E6.
  apply ST_bind_Ok in E as (tx & w7 & E7 & E). apply liftS_Ok in E7 as [E7 ->]. apply mretS_Ok in E as [-> ->].
  split; [done|]. rewrite A1 in E3. rewrite E3 in E6. unfold about in E6. cbn in E6. injection E6 as Ei Ea Ep _ _.
  by cbn.
Qed.

Lemma complete_tx_Ok mask s c w s' w' :
  complete_tx mask s c w = (Ok s', w') -> w' = w /\ exists s1, finalised s1 s' /\ about s1 = about s.
Proof.
  unfold complete_tx. intros E. destruct (if _ && _ then _ else _) as [key nonce].
  apply ST_bind_Ok in E as (k & w1 & E1 & E). apply keychain_Ok in E1 as ->.
  apply ST_bind_Ok in E as (s1 & w2 & E2 & E). apply liftS_Ok in E2 as [E2 ->]. apply fill_round_2_about in E2.
  apply ST_bind_Ok in E as (k3 & w3 & E3 & E). apply keychain_Ok in E3 as ->.
  apply liftS_Ok in E as [E ->]. split; [done|]. exists s1. split; [by apply finalize_finalised|done].
Qed.

(** The entry of the slate, with the excess of the kernel and the proof. *)
Definition completed (k : option Keychain) (active : Identifier) c s (t t' : TxLogEntry) : Prop :=
  exists excess, calc_excess s = Ok excess
  /\ match sl_payment_proof s with
     | Some p => exists key proof, k = Some key /\ signed_proof key active c s p = Ok proof
                 /\ t' = set_tl_payment_proof (Some proof) (set_tl_kernel_excess (Some excess) t)
     | None => t' = set_tl_kernel_excess (Some excess) t
     end.
Definition entry_key (t : TxLogEntry) : string :=
  to_key_u64 TX_LOG_ENTRY_PREFIX (id_to_bytes (tl_parent_key_id t)) (tl_id t).
(** The keychain that a mask opens. *)
Definition opened (mask : option SecretKey) w : option Keychain := match (keychain mask w).1 with Ok k => Some k | _ => None end.

Lemma with_tx_log_Ok mask t i w u w' :
  with_batch mask (_ ← save_tx_log_entry t i; commit) w = (Ok u, w') ->
  wa_db w' = set_db_tx_log (<[to_key_u64 TX_LOG_ENTRY_PREFIX (id_to_bytes i) (tl_id t) := t]> (db_tx_log (wa_db w))) (wa_db w).
Proof. intros E. unfold save_tx_log_entry in E. by apply save_batch_Ok in E. Qed.

Lemma leaves_with_batch {X A} (f : Wallet -> X) mask (m : W A) :
  (forall b w, f (set_wa_batch b w) = f w) -> leaves f m -> leaves f (with_batch mask m).
Proof.
  intros Hf Hm. unfold with_batch, open_batch. apply leaves_finally; [by apply Hf|].
  apply leaves_bind; [apply leaves_keychain|]. intros k. apply leaves_bind; [by apply leaves_modify|]. by intros ?.
Qed.
Lemma files_batch_update g : leaves wa_files (batch_update g).
Proof. unfold batch_update. leave; by apply leaves_modify. Qed.
Lemma files_commit : leaves wa_files commit.
Proof. unfold commit. leave; by apply leaves_modify. Qed.
Lemma files_update mask g : leaves wa_files (with_batch mask (_ ← batch_update g; commit)).
Proof.
  apply leaves_with_batch; [done|]. apply leaves_bind; [apply files_batch_update|]. intros u. apply files_commit.
Qed.

Lemma forget_context_Ok mask s w u w' :
  forget_context mask s w = (Ok u, w') ->
  wa_files w' = wa_files w
  /\ wa_db w' = set_db_contexts (delete (ctx_key (context_id s)) (db_contexts (wa_db w))) (wa_db w).
Proof.
  intros E. apply with_batch_Ok in E as (k & w1 & _ & E & ->). apply ST_bind_Ok in E as (u1 & w2 & E1 & E).
  apply delete_private_context_Ok in E1 as (_ & P & _ & F). apply commit_Ok in E as (_ & D & F').
  cbn. by rewrite D, P, F', F.
Qed.

Lemma update_stored_tx_Ok mask c s inv w u w' :
  update_stored_tx mask c s inv w = (Ok u, w') ->
  exists t t' tx bytes,
    t ∈ db_iter (db_tx_log (wa_db w)) /\ tl_tx_slate_id t = Some (sl_id s) /\ is_entry_of inv t = true
    /\ completed (opened mask w) (wa_parent_key_id w) c s t t'
    /\ wa_db w' = set_db_tx_log (<[entry_key t' := t']> (db_tx_log (wa_db w))) (wa_db w)
    /\ sl_tx s = Some tx /\ tx_ser_vec tx = Ok bytes
    /\ wa_files w' = <[tx_file (uuid_to_string (sl_id s)) := hex_encode bytes]> (wa_files w).
Proof.
  unfold update_stored_tx. intros E. apply ST_bind_Ok in E as (l & w1 & E1 & E).
  unfold retrieve_txs in E1. apply ST_bind_Ok in E1 as (es & w0 & E0 & E1). apply getS_Ok in E0 as [-> ->].
  apply mretS_Ok in E1 as [El ->].
  apply ST_bind_Ok in E as (t & w2 & E2 & E). apply liftS_Ok in E2 as [E2 ->].
  destruct (find (is_entry_of inv) l) as [t0|] eqn:Ef; [|done]. injection E2 as ->.
  apply find_some in Ef as [Hin%list_elem_of_In Hinv]. rewrite El, sort_by_key_perm in Hin.
  apply list_elem_of_filter in Hin as [Hf Hin]. unfold tx_filter in Hf. cbn in Hf. rewrite andb_true_r in Hf.
  apply bool_decide_eq_true_1 in Hf.
  apply ST_bind_Ok in E as (k3 & w3 & E3 & E). apply keychain_Ok in E3 as ->.
  apply ST_bind_Ok in E as (excess & w4 & E4 & E). apply liftS_Ok in E4 as [E4 ->].
  apply ST_bind_Ok in E as (t' & w5 & E5 & E).
  assert (w5 = w /\ completed (opened mask w) (wa_parent_key_id w) c s t t' /\ tl_tx_slate_id t' = tl_tx_slate_id t
    /\ tl_parent_key_id t' = tl_parent_key_id t /\ tl_id t' = tl_id t) as (-> & Hc & Eu & Ep & Ei).
  { unfold completed. destruct (sl_payment_proof s) as [p|].
    - apply ST_bind_Ok in E5 as (k & w6 & E6 & E5). pose proof (keychain_Ok _ _ _ _ E6) as ->.
      apply ST_bind_Ok in E5 as (act & w7 & E7 & E5). apply getS_Ok in E7 as [-> ->].
      apply ST_bind_Ok in E5 as (proof & w8 & E8 & E5). apply liftS_Ok in E8 as [E8 ->].
      apply mretS_Ok in E5 as [-> ->]. split; [done|]. split; [|done]. exists excess. split; [done|].
      exists k, proof. unfold opened. rewrite E6. done.
    - apply mretS_Ok in E5 as [-> ->]. split; [done|]. split; [|done]. by exists excess. }
  apply ST_bind_Ok in E as (id & w6 & E6 & E). apply liftS_Ok in E6 as [E6 ->].
  rewrite Eu, Hf in E6. injection E6 as <-.
  apply ST_bind_Ok in E as (tx & w7 & E7 & E). apply liftS_Ok in E7 as [E7 ->].
  apply ST_bind_Ok in E as (u8 & w8 & E8 & E). apply store_tx_Ok in E8 as (bytes & E9 & ->).
  pose proof (leaves_Ok _ _ _ _ _ (files_update mask _) E) as Hfiles.
  apply with_tx_log_Ok in E. exists t, t', tx, bytes. do 4 (split; [done|]).
  split; [rewrite E; cbn; unfold entry_key; by rewrite Ep|].
  split; [unfold tx_or_err in E7; destruct (sl_tx s); [by injection E7 as ->|done]|].
  split; [done|]. by rewrite Hfiles.
Qed.
End completion.

(** ** Finalizing *)
Section finalizing.
Context `{BuildProfile, GC : GrinCrates, !BinCrates, !WalletCrates, !AddressCrates, !HexCrate, !NodeClient,
  !DalekCrates, !ScanCrates, !OwnerCrates}.
Implicit Types (w : Wallet) (d : Db) (s : Slate) (c : Context_).

Lemma get_context_Ok mask sid w c w' : get_private_context mask sid w = (Ok c, w') -> w' = w.
Proof.
  unfold get_private_context. intros E. apply ST_bind_Ok in E as (k & w1 & E1 & E). apply keychain_Ok in E1 as ->.
  by st_inv.
Qed.
Lemma check_ttl_run s w :
  check_ttl s w = (Ok tt, w) \/ check_ttl s w = (Err "TransactionExpired", w).
Proof. unfold check_ttl. erewrite ST_bind_run by reflexivity. destruct (negb _ && _); [by right|by left]. Qed.

(** A method that fails, and leaves the wallet alone. *)
Definition refuses {A} (m : W A) w : Prop := is_ok (m w).1 = false /\ (m w).2 = w.
Lemma refuses_bind {A B} (m : W A) (k : A -> W B) w : refuses m w -> refuses (m ≫= k) w.
Proof. unfold refuses, mbind, ST_bind. intros [E1 E2]. by destruct (m w) as [[a|e|e] w1]. Qed.
Lemma refuses_after {A B} (m : W A) (k : A -> W B) w a : m w = (Ok a, w) -> refuses (k a) w -> refuses (m ≫= k) w.
Proof. unfold refuses. intros E. by rewrite (ST_bind_run _ _ _ _ _ E). Qed.

Lemma no_context_refuses mask sid w :
  db_contexts (wa_db w) !! ctx_key sid = None -> refuses (get_private_context mask sid) w.
Proof.
  intros Hn. unfold get_private_context. destruct (keychain mask w) as [[k|e|e] w1] eqn:Ek.
  2, 3: apply refuses_bind; unfold refuses; pose proof (leaves_keychain (fun w0 => w0) mask w) as Hw; by rewrite Ek in *.
  pose proof (keychain_Ok _ _ _ _ Ek) as ->. apply (refuses_after _ _ _ _ Ek).
  destruct (private_ctx_xor_keys k sid) as [keys|e|e] eqn:Ex; unfold refuses, mbind, ST_bind, liftS, getS; [|done..].
  by rewrite Hn.
Qed.
Lemma finalize_refuses mask s w :
  db_contexts (wa_db w) !! ctx_key (context_id s) = None ->
  refuses (owner_finalize mask s) w /\ forall post, refuses (foreign_finalize_tx mask s post) w.
Proof.
  intros Hn. pose proof (no_context_refuses mask _ _ Hn) as Hc. split.
  - destruct (check_ttl_run s w) as [E|E].
    + apply (refuses_after _ _ _ _ E). by apply refuses_bind.
    + apply refuses_bind. unfold refuses. by rewrite E.
  - intros post. by apply refuses_bind.
Qed.

Lemma lock_late_ids mask parent args c s w c' w' :
  lock_late mask parent args c s w = (Ok c', w') ->
  c' = set_ctx_ids (ctx_output_ids c') (ctx_input_ids c') c.
Proof.
  unfold lock_late. intros E. apply ST_bind_Ok in E as ([h hs] & w1 & _ & E).
  apply ST_bind_Ok in E as (sl & w2 & _ & E). apply ST_bind_Ok in E as ([tc tsl] & w3 & _ & E).
  apply ST_bind_Ok in E as (u & w4 & _ & E). apply ST_bind_Ok in E as (u5 & w5 & _ & E). by apply mretS_Ok in E as [-> _].
Qed.

Lemma held_late mask parent args c s : leaves held (lock_late mask parent args c s).
Proof.
  unfold lock_late, store_context, get_chain_tip. leave.
Qed.
Lemma verify_changes_nothing mask parent c s : leaves (fun w => w) (verify_slate_payment_proof mask parent c s).
Proof. unfold verify_slate_payment_proof, retrieve_txs, tx_log_iter. leave. Qed.

(** The steps of completion, from where the coins are locked. *)
Lemma owner_finalize_Ok mask slate w s w' :
  owner_finalize mask slate w = (Ok s, w') ->
  exists c0 c w1 sl sl1 t t' tx bytes,
    get_private_context mask (context_id slate) w = (Ok c0, w)
    /\ (ctx_late_lock_args c0 = None -> c = c0 /\ w1 = w)
    /\ ctx_amount c = ctx_amount c0
    /\ ctx_payment_proof_derivation_index c = ctx_payment_proof_derivation_index c0
    /\ held w1 = held w /\ opened mask w1 = opened mask w
    /\ s = set_sl_amount 0 (set_sl_state Standard3 sl)
    /\ finalised sl1 sl
    /\ sl_id sl = sl_id slate /\ sl_amount sl = ctx_amount c0 /\ sl_payment_proof sl = sl_payment_proof slate
    /\ verify_slate_payment_proof mask (wa_parent_key_id w) c sl w1 = (Ok tt, w1)
    /\ t ∈ db_iter (db_tx_log (wa_db w1)) /\ tl_tx_slate_id t = Some (sl_id slate) /\ is_entry_of false t = true
    /\ completed (opened mask w) (wa_parent_key_id w) c sl t t'
    /\ sl_tx sl = Some tx /\ tx_ser_vec tx = Ok bytes
    /\ wa_files w' = <[tx_file (uuid_to_string (sl_id slate)) := hex_encode bytes]> (wa_files w1)
    /\ wa_db w' = set_db_contexts (delete (ctx_key (context_id slate)) (db_contexts (wa_db w1)))
                    (set_db_tx_log (<[entry_key t' := t']> (db_tx_log (wa_db w1))) (wa_db w1)).
Proof.
  unfold owner_finalize. intros E. apply ST_bind_Ok in E as (u & w0 & E0 & E).
  assert (w0 = w) as -> by (destruct (check_ttl_run slate w) as [E1|E1]; rewrite E1 in E0; by simplify_eq).
  apply ST_bind_Ok in E as (c0 & w1 & E1 & E). pose proof (get_context_Ok _ _ _ _ _ E1) as ->.
  apply ST_bind_Ok in E as (k & w2 & E2 & E). pose proof (keychain_Ok _ _ _ _ E2) as ->.
  apply ST_bind_Ok in E as (parent & w3 & E3 & E). apply getS_Ok in E3 as [-> ->].
  apply ST_bind_Ok in E as (c & w1 & E4 & E).
  assert (Hc : (ctx_late_lock_args c0 = None -> c = c0 /\ w1 = w) /\ ctx_amount c = ctx_amount c0
    /\ ctx_payment_proof_derivation_index c = ctx_payment_proof_derivation_index c0 /\ held w1 = held w).
  { destruct (ctx_late_lock_args c0) as [args|].
    - split; [done|]. pose proof (leaves_Ok held _ _ _ _ (held_late mask (wa_parent_key_id w) args _ slate) E4) as Hh.
      apply lock_late_ids in E4. by rewrite E4.
    - by apply mretS_Ok in E4 as [-> ->]. }
  destruct Hc as (Hlate & Hamt & Hidx & Hh).
  apply ST_bind_Ok in E as (s1 & w5 & E5 & E). apply liftS_Ok in E5 as [E5 ->]. apply adjust_offset_about in E5.
  apply ST_bind_Ok in E as (s2 & w6 & E6 & E). apply repopulate_tx_Ok in E6 as (-> & I6 & A6 & P6).
  apply ST_bind_Ok in E as (sl & w7 & E7 & E). apply complete_tx_Ok in E7 as (-> & sl1 & F7 & A7).
  pose proof (finalised_about _ _ F7) as A8. rewrite A7 in A8. unfold about in A8, E5. injection A8 as Ai Aa Ap _ _.
  injection E5 as Bi Ba Bp _ _. rewrite I6, Bi in Ai. rewrite A6, Hamt in Aa. rewrite P6, Bp in Ap.
  apply ST_bind_Ok in E as ([] & w8 & E8 & E).
  assert (w8 = w1) as -> by exact (leaves_Ok (fun w0 => w0) _ _ _ _ (verify_changes_nothing _ _ _ _) E8).
  apply ST_bind_Ok in E as (u9 & w9 & E9 & E).
  apply update_stored_tx_Ok in E9 as (t & t' & tx & bytes & Ht & Hu & Hi & Hcp & D9 & Etx & Eb & F9).
  apply ST_bind_Ok in E as (u10 & w10 & E10 & E). apply mretS_Ok in E as [-> ->].
  assert (Ho : opened mask w1 = opened mask w).
  { unfold held in Hh. injection Hh as K1 S1 _. unfold opened. rewrite E2. by rewrite (keychain_ext _ _ _ _ w1 E2 K1 S1). }
  apply forget_context_Ok in E10 as [F10 E10]. unfold context_id in E10. rewrite Ai in *.
  rewrite Ho in Hcp. unfold held in Hh. injection Hh as HK HS HP. rewrite HP in Hcp.
  exists c0, c, w1, sl, sl1, t, t', tx, bytes. split_and!; try done.
  - unfold held. by rewrite HK, HS, HP.
  - by rewrite F10, F9.
  - by rewrite E10, D9.
Qed.
End finalizing.

Section finalized.
Context `{BuildProfile, GC : GrinCrates, !BinCrates, !WalletCrates, !AddressCrates, !HexCrate, !NodeClient,
  !DalekCrates, !ScanCrates, !OwnerCrates}.
Implicit Types (w : Wallet) (d : Db) (s : Slate) (c : Context_).

(** ** Proofs of payment *)
Lemma account_address_inv `{!BinLaws} k parent index key p :
  account_address k parent index = Ok (key, p) ->
  address_from_derivation_path k parent index = Ok key
  /\ exists sk, dalek_sk_from_bytes (sk_bytes key) = Some sk /\ p = dalek_public sk.
Proof.
  unfold account_address, ov3_from_private, ov3_to_ed25519. intros E. apply res_bind_Ok in E as (key' & E1 & E).
  apply res_bind_Ok in E as (a & E2 & E). apply res_bind_Ok in E as (q & E3 & E). injection E as -> ->.
  split; [done|]. destruct (dalek_sk_from_bytes (sk_bytes key)) as [d|]; [|done]. injection E2 as <-.
  rewrite dalek_pk_from_to in E3. injection E3 as <-. by exists d.
Qed.

(** What the sender signs when the payment is completed. *)
Lemma signed_proof_inv `{!BinLaws} k active c s p proof excess :
  signed_proof k active c s p = Ok proof -> calc_excess s = Ok excess ->
  exists key (sk : DalekSecretKey) msg, address_from_derivation_path k active (default 0 (ctx_payment_proof_derivation_index c)) = Ok key
    /\ dalek_sk_from_bytes (sk_bytes key) = Some sk
    /\ payment_proof_message (sl_amount s) excess (sender_address p) = Ok msg
    /\ proof = mkStoredProofInfo (receiver_address p) (receiver_signature p)
                 (default 0 (ctx_payment_proof_derivation_index c)) (dalek_public sk) (Some (dalek_sign sk msg)).
Proof.
  unfold signed_proof, create_payment_proof_signature, ov3_from_private, ov3_to_ed25519. intros E Ex. rewrite Ex in E.
  cbn [mbind Res_bind] in E. apply res_bind_Ok in E as (key & E1 & E). apply res_bind_Ok in E as (onion & E2 & E).
  apply res_bind_Ok in E as (sig & E3 & E). apply res_bind_Ok in E as (q & E4 & E). injection E as <-.
  apply res_bind_Ok in E3 as (msg & E3 & E5). destruct (dalek_sk_from_bytes (sk_bytes key)) as [d|] eqn:Ed; [|done].
  injection E2 as <-. injection E5 as <-. rewrite dalek_pk_from_to in E4. injection E4 as <-.
  exists key, d, msg. done.
Qed.

Lemma verify_slate_proof_inv mask parent c s p w :
  verify_slate_payment_proof mask parent c s w = (Ok tt, w) -> sl_payment_proof s = Some p ->
  exists k orig, keychain mask w = (Ok k, w) /\ check_proof k parent c s orig p = Ok tt.
Proof.
  unfold verify_slate_payment_proof. intros E Ep. rewrite Ep in E. apply ST_bind_Ok in E as (l & w1 & E1 & E).
  destruct l as [|tx rest]; [done|].
  destruct (retrieve_txs_run parent None (Some (sl_id s)) w) as (l' & Er & _). rewrite Er in E1. injection E1 as -> <-.
  destruct (tl_payment_proof tx) as [orig|]; [|done].
  apply ST_bind_Ok in E as (o & w2 & E2 & E). apply liftS_Ok in E2 as [_ ->].
  apply ST_bind_Ok in E as (k & w3 & E3 & E). pose proof (keychain_Ok _ _ _ _ E3) as ->.
  apply liftS_Ok in E as [E _]. by exists k, (Some orig).
Qed.

(** The proof both sides signed: amount, excess and sender, under the two addresses. *)
Definition both_signed (p : PaymentInfo) (amount : Z) (excess : Commitment) (proof : StoredProofInfo) : Prop :=
  exists sk msg sig path,
    sender_address p = dalek_public sk /\ receiver_signature p = Some sig
    /\ payment_proof_message amount excess (sender_address p) = Ok msg
    /\ dalek_verify (receiver_address p) msg sig = true
    /\ proof = mkStoredProofInfo (receiver_address p) (Some sig) path (dalek_public sk) (Some (dalek_sign sk msg)).

(** Whoever checks the slate and then signs has the receiver's signature, verified,
    and signs with the key of the sender's address. *)
Lemma signed_by_both `{!BinLaws} mask parent c s p w k proof excess :
  verify_slate_payment_proof mask parent c s w = (Ok tt, w) -> sl_payment_proof s = Some p ->
  opened mask w = Some k -> signed_proof k parent c s p = Ok proof -> calc_excess s = Ok excess ->
  both_signed p (sl_amount s) excess proof
  /\ (ctx_payment_proof_derivation_index c = Some 0 -> own_address k parent = Ok (sender_address p)).
Proof.
  intros Hv Hp Ek Es Ex. apply verify_slate_proof_inv with (p := p) in Hv as (k1 & orig & Ek1 & Hv); [|done].
  assert (k1 = k) as -> by (unfold opened in Ek; rewrite Ek1 in Ek; by injection Ek).
  apply check_proof_Ok in Hv as (orig' & index & key & ex' & msg & sig & _ & _ & Ei & Eadr & Ex' & Em & Esig & Ever).
  rewrite Ex in Ex'. injection Ex' as <-.
  destruct (signed_proof_inv _ _ _ _ _ _ _ Es Ex) as (key' & d & msg' & Ekey & Ed & Em' & ->).
  rewrite Ei in Ekey |- *. cbn [default from_option id] in Ekey |- *.
  apply account_address_inv in Eadr as (Ekey1 & d1 & Ed1 & Esend).
  rewrite Ekey in Ekey1. injection Ekey1 as <-. rewrite Ed in Ed1. injection Ed1 as <-.
  rewrite Em in Em'. injection Em' as <-. rewrite Esig. split; [exists d, msg, sig, index; done|].
  intros [= ->]. unfold own_address. rewrite Ekey. cbn. by rewrite Ed, Esend.
Qed.

(** C12: Finalizing a payment.  When it succeeds, the slate that is given back carries a
    transaction whose kernel and signature have been verified and that the chain's
    validation accepts; that transaction is in its file; the entry of a payment sent
    names the excess of the kernel by which the chain will be asked, and holds the
    proof, if one was asked for, with the receiver's verified signature and the sender's
    own of the amount, that excess and the sender's address; the
    context of the payment is gone and no other is; and neither interface
    finalizes the slate a second time, whatever the second reply looks like: it fails, and the
    wallet is as it was. *)
Theorem finalize_completes_once `{!BinLaws} mask slate w s w' :
  owner_finalize mask slate w = (Ok s, w') ->
  (exists c sl1 sl tx bytes, get_private_context mask (context_id slate) w = (Ok c, w)
     /\ finalised sl1 sl /\ s = set_sl_amount 0 (set_sl_state Standard3 sl)
     /\ sl_id s = sl_id slate /\ sl_tx s = Some tx
     /\ tx_ser_vec tx = Ok bytes /\ wa_files w' !! tx_file (uuid_to_string (sl_id slate)) = Some (hex_encode bytes)
     /\ exists t excess, db_tx_log (wa_db w') !! entry_key t = Some t
        /\ tl_tx_type t = TxSent /\ tl_tx_slate_id t = Some (sl_id slate)
        /\ calc_excess sl = Ok excess /\ tl_kernel_excess t = Some excess
        /\ (forall p, sl_payment_proof slate = Some p ->
              exists proof, tl_payment_proof t = Some proof /\ both_signed p (ctx_amount c) excess proof))
  /\ db_contexts (wa_db w') !! ctx_key (context_id slate) = None
  /\ (forall again mask', sl_id again = sl_id slate ->
        refuses (owner_finalize mask' again) w' /\ forall post, refuses (foreign_finalize_tx mask' again post) w').
Proof.
  intros E. apply owner_finalize_Ok in E as (c0 & c & w1 & sl & sl1 & t & t' & tx & bytes & Ec & _ & _ & _ & _ & Ho & -> & Hf
    & Hi & Ha & Hp & Hv & _ & Hu & Ht & (excess & Ex & Hc) & Etx & Eb & F & D).
  assert (Hn : db_contexts (wa_db w') !! ctx_key (context_id slate) = None) by (rewrite D; apply lookup_delete_eq).
  split_and!; [|done|].
  - exists c0, sl1, sl, tx, bytes. do 4 (split; [done|]). split; [exact Etx|]. split; [done|].
    split; [by rewrite F, lookup_insert_eq|].
    exists t', excess. rewrite D. cbn. split; [apply lookup_insert_eq|].
    unfold is_entry_of in Ht. cbn in Ht. rewrite andb_true_r, andb_false_r, orb_false_r in Ht.
    apply bool_decide_eq_true_1 in Ht. rewrite <- Hp, <- Ha.
    destruct (sl_payment_proof sl) as [p|] eqn:Ep; [destruct Hc as (k & proof & Ek & Es & ->)|subst t'; by cbn].
    rewrite <- Ho in Ek. destruct (signed_by_both _ _ _ _ _ _ _ _ _ Hv Ep Ek Es Ex) as [Hb _].
    split_and!; [done..|]. intros p' [= <-]. exists proof. done.
  - intros again mask' Hid. apply finalize_refuses. unfold context_id in *. by rewrite Hid.
Qed.

(** The entries of the log for a slate, of all accounts. *)
Definition entries_for (u : Uuid) d : list TxLogEntry :=
  filter (fun t => tx_filter None (Some u) None false t = true) (db_iter (db_tx_log d)).

Lemma own_entries u parent d t :
  entries_for u d = [t] -> tl_parent_key_id t = parent -> matching parent None (Some u) d = [t].
Proof.
  intros E Hp. unfold matching. assert (Ef : forall l : list TxLogEntry, filter (fun t => tx_filter None (Some u) (Some parent) false t = true) l
    = filter (fun t => tl_parent_key_id t = parent) (filter (fun t => tx_filter None (Some u) None false t = true) l)).
  { intros l. rewrite list_filter_filter. apply list_filter_iff. intros t1. unfold tx_filter. cbn.
    repeat case_bool_decide; naive_solver. }
  rewrite Ef. unfold entries_for in E. rewrite E. rewrite filter_cons_True by exact Hp. reflexivity.
Qed.

(** Any wallet whose node knows the kernel accepts a proof both sides signed, and
    says whether one of the two is its own address. *)
Lemma accepted_proof mask k w a excess receiver sender r_sig s_sig msg mine :
  keychain mask w = (Ok k, w) ->
  (forall n, exists kernel, nc_get_kernel n excess None None = Ok (Some kernel)) ->
  payment_proof_message a excess sender = Ok msg ->
  dalek_verify receiver msg r_sig = true -> dalek_verify sender msg s_sig = true ->
  own_address k (wa_parent_key_id w) = Ok mine ->
  (verify_payment_proof mask (mkPaymentProof a excess (SlatepackAddress_new receiver) r_sig
    (SlatepackAddress_new sender) s_sig) w).1 = Ok (bool_decide (mine = sender), bool_decide (mine = receiver)).
Proof.
  intros Ek Hn Em Hr Hs Ha. unfold verify_payment_proof. cbn [pp_amount pp_excess pp_recipient_address pp_recipient_sig
    pp_sender_address pp_sender_sig SlatepackAddress_new spa_pub_key].
  rewrite (ST_bind_run _ _ _ _ _ (liftS_run _ _ _ Em)). erewrite ST_bind_run by reflexivity.
  rewrite (ST_bind_run _ _ _ _ _ Ek). erewrite ST_bind_run by reflexivity.
  match goal with |- context [nc_get_kernel ?n] => destruct (Hn n) as [kernel Ekern] end.
  erewrite ST_bind_run by (apply attemptS_inl; by apply liftS_run). cbn beta iota. rewrite Hr, Hs. cbn [negb].
  by rewrite (ST_bind_run _ _ _ _ _ (liftS_run _ _ _ Ha)).
Qed.

(** The fee of an entry, after the last hard fork. *)
Definition entry_fee t : Z := match tl_fee t with Some f => fee_fee f (2 * YEAR_HEIGHT) | None => 0 end.
Lemma proof_amount_sent t amount :
  tl_amount_debited t = tl_amount_credited t + amount + entry_fee t ->
  0 <= tl_amount_credited t -> 0 <= amount -> 0 <= entry_fee t -> 0 < amount + entry_fee t ->
  tl_amount_debited t < 2 ^ 64 -> proof_amount t = Ok amount.
Proof.
  intros Hd Hcr Ha Hf Hpos Hu. unfold proof_amount. fold (entry_fee t).
  destruct (Z.leb_spec (tl_amount_debited t) (tl_amount_credited t)); [lia|].
  rewrite u64_sub_ok by (unfold in_u64, u64_modulus; lia). cbn.
  rewrite u64_sub_ok by (unfold in_u64, u64_modulus; lia). f_equal. lia.
Qed.

(** C14: From the sender's wallet to the verifier.  When a payment for which a proof was
    asked has been finalized, its entry, the only one for the slate, is of the active
    account, and what was debited and not credited is what was sent and the fee, then the wallet exports a proof of just
    this: the amount sent, the excess of the kernel, the receiver with its signature and
    the sender with its own.  Every wallet that opens its keychain and whose node knows
    the kernel accepts this proof in [verify_payment_proof], whatever its account and whatever derivation
    index the sender's address has, and says whether the sender or the receiver is its own first address; the
    sender's wallet says so of itself when its address is the first of the account. *)
Theorem exported_proof_verifies `{!BinLaws, !DalekLaws} mask slate w s w' p c t fuel :
  owner_finalize mask slate w = (Ok s, w') ->
  sl_payment_proof slate = Some p ->
  get_private_context mask (context_id slate) w = (Ok c, w) ->
  entries_for (sl_id slate) (wa_db w') = [t] -> tl_parent_key_id t = wa_parent_key_id w ->
  tl_amount_debited t = tl_amount_credited t + ctx_amount c + entry_fee t ->
  0 <= tl_amount_credited t -> 0 <= ctx_amount c -> 0 <= entry_fee t -> 0 < ctx_amount c + entry_fee t ->
  tl_amount_debited t < 2 ^ 64 ->
  exists proof, retrieve_payment_proof fuel mask false None (Some (sl_id slate)) w' = (Ok proof, w')
    /\ pp_amount proof = ctx_amount c /\ tl_kernel_excess t = Some (pp_excess proof)
    /\ pp_recipient_address proof = SlatepackAddress_new (receiver_address p)
    /\ pp_sender_address proof = SlatepackAddress_new (sender_address p)
    /\ receiver_signature p = Some (pp_recipient_sig proof)
    /\ ((forall n, exists k, nc_get_kernel n (pp_excess proof) None None = Ok (Some k)) ->
        forall mask2 w2 k2 mine, keychain mask2 w2 = (Ok k2, w2) -> own_address k2 (wa_parent_key_id w2) = Ok mine ->
        (verify_payment_proof mask2 proof w2).1
        = Ok (bool_decide (mine = sender_address p), bool_decide (mine = receiver_address p)))
    /\ (ctx_payment_proof_derivation_index c = Some 0 ->
        exists k, keychain mask w' = (Ok k, w') /\ own_address k (wa_parent_key_id w') = Ok (sender_address p)).
Proof.
  intros E Hp Hctx Hone Hpar Hd Hcr Hca Hfee Hpos Hu64.
  pose proof (proof_amount_sent t _ Hd Hcr Hca Hfee Hpos Hu64) as Hamt. pose proof (leaves_Ok held _ _ _ _ (held_finalize mask slate) E) as Hh.
  apply owner_finalize_Ok in E as (c0 & c1 & w1 & sl & sl1 & t0 & t' & tx & bytes & Ec & _ & Ha & Hx & Hh1 & Ho & _ & _
    & Hi & Hsa & Hsp & Hv & _ & Hu & _ & (excess & Ex & Hc) & _ & _ & _ & D).
  rewrite Hctx in Ec. injection Ec as <-. rewrite Hp in Hsp. rewrite Hsp in Hc.
  destruct Hc as (k & proof & Ek & Es & ->). pose proof Ek as Ek1. rewrite <- Ho in Ek1.
  destruct (signed_by_both _ _ _ _ _ _ _ _ _ Hv Hsp Ek1 Es Ex) as [(d & msg & sig & path & Esend & Esig & Em & Ever & ->) Hown].
  assert (Et : t = set_tl_payment_proof (Some (mkStoredProofInfo (receiver_address p) (Some sig) path (dalek_public d)
     (Some (dalek_sign d msg)))) (set_tl_kernel_excess (Some excess) t0)).
  { symmetry. apply list_elem_of_singleton. rewrite <- Hone. apply list_elem_of_filter. split.
    - unfold tx_filter. cbn. rewrite Hu. by rewrite bool_decide_eq_true_2.
    - apply elem_of_db_iter. rewrite D. cbn. eexists. apply lookup_insert_eq. }
  assert (Eproof : proof_of_entry t = Ok (mkPaymentProof (ctx_amount c) excess (SlatepackAddress_new (receiver_address p)) sig
     (SlatepackAddress_new (dalek_public d)) (dalek_sign d msg))).
  { unfold proof_of_entry. rewrite Hamt. by rewrite Et. }
  exists (mkPaymentProof (ctx_amount c) excess (SlatepackAddress_new (receiver_address p)) sig
    (SlatepackAddress_new (dalek_public d)) (dalek_sign d msg)). cbn.
  assert (Eparent : wa_parent_key_id w' = wa_parent_key_id w) by (unfold held in Hh; congruence).
  split_and!; [| |by rewrite Et|done|by rewrite Esend|done| |].
  - unfold retrieve_payment_proof, owner_retrieve_txs, refreshed_first.
    assert (Er : retrieve_txs None (Some (sl_id slate)) (Some (wa_parent_key_id w')) false w' = (Ok [t], w')).
    { destruct (retrieve_txs_run (wa_parent_key_id w') None (Some (sl_id slate)) w') as (l & Er & Hl). rewrite Er.
      rewrite Eparent, (own_entries _ _ _ _ Hone Hpar) in Hl. by apply Permutation_singleton_r in Hl as ->. }
    cbn [refreshed_first]. erewrite ST_bind_run by reflexivity. unfold mbind at 1, ST_bind at 1.
    erewrite ST_bind_run by reflexivity. erewrite ST_bind_run by reflexivity. rewrite (ST_bind_run _ _ _ _ _ Er).
    cbn. by rewrite Eproof.
  - done.
  - intros Hkern mask2 w2 k2 mine Ek2 Hmine. rewrite Hsa, Esend in Em. rewrite Esend.
    by eapply (accepted_proof mask2 k2); [..|apply dalek_verify_sign|].
  - intros Hidx. exists k. rewrite <- Hx in Hidx. split; [|rewrite Eparent; by apply Hown].
    assert (Ekw : keychain mask w = (Ok k, w)).
    { unfold opened in Ek. destruct (keychain mask w) as [[k2|e|e] w2] eqn:E2; [|done..].
      pose proof (keychain_Ok _ _ _ _ E2) as ->. by injection Ek as ->. }
    unfold held in Hh. injection Hh as HK HS _. by eapply keychain_ext.
Qed.
End finalized.

(** ** Receiving *)
Section receiving.
Context `{BuildProfile, GC : GrinCrates, !BinCrates, !WalletCrates, !AddressCrates, !HexCrate, !NodeClient,
  !DalekCrates, !ScanCrates, !OwnerCrates}.
Implicit Types (w : Wallet) (d : Db) (s : Slate) (c : Context_).

Lemma db_drawn {A} (m : M A) : leaves wa_db (drawn m).
Proof. by apply leaves_drawn. Qed.
Lemma db_context_new p r i : leaves wa_db (Context_new p r i).
Proof. unfold Context_new, Context_with_excess. leave; apply db_drawn. Qed.
Lemma context_new_ids p r i w c w' :
  Context_new p r i w = (Ok c, w') -> ctx_output_ids c = [] /\ ctx_input_ids c = [].
Proof.
  unfold Context_new, Context_with_excess. intros E. apply ST_bind_Ok in E as (? & ? & _ & E).
  apply ST_bind_Ok in E as (? & ? & _ & E). by apply mretS_Ok in E as [-> _].
Qed.

(** The number of the child that the active account gives out next, and the
    account afterwards. *)
Definition child_of (i : Identifier) d (key : Identifier) : Prop :=
  exists path, child_path (id_to_path i) (next_child_of d i) = Ok path /\ key = id_from_path path.

Lemma next_child_Ok mask w key w' :
  next_child mask w = (Ok key, w') ->
  child_of (wa_parent_key_id w) (wa_db w) key
  /\ exists m, wa_db w' = set_db_child_index m (wa_db w).
Proof.
  unfold next_child. intros E. apply ST_bind_Ok in E as (p & w1 & E1 & E). apply getS_Ok in E1 as [-> ->].
  apply ST_bind_Ok in E as (i & w2 & E2 & E). apply getS_Ok in E2 as [-> ->].
  apply ST_bind_Ok in E as (path & w3 & E3 & E). apply liftS_Ok in E3 as [E3 ->].
  apply ST_bind_Ok in E as (n & w4 & E4 & E). apply liftS_Ok in E4 as [E4 ->].
  apply ST_bind_Ok in E as (u & w5 & E5 & E). unfold save_child_index in E5. apply save_batch_Ok in E5.
  apply mretS_Ok in E as [-> ->]. split; [by exists path|]. rewrite E5. by eexists.
Qed.

(** What a payment received leaves in the wallet. *)
Definition received_entry (parent : Identifier) s (log : Z) (t : TxLogEntry) : Prop :=
  tl_tx_type t = TxReceived /\ tl_tx_slate_id t = Some (sl_id s) /\ tl_confirmed t = false
  /\ tl_amount_credited t = sl_amount s /\ tl_amount_debited t = 0
  /\ tl_parent_key_id t = parent /\ tl_id t = log.

Lemma build_recipient_Ok mask s h parent rng init w key c t s' w' :
  build_recipient_output mask s h parent rng init w = (Ok (key, c, t, s'), w') ->
  child_of (wa_parent_key_id w) (wa_db w) key /\ about s' = about s
  /\ (exists commit, db_outputs (wa_db w')
        = <[output_key key None := fresh_output parent key commit (sl_amount s) h (next_log_id (wa_db w) parent)]>
            (db_outputs (wa_db w)))
  /\ db_tx_log (wa_db w') = <[entry_key t := t]> (db_tx_log (wa_db w))
  /\ received_entry parent s (next_log_id (wa_db w) parent) t
  /\ ctx_output_ids c = [(key, None, sl_amount s)] /\ ctx_input_ids c = [].
Proof.
  unfold build_recipient_output. intros E. apply ST_bind_Ok in E as (key' & w1 & E1 & E).
  apply (proj1 (unwrapS_Ok _ _ _ _)) in E1. unfold next_available_key in E1. apply next_child_Ok in E1 as (Hkey & m & D1).
  apply ST_bind_Ok in E as (k & w2 & E2 & E). apply keychain_Ok in E2 as ->.
  apply ST_bind_Ok in E as ([s1 b] & w3 & E3 & E). apply liftS_Ok in E3 as [E3 ->]. apply add_elements_about in E3.
  apply ST_bind_Ok in E as (c1 & w4 & E4 & E). pose proof (leaves_Ok _ _ _ _ _ (db_context_new parent rng init) E4) as D4.
  apply context_new_ids in E4 as [I4 J4].
  apply ST_bind_Ok in E as (commit & w5 & E5 & E). apply calc_commit_Ok in E5 as ->.
  apply ST_bind_Ok in E as (t1 & w6 & E6 & E). apply mretS_Ok in E as [[= -> -> -> ->] ->].
  apply with_batch_Ok in E6 as (k6 & w7 & _ & E & ->).
  apply ST_bind_Ok in E as (log & w8 & E8 & E). apply next_tx_log_id_Ok in E8 as (-> & _ & m8 & P8).
  apply ST_bind_Ok in E as (now & w9 & E9 & E). apply drawn_Ok in E9 as (P9 & _).
  apply ST_bind_Ok in E as (excess & w10 & E10 & E). apply liftS_Ok in E10 as [_ ->].
  apply ST_bind_Ok in E as (u11 & w11 & E11 & E). apply batch_update_Ok in E11 as (_ & _ & P11 & _).
  apply ST_bind_Ok in E as (u12 & w12 & E12 & E). apply batch_update_Ok in E12 as (_ & _ & P12 & _).
  apply ST_bind_Ok in E as (u13 & w13 & E13 & E). apply commit_Ok in E13 as (_ & D13 & _).
  apply mretS_Ok in E as [-> ->]. cbn in P8.
  assert (Hlog : next_log_id (pending (set_wa_batch (Some (wa_db w4, Some k6)) w4)) parent = next_log_id (wa_db w) parent).
  { cbn. rewrite D4, D1. done. }
  rewrite Hlog in *. assert (Ep : pending w9 = set_db_tx_log_ids m8 (wa_db w4)) by (by rewrite P9, P8).
  cbn [wa_db set_wa_batch]. rewrite D13, P12, P11, Ep, D4, D1. cbn. unfold about in E3. injection E3 as Ei Ea Epp Et Est. rewrite Ei.
  split_and!; [done|unfold about; congruence|by eexists|done|done| |done].
  by rewrite I4.
Qed.

Lemma receive_output_Ok mask s h parent rng w c s' w' :
  add_output_to_slate mask s h parent false rng w = (Ok (c, s'), w') ->
  about s' = about s
  /\ exists key commit t excess,
    child_of (wa_parent_key_id w) (wa_db w) key
    /\ db_outputs (wa_db w')
       = <[output_key key None := fresh_output parent key commit (sl_amount s) h (next_log_id (wa_db w) parent)]>
           (db_outputs (wa_db w))
    /\ db_tx_log (wa_db w') = <[entry_key t := t]> (db_tx_log (wa_db w))
    /\ received_entry parent s (next_log_id (wa_db w) parent) t
    /\ calc_excess s' = Ok excess /\ tl_kernel_excess t = Some excess.
Proof.
  unfold add_output_to_slate. intros E. apply ST_bind_Ok in E as (k & w1 & E1 & E). apply keychain_Ok in E1 as ->.
  apply ST_bind_Ok in E as ([[[key c1] t] s1] & w2 & E2 & E).
  apply build_recipient_Ok in E2 as (Hkey & A1 & (commit & O2) & T2 & Ht & _).
  apply ST_bind_Ok in E as (s2 & w3 & E3 & E). apply liftS_Ok in E3 as [E3 ->]. apply add_participant_about in E3.
  apply ST_bind_Ok in E as (s3 & w4 & E4 & E). apply mretS_Ok in E as [[= -> ->] ->]. cbn iota in E4.
  apply ST_bind_Ok in E4 as (s4 & w5 & E5 & E4). apply liftS_Ok in E5 as [E5 ->]. apply fill_round_2_about in E5.
  apply with_batch_Ok in E4 as (k6 & w6 & _ & E & ->).
  apply ST_bind_Ok in E as (excess & w7 & E7 & E). apply liftS_Ok in E7 as [E7 ->].
  apply ST_bind_Ok in E as (u8 & w8 & E8 & E). apply batch_update_Ok in E8 as (_ & _ & P8 & _).
  apply ST_bind_Ok in E as (u9 & w9 & E9 & E). apply commit_Ok in E9 as (_ & D9 & _).
  apply mretS_Ok in E as [-> ->]. cbn [wa_db set_wa_batch] in *. rewrite D9, P8. cbn. split; [congruence|].
  exists key, commit, (set_tl_kernel_excess (Some excess) t), excess. destruct Ht as (? & ? & ? & ? & ? & Hp & Hi).
  split_and!; [done|exact O2| |by split_and!|done|done].
  rewrite T2. unfold entry_key. cbn. rewrite Hp. apply insert_insert_eq.
Qed.

(** The receiver's signature on the proof. *)
Definition proof_signed (k : Keychain) (parent : Identifier) s excess s' : Prop :=
  match sl_payment_proof s with
  | Some p => exists key (sk : DalekSecretKey) msg,
      address_from_derivation_path k parent 0 = Ok key /\ dalek_sk_from_bytes (sk_bytes key) = Some sk
      /\ payment_proof_message (sl_amount s) excess (sender_address p) = Ok msg
      /\ sl_payment_proof s' = Some (mkPaymentInfo (sender_address p) (receiver_address p) (Some (dalek_sign sk msg)))
  | None => sl_payment_proof s' = None
  end.

(** The slate with one more participant. *)
Lemma sign_proof_Ok k parent excess s s' :
  sign_proof k parent excess s = Ok s' -> proof_signed k parent s excess s' /\ sl_id s' = sl_id s.
Proof.
  unfold sign_proof, proof_signed. destruct (sl_payment_proof s) as [p|] eqn:Ep; [|by intros [= <-]].
  intros E. apply res_bind_Ok in E as (key & E1 & E). apply res_bind_Ok in E as (sig & E2 & E). injection E as <-.
  unfold create_payment_proof_signature in E2. apply res_bind_Ok in E2 as (msg & E2 & E3).
  destruct (dalek_sk_from_bytes (sk_bytes key)) as [sk|] eqn:Ed; [|done]. injection E3 as <-. split; [|done].
  by exists key, sk, msg.
Qed.

Lemma retrieve_txs_leaves i u p o : leaves (fun w => w) (retrieve_txs i u p o).
Proof. unfold retrieve_txs, tx_log_iter. leave. Qed.
Lemma already_done_Ok ty s parent o w u w' :
  already_done ty s parent o w = (Ok u, w') -> w' = w.
Proof.
  unfold already_done. intros E. apply ST_bind_Ok in E as (l & w1 & E1 & E).
  assert (w1 = w) as -> by exact (leaves_Ok (fun w => w) _ _ _ _ (retrieve_txs_leaves _ _ _ _) E1).
  destruct (existsb _ _); [done|]. by apply mretS_Ok in E as [_ ->].
Qed.
Lemma already_done_refuses ty s parent w t :
  t ∈ db_iter (db_tx_log (wa_db w)) -> tl_tx_slate_id t = Some (sl_id s) -> tl_parent_key_id t = parent ->
  tl_tx_type t = ty -> refuses (already_done ty s parent false) w.
Proof.
  intros Hin Hu Hp Ht. unfold already_done.
  destruct (retrieve_txs_run parent None (Some (sl_id s)) w) as (l & Er & Hl). apply (refuses_after _ _ _ _ Er).
  assert (existsb (fun t => bool_decide (tl_tx_type t = ty)) l = true) as ->; [|done].
  apply existsb_exists. exists t. split; [|by apply bool_decide_eq_true_2]. apply list_elem_of_In. rewrite Hl.
  apply list_elem_of_filter. split; [|done]. unfold tx_filter. rewrite Hp, Hu. by rewrite !bool_decide_eq_true_2.
Qed.

Lemma account_run name w a w' : account_or_active name w = (Ok a, w') -> w' = w.
Proof.
  unfold account_or_active, get_acct_path, parent_key_id. intros E. destruct name as [n|]; [|by st_inv].
  apply ST_bind_Ok in E as (pm & w1 & E1 & E). apply getS_Ok in E1 as [-> ->].
  destruct (_ !! _); by st_inv.
Qed.

(** C13: Receiving a payment.  When it succeeds, the wallet has one new output: its value
    is the amount of the slate, it is unconfirmed and booked to the account the
    payment was for, but its key is the next child of the account that is active, which
    may be another one; the log has one new entry, a payment received and not
    confirmed, with the excess the receiver computed; the
    slate that goes back names neither amount nor fee, carries nobody else's public keys and,
    if a proof was asked for, the receiver's signature of amount, excess and sender.
    And the wallet does not receive a slate with this number into this account
    again: it refuses, and stays as it is. *)
Theorem receive_tx_once mask slate name rng w s w' parent :
  receive_tx mask slate name rng w = (Ok s, w') -> account_or_active name w = (Ok parent, w) ->
  (exists key commit t excess k height, keychain mask w = (Ok k, w) /\ child_of (wa_parent_key_id w) (wa_db w) key
     /\ db_outputs (wa_db w')
        = <[output_key key None := fresh_output parent key commit (sl_amount slate) height (next_log_id (wa_db w) parent)]>
            (db_outputs (wa_db w))
     /\ db_tx_log (wa_db w') = <[entry_key t := t]> (db_tx_log (wa_db w))
     /\ received_entry parent slate (next_log_id (wa_db w) parent) t /\ tl_kernel_excess t = Some excess
     /\ proof_signed k parent slate excess s)
  /\ sl_id s = sl_id slate /\ sl_state s = Standard2 /\ sl_amount s = 0 /\ sl_fee_fields s = fee_zero
  /\ (exists key nonce, Forall (fun p => mine key nonce p = true) (sl_participant_data s))
  /\ (forall again name' mask', sl_id again = sl_id slate -> account_or_active name' w' = (Ok parent, w') ->
        refuses (receive_tx mask' again name' false) w').
Proof.
  unfold receive_tx at 1. intros E Ha. apply ST_bind_Ok in E as (u & w0 & E0 & E).
  assert (w0 = w) as -> by (destruct (check_ttl_run slate w) as [E1|E1]; rewrite E1 in E0; by simplify_eq).
  apply ST_bind_Ok in E as (parent' & w1 & E1 & E). rewrite Ha in E1. injection E1 as <- <-.
  apply ST_bind_Ok in E as (u2 & w2 & E2 & E). apply already_done_Ok in E2 as ->.
  apply ST_bind_Ok in E as (h & w3 & E3 & E). apply getS_Ok in E3 as [-> ->].
  apply ST_bind_Ok in E as (k & w4 & E4 & E). pose proof (keychain_Ok _ _ _ _ E4) as ->.
  apply ST_bind_Ok in E as ([c s1] & w5 & E5 & E).
  apply receive_output_Ok in E5 as (A5 & key & commit & t & excess & Hk & O & T & Ht & Hx & Htx).
  apply ST_bind_Ok in E as (s2 & w6 & E6 & E). apply liftS_Ok in E6 as [E6 ->].
  assert (calc_excess s2 = calc_excess s1) as Hx2.
  { unfold adjust_offset in E6. by res_inv. }
  apply adjust_offset_about in E6.
  apply ST_bind_Ok in E as (ex & w7 & E7 & E). apply liftS_Ok in E7 as [E7 ->]. rewrite Hx2, Hx in E7. injection E7 as <-.
  apply ST_bind_Ok in E as (s3 & w8 & E8 & E). apply liftS_Ok in E8 as [E8 ->]. apply sign_proof_Ok in E8 as [Hs I3].
  apply ST_bind_Ok in E as (s4 & w9 & E9 & E). apply liftS_Ok in E9 as [E9 ->]. apply mretS_Ok in E as [-> ->].
  rewrite A5 in E6. unfold about in E6. cbn in E6. injection E6 as Bi Ba Bp _ _.
  unfold remove_other_sigdata in E9. apply res_bind_Ok in E9 as (pn & _ & E9). apply res_bind_Ok in E9 as (pk & _ & E9).
  injection E9 as <-. cbn. split_and!; [|by rewrite I3, Bi|done..| |].
  - exists key, commit, t, excess, k. eexists. split_and!; [done|done|exact O|exact T|exact Ht|done|].
    unfold proof_signed in *. rewrite Bp, Ba in Hs. exact Hs.
  - exists pk, pn. apply Forall_forall. intros p Hp. by apply list_elem_of_filter in Hp as [Hp _].
  - intros again name' mask' Hid Ha'. unfold receive_tx. destruct (check_ttl_run again w5) as [Et|Et].
    2: apply refuses_bind; unfold refuses; by rewrite Et.
    apply (refuses_after _ _ _ _ Et), (refuses_after _ _ _ _ Ha'), refuses_bind.
    destruct Ht as (Hty & Hu & _ & _ & _ & Hp & _).
    apply (already_done_refuses _ _ _ _ t); [|rewrite Hid; exact Hu|done|done].
    apply elem_of_db_iter. rewrite T. eexists. apply lookup_insert_eq.
Qed.
End receiving.

(** ** Without a node *)
Section offline.
Context `{BuildProfile, GC : GrinCrates, !BinCrates, !WalletCrates, !AddressCrates, !HexCrate, !NodeClient,
  !DalekCrates, !ScanCrates, !OwnerCrates}.
Implicit Types (w : Wallet).

(** The node cannot be reached. *)
Definition no_node : Prop := forall n, exists e, nc_get_chain_tip n = Err e /\ e <> INVALID_MASK.
(** The wallet after one question to the node. *)
Definition asked_once w : Wallet := (drawn draw w).2.

Lemma asked_once_same w : exists t, asked_once w = set_wa_tape t w.
Proof. unfold asked_once, drawn. destruct (draw (wa_tape w)) as [r t]. by exists t. Qed.
Lemma no_tip w : no_node -> exists e, get_chain_tip w = (Err e, asked_once w) /\ e <> INVALID_MASK.
Proof.
  intros Hn. unfold get_chain_tip. assert (exists n, drawn draw w = (Ok n, asked_once w)) as [n En].
  { unfold asked_once, drawn, draw. by eexists. }
  rewrite (ST_bind_run _ _ _ _ _ En). destruct (Hn n) as (e & Ee & Hne). exists e. unfold liftS. by rewrite Ee.
Qed.
Lemma update_offline fuel mask all w : no_node -> update_wallet_state fuel mask all w = (Ok false, asked_once w).
Proof.
  intros Hn. destruct (no_tip w Hn) as (e & Ee & Hne).
  assert (Hu : update_outputs mask all w = (Ok false, asked_once w)).
  { unfold update_outputs. erewrite ST_bind_run by reflexivity.
    erewrite ST_bind_run; [|apply attemptS_inr; unfold refresh_outputs; by apply ST_bind_err].
    cbn beta iota. by rewrite bool_decide_eq_false_2. }
  unfold update_wallet_state. erewrite ST_bind_run by reflexivity. by rewrite (ST_bind_run _ _ _ _ _ Hu).
Qed.

(** C25: A wallet without its node.  When the node cannot be reached nothing but the wallet's
    source of randomness is touched: refreshing says that it did not happen; funds, transactions and
    outputs are reported as they would be without refreshing, and are said not to be
    validated; and no payment is cancelled or begun. *)
Theorem offline_changes_nothing fuel mask w :
  no_node ->
  let w' := asked_once w in
  (exists t, w' = set_wa_tape t w)
  /\ (forall all, update_wallet_state fuel mask all w = (Ok false, w'))
  /\ (forall mc, retrieve_summary_info fuel mask true mc w = retrieve_summary_info fuel mask false mc w')
  /\ (forall i u, owner_retrieve_txs fuel mask true i u w = owner_retrieve_txs fuel mask false i u w')
  /\ (forall b i, owner_retrieve_outputs fuel mask b true i w = owner_retrieve_outputs fuel mask b false i w')
  /\ (forall i u, exists e, owner_cancel_tx fuel mask i u w = (Err e, w'))
  /\ (forall args rng, exists e, init_send_tx mask args rng w = (Err e, w')).
Proof.
  intros Hn w'. pose proof (fun all => update_offline fuel mask all w Hn) as Hu. split_and!.
  - apply asked_once_same.
  - done.
  - intros mc. unfold retrieve_summary_info, refreshed_first. by rewrite (ST_bind_run _ _ _ _ _ (Hu false)).
  - intros i u. unfold owner_retrieve_txs, refreshed_first. by rewrite (ST_bind_run _ _ _ _ _ (Hu false)).
  - intros b i. unfold owner_retrieve_outputs, refreshed_first. by rewrite (ST_bind_run _ _ _ _ _ (Hu false)).
  - intros i u. unfold owner_cancel_tx. rewrite (ST_bind_run _ _ _ _ _ (Hu false)). by eexists.
  - intros args rng. destruct (no_tip w Hn) as (e & Ee & _). exists e. unfold init_send_tx.
    assert (exists a, account_or_active (ita_src_acct_name args) w = (Ok a, w)) as [a Ea].
    { unfold account_or_active, get_acct_path. destruct (ita_src_acct_name args); [|by eexists].
      erewrite ST_bind_run by reflexivity. destruct (_ !! _); by eexists. }
    rewrite (ST_bind_run _ _ _ _ _ Ea). apply ST_bind_err. unfold new_tx_slate. by apply ST_bind_err.
Qed.
End offline.

(** ** Payments that expire *)
Section expiry.
Context `{BuildProfile, GC : GrinCrates, !BinCrates, !WalletCrates, !AddressCrates, !HexCrate, !NodeClient,
  !DalekCrates, !ScanCrates, !OwnerCrates, !WalletLaws}.
Implicit Types (w : Wallet) (t : TxLogEntry).

Definition expired (height : Z) t : Prop := exists e, tl_ttl_cutoff_height t = Some e /\ e <= height.
Definition log_entry d (parent : Identifier) (id : Z) : option TxLogEntry :=
  db_tx_log d !! to_key_u64 TX_LOG_ENTRY_PREFIX (id_to_bytes parent) id.
Definition is_cancelled t : Prop := tl_tx_type t = TxSentCancelled \/ tl_tx_type t = TxReceivedCancelled.

Lemma cancellable_cancelled t : cancellable t -> is_cancelled (set_tl_type (cancelled_type (tl_tx_type t)) t).
Proof.
  intros [Ht _]. unfold is_cancelled. rewrite !elem_of_cons in Ht. cbn.
  destruct Ht as [->|[->|[->|[]%elem_of_nil]]]; cbn; auto.
Qed.

Lemma cancel_expired_Ok mask h t w w' :
  cancel_expired mask h t w = (Ok tt, w') ->
  wa_parent_key_id w' = wa_parent_key_id w
  /\ db_init_status (wa_db w') = db_init_status (wa_db w) /\ db_scanned (wa_db w') = db_scanned (wa_db w)
  /\ (expired h t -> exists t', log_entry (wa_db w') (wa_parent_key_id w) (tl_id t) = Some t' /\ is_cancelled t'
        /\ tl_confirmed t' = false)
  /\ (forall parent id t', log_entry (wa_db w) parent id = Some t' -> is_cancelled t' -> tl_confirmed t' = false ->
        exists t2, log_entry (wa_db w') parent id = Some t2 /\ is_cancelled t2 /\ tl_confirmed t2 = false).
Proof.
  intros E. assert (Hh : held w' = held w).
  { assert (Hl : leaves held (cancel_expired mask h t)) by (unfold cancel_expired; leave).
    exact (leaves_Ok _ _ _ _ _ Hl E). }
  unfold held in Hh. injection Hh as _ _ Hp. split; [done|]. unfold cancel_expired in E.
  assert (Hno : ~ expired h t -> w' = w ->
    db_init_status (wa_db w') = db_init_status (wa_db w) /\ db_scanned (wa_db w') = db_scanned (wa_db w)
    /\ (expired h t -> exists t', log_entry (wa_db w') (wa_parent_key_id w) (tl_id t) = Some t' /\ is_cancelled t' /\ tl_confirmed t' = false)
    /\ (forall parent id t', log_entry (wa_db w) parent id = Some t' -> is_cancelled t' -> tl_confirmed t' = false ->
        exists t2, log_entry (wa_db w') parent id = Some t2 /\ is_cancelled t2 /\ tl_confirmed t2 = false)).
  { intros Hx ->. split_and!; [done..|]. intros p i t' Ht Hc Hf. by exists t'. }
  destruct (tl_ttl_cutoff_height t) as [e|] eqn:Ee.
  2:{ apply mretS_Ok in E as [_ ->]. apply Hno; [|done]. by intros (e & E2 & _); rewrite Ee in E2. }
  destruct (Z.leb_spec e h).
  2:{ apply mretS_Ok in E as [_ ->]. apply Hno; [|done]. intros (e' & E2 & Hle). rewrite Ee in E2. injection E2 as <-. lia. }
  clear Hno. apply ST_bind_Ok in E as (p & w1 & E1 & E). apply getS_Ok in E1 as [-> ->].
  apply cancel_tx_log in E as (t0 & Em & Hc & Hlog & Hdb).
  assert (Ht0 : tl_id t0 = tl_id t).
  { assert (Hin : t0 ∈ [t0]) by left. rewrite <- Em in Hin. apply list_elem_of_filter in Hin as [Hf _].
    unfold tx_filter in Hf. rewrite !andb_true_iff in Hf. destruct Hf as [[[_ Hf] _] _]. by apply Z.eqb_eq in Hf. }
  rewrite Ht0 in Hlog. split_and!; [by rewrite Hdb|by rewrite Hdb| |].
  - intros _. unfold log_entry. rewrite Hlog, lookup_insert_eq. eexists. split; [done|]. split; [by apply cancellable_cancelled|].
    by destruct Hc.
  - intros parent id t' Ht' Hc' Hf'. unfold log_entry in *. rewrite Hlog.
    destruct (decide (to_key_u64 TX_LOG_ENTRY_PREFIX (id_to_bytes (wa_parent_key_id w)) (tl_id t)
                      = to_key_u64 TX_LOG_ENTRY_PREFIX (id_to_bytes parent) id)) as [<-|Hne].
    + rewrite lookup_insert_eq. eexists. split; [done|]. split; [by apply cancellable_cancelled|by destruct Hc].
    + rewrite lookup_insert_ne by done. by exists t'.
Qed.

Lemma cancel_all_expired_Ok mask h l w w' :
  foreachS (cancel_expired mask h) l w = (Ok tt, w') ->
  db_init_status (wa_db w') = db_init_status (wa_db w) /\ db_scanned (wa_db w') = db_scanned (wa_db w)
  /\ (forall t, t ∈ l -> expired h t -> exists t', log_entry (wa_db w') (wa_parent_key_id w) (tl_id t) = Some t'
        /\ is_cancelled t' /\ tl_confirmed t' = false)
  /\ (forall parent id t', log_entry (wa_db w) parent id = Some t' -> is_cancelled t' -> tl_confirmed t' = false ->
        exists t2, log_entry (wa_db w') parent id = Some t2 /\ is_cancelled t2 /\ tl_confirmed t2 = false).
Proof.
  revert w. induction l as [|t l IH]; intros w E; cbn [foreachS] in E.
  { apply mretS_Ok in E as [_ ->]. split_and!; [done..|by intros t ?%elem_of_nil|]. intros p i t' Ht Hc Hf. by exists t'. }
  apply ST_bind_Ok in E as ([] & w1 & E1 & E). apply cancel_expired_Ok in E1 as (Hp & I1 & S1 & X1 & K1).
  apply IH in E as (I2 & S2 & X2 & K2). rewrite Hp in X2. split_and!; [congruence..| |].
  - intros q [->|Hq]%elem_of_cons Hx; [|by apply X2]. destruct (X1 Hx) as (t' & Ht & Hc & Hf). by apply (K2 _ _ t').
  - intros parent id t' Ht Hc Hf. destruct (K1 _ _ _ Ht Hc Hf) as (t2 & Ht2 & Hc2 & Hf2). by apply (K2 _ _ t2).
Qed.

Lemma scan_height fuel mask r a b w info w' : scan fuel mask r a b w = (Ok info, w') -> sb_height info = b.
Proof.
  unfold scan. intros E. apply ST_bind_Ok in E as (k & w1 & _ & E). apply ST_bind_Ok in E as (n & w2 & _ & E).
  apply ST_bind_Ok in E as (range & w3 & _ & E). apply ST_bind_Ok in E as ([co last] & w4 & _ & E).
  apply ST_bind_Ok in E as (mine & w5 & _ & E). apply ST_bind_Ok in E as (u6 & w6 & _ & E).
  apply ST_bind_Ok in E as ([f st] & w7 & _ & E). apply ST_bind_Ok in E as (u8 & w8 & _ & E).
  apply ST_bind_Ok in E as (l & w9 & _ & E). apply ST_bind_Ok in E as (o & w10 & _ & E).
  apply ST_bind_Ok in E as (i & w11 & _ & E). by apply mretS_Ok in E as [-> _].
Qed.

(** Looking up the kernels keeps number and limit of every payment. *)
Lemma update_each_ids mask parent h l w b l' w' :
  update_each mask parent h l w = (Ok (b, l'), w') ->
  (fun t => (tl_id t, tl_ttl_cutoff_height t)) <$> l' = (fun t => (tl_id t, tl_ttl_cutoff_height t)) <$> l.
Proof.
  revert w b l' w'. induction l as [|t l IH]; intros w b l' w' E; cbn [update_each] in E.
  { by apply mretS_Ok in E as [[= -> ->] _]. }
  apply ST_bind_Ok in E as (r & w1 & E1 & E). destruct r as [t1|]; [|by apply mretS_Ok in E as [[= -> ->] _]].
  apply ST_bind_Ok in E as ([b2 l2] & w2 & E2 & E). apply mretS_Ok in E as [[= -> ->] ->]. apply IH in E2. cbn. rewrite E2.
  f_equal. unfold update_tx_via_kernel in E1.
  destruct (tl_confirmed t); [by apply mretS_Ok in E1 as [[= ->] _]|].
  destruct (negb _ && negb _); [by apply mretS_Ok in E1 as [[= ->] _]|].
  destruct (tl_kernel_excess t); [|by apply mretS_Ok in E1 as [[= ->] _]].
  apply ST_bind_Ok in E1 as (n & w3 & _ & E1). apply ST_bind_Ok in E1 as ([[k|]|e] & w4 & _ & E1); [| |done].
  2: by apply mretS_Ok in E1 as [[= ->] _].
  apply ST_bind_Ok in E1 as (t2 & w5 & E5 & E1). apply mretS_Ok in E1 as [[= ->] _].
  apply with_batch_Ok in E5 as (k5 & w6 & _ & E5 & _). apply ST_bind_Ok in E5 as (now & w7 & _ & E5).
  apply ST_bind_Ok in E5 as (u8 & w8 & _ & E5). apply ST_bind_Ok in E5 as (u9 & w9 & _ & E5).
  by apply mretS_Ok in E5 as [-> _].
Qed.

(** C23: Bringing the wallet up to date, as a whole.  When it says that it succeeded,
    the outputs were refreshed; then the chain was scanned from a hundred blocks before the
    last scan up to the tip the node named, and the scan came to its end there ([scan_repairs] says what that
    does to the wallet); the wallet counts as initialised, and as scanned up to this tip; and every payment of the active
    account that was outstanding after the outputs were refreshed and whose time limit the tip
    has reached is cancelled, and not confirmed.  The payments of other accounts are not looked at. *)
Theorem refresh_cancels_expired fuel mask all w w' :
  update_wallet_state fuel mask all w = (Ok true, w') ->
  let parent := wa_parent_key_id w in
  exists w1 n tip, refresh_outputs mask parent all w = (Ok tt, w1) /\ nc_get_chain_tip n = Ok tip
  /\ db_init_status (wa_db w') !! to_key WALLET_INIT_STATUS WALLET_INIT_STATUS_KEY = Some InitComplete
  /\ (exists w2 last w3 info, scanned_before tip w2 = (Ok last, w2)
        /\ scan fuel mask false (saturating_sub (sb_height last) 100) tip.1 w2 = (Ok info, w3)
        /\ db_scanned (wa_db w') !! to_key LAST_SCANNED_BLOCK LAST_SCANNED_KEY = Some (set_sb_hash tip.2 info)
        /\ sb_height info = tip.1)
  /\ (forall t, t ∈ db_iter (db_tx_log (wa_db w1)) -> tl_parent_key_id t = parent -> is_outstanding t = true ->
        expired tip.1 t ->
        exists t', log_entry (wa_db w') parent (tl_id t) = Some t' /\ is_cancelled t' /\ tl_confirmed t' = false).
Proof.
  intros E parent. unfold update_wallet_state in E. apply ST_bind_Ok in E as (p & w0 & E0 & E). apply getS_Ok in E0 as [-> ->].
  fold parent in E. apply ST_bind_Ok in E as ([] & w1 & E1 & E); [|by apply mretS_Ok in E as [[=] _]]. cbn [negb] in E.
  unfold update_outputs in E1. apply ST_bind_Ok in E1 as (p & w0 & E0 & E1). apply getS_Ok in E0 as [-> ->].
  fold parent in E1. apply ST_bind_Ok in E1 as ([[]|e] & w0 & E0 & E1); [|case_bool_decide; [done|by apply mretS_Ok in E1 as [[=] _]]].
  apply mretS_Ok in E1 as [_ <-]. apply (proj1 (attemptS_inl _ _ _ _)) in E0.
  pose proof (leaves_Ok _ _ _ _ _ (held_refresh mask parent all) E0) as H1'.
  apply ST_bind_Ok in E as (txs & w2 & E2 & E).
  unfold retrieve_txs in E2. apply ST_bind_Ok in E2 as (es & w3 & E3 & E2). apply getS_Ok in E3 as [-> ->].
  apply mretS_Ok in E2 as [Etxs ->]. apply ST_bind_Ok in E as ([b txs'] & w4 & E4 & E).
  assert (Hids : b = true -> (fun t => (tl_id t, tl_ttl_cutoff_height t)) <$> txs' = (fun t => (tl_id t, tl_ttl_cutoff_height t)) <$> txs).
  { unfold update_txs_via_kernel in E4. apply ST_bind_Ok in E4 as (p & w5 & E5 & E4). apply getS_Ok in E5 as [-> ->].
    apply ST_bind_Ok in E4 as ([tip|e] & w6 & _ & E4); [|by apply mretS_Ok in E4 as [[= -> ->] _]].
    intros _. by eapply update_each_ids. }
  assert (H4' : held w4 = held w1).
  { assert (Hl : leaves held (update_txs_via_kernel mask txs)) by (unfold update_txs_via_kernel, get_chain_tip; leave; apply held_update_each).
    exact (leaves_Ok _ _ _ _ _ Hl E4). }
  destruct b; [|by apply mretS_Ok in E as [[=] _]]. cbn [negb] in E. specialize (Hids eq_refl).
  apply ST_bind_Ok in E as ([tip|e] & w5 & E5 & E); [|by apply mretS_Ok in E as [[=] _]].
  apply (proj1 (attemptS_inl _ _ _ _)) in E5. unfold get_chain_tip in E5. apply ST_bind_Ok in E5 as (n & w6 & E6 & E5).
  apply liftS_Ok in E5 as [Etip ->]. pose proof (leaves_Ok _ _ _ _ _ (held_drawn draw) E6) as H6'.
  apply ST_bind_Ok in E as (last & w7 & E7 & E).
  assert (w7 = w6) as ->.
  { unfold scanned_before, init_status, last_scanned_block in E7. apply ST_bind_Ok in E7 as (st & w8 & E8 & E7).
    apply getS_Ok in E8 as [-> ->]. destruct (default _ _); st_inv; done. }
  apply ST_bind_Ok in E as (info & w8 & E8 & E). pose proof (scan_height _ _ _ _ _ _ _ _ E8) as Hheight.
  pose proof (leaves_Ok _ _ _ _ _ (held_scan _ _ _ _ _) E8) as H8'.
  apply ST_bind_Ok in E as (u9 & w9 & E9 & E).
  assert (H9' : held w9 = held w8).
  { refine (leaves_Ok _ _ _ _ _ (held_with_batch mask _ _) E9). unfold save_last_scanned_block, save_init_status. leave. }
  assert (D9 : db_init_status (wa_db w9) !! to_key WALLET_INIT_STATUS WALLET_INIT_STATUS_KEY = Some InitComplete
    /\ db_scanned (wa_db w9) !! to_key LAST_SCANNED_BLOCK LAST_SCANNED_KEY = Some (set_sb_hash tip.2 info)).
  { apply with_batch_Ok in E9 as (k & w10 & _ & E9 & ->). apply ST_bind_Ok in E9 as (u1 & w11 & E10 & E9).
    apply batch_update_Ok in E10 as (_ & _ & P10 & _). apply ST_bind_Ok in E9 as (u2 & w12 & E11 & E9).
    apply batch_update_Ok in E11 as (_ & _ & P11 & _). apply commit_Ok in E9 as (_ & D & _).
    cbn. rewrite D, P11, P10. cbn. by rewrite !lookup_insert_eq. }
  apply ST_bind_Ok in E as ([] & w10 & E10 & E). apply mretS_Ok in E as [_ ->].
  apply cancel_all_expired_Ok in E10 as (I10 & S10 & X10 & _).
  assert (Hpar : wa_parent_key_id w9 = parent) by (unfold held in *; unfold parent; congruence).
  destruct D9 as [DI DS]. exists w1, n, tip. split_and!; [done|done|by rewrite I10|exists w6, last, w8, info; by rewrite S10|].
  intros t Ht Hp Ho (e & Et & Hle). assert (Hin : t ∈ txs).
  { rewrite Etxs, sort_by_key_perm. apply list_elem_of_filter. split; [|done]. unfold tx_filter.
    by rewrite bool_decide_eq_true_2, Ho. }
  apply (list_elem_of_fmap_2 (fun t => (tl_id t, tl_ttl_cutoff_height t))) in Hin. rewrite <- Hids in Hin.
  apply list_elem_of_fmap in Hin as (t' & [= Ei El] & Hin). rewrite Ei, <- Hpar. apply X10; [done|].
  exists e. by rewrite <- El.
Qed.
End expiry.
