(* ===== verification/Invariant.v ===== *)
(** * The well-formed wallet

    What holds of the data base of a wallet between any two calls of its interfaces,
    whatever they are asked, what the node answers and however they end: outputs,
    log entries and accounts lie under the keys that their own fields make, the numbers of an
    account's entries lie below its counter, counters only grow and no entry of
    the log is ever lost. *)
From S2P Require Import Prelude.
From S2P Require Import RustStd.
From S2P Require Import Crates.
From S2P Require Import Effects.
From S2P Require Import Slate.
From S2P Require Import SlateV4.
From S2P Require Import SlateBin.
From S2P Require Import StateM.
From S2P Require Import Wallet.
From S2P Require Import Address.
From S2P Require Import Selection.
From S2P Require Import Updater.
From S2P Require Import WalletTx.
From S2P Require Import Slatepack.
From S2P Require Import Armor.
From S2P Require Import Scan.
From S2P Require Import Owner.
From S2P Require Import Packer.
From S2P Require Import Foreign.
From S2P Require Import Frames.
From S2P Require Import Api.
#[local] Open Scope Z_scope.

(** ** Well-formed *)
Section wf.
Context `{BuildProfile, GC : GrinCrates, !BinCrates, !WalletCrates}.
Implicit Types (w : Wallet) (d : Db) (t : TxLogEntry).

(** A counter that was never written is 0. *)
Definition count (m : gmap string Z) (k : string) : Z := default 0 (m !! k).

(** The number of an entry was given out by the counter of its account. *)
Definition known d t : Prop :=
  0 <= tl_id t < u32_modulus /\ (overflow_checks = true -> tl_id t < next_log_id d (tl_parent_key_id t)).

Record wf d : Prop := {
  wf_outputs : keyed d;
  wf_accounts : map_Forall (fun k a => k = to_key ACCOUNT_PATH_MAPPING_PREFIX (ap_label a)) (db_accounts d);
  wf_log : map_Forall (fun k t => k = entry_key t /\ known d t) (db_tx_log d);
  wf_counts : map_Forall (fun _ n => 0 <= n < u32_modulus) (db_tx_log_ids d);
}.

(** Counters only grow, unless they may wrap around; entries stay. *)
Record grows d d' : Prop := {
  grows_logs : overflow_checks = true -> forall k, count (db_tx_log_ids d) k <= count (db_tx_log_ids d') k;
  grows_keys : overflow_checks = true -> forall k, count (db_child_index d) k <= count (db_child_index d') k;
  grows_entries : forall k, is_Some (db_tx_log d !! k) -> is_Some (db_tx_log d' !! k);
}.
#[export] Instance grows_preorder : PreOrder grows.
Proof.
  split; [by split|]. intros d1 d2 d3 [L1 K1 E1] [L2 K2 E2]. split.
  - intros Ho k. specialize (L1 Ho k). specialize (L2 Ho k). lia.
  - intros Ho k. specialize (K1 Ho k). specialize (K2 Ho k). lia.
  - auto.
Qed.

Lemma known_grows d d' t : known d t -> grows d d' -> known d' t.
Proof.
  intros [Hr Hk] Hg. split; [done|]. intros Ho. specialize (Hk Ho). pose proof (grows_logs _ _ Hg Ho) as Hl.
  specialize (Hl (to_key TX_LOG_ID_PREFIX (id_to_bytes (tl_parent_key_id t)))). unfold next_log_id, count in *. lia.
Qed.

(** Changes that concern neither the log nor its counters. *)
Lemma wf_but_log d d' :
  wf d -> db_tx_log d' = db_tx_log d -> db_tx_log_ids d' = db_tx_log_ids d -> keyed d' ->
  map_Forall (fun k a => k = to_key ACCOUNT_PATH_MAPPING_PREFIX (ap_label a)) (db_accounts d') -> wf d'.
Proof. intros [O A L C] EL EC HO HA. split; [done..| |by rewrite EC]. rewrite EL. unfold known, next_log_id. by rewrite EC. Qed.
Lemma grows_same d d' :
  db_tx_log d' = db_tx_log d -> db_tx_log_ids d' = db_tx_log_ids d -> db_child_index d' = db_child_index d -> grows d d'.
Proof. intros EL EC EI. by split; rewrite ?EL, ?EC, ?EI. Qed.

(** [safe f]: a change of the data base that keeps it well-formed. *)
Definition safe (f : Db -> Db) d : Prop := wf (f d) /\ grows d (f d).
Lemma safe_outputs f d :
  wf d -> keyed (set_db_outputs (f (db_outputs d)) d) -> safe (fun d => set_db_outputs (f (db_outputs d)) d) d.
Proof. intros Hw Hk. split; [|by apply grows_same]. eapply wf_but_log; [done..|]. apply Hw. Qed.
Lemma safe_save o d : wf d -> safe (fun d => set_db_outputs (<[output_key (od_key_id o) (od_mmr_index o) := o]> (db_outputs d)) d) d.
Proof. intros Hw. apply (safe_outputs (fun m => <[_ := o]> m)); [done|]. apply keyed_save, Hw. Qed.
Lemma safe_delete i m d : wf d -> safe (fun d => set_db_outputs (delete (output_key i m) (db_outputs d)) d) d.
Proof. intros Hw. apply (safe_outputs (delete _)); [done|]. apply keyed_delete, Hw. Qed.
Lemma safe_account a d :
  wf d -> safe (fun d => set_db_accounts (<[to_key ACCOUNT_PATH_MAPPING_PREFIX (ap_label a) := a]> (db_accounts d)) d) d.
Proof.
  intros Hw. split; [|by apply grows_same]. eapply wf_but_log; [done..|apply Hw|]. apply map_Forall_insert_2; [done|apply Hw].
Qed.
Lemma safe_child i n d :
  wf d -> (overflow_checks = true -> count (db_child_index d) (to_key DERIV_PREFIX (id_to_bytes i)) <= n) ->
  safe (fun d => set_db_child_index (<[to_key DERIV_PREFIX (id_to_bytes i) := n]> (db_child_index d)) d) d.
Proof.
  intros Hw Hn. split; [eapply wf_but_log; [done..|apply Hw|apply Hw]|]. split; [done| |done]. intros Ho k. cbn.
  unfold count in *. destruct (decide (to_key DERIV_PREFIX (id_to_bytes i) = k)) as [<-|].
  - rewrite lookup_insert_eq. by apply Hn.
  - by rewrite lookup_insert_ne.
Qed.
Lemma safe_entry t d :
  wf d -> known d t -> safe (fun d => set_db_tx_log (<[entry_key t := t]> (db_tx_log d)) d) d.
Proof.
  intros Hw Hk. split.
  - split; [apply Hw..| |apply Hw]. cbn. apply map_Forall_insert_2; [done|]. apply Hw.
  - split; [done..|]. intros k [t' Ht]. cbn. destruct (decide (entry_key t = k)) as [<-|].
    + rewrite lookup_insert_eq. by eexists.
    + rewrite lookup_insert_ne by done. by eexists.
Qed.
(** A number is given out. *)
Lemma u32_add_range a n : u32_add a 1 = Ok n -> 0 <= n < u32_modulus /\ (overflow_checks = true -> n = a + 1).
Proof.
  unfold u32_add, uint_result. intros E. destruct (_ && _) eqn:Eb.
  - injection E as <-. apply andb_true_iff in Eb as [?%Z.leb_le ?%Z.ltb_lt]. done.
  - destruct overflow_checks; [done|]. injection E as <-. split; [|done]. apply Z.mod_pos_bound. by vm_compute.
Qed.
Lemma safe_log_id i n d :
  wf d -> u32_add (next_log_id d i) 1 = Ok n ->
  safe (fun d => set_db_tx_log_ids (<[to_key TX_LOG_ID_PREFIX (id_to_bytes i) := n]> (db_tx_log_ids d)) d) d.
Proof.
  intros Hw [Hr Hn]%u32_add_range.
  assert (Hg : grows d (set_db_tx_log_ids (<[to_key TX_LOG_ID_PREFIX (id_to_bytes i) := n]> (db_tx_log_ids d)) d)).
  { split; [|done..]. intros Ho k. specialize (Hn Ho). unfold next_log_id, count in *. cbn.
    destruct (decide (to_key TX_LOG_ID_PREFIX (id_to_bytes i) = k)) as [<-|].
    - rewrite lookup_insert_eq. cbn. lia.
    - by rewrite lookup_insert_ne. }
  split; [|done]. split; [apply Hw..| |].
  - intros k t Ht. destruct (wf_log d Hw _ _ Ht) as [E Hk]. split; [done|]. by eapply known_grows.
  - cbn. apply map_Forall_insert_2; [done|apply Hw].
Qed.
Lemma next_log_id_range d i : wf d -> 0 <= next_log_id d i < u32_modulus.
Proof.
  intros Hw. unfold next_log_id. destruct (_ !! _) as [n|] eqn:E; cbn; [by apply (wf_counts d Hw _ _ E)|by vm_compute].
Qed.
End wf.

(** ** Between calls, and in a batch *)
Section rules.
Context `{BuildProfile, GC : GrinCrates, !BinCrates, !WalletCrates, !HexCrate}.
Implicit Types (w : Wallet) (d b : Db) (t : TxLogEntry) (p : Identifier).

(** The account is [p], the data base is well-formed and no less than [d0]; the batch
    that is open no less than the data base and than [d1]. *)
Definition within d0 d1 p w : Prop :=
  wa_parent_key_id w = p /\ wf (wa_db w) /\ grows d0 (wa_db w)
  /\ match wa_batch w with Some (b, _) => wf b /\ grows (wa_db w) b /\ grows d1 b | None => True end.
(** Between two calls no batch is open. *)
Definition good d0 p w : Prop :=
  wa_parent_key_id w = p /\ wf (wa_db w) /\ grows d0 (wa_db w) /\ wa_batch w = None.

Lemma good_trans d0 d1 p w : grows d0 d1 -> good d1 p w -> good d0 p w.
Proof. intros Hg (Hp & Hw & Hd & Hb). split_and!; [done..|by etrans|done]. Qed.
Lemma within_trans d0 d1 d2 p w : grows d1 d2 -> within d0 d2 p w -> within d0 d1 p w.
Proof.
  intros Hg (Hp & Hw & Hd & Hb). split_and!; [done..|]. destruct (wa_batch w) as [[b k]|]; [|done].
  destruct Hb as (? & ? & ?). split_and!; [done..|by etrans].
Qed.

Lemma invar_same {A} (I : Wallet -> Prop) (m : W A) : leaves (fun w => w) m -> invar I m.
Proof. intros Hm w Hw. by rewrite Hm. Qed.
Lemma invar_known {A B} (I : Wallet -> Prop) (r : Res A) (k : A -> W B) :
  (forall a, r = Ok a -> invar I (k a)) -> invar I (liftS r ≫= k).
Proof. intros Hk. apply invar_bind_Ok; [apply invar_lift|]. intros w a w' Hw [E ->]%liftS_Ok. by apply Hk. Qed.
Lemma invar_post {A B} (I : Wallet -> Prop) (P : A -> Prop) (m : W A) (k : A -> W B) :
  invar I m -> (forall w a w', m w = (Ok a, w') -> P a) -> (forall a, P a -> invar I (k a)) -> invar I (m ≫= k).
Proof.
  intros Hm HP Hk. apply invar_bind_Ok; [done|]. intros w a w' Hw E. apply Hk; [by eapply HP|]. specialize (Hm w Hw).
  by rewrite E in Hm.
Qed.
Lemma invar_assoc {A B C} (I : Wallet -> Prop) (m : W A) (k : A -> W B) (k' : B -> W C) :
  invar I (m ≫= fun a => k a ≫= k') -> invar I ((m ≫= k) ≫= k').
Proof. intros Hm w Hw. specialize (Hm w Hw). unfold mbind, ST_bind in *. by destruct (m w) as [[a|e|e] w']. Qed.
Lemma invar_mret {A B} (I : Wallet -> Prop) (a : A) (k : A -> W B) : invar I (k a) -> invar I (mret a ≫= k).
Proof. done. Qed.
Lemma good_drawn d p {A} (m : M A) : invar (good d p) (drawn m).
Proof. intros w Hw. unfold drawn. by destruct (m (wa_tape w)). Qed.
Lemma within_drawn d d1 p {A} (m : M A) : invar (within d d1 p) (drawn m).
Proof. intros w Hw. unfold drawn. by destruct (m (wa_tape w)). Qed.
Lemma invar_keychain I mask : invar I (keychain mask).
Proof. apply invar_same, leaves_keychain. Qed.
Lemma invar_calc_commit I mask a i : invar I (calc_commit_for_cache mask a i).
Proof. apply invar_same, leaves_calc_commit. Qed.

(** *** In a batch *)
Lemma within_update d0 d1 p f :
  (forall d, wf d -> grows d1 d -> safe f d) -> invar (within d0 d1 p) (batch_update f).
Proof.
  intros Hf w (Hp & Hw & Hd & Hb). unfold batch_update.
  destruct (wa_batch w) as [[b k]|] eqn:Eb.
  - destruct Hb as (Hwb & Hg & Hb1). destruct (Hf b Hwb Hb1) as [Hwf Hgf]. unfold mbind, ST_bind, getS, liftS, modifyS.
    rewrite Eb. cbn. split_and!; [done..|]. cbn. split_and!; [done|by etrans|by etrans].
  - unfold mbind, ST_bind, getS, liftS, modifyS. rewrite Eb. cbn. split_and!; [done..|]. by rewrite Eb.
Qed.
Lemma within_commit d0 d1 p : invar (within d0 d1 p) commit.
Proof.
  intros w (Hp & Hw & Hd & Hb). unfold commit, mbind, ST_bind, getS, liftS, modifyS.
  destruct (wa_batch w) as [[b k]|] eqn:Eb; cbn.
  - destruct Hb as (Hwb & Hg & _). split_and!; [done..|by etrans|done].
  - split_and!; [done..|]. by rewrite Eb.
Qed.
(** A batch in which everything is safe, whether it is committed or not. *)
Lemma good_batch d p {A} mask (body : W A) : invar (within d d p) body -> invar (good d p) (with_batch mask body).
Proof.
  intros Hm w (Hp & Hw & Hd & Hb). unfold with_batch, finallyS, open_batch.
  destruct (keychain mask w) as [[k|e|e] w1] eqn:Ek.
  - pose proof (keychain_Ok _ _ _ _ Ek) as ->. rewrite (ST_bind_run _ _ _ _ _ Ek). erewrite ST_bind_run by reflexivity.
    specialize (Hm (set_wa_batch (Some (wa_db w, Some k)) w)). destruct (body _) as [r w2]. cbn in *.
    destruct Hm as (Hp2 & Hw2 & Hd2 & _); [|done]. split_and!; done.
  - pose proof (leaves_keychain (fun w0 => w0) mask w) as El. rewrite Ek in El. cbn in El. subst w1.
    unfold mbind, ST_bind. by rewrite Ek.
  - pose proof (leaves_keychain (fun w0 => w0) mask w) as El. rewrite Ek in El. cbn in El. subst w1.
    unfold mbind, ST_bind. by rewrite Ek.
Qed.

(** A number that was given out in the batch. *)
Definition given d p (n : Z) : Prop := 0 <= n < u32_modulus /\ (overflow_checks = true -> n < next_log_id d p).
Lemma known_given d t : given d (tl_parent_key_id t) (tl_id t) -> known d t.
Proof. done. Qed.
Lemma within_next_log_id d0 d1 p i {A} (k : Z -> W A) :
  (forall n d2, grows d1 d2 -> given d2 i n -> invar (within d0 d2 p) (k n)) ->
  invar (within d0 d1 p) (next_tx_log_id i ≫= k).
Proof.
  intros Hk w Hin. pose proof Hin as (Hp & Hw & Hd & Hb). unfold next_tx_log_id, batch_db, batch_update.
  unfold mbind, ST_bind, getS, liftS, modifyS, mret, ST_ret. destruct (wa_batch w) as [[b kc]|] eqn:Eb; cbn; [|done].
  destruct Hb as (Hwb & Hg & Hb1). change (default 0 _) with (next_log_id b i).
  destruct (u32_add (next_log_id b i) 1) as [n|e|e] eqn:En; [|done..].
  pose proof (safe_log_id i n b Hwb En) as [Hws Hgs]. set (b' := set_db_tx_log_ids _ b) in *.
  eapply (within_trans d0 d1 b'); [by etrans|]. apply Hk; [by etrans|..].
  - split; [by apply next_log_id_range|]. intros Ho. apply u32_add_range in En as [_ En]. specialize (En Ho).
    unfold b', next_log_id in *. cbn. rewrite lookup_insert_eq. cbn. lia.
  - split_and!; [done..|]. cbn. split_and!; [done| |done]. by etrans.
Qed.
Lemma within_entries d0 d1 p {A} (k : list TxLogEntry -> W A) :
  (forall l d2, grows d1 d2 -> (forall t, t ∈ l -> known d2 t) -> invar (within d0 d2 p) (k l)) ->
  invar (within d0 d1 p) (batch_tx_log_iter ≫= k).
Proof.
  intros Hk w Hin. pose proof Hin as (Hp & Hw & Hd & Hb). unfold batch_tx_log_iter, iter_db, batch_db.
  unfold mbind, ST_bind, getS, liftS, mret, ST_ret. destruct (wa_batch w) as [[b kc]|] eqn:Eb; cbn; [|done].
  destruct Hb as (Hwb & Hg & Hb1). apply (within_trans _ _ b); [done|]. apply Hk; [done|..].
  - intros t [key Ht]%elem_of_db_iter. destruct batch_iter_sees_writes.
    + by apply (wf_log _ Hwb) in Ht as [_ Ht].
    + apply (wf_log _ Hw) in Ht as [_ Ht]. by eapply known_grows.
  - split_and!; [done..|]. by rewrite Eb.
Qed.

Lemma within_save d0 d1 p o : invar (within d0 d1 p) (save o).
Proof. apply within_update. intros d Hd _. by apply safe_save. Qed.
Lemma within_delete d0 d1 p i m : invar (within d0 d1 p) (batch_delete i m).
Proof. apply within_update. intros d Hd _. by apply safe_delete. Qed.
Lemma within_account d0 d1 p a : invar (within d0 d1 p) (save_acct_path a).
Proof. apply within_update. intros d Hd _. by apply safe_account. Qed.
Lemma within_height d0 d1 p i h : invar (within d0 d1 p) (save_last_confirmed_height i h).
Proof. apply within_update. intros d Hd _. split; [|by apply grows_same]. eapply wf_but_log; [done..|apply Hd|apply Hd]. Qed.
Lemma within_scanned d0 d1 p x : invar (within d0 d1 p) (save_last_scanned_block x).
Proof. apply within_update. intros d Hd _. split; [|by apply grows_same]. eapply wf_but_log; [done..|apply Hd|apply Hd]. Qed.
Lemma within_status d0 d1 p x : invar (within d0 d1 p) (save_init_status x).
Proof. apply within_update. intros d Hd _. split; [|by apply grows_same]. eapply wf_but_log; [done..|apply Hd|apply Hd]. Qed.
Lemma within_delete_context d0 d1 p s : invar (within d0 d1 p) (delete_private_context s).
Proof.
  unfold delete_private_context. apply invar_bind; [apply invar_bind; [apply invar_get|intros b; apply invar_lift]|].
  intros d. case_match; [|apply invar_lift].
  apply within_update. intros d' Hd _. split; [|by apply grows_same]. eapply wf_but_log; [done..|apply Hd|apply Hd].
Qed.
Lemma within_save_context d0 d1 p s c : invar (within d0 d1 p) (save_private_context s c).
Proof.
  unfold save_private_context, batch_keychain. apply invar_bind; [|intros k; apply invar_bind; [apply invar_lift|]; intros keys].
  { apply invar_bind; [apply invar_get|]. intros b. apply invar_lift. }
  apply within_update. intros d Hd _. split; [|by apply grows_same]. eapply wf_but_log; [done..|apply Hd|apply Hd].
Qed.
(** An entry is saved under its own account. *)
Lemma within_entry d0 d1 p t i : tl_parent_key_id t = i -> known d1 t -> invar (within d0 d1 p) (save_tx_log_entry t i).
Proof.
  intros <- Hk. apply within_update. intros d Hd Hg. apply safe_entry; [done|]. by eapply known_grows.
Qed.

(** *** Between calls *)
Lemma good_account d p {A} (k : Identifier -> W A) :
  invar (good d p) (k p) -> invar (good d p) (parent_key_id ≫= k).
Proof. intros Hk w Hw. pose proof Hw as (Hp & _). unfold parent_key_id. erewrite ST_bind_run by reflexivity. rewrite Hp. by apply Hk. Qed.
Lemma good_retrieve d p a u q o {A} (k : list TxLogEntry -> W A) :
  (forall l d2, grows d d2 -> (forall t, t ∈ l -> known d2 t /\ tx_filter a u q o t = true) -> invar (good d2 p) (k l)) ->
  invar (good d p) (retrieve_txs a u q o ≫= k).
Proof.
  intros Hk w (Hp & Hw & Hd & Hb). unfold retrieve_txs, tx_log_iter. erewrite ST_bind_run by reflexivity.
  apply (good_trans _ (wa_db w)); [done|]. apply Hk; [done| |split_and!; done].
  intros t Ht. rewrite sort_by_key_perm in Ht. apply list_elem_of_filter in Ht as [Hf [key Ht]%elem_of_db_iter]. split; [|done].
  by apply (wf_log _ Hw) in Ht as [_ Ht].
Qed.
Lemma filter_parent a u q o t : tx_filter a u (Some q) o t = true -> tl_parent_key_id t = q.
Proof. unfold tx_filter. rewrite !andb_true_iff. intros [[[E _] _] _]. by apply bool_decide_eq_true_1 in E. Qed.
(** One change in a batch of its own. *)
Lemma good_update d p mask f w :
  good d p w -> safe f (wa_db w) -> good d p (with_batch mask (_ ← batch_update f; commit) w).2.
Proof.
  intros (Hp & Hw & Hd & Hb) [Hwf Hg]. unfold with_batch, finallyS, open_batch.
  destruct (keychain mask w) as [[k|e|e] w1] eqn:Ek.
  2, 3: pose proof (leaves_keychain (fun w0 => w0) mask w) as El; rewrite Ek in El; cbn in El; subst w1;
        unfold mbind, ST_bind; rewrite Ek; by split_and!.
  pose proof (keychain_Ok _ _ _ _ Ek) as ->. rewrite (ST_bind_run _ _ _ _ _ Ek). cbn. split_and!; [done..|by etrans|done].
Qed.
End rules.

#[export] Hint Resolve good_drawn within_drawn invar_keychain invar_calc_commit within_commit within_save within_delete
  within_account within_height within_scanned within_status within_delete_context within_save_context : keeps.
#[export] Hint Unfold lock_output utc_now get_chain_tip wallet_iter wallet_get tx_log_iter acct_path_iter get_acct_path
  current_child_index last_confirmed_height last_scanned_block init_status batch_get batch_db : keeps.
(** [kept] also opens batches and looks at who is active. *)
Ltac kept_step :=
  match goal with
  | |- invar _ (with_batch _ _) => apply good_batch
  | |- invar _ (mbind _ (mret _)) => apply invar_mret; lazy beta iota
  | |- invar _ (mbind _ parent_key_id) => apply good_account; lazy beta
  | |- invar (within _ _ _) (mbind _ (next_tx_log_id _)) => apply within_next_log_id; intros ? ? ? ?
  end.
Ltac kept := autounfold with keeps; repeat first [progress cbv zeta | solve [auto with keeps nocore] | kept_step | keep_step].

(** ** Method by method *)
Section methods.
Context `{BuildProfile, GC : GrinCrates, !BinCrates, !WalletCrates, !AddressCrates, !HexCrate, !NodeClient,
  !DalekCrates, !ScanCrates, !OwnerCrates}.
Implicit Types (w : Wallet) (d : Db) (t : TxLogEntry) (p : Identifier).

Lemma good_next_child d p mask : invar (good d p) (next_child mask).
Proof.
  unfold next_child. apply good_account. intros w Hw. unfold current_child_index. erewrite ST_bind_run by reflexivity.
  destruct (child_path _ _) as [path|e|e]; [|done..]. erewrite ST_bind_run by reflexivity.
  destruct (u32_add _ 1) as [n|e|e] eqn:En; [|done..]. erewrite ST_bind_run by reflexivity.
  apply u32_add_range in En as [_ Hn].
  assert (Hu : good d p (with_batch mask (_ ← save_child_index p n; commit) w).2).
  { apply good_update; [done|]. apply safe_child; [apply Hw|]. intros Ho. specialize (Hn Ho). unfold count. lia. }
  unfold mbind at 1, ST_bind at 1. by destruct (with_batch mask _ w) as [[]].
Qed.
Hint Resolve good_next_child : keeps.
Lemma good_get_context d p mask s : invar (good d p) (get_private_context mask s).
Proof. unfold get_private_context. kept. Qed.
Lemma good_context_new d p i r b : invar (good d p) (Context_new i r b).
Proof. unfold Context_new, Context_with_excess. kept. Qed.
Lemma good_account_or_active d p n : invar (good d p) (account_or_active n).
Proof. unfold account_or_active. kept; apply invar_get. Qed.
Lemma good_store_tx d p u tx : invar (good d p) (store_tx u tx).
Proof. unfold store_tx, put_file. kept; by first [apply invar_get|apply invar_modify]. Qed.
Hint Resolve good_get_context good_context_new good_account_or_active good_store_tx : keeps.

(** *** The updater *)
Lemma good_retrieve_outputs d p mask s i q : invar (good d p) (retrieve_outputs mask s i q).
Proof. unfold retrieve_outputs. kept. Qed.
Lemma good_retrieve_txs d p a u q o : invar (good d p) (retrieve_txs a u q o).
Proof. unfold retrieve_txs. kept. Qed.
Hint Resolve good_retrieve_outputs good_retrieve_txs : keeps.
Lemma within_log_coinbase d0 d1 p c q h o : invar (within d0 d1 p) (log_coinbase c q h o).
Proof. unfold log_coinbase. kept. by apply within_entry. Qed.
(** An entry that is there is written again, changed. *)
Lemma within_again d0 d1 p t t' i :
  known d1 t -> tl_id t' = tl_id t -> tl_parent_key_id t' = tl_parent_key_id t -> tl_parent_key_id t = i ->
  invar (within d0 d1 p) (save_tx_log_entry t' i).
Proof. intros Hk Ei Ep <-. apply within_entry; [done|]. unfold known in *. by rewrite Ei, Ep. Qed.
Lemma within_confirm d0 d1 p q o : invar (within d0 d1 p) (confirm_tx q o).
Proof.
  unfold confirm_tx. apply within_entries. intros l d2 Hg Hl. destruct (find _ l) as [t|] eqn:Ef; [|kept].
  apply find_some in Ef as [Hin%list_elem_of_In Hf]. apply andb_true_iff in Hf as [_ Hq%bool_decide_eq_true_1].
  kept; eapply (within_again _ _ _ t); [by apply Hl|by case_bool_decide..|done].
Qed.
Hint Resolve within_log_coinbase within_confirm : keeps.
Lemma within_apply_output d0 d1 p api r h q x : invar (within d0 d1 p) (apply_output api r h q x).
Proof. unfold apply_output. destruct x as [c [[[i m] ?] ?]]. kept. Qed.
Lemma within_revert d0 d1 p r q t : known d1 t -> invar (within d0 d1 p) (revert_tx r q t).
Proof.
  intros Hk. unfold revert_tx. destruct (_ && _) eqn:E; [|kept]. apply andb_true_iff in E as [_ Hq%bool_decide_eq_true_1].
  kept; by eapply (within_again _ _ _ t).
Qed.
Hint Resolve within_apply_output : keeps.
Lemma good_apply d p mask o api r h q : invar (good d p) (apply_api_outputs mask o api r h q).
Proof.
  unfold apply_api_outputs. apply invar_bind; [kept|intros last]. destruct (h <? last); [kept|].
  apply good_batch, invar_bind; [kept|intros []]. apply within_entries. intros l d2 Hg Hl.
  apply invar_bind; [|intros []; kept].
  apply invar_foreach_in. intros t Ht. by apply within_revert, Hl.
Qed.
Hint Resolve good_apply : keeps.
Lemma good_refresh d p mask q u : invar (good d p) (refresh_outputs mask q u).
Proof.
  unfold refresh_outputs, refresh_output_state, map_wallet_outputs, find_reverted_kernels, clean_old_unconfirmed. kept.
Qed.
Hint Resolve good_refresh : keeps.
Lemma good_cancel_tx d p mask q a u : invar (good d p) (cancel_tx mask q a u).
Proof.
  unfold cancel_tx. apply good_retrieve. intros l d2 Hg Hl. destruct l as [|t [|]]; [kept| |kept].
  destruct (Hl t) as [Hk Hf%filter_parent]; [by left|].
  kept. unfold cancel_tx_and_outputs, cancel_output. kept. by eapply (within_again _ _ _ t).
Qed.
Hint Resolve good_cancel_tx : keeps.

(** *** Payments *)
Lemma good_select_coins d p a h c n b q : invar (good d p) (select_coins a h c n b q).
Proof. unfold select_coins. kept. Qed.
Hint Resolve good_select_coins : keeps.
Lemma good_grow d p sel fuel m n a cs total awf fee :
  (forall x, invar (good d p) (sel x)) -> invar (good d p) (grow sel fuel m n a cs total awf fee).
Proof. intros Hs. revert cs total awf fee. induction fuel as [|fuel IH]; intros cs total awf fee; cbn [grow]; kept. Qed.
Hint Resolve good_grow : keeps.
Lemma good_coins_and_fee d p a h c n k b q : invar (good d p) (select_coins_and_fee a h c n k b q).
Proof. unfold select_coins_and_fee. kept. Qed.
Lemma good_change d p cs m a f n b : invar (good d p) (inputs_and_change cs m a f n b).
Proof. unfold inputs_and_change. kept. Qed.
Hint Resolve good_coins_and_fee good_change : keeps.
Lemma good_build_send d p m s h c n k b f q r i : invar (good d p) (build_send_tx m s h c n k b f q r i).
Proof. unfold build_send_tx, select_send_tx. kept. Qed.
Lemma within_lock_input d0 d1 p n acc i : invar (within d0 d1 p) (lock_input n acc i).
Proof. unfold lock_input. kept. Qed.
Lemma within_change d0 d1 p q h n cs acc i : invar (within d0 d1 p) (save_change q h n cs acc i).
Proof. unfold save_change. kept. Qed.
Hint Resolve within_lock_input within_change : keeps.
Lemma within_lock_batch d0 d1 p k s h c e l : invar (within d0 d1 p) (lock_batch k s h c e l).
Proof. unfold lock_batch. kept. by apply within_entry. Qed.
Hint Resolve within_lock_batch : keeps.
Lemma good_lock_tx d p m s h c e : invar (good d p) (lock_tx_context m s h c e).
Proof. unfold lock_tx_context, change_commits. kept. Qed.
Lemma good_repopulate d p m s c u : invar (good d p) (repopulate_tx m s c u).
Proof. unfold repopulate_tx. kept. Qed.
Lemma good_new_slate d p a i n r ttl : invar (good d p) (new_tx_slate a i n r ttl).
Proof. unfold new_tx_slate. kept; by apply invar_modify. Qed.
Hint Resolve good_build_send good_lock_tx good_repopulate good_new_slate : keeps.
Lemma good_add_inputs d p m s h c n k b q i r : invar (good d p) (add_inputs_to_slate m s h c n k b q i r).
Proof. unfold add_inputs_to_slate. kept. Qed.
Lemma good_complete d p m s c : invar (good d p) (complete_tx m s c).
Proof. unfold complete_tx. kept. Qed.
Hint Resolve good_add_inputs good_complete : keeps.
Lemma good_update_stored d p m c s i : invar (good d p) (update_stored_tx m c s i).
Proof.
  unfold update_stored_tx. apply good_retrieve. intros l d2 Hg Hl. apply invar_known. intros t Ht.
  destruct (find _ l) as [t0|] eqn:Ef; [|done]. injection Ht as ->.
  apply find_some in Ef as [Hin%list_elem_of_In _]. destruct (Hl t Hin) as [Hk _].
  do 2 (apply invar_bind; [kept|intros ?]).
  apply (invar_post _ (fun t' => tl_id t' = tl_id t /\ tl_parent_key_id t' = tl_parent_key_id t)); [kept| |].
  - intros w t' w' E. by destruct (sl_payment_proof s); st_inv.
  - intros t' [Ei Ep]. kept. by eapply (within_again _ _ _ t).
Qed.
Lemma good_verify_proof d p m q c s : invar (good d p) (verify_slate_payment_proof m q c s).
Proof. unfold verify_slate_payment_proof. kept. Qed.
Hint Resolve good_update_stored good_verify_proof : keeps.
Lemma good_lock_outputs d p m s : invar (good d p) (tx_lock_outputs m s).
Proof. unfold tx_lock_outputs. kept. Qed.
Lemma good_store_context d p m s c : invar (good d p) (store_context m s c).
Proof. unfold store_context. kept. Qed.
Lemma good_forget_context d p m s : invar (good d p) (forget_context m s).
Proof. unfold forget_context. kept. Qed.
Hint Resolve good_lock_outputs good_store_context good_forget_context : keeps.
Lemma good_finalize d p m s : invar (good d p) (owner_finalize m s).
Proof. unfold owner_finalize, check_ttl, lock_late. kept. Qed.
Hint Resolve good_finalize : keeps.
Lemma good_foreign_finalize d p m s b : invar (good d p) (foreign_finalize_tx m s b).
Proof. unfold foreign_finalize_tx, finalize_invoice, check_ttl, post_tx. kept. Qed.
Lemma good_init_send d p m a r : invar (good d p) (init_send_tx m a r).
Proof.
  unfold init_send_tx, estimate, estimate_send_tx, create_late_lock_context, ask_for_proof. kept.
Qed.
Lemma good_process_invoice d p m s a r : invar (good d p) (process_invoice_tx m s a r).
Proof. unfold process_invoice_tx, check_ttl, already_done. kept. Qed.
Hint Resolve good_foreign_finalize good_init_send good_process_invoice : keeps.

(** *** The receiver *)
Lemma good_recipient d p m s h q r i : invar (good d p) (build_recipient_output m s h q r i).
Proof.
  unfold build_recipient_output, next_available_key. kept. by apply within_entry.
Qed.
Lemma good_recipient_then d p m s h q r i {A} (k : Identifier * Context_ * TxLogEntry * Slate -> W A) :
  (forall key c t s' d2, grows d d2 -> known d2 t -> tl_parent_key_id t = q -> invar (good d2 p) (k (key, c, t, s'))) ->
  invar (good d p) (build_recipient_output m s h q r i ≫= k).
Proof.
  intros Hk. apply invar_bind_Ok; [apply good_recipient|]. intros w [[[key c] t] s'] w' Hw E.
  pose proof (good_recipient d p m s h q r i w Hw) as Hw'. rewrite E in Hw'. destruct Hw' as (Hp & Hwf & Hg & Hb).
  apply build_recipient_Ok in E as (_ & _ & _ & D & (_ & _ & _ & _ & _ & Hq & _) & _).
  apply (good_trans _ (wa_db w')); [done|]. apply Hk; [done| |done|split_and!; done].
  assert (Ht : db_tx_log (wa_db w') !! entry_key t = Some t) by (rewrite D; apply lookup_insert_eq).
  by apply (wf_log _ Hwf) in Ht as [_ Ht].
Qed.
Lemma good_add_output d p m s h q i r : invar (good d p) (add_output_to_slate m s h q i r).
Proof.
  unfold add_output_to_slate. apply invar_bind; [kept|intros _]. apply good_recipient_then.
  intros key c t s' d2 Hg Hk Hq. kept. by eapply (within_again _ _ _ t).
Qed.
Hint Resolve good_add_output : keeps.
Lemma good_receive d p m s n r : invar (good d p) (receive_tx m s n r).
Proof. unfold receive_tx, check_ttl, already_done. kept. Qed.
Lemma good_issue_invoice d p m a r : invar (good d p) (issue_invoice_tx m a r).
Proof. unfold issue_invoice_tx. kept. Qed.
Lemma good_coinbase d p m f b : invar (good d p) (foreign_build_coinbase m f b).
Proof.
  unfold foreign_build_coinbase, build_coinbase, receive_coinbase, coinbase_key, next_available_key, retrieve_existing_key.
  kept.
Qed.

(** *** The scan *)
Lemma good_collect d p fuel k a e acc : invar (good d p) (collect_chain_outputs fuel k a e acc).
Proof. revert a acc. induction fuel as [|fuel IH]; intros a acc; cbn [collect_chain_outputs]; kept. Qed.
Lemma within_meet d0 d1 p q f st : invar (within d0 d1 p) (meet_parent q f st).
Proof. unfold meet_parent. kept. Qed.
Lemma within_restored d0 d1 p q o st : invar (within d0 d1 p) (restored_log_id q o st).
Proof.
  unfold restored_log_id. kept. by apply within_entry.
Qed.
Hint Resolve good_collect within_meet within_restored : keeps.
Lemma good_restore d p m o f st : invar (good d p) (restore_missing_output m o f st).
Proof. unfold restore_missing_output. kept. Qed.
Lemma good_cancel_entry d p m o : invar (good d p) (cancel_tx_log_entry m o).
Proof.
  unfold cancel_tx_log_entry. destruct (od_tx_log_entry o) as [i|]; [|kept].
  apply invar_assoc, good_retrieve. intros l d2 Hg Hl. apply invar_mret. destruct l as [|t l]; [kept|].
  destruct (Hl t) as [Hk Hq%filter_parent]; [by left|]. kept. by eapply (within_again _ _ _ t).
Qed.
Hint Resolve good_restore good_cancel_entry : keeps.
(** The child numbers of a restored account go on after its greatest. *)
Lemma good_raise d p m path max w :
  good d p w -> count (db_child_index (wa_db w)) (to_key DERIV_PREFIX (id_to_bytes path)) <= max ->
  good d p (with_batch m (next ← liftS (u32_add max 1); _ ← save_child_index path next; commit) w).2.
Proof.
  intros Hw Hc. destruct (u32_add max 1) as [n|e|e] eqn:En; [|by apply good_batch; [apply invar_known|]..].
  apply u32_add_range in En as [_ Hn]. change (liftS (Ok n) ≫= ?k) with (k n). apply good_update; [done|].
  apply safe_child; [apply Hw|]. intros Ho. specialize (Hn Ho). lia.
Qed.
Lemma good_restore_account d p m l n x : invar (good d p) (restore_account m l n x).
Proof.
  unfold restore_account, set_acct_path. destruct x as [path max]. apply invar_bind; [kept|]. intros i w Hw.
  unfold current_child_index. erewrite ST_bind_run by reflexivity. cbv beta. unfold whenS. destruct (Z.leb_spec (default 0 (db_child_index (wa_db w) !! to_key DERIV_PREFIX (id_to_bytes path))) max); [|done].
  pose proof (good_raise d p m path max w Hw) as Hr. unfold mbind at 1, ST_bind at 1.
  destruct (with_batch m _ w) as [[]]; by apply Hr.
Qed.
Hint Resolve good_restore_account : keeps.
Lemma good_scan d p fuel m b s e : invar (good d p) (scan fuel m b s e).
Proof. unfold scan, make_unspent, delete_unconfirmed_output. kept. Qed.
Hint Resolve good_scan : keeps.

(** *** Bringing the wallet up to date *)
Lemma good_update_outputs d p m u : invar (good d p) (update_outputs m u).
Proof. unfold update_outputs. kept. Qed.
Lemma good_update_each d p m h l :
  (forall t, t ∈ l -> known d t /\ tl_parent_key_id t = p) -> invar (good d p) (update_each m p h l).
Proof.
  induction l as [|t l IH]; intros Hl; cbn [update_each]; [kept|].
  destruct (Hl t) as [Hk Hq]; [by left|]. assert (Hrest : invar (good d p) (update_each m p h l)).
  { apply IH. intros t' Ht'. apply Hl. by right. }
  unfold update_tx_via_kernel. kept. by eapply (within_again _ _ _ t).
Qed.
Lemma good_expired d p m h t : invar (good d p) (cancel_expired m h t).
Proof. unfold cancel_expired. kept. Qed.
Hint Resolve good_update_outputs good_expired : keeps.
Lemma good_update_wallet d p fuel m u : invar (good d p) (update_wallet_state fuel m u).
Proof.
  unfold update_wallet_state. apply good_account, invar_bind; [kept|]. intros [|]; cbn [negb]; [|kept].
  apply good_retrieve. intros l d2 Hg Hl. apply invar_bind; [|unfold scanned_before; intros ?; kept].
  unfold update_txs_via_kernel. apply good_account. apply invar_bind; [kept|]. intros [h|]; [|kept].
  apply good_update_each. intros t Ht. destruct (Hl t Ht) as [Hk Hq%filter_parent]. done.
Qed.
Hint Resolve good_update_wallet : keeps.

(** *** The interfaces *)
Lemma good_owner_scan d p fuel m h b : invar (good d p) (owner_scan fuel m h b).
Proof. unfold owner_scan. kept. Qed.
Lemma good_owner_outputs d p fuel m b r i : invar (good d p) (owner_retrieve_outputs fuel m b r i).
Proof. unfold owner_retrieve_outputs, refreshed_first. kept. Qed.
Lemma good_owner_txs d p fuel m r i u : invar (good d p) (owner_retrieve_txs fuel m r i u).
Proof. unfold owner_retrieve_txs, refreshed_first. kept. Qed.
Lemma good_summary d p fuel m r c : invar (good d p) (retrieve_summary_info fuel m r c).
Proof. unfold retrieve_summary_info, refreshed_first, retrieve_info. kept. Qed.
Hint Resolve good_owner_outputs good_owner_txs : keeps.
Lemma good_node_height d p fuel m : invar (good d p) (node_height fuel m).
Proof. unfold node_height. kept. Qed.
Lemma good_cancel d p fuel m i u : invar (good d p) (owner_cancel_tx fuel m i u).
Proof. unfold owner_cancel_tx. kept. Qed.
Lemma good_post d p tx b : invar (good d p) (post_tx tx b).
Proof. unfold post_tx. kept. Qed.
Lemma good_proof d p fuel m r i u : invar (good d p) (retrieve_payment_proof fuel m r i u).
Proof. unfold retrieve_payment_proof, refreshed_first. kept. Qed.
Lemma good_verify d p m x : invar (good d p) (verify_payment_proof m x).
Proof. unfold verify_payment_proof. kept. Qed.
Lemma good_new_account d p m l : invar (good d p) (create_account_path m l).
Proof. unfold create_account_path, new_acct_path. kept. Qed.
Lemma good_keychain d p k b r : invar (good d p) (set_keychain k b r).
Proof. unfold set_keychain. kept; by apply invar_modify. Qed.
Lemma good_close d p : invar (good d p) close.
Proof. by apply invar_modify. Qed.
End methods.

(** ** The commands of a wallet *)
Section commands.
Context `{BuildProfile, GC : GrinCrates, !BinCrates, !WalletCrates, !AddressCrates, !SlatepackCrates, !ArmorCrates,
  !SlatepackJson, !HexCrate, !NodeClient, !DalekCrates, !ScanCrates, !OwnerCrates}.
Implicit Types (w : Wallet) (d : Db) (p : Identifier).

(** What the owner and others may ask of a wallet; [fuel] bounds the loops of a scan. *)
Inductive Command :=
| CKeychain (k : Keychain) (masked use_test_rng : bool)
| CClose
| CAccount (label : string)
| CActivate (label : string)
| COutputs (fuel : nat) (spent refresh : bool) (tx_id : option Z)
| CTxs (fuel : nat) (refresh : bool) (tx_id : option Z) (slate_id : option Uuid)
| CSummary (fuel : nat) (refresh : bool) (minimum_confirmations : Z)
| CSend (args : InitTxArgs) (use_test_rng : bool)
| CInvoice (args : IssueInvoiceTxArgs) (use_test_rng : bool)
| CPayInvoice (slate : Slate) (args : InitTxArgs) (use_test_rng : bool)
| CLock (slate : Slate)
| CFinalize (slate : Slate)
| CPost (tx : Transaction) (fluff : bool)
| CCancel (fuel : nat) (tx_id : option Z) (slate_id : option Uuid)
| CScan (fuel : nat) (start_height : option Z) (delete_unconfirmed : bool)
| CRefresh (fuel : nat) (all : bool)
| CHeight (fuel : nat)
| CProof (fuel : nat) (refresh : bool) (tx_id : option Z) (slate_id : option Uuid)
| CVerify (proof : PaymentProof)
| CPack (slate : Slate) (sender : option Z) (recipients : list SlatepackAddress)
| CUnpack (message : string) (indices : list Z)
| CCoinbase (fees : BlockFees) (test_mode : bool)
| CReceive (slate : Slate) (account : option string) (use_test_rng : bool)
| CForeignFinalize (slate : Slate) (post : bool).

Definition dropping {A} (m : W A) : W unit := _ ← m; mret tt.
Definition run (mask : option SecretKey) (c : Command) : W unit :=
  match c with
  | CKeychain k b r => dropping (set_keychain k b r)
  | CClose => close
  | CAccount l => dropping (create_account_path mask l)
  | CActivate l => set_active_account l
  | COutputs fuel b r i => dropping (owner_retrieve_outputs fuel mask b r i)
  | CTxs fuel r i u => dropping (owner_retrieve_txs fuel mask r i u)
  | CSummary fuel r n => dropping (retrieve_summary_info fuel mask r n)
  | CSend a r => dropping (init_send_tx mask a r)
  | CInvoice a r => dropping (issue_invoice_tx mask a r)
  | CPayInvoice s a r => dropping (process_invoice_tx mask s a r)
  | CLock s => tx_lock_outputs mask s
  | CFinalize s => dropping (owner_finalize mask s)
  | CPost tx b => post_tx tx b
  | CCancel fuel i u => owner_cancel_tx fuel mask i u
  | CScan fuel h b => owner_scan fuel mask h b
  | CRefresh fuel b => dropping (update_wallet_state fuel mask b)
  | CHeight fuel => dropping (node_height fuel mask)
  | CProof fuel r i u => dropping (retrieve_payment_proof fuel mask r i u)
  | CVerify x => dropping (verify_payment_proof mask x)
  | CPack s i l => dropping (create_slatepack_message mask s i l)
  | CUnpack x l => dropping (slate_from_slatepack_message mask x l)
  | CCoinbase f b => dropping (foreign_build_coinbase mask f b)
  | CReceive s n r => dropping (receive_tx mask s n r)
  | CForeignFinalize s b => dropping (foreign_finalize_tx mask s b)
  end.
(** One call, however it ends: with a result, an error or a panic. *)
Definition call (w : Wallet) (c : option SecretKey * Command) : Wallet := (run c.1 c.2 w).2.
Definition well_formed w : Prop := wa_batch w = None /\ wf (wa_db w).

Lemma good_pack d p m s i l : invar (good d p) (create_slatepack_message m s i l).
Proof. unfold create_slatepack_message, get_slatepack_address. kept. Qed.
Lemma good_open_with_any d p m x l : invar (good d p) (open_with_any m x l).
Proof. induction l as [|i l IH]; cbn [open_with_any]; unfold get_slatepack_secret_key; kept. Qed.
Hint Resolve good_open_with_any : keeps.
Lemma good_unpack d p m x l : invar (good d p) (slate_from_slatepack_message m x l).
Proof. unfold slate_from_slatepack_message. kept. Qed.
Hint Resolve good_owner_scan good_owner_outputs good_owner_txs good_summary good_node_height good_cancel good_post
  good_proof good_verify good_new_account good_keychain good_close good_init_send good_process_invoice good_lock_outputs
  good_finalize good_foreign_finalize good_receive good_issue_invoice good_coinbase good_update_wallet good_pack good_unpack : keeps.

(** Every command but the choice of an account keeps the account. *)
Lemma good_run d p m c : (forall l, c <> CActivate l) -> invar (good d p) (run m c).
Proof. intros Hc. destruct c; cbn [run]; unfold dropping; try solve [kept]. by destruct (Hc label). Qed.
Lemma activate_db m l w : wa_db (call w (m, CActivate l)) = wa_db w /\ wa_batch (call w (m, CActivate l)) = wa_batch w.
Proof.
  unfold call. cbn [run fst snd]. unfold set_active_account, set_parent_key_id_by_name, acct_path_iter, set_parent_key_id.
  erewrite ST_bind_run by reflexivity. by destruct (find _ _).
Qed.
Lemma call_keeps w c : well_formed w -> well_formed (call w c) /\ grows (wa_db w) (wa_db (call w c)).
Proof.
  intros [Hb Hw]. destruct c as [m c].
  assert (Hd : (exists l, c = CActivate l) \/ forall l, c <> CActivate l) by (destruct c; eauto).
  destruct Hd as [[l ->]|Hc].
  - destruct (activate_db m l w) as [E1 E2]. unfold well_formed. by rewrite E1, E2.
  - destruct (good_run (wa_db w) (wa_parent_key_id w) m c Hc w) as (_ & Hw' & Hg & Hb'); [by split_and!|by split_and!].
Qed.

Lemma empty_well_formed : wf empty_db.
Proof. split; intros k x; cbn; by rewrite lookup_empty. Qed.
(** A wallet that is opened on a well-formed data base is well-formed. *)
Lemma opened_well_formed d files tape : wf d -> well_formed (LMDBBackend_new d files tape).
Proof. intros Hw. split; [done|]. by apply (safe_account (mkAcctPathMapping "default" default_path)). Qed.

(** C15: A wallet stays well-formed, whatever it is asked.  Start from a well-formed wallet
    and let its owner, others and the node ask anything in any order, each call
    ending with a result, an error or a panic: afterwards no batch is open; every output, account
    and entry of the log lies under the key made of its own fields; no entry was lost; and
    as long as arithmetic is checked, the counters of log entries and of child keys have only
    grown, every entry has a number below the counter of its account, and so the next
    entry of an account overwrites none. *)
Theorem wallet_stays_well_formed `{!WalletLaws} w cs :
  well_formed w ->
  let w' := foldl call w cs in
  well_formed w' /\ grows (wa_db w) (wa_db w')
  /\ (overflow_checks = true -> forall i, log_entry (wa_db w') i (next_log_id (wa_db w') i) = None).
Proof.
  intros Hw w'. assert (H' : well_formed w' /\ grows (wa_db w) (wa_db w')).
  { unfold w'. clear w'. revert w Hw. induction cs as [|c cs IH]; intros w Hw; cbn [foldl]; [done|].
    destruct (call_keeps w c Hw) as [Hw1 Hg]. destruct (IH _ Hw1) as [Hw2 Hg2]. split; [done|by etrans]. }
  destruct H' as [Hw' Hg]. split_and!; [done..|]. intros Ho i. destruct Hw' as [_ Hwf].
  apply eq_None_not_Some. intros [t Ht]. apply (wf_log _ Hwf) in Ht as [E [Hr Hk]].
  pose proof (next_log_id_range (wa_db w') i Hwf). unfold u32_modulus in *.
  apply to_key_u64_inj in E as [E1 E2]; [|unfold in_u64, u64_modulus; lia..].
  apply id_bytes_inj in E1 as ->. specialize (Hk Ho). lia.
Qed.
End commands.
