(* ===== verification/Locks.v ===== *)
(** * Which calls lock coins

    A coin is locked by [tx_lock_outputs], and by [finalize_tx] when the payment was to be
    locked late; no other call to a wallet locks a coin, whatever it is asked, what the node
    answers and how it ends. *)
From S2P Require Import Prelude.
From S2P Require Import RustStd.
From S2P Require Import Crates.
From S2P Require Import Effects.
From S2P Require Import Slate.
From S2P Require Import SlateV4.
From S2P Require Import SlateBin.
From S2P Require Import StateM.
From S2P Require Import Wallet.
From S2P Require Import Address.
From S2P Require Import Selection.
From S2P Require Import Updater.
From S2P Require Import WalletTx.
From S2P Require Import Slatepack.
From S2P Require Import Armor.
From S2P Require Import Scan.
From S2P Require Import Owner.
From S2P Require Import Packer.
From S2P Require Import Foreign.
From S2P Require Import Frames.
From S2P Require Import Api.
From S2P Require Import Invariant.
#[local] Open Scope Z_scope.

(** ** The coins that are locked *)
Create HintDb calm.
Create HintDb bodies.
Section rules.
Context `{BuildProfile, GC : GrinCrates, !BinCrates, !WalletCrates}.
Implicit Types (w : Wallet) (d : Db) (o : OutputData) (i : Identifier).

Definition locked_in d i : Prop := exists k o, db_outputs d !! k = Some o /\ od_key_id o = i /\ od_status o = Locked.
(** No coin is locked in [d] that is not locked in [d0]. *)
Definition no_more_locked d d0 : Prop := forall i, locked_in d i -> locked_in d0 i.
Definition calm d0 w : Prop :=
  no_more_locked (wa_db w) d0 /\ match wa_batch w with Some (b, _) => no_more_locked b d0 | None => True end.
(** An output that may be written. *)
Definition fine d0 o : Prop := od_status o = Locked -> locked_in d0 (od_key_id o).

Lemma fine_unlocked d0 o : od_status o <> Locked -> fine d0 o.
Proof. by intros Hn Hs. Qed.
Lemma fine_stored d d0 k o : no_more_locked d d0 -> db_outputs d !! k = Some o -> fine d0 o.
Proof. intros Hd Ho Hs. apply Hd. by exists k, o. Qed.

Lemma calm_update d0 f : (forall d, no_more_locked d d0 -> no_more_locked (f d) d0) -> invar (calm d0) (batch_update f).
Proof.
  intros Hf w [Hd Hb]. unfold batch_update, mbind, ST_bind, getS, liftS, modifyS.
  destruct (wa_batch w) as [[b k]|] eqn:Eb; cbn; split; cbn; [done|by apply Hf|done|by rewrite Eb].
Qed.
Lemma calm_other d0 f : (forall d, db_outputs (f d) = db_outputs d) -> invar (calm d0) (batch_update f).
Proof. intros Hf. apply calm_update. intros d Hd i (k & o & Ho & Hs). rewrite Hf in Ho. apply Hd. by exists k, o. Qed.
Lemma calm_save d0 o : fine d0 o -> invar (calm d0) (save o).
Proof.
  intros Ho. apply calm_update. intros d Hd i (k & o' & Hk & <- & Hs). cbn in Hk.
  apply lookup_insert_Some in Hk as [[_ <-]|[_ Hk]]; [by apply Ho|]. apply Hd. by exists k, o'.
Qed.
Lemma calm_delete d0 i m : invar (calm d0) (batch_delete i m).
Proof.
  apply calm_update. intros d Hd i' (k & o & Hk & Hs). cbn in Hk. apply lookup_delete_Some in Hk as [_ Hk]. apply Hd. by exists k, o.
Qed.
Lemma calm_commit d0 : invar (calm d0) commit.
Proof.
  intros w [Hd Hb]. unfold commit, mbind, ST_bind, getS, liftS, modifyS.
  destruct (wa_batch w) as [[b k]|] eqn:Eb; cbn; [by split|]. split; [done|]. by rewrite Eb.
Qed.
Lemma calm_batch d0 {A} mask (body : ST Wallet A) : invar (calm d0) body -> invar (calm d0) (with_batch mask body).
Proof.
  intros Hm w [Hd Hb]. unfold with_batch, finallyS, open_batch.
  pose proof (leaves_keychain (fun w0 => w0) mask w) as Ek. unfold mbind, ST_bind, modifyS.
  destruct (keychain mask w) as [[k|e|e] w1]; cbn in Ek; subst w1; [|done..].
  specialize (Hm (set_wa_batch (Some (wa_db w, Some k)) w) (conj Hd Hd)). destruct (body _) as [r w2]. cbn in *. destruct Hm. by split.
Qed.
Lemma calm_batch_no_mask d0 {A} (body : ST Wallet A) : invar (calm d0) body -> invar (calm d0) (with_batch_no_mask body).
Proof.
  intros Hm w [Hd Hb]. unfold with_batch_no_mask, finallyS, open_batch, mbind, ST_bind, modifyS.
  specialize (Hm (set_wa_batch (Some (wa_db w, None)) w) (conj Hd Hd)). destruct (body _) as [r w2]. cbn in *. destruct Hm. by split.
Qed.
Lemma calm_modify d0 f : (forall w, wa_db (f w) = wa_db w /\ wa_batch (f w) = wa_batch w) -> invar (calm d0) (modifyS f).
Proof. intros Hf. apply invar_modify. intros w [Hd Hb]. destruct (Hf w) as [E1 E2]. unfold calm. by rewrite E1, E2. Qed.
Lemma calm_drawn d0 {A} (m : M A) : invar (calm d0) (drawn m).
Proof. intros w Hw. unfold drawn. by destruct (m (wa_tape w)). Qed.
(** What is read is fine. *)
Lemma calm_get d0 i m {A} (k : option OutputData -> ST Wallet A) :
  invar (calm d0) (k None) -> (forall o, fine d0 o -> invar (calm d0) (k (Some o))) -> invar (calm d0) (tryS (batch_get i m) ≫= k).
Proof.
  intros Hn Hk. apply invar_bind_Ok; [apply invar_try, invar_same, leaves_batch_get|].
  intros w r w' Hw E.
  assert (w' = w) as -> by exact (leaves_Ok (fun w0 => w0) _ _ _ _ (leaves_try _ _ (leaves_batch_get _ i m)) E).
  destruct r as [o|]; [|by apply Hn]. apply Hk; [|done]. apply tryS_Some, batch_get_Ok in E as (_ & _ & Eo).
  destruct Hw as [Hd Hb]. unfold pending in Eo. by destruct (wa_batch w) as [[b kc]|]; eapply fine_stored.
Qed.
Lemma calm_keychain d0 mask : invar (calm d0) (keychain mask).
Proof. apply invar_keychain. Qed.
End rules.

#[export] Hint Resolve calm_delete calm_commit calm_drawn calm_keychain invar_calc_commit : calm.
#[export] Hint Unfold utc_now get_chain_tip wallet_iter wallet_get tx_log_iter acct_path_iter get_acct_path parent_key_id
  current_child_index last_confirmed_height last_scanned_block init_status batch_db iter_db batch_iter batch_tx_log_iter
  batch_acct_path_iter batch_keychain save_last_confirmed_height save_last_scanned_block save_init_status save_child_index
  save_tx_log_entry save_acct_path save_private_context delete_private_context : calm.
(** [calms] goes through the body of a method. *)
Ltac calm_step :=
  match goal with
  | |- invar (calm _) (with_batch _ _) => apply calm_batch
  | |- invar (calm _) (with_batch_no_mask _) => apply calm_batch_no_mask
  | |- invar (calm _) (batch_update _) => by apply calm_other
  | |- invar (calm _) (save _) => by apply calm_save, fine_unlocked
  | |- invar (calm _) (modifyS _) => by apply calm_modify
  end.
Ltac calms := autounfold with calm; repeat first [progress cbv zeta | solve [auto with calm nocore] | calm_step | keep_step].

(** ** Method by method *)
Section methods.
Context `{BuildProfile, GC : GrinCrates, !BinCrates, !WalletCrates, !AddressCrates, !HexCrate, !NodeClient,
  !DalekCrates, !ScanCrates, !OwnerCrates}.
Implicit Types (w : Wallet) (d : Db) (t : TxLogEntry) (o : OutputData).

Lemma calm_next_log_id d p : invar (calm d) (next_tx_log_id p).
Proof. unfold next_tx_log_id. calms. Qed.
Hint Resolve calm_next_log_id : calm.
Lemma calm_next_child d m : invar (calm d) (next_child m).
Proof. unfold next_child. calms. Qed.
Lemma calm_get_context d m s : invar (calm d) (get_private_context m s).
Proof. unfold get_private_context. calms. Qed.
Lemma calm_context_new d i r b : invar (calm d) (Context_new i r b).
Proof. unfold Context_new, Context_with_excess. calms. Qed.
Lemma calm_account_or_active d n : invar (calm d) (account_or_active n).
Proof. unfold account_or_active. calms. Qed.
Lemma calm_store_tx d u tx : invar (calm d) (store_tx u tx).
Proof. unfold store_tx, put_file. calms. Qed.
Lemma calm_retrieve_outputs d m s i q : invar (calm d) (retrieve_outputs m s i q).
Proof. unfold retrieve_outputs. calms. Qed.
Lemma calm_retrieve_txs d a u q b : invar (calm d) (retrieve_txs a u q b).
Proof. unfold retrieve_txs. calms. Qed.
Hint Resolve calm_next_child calm_get_context calm_context_new calm_account_or_active calm_store_tx
  calm_retrieve_outputs calm_retrieve_txs : calm.

(** *** The updater *)
Lemma calm_log_coinbase d c q h o {A} (k : OutputData -> ST Wallet A) :
  (forall o', fine d o' -> invar (calm d) (k o')) -> fine d o -> invar (calm d) (log_coinbase c q h o ≫= k).
Proof.
  intros Hk Ho. apply (invar_post _ (fine d)); [unfold log_coinbase; calms| |done].
  intros w o' w' E. unfold log_coinbase in E. st_inv. done.
Qed.
Lemma calm_confirm d q o : invar (calm d) (confirm_tx q o).
Proof. unfold confirm_tx. calms. Qed.
Hint Resolve calm_confirm : calm.
Lemma fine_status d o st : st <> Locked -> fine d (set_od_status st o).
Proof. intros Hs. by apply fine_unlocked. Qed.
Lemma fine_mark_unspent d o : fine d o -> fine d (mark_unspent o).
Proof. intros Ho. unfold mark_unspent. destruct (od_status o); first [exact Ho|by apply fine_status]. Qed.
Lemma fine_mark_spent d o : fine d o -> fine d (mark_spent o).
Proof. intros Ho. unfold mark_spent. destruct (od_status o); first [exact Ho|by apply fine_status]. Qed.
Lemma fine_mark_reverted d o : fine d o -> fine d (mark_reverted o).
Proof. intros Ho. unfold mark_reverted. destruct (od_status o); first [exact Ho|by apply fine_status]. Qed.
Lemma calm_apply_output d api r h q x : invar (calm d) (apply_output api r h q x).
Proof.
  unfold apply_output. destruct x as [c [[[i m] ti] un]]. apply calm_get; [calms|]. intros o Ho.
  destruct (map_get c api) as [oo|].
  - apply invar_assoc. destruct (_ && _).
    + apply calm_log_coinbase; [|done]. clear o Ho. intros o Ho. apply invar_assoc, invar_bind; [calms|intros _].
      apply invar_mret, calm_save, fine_mark_unspent. exact Ho.
    + apply invar_mret, invar_assoc, invar_bind; [calms|intros _]. apply invar_mret, calm_save, fine_mark_unspent. exact Ho.
  - apply invar_mret, calm_save. destruct (is_reverted r o); [by apply fine_mark_reverted|by apply fine_mark_spent].
Qed.
Hint Resolve calm_apply_output : calm.
Lemma calm_apply d m l api r h q : invar (calm d) (apply_api_outputs m l api r h q).
Proof. unfold apply_api_outputs, revert_tx. calms. Qed.
Hint Resolve calm_apply : calm.
Lemma calm_refresh d m q u : invar (calm d) (refresh_outputs m q u).
Proof. unfold refresh_outputs, refresh_output_state, map_wallet_outputs, find_reverted_kernels, clean_old_unconfirmed. calms. Qed.
Hint Resolve calm_refresh : calm.
Lemma calm_cancel_tx d m q a u : invar (calm d) (cancel_tx m q a u).
Proof. unfold cancel_tx, cancel_tx_and_outputs, cancel_output. calms. Qed.
Hint Resolve calm_cancel_tx : calm.

(** *** Payments *)
Lemma calm_select_coins d a h c n b q : invar (calm d) (select_coins a h c n b q).
Proof. unfold select_coins. calms. Qed.
Hint Resolve calm_select_coins : calm.
Lemma calm_grow d sel fuel m n a cs total awf fee :
  (forall x, invar (calm d) (sel x)) -> invar (calm d) (grow sel fuel m n a cs total awf fee).
Proof. intros Hs. revert cs total awf fee. induction fuel as [|fuel IH]; intros cs total awf fee; cbn [grow]; calms. Qed.
Hint Resolve calm_grow : calm.
Lemma calm_coins_and_fee d a h c n k b q : invar (calm d) (select_coins_and_fee a h c n k b q).
Proof. unfold select_coins_and_fee. calms. Qed.
Lemma calm_change d cs m a f n b : invar (calm d) (inputs_and_change cs m a f n b).
Proof. unfold inputs_and_change. calms. Qed.
Hint Resolve calm_coins_and_fee calm_change : calm.
Lemma calm_build_send d m s h c n k b f q r i : invar (calm d) (build_send_tx m s h c n k b f q r i).
Proof. unfold build_send_tx, select_send_tx. calms. Qed.
Lemma calm_repopulate d m s c u : invar (calm d) (repopulate_tx m s c u).
Proof. unfold repopulate_tx. calms. Qed.
Lemma calm_new_slate d a i n r ttl : invar (calm d) (new_tx_slate a i n r ttl).
Proof. unfold new_tx_slate. calms. Qed.
Hint Resolve calm_build_send calm_repopulate calm_new_slate : calm.
Lemma calm_add_inputs d m s h c n k b q i r : invar (calm d) (add_inputs_to_slate m s h c n k b q i r).
Proof. unfold add_inputs_to_slate. calms. Qed.
Lemma calm_complete d m s c : invar (calm d) (complete_tx m s c).
Proof. unfold complete_tx. calms. Qed.
Lemma calm_update_stored d m c s b : invar (calm d) (update_stored_tx m c s b).
Proof. unfold update_stored_tx. calms. Qed.
Lemma calm_store_context d m s c : invar (calm d) (store_context m s c).
Proof. unfold store_context. calms. Qed.
Lemma calm_forget_context d m s : invar (calm d) (forget_context m s).
Proof. unfold forget_context. calms. Qed.
Hint Resolve calm_add_inputs calm_complete calm_update_stored calm_store_context calm_forget_context : calm.
Lemma calm_finalize_invoice d m s b : sl_state s = Invoice2 -> invar (calm d) (foreign_finalize_tx m s b).
Proof. intros Hs. unfold foreign_finalize_tx. rewrite bool_decide_eq_true_2 by done. unfold finalize_invoice, check_ttl, post_tx. calms. Qed.
Lemma calm_init_send d m a r : invar (calm d) (init_send_tx m a r).
Proof. unfold init_send_tx, estimate, estimate_send_tx, create_late_lock_context, ask_for_proof. calms. Qed.
Lemma calm_process_invoice d m s a r : invar (calm d) (process_invoice_tx m s a r).
Proof. unfold process_invoice_tx, check_ttl, already_done. calms. Qed.

(** *** The receiver *)
Lemma calm_recipient d m s h q r b : invar (calm d) (build_recipient_output m s h q r b).
Proof. unfold build_recipient_output, next_available_key. calms. Qed.
Hint Resolve calm_recipient : calm.
Lemma calm_add_output d m s h q b r : invar (calm d) (add_output_to_slate m s h q b r).
Proof. unfold add_output_to_slate. calms. Qed.
Hint Resolve calm_add_output : calm.
Lemma calm_receive d m s n r : invar (calm d) (receive_tx m s n r).
Proof. unfold receive_tx, check_ttl, already_done. calms. Qed.
Lemma calm_issue_invoice d m a r : invar (calm d) (issue_invoice_tx m a r).
Proof. unfold issue_invoice_tx. calms. Qed.
Lemma calm_coinbase d m f b : invar (calm d) (foreign_build_coinbase m f b).
Proof.
  unfold foreign_build_coinbase, build_coinbase, receive_coinbase, coinbase_key, next_available_key, retrieve_existing_key.
  calms.
Qed.

(** *** The scan *)
Lemma calm_collect d fuel k a e acc : invar (calm d) (collect_chain_outputs fuel k a e acc).
Proof. revert a acc. induction fuel as [|fuel IH]; intros a acc; cbn [collect_chain_outputs]; calms. Qed.
Lemma calm_meet d q f st : invar (calm d) (meet_parent q f st).
Proof. unfold meet_parent. calms. Qed.
Lemma calm_restored d q x st : invar (calm d) (restored_log_id q x st).
Proof. unfold restored_log_id. calms. Qed.
Hint Resolve calm_collect calm_meet calm_restored : calm.
Lemma calm_restore d m x f st : invar (calm d) (restore_missing_output m x f st).
Proof. unfold restore_missing_output. calms. Qed.
Lemma calm_cancel_entry d m o : invar (calm d) (cancel_tx_log_entry m o).
Proof. unfold cancel_tx_log_entry. calms. Qed.
Lemma calm_restore_account d m l n x : invar (calm d) (restore_account m l n x).
Proof. unfold restore_account, set_acct_path. calms. Qed.
Hint Resolve calm_restore calm_cancel_entry calm_restore_account : calm.
Lemma calm_scan d fuel m b s e : invar (calm d) (scan fuel m b s e).
Proof. unfold scan, make_unspent, delete_unconfirmed_output. calms. Qed.
Hint Resolve calm_scan : calm.

(** *** Bringing the wallet up to date *)
Lemma calm_update_outputs d m u : invar (calm d) (update_outputs m u).
Proof. unfold update_outputs. calms. Qed.
Lemma calm_update_each d m p h l : invar (calm d) (update_each m p h l).
Proof. induction l as [|t l IH]; cbn [update_each]; unfold update_tx_via_kernel; calms. Qed.
Lemma calm_expired d m h t : invar (calm d) (cancel_expired m h t).
Proof. unfold cancel_expired. calms. Qed.
Hint Resolve calm_update_outputs calm_update_each calm_expired : calm.
Lemma calm_update_wallet d fuel m u : invar (calm d) (update_wallet_state fuel m u).
Proof. unfold update_wallet_state, update_txs_via_kernel, scanned_before. calms. Qed.
Hint Resolve calm_update_wallet : calm.
Lemma calm_owner_txs d fuel m r i u : invar (calm d) (owner_retrieve_txs fuel m r i u).
Proof. unfold owner_retrieve_txs, refreshed_first. calms. Qed.
Lemma calm_owner_outputs d fuel m b r i : invar (calm d) (owner_retrieve_outputs fuel m b r i).
Proof. unfold owner_retrieve_outputs, refreshed_first. calms. Qed.
Hint Resolve calm_owner_txs calm_owner_outputs : calm.
End methods.

Section calls.
Context `{BuildProfile, GC : GrinCrates, !BinCrates, !WalletCrates, !AddressCrates, !SlatepackCrates, !ArmorCrates,
  !SlatepackJson, !HexCrate, !NodeClient, !DalekCrates, !ScanCrates, !OwnerCrates}.
Implicit Types (w : Wallet) (d : Db).

(** ** All calls *)
Lemma calm_open_with_any d m x l : invar (calm d) (open_with_any m x l).
Proof. induction l as [|i l IH]; cbn [open_with_any]; unfold get_slatepack_secret_key; calms. Qed.
(** The calls that may lock coins. *)
Definition locking (c : Command) : bool :=
  match c with
  | CLock _ | CFinalize _ => true
  | CForeignFinalize s _ => negb (bool_decide (sl_state s = Invoice2))
  | _ => false
  end.
#[local] Hint Resolve calm_next_log_id calm_next_child calm_get_context calm_context_new calm_account_or_active calm_store_tx
  calm_retrieve_outputs calm_retrieve_txs calm_scan calm_update_outputs calm_update_each calm_expired
  calm_update_wallet calm_owner_txs calm_owner_outputs calm_init_send calm_process_invoice calm_receive calm_issue_invoice
  calm_coinbase calm_cancel_tx calm_open_with_any : calm.

#[local] Hint Unfold set_keychain close create_account_path new_acct_path set_active_account set_parent_key_id_by_name
  set_parent_key_id retrieve_summary_info refreshed_first retrieve_info post_tx owner_cancel_tx owner_scan node_height
  retrieve_payment_proof verify_payment_proof create_slatepack_message get_slatepack_address slate_from_slatepack_message : bodies.
Lemma calm_run d m c : locking c = false -> invar (calm d) (run m c).
Proof.
  intros Hc. destruct c; cbn [run]; try done; unfold dropping; autounfold with bodies.
  all: try solve [calms].
  apply invar_bind; [|intros; apply invar_ret]. cbn in Hc.
  apply calm_finalize_invoice. by apply negb_false_iff, bool_decide_eq_true_1 in Hc.
Qed.

Lemma call_calm w c :
  wa_batch w = None -> locking c.2 = false -> no_more_locked (wa_db (call w c)) (wa_db w).
Proof.
  intros Hb Hc. destruct c as [m c]. assert (Hw : calm (wa_db w) w) by (split; [by intros i|by rewrite Hb]).
  apply (calm_run (wa_db w) m c Hc w Hw).
Qed.
(** C28: Coins are locked only to be spent.  Let the owner and others ask a well-formed wallet anything,
    any number of times, but to lock coins for a slate and to finalize a payment (which
    may be one to be locked late): every coin that is locked afterwards was locked before,
    whatever the node answered and however each of the calls ended. *)
Theorem only_locking_locks w cs i :
  well_formed w -> (forall c, c ∈ cs -> locking c.2 = false) ->
  locked_in (wa_db (foldl call w cs)) i -> locked_in (wa_db w) i.
Proof.
  revert w. induction cs as [|c cs IH]; intros w Hw Hcs Hl; cbn [foldl] in *; [done|].
  apply (call_calm w c); [apply Hw|by apply Hcs, list_elem_of_here|]. apply IH; [apply call_keeps, Hw| |done].
  intros c' Hc'. by apply Hcs, list_elem_of_further.
Qed.
End calls.
