(* ===== verification/Seed.v ===== *)
(** * The seed of a wallet on the disk (impls/src/lifecycle/seed.rs)

    The seed is kept in a file, sealed with a password.  The disk is a set of
    directories and a map of files; every operation on it may fail, by a number
    drawn from the tape, and a write that fails leaves a part of the contents.
    [Path::exists] is taken to answer truly. *)
From S2P Require Import Prelude.
From S2P Require Import RustStd.
From S2P Require Import Crates.
From S2P Require Import Effects.
From S2P Require Import StateM.
From S2P Require Import Wallet.
From S2P Require Import Selection.
From S2P Require Import WalletTx.
From Stdlib Require Import Ascii.
#[local] Open Scope Z_scope.

(** ** The disk *)
Record Disk := mkDisk { dk_dirs : gset string; dk_files : gmap string string; dk_tape : Tape }.
Abbreviation D := (ST Disk).
Definition set_dk_dirs s (d : Disk) : Disk := mkDisk s (dk_files d) (dk_tape d).
Definition set_dk_files m (d : Disk) : Disk := mkDisk (dk_dirs d) m (dk_tape d).
Definition set_dk_tape t (d : Disk) : Disk := mkDisk (dk_dirs d) (dk_files d) t.

(** Which operations fail. *)
Class DiskFaults := io_fails : Z -> bool.

(** [.context(kind)]: the error that is reported. *)
Definition contextS {S A} (kind : string) (m : ST S A) : ST S A := fun s =>
  match m s with
  | (Err _, s') => (Err kind, s')
  | r => r
  end.

Definition drawD : D Z := fun d => let '(r, t) := draw (dk_tape d) in (r, set_dk_tape t d).
Definition IO : string := "IO".

(** A path, after all the directories above it. *)
Fixpoint ancestors (up rest : string) : list string :=
  match rest with
  | EmptyString => [up]
  | String c rest' => if Ascii.eqb c "/" then up :: ancestors (up +:+ String c "") rest'
                      else ancestors (up +:+ String c "") rest'
  end.

Section disk.
Context `{DiskFaults}.
Definition io : D unit := n ← drawD; if io_fails n then errS IO else mret tt.
Definition exists_path (path : string) : D bool :=
  getS (fun d => bool_decide (is_Some (dk_files d !! path)) || bool_decide (path ∈ dk_dirs d)).
(** A directory is made with those above it. *)
Definition create_dir_all (dir : string) : D unit :=
  _ ← io; modifyS (fun d => set_dk_dirs (list_to_set (ancestors "" dir) ∪ dk_dirs d) d).
Definition rename (from to : string) : D unit :=
  _ ← io;
  content ← getS (fun d => dk_files d !! from);
  c ← liftS (ok_or IO content);
  modifyS (fun d => set_dk_files (<[to := c]> (delete from (dk_files d))) d).
Definition file_create (dir path : string) : D unit :=
  _ ← io;
  dirs ← getS dk_dirs;
  if bool_decide (dir ∈ dirs) then modifyS (fun d => set_dk_files (<[path := ""]> (dk_files d)) d) else errS IO.
Definition write_all (path content : string) : D unit :=
  n ← drawD;
  if io_fails n then
    _ ← modifyS (fun d => set_dk_files (<[path := String.substring 0 (Z.to_nat n) content]> (dk_files d)) d); errS IO
  else modifyS (fun d => set_dk_files (<[path := content]> (dk_files d)) d).
Definition read_to_string (path : string) : D string :=
  _ ← io;
  content ← getS (fun d => dk_files d !! path);
  liftS (ok_or IO (c ← content; from_utf8 c)).
Definition remove_file (path : string) : D unit :=
  _ ← io;
  content ← getS (fun d => dk_files d !! path);
  _ ← liftS (ok_or IO content);
  modifyS (fun d => set_dk_files (delete path (dk_files d)) d).
End disk.

(** ** Seeds *)
Record EncryptedWalletSeed := mkEncryptedWalletSeed {
  ews_encrypted_seed : string;
  ews_salt : string;
  ews_nonce : string }.

(** ring, serde_json, grin_keychain's mnemonics and blake2b.  [open_in_place] gives the
    buffer that is left: the plain text and what was the tag. *)
Class SeedCrates := {
  pbkdf2_derive : string -> string -> string;               (* salt, password *)
  seal_append_tag : string -> string -> string -> option string;  (* key, nonce, plain text *)
  open_in_place : string -> string -> string -> option string;
  to_entropy : string -> option string;
  from_entropy : string -> option string;
  ews_to_json : EncryptedWalletSeed -> string;
  ews_of_json : string -> option EncryptedWalletSeed;
  blake2b_32 : string -> string;                            (* blake2b(32, b"", data) *)
}.
(** Documented behaviour: what is sealed is opened with the same key and nonce, by no
    other key to something else; a phrase stands for its entropy. *)
Class SeedLaws `{SeedCrates} := {
  open_seal key nonce plain sealed :
    seal_append_tag key nonce plain = Some sealed ->
    exists tag, String.length tag = 16%nat /\ open_in_place key nonce sealed = Some (plain +:+ tag);
  open_one key key' nonce sealed plain plain' :
    open_in_place key nonce sealed = Some plain -> open_in_place key' nonce sealed = Some plain' -> plain = plain';
  entropy_phrase seed phrase : from_entropy seed = Some phrase -> to_entropy phrase = Some seed;
  ews_json e : ews_of_json (ews_to_json e) = Some e;
  ews_utf8 e : utf8_valid (ews_to_json e) = true;
}.

Definition SEED_FILE : string := "wallet.seed".
Definition seed_path (dir : string) : string := dir +:+ "/" +:+ SEED_FILE.
Definition ENCRYPTION : string := "Encryption".

Section code.
Context `{BuildProfile, DiskFaults, SeedCrates, HexCrate}.

Definition from_mnemonic (word_list : string) : Res string := ok_or "Mnemonic" (to_entropy word_list).
Definition to_mnemonic (seed : string) : Res string := ok_or "Mnemonic" (from_entropy seed).

(** Random bytes, or those of the password. *)
Definition init_new (seed_length : nat) (test_mode : bool) (password : option string) : D string :=
  if test_mode then p ← liftS (unwrap_opt password); mret (blake2b_32 p)
  else n ← drawD; mret (be_bytes seed_length n).

Definition seed_file_exists (dir : string) : D bool := exists_path (seed_path dir).

(** The names of backups: the first, and the [i]-th. *)
Definition backup_base (dir : string) : string := seed_path dir +:+ ".bak".
Definition backup_name (dir : string) (i : Z) : string := backup_base dir +:+ "." +:+ fmt_u64 i.
(** [while Path::new(&backup_seed_file_name).exists()] *)
Fixpoint next_backup (fuel : nat) (dir name : string) (i : Z) : D string :=
  taken ← exists_path name;
  if taken : bool then
    match fuel with
    | O => errS OUT_OF_FUEL
    | S fuel' => next_backup fuel' dir (backup_name dir i) (i + 1)
    end
  else mret name.
Definition backup_fuel (d : Disk) : nat := (size (dk_files d) + size (dk_dirs d))%nat.
Definition backup_seed (dir : string) : D string :=
  fuel ← getS backup_fuel;
  name ← next_backup fuel dir (backup_base dir) 1;
  _ ← contextS "GenericError(Can't rename wallet seed file)" (rename (seed_path dir) name);
  mret name.

(** *** Sealing *)
Definition ews_from_seed (seed password : string) : D EncryptedWalletSeed :=
  s ← drawD;
  n ← drawD;
  let salt := be_bytes 8 s in
  let nonce := be_bytes 12 n in
  let key := pbkdf2_derive salt password in
  enc_bytes ← liftS (ok_or ENCRYPTION (seal_append_tag key nonce seed));
  mret (mkEncryptedWalletSeed (hex_encode enc_bytes) (hex_encode salt) (hex_encode nonce)).

Definition ews_decrypt (e : EncryptedWalletSeed) (password : string) : Res string :=
  encrypted_seed ← ok_or ENCRYPTION (hex_decode (ews_encrypted_seed e));
  salt ← ok_or ENCRYPTION (hex_decode (ews_salt e));
  nonce ← ok_or ENCRYPTION (hex_decode (ews_nonce e));
  let key := pbkdf2_derive salt password in
  n ← (if (String.length nonce <? 12)%nat then Panic "range end index 12 out of range for slice"
       else Ok (String.substring 0 12 nonce));
  buffer ← ok_or ENCRYPTION (open_in_place key n encrypted_seed);
  Ok (String.substring 0 (String.length buffer - 16) buffer).

(** *** Files *)
Definition write_seed (dir seed password : string) : D unit :=
  enc_seed ← ews_from_seed seed password;
  _ ← contextS IO (file_create dir (seed_path dir));
  contextS IO (write_all (seed_path dir) (ews_to_json enc_seed)).

Definition wallet_doesnt_exist (dir : string) : string :=
  "WalletDoesntExist(" +:+ dir +:+ ", To create a new wallet from a recovery phrase, use 'grin-wallet init -r')".
Definition recover_from_phrase (dir word_list password : string) : D unit :=
  exists_ ← seed_file_exists dir;
  _ ← whenS exists_ (_ ← backup_seed dir; mret tt);
  there ← exists_path dir;
  if negb there then errS (wallet_doesnt_exist dir)
  else
    seed ← liftS (from_mnemonic word_list);
    write_seed dir seed password.

Definition init_file (dir : string) (seed_length : nat) (recovery_phrase : option string) (password : string)
    (test_mode : bool) : D string :=
  _ ← contextS IO (create_dir_all dir);
  exists_ ← seed_file_exists dir;
  if exists_ && negb test_mode then errS ("WalletSeedExists(Wallet seed already exists at: " +:+ dir +:+ ")")
  else
    seed ← match recovery_phrase with
           | Some p => liftS (from_mnemonic p)
           | None => init_new seed_length test_mode (Some password)
           end;
    _ ← write_seed dir seed password;
    mret seed.

(** What a file of a seed says. *)
Definition read_seed (content password : string) : Res string :=
  enc_seed ← ok_or "Format" (ews_of_json content);
  ews_decrypt enc_seed password.
Definition from_file (dir password : string) : D string :=
  _ ← contextS IO (create_dir_all dir);
  there ← exists_path (seed_path dir);
  if there : bool then
    buffer ← contextS IO (read_to_string (seed_path dir));
    liftS (read_seed buffer password)
  else errS "WalletSeedDoesntExist".

Definition delete_seed_file (dir : string) : D unit :=
  there ← exists_path (seed_path dir);
  whenS there (contextS IO (remove_file (seed_path dir))).
End code.

(** ** Lemmas: names of backups *)
Section backups.
Context `{BuildProfile, DiskFaults, SeedCrates, HexCrate}.
Implicit Types (d : Disk) (dir : string).

Definition taken d (name : string) : Prop := is_Some (dk_files d !! name) \/ name ∈ dk_dirs d.
(** The names that are tried, in turn. *)
Definition candidate dir (k : nat) : string :=
  match k with O => backup_base dir | S _ => backup_name dir (Z.of_nat k) end.

Lemma candidate_inj dir : Inj (=) (=) (candidate dir).
Proof.
  intros [|j] [|k] E; [done|..]; cbn [candidate] in E; unfold backup_name in E.
  - rewrite <- (append_nil_r (backup_base dir)) in E at 1. by apply append_inj_l in E.
  - rewrite <- (append_nil_r (backup_base dir)) in E at 2. by apply append_inj_l in E.
  - apply append_inj_l, append_inj_l, fmt_inj in E; lia.
Qed.

Lemma exists_path_run path d :
  exists b, exists_path path d = (Ok b, d) /\ (b = true <-> taken d path).
Proof.
  unfold exists_path, getS, taken. eexists. split; [done|]. rewrite orb_true_iff, !bool_decide_eq_true. done.
Qed.
(** Too many names for so few files. *)
Lemma some_free dir d : exists k, (k <= backup_fuel d)%nat /\ ~ taken d (candidate dir k).
Proof.
  set (X := dom (dk_files d) ∪ dk_dirs d).
  assert (HX : forall n, taken d n <-> n ∈ X).
  { intros n. unfold X, taken. by rewrite elem_of_union, elem_of_dom. }
  destruct (decide (Forall (fun k => candidate dir k ∈ X) (seq 0 (S (backup_fuel d))))) as [Hall|Hsome].
  - exfalso. set (l := candidate dir <$> seq 0 (S (backup_fuel d))).
    assert (Hnd : NoDup l) by (apply NoDup_fmap_2; [apply candidate_inj|apply NoDup_seq]).
    assert (Hsub : list_to_set l ⊆ X).
    { intros n Hn%elem_of_list_to_set. apply list_elem_of_fmap in Hn as (k & -> & Hk).
      by apply (proj1 (Forall_forall _ _) Hall). }
    apply subseteq_size in Hsub. rewrite size_list_to_set in Hsub by done.
    unfold l in Hsub. rewrite length_fmap, length_seq in Hsub.
    pose proof (size_union_alt (dom (dk_files d)) (dk_dirs d)) as Hs. fold X in Hs.
    assert (Hd : (size (dk_dirs d ∖ dom (dk_files d)) <= size (dk_dirs d))%nat) by (apply subseteq_size; set_solver).
    rewrite size_dom in Hs. unfold backup_fuel in Hsub. lia.
  - apply not_Forall_Exists, Exists_exists in Hsome as (k & Hk%elem_of_seq & Hf); [|intros ?; apply _].
    exists k. rewrite HX. split; [lia|done].
Qed.
Lemma next_backup_run dir d fuel k :
  (exists j, (k <= j <= k + fuel)%nat /\ ~ taken d (candidate dir j)) ->
  exists name, next_backup fuel dir (candidate dir k) (Z.of_nat k + 1) d = (Ok name, d) /\ ~ taken d name.
Proof.
  revert k. induction fuel as [|fuel IH]; intros k (j & Hj & Hf); cbn [next_backup];
    destruct (exists_path_run (candidate dir k) d) as (b & E & Hb); rewrite (ST_bind_run _ _ _ _ _ E); destruct b.
  - exfalso. assert (j = k) as -> by lia. by apply Hf, Hb.
  - exists (candidate dir k). split; [done|]. intros Ht%Hb. done.
  - replace (backup_name dir (Z.of_nat k + 1)) with (candidate dir (S k)) by (cbn [candidate]; f_equal; lia).
    replace (Z.of_nat k + 1 + 1) with (Z.of_nat (S k) + 1) by lia. apply IH. exists j. split; [|done].
    assert (j <> k) by (intros ->; by apply Hf, Hb). lia.
  - exists (candidate dir k). split; [done|]. intros Ht%Hb. done.
Qed.
(** The search for a name always ends, with one that nothing has. *)
Lemma backup_name_found dir d :
  exists name, next_backup (backup_fuel d) dir (backup_base dir) 1 d = (Ok name, d) /\ ~ taken d name.
Proof.
  destruct (some_free dir d) as (k & Hk & Hf). apply (next_backup_run dir d (backup_fuel d) 0). exists k. split; [lia|done].
Qed.
End backups.

(** ** Lemmas: sealing *)
Section sealing.
Context `{BuildProfile, DiskFaults, SC : SeedCrates, HexCrate, !SeedLaws, !HexLaws}.

Lemma be_bytes_len k n : String.length (be_bytes k n) = k.
Proof. revert n. induction k as [|k IH]; intros n; [done|]. cbn [be_bytes]. rewrite length_append, IH. cbn. lia. Qed.

(** What was sealed with a password is opened with it. *)
Lemma decrypt_sealed seed password d e d' :
  ews_from_seed seed password d = (Ok e, d') -> ews_decrypt e password = Ok seed.
Proof.
  unfold ews_from_seed. intros E. apply ST_bind_Ok in E as (s & d1 & _ & E). apply ST_bind_Ok in E as (n & d2 & _ & E).
  apply ST_bind_Ok in E as (enc & d3 & E1 & E). apply liftS_Ok in E1 as [E1 ->]. apply mretS_Ok in E as [-> ->].
  apply ok_or_Ok, open_seal in E1 as (tag & Ht & Eo). unfold ews_decrypt. cbn [ews_encrypted_seed ews_salt ews_nonce].
  rewrite !hex_decode_encode. cbn [ok_or mbind Res_bind]. rewrite be_bytes_len. cbn [Nat.ltb Nat.leb mbind Res_bind].
  rewrite <- (be_bytes_len 12 n) at 1. rewrite substring_all, Eo. cbn [ok_or mbind Res_bind].
  rewrite length_append, Ht, Nat.add_sub. by rewrite substring_prefix.
Qed.
(** A sealed seed says one thing only. *)
Lemma read_seed_one c pw pw' s s' : read_seed c pw = Ok s -> read_seed c pw' = Ok s' -> s = s'.
Proof.
  unfold read_seed, ews_decrypt. destruct (ews_of_json c) as [e|]; [|done]. cbn [ok_or mbind Res_bind].
  destruct (hex_decode (ews_encrypted_seed e)) as [b|], (hex_decode (ews_salt e)) as [salt|],
    (hex_decode (ews_nonce e)) as [nonce|]; cbn [ok_or mbind Res_bind]; try done.
  destruct (String.length nonce <? 12)%nat; cbn [mbind Res_bind]; [done|].
  destruct (open_in_place (pbkdf2_derive salt pw) _ b) as [p|] eqn:E1; [|done].
  destruct (open_in_place (pbkdf2_derive salt pw') _ b) as [p'|] eqn:E2; [|done].
  pose proof (open_one _ _ _ _ _ _ E1 E2) as ->. cbn. congruence.
Qed.
End sealing.

(** ** What the disk holds *)
Section holds.
Context `{BuildProfile, DiskFaults, SC : SeedCrates, HexCrate}.
Implicit Types (d : Disk) (dir seed : string) (pws : list string).

(** Some file gives the seed to one of the passwords; [apart] from one path. *)
Definition holds seed pws d : Prop :=
  exists f c pw, pw ∈ pws /\ dk_files d !! f = Some c /\ read_seed c pw = Ok seed.
Definition apart path seed pws d : Prop :=
  exists f c pw, f <> path /\ pw ∈ pws /\ dk_files d !! f = Some c /\ read_seed c pw = Ok seed.

Lemma apart_holds path seed pws d : apart path seed pws d -> holds seed pws d.
Proof. intros (f & c & pw & _ & H'). by exists f, c, pw. Qed.
Lemma holds_apart path seed pws d : dk_files d !! path = None -> holds seed pws d -> apart path seed pws d.
Proof. intros Hn (f & c & pw & Hp & Hf & Hr). exists f, c, pw. split_and!; try done. intros ->. congruence. Qed.
Lemma holds_more seed pws pws' d : pws ⊆ pws' -> holds seed pws d -> holds seed pws' d.
Proof. intros Hs (f & c & pw & Hp & H'). exists f, c, pw. split; [by apply Hs|done]. Qed.

(** Operations that change no file. *)
Lemma files_drawD : leaves dk_files drawD.
Proof. by intros d. Qed.
Lemma files_io : leaves dk_files io.
Proof. unfold io. apply leaves_bind; [apply files_drawD|]. intros n. by destruct (io_fails n). Qed.
Lemma files_context {A} e (m : D A) : leaves dk_files m -> leaves dk_files (contextS e m).
Proof. intros Hm d. specialize (Hm d). unfold contextS. by destruct (m d) as [[] d']. Qed.
Lemma files_exists path : leaves dk_files (exists_path path).
Proof. apply leaves_get. Qed.
Lemma files_create_dir dir : leaves dk_files (create_dir_all dir).
Proof. unfold create_dir_all. apply leaves_bind; [apply files_io|]. intros u. by apply leaves_modify. Qed.
Lemma files_read path : leaves dk_files (read_to_string path).
Proof.
  unfold read_to_string. apply leaves_bind; [apply files_io|]. intros u. apply leaves_bind; [apply leaves_get|]. intros c.
  apply leaves_lift.
Qed.
Lemma files_from_file dir pw : leaves dk_files (from_file dir pw).
Proof.
  unfold from_file. apply leaves_bind; [apply files_context, files_create_dir|]. intros u.
  apply leaves_bind; [apply files_exists|]. intros [|]; [|apply leaves_lift].
  apply leaves_bind; [apply files_context, files_read|]. intros c. apply leaves_lift.
Qed.
Lemma files_seal seed pw : leaves dk_files (ews_from_seed seed pw).
Proof.
  unfold ews_from_seed. do 2 (apply leaves_bind; [apply files_drawD|]; intros ?).
  apply leaves_bind; [apply leaves_lift|]. intros b. apply leaves_ret.
Qed.
Lemma files_init_new n b pw : leaves dk_files (init_new n b pw).
Proof.
  unfold init_new. destruct b; (apply leaves_bind; [apply leaves_lift || apply files_drawD|]; intros x; apply leaves_ret).
Qed.
Lemma files_next_backup fuel dir name i : leaves dk_files (next_backup fuel dir name i).
Proof.
  revert name i. induction fuel as [|fuel IH]; intros name i; cbn [next_backup];
    (apply leaves_bind; [apply files_exists|]); intros [|]; [apply leaves_lift|apply leaves_ret|apply IH|apply leaves_ret].
Qed.

Lemma invar_files {A} (I : gmap string string -> Prop) (m : D A) :
  leaves dk_files m -> invar (fun d => I (dk_files d)) m.
Proof. intros Hm d Hd. by rewrite Hm. Qed.
Lemma kept_holds {A} seed pws (m : D A) : leaves dk_files m -> invar (holds seed pws) m.
Proof. apply (invar_files (fun m => exists f c pw, pw ∈ pws /\ m !! f = Some c /\ read_seed c pw = Ok seed)). Qed.
Lemma kept_apart {A} path seed pws (m : D A) : leaves dk_files m -> invar (apart path seed pws) m.
Proof. apply (invar_files (fun m => exists f c pw, f <> path /\ pw ∈ pws /\ m !! f = Some c /\ read_seed c pw = Ok seed)). Qed.
Lemma invar_context {S A} (I : S -> Prop) e (m : ST S A) : invar I m -> invar I (contextS e m).
Proof. intros Hm s Hs. specialize (Hm s Hs). unfold contextS. by destruct (m s) as [[] s']. Qed.

(** A file is written where nothing was. *)
Lemma apart_set path c seed pws d :
  apart path seed pws d -> apart path seed pws (set_dk_files (<[path := c]> (dk_files d)) d).
Proof.
  intros (f & c' & pw & Hne & Hp & Hf & Hr). exists f, c', pw. split_and!; try done. cbn. by rewrite lookup_insert_ne.
Qed.
Lemma apart_create dir path seed pws : invar (apart path seed pws) (file_create dir path).
Proof.
  unfold file_create. apply invar_bind; [apply kept_apart, files_io|]. intros u. apply invar_bind; [apply invar_get|].
  intros s. case_bool_decide; [|apply invar_lift]. apply invar_modify. intros d. apply apart_set.
Qed.
Lemma apart_write path c seed pws : invar (apart path seed pws) (write_all path c).
Proof.
  unfold write_all. apply invar_bind; [apply kept_apart, files_drawD|]. intros n. destruct (io_fails n).
  - apply invar_bind; [|intros u; apply invar_lift]. apply invar_modify. intros d. apply apart_set.
  - apply invar_modify. intros d. apply apart_set.
Qed.
Lemma apart_write_seed dir x pw seed pws : invar (apart (seed_path dir) seed pws) (write_seed dir x pw).
Proof.
  unfold write_seed. apply invar_bind; [apply kept_apart, files_seal|]. intros e.
  apply invar_bind; [apply invar_context, apart_create|]. intros u. apply invar_context, apart_write.
Qed.
Lemma holds_write_seed dir x pw seed pws d :
  holds seed pws d -> dk_files d !! seed_path dir = None -> holds seed pws (write_seed dir x pw d).2.
Proof. intros Hd Hn. eapply apart_holds. by apply apart_write_seed, holds_apart. Qed.

(** A file is renamed to what nothing has. *)
Lemma rename_cases from to d :
  let r := rename from to d in
  (is_ok r.1 = false /\ dk_files r.2 = dk_files d)
  \/ (exists c, r.1 = Ok tt /\ dk_files d !! from = Some c /\ dk_files r.2 = <[to := c]> (delete from (dk_files d))).
Proof.
  intros r. unfold r, rename. destruct (io d) as [[u|e|e] d1] eqn:E1.
  2, 3: left; pose proof (files_io d) as El; rewrite E1 in El; unfold mbind, ST_bind; by rewrite E1.
  pose proof (files_io d) as El. rewrite E1 in El. cbn in El. rewrite (ST_bind_run _ _ _ _ _ E1).
  erewrite ST_bind_run by reflexivity. destruct (dk_files d1 !! from) as [c|] eqn:Ec.
  - right. exists c. split; [done|]. rewrite El in Ec. split; [done|]. rewrite <- El. done.
  - left. done.
Qed.
Lemma holds_rename from to seed pws d :
  dk_files d !! to = None -> holds seed pws d -> holds seed pws (rename from to d).2.
Proof.
  intros Hn (f & c & pw & Hp & Hf & Hr). destruct (rename_cases from to d) as [[_ E]|(c' & _ & Ec & E)].
  - exists f, c, pw. by rewrite E.
  - destruct (decide (f = from)) as [->|Hne].
    + exists to, c, pw. rewrite E, lookup_insert_eq. split_and!; [done|congruence|done].
    + exists f, c, pw. rewrite E, lookup_insert_ne, lookup_delete_ne by congruence. done.
Qed.

(** The seed is moved away, and nothing has its name any more. *)
Lemma backup_seed_cases dir d :
  let r := backup_seed dir d in
  (is_ok r.1 = false /\ dk_files r.2 = dk_files d)
  \/ (exists name c, r.1 = Ok name /\ ~ taken d name /\ dk_files d !! seed_path dir = Some c
      /\ dk_files r.2 = <[name := c]> (delete (seed_path dir) (dk_files d))).
Proof.
  intros r. unfold r, backup_seed. erewrite ST_bind_run by reflexivity.
  destruct (backup_name_found dir d) as (name & E & Hn). rewrite (ST_bind_run _ _ _ _ _ E).
  destruct (rename_cases (seed_path dir) name d) as [[Hf Ef]|(c & Er & Ec & Ef)].
  - left. unfold mbind, ST_bind, contextS. destruct (rename _ _ d) as [[u|e|e] d1]; [done|by split..].
  - right. exists name, c. unfold mbind, ST_bind, contextS. destruct (rename _ _ d) as [[u|e|e] d1]; [|done..]. done.
Qed.
Lemma holds_backup dir seed pws d : holds seed pws d -> holds seed pws (backup_seed dir d).2.
Proof.
  intros (f & c & pw & Hp & Hf & Hr). destruct (backup_seed_cases dir d) as [[_ E]|(name & c' & _ & Hn & Ec & E)].
  - exists f, c, pw. by rewrite E.
  - assert (Hne : f <> name) by (intros ->; apply Hn; left; by eexists).
    destruct (decide (f = seed_path dir)) as [->|Hne2].
    + exists name, c, pw. rewrite E, lookup_insert_eq. split_and!; [done|congruence|done].
    + exists f, c, pw. rewrite E, lookup_insert_ne, lookup_delete_ne by congruence. done.
Qed.
End holds.

(** ** No operation loses a seed *)
Section lost.
Context `{BuildProfile, DiskFaults, SC : SeedCrates, HexCrate}.
Implicit Types (d : Disk) (dir seed : string) (pws : list string).

Lemma backup_Ok dir d name d' :
  backup_seed dir d = (Ok name, d') ->
  exists c, ~ taken d name /\ dk_files d !! seed_path dir = Some c
    /\ dk_files d' = <[name := c]> (delete (seed_path dir) (dk_files d)) /\ name <> seed_path dir.
Proof.
  intros E. destruct (backup_seed_cases dir d) as [[Hf _]|(name' & c & Er & Hn & Ec & Ef)]; rewrite E in *; [done|].
  cbn in Er, Ef. injection Er as <-. exists c. split_and!; [done..|]. intros ->. apply Hn. left. by eexists.
Qed.
Lemma seed_file_exists_run dir d :
  exists b, seed_file_exists dir d = (Ok b, d) /\ (b = false -> dk_files d !! seed_path dir = None).
Proof.
  destruct (exists_path_run (seed_path dir) d) as (b & E & Hb). exists b. split; [done|]. intros ->.
  apply eq_None_not_Some. intros Hs. assert (false = true) as [=] by (apply Hb; by left).
Qed.
(** Nothing is under the name of the seed after the seed is moved away, or when it is not there. *)
Lemma moved_away dir seed pws d (b : bool) :
  (b = false -> dk_files d !! seed_path dir = None) -> holds seed pws d ->
  let r := whenS b (_ ← backup_seed dir; mret tt) d in
  holds seed pws r.2 /\ (is_ok r.1 = true -> dk_files r.2 !! seed_path dir = None).
Proof.
  intros Hb Hd r. unfold r, whenS. destruct b; [|by split; [|intros _; apply Hb]]. pose proof (holds_backup dir seed pws d Hd) as Hh.
  unfold mbind, ST_bind. destruct (backup_seed dir d) as [[name|e|e] d'] eqn:E; [|by split..]. split; [done|]. intros _.
  apply backup_Ok in E as (c & _ & _ & Ef & Hne). cbn. rewrite Ef, lookup_insert_ne by congruence. apply lookup_delete_eq.
Qed.

Lemma holds_recover dir phrase pw seed pws : invar (holds seed pws) (recover_from_phrase dir phrase pw).
Proof.
  intros d Hd. unfold recover_from_phrase. destruct (seed_file_exists_run dir d) as (b & E & Hb).
  rewrite (ST_bind_run _ _ _ _ _ E). destruct (moved_away dir seed pws d b Hb Hd) as [Hh Hn]. unfold mbind at 1, ST_bind at 1.
  destruct (whenS b _ d) as [[u|e|e] d1]; [|done..]. cbn in Hh, Hn. specialize (Hn eq_refl). clear E Hb Hd.
  destruct (exists_path_run dir d1) as (there & E & _). rewrite (ST_bind_run _ _ _ _ _ E).
  destruct there; cbn [negb]; [|done]. destruct (from_mnemonic phrase) as [s|e|e] eqn:Es; [|done..].
  erewrite ST_bind_run by reflexivity. by apply holds_write_seed.
Qed.

Lemma holds_init_file dir n phrase pw seed pws : invar (holds seed pws) (init_file dir n phrase pw false).
Proof.
  unfold init_file. apply invar_bind; [apply kept_holds, files_context, files_create_dir|]. intros u d Hd.
  destruct (seed_file_exists_run dir d) as (b & E & Hb). rewrite (ST_bind_run _ _ _ _ _ E). destruct b; [done|].
  cbn [andb]. specialize (Hb eq_refl). eapply apart_holds.
  eapply (invar_bind (apart (seed_path dir) seed pws)); [|intros s|by apply holds_apart].
  - destruct phrase as [p|]; [apply invar_lift|apply kept_apart, files_init_new].
  - apply invar_bind; [apply apart_write_seed|]. intros v. apply invar_ret.
Qed.
Lemma holds_from_file dir pw seed pws : invar (holds seed pws) (from_file dir pw).
Proof. apply kept_holds, files_from_file. Qed.
(** The file of the seed gives it to the password. *)
Definition seed_file dir pw seed d : Prop :=
  exists c, dk_files d !! seed_path dir = Some c /\ utf8_valid c = true /\ read_seed c pw = Ok seed.
Lemma from_file_Ok dir pw d seed d' :
  from_file dir pw d = (Ok seed, d') -> dk_files d' = dk_files d /\ seed_file dir pw seed d.
Proof.
  intros E. pose proof (leaves_Ok _ _ _ _ _ (files_from_file dir pw) E) as Ef. split; [done|]. unfold from_file in E.
  apply ST_bind_Ok in E as (u & d1 & E1 & E).
  pose proof (leaves_Ok _ _ _ _ _ (files_context _ _ (files_create_dir dir)) E1) as Ef1.
  apply ST_bind_Ok in E as (there & d2 & E2 & E). destruct (exists_path_run (seed_path dir) d1) as (b & E3 & _).
  rewrite E3 in E2. injection E2 as <- <-. destruct b; [|done].
  apply ST_bind_Ok in E as (c & d3 & E4 & E). apply liftS_Ok in E as [E ->]. exists c.
  unfold contextS in E4. destruct (read_to_string (seed_path dir) d1) as [[c'|e|e] d4] eqn:E5; [|done..].
  injection E4 as -> ->. unfold read_to_string in E5. apply ST_bind_Ok in E5 as (v & d5 & E6 & E5).
  pose proof (leaves_Ok _ _ _ _ _ files_io E6) as Ef6. apply ST_bind_Ok in E5 as (o & d6 & E7 & E5).
  apply getS_Ok in E7 as [-> ->]. apply liftS_Ok in E5 as [E5 ->]. apply ok_or_Ok in E5. rewrite Ef6, Ef1 in E5.
  destruct (dk_files d !! seed_path dir) as [c0|]; [|done]. cbn in E5. unfold from_utf8 in E5.
  destruct (utf8_valid c0) eqn:Eu; [|done]. by injection E5 as ->.
Qed.
Lemma delete_nothing dir d :
  dk_files d !! seed_path dir = None -> dk_files (delete_seed_file dir d).2 = dk_files d.
Proof.
  intros Hn. unfold delete_seed_file. destruct (exists_path_run (seed_path dir) d) as (b & E & _).
  rewrite (ST_bind_run _ _ _ _ _ E). unfold whenS. destruct b; [|done].
  unfold contextS, remove_file. destruct (io d) as [[u|e|e] d1] eqn:E1; pose proof (files_io d) as El; rewrite E1 in El; cbn in El.
  2, 3: unfold mbind, ST_bind; by rewrite E1.
  rewrite (ST_bind_run _ _ _ _ _ E1). erewrite ST_bind_run by reflexivity. by rewrite El, Hn.
Qed.

(** Only the file of the seed is written. *)
Lemma files_but {A X} (g : gmap string string -> X) (m : D A) : leaves dk_files m -> leaves (fun d => g (dk_files d)) m.
Proof. intros Hm d. by rewrite Hm. Qed.
Lemma write_seed_but dir x pw f : f <> seed_path dir -> leaves (fun d => dk_files d !! f) (write_seed dir x pw).
Proof.
  intros Hf. assert (Hset : forall c d, dk_files (set_dk_files (<[seed_path dir := c]> (dk_files d)) d) !! f = dk_files d !! f).
  { intros c d. by apply lookup_insert_ne. }
  assert (Hctx : forall A e (m : D A), leaves (fun d => dk_files d !! f) m -> leaves (fun d => dk_files d !! f) (contextS e m)).
  { intros A e m Hm d. specialize (Hm d). unfold contextS. by destruct (m d) as [[] d']. }
  unfold write_seed. apply leaves_bind; [apply (files_but (lookup f)), files_seal|]. intros e.
  apply leaves_bind; [|intros u]; apply Hctx.
  - unfold file_create. apply leaves_bind; [apply (files_but (lookup f)), files_io|]. intros u.
    apply leaves_bind; [apply leaves_get|]. intros s. case_bool_decide; [by apply leaves_modify|apply leaves_lift].
  - unfold write_all. apply leaves_bind; [apply (files_but (lookup f)), files_drawD|]. intros n. destruct (io_fails n).
    + apply leaves_bind; [by apply leaves_modify|]. intros v. apply leaves_lift.
    + by apply leaves_modify.
Qed.
Lemma init_file_but dir n phrase pw test f :
  f <> seed_path dir -> leaves (fun d => dk_files d !! f) (init_file dir n phrase pw test).
Proof.
  intros Hf. unfold init_file. apply leaves_bind; [apply (files_but (lookup f)), files_context, files_create_dir|]. intros u.
  apply leaves_bind; [apply leaves_get|]. intros b. destruct (b && negb test); [apply leaves_lift|].
  apply leaves_bind; [|intros s; apply leaves_bind; [by apply write_seed_but|intros v; apply leaves_ret]].
  destruct phrase; [apply leaves_lift|apply (files_but (lookup f)), files_init_new].
Qed.
Lemma remove_file_cases path d :
  dk_files (remove_file path d).2 = dk_files d
  \/ dk_files (remove_file path d).2 = delete path (dk_files d).
Proof.
  unfold remove_file. destruct (io d) as [[u|e|e] d1] eqn:E1; pose proof (files_io d) as El; rewrite E1 in El; cbn in El.
  2, 3: left; unfold mbind, ST_bind; by rewrite E1.
  rewrite (ST_bind_run _ _ _ _ _ E1). erewrite ST_bind_run by reflexivity. rewrite <- El.
  destruct (dk_files d1 !! path); [by right|by left].
Qed.
End lost.

(** ** What is written is read *)
Section written.
Context `{BuildProfile, DiskFaults, SC : SeedCrates, HexCrate, !SeedLaws, !HexLaws}.
Implicit Types (d : Disk) (dir seed : string).

Lemma contextS_Ok {S A} e (m : ST S A) s a s' : contextS e m s = (Ok a, s') <-> m s = (Ok a, s').
Proof. unfold contextS. destruct (m s) as [[x|x|x] s1]; split; intros E; by simplify_eq. Qed.

Lemma write_seed_Ok dir seed pw d u d' : write_seed dir seed pw d = (Ok u, d') -> seed_file dir pw seed d'.
Proof.
  unfold write_seed. intros E. apply ST_bind_Ok in E as (e & d1 & E1 & E). apply ST_bind_Ok in E as (v & d2 & E2 & E).
  apply contextS_Ok in E. unfold write_all in E. apply ST_bind_Ok in E as (n & d3 & E3 & E).
  destruct (io_fails n); [by apply ST_bind_Ok in E as (? & ? & _ & [=])|]. apply modifyS_Ok in E as [_ ->].
  exists (ews_to_json e). cbn. rewrite lookup_insert_eq. split_and!; [done|apply ews_utf8|]. unfold read_seed. rewrite ews_json.
  cbn [ok_or mbind Res_bind]. by eapply decrypt_sealed.
Qed.
Lemma init_file_Ok dir n phrase pw test d seed d' :
  init_file dir n phrase pw test d = (Ok seed, d') ->
  seed_file dir pw seed d' /\ (forall p, phrase = Some p -> from_mnemonic p = Ok seed)
  /\ (test = false -> dk_files d !! seed_path dir = None).
Proof.
  unfold init_file. intros E. apply ST_bind_Ok in E as (u & d1 & E1 & E). apply contextS_Ok in E1.
  pose proof (leaves_Ok _ _ _ _ _ (files_create_dir dir) E1) as Ef.
  apply ST_bind_Ok in E as (b & d2 & E2 & E). destruct (seed_file_exists_run dir d1) as (b' & E3 & Hb). rewrite E3 in E2.
  injection E2 as <- <-. destruct (b' && negb test) eqn:Ebt; [done|].
  apply ST_bind_Ok in E as (s & d3 & E4 & E). apply ST_bind_Ok in E as (v & d4 & E5 & E). apply mretS_Ok in E as [-> ->].
  split_and!; [by eapply write_seed_Ok| |].
  - intros p ->. by apply liftS_Ok in E4 as [-> _].
  - intros ->. rewrite andb_true_r in Ebt. rewrite <- Ef. by apply Hb.
Qed.
Lemma seed_file_holds dir pw seed d : seed_file dir pw seed d -> holds seed [pw] d.
Proof. intros (c & Hc & _ & Hr). exists (seed_path dir), c, pw. split; [by left|done]. Qed.
End written.

(** ** When the disk does not fail *)
Section smooth.
Context `{BuildProfile, DiskFaults, SC : SeedCrates, HexCrate, !SeedLaws, !HexLaws}.
Implicit Types (d : Disk) (dir seed : string).

Definition disk_works : Prop := forall n, io_fails n = false.
Definition next_tape d : Disk := set_dk_tape (draw (dk_tape d)).2 d.
Lemma drawD_run d : exists n, drawD d = (Ok n, next_tape d).
Proof. by eexists. Qed.
Lemma io_run d : disk_works -> io d = (Ok tt, next_tape d).
Proof. intros Hw. unfold io. destruct (drawD_run d) as [n E]. by rewrite (ST_bind_run _ _ _ _ _ E), Hw. Qed.

Lemma ancestors_last up rest : up +:+ rest ∈ ancestors up rest.
Proof.
  revert up. induction rest as [|c rest IH]; intros up; cbn [ancestors]; [rewrite append_nil_r; by left|].
  specialize (IH (up +:+ String c "")). rewrite append_assoc in IH. destruct (Ascii.eqb c "/"); [by right|done].
Qed.
Lemma ancestors_short up rest x : x ∈ ancestors up rest -> (String.length x <= String.length (up +:+ rest))%nat.
Proof.
  revert up. induction rest as [|c rest IH]; intros up Hx; cbn [ancestors] in Hx.
  - apply list_elem_of_singleton in Hx as ->. by rewrite append_nil_r.
  - assert (E : String.length (up +:+ String c rest) = String.length ((up +:+ String c "") +:+ rest)) by by rewrite append_assoc.
    rewrite E. destruct (Ascii.eqb c "/"); [|by apply IH]. apply elem_of_cons in Hx as [->|Hx]; [|by apply IH].
    rewrite !length_append. lia.
Qed.
Lemma seed_no_ancestor dir : seed_path dir ∉ ancestors "" dir.
Proof.
  intros Hx%ancestors_short. unfold seed_path in Hx. rewrite !length_append in Hx.
  change (String.length "/") with 1%nat in Hx. change (String.length "") with 0%nat in Hx. lia.
Qed.
(** A directory has what is written below it, and not the name of its seed. *)
Definition ready dir d : Prop := dir ∈ dk_dirs d /\ seed_path dir ∉ dk_dirs d.
Lemma create_dir_run dir d :
  disk_works -> exists d', create_dir_all dir d = (Ok tt, d') /\ dk_files d' = dk_files d /\ dir ∈ dk_dirs d'
    /\ (seed_path dir ∉ dk_dirs d -> ready dir d').
Proof.
  intros Hw. unfold create_dir_all. rewrite (ST_bind_run _ _ _ _ _ (io_run d Hw)). eexists. split; [done|]. split; [done|].
  assert (Hin : dir ∈ (list_to_set (ancestors "" dir) : gset string) ∪ dk_dirs d).
  { apply elem_of_union_l, elem_of_list_to_set. apply (ancestors_last "" dir). }
  split; [exact Hin|]. intros Hn. split; [exact Hin|]. cbn. intros [Hx%elem_of_list_to_set|Hx]%elem_of_union; [|done].
  by apply seed_no_ancestor in Hx.
Qed.
Lemma from_file_run dir pw seed d :
  disk_works -> seed_file dir pw seed d ->
  exists d', from_file dir pw d = (Ok seed, d') /\ dk_files d' = dk_files d /\ (seed_path dir ∉ dk_dirs d -> ready dir d').
Proof.
  intros Hw (c & Hc & Hu & Hr). unfold from_file. destruct (create_dir_run dir d Hw) as (d1 & E1 & Ef & _ & Hdir).
  rewrite (ST_bind_run _ _ _ _ _ (proj2 (contextS_Ok IO _ _ _ _) E1)). rewrite <- Ef in Hc |- *.
  destruct (exists_path_run (seed_path dir) d1) as (b & E2 & Hb). rewrite (ST_bind_run _ _ _ _ _ E2).
  assert (b = true) as -> by (apply Hb; left; by eexists).
  assert (E3 : read_to_string (seed_path dir) d1 = (Ok c, next_tape d1)).
  { unfold read_to_string. rewrite (ST_bind_run _ _ _ _ _ (io_run d1 Hw)). erewrite ST_bind_run by reflexivity.
    cbn [next_tape dk_files set_dk_tape]. rewrite Hc. cbn. unfold from_utf8. by rewrite Hu. }
  rewrite (ST_bind_run _ _ _ _ _ (proj2 (contextS_Ok IO _ _ _ _) E3)). exists (next_tape d1). unfold liftS. by rewrite Hr.
Qed.

Definition seals : Prop := forall key nonce plain, is_Some (seal_append_tag key nonce plain).
Lemma write_seed_run dir seed pw d :
  disk_works -> seals -> dir ∈ dk_dirs d -> exists d', write_seed dir seed pw d = (Ok tt, d').
Proof.
  intros Hw Hs Hdir. unfold write_seed, ews_from_seed.
  destruct (drawD_run d) as [s Es]. destruct (drawD_run (next_tape d)) as [n En].
  destruct (Hs (pbkdf2_derive (be_bytes 8 s) pw) (be_bytes 12 n) seed) as [enc Ee].
  erewrite ST_bind_run. 2:{ rewrite (ST_bind_run _ _ _ _ _ Es), (ST_bind_run _ _ _ _ _ En), Ee. done. }
  set (d2 := next_tape (next_tape d)).
  assert (E3 : file_create dir (seed_path dir) d2
    = (Ok tt, set_dk_files (<[seed_path dir := ""]> (dk_files d)) (next_tape d2))).
  { unfold file_create. rewrite (ST_bind_run _ _ _ _ _ (io_run d2 Hw)). erewrite ST_bind_run by reflexivity.
    by rewrite bool_decide_eq_true_2. }
  rewrite (ST_bind_run _ _ _ _ _ (proj2 (contextS_Ok IO _ _ _ _) E3)). eexists. apply contextS_Ok. unfold write_all.
  match goal with |- (_ ≫= _) ?x = _ => destruct (drawD_run x) as [m Em] end. by rewrite (ST_bind_run _ _ _ _ _ Em), Hw.
Qed.
Lemma rename_run from to c d :
  disk_works -> dk_files d !! from = Some c ->
  rename from to d = (Ok tt, set_dk_files (<[to := c]> (delete from (dk_files d))) (next_tape d)).
Proof.
  intros Hw Hc. unfold rename. rewrite (ST_bind_run _ _ _ _ _ (io_run d Hw)). erewrite ST_bind_run by reflexivity.
  cbn [next_tape dk_files set_dk_tape]. by rewrite Hc.
Qed.
Lemma backup_seed_run dir c d :
  disk_works -> dk_files d !! seed_path dir = Some c ->
  exists name d', backup_seed dir d = (Ok name, d') /\ dk_dirs d' = dk_dirs d.
Proof.
  intros Hw Hc. unfold backup_seed. erewrite ST_bind_run by reflexivity.
  destruct (backup_name_found dir d) as (name & E & _). rewrite (ST_bind_run _ _ _ _ _ E).
  exists name. eexists. split; [|].
  - by rewrite (ST_bind_run _ _ _ _ _ (proj2 (contextS_Ok _ _ _ _ _) (rename_run _ name c d Hw Hc))).
  - done.
Qed.
Lemma remove_file_run path c d :
  disk_works -> dk_files d !! path = Some c ->
  remove_file path d = (Ok tt, set_dk_files (delete path (dk_files d)) (next_tape d)).
Proof.
  intros Hw Hc. unfold remove_file. rewrite (ST_bind_run _ _ _ _ _ (io_run d Hw)). erewrite ST_bind_run by reflexivity.
  cbn [next_tape dk_files set_dk_tape]. by rewrite Hc.
Qed.

(** A phrase that stands for no seed is found out too late: the seed that is there has been
    moved away by then, and the wallet does not open any more. *)
Theorem bad_phrase_hides_seed dir phrase pw c d :
  disk_works -> dk_files d !! seed_path dir = Some c -> dir ∈ dk_dirs d -> to_entropy phrase = None ->
  exists d', recover_from_phrase dir phrase pw d = (Err "Mnemonic", d')
    /\ forall pw', is_ok (from_file dir pw' d').1 = false.
Proof.
  intros Hw Hc Hdir Hp. unfold recover_from_phrase. destruct (exists_path_run (seed_path dir) d) as (b & E & Hb).
  unfold seed_file_exists. rewrite (ST_bind_run _ _ _ _ _ E). assert (b = true) as -> by (apply Hb; left; by eexists).
  destruct (backup_seed_run dir c d Hw Hc) as (name & d1 & E1 & Ed).
  cbn [whenS]. erewrite ST_bind_run by (by rewrite (ST_bind_run _ _ _ _ _ E1)).
  destruct (exists_path_run dir d1) as (b1 & E2 & Hb1). rewrite (ST_bind_run _ _ _ _ _ E2).
  assert (b1 = true) as -> by (apply Hb1; right; by rewrite Ed). cbn [negb].
  exists d1. unfold from_mnemonic. rewrite Hp. split; [done|]. intros pw'.
  apply backup_Ok in E1 as (c' & _ & _ & Ef & Hne). destruct (from_file dir pw' d1) as [[s|e|e] d2] eqn:E3; [|done..].
  apply from_file_Ok in E3 as (_ & c2 & Hc2 & _). by rewrite Ef, lookup_insert_ne, lookup_delete_eq in Hc2 by congruence.
Qed.

Lemma init_file_run dir n phrase pw seed d :
  disk_works -> seals -> from_mnemonic phrase = Ok seed -> dk_files d !! seed_path dir = None -> seed_path dir ∉ dk_dirs d ->
  exists d', init_file dir n (Some phrase) pw false d = (Ok seed, d').
Proof.
  intros Hw Hs Hp Hn Hnd. unfold init_file. destruct (create_dir_run dir d Hw) as (d1 & E1 & Ef & _ & Hr).
  destruct (Hr Hnd) as [Hdir Hnd1].
  rewrite (ST_bind_run _ _ _ _ _ (proj2 (contextS_Ok IO _ _ _ _) E1)).
  destruct (exists_path_run (seed_path dir) d1) as (b & E2 & Hb). unfold seed_file_exists. rewrite (ST_bind_run _ _ _ _ _ E2).
  destruct b. { destruct (proj1 Hb eq_refl) as [[c Hc]|Hc]; [by rewrite Ef, Hn in Hc|done]. }
  cbn [andb]. rewrite Hp. erewrite ST_bind_run by reflexivity. destruct (write_seed_run dir seed pw d1 Hw Hs Hdir) as [d2 E3].
  rewrite (ST_bind_run _ _ _ _ _ E3). by eexists.
Qed.
Lemma delete_nothing_run dir d :
  dk_files d !! seed_path dir = None -> seed_path dir ∉ dk_dirs d -> delete_seed_file dir d = (Ok tt, d).
Proof.
  intros Hn Hnd. unfold delete_seed_file. destruct (exists_path_run (seed_path dir) d) as (b & E & Hb).
  rewrite (ST_bind_run _ _ _ _ _ E). destruct b; [|done]. destruct (proj1 Hb eq_refl) as [[c Hc]|Hc]; [by rewrite Hn in Hc|done].
Qed.
End smooth.
