(* ===== verification/Lifecycle.v ===== *)
(** * The life of a wallet (impls/src/lifecycle/default.rs)

    [DefaultLCProvider]: creating, opening and closing a wallet, its recovery phrase, its
    password, and its end.  Below the top level directory a wallet has a seed file and a
    data base with the files of its transactions, a [store]; the wallet that is open works on
    the store of its directory, or, after that was removed, on one that nobody else sees. *)
From S2P Require Import Prelude.
From S2P Require Import RustStd.
From S2P Require Import Crates.
From S2P Require Import Effects.
From S2P Require Import Slate.
From S2P Require Import SlateBin.
From S2P Require Import StateM.
From S2P Require Import Wallet.
From S2P Require Import Address.
From S2P Require Import Selection.
From S2P Require Import WalletTx.
From S2P Require Import Seed.
From S2P Require Import Slatepack.
From S2P Require Import Armor.
From S2P Require Import Updater.
From S2P Require Import Scan.
From S2P Require Import Owner.
From S2P Require Import Packer.
From S2P Require Import Invariant.
From Stdlib Require Import Ascii.
#[local] Open Scope Z_scope.

(** [PathBuf::push] of a relative name. *)
Definition ends_with_slash (s : string) : bool :=
  match String.length s with O => true | S n => bool_decide (String.get n s = Some "/"%char) end.
Definition path_push (dir name : string) : string := if ends_with_slash dir then dir +:+ name else dir +:+ "/" +:+ name.
Definition GRIN_WALLET_DIR : string := "wallet_data".
Definition DB_DIR : string := "db".
Definition TX_SAVE_DIR : string := "saved_txs".

(** Is the path the directory, or below it? *)
Definition below (dir path : string) : bool := bool_decide (path = dir) || starts_with (path_push dir "") path.

Section lifecycle.
Context `{BuildProfile, GC : GrinCrates, !BinCrates, !WalletCrates, !HexCrate, !DiskFaults, !SeedCrates}.

(** [K::from_seed] *)
Class SeedKeychain := derive_keychain : string -> Res Keychain.

Record Store := mkStore { st_db : Db; st_files : gmap string string }.
Record Provider := mkProvider {
  pr_data_dir : string;
  pr_disk : Disk;
  pr_stores : gmap string Store;
  pr_backend : option (option string * Wallet) }.   (* the directory of its store, while that is there *)
#[local] Abbreviation L := (ST Provider).
Definition set_pr_data_dir s (p : Provider) : Provider := mkProvider s (pr_disk p) (pr_stores p) (pr_backend p).
Definition set_pr_disk d (p : Provider) : Provider := mkProvider (pr_data_dir p) d (pr_stores p) (pr_backend p).
Definition set_pr_stores m (p : Provider) : Provider := mkProvider (pr_data_dir p) (pr_disk p) m (pr_backend p).
Definition set_pr_backend b (p : Provider) : Provider := mkProvider (pr_data_dir p) (pr_disk p) (pr_stores p) b.

Definition DefaultLCProvider_new (disk : Disk) (stores : gmap string Store) : Provider :=
  mkProvider "default" disk stores None.

Definition on_disk {A} (m : D A) : L A := fun p => let '(r, d) := m (pr_disk p) in (r, set_pr_disk d p).

(** ** Stores *)
Definition is_attached (dir : string) (p : Provider) : bool :=
  match pr_backend p with Some (Some d, _) => bool_decide (d = dir) | _ => false end.
Definition get_store (dir : string) (p : Provider) : Store :=
  match pr_backend p with
  | Some (Some d, w) => if bool_decide (d = dir) then mkStore (wa_db w) (wa_files w)
                        else default (mkStore empty_db ∅) (pr_stores p !! dir)
  | _ => default (mkStore empty_db ∅) (pr_stores p !! dir)
  end.
(** What is written to a store is seen by the wallet that has it open. *)
Definition put_store (dir : string) (s : Store) (p : Provider) : Provider :=
  match pr_backend p with
  | Some (Some d, w) =>
      if bool_decide (d = dir) then set_pr_backend (Some (Some d, set_wa_files (st_files s) (set_wa_db (st_db s) w))) p
      else set_pr_stores (<[dir := s]> (pr_stores p)) p
  | _ => set_pr_stores (<[dir := s]> (pr_stores p)) p
  end.
(** The wallet that was open gives its store back. *)
Definition put_back (p : Provider) : Provider :=
  match pr_backend p with
  | Some (Some d, w) => set_pr_backend None (set_pr_stores (<[d := mkStore (wa_db w) (wa_files w)]> (pr_stores p)) p)
  | Some (None, _) => set_pr_backend None p
  | None => p
  end.

(** A wallet's method, with the tape of the disk. *)
Definition on_wallet {A} (w : Wallet) (m : ST Wallet A) : L (A * Wallet) := fun p =>
  let '(r, w') := m (set_wa_tape (dk_tape (pr_disk p)) w) in
  let p' := set_pr_disk (set_dk_tape (wa_tape w') (pr_disk p)) p in
  match r with
  | Ok a => (Ok (a, w'), p')
  | Err e => (Err e, p')
  | Panic e => (Panic e, p')
  end.

(** [.expect(msg)] *)
Definition expectS {S A} (msg : string) (m : ST S A) : ST S A := fun s =>
  match m s with
  | (Err e, s') => (Panic (msg +:+ ": " +:+ e), s')
  | r => r
  end.

(** [LMDBBackend::new], with one failure for all that LMDB may have. *)
Definition LMDBBackend_open (dir : string) : L Wallet :=
  _ ← expectS "Couldn't create wallet backend directory!" (on_disk (create_dir_all (path_push dir DB_DIR)));
  _ ← expectS "Couldn't create wallet backend tx storage directory!" (on_disk (create_dir_all (path_push dir TX_SAVE_DIR)));
  _ ← on_disk io;
  s ← getS (get_store dir);
  let w := LMDBBackend_new (st_db s) (st_files s) (MkTape (fun _ => 0) 0) in
  _ ← modifyS (put_store dir (mkStore (wa_db w) (wa_files w)));
  mret w.

(** ** The provider *)
Definition wallet_dir : L string := getS (fun p => path_push (pr_data_dir p) GRIN_WALLET_DIR).
Definition lifecycle (what : string) : string := "Lifecycle(" +:+ what +:+ ")".
(** The wallet, opened for the caller: an error says what was tried. *)
Definition open_backend (what dir : string) : L Wallet := fun p =>
  match LMDBBackend_open dir p with
  | (Err e, p') => (Err (lifecycle (what +:+ e +:+ ", Data Dir: " +:+ dir)), p')
  | r => r
  end.

Definition set_top_level_directory (dir : string) : L unit := modifyS (set_pr_data_dir dir).
Definition get_top_level_directory : L string := getS pr_data_dir.

Definition create_wallet (mnemonic : option string) (mnemonic_length : nat) (password : string) (test_mode : bool) :
    L unit :=
  dir ← wallet_dir;
  exists_ ← on_disk (seed_file_exists dir);
  if negb test_mode && exists_ then errS ("WalletSeedExists(Wallet seed already exists at: " +:+ dir +:+ ")")
  else
    _ ← contextS (lifecycle "Error creating wallet seed (is mnemonic valid?)")
          (on_disk (init_file dir mnemonic_length mnemonic password test_mode));
    wallet ← open_backend "Error creating wallet: " dir;
    let status := match mnemonic with Some _ => InitNeedsScanning | None => InitNoScanning end in
    '(_, wallet) ← on_wallet wallet (with_batch_no_mask (_ ← save_init_status status; commit));
    modifyS (put_store dir (mkStore (wa_db wallet) (wa_files wallet))).

Definition open_wallet `{!SeedKeychain} (password : string) (create_mask use_test_rng : bool) : L (option SecretKey) :=
  dir ← wallet_dir;
  wallet ← open_backend "Error opening wallet: " dir;
  wallet_seed ← contextS (lifecycle "Error opening wallet (is password correct?)") (on_disk (from_file dir password));
  k ← contextS (lifecycle "Error deriving keychain") (liftS (derive_keychain wallet_seed));
  '(mask, wallet) ← on_wallet wallet (set_keychain k create_mask use_test_rng);
  _ ← modifyS (fun p => set_pr_backend (Some (Some dir, wallet)) (put_back p));
  mret mask.

Definition close_wallet : L unit :=
  b ← getS pr_backend;
  _ ← match b with
      | Some (d, w) =>
          '(_, w) ← on_wallet w close;
          modifyS (set_pr_backend (Some (d, w)))
      | None => mret tt
      end;
  modifyS put_back.

Definition wallet_exists : L bool := dir ← wallet_dir; on_disk (seed_file_exists dir).

Definition get_mnemonic (password : string) : L string :=
  dir ← wallet_dir;
  wallet_seed ← contextS (lifecycle "Error opening wallet seed file") (on_disk (from_file dir password));
  contextS (lifecycle "Error recovering wallet seed") (liftS (to_mnemonic wallet_seed)).

Definition validate_mnemonic (mnemonic : string) : Res unit :=
  match from_mnemonic mnemonic with
  | Err _ => Err "GenericError(Validating mnemonic)"
  | Ok _ => Ok tt
  | Panic e => Panic e
  end.

Definition recover_from_mnemonic (mnemonic password : string) : L unit :=
  dir ← wallet_dir;
  contextS (lifecycle "Error recovering from mnemonic") (on_disk (recover_from_phrase dir mnemonic password)).

(** The result of writing the seed again is not looked at, but what can be read then. *)
Definition change_seed_password (dir old new : string) : D unit :=
  orig_wallet_seed ← contextS (lifecycle "Error opening wallet seed file") (from_file dir old);
  orig_mnemonic ← contextS (lifecycle "Error recovering mnemonic") (liftS (to_mnemonic orig_wallet_seed));
  backup_name ← contextS (lifecycle "Error temporarily backing up existing seed") (backup_seed dir);
  _ ← contextS (lifecycle "Unable to delete seed file for password change") (delete_seed_file dir);
  _ ← attemptS (init_file dir 0 (Some orig_mnemonic) new false);
  new_wallet_seed ← contextS (lifecycle "Error opening wallet seed file") (from_file dir new);
  if negb (bool_decide (orig_wallet_seed = new_wallet_seed))
  then errS (lifecycle "New and Old wallet seeds are not equal on password change, not removing backups.")
  else contextS IO (remove_file backup_name).
Definition change_password (old new : string) : L unit :=
  dir ← wallet_dir; on_disk (change_seed_password dir old new).

(** [fs::remove_dir_all], which takes everything or nothing. *)
Definition remove_dir_all (dir : string) : L unit :=
  _ ← on_disk io;
  dirs ← getS (fun p => dk_dirs (pr_disk p));
  if negb (bool_decide (dir ∈ dirs)) then errS IO
  else modifyS (fun p =>
    let d := pr_disk p in
    let gone := below dir in
    mkProvider (pr_data_dir p)
      (mkDisk (filter (fun x => gone x = false) (dk_dirs d)) (filter (fun x => gone x.1 = false) (dk_files d)) (dk_tape d))
      (filter (fun x => gone x.1 = false) (pr_stores p))
      (match pr_backend p with
       | Some (Some x, w) => if gone x then Some (None, w) else Some (Some x, w)
       | b => b
       end)).
Definition delete_wallet : L unit := dir ← getS pr_data_dir; contextS IO (remove_dir_all dir).

(** A method of the wallet that is open. *)
Definition wallet_inst {A} (m : ST Wallet A) : L A :=
  b ← getS pr_backend;
  match b with
  | None => errS (lifecycle "Wallet has not been opened")
  | Some (d, w) => fun p =>
      let '(r, w') := m (set_wa_tape (dk_tape (pr_disk p)) w) in
      (r, set_pr_backend (Some (d, w')) (set_pr_disk (set_dk_tape (wa_tape w') (pr_disk p)) p))
  end.
End lifecycle.

(** ** Lemmas: what the operations leave of the disk *)
Section disk.
Context `{BuildProfile, GC : GrinCrates, !BinCrates, !WalletCrates, !HexCrate, !DiskFaults, SC : !SeedCrates, !SeedKeychain,
  !SeedLaws, !HexLaws}.
Implicit Types (p : Provider) (seed dir : string) (pws : list string).

Definition secure seed pws p : Prop := holds seed pws (pr_disk p).

Lemma secure_on_disk {A} seed pws (m : D A) : invar (holds seed pws) m -> invar (secure seed pws) (on_disk m).
Proof. intros Hm p Hp. unfold on_disk. specialize (Hm (pr_disk p) Hp). by destruct (m (pr_disk p)). Qed.
Lemma secure_expect {A} seed pws msg (m : ST Provider A) : invar (secure seed pws) m -> invar (secure seed pws) (expectS msg m).
Proof. intros Hm p Hp. specialize (Hm p Hp). unfold expectS. by destruct (m p) as [[] p']. Qed.
Lemma secure_modify seed pws f : (forall p, pr_disk (f p) = pr_disk p) -> invar (secure seed pws) (modifyS f).
Proof. intros Hf. apply invar_modify. intros p Hp. unfold secure. by rewrite Hf. Qed.
Lemma put_store_disk dir s p : pr_disk (put_store dir s p) = pr_disk p.
Proof. unfold put_store. destruct (pr_backend p) as [[[d|] w]|]; [|done..]. by case_bool_decide. Qed.
Lemma put_back_disk p : pr_disk (put_back p) = pr_disk p.
Proof. unfold put_back. by destruct (pr_backend p) as [[[d|] w]|]. Qed.
Lemma secure_on_wallet {A} seed pws w (m : ST Wallet A) : invar (secure seed pws) (on_wallet w m).
Proof. intros p Hp. unfold on_wallet. by destruct (m _) as [[a|e|e] w']. Qed.
Lemma secure_wallet_inst {A} seed pws (m : ST Wallet A) : invar (secure seed pws) (wallet_inst m).
Proof.
  unfold wallet_inst. apply invar_bind; [apply invar_get|]. intros [[d w]|]; [|apply invar_lift]. intros p Hp.
  by destruct (m _) as [r w'].
Qed.
Lemma secure_open seed pws what dir : invar (secure seed pws) (open_backend what dir).
Proof.
  assert (Hm : invar (secure seed pws) (LMDBBackend_open dir)).
  { unfold LMDBBackend_open. do 2 (apply invar_bind; [apply secure_expect, secure_on_disk, kept_holds, files_create_dir|intros ?]).
    apply invar_bind; [apply secure_on_disk, kept_holds, files_io|intros ?]. apply invar_bind; [apply invar_get|intros s].
    apply invar_bind; [apply secure_modify, put_store_disk|intros ?]. apply invar_ret. }
  intros p Hp. specialize (Hm p Hp). unfold open_backend. by destruct (LMDBBackend_open dir p) as [[] p'].
Qed.

(** ** Changing the password *)
(** The seed is read with the new password, and the backup is removed. *)
Lemma holds_confirm dir old new orig name c seed pws d :
  new ∈ pws -> name <> seed_path dir -> read_seed c old = Ok orig ->
  holds seed pws d -> dk_files d !! name = Some c ->
  holds seed pws ((new_wallet_seed ← contextS (lifecycle "Error opening wallet seed file") (from_file dir new);
    if negb (bool_decide (orig = new_wallet_seed))
    then errS (lifecycle "New and Old wallet seeds are not equal on password change, not removing backups.")
    else contextS IO (remove_file name)) d).2.
Proof.
  intros Hnew Hne Er Hd Hb. pose proof (holds_from_file dir new seed pws d Hd) as Hd1.
  unfold mbind, ST_bind. unfold contextS at 1. destruct (from_file dir new d) as [[s|e|e] d1] eqn:E; [|done..].
  apply from_file_Ok in E as (Ef & c' & Ec & _ & Er'). destruct (decide (orig = s)) as [->|Hns].
  2: by rewrite bool_decide_eq_false_2.
  rewrite bool_decide_eq_true_2 by done. cbn [negb]. rewrite <- Ef in Hb, Ec.
  assert (E2 : (contextS IO (remove_file name) d1).2 = (remove_file name d1).2).
  { unfold contextS. by destruct (remove_file name d1) as [[] d2]. }
  rewrite E2. unfold holds. destruct (remove_file_cases name d1) as [->| ->]; [done|].
  destruct Hd1 as (f & cf & pw & Hp & Hf & Hr). destruct (decide (f = name)) as [->|Hfn].
  - cbn in Hf. rewrite Hb in Hf. injection Hf as <-. pose proof (read_seed_one _ _ _ _ _ Hr Er) as ->.
    exists (seed_path dir), c', new. by rewrite lookup_delete_ne.
  - exists f, cf, pw. by rewrite lookup_delete_ne.
Qed.
Lemma holds_change dir old new seed pws : new ∈ pws -> invar (holds seed pws) (change_seed_password dir old new).
Proof.
  intros Hnew. unfold change_seed_password.
  apply invar_bind_Ok; [apply invar_context, holds_from_file|]. intros d0 orig d Hd0 E1. apply contextS_Ok in E1.
  apply from_file_Ok in E1 as (Ef1 & c & Ec & _ & Er). assert (Hd : holds seed pws d) by (unfold holds in *; by rewrite Ef1).
  rewrite <- Ef1 in Ec. clear d0 Hd0 Ef1. revert d Hd Ec. intros d Hd Ec.
  destruct (to_mnemonic orig) as [phrase|e|e]; [|done..]. erewrite ST_bind_run by reflexivity.
  pose proof (holds_backup dir seed pws d Hd) as Hd1. unfold mbind at 1, ST_bind at 1. unfold contextS at 1.
  destruct (backup_seed dir d) as [[name|e|e] d1] eqn:E2; [|done..]. cbn in Hd1.
  apply backup_Ok in E2 as (c' & _ & Ec' & Ef2 & Hne). rewrite Ec in Ec'. injection Ec' as <-.
  assert (Hb : dk_files d1 !! name = Some c) by (rewrite Ef2; apply lookup_insert_eq).
  assert (Hs : dk_files d1 !! seed_path dir = None) by (rewrite Ef2, lookup_insert_ne by congruence; apply lookup_delete_eq).
  clear d Hd Ec Ef2. pose proof (delete_nothing dir d1 Hs) as Ef3. unfold mbind at 1, ST_bind at 1. unfold contextS at 1.
  assert (Hd2 : holds seed pws (delete_seed_file dir d1).2) by (unfold holds in *; by rewrite Ef3).
  rewrite <- Ef3 in Hb. destruct (delete_seed_file dir d1) as [[u|e|e] d2]; [|done..]. cbn in Hb, Hd2. clear d1 Hd1 Hs Ef3.
  pose proof (holds_init_file dir 0 (Some phrase) new seed pws d2 Hd2) as Hd3.
  pose proof (init_file_but dir 0 (Some phrase) new false name Hne d2) as Hb3. cbn beta in Hb3. rewrite Hb in Hb3.
  unfold mbind at 1, ST_bind at 1. unfold attemptS at 1.
  destruct (init_file dir 0 (Some phrase) new false d2) as [[s|e|e] d3]; [by eapply holds_confirm..|done].
Qed.

Lemma secure_create seed pws phrase n pw : invar (secure seed pws) (create_wallet phrase n pw false).
Proof.
  unfold create_wallet. apply invar_bind; [apply invar_get|intros dir].
  apply invar_bind; [apply secure_on_disk, kept_holds, files_exists|intros b]. destruct (negb false && b); [apply invar_lift|].
  apply invar_bind; [apply invar_context, secure_on_disk, holds_init_file|intros s].
  apply invar_bind; [apply secure_open|intros w]. apply invar_bind; [apply secure_on_wallet|intros [u w']].
  apply secure_modify, put_store_disk.
Qed.
Lemma secure_open_wallet seed pws pw mask rng : invar (secure seed pws) (open_wallet pw mask rng).
Proof.
  unfold open_wallet. apply invar_bind; [apply invar_get|intros dir]. apply invar_bind; [apply secure_open|intros w].
  apply invar_bind; [apply invar_context, secure_on_disk, holds_from_file|intros s].
  apply invar_bind; [apply invar_context, invar_lift|intros k]. apply invar_bind; [apply secure_on_wallet|intros [m w']].
  apply invar_bind; [apply secure_modify; intros p; cbn; apply put_back_disk|intros u]. apply invar_ret.
Qed.
Lemma secure_close seed pws : invar (secure seed pws) close_wallet.
Proof.
  unfold close_wallet. apply invar_bind; [apply invar_get|intros b]. apply invar_bind; [|intros u; apply secure_modify, put_back_disk].
  destruct b as [[d w]|]; [|apply invar_ret]. apply invar_bind; [apply secure_on_wallet|intros [v w']]. by apply secure_modify.
Qed.
Lemma secure_mnemonic seed pws pw : invar (secure seed pws) (get_mnemonic pw).
Proof.
  unfold get_mnemonic. apply invar_bind; [apply invar_get|intros dir].
  apply invar_bind; [apply invar_context, secure_on_disk, holds_from_file|intros s]. apply invar_context, invar_lift.
Qed.
Lemma secure_recover seed pws phrase pw : invar (secure seed pws) (recover_from_mnemonic phrase pw).
Proof.
  unfold recover_from_mnemonic. apply invar_bind; [apply invar_get|intros dir].
  apply invar_context, secure_on_disk, holds_recover.
Qed.
Lemma secure_password seed pws old new : new ∈ pws -> invar (secure seed pws) (change_password old new).
Proof.
  intros Hn. unfold change_password. apply invar_bind; [apply invar_get|intros dir].
  by apply secure_on_disk, holds_change.
Qed.
End disk.

(** ** A life *)
Section life.
Context `{BuildProfile, GC : GrinCrates, !BinCrates, !WalletCrates, !AddressCrates, !SlatepackCrates, !ArmorCrates,
  !SlatepackJson, !HexCrate, !NodeClient, !DalekCrates, !ScanCrates, !OwnerCrates, !DiskFaults, SC : !SeedCrates, !SeedKeychain}.
Implicit Types (p : Provider) (seed dir : string).

(** What may happen to wallets below the directories their owner names; tests apart. *)
Inductive Event :=
| ECreate (mnemonic : option string) (length : nat) (password : string)
| EOpen (password : string) (create_mask use_test_rng : bool)
| EClose
| EExists
| EMnemonic (password : string)
| ERecover (mnemonic password : string)
| EPassword (old new : string)
| EDirectory (dir : string)
| EDelete
| ECommand (mask : option SecretKey) (c : Command).
Definition perform (e : Event) : ST Provider unit :=
  match e with
  | ECreate phrase n pw => create_wallet phrase n pw false
  | EOpen pw mask rng => _ ← open_wallet pw mask rng; mret tt
  | EClose => close_wallet
  | EExists => _ ← wallet_exists; mret tt
  | EMnemonic pw => _ ← get_mnemonic pw; mret tt
  | ERecover phrase pw => recover_from_mnemonic phrase pw
  | EPassword old new => change_password old new
  | EDirectory dir => set_top_level_directory dir
  | EDelete => delete_wallet
  | ECommand mask c => wallet_inst (run mask c)
  end.
Definition live p (e : Event) : Provider := (perform e p).2.
(** The passwords that are given to protect a seed. *)
Definition passwords (e : Event) : list string :=
  match e with ECreate _ _ pw | ERecover _ pw | EPassword _ pw => [pw] | _ => [] end.

Lemma live_secure `{!SeedLaws, !HexLaws} seed pws p e :
  e <> EDelete -> secure seed pws p -> secure seed (pws ++ passwords e) (live p e).
Proof.
  intros He Hp. assert (Hp' : secure seed (pws ++ passwords e) p) by (eapply holds_more; [|exact Hp]; set_solver).
  clear Hp. revert p Hp'. change (invar (secure seed (pws ++ passwords e)) (perform e)). destruct e; cbn [perform].
  - apply secure_create.
  - apply invar_bind; [apply secure_open_wallet|intros x; apply invar_ret].
  - apply secure_close.
  - apply invar_bind; [|intros x; apply invar_ret]. unfold wallet_exists. apply invar_bind; [apply invar_get|intros dir].
    apply secure_on_disk, kept_holds, files_exists.
  - apply invar_bind; [apply secure_mnemonic|intros x; apply invar_ret].
  - apply secure_recover.
  - apply secure_password. cbn. set_solver.
  - by apply secure_modify.
  - done.
  - apply secure_wallet_inst.
Qed.

(** C16: A seed is never lost.  Once a wallet has been created, whatever its owner does, short of
    deleting it, in whatever order, and whichever operations on the disk fail, also half
    way: some file gives the seed of the wallet, which is that of the recovery phrase when one was
    given, to one of the passwords that were set. *)
Theorem seed_never_lost `{!SeedLaws, !HexLaws} phrase n pw p p' es :
  create_wallet phrase n pw false p = (Ok tt, p') -> EDelete ∉ es ->
  exists seed, (forall m, phrase = Some m -> from_mnemonic m = Ok seed)
    /\ holds seed (pw :: mjoin (passwords <$> es)) (pr_disk (foldl live p' es)).
Proof.
  intros E He. unfold create_wallet in E. apply ST_bind_Ok in E as (dir & p1 & E1 & E). apply getS_Ok in E1 as [-> ->].
  set (dir := path_push _ _) in E.
  apply ST_bind_Ok in E as (b & p2 & E2 & E). destruct (negb false && b); [done|].
  apply ST_bind_Ok in E as (seed & p3 & E3 & E). apply contextS_Ok in E3. unfold on_disk in E3.
  destruct (init_file dir n phrase pw false (pr_disk p2)) as [r d] eqn:E4. injection E3 as -> <-.
  apply init_file_Ok in E4 as (Hseed & Hphrase & _). exists seed. split; [done|].
  assert (Hp' : secure seed [pw] p').
  { apply seed_file_holds in Hseed. assert (K3 : secure seed [pw] (set_pr_disk d p2)) by exact Hseed.
    pose proof (secure_open seed [pw] "Error creating wallet: " dir _ K3) as K4.
    apply ST_bind_Ok in E as (w & p4 & E5 & E). rewrite E5 in K4. cbn in K4.
    apply ST_bind_Ok in E as ([u w'] & p5 & E6 & E).
    assert (K5 : secure seed [pw] p5).
    { match type of E6 with on_wallet _ ?m _ = _ => pose proof (secure_on_wallet seed [pw] w m _ K4) as K5 end.
      by rewrite E6 in K5. }
    apply modifyS_Ok in E as [_ ->]. unfold secure. by rewrite put_store_disk. }
  clear E. change (secure seed (pw :: mjoin (passwords <$> es)) (foldl live p' es)).
  change (pw :: ?l) with ([pw] ++ l). revert p' Hp' He. generalize [pw]. induction es as [|e es IH]; intros pws p' Hp' He; cbn.
  { by rewrite app_nil_r. }
  rewrite app_assoc. apply IH; [|set_solver]. apply live_secure; [set_solver|done].
Qed.
End life.

(** ** The password *)
Section password.
Context `{BuildProfile, HexCrate, DiskFaults, SC : SeedCrates, !SeedLaws, !HexLaws}.
Implicit Types (d : Disk) (dir seed : string).

Lemma remove_file_Ok path d u d' : remove_file path d = (Ok u, d') -> dk_files d' = delete path (dk_files d).
Proof.
  unfold remove_file. intros E. apply ST_bind_Ok in E as (v & d1 & E1 & E).
  pose proof (leaves_Ok _ _ _ _ _ files_io E1) as Ef. apply ST_bind_Ok in E as (o & d2 & E2 & E).
  apply getS_Ok in E2 as [_ ->]. apply ST_bind_Ok in E as (c & d3 & E3 & E). apply liftS_Ok in E3 as [_ ->].
  apply modifyS_Ok in E as [_ ->]. cbn. by rewrite Ef.
Qed.
Lemma delete_seed_run dir d u d' :
  dk_files d !! seed_path dir = None -> delete_seed_file dir d = (Ok u, d') -> dk_files d' = dk_files d.
Proof. intros Hn E. pose proof (delete_nothing dir d Hn) as Ef. by rewrite E in Ef. Qed.

(** C17: Changing the password.  When it succeeds, the old password did give the seed, the seed
    can be read with the new one, and no other file of the disk is any different: the backup that
    was made on the way is gone.  It does succeed with the right password as long as the disk does
    not fail, the seed has a recovery phrase, and a file and not a directory has its name. *)
Theorem password_change_exact dir old new d :
  (forall d', change_seed_password dir old new d = (Ok tt, d') ->
     exists seed c, dk_files d !! seed_path dir = Some c /\ read_seed c old = Ok seed
       /\ seed_file dir new seed d' /\ forall f, f <> seed_path dir -> dk_files d' !! f = dk_files d !! f)
  /\ (forall seed, disk_works -> seals -> seed_file dir old seed d -> is_Some (from_entropy seed) ->
       seed_path dir ∉ dk_dirs d -> exists d', change_seed_password dir old new d = (Ok tt, d')).
Proof.
  split.
  - intros d' E. unfold change_seed_password in E. apply ST_bind_Ok in E as (seed & d1 & E1 & E).
    apply contextS_Ok, from_file_Ok in E1 as (Ef1 & c & Hc & _ & Hr).
    apply ST_bind_Ok in E as (phrase & d2 & E2 & E). apply contextS_Ok, liftS_Ok in E2 as [_ ->].
    apply ST_bind_Ok in E as (name & d3 & E3 & E). apply contextS_Ok, backup_Ok in E3 as (c' & Hfree & Hc' & Ef3 & Hne).
    apply ST_bind_Ok in E as (u & d4 & E4 & E). apply contextS_Ok, delete_seed_run in E4.
    2:{ rewrite Ef3, lookup_insert_ne by congruence. apply lookup_delete_eq. }
    apply ST_bind_Ok in E as (r & d5 & E5 & E).
    assert (Hbut : forall f, f <> seed_path dir -> dk_files d5 !! f = dk_files d4 !! f).
    { intros f Hf. refine (leaves_Ok (fun d => dk_files d !! f) _ _ _ _ _ E5). by apply leaves_attempt, init_file_but. }
    apply ST_bind_Ok in E as (s & d6 & E6 & E). apply contextS_Ok, from_file_Ok in E6 as (Ef6 & c6 & Hc6 & Hu6 & Hr6).
    case_bool_decide as Heq; [|done]. subst s. cbn [negb] in E. apply contextS_Ok, remove_file_Ok in E.
    exists seed, c. split_and!; [done..| |].
    + exists c6. rewrite E, lookup_delete_ne by done. rewrite Ef6. done.
    + intros f Hf. rewrite E. destruct (decide (f = name)) as [->|Hfn].
      * rewrite lookup_delete_eq. symmetry. apply eq_None_not_Some. intros Hs. apply Hfree. left. by rewrite Ef1.
      * rewrite lookup_delete_ne, Ef6, Hbut, E4, Ef3, lookup_insert_ne, lookup_delete_ne, Ef1 by congruence. done.
  - intros seed Hw Hs Hold [phrase Hp] Hnd. unfold change_seed_password.
    destruct (from_file_run dir old seed d Hw Hold) as (d1 & E1 & Ef1 & Hdir1). destruct (Hdir1 Hnd) as [_ Hnd1].
    rewrite (ST_bind_run _ _ _ _ _ (proj2 (contextS_Ok _ _ _ _ _) E1)). unfold to_mnemonic. rewrite Hp.
    erewrite ST_bind_run by reflexivity. destruct Hold as (c & Hc & _). rewrite <- Ef1 in Hc.
    destruct (backup_seed_run dir c d1 Hw Hc) as (name & d2 & E2 & Ed2).
    rewrite (ST_bind_run _ _ _ _ _ (proj2 (contextS_Ok _ _ _ _ _) E2)). apply backup_Ok in E2 as (c' & Hfree & _ & Ef2 & Hne).
    assert (Hn2 : dk_files d2 !! seed_path dir = None) by (rewrite Ef2, lookup_insert_ne by congruence; apply lookup_delete_eq).
    rewrite <- Ed2 in Hnd1.
    rewrite (ST_bind_run _ _ _ _ _ (proj2 (contextS_Ok _ _ _ _ _) (delete_nothing_run dir d2 Hn2 Hnd1))).
    assert (Hm : from_mnemonic phrase = Ok seed) by (unfold from_mnemonic; by rewrite (entropy_phrase _ _ Hp)).
    destruct (init_file_run dir 0 phrase new seed d2 Hw Hs Hm Hn2 Hnd1) as [d3 E3].
    rewrite (ST_bind_run _ _ _ _ _ (proj2 (attemptS_inl _ _ _ _) E3)).
    pose proof (init_file_but dir 0 (Some phrase) new false name Hne d2) as Hb3. rewrite E3 in Hb3. cbn [snd] in Hb3.
    apply init_file_Ok in E3 as (Hnew & _). destruct (from_file_run dir new seed d3 Hw Hnew) as (d4 & E4 & Ef4 & _).
    rewrite (ST_bind_run _ _ _ _ _ (proj2 (contextS_Ok _ _ _ _ _) E4)). rewrite bool_decide_eq_true_2 by done. cbn [negb].
    eexists. apply contextS_Ok. apply (remove_file_run name c'); [done|]. rewrite Ef4, Hb3, Ef2. apply lookup_insert_eq.
Qed.
End password.

(** ** The stores *)
Section stores.
Context `{BuildProfile, GC : GrinCrates, !BinCrates, !WalletCrates, !AddressCrates, !SlatepackCrates, !ArmorCrates,
  !SlatepackJson, !HexCrate, !NodeClient, !DalekCrates, !ScanCrates, !OwnerCrates, !DiskFaults, SC : !SeedCrates, !SeedKeychain}.
Implicit Types (p : Provider) (w : Wallet) (dir : string).

(** Every store is well-formed, and so is the wallet that is open. *)
Definition sound p : Prop :=
  map_Forall (fun _ s => wf (st_db s)) (pr_stores p)
  /\ match pr_backend p with Some (_, w) => well_formed w | None => True end.

Lemma get_store_wf dir p : sound p -> wf (st_db (get_store dir p)).
Proof.
  intros [Hs Hb]. assert (Hd : wf (st_db (default (mkStore empty_db ∅) (pr_stores p !! dir)))).
  { destruct (pr_stores p !! dir) as [s|] eqn:E; cbn; [by apply (Hs _ _ E)|apply empty_well_formed]. }
  unfold get_store. destruct (pr_backend p) as [[[d|] w]|]; [|done..]. case_bool_decide; [|done]. apply Hb.
Qed.
Lemma sound_put_store dir s p : wf (st_db s) -> sound p -> sound (put_store dir s p).
Proof.
  intros Hw [Hs Hb]. unfold put_store. destruct (pr_backend p) as [[[d|] w]|] eqn:E.
  - case_bool_decide.
    + split; [done|]. cbn. destruct Hb as [Hb _]. by split.
    + split; [by apply map_Forall_insert_2|]. cbn. by rewrite E.
  - split; [by apply map_Forall_insert_2|]. cbn. by rewrite E.
  - split; [by apply map_Forall_insert_2|]. cbn. by rewrite E.
Qed.
Lemma sound_put_back p : sound p -> sound (put_back p) /\ pr_backend (put_back p) = None.
Proof.
  intros [Hs Hb]. unfold put_back. destruct (pr_backend p) as [[[d|] w]|] eqn:E; [| |by split; [split; [|rewrite E]|]].
  - split; [|done]. split; [|done]. apply map_Forall_insert_2; [apply Hb|done].
  - by split.
Qed.
Lemma sound_on_disk {A} (m : D A) : invar sound (on_disk m).
Proof. intros p Hp. unfold on_disk. by destruct (m (pr_disk p)). Qed.
Lemma sound_expect {A} msg (m : ST Provider A) : invar sound m -> invar sound (expectS msg m).
Proof. intros Hm p Hp. specialize (Hm p Hp). unfold expectS. by destruct (m p) as [[] p']. Qed.
Lemma on_disk_sound {A} (m : D A) p a p' : on_disk m p = (Ok a, p') -> sound p -> sound p'.
Proof. intros E Hp. pose proof (sound_on_disk m p Hp) as Hs. by rewrite E in Hs. Qed.

Lemma expectS_Ok {S A} msg (m : ST S A) s a s' : expectS msg m s = (Ok a, s') <-> m s = (Ok a, s').
Proof. unfold expectS. destruct (m s) as [[x|x|x] s1]; split; intros E; by simplify_eq. Qed.
Lemma open_Ok what dir p w p' :
  open_backend what dir p = (Ok w, p') ->
  exists p1, (sound p -> sound p1) /\ pr_backend p1 = pr_backend p /\ pr_stores p1 = pr_stores p
    /\ dk_files (pr_disk p1) = dk_files (pr_disk p) /\ pr_data_dir p1 = pr_data_dir p
    /\ w = LMDBBackend_new (st_db (get_store dir p1)) (st_files (get_store dir p1)) (MkTape (fun _ => 0) 0)
    /\ p' = put_store dir (mkStore (wa_db w) (wa_files w)) p1.
Proof.
  unfold open_backend. destruct (LMDBBackend_open dir p) as [[w'|e|e] p2] eqn:E; [|done..]. intros [= -> ->].
  assert (Hd : forall A (m : D A) q a q', leaves dk_files m -> on_disk m q = (Ok a, q') -> (sound q -> sound q')
    /\ pr_backend q' = pr_backend q /\ pr_stores q' = pr_stores q /\ dk_files (pr_disk q') = dk_files (pr_disk q)
    /\ pr_data_dir q' = pr_data_dir q).
  { intros A m q a q' Hm Em. split; [by eapply on_disk_sound|]. unfold on_disk in Em. specialize (Hm (pr_disk q)).
    destruct (m (pr_disk q)) as [rr d']. by injection Em as -> <-. }
  unfold LMDBBackend_open in E. apply ST_bind_Ok in E as (u1 & p3 & E1 & E). apply expectS_Ok, Hd in E1; [|apply files_create_dir].
  apply ST_bind_Ok in E as (u2 & p4 & E2 & E). apply expectS_Ok, Hd in E2; [|apply files_create_dir].
  apply ST_bind_Ok in E as (u3 & p5 & E3 & E). apply Hd in E3; [|apply files_io].
  apply ST_bind_Ok in E as (s & p6 & E4 & E). apply getS_Ok in E4 as [-> ->].
  apply ST_bind_Ok in E as (u4 & p7 & E5 & E). apply modifyS_Ok in E5 as [_ ->]. apply mretS_Ok in E as [-> ->].
  destruct E1 as (S1 & B1 & T1 & F1 & D1), E2 as (S2 & B2 & T2 & F2 & D2), E3 as (S3 & B3 & T3 & F3 & D3).
  exists p5. split_and!; [auto|congruence..|done|done].
Qed.
Lemma sound_open what dir : invar sound (open_backend what dir).
Proof.
  assert (Hs : invar sound (LMDBBackend_open dir)).
  { unfold LMDBBackend_open. do 2 (apply invar_bind; [apply sound_expect, sound_on_disk|intros ?]).
    apply invar_bind; [apply sound_on_disk|intros ?]. apply invar_bind_Ok; [apply invar_get|].
    intros p1 s p2 Hp1 [-> ->]%getS_Ok. erewrite ST_bind_run by reflexivity. apply sound_put_store; [|done].
    cbn [st_db]. apply (opened_well_formed _ (st_files (get_store dir p1)) (MkTape (fun _ => 0) 0)). by apply get_store_wf. }
  intros p Hp. specialize (Hs p Hp). unfold open_backend. by destruct (LMDBBackend_open dir p) as [[] p'].
Qed.
Lemma sound_open_then {A} what dir (k : Wallet -> ST Provider A) :
  (forall w, well_formed w -> invar sound (k w)) -> invar sound (open_backend what dir ≫= k).
Proof.
  intros Hk. apply invar_bind_Ok; [apply sound_open|]. intros p w p' Hp E.
  pose proof (sound_open what dir p Hp) as Hp'. rewrite E in Hp'. apply Hk; [|done].
  apply open_Ok in E as (p1 & S1 & _ & _ & _ & _ & -> & _). apply opened_well_formed, get_store_wf, S1, Hp.
Qed.

(** A method that keeps a wallet well-formed, on a wallet. *)
Definition keeps_wf {A} (m : ST Wallet A) : Prop := forall w, well_formed w -> well_formed (m w).2.
Lemma keeps_good {A} (m : ST Wallet A) : (forall d i, invar (good d i) m) -> keeps_wf m.
Proof.
  intros Hm w [Hb Hw]. destruct (Hm (wa_db w) (wa_parent_key_id w) w) as (_ & Hw' & _ & Hb'); [by split_and!|by split].
Qed.
Lemma keeps_run mask c : keeps_wf (run mask c).
Proof. intros w Hw. exact (proj1 (call_keeps w (mask, c) Hw)). Qed.
Lemma keeps_status v : keeps_wf (with_batch_no_mask (_ ← save_init_status v; commit)).
Proof.
  intros w [Hb Hw]. split; [done|]. cbn. eapply (wf_but_log (wa_db w)); [done..|apply Hw|apply Hw].
Qed.
Lemma sound_on_wallet {A B} w (m : ST Wallet A) (k : A * Wallet -> ST Provider B) :
  well_formed w -> keeps_wf m -> (forall a w', well_formed w' -> invar sound (k (a, w'))) ->
  invar sound (on_wallet w m ≫= k).
Proof.
  intros Hw Hm Hk p Hp. unfold on_wallet, mbind, ST_bind. specialize (Hm (set_wa_tape (dk_tape (pr_disk p)) w) Hw).
  destruct (m _) as [[a|e|e] w']; [|done..]. by apply Hk.
Qed.
Lemma sound_wallet_inst {A} (m : ST Wallet A) : keeps_wf m -> invar sound (wallet_inst m).
Proof.
  intros Hm p Hp. unfold wallet_inst. unfold mbind, ST_bind, getS. destruct (pr_backend p) as [[d w]|] eqn:E; [|done].
  destruct Hp as [Hs Hb]. rewrite E in Hb. specialize (Hm (set_wa_tape (dk_tape (pr_disk p)) w) Hb).
  destruct (m _) as [r w']. by split.
Qed.
Lemma sound_delete dir : invar sound (remove_dir_all dir).
Proof.
  unfold remove_dir_all. apply invar_bind; [apply sound_on_disk|intros u]. apply invar_bind; [apply invar_get|intros s].
  case_bool_decide; cbn [negb]; [|apply invar_lift]. apply invar_modify. intros p [Hs Hb]. split; cbn.
  - intros k st [Hk _]%map_lookup_filter_Some. by apply (Hs k).
  - destruct (pr_backend p) as [[[x|] w]|]; [|done..]. by destruct (below dir x).
Qed.
Lemma live_sound p e : sound p -> sound (live p e).
Proof.
  revert p. change (invar sound (perform e)). destruct e; cbn [perform].
  - unfold create_wallet. apply invar_bind; [apply invar_get|intros dir].
    apply invar_bind; [apply sound_on_disk|intros b]. destruct (negb false && b); [apply invar_lift|].
    apply invar_bind; [apply invar_context, sound_on_disk|intros s]. apply sound_open_then. intros w Hw.
    apply sound_on_wallet; [done|apply keeps_status|]. intros u w' [_ Hw']. apply invar_modify. intros p. by apply sound_put_store.
  - apply invar_bind; [|intros x; apply invar_ret]. unfold open_wallet. apply invar_bind; [apply invar_get|intros dir].
    apply sound_open_then. intros w Hw. apply invar_bind; [apply invar_context, sound_on_disk|intros s].
    apply invar_bind; [apply invar_context, invar_lift|intros k].
    apply sound_on_wallet; [done|apply keeps_good; intros; apply good_keychain|]. intros m w' Hw'.
    apply invar_bind; [|intros u; apply invar_ret]. apply invar_modify. intros p Hp.
    destruct (sound_put_back p Hp) as [[Hs _] _]. by split.
  - unfold close_wallet. apply invar_bind_Ok; [apply invar_get|]. intros p b p' Hp [-> ->]%getS_Ok.
    eapply (invar_bind sound); [| |exact Hp]. 2: { intros u. apply invar_modify. intros q Hq. by apply sound_put_back. }
    destruct (pr_backend p) as [[d w]|] eqn:E; [|apply invar_ret]. destruct Hp as [_ Hb]. rewrite E in Hb.
    apply sound_on_wallet; [done|apply keeps_good; intros; apply good_close|]. intros u w' Hw'.
    apply invar_modify. intros q [Hq _]. by split.
  - apply invar_bind; [|intros x; apply invar_ret]. unfold wallet_exists. apply invar_bind; [apply invar_get|intros dir].
    apply sound_on_disk.
  - apply invar_bind; [|intros x; apply invar_ret]. unfold get_mnemonic. apply invar_bind; [apply invar_get|intros dir].
    apply invar_bind; [apply invar_context, sound_on_disk|intros s]. apply invar_context, invar_lift.
  - unfold recover_from_mnemonic. apply invar_bind; [apply invar_get|intros dir]. apply invar_context, sound_on_disk.
  - unfold change_password. apply invar_bind; [apply invar_get|intros dir]. apply sound_on_disk.
  - by apply invar_modify.
  - unfold delete_wallet. apply invar_bind; [apply invar_get|intros dir]. apply invar_context, sound_delete.
  - apply sound_wallet_inst, keeps_run.
Qed.

(** The whole life of wallets.  Start with a program that knows no wallet and let its owner
    create, open, use, close, move and delete wallets below any directories, in any order, each
    step ending with a result, an error or a panic: the data base of every wallet and the
    wallet that is open are well-formed at every moment. *)
Theorem every_store_well_formed disk es : sound (foldl live (DefaultLCProvider_new disk ∅) es).
Proof.
  assert (Hstart : sound (DefaultLCProvider_new disk ∅)) by (split; [apply map_Forall_empty|done]).
  revert Hstart. generalize (DefaultLCProvider_new disk ∅). induction es as [|e es IH]; intros p Hp; cbn; [done|].
  by apply IH, live_sound.
Qed.
End stores.

(** ** Opening what was created *)
Section reopen.
Context `{BuildProfile, GC : GrinCrates, !BinCrates, !WalletCrates, !AddressCrates, !SlatepackCrates, !ArmorCrates,
  !SlatepackJson, !HexCrate, !NodeClient, !DalekCrates, !ScanCrates, !OwnerCrates, !DiskFaults, SC : !SeedCrates, !SeedKeychain,
  !SeedLaws, !HexLaws}.
Implicit Types (p : Provider) (w : Wallet) (dir seed : string).

Lemma get_put_store dir st p : get_store dir (put_store dir st p) = st.
Proof.
  unfold put_store. destruct (pr_backend p) as [[[d|] w]|] eqn:E; [case_bool_decide as Hd|..]; unfold get_store; cbn;
    rewrite ?E, ?bool_decide_eq_true_2, ?(bool_decide_eq_false_2 _ Hd), ?lookup_insert_eq by done; by destruct st.
Qed.
Lemma put_store_dir dir st p : pr_data_dir (put_store dir st p) = pr_data_dir p.
Proof. unfold put_store. destruct (pr_backend p) as [[[d|] w]|]; [|done..]. by case_bool_decide. Qed.
Lemma get_store_same dir p q : pr_backend q = pr_backend p -> pr_stores q = pr_stores p -> get_store dir q = get_store dir p.
Proof. intros Eb Es. unfold get_store. by rewrite Eb, Es. Qed.
Lemma seed_file_same dir pw seed d d' : dk_files d' = dk_files d -> seed_file dir pw seed d -> seed_file dir pw seed d'.
Proof. intros E. unfold seed_file. by rewrite E. Qed.

(** What is there when a wallet has been created. *)
Definition status_of (phrase : option string) : WalletInitStatus :=
  match phrase with Some _ => InitNeedsScanning | None => InitNoScanning end.
Lemma create_Ok phrase n pw p p' :
  create_wallet phrase n pw false p = (Ok tt, p') ->
  let dir := path_push (pr_data_dir p) GRIN_WALLET_DIR in
  exists seed, (forall m, phrase = Some m -> from_mnemonic m = Ok seed) /\ seed_file dir pw seed (pr_disk p')
    /\ pr_data_dir p' = pr_data_dir p
    /\ db_init_status (st_db (get_store dir p')) !! to_key WALLET_INIT_STATUS WALLET_INIT_STATUS_KEY = Some (status_of phrase).
Proof.
  intros E dir. unfold create_wallet in E. apply ST_bind_Ok in E as (dir' & p1 & E1 & E). apply getS_Ok in E1 as [-> ->].
  fold dir in E. apply ST_bind_Ok in E as (b & p2 & E2 & E). destruct (negb false && b); [done|].
  assert (Hd2 : pr_data_dir p2 = pr_data_dir p).
  { unfold on_disk in E2. destruct (seed_file_exists dir (pr_disk p)). by injection E2 as _ <-. }
  apply ST_bind_Ok in E as (seed & p3 & E3 & E). apply contextS_Ok in E3. unfold on_disk in E3.
  destruct (init_file dir n phrase pw false (pr_disk p2)) as [r d] eqn:E4. injection E3 as -> <-.
  apply init_file_Ok in E4 as (Hseed & Hphrase & _). exists seed. split; [done|].
  apply ST_bind_Ok in E as (w & p4 & E5 & E). apply open_Ok in E5 as (p5 & _ & B5 & S5 & F5 & D5 & Ew & ->).
  apply ST_bind_Ok in E as ([u w'] & p6 & E6 & E). apply modifyS_Ok in E as [_ ->].
  rewrite put_store_disk, get_put_store. unfold on_wallet in E6.
  assert (Hw : w' = set_wa_db (set_db_init_status
     (<[to_key WALLET_INIT_STATUS WALLET_INIT_STATUS_KEY := status_of phrase]> (db_init_status (wa_db w))) (wa_db w)) w'
    /\ p6 = set_pr_disk (set_dk_tape (wa_tape w') (pr_disk (put_store dir (mkStore (wa_db w) (wa_files w)) p5)))
        (put_store dir (mkStore (wa_db w) (wa_files w)) p5)).
  { subst w. cbn in E6. injection E6 as _ <- <-. split; [|done]. unfold status_of. by destruct phrase. }
  destruct Hw as [Hw ->]. split_and!.
  - eapply seed_file_same; [|exact Hseed]. cbn. by rewrite put_store_disk, F5.
  - rewrite put_store_dir. cbn. by rewrite put_store_dir, D5.
  - cbn [st_db]. rewrite Hw. cbn. apply lookup_insert_eq.
Qed.

Lemma on_disk_run {A} (m : D A) p a d : m (pr_disk p) = (Ok a, d) -> on_disk m p = (Ok a, set_pr_disk d p).
Proof. unfold on_disk. by intros ->. Qed.
Lemma open_run what dir p :
  disk_works -> exists d, dk_files d = dk_files (pr_disk p)
    /\ let w := LMDBBackend_new (st_db (get_store dir p)) (st_files (get_store dir p)) (MkTape (fun _ => 0) 0) in
       open_backend what dir p = (Ok w, put_store dir (mkStore (wa_db w) (wa_files w)) (set_pr_disk d p)).
Proof.
  intros Hw. destruct (create_dir_run (path_push dir DB_DIR) (pr_disk p) Hw) as (d1 & E1 & F1 & _).
  destruct (create_dir_run (path_push dir TX_SAVE_DIR) d1 Hw) as (d2 & E2 & F2 & _).
  exists (next_tape d2). split; [by rewrite <- F1, <- F2|]. intros w. unfold open_backend, LMDBBackend_open.
  erewrite ST_bind_run by (apply expectS_Ok; by apply on_disk_run).
  erewrite ST_bind_run by (apply expectS_Ok; by apply on_disk_run).
  erewrite ST_bind_run by (apply on_disk_run; by apply io_run). reflexivity.
Qed.
Definition wallet_opened dir k phrase w : Prop :=
  wa_keychain w = Some k /\ keychain None w = (Ok k, w) /\ wa_parent_key_id w = default_path
  /\ db_init_status (wa_db w) !! to_key WALLET_INIT_STATUS WALLET_INIT_STATUS_KEY = Some (status_of phrase).

Lemma on_wallet_Ok {A} w (m : ST Wallet A) p a w' p' :
  on_wallet w m p = (Ok (a, w'), p') -> m (set_wa_tape (dk_tape (pr_disk p)) w) = (Ok a, w').
Proof. unfold on_wallet. by destruct (m _) as [[x|x|x] w1]; intros [= -> ->]. Qed.
Lemma unmasked_keychain k rng w m w' : set_keychain k false rng w = (Ok m, w') -> wa_keychain w' = Some k.
Proof.
  unfold set_keychain. intros E. apply ST_bind_Ok in E as (root & w1 & _ & E). apply ST_bind_Ok in E as (u & w2 & _ & E).
  apply ST_bind_Ok in E as ([mv k'] & w3 & E3 & E). apply mretS_Ok in E3 as [[= -> ->] ->].
  apply ST_bind_Ok in E as (v & w4 & E4 & E). apply modifyS_Ok in E4 as [_ ->]. by apply mretS_Ok in E as [_ ->].
Qed.

(** A wallet that was created can be opened again.  Its seed is that of the recovery phrase,
    if one was given; as long as the disk does not fail, its password opens it, with the
    keychain of the seed, the default account and the note whether the chain is to be scanned
    for its coins; and no password opens it to another seed. *)
Theorem created_wallet_opens phrase n pw p p' :
  create_wallet phrase n pw false p = (Ok tt, p') ->
  let dir := path_push (pr_data_dir p) GRIN_WALLET_DIR in
  exists seed, (forall m, phrase = Some m -> from_mnemonic m = Ok seed)
    /\ (forall k root rng, disk_works -> derive_keychain seed = Ok k -> kc_root_key k = Ok root ->
         exists w p2, open_wallet pw false rng p' = (Ok None, p2) /\ pr_backend p2 = Some (Some dir, w)
           /\ wallet_opened dir k phrase w)
    /\ (forall pw' rng m p2, open_wallet pw' false rng p' = (Ok m, p2) ->
         exists k w, derive_keychain seed = Ok k /\ pr_backend p2 = Some (Some dir, w) /\ wa_keychain w = Some k).
Proof.
  intros E dir. apply create_Ok in E as (seed & Hphrase & Hseed & Hdir & Hst). exists seed. split; [done|].
  fold dir in Hseed, Hst. split.
  - intros k root rng Hw Hk Hr. unfold open_wallet. erewrite ST_bind_run by reflexivity. rewrite Hdir. fold dir.
    destruct (open_run "Error opening wallet: " dir p' Hw) as (d & Fd & Eo). rewrite (ST_bind_run _ _ _ _ _ Eo). clear Eo.
    set (w := LMDBBackend_new _ _ _). set (p1 := put_store _ _ _).
    assert (Hs1 : seed_file dir pw seed (pr_disk p1)).
    { eapply seed_file_same; [|exact Hseed]. unfold p1. by rewrite put_store_disk. }
    destruct (from_file_run dir pw seed _ Hw Hs1) as (d2 & E2 & _ & _).
    erewrite ST_bind_run by (apply contextS_Ok; by apply on_disk_run).
    erewrite ST_bind_run by (apply contextS_Ok; apply liftS_run; exact Hk).
    set (p2 := set_pr_disk d2 p1). unfold on_wallet.
    assert (Ek : set_keychain k false rng (set_wa_tape (dk_tape (pr_disk p2)) w)
      = (Ok None, set_wa_keychain (Some k) (set_wa_master_checksum (Some (blake2b (sk_bytes root)))
                    (set_wa_tape (dk_tape (pr_disk p2)) w)))).
    { unfold set_keychain. erewrite ST_bind_run by (apply liftS_run; exact Hr). reflexivity. }
    unfold mbind at 1, ST_bind at 1. rewrite Ek. cbv beta iota. erewrite ST_bind_run by reflexivity.
    eexists _, _. split; [reflexivity|]. split; [reflexivity|]. split_and!; [done| |done|].
    + unfold keychain, mbind, ST_bind, getS, liftS. cbn. rewrite Hr. by rewrite bool_decide_eq_true_2.
    + cbn. exact Hst.
  - intros pw' rng m p2 E. unfold open_wallet in E. apply ST_bind_Ok in E as (dir' & p3 & E1 & E).
    apply getS_Ok in E1 as [-> ->]. rewrite Hdir in E. fold dir in E.
    apply ST_bind_Ok in E as (w & p4 & E2 & E). apply open_Ok in E2 as (p5 & _ & _ & _ & F5 & _ & _ & ->).
    apply ST_bind_Ok in E as (s & p6 & E3 & E). apply contextS_Ok in E3. unfold on_disk in E3.
    destruct (from_file dir pw' _) as [r d] eqn:E4. injection E3 as -> _. apply from_file_Ok in E4 as (_ & c & Hc & _ & Hr).
    rewrite put_store_disk, F5 in Hc. destruct Hseed as (c' & Hc' & _ & Hr'). rewrite Hc in Hc'. injection Hc' as <-.
    pose proof (read_seed_one _ _ _ _ _ Hr Hr') as ->.
    apply ST_bind_Ok in E as (k & p7 & E5 & E). apply contextS_Ok, liftS_Ok in E5 as [E5 ->].
    apply ST_bind_Ok in E as ([m' w'] & p8 & E6 & E). apply on_wallet_Ok, unmasked_keychain in E6.
    apply ST_bind_Ok in E as (u & p9 & E7 & E). apply modifyS_Ok in E7 as [_ ->]. apply mretS_Ok in E as [-> ->].
    by exists k, w'.
Qed.
End reopen.
