(* ===== verification/Json.v ===== *)
(** * JSON, JSON-RPC and HTTP of the wallet (impls/src/client_utils)

    [serde_json::Value] is a parameter with what the code uses of it; the derived
    (de)serializers of the types of the repository are parameters of their own.  The client
    of client.rs reads the body of a reply whatever its status is. *)
From S2P Require Import Prelude.
From S2P Require Import RustStd.
From S2P Require Import Effects.
#[local] Open Scope Z_scope.

(** ** serde_json *)
Class JsonCrate := {
  Value : Type;
  Value_eq :: EqDecision Value;
  jnull : Value;
  jbool : bool -> Value;
  jnum : Z -> Value;
  jstr : string -> Value;
  jarr : list Value -> Value;
  jobj : list (string * Value) -> Value;      (* json!({ .. }) *)
  jindex : Value -> string -> Value;          (* v["key"], Null where there is none *)
  jas_str : Value -> option string;
  jis_object : Value -> bool;
  jdisplay : Value -> string;                 (* Display, which is serde_json::to_string *)
  json_from_str : string -> Res Value;
}.
(** Documented behaviour. *)
Class JsonLaws `{JsonCrate} := {
  index_obj l k : jindex (jobj l) k = default jnull (snd <$> find (fun p => bool_decide (p.1 = k)) l);
  index_arr l k : jindex (jarr l) k = jnull;
  index_null k : jindex jnull k = jnull;
  as_str_str s : jas_str (jstr s) = Some s;
  as_str_obj l : jas_str (jobj l) = None;
  as_str_null : jas_str jnull = None;
  is_object_str s : jis_object (jstr s) = false;
  is_object_null : jis_object jnull = false;
  from_display v : json_from_str (jdisplay v) = Ok v;
}.
(** [serde_json::from_value::<T>], with the text of its error. *)
Class FromJson (T : Type) `{JsonCrate} := from_value : Value -> Res T.
Arguments from_value {T _ _} v.
Definition jopt {A} `{JsonCrate} (f : A -> Value) (o : option A) : Value := from_option f jnull o.

(** ** json_rpc.rs *)
Section json_rpc.
Context `{JsonCrate}.

Record Request := mkRequest { rq_method : string; rq_params : Value; rq_id : Value; rq_jsonrpc : option string }.
Record RpcError := mkRpcError { re_code : Z; re_message : string; re_data : option Value }.
Record Response := mkResponse {
  rs_result : option Value; rs_error : option RpcError; rs_id : Value; rs_jsonrpc : option string }.

Definition build_request (name : string) (params : Value) : Request := mkRequest name params (jnum 1) (Some "2.0").

(** The derived forms, and the [Debug] texts that are looked into. *)
Class RpcJson := {
  request_to_string : Request -> string;
  response_from_str : string -> Res Response;
  debug_error : RpcError -> string;
  debug_response : Response -> string;
}.

Definition map_err {A} (f : string -> string) (r : Res A) : Res A :=
  match r with Err e => Err (f e) | _ => r end.
Definition json_error : string -> string := String.append "JSON decode error: ".
Definition rpc_error `{!RpcJson} (e : RpcError) : string := "RPC error response: " +:+ debug_error e.

Definition response_result `{!RpcJson} {T} `{!FromJson T} (r : Response) : Res T :=
  match rs_error r with
  | Some e => Err (rpc_error e)
  | None => map_err json_error (from_value (match rs_result r with Some v => jindex v "Ok" | None => jnull end))
  end.
Definition into_result `{!RpcJson} {T} `{!FromJson T} (r : Response) : Res T :=
  match rs_error r with
  | Some e => Err (rpc_error e)
  | None => response_result r
  end.
End json_rpc.

(** ** client.rs *)
(** [url.parse::<Uri>()] *)
Class UriCrate := valid_uri : string -> bool.

Section client.
Context `{JsonCrate, !RpcJson, UriCrate}.

Record Client := mkClient { cl_use_socks : bool; cl_socks_proxy_addr : option string }.
Definition Client_new : Client := mkClient false None.

Definition request_error (e : string) : string := "Request error: " +:+ e.
Definition set_wire_proxy p (r : WireRequest) : WireRequest :=
  MkWire (wire_url r) (wire_body r) (wire_auth r) (wire_timeout r) p.

(** [build_request] for a POST with this body; the header of the secret is basic authentication. *)
Definition create_post_request (url : string) (api_secret : option string) (body : string) : Res WireRequest :=
  if valid_uri url then Ok (MkWire url body ((fun s => ("grin", Some s)) <$> api_secret) 20 None)
  else Err (request_error ("Invalid url " +:+ url)).

Definition send_request (client : Client) (req : WireRequest) : P string :=
  proxy ← (if cl_use_socks client
           then a ← liftP (ok_or (request_error "Missing Socks proxy address") (cl_socks_proxy_addr client)); mret (Some a)
           else mret None);
  Http (set_wire_proxy proxy req) (fun reply =>
    match reply with
    | WireFail e => errP (request_error ("Cannot make request: " +:+ e))
    | WireBadText e => errP (request_error ("Cannot read response body: " +:+ e))
    | WireText _ content => okP content
    end).

Definition parse_response (data : string) : Res Response :=
  map_err (fun _ => "ResponseError error: Cannot parse response") (response_from_str data).
Definition client_post (client : Client) (url : string) (api_secret : option string) (input : Request) : P Response :=
  req ← liftP (create_post_request url api_secret (request_to_string input));
  data ← send_request client req;
  liftP (parse_response data).

(** ** Lemmas *)
(** Bind on a program that ends. *)
Lemma finish_bind {A B} (p : P A) (k : A -> P B) w r w' :
  finish p w = (Done r, w') ->
  finish (p ≫= k) w = match r with
                      | Ok a => finish (k a) w'
                      | Err e => (Done (Err e), w')
                      | Panic e => (Done (Panic e), w')
                      end.
Proof. intros E. unfold mbind, P_bind. rewrite finish_pbind, E. cbn. by destruct r. Qed.

Definition reply_text (reply : WireReply) : Res string :=
  match reply with
  | WireFail e => Err (request_error ("Cannot make request: " +:+ e))
  | WireBadText e => Err (request_error ("Cannot read response body: " +:+ e))
  | WireText _ content => Ok content
  end.
(** One request leaves, and the text of the reply is the result, whatever its status. *)
Lemma finish_send_request client req w :
  cl_use_socks client = false ->
  let wire := set_wire_proxy None req in
  finish (send_request client req) w = (Done (reply_text (answer w wire)), log (EvHttp wire) w).
Proof. intros E wire. unfold send_request. rewrite E. cbn. unfold wire. by destruct (answer w _). Qed.

Definition rpc_wire (url : string) (api_secret : option string) (input : Request) : WireRequest :=
  MkWire url (request_to_string input) ((fun s => ("grin", Some s)) <$> api_secret) 20 None.
Lemma finish_post url secret input w :
  valid_uri url = true ->
  finish (client_post Client_new url secret input) w
  = (Done (t ← reply_text (answer w (rpc_wire url secret input)); parse_response t),
     log (EvHttp (rpc_wire url secret input)) w).
Proof.
  intros Hu. unfold client_post, create_post_request. rewrite Hu. erewrite finish_bind by reflexivity. cbv beta iota.
  erewrite finish_bind by (by apply finish_send_request). cbv beta iota.
  change (set_wire_proxy None _) with (rpc_wire url secret input). by destruct (answer w _).
Qed.
End client.
