(* ===== verification/NodeHttp.v ===== *)
(** * The wallet's node client (impls/src/node_clients/http.rs)

    Each method is a program that posts JSON-RPC requests to the node; [http_node] is the
    class [NodeClient] of the wallet that they make.  Many outputs are asked for in
    several requests, whose replies come in any order. *)
From S2P Require Import Prelude.
From S2P Require Import RustStd.
From S2P Require Import Crates.
From S2P Require Import Effects.
From S2P Require Import Slate.
From S2P Require Import SlateV4.
From S2P Require Import SlateBin.
From S2P Require Import StateM.
From S2P Require Import Wallet.
From S2P Require Import Address.
From S2P Require Import Selection.
From S2P Require Import Updater.
From S2P Require Import Scan.
From S2P Require Import Json.
#[local] Open Scope Z_scope.

(** ** Data: types.rs of libwallet, resp_types.rs, and grin_api's replies *)
Record NodeVersionInfo := mkNodeVersionInfo {
  nvi_node_version : string; nvi_block_header_version : Z; nvi_verified : option bool }.
Record GetTipResp := mkGetTipResp {
  gt_height : Z; gt_last_block_pushed : string; gt_prev_block_to_last : string; gt_total_difficulty : Z }.
Record GetVersionResp := mkGetVersionResp { gv_node_version : string; gv_block_header_version : Z }.

Section types.
Context `{GrinTypes}.
Record LocatedTxKernel := mkLocatedTxKernel { lk_tx_kernel : TxKernel; lk_height : Z; lk_mmr_index : Z }.
Inductive OutputType := OutputCoinbase | OutputTransaction.
Record OutputPrintable := mkOutputPrintable {
  op_output_type : OutputType;
  op_commit : Commitment;
  op_spent : bool;
  op_proof : option string;
  op_block_height : option Z;
  op_mmr_index : Z }.
Record OutputListing := mkOutputListing {
  ol_highest_index : Z; ol_last_retrieved_index : Z; ol_outputs : list OutputPrintable }.
End types.

(** The forms of what is sent and received, and the proof of an output; the environment; the order
    in which the replies of the [n]-th batch come in. *)
Class NodeJson `{GrinTypes, JsonCrate} := {
  version_from_value :: FromJson GetVersionResp;
  tip_from_value :: FromJson GetTipResp;
  kernel_from_value :: FromJson LocatedTxKernel;
  outputs_from_value :: FromJson (list OutputPrintable);
  listing_from_value :: FromJson OutputListing;
  value_from_value :: FromJson Value;
  tx_to_value : Transaction -> Value;
  output_range_proof : OutputPrintable -> Res RangeProof;
  debug_output : OutputPrintable -> string;
  debug_commit : Commitment -> string;
  grin_output_query_size : option string;
  completion : Z -> nat -> list nat;
}.
Class NodeJsonLaws `{NodeJson} := completion_perm n k : completion n k ≡ₚ seq 0 k.

(** [str::contains] *)
Definition str_contains (s sub : string) : bool := bool_decide (is_Some (String.index 0 sub s)).
(** [slice::chunks] *)
Fixpoint chunk_list {A} (fuel size : nat) (l : list A) : list (list A) :=
  match fuel, l with
  | _, [] => []
  | O, _ => []
  | S fuel', _ => take size l :: chunk_list fuel' size (drop size l)
  end.
Definition chunks {A} (size : Z) (l : list A) : Res (list (list A)) :=
  if size =? 0 then Panic "chunk size must be non-zero" else Ok (chunk_list (length l) (Z.to_nat size) l).

Section code.
Context `{GC : GrinCrates, !HexCrate, !JsonCrate, !RpcJson, !UriCrate, !NodeJson}.

Definition ENDPOINT : string := "/v2/foreign".
Record HTTPNodeClient := mkHTTPNodeClient {
  hn_node_url : string; hn_node_api_secret : option string; hn_node_version_info : option NodeVersionInfo }.
Implicit Types (self : HTTPNodeClient).
Definition HTTPNodeClient_new (node_url : string) (node_api_secret : option string) : HTTPNodeClient :=
  mkHTTPNodeClient node_url node_api_secret None.
Definition set_node_url (url : string) self := mkHTTPNodeClient url (hn_node_api_secret self) (hn_node_version_info self).
Definition set_node_api_secret (s : option string) self := mkHTTPNodeClient (hn_node_url self) s (hn_node_version_info self).
Definition set_version_info (v : option NodeVersionInfo) self :=
  mkHTTPNodeClient (hn_node_url self) (hn_node_api_secret self) v.

(** [ErrorKind::ClientCallback], as it is displayed. *)
Definition client_callback (report : string) : string := "Client Callback Error: " +:+ report.
Definition foreign_url self : string := hn_node_url self +:+ ENDPOINT.
Definition call_node self (method : string) (params : Value) : P Response :=
  client_post Client_new (foreign_url self) (hn_node_api_secret self) (build_request method params).

(** The report of a call that failed, and of a reply that cannot be used. *)
Definition error_calling (method e : string) : string := client_callback ("Error calling " +:+ method +:+ ": " +:+ e).
Definition unable_to_parse (method e : string) : string :=
  client_callback ("Unable to parse response for " +:+ method +:+ ": " +:+ e).
Definition send_json_request {T} `{!FromJson T} self (method : string) (params : Value) : P T :=
  inner ← pmap (map_err (error_calling method)) (call_node self method params);
  liftP (map_err (unable_to_parse method) (into_result inner)).

Definition get_version_info self : P (option NodeVersionInfo * HTTPNodeClient) :=
  match hn_node_version_info self with
  | Some v => mret (Some v, self)
  | None =>
      pmap (fun r => match r with
                     | Ok n =>
                         let retval := mkNodeVersionInfo (gv_node_version n) (gv_block_header_version n) (Some true) in
                         Ok (Some retval, set_version_info (Some retval) self)
                     | Err e =>
                         if str_contains e "404" then Ok (Some (mkNodeVersionInfo "1.0.0" 1 (Some false)), self)
                         else Ok (None, self)
                     | Panic e => Panic e
                     end)
        (send_json_request (T := GetVersionResp) self "get_version" jnull)
  end.

Definition node_post_tx self (tx : Transaction) (fluff : bool) : P unit :=
  _ ← send_json_request (T := Value) self "push_transaction" (jarr [tx_to_value tx; jbool fluff]);
  mret tt.

Definition node_get_chain_tip self : P (Z * string) :=
  result ← send_json_request (T := GetTipResp) self "get_tip" jnull;
  mret (gt_height result, gt_last_block_pushed result).

Definition kernel_of_response (inner : Response) : Res (option (TxKernel * Z * Z)) :=
  match into_result (T := LocatedTxKernel) inner with
  | Ok r => Ok (Some (lk_tx_kernel r, lk_height r, lk_mmr_index r))
  | Err e => if str_contains (debug_response inner) "NotFound" then Ok None else Err (unable_to_parse "get_kernel" e)
  | Panic e => Panic e
  end.
Definition node_get_kernel self (excess : Commitment) (min_height max_height : option Z) :
    P (option (TxKernel * Z * Z)) :=
  let params := jarr [jstr (hex_encode (commit_bytes excess)); jopt jnum min_height; jopt jnum max_height] in
  inner ← pmap (map_err (error_calling "get_kernel")) (call_node self "get_kernel" params);
  liftP (kernel_of_response inner).

(** *** Outputs by commitment *)
Definition chunk_default : Z := 500.
Definition chunk_size : Z :=
  match grin_output_query_size with
  | Some s => match parse_u64 s with Ok c => c | _ => chunk_default end
  | None => chunk_default
  end.
Definition outputs_params (chunk : list string) : Value :=
  jarr [jarr (jstr <$> chunk); jnull; jnull; jbool false; jbool false].
(** Every request is sent; each has its own result. *)
Fixpoint post_all self (params : list Value) : P (list (Res Response)) :=
  match params with
  | [] => mret []
  | p :: params' =>
      r ← pmap Ok (call_node self "get_outputs" p);
      rs ← post_all self params';
      mret (r :: rs)
  end.
(** [try_collect]: the first error in the order of completion. *)
Fixpoint try_collect {A} (l : list (Res A)) : Res (list A) :=
  match l with
  | [] => Ok []
  | r :: l' => a ← r; rest ← try_collect l'; Ok (a :: rest)
  end.
Definition arrange {A} (order : list nat) (l : list A) : list A := omap (fun i => l !! i) order.

Fixpoint parse_outputs (resps : list Response) : Res (list OutputPrintable) :=
  match resps with
  | [] => Ok []
  | r :: resps' =>
      outs ← map_err (unable_to_parse "get_outputs") (into_result (T := list OutputPrintable) r);
      rest ← parse_outputs resps';
      Ok (outs ++ rest)
  end.
Definition outputs_map (results : list OutputPrintable) : Res ApiOutputs :=
  res_fold (fun api_outputs out =>
    match op_block_height out with
    | Some h => Ok (map_insert (op_commit out) (hex_encode (commit_bytes (op_commit out)), h, op_mmr_index out) api_outputs)
    | None => Err (client_callback ("Missing block height for output " +:+ debug_commit (op_commit out)))
    end) [] results.

Definition node_get_outputs self (wallet_outputs : list Commitment) : P ApiOutputs :=
  match wallet_outputs with
  | [] => mret []
  | _ =>
      let query_params := (fun c => hex_encode (commit_bytes c)) <$> wallet_outputs in
      cs ← liftP (chunks chunk_size query_params);
      replies ← post_all self (outputs_params <$> cs);
      n ← local draw;
      resps ← liftP (map_err (fun e => client_callback ("Getting outputs by id: " +:+ e))
                       (try_collect (arrange (completion n (length replies)) replies)));
      results ← liftP (parse_outputs resps);
      liftP (outputs_map results)
  end.

(** *** Outputs by index *)
Definition chain_output (out : OutputPrintable) : Res ChainOutput :=
  let is_coinbase := match op_output_type out with OutputCoinbase => true | OutputTransaction => false end in
  range_proof ← map_err (fun e => client_callback ("Unexpected error in returned output (missing range proof): "
                  +:+ debug_commit (op_commit out) +:+ ". " +:+ debug_output out +:+ ", " +:+ e)) (output_range_proof out);
  block_height ← ok_or (client_callback ("Unexpected error in returned output (missing block height): "
                  +:+ debug_commit (op_commit out) +:+ ". " +:+ debug_output out)) (op_block_height out);
  Ok (op_commit out, range_proof, is_coinbase, block_height, op_mmr_index out).
Definition node_get_outputs_by_pmmr_index self (start_index : Z) (end_index : option Z) (max_outputs : Z) :
    P (Z * Z * list ChainOutput) :=
  let params := jarr [jnum start_index; jopt jnum end_index; jnum max_outputs; jbool true] in
  res ← send_json_request (T := OutputListing) self "get_unspent_outputs" params;
  api_outputs ← liftP (try_collect (chain_output <$> filter (fun out => op_spent out = false) (ol_outputs res)));
  mret (ol_highest_index res, ol_last_retrieved_index res, api_outputs).

Definition node_height_range_to_pmmr_indices self (start_height : Z) (end_height : option Z) : P (Z * Z) :=
  res ← send_json_request (T := OutputListing) self "get_pmmr_indices" (jarr [jnum start_height; jopt jnum end_height]);
  mret (ol_last_retrieved_index res, ol_highest_index res).

(** ** The client of the wallet *)
Definition ends {A} (p : P A) (w : World) : Res A :=
  match finish p w with (Done r, _) => r | _ => Panic "unreachable" end.
(** What the network and the node are at the [n]-th request; the rules of the chain are those of [base]. *)
Definition http_node self (at_ : Z -> World) (base : NodeClient) : NodeClient := {|
  nc_get_chain_tip n := ends (node_get_chain_tip self) (at_ n);
  nc_get_outputs_from_node n l := ends (node_get_outputs self l) (at_ n);
  nc_get_kernel n c lo hi := ends (node_get_kernel self c lo hi) (at_ n);
  nc_post_tx n tx fluff := ends (node_post_tx self tx fluff) (at_ n);
  nc_valid_header_version := nc_valid_header_version;
  coinbase_maturity := coinbase_maturity;
  block_reward := block_reward;
  reward_output := reward_output |}.
End code.

(** ** Lemmas *)
Lemma chunk_list_fmap {A B} (f : A -> B) fuel size (l : list A) :
  chunk_list fuel size (f <$> l) = (fun c : list A => f <$> c) <$> chunk_list fuel size l.
Proof.
  revert l. induction fuel as [|fuel IH]; intros [|a l]; [done..|]. cbn [chunk_list].
  change (f <$> a :: l) with (f a :: (f <$> l)). cbn [chunk_list]. change (f a :: (f <$> l)) with (f <$> a :: l).
  by rewrite <- fmap_take, <- fmap_drop, IH.
Qed.
Lemma chunk_list_elem {A} fuel size (l : list A) a :
  (0 < size)%nat -> (length l <= fuel)%nat -> a ∈ l <-> exists c, c ∈ chunk_list fuel size l /\ a ∈ c.
Proof.
  intros Hs. revert l. induction fuel as [|fuel IH]; intros l Hl.
  { destruct l; [|cbn in Hl; lia]. split; [by intros ?%elem_of_nil|by intros (? & ?%elem_of_nil & _)]. }
  destruct l as [|b l].
  { split; [by intros ?%elem_of_nil|by intros (? & ?%elem_of_nil & _)]. }
  cbn [chunk_list]. set (bl := b :: l) in *. rewrite <- (take_drop size bl) at 1. rewrite elem_of_app, (IH (drop size bl)).
  2:{ rewrite length_drop. unfold bl in *. cbn in *. lia. }
  split.
  - intros [Ha|(c & Hc & Ha)]; [exists (take size bl)|exists c]; split; set_solver.
  - intros (c & [->|Hc]%elem_of_cons & Ha); [by left|right; eauto].
Qed.
Lemma map_get_insert `{GrinTypes} {V} c c' (v : V) (m : list (Commitment * V)) :
  map_get c (map_insert c' v m) = if decide (c' = c) then Some v else map_get c m.
Proof.
  unfold map_get, map_insert. cbn [find fst]. case_bool_decide as E; [by rewrite decide_True by done|].
  rewrite decide_False by done. f_equal. induction m as [|[x u] m IH]; [done|]. rewrite filter_cons. cbn [fst].
  case_decide as Ex; cbn [find fst]; case_bool_decide as Exc; try done. congruence.
Qed.
Lemma try_collect_Ok {A} (l : list A) : try_collect (Ok <$> l) = Ok l.
Proof. induction l as [|a l IH]; [done|]. change (Ok <$> a :: l) with (Ok a :: (Ok <$> l)). cbn. by rewrite IH. Qed.
Lemma arrange_seq {A} (l1 l : list A) : omap (fun i => (l1 ++ l) !! i) (seq (length l1) (length l)) = l.
Proof.
  revert l1. induction l as [|a l IH]; intros l1; [done|]. cbn [length seq omap list_omap].
  rewrite lookup_app_r, Nat.sub_diag by lia. cbn. f_equal. specialize (IH (l1 ++ [a])).
  rewrite <- app_assoc, length_app, Nat.add_1_r in IH. exact IH.
Qed.
Lemma arrange_perm {A} order (l : list A) : order ≡ₚ seq 0 (length l) -> arrange order l ≡ₚ l.
Proof. intros E. unfold arrange. rewrite E. pose proof (arrange_seq [] l) as Es. cbn in Es. by rewrite Es. Qed.
Lemma arrange_fmap {A B} (f : A -> B) order (l : list A) : arrange order (f <$> l) = f <$> arrange order l.
Proof.
  unfold arrange. induction order as [|i order IH]; [done|]. cbn [omap list_omap]. rewrite list_lookup_fmap.
  destruct (l !! i); cbn; [|done]. by f_equal.
Qed.

Lemma Forall2_elem_l {A B} (P : A -> B -> Prop) l k x : Forall2 P l k -> x ∈ l -> exists y, y ∈ k /\ P x y.
Proof. intros HF. induction HF as [|a b l k Hab _ IH]; intros Hx; [by apply elem_of_nil in Hx|]. set_solver. Qed.
Lemma Forall2_elem_r {A B} (P : A -> B -> Prop) l k y : Forall2 P l k -> y ∈ k -> exists x, x ∈ l /\ P x y.
Proof. intros HF. induction HF as [|a b l k Hab _ IH]; intros Hx; [by apply elem_of_nil in Hx|]. set_solver. Qed.

(** ** What the node knows, and what the wallet gets *)
Section honest.
Context `{GC : GrinCrates, !HexCrate, !JsonCrate, !RpcJson, !UriCrate, !NodeJson}.
Implicit Types (self : HTTPNodeClient) (w : World) (chain : Commitment -> option (Z * Z)).

Definition hex_commit (c : Commitment) : string := hex_encode (commit_bytes c).
Definition outputs_wire self (cs : list Commitment) : WireRequest :=
  rpc_wire (foreign_url self) (hn_node_api_secret self) (build_request "get_outputs" (outputs_params (hex_commit <$> cs))).
(** The outputs of a reply are those on the chain among the commitments, each at least once. *)
Definition tells chain (cs : list Commitment) (outs : list OutputPrintable) : Prop :=
  (forall o, o ∈ outs -> op_commit o ∈ cs
     /\ exists h i, chain (op_commit o) = Some (h, i) /\ op_block_height o = Some h /\ op_mmr_index o = i)
  /\ (forall c, c ∈ cs -> is_Some (chain c) -> exists o, o ∈ outs /\ op_commit o = c).
Definition honest_reply chain (cs : list Commitment) (r : WireReply) : Prop :=
  exists status body resp outs, r = WireText status body /\ response_from_str body = Ok resp
    /\ into_result resp = Ok outs /\ tells chain cs outs.
Definition honest_node self chain w : Prop := forall evs cs, honest_reply chain cs (w_nodes w evs (outputs_wire self cs)).

Lemma post_all_honest self chain css w :
  valid_uri (foreign_url self) = true -> honest_node self chain w ->
  exists resps w', finish (post_all self (outputs_params <$> (fmap (M := list) hex_commit <$> css))) w = (Done (Ok (Ok <$> resps)), w')
    /\ Forall2 (fun cs resp => exists outs, into_result resp = Ok outs /\ tells chain cs outs) css resps.
Proof.
  intros Hu. revert w. induction css as [|cs css IH]; intros w Hw; [by exists [], w|].
  change (outputs_params <$> (fmap (M := list) hex_commit <$> cs :: css))
    with (outputs_params (hex_commit <$> cs) :: (outputs_params <$> (fmap (M := list) hex_commit <$> css))). cbn [post_all].
  destruct (Hw (w_log w) cs) as (st & body & resp & outs & Er & Ep & Ei & Ht).
  erewrite finish_bind.
  2:{ unfold pmap. rewrite finish_pbind. unfold call_node. rewrite finish_post by done. cbn [outcome_bind finish].
      fold (outputs_wire self cs). unfold answer. rewrite Er. cbn [reply_text mbind Res_bind]. unfold parse_response.
      rewrite Ep. reflexivity. }
  cbv beta iota. cbn [map_err]. destruct (IH (log (EvHttp (outputs_wire self cs)) w)) as (resps & w' & E & HF).
  { intros evs cs'. apply (Hw evs cs'). }
  erewrite finish_bind by exact E. exists (resp :: resps), w'. split; [done|]. constructor; [|done]. by exists outs.
Qed.
Lemma parse_outputs_Ok (resps : list Response) :
  (forall r, r ∈ resps -> exists outs, into_result (T := list OutputPrintable) r = Ok outs) ->
  exists res, parse_outputs resps = Ok res
    /\ forall o, o ∈ res <-> exists r outs, r ∈ resps /\ into_result r = Ok outs /\ o ∈ outs.
Proof.
  induction resps as [|r resps IH]; intros Hr.
  { exists []. split; [done|]. intros o. split; [by intros ?%elem_of_nil|by intros (? & ? & ?%elem_of_nil & _)]. }
  destruct (Hr r) as [outs E]; [by left|]. destruct IH as (res & E2 & Hres); [intros r' Hr'; apply Hr; by right|].
  exists (outs ++ res). cbn [parse_outputs]. rewrite E. cbn [map_err mbind Res_bind]. rewrite E2. split; [done|].
  intros o. rewrite elem_of_app, Hres. split.
  - intros [Ho|(r' & outs' & Hr' & E' & Ho)]; [exists r, outs|exists r', outs']; split_and!; try done; set_solver.
  - intros (r' & outs' & [->|Hr']%elem_of_cons & E' & Ho); [left; congruence|right; eauto].
Qed.
Definition entry chain (c : Commitment) : option (string * Z * Z) := (fun p => (hex_commit c, p.1, p.2)) <$> chain c.
Lemma outputs_map_Ok chain (results : list OutputPrintable) :
  (forall o, o ∈ results -> exists h i, chain (op_commit o) = Some (h, i) /\ op_block_height o = Some h /\ op_mmr_index o = i) ->
  exists m, outputs_map results = Ok m
    /\ forall c, map_get c m = if decide (c ∈ op_commit <$> results) then entry chain c else None.
Proof.
  intros Hr. unfold outputs_map.
  assert (Hgen : forall (m0 : ApiOutputs), exists m, res_fold (fun api_outputs out =>
      match op_block_height out with
      | Some h => Ok (map_insert (op_commit out) (hex_encode (commit_bytes (op_commit out)), h, op_mmr_index out) api_outputs)
      | None => Err (client_callback ("Missing block height for output " +:+ debug_commit (op_commit out)))
      end) m0 results = Ok m
    /\ forall c, map_get c m = if decide (c ∈ op_commit <$> results) then entry chain c else map_get c m0).
  { induction results as [|o results IH]; intros m0.
    - exists m0. split; [done|]. intros c. rewrite decide_False by set_solver. done.
    - destruct (Hr o) as (h & i & Ec & Eh & Ei); [by left|].
      destruct (IH ltac:(intros; apply Hr; by right) (map_insert (op_commit o) (hex_commit (op_commit o), h, op_mmr_index o) m0))
        as (m & E & Hm). exists m. split; [cbn [res_fold]; rewrite Eh; exact E|]. intros c. rewrite Hm, map_get_insert.
      rewrite fmap_cons. destruct (decide (c ∈ op_commit <$> results)) as [Hin|Hin];
        [by rewrite decide_True by (by right)|]. destruct (decide (op_commit o = c)) as [<-|Hne].
      + rewrite decide_True by by left. unfold entry. rewrite Ec. cbn. by rewrite Ei.
      + rewrite decide_False; [done|]. intros [->|?]%elem_of_cons; done. }
  destruct (Hgen []) as (m & E & Hm). by exists m.
Qed.

(** C33: Asking for outputs.  However many requests the outputs are split into and in whatever order
    the replies come in, a wallet whose node tells the truth learns of every output it asked for
    exactly where it is on the chain, if it is there; but a chunk size of zero in
    GRIN_OUTPUT_QUERY_SIZE makes every such question panic. *)
Theorem outputs_query_exact `{!NodeJsonLaws} self chain l w :
  (valid_uri (foreign_url self) = true -> chunk_size <> 0 -> honest_node self chain w ->
   exists m, ends (node_get_outputs self l) w = Ok m
     /\ forall c, map_get c m = if decide (c ∈ l) then entry chain c else None)
  /\ (chunk_size = 0 -> l <> [] -> ends (node_get_outputs self l) w = Panic "chunk size must be non-zero").
Proof.
  split.
  - intros Hu Hc Hw. destruct l as [|c0 l0] eqn:El; [exists []; split; [done|]; intros c; by rewrite decide_False by set_solver|].
    rewrite <- El. assert (Hne : l <> []) by by rewrite El.
    assert (Hpos : (0 < Z.to_nat chunk_size)%nat).
    { unfold chunk_size in *. destruct grin_output_query_size as [s|]; [|unfold chunk_default in *; lia].
      destruct (parse_u64 s) as [z|z|z] eqn:Ez; [|unfold chunk_default in *; lia..].
      apply parse_u64_range in Ez. unfold in_u64 in Ez. lia. }
    set (css := chunk_list (length l) (Z.to_nat chunk_size) l).
    destruct (post_all_honest self chain css w Hu Hw) as (resps & w' & E & HF).
    unfold ends. replace (node_get_outputs self l) with
      (cs ← liftP (chunks chunk_size (hex_commit <$> l));
       replies ← post_all self (outputs_params <$> cs);
       n ← local draw;
       resps ← liftP (map_err (fun e => client_callback ("Getting outputs by id: " +:+ e))
                        (try_collect (arrange (completion n (length replies)) replies)));
       results ← liftP (parse_outputs resps);
       liftP (outputs_map results)) by (by rewrite El).
    unfold chunks. rewrite (proj2 (Z.eqb_neq _ _) Hc), length_fmap, chunk_list_fmap. fold css.
    erewrite finish_bind by reflexivity. cbv beta iota. erewrite finish_bind by exact E. cbv beta iota.
    destruct (draw (w_tape w')) as [rn t'] eqn:Ed. injection Ed as <- <-.
    erewrite finish_bind by reflexivity. cbv beta iota. rewrite arrange_fmap, try_collect_Ok, length_fmap.
    set (n := tape_src _ _). erewrite finish_bind by reflexivity. cbn [map_err]. cbv beta iota.
    pose proof (arrange_perm (completion n (length resps)) resps (completion_perm n (length resps))) as Hp.
    set (resps' := arrange _ resps) in *.
    destruct (parse_outputs_Ok resps') as (results & E3 & Hres).
    { intros r Hr. rewrite Hp in Hr. destruct (Forall2_elem_r _ _ _ _ HF Hr) as (cs & _ & outs & Ei & _). by exists outs. }
    assert (Htell : forall o, o ∈ results <-> exists cs resp outs, cs ∈ css /\ into_result resp = Ok outs
      /\ tells chain cs outs /\ resp ∈ resps /\ o ∈ outs).
    { intros o. rewrite Hres. split.
      - intros (r & outs & Hr & Ei & Ho). rewrite Hp in Hr. destruct (Forall2_elem_r _ _ _ _ HF Hr) as (cs & Hcs & outs' & Ei' & Ht).
        exists cs, r, outs. split_and!; try done. congruence.
      - intros (cs & r & outs & _ & Ei & _ & Hr & Ho). exists r, outs. by rewrite Hp. }
    destruct (outputs_map_Ok chain results) as (m & E4 & Hm).
    { intros o (cs & r & outs & _ & _ & [Ht _] & _ & Ho)%Htell. by apply Ht. }
    erewrite finish_bind by (rewrite E3; reflexivity). cbv beta iota. rewrite E4. exists m. split; [done|].
    intros c. rewrite Hm. destruct (decide (c ∈ l)) as [Hin|Hin].
    + destruct (chain c) as [p|] eqn:Ec; [|unfold entry; rewrite Ec; by destruct (decide _)]. apply decide_True.
      apply (chunk_list_elem (length l) (Z.to_nat chunk_size) l c Hpos) in Hin as (cs & Hcs & Hin); [|lia].
      destruct (Forall2_elem_l _ _ _ _ HF Hcs) as (r & Hr & outs & Ei & Ht). pose proof Ht as [_ Hall].
      destruct (Hall c Hin) as (o & Ho & <-); [by eexists|]. apply list_elem_of_fmap. exists o. split; [done|].
      apply Htell. by exists cs, r, outs.
    + apply decide_False. intros (o & -> & Ho)%list_elem_of_fmap. apply Hin.
      apply Htell in Ho as (cs & r & outs & Hcs & _ & [Ht _] & _ & Ho).
      apply (chunk_list_elem (length l) (Z.to_nat chunk_size) l _ Hpos); [lia|]. exists cs. split; [done|]. by apply Ht.
  - intros Hc Hne. destruct l as [|c0 l0]; [done|]. unfold ends, node_get_outputs, chunks. by rewrite Hc.
Qed.
End honest.

(** ** The version of the node *)
Section version.
Context `{GC : GrinCrates, !HexCrate, !JsonCrate, !RpcJson, !UriCrate, !NodeJson}.

(** A node that knows no such page is not taken for an old one: the client never looks at the status
    of a reply, and a page that is no reply of JSON-RPC is an error whose text says nothing of it. *)
Lemma version_404_unseen self w page e :
  hn_node_version_info self = None -> valid_uri (foreign_url self) = true ->
  answer w (rpc_wire (foreign_url self) (hn_node_api_secret self) (build_request "get_version" jnull)) = WireText 404 page ->
  response_from_str page = Err e ->
  exists w', finish (get_version_info self) w = (Done (Ok (None, self)), w').
Proof.
  intros Hv Hu Ha Hp. unfold get_version_info. rewrite Hv. eexists. unfold pmap. rewrite finish_pbind.
  unfold send_json_request, call_node. erewrite finish_bind by (unfold pmap; rewrite finish_pbind, (finish_post _ _ _ _ Hu), Ha; reflexivity).
  cbn [reply_text mbind Res_bind]. unfold parse_response. rewrite Hp. by vm_compute.
Qed.
End version.
