(* ===== verification/Sender.v ===== *)
(** * Sending a slate to another wallet (impls/src/adapters/http.rs)

    [HttpSlateSender]: over a SOCKS proxy to a Tor process of its own, first the version
    of the other wallet, then the slate, whose answer is a slate.  The Tor process and its
    files are a parameter. *)
From S2P Require Import Prelude.
From S2P Require Import RustStd.
From S2P Require Import Crates.
From S2P Require Import Effects.
From S2P Require Import Slate.
From S2P Require Import SlateV4.
From S2P Require Import SlateBin.
From S2P Require Import StateM.
From S2P Require Import Wallet.
From S2P Require Import Address.
From S2P Require Import Json.
From S2P Require Import NodeHttp.
From Stdlib Require Import Ascii.
#[local] Open Scope Z_scope.

(** [SocketAddr::V4(s.parse())], as it is printed; the Tor process (tor/config.rs, tor/process.rs) for
    a directory and an address; the forms of a slate and of the version's fields. *)
Class SenderCrates `{GrinTypes, JsonCrate} := {
  socket_addr_v4 : string -> option string;
  tor_launch : Z -> string -> string -> Res unit;
  slate_to_value : VersionedSlate -> Value;
  u16_from_value :: FromJson Z;
  strings_from_value :: FromJson (list string);
}.

Section code.
Context `{BuildProfile, GC : GrinCrates, !SlateJson, !JsonCrate, !RpcJson, !UriCrate, !SenderCrates}.

Definition TOR_CONFIG_PATH : string := "tor/sender".
Record HttpSlateSender := mkHttpSlateSender {
  hs_base_url : string;
  hs_use_socks : bool;
  hs_socks_proxy_addr : option string;
  hs_tor_config_dir : string;
  hs_process : bool }.
Implicit Types (self : HttpSlateSender).
Definition set_process self := mkHttpSlateSender (hs_base_url self) (hs_use_socks self) (hs_socks_proxy_addr self) (hs_tor_config_dir self) true.

Definition SCHEME_NOT_HTTP : string := "GenericError(url scheme must be http)".
Definition HttpSlateSender_new (base_url : string) : Res HttpSlateSender :=
  if negb (starts_with "http" base_url) && negb (starts_with "https" base_url) then Err SCHEME_NOT_HTTP
  else Ok (mkHttpSlateSender base_url false None "" false).
Definition with_socks_proxy (base_url proxy_addr tor_config_dir : string) : Res HttpSlateSender :=
  ret ← HttpSlateSender_new base_url;
  addr ← unwrap_opt (socket_addr_v4 proxy_addr);
  Ok (mkHttpSlateSender (hs_base_url ret) true (Some addr) tor_config_dir (hs_process ret)).

Definition launch_tor self : P HttpSlateSender :=
  if hs_use_socks self && negb (hs_process self) then
    let tor_dir := hs_tor_config_dir self +:+ "/" +:+ TOR_CONFIG_PATH in
    addr ← liftP (unwrap_opt (hs_socks_proxy_addr self));
    n ← local draw;
    _ ← liftP (tor_launch n tor_dir addr);
    mret (set_process self)
  else mret self.

Definition sender_client self : Client := mkClient (hs_use_socks self) (if hs_use_socks self then hs_socks_proxy_addr self else None).
Definition sender_post self (url : string) (input : Value) : P string :=
  req ← liftP (create_post_request url None (jdisplay input));
  send_request (sender_client self) req.

(** [serde_json::from_str(&res).unwrap()], and the error a reply carries. *)
Definition checked_reply (res : string) : Res Value :=
  res ← unwrap (json_from_str res);
  let err := jindex res "error" in
  if negb (bool_decide (err = jnull))
  then Err (client_callback ("Posting transaction slate: Error: " +:+ jdisplay (jindex err "code") +:+ ", Message: "
              +:+ jdisplay (jindex err "message")))
  else Ok (jindex (jindex res "result") "Ok").

Definition version_request : Value :=
  jobj [("jsonrpc", jstr "2.0"); ("method", jstr "check_version"); ("id", jnum 1); ("params", jarr [])].
Definition version_report (e : string) : string :=
  client_callback (if str_contains e "404"
    then "Other wallet is incompatible and requires an upgrade. Please urge the other wallet owner to upgrade and try the transaction again."
    else "Performing version check (is recipient listening?): " +:+ e).
Definition negotiate (resp_value : Value) : Res SlateVersion :=
  foreign_api_version ← unwrap (from_value (T := Z) (jindex resp_value "foreign_api_version"));
  supported_slate_versions ← unwrap (from_value (T := list string) (jindex resp_value "supported_slate_versions"));
  if foreign_api_version <? 2 then Err (client_callback "Other wallet reports unrecognized API format.")
  else if bool_decide ("V4" ∈ supported_slate_versions) then Ok SV4
  else Err (client_callback "Unable to negotiate slate format with other wallet.").
Definition check_other_version self (url : string) : P (SlateVersion * HttpSlateSender) :=
  self ← launch_tor self;
  res ← pmap (map_err version_report) (sender_post self url version_request);
  v ← liftP (resp_value ← checked_reply res; negotiate resp_value);
  mret (v, self).

Definition slate_request (slate_send : VersionedSlate) (finalize : bool) : Value :=
  if finalize
  then jobj [("jsonrpc", jstr "2.0"); ("method", jstr "finalize_tx"); ("id", jnum 1); ("params", jarr [slate_to_value slate_send])]
  else jobj [("jsonrpc", jstr "2.0"); ("method", jstr "receive_tx"); ("id", jnum 1);
             ("params", jarr [slate_to_value slate_send; jnull; jnull])].
Definition sender_url self : string :=
  hs_base_url self +:+ (if bool_decide (String.get (String.length (hs_base_url self) - 1) (hs_base_url self) = Some "/"%char)
                        then "" else "/") +:+ "v2/foreign".
Definition slate_send_tx self (slate : Slate) (finalize : bool) : P Slate :=
  let url_str := sender_url self in
  self ← launch_tor self;
  '(version, self) ← check_other_version self url_str;
  slate_send ← liftP (into_version slate version);
  res ← pmap (map_err (fun e => client_callback ("Sending transaction slate to other wallet (is recipient listening?): " +:+ e)))
          (sender_post self url_str (slate_request slate_send finalize));
  slate_value ← liftP (checked_reply res);
  pmap (map_err (fun _ => "SlateDeser")) (local (deserialize_upgrade (jdisplay slate_value))).

(** ** Lemmas *)
Definition sender_proxy self : option string := if hs_use_socks self then hs_socks_proxy_addr self else None.
Definition sender_wire self (url : string) (input : Value) : WireRequest := MkWire url (jdisplay input) None 20 (sender_proxy self).
Definition no_detour self : Prop := hs_use_socks self = true -> is_Some (hs_socks_proxy_addr self).

(** A program that asks at most one thing of the network. *)
Lemma finish_post_cases self url input w :
  (exists r, finish (sender_post self url input) w = (Done r, w) /\ is_ok r = false)
  \/ no_detour self
     /\ finish (sender_post self url input) w
        = (Done (reply_text (answer w (sender_wire self url input))), log (EvHttp (sender_wire self url input)) w).
Proof.
  unfold sender_post, create_post_request. destruct (valid_uri url).
  2: { left. eexists. erewrite finish_bind by reflexivity. by split. }
  erewrite finish_bind by reflexivity. cbv beta iota. unfold send_request, sender_client, sender_wire, sender_proxy. cbn [cl_use_socks
    cl_socks_proxy_addr]. destruct (hs_use_socks self) eqn:Es; [destruct (hs_socks_proxy_addr self) as [a|] eqn:Ea|].
  - right. split; [by intros _|]. cbn. by destruct (answer w _).
  - left. eexists. by split.
  - right. split; [by unfold no_detour; rewrite Es|]. cbn. by destruct (answer w _).
Qed.
Lemma launch_cases self w :
  exists r w', finish (launch_tor self) w = (Done r, w') /\ w_log w' = w_log w /\ w_nodes w' = w_nodes w
    /\ forall self', r = Ok self' -> hs_base_url self' = hs_base_url self /\ hs_use_socks self' = hs_use_socks self
         /\ hs_socks_proxy_addr self' = hs_socks_proxy_addr self.
Proof.
  unfold launch_tor. destruct (hs_use_socks self && negb (hs_process self)).
  2: { exists (Ok self), w. split_and!; [done..|]. by intros ? [= <-]. }
  destruct (hs_socks_proxy_addr self) as [a|] eqn:Ea.
  - erewrite finish_bind by reflexivity. cbn [unwrap_opt]. erewrite finish_bind by reflexivity. cbn [draw].
    set (n := tape_src _ _). destruct (tor_launch n _ a) as [[]|e|e].
    + do 2 eexists. split; [by erewrite finish_bind by reflexivity|]. split_and!; [done..|]. by intros ? [= <-].
    + do 2 eexists. split; [by erewrite finish_bind by reflexivity|]. by split_and!.
    + do 2 eexists. split; [by erewrite finish_bind by reflexivity|]. by split_and!.
  - do 2 eexists. split; [by erewrite finish_bind by reflexivity|]. by split_and!.
Qed.
Lemma sender_wire_same self self' url input :
  hs_use_socks self' = hs_use_socks self -> hs_socks_proxy_addr self' = hs_socks_proxy_addr self ->
  sender_wire self' url input = sender_wire self url input /\ (no_detour self' -> no_detour self).
Proof. intros E1 E2. unfold sender_wire, sender_proxy, no_detour. by rewrite E1, E2. Qed.

(** What the other wallet said of itself. *)
Definition agrees (reply : WireReply) : Prop := exists status text v api versions,
  reply = WireText status text /\ json_from_str text = Ok v /\ jindex v "error" = jnull
  /\ from_value (jindex (jindex (jindex v "result") "Ok") "foreign_api_version") = Ok api /\ 2 <= api
  /\ from_value (jindex (jindex (jindex v "result") "Ok") "supported_slate_versions") = Ok versions /\ "V4" ∈ versions.
Lemma agreed reply version :
  (v ← (t ← reply_text reply; checked_reply t); negotiate v) = Ok version -> agrees reply.
Proof.
  destruct reply as [e|e|status text]; cbn; [done..|]. unfold checked_reply.
  destruct (json_from_str text) as [v|e|e] eqn:Ej; cbn; [|done..]. case_bool_decide as He; cbn; [|done]. unfold negotiate.
  destruct (from_value (T := Z) _) as [api|e|e] eqn:Ea; cbn; [|done..].
  destruct (from_value (T := list string) _) as [vs|e|e] eqn:Ev; cbn; [|done..].
  destruct (api <? 2) eqn:Elt; [done|]. case_bool_decide; [|done]. intros _. exists status, text, v, api, vs.
  split_and!; try done. by apply Z.ltb_ge.
Qed.
Lemma check_cases self url w :
  exists r w', finish (check_other_version self url) w = (Done r, w')
  /\ let wire := sender_wire self url version_request in
     is_ok r = false /\ w_log w' = w_log w
     \/ no_detour self /\ w_log w' = EvHttp wire :: w_log w
       /\ forall v self', r = Ok (v, self') ->
            agrees (w_nodes w (w_log w) wire) /\ hs_base_url self' = hs_base_url self /\ hs_use_socks self' = hs_use_socks self
            /\ hs_socks_proxy_addr self' = hs_socks_proxy_addr self.
Proof.
  destruct (launch_cases self w) as (r1 & w1 & E1 & Hl & Hn & Hs). unfold check_other_version.
  destruct r1 as [self1|e|e]; [|do 2 eexists; (split; [by erewrite finish_bind by exact E1|]); by left..].
  destruct (Hs _ eq_refl) as (B1 & S1 & P1). destruct (sender_wire_same self self1 url version_request S1 P1) as [Ew Hd].
  destruct (finish_post_cases self1 url version_request w1) as [(r2 & E2 & Hr2)|[Hd1 E2]].
  - destruct r2 as [x|e|e]; [done|do 2 eexists; (split;
      [erewrite finish_bind by exact E1; cbv beta iota; by erewrite finish_bind by (unfold pmap; rewrite finish_pbind, E2; reflexivity)|by left])..].
  - rewrite Ew in E2. set (wire := sender_wire self url version_request) in *. unfold answer in E2. rewrite Hl, Hn in E2.
    set (reply := w_nodes w (w_log w) wire) in *.
    assert (Er : exists r, finish (check_other_version self url) w = (Done r, log (EvHttp wire) w1)
        /\ forall v s', r = Ok (v, s') -> agrees reply /\ s' = self1).
    { unfold check_other_version. erewrite finish_bind by exact E1. cbv beta iota.
      erewrite finish_bind by (unfold pmap; rewrite finish_pbind, E2; reflexivity).
      destruct (reply_text reply) as [text|e|e] eqn:Et; cbn [map_err]; [|by eexists..].
      cbv beta iota. erewrite finish_bind by reflexivity.
      destruct (resp_value ← checked_reply text; negotiate resp_value) as [v|e|e] eqn:Ev; [|by eexists..].
      eexists. split; [done|]. intros v' s' E'. assert (s' = self1) as -> by congruence. split; [|done]. apply (agreed _ v). by rewrite Et. }
    destruct Er as (r & Er & Hr). exists r, (log (EvHttp wire) w1). split; [exact Er|]. right. split_and!; [by apply Hd|cbn; by rewrite Hl|].
    intros v s' E. destruct (Hr _ _ E) as [Ha ->]. by split_and!.
Qed.

(** What sending a slate does on the network. *)
Definition traffic self (slate : Slate) (finalize : bool) (w : World) (r : Res Slate) (w' : World) : Prop :=
  let wire input := sender_wire self (sender_url self) input in
  is_ok r = false /\ w_log w' = w_log w
  \/ no_detour self
     /\ (is_ok r = false /\ w_log w' = EvHttp (wire version_request) :: w_log w
         \/ agrees (w_nodes w (w_log w) (wire version_request))
            /\ exists v, into_version slate SV4 = Ok v
               /\ w_log w' = EvHttp (wire (slate_request v finalize)) :: EvHttp (wire version_request) :: w_log w).
(** A slate leaves the wallet only after an agreement.  Whatever the other side answers, sending a slate makes
    at most two requests, both to the address of the other wallet and, when a proxy is to be used, only
    through it; the second, with the slate, is made only when the reply to the first says that the other
    wallet has a foreign API of version 2 or later and knows slates of version 4. *)
Theorem slate_sent_after_agreement self slate finalize w :
  exists r w', finish (slate_send_tx self slate finalize) w = (Done r, w') /\ traffic self slate finalize w r w'.
Proof.
  unfold slate_send_tx, traffic. set (wire := fun input => sender_wire self (sender_url self) input).
  destruct (launch_cases self w) as (r1 & w1 & E1 & Hl1 & Hn1 & Hs1).
  destruct r1 as [self1|e|e]; [|do 2 eexists; (split; [by erewrite finish_bind by exact E1|]); by left..].
  destruct (Hs1 _ eq_refl) as (B1 & S1 & P1). erewrite finish_bind by exact E1. cbv beta iota.
  destruct (sender_wire_same self self1 (sender_url self) version_request S1 P1) as [Ew1 Hd1].
  destruct (check_cases self1 (sender_url self) w1) as (r2 & w2 & E2 & Hc). erewrite finish_bind by exact E2.
  rewrite Ew1, Hl1, Hn1 in Hc. destruct Hc as [[Hr2 Hl2]|(Hd2 & Hl2 & Hok)].
  { destruct r2 as [x|e|e]; [done|do 2 eexists; (split; [done|by left])..]. }
  specialize (Hd1 Hd2).
  destruct r2 as [[version self2]|e|e]; [|do 2 eexists; (split; [done|]); right; (split; [done|]); by left..].
  destruct (Hok _ _ eq_refl) as (Ha & B2 & S2 & P2). cbv beta iota. destruct version.
  erewrite finish_bind by reflexivity. cbn [into_version].
  set (v := VS4 (v4_of_slate slate)).
  destruct (sender_wire_same self self2 (sender_url self) (slate_request v finalize)) as [Ew2 _]; [congruence..|].
  destruct (finish_post_cases self2 (sender_url self) (slate_request v finalize) w2) as [(r3 & E3 & Hr3)|[_ E3]].
  - erewrite finish_bind by (unfold pmap; rewrite finish_pbind, E3; reflexivity).
    destruct r3 as [x|e|e]; [done|do 2 eexists; (split; [done|]); right; (split; [done|]); by left..].
  - rewrite Ew2 in E3. erewrite finish_bind by (unfold pmap; rewrite finish_pbind, E3; reflexivity).
    set (w3 := log _ w2). assert (Hl3 : w_log w3 = EvHttp (wire (slate_request v finalize)) :: EvHttp (wire version_request) :: w_log w)
      by (cbn; by rewrite Hl2).
    destruct (reply_text _) as [text|e|e]; cbn [map_err]; [|do 2 eexists; (split; [done|]); right; (split; [done|]); right; eauto..].
    erewrite finish_bind by reflexivity. destruct (checked_reply text) as [sv|e|e];
      [|do 2 eexists; (split; [done|]); right; (split; [done|]); right; eauto..].
    cbn. destruct (deserialize_upgrade _ _) as [r4 t4]. do 2 eexists. split; [done|]. right. split; [done|]. right. eauto.
Qed.

(** A reply that is no JSON text, as the page of a 404 is, ends the program. *)
Lemma version_page_panics self w status text e :
  hs_use_socks self = false -> valid_uri (sender_url self) = true ->
  answer w (sender_wire self (sender_url self) version_request) = WireText status text -> json_from_str text = Err e ->
  exists w', finish (check_other_version self (sender_url self)) w = (Done (Panic e), w').
Proof.
  intros Hs Hu Ha Hj. unfold check_other_version, launch_tor. rewrite Hs. erewrite finish_bind by reflexivity. cbn [andb].
  assert (Ep : finish (sender_post self (sender_url self) version_request) w
    = (Done (Ok text), log (EvHttp (sender_wire self (sender_url self) version_request)) w)).
  { unfold sender_post, create_post_request. rewrite Hu. erewrite finish_bind by reflexivity. cbv beta iota.
    unfold sender_client. rewrite Hs. erewrite finish_send_request by done.
    unfold sender_wire, sender_proxy in *. rewrite Hs in *. unfold set_wire_proxy. cbn. by rewrite Ha. }
  erewrite finish_bind by (unfold pmap; rewrite finish_pbind, Ep; reflexivity). cbn [map_err].
  eexists. erewrite finish_bind by reflexivity. unfold checked_reply. by rewrite Hj.
Qed.
End code.
