(* ===== verification/Facade.v ===== *)
(** * The two APIs of a wallet (api/src/owner.rs, api/src/foreign.rs)

    [Owner] and [Foreign] call the wallet that is open behind a lock, try to send a slate
    over Tor when they are asked to, and hold the flag and the messages of the updater.  A
    call is one step: another thread may come between two of them, not into the middle of
    one.  [doctest_mode] is left out; it is false but in documentation tests. *)
From S2P Require Import Prelude.
From S2P Require Import RustStd.
From S2P Require Import Crates.
From S2P Require Import Effects.
From S2P Require Import Slate.
From S2P Require Import SlateV4.
From S2P Require Import SlateBin.
From S2P Require Import StateM.
From S2P Require Import Wallet.
From S2P Require Import Address.
From S2P Require Import Selection.
From S2P Require Import WalletTx.
From S2P Require Import Slatepack.
From S2P Require Import Armor.
From S2P Require Import Updater.
From S2P Require Import Scan.
From S2P Require Import Owner.
From S2P Require Import Packer.
From S2P Require Import Foreign.
From S2P Require Import Invariant.
From S2P Require Import Seed.
From S2P Require Import Lifecycle.
From S2P Require Import Json.
From S2P Require Import NodeHttp.
From S2P Require Import Sender.
#[local] Open Scope Z_scope.

(** config/src/types.rs *)
Record TorConfig := mkTorConfig {
  tc_skip_send_attempt : option bool;
  tc_use_tor_listener : bool;
  tc_socks_proxy_addr : string;
  tc_send_config_dir : string }.
Definition set_skip_send_attempt b (c : TorConfig) : TorConfig :=
  mkTorConfig b (tc_use_tor_listener c) (tc_socks_proxy_addr c) (tc_send_config_dir c).

(** owner_updater.rs *)
Inductive StatusMessage :=
| UpdatingOutputs (s : string)
| UpdatingTransactions (s : string)
| FullScanWarn (s : string)
| Scanning (s : string) (percent : Z)
| ScanningComplete (s : string)
| UpdateWarning (s : string).

(** What the node says of its version, to the wallet's client. *)
Class NodeVersions := nc_version_info : Z -> option NodeVersionInfo.

Section code.
Context `{BuildProfile, GC : GrinCrates, !BinCrates, !WalletCrates, !AddressCrates, !SlatepackCrates, !ArmorCrates,
  !SlatepackJson, !HexCrate, !NodeClient, !DalekCrates, !ScanCrates, !OwnerCrates, !DiskFaults, SC : !SeedCrates, !SeedKeychain,
  !SlateJson, !JsonCrate, !RpcJson, !UriCrate, !SenderCrates, !NodeVersions}.
(** A bound on the loops of a scan. *)
Context (fuel : nat).

(** ** try_slatepack_sync_workflow

    The blank slate that the code makes first is only ever returned after the reply replaced it. *)
Definition tor_sender_for (address : SlatepackAddress) (tor_config : option TorConfig) : Res (option HttpSlateSender) :=
  tc ← unwrap_opt tor_config;
  match with_socks_proxy (to_http_str (ov3_of_slatepack address)) (tc_socks_proxy_addr tc) (tc_send_config_dir tc) with
  | Ok s => Ok (Some s)
  | Err _ => Ok None
  | Panic e => Panic e
  end.
Definition try_slatepack_sync_workflow (slate : Slate) (dest : string) (tor_config : option TorConfig)
    (tor_sender : option HttpSlateSender) (send_to_finalize test_mode : bool) : P (option Slate) :=
  if match tor_config with Some tc => bool_decide (tc_skip_send_attempt tc = Some true) | None => false end then mret None
  else
    match SlatepackAddress_from_str dest with
    | Panic e => liftP (Panic e)
    | Err _ => mret None
    | Ok address =>
        sender ← liftP (if test_mode then Ok None
                        else match tor_sender with Some s => Ok (Some s) | None => tor_sender_for address tor_config end);
        match sender with
        | None => mret None
        | Some s => pmap (fun r => match r with Ok sl => Ok (Some sl) | Err _ => Ok None | Panic e => Panic e end)
                      (slate_send_tx s slate send_to_finalize)
        end
    end.

(** ** State: the wallet behind its lock and the network; and what the owner API has besides *)
Record Host := mkHost { h_provider : Provider; h_world : World }.
Record OwnerApi := mkOwnerApi {
  oa_host : Host;
  oa_shared_key : option SecretKey;
  oa_updater_running : bool;
  oa_updater_messages : list StatusMessage;
  oa_tor_config : option TorConfig }.
#[local] Abbreviation H_ := (ST Host).
#[local] Abbreviation O_ := (ST OwnerApi).
Definition set_oa_host h (o : OwnerApi) : OwnerApi :=
  mkOwnerApi h (oa_shared_key o) (oa_updater_running o) (oa_updater_messages o) (oa_tor_config o).
Definition set_oa_shared_key k (o : OwnerApi) : OwnerApi :=
  mkOwnerApi (oa_host o) k (oa_updater_running o) (oa_updater_messages o) (oa_tor_config o).
Definition set_oa_updater_running b (o : OwnerApi) : OwnerApi :=
  mkOwnerApi (oa_host o) (oa_shared_key o) b (oa_updater_messages o) (oa_tor_config o).
Definition set_oa_updater_messages l (o : OwnerApi) : OwnerApi :=
  mkOwnerApi (oa_host o) (oa_shared_key o) (oa_updater_running o) l (oa_tor_config o).
Definition set_oa_tor_config c (o : OwnerApi) : OwnerApi :=
  mkOwnerApi (oa_host o) (oa_shared_key o) (oa_updater_running o) (oa_updater_messages o) c.

(** [Updater::new] stores false, too. *)
Definition Owner_new (h : Host) : OwnerApi := mkOwnerApi h None false [] None.

Definition on_provider {A} (m : ST Provider A) : H_ A :=
  fun h => let '(r, p) := m (h_provider h) in (r, mkHost p (h_world h)).
Definition on_net {A} (p : P A) : H_ A := fun h =>
  match finish p (h_world h) with
  | (Done r, w) => (r, mkHost (h_provider h) w)
  | (_, w) => (Panic "unreachable", mkHost (h_provider h) w)
  end.
(** [w_lock.lc_provider()?.wallet_inst()?] *)
Definition on_inst {A} (m : ST Wallet A) : H_ A := on_provider (wallet_inst m).
Definition on_host {A} (m : H_ A) : O_ A := fun o => let '(r, h) := m (oa_host o) in (r, set_oa_host h o).
Definition with_wallet {A} (m : ST Wallet A) : O_ A := on_host (on_inst m).
Definition with_lc {A} (m : ST Provider A) : O_ A := on_host (on_provider m).

(** ** api/src/owner.rs *)
Definition set_tor_config (c : option TorConfig) : O_ unit := modifyS (set_oa_tor_config c).

Definition api_accounts (mask : option SecretKey) : O_ (list AcctPathMapping) :=
  with_wallet (_ ← keychain mask; owner_accounts).
Definition api_create_account_path (mask : option SecretKey) (label : string) : O_ Identifier :=
  with_wallet (create_account_path mask label).
Definition api_set_active_account (mask : option SecretKey) (label : string) : O_ unit :=
  with_wallet (_ ← keychain mask; set_active_account label).

(** While the updater runs nothing is refreshed here. *)
Definition refresh_now (refresh_from_node : bool) : O_ bool :=
  running ← getS oa_updater_running; mret (if running : bool then false else refresh_from_node).
Definition api_retrieve_outputs (mask : option SecretKey) (include_spent refresh_from_node : bool) (tx_id : option Z) :
    O_ (bool * list OutputCommitMapping) :=
  refresh ← refresh_now refresh_from_node;
  with_wallet (owner_retrieve_outputs fuel mask include_spent refresh tx_id).
Definition api_retrieve_txs (mask : option SecretKey) (refresh_from_node : bool) (tx_id : option Z)
    (tx_slate_id : option Uuid) : O_ (bool * list TxLogEntry) :=
  refresh ← refresh_now refresh_from_node;
  with_wallet (owner_retrieve_txs fuel mask refresh tx_id tx_slate_id).
Definition api_retrieve_summary_info (mask : option SecretKey) (refresh_from_node : bool) (minimum_confirmations : Z) :
    O_ (bool * WalletInfo) :=
  refresh ← refresh_now refresh_from_node;
  with_wallet (retrieve_summary_info fuel mask refresh minimum_confirmations).

Definition api_tx_lock_outputs (mask : option SecretKey) (slate : Slate) : O_ unit := with_wallet (tx_lock_outputs mask slate).
Definition api_finalize_tx (mask : option SecretKey) (slate : Slate) : O_ Slate := with_wallet (owner_finalize mask slate).
Definition api_post_tx (mask : option SecretKey) (slate : Slate) (fluff : bool) : O_ unit :=
  with_wallet (_ ← keychain mask; tx ← liftS (tx_or_err slate); post_tx tx fluff).

(** The Tor configuration for one attempt. *)
Definition attempt_config (skip_tor : bool) : O_ (option TorConfig) :=
  c ← getS oa_tor_config; mret (set_skip_send_attempt (Some skip_tor) <$> c).
Definition api_init_send_tx (mask : option SecretKey) (args : InitTxArgs) : O_ Slate :=
  slate ← with_wallet (init_send_tx mask args false);
  match ita_send_args args with
  | None => mret slate
  | Some sa =>
      tc ← attempt_config (ita_skip_tor sa);
      res ← attemptS (on_host (on_net (try_slatepack_sync_workflow slate (ita_dest sa) tc None false false)));
      match res with
      | inl (Some s) =>
          _ ← api_tx_lock_outputs mask s;
          ret_slate ← api_finalize_tx mask s;
          _ ← whenS (ita_post_tx sa) (api_post_tx mask ret_slate (ita_fluff sa));
          mret ret_slate
      | _ => mret slate
      end
  end.
Definition api_issue_invoice_tx (mask : option SecretKey) (args : IssueInvoiceTxArgs) : O_ Slate :=
  with_wallet (issue_invoice_tx mask args false).
(** [Ok(s) => Ok(s.unwrap())], [Err(_) => Ok(slate)] *)
Definition sent_back (slate : Slate) (res : option Slate + string) : Res Slate :=
  match res with inl s => unwrap_opt s | inr _ => Ok slate end.
Definition api_process_invoice_tx (mask : option SecretKey) (slate : Slate) (args : InitTxArgs) : O_ Slate :=
  slate ← with_wallet (process_invoice_tx mask slate args false);
  match ita_send_args args with
  | None => mret slate
  | Some sa =>
      tc ← attempt_config (ita_skip_tor sa);
      res ← attemptS (on_host (on_net (try_slatepack_sync_workflow slate (ita_dest sa) tc None true false)));
      liftS (sent_back slate res)
  end.

Definition api_cancel_tx (mask : option SecretKey) (tx_id : option Z) (tx_slate_id : option Uuid) : O_ unit :=
  with_wallet (owner_cancel_tx fuel mask tx_id tx_slate_id).
Definition api_get_stored_tx (mask : option SecretKey) (tx_id : option Z) (slate_id : option Uuid) : O_ (option Slate) :=
  with_wallet (_ ← keychain mask; owner_get_stored_tx tx_id slate_id).
Definition api_scan (mask : option SecretKey) (start_height : option Z) (delete_unconfirmed : bool) : O_ unit :=
  with_wallet (owner_scan fuel mask start_height delete_unconfirmed).
Definition api_node_height (mask : option SecretKey) : O_ NodeHeightResult :=
  _ ← with_wallet (keychain mask);
  with_wallet (node_height fuel mask).

Definition api_get_top_level_directory : O_ string := with_lc get_top_level_directory.
Definition api_set_top_level_directory (dir : string) : O_ unit := with_lc (set_top_level_directory dir).
Definition api_create_wallet (mnemonic : option string) (mnemonic_length : nat) (password : string) : O_ unit :=
  with_lc (create_wallet mnemonic mnemonic_length password false).
Definition api_open_wallet (password : string) (use_mask : bool) : O_ (option SecretKey) :=
  with_lc (open_wallet password use_mask false).
Definition api_close_wallet : O_ unit := with_lc close_wallet.
Definition api_get_mnemonic (password : string) : O_ string := with_lc (get_mnemonic password).
Definition api_change_password (old new : string) : O_ unit := with_lc (change_password old new).
Definition api_delete_wallet : O_ unit := with_lc delete_wallet.

Definition stop_updater : O_ unit := modifyS (set_oa_updater_running false).
(** [q.split_off(q.len().saturating_sub(count))] *)
Definition get_updater_messages (count : nat) : O_ (list StatusMessage) :=
  q ← getS oa_updater_messages;
  let index := (length q - count)%nat in
  _ ← modifyS (set_oa_updater_messages (take index q));
  mret (drop index q).

Definition api_get_slatepack_address (mask : option SecretKey) (index : Z) : O_ SlatepackAddress :=
  with_wallet (get_slatepack_address mask index).
Definition api_get_slatepack_secret_key (mask : option SecretKey) (index : Z) : O_ DalekSecretKey :=
  with_wallet (get_slatepack_secret_key mask index).
Definition api_create_slatepack_message (mask : option SecretKey) (slate : Slate) (sender_index : option Z)
    (recipients : list SlatepackAddress) : O_ string :=
  with_wallet (create_slatepack_message mask slate sender_index recipients).
Definition api_slate_from_slatepack_message (mask : option SecretKey) (slatepack : string) (secret_indices : list Z) : O_ Slate :=
  with_wallet (slate_from_slatepack_message mask slatepack secret_indices).
Definition api_decode_slatepack_message (mask : option SecretKey) (slatepack : string) (secret_indices : list Z) : O_ Slatepack :=
  with_wallet (decode_slatepack_message mask slatepack secret_indices).
Definition api_retrieve_payment_proof (mask : option SecretKey) (refresh_from_node : bool) (tx_id : option Z)
    (tx_slate_id : option Uuid) : O_ PaymentProof :=
  refresh ← refresh_now refresh_from_node;
  with_wallet (retrieve_payment_proof fuel mask refresh tx_id tx_slate_id).
Definition api_verify_payment_proof (mask : option SecretKey) (proof : PaymentProof) : O_ (bool * bool) :=
  with_wallet (verify_payment_proof mask proof).

(** ** api/src/foreign.rs, with the middleware of controller.rs *)
Inductive ForeignCheckMiddlewareFn := FnCheckVersion | FnBuildCoinbase | FnVerifySlateMessages | FnReceiveTx | FnFinalizeTx.
Definition ForeignCheckMiddleware : Type := ForeignCheckMiddlewareFn -> option NodeVersionInfo -> option Slate -> Res unit.
Definition check_middleware : ForeignCheckMiddleware := fun name node_version_info slate =>
  match name with
  | FnBuildCoinbase => Ok tt
  | _ =>
      let bhv := match node_version_info with Some n => nvi_block_header_version n | None => 3 end in
      match slate with
      | Some s =>
          if (4 <? bhv) && (vci_block_header_version (sl_version_info s) <? GRIN_BLOCK_HEADER_VERSION)
          then Err "Compatibility(Incoming Slate is not compatible with this wallet. Please upgrade the node or use a different one.)"
          else Ok tt
      | None => Ok tt
      end
  end.

Record ForeignApi := mkForeignApi {
  fa_middleware : option ForeignCheckMiddleware;
  fa_keychain_mask : option SecretKey;
  fa_tor_config : option TorConfig }.
Implicit Types (self : ForeignApi).
Definition Foreign_new (mask : option SecretKey) (middleware : option ForeignCheckMiddleware) : ForeignApi :=
  mkForeignApi middleware mask None.
Definition foreign_set_tor_config (c : option TorConfig) self : ForeignApi := mkForeignApi (fa_middleware self) (fa_keychain_mask self) c.

(** The middleware, on the version the node reports. *)
Definition checked self (name : ForeignCheckMiddlewareFn) (slate : option Slate) : ST Wallet unit :=
  match fa_middleware self with
  | Some m => n ← drawn draw; liftS (m name (nc_version_info n) slate)
  | None => mret tt
  end.
Definition foreign_check_version self : H_ VersionInfo :=
  _ ← (match fa_middleware self with Some _ => on_inst (checked self FnCheckVersion None) | None => mret tt end);
  mret check_version.
Definition foreign_api_build_coinbase self (block_fees : BlockFees) : H_ CbData :=
  on_inst (_ ← checked self FnBuildCoinbase None; foreign_build_coinbase (fa_keychain_mask self) block_fees false).
Definition foreign_api_receive_tx self (slate : Slate) (dest_acct_name r_addr : option string) : H_ Slate :=
  ret_slate ← on_inst (_ ← checked self FnReceiveTx (Some slate); receive_tx (fa_keychain_mask self) slate dest_acct_name false);
  match r_addr with
  | Some a =>
      res ← attemptS (on_net (try_slatepack_sync_workflow ret_slate a (fa_tor_config self) None true false));
      liftS (sent_back ret_slate res)
  | None => mret ret_slate
  end.
Definition foreign_api_finalize_tx self (slate : Slate) (post_automatically : bool) : H_ Slate :=
  on_inst (foreign_finalize_tx (fa_keychain_mask self) slate post_automatically).

(** ** Lemmas *)
(** What the attempt to send makes of it when the destination is not an address, or nothing is to be sent. *)
Lemma not_sent slate dest tc w :
  (tc_skip_send_attempt <$> tc) = Some (Some true) \/ (exists e, SlatepackAddress_from_str dest = Err e) ->
  finish (try_slatepack_sync_workflow slate dest tc None true false) w = (Done (Ok None), w).
Proof.
  intros Hn. unfold try_slatepack_sync_workflow.
  destruct (match tc with Some t => bool_decide (tc_skip_send_attempt t = Some true) | None => false end) eqn:Es; [done|].
  destruct Hn as [Hn|[e ->]]; [|done]. destruct tc as [t|]; [|done]. injection Hn as Hn.
  by apply bool_decide_eq_false in Es.
Qed.
(** Paying an invoice with a destination ends in a panic, after the wallet has changed,
    when the reply could not be sent at once: the destination is no address, or no attempt is to be made. *)
Lemma unsent_invoice_panics mask slate args sa o paid o1 :
  ita_send_args args = Some sa ->
  with_wallet (process_invoice_tx mask slate args false) o = (Ok paid, o1) ->
  (ita_skip_tor sa = true /\ is_Some (oa_tor_config o1)) \/ (exists e, SlatepackAddress_from_str (ita_dest sa) = Err e) ->
  exists e, api_process_invoice_tx mask slate args o = (Panic e, o1).
Proof.
  intros Hs E Hn. unfold api_process_invoice_tx. rewrite (ST_bind_run _ _ _ _ _ E), Hs.
  erewrite ST_bind_run by reflexivity. eexists.
  assert (Hr : forall tc, (tc_skip_send_attempt <$> tc) = Some (Some true) \/ (exists e, SlatepackAddress_from_str (ita_dest sa) = Err e) ->
    on_host (on_net (try_slatepack_sync_workflow paid (ita_dest sa) tc None true false)) o1 = (Ok None, o1)).
  { intros tc Hd. unfold on_host, on_net. rewrite (not_sent _ _ _ _ Hd). by destruct o1 as [[] ? ? ? ?]. }
  rewrite (ST_bind_run (attemptS _) _ o1 (inl None) o1); [reflexivity|]. unfold attemptS. rewrite Hr; [reflexivity|].
  destruct Hn as [[Hk [c Hc]]|Hn]; [left|by right]. rewrite Hc. cbn. by rewrite Hk.
Qed.
End code.
