(* ===== verification/Sound.v ===== *)
(** * The wallets behind the APIs stay well-formed (api/src/owner.rs, api/src/foreign.rs)

    One lemma for each method of the owner API and of the foreign API: the data of every wallet
    of the provider stays well-formed, however the call ends. *)
From S2P Require Import Prelude.
From S2P Require Import RustStd.
From S2P Require Import Crates.
From S2P Require Import Effects.
From S2P Require Import Slate.
From S2P Require Import SlateV4.
From S2P Require Import SlateBin.
From S2P Require Import StateM.
From S2P Require Import Wallet.
From S2P Require Import Address.
From S2P Require Import Selection.
From S2P Require Import WalletTx.
From S2P Require Import Slatepack.
From S2P Require Import Armor.
From S2P Require Import Updater.
From S2P Require Import Scan.
From S2P Require Import Owner.
From S2P Require Import Packer.
From S2P Require Import Foreign.
From S2P Require Import Invariant.
From S2P Require Import Seed.
From S2P Require Import Lifecycle.
From S2P Require Import Json.
From S2P Require Import NodeHttp.
From S2P Require Import Sender.
From S2P Require Import Facade.
#[local] Open Scope Z_scope.

(** The bodies of the methods. *)
Create HintDb calls.
(** What keeps the wallets well-formed. *)
Create HintDb sound.

Section apis.
Context `{BuildProfile, GC : GrinCrates, !BinCrates, !WalletCrates, !AddressCrates, !SlatepackCrates, !ArmorCrates,
  !SlatepackJson, !HexCrate, !NodeClient, !DalekCrates, !ScanCrates, !OwnerCrates, !DiskFaults, SC : !SeedCrates, !SeedKeychain,
  !SlateJson, !JsonCrate, !RpcJson, !UriCrate, !SenderCrates, !NodeVersions}.
Context (fuel : nat).

Definition host_sound (x : Host) : Prop := sound (h_provider x).
Definition api_sound (o : OwnerApi) : Prop := host_sound (oa_host o).

Lemma on_net_provider {A} (p : P A) : leaves h_provider (on_net p).
Proof. intros x. unfold on_net. destruct (finish p (h_world x)) as [o w]. by destruct o. Qed.
(** *** Wallet methods *)
Create HintDb wallets.
Lemma keeps_dropping {A} (m : ST Wallet A) : keeps_wf (dropping m) -> keeps_wf m.
Proof. intros Hm w Hw. specialize (Hm w Hw). unfold dropping, mbind, ST_bind in Hm. by destruct (m w) as [[a|e|e] w']. Qed.
Lemma wf_bind {A B} (m : ST Wallet A) (k : A -> ST Wallet B) : keeps_wf m -> (forall a, keeps_wf (k a)) -> keeps_wf (m ≫= k).
Proof.
  intros Hm Hk w Hw. specialize (Hm w Hw). unfold mbind, ST_bind. destruct (m w) as [[a|e|e] w']; [|done..]. by apply Hk.
Qed.
Lemma keeps_same {A} (m : ST Wallet A) : (forall w, (m w).2 = w) -> keeps_wf m.
Proof. intros Hm w Hw. by rewrite Hm. Qed.
Lemma keeps_invar {A} (m : ST Wallet A) : (forall I, invar I m) -> keeps_wf m.
Proof. intros Hm w Hw. exact (Hm well_formed w Hw). Qed.
Lemma keeps_drawn {A} (m : M A) : keeps_wf (drawn m).
Proof. apply keeps_good. intros. apply good_drawn. Qed.
Lemma wf_lift {A} (r : Res A) : keeps_wf (liftS r).
Proof. by apply keeps_same. Qed.

(** *** The APIs *)
Lemma sound_net {A} (p : P A) : invar host_sound (on_net p).
Proof. intros x Hx. unfold host_sound. by rewrite on_net_provider. Qed.
Lemma sound_inst {A} (m : ST Wallet A) : keeps_wf m -> invar host_sound (on_inst m).
Proof.
  intros Hm x Hx. pose proof (sound_wallet_inst m Hm (h_provider x) Hx) as Hs. unfold on_inst, on_provider.
  by destruct (wallet_inst m (h_provider x)) as [r p].
Qed.
Lemma sound_on_host {A} (m : ST Host A) : invar host_sound m -> invar api_sound (on_host m).
Proof. intros Hm o Ho. specialize (Hm (oa_host o) Ho). unfold on_host. by destruct (m (oa_host o)). Qed.
Lemma sound_with_wallet {A} (m : ST Wallet A) : keeps_wf m -> invar api_sound (with_wallet m).
Proof. intros Hm. by apply sound_on_host, sound_inst. Qed.
Lemma sound_with_lc {A} (m : ST Provider A) : invar sound m -> invar api_sound (with_lc m).
Proof.
  intros Hm. apply sound_on_host. intros x Hx. specialize (Hm (h_provider x) Hx). unfold on_provider. by destruct (m (h_provider x)).
Qed.

(** A method that is one of a wallet's commands. *)
#[local] Ltac by_command m c := first [exact (keeps_run m c) | exact (keeps_dropping _ (keeps_run m c))].
#[local] Ltac wallet_step :=
  match goal with
  | |- keeps_wf (_ ≫= _) => apply wf_bind; [|intros ?]
  | |- keeps_wf (liftS _) => apply wf_lift
  | |- keeps_wf (keychain _) => apply keeps_invar; intros; apply invar_keychain
  | |- keeps_wf (drawn _) => apply keeps_drawn
  | |- keeps_wf (create_account_path ?m ?l) => by_command m (CAccount l)
  | |- keeps_wf (set_active_account ?l) => by_command (@None SecretKey) (CActivate l)
  | |- keeps_wf (owner_retrieve_outputs ?f ?m ?b ?r ?i) => by_command m (COutputs f b r i)
  | |- keeps_wf (owner_retrieve_txs ?f ?m ?r ?i ?u) => by_command m (CTxs f r i u)
  | |- keeps_wf (retrieve_summary_info ?f ?m ?r ?n) => by_command m (CSummary f r n)
  | |- keeps_wf (init_send_tx ?m ?a ?r) => by_command m (CSend a r)
  | |- keeps_wf (issue_invoice_tx ?m ?a ?r) => by_command m (CInvoice a r)
  | |- keeps_wf (process_invoice_tx ?m ?s ?a ?r) => by_command m (CPayInvoice s a r)
  | |- keeps_wf (tx_lock_outputs ?m ?s) => by_command m (CLock s)
  | |- keeps_wf (owner_finalize ?m ?s) => by_command m (CFinalize s)
  | |- keeps_wf (post_tx ?t ?b) => by_command (@None SecretKey) (CPost t b)
  | |- keeps_wf (owner_cancel_tx ?f ?m ?i ?u) => by_command m (CCancel f i u)
  | |- keeps_wf (owner_scan ?f ?m ?h ?b) => by_command m (CScan f h b)
  | |- keeps_wf (update_wallet_state ?f ?m ?b) => by_command m (CRefresh f b)
  | |- keeps_wf (node_height ?f ?m) => by_command m (CHeight f)
  | |- keeps_wf (retrieve_payment_proof ?f ?m ?r ?i ?u) => by_command m (CProof f r i u)
  | |- keeps_wf (verify_payment_proof ?m ?x) => by_command m (CVerify x)
  | |- keeps_wf (create_slatepack_message ?m ?s ?i ?l) => by_command m (CPack s i l)
  | |- keeps_wf (slate_from_slatepack_message ?m ?x ?l) => by_command m (CUnpack x l)
  | |- keeps_wf (foreign_build_coinbase ?m ?f ?b) => by_command m (CCoinbase f b)
  | |- keeps_wf (receive_tx ?m ?s ?n ?r) => by_command m (CReceive s n r)
  | |- keeps_wf (foreign_finalize_tx ?m ?s ?b) => by_command m (CForeignFinalize s b)
  | |- keeps_wf (match ?x with _ => _ end) => destruct x
  end.
Lemma keeps_accounts : keeps_wf owner_accounts.
Proof. by apply keeps_same. Qed.
Lemma keeps_address m i : keeps_wf (get_slatepack_address m i).
Proof. unfold get_slatepack_address. apply wf_bind; [by apply keeps_same|intros p]. repeat wallet_step. Qed.
Lemma keeps_secret m i : keeps_wf (get_slatepack_secret_key m i).
Proof. unfold get_slatepack_secret_key. apply wf_bind; [by apply keeps_same|intros p]. repeat wallet_step. Qed.
Lemma keeps_open_with_any m x l : keeps_wf (open_with_any m x l).
Proof. apply keeps_good. intros. apply good_open_with_any. Qed.
Lemma keeps_decode m x l : keeps_wf (decode_slatepack_message m x l).
Proof.
  unfold decode_slatepack_message. destruct l; [apply wf_lift|]. apply wf_bind; [apply keeps_open_with_any|].
  intros [sp|]; [by apply keeps_same|apply wf_lift].
Qed.
Lemma keeps_stored_tx i u : keeps_wf (owner_get_stored_tx i u).
Proof.
  unfold owner_get_stored_tx. apply wf_bind; [by apply keeps_same|intros l].
  destruct (match _ with Some u0 => Some u0 | None => u end); [|by apply keeps_same].
  apply wf_bind; [apply keeps_invar; intros I; unfold get_stored_tx; keep|intros [tx|]; [|by apply keeps_same]].
  apply wf_bind; [apply keeps_drawn|intros sl]. apply wf_bind; [apply wf_lift|intros fee; by apply keeps_same].
Qed.

#[local] Hint Resolve keeps_accounts keeps_address keeps_secret keeps_decode keeps_stored_tx : wallets.
#[local] Ltac wallet := repeat first [solve [auto with wallets nocore] | wallet_step].

(** *** Calls *)
Lemma sound_perform e : invar sound (perform e).
Proof. intros p Hp. exact (live_sound p e Hp). Qed.
Lemma sound_modify f : (forall o, oa_host (f o) = oa_host o) -> invar api_sound (modifyS f).
Proof. intros Hf. apply invar_modify. intros o Ho. unfold api_sound. by rewrite Hf. Qed.
Lemma sound_open_wallet pw mask rng : invar sound (open_wallet pw mask rng).
Proof.
  intros p Hp. pose proof (sound_perform (EOpen pw mask rng) p Hp) as Hs. cbn [perform] in Hs. unfold mbind, ST_bind in Hs.
  by destruct (open_wallet pw mask rng p) as [[]].
Qed.
Lemma sound_get_mnemonic pw : invar sound (get_mnemonic pw).
Proof.
  intros p Hp. pose proof (sound_perform (EMnemonic pw) p Hp) as Hs. cbn [perform] in Hs. unfold mbind, ST_bind in Hs.
  by destruct (get_mnemonic pw p) as [[]].
Qed.
#[local] Ltac api_step :=
  match goal with
  | |- invar api_sound (with_wallet _) => apply sound_with_wallet; wallet
  | |- invar api_sound (on_host (on_net _)) => apply sound_on_host, sound_net
  | |- invar api_sound (with_lc _) => apply sound_with_lc
  | |- invar sound (create_wallet ?p ?n ?w false) => exact (sound_perform (ECreate p n w))
  | |- invar sound close_wallet => exact (sound_perform EClose)
  | |- invar sound (change_password ?o ?n) => exact (sound_perform (EPassword o n))
  | |- invar sound (set_top_level_directory ?d) => exact (sound_perform (EDirectory d))
  | |- invar sound delete_wallet => exact (sound_perform EDelete)
  | |- invar sound get_top_level_directory => apply invar_get
  | |- invar sound (open_wallet _ _ _) => apply sound_open_wallet
  | |- invar sound (get_mnemonic _) => apply sound_get_mnemonic
  | |- invar api_sound (modifyS _) => by apply sound_modify
  | _ => keep_step
  end.
#[local] Ltac api := repeat api_step.


#[local] Hint Unfold api_accounts api_create_account_path api_set_active_account api_retrieve_outputs api_retrieve_txs
  api_retrieve_summary_info refresh_now api_init_send_tx attempt_config api_issue_invoice_tx api_process_invoice_tx
  api_tx_lock_outputs api_finalize_tx api_post_tx api_cancel_tx api_get_stored_tx api_scan api_node_height
  api_get_top_level_directory api_set_top_level_directory api_create_wallet api_open_wallet
  api_close_wallet api_get_mnemonic api_change_password api_delete_wallet stop_updater get_updater_messages
  api_get_slatepack_address api_get_slatepack_secret_key api_create_slatepack_message api_slate_from_slatepack_message
  api_decode_slatepack_message api_retrieve_payment_proof api_verify_payment_proof set_tor_config : calls.
#[local] Ltac call := autounfold with calls; api.
Lemma sound_api_accounts m : invar api_sound (api_accounts m).
Proof. call. Qed.
Lemma sound_api_create_account_path m l : invar api_sound (api_create_account_path m l).
Proof. call. Qed.
Lemma sound_api_set_active_account m l : invar api_sound (api_set_active_account m l).
Proof. call. Qed.
Lemma sound_api_retrieve_outputs m b r i : invar api_sound (api_retrieve_outputs fuel m b r i).
Proof. call. Qed.
Lemma sound_api_retrieve_txs m r i u : invar api_sound (api_retrieve_txs fuel m r i u).
Proof. call. Qed.
Lemma sound_api_retrieve_summary_info m r n : invar api_sound (api_retrieve_summary_info fuel m r n).
Proof. call. Qed.
Lemma sound_api_init_send_tx m a : invar api_sound (api_init_send_tx m a).
Proof. call. Qed.
Lemma sound_api_issue_invoice_tx m a : invar api_sound (api_issue_invoice_tx m a).
Proof. call. Qed.
Lemma sound_api_process_invoice_tx m s a : invar api_sound (api_process_invoice_tx m s a).
Proof. call. Qed.
Lemma sound_api_tx_lock_outputs m s : invar api_sound (api_tx_lock_outputs m s).
Proof. call. Qed.
Lemma sound_api_finalize_tx m s : invar api_sound (api_finalize_tx m s).
Proof. call. Qed.
Lemma sound_api_post_tx m s b : invar api_sound (api_post_tx m s b).
Proof. call. Qed.
Lemma sound_api_cancel_tx m i u : invar api_sound (api_cancel_tx fuel m i u).
Proof. call. Qed.
Lemma sound_api_get_stored_tx m i u : invar api_sound (api_get_stored_tx m i u).
Proof. call. Qed.
Lemma sound_api_scan m h b : invar api_sound (api_scan fuel m h b).
Proof. call. Qed.
Lemma sound_api_node_height m : invar api_sound (api_node_height fuel m).
Proof. call. Qed.
Lemma sound_api_get_top_level_directory : invar api_sound (api_get_top_level_directory).
Proof. call. Qed.
Lemma sound_api_set_top_level_directory d : invar api_sound (api_set_top_level_directory d).
Proof. call. Qed.
Lemma sound_api_create_wallet p n w : invar api_sound (api_create_wallet p n w).
Proof. call. Qed.
Lemma sound_api_open_wallet w b : invar api_sound (api_open_wallet w b).
Proof. call. Qed.
Lemma sound_api_close_wallet : invar api_sound (api_close_wallet).
Proof. call. Qed.
Lemma sound_api_get_mnemonic w : invar api_sound (api_get_mnemonic w).
Proof. call. Qed.
Lemma sound_api_change_password o n : invar api_sound (api_change_password o n).
Proof. call. Qed.
Lemma sound_api_delete_wallet : invar api_sound (api_delete_wallet).
Proof. call. Qed.
Lemma sound_api_get_slatepack_address m i : invar api_sound (api_get_slatepack_address m i).
Proof. call. Qed.
Lemma sound_api_get_slatepack_secret_key m i : invar api_sound (api_get_slatepack_secret_key m i).
Proof. call. Qed.
Lemma sound_api_create_slatepack_message m s i l : invar api_sound (api_create_slatepack_message m s i l).
Proof. call. Qed.
Lemma sound_api_slate_from_slatepack_message m x l : invar api_sound (api_slate_from_slatepack_message m x l).
Proof. call. Qed.
Lemma sound_api_decode_slatepack_message m x l : invar api_sound (api_decode_slatepack_message m x l).
Proof. call. Qed.
Lemma sound_api_retrieve_payment_proof m r i u : invar api_sound (api_retrieve_payment_proof fuel m r i u).
Proof. call. Qed.
Lemma sound_api_verify_payment_proof m x : invar api_sound (api_verify_payment_proof m x).
Proof. call. Qed.
Lemma sound_stop_updater : invar api_sound (stop_updater).
Proof. call. Qed.
Lemma sound_get_updater_messages n : invar api_sound (get_updater_messages n).
Proof. call. Qed.
Lemma sound_set_tor_config c : invar api_sound (set_tor_config c).
Proof. call. Qed.
Lemma sound_checked self name s {A} (m : ST Wallet A) : keeps_wf m -> keeps_wf (_ ← checked self name s; m).
Proof. intros Hm. apply wf_bind; [|done]. unfold checked. destruct (fa_middleware self); [wallet|by apply keeps_same]. Qed.
Lemma sound_update m b : invar api_sound (with_wallet (_ ← update_wallet_state fuel m b; mret tt)).
Proof. call. Qed.
Lemma sound_check_version self : invar host_sound (foreign_check_version self).
Proof.
  unfold foreign_check_version. repeat first [apply sound_net|apply sound_inst|keep_step].
  unfold checked. destruct (fa_middleware self); [wallet|by apply keeps_same].
Qed.
Lemma sound_coinbase self c : invar host_sound (foreign_api_build_coinbase self c).
Proof. unfold foreign_api_build_coinbase. keep. apply sound_inst, sound_checked. wallet. Qed.
Lemma sound_receive self s n a : invar host_sound (foreign_api_receive_tx self s n a).
Proof. unfold foreign_api_receive_tx. repeat first [apply sound_net|apply sound_inst, sound_checked; wallet|keep_step]. Qed.
Lemma sound_foreign_finalize self s b : invar host_sound (foreign_api_finalize_tx self s b).
Proof. unfold foreign_api_finalize_tx. repeat first [apply sound_net|apply sound_inst; wallet|keep_step]. Qed.
End apis.

#[export] Hint Resolve sound_net sound_on_host : sound.
#[export] Hint Extern 1 (invar _ (with_wallet (_ ← update_wallet_state _ _ _; mret tt))) => apply sound_update : sound.
#[export] Hint Extern 1 (invar _ (api_accounts _)) => apply sound_api_accounts : sound.
#[export] Hint Extern 1 (invar _ (api_create_account_path _ _)) => apply sound_api_create_account_path : sound.
#[export] Hint Extern 1 (invar _ (api_set_active_account _ _)) => apply sound_api_set_active_account : sound.
#[export] Hint Extern 1 (invar _ (api_retrieve_outputs _ _ _ _ _)) => apply sound_api_retrieve_outputs : sound.
#[export] Hint Extern 1 (invar _ (api_retrieve_txs _ _ _ _ _)) => apply sound_api_retrieve_txs : sound.
#[export] Hint Extern 1 (invar _ (api_retrieve_summary_info _ _ _ _)) => apply sound_api_retrieve_summary_info : sound.
#[export] Hint Extern 1 (invar _ (api_init_send_tx _ _)) => apply sound_api_init_send_tx : sound.
#[export] Hint Extern 1 (invar _ (api_issue_invoice_tx _ _)) => apply sound_api_issue_invoice_tx : sound.
#[export] Hint Extern 1 (invar _ (api_process_invoice_tx _ _ _)) => apply sound_api_process_invoice_tx : sound.
#[export] Hint Extern 1 (invar _ (api_tx_lock_outputs _ _)) => apply sound_api_tx_lock_outputs : sound.
#[export] Hint Extern 1 (invar _ (api_finalize_tx _ _)) => apply sound_api_finalize_tx : sound.
#[export] Hint Extern 1 (invar _ (api_post_tx _ _ _)) => apply sound_api_post_tx : sound.
#[export] Hint Extern 1 (invar _ (api_cancel_tx _ _ _ _)) => apply sound_api_cancel_tx : sound.
#[export] Hint Extern 1 (invar _ (api_get_stored_tx _ _ _)) => apply sound_api_get_stored_tx : sound.
#[export] Hint Extern 1 (invar _ (api_scan _ _ _ _)) => apply sound_api_scan : sound.
#[export] Hint Extern 1 (invar _ (api_node_height _ _)) => apply sound_api_node_height : sound.
#[export] Hint Extern 1 (invar _ api_get_top_level_directory) => apply sound_api_get_top_level_directory : sound.
#[export] Hint Extern 1 (invar _ (api_set_top_level_directory _)) => apply sound_api_set_top_level_directory : sound.
#[export] Hint Extern 1 (invar _ (api_create_wallet _ _ _)) => apply sound_api_create_wallet : sound.
#[export] Hint Extern 1 (invar _ (api_open_wallet _ _)) => apply sound_api_open_wallet : sound.
#[export] Hint Extern 1 (invar _ api_close_wallet) => apply sound_api_close_wallet : sound.
#[export] Hint Extern 1 (invar _ (api_get_mnemonic _)) => apply sound_api_get_mnemonic : sound.
#[export] Hint Extern 1 (invar _ (api_change_password _ _)) => apply sound_api_change_password : sound.
#[export] Hint Extern 1 (invar _ api_delete_wallet) => apply sound_api_delete_wallet : sound.
#[export] Hint Extern 1 (invar _ (api_get_slatepack_address _ _)) => apply sound_api_get_slatepack_address : sound.
#[export] Hint Extern 1 (invar _ (api_get_slatepack_secret_key _ _)) => apply sound_api_get_slatepack_secret_key : sound.
#[export] Hint Extern 1 (invar _ (api_create_slatepack_message _ _ _ _)) => apply sound_api_create_slatepack_message : sound.
#[export] Hint Extern 1 (invar _ (api_slate_from_slatepack_message _ _ _)) => apply sound_api_slate_from_slatepack_message : sound.
#[export] Hint Extern 1 (invar _ (api_decode_slatepack_message _ _ _)) => apply sound_api_decode_slatepack_message : sound.
#[export] Hint Extern 1 (invar _ (api_retrieve_payment_proof _ _ _ _ _)) => apply sound_api_retrieve_payment_proof : sound.
#[export] Hint Extern 1 (invar _ (api_verify_payment_proof _ _)) => apply sound_api_verify_payment_proof : sound.
#[export] Hint Extern 1 (invar _ stop_updater) => apply sound_stop_updater : sound.
#[export] Hint Extern 1 (invar _ (get_updater_messages _)) => apply sound_get_updater_messages : sound.
#[export] Hint Extern 1 (invar _ (set_tor_config _)) => apply sound_set_tor_config : sound.
#[export] Hint Extern 1 (invar _ (foreign_check_version _)) => apply sound_check_version : sound.
#[export] Hint Extern 1 (invar _ (foreign_api_build_coinbase _ _)) => apply sound_coinbase : sound.
#[export] Hint Extern 1 (invar _ (foreign_api_receive_tx _ _ _ _)) => apply sound_receive : sound.
#[export] Hint Extern 1 (invar _ (foreign_api_finalize_tx _ _ _)) => apply sound_foreign_finalize : sound.
(** [sounds] goes through what calls them. *)
Ltac sounds := repeat first [solve [auto with sound nocore] | by apply sound_modify | keep_step].
