(* ===== verification/UpdaterThread.v ===== *)
(** * The updater in the background (libwallet/src/api_impl/owner_updater.rs)

    A step relation: the owner starts and stops updaters and makes calls, the threads take
    the updater's lock one after the other and go round their loop, messages come in and
    are read.  Every atomic access to the flag is a step of its own. *)
From S2P Require Import Prelude.
From S2P Require Import RustStd.
From S2P Require Import Crates.
From S2P Require Import Effects.
From S2P Require Import Slate.
From S2P Require Import SlateV4.
From S2P Require Import SlateBin.
From S2P Require Import StateM.
From S2P Require Import Wallet.
From S2P Require Import Address.
From S2P Require Import Selection.
From S2P Require Import WalletTx.
From S2P Require Import Slatepack.
From S2P Require Import Armor.
From S2P Require Import Updater.
From S2P Require Import Scan.
From S2P Require Import Owner.
From S2P Require Import Packer.
From S2P Require Import Foreign.
From S2P Require Import Invariant.
From S2P Require Import Seed.
From S2P Require Import Lifecycle.
From S2P Require Import Json.
From S2P Require Import NodeHttp.
From S2P Require Import Sender.
From S2P Require Import Facade.
#[local] Open Scope Z_scope.

(** ** The queue of messages *)
Definition MESSAGE_QUEUE_MAX_LEN : nat := Z.to_nat 10000.
(** [q.insert(0, m); while q.len() > MAX { q.pop(); }] *)
Definition push_message (m : StatusMessage) (q : list StatusMessage) : list StatusMessage :=
  take MESSAGE_QUEUE_MAX_LEN (m :: q).

Section code.
Context `{BuildProfile, GC : GrinCrates, !BinCrates, !WalletCrates, !AddressCrates, !SlatepackCrates, !ArmorCrates,
  !SlatepackJson, !HexCrate, !NodeClient, !DalekCrates, !ScanCrates, !OwnerCrates, !DiskFaults, SC : !SeedCrates, !SeedKeychain,
  !SlateJson, !JsonCrate, !RpcJson, !UriCrate, !SenderCrates, !NodeVersions}.
Context (fuel : nat).

(** ** One round of [Updater::run] *)
Definition wallet_opened : ST OwnerApi bool :=
  getS (fun o => bool_decide (is_Some (pr_backend (h_provider (oa_host o))))).
Definition update_round (mask : option SecretKey) : ST OwnerApi unit :=
  opened ← wallet_opened;
  whenS opened (with_wallet (_ ← update_wallet_state fuel mask false; mret tt)).

(** Where a thread that holds the updater is: before its round, before it looks at the flag, asleep. *)
Inductive Pc := AtRound | AtFlag | Asleep.
Record Sys := mkSys {
  sy_api : OwnerApi;
  sy_waiting : list (option SecretKey);               (* threads that wait for the updater *)
  sy_running : option (Pc * option SecretKey) }.      (* the one that has it *)
Definition at_pc pc mask (s : Sys) o : Sys := mkSys o (sy_waiting s) (Some (pc, mask)).
Definition Sys_start (h : Host) : Sys := mkSys (Owner_new h) [] None.

Inductive Label :=
| LStart (mask : option SecretKey) | LStop | LAcquire | LRound | LFail | LGoOn | LLeave | LWake
| LMessage (m : StatusMessage) | LRead (count : nat) | LCall.
Implicit Types (s : Sys).

Inductive step : Label -> Sys -> Sys -> Prop :=
| step_start s mask :
    step (LStart mask) s (mkSys (sy_api s) (sy_waiting s ++ [mask]) (sy_running s))
| step_stop s :
    step LStop s (mkSys (stop_updater (sy_api s)).2 (sy_waiting s) (sy_running s))
| step_acquire o mask rest :
    step LAcquire (mkSys o (mask :: rest) None)
      (mkSys (set_oa_updater_running true o) rest (Some (AtRound, mask)))
| step_round o ws mask o' :
    update_round mask o = (Ok tt, o') ->
    step LRound (mkSys o ws (Some (AtRound, mask))) (mkSys o' ws (Some (AtFlag, mask)))
| step_fail o ws mask r o' :
    update_round mask o = (r, o') -> is_ok r = false ->
    step LFail (mkSys o ws (Some (AtRound, mask))) (mkSys o' ws None)
| step_go_on o ws mask :
    oa_updater_running o = true ->
    step LGoOn (mkSys o ws (Some (AtFlag, mask))) (mkSys o ws (Some (Asleep, mask)))
| step_leave o ws mask :
    oa_updater_running o = false ->
    step LLeave (mkSys o ws (Some (AtFlag, mask))) (mkSys o ws None)
| step_wake o ws mask :
    step LWake (mkSys o ws (Some (Asleep, mask))) (mkSys o ws (Some (AtRound, mask)))
| step_message s m :
    step (LMessage m) s (mkSys (set_oa_updater_messages (push_message m (oa_updater_messages (sy_api s))) (sy_api s))
                           (sy_waiting s) (sy_running s))
| step_read s count :
    step (LRead count) s (mkSys (get_updater_messages count (sy_api s)).2 (sy_waiting s) (sy_running s))
| step_call s o :      (* any other call of the API *)
    oa_updater_running o = oa_updater_running (sy_api s) -> oa_updater_messages o = oa_updater_messages (sy_api s) ->
    step LCall s (mkSys o (sy_waiting s) (sy_running s)).

Inductive steps : list Label -> Sys -> Sys -> Prop :=
| steps_nil s : steps [] s s
| steps_cons l ls s s' s'' : step l s s' -> steps ls s' s'' -> steps (l :: ls) s s''.

Lemma steps_app ls1 ls2 s s' s'' : steps ls1 s s' -> steps ls2 s' s'' -> steps (ls1 ++ ls2) s s''.
Proof. intros K1 K2. induction K1; cbn; [done|]. econstructor; eauto. Qed.

(** ** What leaves the flag and the messages alone *)
Definition flag_of (o : OwnerApi) : bool * list StatusMessage := (oa_updater_running o, oa_updater_messages o).
Lemma leaves_on_host {A} (m : ST Host A) : leaves flag_of (on_host m).
Proof. intros o. unfold on_host. by destruct (m (oa_host o)). Qed.
Lemma leaves_round mask : leaves flag_of (update_round mask).
Proof.
  unfold update_round. apply leaves_bind; [apply leaves_get|]. intros b. unfold whenS. destruct b; [|apply leaves_ret].
  apply leaves_on_host.
Qed.
Lemma round_flag mask o r o' : update_round mask o = (r, o') -> oa_updater_running o' = oa_updater_running o.
Proof. intros E. pose proof (leaves_round mask o) as Hl. rewrite E in Hl. by injection Hl. Qed.

(** ** Stopping *)
Definition of_thread (l : Label) : bool :=
  match l with LAcquire | LRound | LFail | LGoOn | LLeave | LWake => true | _ => false end.
Definition is_round (l : Label) : bool := match l with LRound | LFail => true | _ => false end.
Definition is_start (l : Label) : bool := match l with LStart _ => true | _ => false end.
Definition count_of (f : Label -> bool) (ls : list Label) : nat := length (filter (fun l => f l = true) ls).

(** The steps that a thread has left when it was stopped, and the rounds among them. *)
Definition steps_left s : nat :=
  match sy_running s with
  | None => 0 | Some (AtFlag, _) => 1 | Some (AtRound, _) => 2 | Some (Asleep, _) => 3
  end.
Definition rounds_left s : nat :=
  match sy_running s with None | Some (AtFlag, _) => 0 | Some _ => 1 end.
Definition stopped s : Prop := oa_updater_running (sy_api s) = false /\ sy_waiting s = [].

Lemma stopped_step l s s' :
  step l s s' -> is_start l = false -> stopped s ->
  stopped s' /\ (steps_left s' + Nat.b2n (of_thread l) <= steps_left s)%nat
  /\ (rounds_left s' + Nat.b2n (is_round l) <= rounds_left s)%nat.
Proof.
  intros Hs Hl [Hf Hw]. unfold stopped, steps_left, rounds_left.
  destruct Hs as [| | | o ws mask o' E | o ws mask r o' E Er | | | | | | s o Hf' Hm']; cbn in *;
    try discriminate; split_and!; try done; try lia; try congruence; by rewrite (round_flag _ _ _ _ E).
Qed.
Lemma count_cons f l ls : count_of f (l :: ls) = (Nat.b2n (f l) + count_of f ls)%nat.
Proof. unfold count_of. rewrite filter_cons. by destruct (f l). Qed.
Lemma count_app f ls1 ls2 : count_of f (ls1 ++ ls2) = (count_of f ls1 + count_of f ls2)%nat.
Proof. unfold count_of. by rewrite filter_app, length_app. Qed.
Lemma stopped_steps ls s s' :
  steps ls s s' -> Forall (fun l => is_start l = false) ls -> stopped s ->
  stopped s' /\ (steps_left s' + count_of of_thread ls <= steps_left s)%nat
  /\ (rounds_left s' + count_of is_round ls <= rounds_left s)%nat.
Proof.
  intros Hs. induction Hs as [s|l ls s s1 s2 Hl _ IH]; intros Hf Hst; [by cbn; split_and!; try lia|].
  apply Forall_cons in Hf as [Hl1 Hf]. destruct (stopped_step _ _ _ Hl Hl1 Hst) as (Hst1 & K1 & K2).
  destruct (IH Hf Hst1) as (Hst2 & K3 & K4). rewrite !count_cons. split_and!; [done|lia..].
Qed.
(** The thread that has the updater can always go on. *)
Lemma thread_goes_on s : sy_running s <> None -> exists l s', of_thread l = true /\ step l s s'.
Proof.
  destruct s as [o ws [[[] mask]|]]; cbn; intros Hr; [| | |done].
  - destruct (update_round mask o) as [r o'] eqn:E. destruct (is_ok r) eqn:Er.
    + destruct r as [[]|e|e]; [|done..]. exists LRound. eexists. split; [done|]. by apply step_round.
    + exists LFail. eexists. split; [done|]. by eapply step_fail.
  - destruct (oa_updater_running o) eqn:E; [exists LGoOn|exists LLeave]; eexists; (split; [done|]); by constructor.
  - exists LWake. eexists. split; [done|]. constructor.
Qed.

(** C34: Stopping the updater.  When no other updater waits to be run and none is started, the
    one that runs when it is stopped does at most one more round and leaves after at most three
    steps of its own, whatever else is called in between; and it is never stuck on its way. *)
Theorem stop_ends_updater s ls s' :
  sy_waiting s = [] -> Forall (fun l => is_start l = false) ls -> steps (LStop :: ls) s s' ->
  (count_of is_round ls <= 1)%nat /\ (count_of of_thread ls <= 3)%nat
  /\ (count_of of_thread ls = 3%nat -> sy_running s' = None)
  /\ (sy_running s' <> None -> exists l s'', of_thread l = true /\ step l s' s'').
Proof.
  intros Hw Hf Hs. inversion Hs as [|? ? ? s1 ? Hl Hls]; subst. inversion Hl; subst.
  destruct (stopped_steps _ _ _ Hls Hf) as (_ & K1 & K2); [by split|]. unfold rounds_left, steps_left in *. cbn in K1, K2.
  assert (K3 : (steps_left s <= 3)%nat /\ (rounds_left s <= 1)%nat).
  { unfold steps_left, rounds_left. destruct (sy_running s) as [[[] ?]|]; lia. }
  unfold rounds_left, steps_left in *. split_and!; [lia..| |apply thread_goes_on].
  intros E. destruct (sy_running s') as [[[] ?]|]; [lia..|done].
Qed.

(** A stop that does not last.  Start the updater twice and stop it: the second thread, which was
    waiting, takes over, raises the flag again and goes on for as many rounds as one likes,
    without anything being started after the stop. *)
Theorem stop_overridden h mask n :
  pr_backend (h_provider h) = None ->
  exists ls s, steps (LStart mask :: LStart mask :: LAcquire :: LStop :: ls) (Sys_start h) s
    /\ Forall (fun l => of_thread l = true) ls /\ (n <= count_of is_round ls)%nat
    /\ oa_updater_running (sy_api s) = true.
Proof.
  intros Hc. set (o := Owner_new h).
  assert (Hround : forall b, update_round mask (set_oa_updater_running b o) = (Ok tt, set_oa_updater_running b o)).
  { intros b. unfold update_round, wallet_opened. erewrite ST_bind_run by reflexivity. cbn. by rewrite Hc. }
  set (up := set_oa_updater_running true o).
  assert (Hloop : forall k, exists ls, steps ls (mkSys up [] (Some (AtRound, mask))) (mkSys up [] (Some (AtRound, mask)))
    /\ Forall (fun l => of_thread l = true) ls /\ (k <= count_of is_round ls)%nat).
  { induction k as [|k (ls & Hls & Hf & Hk)]; [exists []; split_and!; [constructor|done|done]|].
    exists (LRound :: LGoOn :: LWake :: ls). split_and!.
    - eapply steps_cons; [apply step_round, Hround|]. eapply steps_cons; [by apply step_go_on|].
      eapply steps_cons; [apply step_wake|]. exact Hls.
    - by repeat constructor.
    - rewrite !count_cons. cbn. lia. }
  destruct (Hloop n) as (ls & Hls & Hf & Hn). exists (LRound :: LLeave :: LAcquire :: ls), (mkSys up [] (Some (AtRound, mask))).
  split_and!; [|by repeat constructor|rewrite !count_cons; cbn; lia|done].
  eapply steps_cons; [apply step_start|]. eapply steps_cons; [apply step_start|]. cbn.
  eapply steps_cons; [apply step_acquire|]. eapply steps_cons; [apply step_stop|].
  eapply steps_cons; [apply step_round, (Hround false)|]. eapply steps_cons; [by apply step_leave|].
  eapply steps_cons; [apply step_acquire|]. exact Hls.
Qed.

(** An updater that fails.  When a round ends with an error the thread is gone but the flag stays
    up, and until somebody stops the updater that is not there the wallet answers from
    what it has, also when it is asked to refresh from the node. *)
Theorem failed_updater_freezes s s' ls s'' :
  step LFail s s' -> oa_updater_running (sy_api s) = true ->
  steps ls s' s'' -> Forall (fun l => l <> LStop /\ of_thread l = false) ls ->
  sy_running s'' = None /\ oa_updater_running (sy_api s'') = true
  /\ forall mask minimum tx_id slate_id spent,
       api_retrieve_summary_info fuel mask true minimum (sy_api s'') = api_retrieve_summary_info fuel mask false minimum (sy_api s'')
       /\ api_retrieve_txs fuel mask true tx_id slate_id (sy_api s'') = api_retrieve_txs fuel mask false tx_id slate_id (sy_api s'')
       /\ api_retrieve_outputs fuel mask spent true tx_id (sy_api s'') = api_retrieve_outputs fuel mask spent false tx_id (sy_api s'').
Proof.
  intros Hs Hf Hls Hno.
  assert (Hup : sy_running s'' = None /\ oa_updater_running (sy_api s'') = true).
  { assert (Hup : sy_running s' = None /\ oa_updater_running (sy_api s') = true).
    { inversion Hs; subst; cbn in *. split; [done|]. match goal with E : update_round _ _ = _ |- _ => by rewrite (round_flag _ _ _ _ E) end. }
    clear Hs Hf. induction Hls as [|l ls s1 s2 s3 Hl _ IH]; [done|]. apply Forall_cons in Hno as [[Hl1 Hl2] Hno].
    apply IH; [done|]. destruct Hup as [K1 K2]. destruct Hl; cbn in *; try done. by rewrite <- K2. }
  destruct Hup as [K1 K2]. split_and!; [done..|]. intros mask minimum tx_id slate_id spent.
  unfold api_retrieve_summary_info, api_retrieve_txs, api_retrieve_outputs, refresh_now, mbind, ST_bind, getS, mret, ST_ret.
  by rewrite K2.
Qed.

(** ** Messages *)
(** What is put in, what is read, oldest first, and whether the queue has room all the while. *)
Definition pushed (ls : list Label) : list StatusMessage := omap (fun l => match l with LMessage m => Some m | _ => None end) ls.
Definition queue_after (l : Label) (q : list StatusMessage) : list StatusMessage :=
  match l with LMessage m => push_message m q | LRead n => take (length q - n) q | _ => q end.
Definition handed_out (l : Label) (q : list StatusMessage) : list StatusMessage :=
  match l with LRead n => rev (drop (length q - n) q) | _ => [] end.
Fixpoint delivered (ls : list Label) (q : list StatusMessage) : list StatusMessage :=
  match ls with [] => [] | l :: ls' => handed_out l q ++ delivered ls' (queue_after l q) end.
Fixpoint has_room (ls : list Label) (q : list StatusMessage) : Prop :=
  match ls with
  | [] => True
  | l :: ls' => (match l with LMessage _ => (length q < MESSAGE_QUEUE_MAX_LEN)%nat | _ => True end) /\ has_room ls' (queue_after l q)
  end.

Lemma step_queue l s s' : step l s s' -> oa_updater_messages (sy_api s') = queue_after l (oa_updater_messages (sy_api s)).
Proof.
  intros Hs. destruct Hs as [| | | o ws mask o' E | o ws mask r o' E Er | | | | | |]; cbn; try done.
  - pose proof (leaves_round mask o) as Hl. rewrite E in Hl. by injection Hl.
  - pose proof (leaves_round mask o) as Hl. rewrite E in Hl. by injection Hl.
Qed.
(** The messages of the updater come in order, each once: as long as no more than 10000 wait, what
    was handed out followed by what still waits is what waited at first followed by what was sent; the queue never
    holds more than 10000. *)
Theorem messages_in_order ls s s' :
  steps ls s s' -> (length (oa_updater_messages (sy_api s)) <= MESSAGE_QUEUE_MAX_LEN)%nat ->
  (length (oa_updater_messages (sy_api s')) <= MESSAGE_QUEUE_MAX_LEN)%nat
  /\ (has_room ls (oa_updater_messages (sy_api s)) ->
      rev (oa_updater_messages (sy_api s)) ++ pushed ls
      = delivered ls (oa_updater_messages (sy_api s)) ++ rev (oa_updater_messages (sy_api s'))).
Proof.
  intros Hs. induction Hs as [s|l ls s s1 s2 Hl _ IH]; intros Hlen; [split; [done|intros _; by rewrite app_nil_r]|].
  apply step_queue in Hl. set (q := oa_updater_messages (sy_api s)) in *. rewrite Hl in IH.
  assert (Hlen1 : (length (queue_after l q) <= MESSAGE_QUEUE_MAX_LEN)%nat).
  { destruct l; cbn [queue_after]; [done..| | |done]; unfold push_message; rewrite length_take; lia. }
  destruct (IH Hlen1) as [K1 K2]. split; [done|]. intros [Hr Hroom]. specialize (K2 Hroom). cbn [delivered].
  rewrite <- app_assoc, <- K2. unfold pushed. cbn [omap list_omap].
  destruct l; cbn [queue_after handed_out app]; try done.
  - unfold push_message. rewrite take_ge by (cbn; lia). cbn [rev]. by rewrite <- app_assoc.
  - rewrite app_assoc. f_equal. rewrite <- rev_app_distr. by rewrite take_drop.
Qed.
End code.
