(* ===== verification/Rpc.v ===== *)
(** * The calls of the JSON-RPC servers (api/src/owner_rpc.rs, api/src/foreign_rpc.rs)

    The methods of the two traits as data, and what each does.  The macro that makes a
    server of a trait is a parameter: which calls a request stands for, and the reply made
    of their results. *)
From S2P Require Import Prelude.
From S2P Require Import RustStd.
From S2P Require Import Crates.
From S2P Require Import Effects.
From S2P Require Import Slate.
From S2P Require Import SlateV4.
From S2P Require Import SlateBin.
From S2P Require Import StateM.
From S2P Require Import Wallet.
From S2P Require Import Address.
From S2P Require Import Selection.
From S2P Require Import WalletTx.
From S2P Require Import Slatepack.
From S2P Require Import Armor.
From S2P Require Import Updater.
From S2P Require Import Scan.
From S2P Require Import Owner.
From S2P Require Import Packer.
From S2P Require Import Foreign.
From S2P Require Import Invariant.
From S2P Require Import Seed.
From S2P Require Import Lifecycle.
From S2P Require Import Json.
From S2P Require Import NodeHttp.
From S2P Require Import Sender.
From S2P Require Import Facade.
From S2P Require Import UpdaterThread.
#[local] Open Scope Z_scope.

(** [PublicKey::mul_assign] *)
Class EcdhCrate `{GrinTypes} := pk_mul : PublicKey -> SecretKey -> Res PublicKey.

Section code.
Context `{BuildProfile, GC : GrinCrates, !BinCrates, !WalletCrates, !AddressCrates, !SlatepackCrates, !ArmorCrates,
  !SlatepackJson, !HexCrate, !NodeClient, !DalekCrates, !ScanCrates, !OwnerCrates, !DiskFaults, SC : !SeedCrates, !SeedKeychain,
  !SlateJson, !JsonCrate, !RpcJson, !UriCrate, !SenderCrates, !NodeVersions, !EcdhCrate}.
Context (fuel : nat).
#[local] Abbreviation O_ := (ST OwnerApi).
#[local] Abbreviation S_ := (ST Sys).

(** ** OwnerRpc *)
(** [Token] is the keychain mask. *)
Definition Token : Type := option SecretKey.
Inductive OwnerCall :=
| RpcAccounts (token : Token)
| RpcCreateAccountPath (token : Token) (label : string)
| RpcSetActiveAccount (token : Token) (label : string)
| RpcRetrieveOutputs (token : Token) (include_spent refresh_from_node : bool) (tx_id : option Z)
| RpcRetrieveTxs (token : Token) (refresh_from_node : bool) (tx_id : option Z) (tx_slate_id : option Uuid)
| RpcRetrieveSummaryInfo (token : Token) (refresh_from_node : bool) (minimum_confirmations : Z)
| RpcInitSendTx (token : Token) (args : InitTxArgs)
| RpcIssueInvoiceTx (token : Token) (args : IssueInvoiceTxArgs)
| RpcProcessInvoiceTx (token : Token) (slate : VersionedSlate) (args : InitTxArgs)
| RpcTxLockOutputs (token : Token) (slate : VersionedSlate)
| RpcFinalizeTx (token : Token) (slate : VersionedSlate)
| RpcPostTx (token : Token) (slate : VersionedSlate) (fluff : bool)
| RpcCancelTx (token : Token) (tx_id : option Z) (tx_slate_id : option Uuid)
| RpcGetStoredTx (token : Token) (id : option Z) (slate_id : option Uuid)
| RpcScan (token : Token) (start_height : option Z) (delete_unconfirmed : bool)
| RpcNodeHeight (token : Token)
| RpcInitSecureApi (ecdh_pubkey : PublicKey)
| RpcGetTopLevelDirectory
| RpcSetTopLevelDirectory (dir : string)
| RpcCreateWallet (mnemonic : option string) (mnemonic_length : Z) (password : string)
| RpcOpenWallet (password : string)
| RpcCloseWallet
| RpcGetMnemonic (password : string)
| RpcChangePassword (old new : string)
| RpcDeleteWallet
| RpcStartUpdater (token : Token) (frequency : Z)
| RpcStopUpdater
| RpcGetUpdaterMessages (count : Z)
| RpcGetSlatepackAddress (token : Token) (derivation_index : Z)
| RpcGetSlatepackSecretKey (token : Token) (derivation_index : Z)
| RpcCreateSlatepackMessage (token : Token) (slate : VersionedSlate) (sender_index : option Z) (recipients : list SlatepackAddress)
| RpcSlateFromSlatepackMessage (token : Token) (message : string) (secret_indices : list Z)
| RpcDecodeSlatepackMessage (token : Token) (message : string) (secret_indices : list Z)
| RpcRetrievePaymentProof (token : Token) (refresh_from_node : bool) (tx_id : option Z) (tx_slate_id : option Uuid)
| RpcVerifyPaymentProof (token : Token) (proof : PaymentProof)
| RpcSetTorConfig (tor_config : option TorConfig).

Definition method_name (c : OwnerCall) : string :=
  match c with
  | RpcAccounts _ => "accounts" | RpcCreateAccountPath _ _ => "create_account_path"
  | RpcSetActiveAccount _ _ => "set_active_account" | RpcRetrieveOutputs _ _ _ _ => "retrieve_outputs"
  | RpcRetrieveTxs _ _ _ _ => "retrieve_txs" | RpcRetrieveSummaryInfo _ _ _ => "retrieve_summary_info"
  | RpcInitSendTx _ _ => "init_send_tx" | RpcIssueInvoiceTx _ _ => "issue_invoice_tx"
  | RpcProcessInvoiceTx _ _ _ => "process_invoice_tx" | RpcTxLockOutputs _ _ => "tx_lock_outputs"
  | RpcFinalizeTx _ _ => "finalize_tx" | RpcPostTx _ _ _ => "post_tx" | RpcCancelTx _ _ _ => "cancel_tx"
  | RpcGetStoredTx _ _ _ => "get_stored_tx" | RpcScan _ _ _ => "scan" | RpcNodeHeight _ => "node_height"
  | RpcInitSecureApi _ => "init_secure_api" | RpcGetTopLevelDirectory => "get_top_level_directory"
  | RpcSetTopLevelDirectory _ => "set_top_level_directory" | RpcCreateWallet _ _ _ => "create_wallet"
  | RpcOpenWallet _ => "open_wallet" | RpcCloseWallet => "close_wallet" | RpcGetMnemonic _ => "get_mnemonic"
  | RpcChangePassword _ _ => "change_password" | RpcDeleteWallet => "delete_wallet"
  | RpcStartUpdater _ _ => "start_updater" | RpcStopUpdater => "stop_updater"
  | RpcGetUpdaterMessages _ => "get_updater_messages" | RpcGetSlatepackAddress _ _ => "get_slatepack_address"
  | RpcGetSlatepackSecretKey _ _ => "get_slatepack_secret_key"
  | RpcCreateSlatepackMessage _ _ _ _ => "create_slatepack_message"
  | RpcSlateFromSlatepackMessage _ _ _ => "slate_from_slatepack_message"
  | RpcDecodeSlatepackMessage _ _ _ => "decode_slatepack_message"
  | RpcRetrievePaymentProof _ _ _ _ => "retrieve_payment_proof" | RpcVerifyPaymentProof _ _ => "verify_payment_proof"
  | RpcSetTorConfig _ => "set_tor_config"
  end.

(** What a call gives back. *)
Inductive OwnerOk :=
| OkUnit | OkAccounts (l : list AcctPathMapping) | OkIdentifier (i : Identifier)
| OkOutputs (r : bool * list OutputCommitMapping) | OkTxs (r : bool * list TxLogEntry) | OkInfo (r : bool * WalletInfo)
| OkSlate (s : VersionedSlate) | OkStored (s : option VersionedSlate) | OkHeight (r : NodeHeightResult)
| OkPubkey (k : PublicKey) | OkString (s : string) | OkToken (t : Token) | OkMessages (l : list StatusMessage)
| OkAddress (a : SlatepackAddress) | OkDalekKey (k : DalekSecretKey) | OkSlatepack (s : Slatepack)
| OkProof (p : PaymentProof) | OkBools (r : bool * bool).

Definition fmapS {S A B} (f : A -> B) (m : ST S A) : ST S B := a ← m; mret (f a).
#[local] Infix "<$$>" := fmapS (at level 61, left associativity).

(** Random numbers. *)
Definition drawO : O_ Z := on_host (on_net (local draw)).
Definition from_versioned (v : VersionedSlate) : O_ Slate := on_host (on_net (local (upgrade v))).
Definition ok_slate (s : Slate) : Res OwnerOk := v ← into_version s SV4; Ok (OkSlate v).

(** The key both sides compute: the x coordinate of the product. *)
Definition shared_key_of (their_key : PublicKey) (sec_key : SecretKey) : Res SecretKey :=
  shared_pubkey ← pk_mul their_key sec_key;
  let x_coord := pk_serialize_compressed shared_pubkey in
  ok_or "Secp(InvalidSecretKey)" (sk_from_slice (String.substring 1 (String.length x_coord - 1) x_coord)).
Definition init_secure_api (ecdh_pubkey : PublicKey) : O_ PublicKey :=
  n ← drawO;
  let sec_key := sk_new n in
  shared_key ← liftS (shared_key_of ecdh_pubkey sec_key);
  _ ← modifyS (set_oa_shared_key (Some shared_key));
  liftS (ok_or "Secp(InvalidSecretKey)" (pk_from_secret_key sec_key)).

(** [str::trim] of a text that begins and ends with none of the white space beyond ASCII. *)
Fixpoint trim_start (s : string) : string :=
  match s with
  | String c s' => if bool_decide (Ascii.nat_of_ascii c ∈ [9; 10; 11; 12; 13; 32]%nat) then trim_start s' else s
  | EmptyString => EmptyString
  end.
Fixpoint trim_end (s : string) : string :=
  match s with
  | String c s' =>
      match trim_end s' with
      | EmptyString => if bool_decide (Ascii.nat_of_ascii c ∈ [9; 10; 11; 12; 13; 32]%nat) then EmptyString else String c EmptyString
      | t => String c t
      end
  | EmptyString => EmptyString
  end.
Definition trim (s : string) : string := trim_end (trim_start s).

Definition on_api {A} (m : O_ A) : S_ A :=
  fun s => let '(r, o) := m (sy_api s) in (r, mkSys o (sy_waiting s) (sy_running s)).
(** A thread is made, which waits for the updater. *)
Definition start_updater (mask : option SecretKey) : S_ unit :=
  modifyS (fun s => mkSys (sy_api s) (sy_waiting s ++ [mask]) (sy_running s)).

Definition call_owner (c : OwnerCall) : O_ OwnerOk :=
  match c with
  | RpcAccounts t => OkAccounts <$$> api_accounts t
  | RpcCreateAccountPath t label => OkIdentifier <$$> api_create_account_path t label
  | RpcSetActiveAccount t label => _ ← api_set_active_account t label; mret OkUnit
  | RpcRetrieveOutputs t spent refresh tx_id => OkOutputs <$$> api_retrieve_outputs fuel t spent refresh tx_id
  | RpcRetrieveTxs t refresh tx_id slate_id => OkTxs <$$> api_retrieve_txs fuel t refresh tx_id slate_id
  | RpcRetrieveSummaryInfo t refresh minimum => OkInfo <$$> api_retrieve_summary_info fuel t refresh minimum
  | RpcInitSendTx t args => s ← api_init_send_tx t args; liftS (ok_slate s)
  | RpcIssueInvoiceTx t args => s ← api_issue_invoice_tx t args; liftS (ok_slate s)
  | RpcProcessInvoiceTx t v args => s ← from_versioned v; s ← api_process_invoice_tx t s args; liftS (ok_slate s)
  | RpcTxLockOutputs t v => s ← from_versioned v; _ ← api_tx_lock_outputs t s; mret OkUnit
  | RpcFinalizeTx t v => s ← from_versioned v; s ← api_finalize_tx t s; liftS (ok_slate s)
  | RpcPostTx t v fluff => s ← from_versioned v; _ ← api_post_tx t s fluff; mret OkUnit
  | RpcCancelTx t tx_id slate_id => _ ← api_cancel_tx fuel t tx_id slate_id; mret OkUnit
  | RpcGetStoredTx t id slate_id =>
      out ← api_get_stored_tx t id slate_id;
      match out with
      | Some s => v ← liftS (into_version s SV4); mret (OkStored (Some v))
      | None => mret (OkStored None)
      end
  | RpcScan t start delete => _ ← api_scan fuel t start delete; mret OkUnit
  | RpcNodeHeight t => OkHeight <$$> api_node_height fuel t
  | RpcInitSecureApi k => OkPubkey <$$> init_secure_api k
  | RpcGetTopLevelDirectory => OkString <$$> api_get_top_level_directory
  | RpcSetTopLevelDirectory dir => _ ← api_set_top_level_directory dir; mret OkUnit
  | RpcCreateWallet m n pw => _ ← api_create_wallet m (Z.to_nat n) pw; mret OkUnit
  | RpcOpenWallet pw => OkToken <$$> api_open_wallet pw true
  | RpcCloseWallet => _ ← api_close_wallet; mret OkUnit
  | RpcGetMnemonic pw => OkString <$$> api_get_mnemonic pw
  | RpcChangePassword old new => _ ← api_change_password old new; mret OkUnit
  | RpcDeleteWallet => _ ← api_delete_wallet; mret OkUnit
  | RpcStartUpdater _ _ => mret OkUnit        (* see [exec_owner] *)
  | RpcStopUpdater => _ ← stop_updater; mret OkUnit
  | RpcGetUpdaterMessages count => OkMessages <$$> get_updater_messages (Z.to_nat count)
  | RpcGetSlatepackAddress t i => OkAddress <$$> api_get_slatepack_address t i
  | RpcGetSlatepackSecretKey t i => OkDalekKey <$$> api_get_slatepack_secret_key t i
  | RpcCreateSlatepackMessage t v sender recipients =>
      s ← from_versioned v; m ← api_create_slatepack_message t s sender recipients; mret (OkString (trim m))
  | RpcSlateFromSlatepackMessage t m indices => s ← api_slate_from_slatepack_message t m indices; liftS (ok_slate s)
  | RpcDecodeSlatepackMessage t m indices => OkSlatepack <$$> api_decode_slatepack_message t m indices
  | RpcRetrievePaymentProof t refresh tx_id slate_id => OkProof <$$> api_retrieve_payment_proof fuel t refresh tx_id slate_id
  | RpcVerifyPaymentProof t proof => OkBools <$$> api_verify_payment_proof t proof
  | RpcSetTorConfig c => _ ← set_tor_config c; mret OkUnit
  end.
Definition exec_owner (c : OwnerCall) : S_ OwnerOk :=
  match c with
  | RpcStartUpdater t _ => _ ← start_updater t; mret OkUnit
  | _ => on_api (call_owner c)
  end.

(** ** ForeignRpc *)
Inductive ForeignCall :=
| FrpcCheckVersion
| FrpcBuildCoinbase (block_fees : BlockFees)
| FrpcReceiveTx (slate : VersionedSlate) (dest_acct_name dest : option string)
| FrpcFinalizeTx (slate : VersionedSlate).
Inductive ForeignOk := FOkVersion (v : VersionInfo) | FOkCoinbase (c : CbData) | FOkSlate (s : VersionedSlate).
Definition fok_slate (s : Slate) : Res ForeignOk := v ← into_version s SV4; Ok (FOkSlate v).
Definition exec_foreign (self : ForeignApi) (c : ForeignCall) : ST Host ForeignOk :=
  match c with
  | FrpcCheckVersion => v ← foreign_check_version self; mret (FOkVersion v)
  | FrpcBuildCoinbase fees => cb ← foreign_api_build_coinbase self fees; mret (FOkCoinbase cb)
  | FrpcReceiveTx v name dest =>
      s ← on_net (local (upgrade v)); s ← foreign_api_receive_tx self s name dest; liftS (fok_slate s)
  | FrpcFinalizeTx v => s ← on_net (local (upgrade v)); s ← foreign_api_finalize_tx self s true; liftS (fok_slate s)
  end.

(** ** The calls are steps of the system with the updater *)
Definition label_of (c : OwnerCall) : Label :=
  match c with
  | RpcStartUpdater t _ => LStart t
  | RpcStopUpdater => LStop
  | RpcGetUpdaterMessages count => LRead (Z.to_nat count)
  | _ => LCall
  end.

Create HintDb flags discriminated.
Lemma leaves_with_wallet {A} (m : ST Wallet A) : leaves flag_of (with_wallet m).
Proof. apply leaves_on_host. Qed.
Lemma leaves_with_lc {A} (m : ST Provider A) : leaves flag_of (with_lc m).
Proof. apply leaves_on_host. Qed.
#[local] Hint Resolve leaves_ret leaves_lift leaves_get leaves_with_wallet leaves_with_lc leaves_on_host : flags.
#[local] Ltac flags :=
  repeat first
    [ solve [auto with flags nocore]
    | apply leaves_attempt
    | progress unfold fmapS, whenS, attempt_config, refresh_now, from_versioned, drawO
    | apply leaves_bind; [|intros ?]
    | match goal with |- leaves _ (match ?x with _ => _ end) => destruct x end
    | by apply leaves_modify ].

Lemma leaves_lock t s : leaves flag_of (api_tx_lock_outputs t s).
Proof. unfold api_tx_lock_outputs. flags. Qed.
Lemma leaves_send t args : leaves flag_of (api_init_send_tx t args).
Proof. unfold api_init_send_tx, api_tx_lock_outputs, api_finalize_tx, api_post_tx. flags. Qed.
Lemma leaves_pay t s args : leaves flag_of (api_process_invoice_tx t s args).
Proof. unfold api_process_invoice_tx. flags. Qed.
#[local] Hint Resolve leaves_lock leaves_send leaves_pay : flags.

(** Every call but those about the updater leaves its flag and its messages alone. *)
Lemma leaves_call c : label_of c = LCall -> leaves flag_of (call_owner c).
Proof.
  destruct c; intros K; try discriminate K; cbn [call_owner];
    unfold api_accounts, api_create_account_path, api_set_active_account, api_retrieve_outputs, api_retrieve_txs,
      api_retrieve_summary_info, api_issue_invoice_tx, api_finalize_tx, api_post_tx, api_cancel_tx, api_get_stored_tx, api_scan,
      api_node_height, init_secure_api, api_get_top_level_directory, api_set_top_level_directory, api_create_wallet,
      api_open_wallet, api_close_wallet, api_get_mnemonic, api_change_password, api_delete_wallet, api_get_slatepack_address,
      api_get_slatepack_secret_key, api_create_slatepack_message, api_slate_from_slatepack_message,
      api_decode_slatepack_message, api_retrieve_payment_proof, api_verify_payment_proof, set_tor_config; flags.
Qed.
Lemma exec_owner_step c s : step fuel (label_of c) s (exec_owner c s).2.
Proof.
  assert (Hd : label_of c = LCall \/ label_of c <> LCall) by (destruct c; auto). destruct Hd as [Hc|Hc].
  - pose proof (leaves_call c Hc (sy_api s)) as Hl. rewrite Hc.
    assert (E : exec_owner c s = on_api (call_owner c) s) by (by destruct c). rewrite E. unfold on_api.
    destruct (call_owner c (sy_api s)) as [r o]. injection Hl as K1 K2. by constructor.
  - destruct c; try done; cbn; constructor.
Qed.
End code.
