(* ===== verification/SecureApi.v ===== *)
(** * The servers of the two APIs (api/src/types.rs, controller/src/controller.rs)

    A request is a body; what answers it is one step of the server.  The owner's requests
    but the handshake come sealed with the key that the handshake made. *)
From S2P Require Import Prelude.
From S2P Require Import RustStd.
From S2P Require Import Crates.
From S2P Require Import Effects.
From S2P Require Import Slate.
From S2P Require Import SlateV4.
From S2P Require Import SlateBin.
From S2P Require Import StateM.
From S2P Require Import Wallet.
From S2P Require Import Address.
From S2P Require Import Selection.
From S2P Require Import WalletTx.
From S2P Require Import Slatepack.
From S2P Require Import Armor.
From S2P Require Import Updater.
From S2P Require Import Scan.
From S2P Require Import Owner.
From S2P Require Import Packer.
From S2P Require Import Foreign.
From S2P Require Import Invariant.
From S2P Require Import Seed.
From S2P Require Import Lifecycle.
From S2P Require Import Json.
From S2P Require Import NodeHttp.
From S2P Require Import Sender.
From S2P Require Import Facade.
From S2P Require Import UpdaterThread.
From S2P Require Import Rpc.
#[local] Open Scope Z_scope.

(** ** api/src/types.rs *)
Inductive JsonId := IntId (n : Z) | StrId (s : string).
Record EncryptedBody := mkEncryptedBody { eb_nonce : string; eb_body_enc : string }.
Record EncryptedRequest := mkEncryptedRequest {
  er_jsonrpc : string; er_method : string; er_id : JsonId; er_params : EncryptedBody }.
Record EncryptedResponse := mkEncryptedResponse {
  es_jsonrpc : string; es_id : JsonId; es_result : gmap string EncryptedBody }.
Record EncryptionError := mkEncryptionError { ee_code : Z; ee_message : string }.
Record EncryptionErrorResponse := mkEncryptionErrorResponse {
  ex_jsonrpc : string; ex_id : Z; ex_error : EncryptionError }.
Definition EncryptionErrorResponse_new (id code : Z) (message : string) : EncryptionErrorResponse :=
  mkEncryptionErrorResponse "2.0" id (mkEncryptionError code message).

(** ring's AES-256-GCM, with key, nonce and text: [aes_open] gives the buffer that is left,
    the plain text and what was the tag.  base64.  The texts of serde_json. *)
Class SealCrates `{JsonCrate} := {
  aes_seal : string -> string -> string -> option string;
  aes_open : string -> string -> string -> option string;
  seal_base64 :: Base64Crate;
  json_pretty : Value -> string;
  ser_string_or_u64 : Z -> Value;                    (* grin_core::libtx::secp_ser *)
  encrypted_request_of_value :: FromJson EncryptedRequest;
  string_map_of_value :: FromJson (list (string * string));   (* a HashMap in its order of iteration *)
  value_map_of_value :: FromJson (list (string * Value));
}.

Section types.
Context `{SealCrates}.

(** The derived serializers. *)
Definition id_value (i : JsonId) : Value := match i with IntId n => jnum n | StrId s => jstr s end.
Definition body_value (b : EncryptedBody) : Value := jobj [("nonce", jstr (eb_nonce b)); ("body_enc", jstr (eb_body_enc b))].
Definition request_value (r : EncryptedRequest) : Value :=
  jobj [("jsonrpc", jstr (er_jsonrpc r)); ("method", jstr (er_method r)); ("id", id_value (er_id r));
        ("params", body_value (er_params r))].
Definition response_value (r : EncryptedResponse) : Value :=
  jobj [("jsonrpc", jstr (es_jsonrpc r)); ("id", id_value (es_id r));
        ("result", jobj ((fun p => (p.1, body_value p.2)) <$> map_to_list (es_result r)))].
Definition error_value (r : EncryptionErrorResponse) : Value :=
  jobj [("jsonrpc", jstr (ex_jsonrpc r)); ("id", ser_string_or_u64 (ex_id r));
        ("error", jobj [("code", jnum (ee_code (ex_error r))); ("message", jstr (ee_message (ex_error r)))])].

(** Documented behaviour of the crates and of derived deserializers. *)
Class SealLaws := {
  aes_open_seal key nonce plain sealed :
    aes_seal key nonce plain = Some sealed ->
    exists tag, String.length tag = 16%nat /\ aes_open key nonce sealed = Some (plain +:+ tag);
  seal_base64_laws :: Base64Laws;
  request_from_value r : from_value (request_value r) = Ok r;
  json_utf8 v : utf8_valid (jdisplay v) = true;
}.
End types.

Section code.
Context `{BuildProfile, GC : GrinCrates, !BinCrates, !WalletCrates, !AddressCrates, !SlatepackCrates, !ArmorCrates,
  !SlatepackJson, !HexCrate, !NodeClient, !DalekCrates, !ScanCrates, !OwnerCrates, !DiskFaults, SC : !SeedCrates, !SeedKeychain,
  !SlateJson, !JsonCrate, !RpcJson, !UriCrate, !SenderCrates, !NodeVersions, !EcdhCrate, !SealCrates}.

(** An error of kind [APIEncryption] is shown as its text. *)
Definition body_from_json (nonce : string) (json_in : Value) (enc_key : SecretKey) : Res EncryptedBody :=
  sealed ← ok_or "EncryptedBody: encryption failed" (aes_seal (sk_bytes enc_key) nonce (jdisplay json_in));
  Ok (mkEncryptedBody (hex_encode nonce) (base64_encode sealed)).
Definition body_decrypt (b : EncryptedBody) (dec_key : SecretKey) : Res Value :=
  to_decrypt ← ok_or "EncryptedBody Dec: Encrypted request contains invalid Base64" (base64_decode (eb_body_enc b));
  nonce ← ok_or "EncryptedBody Dec: Invalid Nonce" (hex_decode (eb_nonce b));
  _ ← (if (String.length nonce <? 12)%nat then Err "EncryptedBody Dec: Invalid Nonce length" else Ok tt);
  buffer ← ok_or "EncryptedBody: decryption failed" (aes_open (sk_bytes dec_key) (String.substring 0 12 nonce) to_decrypt);
  decrypted ← ok_or "EncryptedBody Dec: Invalid UTF-8" (from_utf8 (String.substring 0 (String.length buffer - 16) buffer));
  map_err (fun _ => "EncryptedBody Dec: Invalid JSON") (json_from_str decrypted).

(** [thread_rng().gen()] *)
Definition gen_nonce : ST Host string := n ← on_net (local draw); mret (be_bytes 12 n).

Definition request_from_json (nonce : string) (id : JsonId) (json_in : Value) (enc_key : SecretKey) : Res EncryptedRequest :=
  params ← body_from_json nonce json_in enc_key;
  Ok (mkEncryptedRequest "2.0" "encrypted_request_v3" id params).
Definition request_decrypt (r : EncryptedRequest) (dec_key : SecretKey) : Res Value := body_decrypt (er_params r) dec_key.
Definition response_from_json (nonce : string) (id : JsonId) (json_in : Value) (enc_key : SecretKey) : Res EncryptedResponse :=
  body ← body_from_json nonce json_in enc_key;
  Ok (mkEncryptedResponse "2.0" id {["Ok" := body]}).
Definition response_decrypt (r : EncryptedResponse) (dec_key : SecretKey) : Res Value :=
  body ← unwrap_opt (es_result r !! "Ok"); body_decrypt body dec_key.

(** What comes back is what went in. *)
Lemma body_roundtrip `{!HexLaws, !JsonLaws, !SealLaws} nonce v key b :
  String.length nonce = 12%nat -> body_from_json nonce v key = Ok b -> body_decrypt b key = Ok v.
Proof.
  intros Hn E. apply res_bind_Ok in E as (sealed & E1 & [= <-]). apply ok_or_Ok, aes_open_seal in E1 as (tag & Ht & Eo).
  unfold body_decrypt. cbn [eb_body_enc eb_nonce]. rewrite base64_decode_encode, hex_decode_encode. cbn [ok_or mbind Res_bind].
  rewrite Hn. cbn [Nat.ltb Nat.leb mbind Res_bind]. rewrite <- Hn at 1. rewrite substring_all, Eo. cbn [ok_or mbind Res_bind].
  rewrite length_append, Ht, Nat.add_sub, substring_prefix. unfold from_utf8. rewrite json_utf8. cbn. by rewrite from_display.
Qed.

(** ** controller.rs: OwnerV3Helpers *)
Definition method_is (name : string) (val : Value) : bool := bool_decide (jas_str (jindex val "method") = Some name).
Definition is_init_secure_api : Value -> bool := method_is "init_secure_api".
Definition is_open_wallet : Value -> bool := method_is "open_wallet".
Definition is_encrypted_request : Value -> bool := method_is "encrypted_request_v3".
Definition encryption_enabled (key : option SecretKey) : bool := bool_decide (is_Some key).
(** [Result<(), Value>] *)
Definition check_encryption_started (key : option SecretKey) : unit + Value :=
  if encryption_enabled key then inl tt
  else inr (error_value (EncryptionErrorResponse_new 1 (-32001)
              "Encryption must be enabled. Please call 'init_secure_api` first")).
Definition result_ok (val : Value) : option string := jas_str (jindex (jindex val "result") "Ok").
Definition update_owner_api_shared_key (key : option SecretKey) (val : Value) (new_key : option SecretKey) : option SecretKey :=
  match result_ok val with Some _ => new_key | None => key end.
Definition update_mask (mask : option SecretKey) (val : Value) : option SecretKey :=
  match result_ok val with
  | Some key =>
      match hex_decode key with
      | Some key_bytes => match sk_from_slice key_bytes with Some sk => Some sk | None => mask end
      | None => mask
      end
  | None => mask
  end.

Definition decrypt_request (key : option SecretKey) (req : Value) : Res ((JsonId * Value) + Value) :=
  shared_key ← unwrap_opt key;
  match from_value (T := EncryptedRequest) req with
  | Ok enc_req =>
      match request_decrypt enc_req shared_key with
      | Ok res => Ok (inl (er_id enc_req, res))
      | Err e => Ok (inr (error_value (EncryptionErrorResponse_new 1 (-32002) ("Decryption error: " +:+ e))))
      | Panic e => Panic e
      end
  | Err e => Ok (inr (error_value (EncryptionErrorResponse_new 1 (-32002) ("Encrypted request format error: " +:+ e))))
  | Panic e => Panic e
  end.
Definition encrypt_response (key : option SecretKey) (id : JsonId) (res : Value) : ST Host (Value + Value) :=
  shared_key ← liftS (unwrap_opt key);
  nonce ← gen_nonce;
  match response_from_json nonce id res shared_key with
  | Ok enc_res => mret (inl (response_value enc_res))
  | Err e => mret (inr (error_value (EncryptionErrorResponse_new 1 (-32003) ("EncryptionError: " +:+ e))))
  | Panic e => liftS (Panic e)
  end.

(** The text of the last entry of a map, as the loop leaves it. *)
Definition map_text {A} (show : A -> string) (h : list (string * A)) : string :=
  foldl (fun _ kv => kv.1 +:+ ": " +:+ show kv.2) "" h.
Definition check_error_response (val : Value) : bool * Value :=
  let err := jindex (jindex val "result") "Err" in
  let err_string :=
    if jis_object err then
      match from_value (T := list (string * string)) err with
      | Ok h => Some (map_text id h)
      | _ => match from_value (T := list (string * Value)) err with
             | Ok h => Some (map_text jdisplay h)
             | _ => None
             end
      end
    else jas_str err in
  match err_string with
  | Some s => (true, jobj [("jsonrpc", jstr "2.0"); ("id", jindex val "id");
                           ("error", jobj [("message", jstr s); ("code", jnum (-32099))])])
  | None => (false, val)
  end.

(** ** The handlers *)
(** What easy_jsonrpc makes of the traits: the calls a request stands for, in their order,
    and the reply made of their results. *)
Class RpcServers := {
  owner_calls : Value -> list OwnerCall;
  owner_reply : Value -> list (OwnerOk + string) -> option Value;
  foreign_calls : Value -> list ForeignCall;
  foreign_reply : Value -> list (ForeignOk + string) -> option Value;
}.

(** One server with both APIs on its port; the foreign API may have one of its own. *)
Record Server := mkServer {
  sv_sys : Sys;
  sv_shared_key : option SecretKey;
  sv_keychain_mask : option SecretKey;
  sv_running_foreign : bool;
  sv_tor_config : option TorConfig }.
Definition set_sv_sys s (h : Server) : Server :=
  mkServer s (sv_shared_key h) (sv_keychain_mask h) (sv_running_foreign h) (sv_tor_config h).
Definition set_sv_shared_key k (h : Server) : Server :=
  mkServer (sv_sys h) k (sv_keychain_mask h) (sv_running_foreign h) (sv_tor_config h).
Definition set_sv_keychain_mask m (h : Server) : Server :=
  mkServer (sv_sys h) (sv_shared_key h) m (sv_running_foreign h) (sv_tor_config h).
#[local] Abbreviation V_ := (ST Server).
Definition in_sys {A} (m : ST Sys A) : V_ A := fun h => let '(r, s) := m (sv_sys h) in (r, set_sv_sys s h).
Definition in_host {A} (m : ST Host A) : V_ A := in_sys (on_api (on_host m)).
Definition sv_api (h : Server) : OwnerApi := sy_api (sv_sys h).

(** [OwnerAPIHandlerV3::new], and [ForeignAPIHandlerV2::new] with the same wallet, mask and configuration. *)
Definition Server_new (host : Host) (mask : option SecretKey) (tor_config : option TorConfig) (running_foreign : bool) : Server :=
  mkServer (mkSys (set_tor_config tor_config (Owner_new host)).2 [] None) None mask running_foreign tor_config.

(** [None] for a body that cannot be read; an error is its text. *)
Definition parse_body (body : option string) : Res Value :=
  b ← ok_or "Generic error: Failed to read request" body;
  map_err (String.append "Generic error: Invalid request body: ") (json_from_str b).

Section handlers.
Context (fuel : nat) `{!RpcServers}.

Definition handle_owner (val : Value) : ST Sys (option Value) :=
  results ← mapS (fun c => attemptS (exec_owner fuel c)) (owner_calls val);
  mret (owner_reply val results).
(** The request inside and its id, when it came sealed; or the reply. *)
Definition open_request (key : option SecretKey) (val : Value) : Res ((option JsonId * Value) + Value) :=
  if is_init_secure_api val then Ok (inl (None, val))
  else
    match check_encryption_started key with
    | inr v => Ok (inr v)
    | inl _ =>
        res ← decrypt_request key val;
        Ok (match res with inr e => inr e | inl (id, v) => inl (Some id, v) end)
    end.
Definition seal_reply (encrypted_req_id : option JsonId) (unencrypted_intercept r : Value) : V_ (Value + Value) :=
  match encrypted_req_id with
  | Some id => key ← getS sv_shared_key; in_host (encrypt_response key id unencrypted_intercept)
  | None => mret (inl r)
  end.
Definition answer_call (encrypted_req_id : option JsonId) (val : Value) : V_ Value :=
  reply ← in_sys (handle_owner val);
  match reply with
  | None => mret (jarr [])
  | Some r =>
      let unencrypted_intercept := (check_error_response r).2 in
      running_foreign ← getS sv_running_foreign;
      _ ← whenS (is_open_wallet val && running_foreign)
            (modifyS (fun h => set_sv_keychain_mask (update_mask (sv_keychain_mask h) r) h));
      res ← seal_reply encrypted_req_id unencrypted_intercept r;
      match res with
      | inr v => mret v
      | inl r =>
          _ ← whenS (is_init_secure_api val)
                (modifyS (fun h => set_sv_shared_key
                   (update_owner_api_shared_key (sv_shared_key h) unencrypted_intercept (oa_shared_key (sv_api h))) h));
          mret r
      end
  end.
Definition owner_call_api (body : option string) : V_ Value :=
  val ← liftS (parse_body body);
  key ← getS sv_shared_key;
  req ← liftS (open_request key val);
  match req with
  | inr v => mret v
  | inl (encrypted_req_id, val) => answer_call encrypted_req_id val
  end.

Definition handle_foreign (self : ForeignApi) (val : Value) : ST Host (option Value) :=
  results ← mapS (fun c => attemptS (exec_foreign self c)) (foreign_calls val);
  mret (foreign_reply val results).
Definition foreign_call_api (body : option string) : V_ Value :=
  mask ← getS sv_keychain_mask;
  tor_config ← getS sv_tor_config;
  val ← liftS (parse_body body);
  reply ← in_host (handle_foreign (foreign_set_tor_config tor_config (Foreign_new mask (Some check_middleware))) val);
  mret (default (jarr []) reply).

(** ** HTTP *)
Record HttpReply := mkHttpReply { hr_status : Z; hr_headers : list (string * string); hr_body : string }.
Definition cors : list (string * string) :=
  [("access-control-allow-origin", "*"); ("access-control-allow-headers", "Content-Type, Authorization")].
Definition response (status : Z) (text : string) : HttpReply :=
  mkHttpReply status (cors ++ if status =? 200 then [("content-type", "application/json")] else []) text.
Definition json_response_pretty (s : Value) : HttpReply := response 200 (json_pretty s).
Definition create_error_response (e : string) : HttpReply := mkHttpReply 500 cors e.
Definition create_ok_response (json : string) : HttpReply :=
  mkHttpReply 200 (cors ++ [("content-type", "application/json")]) json.

(** An error becomes a reply; [RUST_BACKTRACE] is not set. *)
Definition answered (m : V_ Value) : V_ HttpReply :=
  r ← attemptS m;
  mret (match r with inl v => json_response_pretty v | inr e => create_error_response e end).
Definition owner_post (body : option string) : V_ HttpReply := answered (owner_call_api body).
Definition foreign_post (body : option string) : V_ HttpReply := answered (foreign_call_api body).
Definition options : HttpReply := create_ok_response "{}".
End handlers.
End code.
