(* ===== verification/Server.v ===== *)
(** * What the servers guarantee (api/src/types.rs, controller/src/controller.rs)

    The wallets and the updater obey nobody who does not have the key of the handshake;
    a client who made one is served; and the stores of all wallets stay
    well-formed under requests and updaters together. *)
From S2P Require Import Prelude.
From S2P Require Import RustStd.
From S2P Require Import Crates.
From S2P Require Import Effects.
From S2P Require Import Slate.
From S2P Require Import SlateV4.
From S2P Require Import SlateBin.
From S2P Require Import StateM.
From S2P Require Import Wallet.
From S2P Require Import Address.
From S2P Require Import Selection.
From S2P Require Import WalletTx.
From S2P Require Import Slatepack.
From S2P Require Import Armor.
From S2P Require Import Updater.
From S2P Require Import Scan.
From S2P Require Import Owner.
From S2P Require Import Packer.
From S2P Require Import Foreign.
From S2P Require Import Invariant.
From S2P Require Import Seed.
From S2P Require Import Lifecycle.
From S2P Require Import Json.
From S2P Require Import NodeHttp.
From S2P Require Import Sender.
From S2P Require Import Facade.
From S2P Require Import Sound.
From S2P Require Import UpdaterThread.
From S2P Require Import Rpc.
From S2P Require Import SecureApi.
#[local] Open Scope Z_scope.

Section server.
Context `{BuildProfile, GC : GrinCrates, !BinCrates, !WalletCrates, !AddressCrates, !SlatepackCrates, !ArmorCrates,
  !SlatepackJson, !HexCrate, !NodeClient, !DalekCrates, !ScanCrates, !OwnerCrates, !DiskFaults, SC : !SeedCrates, !SeedKeychain,
  !SlateJson, !JsonCrate, !RpcJson, !UriCrate, !SenderCrates, !NodeVersions, !EcdhCrate, !SealCrates, !RpcServers}.
Context (fuel : nat).
Implicit Types (h : Server) (v : Value) (key : SecretKey).

(** Documented behaviour of the server that the macro makes: a request that is one call
    with a method runs no call of another method. *)
Class RpcServerLaws :=
  calls_method v m c : jas_str (jindex v "method") = Some m -> c ∈ owner_calls v -> method_name c = m.

(** ** Who is obeyed *)
(** All but the shared keys and the random numbers. *)
Definition guarded h :=
  (h_provider (oa_host (sv_api h)), flag_of (sv_api h), oa_tor_config (sv_api h), sy_waiting (sv_sys h), sy_running (sv_sys h),
   sv_keychain_mask h, sv_running_foreign h, sv_tor_config h).
Definition guarded_sys (s : Sys) :=
  (h_provider (oa_host (sy_api s)), flag_of (sy_api s), oa_tor_config (sy_api s), sy_waiting s, sy_running s).

Lemma guarded_net {A} (p : P A) : leaves guarded_sys (on_api (on_host (on_net p))).
Proof.
  intros s. unfold on_api, on_host. pose proof (on_net_provider p (oa_host (sy_api s))) as Hn.
  destruct (on_net p (oa_host (sy_api s))) as [r x]. unfold guarded_sys, flag_of in *. cbn in *. by rewrite Hn.
Qed.
Lemma on_api_bind {A B} (m : ST OwnerApi A) (k : A -> ST OwnerApi B) s :
  on_api (m ≫= k) s = (on_api m ≫= fun a => on_api (k a)) s.
Proof.
  unfold on_api, mbind, ST_bind. destruct (m (sy_api s)) as [[a|e|e] o]; cbn; [|done..]. by destruct (k a o) as [r o'].
Qed.
Lemma leaves_eq {S A X} (f : S -> X) (m m' : ST S A) : (forall s, m s = m' s) -> leaves f m' -> leaves f m.
Proof. intros E Hm s. rewrite E. apply Hm. Qed.
Lemma guarded_handshake k : leaves guarded_sys (exec_owner fuel (RpcInitSecureApi k)).
Proof.
  cbn [exec_owner call_owner]. unfold init_secure_api, drawO, fmapS.
  eapply leaves_eq; [intros s; apply on_api_bind|]. apply leaves_bind; [|intros pk; intros s; unfold on_api; by destruct s].
  eapply leaves_eq; [intros s; apply on_api_bind|]. apply leaves_bind; [apply guarded_net|intros n].
  intros s. unfold on_api, mbind, ST_bind, liftS, modifyS.
  destruct (shared_key_of k (sk_new n)); cbn; done.
Qed.
Lemma leaves_map_in {S A B X} (f : S -> X) (g : A -> ST S B) l : (forall a, a ∈ l -> leaves f (g a)) -> leaves f (mapS g l).
Proof.
  induction l as [|a l IH]; intros Hg; [done|]. apply leaves_bind; [apply Hg; by left|intros b].
  apply leaves_bind; [|intros bs; apply leaves_ret]. apply IH. intros x Hx. apply Hg. by right.
Qed.
Lemma guarded_init `{!RpcServerLaws} v : is_init_secure_api v = true -> leaves guarded_sys (handle_owner fuel v).
Proof.
  intros Hi. apply leaves_bind; [|intros rs; apply leaves_ret]. apply leaves_map_in. intros c Hc. apply leaves_attempt.
  apply bool_decide_eq_true in Hi. pose proof (calls_method v _ c Hi Hc) as Hm.
  destruct c; try discriminate Hm. apply guarded_handshake.
Qed.
Lemma guarded_in_sys {A} (m : ST Sys A) : leaves guarded_sys m -> leaves guarded (in_sys m).
Proof.
  intros Hm h. specialize (Hm (sv_sys h)). unfold in_sys. destruct (m (sv_sys h)) as [r s]. cbn in *.
  unfold guarded, guarded_sys, sv_api in *. cbn. congruence.
Qed.

(** ** Replies are sealed *)
Context `{!HexLaws, !JsonLaws, !SealLaws}.

Lemma encrypt_response_Ok key id v x out x' :
  encrypt_response (Some key) id v x = (Ok out, x') ->
  (exists m, out = inr (error_value (EncryptionErrorResponse_new 1 (-32003) ("EncryptionError: " +:+ m))))
  \/ exists resp, out = inl (response_value resp) /\ es_id resp = id /\ response_decrypt resp key = Ok v.
Proof.
  unfold encrypt_response. intros E. apply ST_bind_Ok in E as (k & x1 & E1 & E). apply liftS_Ok in E1 as [[= <-] ->].
  apply ST_bind_Ok in E as (nonce & x2 & E2 & E). apply ST_bind_Ok in E2 as (n & x3 & _ & E2). apply mretS_Ok in E2 as [-> ->].
  unfold response_from_json in E. destruct (body_from_json _ v key) as [b|e|e] eqn:Eb; cbn [mbind Res_bind] in E; [|left|done].
  - apply mretS_Ok in E as [-> ->]. right. eexists. split_and!; [done..|]. unfold response_decrypt. cbn [es_result].
    rewrite lookup_singleton_eq. cbn [unwrap_opt mbind Res_bind]. eapply body_roundtrip, Eb. apply be_bytes_len.
  - apply mretS_Ok in E as [-> ->]. by exists e.
Qed.

(** What the owner gets for a request that came sealed. *)
Definition sealed_reply key id req reply : Prop :=
  reply = jarr []
  \/ (exists m, reply = error_value (EncryptionErrorResponse_new 1 (-32003) ("EncryptionError: " +:+ m)))
  \/ exists results answer resp, owner_reply req results = Some answer /\ reply = response_value resp /\ es_id resp = id
       /\ response_decrypt resp key = Ok (check_error_response answer).2.

Lemma in_sys_Ok {A} (m : ST Sys A) h a h' :
  in_sys m h = (Ok a, h') -> exists s', m (sv_sys h) = (Ok a, s') /\ h' = set_sv_sys s' h.
Proof. unfold in_sys. destruct (m (sv_sys h)) as [r s]. intros [= -> <-]. by exists s. Qed.
Lemma in_host_Ok {A} (m : ST Host A) h a h' :
  in_host m h = (Ok a, h') -> exists x', m (oa_host (sv_api h)) = (Ok a, x').
Proof.
  intros (s' & E & _)%in_sys_Ok. unfold on_api, on_host, sv_api in *. destruct (m _) as [r x]. injection E as -> _. by exists x.
Qed.
Lemma answer_sealed key id req h reply h' :
  sv_shared_key h = Some key -> answer_call fuel (Some id) req h = (Ok reply, h') -> sealed_reply key id req reply.
Proof.
  unfold answer_call. intros Hk E. apply ST_bind_Ok in E as (out & h1 & E1 & E). apply in_sys_Ok in E1 as (s1 & E1 & ->).
  destruct out as [answer|]; [|left; by apply mretS_Ok in E as [-> _]].
  apply ST_bind_Ok in E1 as (results & s2 & _ & E1). apply mretS_Ok in E1 as [E1 _].
  apply ST_bind_Ok in E as (running & h2 & E2 & E). apply getS_Ok in E2 as [-> ->].
  apply ST_bind_Ok in E as (u & h3 & E3 & E).
  assert (Hk3 : sv_shared_key h3 = Some key).
  { rewrite <- Hk. unfold whenS in E3. destruct (_ && _); [apply modifyS_Ok in E3 as [_ ->]|apply mretS_Ok in E3 as [_ ->]]; done. }
  apply ST_bind_Ok in E as (res & h4 & E4 & E). cbn [seal_reply] in E4. apply ST_bind_Ok in E4 as (k & h5 & E4 & E5).
  apply getS_Ok in E4 as [-> ->]. rewrite Hk3 in E5. apply in_host_Ok in E5 as (x & E5).
  apply encrypt_response_Ok in E5 as [(m & ->)|(resp & -> & Hid & Hd)].
  - right. left. apply mretS_Ok in E as [-> _]. by exists m.
  - right. right. apply ST_bind_Ok in E as (u' & h6 & _ & E). apply mretS_Ok in E as [-> _]. by exists results, answer, resp.
Qed.
Lemma guarded_handshake_call `{!RpcServerLaws} v : is_init_secure_api v = true -> leaves guarded (answer_call fuel None v).
Proof.
  intros Hi. unfold answer_call. apply leaves_bind; [by apply guarded_in_sys, guarded_init|]. intros [r|]; [|apply leaves_ret].
  apply leaves_bind; [apply leaves_get|intros running]. assert (Ho : is_open_wallet v = false).
  { apply bool_decide_eq_true in Hi. apply bool_decide_eq_false. by rewrite Hi. }
  rewrite Ho. cbn [andb whenS]. apply leaves_bind; [apply leaves_ret|intros u]. apply leaves_bind; [apply leaves_ret|].
  intros [a|a]; [|apply leaves_ret]. apply leaves_bind; [|intros u'; apply leaves_ret]. rewrite Hi. by apply leaves_modify.
Qed.

(** C18: Only who has the key is obeyed.  When a request to the owner API has any effect (on a wallet or the
    disk, on the updaters, on the Tor configuration, on the mask that the foreign API uses), it was a
    request sealed under the key that the last handshake made, and what answers it is sealed under
    that key too, but for an empty batch and a failure to seal. *)
Theorem owner_api_sealed `{!RpcServerLaws} body h r h' :
  owner_call_api fuel body h = (r, h') -> guarded h' <> guarded h ->
  exists text v key id req,
    body = Some text /\ json_from_str text = Ok v /\ is_init_secure_api v = false /\ sv_shared_key h = Some key
    /\ decrypt_request (Some key) v = Ok (inl (id, req))
    /\ forall reply, r = Ok reply -> sealed_reply key id req reply.
Proof.
  unfold owner_call_api. intros E Hg. unfold parse_body in E.
  destruct body as [text|]; [|cbn in E; by injection E as <- <-]. cbn [ok_or mbind Res_bind] in E.
  destruct (json_from_str text) as [v|e|e] eqn:Ej; [|cbn in E; by injection E as <- <-..]. erewrite ST_bind_run in E by reflexivity.
  erewrite ST_bind_run in E by reflexivity. unfold open_request in E.
  destruct (is_init_secure_api v) eqn:Hi.
  { erewrite ST_bind_run in E by reflexivity. pose proof (guarded_handshake_call v Hi h) as Hn. by rewrite E in Hn. }
  unfold check_encryption_started, encryption_enabled in E.
  destruct (sv_shared_key h) as [key|] eqn:Hk; [|cbn in E; by injection E as <- <-].
  cbn [bool_decide] in E.
  destruct (decrypt_request (Some key) v) as [[[id req]|err]|e|e] eqn:Ed; [|cbn in E; by injection E as <- <-..].
  exists text, v, key, id, req. split_and!; [done..|]. intros reply ->.
  erewrite ST_bind_run in E by reflexivity. by eapply answer_sealed.
Qed.

(** ** The handshake *)
(** Both ways to compute the product of two keys agree. *)
Class EcdhLaws :=
  pk_mul_comm a b pa pb : pk_from_secret_key a = Some pa -> pk_from_secret_key b = Some pb -> pk_mul pa b = pk_mul pb a.
(** The reply to a handshake: the key, in hex, as the result; after an error there is none. *)
Class HandshakeReplies := {
  reply_key v k k' : owner_calls v = [RpcInitSecureApi k] ->
    exists answer, owner_reply v [inl (OkPubkey k')] = Some answer
      /\ result_ok answer = Some (hex_encode (pk_serialize_compressed k')) /\ jindex (jindex answer "result") "Err" = jnull;
  reply_error v k e answer : owner_calls v = [RpcInitSecureApi k] -> owner_reply v [inr e] = Some answer -> result_ok answer = None;
}.
(** The key that a client reads in a reply. *)
Definition announced (reply : Value) : option PublicKey :=
  text ← result_ok reply; bytes ← hex_decode text; pk_from_slice bytes.

Lemma exec_handshake k s out s' :
  exec_owner fuel (RpcInitSecureApi k) s = (Ok out, s') ->
  exists sec pk key, out = OkPubkey pk /\ pk_from_secret_key sec = Some pk /\ shared_key_of k sec = Ok key
    /\ oa_shared_key (sy_api s') = Some key.
Proof.
  cbn [exec_owner call_owner]. unfold on_api. intros E. destruct (fmapS _ _ (sy_api s)) as [r o] eqn:E1. injection E as -> <-.
  unfold fmapS in E1. apply ST_bind_Ok in E1 as (pk & o1 & E1 & E2). apply mretS_Ok in E2 as [-> ->].
  unfold init_secure_api in E1. apply ST_bind_Ok in E1 as (n & o2 & _ & E1). apply ST_bind_Ok in E1 as (key & o3 & Ek & E1).
  apply liftS_Ok in Ek as [Ek ->]. apply ST_bind_Ok in E1 as (u & o4 & E3 & E1). apply modifyS_Ok in E3 as [_ ->].
  apply liftS_Ok in E1 as [E1 ->]. apply ok_or_Ok in E1. by exists (sk_new n), pk, key.
Qed.
Lemma no_error answer : jindex (jindex answer "result") "Err" = jnull -> check_error_response answer = (false, answer).
Proof. intros E. unfold check_error_response. by rewrite E, is_object_null, as_str_null. Qed.

(** What a handshake leaves. *)
Lemma handshake_key `{!KeyLaws, !HandshakeReplies} v cp h reply h1 sp :
  is_init_secure_api v = true -> owner_calls v = [RpcInitSecureApi cp] ->
  answer_call fuel None v h = (Ok reply, h1) -> announced reply = Some sp ->
  exists sec key, pk_from_secret_key sec = Some sp /\ shared_key_of cp sec = Ok key /\ sv_shared_key h1 = Some key.
Proof.
  intros Hi Hc E Ha. unfold answer_call in E. apply ST_bind_Ok in E as (out & h2 & E1 & E).
  apply in_sys_Ok in E1 as (s1 & E1 & ->). apply ST_bind_Ok in E1 as (results & s2 & E1 & E2). apply mretS_Ok in E2 as [-> ->].
  rewrite Hc in E1. cbn [mapS] in E1. apply ST_bind_Ok in E1 as (r & s3 & E1 & E2).
  apply ST_bind_Ok in E2 as (bs & s4 & E2 & E3). apply mretS_Ok in E2 as [-> ->]. apply mretS_Ok in E3 as [-> ->].
  assert (Ho : is_open_wallet v = false).
  { apply bool_decide_eq_true in Hi. apply bool_decide_eq_false. by rewrite Hi. }
  destruct r as [ok|e].
  - apply attemptS_inl, exec_handshake in E1 as (sec & pk & key & -> & Hpk & Hk & Hs).
    destruct (reply_key v cp pk Hc) as (answer & Er & Hr & Hn). rewrite Er in E.
    erewrite ST_bind_run in E by reflexivity. rewrite Ho in E. cbn [andb whenS seal_reply] in E. rewrite (no_error _ Hn) in E.
    do 2 erewrite ST_bind_run in E by reflexivity. rewrite Hi in E. cbn [whenS] in E. erewrite ST_bind_run in E by reflexivity.
    apply mretS_Ok in E as [-> ->]. unfold announced in Ha. rewrite Hr in Ha. cbn in Ha. rewrite hex_decode_encode in Ha.
    cbn in Ha. rewrite (pk_from_serialized _ (pk_from_secret_key_valid _ _ Hpk)) in Ha. injection Ha as ->.
    exists sec, key. split_and!; [done..|]. cbn. unfold update_owner_api_shared_key. rewrite Hr. done.
  - exfalso. destruct (owner_reply v [inr e]) as [answer|] eqn:Er.
    + pose proof (reply_error v cp e answer Hc Er) as Hr. erewrite ST_bind_run in E by reflexivity.
      rewrite Ho in E. cbn [andb whenS seal_reply] in E. do 2 erewrite ST_bind_run in E by reflexivity.
      apply ST_bind_Ok in E as (u & h5 & _ & E). apply mretS_Ok in E as [-> _]. unfold announced in Ha. by rewrite Hr in Ha.
    + apply mretS_Ok in E as [-> _]. unfold announced, result_ok in Ha.
      by rewrite index_arr, index_null, as_str_null in Ha.
Qed.

(** A request that the client seals is opened by the server. *)
Lemma sealed_not_init er : er_method er = "encrypted_request_v3" -> is_init_secure_api (request_value er) = false.
Proof.
  intros Em. unfold is_init_secure_api, method_is, request_value. rewrite index_obj.
  change (default _ _) with (jstr (er_method er)). by rewrite as_str_str, Em.
Qed.
Lemma open_sealed nonce id req key er :
  String.length nonce = 12%nat -> request_from_json nonce id req key = Ok er ->
  open_request (Some key) (request_value er) = Ok (inl (Some id, req)).
Proof.
  intros Hn E. apply res_bind_Ok in E as (params & Ep & [= <-]). unfold open_request. rewrite sealed_not_init by done.
  unfold decrypt_request. cbn [check_encryption_started encryption_enabled bool_decide unwrap_opt mbind Res_bind].
  rewrite request_from_value. unfold request_decrypt. cbn [er_params er_id].
  by rewrite (body_roundtrip _ _ _ _ Hn Ep).
Qed.
(** Sealing a reply. *)
Definition seals : Prop := forall k nonce plain, is_Some (aes_seal k nonce plain).
Lemma encrypt_run key id v x : seals ->
  exists resp x', encrypt_response (Some key) id v x = (Ok (inl (response_value resp)), x')
    /\ h_provider x' = h_provider x /\ es_id resp = id /\ response_decrypt resp key = Ok v.
Proof.
  intros Hs. destruct (encrypt_response (Some key) id v x) as [r x'] eqn:E.
  assert (Hr : exists resp, r = Ok (inl (response_value resp)) /\ h_provider x' = h_provider x).
  { unfold encrypt_response in E. erewrite ST_bind_run in E by reflexivity.
    pose proof (on_net_provider (local draw) x) as Hp. unfold gen_nonce in E.
    assert (Hd : exists n x1, on_net (local draw) x = (Ok n, x1)) by (unfold on_net; cbn; eauto).
    destruct Hd as (n & x1 & Ed). rewrite Ed in Hp. cbn in Hp. erewrite ST_bind_run in E by (by erewrite ST_bind_run by done).
    unfold response_from_json, body_from_json in E. destruct (Hs (sk_bytes key) (be_bytes 12 n) (jdisplay v)) as [c Ec].
    rewrite Ec in E. cbn in E. injection E as <- <-. eauto. }
  destruct Hr as (resp & -> & Hp). destruct (encrypt_response_Ok _ _ _ _ _ _ E) as [(m & Em)|(resp' & Er & Hid & Hd)]; [done|].
  exists resp', x'. by rewrite Er.
Qed.

Lemma in_host_guarded {A} (m : ST Host A) h a x' :
  m (oa_host (sv_api h)) = (Ok a, x') -> h_provider x' = h_provider (oa_host (sv_api h)) ->
  exists h', in_host m h = (Ok a, h') /\ guarded h' = guarded h.
Proof.
  intros E Hp. unfold in_host, in_sys, on_api, on_host. unfold sv_api in *. rewrite E. eexists. split; [done|].
  unfold guarded, flag_of, sv_api. cbn. by rewrite Hp.
Qed.
Lemma guarded_of h h' : guarded h' = guarded h -> guarded_sys (sv_sys h') = guarded_sys (sv_sys h).
Proof. unfold guarded, guarded_sys, sv_api. congruence. Qed.

(** C19: The handshake.  A client makes a key of its own and sends the public half; when it reads a public key in the
    reply, both sides compute the same secret, nothing else has changed, and from then on whatever it
    seals with that secret is opened, carried out and answered, and the answer opens with that secret. *)
Theorem handshake_serves `{!RpcServerLaws, !KeyLaws, !HandshakeReplies, !EcdhLaws} c cp text v h reply h1 sp :
  pk_from_secret_key c = Some cp ->
  json_from_str text = Ok v -> is_init_secure_api v = true -> owner_calls v = [RpcInitSecureApi cp] ->
  owner_call_api fuel (Some text) h = (Ok reply, h1) -> announced reply = Some sp ->
  guarded h1 = guarded h
  /\ exists key, shared_key_of sp c = Ok key /\ sv_shared_key h1 = Some key
  /\ forall nonce id req er answer s,
       seals -> String.length nonce = 12%nat -> request_from_json nonce id req key = Ok er -> is_init_secure_api req = false ->
       handle_owner fuel req (sv_sys h1) = (Ok (Some answer), s) ->
       exists resp h2, owner_call_api fuel (Some (jdisplay (request_value er))) h1 = (Ok (response_value resp), h2)
         /\ guarded_sys (sv_sys h2) = guarded_sys s
         /\ es_id resp = id /\ response_decrypt resp key = Ok (check_error_response answer).2.
Proof.
  intros Hc Ej Hi Hcalls E Ha. unfold owner_call_api, parse_body in E. cbn [ok_or mbind Res_bind] in E. rewrite Ej in E.
  do 2 erewrite ST_bind_run in E by reflexivity. unfold open_request in E. rewrite Hi in E. erewrite ST_bind_run in E by reflexivity.
  split; [pose proof (guarded_handshake_call v Hi h) as Hg; by rewrite E in Hg|].
  destruct (handshake_key _ _ _ _ _ _ Hi Hcalls E Ha) as (sec & key & Hsec & Hk & Hk1).
  exists key. split_and!; [|done|].
  { unfold shared_key_of in *. by rewrite (pk_mul_comm _ _ _ _ Hsec Hc). }
  intros nonce id req er answer s Hs Hn Her Hni Hh. unfold owner_call_api, parse_body. cbn [ok_or mbind Res_bind].
  rewrite from_display. do 2 erewrite ST_bind_run by reflexivity. rewrite Hk1, (open_sealed _ _ _ _ _ Hn Her).
  erewrite ST_bind_run by reflexivity. unfold answer_call. unfold in_sys at 1.
  erewrite (ST_bind_run (fun _ => _)) by (rewrite Hh; reflexivity). cbv beta iota. erewrite ST_bind_run by reflexivity.
  set (g := set_sv_sys s h1). rewrite Hni. cbn [whenS seal_reply].
  assert (Hm : exists g1, whenS (is_open_wallet req && sv_running_foreign g)
      (modifyS (fun x => set_sv_keychain_mask (update_mask (sv_keychain_mask x) answer) x)) g = (Ok tt, g1)
      /\ sv_sys g1 = s /\ sv_shared_key g1 = Some key) by (unfold whenS; destruct (_ && _); eauto).
  destruct Hm as (g1 & Em & Es & Ek). rewrite (ST_bind_run _ _ _ _ _ Em).
  destruct (encrypt_run key id (check_error_response answer).2 (oa_host (sv_api g1)) Hs) as (resp & x' & Ex & Hp & Hid & Hd).
  destruct (in_host_guarded _ _ _ _ Ex Hp) as (g2 & E2 & Hg2).
  exists resp, g2. split_and!; [|by rewrite (guarded_of _ _ Hg2), Es|done|done].
  erewrite ST_bind_run; [|erewrite ST_bind_run by reflexivity; rewrite Ek; exact E2]. done.
Qed.
End server.

(** ** The stores under the servers *)
Section stores.
Context `{BuildProfile, GC : GrinCrates, !BinCrates, !WalletCrates, !AddressCrates, !SlatepackCrates, !ArmorCrates,
  !SlatepackJson, !HexCrate, !NodeClient, !DalekCrates, !ScanCrates, !OwnerCrates, !DiskFaults, SC : !SeedCrates, !SeedKeychain,
  !SlateJson, !JsonCrate, !RpcJson, !UriCrate, !SenderCrates, !NodeVersions, !EcdhCrate, !SealCrates, !RpcServers}.
Context (fuel : nat).

(** One thing that happens to a server: a request to one of its APIs, a step of a thread of the updater, or a message of it. *)
Inductive serve_step : Server -> Server -> Prop :=
| serve_owner body h : serve_step h (owner_post fuel body h).2
| serve_foreign body h : serve_step h (foreign_post body h).2
| serve_updater l h s :
    of_thread l = true -> step fuel l (sv_sys h) s -> serve_step h (set_sv_sys s h)
| serve_message m h s :
    step fuel (LMessage m) (sv_sys h) s -> serve_step h (set_sv_sys s h).

Definition server_sound (h : Server) : Prop := api_sound (sv_api h).

(** *** Calls *)
#[local] Hint Unfold fmapS from_versioned drawO init_secure_api : calls.
Lemma sound_call c : invar api_sound (call_owner fuel c).
Proof. destruct c; cbn [call_owner]; autounfold with calls; sounds. Qed.
Lemma sound_round mask : invar api_sound (update_round fuel mask).
Proof. unfold update_round, wallet_opened. sounds. Qed.
Lemma sound_in_sys {A} (m : ST OwnerApi A) : invar api_sound m -> invar server_sound (in_sys (on_api m)).
Proof.
  intros Hm h Hh. specialize (Hm (sv_api h) Hh). unfold in_sys, on_api, server_sound, sv_api in *.
  by destruct (m (sy_api (sv_sys h))).
Qed.
Lemma sound_exec c : invar (fun s => api_sound (sy_api s)) (exec_owner fuel c).
Proof.
  assert (Hc : invar (fun s => api_sound (sy_api s)) (on_api (call_owner fuel c))).
  { intros s Hs. pose proof (sound_call c (sy_api s) Hs) as K. unfold on_api. by destruct (call_owner fuel c (sy_api s)). }
  destruct c; exact Hc.
Qed.
Lemma sound_handle_owner v : invar server_sound (in_sys (handle_owner fuel v)).
Proof.
  assert (K : invar (fun s => api_sound (sy_api s)) (handle_owner fuel v)).
  { apply invar_bind; [|intros; apply invar_ret]. apply invar_map. intros c. apply invar_attempt, sound_exec. }
  intros h Hh. specialize (K (sv_sys h) Hh). unfold in_sys, server_sound, sv_api in *. by destruct (handle_owner fuel v (sv_sys h)).
Qed.
Lemma sound_foreign self c : invar host_sound (exec_foreign self c).
Proof. destruct c; cbn [exec_foreign]; sounds. Qed.
Lemma sound_in_host {A} (m : ST Host A) : invar host_sound m -> invar server_sound (in_host m).
Proof. intros Hm. by apply sound_in_sys, sound_on_host. Qed.
Lemma sound_handler f : (forall h, sv_api (f h) = sv_api h) -> invar server_sound (modifyS f).
Proof. intros Hf. apply invar_modify. intros h Hh. unfold server_sound. by rewrite Hf. Qed.

Lemma sound_owner_post body : invar server_sound (owner_post fuel body).
Proof.
  unfold owner_post, answered, owner_call_api, answer_call, seal_reply, encrypt_response, gen_nonce.
  repeat first [apply sound_handle_owner | apply sound_in_host | apply sound_net | by apply sound_handler | keep_step].
Qed.
Lemma sound_foreign_post body : invar server_sound (foreign_post body).
Proof.
  unfold foreign_post, answered, foreign_call_api, handle_foreign.
  repeat first [apply sound_in_host | apply sound_foreign | keep_step].
Qed.
Lemma serve_sound h h' : serve_step h h' -> server_sound h -> server_sound h'.
Proof.
  intros Hs Hh. destruct Hs as [body h|body h|l h s Hl Hs|m h s Hs].
  - by apply sound_owner_post.
  - by apply sound_foreign_post.
  - unfold server_sound, sv_api in *. destruct h as [sys key mask rf tc]. cbn in *.
    destruct Hs as [| | | o ws mask' o' E | o ws mask' r o' E Er | | | | | |]; try done.
    + pose proof (sound_round mask' o Hh) as K. by rewrite E in K.
    + pose proof (sound_round mask' o Hh) as K. by rewrite E in K.
  - inversion Hs; subst. done.
Qed.

(** C20: The data of every wallet behind the servers is well-formed, at every moment.  Start the servers
    on a program that knows no wallet, and let any bodies come to the owner's and to the foreign API, in
    any order and between any steps of the updaters, each ending with a reply, an error or a panic:
    every output, account and log entry of every wallet lies under the key made of its own fields. *)
Theorem served_wallets_well_formed disk world mask tor running h :
  rtc serve_step (Server_new (mkHost (DefaultLCProvider_new disk ∅) world) mask tor running) h ->
  sound (h_provider (oa_host (sv_api h))).
Proof.
  intros Hr. change (server_sound h).
  assert (Hstart : server_sound (Server_new (mkHost (DefaultLCProvider_new disk ∅) world) mask tor running))
    by (split; [apply map_Forall_empty|done]).
  revert Hstart. induction Hr as [|h1 h2 h3 Hs _ IH]; [done|]. intros Hh. apply IH. by eapply serve_sound.
Qed.
End stores.
