(* ===== verification/WalletCmd.v ===== *)
(** * The commands of the wallet (controller/src/command.rs, impls/src/adapters/slatepack.rs)

    What a command does with the owner API, the files and the terminal.  A command's files lie
    on the disk of the provider, in their directories; a path is taken as it is written.
    The tables of display.rs are shown as the data they are made of; what goes to the log
    only is left out. *)
From S2P Require Import Prelude.
From S2P Require Import RustStd.
From S2P Require Import Crates.
From S2P Require Import Effects.
From S2P Require Import Slate.
From S2P Require Import SlateV4.
From S2P Require Import SlateBin.
From S2P Require Import StateM.
From S2P Require Import Wallet.
From S2P Require Import Address.
From S2P Require Import Selection.
From S2P Require Import WalletTx.
From S2P Require Import Slatepack.
From S2P Require Import Armor.
From S2P Require Import Updater.
From S2P Require Import Scan.
From S2P Require Import Owner.
From S2P Require Import Packer.
From S2P Require Import Foreign.
From S2P Require Import Invariant.
From S2P Require Import Locks.
From S2P Require Import Seed.
From S2P Require Import Lifecycle.
From S2P Require Import Json.
From S2P Require Import NodeHttp.
From S2P Require Import Sender.
From S2P Require Import Facade.
From S2P Require Import Sound.
#[local] Open Scope Z_scope.

(** ** Data *)
Record GlobalArgs := mkGlobalArgs {
  ga_account : string;
  ga_api_secret : option string;
  ga_node_api_secret : option string;
  ga_show_spent : bool;
  ga_password : option string;
  ga_tls_conf : option (string * string) }.
Record AccountArgs := mkAccountArgs { aa_create : option string }.
Record ReceiveArgs := mkReceiveArgs {
  ra_input_file : option string; ra_input_slatepack_message : option string; ra_skip_tor : bool; ra_outfile : option string }.
Record FinalizeArgs := mkFinalizeArgs {
  fi_input_file : option string; fi_input_slatepack_message : option string; fi_fluff : bool; fi_nopost : bool;
  fi_outfile : option string }.
Record InfoArgs := mkInfoArgs { in_minimum_confirmations : Z }.
Record PostArgs := mkPostArgs {
  po_input_file : option string; po_input_slatepack_message : option string; po_fluff : bool }.
Record RepostArgs := mkRepostArgs { re_id : Z; re_dump_file : option string; re_fluff : bool }.
Record CheckArgs := mkCheckArgs {
  ck_delete_unconfirmed : bool; ck_start_height : option Z; ck_backwards_from_tip : option Z }.
Record ProofVerifyArgs := mkProofVerifyArgs { pv_input_file : string }.

(** What the user types at a prompt. *)
Inductive ReadResult := Eof | Interrupt | OtherSignal | Input (line : string).

Section data.
Context `{GC : GrinCrates, !BinCrates, !WalletCrates, !AddressCrates, !SlatepackCrates}.

Record SendArgs := mkSendArgs {
  sa_amount : Z;
  sa_minimum_confirmations : Z;
  sa_selection_strategy : string;
  sa_estimate_selection_strategies : bool;
  sa_late_lock : bool;
  sa_dest : string;
  sa_change_outputs : Z;
  sa_fluff : bool;
  sa_max_outputs : Z;
  sa_target_slate_version : option Z;
  sa_payment_proof_address : option SlatepackAddress;
  sa_ttl_blocks : option Z;
  sa_skip_tor : bool;
  sa_outfile : option string }.
Record IssueInvoiceArgs := mkIssueInvoiceArgs {
  ii_dest : string; ii_issue_args : IssueInvoiceTxArgs; ii_outfile : option string }.
Record ProcessInvoiceArgs := mkProcessInvoiceArgs {
  pi_minimum_confirmations : Z;
  pi_selection_strategy : string;
  pi_ret_address : option SlatepackAddress;
  pi_max_outputs : Z;
  pi_slate : Slate;
  pi_estimate_selection_strategies : bool;
  pi_ttl_blocks : option Z;
  pi_skip_tor : bool;
  pi_outfile : option string }.
Record TxsArgs := mkTxsArgs { tx_id : option Z; tx_tx_slate_id : option Uuid }.
Record CancelArgs := mkCancelArgs { ca_tx_id : option Z; ca_tx_slate_id : option Uuid; ca_tx_id_string : string }.
Record ProofExportArgs := mkProofExportArgs { pe_output_file : string; pe_id : option Z; pe_tx_slate_id : option Uuid }.

(** What the terminal shows. *)
Inductive Shown :=
| ShLine (s : string)
| ShAccounts (l : list AcctPathMapping)
| ShEstimate (amount : Z) (strategies : list (string * Z * FeeFields))
| ShInfo (account : string) (info : WalletInfo) (validated : bool)
| ShOutputs (account : string) (height : Z) (validated : bool) (l : list OutputCommitMapping)
| ShTxs (account : string) (height : Z) (validated : bool) (l : list TxLogEntry) (include_status : bool)
| ShProof (tx : TxLogEntry)
| ShSlatepack (sp : Slatepack)
| ShSlate (s : Slate)
| ShAddress (a : SlatepackAddress).

End data.

(** serde_json's text of a payment proof and of a transaction. *)
Class CmdJson `{GrinCrates} := {
  proof_to_json_pretty : PaymentProof -> string;
  proof_from_json : string -> Res PaymentProof;
  tx_to_json : Transaction -> string;
}.
(** Documented behaviour: what serde writes it reads, and it is text. *)
Class CmdJsonLaws `{CmdJson} := {
  proof_json p : proof_from_json (proof_to_json_pretty p) = Ok p;
  proof_json_utf8 p : utf8_valid (proof_to_json_pretty p) = true;
}.

(** The state of a command: the owner API, the lines that will be typed, what was shown. *)
Section state.
Context `{BuildProfile, GC : GrinCrates, !BinCrates, !WalletCrates, !AddressCrates, !SlatepackCrates}.
Record Shell := mkShell { sh_owner : OwnerApi; sh_in : list ReadResult; sh_out : list Shown }.
#[local] Abbreviation C_ := (ST Shell).
Definition set_sh_owner o (s : Shell) : Shell := mkShell o (sh_in s) (sh_out s).
Definition set_sh_in l (s : Shell) : Shell := mkShell (sh_owner s) l (sh_out s).
Definition set_sh_out l (s : Shell) : Shell := mkShell (sh_owner s) (sh_in s) l.

(** A closure that [owner_single_use] is given: it runs on the API of the caller. *)
Definition on_owner {A} (m : ST OwnerApi A) : C_ A := fun s =>
  let '(r, o) := m (sh_owner s) in (r, set_sh_owner o s).
Definition on_files {A} (m : D A) : C_ A := on_owner (with_lc (on_disk m)).
Definition show (x : Shown) : C_ unit := modifyS (fun s => set_sh_out (sh_out s ++ [x]) s).
Definition println (s : string) : C_ unit := show (ShLine s).
End state.

(** ** Files *)
Section files.
Context `{DiskFaults, ArmorCrates}.
(** [Path::parent] *)
Definition parent_dir (path : string) : string :=
  match rev (ancestors "" path) with _ :: dir :: _ => dir | _ => "" end.
(** [File::create] of a path, in a directory that is there, or in the current one. *)
Definition create_or_empty (path : string) : D unit :=
  taken ← getS (fun d => bool_decide (path ∈ dk_dirs d));
  if taken : bool then errS IO else
  if bool_decide (parent_dir path = "") then _ ← io; modifyS (fun d => set_dk_files (<[path := ""]> (dk_files d)) d)
  else file_create (parent_dir path) path.
(** [File::create], [write_all] and [sync_all] *)
Definition write_file (path content : string) : D unit :=
  _ ← create_or_empty path; _ ← write_all path content; io.
(** [PathToSlatepack::get_slatepack_file_contents] *)
Definition get_slatepack_file_contents (path : string) : D string :=
  _ ← io;
  file ← getS (fun d => dk_files d !! path);
  data ← liftS (ok_or IO file);
  if (len data <? min_size) || (max_size <? len data)
  then errS "SlatepackDeser(Data is invalid length)"
  else _ ← io; _ ← io; mret data.
End files.

Section code.
Context `{BuildProfile, GC : GrinCrates, !BinCrates, !WalletCrates, !AddressCrates, !SlatepackCrates, !ArmorCrates,
  !SlatepackJson, !HexCrate, !NodeClient, !DalekCrates, !ScanCrates, !OwnerCrates, !DiskFaults, SC : !SeedCrates, !SeedKeychain,
  !SlateJson, !JsonCrate, !RpcJson, !UriCrate, !SenderCrates, !NodeVersions, !CmdJson}.
Context (fuel : nat).
#[local] Abbreviation C_ := (ST Shell).
Implicit Types (mask : option SecretKey).

(** [PathToSlatepack::get_slatepack] and [get_tx] *)
Definition get_slatepack (packer : SlatepackerArgs) (path : string) (decrypt : bool) : C_ Slatepack :=
  data ← on_files (get_slatepack_file_contents path); liftS (deser_slatepack packer data decrypt).
Definition get_slate_of (sp : Slatepack) : C_ Slate := on_owner (on_host (on_net (local (get_slate sp)))).
Definition get_tx (packer : SlatepackerArgs) (path : string) : C_ Slate :=
  sp ← get_slatepack packer path true; get_slate_of sp.

(** [controller::foreign_single_use] *)
Definition foreign_single_use {A} mask (f : ForeignApi -> ST Host A) : ST OwnerApi A :=
  on_host (f (Foreign_new mask (Some check_middleware))).

(** ** Accounts, seeds *)
Definition show_recovery_phrase (phrase : string) : C_ unit :=
  _ ← println "Your recovery phrase is:"; _ ← println ""; _ ← println phrase; _ ← println "";
  println "Please back-up these words in a non-digital format.".
Definition recover (passphrase : string) : C_ unit :=
  m ← on_owner (with_lc (get_mnemonic passphrase)); show_recovery_phrase m.
Definition account mask (args : AccountArgs) : C_ unit :=
  match aa_create args with
  | None => acct_mappings ← on_owner (api_accounts mask); show (ShAccounts acct_mappings)
  | Some label => _ ← on_owner (api_create_account_path mask label); mret tt
  end.

(** ** Slatepacks, out and in *)
Definition slatepack_file (tld : string) (slate : Slate) (out_file_override : option string) : string :=
  match out_file_override with
  | None => tld +:+ "/slatepack/" +:+ uuid_to_string (sl_id slate) +:+ "." +:+ SlateState_fmt (sl_state slate) +:+ ".slatepack"
  | Some f => f
  end.
(** [match SlatepackAddress::try_from(dest) { Ok(a) => Some(a), Err(_) => None }] *)
Definition address_of (dest : string) : Res (option SlatepackAddress) :=
  match SlatepackAddress_from_str dest with
  | Ok a => Ok (Some a)
  | Err _ => Ok None
  | Panic e => Panic e
  end.
Definition output_slatepack mask (slate : Slate) (dest : string) (out_file_override : option string)
    (lock finalizing : bool) : C_ unit :=
  address ← liftS (address_of dest);
  let recipients := match address with Some a => [a] | None => [] end in
  message ← on_owner (api_create_slatepack_message mask slate (Some 0) recipients);
  tld ← on_owner api_get_top_level_directory;
  _ ← attemptS (on_files (create_dir_all (tld +:+ "/slatepack")));
  let out_file_name := slatepack_file tld slate out_file_override in
  _ ← whenS lock (on_owner (api_tx_lock_outputs mask slate));
  _ ← println out_file_name;
  _ ← on_files (write_file out_file_name message);
  _ ← println "";
  _ ← println (if finalizing then "Slatepack data follows."
               else "Slatepack data follows. Please provide this output to the other party");
  _ ← println ""; _ ← println "--- CUT BELOW THIS LINE ---"; _ ← println "";
  _ ← println message;
  _ ← println "--- CUT ABOVE THIS LINE ---"; _ ← println "";
  _ ← println "Slatepack data was also output to"; _ ← println ""; _ ← println out_file_name; _ ← println "";
  _ ← println (match address with
               | Some _ => "The slatepack data is encrypted for the recipient only"
               | None => "The slatepack data is NOT encrypted"
               end);
  println "".
Definition parse_slatepack mask (filename message : option string) : C_ (Slate * option SlatepackAddress) :=
  match filename with
  | Some f =>
      dec_key ← on_owner (api_get_slatepack_secret_key mask 0);
      let packer := mkSlatepackerArgs None [] (Some dec_key) in
      slate ← get_tx packer f;
      sp ← get_slatepack packer f true;
      mret (slate, sp_sender sp)
  | None =>
      match message with
      | Some m =>
          slate ← on_owner (api_slate_from_slatepack_message mask m [0]);
          sp ← on_owner (api_decode_slatepack_message mask m [0]);
          mret (slate, sp_sender sp)
      | None => errS "GenericError(No slate provided via file or direct input)"
      end
  end.

(** ** Sending *)
(** The Tor configuration, told whether to try. *)
Definition told (skip_tor : bool) (tor_config : option TorConfig) : option TorConfig :=
  set_skip_send_attempt (Some skip_tor) <$> tor_config.
Definition try_to_send (slate : Slate) (dest : string) (tor_config : option TorConfig) (send_to_finalize test_mode : bool) :
    C_ (option Slate) :=
  on_owner (on_host (on_net (try_slatepack_sync_workflow slate dest tor_config None send_to_finalize test_mode))).
(** What one strategy would cost. *)
Definition estimate_one mask (amount minimum_confirmations max_outputs num_change_outputs : Z) (strategy : string) :
    C_ (string * Z * FeeFields) :=
  slate ← unwrapS (on_owner (api_init_send_tx mask
    (mkInitTxArgs None amount minimum_confirmations (as_u32 max_outputs) (as_u32 num_change_outputs)
       (bool_decide (strategy = "all")) None None None (Some true) (Some false) None)));
  mret (strategy, sl_amount slate, sl_fee_fields slate).
Definition strategies : list string := ["smallest"; "all"].

Definition send_init_args (args : SendArgs) : InitTxArgs :=
  mkInitTxArgs None (sa_amount args) (sa_minimum_confirmations args) (as_u32 (sa_max_outputs args))
    (as_u32 (sa_change_outputs args)) (bool_decide (sa_selection_strategy args = "all")) (sa_target_slate_version args)
    (sa_ttl_blocks args) (sa_payment_proof_address args) (Some false) (Some (sa_late_lock args)) None.
Definition send mask (tor_config : option TorConfig) (args : SendArgs) (test_mode : bool) : C_ unit :=
  if sa_estimate_selection_strategies args then
    l ← mapS (estimate_one mask (sa_amount args) (sa_minimum_confirmations args) (sa_max_outputs args) (sa_change_outputs args))
          strategies;
    show (ShEstimate (sa_amount args) l)
  else
    slate ← on_owner (api_init_send_tx mask (send_init_args args));
    res ← try_to_send slate (sa_dest args) (told (sa_skip_tor args) tor_config) false test_mode;
    match res with
    | Some s =>
        _ ← on_owner (api_tx_lock_outputs mask s);
        ret_slate ← on_owner (api_finalize_tx mask s);
        _ ← on_owner (api_post_tx mask ret_slate (sa_fluff args));
        println "Tx sent successfully"
    | None => output_slatepack mask slate (sa_dest args) (sa_outfile args) true false
    end.

(** The address to reply to, if there is one. *)
Definition reply_to (address : option SlatepackAddress) : Res string :=
  match address with Some a => unwrap (SlatepackAddress_to_string a) | None => Ok "" end.
Definition receive mask (g_args : GlobalArgs) (args : ReceiveArgs) (tor_config : option TorConfig) (test_mode : bool) : C_ unit :=
  '(slate, ret_address) ← parse_slatepack mask (ra_input_file args) (ra_input_slatepack_message args);
  slate ← on_owner (foreign_single_use mask (fun api => foreign_api_receive_tx api slate (Some (ga_account g_args)) None));
  dest ← liftS (reply_to ret_address);
  res ← try_to_send slate dest (told (ra_skip_tor args) tor_config) true test_mode;
  match res with
  | Some _ =>
      _ ← println "";
      _ ← println ("Transaction recieved and sent back to sender at " +:+ dest +:+ " for finalization.");
      println ""
  | None => output_slatepack mask slate dest (ra_outfile args) false false
  end.

Definition unpack mask (args : ReceiveArgs) : C_ unit :=
  slatepack ← match ra_input_file args with
              | Some f => get_slatepack no_packer f false
              | None =>
                  match ra_input_slatepack_message args with
                  | Some mes => on_owner (api_decode_slatepack_message mask mes [])
                  | None => errS "ArgumentError(Invalid Slatepack Input)"
                  end
              end;
  _ ← println ""; _ ← println "SLATEPACK CONTENTS"; _ ← println "------------------";
  _ ← show (ShSlatepack slatepack); _ ← println "------------------";
  if sp_mode slatepack =? 1 then
    dec_key ← on_owner (api_get_slatepack_secret_key mask 0);
    r ← attemptS (liftS (try_decrypt_payload (Some dec_key) slatepack));
    match r with
    | inl sp =>
        _ ← println "Slatepack is encrypted for this wallet"; _ ← println "";
        _ ← println "DECRYPTED SLATEPACK"; _ ← println "-------------------"; _ ← show (ShSlatepack sp);
        slate ← get_slate_of sp;
        _ ← println ""; _ ← println "DECRYPTED SLATE"; _ ← println "---------------"; show (ShSlate slate)
    | inr _ => println "Slatepack payload cannot be decrypted by this wallet"
    end
  else
    slate ← get_slate_of slatepack;
    _ ← println "Slatepack is not encrypted"; _ ← println ""; _ ← println "SLATE"; _ ← println "-----"; show (ShSlate slate).

Definition command_finalize mask (args : FinalizeArgs) : C_ unit :=
  '(slate, _) ← parse_slatepack mask (fi_input_file args) (fi_input_slatepack_message args);
  slate ← if bool_decide (sl_state slate = Invoice2)
          then on_owner (foreign_single_use mask (fun api => foreign_api_finalize_tx api slate false))
          else on_owner (api_finalize_tx mask slate);
  _ ← whenS (negb (fi_nopost args)) (_ ← on_owner (api_post_tx mask slate (fi_fluff args)); println "Transaction posted");
  _ ← println "Transaction finalized successfully";
  output_slatepack mask slate "" (fi_outfile args) false true.

(** ** Invoices *)
Definition command_issue_invoice mask (args : IssueInvoiceArgs) : C_ unit :=
  slate ← on_owner (api_issue_invoice_tx mask (ii_issue_args args));
  output_slatepack mask slate (ii_dest args) (ii_outfile args) false false.
Definition invoice_args (args : ProcessInvoiceArgs) : InitTxArgs :=
  mkInitTxArgs None 0 (pi_minimum_confirmations args) (as_u32 (pi_max_outputs args)) 1
    (bool_decide (pi_selection_strategy args = "all")) None (pi_ttl_blocks args) None (Some false) (Some false) None.
(** After the estimates of the strategies the slate of the issuer is sent on. *)
Definition process_invoice mask (tor_config : option TorConfig) (args : ProcessInvoiceArgs) (test_mode : bool) : C_ unit :=
  let slate := pi_slate args in
  dest ← liftS (reply_to (pi_ret_address args));
  slate ← if pi_estimate_selection_strategies args then
            l ← mapS (estimate_one mask (sl_amount slate) (pi_minimum_confirmations args) (pi_max_outputs args) 1) strategies;
            _ ← show (ShEstimate (sl_amount slate) l);
            mret slate
          else
            on_owner (api_process_invoice_tx mask slate (invoice_args args));
  res ← try_to_send slate dest (told (pi_skip_tor args) tor_config) true test_mode;
  match res with
  | Some _ =>
      _ ← println "";
      _ ← println ("Transaction paid and sent back to initiator at " +:+ dest +:+ " for finalization.");
      println ""
  | None => output_slatepack mask slate dest (pi_outfile args) true false
  end.

(** ** What the wallet knows *)
Definition updater_runs : C_ bool := getS (fun s => oa_updater_running (sh_owner s)).
Definition info mask (g_args : GlobalArgs) (args : InfoArgs) : C_ unit :=
  running ← updater_runs;
  '(validated, wallet_info) ← on_owner (api_retrieve_summary_info fuel mask true (in_minimum_confirmations args));
  show (ShInfo (ga_account g_args) wallet_info (validated || running)).
Definition outputs mask (g_args : GlobalArgs) : C_ unit :=
  running ← updater_runs;
  res ← on_owner (api_node_height fuel mask);
  '(validated, outputs) ← on_owner (api_retrieve_outputs fuel mask (ga_show_spent g_args) true None);
  show (ShOutputs (ga_account g_args) (nh_height res) (validated || running) outputs).
Definition txs mask (g_args : GlobalArgs) (args : TxsArgs) : C_ unit :=
  running ← updater_runs;
  res ← on_owner (api_node_height fuel mask);
  '(validated, txs) ← on_owner (api_retrieve_txs fuel mask true (tx_id args) (tx_tx_slate_id args));
  let include_status := negb (is_some (tx_id args)) && negb (is_some (tx_tx_slate_id args)) in
  _ ← show (ShTxs (ga_account g_args) (nh_height res) (validated || running) txs include_status);
  id ← match tx_id args with
       | Some i => mret (Some i)
       | None =>
           if is_some (tx_tx_slate_id args) then
             match find (fun t => bool_decide (tl_tx_slate_id t = tx_tx_slate_id args)) txs with
             | Some tx => mret (Some (tl_id tx))
             | None => _ ← println "Could not find a transaction matching given txid."; mret None
             end
           else mret None
       end;
  if is_some id then
    '(_, outputs) ← on_owner (api_retrieve_outputs fuel mask true false id);
    _ ← show (ShOutputs (ga_account g_args) (nh_height res) (validated || running) outputs);
    foreachS (fun tx => show (ShProof tx)) txs
  else mret tt.

(** ** Posting, cancelling, scanning *)
Definition post mask (args : PostArgs) : C_ unit :=
  '(slate, _) ← parse_slatepack mask (po_input_file args) (po_input_slatepack_message args);
  on_owner (api_post_tx mask slate (po_fluff args)).
(** [v[0]] *)
Definition index0 {A} (l : list A) : Res A := match l with a :: _ => Ok a | [] => Panic "index out of bounds" end.
Definition repost mask (args : RepostArgs) : C_ unit :=
  stored ← on_owner (api_get_stored_tx mask (Some (re_id args)) None);
  match stored with
  | None => mret tt
  | Some stored_tx_slate =>
      '(_, txs) ← on_owner (api_retrieve_txs fuel mask true (Some (re_id args)) None);
      match re_dump_file args with
      | None =>
          tx ← liftS (index0 txs);
          if tl_confirmed tx then mret tt else
          stored_tx ← liftS (unwrap_opt (sl_tx stored_tx_slate));
          kernel ← liftS (index0 (tx_kernels stored_tx));
          if sig_is_blank (kern_sig kernel) then mret tt else
          _ ← attemptS (on_owner (api_post_tx mask stored_tx_slate (re_fluff args)));
          mret tt
      | Some f =>
          _ ← on_files (create_or_empty f);
          stored_tx ← liftS (unwrap_opt (sl_tx stored_tx_slate));
          _ ← on_files (write_all f (tx_to_json stored_tx));
          on_files io
      end
  end.
Definition cancel mask (args : CancelArgs) : C_ unit := on_owner (api_cancel_tx fuel mask (ca_tx_id args) (ca_tx_slate_id args)).
(** Where a scan starts. *)
Definition scan_start (tip_height : Z) (args : CheckArgs) : Z :=
  match ck_backwards_from_tip args with
  | Some b => Z.max 0 (tip_height - b)
  | None => default 1 (ck_start_height args)
  end.
Definition scan_command mask (args : CheckArgs) : C_ unit :=
  res ← on_owner (api_node_height fuel mask);
  on_owner (api_scan fuel mask (Some (scan_start (nh_height res) args)) (ck_delete_unconfirmed args)).
Definition address mask (g_args : GlobalArgs) : C_ unit :=
  address ← on_owner (api_get_slatepack_address mask 0);
  _ ← println "";
  _ ← println ("Address for account - " +:+ ga_account g_args); _ ← println "-------------------------------------";
  _ ← show (ShAddress address);
  println "".

(** ** Payment proofs *)
Definition proof_export mask (args : ProofExportArgs) : C_ unit :=
  p ← on_owner (api_retrieve_payment_proof fuel mask true (pe_id args) (pe_tx_slate_id args));
  on_files (write_file (pe_output_file args) (proof_to_json_pretty p)).
(** What is said of a proof that is valid. *)
Definition say_whose (iam_sender iam_recipient : bool) : C_ unit :=
  _ ← println "Payment proof's signatures are valid.";
  _ ← whenS iam_sender (println "The proof's sender address belongs to this wallet.");
  _ ← whenS iam_recipient (println "The proof's recipient address belongs to this wallet.");
  whenS (negb iam_recipient && negb iam_sender)
    (println "Neither the proof's sender nor recipient address belongs to this wallet.").
(** The file is opened, then read. *)
Definition proof_verify mask (args : ProofVerifyArgs) : C_ unit :=
  _ ← on_files (contextS "PaymentProofParsing" io);
  there ← on_files (getS (fun d => bool_decide (is_Some (dk_files d !! pv_input_file args))));
  _ ← whenS (negb there) (errS "PaymentProofParsing");
  text ← on_files (read_to_string (pv_input_file args));
  proof ← liftS (match proof_from_json text with Err _ => Err "PaymentProofParsing" | r => r end);
  '(iam_sender, iam_recipient) ← on_owner (api_verify_payment_proof mask proof);
  say_whose iam_sender iam_recipient.
End code.

(** ** Commands keep the wallets well-formed *)
Section soundness.
Context `{BuildProfile, GC : GrinCrates, !BinCrates, !WalletCrates, !AddressCrates, !SlatepackCrates, !ArmorCrates,
  !SlatepackJson, !HexCrate, !NodeClient, !DalekCrates, !ScanCrates, !OwnerCrates, !DiskFaults, SC : !SeedCrates, !SeedKeychain,
  !SlateJson, !JsonCrate, !RpcJson, !UriCrate, !SenderCrates, !NodeVersions, !CmdJson}.
Context (fuel : nat).

Definition shell_sound (s : Shell) : Prop := api_sound (sh_owner s).
Lemma sound_on_owner {A} (m : ST OwnerApi A) : invar api_sound m -> invar shell_sound (on_owner m).
Proof. intros Hm s Hs. specialize (Hm (sh_owner s) Hs). unfold on_owner. by destruct (m (sh_owner s)). Qed.
Lemma sound_files {A} (m : D A) : invar shell_sound (on_files m).
Proof. apply sound_on_owner, sound_with_lc. intros p Hp. unfold on_disk. by destruct (m (pr_disk p)). Qed.
Lemma sound_show x : invar shell_sound (show x).
Proof. by apply invar_modify. Qed.
Lemma sound_println x : invar shell_sound (println x).
Proof. apply sound_show. Qed.
Lemma sound_updater_runs : invar shell_sound updater_runs.
Proof. apply invar_get. Qed.
#[local] Hint Resolve sound_files sound_show sound_println sound_updater_runs : sound.
#[local] Hint Extern 1 (invar shell_sound (on_owner _)) => apply sound_on_owner; solve [sounds] : sound.

Lemma sound_try_to_send s d c b t : invar shell_sound (try_to_send s d c b t).
Proof. apply sound_on_owner. sounds. Qed.
Lemma sound_foreign_single_use {A} m (f : ForeignApi -> ST Host A) :
  (forall api, invar host_sound (f api)) -> invar api_sound (foreign_single_use m f).
Proof. intros Hf. by apply sound_on_host. Qed.
Lemma sound_get_slate_of sp : invar shell_sound (get_slate_of sp).
Proof. apply sound_on_owner. sounds. Qed.
Lemma sound_output_slatepack m s d o l f : invar shell_sound (output_slatepack m s d o l f).
Proof. unfold output_slatepack. sounds. Qed.
#[local] Hint Resolve sound_try_to_send sound_get_slate_of sound_output_slatepack : sound.
Lemma sound_parse_slatepack m f x : invar shell_sound (parse_slatepack m f x).
Proof. unfold parse_slatepack, get_tx, get_slatepack. sounds. Qed.
Lemma sound_estimate m a n x c s : invar shell_sound (estimate_one m a n x c s).
Proof. unfold estimate_one. sounds. Qed.
#[local] Hint Resolve sound_parse_slatepack sound_estimate : sound.

#[local] Ltac command := sounds; try (apply sound_on_owner, sound_foreign_single_use; intros; sounds).
Lemma sound_recover p : invar shell_sound (recover p).
Proof. apply invar_bind; [apply sound_on_owner, (sound_api_get_mnemonic p)|]. unfold show_recovery_phrase. command. Qed.
Lemma sound_account m a : invar shell_sound (account m a).
Proof. unfold account. command. Qed.
Lemma sound_send m c a t : invar shell_sound (send m c a t).
Proof. unfold send. command. Qed.
Lemma sound_receive_command m g a c t : invar shell_sound (receive m g a c t).
Proof. unfold receive. command. Qed.
Lemma sound_unpack m a : invar shell_sound (unpack m a).
Proof. unfold unpack, get_slatepack. command. Qed.
Lemma sound_finalize m a : invar shell_sound (command_finalize m a).
Proof. unfold command_finalize. command. Qed.
Lemma sound_issue m a : invar shell_sound (command_issue_invoice m a).
Proof. unfold command_issue_invoice. command. Qed.
Lemma sound_pay m c a t : invar shell_sound (process_invoice m c a t).
Proof. unfold process_invoice. command. Qed.
Lemma sound_info m g a : invar shell_sound (info fuel m g a).
Proof. unfold info. command. Qed.
Lemma sound_outputs m g : invar shell_sound (outputs fuel m g).
Proof. unfold outputs. command. Qed.
Lemma sound_txs m g a : invar shell_sound (txs fuel m g a).
Proof. unfold txs. command. Qed.
Lemma sound_post m a : invar shell_sound (post m a).
Proof. unfold post. command. Qed.
Lemma sound_repost m a : invar shell_sound (repost fuel m a).
Proof. unfold repost. command. Qed.
Lemma sound_cancel m a : invar shell_sound (cancel fuel m a).
Proof. unfold cancel. command. Qed.
Lemma sound_scan_command m a : invar shell_sound (scan_command fuel m a).
Proof. unfold scan_command. command. Qed.
Lemma sound_address m g : invar shell_sound (address m g).
Proof. unfold address. command. Qed.
Lemma sound_proof_export m a : invar shell_sound (proof_export fuel m a).
Proof. unfold proof_export. command. Qed.
Lemma sound_proof_verify m a : invar shell_sound (proof_verify m a).
Proof. unfold proof_verify, say_whose. command. Qed.
End soundness.

(** ** What the commands do *)
Section effects.
Context `{BuildProfile, GC : GrinCrates, !BinCrates, !WalletCrates, !AddressCrates, !SlatepackCrates, !ArmorCrates,
  !SlatepackJson, !HexCrate, !NodeClient, !DalekCrates, !ScanCrates, !OwnerCrates, !DiskFaults, SC : !SeedCrates, !SeedKeychain,
  !SlateJson, !JsonCrate, !RpcJson, !UriCrate, !SenderCrates, !NodeVersions, !CmdJson}.
Context (fuel : nat).
Implicit Types (s : Shell) (o : OwnerApi) (mask : option SecretKey).

(** The wallet that is open, and its coins that are locked. *)
Definition opened o : option Wallet := snd <$> pr_backend (h_provider (oa_host o)).
Definition coin_locked o (i : Identifier) : Prop :=
  match opened o with Some w => locked_in (wa_db w) i | None => False end.
Definition between_calls o : Prop := match opened o with Some w => wa_batch w = None | None => True end.
Definition disk_of s : gmap string string := dk_files (pr_disk (h_provider (oa_host (sh_owner s)))).

Lemma on_owner_run {A} (m : ST OwnerApi A) s r o : m (sh_owner s) = (r, o) -> on_owner m s = (r, set_sh_owner o s).
Proof. unfold on_owner. by intros ->. Qed.
Lemma with_wallet_calm {A} (m : ST Wallet A) o i :
  (forall d, invar (calm d) m) -> between_calls o -> coin_locked (with_wallet m o).2 i -> coin_locked o i.
Proof.
  intros Hm Hb. unfold with_wallet, on_host, on_inst, on_provider, wallet_inst.
  unfold mbind, ST_bind, getS. unfold between_calls, coin_locked, opened in *.
  destruct (pr_backend (h_provider (oa_host o))) as [[d w]|] eqn:Ew; cbn in *; [|by rewrite Ew].
  pose proof (Hm (wa_db w) (set_wa_tape (dk_tape (pr_disk (h_provider (oa_host o)))) w)) as Hc.
  destruct (m _) as [r w']. cbn. apply Hc. split; [by intros j|]. cbn. by rewrite Hb.
Qed.
Lemma try_to_send_provider slate dest tc fin test s r s' :
  try_to_send slate dest tc fin test s = (r, s') -> h_provider (oa_host (sh_owner s')) = h_provider (oa_host (sh_owner s)).
Proof.
  unfold try_to_send, on_owner, on_host. pose proof (on_net_provider (try_slatepack_sync_workflow slate dest tc None fin test)
    (oa_host (sh_owner s))) as Hp. destruct (on_net _ _) as [r0 h]. cbn in Hp. by intros [= <- <-].
Qed.

(** Paying an invoice whose answer went back over Tor locks no coin: [tx_lock_outputs] is not called. *)
Theorem paid_over_tor_unlocked mask tor args test s dest paid o1 reply s2 :
  pi_estimate_selection_strategies args = false -> between_calls (sh_owner s) ->
  reply_to (pi_ret_address args) = Ok dest ->
  api_process_invoice_tx mask (pi_slate args) (invoice_args args) (sh_owner s) = (Ok paid, o1) ->
  try_to_send paid dest (told (pi_skip_tor args) tor) true test (set_sh_owner o1 s) = (Ok (Some reply), s2) ->
  exists s', process_invoice mask tor args test s = (Ok tt, s')
    /\ forall i, coin_locked (sh_owner s') i -> coin_locked (sh_owner s) i.
Proof.
  intros He Hb Hd Hp Ht. unfold process_invoice. rewrite Hd. erewrite ST_bind_run by reflexivity. rewrite He.
  erewrite ST_bind_run by (by apply on_owner_run). rewrite (ST_bind_run _ _ _ _ _ Ht). eexists. split; [reflexivity|].
  intros i. unfold coin_locked, opened. cbn. rewrite (try_to_send_provider _ _ _ _ _ _ _ _ Ht). cbn.
  unfold api_process_invoice_tx in Hp. apply ST_bind_Ok in Hp as (sl & o2 & E1 & E2). cbn in E2. apply mretS_Ok in E2 as [-> ->].
  pose proof (with_wallet_calm _ (sh_owner s) i (fun d => calm_process_invoice d mask (pi_slate args) (invoice_args args) false) Hb) as Hc.
  by rewrite E1 in Hc.
Qed.

(** *** Files *)
Lemma on_files_Ok {A} (m : D A) s a s' :
  on_files m s = (Ok a, s') <-> exists d, m (pr_disk (h_provider (oa_host (sh_owner s)))) = (Ok a, d)
    /\ s' = set_sh_owner (set_oa_host (mkHost (set_pr_disk d (h_provider (oa_host (sh_owner s)))) (h_world (oa_host (sh_owner s)))) (sh_owner s)) s.
Proof.
  unfold on_files, on_owner, with_lc, on_host, on_provider, on_disk.
  destruct (m _) as [r d]. split; [intros [= -> <-]; by exists d|]. by intros (d' & [= -> ->] & ->).
Qed.
Lemma io_Ok d u d' : io d = (Ok u, d') -> dk_files d' = dk_files d /\ dk_dirs d' = dk_dirs d.
Proof. unfold io, drawD. intros E. apply ST_bind_Ok in E as (n & d1 & E1 & E). destruct (draw (dk_tape d)) as [n0 t0]. cbn in E1. simplify_eq. by destruct (io_fails n); [|apply mretS_Ok in E as [_ ->]]. Qed.
Lemma create_or_empty_Ok path d u d' : create_or_empty path d = (Ok u, d') -> dk_files d' = <[path := ""]> (dk_files d).
Proof.
  unfold create_or_empty. intros E. apply ST_bind_Ok in E as (taken & d1 & E1 & E). apply getS_Ok in E1 as [-> ->].
  destruct (bool_decide _); [done|]. destruct (bool_decide (parent_dir path = "")).
  - apply ST_bind_Ok in E as (u1 & d1 & E1 & E). apply modifyS_Ok in E as [-> ->]. cbn. by apply io_Ok in E1 as [-> _].
  - unfold file_create in E. apply ST_bind_Ok in E as (u1 & d1 & E1 & E). apply io_Ok in E1 as [Ef _].
    apply ST_bind_Ok in E as (dirs & d2 & E2 & E). apply getS_Ok in E2 as [-> ->]. destruct (bool_decide _); [|done].
    apply modifyS_Ok in E as [-> ->]. cbn. by rewrite Ef.
Qed.
Lemma write_all_Ok path c d u d' : write_all path c d = (Ok u, d') -> dk_files d' = <[path := c]> (dk_files d).
Proof.
  unfold write_all, drawD. intros E. apply ST_bind_Ok in E as (n & d1 & E1 & E). destruct (draw (dk_tape d)) as [n0 t0]. cbn in E1. simplify_eq.
  destruct (io_fails n); [by apply ST_bind_Ok in E as (? & ? & _ & E)|]. by apply modifyS_Ok in E as [-> ->].
Qed.
Lemma write_file_Ok path c d u d' : write_file path c d = (Ok u, d') -> dk_files d' = <[path := c]> (dk_files d).
Proof.
  unfold write_file. intros E. apply ST_bind_Ok in E as (u1 & d1 & E1 & E). apply ST_bind_Ok in E as (u2 & d2 & E2 & E).
  apply io_Ok in E as [-> _]. rewrite (write_all_Ok _ _ _ _ _ E2), (create_or_empty_Ok _ _ _ _ E1). apply insert_insert_eq.
Qed.
Lemma on_owner_Ok {A} (m : ST OwnerApi A) s a s' :
  on_owner m s = (Ok a, s') <-> exists o, m (sh_owner s) = (Ok a, o) /\ s' = set_sh_owner o s.
Proof.
  unfold on_owner. destruct (m (sh_owner s)) as [r o]. split; [intros [= -> <-]; by exists o|]. by intros (o' & [= -> ->] & ->).
Qed.
Lemma owner_println x : leaves sh_owner (println x).
Proof. done. Qed.
Lemma opened_files {A} (m : D A) : leaves (fun x => opened (sh_owner x)) (on_files m).
Proof. intros s. unfold on_files, on_owner, with_lc, on_host, on_provider, on_disk. by destruct (m _). Qed.

(** *** Handing over a slatepack *)
(** When it succeeds the coins were locked, if they were to be, and the message is in its file, whole. *)
Lemma output_slatepack_Ok mask slate dest file lock fin s s' :
  output_slatepack mask slate dest file lock fin s = (Ok tt, s') ->
  exists address message tld o1 o2 o3,
    address_of dest = Ok address
    /\ api_create_slatepack_message mask slate (Some 0) (match address with Some a => [a] | None => [] end) (sh_owner s) = (Ok message, o1)
    /\ api_get_top_level_directory o1 = (Ok tld, o1)
    /\ opened o2 = opened o1
    /\ (if lock then api_tx_lock_outputs mask slate o2 = (Ok tt, o3) else o3 = o2)
    /\ opened (sh_owner s') = opened o3
    /\ disk_of s' !! slatepack_file tld slate file = Some message.
Proof.
  unfold output_slatepack. intros E.
  apply ST_bind_Ok in E as (address & s0 & E0 & E). apply liftS_Ok in E0 as [Ea ->].
  apply ST_bind_Ok in E as (message & s1 & E1 & E). apply on_owner_Ok in E1 as (o1 & E1 & ->).
  apply ST_bind_Ok in E as (tld & s2 & E2 & E). apply on_owner_Ok in E2 as (o1' & E2 & ->). cbn in E2.
  assert (o1' = o1) as ->.
  { unfold api_get_top_level_directory, with_lc, on_host, on_provider, get_top_level_directory, getS in E2.
    injection E2 as _ <-. by destruct o1 as [[] ? ? ? ?]. }
  apply ST_bind_Ok in E as (r & s3 & E3 & E). apply (leaves_Ok (fun x => opened (sh_owner x))) in E3; [|apply leaves_attempt, opened_files].
  apply ST_bind_Ok in E as ([] & s4 & E4 & E).
  assert (Hl : if lock then api_tx_lock_outputs mask slate (sh_owner s3) = (Ok tt, sh_owner s4) else sh_owner s4 = sh_owner s3).
  { unfold whenS in E4. destruct lock; [by apply on_owner_Ok in E4 as (o & E4 & ->)|by apply mretS_Ok in E4 as [_ ->]]. }
  apply ST_bind_Ok in E as (u & s5 & E5 & E). apply (leaves_Ok sh_owner) in E5; [|apply owner_println].
  apply ST_bind_Ok in E as (u2 & s6 & E6 & E).
  assert (Ho : sh_owner s' = sh_owner s6).
  { revert E. apply leaves_Ok. repeat first [apply owner_println|apply leaves_bind; [|intros ?]]. }
  pose proof (leaves_Ok (fun x => opened (sh_owner x)) _ _ _ _ (opened_files _) E6) as Ho6.
  apply on_files_Ok in E6 as (d & E6 & Es6). apply write_file_Ok in E6.
  exists address, message, tld, o1, (sh_owner s3), (sh_owner s4). split_and!; [done..|by rewrite Ho, Ho6, E5|].
  unfold disk_of. rewrite Ho, Es6. cbn. rewrite E6. apply lookup_insert_eq.
Qed.

(** What [send] does when it succeeds: the payment is made, and the other wallet tried; if it answered, the
    coins are locked for its slate, which is finalized and posted, in this order; if not, the coins are
    locked and the message for the recipient lies in its file. *)
Theorem send_ends_locked mask tor args test s s' :
  sa_estimate_selection_strategies args = false -> send mask tor args test s = (Ok tt, s') ->
  exists slate o1 sent s2,
    api_init_send_tx mask (send_init_args args) (sh_owner s) = (Ok slate, o1)
    /\ try_to_send slate (sa_dest args) (told (sa_skip_tor args) tor) false test (set_sh_owner o1 s) = (Ok sent, s2)
    /\ match sent with
       | Some reply => exists o3 final o4,
           api_tx_lock_outputs mask reply (sh_owner s2) = (Ok tt, o3) /\ api_finalize_tx mask reply o3 = (Ok final, o4)
           /\ api_post_tx mask final (sa_fluff args) o4 = (Ok tt, sh_owner s')
       | None => exists address message tld o3 o4 o5,
           address_of (sa_dest args) = Ok address
           /\ api_create_slatepack_message mask slate (Some 0) (match address with Some a => [a] | None => [] end) (sh_owner s2)
              = (Ok message, o3)
           /\ opened o4 = opened o3 /\ api_tx_lock_outputs mask slate o4 = (Ok tt, o5) /\ opened (sh_owner s') = opened o5
           /\ disk_of s' !! slatepack_file tld slate (sa_outfile args) = Some message
       end.
Proof.
  unfold send. intros -> E. apply ST_bind_Ok in E as (slate & s1 & E1 & E). apply on_owner_Ok in E1 as (o1 & E1 & ->).
  apply ST_bind_Ok in E as (sent & s2 & E2 & E). exists slate, o1, sent, s2. split_and!; [done..|]. destruct sent as [reply|].
  - apply ST_bind_Ok in E as ([] & s3 & E3 & E). apply on_owner_Ok in E3 as (o3 & E3 & ->).
    apply ST_bind_Ok in E as (final & s4 & E4 & E). apply on_owner_Ok in E4 as (o4 & E4 & ->).
    apply ST_bind_Ok in E as ([] & s5 & E5 & E). apply on_owner_Ok in E5 as (o5 & E5 & ->).
    apply (leaves_Ok sh_owner) in E; [|apply owner_println]. exists o3, final, o4. by rewrite E.
  - apply output_slatepack_Ok in E as (address & message & tld & o3 & o4 & o5 & ? & ? & _ & ? & ? & ? & ?). naive_solver.
Qed.

(** What [proof_export] writes [proof_verify] reads, in any wallet whose disk holds the file. *)
Theorem proof_file_roundtrip `{!CmdJsonLaws} mask args s s' :
  proof_export fuel mask args s = (Ok tt, s') ->
  exists p o, api_retrieve_payment_proof fuel mask true (pe_id args) (pe_tx_slate_id args) (sh_owner s) = (Ok p, o)
    /\ forall mask2 file t t',
         disk_of t !! file = disk_of s' !! pe_output_file args ->
         proof_verify mask2 (mkProofVerifyArgs file) t = (Ok tt, t') ->
         exists o1 a b o2, api_verify_payment_proof mask2 p o1 = (Ok (a, b), o2)
           /\ opened o1 = opened (sh_owner t) /\ sh_owner t' = o2.
Proof.
  unfold proof_export. intros E. apply ST_bind_Ok in E as (p & s1 & E1 & E). apply on_owner_Ok in E1 as (o & E1 & ->).
  exists p, o. split; [done|]. apply on_files_Ok in E as (d & E & ->). apply write_file_Ok in E.
  intros mask2 file t t' Hf Ev. unfold disk_of in Hf at 2. cbn in Hf. rewrite E, lookup_insert_eq in Hf.
  unfold proof_verify in Ev. cbn [pv_input_file] in Ev.
  apply ST_bind_Ok in Ev as (u1 & t1 & V1 & Ev). pose proof (leaves_Ok _ _ _ _ _ (opened_files _) V1) as O1.
  assert (D1 : disk_of t1 = disk_of t).
  { apply on_files_Ok in V1 as (d1 & V1 & ->). unfold contextS in V1. destruct (io _) as [[]] eqn:Ei; try done.
    injection V1 as <- <-. unfold disk_of. cbn. by apply io_Ok in Ei as [-> _]. }
  apply ST_bind_Ok in Ev as (there & t2 & V2 & Ev). apply on_files_Ok in V2 as (d2 & V2 & ->). apply getS_Ok in V2 as [-> ->].
  rewrite (bool_decide_eq_true_2 (is_Some _)) in Ev by (unfold disk_of in D1, Hf; rewrite D1, Hf; by eexists).
  apply ST_bind_Ok in Ev as (u3 & t3 & V3 & Ev). apply mretS_Ok in V3 as [_ ->].
  apply ST_bind_Ok in Ev as (text & t4 & V4 & Ev). pose proof (leaves_Ok _ _ _ _ _ (opened_files _) V4) as O4.
  assert (text = proof_to_json_pretty p) as ->.
  { apply on_files_Ok in V4 as (d4 & V4 & _). unfold read_to_string in V4. apply ST_bind_Ok in V4 as (u5 & d5 & V5 & V4).
    apply io_Ok in V5 as [Ef _]. apply ST_bind_Ok in V4 as (c & d6 & V6 & V4). apply getS_Ok in V6 as [-> ->].
    apply liftS_Ok in V4 as [V4 _]. rewrite Ef in V4. unfold disk_of in D1, Hf. cbn in V4. rewrite D1, Hf in V4. cbn in V4.
    unfold from_utf8 in V4. rewrite proof_json_utf8 in V4. by injection V4. }
  rewrite proof_json in Ev. apply ST_bind_Ok in Ev as (p' & t5 & V5 & Ev). apply liftS_Ok in V5 as [V5 ->]. injection V5 as ->.
  apply ST_bind_Ok in Ev as ([a b] & t6 & V6 & Ev). apply on_owner_Ok in V6 as (o6 & V6 & ->).
  exists (sh_owner t4), a, b, o6. split_and!; [done|by rewrite O4|].
  apply (leaves_Ok sh_owner) in Ev; [done|]. unfold say_whose, whenS.
  repeat first [apply owner_println|apply leaves_ret|apply leaves_bind; [|intros ?]|case_match].
Qed.
End effects.
