(* ===== verification/WalletArgs.v ===== *)
(** * The command line of the wallet (src/cmd/wallet_args.rs)

    What a subcommand and its arguments ask for, with what the user types at a prompt, and the
    command that is run.  A line that is not typed any more is the end of the input.  The
    commands [init], [listen], [owner_api] and [web], whose work is in create_config and in the
    listeners, and those of the interactive mode are not among the arms. *)
From S2P Require Import Prelude.
From S2P Require Import RustStd.
From S2P Require Import Crates.
From S2P Require Import Effects.
From S2P Require Import Slate.
From S2P Require Import SlateV4.
From S2P Require Import SlateBin.
From S2P Require Import StateM.
From S2P Require Import Wallet.
From S2P Require Import Address.
From S2P Require Import Selection.
From S2P Require Import WalletTx.
From S2P Require Import Slatepack.
From S2P Require Import Armor.
From S2P Require Import Updater.
From S2P Require Import Scan.
From S2P Require Import Owner.
From S2P Require Import Packer.
From S2P Require Import Foreign.
From S2P Require Import Invariant.
From S2P Require Import Seed.
From S2P Require Import Lifecycle.
From S2P Require Import Json.
From S2P Require Import NodeHttp.
From S2P Require Import Sender.
From S2P Require Import Facade.
From S2P Require Import Sound.
From S2P Require Import Rpc.
From S2P Require Import WalletCmd.
#[local] Open Scope Z_scope.

(** clap's matches of a subcommand; a value of an argument is there only when the argument is. *)
Record Matches := mkMatches {
  value_of : string -> option string;
  is_present : string -> bool;
  value_present name v : value_of name = Some v -> is_present name = true }.
(** grin_core's amounts, and uuid's [parse]. *)
Class ArgCrates `{GC : GrinCrates, !BinCrates, !WalletCrates} := {
  amount_from_hr_string : string -> Res Z;
  uuid_parse : string -> Res Uuid;
}.

(** [Display for ParseError], and the error [arg_parse!] makes of it. *)
Definition argument_error {A} (msg : string) : Res A := Err ("Invalid Arguments: " +:+ msg).
Definition CANCELLED : string := "User Cancelled".
Definition arg_parse {A} (r : Res A) : Res A :=
  match r with Err e => Err ("ArgumentError(" +:+ e +:+ ")") | r => r end.

(** ** Values *)
Definition required_msg (name : string) : string := "Value for argument '" +:+ name +:+ "' is required in this context".
Definition parse_required (args : Matches) (name : string) : Res string :=
  match value_of args name with Some ar => Ok ar | None => argument_error (required_msg name) end.
Definition parse_optional (args : Matches) (name : string) : Res (option string) :=
  if negb (is_present args name) then Ok None else
  match value_of args name with Some ar => Ok (Some ar) | None => argument_error (required_msg name) end.
Definition parse_number (arg name : string) : Res Z :=
  match parse_u64 arg with
  | Err e => argument_error ("Could not parse " +:+ name +:+ " as a whole number. e=" +:+ e)
  | r => r
  end.
Definition parse_u64_or_none (arg : option string) : option Z :=
  match arg with
  | Some a => match parse_u64 a with Ok v => Some v | _ => None end
  | None => None
  end.
(** [Some(parse_u64(v)? as u32)] of a value that may be missing. *)
Definition parse_id (args : Matches) : Res (option Z) :=
  match value_of args "id" with
  | None => Ok None
  | Some tx => n ← parse_number tx "id"; Ok (Some (as_u32 n))
  end.
Definition as_u16 (x : Z) : Z := x mod 65536.

Section parsers.
Context `{BuildProfile, GC : GrinCrates, !BinCrates, !WalletCrates, !AddressCrates, !SlatepackCrates, !ArmorCrates, !ArgCrates}.
#[local] Abbreviation C_ := (ST Shell).
Implicit Types (args : Matches).

Definition parse_txid args : Res (option Uuid) :=
  match value_of args "txid" with
  | None => Ok None
  | Some tx =>
      match uuid_parse tx with
      | Ok t => Ok (Some t)
      | Err e => argument_error ("Could not parse txid parameter. e=" +:+ e)
      | Panic e => Panic e
      end
  end.
Definition parse_amount (amount : string) : Res Z :=
  match amount_from_hr_string amount with
  | Err e => argument_error ("Could not parse amount as a number with optional decimal point. e=" +:+ e)
  | r => r
  end.
Definition parse_slate_version args : Res (option Z) :=
  if is_present args "slate_version" then
    v ← parse_required args "slate_version"; n ← parse_number v "slate_version"; Ok (Some (as_u16 n))
  else Ok None.

(** ** Prompts *)
(** [interface.read_line()] *)
Definition interface_read_line : C_ ReadResult := fun s =>
  match sh_in s with
  | [] => (Ok Eof, s)
  | r :: l => (Ok r, set_sh_in l s)
  end.
(** A loop that reads a line in each turn: the end of the input gives [eof]; an interrupt
    cancels; a line is taken, or refused with an error, or answered with some lines and another turn. *)
Inductive Turn (A : Type) := Take (a : A) | Refuse (e : string) | Crash (e : string) | Again (answer : list string).
#[local] Arguments Take {A}. #[local] Arguments Refuse {A}. #[local] Arguments Crash {A}. #[local] Arguments Again {A}.
Definition say (lines : list string) : C_ unit := foreachS println lines.
Fixpoint read_loop {A} (n : nat) (greeting : list string) (eof : A) (turn : string -> Turn A) : C_ A :=
  _ ← say greeting;
  res ← interface_read_line;
  match n with
  | O => mret eof
  | S n' =>
      match res with
      | Eof => mret eof
      | Interrupt => errS CANCELLED
      | OtherSignal => read_loop n' greeting eof turn
      | Input line =>
          match turn line with
          | Take a => mret a
          | Refuse e => errS e
          | Crash e => liftS (Panic e)
          | Again answer => _ ← say answer; read_loop n' greeting eof turn
          end
      end
  end.
(** Each turn takes one of the lines. *)
Definition read_until {A} (greeting : list string) (eof : A) (turn : string -> Turn A) : C_ A :=
  n ← getS (fun s => length (sh_in s)); read_loop n greeting eof turn.

Definition slatepack_turn (line : string) : Turn string :=
  match SlatepackArmor_decode line with
  | Ok _ => Take line
  | Panic e => Crash e
  | Err _ => Again [""; "Input is not a valid slatepack."; ""]
  end.
Definition prompt_slatepack : C_ string := read_until ["Please paste your encoded slatepack message:"] "" slatepack_turn.

Definition pay_turn (amount line : string) : Turn bool :=
  let result := trim line in
  if bool_decide (result = "Q") || bool_decide (result = "q") then Refuse CANCELLED
  else if bool_decide (result = amount) then Take true
  else Again ["Please enter exact amount of the invoice as shown above or Q to quit"; ""].
Definition prompt_pay_invoice (slate : Slate) (dest : string) : C_ bool :=
  let amount := amount_to_hr_string (sl_amount slate) false in
  _ ← say [""; "This command will pay the amount specified in the invoice using your wallet's funds.";
           "After you confirm, the following will occur: "; "";
           "* " +:+ amount +:+ " of your wallet funds will be added to the transaction to pay this invoice."];
  _ ← say (if (0 <? String.length dest)%nat then
             ["* The wallet will IMMEDIATELY attempt to send the resulting transaction to the wallet listening at: '" +:+ dest +:+ "'.";
              "* If other wallet is not listening, the resulting transaction will output as a slatepack which you can manually send back to the invoice creator."]
           else ["* The resulting transaction will output as a slatepack which you can manually send back to the invoice creator."]);
  _ ← say [""; "Please review the above information carefully before proceeding"; ""];
  read_until [] false (pay_turn amount).

(** ** The arguments of the subcommands *)
(** The file that was named, which must be there; else a message is asked for. *)
Definition is_file (file : string) : C_ bool := on_files (getS (fun d => bool_decide (is_Some (dk_files d !! file)))).
Definition input_file (not_found : string -> string) args : C_ (option string) :=
  if is_present args "input" then
    file ← liftS (unwrap_opt (value_of args "input"));
    there ← is_file file;
    if there : bool then mret (Some file) else errS (not_found ("File " +:+ file +:+ " not found."))
  else mret None.
Definition invalid_arguments (msg : string) : string := "Invalid Arguments: " +:+ msg.
Definition input args : C_ (option string * option string) :=
  file ← input_file invalid_arguments args;
  match file with
  | Some f => mret (Some f, None)
  | None => message ← prompt_slatepack; mret (None, Some message)
  end.
Definition parse_account_args args : Res AccountArgs := Ok (mkAccountArgs (value_of args "create")).
Definition parse_send_args args : C_ SendArgs :=
  amount ← liftS (parse_required args "amount");
  amount ← liftS (parse_amount amount);
  min_c ← liftS (parse_required args "minimum_confirmations");
  min_c ← liftS (parse_number min_c "minimum_confirmations");
  selection_strategy ← liftS (parse_required args "selection_strategy");
  let estimate := is_present args "estimate_selection_strategies" in
  let dest := default "default" (value_of args "dest") in
  change_outputs ← liftS (parse_required args "change_outputs");
  change_outputs ← liftS (parse_number change_outputs "change_outputs");
  target_slate_version ← liftS (parse_slate_version args);
  payment_proof_address ←
    (if is_present args "no_payment_proof" then mret None else
     address ← liftS (address_of dest);
     _ ← whenS (negb (is_some address) && negb estimate)
       (println "No recipient Slatepack address or provided address invalid. No payment proof will be requested.");
     mret address);
  outfile ← liftS (parse_optional args "outfile");
  mret {| sa_amount := amount; sa_minimum_confirmations := min_c; sa_selection_strategy := selection_strategy;
          sa_estimate_selection_strategies := estimate; sa_late_lock := is_present args "late_lock"; sa_dest := dest;
          sa_change_outputs := change_outputs; sa_fluff := is_present args "fluff"; sa_max_outputs := 500;
          sa_target_slate_version := target_slate_version; sa_payment_proof_address := payment_proof_address;
          sa_ttl_blocks := parse_u64_or_none (value_of args "ttl_blocks"); sa_skip_tor := is_present args "manual";
          sa_outfile := outfile |}.
Definition parse_receive_args args : C_ ReceiveArgs :=
  '(file, message) ← input args;
  outfile ← liftS (parse_optional args "outfile");
  mret (mkReceiveArgs file message (is_present args "manual") outfile).
Definition parse_unpack_args args : C_ ReceiveArgs :=
  '(file, message) ← input args;
  outfile ← liftS (parse_optional args "outfile");
  mret (mkReceiveArgs file message (is_present args "manual") outfile).
Definition parse_finalize_args args : C_ FinalizeArgs :=
  '(file, message) ← input args;
  outfile ← liftS (parse_optional args "outfile");
  mret (mkFinalizeArgs file message (is_present args "fluff") (is_present args "nopost") outfile).
Definition parse_issue_invoice_args args : Res IssueInvoiceArgs :=
  amount ← parse_required args "amount";
  amount ← parse_amount amount;
  target_slate_version ← parse_slate_version args;
  let dest := default "default" (value_of args "dest") in
  outfile ← parse_optional args "outfile";
  Ok (mkIssueInvoiceArgs dest (mkIssueInvoiceTxArgs None amount target_slate_version) outfile).
Definition parse_process_invoice_args args (prompt : bool) (slate : Slate) (ret_address : option SlatepackAddress) :
    C_ ProcessInvoiceArgs :=
  min_c ← liftS (parse_required args "minimum_confirmations");
  min_c ← liftS (parse_number min_c "minimum_confirmations");
  selection_strategy ← liftS (parse_required args "selection_strategy");
  _ ← (if prompt then
         dest ← liftS (reply_to ret_address);
         _ ← prompt_pay_invoice slate dest;
         mret tt
       else mret tt);
  outfile ← liftS (parse_optional args "outfile");
  mret {| pi_minimum_confirmations := min_c; pi_selection_strategy := selection_strategy; pi_ret_address := ret_address;
          pi_max_outputs := 500; pi_slate := slate;
          pi_estimate_selection_strategies := is_present args "estimate_selection_strategies";
          pi_ttl_blocks := parse_u64_or_none (value_of args "ttl_blocks"); pi_skip_tor := is_present args "manual";
          pi_outfile := outfile |}.
Definition parse_info_args args : Res InfoArgs :=
  mc ← parse_required args "minimum_confirmations"; mc ← parse_number mc "minimum_confirmations"; Ok (mkInfoArgs mc).
Definition parse_check_args args : Res CheckArgs :=
  let start_height := parse_u64_or_none (value_of args "start_height") in
  let backwards_from_tip := parse_u64_or_none (value_of args "backwards_from_tip") in
  if is_some backwards_from_tip && is_some start_height
  then argument_error "backwards_from tip and start_height cannot both be present"
  else Ok (mkCheckArgs (is_present args "delete_unconfirmed") start_height backwards_from_tip).
Definition parse_txs_args args : Res TxsArgs :=
  tx_id ← parse_id args;
  tx_slate_id ← parse_txid args;
  if is_some tx_id && is_some tx_slate_id
  then argument_error "At most one of 'id' (-i) or 'txid' (-t) may be provided."
  else Ok (mkTxsArgs tx_id tx_slate_id).
Definition parse_post_args args : C_ PostArgs :=
  '(file, message) ← input args; mret (mkPostArgs file message (is_present args "fluff")).
Definition parse_repost_args args : Res RepostArgs :=
  tx_id ← parse_id args;
  id ← unwrap_opt tx_id;
  Ok (mkRepostArgs id (value_of args "dumpfile") (is_present args "fluff")).
Definition parse_cancel_args args : Res CancelArgs :=
  tx_id ← parse_id args;
  tx_slate_id ← parse_txid args;
  if bool_decide (is_some tx_id = is_some tx_slate_id)
  then argument_error "'id' (-i) or 'txid' (-t) argument is required."
  else Ok (mkCancelArgs tx_id tx_slate_id (match tx_slate_id with Some _ => default "" (value_of args "txid") | None => "" end)).
Definition parse_export_proof_args args : Res ProofExportArgs :=
  output_file ← parse_required args "output";
  tx_id ← parse_id args;
  tx_slate_id ← parse_txid args;
  if is_some tx_id && is_some tx_slate_id then argument_error "At most one of 'id' (-i) or 'txid' (-t) may be provided."
  else if negb (is_some tx_id) && negb (is_some tx_slate_id) then argument_error "Either 'id' (-i) or 'txid' (-t) must be provided."
  else Ok (mkProofExportArgs output_file tx_id tx_slate_id).
Definition parse_verify_proof_args args : Res ProofVerifyArgs := i ← parse_required args "input"; Ok (mkProofVerifyArgs i).

(** ** The commands *)
Context `{!SlatepackJson, !HexCrate, !NodeClient, !DalekCrates, !ScanCrates, !OwnerCrates, !DiskFaults, SC : !SeedCrates, !SeedKeychain,
  !SlateJson, !JsonCrate, !RpcJson, !UriCrate, !SenderCrates, !NodeVersions, !CmdJson}.
Context (fuel : nat).

(** [rpassword]: a line is typed, or the program panics. *)
Definition prompt_password (password : option string) : C_ string :=
  match password with
  | Some p => mret p
  | None => r ← interface_read_line; match r with Input p => mret p | _ => liftS (Panic "called `Result::unwrap()` on an `Err` value") end
  end.
Definition get_slate_input (mask : option SecretKey) args : C_ (Slate * option SlatepackAddress) :=
  let generic e := "GenericError(" +:+ e +:+ ")" in
  file ← input_file generic args;
  message ← match file with
            | Some _ => mret None
            | None => r ← attemptS prompt_slatepack; match r with inl m => mret (Some m) | inr e => errS (generic e) end
            end;
  parse_slatepack mask file message.
Definition parsed {A} (r : Res A) : C_ A := liftS (arg_parse r).
Definition parsedS {A} (m : C_ A) : C_ A := fun s => let '(r, s') := m s in (arg_parse r, s').

(** The arms of the subcommands whose commands are modelled, run outside of tests. *)
Definition arms (mask : option SecretKey) (tor_config : TorConfig) (g_args : GlobalArgs) (args : Matches) : list (string * C_ unit) :=
  [("recover", p ← prompt_password (ga_password g_args); recover p);
   ("account", a ← parsed (parse_account_args args); account mask a);
   ("send", a ← parsedS (parse_send_args args); send mask (Some tor_config) a false);
   ("receive", a ← parsedS (parse_receive_args args); receive mask g_args a (Some tor_config) false);
   ("unpack", a ← parsedS (parse_unpack_args args); unpack mask a);
   ("finalize", a ← parsedS (parse_finalize_args args); command_finalize mask a);
   ("invoice", a ← parsed (parse_issue_invoice_args args); command_issue_invoice mask a);
   ("pay", '(slate, address) ← get_slate_input mask args;
      a ← parsedS (parse_process_invoice_args args true slate address);
      process_invoice mask (Some tor_config) a false);
   ("info", a ← parsed (parse_info_args args); info fuel mask g_args a);
   ("outputs", outputs fuel mask g_args);
   ("txs", a ← parsed (parse_txs_args args); txs fuel mask g_args a);
   ("post", a ← parsedS (parse_post_args args); post mask a);
   ("repost", a ← parsed (parse_repost_args args); repost fuel mask a);
   ("cancel", a ← parsed (parse_cancel_args args); cancel fuel mask a);
   ("export_proof", a ← parsed (parse_export_proof_args args); proof_export fuel mask a);
   ("verify_proof", a ← parsed (parse_verify_proof_args args); proof_verify mask a);
   ("address", address mask g_args);
   ("scan", a ← parsed (parse_check_args args); scan_command fuel mask a);
   ("open", mret tt); ("close", mret tt)].
(** [None]: a subcommand that is not modelled. *)
Definition parse_and_execute (mask : option SecretKey) (tor_config : TorConfig) (g_args : GlobalArgs)
    (subcommand : string * option Matches) : option (C_ unit) :=
  let unknown := errS "ArgumentError(Unknown wallet command, use 'grin-wallet help' for details)" in
  match subcommand with
  | (_, None) => Some unknown
  | (name, Some args) =>
      if bool_decide (name ∈ ["init"; "listen"; "owner_api"; "web"]) then None
      else match find (fun arm => bool_decide (arm.1 = name)) (arms mask tor_config g_args args) with
           | Some arm => Some arm.2
           | None => Some unknown
           end
  end.
(** One command: it may end with an error or a panic. *)
Definition execute mask tor_config g_args (s : Shell) (sub : string * option Matches) : Shell :=
  match parse_and_execute mask tor_config g_args sub with Some m => (m s).2 | None => s end.
End parsers.

(** ** Lemmas: prompts *)
Section prompts.
Context `{BuildProfile, GC : GrinCrates, !BinCrates, !WalletCrates, !AddressCrates, !SlatepackCrates, !ArmorCrates, !ArgCrates}.
Implicit Types (s : Shell) (args : Matches).

(** The answers that bring the prompt back. *)
Definition unanswered {A} (turn : string -> Turn A) (r : ReadResult) : Prop :=
  match r with
  | OtherSignal => True
  | Input l => exists answer, turn l = Again _ answer
  | _ => False
  end.
(** How a prompt ends: with a line that was taken, or with the end of the input. *)
Definition answered_with {A} (eof : A) (turn : string -> Turn A) (a : A) (rest left : list ReadResult) : Prop :=
  (exists l, rest = Input l :: left /\ turn l = Take _ a) \/ a = eof /\ (rest = Eof :: left \/ rest = [] /\ left = []).

Lemma say_run lines s : exists out, say lines s = (Ok tt, set_sh_out out s).
Proof.
  unfold say. revert s. induction lines as [|l lines IH]; intros s; cbn [foreachS].
  - exists (sh_out s). by destruct s.
  - erewrite ST_bind_run by reflexivity. destruct (IH (set_sh_out (sh_out s ++ [ShLine l]) s)) as [out E]. exists out.
    by rewrite E.
Qed.
Lemma read_loop_ends {A} n greeting (eof : A) turn s a s' :
  n = length (sh_in s) -> read_loop n greeting eof turn s = (Ok a, s') ->
  sh_owner s' = sh_owner s /\
  exists skipped rest, sh_in s = skipped ++ rest /\ Forall (unanswered turn) skipped /\ answered_with eof turn a rest (sh_in s').
Proof.
  revert s. induction n as [|n IH]; intros s Hn E; cbn [read_loop] in E;
    destruct (say_run greeting s) as [out Eo]; rewrite (ST_bind_run _ _ _ _ _ Eo) in E; unfold interface_read_line in E.
  - destruct (sh_in s) as [|r l] eqn:El; [|done]. unfold mbind, ST_bind in E. cbn in E. rewrite El in E.
    apply mretS_Ok in E as [<- ->]. cbn. rewrite El. split; [done|]. exists [], []. split_and!; [done..|]. right. by split; [|right].
  - destruct (sh_in s) as [|r l] eqn:El; [done|]. injection Hn as Hn. unfold mbind at 1, ST_bind at 1 in E. cbn [sh_in set_sh_out] in E.
    rewrite El in E. cbn [set_sh_in sh_owner sh_in sh_out] in E.
    destruct r as [| | |line].
    + apply mretS_Ok in E as [<- ->]. cbn. split; [done|]. exists [], (Eof :: l). split_and!; [done..|]. right. by split; [|left].
    + done.
    + apply IH in E as (Ho & skipped & rest & Hs & Hf & Ha); [|done]. split; [done|]. exists (OtherSignal :: skipped), rest.
      cbn in *. subst. split_and!; [done|by constructor|done].
    + destruct (turn line) as [a'|e|e|answer] eqn:Et; [| done..|].
      * apply mretS_Ok in E as [<- ->]. cbn. split; [done|]. exists [], (Input line :: l). split_and!; [done..|]. left. by exists line.
      * match type of E with (_ ≫= _) ?x = _ => destruct (say_run answer x) as [out2 E2] end.
        rewrite (ST_bind_run _ _ _ _ _ E2) in E. apply IH in E as (Ho & skipped & rest & Hs & Hf & Ha); [|done].
        split; [done|]. exists (Input line :: skipped), rest. cbn in *. subst. split_and!; [done|constructor; [by exists answer|done]|done].
Qed.

Lemma pay_turn_Again amount line answer :
  pay_turn amount line = Again _ answer -> trim line <> amount /\ trim line <> "Q" /\ trim line <> "q".
Proof.
  unfold pay_turn. repeat case_bool_decide; done.
Qed.
Lemma pay_turn_Take amount line b : pay_turn amount line = Take _ b -> trim line = amount /\ b = true.
Proof. unfold pay_turn. repeat case_bool_decide; naive_solver. Qed.
Lemma prompt_pay_run slate dest s :
  exists out, forall r s', prompt_pay_invoice slate dest s = (r, s') ->
    read_until [] false (pay_turn (amount_to_hr_string (sl_amount slate) false)) (set_sh_out out s) = (r, s').
Proof.
  unfold prompt_pay_invoice. match goal with |- context [say ?l ≫= _] => destruct (say_run l s) as [o1 E1] end.
  rewrite (ST_bind_run _ _ _ _ _ E1).
  match goal with |- context [(say ?l ≫= _) ?x] => destruct (say_run l x) as [o2 E2] end. rewrite (ST_bind_run _ _ _ _ _ E2).
  match goal with |- context [(say ?l ≫= _) ?x] => destruct (say_run l x) as [o3 E3] end. rewrite (ST_bind_run _ _ _ _ _ E3).
  exists o3. intros r s' E. exact E.
Qed.

(** C35: An invoice is paid on demand.  The arguments of a payment of an invoice are complete, and the
    payment goes on, only when the user, after lines that are neither the amount nor [Q] nor [q],
    typed the amount of the invoice as it was shown, or when the input ended; an interrupt and [Q] end it with an
    error.  Nothing was done to the wallet before, and what is paid is the invoice that was shown. *)
Theorem invoice_paid_on_demand args slate ret_address s a s' :
  parse_process_invoice_args args true slate ret_address s = (Ok a, s') ->
  sh_owner s' = sh_owner s /\ pi_slate a = slate /\ pi_ret_address a = ret_address
  /\ exists refused rest,
       sh_in s = refused ++ rest
       /\ Forall (unanswered (pay_turn (amount_to_hr_string (sl_amount slate) false))) refused
       /\ (forall line, Input line ∈ refused ->
             trim line <> amount_to_hr_string (sl_amount slate) false /\ trim line <> "Q" /\ trim line <> "q")
       /\ ((exists line, rest = Input line :: sh_in s' /\ trim line = amount_to_hr_string (sl_amount slate) false)
           \/ rest = [] \/ rest = Eof :: sh_in s').
Proof.
  unfold parse_process_invoice_args. intros E. st_inv.
  match goal with H : prompt_pay_invoice _ _ _ = _ |- _ => rename H into Ep end.
  match type of Ep with prompt_pay_invoice _ ?d ?x = _ => destruct (prompt_pay_run slate d x) as [out Er] end.
  apply Er in Ep. unfold read_until in Ep. erewrite ST_bind_run in Ep by reflexivity.
  apply read_loop_ends in Ep as (Ho & refused & rest & Hs & Hf & Ha); [|done].
  split_and!; [done..|]. exists refused, rest. split_and!; [done..| |].
  - intros line Hl. rewrite Forall_forall in Hf. destruct (Hf _ Hl) as [answer Ht]. by eapply pay_turn_Again.
  - destruct Ha as [(line & -> & Ht)|[_ [->|[-> _]]]]; [left|by do 2 right|by right; left].
    exists line. split; [done|]. by apply pay_turn_Take in Ht as [Ht _].
Qed.
(** The end of the input confirms the payment. *)
Lemma end_of_input_pays args slate ret_address dest s :
  sh_in s = [] -> reply_to ret_address = Ok dest ->
  (parse_process_invoice_args args true slate ret_address s).1 = (parse_process_invoice_args args false slate ret_address s).1.
Proof.
  intros Hi Hd. unfold parse_process_invoice_args.
  assert (Hp : exists out, prompt_pay_invoice slate dest s = (Ok false, set_sh_out out s)).
  { destruct (prompt_pay_run slate dest s) as [out Hr]. exists out.
    destruct (prompt_pay_invoice slate dest s) as [r s'] eqn:E. specialize (Hr _ _ eq_refl). revert Hr.
    unfold read_until. erewrite ST_bind_run by reflexivity. cbn [sh_in set_sh_out]. rewrite Hi. cbn [length read_loop].
    unfold say. cbn [foreachS]. erewrite (ST_bind_run (mret tt)) by reflexivity. unfold interface_read_line, mbind, ST_bind.
    cbn [sh_in set_sh_out]. rewrite Hi. by intros [= <- <-]. }
  destruct Hp as [out Hp].
  destruct (parse_required args "minimum_confirmations") as [m|e|e]; [|done..]. do 2 (erewrite (ST_bind_run (liftS (Ok m))) by reflexivity).
  destruct (parse_number m _) as [n|e|e]; [|done..]. do 2 (erewrite (ST_bind_run (liftS (Ok n))) by reflexivity).
  destruct (parse_required args "selection_strategy") as [t|e|e]; [|done..]. do 2 (erewrite (ST_bind_run (liftS (Ok t))) by reflexivity).
  rewrite Hd. erewrite (ST_bind_run (liftS (Ok dest) ≫= _)).
  2: { erewrite ST_bind_run by reflexivity. rewrite (ST_bind_run _ _ _ _ _ Hp). reflexivity. }
  erewrite (ST_bind_run (mret tt)) by reflexivity.
  by destruct (parse_optional args "outfile").
Qed.
End prompts.

(** ** Commands keep the wallets well-formed *)
Section soundness.
Context `{BuildProfile, GC : GrinCrates, !BinCrates, !WalletCrates, !AddressCrates, !SlatepackCrates, !ArmorCrates, !ArgCrates,
  !SlatepackJson, !HexCrate, !NodeClient, !DalekCrates, !ScanCrates, !OwnerCrates, !DiskFaults, SC : !SeedCrates, !SeedKeychain,
  !SlateJson, !JsonCrate, !RpcJson, !UriCrate, !SenderCrates, !NodeVersions, !CmdJson}.
Context (fuel : nat).

Lemma sound_say l : invar shell_sound (say l).
Proof. apply invar_foreach. intros x. apply sound_println. Qed.
Lemma sound_read_line : invar shell_sound interface_read_line.
Proof. intros s Hs. unfold interface_read_line. by destruct (sh_in s). Qed.
Lemma sound_read_loop {A} n g (e : A) t : invar shell_sound (read_loop n g e t).
Proof.
  induction n as [|n IH]; cbn [read_loop]; repeat first [exact IH|apply sound_say|apply sound_read_line|keep_step].
Qed.
Lemma sound_read_until {A} g (e : A) t : invar shell_sound (read_until g e t).
Proof. apply invar_bind; [apply invar_get|intros n; apply sound_read_loop]. Qed.
Lemma sound_parsedS {A} (m : ST Shell A) : invar shell_sound m -> invar shell_sound (parsedS m).
Proof. intros Hm s Hs. specialize (Hm s Hs). unfold parsedS. by destruct (m s). Qed.
Lemma sound_is_file f : invar shell_sound (is_file f).
Proof. apply sound_files. Qed.
#[local] Hint Resolve sound_say sound_read_line sound_read_until sound_is_file sound_println : sound.
Lemma sound_input_file f args : invar shell_sound (input_file f args).
Proof. unfold input_file. sounds. Qed.
Lemma sound_prompt_slatepack : invar shell_sound prompt_slatepack.
Proof. apply sound_read_until. Qed.
#[local] Hint Resolve sound_input_file sound_prompt_slatepack : sound.
Lemma sound_input args : invar shell_sound (input args).
Proof. unfold input. sounds. Qed.
#[local] Hint Resolve sound_input : sound.
Lemma sound_get_slate_input m args : invar shell_sound (get_slate_input m args).
Proof. unfold get_slate_input. sounds. apply sound_parse_slatepack. Qed.
Lemma sound_password p : invar shell_sound (prompt_password p).
Proof. unfold prompt_password. sounds. Qed.
#[local] Hint Resolve sound_get_slate_input sound_password : sound.
Lemma sound_parse_send args : invar shell_sound (parse_send_args args).
Proof. unfold parse_send_args. sounds. Qed.
Lemma sound_parse_receive args : invar shell_sound (parse_receive_args args).
Proof. unfold parse_receive_args. sounds. Qed.
Lemma sound_parse_unpack args : invar shell_sound (parse_unpack_args args).
Proof. unfold parse_unpack_args. sounds. Qed.
Lemma sound_parse_finalize args : invar shell_sound (parse_finalize_args args).
Proof. unfold parse_finalize_args. sounds. Qed.
Lemma sound_parse_post args : invar shell_sound (parse_post_args args).
Proof. unfold parse_post_args. sounds. Qed.
Lemma sound_parse_pay args b s a : invar shell_sound (parse_process_invoice_args args b s a).
Proof. unfold parse_process_invoice_args, prompt_pay_invoice. sounds. Qed.
#[local] Hint Resolve sound_parse_send sound_parse_receive sound_parse_unpack sound_parse_finalize sound_parse_post
  sound_parse_pay : sound.

#[local] Ltac arm :=
  unfold parsed;
  repeat match goal with
  | |- invar _ (mret _) => apply invar_ret
  | |- invar _ (liftS _) => apply invar_lift
  | |- invar _ (mbind _ _) => apply invar_bind; [|intros ?]
  | |- invar _ (match ?x with _ => _ end) => destruct x
  | |- invar _ (parsedS _) => apply sound_parsedS; auto with sound nocore
  | |- invar _ (prompt_password _) => apply sound_password
  | |- invar _ (get_slate_input _ _) => apply sound_get_slate_input
  | |- invar _ (recover _) => apply sound_recover
  | |- invar _ (account _ _) => apply sound_account
  | |- invar _ (send _ _ _ _) => apply sound_send
  | |- invar _ (receive _ _ _ _ _) => apply sound_receive_command
  | |- invar _ (unpack _ _) => apply sound_unpack
  | |- invar _ (command_finalize _ _) => apply sound_finalize
  | |- invar _ (command_issue_invoice _ _) => apply sound_issue
  | |- invar _ (process_invoice _ _ _ _) => apply sound_pay
  | |- invar _ (info _ _ _ _) => apply sound_info
  | |- invar _ (outputs _ _ _) => apply sound_outputs
  | |- invar _ (txs _ _ _ _) => apply sound_txs
  | |- invar _ (post _ _) => apply sound_post
  | |- invar _ (repost _ _ _) => apply sound_repost
  | |- invar _ (cancel _ _ _) => apply sound_cancel
  | |- invar _ (scan_command _ _ _) => apply sound_scan_command
  | |- invar _ (address _ _) => apply sound_address
  | |- invar _ (proof_export _ _ _) => apply sound_proof_export
  | |- invar _ (proof_verify _ _) => apply sound_proof_verify
  end.
Lemma sound_arms mask tor g args : Forall (fun arm => invar shell_sound arm.2) (arms fuel mask tor g args).
Proof. unfold arms. repeat apply Forall_cons_2; [..|apply Forall_nil_2]; cbn [snd]; arm. Qed.
Lemma sound_execute mask tor g s sub : shell_sound s -> shell_sound (execute fuel mask tor g s sub).
Proof.
  intros Hs. unfold execute. destruct (parse_and_execute fuel mask tor g sub) as [m|] eqn:E; [|done].
  assert (Hm : invar shell_sound m); [|by apply Hm]. clear s Hs.
  destruct sub as [name [args|]]; cbn [parse_and_execute] in E; [|injection E as <-; apply invar_lift].
  case_bool_decide; [done|]. destruct (find _ _) as [arm|] eqn:Ef; injection E as <-; [|apply invar_lift].
  apply find_some in Ef as [Hin _]. pose proof (sound_arms mask tor g args) as Ha. rewrite Forall_forall in Ha.
  by apply Ha, list_elem_of_In.
Qed.

(** The data of every wallet stays well-formed under the commands of its owner, however each of them ends. *)
Theorem commands_keep_wallets mask tor g s subs :
  shell_sound s -> shell_sound (foldl (execute fuel mask tor g) s subs).
Proof. revert s. induction subs as [|sub subs IH]; intros s Hs; cbn [foldl]; [done|]. by apply IH, sound_execute. Qed.
End soundness.
