(* ===== verification/GrinRoutines.v ===== *)
(** * src/grin/grin_routines.rs and grin_types.rs: Grin keys, encodings and the
      two-party range proof

    [MPBPContext] is the state of the two-party bulletproof; the handles [rng] and
    [secp] it carries hold no data and are left out.  Its JSON text is a parameter
    ([SerMPCtxJson]), the strings inside are the code's. *)
From S2P Require Import Prelude.
From S2P Require Import RustStd.
From S2P Require Import Crates.
From S2P Require Import SwapTypes.
From S2P Require Import Effects.
From S2P Require Import Slate.

Section code.
Context `{BuildProfile, GrinCrates, HexCrate}.

(** ** Keys and encodings *)
Definition create_secret_key : M SecretKey := seed ← draw; mret (sk_new seed).

(** [SecretKey::from_slice(&sig.to_raw_data()[32..])] *)
Definition sig_extract_s (sig : Signature) : Res SecretKey := unwrap_opt (sig_scalar sig).

Definition serialize_secret_key (key : SecretKey) : string := hex_encode (sk_bytes key).

Definition zero_key_hex : string :=
  "0000000000000000000000000000000000000000000000000000000000000000".
Definition deserialize_secret_key (key : string) : Res SecretKey :=
  if bool_decide (key = zero_key_hex) then Ok ZERO_KEY
  else
    bytes ← expect_opt "Failed to deserialize a secret key from hex string" (hex_decode key);
    expect_opt "Failed to deserialize a secret key from hex string" (sk_from_slice bytes).

Definition create_minimal_ctx (sec_key sec_nonce : SecretKey) (amount : Z) (fee : FeeFields) : Context_ :=
  {| ctx_parent_key_id := identifier_zero;
     ctx_sec_key := sec_key;
     ctx_sec_nonce := sec_nonce;
     ctx_initial_sec_key := sec_key;
     ctx_initial_sec_nonce := sec_nonce;
     ctx_output_ids := [];
     ctx_input_ids := [];
     ctx_amount := amount;
     ctx_fee := Some fee;
     ctx_payment_proof_derivation_index := None;
     ctx_late_lock_args := None;
     ctx_calculated_excess := None |}.

Definition serialize_commitment (com : Commitment) : string := hex_encode (commit_bytes com).
Definition deserialize_commitment (com : string) : Res Commitment :=
  bytes ← expect_opt "Failed to deserialize pedersen commitment" (hex_decode com);
  Ok (commit_from_vec bytes).

Definition serialize_grin_public_key (pk : PublicKey) : string :=
  hex_encode (pk_serialize_compressed pk).
Definition deserialize_grin_pub_key (s : string) : Res PublicKey :=
  pk_bytes ← unwrap_opt (hex_decode s);
  unwrap_opt (pk_from_slice pk_bytes).

Definition grin_to_nanogrin (value : Z) : Res Z := u64_mul value NANO_GRIN.

(** [MWCoin::new] (grin_types.rs) *)
Definition MWCoin_new (commitment : Commitment) (blinding_factor : SecretKey) (value : Z) : MWCoin :=
  {| coin_commitment := serialize_commitment commitment;
     coin_blinding_factor := serialize_secret_key blinding_factor;
     coin_value := value |}.

(** ** The multi-party bulletproof *)
Record MPBPContext := mkMPBPContext {
  mp_t_1 : PublicKey;
  mp_t_2 : PublicKey;
  mp_amount : Z;
  mp_shared_nonce : SecretKey;
  mp_tau_x : SecretKey;
  mp_commit : Commitment }.

Definition set_mp_t_1 (p : PublicKey) (c : MPBPContext) : MPBPContext :=
  mkMPBPContext p (mp_t_2 c) (mp_amount c) (mp_shared_nonce c) (mp_tau_x c) (mp_commit c).
Definition set_mp_t_2 (p : PublicKey) (c : MPBPContext) : MPBPContext :=
  mkMPBPContext (mp_t_1 c) p (mp_amount c) (mp_shared_nonce c) (mp_tau_x c) (mp_commit c).
Definition set_mp_tau_x (k : SecretKey) (c : MPBPContext) : MPBPContext :=
  mkMPBPContext (mp_t_1 c) (mp_t_2 c) (mp_amount c) (mp_shared_nonce c) k (mp_commit c).
Definition set_mp_commit (x : Commitment) (c : MPBPContext) : MPBPContext :=
  mkMPBPContext (mp_t_1 c) (mp_t_2 c) (mp_amount c) (mp_shared_nonce c) (mp_tau_x c) x.

(** [struct SerMPCtx] *)
Record SerMPCtx := mkSerMPCtx {
  ser_t_1 : string; ser_t_2 : string; ser_amount : Z; ser_shared_nonce : string;
  ser_commit : string; ser_tau_x : string }.

Definition MPBPContext_new (shared_nonce : SecretKey) (amount : Z) (com : Commitment) : MPBPContext :=
  {| mp_t_1 := pk_new; mp_t_2 := pk_new; mp_amount := amount; mp_shared_nonce := shared_nonce;
     mp_tau_x := ZERO_KEY; mp_commit := com |}.

Definition add_commit (self : MPBPContext) (c2 : Commitment) : Res MPBPContext :=
  c ← unwrap_opt (secp_commit_sum [mp_commit self; c2] []);
  Ok (set_mp_commit c self).

Definition add_t_1 (self : MPBPContext) (t_1 : PublicKey) : Res MPBPContext :=
  if negb (pk_is_valid (mp_t_1 self)) then Ok (set_mp_t_1 t_1 self)
  else p ← unwrap (pk_from_combination [mp_t_1 self; t_1]); Ok (set_mp_t_1 p self).

Definition add_t_2 (self : MPBPContext) (t_2 : PublicKey) : Res MPBPContext :=
  if negb (pk_is_valid (mp_t_2 self)) then Ok (set_mp_t_2 t_2 self)
  else p ← unwrap (pk_from_combination [mp_t_2 self; t_2]); Ok (set_mp_t_2 p self).

Definition add_tau_x (self : MPBPContext) (tau_x : SecretKey) : Res MPBPContext :=
  k ← unwrap_opt (sk_add_assign (mp_tau_x self) tau_x);
  Ok (set_mp_tau_x k self).

(** What a [&mut] argument holds after the call: an output parameter that was not
    written keeps the value that was passed. *)
Definition out_or {A} (passed : A) (o : option A) : A := match o with Some a => a | None => passed end.

Definition mp_bullet_proof_r1 (ctx : MPBPContext) (blind sec_nonce : SecretKey) : M MPBPContext :=
  k ← create_secret_key;
  c ← liftM (unwrap_opt (secp_commit 0 k));
  let out := bullet_proof_multisig (mp_amount ctx) blind (mp_shared_nonce ctx) None
               (Some pk_new) (Some pk_new) [c] (Some sec_nonce) 1 in
  ctx ← liftM (add_t_1 ctx (out_or pk_new (mo_t_1 out)));
  liftM (add_t_2 ctx (out_or pk_new (mo_t_2 out))).

Definition mp_bullet_proof_r2 (ctx : MPBPContext) (blind sec_nonce : SecretKey) : M MPBPContext :=
  tau_x ← create_secret_key;
  let out := bullet_proof_multisig (mp_amount ctx) blind (mp_shared_nonce ctx) (Some tau_x)
               (Some (mp_t_1 ctx)) (Some (mp_t_2 ctx)) [mp_commit ctx] (Some sec_nonce) 2 in
  liftM (add_tau_x ctx (out_or tau_x (mo_tau_x out))).

Definition mp_bullet_proof_fin (ctx : MPBPContext) (blind sec_nonce : SecretKey) : Res RangeProof :=
  expect_opt "Failed to finalize MP bulletproof"
    (mo_proof (bullet_proof_multisig (mp_amount ctx) blind (mp_shared_nonce ctx) (Some (mp_tau_x ctx))
       (Some (mp_t_1 ctx)) (Some (mp_t_2 ctx)) [mp_commit ctx] (Some sec_nonce) 0)).

Definition estimate_fees (num_inp num_out num_ker : nat) : Z := tx_fee num_inp num_out num_ker.
End code.

(** The JSON text of a [SerMPCtx]. *)
Class SerMPCtxJson := {
  ser_mp_ctx_to_json : SerMPCtx -> string;
  ser_mp_ctx_of_json : string -> Res SerMPCtx;
}.
Class SerMPCtxJsonLaws `{!SerMPCtxJson} :=
  ser_mp_ctx_of_to_json c : ser_mp_ctx_of_json (ser_mp_ctx_to_json c) = Ok c.

Section text.
Context `{BuildProfile, GrinCrates, HexCrate, !SerMPCtxJson}.

Definition MPBPContext_to_string (self : MPBPContext) : string :=
  ser_mp_ctx_to_json
    {| ser_t_1 := serialize_grin_public_key (mp_t_1 self);
       ser_t_2 := serialize_grin_public_key (mp_t_2 self);
       ser_amount := mp_amount self;
       ser_shared_nonce := serialize_secret_key (mp_shared_nonce self);
       ser_commit := serialize_commitment (mp_commit self);
       ser_tau_x := serialize_secret_key (mp_tau_x self) |}.

Definition MPBPContext_from_string (s : string) : Res MPBPContext :=
  ser_obj ← unwrap (ser_mp_ctx_of_json s);
  t_1 ← deserialize_grin_pub_key (ser_t_1 ser_obj);
  t_2 ← deserialize_grin_pub_key (ser_t_2 ser_obj);
  shared_nonce ← deserialize_secret_key (ser_shared_nonce ser_obj);
  tau_x ← deserialize_secret_key (ser_tau_x ser_obj);
  commit ← deserialize_commitment (ser_commit ser_obj);
  Ok {| mp_t_1 := t_1; mp_t_2 := t_2; mp_amount := ser_amount ser_obj;
        mp_shared_nonce := shared_nonce; mp_tau_x := tau_x; mp_commit := commit |}.
End text.

(** ** Bitcoin keys as Grin keys: same curve, same bytes *)
Section conversion.
Context `{GrinCrates, BitcoinCrates}.

Definition grin_pk_from_btc_pk (bpk : BPublicKey) : Res PublicKey :=
  unwrap_opt (pk_from_slice (bpk_bytes bpk)).
Definition grin_sk_from_btc_sk (sk : BPrivateKey) : Res SecretKey :=
  unwrap_opt (sk_from_slice (private_key_bytes sk)).
End conversion.

(** ** Round trips of the encodings *)
Section lemmas.
Context `{BuildProfile, GrinCrates, !KeyLaws, HexCrate, !HexLaws}.

(** The zero key is written as 64 zeros, which is recognised; no other key is
    written that way. *)
Class ZeroKeyHex := {
  zero_key_text : serialize_secret_key ZERO_KEY = zero_key_hex;
  zero_key_only k : serialize_secret_key k = zero_key_hex -> k = ZERO_KEY;
}.

Lemma secret_key_roundtrip `{!ZeroKeyHex} k :
  deserialize_secret_key (serialize_secret_key k) = Ok k.
Proof.
  unfold deserialize_secret_key. case_bool_decide as E.
  - apply zero_key_only in E. by subst.
  - unfold serialize_secret_key. rewrite hex_decode_encode. cbn. rewrite sk_from_bytes; [done|].
    intros ->. apply E, zero_key_text.
Qed.

Lemma commitment_roundtrip c : deserialize_commitment (serialize_commitment c) = Ok c.
Proof.
  unfold deserialize_commitment, serialize_commitment. rewrite hex_decode_encode. cbn.
  by rewrite commit_from_bytes.
Qed.

Lemma grin_public_key_roundtrip p :
  pk_is_valid p = true -> deserialize_grin_pub_key (serialize_grin_public_key p) = Ok p.
Proof.
  intros Hv. unfold deserialize_grin_pub_key, serialize_grin_public_key.
  rewrite hex_decode_encode. cbn. by rewrite pk_from_serialized.
Qed.

(** ** Lemmas on the two-party range proof *)

(** The sums of the proof are updated; amount, nonce and commitment stay. *)
Definition same_proof (c d : MPBPContext) : Prop :=
  mp_amount c = mp_amount d /\ mp_shared_nonce c = mp_shared_nonce d /\ mp_commit c = mp_commit d.

Lemma add_t_1_ok c p c' : add_t_1 c p = Ok c' ->
  same_proof c' c /\ mp_t_2 c' = mp_t_2 c /\ mp_tau_x c' = mp_tau_x c
  /\ (if pk_is_valid (mp_t_1 c) then pk_from_combination [mp_t_1 c; p] = Ok (mp_t_1 c')
      else mp_t_1 c' = p).
Proof.
  unfold add_t_1. destruct (pk_is_valid _); cbn [negb]; intros E; res_inv; done.
Qed.
Lemma add_t_2_ok c p c' : add_t_2 c p = Ok c' ->
  same_proof c' c /\ mp_t_1 c' = mp_t_1 c /\ mp_tau_x c' = mp_tau_x c
  /\ (if pk_is_valid (mp_t_2 c) then pk_from_combination [mp_t_2 c; p] = Ok (mp_t_2 c')
      else mp_t_2 c' = p).
Proof.
  unfold add_t_2. destruct (pk_is_valid _); cbn [negb]; intros E; res_inv; done.
Qed.

Lemma mp_r1_same c b n t c' t' : mp_bullet_proof_r1 c b n t = (Ok c', t') ->
  same_proof c' c /\ mp_tau_x c' = mp_tau_x c.
Proof.
  unfold mp_bullet_proof_r1. intros E. m_inv.
  match goal with H1 : add_t_1 _ _ = _, H2 : add_t_2 _ _ = _ |- _ =>
    apply add_t_1_ok in H1 as ((? & ? & ?) & _ & ? & _);
    apply add_t_2_ok in H2 as ((? & ? & ?) & _ & ? & _) end.
  unfold same_proof. repeat split; congruence.
Qed.

Lemma mp_r2_same c b n t c' t' : mp_bullet_proof_r2 c b n t = (Ok c', t') ->
  same_proof c' c /\ mp_t_1 c' = mp_t_1 c /\ mp_t_2 c' = mp_t_2 c.
Proof. unfold mp_bullet_proof_r2, add_tau_x. intros E. m_inv. done. Qed.

(** A proof context crosses the wire unchanged. *)
Lemma mpbp_context_roundtrip `{!ZeroKeyHex, !SerMPCtxJson, !SerMPCtxJsonLaws} c :
  pk_is_valid (mp_t_1 c) = true -> pk_is_valid (mp_t_2 c) = true ->
  MPBPContext_from_string (MPBPContext_to_string c) = Ok c.
Proof.
  intros Hv1 Hv2. unfold MPBPContext_from_string, MPBPContext_to_string.
  rewrite ser_mp_ctx_of_to_json. cbn.
  rewrite !grin_public_key_roundtrip by done. cbn. rewrite !secret_key_roundtrip. cbn.
  rewrite commitment_roundtrip. cbn. by destruct c.
Qed.

Lemma grin_to_nanogrin_spec value :
  0 <= value -> value * NANO_GRIN < u64_modulus -> grin_to_nanogrin value = Ok (value * NANO_GRIN).
Proof.
  intros H0' Hmax. apply u64_mul_ok. unfold NANO_GRIN, u64_modulus in *. int_lia.
Qed.
End lemmas.
