(* ===== verification/GrinCore.v ===== *)
(** * src/grin/grin_core.rs: building, signing and finishing Grin transactions

    With the responses of grin_core_responses.rs.  A [GrinCore] holds handles to
    the random generator and the curve, which carry no data, and a keychain, of
    which only [blind_sum] is used; the seed of the keychain is kept. *)
From S2P Require Import Prelude.
From S2P Require Import RustStd.
From S2P Require Import Crates.
From S2P Require Import SwapTypes.
From S2P Require Import Effects.
From S2P Require Import Http.
From S2P Require Import Slate.
From S2P Require Import SlateV4.
From S2P Require Import GrinRoutines.

(** ** grin_core_responses.rs *)
Record GError := mkGError { ge_code : Z; ge_message : string }.
Record JsonRPCResponse (T : Type) := mkJsonRPCResponse {
  gr_id : string; gr_jsonrpc : string; gr_result : option T; gr_error : option GError }.
Arguments mkJsonRPCResponse {T}.
Arguments gr_id {T}.
Arguments gr_jsonrpc {T}.
Arguments gr_result {T}.
Arguments gr_error {T}.

Record GetTipResultOk := mkGetTipResultOk {
  tip_height : Z; tip_last_block_pushed : string; tip_prev_block_to_last : string;
  tip_total_difficulty : Z }.
Record GetTipResult := mkGetTipResult { tip_Ok : GetTipResultOk }.
Record PushTransactionResult := mkPushTransactionResult { push_Ok : unit }.

Class GrinCoreJson := {
  parse_get_tip : string -> Res (JsonRPCResponse GetTipResult);
  parse_push_transaction : string -> Res (JsonRPCResponse PushTransactionResult);
}.

(** ** The results of the algorithms *)
Record GrinCore := mkGrinCore {
  gcore_chain_seed : Z; gcore_settings : GrinNodeSettings; gcore_req_factory : RequestFactory }.

Section results.
Context `{GrinTypes}.
Record SpendCoinsResult := mkSpendCoinsResult {
  sc_slate : Slate; sc_sig_key : SecretKey; sc_sig_nonce : SecretKey; sc_change_coin : option MWCoin }.
Record RecvCoinsResult := mkRecvCoinsResult { rc_slate : Slate; rc_output_coin : MWCoin }.
Record AptRecCoinsResult := mkAptRecCoinsResult {
  ar_slate : Slate; ar_output_coin : MWCoin; ar_prt_sig : Signature * Signature }.
Record DRecvCoinsResult := mkDRecvCoinsResult {
  dr_slate : Slate; dr_out_key_blind : SecretKey; dr_sig_nonce : SecretKey;
  dr_prf_nonce : SecretKey; dr_prf_ctx : MPBPContext }.
End results.

Definition GrinCore_new (settings : GrinNodeSettings) (f : RequestFactory) : M GrinCore :=
  seed ← draw; mret (mkGrinCore seed settings f).

Section code.
Context `{BuildProfile, GrinCrates, HexCrate}.

(** ** Pieces the algorithms share *)

(** Every output's range proof is checked; a bad one aborts. *)
Definition verify_outputs (tx : Transaction) : Res unit :=
  res_fold (fun _ out =>
    if verify_bullet_proof (out_commit out) (out_proof out) then Ok tt
    else Panic "Failed to verify outputcoin rangeproof") tt (tx_outputs tx).

Definition tx_or_empty (s : Slate) : Transaction :=
  match sl_tx s with Some t => t | None => tx_empty end.

(** The double loop over the inputs: their value, and whether a commitment occurs
    twice. *)
Definition sum_inputs (inputs : list MWCoin) : Res Z :=
  res_fold (fun inpval coin => u64_add inpval (coin_value coin)) 0 inputs.

Fixpoint has_duplicate (inputs : list MWCoin) : bool :=
  match inputs with
  | [] => false
  | c :: l => existsb (fun d => bool_decide (coin_commitment c = coin_commitment d)) l || has_duplicate l
  end.

Definition input_of_coin (c : MWCoin) : Res (Input * BlindingFactor) :=
  commitment ← deserialize_commitment (coin_commitment c);
  inp_key ← deserialize_secret_key (coin_blinding_factor c);
  Ok (mkInput OFPlain commitment, bf_from_secret_key inp_key).

(** The context of [spend_coins] and [d_spend_coins]. *)
Definition spend_ctx (sec_key sec_nonce initial_sec_key : SecretKey) (amount : Z) (fee : FeeFields) :
    Context_ :=
  {| ctx_parent_key_id := identifier_zero;
     ctx_sec_key := sec_key;
     ctx_sec_nonce := sec_nonce;
     ctx_initial_sec_key := initial_sec_key;
     ctx_initial_sec_nonce := sec_nonce;
     ctx_output_ids := [];
     ctx_input_ids := [];
     ctx_amount := amount;
     ctx_fee := Some fee;
     ctx_payment_proof_derivation_index := None;
     ctx_late_lock_args := None;
     ctx_calculated_excess := None |}.

(** ** spend_coins *)
Definition spend_too_little (inpval fund_value fee : Z) (num_of_outputs : nat) : Res bool :=
  if (1 <? Z.of_nat num_of_outputs) then
    needed ← u64_add fund_value fee;
    Ok ((inpval <? needed) || (inpval <? fund_value))
  else Ok (inpval <? fund_value).

(** [i64::try_from(inpval).unwrap() - i64::try_from(fund).unwrap() - i64::try_from(fee).unwrap()] *)
Definition change_value_of (inpval fund_value fee : Z) : Res Z :=
  a ← unwrap (i64_try_from inpval);
  b ← unwrap (i64_try_from fund_value);
  d ← i64_sub a b;
  c ← unwrap (i64_try_from fee);
  i64_sub d c.

(** The change output and its coin, and what it adds to the blinding sum. *)
Definition make_change (tx : Transaction) (blind_sum : BlindSum) (change_value : Z)
    (change_coin_key rew_nonce prf_nonce : SecretKey) :
    Res (Transaction * BlindSum * option (Commitment * Z)) :=
  if 0 <? change_value then
    change_value_u64 ← unwrap (u64_try_from change_value);
    commitment ← expect_opt "Failed to create change coin commitment"
                   (secp_commit change_value_u64 change_coin_key);
    let proof := bullet_proof change_value_u64 change_coin_key rew_nonce prf_nonce in
    Ok (tx_with_output (mkOutput OFPlain commitment proof) tx,
        blind_sum ++ [AddBF (bf_from_secret_key change_coin_key)],
        Some (commitment, change_value_u64))
  else Ok (tx, blind_sum, None).

Definition spend_coins (inputs : list MWCoin) (fund_value timelock : Z) (num_of_outputs : nat)
    (num_parts : Z) : M SpendCoinsResult :=
  let lock_height_param := if negb (timelock =? 0) then Some timelock else None in
  let kernel_feat_param := match lock_height_param with Some _ => 2 | None => 0 end in
  slate ← blank_with_kernel_features num_parts false kernel_feat_param lock_height_param;
  let fee := tx_fee (length inputs) num_of_outputs 1 in
  inpval ← liftM (sum_inputs inputs);
  match inputs with
  | [] => errM "No inputs provided"
  | _ =>
    if fund_value <=? 0 then errM "Invalid parameters for fund_value provided"
    else
      too_little ← liftM (spend_too_little inpval fund_value fee num_of_outputs);
      if too_little : bool then
        errM "Spend coins function failed, input coins do not have enough value"
      else if has_duplicate inputs then
        errM "Spend coins function failed, duplicate input coins provided"
      else
        change_coin_key ← create_secret_key;
        sig_nonce ← create_secret_key;
        prf_nonce ← create_secret_key;
        rew_nonce ← create_secret_key;
        offset_key ← create_secret_key;
        let offset := bf_from_secret_key offset_key in
        fee_field ← liftM (unwrap_opt (fee_new 0 fee));
        let slate := set_sl_offset offset (set_sl_amount fund_value (set_sl_fee_fields fee_field slate)) in
        ins ← liftM (res_map input_of_coin inputs);
        let tx := tx_new (FeaturesAndCommit (fst <$> ins)) (tx_outputs tx_empty) (tx_kernels tx_empty) in
        change_value ← liftM (change_value_of inpval fund_value fee);
        '(tx, blind_sum, com) ← liftM (make_change tx (SubBF <$> (snd <$> ins)) change_value
                                         change_coin_key rew_nonce prf_nonce);
        final_bf ← liftM (expect "Failure when calculating blinding factor sum"
                            (keychain_blind_sum blind_sum));
        let slate := set_sl_tx (Some (tx_set_offset offset tx)) slate in
        split ← liftM (unwrap_opt (bf_split final_bf offset));
        final_key ← liftM (unwrap_opt (bf_secret_key split));
        initial_key ← liftM (unwrap_opt (bf_secret_key final_bf));
        let ctx := spend_ctx final_key sig_nonce initial_key fund_value fee_field in
        slate ← liftM (expect "Failed to complete round 1 on the senders turn" (fill_round_1 slate ctx));
        let change_coin := option_map (fun cv => MWCoin_new cv.1 change_coin_key cv.2) com in
        mret (mkSpendCoinsResult slate final_key sig_nonce change_coin)
  end.

(** ** d_spend_coins *)
Definition timelock_valid (slate : Slate) (timelock : Z) : Res bool :=
  if negb (timelock =? 0) then
    if sl_kernel_features slate =? 2 then
      a ← unwrap_opt (sl_kernel_features_args slate);
      Ok (lock_height a =? timelock)
    else Ok false
  else Ok (sl_kernel_features slate =? 0).

Definition d_spend_coins (inputs : list MWCoin) (slate : Slate) (fund_value timelock : Z) :
    M SpendCoinsResult :=
  let tx := tx_or_empty slate in
  _ ← liftM (verify_outputs tx);
  if negb (sl_amount slate =? fund_value) then errM "Transaction amount found to be invalid"
  else if negb (inputs_len (tx_inputs tx) =? length inputs)%nat then
    errM "Inputs don't match with coins given in parameters"
  else
    valid_features ← liftM (timelock_valid slate timelock);
    if negb valid_features then errM "Transaction timelock is not setup correctly!"
    else
      keys ← liftM (res_map (fun c => deserialize_secret_key (coin_blinding_factor c)) inputs);
      final_bf ← liftM (expect "Failed to calculate final blinding factor sum"
                          (keychain_blind_sum (SubBF <$> (bf_from_secret_key <$> keys))));
      final_key ← liftM (unwrap_opt (bf_secret_key final_bf));
      sig_nonce ← create_secret_key;
      let ctx := spend_ctx final_key sig_nonce final_key fund_value (sl_fee_fields slate) in
      slate ← liftM (expect "Failed to complete round 1 on the senders turn" (fill_round_1 slate ctx));
      mret (mkSpendCoinsResult slate final_key sig_nonce None).

(** ** recv_coins and apt_recv_coins: the output coin they both create *)
Record NewOutput := mkNewOutput {
  no_slate : Slate; no_commitment : Commitment; no_key : SecretKey; no_nonce : SecretKey }.

Definition recv_output (slate : Slate) (fund_value : Z) : M NewOutput :=
  let tx := tx_or_empty slate in
  _ ← liftM (verify_outputs tx);
  out_coin_key ← create_secret_key;
  rew_nonce ← create_secret_key;
  prf_nonce ← create_secret_key;
  sig_nonce ← create_secret_key;
  commitment ← liftM (expect_opt "Failed to generate pedersen commitment for recv_coins output coin"
                        (secp_commit fund_value out_coin_key));
  let proof := bullet_proof fund_value out_coin_key rew_nonce prf_nonce in
  let tx := tx_with_output (mkOutput OFPlain commitment proof) tx in
  slate ← liftM (expect "Failed to udpate kernel in recv_coins"
                   (update_kernel (set_sl_tx (Some tx) slate)));
  let ctx := create_minimal_ctx out_coin_key sig_nonce fund_value (sl_fee_fields slate) in
  slate ← liftM (expect "Failed to complete round 1 on receivers turn" (fill_round_1 slate ctx));
  mret (mkNewOutput slate commitment out_coin_key sig_nonce).

Definition recv_coins (slate : Slate) (fund_value : Z) : M RecvCoinsResult :=
  o ← recv_output slate fund_value;
  slate ← liftM (expect "Failed to complete round 2 on receivers turn"
                   (fill_round_2 (no_slate o) (no_key o) (no_nonce o)));
  mret (mkRecvCoinsResult slate (MWCoin_new (no_commitment o) (no_key o) fund_value)).

Definition apt_recv_coins (slate : Slate) (fund_value : Z) (x : SecretKey) : M AptRecCoinsResult :=
  o ← recv_output slate fund_value;
  let slate := no_slate o in
  nonce_sum ← liftM (unwrap (pub_nonce_sum slate));
  blind_sum ← liftM (unwrap (pub_blind_sum slate));
  msg ← liftM (unwrap (msg_to_sign slate));
  sig ← liftM (expect_opt "Failed to calculate adapted signature in apt_recv"
                 (sign_single msg (no_key o) (Some (no_nonce o)) None
                    (Some nonce_sum) (Some blind_sum) (Some nonce_sum)));
  apt_sig ← liftM (expect_opt "Failed to calculate unadapted signature in apt_recv"
                     (sign_single msg (no_key o) (Some (no_nonce o)) (Some x)
                        (Some nonce_sum) (Some blind_sum) (Some nonce_sum)));
  pub_excess ← liftM (unwrap_opt (pk_from_secret_key (no_key o)));
  pub_nonce ← liftM (unwrap_opt (pk_from_secret_key (no_nonce o)));
  slate ← liftM (set_first_in (mine pub_excess pub_nonce) apt_sig slate);
  mret (mkAptRecCoinsResult slate (MWCoin_new (no_commitment o) (no_key o) fund_value) (apt_sig, sig)).

(** ** drecv_coins *)
Definition drecv_coins_r1 (slate : Slate) (fund_value : Z) : M DRecvCoinsResult :=
  _ ← liftM (verify_outputs (tx_or_empty slate));
  out_coin_blind ← create_secret_key;
  shared_nonce ← create_secret_key;
  prf_nonce ← create_secret_key;
  sig_nonce ← create_secret_key;
  slate ← liftM (expect "Faile to fill_round_1 on drecv_coins r1"
                   (fill_round_1 slate (create_minimal_ctx out_coin_blind sig_nonce fund_value
                                          (sl_fee_fields slate))));
  com ← liftM (expect_opt "Failed to generate pedersen commitment for drecv_coins_r1"
                 (secp_commit fund_value out_coin_blind));
  prf_ctx ← expectM "Failed to run round 1A of mp bulletproofs"
              (mp_bullet_proof_r1 (MPBPContext_new shared_nonce fund_value com) out_coin_blind prf_nonce);
  mret (mkDRecvCoinsResult slate out_coin_blind sig_nonce prf_nonce prf_ctx).

Definition drecv_coins_r2 (slate : Slate) (fund_value : Z) (prf_ctx : MPBPContext) :
    M (RecvCoinsResult * MPBPContext) :=
  _ ← liftM (verify_outputs (tx_or_empty slate));
  out_coin_blind ← create_secret_key;
  prf_nonce ← create_secret_key;
  sig_nonce ← create_secret_key;
  com ← liftM (expect_opt "Failed to generete pedersen commitment for drecv_coins_r2"
                 (secp_commit 0 out_coin_blind));
  prf_ctx ← liftM (add_commit prf_ctx com);
  prf_ctx ← expectM "Failed to run round 1B of mp bulletproofs"
              (mp_bullet_proof_r1 prf_ctx out_coin_blind prf_nonce);
  prf_ctx ← expectM "Failed to run round 2A of mp bulletproofs"
              (mp_bullet_proof_r2 prf_ctx out_coin_blind prf_nonce);
  slate ← liftM (expect "Failed to run fill_round_1 on drecv_coins_r2"
                   (fill_round_1 slate (create_minimal_ctx out_coin_blind sig_nonce fund_value
                                          (sl_fee_fields slate))));
  slate ← liftM (expect "Failed to run fill_round_2 on drecv_coins_r2"
                   (fill_round_2 slate out_coin_blind sig_nonce));
  mret (mkRecvCoinsResult slate (MWCoin_new (mp_commit prf_ctx) out_coin_blind fund_value), prf_ctx).

Definition drecv_coins_r3 (slate : Slate) (prf_ctx : MPBPContext)
    (out_coin_blind prf_nonce sig_nonce : SecretKey) : M RecvCoinsResult :=
  let commit := mp_commit prf_ctx in
  let amount := mp_amount prf_ctx in
  prf_ctx ← expectM "failed to run round 2 of mp_bullet_proof"
              (mp_bullet_proof_r2 prf_ctx out_coin_blind prf_nonce);
  proof ← liftM (expect "Failed to finalize mp bulletproof"
                   (mp_bullet_proof_fin prf_ctx out_coin_blind prf_nonce));
  tx ← liftM (unwrap_opt (sl_tx slate));
  let tx := tx_with_output (mkOutput OFPlain commit proof) tx in
  slate ← liftM (unwrap (fill_round_2 (set_sl_tx (Some tx) slate) out_coin_blind sig_nonce));
  slate ← liftM (expect "Failed to update kernel in drecv_coins_r3" (update_kernel slate));
  mret (mkRecvCoinsResult slate (MWCoin_new commit out_coin_blind amount)).

(** ** fin_tx *)
Definition verify_adapted (slate : Slate) (msg : Message) (nonce_sum blind_sum x : PublicKey) : Res unit :=
  res_fold (fun _ p =>
    match part_sig p with
    | Some sig =>
        if verify_single sig msg (Some nonce_sum) (public_blind_excess p) (Some blind_sum) (Some x) true
        then Ok tt else Panic "Partial adapted signature verification failed"
    | None => Ok tt
    end) tt (sl_participant_data slate).

(** The branch with [pub_x]: check the adapted signatures, then add our own. *)
Definition fin_adapted (slate : Slate) (sec_key sec_nonce : SecretKey) (x : PublicKey) : Res Slate :=
  nonce_sum ← unwrap (pub_nonce_sum slate);
  blind_sum ← unwrap (pub_blind_sum slate);
  msg ← unwrap (msg_to_sign slate);
  _ ← verify_adapted slate msg nonce_sum blind_sum x;
  sig ← expect_opt "Failed to calculate signature in fin_tx"
          (sign_single msg sec_key (Some sec_nonce) None
             (Some nonce_sum) (Some blind_sum) (Some nonce_sum));
  pub_excess ← unwrap_opt (pk_from_secret_key sec_key);
  pub_nonce ← unwrap_opt (pk_from_secret_key sec_nonce);
  set_first_in (mine pub_excess pub_nonce) sig slate.

(** The other branch: put the plain signature in place of the adapted one, then
    sign. *)
Definition has_sig (sig : Signature) (p : ParticipantData) : bool :=
  bool_decide (part_sig p = Some sig).

Definition fin_plain (slate : Slate) (sec_key sec_nonce : SecretKey)
    (replace_sig : option (Signature * Signature)) : Res Slate :=
  slate ← match replace_sig with
          | Some (old_sig, new_sig) => set_first_in (has_sig old_sig) new_sig slate
          | None => Ok slate
          end;
  expect "Failed to complete round 2 on senders turn" (fill_round_2 slate sec_key sec_nonce).

Definition fin_tx (slate : Slate) (sec_key sec_nonce : SecretKey) (do_finalize : bool)
    (pub_x : option PublicKey) (replace_sig : option (Signature * Signature)) : Res Slate :=
  tx ← unwrap_opt (sl_tx slate);
  _ ← verify_outputs tx;
  slate ← match pub_x with
          | Some x => fin_adapted slate sec_key sec_nonce x
          | None => fin_plain slate sec_key sec_nonce replace_sig
          end;
  if do_finalize then expect "Failed to finalize transaction" (finalize slate) else Ok slate.

(** ** ext_witness *)
Definition ext_witness (prt_sig apt_sig : Signature) : Res SecretKey :=
  apt_s ← sig_extract_s apt_sig;
  prt_s ← sig_extract_s prt_sig;
  neg ← unwrap_opt (sk_neg_assign prt_s);
  unwrap_opt (sk_add_assign apt_s neg).
End code.

(** ** The Grin node *)
Section node.
Context `{GrinCrates, !JsonRpcJson, !GrinCoreJson}.
Implicit Types self : GrinCore.

Definition gcore_call self (method : string) (params : list JsonRpcParam) : P HttpResponse :=
  let rpc := JsonRpc_new "2.0" (gns_id (gcore_settings self)) method params in
  let url := "http://" +:+ gns_url (gcore_settings self) +:+ ":"
             +:+ fmt_u64 (gns_port (gcore_settings self)) +:+ "/v2/foreign" in
  http_execute (new_json_rpc_request (gcore_req_factory self) url rpc
                  (gns_user (gcore_settings self)) (gns_pass (gcore_settings self))).

(** The error field is looked at before the id. *)
Definition check_gresponse {A} self {T} (parsed : JsonRPCResponse T) (k : P A) : P A :=
  match gr_error parsed with
  | Some e => errP (ge_message e)
  | None => if negb (bool_decide (gr_id parsed = gns_id (gcore_settings self)))
            then errP "Invalid JRPC response id" else k
  end.

Definition get_block_height self : P Z :=
  x ← gcore_call self "get_tip" [];
  parsed ← liftP (unwrap (parse_get_tip (resp_content x)));
  check_gresponse self parsed
    (r ← liftP (unwrap_opt (gr_result parsed)); okP (tip_height (tip_Ok r))).

Definition push_transaction self (tx : Transaction) : P unit :=
  x ← gcore_call self "push_transaction" [ParamTx tx; ParamBool true];
  parsed ← liftP (unwrap (parse_push_transaction (resp_content x)));
  check_gresponse self parsed (okP tt).
End node.

(** ** Lemmas on the pieces *)
Section piece_lemmas.
Context `{BuildProfile, GrinCrates, HexCrate}.

Fixpoint mw_total (l : list MWCoin) : Z :=
  match l with [] => 0 | c :: l' => coin_value c + mw_total l' end.

Lemma mw_total_nonneg l : Forall (fun c => in_u64 (coin_value c)) l -> 0 <= mw_total l.
Proof. induction 1 as [|c l Hc _ IH]; cbn; [lia|]. int_lia. Qed.

Lemma sum_inputs_ok l :
  Forall (fun c => in_u64 (coin_value c)) l -> in_u64 (mw_total l) -> sum_inputs l = Ok (mw_total l).
Proof.
  unfold sum_inputs. intros Hv.
  assert (G : forall acc, 0 <= acc -> in_u64 (acc + mw_total l) ->
    res_fold (fun inpval coin => u64_add inpval (coin_value coin)) acc l = Ok (acc + mw_total l)).
  { induction Hv as [|c l Hc Hl IH]; intros acc Ha Hr; cbn in *; [f_equal; lia|].
    pose proof (mw_total_nonneg l Hl). rewrite u64_add_ok by int_lia. cbn.
    rewrite IH by int_lia. f_equal. lia. }
  intros Hr. rewrite G; [done|lia|done].
Qed.

Lemma has_duplicate_spec l : has_duplicate l = false <-> NoDup (coin_commitment <$> l).
Proof.
  induction l as [|c l IH]; cbn; [split; [constructor|done]|].
  rewrite orb_false_iff, NoDup_cons, IH.
  assert (E : existsb (fun d => bool_decide (coin_commitment c = coin_commitment d)) l = false
              <-> coin_commitment c ∉ (coin_commitment <$> l)).
  { rewrite <- not_true_iff_false, existsb_exists, list_elem_of_fmap.
    setoid_rewrite bool_decide_eq_true. setoid_rewrite <- list_elem_of_In. naive_solver. }
  by rewrite E.
Qed.

Lemma spend_too_little_spec inpval fund fee n :
  in_u64 (fund + fee) -> 0 <= fee ->
  spend_too_little inpval fund fee n
  = Ok (if (1 <? Z.of_nat n) then inpval <? fund + fee else inpval <? fund).
Proof.
  intros Hr Hf. unfold spend_too_little. destruct (1 <? Z.of_nat n); [|done].
  rewrite u64_add_ok by done. cbn. f_equal. destruct (Z.ltb_spec inpval (fund + fee)); cbn; [done|].
  apply Z.ltb_ge. lia.
Qed.

Lemma change_value_of_ok inpval fund fee :
  in_i64 inpval -> in_i64 fund -> in_i64 fee -> 0 <= inpval -> 0 <= fund -> 0 <= fee ->
  in_i64 (inpval - fund - fee) ->
  change_value_of inpval fund fee = Ok (inpval - fund - fee).
Proof.
  intros Hi Hf He Hi0 Hf0 He0 Hd. unfold change_value_of. rewrite !i64_try_from_ok by done. cbn.
  rewrite i64_sub_ok by int_lia. cbn. by rewrite i64_sub_ok.
Qed.

Lemma make_change_ok tx bs cv k rn pn tx' bs' com :
  make_change tx bs cv k rn pn = Ok (tx', bs', com) ->
  if 0 <? cv then exists c, com = Some (c, cv) /\ secp_commit cv k = Some c
      /\ tx' = tx_with_output (mkOutput OFPlain c (bullet_proof cv k rn pn)) tx
      /\ bs' = bs ++ [AddBF (bf_from_secret_key k)]
  else com = None /\ tx' = tx /\ bs' = bs.
Proof.
  unfold make_change. destruct (0 <? cv); intros E; res_inv; [|done].
  match goal with H : u64_try_from _ = Ok _ |- _ => unfold u64_try_from in H;
    destruct (in_u64b cv); [injection H as <-|done] end.
  eauto.
Qed.

Lemma verify_outputs_ok tx : verify_outputs tx = Ok tt <->
  Forall (fun o => verify_bullet_proof (out_commit o) (out_proof o) = true) (tx_outputs tx).
Proof.
  unfold verify_outputs. induction (tx_outputs tx) as [|o l IH]; cbn; [split; [constructor|done]|].
  rewrite Forall_cons. destruct (verify_bullet_proof _ _); cbn; [naive_solver|].
  split; [done|]. by intros [? _].
Qed.

(** A slate that starts blank. *)
Lemma blank_ok np inv f h t s t' :
  blank_with_kernel_features np inv f h t = (Ok s, t') ->
  sl_participant_data s = [] /\ sl_num_participants s = (if np =? 0 then 2 else np)
  /\ sl_kernel_features s = (if 3 <? f then 0 else f)
  /\ sl_kernel_features_args s =
       match h with
       | Some h => if ((if 3 <? f then 0 else f) =? 2) || ((if 3 <? f then 0 else f) =? 3)
                   then Some (mkKernelFeaturesArgs h) else None
       | None => None
       end.
Proof. unfold blank_with_kernel_features. intros E. m_inv. done. Qed.
End piece_lemmas.

(** ** What the algorithms leave in the slate *)
Section slate_lemmas.
Context `{BuildProfile, GrinCrates, HexCrate}.

(** The kernel a slate describes. *)
Definition same_kernel (s t : Slate) : Prop :=
  sl_kernel_features s = sl_kernel_features t
  /\ sl_kernel_features_args s = sl_kernel_features_args t /\ sl_fee_fields s = sl_fee_fields t.

Lemma same_but_participants_kernel s t : same_but_participants s t -> same_kernel s t.
Proof. intros E. injection E. intros. split; [done|split; done]. Qed.

Lemma update_kernel_ok s s' : update_kernel s = Ok s' ->
  exists tx f, sl_tx s = Some tx /\ kernel_features s = Ok f
    /\ s' = set_sl_tx (Some (tx_replace_kernel (kernel_with_features f) tx)) s.
Proof.
  unfold update_kernel, tx_or_err. intros E. res_inv. destruct (sl_tx s) as [tx|]; [|done].
  res_inv. eauto.
Qed.

Record spent (r : SpendCoinsResult) (old : list ParticipantData) : Prop := {
  spent_entry : exists k n sig,
    pk_from_secret_key (sc_sig_key r) = Some k /\ pk_from_secret_key (sc_sig_nonce r) = Some n
    /\ sl_participant_data (sc_slate r)
       = filter (fun v => mine k n v = false) old ++ [mkParticipantData k n sig]
    /\ (Forall (fun v => mine k n v = false) old -> sig = None) }.

Lemma d_spend_coins_ok ins s fund tl t r t' :
  d_spend_coins ins s fund tl t = (Ok r, t') ->
  spent r (sl_participant_data s) /\ same_but_participants (sc_slate r) s
  /\ sl_amount s = fund /\ timelock_valid s tl = Ok true /\ verify_outputs (tx_or_empty s) = Ok tt
  /\ inputs_len (tx_inputs (tx_or_empty s)) = length ins /\ sc_change_coin r = None.
Proof.
  unfold d_spend_coins. intros E. m_inv.
  destruct (Z.eqb_spec (sl_amount s) fund) as [Ea|]; [|done]. cbn [negb] in E.
  destruct (Nat.eqb_spec (inputs_len (tx_inputs (tx_or_empty s))) (length ins)); [|done].
  cbn [negb] in E. m_inv. match goal with b : bool |- _ => destruct b; [|done] end.
  cbn [negb] in E. unfold create_secret_key in *. m_inv.
  match goal with H : fill_round_1 _ _ = Ok _ |- _ =>
    apply fill_round_1_spec in H as (k & n & sig & Ek & En & Hs & Hp & Hn) end.
  match goal with u : () |- _ => destruct u end.
  split; [|done]. constructor. cbn in *. eauto 10.
Qed.

(** The entry of the receiver and the transaction with its output. *)
Lemma recv_output_ok s v t o t' :
  recv_output s v t = (Ok o, t') ->
  exists k n sig c tx f,
    pk_from_secret_key (no_key o) = Some k /\ pk_from_secret_key (no_nonce o) = Some n
    /\ sl_participant_data (no_slate o)
       = filter (fun e => mine k n e = false) (sl_participant_data s) ++ [mkParticipantData k n sig]
    /\ secp_commit v (no_key o) = Some c /\ no_commitment o = c
    /\ verify_outputs (tx_or_empty s) = Ok tt /\ kernel_features s = Ok f
    /\ same_but_participants (no_slate o)
         (set_sl_tx (Some (tx_replace_kernel (kernel_with_features f) tx)) s)
    /\ exists rn pn,
         tx = tx_with_output (mkOutput OFPlain c (bullet_proof v (no_key o) rn pn)) (tx_or_empty s).
Proof.
  unfold recv_output, create_secret_key. intros E. m_inv.
  match goal with H : update_kernel _ = Ok _ |- _ => apply update_kernel_ok in H as (tx & f & Et & Ef & ->) end.
  match goal with H : fill_round_1 _ _ = Ok _ |- _ =>
    apply fill_round_1_spec in H as (k & n & sig & Ek & En & Hs & Hp & Hn) end.
  cbn in *. injection Et as <-. match goal with u : () |- _ => destruct u end.
  exists k, n, sig. eexists _, _, f. repeat (split; [done|]). eauto.
Qed.
End slate_lemmas.

(** ** spend_coins *)
Section spend.
Context `{BuildProfile, GrinCrates, HexCrate}.

(** The part of [spend_coins] before any coin is touched, in one function of the
    inputs. *)
Definition spend_verdict (inputs : list MWCoin) (fund fee : Z) (n : nat) : Res unit :=
  match inputs with
  | [] => Err "No inputs provided"
  | _ =>
    if fund <=? 0 then Err "Invalid parameters for fund_value provided"
    else if mw_total inputs <? (if 1 <? Z.of_nat n then fund + fee else fund) then
      Err "Spend coins function failed, input coins do not have enough value"
    else if has_duplicate inputs then
      Err "Spend coins function failed, duplicate input coins provided"
    else Ok tt
  end.

Definition spend_guards_hold (inputs : list MWCoin) (fund fee : Z) : Prop :=
  Forall (fun c => in_u64 (coin_value c)) inputs /\ in_u64 (mw_total inputs)
  /\ in_u64 (fund + fee) /\ 0 <= fee.

(** What a successful [spend_coins] hands back. *)
Record spend_result (inputs : list MWCoin) (fund timelock fee num : Z) (r : SpendCoinsResult) : Prop := {
  sr_change :
    let change := mw_total inputs - fund - fee in
    if 0 <? change then exists c k, secp_commit change k = Some c
        /\ sc_change_coin r = Some (MWCoin_new c k change)
    else sc_change_coin r = None;
  sr_amount : sl_amount (sc_slate r) = fund;
  sr_fee : fee_new 0 fee = Some (sl_fee_fields (sc_slate r));
  sr_timelock : if timelock =? 0
    then sl_kernel_features (sc_slate r) = 0 /\ sl_kernel_features_args (sc_slate r) = None
    else sl_kernel_features (sc_slate r) = 2
         /\ sl_kernel_features_args (sc_slate r) = Some (mkKernelFeaturesArgs timelock);
  sr_num : sl_num_participants (sc_slate r) = if num =? 0 then 2 else num;
  sr_entry : exists k n, pk_from_secret_key (sc_sig_key r) = Some k
    /\ pk_from_secret_key (sc_sig_nonce r) = Some n
    /\ sl_participant_data (sc_slate r) = [mkParticipantData k n None];
  sr_tx : exists tx ins, sl_tx (sc_slate r) = Some tx
    /\ Forall2 (fun c i => input_of_coin c = Ok i) inputs ins
    /\ exists tx0, tx_inputs tx = tx_inputs tx0
         /\ tx0 = tx_new (FeaturesAndCommit (fst <$> ins)) (tx_outputs tx_empty) (tx_kernels tx_empty);
}.

Lemma spend_coins_verdict inputs fund timelock n num t :
  spend_guards_hold inputs fund (tx_fee (length inputs) n 1) ->
  match spend_verdict inputs fund (tx_fee (length inputs) n 1) n with
  | Err e => (spend_coins inputs fund timelock n num t).1 = Err e
  | _ => True
  end.
Proof.
  intros (Hv & Ht & Hff & Hfee). unfold spend_coins, blank_with_kernel_features.
  unfold mbind, M_bind, liftM, draw, errM. cbn -[sum_inputs spend_too_little has_duplicate].
  rewrite sum_inputs_ok by done. unfold spend_verdict.
  destruct inputs as [|c l] eqn:El; [done|]. rewrite <- El in *. clear El c l.
  destruct (fund <=? 0); [done|].
  rewrite spend_too_little_spec by done. destruct (1 <? Z.of_nat n).
  - destruct (mw_total inputs <? fund + _); [done|]. by destruct (has_duplicate inputs).
  - destruct (mw_total inputs <? fund); [done|]. by destruct (has_duplicate inputs).
Qed.

Lemma kernel_of_timelock timelock :
  (if 3 <? match (if negb (timelock =? 0) then Some timelock else None) with
           | Some _ => 2 | None => 0 end then 0
   else match (if negb (timelock =? 0) then Some timelock else None) with
        | Some _ => 2 | None => 0 end) = if timelock =? 0 then 0 else 2.
Proof. by destruct (timelock =? 0). Qed.

Lemma spend_coins_ok `{!TxLaws} inputs fund timelock n num t r t' :
  let fee := tx_fee (length inputs) n 1 in
  spend_guards_hold inputs fund fee ->
  in_i64 (mw_total inputs) -> in_i64 fund -> in_i64 fee ->
  spend_coins inputs fund timelock n num t = (Ok r, t') ->
  spend_verdict inputs fund fee n = Ok tt /\ spend_result inputs fund timelock fee num r.
Proof.
  intros fee Hg Hi1 Hi2 Hi3 E. pose proof (spend_coins_verdict inputs fund timelock n num t Hg) as Hver.
  fold fee in Hver. rewrite E in Hver. cbn in Hver.
  destruct Hg as (Hv & Ht & Hff & Hfee). pose proof (mw_total_nonneg inputs Hv) as Hnn.
  split; [unfold spend_verdict in *; repeat case_match; done|].
  unfold spend_coins in E. cbv zeta in E. fold fee in E. clearbody fee.
  apply M_bind_Ok in E as (s & t1 & Eb & E).
  apply blank_ok in Eb as (Ep & Enp & Ekf & Eka). rewrite kernel_of_timelock in Ekf, Eka.
  apply M_bind_Ok in E as (inpval & t2 & Es & E). apply liftM_Ok in Es as [Es ->].
  rewrite sum_inputs_ok in Es by done. injection Es as <-.
  destruct inputs as [|c0 l0] eqn:El; [done|]. rewrite <- El in *. clear El c0 l0.
  destruct (Z.leb_spec fund 0); [done|].
  rewrite spend_too_little_spec in E by done. unfold create_secret_key in E.
  apply M_bind_Ok in E as (too & t3 & Et & E). apply liftM_Ok in Et as [Et ->]. injection Et as <-.
  destruct (if 1 <? Z.of_nat n then _ else _) eqn:Eg; [done|].
  destruct (has_duplicate inputs); [done|]. m_inv.
  assert (Hge : fund <= mw_total inputs).
  { destruct (1 <? Z.of_nat n); apply Z.ltb_ge in Eg; lia. }
  match goal with H : change_value_of _ _ _ = Ok _ |- _ =>
    rewrite change_value_of_ok in H by int_lia; injection H as <- end.
  match goal with x : Transaction * BlindSum * _ |- _ => destruct x as [[tx bs] com] end. m_inv.
  match goal with H : make_change _ _ _ _ _ _ = _ |- _ => apply make_change_ok in H; rename H into Hc end.
  match goal with H : fill_round_1 _ _ = Ok _ |- _ =>
    apply fill_round_1_spec in H as (k & nn & sig & Ek & En & Hs & Hp & Hn) end.
  match goal with H : res_map _ _ = Ok _ |- _ => apply res_map_Ok in H; rename H into Hm end.
  cbn in Ek, En, Hp, Hn, Hs. rewrite Ep in Hp, Hn. specialize (Hn (Forall_nil_2 _)). subst sig.
  injection Hs as _ Enum _ _ Etx Eamt Efee _ Ekf2 _ _ Eka2.
  assert (Etx' : tx_inputs tx = tx_inputs (tx_new (FeaturesAndCommit (fst <$> x11)) (tx_outputs tx_empty) (tx_kernels tx_empty))).
  { destruct (0 <? _); [destruct Hc as (c & _ & _ & -> & _); apply tx_inputs_with_output
                       |by destruct Hc as (_ & -> & _)]. }
  constructor; cbn.
  - destruct (0 <? _); [destruct Hc as (c & -> & Hc & _); eauto|by destruct Hc as [-> _]].
  - congruence.
  - by rewrite Efee.
  - rewrite Ekf2, Eka2, Ekf, Eka. by destruct (timelock =? 0).
  - congruence.
  - eauto.
  - rewrite Etx. eexists _, _. split; [done|]. split; [exact Hm|]. eexists.
    rewrite tx_inputs_set_offset. split; [exact Etx'|done].
Qed.
End spend.

(** The sender's entry, whatever the values. *)
Lemma spend_coins_entry `{BuildProfile, GrinCrates, HexCrate} inputs fund timelock n num t r t' :
  spend_coins inputs fund timelock n num t = (Ok r, t') ->
  sl_num_participants (sc_slate r) = (if num =? 0 then 2 else num)
  /\ sl_amount (sc_slate r) = fund
  /\ exists k nn, pk_from_secret_key (sc_sig_key r) = Some k
       /\ pk_from_secret_key (sc_sig_nonce r) = Some nn
       /\ sl_participant_data (sc_slate r) = [mkParticipantData k nn None].
Proof.
  unfold spend_coins. cbv zeta. intros E. apply M_bind_Ok in E as (s & t1 & Eb & E).
  apply blank_ok in Eb as (Ep & Enp & _ & _). apply M_bind_Ok in E as (inpval & t2 & Es & E).
  destruct inputs; [done|]. destruct (fund <=? 0); [done|].
  apply M_bind_Ok in E as (too & t3 & Et & E). destruct too; [done|].
  destruct (has_duplicate _); [done|]. unfold create_secret_key in E. m_inv.
  match goal with x : Transaction * BlindSum * _ |- _ => destruct x as [[tx bs] com] end. m_inv.
  match goal with H : fill_round_1 _ _ = Ok _ |- _ =>
    apply fill_round_1_spec in H as (k & nn & sig & Ek & En & Hs & Hp & Hn) end.
  cbn in Hp, Hn, Ek, En. rewrite Ep in Hp, Hn. specialize (Hn (Forall_nil_2 _)). subst sig.
  injection Hs as _ Enum _ _ _ Eamt _ _ _ _ _ _. split; [by rewrite Enum|].
  split; [exact Eamt|]. eauto.
Qed.

(** A single coin is the only input of what is started with it. *)
Lemma make_change_inputs `{BuildProfile, GrinCrates, !TxLaws, HexCrate} tx bs cv ck rn pn tx' bs' com :
  make_change tx bs cv ck rn pn = Ok (tx', bs', com) -> tx_inputs tx' = tx_inputs tx.
Proof.
  intros E. apply make_change_ok in E. destruct (0 <? cv).
  - destruct E as (c & _ & _ & -> & _). apply tx_inputs_with_output.
  - by destruct E as (_ & -> & _).
Qed.

Lemma spend_coins_input `{BuildProfile, GrinCrates, !TxLaws, HexCrate} c fund timelock n num t r t' :
  spend_coins [c] fund timelock n num t = (Ok r, t') ->
  exists i tx, input_of_coin c = Ok i /\ sl_tx (sc_slate r) = Some tx
    /\ inputs_commits (tx_inputs tx) = [in_commit i.1].
Proof.
  unfold spend_coins. cbv zeta. intros E. apply M_bind_Ok in E as (s & t1 & _ & E).
  apply M_bind_Ok in E as (inpval & t2 & _ & E). destruct (fund <=? 0); [done|].
  apply M_bind_Ok in E as (too & t3 & _ & E). destruct too; [done|].
  destruct (has_duplicate _); [done|]. unfold create_secret_key in E. m_inv.
  match goal with x : Transaction * BlindSum * _ |- _ => destruct x as [[tx bs] com] end. m_inv.
  match goal with H : make_change _ _ _ _ _ _ = _ |- _ => apply make_change_inputs in H; rename H into Hc end.
  match goal with H : fill_round_1 _ _ = Ok _ |- _ =>
    apply fill_round_1_spec in H as (k & nn & sig & _ & _ & Hs & _) end.
  match goal with H : input_of_coin c = Ok ?i |- _ => exists i end.
  injection Hs as _ _ _ _ Etx _ _ _ _ _ _ _. rewrite Etx. eexists. split; [done|]. split; [reflexivity|].
  rewrite tx_inputs_set_offset, Hc. apply Permutation_singleton_r. by rewrite tx_inputs_new.
Qed.

(** Before any key is drawn or any coin is touched, [spend_coins] refuses an
    empty input list, a zero value, inputs worth less than value plus fee, and a
    coin given twice, in this order. *)
Theorem spend_coins_refuses `{BuildProfile, GrinCrates, HexCrate} inputs fund timelock n num t e :
  spend_guards_hold inputs fund (tx_fee (length inputs) n 1) ->
  spend_verdict inputs fund (tx_fee (length inputs) n 1) n = Err e ->
  (spend_coins inputs fund timelock n num t).1 = Err e.
Proof. intros Hg Hv. pose proof (spend_coins_verdict inputs fund timelock n num t Hg) as H'. by rewrite Hv in H'. Qed.

(** C9: A transaction that [spend_coins] starts spends exactly the given coins, all
    different, and together worth at least what is sent.  A change coin carries
    exactly what neither the amount nor the fee takes, and its commitment is one to
    that very value; without one nothing is left, except that a call that counts a
    single participant may also fall short of the fee, which the code checks only
    for more than one.  The slate says the amount, the fee and the lock height it
    was asked for, and holds the sender's keys, unsigned.  (For coin values, their
    total and the amount with the fee within 64 bits, and total, amount and fee
    within the 63 bits the code's signed subtraction has.) *)
Theorem spend_coins_conserves `{BuildProfile, GrinCrates, !TxLaws, HexCrate}
    inputs fund timelock n num t r t' :
  let fee := tx_fee (length inputs) n 1 in
  spend_guards_hold inputs fund fee -> in_i64 (mw_total inputs) -> in_i64 fund -> in_i64 fee ->
  spend_coins inputs fund timelock n num t = (Ok r, t') ->
  NoDup (coin_commitment <$> inputs)
  /\ 0 < fund <= mw_total inputs
  /\ match sc_change_coin r with
     | Some c => 0 < coin_value c /\ mw_total inputs = fund + fee + coin_value c
         /\ exists com k, c = MWCoin_new com k (coin_value c) /\ secp_commit (coin_value c) k = Some com
     | None => if (1 <? n)%nat then mw_total inputs = fund + fee else mw_total inputs <= fund + fee
     end
  /\ spend_result inputs fund timelock fee num r
  /\ exists tx ins, sl_tx (sc_slate r) = Some tx
       /\ Forall2 (fun c i => input_of_coin c = Ok i) inputs ins
       /\ inputs_commits (tx_inputs tx) ≡ₚ (fun i => in_commit i.1) <$> ins.
Proof.
  intros fee Hg Hi1 Hi2 Hi3 E. subst fee. apply spend_coins_ok in E as [Hv Hr]; [|done..].
  set (fee := tx_fee _ _ _) in *. clearbody fee. unfold spend_verdict in Hv.
  destruct inputs as [|c0 l0] eqn:El; [done|]. rewrite <- El in *. clear El c0 l0.
  destruct (Z.leb_spec fund 0); [done|]. destruct Hg as (_ & _ & _ & Hfee).
  destruct (Z.ltb_spec (mw_total inputs) (if 1 <? Z.of_nat n then fund + fee else fund)); [done|].
  destruct (has_duplicate inputs) eqn:Ed; [done|]. apply has_duplicate_spec in Ed.
  split; [done|]. pose proof (sr_change _ _ _ _ _ _ Hr) as Hc.
  split; [destruct (1 <? Z.of_nat n); lia|]. split; [|split; [done|]].
  - cbn in Hc. destruct (Z.ltb_spec 0 (mw_total inputs - fund - fee)).
    + destruct Hc as (c & k & Ek & ->). cbn. split; [lia|]. split; [lia|].
      eexists c, k. split; [reflexivity|exact Ek].
    + rewrite Hc. destruct (Z.ltb_spec 1 (Z.of_nat n)), (Nat.ltb_spec 1 n); lia.
  - destruct (sr_tx _ _ _ _ _ _ Hr) as (tx & ins & Et & Hf & tx0 & Ei & ->).
    exists tx, ins. split; [done|]. split; [done|]. rewrite Ei, tx_inputs_new. cbn.
    rewrite <- !list_fmap_compose. done.
Qed.

(** ** Adapted signatures *)
Section adapted.
Context `{BuildProfile, GrinCrates, HexCrate}.

Definition mine_index (k n : PublicKey) (l : list ParticipantData) (i : nat) : Prop :=
  (exists p, l !! i = Some p /\ mine k n p = true)
  /\ forall j q, (j < i)%nat -> l !! j = Some q -> mine k n q = false.

(** The loop that stores a signature, when the entry's position is known. *)
Lemma set_first_at test sig i p l : forall n,
  l !! i = Some p -> test p = true -> (i < n)%nat ->
  (forall j q, (j < i)%nat -> l !! j = Some q -> test q = false) ->
  set_first test sig n 0 l = Ok (<[i := with_part_sig sig p]> l).
Proof.
  intros n Hp Ht Hn Hf.
  assert (Hok : is_ok (set_first test sig (S i) 0 l) = true).
  { apply set_first_total. apply lookup_lt_Some in Hp. lia. }
  assert (G : forall m o, (i < o + m)%nat -> (o <= i)%nat ->
            set_first test sig m o l = Ok (<[i := with_part_sig sig p]> l)).
  { induction m as [|m IH]; intros o Ho Hoi; [lia|]. cbn.
    destruct (decide (o = i)) as [->|Hne].
    - by rewrite Hp, Ht.
    - destruct (lookup_lt_is_Some_2 l o) as [q Hq]; [apply lookup_lt_Some in Hp; lia|].
      rewrite Hq, (Hf o q) by (done || lia). apply IH; lia. }
  apply G; lia.
Qed.

(** [apt_recv_coins] adds the receiver's entry and gives it the adapted signature;
    the plain one, made with the same key and nonce for the same message, is kept
    aside. *)
Record apt_received (s : Slate) (x : SecretKey) (r : AptRecCoinsResult) : Prop := {
  apt_entry : exists k n sig0 l num,
    l = filter (fun e => mine k n e = false) (sl_participant_data s) ++ [mkParticipantData k n sig0]
    /\ num_participants s = num
    /\ set_first (mine k n) (ar_prt_sig r).1 (Z.to_nat num) 0 l = Ok (sl_participant_data (ar_slate r));
  apt_kernel : same_kernel (ar_slate r) s;
  apt_num : num_participants (ar_slate r) = num_participants s;
  apt_amount : sl_amount (ar_slate r) = sl_amount s;
  apt_sigs : exists msg key nonce pn pb,
    msg_to_sign s = Ok msg
    /\ sign_single msg key (Some nonce) None (Some pn) (Some pb) (Some pn) = Some (ar_prt_sig r).2
    /\ sign_single msg key (Some nonce) (Some x) (Some pn) (Some pb) (Some pn) = Some (ar_prt_sig r).1 }.

Lemma msg_to_sign_same s t : same_kernel s t -> msg_to_sign s = msg_to_sign t.
Proof.
  intros (E1 & E2 & E3). unfold msg_to_sign, kernel_features. by rewrite E1, E2, E3.
Qed.

Lemma same_num s t : same_but_participants s t -> num_participants s = num_participants t.
Proof. apply same_num_participants. Qed.

Lemma apt_recv_coins_ok s v x t r t' :
  apt_recv_coins s v x t = (Ok r, t') ->
  apt_received s x r /\ verify_outputs (tx_or_empty s) = Ok tt.
Proof.
  unfold apt_recv_coins. intros E. apply M_bind_Ok in E as (o & t1 & Eo & E).
  apply recv_output_ok in Eo as (k & n & sig0 & c & tx & f & Ek & En & Hp & _ & _ & Hvo & _ & Hs & _).
  m_inv. split; [|done]. unfold set_first_in in *. res_inv.
  pose proof (same_but_participants_kernel _ _ Hs) as Hk.
  constructor; cbn.
  - rewrite (same_num _ _ Hs) in *. rewrite Hp in *. do 5 eexists. split; [reflexivity|].
    split; [reflexivity|]. eassumption.
  - exact Hk.
  - exact (same_num _ _ Hs).
  - by injection Hs.
  - do 5 eexists. rewrite <- (msg_to_sign_same (no_slate o) s) by exact Hk. eauto.
Qed.

(** The two branches of [fin_tx]. *)
Lemma fin_adapted_ok s sk sn x s' :
  fin_adapted s sk sn x = Ok s' ->
  exists k n sig, pk_from_secret_key sk = Some k /\ pk_from_secret_key sn = Some n
    /\ same_but_participants s' s
    /\ set_first (mine k n) sig (Z.to_nat (num_participants s)) 0 (sl_participant_data s)
       = Ok (sl_participant_data s')
    /\ exists msg pn pb, msg_to_sign s = Ok msg /\ pub_nonce_sum s = Ok pn /\ pub_blind_sum s = Ok pb
       /\ verify_adapted s msg pn pb x = Ok tt.
Proof.
  unfold fin_adapted, set_first_in. intros E. res_inv.
  match goal with u : () |- _ => destruct u end.
  do 3 eexists. split; [eassumption|]. split; [eassumption|]. split; [done|].
  split; [eassumption|]. do 3 eexists. split; [done|]. split; [done|]. split; done.
Qed.

Lemma fin_plain_ok s sk sn rep s' :
  fin_plain s sk sn rep = Ok s' ->
  exists s1 k n sig, pk_from_secret_key sk = Some k /\ pk_from_secret_key sn = Some n
    /\ same_but_participants s' s
    /\ match rep with
       | Some (old, new) => set_first (has_sig old) new (Z.to_nat (num_participants s)) 0
                              (sl_participant_data s) = Ok (sl_participant_data s1)
       | None => s1 = s
       end
    /\ verify_part_sigs s1 = Ok tt /\ same_but_participants s1 s
    /\ set_first (mine k n) sig (Z.to_nat (num_participants s)) 0 (sl_participant_data s1)
       = Ok (sl_participant_data s').
Proof.
  unfold fin_plain. intros E. apply res_bind_Ok in E as (s1 & E1 & E). res_inv.
  unfold fill_round_2, set_first_in in E. res_inv. match goal with u : () |- _ => destruct u end.
  assert (H1s : same_but_participants s1 s /\ match rep with
       | Some (old, new) => set_first (has_sig old) new (Z.to_nat (num_participants s)) 0
                              (sl_participant_data s) = Ok (sl_participant_data s1)
       | None => s1 = s end).
  { destruct rep as [[old new]|]; [|by injection E1 as <-]. unfold set_first_in in E1. res_inv. done. }
  destruct H1s as [Hs1 Hrep]. rewrite (same_num _ _ Hs1) in *.
  do 4 eexists. split; [eassumption|]. split; [eassumption|]. split; [exact Hs1|].
  split; [exact Hrep|]. split; [done|]. split; [done|]. eassumption.
Qed.

Lemma finalize_same s s' : finalize s = Ok s' -> set_sl_tx None s' = set_sl_tx None s.
Proof.
  unfold finalize, finalize_transaction. intros E. res_inv.
  destruct (tx_kernels _) as [|? [|]]; try done. res_inv. by case_match; res_inv.
Qed.

Lemma fin_tx_ok s sk sn fin px rep s' :
  fin_tx s sk sn fin px rep = Ok s' ->
  exists s1, (match px with Some x => fin_adapted s sk sn x | None => fin_plain s sk sn rep end) = Ok s1
    /\ set_sl_tx None s' = set_sl_tx None s1
    /\ (if fin then finalize s1 = Ok s' else s' = s1)
    /\ exists tx, sl_tx s = Some tx /\ verify_outputs tx = Ok tt.
Proof.
  unfold fin_tx. intros E. res_inv. match goal with u : () |- _ => destruct u end.
  eexists. split; [eassumption|]. split; [|split; [|eauto]].
  - destruct fin; [|congruence]. res_inv. by apply finalize_same in E.
  - destruct fin; [by res_inv|congruence].
Qed.

Lemma ext_witness_ok prt apt x : ext_witness prt apt = Ok x ->
  exists s t n, sig_scalar prt = Some s /\ sig_scalar apt = Some t
    /\ sk_neg_assign s = Some n /\ sk_add_assign t n = Some x.
Proof. unfold ext_witness, sig_extract_s. intros E. res_inv. eauto 8. Qed.

(** The difference of the two signatures is the secret: from the signature Bob
    published and the adapted one he had sent, [ext_witness] computes exactly the
    x he hid, and from one signature taken twice it computes nothing. *)
Lemma ext_witness_exact `{!AdaptorLaws, !KeyLaws} s x r sig y :
  apt_received s x r -> (sig = (ar_prt_sig r).2 \/ sig = (ar_prt_sig r).1) ->
  ext_witness sig (ar_prt_sig r).1 = Ok y -> y = x.
Proof.
  intros Hr Hs E. apply ext_witness_ok in E as (a & b & n & Ea & Eb & En & Ey).
  destruct (apt_sigs _ _ _ Hr) as (msg & key & nonce & pn & pb & _ & E1 & E2).
  destruct Hs as [->| ->].
  - exact (adaptor_difference msg key nonce x _ _ _ _ _ _ _ _ _ E1 E2 Ea Eb En Ey).
  - rewrite Ea in Eb. injection Eb as <-. by rewrite (sk_add_neg _ _ En) in Ey.
Qed.
End adapted.
