(* ===== verification/GrinTx.v ===== *)
(** * src/grin/grin_tx.rs: the two-party transaction protocols

    Each protocol is a pair of programs of [P], one per party, that talk over the
    stream.  A [GrinTx] wraps a [GrinCore], whose algorithms need nothing of it. *)
From S2P Require Import Prelude.
From S2P Require Import RustStd.
From S2P Require Import Crates.
From S2P Require Import SwapTypes.
From S2P Require Import Effects.
From S2P Require Import Tcp.
From S2P Require Import Http.
From S2P Require Import Slate.
From S2P Require Import SlateV4.
From S2P Require Import GrinRoutines.
From S2P Require Import GrinCore.

Record GrinTx := mkGrinTx { gtx_core : GrinCore }.

Definition GrinTx_new (settings : GrinNodeSettings) (f : RequestFactory) : M GrinTx :=
  core ← GrinCore_new settings f; mret (mkGrinTx core).

Section results.
Context `{GrinTypes}.
Record DBuildMWTxResult := mkDBuildMWTxResult { db_tx : Slate; db_coin : option MWCoin }.
Record DSharedOutMwTxResult := mkDSharedOutMwTxResult {
  ds_tx : Slate; ds_change_coin : option MWCoin; ds_shared_coin : MWCoin }.
Record ContractMwResult := mkContractMwResult {
  cm_tx : Slate; cm_coin : option MWCoin; cm_x : SecretKey }.
End results.

Section code.
Context `{BuildProfile, GrinCrates, HexCrate, !SlateJson, !SerMPCtxJson}.

(** [send_msg(&serde_json::to_string(&slate).unwrap(), stream)] *)
Definition send_slate (s : Slate) : P unit := text ← liftP (unwrap (slate_to_json s)); send_msg text.
Definition read_slate (m : string) : P Slate := local (unwrapM (deserialize_upgrade m)).

(** ** dBuildMWTx *)
Definition dbuildmw_tx_alice (inp : list MWCoin) (fund_value timelock : Z) : P DBuildMWTxResult :=
  sc ← local (spend_coins inp fund_value timelock 2 2);
  _ ← send_slate (sc_slate sc);
  bob_msg ← receive_msg;
  ptx2 ← read_slate bob_msg;
  fin ← liftP (unwrap (fin_tx ptx2 (sc_sig_key sc) (sc_sig_nonce sc) true None None));
  _ ← send_slate fin;
  okP (mkDBuildMWTxResult fin (sc_change_coin sc)).

Definition dbuild_mw_tx_bob (fund_value : Z) : P DBuildMWTxResult :=
  alice_msg ← receive_msg;
  ptx ← read_slate alice_msg;
  ptx2 ← local (unwrapM (recv_coins ptx fund_value));
  _ ← send_slate (rc_slate ptx2);
  alice_msg ← receive_msg;
  tx ← read_slate alice_msg;
  okP (mkDBuildMWTxResult tx (Some (rc_output_coin ptx2))).

(** ** dSharedOutMWTx *)
Definition dshared_out_mw_tx_alice (inp : list MWCoin) (fund_value timelock : Z) :
    P DSharedOutMwTxResult :=
  sc ← local (unwrapM (spend_coins inp fund_value timelock 2 3));
  rc ← local (unwrapM (drecv_coins_r1 (sc_slate sc) fund_value));
  _ ← send_slate (dr_slate rc);
  _ ← send_msg (MPBPContext_to_string (dr_prf_ctx rc));
  bob_msg ← receive_msg;
  bob_msg2 ← receive_msg;
  ptx2 ← read_slate bob_msg;
  prf_ctx ← liftP (MPBPContext_from_string bob_msg2);
  r3 ← local (unwrapM (drecv_coins_r3 ptx2 prf_ctx (dr_out_key_blind rc) (dr_prf_nonce rc)
                         (dr_sig_nonce rc)));
  fin_slate ← liftP (unwrap (fin_tx (rc_slate r3) (sc_sig_key sc) (sc_sig_nonce sc) true None None));
  _ ← send_slate fin_slate;
  okP (mkDSharedOutMwTxResult fin_slate (sc_change_coin sc) (rc_output_coin r3)).

Definition dshared_out_mw_tx_bob (fund_value : Z) : P DSharedOutMwTxResult :=
  alice_msg1 ← receive_msg;
  alice_msg2 ← receive_msg;
  ptx ← read_slate alice_msg1;
  prf_ctx ← liftP (MPBPContext_from_string alice_msg2);
  r2 ← local (drecv_coins_r2 ptx fund_value prf_ctx);
  _ ← send_slate (rc_slate r2.1);
  _ ← send_msg (MPBPContext_to_string r2.2);
  tx_str ← receive_msg;
  tx ← read_slate tx_str;
  okP (mkDSharedOutMwTxResult tx None (rc_output_coin r2.1)).

(** ** dSharedInpMWTx *)
Definition dshared_inp_mw_tx_alice (inp : MWCoin) (fund_value timelock : Z) : P DBuildMWTxResult :=
  sc ← local (spend_coins [inp] fund_value timelock 1 3);
  _ ← send_slate (sc_slate sc);
  bob_msg ← receive_msg;
  ptx2 ← read_slate bob_msg;
  ptx2 ← liftP (unwrap (update_kernel ptx2));
  fin_slate ← liftP (fin_tx ptx2 (sc_sig_key sc) (sc_sig_nonce sc) true None None);
  _ ← send_slate fin_slate;
  okP (mkDBuildMWTxResult fin_slate (sc_change_coin sc)).

Definition dshared_inp_mw_tx_bob (inp : MWCoin) (fund_value timelock : Z) : P DBuildMWTxResult :=
  alice_msg ← receive_msg;
  ptx ← read_slate alice_msg;
  ds ← local (d_spend_coins [inp] ptx fund_value timelock);
  rc ← local (recv_coins (sc_slate ds) fund_value);
  fin_result ← liftP (unwrap (fin_tx (rc_slate rc) (sc_sig_key ds) (sc_sig_nonce ds) false None None));
  _ ← send_slate fin_result;
  alice_msg ← receive_msg;
  fin_slate ← read_slate alice_msg;
  fin_slate ← liftP (unwrap (update_kernel fin_slate));
  fin_slate ← liftP (unwrap (finalize fin_slate));
  okP (mkDBuildMWTxResult fin_slate (Some (rc_output_coin rc))).

(** ** dContractMWTx *)

(** [participant_data.get(2).unwrap().part_sig.unwrap()] *)
Definition third_sig (s : Slate) : Res Signature :=
  p ← unwrap_opt (sl_participant_data s !! 2%nat);
  unwrap_opt (part_sig p).

Definition dcontract_mw_tx_alice (inp : MWCoin) (fund_value timelock : Z) (pub_x : PublicKey) :
    P ContractMwResult :=
  sc ← local (spend_coins [inp] fund_value timelock 1 3);
  _ ← send_slate (sc_slate sc);
  bob_msg ← receive_msg;
  ptx2 ← read_slate bob_msg;
  apt_sig_bob ← liftP (third_sig ptx2);
  fin_tx_result ← liftP (fin_tx ptx2 (sc_sig_key sc) (sc_sig_nonce sc) false (Some pub_x) None);
  _ ← send_slate fin_tx_result;
  bob_msg2 ← receive_msg;
  final_slate ← read_slate bob_msg2;
  sig_bob ← liftP (third_sig final_slate);
  x ← liftP (ext_witness sig_bob apt_sig_bob);
  okP (mkContractMwResult final_slate (sc_change_coin sc) x).

Definition dcontract_mw_tx_bob (inp : MWCoin) (fund_value timelock : Z) (x : SecretKey) :
    P ContractMwResult :=
  alice_msg ← receive_msg;
  ptx ← read_slate alice_msg;
  ds ← local (d_spend_coins [inp] ptx fund_value timelock);
  rc ← local (apt_recv_coins (sc_slate ds) fund_value x);
  _ ← send_slate (ar_slate rc);
  alice_msg2 ← receive_msg;
  ptx3 ← read_slate alice_msg2;
  fin_tx_result ← liftP (fin_tx ptx3 (sc_sig_key ds) (sc_sig_nonce ds) true None (Some (ar_prt_sig rc)));
  _ ← send_slate fin_tx_result;
  okP (mkContractMwResult fin_tx_result (Some (ar_output_coin rc)) x).
End code.

(** ** Lemmas *)
Section lemmas.
Context `{BuildProfile, GrinCrates, !KeyLaws, HexCrate, !SlateJson, !SlateJsonLaws, !SerMPCtxJson}.

(** A slate that arrives has everything but the transaction as it was sent. *)
Lemma read_slate_message s text w s' w' :
  slate_to_json s = Ok text -> valid_slate s -> finish (read_slate text) w = (Done (Ok s'), w') ->
  exists o, s' = set_sl_tx o s.
Proof.
  intros Et Hv E. unfold read_slate in E. apply finish_local_Ok in E as [E _].
  apply (proj1 (unwrapM_Ok _ _ _ _)) in E. rewrite (deserialize_to_json _ _ Hv Et) in E.
  apply slate_of_v4_ok in E as (o & _ & ->). eauto.
Qed.

(** Sending a slate begins with its text. *)
Lemma send_slate_bind {A} s (f : unit -> P A) :
  send_slate s ≫= f = (text ← liftP (unwrap (slate_to_json s)); send_msg text ≫= f).
Proof. unfold send_slate. destruct (slate_to_json s); reflexivity. Qed.
Lemma text_sent s w text w' :
  finish (liftP (unwrap (slate_to_json s))) w = (Done (Ok text), w') -> slate_to_json s = Ok text.
Proof. intros E. apply finish_lift_Ok in E as [E _]. exact (proj1 (unwrap_Ok _ _) E). Qed.

Lemma valid_entry sk sn k n sig :
  pk_from_secret_key sk = Some k -> pk_from_secret_key sn = Some n ->
  valid_participant (mkParticipantData k n sig).
Proof. intros Ek En. split; cbn; eapply pk_from_secret_key_valid; eassumption. Qed.

Lemma valid_filter k n l :
  Forall valid_participant l -> Forall valid_participant (filter (fun v => mine k n v = false) l).
Proof.
  intros Hl. apply Forall_forall. intros v Hv. apply list_elem_of_filter in Hv as [_ Hv].
  by eapply Forall_forall in Hl.
Qed.

Lemma valid_set_first test sig n i l l' :
  set_first test sig n i l = Ok l' -> Forall valid_participant l -> Forall valid_participant l'.
Proof.
  intros E Hl. apply Forall_lookup. intros j p' Hj.
  destruct (set_first_keys _ _ _ _ _ _ _ _ E Hj) as (p & Hp & E1 & E2).
  pose proof (Forall_lookup_1 _ _ _ _ Hl Hp) as [V1 V2]. split; congruence.
Qed.

(** Two entries survive the entry of a third only if they are different from it. *)
Lemma filter_keeps k n l p :
  length (filter (fun v => mine k n v = false) l) = length l -> p ∈ l -> mine k n p = false.
Proof.
  intros El Hp. induction l as [|v l IH]; [by apply not_elem_of_nil in Hp|].
  rewrite filter_cons in El.
  assert (Hle : (length (filter (fun v => mine k n v = false) l) <= length l)%nat) by apply length_filter.
  destruct (decide (mine k n v = false)) as [Hv|Hv]; cbn in El; [|lia].
  apply elem_of_cons in Hp as [->|Hp]; [done|]. apply IH; [lia|done].
Qed.
End lemmas.

(** One side sends a slate: its text, and what follows the sending. *)
Tactic Notation "sends_left" hyp(E) ident(text) ident(w) ident(H) :=
  rewrite send_slate_bind in E; apply duet_inv_left in E as (text & w & H & E); [|done];
  apply text_sent in H; rewrite duet_send in E.
Tactic Notation "sends_right" hyp(E) ident(text) ident(w) ident(H) :=
  rewrite send_slate_bind in E; apply duet_inv_right in E as (text & w & H & E); [|done];
  apply text_sent in H; rewrite duet_receive in E.

(** ** The contract: Alice learns x *)
Section contract.
Context `{BuildProfile, GrinCrates, !KeyLaws, !AdaptorLaws, HexCrate, !SlateJson, !SlateJsonLaws,
  !SerMPCtxJson}.

(** The three entries as they change hands: Alice's, Bob's share of the input, and
    Bob's output, which carries the adapted signature. *)
Lemma three_entries kA nA s1 ds x rc apt' :
  sl_participant_data s1 = [mkParticipantData kA nA None] ->
  spent ds (sl_participant_data s1) -> num_participants (sc_slate ds) = 3 ->
  apt_received (sc_slate ds) x rc -> third_sig (ar_slate rc) = Ok apt' ->
  exists k1 n1 k2 n2 sig0,
    pk_from_secret_key (sc_sig_key ds) = Some k1 /\ pk_from_secret_key (sc_sig_nonce ds) = Some n1
    /\ let A := mkParticipantData kA nA None in
       let B1 := mkParticipantData k1 n1 None in
       let B2 := mkParticipantData k2 n2 sig0 in
       mine k1 n1 A = false /\ mine k2 n2 A = false /\ mine k2 n2 B1 = false
       /\ sl_participant_data (ar_slate rc) = [A; B1; with_part_sig (ar_prt_sig rc).1 B2]
       /\ apt' = (ar_prt_sig rc).1.
Proof.
  intros Ep [(k1 & n1 & sig1 & Ek1 & En1 & Ep1 & Hs1)] Enum Hr E3. rewrite Ep in Ep1, Hs1.
  destruct (apt_entry _ _ _ Hr) as (k2 & n2 & sig0 & l & num & -> & Enum' & Eset).
  rewrite Enum in Enum'. subst num. pose proof (set_first_length _ _ _ _ _ _ Eset) as Hlen.
  unfold third_sig in E3. apply res_bind_Ok in E3 as (p3 & Hthird & E3).
  apply (proj1 (unwrap_opt_Ok _ _)) in Hthird, E3.
  pose proof (lookup_lt_Some _ _ _ Hthird) as Hlt. rewrite Hlen, length_app in Hlt. cbn [length] in Hlt.
  assert (Hf2 : length (filter (fun e => mine k2 n2 e = false) (sl_participant_data (sc_slate ds)))
                = length (sl_participant_data (sc_slate ds))
                /\ length (filter (fun v => mine k1 n1 v = false) [mkParticipantData kA nA None]) = 1%nat).
  { pose proof (length_filter (fun e => mine k2 n2 e = false) (sl_participant_data (sc_slate ds))) as L2.
    pose proof (length_filter (fun e => mine k1 n1 e = false) [mkParticipantData kA nA None]) as L1.
    rewrite Ep1, length_app in *. cbn [length] in *. lia. }
  destruct Hf2 as [Hf2 Hf1].
  assert (HA1 : mine k1 n1 (mkParticipantData kA nA None) = false).
  { apply (filter_keeps k1 n1 [mkParticipantData kA nA None]); [done|by left]. }
  rewrite filter_mine_all in Ep1 by (by repeat constructor).
  rewrite (Hs1 ltac:(by repeat constructor)) in Ep1. cbn [app] in Ep1. rewrite Ep1 in *.
  assert (HA2 : mine k2 n2 (mkParticipantData kA nA None) = false).
  { eapply filter_keeps; [exact Hf2|by left]. }
  assert (HB2 : mine k2 n2 (mkParticipantData k1 n1 None) = false).
  { eapply filter_keeps; [exact Hf2|by right; left]. }
  rewrite filter_mine_all in Eset by (by repeat constructor). cbn [app] in Eset.
  rewrite (set_first_at _ _ 2 (mkParticipantData k2 n2 sig0)) in Eset.
  - injection Eset as Eset. cbn in Eset. rewrite <- Eset in Hthird |- *. cbn in Hthird. injection Hthird as <-. cbn in E3. injection E3 as <-.
    exists k1, n1, k2, n2, sig0. done.
  - done.
  - by apply mine_true.
  - cbn. lia.
  - intros [|[|j]] q Hj Hq; [by injection Hq as <-|by injection Hq as <-|lia].
Qed.

(** Alice adds her signature to the first entry; the others stay. *)
Lemma alice_signs kA nA b1 b2 sigA l :
  set_first (mine kA nA) sigA 3 0 [mkParticipantData kA nA None; b1; b2] = Ok l ->
  l = [mkParticipantData kA nA (Some sigA); b1; b2].
Proof.
  rewrite (set_first_at _ _ 0 (mkParticipantData kA nA None)); [by intros [= <-]|done| |lia|].
  - by apply mine_true.
  - intros j q Hj. lia.
Qed.

(** Bob puts his plain signature back, in his own entry or, should Alice's
    signature be the adapted one, in hers; then he signs his share. *)
Lemma bob_signs k1 n1 kA nA sigA B2 apt sig sig1 l1 l2 :
  mine k1 n1 (mkParticipantData kA nA None) = false ->
  set_first (has_sig apt) sig 3 0
    [mkParticipantData kA nA (Some sigA); mkParticipantData k1 n1 None; with_part_sig apt B2] = Ok l1 ->
  set_first (mine k1 n1) sig1 3 0 l1 = Ok l2 ->
  exists p, l2 !! 2%nat = Some p /\ (part_sig p = Some sig \/ part_sig p = Some apt)
    /\ length l2 = 3%nat.
Proof.
  intros HA Hs1 Hs2. destruct (decide (sigA = apt)) as [->|Hne].
  - rewrite (set_first_at _ _ 0 (mkParticipantData kA nA (Some apt))) in Hs1;
      [|done|by apply bool_decide_eq_true|lia|intros j q Hj; lia].
    injection Hs1 as <-. cbn [insert list_insert] in Hs2.
    rewrite (set_first_at _ _ 1 (mkParticipantData k1 n1 None)) in Hs2; [|done|by apply mine_true|lia|].
    + injection Hs2 as <-. cbn. eauto.
    + intros [|j] q Hj Hq; [|lia]. by injection Hq as <-.
  - rewrite (set_first_at _ _ 2 (with_part_sig apt B2)) in Hs1;
      [|done|by apply bool_decide_eq_true|lia|].
    + injection Hs1 as <-. cbn [insert list_insert] in Hs2.
      rewrite (set_first_at _ _ 1 (mkParticipantData k1 n1 None)) in Hs2; [|done|by apply mine_true|lia|].
      * injection Hs2 as <-. cbn. eauto.
      * intros [|j] q Hj Hq; [|lia]. by injection Hq as <-.
    + intros [|[|j]] q Hj Hq; [|by injection Hq as <-|lia].
      injection Hq as <-. apply bool_decide_eq_false. cbn. congruence.
Qed.

(** What is left of the conversation once the messages are matched up. *)
Lemma same_amount s t : same_but_participants s t -> sl_amount s = sl_amount t.
Proof. intros E. by injection E. Qed.

Record contract_run (inp_a inp_b : MWCoin) (fund timelock fund' timelock' : Z) (pub_x : PublicKey)
    (x : SecretKey) (ra rb : ContractMwResult) : Prop := {
  cr_steps : exists sc s1 ds rc apt s2 s3 s4 s5 sig t1 t1' t2 t2' t3 t3' o1 o2 o3 o4,
    spend_coins [inp_a] fund timelock 1 3 t1 = (Ok sc, t1')
    /\ s1 = set_sl_tx o1 (sc_slate sc)
    /\ d_spend_coins [inp_b] s1 fund' timelock' t2 = (Ok ds, t2')
    /\ apt_recv_coins (sc_slate ds) fund' x t3 = (Ok rc, t3')
    /\ s2 = set_sl_tx o2 (ar_slate rc)
    /\ third_sig s2 = Ok apt
    /\ fin_tx s2 (sc_sig_key sc) (sc_sig_nonce sc) false (Some pub_x) None = Ok s3
    /\ s4 = set_sl_tx o3 s3
    /\ fin_tx s4 (sc_sig_key ds) (sc_sig_nonce ds) true None (Some (ar_prt_sig rc)) = Ok s5
    /\ cm_tx rb = s5 /\ cm_x rb = x /\ cm_tx ra = set_sl_tx o4 s5
    /\ third_sig (cm_tx ra) = Ok sig /\ ext_witness sig apt = Ok (cm_x ra) }.

Lemma valid_d_spend ins s fund tl t r t' :
  d_spend_coins ins s fund tl t = (Ok r, t') -> valid_slate s -> valid_slate (sc_slate r).
Proof.
  intros E Hv. apply d_spend_coins_ok in E as ([(k & n & sig & Ek & En & Ep & _)] & _).
  unfold valid_slate. rewrite Ep. apply Forall_app. split; [by apply valid_filter|].
  repeat constructor; cbn; eapply pk_from_secret_key_valid; eassumption.
Qed.

Lemma valid_apt_recv s v x t r t' :
  apt_recv_coins s v x t = (Ok r, t') -> valid_slate s -> valid_slate (ar_slate r).
Proof.
  unfold apt_recv_coins. intros E Hv. apply M_bind_Ok in E as (o & t1 & Eo & E).
  apply recv_output_ok in Eo as (k & n & sig0 & c & tx & f & Ek & En & Hp & _).
  m_inv. unfold set_first_in in *. res_inv. unfold valid_slate. cbn.
  eapply valid_set_first; [eassumption|]. rewrite Hp. apply Forall_app.
  split; [by apply valid_filter|]. repeat constructor; cbn; eapply pk_from_secret_key_valid; eassumption.
Qed.

Lemma valid_fin_tx s sk sn fin px rep s' :
  fin_tx s sk sn fin px rep = Ok s' -> valid_slate s -> valid_slate s'.
Proof.
  intros E Hv. apply fin_tx_ok in E as (s1 & E & Ep & _). unfold valid_slate. injection Ep as _ _ _ _ _ _ _ _ _ -> _ _.
  destruct px as [x|].
  - apply fin_adapted_ok in E as (k & n & sig & _ & _ & _ & E & _). by eapply valid_set_first.
  - apply fin_plain_ok in E as (s2 & k & n & sig & _ & _ & _ & Er & _ & _ & E).
    eapply valid_set_first; [exact E|]. destruct rep as [[old new]|]; [|by subst].
    by eapply valid_set_first.
Qed.

Lemma valid_spend ins fund tl n num t r t' :
  spend_coins ins fund tl n num t = (Ok r, t') -> valid_slate (sc_slate r).
Proof.
  intros E. apply spend_coins_entry in E as (_ & _ & k & nn & Ek & En & Ep). unfold valid_slate.
  rewrite Ep. repeat constructor; cbn; eapply pk_from_secret_key_valid; eassumption.
Qed.

Lemma contract_steps inp_a inp_b fund timelock fund' timelock' pub_x x wa wb ra wa' rb wb' :
  duet (dcontract_mw_tx_alice inp_a fund timelock pub_x)
       (dcontract_mw_tx_bob inp_b fund' timelock' x) wa wb
  = ((Done (Ok ra), wa'), (Done (Ok rb), wb')) ->
  contract_run inp_a inp_b fund timelock fund' timelock' pub_x x ra rb.
Proof.
  unfold dcontract_mw_tx_alice, dcontract_mw_tx_bob. intros E.
  apply duet_inv_left in E as (sc & w1 & Esc & E); [|done]. sends_left E txt1 wt1 X1.
  apply finish_local_Ok in Esc as [Esc _]. pose proof (valid_spend _ _ _ _ _ _ _ _ Esc) as V1.
  apply duet_inv_right in E as (s1 & w2 & E1 & E); [|done]. apply (read_slate_message _ _ _ _ _ X1) in E1 as [o1 E1]; [|done].
  apply duet_inv_right in E as (ds & w3 & Eds & E); [|done]. apply finish_local_Ok in Eds as [Eds _].
  assert (V2 : valid_slate (sc_slate ds)) by (eapply valid_d_spend; [exact Eds|by rewrite E1]).
  apply duet_inv_right in E as (rc & w4 & Erc & E); [|done]. apply finish_local_Ok in Erc as [Erc _].
  pose proof (valid_apt_recv _ _ _ _ _ _ Erc V2) as V3. sends_right E txt2 wt2 X2.
  apply duet_inv_left in E as (s2 & w5 & E2 & E); [|done]. apply (read_slate_message _ _ _ _ _ X2) in E2 as [o2 E2]; [|done].
  apply duet_inv_left in E as (apt & w6 & E3 & E); [|done]. apply finish_lift_Ok in E3 as [E3 _].
  apply duet_inv_left in E as (s3 & w7 & E4 & E); [|done]. apply finish_lift_Ok in E4 as [E4 _].
  assert (V4 : valid_slate s3) by (eapply valid_fin_tx; [exact E4|by rewrite E2]).
  sends_left E txt3 wt3 X3.
  apply duet_inv_right in E as (s4 & w8 & E5 & E); [|done]. apply (read_slate_message _ _ _ _ _ X3) in E5 as [o3 E5]; [|done].
  apply duet_inv_right in E as (s5 & w9 & E6 & E); [|done]. apply finish_lift_Ok in E6 as [E6 _].
  assert (V5 : valid_slate s5) by (eapply valid_fin_tx; [exact E6|by rewrite E5]).
  sends_right E txt4 wt4 X4.
  apply duet_inv_left in E as (s6 & w10 & E7 & E); [|done]. apply (read_slate_message _ _ _ _ _ X4) in E7 as [o4 E7]; [|done].
  apply duet_inv_left in E as (sig & w11 & E8 & E); [|done]. apply finish_lift_Ok in E8 as [E8 _].
  apply duet_inv_left in E as (y & w12 & E9 & E); [|done]. apply finish_lift_Ok in E9 as [E9 _].
  cbn in E. injection E as <- _ <- _. constructor. cbn.
  exists sc, s1, ds, rc, apt, s2, s3, s4, s5, sig. do 6 eexists. exists o1, o2, o3, o4.
  repeat (split; [eassumption || reflexivity|]). done.
Qed.

(** How the finished slate of a contract reveals a secret: the signature of the third
    entry and one shown before are the same signature, made with one key and one nonce
    for one message, but for the secret hidden in the latter, and their difference,
    which [ext_witness] computes, is that secret. *)
Definition reveals (s : Slate) (x : SecretKey) : Prop :=
  exists sig apt msg key nonce pn pb,
    third_sig s = Ok sig
    /\ sign_single msg key (Some nonce) None (Some pn) (Some pb) (Some pn) = Some sig
    /\ sign_single msg key (Some nonce) (Some x) (Some pn) (Some pb) (Some pn) = Some apt
    /\ ext_witness sig apt = Ok x.

Lemma contract_outcome inp_a inp_b fund timelock fund' timelock' pub_x x wa wb ra wa' rb wb' :
  duet (dcontract_mw_tx_alice inp_a fund timelock pub_x)
       (dcontract_mw_tx_bob inp_b fund' timelock' x) wa wb
  = ((Done (Ok ra), wa'), (Done (Ok rb), wb')) ->
  (cm_x ra = x /\ cm_x rb = x
  /\ sl_participant_data (cm_tx ra) = sl_participant_data (cm_tx rb)
  /\ (exists s, finalize s = Ok (cm_tx rb))
  /\ fund = fund' /\ sl_amount (cm_tx rb) = fund)
  /\ reveals (cm_tx rb) x.
Proof.
  intros E.
  apply contract_steps in E as [(sc & s1 & ds & rc & apt & s2 & s3 & s4 & s5 & sig & t1 & t1' & t2
    & t2' & t3 & t3' & o1 & o2 & o3 & o4 & Esc & Es1 & Eds & Erc & Es2 & Eapt & Efa & Es4 & Efb & Erb
    & Ex' & Era & Esig & Ex)].
  apply spend_coins_entry in Esc as (Enum & Eamt & kA & nA & EkA & EnA & EpA). cbn in Enum.
  apply d_spend_coins_ok in Eds as (Hds & Hsame & Hamt & _).
  assert (N1 : num_participants (sc_slate ds) = 3).
  { rewrite (same_num _ _ Hsame), Es1. unfold num_participants. cbn. by rewrite Enum. }
  apply apt_recv_coins_ok in Erc as [Hrc _].
  assert (Ep1 : sl_participant_data s1 = [mkParticipantData kA nA None]) by (by rewrite Es1).
  assert (Eapt' : third_sig (ar_slate rc) = Ok apt) by (by rewrite Es2 in Eapt).
  destruct (three_entries kA nA s1 ds x rc apt Ep1 Hds N1 Hrc Eapt')
    as (k1 & n1 & k2 & n2 & sig0 & Ek1 & En1 & HA1 & _ & _ & Ep3 & ->).
  assert (N3 : num_participants (ar_slate rc) = 3) by (rewrite (apt_num _ _ _ Hrc); exact N1).
  destruct (fin_tx_ok _ _ _ _ _ _ _ Efa) as (s3' & Efa' & _ & E3' & _). cbn in E3'. subst s3'.
  apply fin_adapted_ok in Efa' as (kA' & nA' & sigA & EkA' & EnA' & Hs3 & Eset & _).
  rewrite EkA in EkA'. rewrite EnA in EnA'. injection EkA' as <-. injection EnA' as <-.
  assert (N2 : num_participants s2 = 3) by (rewrite Es2; exact N3).
  rewrite N2, Es2 in Eset. cbn [sl_participant_data set_sl_tx] in Eset.
  rewrite Ep3 in Eset. apply alice_signs in Eset.
  destruct (fin_tx_ok _ _ _ _ _ _ _ Efb) as (s5' & Efb' & Hsf & Efin & _). cbn in Efin.
  injection Hsf as _ _ _ _ A5 _ _ _ _ Ep5 _ _.
  apply fin_plain_ok in Efb' as (sr & k1' & n1' & sig1 & Ek1' & En1' & Hs5 & Erep & _ & _ & Eset1).
  rewrite Ek1 in Ek1'. rewrite En1 in En1'. injection Ek1' as <-. injection En1' as <-.
  assert (N4 : num_participants s4 = 3).
  { rewrite Es4. transitivity (num_participants s3); [done|].
    rewrite (same_num _ _ Hs3), Es2. exact N3. }
  destruct (ar_prt_sig rc) as [asig psig] eqn:Eprt. rewrite N4 in Erep, Eset1.
  rewrite Es4 in Erep. cbn [sl_participant_data set_sl_tx] in Erep. rewrite Eset in Erep.
  destruct (bob_signs _ _ _ _ _ _ _ _ _ _ _ HA1 Erep Eset1) as (p & Hp & Hsig & _).
  assert (Hth : part_sig p = Some sig).
  { rewrite Era in Esig. unfold third_sig in Esig. cbn [sl_participant_data set_sl_tx] in Esig.
    rewrite Ep5, Hp in Esig. cbn in Esig. by destruct (part_sig p); [injection Esig as ->|]. }
  assert (Hs : sig = (ar_prt_sig rc).2 \/ sig = (ar_prt_sig rc).1).
  { rewrite Eprt. cbn. rewrite Hth in Hsig. destruct Hsig as [[= ->]|[= ->]]; auto. }
  assert (Hx : cm_x ra = x).
  { eapply (ext_witness_exact _ x rc sig); [exact Hrc|exact Hs|rewrite Eprt; exact Ex]. }
  assert (Eth : third_sig (cm_tx rb) = Ok sig).
  { rewrite Erb. rewrite Era in Esig. exact Esig. }
  split; [split; [done|split; [done|split; [|split]]]|].
  - by rewrite Era, Erb.
  - rewrite Erb. eauto.
  - assert (A1 : sl_amount s1 = fund) by (by rewrite Es1). split; [congruence|].
    rewrite Erb, A5, (same_amount _ _ Hs5), Es4. cbn. rewrite (same_amount _ _ Hs3), Es2. cbn.
    rewrite (apt_amount _ _ _ Hrc), (same_amount _ _ Hsame). exact A1.
  - destruct (apt_sigs _ _ _ Hrc) as (msg & key & nonce & pn & pb & _ & S1 & S2).
    rewrite Eprt in S1, S2, Hs. cbn [fst snd] in S1, S2, Hs.
    rewrite Hx in Ex. destruct Hs as [->| ->]; [by exists psig, asig, msg, key, nonce, pn, pb|].
    exfalso. apply ext_witness_ok in Ex as (a & b & n & Ea & Eb & En & Ey).
    cbn in Eb. rewrite Ea in Eb. injection Eb as <-. by rewrite (sk_add_neg _ _ En) in Ey.
Qed.

(** C5: The contract reveals the secret.  Whenever the two sides of the contract
    transaction run against each other to the end, the scalar Alice extracts is
    exactly the x Bob hid in his signature, the transaction Bob can publish is
    finalised, and both hold the same signatures.  Nothing is assumed of the coins,
    the amounts, the time lock or the X that Alice was given. *)
Theorem contract_reveals_witness inp_a inp_b fund timelock fund' timelock' pub_x x wa wb ra wa' rb wb' :
  duet (dcontract_mw_tx_alice inp_a fund timelock pub_x)
       (dcontract_mw_tx_bob inp_b fund' timelock' x) wa wb
  = ((Done (Ok ra), wa'), (Done (Ok rb), wb')) ->
  cm_x ra = x /\ cm_x rb = x
  /\ sl_participant_data (cm_tx ra) = sl_participant_data (cm_tx rb)
  /\ (exists s, finalize s = Ok (cm_tx rb))
  /\ fund = fund' /\ sl_amount (cm_tx rb) = fund.
Proof. intros E. by apply contract_outcome in E as [E _]. Qed.
End contract.

(** ** The shared output *)
Section shared_output.
Context `{BuildProfile, GrinCrates, !KeyLaws, HexCrate, !HexLaws, !SlateJson, !SlateJsonLaws,
  !SerMPCtxJson, !SerMPCtxJsonLaws}.

(** One step of either side, inside a longer conversation. *)
Tactic Notation "lstep" hyp(E) ident(y) ident(w) ident(H) :=
  eapply conv_inv_left in E as (y & w & H & E); [|eassumption|done|eassumption].
Tactic Notation "rstep" hyp(E) ident(y) ident(w) ident(H) :=
  eapply conv_inv_right in E as (y & w & H & E); [|eassumption|done|eassumption].

Lemma conv_send {A B C D} m (f : unit -> P A) (g : string -> P B) (K : Res A -> prog C)
    (K' : Res B -> prog D) wa wb :
  duet (pbind (send_msg m ≫= f) K) (pbind (receive_msg ≫= g) K') wa wb
  = duet (pbind (f tt) K) (pbind (g m) K') (log (EvSent m) wa) (log (EvReceived m) wb).
Proof. reflexivity. Qed.
Lemma conv_receive {A B C D} m (f : string -> P A) (g : unit -> P B) (K : Res A -> prog C)
    (K' : Res B -> prog D) wa wb :
  duet (pbind (receive_msg ≫= f) K) (pbind (send_msg m ≫= g) K') wa wb
  = duet (pbind (f m) K) (pbind (g tt) K') (log (EvReceived m) wa) (log (EvSent m) wb).
Proof. reflexivity. Qed.

(** Amount and commitment of a proof context arrive as they were sent. *)
Lemma prf_ctx_arrives c w d w' :
  finish (liftP (MPBPContext_from_string (MPBPContext_to_string c))) w = (Done (Ok d), w') ->
  mp_amount d = mp_amount c /\ mp_commit d = mp_commit c.
Proof.
  intros E. apply finish_lift_Ok in E as [E _]. unfold MPBPContext_from_string, MPBPContext_to_string in E.
  rewrite ser_mp_ctx_of_to_json in E. cbn in E. res_inv. cbn.
  match goal with H : deserialize_commitment _ = Ok _ |- _ => rewrite commitment_roundtrip in H end.
  split; congruence.
Qed.

Lemma drecv_r1_ok s v t r t' : drecv_coins_r1 s v t = (Ok r, t') ->
  mp_amount (dr_prf_ctx r) = v /\ secp_commit v (dr_out_key_blind r) = Some (mp_commit (dr_prf_ctx r))
  /\ exists k n sig, pk_from_secret_key (dr_out_key_blind r) = Some k
       /\ pk_from_secret_key (dr_sig_nonce r) = Some n
       /\ sl_participant_data (dr_slate r)
          = filter (fun e => mine k n e = false) (sl_participant_data s) ++ [mkParticipantData k n sig].
Proof.
  unfold drecv_coins_r1, create_secret_key. intros E. m_inv.
  match goal with H : mp_bullet_proof_r1 _ _ _ _ = _ |- _ => apply mp_r1_same in H as [(-> & _ & ->) _] end.
  match goal with H : fill_round_1 _ _ = Ok _ |- _ =>
    apply fill_round_1_spec in H as (k & n & sig & Ek & En & _ & Hp & _) end.
  cbn in *. split; [done|]. split; [done|]. eauto 10.
Qed.

Lemma drecv_r2_ok s v c t r d t' : drecv_coins_r2 s v c t = (Ok (r, d), t') ->
  mp_amount d = mp_amount c
  /\ exists blind com, secp_commit 0 blind = Some com
       /\ secp_commit_sum [mp_commit c; com] [] = Some (mp_commit d)
       /\ rc_output_coin r = MWCoin_new (mp_commit d) blind v
       /\ (valid_slate s -> valid_slate (rc_slate r)).
Proof.
  unfold drecv_coins_r2, create_secret_key, add_commit. intros E. m_inv.
  match goal with H : mp_bullet_proof_r1 _ _ _ _ = _ |- _ => apply mp_r1_same in H as [(A1 & _ & C1) _] end.
  match goal with H : mp_bullet_proof_r2 _ _ _ _ = _ |- _ => apply mp_r2_same in H as [(A2 & _ & C2) _] end.
  match goal with H : fill_round_1 _ _ = Ok _ |- _ =>
    apply fill_round_1_spec in H as (k & n & sig & Ek & En & _ & Hp & _) end.
  match goal with H : fill_round_2 _ _ _ = Ok _ |- _ => rename H into Hf end.
  cbn in *. split; [congruence|]. eexists _, _. rewrite C2, C1. cbn.
  split; [eassumption|]. split; [eassumption|]. split; [reflexivity|].
  intros Hv. unfold fill_round_2, set_first_in in Hf. res_inv. unfold valid_slate. cbn.
  eapply valid_set_first; [eassumption|]. rewrite Hp. apply Forall_app.
  split; [by apply valid_filter|]. repeat constructor; cbn; eapply pk_from_secret_key_valid; eassumption.
Qed.

Lemma drecv_r3_ok s c b pn sn t r t' : drecv_coins_r3 s c b pn sn t = (Ok r, t') ->
  rc_output_coin r = MWCoin_new (mp_commit c) b (mp_amount c)
  /\ (valid_slate s -> valid_slate (rc_slate r)).
Proof.
  unfold drecv_coins_r3. intros E. m_inv. split; [done|]. intros Hv.
  match goal with H : update_kernel _ = Ok _ |- _ => apply update_kernel_ok in H as (tx & f & _ & _ & ->) end.
  match goal with H : fill_round_2 _ _ _ = Ok _ |- _ => rename H into Hf end.
  unfold fill_round_2, set_first_in in Hf. res_inv. unfold valid_slate. cbn.
  by eapply valid_set_first.
Qed.

(** The coin both own, by the two shares. *)
Definition coin_shared (fund fund' : Z) (ra rb : DSharedOutMwTxResult) : Prop :=
  exists blind_a blind_b com_a com_b com,
    secp_commit fund blind_a = Some com_a /\ secp_commit 0 blind_b = Some com_b
    /\ secp_commit_sum [com_a; com_b] [] = Some com
    /\ ds_shared_coin ra = MWCoin_new com blind_a fund
    /\ ds_shared_coin rb = MWCoin_new com blind_b fund'.

(** The protocol as a part of a longer conversation: both sides come to its end. *)
Lemma shared_output_run {C D} (ga : C -> Prop) (gb : D -> Prop) (K : Res DSharedOutMwTxResult -> prog C)
    (K' : Res DSharedOutMwTxResult -> prog D) inp fund timelock fund' wa wb c wa' d wb' :
  strict ga K -> strict gb K' -> ga c -> gb d ->
  duet (pbind (dshared_out_mw_tx_alice inp fund timelock) K) (pbind (dshared_out_mw_tx_bob fund') K')
    wa wb = ((Done c, wa'), (Done d, wb')) ->
  exists ra rb w1 w2, coin_shared fund fund' ra rb
    /\ duet (K (Ok ra)) (K' (Ok rb)) w1 w2 = ((Done c, wa'), (Done d, wb')).
Proof.
  intros HK HK' Hc Hd. unfold dshared_out_mw_tx_alice, dshared_out_mw_tx_bob. intros E.
  lstep E sc w1 Esc. apply finish_local_Ok in Esc as [Esc _]. apply (proj1 (unwrapM_Ok _ _ _ _)) in Esc.
  pose proof (valid_spend _ _ _ _ _ _ _ _ Esc) as V1.
  lstep E r1 w2 Er1. apply finish_local_Ok in Er1 as [Er1 _]. apply (proj1 (unwrapM_Ok _ _ _ _)) in Er1.
  apply drecv_r1_ok in Er1 as (A1 & C1 & k1 & n1 & sig1 & Ek1 & En1 & Ep1).
  assert (V2 : valid_slate (dr_slate r1)).
  { unfold valid_slate. rewrite Ep1. apply Forall_app. split; [by apply valid_filter|].
    repeat constructor; cbn; eapply pk_from_secret_key_valid; eassumption. }
  rewrite send_slate_bind in E. lstep E txt1 wt1 X1. apply text_sent in X1. rewrite conv_send, conv_send in E.
  rstep E s1 w3 E1. apply (read_slate_message _ _ _ _ _ X1) in E1 as [o1 E1]; [|done].
  rstep E c1 w4 Ec1. apply prf_ctx_arrives in Ec1 as [A2 C2].
  rstep E r2 w5 Er2. apply finish_local_Ok in Er2 as [Er2 _]. destruct r2 as [r2 c2].
  apply drecv_r2_ok in Er2 as (A3 & blind_b & com_b & Cb & Csum & Ecoin & V3).
  specialize (V3 ltac:(by rewrite E1)). cbn [fst snd] in E.
  rewrite send_slate_bind in E. rstep E txt2 wt2 X2. apply text_sent in X2. rewrite conv_receive, conv_receive in E.
  lstep E s2 w6 E2. apply (read_slate_message _ _ _ _ _ X2) in E2 as [o2 E2]; [|done].
  lstep E c3 w7 Ec3. apply prf_ctx_arrives in Ec3 as [A4 C4].
  lstep E r3 w8 Er3. apply finish_local_Ok in Er3 as [Er3 _]. apply (proj1 (unwrapM_Ok _ _ _ _)) in Er3.
  apply drecv_r3_ok in Er3 as [Ecoin3 V4].
  lstep E s3 w9 E3. apply finish_lift_Ok in E3 as [E3 _].
  rewrite send_slate_bind in E. lstep E txt3 wt3 X3. rewrite conv_send in E.
  rstep E s4 w10 E4. eexists _, _, _, _. split; [|exact E].
  exists (dr_out_key_blind r1), blind_b, (mp_commit (dr_prf_ctx r1)), com_b, (mp_commit c2).
  split; [done|]. split; [done|]. split; [by rewrite <- C2|]. split; [|done].
  cbn. rewrite Ecoin3, C4, A4, A3, A2, A1. done.
Qed.

(** The coin both own.  When the shared-output protocol runs to its end, the two
    shares name the same commitment, the sum of Alice's commitment to her amount
    and Bob's commitment to zero, and each share holds one of the two blinding
    factors.  Alice's share is worth what she committed to; the value in Bob's is
    the one he expected, which nothing compares with hers. *)
Theorem shared_output_agrees inp fund timelock fund' wa wb ra wa' rb wb' :
  duet (dshared_out_mw_tx_alice inp fund timelock) (dshared_out_mw_tx_bob fund') wa wb
  = ((Done (Ok ra), wa'), (Done (Ok rb), wb')) ->
  exists blind_a blind_b com_a com_b com,
    secp_commit fund blind_a = Some com_a /\ secp_commit 0 blind_b = Some com_b
    /\ secp_commit_sum [com_a; com_b] [] = Some com
    /\ ds_shared_coin ra = MWCoin_new com blind_a fund
    /\ ds_shared_coin rb = MWCoin_new com blind_b fund'.
Proof.
  intros E. apply (duet_pbind _ Ret Ret) in E. change (duet (Ret _) (Ret _) _ _) with
    ((Done (@Ok DSharedOutMwTxResult ra), wa'), (Done (@Ok DSharedOutMwTxResult rb), wb')) in E.
  eapply shared_output_run in E as (ra' & rb' & w1 & w2 & Hs & E2);
    [|apply strict_Ret|apply strict_Ret|done|done].
  injection E2 as -> _ -> _. exact Hs.
Qed.
End shared_output.

(** ** The shared input: the refund *)
Section shared_input.
Context `{BuildProfile, GrinCrates, !TxLaws, !KeyLaws, HexCrate, !SlateJson, !SlateJsonLaws,
  !SerMPCtxJson}.

(** What every step hands on: the kernel and the amount of the slate. *)
Definition same_terms (s t : Slate) : Prop := same_kernel s t /\ sl_amount s = sl_amount t.
#[local] Instance same_terms_trans : Transitive same_terms.
Proof.
  intros s t u [(E1 & E2 & E3) E4] [(F1 & F2 & F3) F4]. repeat split; congruence.
Qed.

Lemma same_terms_participants s t : same_but_participants s t -> same_terms s t.
Proof. intros E. split; [by apply same_but_participants_kernel|by injection E]. Qed.
Lemma same_terms_tx o s : same_terms (set_sl_tx o s) s.
Proof. done. Qed.

Lemma recv_coins_ok s v t r t' : recv_coins s v t = (Ok r, t') ->
  same_terms (rc_slate r) s /\ (valid_slate s -> valid_slate (rc_slate r)).
Proof.
  unfold recv_coins. intros E. apply M_bind_Ok in E as (o & t1 & Eo & E).
  apply recv_output_ok in Eo as (k & n & sig0 & c & tx & f & Ek & En & Hp & _ & _ & _ & _ & Hs & _).
  m_inv. match goal with H : fill_round_2 _ _ _ = Ok _ |- _ => rename H into Hf end.
  unfold fill_round_2, set_first_in in Hf. res_inv. cbn.
  split; [by apply same_terms_participants in Hs|]. intros Hv. unfold valid_slate. cbn.
  eapply valid_set_first; [eassumption|]. rewrite Hp. apply Forall_app.
  split; [by apply valid_filter|]. repeat constructor; cbn; eapply pk_from_secret_key_valid; eassumption.
Qed.

Lemma same_terms_fin s sk sn fin px rep s' :
  fin_tx s sk sn fin px rep = Ok s' -> same_terms s' s.
Proof.
  intros E. apply fin_tx_ok in E as (s1 & E & Hsf & _).
  assert (Ht : same_terms s' s1).
  { injection Hsf as _ _ _ _ Ea Ef _ Ek _ _ _ Eka. repeat split; congruence. }
  etransitivity; [exact Ht|]. apply same_terms_participants. destruct px as [x|].
  - apply fin_adapted_ok in E as (k & n & sig & _ & _ & Hs & _). done.
  - apply fin_plain_ok in E as (s2 & k & n & sig & _ & _ & Hs & _). done.
Qed.

(** The kernel a slate asks for when its time lock was found valid. *)
Lemma timelock_kernel s t : timelock_valid s t = Ok true ->
  kernel_features s = Ok (if t =? 0 then KPlain (sl_fee_fields s) else KHeightLocked (sl_fee_fields s) t).
Proof.
  unfold timelock_valid, kernel_features. destruct (t =? 0); cbn [negb]; intros E.
  - injection E as E. apply Z.eqb_eq in E. by rewrite E.
  - destruct (Z.eqb_spec (sl_kernel_features s) 2) as [E2|]; [|done]. rewrite E2.
    destruct (sl_kernel_features_args s) as [a|]; [|done]. cbn in *. injection E as E.
    apply Z.eqb_eq in E. by rewrite E.
Qed.

Lemma kernel_features_terms s t : same_terms s t -> kernel_features s = kernel_features t.
Proof. intros [(E1 & E2 & E3) _]. unfold kernel_features. by rewrite E1, E2, E3. Qed.

(** Finalising a slate whose kernel was just renewed leaves that kernel's features. *)
Lemma finalize_updated s s1 s' f :
  kernel_features s = Ok f -> update_kernel s = Ok s1 -> finalize s1 = Ok s' ->
  exists tx k, sl_tx s' = Some tx /\ tx_kernels tx = [k] /\ kern_features k = f
    /\ tx_validate tx = Ok tt.
Proof.
  intros Ef Eu Efin. apply update_kernel_ok in Eu as (tx & f' & _ & Ef' & ->).
  rewrite Ef in Ef'. injection Ef' as <-.
  apply finalize_finalised, finalised_tx in Efin as (tx1 & k & sig & ex & Et & Ek & -> & Hv).
  cbn in Et. injection Et as <-. rewrite tx_kernels_replace_kernel in Ek. injection Ek as <-.
  eexists _, _. split; [reflexivity|]. split; [apply tx_kernels_replace_kernel|].
  split; [cbn; apply kern_features_with|done].
Qed.

(** ** What a slate spends, through the whole protocol *)
Definition slate_inputs (s : Slate) : option (list Commitment) :=
  (fun tx => inputs_commits (tx_inputs tx)) <$> sl_tx s.

Lemma slate_inputs_participants s t : same_but_participants s t -> slate_inputs s = slate_inputs t.
Proof. intros E. unfold slate_inputs. by injection E as _ _ _ _ -> _. Qed.

Lemma slate_inputs_update s s' : update_kernel s = Ok s' -> slate_inputs s' = slate_inputs s.
Proof.
  intros E. apply update_kernel_ok in E as (tx & f & Et & _ & ->). unfold slate_inputs.
  rewrite Et. cbn. by rewrite tx_inputs_replace_kernel.
Qed.

Lemma slate_inputs_finalize s s' : finalize s = Ok s' -> slate_inputs s' = slate_inputs s.
Proof.
  intros E. apply finalize_finalised, finalised_tx in E as (tx & k & sig & ex & Et & _ & -> & _).
  unfold slate_inputs. rewrite Et. cbn. by rewrite tx_inputs_replace_kernel.
Qed.

Lemma slate_inputs_fin s sk sn fin px rep s' :
  fin_tx s sk sn fin px rep = Ok s' -> slate_inputs s' = slate_inputs s.
Proof.
  intros E. apply fin_tx_ok in E as (s1 & E & _ & Ef & _).
  transitivity (slate_inputs s1).
  - destruct fin; [by apply slate_inputs_finalize|by subst].
  - apply slate_inputs_participants. destruct px as [x|].
    + by apply fin_adapted_ok in E as (k & n & sig & _ & _ & Hs & _).
    + by apply fin_plain_ok in E as (s2 & k & n & sig & _ & _ & Hs & _).
Qed.

Lemma slate_inputs_recv s v t r t' cs :
  recv_coins s v t = (Ok r, t') -> slate_inputs s = Some cs -> slate_inputs (rc_slate r) = Some cs.
Proof.
  unfold recv_coins. intros E Hc. apply M_bind_Ok in E as (o & t1 & Eo & E).
  apply recv_output_ok in Eo as (k & n & sig0 & c & tx & f & _ & _ & _ & _ & _ & _ & _ & Hs & rn & pn & Etx).
  m_inv. match goal with H : fill_round_2 _ _ _ = Ok _ |- _ => rename H into Hf end.
  unfold fill_round_2, set_first_in in Hf. res_inv. cbn. unfold slate_inputs in *. cbn.
  injection Hs as _ _ _ _ Hs _ _ _ _ _ _ _. rewrite Hs. cbn.
  rewrite tx_inputs_replace_kernel, tx_inputs_with_output. unfold tx_or_empty.
  destruct (sl_tx s); [exact Hc|done].
Qed.

(** A slate that arrives spends what it spent when it was sent. *)
Lemma slate_inputs_arrive s text w s' w' :
  slate_to_json s = Ok text -> valid_slate s -> finish (read_slate text) w = (Done (Ok s'), w') ->
  slate_inputs s' = slate_inputs s.
Proof.
  intros Et Hv E. unfold read_slate in E. apply finish_local_Ok in E as [E _].
  apply (proj1 (unwrapM_Ok _ _ _ _)) in E. rewrite (deserialize_to_json _ _ Hv Et) in E.
  apply slate_of_v4_ok in E as (o & E & ->). apply tx_from_slate_v4_ok in E.
  unfold slate_inputs. cbn [v4_coms v4_of_slate sl_tx set_sl_tx] in *.
  destruct (sl_tx s) as [tx|] eqn:Etx.
  - rewrite (coms_of_slate_some s tx Etx) in E. destruct E as (tx' & ex & sig & -> & Ei & _).
    rewrite omap_inputs in Ei. cbn. rewrite Ei. f_equal. apply inputs_with_features_commits.
  - unfold coms_of_slate in E. rewrite Etx in E. by rewrite E.
Qed.

(** What the receiver of a shared-input protocol holds: a complete transaction that can
    enter the chain only at the height asked for. *)
Definition locked_until (height : Z) (tx : Transaction) : Prop :=
  exists k fee, tx_kernels tx = [k] /\ tx_validate tx = Ok tt
    /\ kern_features k = if height =? 0 then KPlain fee else KHeightLocked fee height.

Lemma shared_input_outcome inp_a inp_b fund timelock fund' timelock' wa wb ra wa' rb wb' :
  duet (dshared_inp_mw_tx_alice inp_a fund timelock) (dshared_inp_mw_tx_bob inp_b fund' timelock') wa wb
  = ((Done (Ok ra), wa'), (Done (Ok rb), wb')) ->
  fund = fund'
  /\ exists tx i, sl_tx (db_tx rb) = Some tx /\ locked_until timelock' tx
       /\ input_of_coin inp_a = Ok i /\ inputs_commits (tx_inputs tx) = [in_commit i.1].
Proof.
  unfold dshared_inp_mw_tx_alice, dshared_inp_mw_tx_bob. intros E.
  apply duet_inv_left in E as (sc & w1 & Esc & E); [|done]. apply finish_local_Ok in Esc as [Esc _].
  pose proof (valid_spend _ _ _ _ _ _ _ _ Esc) as V1. sends_left E txt5 wt5 X5.
  destruct (spend_coins_input _ _ _ _ _ _ _ _ Esc) as (i & tx0 & Ei & Etx0 & Hi0).
  apply spend_coins_entry in Esc as (_ & Eamt & _).
  assert (I0 : slate_inputs (sc_slate sc) = Some [in_commit i.1]) by (unfold slate_inputs; by rewrite Etx0, <- Hi0).
  apply duet_inv_right in E as (s1 & w2 & E1 & E); [|done].
  pose proof (slate_inputs_arrive _ _ _ _ _ X5 V1 E1) as I1. apply (read_slate_message _ _ _ _ _ X5) in E1 as [o1 E1]; [|done].
  apply duet_inv_right in E as (ds & w3 & Eds & E); [|done]. apply finish_local_Ok in Eds as [Eds _].
  assert (V2 : valid_slate (sc_slate ds)) by (eapply valid_d_spend; [exact Eds|by rewrite E1]).
  apply d_spend_coins_ok in Eds as (_ & T1 & Ha & Htl & _). pose proof (slate_inputs_participants _ _ T1) as I2. apply same_terms_participants in T1.
  apply duet_inv_right in E as (rc & w4 & Erc & E); [|done]. apply finish_local_Ok in Erc as [Erc _].
  pose proof (slate_inputs_recv _ _ _ _ _ _ Erc (eq_trans I2 (eq_trans I1 I0))) as I3.
  apply recv_coins_ok in Erc as [T2 V3]. specialize (V3 V2).
  apply duet_inv_right in E as (s2 & w5 & E2 & E); [|done]. apply finish_lift_Ok in E2 as [E2 _].
  apply (proj1 (unwrap_Ok _ _)) in E2. pose proof (valid_fin_tx _ _ _ _ _ _ _ E2 V3) as V4.
  pose proof (slate_inputs_fin _ _ _ _ _ _ _ E2) as I4. apply same_terms_fin in E2 as T3. sends_right E txt6 wt6 X6.
  apply duet_inv_left in E as (s3 & w6 & E3 & E); [|done].
  pose proof (slate_inputs_arrive _ _ _ _ _ X6 V4 E3) as I5. apply (read_slate_message _ _ _ _ _ X6) in E3 as [o3 E3]; [|done].
  apply duet_inv_left in E as (s4 & w7 & E4 & E); [|done]. apply finish_lift_Ok in E4 as [E4 _].
  apply (proj1 (unwrap_Ok _ _)) in E4.
  pose proof (slate_inputs_update _ _ E4) as I6. apply update_kernel_ok in E4 as (tx4 & f4 & _ & _ & E4).
  apply duet_inv_left in E as (s5 & w8 & E5 & E); [|done]. apply finish_lift_Ok in E5 as [E5 _].
  assert (V5 : valid_slate s5) by (eapply valid_fin_tx; [exact E5|by rewrite E4, E3]).
  pose proof (slate_inputs_fin _ _ _ _ _ _ _ E5) as I7. apply same_terms_fin in E5 as T5. sends_left E txt7 wt7 X7.
  apply duet_inv_right in E as (s6 & w9 & E6 & E); [|done].
  pose proof (slate_inputs_arrive _ _ _ _ _ X7 V5 E6) as I8. apply (read_slate_message _ _ _ _ _ X7) in E6 as [o6 E6]; [|done].
  apply duet_inv_right in E as (s7 & w10 & E7 & E); [|done]. apply finish_lift_Ok in E7 as [E7 _].
  apply (proj1 (unwrap_Ok _ _)) in E7. pose proof (slate_inputs_update _ _ E7) as I9.
  apply duet_inv_right in E as (s8 & w11 & E8 & E); [|done]. apply finish_lift_Ok in E8 as [E8 _].
  apply (proj1 (unwrap_Ok _ _)) in E8. cbn in E. injection E as _ _ <- _. cbn [db_tx].
  assert (T : same_terms s6 s1).
  { rewrite E6. etransitivity; [exact (same_terms_tx o6 s5)|]. etransitivity; [exact T5|].
    rewrite E4. etransitivity; [exact (same_terms_tx _ s3)|]. rewrite E3.
    etransitivity; [exact (same_terms_tx o3 s2)|]. etransitivity; [exact T3|].
    etransitivity; [exact T2|exact T1]. }
  split; [rewrite <- Ha, E1; symmetry; exact Eamt|].
  pose proof (timelock_kernel _ _ Htl) as Hk. rewrite <- (kernel_features_terms _ _ T) in Hk.
  destruct (finalize_updated _ _ _ _ Hk E7 E8) as (tx & k & Et & Ek & Ef & Hv).
  pose proof (slate_inputs_finalize _ _ E8) as I10.
  assert (I : slate_inputs s8 = Some [in_commit i.1]) by congruence.
  unfold slate_inputs in I. rewrite Et in I. injection I as I.
  exists tx, i. split; [done|]. split; [exists k, (sl_fee_fields s1); done|done].
Qed.

(** C6: The refund is locked.  When the shared-input protocol runs to its end, both
    sides meant the same amount, and the transaction the receiver keeps is
    complete and can enter the chain only at the height the receiver asked for. *)
Theorem shared_input_locked inp_a inp_b fund timelock fund' timelock' wa wb ra wa' rb wb' :
  duet (dshared_inp_mw_tx_alice inp_a fund timelock) (dshared_inp_mw_tx_bob inp_b fund' timelock') wa wb
  = ((Done (Ok ra), wa'), (Done (Ok rb), wb')) ->
  fund = fund'
  /\ exists tx k fee, sl_tx (db_tx rb) = Some tx /\ tx_kernels tx = [k] /\ tx_validate tx = Ok tt
       /\ kern_features k = if timelock' =? 0 then KPlain fee else KHeightLocked fee timelock'.
Proof.
  intros E. apply shared_input_outcome in E as (-> & tx & i & Et & (k & fee & Hk) & _). eauto 10.
Qed.
End shared_input.
