(* ===== verification/Protocol.v ===== *)
(** * src/swap/protocol.rs: the phases of the atomic swap

    Each phase works on the swap slate by reference and keeps what it wrote when it
    fails: it is a program that passes the slate along and returns it with the
    result ([Phase]).  The suffix [_mw] is the side that owns Grin, [_btc] the side
    that owns Bitcoin.  [set_local_chain_type], which sets a global of the Grin
    crates, is left out. *)
From S2P Require Import Prelude.
From S2P Require Import RustStd.
From S2P Require Import Crates.
From S2P Require Import SwapTypes.
From S2P Require Import Effects.
From S2P Require Import Tcp.
From S2P Require Import Http.
From S2P Require Import BitcoinCore.
From S2P Require Import BtcRoutines.
From S2P Require Import Slate.
From S2P Require Import SlateV4.
From S2P Require Import GrinRoutines.
From S2P Require Import GrinCore.
From S2P Require Import GrinTx.

(** ** Programs that pass the swap slate *)
Section monad.
Context `{GrinTypes}.

Definition Phase (A : Type) : Type := SwapSlate -> prog (Res A * SwapSlate).

#[global] Instance Phase_ret : MRet Phase := fun _ a s => Ret (Ok a, s).
#[global] Instance Phase_bind : MBind Phase := fun A B k m s =>
  pbind (m s) (fun x => match x with
                        | (Ok a, s') => k a s'
                        | (Err e, s') => Ret (Err e, s')
                        | (Panic e, s') => Ret (Panic e, s')
                        end).

Definition liftPh {A} (p : P A) : Phase A := fun s => pbind p (fun r => Ret (r, s)).
Definition resPh {A} (r : Res A) : Phase A := fun s => Ret (r, s).
Definition errPh {A} (e : string) : Phase A := resPh (Err e).
Definition modify (f : SwapSlate -> SwapSlate) : Phase unit := fun s => Ret (Ok tt, f s).
Definition gets {A} (f : SwapSlate -> A) : Phase A := fun s => Ret (Ok (f s), s).
End monad.

Definition sleep (secs : Z) : P unit := Sleep secs (Ret (Ok tt)).

(** Everything the phases use. *)
Section code.
Context `{BuildProfile, GC : GrinCrates, BC : BitcoinCrates, HC : HexCrate,
  !SlateJson, !SerMPCtxJson, !JsonRpcJson, !BitcoinCoreJson, !GrinCoreJson}.

Definition pub_btc_of (s : SwapSlate) : BTCPub := pub_btc (sw_pub s).
Definition pub_mw_of (s : SwapSlate) : MWPub := pub_mw (sw_pub s).
Definition prv_btc_of (s : SwapSlate) : BTCPriv := prv_btc (sw_prv s).
Definition prv_mw_of (s : SwapSlate) : MWPriv := prv_mw (sw_prv s).

(** ** Times *)
Definition check_if_enough_time (grin_core : GrinCore) (btc_core : BitcoinCore) (slate : SwapSlate) :
    P bool :=
  locktime_grin ← liftP (unwrap_opt (mwp_lock_time (pub_mw_of slate)));
  locktime_btc ← liftP (unwrap_opt (bp_lock_time (pub_btc_of slate)));
  block_height_grin ← unwrapP (get_block_height grin_core);
  block_height_btc ← unwrapP (get_current_block_height btc_core);
  need_grin ← liftP (u64_add block_height_grin (60 / GRIN_BLOCK_TIME));
  lock_grin ← liftP (unwrap (u64_try_from locktime_grin));
  if need_grin <=? lock_grin then
    need_btc ← liftP (u64_add block_height_btc (60 / BTC_BLOCK_TIME));
    lock_btc ← liftP (unwrap (u64_try_from locktime_btc));
    okP (need_btc <=? lock_btc)
  else okP false.

Definition can_refund (grin_core : GrinCore) (btc_core : BitcoinCore) (slate : SwapSlate) : P bool :=
  locktime_grin ← liftP (unwrap_opt (mwp_lock_time (pub_mw_of slate)));
  locktime_btc ← liftP (unwrap_opt (bp_lock_time (pub_btc_of slate)));
  block_height_grin ← unwrapP (get_block_height grin_core);
  block_height_btc ← unwrapP (get_current_block_height btc_core);
  lock_grin ← liftP (unwrap (u64_try_from locktime_grin));
  if lock_grin <? block_height_grin then
    lock_btc ← liftP (unwrap (u64_try_from locktime_btc));
    okP (lock_btc <? block_height_btc)
  else okP false.

(** ** Setup *)

(** The loop that waits for the locked bitcoins: [n] attempts are left.  A balance
    that differs from the amount ends it. *)
Fixpoint verify_funds (btc_core : BitcoinCore) (addr : Address) (amount : Z) (n : nat) : P bool :=
  match n with
  | O => okP false
  | S n' =>
      balance ← pmap (unwrap_or 0) (get_address_final_balance_addr btc_core addr);
      if 0 <? balance then okP (balance =? amount)
      else _ ← sleep 60; verify_funds btc_core addr amount n'
  end.

Definition locking_phase_swap_mw (grin_core : GrinCore) (btc_core : BitcoinCore) : Phase unit :=
  _ ← modify (set_status SETUP);
  sk_a ← liftPh (local create_private_key);
  let pub_a := bpk_from_private_key sk_a in
  _ ← modify (set_sk (serialize_priv_key sk_a));
  _ ← modify (set_pub_a (serialize_pub_key pub_a));
  _ ← liftPh (send_msg (serialize_pub_key pub_a));
  msg_bob ← liftPh receive_msg;
  pub_b ← resPh (deserialize_pub_key msg_bob);
  _ ← modify (set_pub_b (serialize_pub_key pub_b));
  msg_bob ← liftPh receive_msg;
  pub_x ← resPh (deserialize_pub_key msg_bob);
  _ ← modify (set_pub_x (serialize_pub_key pub_x));
  msg_bob ← liftPh receive_msg;
  lock_time_btc ← resPh (unwrap (parse_i64 msg_bob));
  _ ← modify (set_btc_lock_time lock_time_btc);
  let pub_script := get_lock_pub_script pub_a pub_x pub_b lock_time_btc true in
  addr ← resPh (unwrap_opt (address_from_script pub_script Testnet));
  _ ← liftPh (unwrapP (import_btc_address btc_core addr));
  address ← liftPh receive_msg;
  txid ← liftPh receive_msg;
  if negb (bool_decide (address_to_string addr = address)) then
    _ ← modify (set_status FAILED);
    errPh "Lock address sent by Bob doesn't match what we have calculated, stopping swap"
  else
    amount ← gets (fun s => bp_amount (pub_btc_of s));
    verified_funds ← liftPh (verify_funds btc_core addr amount (Z.to_nat MAX_ATTEMPTS_VERF_FUNDS));
    if negb verified_funds then
      _ ← modify (set_status FAILED);
      errPh "Failed to verify that btc funds are correctly locked"
    else
      _ ← modify (set_lock (BTCInput_new2 txid 0 amount sk_a pub_a pub_script));
      grin_height ← liftPh (unwrapP (get_block_height grin_core));
      timelock ← gets (fun s => mwp_timelock (pub_mw_of s));
      grin_lock_height ← resPh (u64_add grin_height timelock);
      lock_i64 ← resPh (unwrap (i64_try_from grin_lock_height));
      _ ← modify (set_mw_lock_time lock_i64);
      _ ← liftPh (send_msg (fmt_u64 grin_lock_height));
      inputs ← gets (fun s => mws_inputs (prv_mw_of s));
      mw_amount ← gets (fun s => mwp_amount (pub_mw_of s));
      shared_out_result ← liftPh (dshared_out_mw_tx_alice inputs mw_amount 0);
      let shared_coin := ds_shared_coin shared_out_result in
      _ ← modify (set_shared_coin shared_coin);
      _ ← modify (set_change_coin (ds_change_coin shared_out_result));
      (* the change coin is printed: [change_coin.clone().unwrap()] *)
      _ ← resPh (unwrap_opt (ds_change_coin shared_out_result));
      let fee := estimate_fees 1 1 1 in
      fund_value ← resPh (u64_sub (coin_value shared_coin) fee);
      refund_result ← liftPh (dshared_inp_mw_tx_bob shared_coin fund_value grin_lock_height);
      _ ← modify (set_refund_coin (db_coin refund_result));
      _ ← modify (set_refund_tx (sl_tx (db_tx refund_result)));
      funding_tx ← resPh (unwrap_opt (sl_tx (ds_tx shared_out_result)));
      liftPh (push_transaction grin_core funding_tx).

(** Building, signing and publishing the lock transaction. *)
Definition publish_lock_transaction (btc_core : BitcoinCore) (pub_a pub_x pub_b pub_r : BPublicKey)
    (sk_r : BPrivateKey) (inputs : list BTCInput) (btc_amount btc_lock_height : Z) :
    Phase (string * Address * Script) :=
  tx_lock ← resPh (create_lock_transaction pub_a pub_x pub_b pub_r inputs btc_amount BTC_FEE
                     btc_lock_height);
  out0 ← resPh (unwrap_opt (btx_output tx_lock !! 0%nat));
  let pub_script := txout_script_pubkey out0 in
  ch_out ← resPh (unwrap_opt (btx_output tx_lock !! 1%nat));
  address ← resPh (unwrap_opt (address_from_script pub_script Testnet));
  inp ← resPh (unwrap_opt (inputs !! 0%nat));
  inp_pub_script ← resPh (deserialize_script (bi_pub_script inp));
  inp_sk ← resPh (deserialize_priv_key (bi_secret inp));
  let inp_pk := bpk_from_private_key inp_sk in
  signed_tx ← resPh (sign_p2pkh_transaction tx_lock [inp_pub_script] [inp_sk] [inp_pk]);
  let txid := txid_to_string (btx_txid signed_tx) in
  _ ← liftPh (send_raw_transaction btc_core signed_tx);
  _ ← modify (set_change (BTCInput_new2 txid 1 (txout_value ch_out) sk_r pub_r
                            (txout_script_pubkey ch_out)));
  mret (txid, address, pub_script).

Definition locking_phase_swap_btc (grin_core : GrinCore) (btc_core : BitcoinCore) : Phase unit :=
  _ ← modify (set_status SETUP);
  sk_b ← liftPh (local create_private_key);
  let pub_b := bpk_from_private_key sk_b in
  _ ← modify (set_pub_b (serialize_pub_key pub_b));
  _ ← modify (set_sk (serialize_priv_key sk_b));
  sk_r ← liftPh (local create_private_key);
  let pub_r := bpk_from_private_key sk_r in
  _ ← modify (set_r_sk (serialize_priv_key sk_r));
  x ← liftPh (local create_private_key);
  let pub_x := bpk_from_private_key x in
  _ ← modify (set_x (serialize_priv_key x));
  _ ← modify (set_pub_x (serialize_pub_key pub_x));
  msg_alice ← liftPh receive_msg;
  pub_a ← resPh (deserialize_pub_key msg_alice);
  _ ← modify (set_pub_a (serialize_pub_key pub_a));
  _ ← liftPh (send_msg (serialize_pub_key pub_b));
  _ ← liftPh (send_msg (serialize_pub_key pub_x));
  btc_current_height ← liftPh (get_current_block_height btc_core);
  inputs ← gets (fun s => bs_inputs (prv_btc_of s));
  btc_amount ← gets (fun s => bp_amount (pub_btc_of s));
  timelock ← gets (fun s => bp_timelock (pub_btc_of s));
  sum ← resPh (u64_add btc_current_height timelock);
  btc_lock_height ← resPh (unwrap (i64_try_from sum));
  _ ← liftPh (send_msg (fmt_i64 btc_lock_height));
  _ ← modify (set_btc_lock_time btc_lock_height);
  '(txid, address, pub_script) ← publish_lock_transaction btc_core pub_a pub_x pub_b pub_r sk_r
                                   inputs btc_amount btc_lock_height;
  _ ← liftPh (send_msg (address_to_string address));
  _ ← liftPh (send_msg txid);
  _ ← modify (set_lock (BTCInput_new2 txid 0 btc_amount sk_b pub_b pub_script));
  msg_alice ← liftPh receive_msg;
  lock_height_grin ← resPh (unwrap (parse_i64 msg_alice));
  _ ← modify (set_mw_lock_time lock_height_grin);
  mw_amount ← gets (fun s => mwp_amount (pub_mw_of s));
  shared_out_result ← liftPh (dshared_out_mw_tx_bob mw_amount);
  let shared_coin := ds_shared_coin shared_out_result in
  _ ← modify (set_shared_coin shared_coin);
  let fee := estimate_fees 1 1 1 in
  fund_value ← resPh (u64_sub (coin_value shared_coin) fee);
  timelock_grin ← resPh (unwrap (u64_try_from lock_height_grin));
  _ ← liftPh (dshared_inp_mw_tx_alice shared_coin fund_value timelock_grin);
  mret tt.

(** ** Execution *)
Definition exec_phase_swap_mw (grin_core : GrinCore) (btc_core : BitcoinCore) : Phase unit :=
  enough ← (fun s => liftPh (check_if_enough_time grin_core btc_core s) s);
  if enough : bool then
    _ ← modify (set_status EXECUTING);
    shared_coin ← gets (fun s => mws_shared_coin (prv_mw_of s)) ≫= (fun o => resPh (unwrap_opt o));
    let value := coin_value shared_coin in
    pub_x_text ← gets (fun s => bp_pub_x (pub_btc_of s)) ≫= (fun o => resPh (unwrap_opt o));
    pub_x ← resPh (deserialize_pub_key pub_x_text);
    pub_x_grin ← resPh (grin_pk_from_btc_pk pub_x);
    let fee := estimate_fees 1 1 1 in
    fund_value ← resPh (u64_sub value fee);
    result ← liftPh (dcontract_mw_tx_alice shared_coin fund_value 0 pub_x_grin);
    sk_a2 ← liftPh (local create_private_key);
    let pub_a2 := bpk_from_private_key sk_a2 in
    pub_a ← gets (fun s => bp_pub_a (pub_btc_of s))
              ≫= (fun o => resPh (t ← unwrap_opt o; deserialize_pub_key t));
    pub_b ← gets (fun s => bp_pub_b (pub_btc_of s))
              ≫= (fun o => resPh (t ← unwrap_opt o; deserialize_pub_key t));
    pub_x ← gets (fun s => bp_pub_x (pub_btc_of s))
              ≫= (fun o => resPh (t ← unwrap_opt o; deserialize_pub_key t));
    x_btc ← resPh (private_key_from_grin_sk (cm_x result));
    sk_a ← gets (fun s => bs_sk (prv_btc_of s))
             ≫= (fun o => resPh (t ← unwrap_opt o; deserialize_priv_key t));
    lock ← gets (fun s => bs_lock (prv_btc_of s)) ≫= (fun o => resPh (unwrap_opt o));
    amount ← gets (fun s => bp_amount (pub_btc_of s));
    redeem_tx ← resPh (create_spend_lock_transaction pub_a2 lock amount BTC_FEE 0);
    lock_time ← gets (fun s => bp_lock_time (pub_btc_of s)) ≫= (fun o => resPh (unwrap_opt o));
    let lock_script := get_lock_pub_script pub_a pub_x pub_b lock_time false in
    signed_redeem_tx ← resPh (sign_lock_transaction_redeemer redeem_tx 0 lock_script sk_a x_btc);
    o ← resPh (unwrap_opt (btx_output signed_redeem_tx !! 0%nat));
    let txid := txid_to_string (btx_txid signed_redeem_tx) in
    _ ← liftPh (send_raw_transaction btc_core signed_redeem_tx);
    _ ← modify (set_swapped (BTCInput_new2 txid 0 (txout_value o) sk_a2 pub_a2
                               (txout_script_pubkey o)));
    modify (set_status FINISHED)
  else errPh "Not enough time left to execute atomic swap".

Definition exec_phase_swap_btc (grin_core : GrinCore) (btc_core : BitcoinCore) : Phase unit :=
  enough ← (fun s => liftPh (check_if_enough_time grin_core btc_core s) s);
  if enough : bool then
    _ ← modify (set_status EXECUTING);
    shared_coin ← gets (fun s => mws_shared_coin (prv_mw_of s)) ≫= (fun o => resPh (unwrap_opt o));
    let value := coin_value shared_coin in
    x ← gets (fun s => bs_x (prv_btc_of s))
          ≫= (fun o => resPh (t ← unwrap_opt o; deserialize_priv_key t));
    x_grin ← resPh (grin_sk_from_btc_sk x);
    let fee := estimate_fees 1 1 1 in
    fund_value ← resPh (u64_sub value fee);
    result ← liftPh (dcontract_mw_tx_bob shared_coin fund_value 0 x_grin);
    _ ← modify (set_swapped_coin (cm_coin result));
    tx ← resPh (unwrap_opt (sl_tx (cm_tx result)));
    _ ← liftPh (push_transaction grin_core tx);
    modify (set_status FINISHED)
  else errPh "Not enough time left to execute atomic swap".

(** ** Refund *)
Definition refund_phase_swap_mw (grin_core : GrinCore) (btc_core : BitcoinCore) : Phase unit :=
  can ← (fun s => liftPh (can_refund grin_core btc_core s) s);
  if can : bool then
    refund_tx ← gets (fun s => mws_refund_tx (prv_mw_of s)) ≫= (fun o => resPh (unwrap_opt o));
    _ ← liftPh (push_transaction grin_core refund_tx);
    modify (set_status FAILED)
  else errPh "Can't refund yet, too early".

Definition refund_phase_swap_btc (grin_core : GrinCore) (btc_core : BitcoinCore) : Phase unit :=
  can ← (fun s => liftPh (can_refund grin_core btc_core s) s);
  if can : bool then
    sk ← liftPh (local create_private_key);
    let pk := bpk_from_private_key sk in
    pub_a ← gets (fun s => bp_pub_a (pub_btc_of s))
              ≫= (fun o => resPh (t ← unwrap_opt o; deserialize_pub_key t));
    sk_b ← gets (fun s => bs_sk (prv_btc_of s))
             ≫= (fun o => resPh (t ← unwrap_opt o; deserialize_priv_key t));
    x ← gets (fun s => bs_x (prv_btc_of s))
          ≫= (fun o => resPh (t ← unwrap_opt o; deserialize_priv_key t));
    let pub_b := bpk_from_private_key sk_b in
    let pub_x := bpk_from_private_key x in
    lock_time ← gets (fun s => bp_lock_time (pub_btc_of s)) ≫= (fun o => resPh (unwrap_opt o));
    lock ← gets (fun s => bs_lock (prv_btc_of s)) ≫= (fun o => resPh (unwrap_opt o));
    amount ← gets (fun s => bp_amount (pub_btc_of s));
    lock_time_u32 ← resPh (unwrap (u32_try_from lock_time));
    refund_tx ← resPh (create_spend_lock_transaction pk lock amount BTC_FEE lock_time_u32);
    let lock_script := get_lock_pub_script pub_a pub_x pub_b lock_time false in
    signed_tx ← resPh (sign_lock_transaction_refund refund_tx 0 lock_script sk_b);
    _ ← liftPh (send_raw_transaction btc_core signed_tx);
    o ← resPh (unwrap_opt (btx_output signed_tx !! 0%nat));
    _ ← modify (set_refunded {| bi_txid := txid_to_string (btx_txid signed_tx);
                                bi_vout := 0;
                                bi_value := txout_value o;
                                bi_secret := serialize_priv_key sk;
                                bi_pub_key := serialize_pub_key pk;
                                bi_pub_script := serialize_script (txout_script_pubkey o) |});
    modify (set_status FAILED)
  else errPh "Can't refund yet, too early".
End code.

(** ** Lemmas on phases *)
Section phase_lemmas.
Context `{GrinTypes}.
Implicit Types s : SwapSlate.

(** An invariant of the slate that a phase keeps, however it ends. *)
Definition keeps {A} (I : SwapSlate -> Prop) (m : Phase A) : Prop :=
  forall s, I s -> ensures (fun x => I x.2) (m s).

Lemma keeps_bind {A B} I (m : Phase A) (k : A -> Phase B) :
  keeps I m -> (forall a, keeps I (k a)) -> keeps I (m ≫= k).
Proof.
  intros Hm Hk s Hs. eapply ensures_pbind; [by apply Hm|].
  intros [[a|e|e] s'] Hs'; cbn in *; [by apply Hk|done|done].
Qed.
Lemma keeps_lift {A} I (p : P A) : keeps I (liftPh p).
Proof. intros s Hs. eapply ensures_pbind; [apply ensures_True|]. done. Qed.
Lemma keeps_res {A} I (r : Res A) : keeps I (resPh r).
Proof. by intros s Hs. Qed.
Lemma keeps_ret {A} I (a : A) : keeps I (mret a).
Proof. by intros s Hs. Qed.
Lemma keeps_gets {A} I (f : SwapSlate -> A) : keeps I (gets f).
Proof. by intros s Hs. Qed.
Lemma keeps_modify I f : (forall s, I s -> I (f s)) -> keeps I (modify f).
Proof. intros Hf s Hs. by apply Hf. Qed.

(** One step of a phase, on either side of a conversation that succeeds. *)
Definition done_ok {A} (a : A) s (w : World) : Outcome (Res A * SwapSlate) * World := (Done (Ok a, s), w).

Lemma finish_pmap_Ok {X Y} (p : P X) (f : Res X -> Y) w y w' :
  finish (pbind p (fun r => Ret (f r))) w = (Done y, w') ->
  exists r, finish p w = (Done r, w') /\ y = f r.
Proof.
  rewrite finish_pbind. destruct (finish p w) as [[r| | |] w1]; cbn; [|done..].
  intros [= <- <-]. eauto.
Qed.

Lemma phase_left {X A B} (p : P X) (k : X -> Phase A) s (q : prog B) wa wb a s' wa' b wb' :
  quiet p -> duet ((liftPh p ≫= k) s) q wa wb = (done_ok a s' wa', (Done b, wb')) ->
  exists y w1, finish p wa = (Done (Ok y), w1) /\ duet (k y s) q w1 wb = (done_ok a s' wa', (Done b, wb')).
Proof.
  intros Hq E. unfold mbind, Phase_bind in E.
  match type of E with duet (pbind ?P ?K) ?Q ?w ?w' = _ =>
    destruct (duet_quiet_left P K Q w w') as (x & w1 & Ef & Ed); [by apply quiet_pbind|rewrite Ed in E]
  end.
  apply finish_pmap_Ok in Ef as (r & Ef & ->). destruct r as [y|e|e]; [eauto|..];
    cbn in E; destruct (finish q wb) as [[]]; simplify_eq.
Qed.

Lemma phase_right {X A B} (p : prog A) (q : P X) (k : X -> Phase B) s wa wb a wa' b s' wb' :
  quiet q -> duet p ((liftPh q ≫= k) s) wa wb = ((Done a, wa'), done_ok b s' wb') ->
  exists y w1, finish q wb = (Done (Ok y), w1) /\ duet p (k y s) wa w1 = ((Done a, wa'), done_ok b s' wb').
Proof.
  intros Hq E. unfold mbind, Phase_bind in E.
  match type of E with duet ?P (pbind ?Q ?K) ?w ?w' = _ =>
    destruct (duet_quiet_right P Q K w w') as (x & w1 & Ef & Ed); [by apply quiet_pbind|rewrite Ed in E]
  end.
  apply finish_pmap_Ok in Ef as (r & Ef & ->). destruct r as [y|e|e]; [eauto|..];
    eapply (ensures_duet (fun _ => True) (fun x => is_ok x.1 = false)) in E as [_ E];
    try done; apply ensures_True.
Qed.

Lemma res_left {X A B} (r : Res X) (k : X -> Phase A) s (q : prog B) wa wb a s' wa' b wb' :
  duet ((resPh r ≫= k) s) q wa wb = (done_ok a s' wa', (Done b, wb')) ->
  exists y, r = Ok y /\ duet (k y s) q wa wb = (done_ok a s' wa', (Done b, wb')).
Proof.
  destruct r as [y|e|e]; [eauto|..]; cbn; destruct (finish q wb) as [[]]; intros E; simplify_eq.
Qed.
Lemma res_right {X A B} (p : prog A) (r : Res X) (k : X -> Phase B) s wa wb a wa' b s' wb' :
  duet p ((resPh r ≫= k) s) wa wb = ((Done a, wa'), done_ok b s' wb') ->
  exists y, r = Ok y /\ duet p (k y s) wa wb = ((Done a, wa'), done_ok b s' wb').
Proof.
  intros E. destruct r as [y|e|e]; [eauto|..];
    eapply (ensures_duet (fun _ => True) (fun x => is_ok x.1 = false)) in E as [_ E];
    try done; apply ensures_True.
Qed.

(** One message, in either direction. *)
Lemma phase_send {A B} m (k : unit -> Phase A) (k' : string -> Phase B) s s' wa wb :
  duet ((liftPh (send_msg m) ≫= k) s) ((liftPh receive_msg ≫= k') s') wa wb
  = duet (k tt s) (k' m s') (log (EvSent m) wa) (log (EvReceived m) wb).
Proof. reflexivity. Qed.
Lemma phase_receive {A B} m (k : string -> Phase A) (k' : unit -> Phase B) s s' wa wb :
  duet ((liftPh receive_msg ≫= k) s) ((liftPh (send_msg m) ≫= k') s') wa wb
  = duet (k m s) (k' tt s') (log (EvReceived m) wa) (log (EvSent m) wb).
Proof. reflexivity. Qed.

Lemma modify_step {A} f (k : unit -> Phase A) s : (modify f ≫= k) s = k tt (f s).
Proof. reflexivity. Qed.
Lemma gets_step {X A} (f : SwapSlate -> X) (k : X -> Phase A) s : (gets f ≫= k) s = k (f s) s.
Proof. reflexivity. Qed.
End phase_lemmas.

(** ** The times *)
Section times.
Context `{BuildProfile, GC : GrinCrates, BC : BitcoinCrates, HC : HexCrate,
  !SlateJson, !SerMPCtxJson, !JsonRpcJson, !BitcoinCoreJson, !GrinCoreJson}.
Implicit Types (g : GrinCore) (b : BitcoinCore) (s : SwapSlate).

(** The two heights as the nodes give them, one after the other. *)
Definition heights g b (w : World) (hg hb : Z) (w' : World) : Prop :=
  exists w1, finish (get_block_height g) w = (Done (Ok hg), w1)
    /\ finish (get_current_block_height b) w1 = (Done (Ok hb), w').

Lemma finish_bind_Ok {A B} (p : P A) (k : A -> P B) w a w1 :
  finish p w = (Done (Ok a), w1) -> finish (p ≫= k) w = finish (k a) w1.
Proof. intros E. unfold mbind, P_bind. by rewrite finish_pbind, E. Qed.
Lemma finish_unwrap_Ok {A} (p : P A) w a w1 :
  finish p w = (Done (Ok a), w1) -> finish (unwrapP p) w = (Done (Ok a), w1).
Proof. intros E. unfold unwrapP, pmap. by rewrite finish_pbind, E. Qed.

Lemma check_if_enough_time_spec g b s w hg hb w' lg lb :
  mwp_lock_time (pub_mw_of s) = Some lg -> bp_lock_time (pub_btc_of s) = Some lb ->
  in_u64 lg -> in_u64 lb -> in_u64 (hg + 60) -> in_u64 (hb + 6) ->
  heights g b w hg hb w' ->
  finish (check_if_enough_time g b s) w = (Done (Ok ((hg + 60 <=? lg) && (hb + 6 <=? lb))), w').
Proof.
  intros Eg Eb Hlg Hlb Hg Hb (w1 & E1 & E2). unfold check_if_enough_time. rewrite Eg, Eb.
  unfold liftP. cbn [unwrap_opt]. rewrite (finish_bind_Ok (Ret (Ok lg)) _ w lg w) by done.
  rewrite (finish_bind_Ok (Ret (Ok lb)) _ w lb w) by done.
  rewrite (finish_bind_Ok _ _ w hg w1) by by apply finish_unwrap_Ok.
  rewrite (finish_bind_Ok _ _ w1 hb w') by by apply finish_unwrap_Ok.
  change (60 / GRIN_BLOCK_TIME) with 60. change (60 / BTC_BLOCK_TIME) with 6.
  rewrite (u64_add_ok hg 60), (u64_try_from_ok lg) by done. cbn.
  destruct (hg + 60 <=? lg); [|done]. by rewrite (u64_add_ok hb 6), (u64_try_from_ok lb) by done.
Qed.

Lemma can_refund_spec g b s w hg hb w' lg lb :
  mwp_lock_time (pub_mw_of s) = Some lg -> bp_lock_time (pub_btc_of s) = Some lb ->
  in_u64 lg -> in_u64 lb -> heights g b w hg hb w' ->
  finish (can_refund g b s) w = (Done (Ok ((lg <? hg) && (lb <? hb))), w').
Proof.
  intros Eg Eb Hlg Hlb (w1 & E1 & E2). unfold can_refund. rewrite Eg, Eb.
  unfold liftP. cbn [unwrap_opt]. rewrite (finish_bind_Ok (Ret (Ok lg)) _ w lg w) by done.
  rewrite (finish_bind_Ok (Ret (Ok lb)) _ w lb w) by done.
  rewrite (finish_bind_Ok _ _ w hg w1) by by apply finish_unwrap_Ok.
  rewrite (finish_bind_Ok _ _ w1 hb w') by by apply finish_unwrap_Ok.
  rewrite (u64_try_from_ok lg) by done. cbn.
  destruct (lg <? hg); [|done]. by rewrite (u64_try_from_ok lb) by done.
Qed.

(** A guard at the head of a phase. *)
Lemma finish_guard_false {A} (check : SwapSlate -> P bool) (k : bool -> Phase A) s w w' :
  finish (check s) w = (Done (Ok false), w') ->
  finish (((fun s => liftPh (check s) s) ≫= k) s) w = finish (k false s) w'.
Proof.
  intros E. unfold mbind, Phase_bind, liftPh. rewrite !finish_pbind, E. done.
Qed.
End times.

(** ** Waiting for the funds *)
Section funds.
Context `{BuildProfile, GC : GrinCrates, BC : BitcoinCrates, HC : HexCrate,
  !JsonRpcJson, !BitcoinCoreJson}.

(** One RPC call is quiet: it only makes a request. *)
Lemma quiet_http_execute r : quiet (http_execute r).
Proof.
  unfold http_execute. destruct (req_response_stub r) as [st|].
  - by destruct (negb _).
  - destruct (bool_decide _); [|done]. cbn. intros [e|e|st c]; [done|done|]. by destruct (is_success st).
Qed.
Lemma quiet_check_response {A} b id m e (k : P A) : quiet k -> quiet (check_response b id m e k).
Proof. intros Hk. unfold check_response. destruct (negb _); [done|]. by destruct e. Qed.

Ltac quiet_call :=
  repeat first
    [ apply quiet_bind; [apply quiet_http_execute || done|]; intros ?
    | apply quiet_check_response | done ].

Lemma quiet_import b a : quiet (import_btc_address b a).
Proof. unfold import_btc_address, bcore_call. quiet_call. Qed.
Lemma quiet_balance b a : quiet (get_address_final_balance_addr b a).
Proof.
  unfold get_address_final_balance_addr, get_address_final_balance, bcore_call. quiet_call.
Qed.
Lemma quiet_btc_height b : quiet (get_current_block_height b).
Proof. unfold get_current_block_height, bcore_call. quiet_call. Qed.
Lemma quiet_send_raw b tx : quiet (send_raw_transaction b tx).
Proof. unfold send_raw_transaction, bcore_call. quiet_call. Qed.

Lemma quiet_verify_funds b a v n : quiet (verify_funds b a v n).
Proof.
  induction n as [|n IH]; cbn [verify_funds]; [done|].
  apply quiet_bind; [apply quiet_pmap, quiet_balance|]. intros bal. destruct (0 <? bal); [done|].
  by apply quiet_bind.
Qed.

(** How long the party sleeps, by the log. *)
Fixpoint slept (l : list Event) : Z :=
  match l with
  | [] => 0
  | EvSlept n :: l' => n + slept l'
  | _ :: l' => slept l'
  end.

Lemma slept_app l1 l2 : slept (l1 ++ l2) = slept l1 + slept l2.
Proof. induction l1 as [|e l1 IH]; [done|]. destruct e; cbn; rewrite ?IH; lia. Qed.

(** A call to a live node adds one request to the log, and no sleep. *)
Lemma finish_balance_log b a w r w' : live b ->
  finish (get_address_final_balance_addr b a) w = (Done r, w') ->
  slept (w_log w') = slept (w_log w).
Proof.
  intros Hl E. unfold get_address_final_balance_addr in E.
  rewrite (finish_get_address_final_balance b _ w Hl) in E. injection E as _ <-. done.
Qed.

(** C36: The wait for the funds ends: after at most the given number of attempts, one
    minute apart, it says yes or no, or the node's answer aborts the program; it
    says yes only when the node reported exactly the agreed amount, which is
    positive, and no when it reported another. *)
Theorem verify_funds_sound b addr amount n w :
  live b ->
  exists r w', finish (verify_funds b addr amount n) w = (Done r, w')
    /\ slept (w_log w') <= slept (w_log w) + 60 * Z.of_nat n
    /\ (r = Ok true -> 0 < amount /\ exists w1 w2,
          finish (get_address_final_balance_addr b addr) w1 = (Done (Ok amount), w2) /\ w2 = w')
    /\ (forall e, r <> Err e).
Proof.
  intros Hl. revert w. induction n as [|n IH]; intros w; cbn [verify_funds].
  - exists (Ok false), w. split; [done|]. split; [lia|]. done.
  - destruct (quiet_finish _ w (quiet_balance b addr)) as (r0 & w1 & E0).
    pose proof (finish_balance_log _ _ _ _ _ Hl E0) as Hs.
    unfold mbind, P_bind, pmap. rewrite !finish_pbind, E0. cbn [outcome_bind finish].
    destruct r0 as [bal|e|e]; cbn [unwrap_or].
    + destruct (Z.ltb_spec 0 bal) as [Hb|Hb].
      * exists (Ok (bal =? amount)), w1. split; [done|]. split; [lia|]. split; [|done].
        intros [= Heq%Z.eqb_eq]. subst bal. split; [done|]. eauto.
      * cbn. destruct (IH (log (EvSlept 60) w1)) as (r & w' & E & Hle & Hrest).
        exists r, w'. split; [exact E|]. split; [cbn in Hle; lia|done].
    + cbn. destruct (IH (log (EvSlept 60) w1)) as (r & w' & E & Hle & Hrest).
      exists r, w'. split; [exact E|]. split; [cbn in Hle; lia|done].
    + exists (Panic e), w1. split; [done|]. split; [lia|]. done.
Qed.
End funds.

(** ** Properties of the phases *)
Section properties.
Context `{BuildProfile, GC : GrinCrates, BC : BitcoinCrates, HC : HexCrate,
  !SlateJson, !SerMPCtxJson, !JsonRpcJson, !BitcoinCoreJson, !GrinCoreJson}.
Implicit Types (g : GrinCore) (b : BitcoinCore) (s : SwapSlate).

Lemma exec_refused g b s w w' :
  finish (check_if_enough_time g b s) w = (Done (Ok false), w') ->
  finish (exec_phase_swap_mw g b s) w
    = (Done (Err "Not enough time left to execute atomic swap", s), w')
  /\ finish (exec_phase_swap_btc g b s) w
    = (Done (Err "Not enough time left to execute atomic swap", s), w').
Proof.
  intros E. unfold exec_phase_swap_mw, exec_phase_swap_btc.
  by rewrite !(finish_guard_false (check_if_enough_time g b) _ s w w' E).
Qed.

Lemma refund_refused g b s w w' :
  finish (can_refund g b s) w = (Done (Ok false), w') ->
  finish (refund_phase_swap_mw g b s) w = (Done (Err "Can't refund yet, too early", s), w')
  /\ finish (refund_phase_swap_btc g b s) w = (Done (Err "Can't refund yet, too early", s), w').
Proof.
  intros E. unfold refund_phase_swap_mw, refund_phase_swap_btc.
  by rewrite !(finish_guard_false (can_refund g b) _ s w w' E).
Qed.

(** C37: A swap is executed only with an hour to spare on both chains, and refunded
    only after both lock heights have passed: with the heights one answer gives,
    never both.  When a guard does not hold, the phase stops with its error, the
    slate is as it was, and the peer has heard nothing. *)
Theorem execution_and_refund_windows g b s w w' hg hb lg lb :
  mwp_lock_time (pub_mw_of s) = Some lg -> bp_lock_time (pub_btc_of s) = Some lb ->
  in_u64 lg -> in_u64 lb -> in_u64 (hg + 60) -> in_u64 (hb + 6) -> heights g b w hg hb w' ->
  (~ (hg + 60 <= lg /\ hb + 6 <= lb) ->
     forall ph, ph = exec_phase_swap_mw g b \/ ph = exec_phase_swap_btc g b ->
     finish (ph s) w = (Done (Err "Not enough time left to execute atomic swap", s), w'))
  /\ (~ (lg < hg /\ lb < hb) ->
     forall ph, ph = refund_phase_swap_mw g b \/ ph = refund_phase_swap_btc g b ->
     finish (ph s) w = (Done (Err "Can't refund yet, too early", s), w'))
  /\ ~ ((hg + 60 <= lg /\ hb + 6 <= lb) /\ (lg < hg /\ lb < hb)).
Proof.
  intros Eg Eb Hlg Hlb Hg Hb Hh. split; [|split; [|lia]]; intros Hno ph Hph.
  - pose proof (check_if_enough_time_spec g b s w hg hb w' lg lb Eg Eb Hlg Hlb Hg Hb Hh) as Ec.
    replace ((hg + 60 <=? lg) && (hb + 6 <=? lb)) with false in Ec.
    + apply exec_refused in Ec as [E1 E2]. by destruct Hph as [->| ->].
    + symmetry. apply andb_false_iff. rewrite !Z.leb_gt. lia.
  - pose proof (can_refund_spec g b s w hg hb w' lg lb Eg Eb Hlg Hlb Hh) as Ec.
    replace ((lg <? hg) && (lb <? hb)) with false in Ec.
    + apply refund_refused in Ec as [E1 E2]. by destruct Hph as [->| ->].
    + symmetry. apply andb_false_iff. rewrite !Z.ltb_ge. lia.
Qed.

(** A swap set up with less than an hour can never be executed: whenever the
    lock heights are the heights of the setup plus a time out below 60 minutes,
    and the chain has not shrunk, both sides find that there is not enough time. *)
Theorem short_swap_never_executes g b s w w' hg hb lb h0 timeout :
  timeout = mwp_timelock (pub_mw_of s) -> 0 <= timeout < 60 ->
  mwp_lock_time (pub_mw_of s) = Some (h0 + timeout) -> h0 <= hg ->
  bp_lock_time (pub_btc_of s) = Some lb ->
  in_u64 (h0 + timeout) -> in_u64 lb -> in_u64 (hg + 60) -> in_u64 (hb + 6) ->
  heights g b w hg hb w' ->
  finish (exec_phase_swap_mw g b s) w
    = (Done (Err "Not enough time left to execute atomic swap", s), w')
  /\ finish (exec_phase_swap_btc g b s) w
    = (Done (Err "Not enough time left to execute atomic swap", s), w').
Proof.
  intros _ Ht Eg Hh0 Eb Hlg Hlb Hg Hb Hh.
  pose proof (check_if_enough_time_spec g b s w hg hb w' _ lb Eg Eb Hlg Hlb Hg Hb Hh) as Ec.
  rewrite (proj2 (Z.leb_gt (hg + 60) (h0 + timeout))) in Ec by lia. cbn [andb] in Ec.
  by apply exec_refused.
Qed.
End properties.

(** ** Setup: what both sides end up with *)
Section setup.
Context `{BuildProfile, GC : GrinCrates, BC : BitcoinCrates, HC : HexCrate,
  !SlateJson, !SerMPCtxJson, !JsonRpcJson, !BitcoinCoreJson, !GrinCoreJson}.

(** The public half and the Bitcoin keys of a slate: what the Grin protocols that
    follow the exchange of the keys do not touch. *)
Record Core := mkCore {
  core_pub : SwapSlatePub; core_sk : option string; core_x : option string;
  core_r_sk : option string; core_lock : option BTCInput }.
Definition core_of (s : SwapSlate) : Core :=
  mkCore (sw_pub s) (bs_sk (prv_btc_of s)) (bs_x (prv_btc_of s)) (bs_r_sk (prv_btc_of s))
    (bs_lock (prv_btc_of s)).

Lemma keeps_core_modify c f : (forall s, core_of (f s) = core_of s) ->
  keeps (fun s => core_of s = c) (modify f).
Proof. intros Hf. apply keeps_modify. intros s <-. apply Hf. Qed.

End setup.

Ltac keep :=
  repeat first
    [ apply keeps_bind; [|intros ?]
    | apply keeps_lift | apply keeps_res | apply keeps_ret | apply keeps_gets
    | apply keeps_core_modify; intros; reflexivity ].

Section setup_steps.
Context `{BuildProfile, GC : GrinCrates, BC : BitcoinCrates, HC : HexCrate,
  !SlateJson, !SerMPCtxJson, !JsonRpcJson, !BitcoinCoreJson, !GrinCoreJson}.

(** A quiet phase on the right-hand side. *)
Lemma quiet_phase_right {X A B} (p : prog A) (m : Phase X) (k : X -> Phase B) s wa wb
    (a : A) wa' (r : B) s' wb' :
  quiet (m s) -> duet p ((m ≫= k) s) wa wb = ((Done a, wa'), done_ok r s' wb') ->
  exists y s1 w1, finish (m s) wb = (Done (Ok y, s1), w1)
    /\ duet p (k y s1) wa w1 = ((Done a, wa'), done_ok r s' wb').
Proof.
  intros Hq E. unfold mbind, Phase_bind in E.
  match type of E with duet ?P (pbind ?Q ?K) ?w ?w' = _ =>
    destruct (duet_quiet_right P Q K w w' Hq) as ([r0 s1] & w1 & Ef & Ed); rewrite Ed in E
  end.
  destruct r0 as [y|e|e]; [eauto|..];
    eapply (ensures_duet (fun _ => True) (fun x => is_ok x.1 = false)) in E as [_ E];
    try done; apply ensures_True.
Qed.

Lemma quiet_phase_bind {A B} (m : Phase A) (k : A -> Phase B) s :
  quiet (m s) -> (forall a s', quiet (k a s')) -> quiet ((m ≫= k) s).
Proof. intros Hm Hk. apply quiet_pbind; [done|]. intros [[a|e|e] s']; cbn; auto. Qed.
Lemma quiet_liftPh {A} (p : P A) s : quiet p -> quiet (liftPh p s).
Proof. intros Hp. by apply quiet_pbind. Qed.

Lemma quiet_publish b pa px pb pr skr ins amt h s :
  quiet (publish_lock_transaction b pa px pb pr skr ins amt h s).
Proof.
  unfold publish_lock_transaction.
  repeat first [ apply quiet_phase_bind; [|intros ? ?] | apply quiet_liftPh, quiet_send_raw
               | apply quiet_liftPh; done | done ].
Qed.

Lemma publish_keeps c b pa px pb pr skr ins amt h :
  keeps (fun s => core_of s = c) (publish_lock_transaction b pa px pb pr skr ins amt h).
Proof. unfold publish_lock_transaction. keep. Qed.
End setup_steps.
