(* ===== verification/SlateDisk.v ===== *)
(** * src/swap/slate.rs: the swap slate on disk

    A disk maps paths to the contents of files; [d_writable] says where files can
    be created and written.  serde_json and SHA-256 are parameters. *)
From S2P Require Import Prelude.
From S2P Require Import RustStd.
From S2P Require Import Crates.
From S2P Require Import SwapTypes.

Record Disk := mkDisk { d_files : gmap string string; d_writable : string -> bool }.

Definition path_exists (d : Disk) (path : string) : bool :=
  match d_files d !! path with Some _ => true | None => false end.
Definition put_file (path contents : string) (d : Disk) : Disk :=
  mkDisk (<[path := contents]> (d_files d)) (d_writable d).

(** The two halves of a slate as JSON text. *)
Class SwapSlateJson `{GrinTypes} := {
  pub_to_json : SwapSlatePub -> string;
  pub_of_json : string -> Res SwapSlatePub;
  prv_to_json : SwapSlatePriv -> string;
  prv_of_json : string -> Res SwapSlatePriv;
}.
Class SwapSlateJsonLaws `{GrinTypes, !SwapSlateJson} := {
  pub_of_to_json p : pub_of_json (pub_to_json p) = Ok p;
  prv_of_to_json p : prv_of_json (prv_to_json p) = Ok p;
}.
Class Sha256 := sha256_hex : string -> string.

Section code.
Context `{GrinTypes, !SwapSlateJson, !Sha256}.

Definition get_slate_path (id : Z) (directory : string) (public : bool) : string :=
  if public then directory +:+ "/" +:+ fmt_u64 id +:+ ".pub.json"
  else directory +:+ "/" +:+ fmt_u64 id +:+ ".prv.json".

(** [File::create] and [fs::write]. *)
Definition create_file (msg path contents : string) (d : Disk) : Res unit * Disk :=
  if d_writable d path then (Ok tt, put_file path contents d) else (Panic msg, d).

Definition disk_bind {A B} (m : Res A * Disk) (k : A -> Disk -> Res B * Disk) : Res B * Disk :=
  match m with
  | (Ok a, d) => k a d
  | (Err e, d) => (Err e, d)
  | (Panic e, d) => (Panic e, d)
  end.

Definition write_slate_to_disk (slate : SwapSlate) (directory : string) (wrt_priv wrt_pub : bool)
    (d : Disk) : Res unit * Disk :=
  let pv_slate_path := get_slate_path (sw_id slate) directory false in
  let pb_slate_path := get_slate_path (sw_id slate) directory true in
  let pv_exists := path_exists d pv_slate_path in
  let pb_exists := path_exists d pb_slate_path in
  disk_bind (if negb pv_exists
             then create_file "Unable to create private slate file" pv_slate_path "" d
             else (Ok tt, d)) (fun _ d =>
  disk_bind (if negb pb_exists
             then create_file "Unable to creat public slate file" pb_slate_path "" d
             else (Ok tt, d)) (fun _ d =>
  let ser_prv_slate := prv_to_json (sw_prv slate) in
  let ser_pub_slate := pub_to_json (sw_pub slate) in
  disk_bind (if wrt_priv
             then create_file "Unable to write private slate file" pv_slate_path ser_prv_slate d
             else (Ok tt, d)) (fun _ d =>
  if wrt_pub then create_file "Unable to write public slate file" pb_slate_path ser_pub_slate d
  else (Ok tt, d)))).

Definition read_slate_from_disk (id : Z) (directory : string) (d : Disk) : Res SwapSlate :=
  match d_files d !! get_slate_path id directory false, d_files d !! get_slate_path id directory true with
  | Some prv_contents, Some pub_contents =>
      pub_slate ← unwrap (pub_of_json pub_contents);
      prv_slate ← unwrap (prv_of_json prv_contents);
      Ok (mkSwapSlate id pub_slate prv_slate)
  | _, _ => Err "Unable to read slate files, as the files don't exist"
  end.

Definition get_slate_checksum (id : Z) (directory : string) (d : Disk) : Res string :=
  match d_files d !! get_slate_path id directory true with
  | None => Err "Unable to read slate files, as the files don't exist"
  | Some pub_contents => Ok (sha256_hex pub_contents)
  end.

Definition create_priv_from_pub (id : Z) (directory : string) (d : Disk) : Res SwapSlate * Disk :=
  match d_files d !! get_slate_path id directory true with
  | None => (Err "Unable to create private slate file, as the public file doesn't exist", d)
  | Some pub_contents =>
      match unwrap (pub_of_json pub_contents) with
      | Ok pub_slate =>
          let slate := mkSwapSlate id pub_slate empty_priv in
          disk_bind (write_slate_to_disk slate directory true false d) (fun _ d => (Ok slate, d))
      | Err e => (Err e, d)
      | Panic e => (Panic e, d)
      end
  end.
End code.

(** ** Lemmas *)
Section paths.

Lemma chars_append x y : String.list_ascii_of_string (x +:+ y)
  = (String.list_ascii_of_string x ++ String.list_ascii_of_string y)%list.
Proof.
  induction x as [|z x IH]; [done|].
  change (String z x +:+ y) with (String z (x +:+ y)). cbn. by rewrite IH.
Qed.
Lemma chars_length x : length (String.list_ascii_of_string x) = String.length x.
Proof. induction x as [|z x IH]; cbn; congruence. Qed.
Lemma chars_inj x y : String.list_ascii_of_string x = String.list_ascii_of_string y -> x = y.
Proof.
  intros E. rewrite <- (String.string_of_list_ascii_of_string x).
  by rewrite E, String.string_of_list_ascii_of_string.
Qed.

Lemma append_inj_r (a b c : string) : a +:+ c = b +:+ c -> a = b.
Proof.
  intros E. apply chars_inj. apply (f_equal String.list_ascii_of_string) in E.
  rewrite !chars_append in E. by apply app_inv_tail in E.
Qed.

(** The end of a path tells the two files apart. *)
Lemma suffix_neq (a b c d : string) :
  String.length c = String.length d -> c <> d -> a +:+ c <> b +:+ d.
Proof.
  intros Hl Hne E. apply Hne, chars_inj. apply (f_equal String.list_ascii_of_string) in E.
  rewrite !chars_append in E. apply app_inj_2 in E as [_ E]; [done|by rewrite !chars_length].
Qed.

(** Different slates, and the two files of a slate, never share a path. *)
Lemma slate_path_inj id id' dir p p' :
  in_u64 id -> in_u64 id' -> get_slate_path id dir p = get_slate_path id' dir p' ->
  id = id' /\ p = p'.
Proof.
  intros Hi Hi' E. unfold get_slate_path in E. assert (Hp : p = p').
  { destruct p, p'; try done; exfalso; apply append_inj_l, append_inj_l in E;
      revert E; by apply suffix_neq. }
  subst p'. split; [|done]. apply fmt_u64_inj; [int_lia..|].
  destruct p; apply append_inj_l, append_inj_l in E; by apply append_inj_r in E.
Qed.
End paths.

Section lemmas.
Context `{GrinTypes, !SwapSlateJson, !Sha256}.

Definition slate_writable (d : Disk) (id : Z) (dir : string) : Prop :=
  d_writable d (get_slate_path id dir false) = true /\ d_writable d (get_slate_path id dir true) = true.

Lemma create_file_ok msg path c d :
  d_writable d path = true -> create_file msg path c d = (Ok tt, put_file path c d).
Proof. unfold create_file. by intros ->. Qed.

(** The files after a write: the two of the slate, as asked, and no other. *)
Lemma write_slate_files s dir wp wq d :
  slate_writable d (sw_id s) dir -> in_u64 (sw_id s) ->
  exists d', write_slate_to_disk s dir wp wq d = (Ok tt, d') /\ d_writable d' = d_writable d
    /\ forall path, d_files d' !! path =
         if decide (path = get_slate_path (sw_id s) dir true)
         then (if wq : bool then Some (pub_to_json (sw_pub s))
               else Some (default "" (d_files d !! path)))
         else if decide (path = get_slate_path (sw_id s) dir false)
         then (if wp : bool then Some (prv_to_json (sw_prv s))
               else Some (default "" (d_files d !! path)))
         else d_files d !! path.
Proof.
  intros [Hv Hb] Hid. unfold write_slate_to_disk, path_exists.
  set (pv := get_slate_path (sw_id s) dir false). set (pb := get_slate_path (sw_id s) dir true).
  assert (Hne : pv <> pb).
  { intros E. by apply slate_path_inj in E as [_ ?]. }
  destruct (d_files d !! pv) as [cv|] eqn:Ev, (d_files d !! pb) as [cb|] eqn:Eb, wp, wq; cbn [negb];
    rewrite ?create_file_ok by done; cbn [disk_bind]; rewrite ?create_file_ok by done;
    cbn [disk_bind]; rewrite ?create_file_ok by done; cbn [disk_bind];
    rewrite ?create_file_ok by done;
    (eexists; split; [reflexivity|]; split; [done|]; intros path; cbn;
     repeat (destruct (decide _); simplify_map_eq; try done)).
Qed.

Lemma read_slate_ok id dir d s :
  read_slate_from_disk id dir d = Ok s <->
  exists prv_text pub_text pub prv,
    d_files d !! get_slate_path id dir false = Some prv_text
    /\ d_files d !! get_slate_path id dir true = Some pub_text
    /\ pub_of_json pub_text = Ok pub /\ prv_of_json prv_text = Ok prv /\ s = mkSwapSlate id pub prv.
Proof.
  unfold read_slate_from_disk. split.
  - destruct (d_files d !! _) as [tv|]; [|done]. destruct (d_files d !! _) as [tb|]; [|done].
    intros E. res_inv. eauto 10.
  - intros (tv & tb & pub & prv & -> & -> & E1 & E2 & ->). by rewrite E1, E2.
Qed.
End lemmas.

(** ** Properties *)
Section properties.
Context `{GrinTypes, !SwapSlateJson, !SwapSlateJsonLaws, !Sha256}.

Lemma write_then_read s dir d :
  in_u64 (sw_id s) -> slate_writable d (sw_id s) dir ->
  exists d', write_slate_to_disk s dir true true d = (Ok tt, d')
    /\ read_slate_from_disk (sw_id s) dir d' = Ok s.
Proof.
  intros Hid Hw. destruct (write_slate_files s dir true true d Hw Hid) as (d' & Ew & _ & Hf).
  exists d'. split; [done|]. apply read_slate_ok. do 4 eexists.
  rewrite !Hf, decide_False, !decide_True by
    first [done | intros E; by apply slate_path_inj in E as [_ ?]].
  rewrite pub_of_to_json, prv_of_to_json. repeat (split; [reflexivity|]). by destruct s.
Qed.

(** C39: What the program writes at the end of a command is what the next command
    reads, and the checksum it will send to the peer is that of the public half;
    the files of every other swap are left as they were. *)
Theorem slate_disk_roundtrip s dir d :
  in_u64 (sw_id s) -> slate_writable d (sw_id s) dir ->
  exists d', write_slate_to_disk s dir true true d = (Ok tt, d')
    /\ read_slate_from_disk (sw_id s) dir d' = Ok s
    /\ get_slate_checksum (sw_id s) dir d' = Ok (sha256_hex (pub_to_json (sw_pub s)))
    /\ forall id', in_u64 id' -> id' <> sw_id s ->
         read_slate_from_disk id' dir d' = read_slate_from_disk id' dir d
         /\ get_slate_checksum id' dir d' = get_slate_checksum id' dir d.
Proof.
  intros Hid Hw. destruct (write_slate_files s dir true true d Hw Hid) as (d' & Ew & _ & Hf).
  exists d'. split; [done|].
  assert (Epb : d_files d' !! get_slate_path (sw_id s) dir true = Some (pub_to_json (sw_pub s))).
  { rewrite Hf. by rewrite decide_True by done. }
  assert (Epv : d_files d' !! get_slate_path (sw_id s) dir false = Some (prv_to_json (sw_prv s))).
  { rewrite Hf. rewrite decide_False, decide_True; [done|done|].
    intros E. by apply slate_path_inj in E as [_ ?]. }
  split; [|split].
  - apply read_slate_ok. do 4 eexists. rewrite Epb, Epv, pub_of_to_json, prv_of_to_json.
    repeat (split; [reflexivity|]). by destruct s.
  - unfold get_slate_checksum. by rewrite Epb.
  - intros id' Hid' Hne.
    assert (Hsame : forall p, d_files d' !! get_slate_path id' dir p = d_files d !! get_slate_path id' dir p).
    { intros p. rewrite Hf. rewrite !decide_False; [done|..];
        intros E; apply slate_path_inj in E as [? _]; done. }
    unfold read_slate_from_disk, get_slate_checksum. by rewrite !Hsame.
Qed.

(** Accepting a swap starts from an empty private half, whatever was there: a
    second [accept], or one on the machine of the offerer, overwrites the private
    file, and with it the imported inputs and the keys. *)
Theorem accept_discards_private id dir d pub_text pub :
  in_u64 id -> slate_writable d id dir ->
  d_files d !! get_slate_path id dir true = Some pub_text -> pub_of_json pub_text = Ok pub ->
  exists d', create_priv_from_pub id dir d = (Ok (mkSwapSlate id pub empty_priv), d')
    /\ read_slate_from_disk id dir d' = Ok (mkSwapSlate id pub empty_priv)
    /\ d_files d' !! get_slate_path id dir true = Some pub_text.
Proof.
  intros Hid Hw Ef Ep. unfold create_priv_from_pub. rewrite Ef, Ep. cbn [unwrap].
  destruct (write_slate_files (mkSwapSlate id pub empty_priv) dir true false d Hw Hid)
    as (d' & -> & _ & Hf).
  cbn [disk_bind]. exists d'. split; [done|]. cbn [sw_id] in Hf.
  assert (Epb : d_files d' !! get_slate_path id dir true = Some pub_text).
  { rewrite Hf. rewrite decide_True by done. by rewrite Ef. }
  split; [|done]. apply read_slate_ok. do 4 eexists.
  split; [|split; [exact Epb|split; [exact Ep|split; [apply prv_of_to_json|done]]]].
  rewrite Hf. rewrite decide_False, decide_True; [done|done|].
  intros E. by apply slate_path_inj in E as [_ ?].
Qed.
End properties.
