(* ===== verification/Commands.v ===== *)
(** * src/commands: the commands of the program

    Each command is an instance of the class [Command] (the trait of command.rs):
    a program that is given the settings and the disk, and returns the swap slate
    and the disk.  A [Box<dyn Command>] is a command with its instance. *)
From S2P Require Import Prelude.
From S2P Require Import RustStd.
From S2P Require Import Crates.
From S2P Require Import SwapTypes.
From S2P Require Import Effects.
From S2P Require Import Tcp.
From S2P Require Import Http.
From S2P Require Import BitcoinCore.
From S2P Require Import BtcRoutines.
From S2P Require Import Slate.
From S2P Require Import SlateV4.
From S2P Require Import GrinRoutines.
From S2P Require Import GrinCore.
From S2P Require Import GrinTx.
From S2P Require Import Protocol.
From S2P Require Import SlateDisk.

(** ** The data *)
Record Init := mkInit {
  init_from : Currency; init_to : Currency; init_from_amount : Z; init_to_amount : Z;
  init_timeout_btc : Z; init_timeout_grin : Z }.
Record ImportBtc := mkImportBtc {
  ib_swpid : Z; ib_txid : string; ib_vout : Z; ib_value : Z; ib_sk : string; ib_pub_script : string }.
Record ImportGrin := mkImportGrin {
  ig_swpid : Z; ig_commitment : string; ig_blinding_factor : string; ig_value : Z }.
Record Listen := mkListen { listen_swapid : Z }.
Record Accept_ := mkAccept { accept_swapid : Z }.
Record Lock := mkLock { lock_swapid : Z }.
Record Cancel := mkCancel { cancel_swapid : Z }.
Record Execute := mkExecute { execute_swapid : Z }.

Definition Init_new (from to : Currency) (from_amount to_amount timeout_minutes : Z) : Init :=
  let timeout_grin := timeout_minutes / GRIN_BLOCK_TIME in
  let timeout_btc := timeout_minutes / BTC_BLOCK_TIME in
  {| init_from := from; init_to := to; init_from_amount := from_amount; init_to_amount := to_amount;
     init_timeout_btc := timeout_btc; init_timeout_grin := timeout_grin |}.

(** ** The interface *)
Definition Cmd `{GrinTypes} : Type := Disk -> prog (Res SwapSlate * Disk).

Class Command `{GrinTypes} (C : Type) := execute : C -> Settings -> Cmd.

Inductive DynCommand `{GrinTypes} : Type :=
| Box {C : Type} {HC : Command C} (c : C).

Definition dyn_execute `{GrinTypes} (b : DynCommand) : Settings -> Cmd :=
  match b with Box c => execute c end.

Section code.
Context `{BuildProfile, GC : GrinCrates, BC : BitcoinCrates, HC : HexCrate,
  !SlateJson, !SerMPCtxJson, !JsonRpcJson, !BitcoinCoreJson, !GrinCoreJson,
  !SwapSlateJson, !Sha256}.

(** A command that only reads the disk. *)
Definition reading (body : Disk -> P SwapSlate) : Cmd :=
  fun d => pbind (body d) (fun r => Ret (r, d)).

(** ** init.rs *)
Definition init_pub (self : Init) (settings : Settings) : SwapSlatePub :=
  let btc_amount := if bool_decide (BTC = init_from self) then init_from_amount self
                    else init_to_amount self in
  let mw_amount := if bool_decide (GRIN = init_from self) then init_from_amount self
                   else init_to_amount self in
  {| pub_status := INITIALIZED;
     pub_mw := {| mwp_amount := mw_amount;
                  mwp_timelock := init_timeout_grin self;
                  mwp_lock_time := None;
                  mwp_swap_type := if bool_decide (init_from self = GRIN) then OFFERED else REQUESTED |};
     pub_btc := {| bp_amount := btc_amount;
                   bp_timelock := init_timeout_btc self;
                   bp_lock_time := None;
                   bp_swap_type := if bool_decide (init_from self = BTC) then OFFERED else REQUESTED;
                   bp_pub_a := None; bp_pub_b := None; bp_pub_x := None |};
     pub_meta := {| meta_server := st_tcp_addr settings; meta_port := st_tcp_port settings |} |}.

#[global] Instance Init_Command : Command Init := fun self settings => reading (fun _ =>
  seed ← local draw;
  let id := wrap_u64 seed in
  if (bool_decide (init_from self = BTC) && bool_decide (init_to self = GRIN))
     || (bool_decide (init_from self = GRIN) && bool_decide (init_to self = BTC))
  then okP (mkSwapSlate id (init_pub self settings) empty_priv)
  else errP "Swapped currency setup not supported").

(** ** import_btc.rs, import_grin.rs *)
#[global] Instance ImportBtc_Command : Command ImportBtc := fun self settings => reading (fun d =>
  slate ← liftP (expect "Failed to read SwapSlate"
                   (read_slate_from_disk (ib_swpid self) (st_slate_directory settings) d));
  sec_key ← liftP (expect_opt "Unable to parse private key, please provide in WIF format"
                     (from_wif (ib_sk self)));
  let pub_key := bpk_from_private_key sec_key in
  okP (push_btc_input {| bi_txid := ib_txid self; bi_vout := ib_vout self; bi_value := ib_value self;
                         bi_secret := to_wif sec_key; bi_pub_key := bpk_to_string pub_key;
                         bi_pub_script := ib_pub_script self |} slate)).

#[global] Instance ImportGrin_Command : Command ImportGrin := fun self settings => reading (fun d =>
  slate ← liftP (expect "Failed to read SwapSlate from file"
                   (read_slate_from_disk (ig_swpid self) (st_slate_directory settings) d));
  okP (push_mw_input {| coin_commitment := ig_commitment self;
                        coin_blinding_factor := ig_blinding_factor self;
                        coin_value := ig_value self |} slate)).

(** ** accept.rs *)
#[global] Instance Accept_Command : Command Accept_ := fun self settings d =>
  let '(r, d') := create_priv_from_pub (accept_swapid self) (st_slate_directory settings) d in
  Ret (expect "Unable to locate public slate file" r, d').

(** ** The two clients and the protocol objects every networked command makes *)
Record Cores := mkCores { co_btc : BitcoinCore; co_grin : GrinCore; co_tx : GrinTx }.

Definition make_cores (settings : Settings) : M Cores :=
  let btc_core := BitcoinCore_new (BtcNodeSettings_clone (st_btc settings)) (RequestFactory_new None) in
  grin_core ← GrinCore_new (GrinNodeSettings_clone (st_grin settings)) (RequestFactory_new None);
  grin_tx ← GrinTx_new (GrinNodeSettings_clone (st_grin settings)) (RequestFactory_new None);
  mret (mkCores btc_core grin_core grin_tx).

Definition run_phase (ph : Phase unit) (s : SwapSlate) : P SwapSlate :=
  pbind (ph s) (fun x => Ret (let '(r, s') := x in res_map_ok s' r)).

Definition connect (slate : SwapSlate) : P unit :=
  let meta := pub_meta (sw_pub slate) in
  Connect (ConnectTo (meta_server meta +:+ ":" +:+ meta_port meta)) (fun ok =>
    if ok then okP tt else Ret (Panic "Failed to connect to peer via TCP")).

(** How [Lock], [Execute] and [Cancel] begin: connect, then show the checksum of
    the public slate and wait for [OK]. *)
Definition open_session (swapid : Z) (settings : Settings) (mismatch : string) (d : Disk)
    (k : SwapSlate -> Cores -> P SwapSlate) : P SwapSlate :=
  slate ← liftP (expect "Unable to read slate files from disk"
                   (read_slate_from_disk swapid (st_slate_directory settings) d));
  _ ← connect slate;
  cores ← local (make_cores settings);
  checksum ← liftP (unwrap (get_slate_checksum (sw_id slate) (st_slate_directory settings) d));
  _ ← send_msg checksum;
  resp ← receive_msg;
  if negb (eq_ignore_ascii_case resp "OK") then errP mismatch else k slate cores.

Definition btc_offered (s : SwapSlate) : bool := bool_decide (bp_swap_type (pub_btc_of s) = OFFERED).
Definition status_is (x : SwapStatus) (s : SwapSlate) : bool := bool_decide (pub_status (sw_pub s) = x).

(** ** lock.rs *)
#[global] Instance Lock_Command : Command Lock := fun self settings => reading (fun d =>
  open_session (lock_swapid self) settings "Checksums didn't match!" d (fun slate c =>
    if negb (status_is INITIALIZED slate) then errP "Slate is not in initialized state!"
    else if btc_offered slate then run_phase (locking_phase_swap_mw (co_grin c) (co_btc c)) slate
    else run_phase (locking_phase_swap_btc (co_grin c) (co_btc c)) slate)).

(** ** execute.rs *)
#[global] Instance Execute_Command : Command Execute := fun self settings => reading (fun d =>
  open_session (execute_swapid self) settings "Checksums didn't match" d (fun slate c =>
    if negb (status_is SETUP slate) then errP "Slate must be in state SETUP to be executed"
    else
      _ ← send_msg "EXECUTE";
      if btc_offered slate then run_phase (exec_phase_swap_mw (co_grin c) (co_btc c)) slate
      else run_phase (exec_phase_swap_btc (co_grin c) (co_btc c)) slate)).

(** ** cancel.rs *)
#[global] Instance Cancel_Command : Command Cancel := fun self settings => reading (fun d =>
  open_session (cancel_swapid self) settings "Checksums didn't match" d (fun slate c =>
    if negb (status_is SETUP slate) then errP "Slate must be in state SETUP to be executed"
    else
      _ ← send_msg "CANCEL";
      if btc_offered slate then run_phase (refund_phase_swap_mw (co_grin c) (co_btc c)) slate
      else run_phase (refund_phase_swap_btc (co_grin c) (co_btc c)) slate)).

(** ** listen.rs *)
Definition sum_values (l : list Z) : Res Z := res_fold u64_add 0 l.

(** The value of the imported coins of the currency that is offered. *)
Definition offered_value (s : SwapSlate) : Res Z :=
  if bool_decide (mwp_swap_type (pub_mw_of s) = OFFERED)
  then sum_values (coin_value <$> mws_inputs (prv_mw_of s))
  else sum_values (bi_value <$> bs_inputs (prv_btc_of s)).
Definition offered_amount (s : SwapSlate) : Z :=
  if bool_decide (mwp_swap_type (pub_mw_of s) = OFFERED)
  then mwp_amount (pub_mw_of s) else bp_amount (pub_btc_of s).

(** One client: [None] when the loop goes on. *)
Definition serve_client (settings : Settings) (c : Cores) (slate : SwapSlate) (d : Disk) :
    P (option SwapSlate) :=
  msg ← receive_msg;
  checksum ← liftP (unwrap (get_slate_checksum (sw_id slate) (st_slate_directory settings) d));
  if eq_ignore_ascii_case msg checksum then
    _ ← send_msg "OK";
    if status_is INITIALIZED slate then
      s ← (if btc_offered slate then run_phase (locking_phase_swap_btc (co_grin c) (co_btc c)) slate
           else run_phase (locking_phase_swap_mw (co_grin c) (co_btc c)) slate);
      okP (Some s)
    else if status_is SETUP slate then
      msg ← receive_msg;
      s ← (if bool_decide (msg = "EXECUTE") then
             if btc_offered slate then run_phase (exec_phase_swap_btc (co_grin c) (co_btc c)) slate
             else run_phase (exec_phase_swap_mw (co_grin c) (co_btc c)) slate
           else
             if btc_offered slate then run_phase (refund_phase_swap_btc (co_grin c) (co_btc c)) slate
             else run_phase (refund_phase_swap_mw (co_grin c) (co_btc c)) slate);
      okP (Some s)
    else okP None
  else
    _ ← send_msg "FAULT";
    okP None.

(** [for client in listener.incoming()]: at most [n] clients are served, after
    which the server waits. *)
Fixpoint serve (n : nat) (settings : Settings) (c : Cores) (slate : SwapSlate) (d : Disk) :
    P SwapSlate :=
  match n with
  | O => Wait
  | S n' =>
      Accept (r ← serve_client settings c slate d;
              match r with
              | Some s => okP s
              | None => serve n' settings c slate d
              end)
  end.

Definition listen_execute (n : nat) (self : Listen) (settings : Settings) (d : Disk) : P SwapSlate :=
  slate ← liftP (expect "Failed to read SwapSlate from file"
                   (read_slate_from_disk (listen_swapid self) (st_slate_directory settings) d));
  value ← liftP (offered_value slate);
  if negb (status_is SETUP slate) && (value <? offered_amount slate)
  then errP "Not enough value in inputs, please import more Coins"
  else
    cores ← local (make_cores settings);
    Connect (BindTo (st_tcp_addr settings +:+ ":" +:+ st_tcp_port settings)) (fun ok =>
      if ok : bool then serve n settings cores slate d
      else Ret (Panic "called `Result::unwrap()` on an `Err` value")).
End code.

(** The number of clients a listener is run for. *)
Class MaxClients := max_clients : nat.
#[export] Instance Listen_Command `{BuildProfile, GC : GrinCrates, BC : BitcoinCrates, HC : HexCrate,
  !SlateJson, !SerMPCtxJson, !JsonRpcJson, !BitcoinCoreJson, !GrinCoreJson,
  !SwapSlateJson, !Sha256, !MaxClients} : Command Listen :=
  fun self settings => reading (listen_execute max_clients self settings).

(** ** Lemmas *)
Section lemmas.
Context `{BuildProfile, GC : GrinCrates, BC : BitcoinCrates, HC : HexCrate,
  !SlateJson, !SerMPCtxJson, !JsonRpcJson, !BitcoinCoreJson, !GrinCoreJson,
  !SwapSlateJson, !Sha256}.

Lemma make_cores_ok settings t : exists c t', make_cores settings t = (Ok c, t').
Proof. unfold make_cores, GrinTx_new, GrinCore_new. eexists _, _. reflexivity. Qed.

Lemma reading_keeps body d : ensures (fun x => x.2 = d) (reading body d).
Proof. unfold reading. eapply ensures_pbind; [apply ensures_True|]. done. Qed.

(** A listener with the room for one more client does the same when the queue of
    clients ends before it does. *)
Lemma run_Accept {A} (k : prog A) w c cs :
  w_clients w = c :: cs -> run (Accept k) w = run k (log EvAccepted (set_clients cs (set_inbox c w))).
Proof. intros E. cbn. by rewrite E. Qed.

Lemma run_bind_Ok {A B} (p : P A) (k : A -> P B) w :
  run (p ≫= k) w = outcome_bind (run p w) (fun r w' =>
    match r with Ok a => run (k a) w' | Err e => (Done (Err e), w') | Panic e => (Done (Panic e), w') end).
Proof.
  unfold mbind, P_bind. rewrite run_pbind. destruct (run p w) as [[[]| | |] w']; reflexivity.
Qed.

(** The phase that each side of a session runs, by its role. *)
Definition session_phase (offerer : bool) (slate : SwapSlate) (mw btc : Phase unit) : Phase unit :=
  if Bool.eqb offerer (btc_offered slate) then btc else mw.

Lemma run_phase_done ph s w s' w' :
  finish (run_phase ph s) w = (Done (Ok s'), w') -> finish (ph s) w = (Done (Ok tt, s'), w').
Proof.
  unfold run_phase. rewrite finish_pbind. destruct (finish (ph s) w) as [[[[[]|e|e] s1]| | |] w1]; cbn;
    intros E; by simplify_eq.
Qed.
End lemmas.

(** ** Properties *)
Section properties.
Context `{BuildProfile, GC : GrinCrates, BC : BitcoinCrates, HC : HexCrate,
  !SlateJson, !SerMPCtxJson, !JsonRpcJson, !BitcoinCoreJson, !GrinCoreJson,
  !SwapSlateJson, !Sha256}.

(** The bound on the number of clients is no restriction: a listener given more
    room than there are clients does exactly what one with any more room does. *)
Theorem listener_fuel settings c slate d n m w :
  (length (w_clients w) < n)%nat -> (n <= m)%nat ->
  run (serve n settings c slate d) w = run (serve m settings c slate d) w.
Proof.
  revert m w. induction n as [|n IH]; intros [|m] w Hn Hm; [lia..|]. cbn [serve].
  destruct (w_clients w) as [|cl cls] eqn:Ec; [cbn; by rewrite Ec|].
  rewrite !(run_Accept _ w cl cls) by done. set (w1 := log _ _). rewrite !run_bind_Ok.
  destruct (run (serve_client settings c slate d) w1) as [[r| | |] w2] eqn:Er; [|done..]. cbn.
  destruct r as [[s|]|e|e]; [done| |done..]. apply IH; [|lia].
  apply run_clients in Er. cbn in Er, Hn. lia.
Qed.

(** A client whose checksum is not that of the listener's public slate is told
    [FAULT] and dropped: nothing is read from it any more, the slate is as it was
    and the listener goes on with the next client. *)
Theorem listener_drops_stranger settings c slate d n w checksum msg rest cls :
  get_slate_checksum (sw_id slate) (st_slate_directory settings) d = Ok checksum ->
  eq_ignore_ascii_case msg checksum = false ->
  w_clients w = (msg :: rest) :: cls ->
  exists w', run (serve (S n) settings c slate d) w = run (serve n settings c slate d) w'
    /\ w_clients w' = cls /\ w_tape w' = w_tape w
    /\ w_log w' = [EvSent "FAULT"; EvReceived msg; EvAccepted] ++ w_log w.
Proof.
  intros Hc Hm Ew. cbn [serve]. rewrite (run_Accept _ w (msg :: rest) cls) by done.
  rewrite run_bind_Ok. unfold serve_client.
  rewrite run_bind_Ok. cbn [receive_msg run outcome_bind]. cbn -[serve get_slate_checksum eq_ignore_ascii_case].
  rewrite Hc. cbn -[serve eq_ignore_ascii_case]. rewrite Hm. cbn -[serve]. eexists. split; [reflexivity|].
  done.
Qed.
End properties.

(** ** Both ends of a session *)
Section sessions.
Context `{BuildProfile, GC : GrinCrates, BC : BitcoinCrates, HC : HexCrate,
  !SlateJson, !SerMPCtxJson, !JsonRpcJson, !BitcoinCoreJson, !GrinCoreJson,
  !SwapSlateJson, !Sha256}.

Definition connecting_side (ph : Phase unit) (s : SwapSlate) (d : Disk) : prog (Res SwapSlate * Disk) :=
  pbind (run_phase ph s) (fun r => Ret (r, d)).
Definition listening_side (ph : Phase unit) (s : SwapSlate) : P (option SwapSlate) :=
  s' ← run_phase ph s; okP (Some s').

(** The two phases of a session, each with the one who owns that coin. *)
Definition paired (mw btc : GrinCore -> BitcoinCore -> Phase unit) (c1 c2 : Cores) (sa sb : SwapSlate)
    (d : Disk) (wa wb : World) :=
  if btc_offered sb
  then duet (connecting_side (mw (co_grin c1) (co_btc c1)) sa d)
            (listening_side (btc (co_grin c2) (co_btc c2)) sb) wa wb
  else duet (connecting_side (btc (co_grin c1) (co_btc c1)) sa d)
            (listening_side (mw (co_grin c2) (co_btc c2)) sb) wa wb.

Context (st st' : Settings) (c : Cores) (sa sb : SwapSlate) (d d' : Disk) (ca cb : string).
Context (Hread : read_slate_from_disk (sw_id sa) (st_slate_directory st) d = Ok sa)
  (Hca : get_slate_checksum (sw_id sa) (st_slate_directory st) d = Ok ca)
  (Hcb : get_slate_checksum (sw_id sb) (st_slate_directory st') d' = Ok cb).

#[local] Opaque locking_phase_swap_btc locking_phase_swap_mw exec_phase_swap_btc exec_phase_swap_mw
  refund_phase_swap_btc refund_phase_swap_mw make_cores get_slate_checksum eq_ignore_ascii_case.
Lemma session_opens mismatch (k : SwapSlate -> Cores -> P SwapSlate) (K : Disk) wa wb :
  exists c1 wa1 wb1,
    duet (pbind (open_session (sw_id sa) st mismatch d k) (fun r => Ret (r, K)))
         (serve_client st' c sb d') wa wb
    = if eq_ignore_ascii_case ca cb
      then duet (pbind (k sa c1) (fun r => Ret (r, K)))
             (if status_is INITIALIZED sb then
                s ← (if btc_offered sb then run_phase (locking_phase_swap_btc (co_grin c) (co_btc c)) sb
                     else run_phase (locking_phase_swap_mw (co_grin c) (co_btc c)) sb);
                okP (Some s)
              else if status_is SETUP sb then
                msg ← receive_msg;
                s ← (if bool_decide (msg = "EXECUTE") then
                       if btc_offered sb then run_phase (exec_phase_swap_btc (co_grin c) (co_btc c)) sb
                       else run_phase (exec_phase_swap_mw (co_grin c) (co_btc c)) sb
                     else
                       if btc_offered sb then run_phase (refund_phase_swap_btc (co_grin c) (co_btc c)) sb
                       else run_phase (refund_phase_swap_mw (co_grin c) (co_btc c)) sb);
                okP (Some s)
              else okP None) wa1 wb1
      else ((Done (Err mismatch, K), wa1), (Done (Ok None), wb1)).
Proof.
  unfold open_session, serve_client. rewrite Hread, Hcb.
  destruct (make_cores_ok st (w_tape wa)) as (c1 & t1 & E1).
  exists c1. cbn. rewrite E1. cbn. rewrite Hca. cbn.
  destruct (eq_ignore_ascii_case ca cb); eexists _, _; reflexivity.
Qed.

(** Checksums that differ end the session before anything of the slates is used. *)
Lemma session_refused mismatch (k : SwapSlate -> Cores -> P SwapSlate) (K : Disk) wa wb :
  eq_ignore_ascii_case ca cb = false ->
  exists wa1 wb1, duet (pbind (open_session (sw_id sa) st mismatch d k) (fun r => Ret (r, K)))
    (serve_client st' c sb d') wa wb = ((Done (Err mismatch, K), wa1), (Done (Ok None), wb1)).
Proof.
  intros Ec. destruct (session_opens mismatch k K wa wb) as (c1 & wa1 & wb1 & E).
  exists wa1, wb1. rewrite E. by rewrite Ec.
Qed.

(** C38: A session pairs the two sides correctly.  When the checksums agree and the two sides
    hold the same public half (which the checksum stands for, and which is assumed), [lock], [execute] and [cancel] on one machine and
    the listener on the other run the two phases of the same step, one for each
    coin's owner, each on its own slate.  When the checksums differ, whatever the public halves are, each of
    [lock], [execute] and [cancel]
    ends with its error and its disk as it was, and the listener, which returns no slate, goes on. *)
Theorem sessions_pair wa wb :
  (eq_ignore_ascii_case ca cb = true -> sw_pub sa = sw_pub sb ->
     (status_is INITIALIZED sb = true -> exists c1 wa1 wb1,
        duet (execute (mkLock (sw_id sa)) st d) (serve_client st' c sb d') wa wb
        = paired locking_phase_swap_mw locking_phase_swap_btc c1 c sa sb d wa1 wb1)
     /\ (status_is SETUP sb = true -> exists c1 wa1 wb1 c2 wa2 wb2,
        duet (execute (mkExecute (sw_id sa)) st d) (serve_client st' c sb d') wa wb
        = paired exec_phase_swap_mw exec_phase_swap_btc c1 c sa sb d wa1 wb1
        /\ duet (execute (mkCancel (sw_id sa)) st d) (serve_client st' c sb d') wa wb
        = paired refund_phase_swap_mw refund_phase_swap_btc c2 c sa sb d wa2 wb2))
  /\ (eq_ignore_ascii_case ca cb = false ->
       (exists wa1 wb1, duet (execute (mkLock (sw_id sa)) st d) (serve_client st' c sb d') wa wb
          = ((Done (Err "Checksums didn't match!", d), wa1), (Done (Ok None), wb1)))
       /\ (exists wa1 wb1, duet (execute (mkExecute (sw_id sa)) st d) (serve_client st' c sb d') wa wb
          = ((Done (Err "Checksums didn't match", d), wa1), (Done (Ok None), wb1)))
       /\ (exists wa1 wb1, duet (execute (mkCancel (sw_id sa)) st d) (serve_client st' c sb d') wa wb
          = ((Done (Err "Checksums didn't match", d), wa1), (Done (Ok None), wb1)))).
Proof.
  split; [intros Ec Hpub|intros Ec; split_and!; by apply session_refused].
  assert (Hst : forall x, status_is x sa = status_is x sb) by (intros x; unfold status_is; by rewrite Hpub).
  assert (Hof : btc_offered sa = btc_offered sb) by (unfold btc_offered, pub_btc_of; by rewrite Hpub).
  split; intros Hs.
  - destruct (session_opens "Checksums didn't match!" (fun slate c1 =>
      if negb (status_is INITIALIZED slate) then errP "Slate is not in initialized state!"
      else if btc_offered slate then run_phase (locking_phase_swap_mw (co_grin c1) (co_btc c1)) slate
      else run_phase (locking_phase_swap_btc (co_grin c1) (co_btc c1)) slate) d wa wb)
      as (c1 & wa1 & wb1 & E).
    exists c1, wa1, wb1. etransitivity; [exact E|]. rewrite Ec, Hst, Hs, Hof. unfold paired.
    by destruct (btc_offered sb).
  - assert (Hi : status_is INITIALIZED sb = false).
    { unfold status_is in *. apply bool_decide_eq_true in Hs. rewrite Hs. done. }
    destruct (session_opens "Checksums didn't match" (fun slate c1 =>
      if negb (status_is SETUP slate) then errP "Slate must be in state SETUP to be executed"
      else
        _ ← send_msg "EXECUTE";
        if btc_offered slate then run_phase (exec_phase_swap_mw (co_grin c1) (co_btc c1)) slate
        else run_phase (exec_phase_swap_btc (co_grin c1) (co_btc c1)) slate) d wa wb)
      as (c1 & wa1 & wb1 & E1).
    destruct (session_opens "Checksums didn't match" (fun slate c1 =>
      if negb (status_is SETUP slate) then errP "Slate must be in state SETUP to be executed"
      else
        _ ← send_msg "CANCEL";
        if btc_offered slate then run_phase (refund_phase_swap_mw (co_grin c1) (co_btc c1)) slate
        else run_phase (refund_phase_swap_btc (co_grin c1) (co_btc c1)) slate) d wa wb)
      as (c2 & wa2 & wb2 & E2).
    rewrite Ec, Hst, Hs, Hof, Hi in E1, E2. exists c1, (log (EvSent "EXECUTE") wa1),
      (log (EvReceived "EXECUTE") wb1), c2, (log (EvSent "CANCEL") wa2), (log (EvReceived "CANCEL") wb2).
    split; (etransitivity; [eassumption|]); unfold paired; by destruct (btc_offered sb).
Qed.
End sessions.
