(* ===== verification/Main.v ===== *)
(** * src/commands/parser.rs and src/main.rs: the command line

    clap is a parameter: what it returns is an [ArgMatches], and [conforms] says
    what clap guarantees for the [App] of main.rs, which is data here. *)
From S2P Require Import Prelude.
From S2P Require Import RustStd.
From S2P Require Import Crates.
From S2P Require Import SwapTypes.
From S2P Require Import Effects.
From S2P Require Import Http.
From S2P Require Import BitcoinCore.
From S2P Require Import Slate.
From S2P Require Import SlateV4.
From S2P Require Import GrinRoutines.
From S2P Require Import GrinCore.
From S2P Require Import SlateDisk.
From S2P Require Import Commands.

(** ** What clap returns *)
Inductive ArgMatches :=
| mkMatches (args : list (string * string)) (sub : option (string * ArgMatches)).

Definition matches_args (m : ArgMatches) : list (string * string) :=
  match m with mkMatches a _ => a end.
Definition matches_sub (m : ArgMatches) : option (string * ArgMatches) :=
  match m with mkMatches _ s => s end.

Fixpoint assoc (name : string) (l : list (string * string)) : option string :=
  match l with
  | [] => None
  | (n, v) :: l' => if bool_decide (n = name) then Some v else assoc name l'
  end.
Definition value_of (name : string) (m : ArgMatches) : option string := assoc name (matches_args m).

(** [args.value_of(name).unwrap()] *)
Definition arg (m : ArgMatches) (name : string) : Res string := unwrap_opt (value_of name m).

(** ** parser.rs *)
Section parser.
Context `{BuildProfile, GC : GrinCrates, BC : BitcoinCrates, HC : HexCrate,
  !SlateJson, !SerMPCtxJson, !JsonRpcJson, !BitcoinCoreJson, !GrinCoreJson,
  !SwapSlateJson, !Sha256, !MaxClients}.

Definition over_limit (c : Currency) (amount : Z) : bool :=
  (bool_decide (c = BTC) && (BTC_MAX_SATS <? amount))
  || (bool_decide (c = GRIN) && (GRIN_MAX_NANOGRIN <? amount)).

Definition parse_init (args : ArgMatches) : Res DynCommand :=
  from_currency_arg ← arg args "from-currency";
  to_currency_arg ← arg args "to-currency";
  from_amount_arg ← arg args "from-amount";
  to_amount_arg ← arg args "to-amount";
  timeout_arg ← arg args "timeout";
  from_currency ← parse_currency_from_string from_currency_arg;
  to_currency ← parse_currency_from_string to_currency_arg;
  from_amount ← unwrap (parse_u64 from_amount_arg);
  to_amount ← unwrap (parse_u64 to_amount_arg);
  timeout_min ← unwrap (parse_u64 timeout_arg);
  if over_limit from_currency from_amount then Panic "From amount is too high!"
  else if over_limit to_currency to_amount then Panic "To amount is too high!"
  else if MAX_TIMEOUT <? timeout_min then Panic "Timeout too high! Max timeout is 5 days"
  else Ok (Box (Init_new from_currency to_currency from_amount to_amount timeout_min)).

Definition parse_import_btc (subargs : ArgMatches) : Res DynCommand :=
  swapid_arg ← arg subargs "swapid";
  txid ← arg subargs "txid";
  vout_arg ← arg subargs "vout";
  value_arg ← arg subargs "value";
  sk_wif ← arg subargs "sk";
  pub_script ← arg subargs "pub_script";
  swapid ← unwrap (parse_u64 swapid_arg);
  vout ← unwrap (parse_u32 vout_arg);
  value ← unwrap (parse_u64 value_arg);
  Ok (Box (mkImportBtc swapid txid vout value sk_wif pub_script)).

Definition parse_import_grin (subargs : ArgMatches) : Res DynCommand :=
  swapid_arg ← arg subargs "swapid";
  commitment ← arg subargs "commitment";
  blinding_factor ← arg subargs "blinding_factor";
  value_arg ← arg subargs "value";
  swapid ← unwrap (parse_u64 swapid_arg);
  value ← unwrap (parse_u64 value_arg);
  Ok (Box (mkImportGrin swapid commitment blinding_factor value)).

Definition parse_swapid (args : ArgMatches) : Res Z :=
  swapid_arg ← arg args "swapid"; unwrap (parse_u64 swapid_arg).

Definition parse_arguments (matches : ArgMatches) : Res DynCommand :=
  match matches_sub matches with
  | Some (name, args) =>
      if bool_decide (name = "init") then parse_init args
      else if bool_decide (name = "import") then
        match matches_sub args with
        | Some (name', subargs) =>
            if bool_decide (name' = "btc") then parse_import_btc subargs
            else if bool_decide (name' = "grin") then parse_import_grin subargs
            else Err "Invalid subcommand for import supplied"
        | None => Err "Invalid subcommand for import supplied"
        end
      else if bool_decide (name = "listen") then swapid ← parse_swapid args; Ok (Box (mkListen swapid))
      else if bool_decide (name = "accept") then swapid ← parse_swapid args; Ok (Box (mkAccept swapid))
      else if bool_decide (name = "lock") then swapid ← parse_swapid args; Ok (Box (mkLock swapid))
      else if bool_decide (name = "cancel") then swapid ← parse_swapid args; Ok (Box (mkCancel swapid))
      else if bool_decide (name = "execute") then swapid ← parse_swapid args; Ok (Box (mkExecute swapid))
      else Err "Invalid command supplied"
  | None => Err "Invalid command supplied"
  end.
End parser.

(** ** main.rs *)

(** An [App] or [SubCommand]: its required arguments that take a value, and its
    subcommands. *)
Inductive App := mkApp (name : string) (required : list string) (subs : list App).
Definition app_name (a : App) : string := match a with mkApp n _ _ => n end.
Definition app_required (a : App) : list string := match a with mkApp _ r _ => r end.
Definition app_subs (a : App) : list App := match a with mkApp _ _ s => s end.

Definition swap_app : App :=
  mkApp "Grin Bitcoin Swaps" []
    [mkApp "init" ["from-currency"; "to-currency"; "from-amount"; "to-amount"; "timeout"] [];
     mkApp "import" []
       [mkApp "btc" ["swapid"; "txid"; "vout"; "value"; "sk"; "pub_script"] [];
        mkApp "grin" ["swapid"; "commitment"; "blinding_factor"; "value"] []];
     mkApp "listen" ["swapid"] [];
     mkApp "accept" ["swapid"] [];
     mkApp "lock" ["swapid"] [];
     mkApp "cancel" ["swapid"] [];
     mkApp "execute" ["swapid"] []].

(** What clap guarantees for the matches it returns: the required arguments of
    every command on the path have a value, and a subcommand is a declared one. *)
Inductive conforms : App -> ArgMatches -> Prop :=
| conforms_leaf a args :
    Forall (fun n => is_Some (assoc n args)) (app_required a) ->
    conforms a (mkMatches args None)
| conforms_sub a args b m :
    Forall (fun n => is_Some (assoc n args)) (app_required a) ->
    b ∈ app_subs a -> conforms b m ->
    conforms a (mkMatches args (Some (app_name b, m))).

Class SettingsJson := parse_settings : string -> Res Settings.

Section main.
Context `{BuildProfile, GC : GrinCrates, BC : BitcoinCrates, HC : HexCrate,
  !SlateJson, !SerMPCtxJson, !JsonRpcJson, !BitcoinCoreJson, !GrinCoreJson,
  !SwapSlateJson, !Sha256, !MaxClients, !SettingsJson}.

Definition parse_json_string (json : string) : Res Settings := unwrap (parse_settings json).

(** [env::var(name).unwrap_or(d)]: [env] gives the variables that are set. *)
Definition overwrite_settings_with_env (env : string -> option string) (settings : Settings) : Settings :=
  {| st_btc := BtcNodeSettings_clone (st_btc settings);
     st_grin := GrinNodeSettings_clone (st_grin settings);
     st_tcp_addr := default (st_tcp_addr settings) (env "SETTINGS_TCP_ADDR");
     st_tcp_port := default (st_tcp_port settings) (env "SETTINGS_TCP_PORT");
     st_slate_directory := default (st_slate_directory settings) (env "SETTINGS_SLATE_DIRECTORY") |}.

(** The end of the process: it returned, or it aborted with a message. *)
Definition main (env : string -> option string) (args_len : nat) (matches : ArgMatches) (d : Disk) :
    prog (Res unit * Disk) :=
  match d_files d !! "config/settings.json" with
  | None => Ret (Panic "Something went wrong reading the settings file", d)
  | Some contents =>
      match parse_json_string contents with
      | Err e => Ret (Err e, d)
      | Panic e => Ret (Panic e, d)
      | Ok read_settings =>
          let settings := overwrite_settings_with_env env read_settings in
          if (args_len <=? 1)%nat then Ret (Ok tt, d)   (* usage *)
          else
            match expect "Failed to parse command line arguments" (parse_arguments matches) with
            | Err e => Ret (Err e, d)
            | Panic e => Ret (Panic e, d)
            | Ok cmd =>
                pbind (dyn_execute cmd settings d) (fun x =>
                  let '(r, d) := x in
                  match expect "Command execution failed" r with
                  | Ok slate => Ret (write_slate_to_disk slate (st_slate_directory settings) true true d)
                  | Err e => Ret (Err e, d)
                  | Panic e => Ret (Panic e, d)
                  end)
            end
      end
  end.
End main.

(** ** Properties of the command line *)
Section properties.
Context `{BuildProfile, GC : GrinCrates, BC : BitcoinCrates, HC : HexCrate,
  !SlateJson, !SerMPCtxJson, !JsonRpcJson, !BitcoinCoreJson, !GrinCoreJson,
  !SwapSlateJson, !SwapSlateJsonLaws, !Sha256, !MaxClients, !SettingsJson}.

Definition none_unwrapped : string := "called `Option::unwrap()` on a `None` value".

Lemma arg_present m n : is_Some (assoc n (matches_args m)) -> exists v, arg m n = Ok v.
Proof. intros [v E]. exists v. unfold arg, value_of. by rewrite E. Qed.

Lemma conforms_required a m :
  conforms a m -> Forall (fun n => is_Some (assoc n (matches_args m))) (app_required a).
Proof. by inversion 1. Qed.

(** The errors of the conversions are never the message of a missing value. *)
Lemma parse_int_not_none lo hi s : unwrap (parse_int lo hi s) <> Panic none_unwrapped.
Proof.
  assert (Hp : forall max s acc, unwrap (parse_pos max acc s) <> Panic none_unwrapped).
  { intros max s'. induction s' as [|a s' IH]; intros acc; cbn; [done|].
    destruct (to_digit a); [|done]. destruct (_ <=? max); [apply IH|done]. }
  assert (Hn : forall min s acc, unwrap (parse_neg min acc s) <> Panic none_unwrapped).
  { intros min s'. induction s' as [|a s' IH]; intros acc; cbn; [done|].
    destruct (to_digit a); [|done]. destruct (min <=? _); [apply IH|done]. }
  unfold parse_int. repeat case_match; first [done | apply Hp | apply Hn].
Qed.

Lemma parse_currency_not_none s : parse_currency_from_string s <> Panic none_unwrapped.
Proof. unfold parse_currency_from_string. by repeat case_bool_decide. Qed.

Lemma bind_not_none {A B} (r : Res A) (k : A -> Res B) :
  r <> Panic none_unwrapped -> (forall a, k a <> Panic none_unwrapped) ->
  r ≫= k <> Panic none_unwrapped.
Proof. destruct r; cbn; naive_solver. Qed.

Ltac not_none :=
  repeat first
    [ apply bind_not_none; [first [apply parse_int_not_none | apply parse_currency_not_none]|]; intros ?
    | apply parse_int_not_none | done | case_match ].

(** A required argument is there to be unwrapped. *)
Lemma arg_bind_not_none {B} (m : ArgMatches) n (k : string -> Res B) :
  is_Some (assoc n (matches_args m)) -> (forall v, k v <> Panic none_unwrapped) ->
  arg m n ≫= k <> Panic none_unwrapped.
Proof. intros [v Hv]%arg_present Hk. rewrite Hv. cbn. apply Hk. Qed.

Ltac args H :=
  repeat (apply arg_bind_not_none; [apply (proj1 (Forall_forall _ _) H); set_solver|]; intros ?).

Lemma parse_init_not_none m :
  Forall (fun n => is_Some (assoc n (matches_args m)))
    ["from-currency"; "to-currency"; "from-amount"; "to-amount"; "timeout"] ->
  parse_init m <> Panic none_unwrapped.
Proof. intros Hr. unfold parse_init. args Hr. not_none. Qed.
Lemma parse_import_btc_not_none m :
  Forall (fun n => is_Some (assoc n (matches_args m)))
    ["swapid"; "txid"; "vout"; "value"; "sk"; "pub_script"] ->
  parse_import_btc m <> Panic none_unwrapped.
Proof. intros Hr. unfold parse_import_btc. args Hr. not_none. Qed.
Lemma parse_import_grin_not_none m :
  Forall (fun n => is_Some (assoc n (matches_args m)))
    ["swapid"; "commitment"; "blinding_factor"; "value"] ->
  parse_import_grin m <> Panic none_unwrapped.
Proof. intros Hr. unfold parse_import_grin. args Hr. not_none. Qed.
Lemma parse_swapid_not_none m :
  Forall (fun n => is_Some (assoc n (matches_args m))) ["swapid"] ->
  parse_swapid m <> Panic none_unwrapped.
Proof. intros Hr. unfold parse_swapid. args Hr. not_none. Qed.

(** The parser never unwraps a missing argument: for the matches clap returns for
    the [App] of main.rs, whichever command was given, every [value_of(..).unwrap()]
    finds its value, and a command without its subcommand is an error of its own. *)
Theorem parser_finds_arguments m :
  conforms swap_app m -> parse_arguments m <> Panic none_unwrapped.
Proof.
  inversion 1 as [|a args b m' Hreq Hb Hc]; subst; [done|].
  pose proof (conforms_required _ _ Hc) as Hr. unfold parse_arguments. cbn [matches_sub].
  cbn in Hb. repeat (apply elem_of_cons in Hb as [->|Hb]); [..|by apply not_elem_of_nil in Hb];
    cbn [app_name app_required] in *; repeat (case_bool_decide; try done);
    try (apply bind_not_none; [by apply parse_swapid_not_none|done]).
  - by apply parse_init_not_none.
  - inversion Hc as [|? args' b' m2 _ Hb' Hc']; subst; [done|]. cbn [matches_sub].
    pose proof (conforms_required _ _ Hc') as Hr'. cbn in Hb'.
    repeat (apply elem_of_cons in Hb' as [->|Hb']); [..|by apply not_elem_of_nil in Hb'];
      cbn [app_name app_required] in *; repeat (case_bool_decide; try done).
    + by apply parse_import_btc_not_none.
    + by apply parse_import_grin_not_none.
Qed.

Lemma over_limit_false c a : over_limit c a = false ->
  a <= (if bool_decide (c = BTC) then BTC_MAX_SATS else GRIN_MAX_NANOGRIN).
Proof.
  unfold over_limit. intros [E1 E2]%orb_false_iff. destruct c; cbn in *; by apply Z.ltb_ge.
Qed.

(** [init] accepts only terms within the limits: two currencies, amounts that
    exist, and a time out of at most five days, which becomes a number of blocks
    on either chain; with any other value the program ends before a slate is made. *)
Theorem parse_init_limits m cmd :
  parse_init m = Ok cmd ->
  exists from to fa ta timeout,
    cmd = Box (mkInit from to fa ta (timeout / 10) timeout)
    /\ in_u64 fa /\ in_u64 ta /\ 0 <= timeout <= 7200
    /\ fa <= (if bool_decide (from = BTC) then BTC_MAX_SATS else GRIN_MAX_NANOGRIN)
    /\ ta <= (if bool_decide (to = BTC) then BTC_MAX_SATS else GRIN_MAX_NANOGRIN).
Proof.
  intros E. unfold parse_init in E. res_inv.
  repeat match goal with H : parse_u64 _ = Ok _ |- _ => apply parse_u64_range in H end.
  match type of E with context [Init_new ?f ?t ?a ?b ?c] => exists f, t, a, b, c end.
  destruct (over_limit _ _) eqn:E1 in E; [done|]. destruct (over_limit _ _) eqn:E2 in E; [done|].
  apply over_limit_false in E1, E2.
  destruct (MAX_TIMEOUT <? _) eqn:E3; [done|]. apply Z.ltb_ge in E3. injection E as <-.
  unfold Init_new. change GRIN_BLOCK_TIME with 1. rewrite Z.div_1_r.
  unfold MAX_TIMEOUT in E3. repeat (split; [done||int_lia|]). done.
Qed.

(** A command other than [accept] leaves the disk to [main]. *)
Lemma parsed_reads matches cmd :
  parse_arguments matches = Ok cmd -> (forall args, matches_sub matches <> Some ("accept", args)) ->
  forall settings d, ensures (fun x => x.2 = d) (dyn_execute cmd settings d).
Proof.
  intros E Hna settings d. unfold parse_arguments in E.
  destruct (matches_sub matches) as [[name args]|]; [|done].
  repeat (case_bool_decide; [subst name|]); try done;
    try (unfold parse_swapid in E; res_inv; apply reading_keeps).
  - unfold parse_init in E. res_inv. repeat case_match; simplify_eq. apply reading_keeps.
  - destruct (matches_sub args) as [[name' subargs]|]; [|done].
    unfold parse_import_btc, parse_import_grin in *.
    repeat (case_bool_decide; [subst name'|]); try done; res_inv; apply reading_keeps.
  - by destruct (Hna args).
Qed.

Lemma write_slate_succeeds s dir a b d :
  (forall p, d_writable d p = true) -> is_ok (write_slate_to_disk s dir a b d).1 = true.
Proof.
  intros Hw. unfold write_slate_to_disk.
  destruct (negb _), (negb _), a, b; cbn -[create_file];
    repeat (rewrite create_file_ok by apply Hw; cbn -[create_file]); done.
Qed.

(** A command that does not succeed leaves no trace on the disk: whatever it had
    written into its slate before it failed, the keys of a lock transaction it had
    already published included, is gone when the process ends. *)
Theorem failed_command_leaves_disk env n matches d :
  (forall p, d_writable d p = true) ->
  (forall args, matches_sub matches <> Some ("accept", args)) ->
  ensures (fun x => is_ok x.1 = false -> x.2 = d) (main env n matches d).
Proof.
  intros Hw Hna. unfold main. destruct (d_files d !! _) as [contents|]; [|done].
  destruct (parse_json_string contents) as [st|e|e]; [|done..].
  destruct (n <=? 1)%nat; [done|].
  destruct (parse_arguments matches) as [cmd|e|e] eqn:E; [|done..]. cbn [expect].
  eapply ensures_pbind; [by eapply parsed_reads|]. intros [r d1] Hd. cbn [snd] in Hd. subst d1.
  destruct r as [s|e|e]; cbn [expect]; [|done..]. intros Hf.
  by rewrite write_slate_succeeds in Hf.
Qed.

(** [init] creates the swap it was asked for.  With two different currencies the
    program ends well, and what it wrote reads back as an initialised slate with a
    fresh identifier, each chain's amount and time out, exactly one side offered,
    no coins, no keys and the address to meet at; with the same currency twice it
    aborts and writes nothing. *)
Theorem init_creates_slate env n matches d w from to fa ta tb tg contents st :
  (forall p, d_writable d p = true) ->
  d_files d !! "config/settings.json" = Some contents -> parse_settings contents = Ok st ->
  (1 < n)%nat -> parse_arguments matches = Ok (Box (mkInit from to fa ta tb tg)) ->
  let st := overwrite_settings_with_env env st in
  let id := wrap_u64 (tape_src (w_tape w) (tape_pos (w_tape w))) in
  (from = to -> exists w', run (main env n matches d) w
     = (Done (Panic "Command execution failed: Swapped currency setup not supported", d), w'))
  /\ (from <> to -> exists d' w' s, run (main env n matches d) w = (Done (Ok tt, d'), w')
      /\ read_slate_from_disk id (st_slate_directory st) d' = Ok s
      /\ pub_status (sw_pub s) = INITIALIZED /\ sw_prv s = empty_priv
      /\ pub_meta (sw_pub s) = mkMeta (st_tcp_addr st) (st_tcp_port st)
      /\ pub_btc (sw_pub s) = mkBTCPub (if bool_decide (from = BTC) then fa else ta) tb
           (if bool_decide (from = BTC) then OFFERED else REQUESTED) None None None None
      /\ pub_mw (sw_pub s) = mkMWPub (if bool_decide (from = BTC) then ta else fa) tg None
           (if bool_decide (from = BTC) then REQUESTED else OFFERED)).
Proof.
  intros Hw Ef Ep Hn Ec st0 id. unfold main. rewrite Ef. unfold parse_json_string. rewrite Ep.
  cbn [unwrap]. rewrite (proj2 (Nat.leb_gt n 1)), Ec by done. cbn [expect]. fold st0.
  cbn [dyn_execute]. unfold execute, Init_Command, reading. cbn [run local pbind draw].
  split; intros Hft.
  - subst to. cbn. destruct from; cbn; eauto.
  - set (s0 := mkSwapSlate id (init_pub (mkInit from to fa ta tb tg) st0) empty_priv).
    destruct (write_then_read s0 (st_slate_directory st0) d) as (d' & Ew & Er);
      [apply wrap_u64_range|by split|].
    exists d'. eexists _, s0. split; [|split; [exact Er|by destruct from, to]].
    rewrite <- Ew. destruct from, to; done.
Qed.
End properties.
