(* ===== verification/Swap.v ===== *)
(** * The two programs of a swap against each other

    The phases of protocol.rs, both sides at once: what a setup that succeeds on
    both sides leaves in the two slates, and what an execution does to the locked
    coins. *)
From S2P Require Import Prelude.
From S2P Require Import RustStd.
From S2P Require Import Crates.
From S2P Require Import SwapTypes.
From S2P Require Import Effects.
From S2P Require Import Tcp.
From S2P Require Import Http.
From S2P Require Import BitcoinCore.
From S2P Require Import BtcRoutines.
From S2P Require Import BtcScript.
From S2P Require Import Slate.
From S2P Require Import SlateV4.
From S2P Require Import GrinRoutines.
From S2P Require Import GrinCore.
From S2P Require Import GrinTx.
From S2P Require Import Protocol.

(** ** Steps of two phases *)
Section steps.
Context `{GrinTypes}.

Lemma finish_lift_step {X A} (p : P X) (k : X -> Phase A) s w (a : A) s' w' :
  finish ((liftPh p ≫= k) s) w = done_ok a s' w' ->
  exists y w1, finish p w = (Done (Ok y), w1) /\ finish (k y s) w1 = done_ok a s' w'.
Proof.
  unfold mbind, Phase_bind, liftPh. rewrite finish_pbind, finish_pbind.
  destruct (finish p w) as [[[y|e|e]| | |] w1]; cbn; [eauto|done..].
Qed.
Lemma finish_res_step {X A} (r : Res X) (k : X -> Phase A) s w (a : A) s' w' :
  finish ((resPh r ≫= k) s) w = done_ok a s' w' ->
  exists y, r = Ok y /\ finish (k y s) w = done_ok a s' w'.
Proof. destruct r as [y|e|e]; cbn; [eauto|done..]. Qed.
Lemma gets_res_step {X Y A} (f : SwapSlate -> X) (g : X -> Phase Y) (k : Y -> Phase A) s :
  ((gets f ≫= g) ≫= k) s = (g (f s) ≫= k) s.
Proof. reflexivity. Qed.

Lemma phase_err_left {A B} e s (q : prog B) wa wb (a : A) s' wa' b wb' :
  duet (errPh e s) q wa wb <> (done_ok a s' wa', (Done b, wb')).
Proof. cbn. by destruct (finish q wb). Qed.
Lemma phase_err_right {A B} (p : prog A) e s wa wb a wa' (b : B) s' wb' :
  duet p (errPh e s) wa wb <> ((Done a, wa'), done_ok b s' wb').
Proof.
  intros E. apply (ensures_duet (fun _ => True) (fun x => is_ok x.1 = false)) in E as [_ E];
    [done|apply ensures_True|done].
Qed.

(** Two phases whose last conversation is [p] with [q]. *)
Lemma phase_split {X Y A B} (p : P X) (k : X -> Phase A) s (q : P Y) (k' : Y -> Phase B) s'
    wa wb (a : A) sa' wa' (b : B) sb' wb' :
  (forall x t, quiet (k x t)) -> (forall y t, quiet (k' y t)) ->
  duet ((liftPh p ≫= k) s) ((liftPh q ≫= k') s') wa wb = (done_ok a sa' wa', done_ok b sb' wb') ->
  exists x wa1 y wb1, duet p q wa wb = ((Done (Ok x), wa1), (Done (Ok y), wb1))
    /\ finish (k x s) wa1 = done_ok a sa' wa' /\ finish (k' y s') wb1 = done_ok b sb' wb'.
Proof.
  intros Hk Hk' E. unfold mbind, Phase_bind in E.
  apply duet_split in E as ([rx sx] & wa1 & [ry sy] & wb1 & E & Ex & Ey).
  - unfold liftPh in E. apply duet_split in E as (rx' & wa2 & ry' & wb2 & E & [= <- <- <-] & [= <- <- <-]);
      [|done..].
    destruct rx' as [x|e|e]; [|done..]. destruct ry' as [y|e|e]; [|done..]. eauto 10.
  - intros [[u|e|e] t]; cbn; auto.
  - intros [[u|e|e] t]; cbn; auto.
Qed.
End steps.

(** What was logged before is in the log after each step that was taken. *)
Ltac grows :=
  repeat first
    [ reflexivity | apply log_grows
    | match goal with
      | H : finish _ _ = (_, ?w) |- _ `suffix_of` w_log ?w =>
          apply finish_grows in H; etransitivity; [|exact H]; clear H
      end ].

(** ** Setup *)
Section setup.
Context `{BuildProfile, GC : GrinCrates, BC : BitcoinCrates, !BitcoinLaws, HC : HexCrate,
  !SlateJson, !SerMPCtxJson, !JsonRpcJson, !BitcoinCoreJson, !GrinCoreJson}.

(** The lock height a side computes can be read back by the other. *)
Lemma i64_lock_height a b sum h :
  u64_add a b = Ok sum -> i64_try_from sum = Ok h -> 0 <= h <= i64_max /\ h = sum.
Proof.
  intros E1 E2. apply u64_result_range in E1. unfold i64_try_from in E2.
  destruct (in_i64b sum) eqn:Ei; [|done]. injection E2 as <-. apply in_i64b_spec in Ei.
  split; [|done]. unfold i64_max. int_lia.
Qed.

Lemma phase_fails_left {A B X} (r : Res X) (k : X -> Phase A) s (q : prog B) wa wb a s' wa' b wb' :
  is_ok r = false -> duet ((resPh r ≫= k) s) q wa wb <> (done_ok a s' wa', (Done b, wb')).
Proof. intros Hr E. apply res_left in E as (y & -> & _). done. Qed.

(** The Grin node's calls exchange nothing with the peer. *)
Lemma quiet_grin_height g : quiet (get_block_height g).
Proof.
  unfold get_block_height, gcore_call.
  repeat first [ apply quiet_bind; [apply quiet_http_execute || done|]; intros ? | done ].
  unfold check_gresponse. case_match; [done|]. case_match; [done|].
  by apply quiet_bind.
Qed.

(** An input of a transaction is the coin of the slate it was made for. *)
Definition spends_coin (c : BTCInput) (inp : TxIn) : Prop :=
  exists tid, txid_from_str (bi_txid c) = Some tid /\ txin_previous_output inp = mkOutPoint tid (bi_vout c).

Lemma spends_coin_signed l ins ins' :
  Forall2 lock_txin l ins -> Forall2 same_but_script ins ins' -> Forall2 spends_coin l ins'.
Proof.
  intros Hl. revert ins'. induction Hl as [|c i l ins (tid & Et & ->) Hl IH]; intros ins' Hs;
    inversion Hs as [|? j ? ins1 (Hp & _) Hs']; subst; constructor; [|by apply IH].
  exists tid. by rewrite <- Hp.
Qed.

(** [ltx] is the lock transaction of a swap: it spends the given coins, its first output
    is the agreed amount under the lock script, and the node of [b] accepted it between
    the worlds [w0] and [w1]. *)
Record lock_published (b : BitcoinCore) (p : SwapSlatePub) (coins : list BTCInput) (ops : list ScriptOp)
    (ltx : BTransaction) (w0 w1 : World) : Prop := {
  lp_accepted : exists w w', finish (send_raw_transaction b ltx) w = (Done (Ok tt), w')
    /\ w_log w0 `suffix_of` w_log w /\ w_log w' `suffix_of` w_log w1;
  lp_output : btx_output ltx !! 0%nat
    = Some (mkTxOut (bp_amount (pub_btc p)) (new_p2sh_of (into_script ops)));
  lp_inputs : Forall2 spends_coin coins (btx_input ltx) }.

(** What was published is locked by the script the address stands for. *)
Lemma publish_spec b pa px pb pr skr ins amt h s w txid addr script s' w' :
  finish (publish_lock_transaction b pa px pb pr skr ins amt h s) w = done_ok (txid, addr, script) s' w' ->
  exists ltx, finish (send_raw_transaction b ltx) w = (Done (Ok tt), w')
    /\ txid = txid_to_string (btx_txid ltx)
    /\ script = get_lock_pub_script pa px pb h true /\ address_from_script script Testnet = Some addr
    /\ btx_output ltx !! 0%nat = Some (mkTxOut amt (get_lock_pub_script pa px pb h true))
    /\ Forall2 spends_coin ins (btx_input ltx).
Proof.
  unfold publish_lock_transaction. intros E.
  apply finish_res_step in E as (tx & Etx & E). apply finish_res_step in E as (o & Eo & E).
  apply finish_res_step in E as (c & _ & E). apply finish_res_step in E as (ad & Ead & E).
  do 3 apply finish_res_step in E as (? & _ & E). apply finish_res_step in E as (ltx & Es & E).
  cbn zeta in E. apply finish_lift_step in E as ([] & w1 & Ew & E). injection E as <- <- <- _ <-.
  apply (proj1 (unwrap_opt_Ok _ _)) in Eo, Ead. apply sign_p2pkh_same in Es as (_ & _ & Eout & Ein).
  unfold create_lock_transaction in Etx.
  apply res_bind_Ok in Etx as ([got ins'] & El & Etx). apply res_bind_Ok in Etx as (needed & _ & Etx).
  destruct (got <? needed); [done|]. apply res_bind_Ok in Etx as (rest & _ & Etx).
  apply res_bind_Ok in Etx as (change & _ & [= <-]). cbn in Eo, Eout, Ein. injection Eo as <-.
  exists ltx. rewrite <- Eout. repeat (split; [done|]).
  eapply spends_coin_signed; [|exact Ein]. by eapply add_lock_inputs_spent.
Qed.

(** The public half of a slate once the setup is done. *)
Definition setup_pub (p : SwapSlatePub) (pub_a pub_b pub_x : BPublicKey) (lock_btc lock_grin : Z) :
    SwapSlatePub :=
  mkSwapSlatePub SETUP
    (mkMWPub (mwp_amount (pub_mw p)) (mwp_timelock (pub_mw p)) (Some lock_grin)
       (mwp_swap_type (pub_mw p)))
    (mkBTCPub (bp_amount (pub_btc p)) (bp_timelock (pub_btc p)) (bp_swap_type (pub_btc p))
       (Some lock_btc) (Some (serialize_pub_key pub_a)) (Some (serialize_pub_key pub_b))
       (Some (serialize_pub_key pub_x)))
    (pub_meta p).

Definition btc_tail (grin_lock_height : Z) : Phase unit :=
  mw_amount ← gets (fun s => mwp_amount (pub_mw_of s));
  shared_out_result ← liftPh (dshared_out_mw_tx_bob mw_amount);
  let shared_coin := ds_shared_coin shared_out_result in
  _ ← modify (set_shared_coin shared_coin);
  let fee := estimate_fees 1 1 1 in
  fund_value ← resPh (u64_sub (coin_value shared_coin) fee);
  timelock_grin ← resPh (unwrap (u64_try_from grin_lock_height));
  _ ← liftPh (dshared_inp_mw_tx_alice shared_coin fund_value timelock_grin);
  mret tt.

Lemma create_private_key_ok t sk t' :
  create_private_key t = (Ok sk, t') -> key_compressed sk = true /\ key_network sk = Testnet.
Proof. unfold create_private_key. intros E. by m_inv. Qed.

(** What is left to do after the exchange of the lock heights keeps all this. *)
Definition mw_tail (g : GrinCore) (grin_lock_height : Z) : Phase unit :=
  inputs ← gets (fun s => mws_inputs (prv_mw_of s));
  mw_amount ← gets (fun s => mwp_amount (pub_mw_of s));
  shared_out_result ← liftPh (dshared_out_mw_tx_alice inputs mw_amount 0);
  let shared_coin := ds_shared_coin shared_out_result in
  _ ← modify (set_shared_coin shared_coin);
  _ ← modify (set_change_coin (ds_change_coin shared_out_result));
  _ ← resPh (unwrap_opt (ds_change_coin shared_out_result));
  let fee := estimate_fees 1 1 1 in
  fund_value ← resPh (u64_sub (coin_value shared_coin) fee);
  refund_result ← liftPh (dshared_inp_mw_tx_bob shared_coin fund_value grin_lock_height);
  _ ← modify (set_refund_coin (db_coin refund_result));
  _ ← modify (set_refund_tx (sl_tx (db_tx refund_result)));
  funding_tx ← resPh (unwrap_opt (sl_tx (ds_tx shared_out_result)));
  liftPh (push_transaction g funding_tx).

Lemma mw_tail_keeps c g h : keeps (fun s => core_of s = c) (mw_tail g h).
Proof. unfold mw_tail. keep. Qed.
Lemma btc_tail_keeps c h : keeps (fun s => core_of s = c) (btc_tail h).
Proof. unfold btc_tail. keep. Qed.

(** Two slates after a setup: the public halves are one and the same, the keys in
    them belong to the secrets each side kept, and both name the same locked coin. *)
Record set_up (p : SwapSlatePub) (sk_a sk_b x : BPrivateKey) (lock_btc lock_grin : Z) (txid : string)
    (sa sb : SwapSlate) : Prop := {
  su_pub_a : sw_pub sa = setup_pub p (bpk_from_private_key sk_a) (bpk_from_private_key sk_b)
                           (bpk_from_private_key x) lock_btc lock_grin;
  su_pub_b : sw_pub sb = sw_pub sa;
  su_sk_a : bs_sk (prv_btc_of sa) = Some (serialize_priv_key sk_a);
  su_sk_b : bs_sk (prv_btc_of sb) = Some (serialize_priv_key sk_b);
  su_x : bs_x (prv_btc_of sb) = Some (serialize_priv_key x);
  su_x_key : key_compressed x = true /\ key_network x = Testnet;
  su_lock_a : bs_lock (prv_btc_of sa) = Some (BTCInput_new2 txid 0 (bp_amount (pub_btc p)) sk_a
                (bpk_from_private_key sk_a) (get_lock_pub_script (bpk_from_private_key sk_a)
                   (bpk_from_private_key x) (bpk_from_private_key sk_b) lock_btc true));
  su_lock_b : bs_lock (prv_btc_of sb) = Some (BTCInput_new2 txid 0 (bp_amount (pub_btc p)) sk_b
                (bpk_from_private_key sk_b) (get_lock_pub_script (bpk_from_private_key sk_a)
                   (bpk_from_private_key x) (bpk_from_private_key sk_b) lock_btc true)) }.

Lemma setup_exchange g ba bb gb sa sb wa wb sa' wa' sb' wb' :
  sw_pub sa = sw_pub sb ->
  duet (locking_phase_swap_mw g ba sa) (locking_phase_swap_btc gb bb sb) wa wb
  = (done_ok tt sa' wa', done_ok tt sb' wb') ->
  exists sk_a sk_b x lock_btc lock_grin ltx sa1 sb1 wa1 wb1,
    set_up (sw_pub sa) sk_a sk_b x lock_btc lock_grin (txid_to_string (btx_txid ltx)) sa1 sb1
    /\ lock_published bb (sw_pub sa) (bs_inputs (prv_btc_of sb))
         (lock_script_ops (bpk_from_private_key sk_a) (bpk_from_private_key x)
            (bpk_from_private_key sk_b) lock_btc) ltx wb wb1
    /\ duet (mw_tail g lock_grin sa1) (btc_tail lock_grin sb1) wa1 wb1
       = (done_ok tt sa' wa', done_ok tt sb' wb').
Proof.
  intros Hpub E. unfold locking_phase_swap_mw, locking_phase_swap_btc in E.
  rewrite modify_step in E. rewrite modify_step in E.
  apply phase_left in E as (sk_a & w1 & _ & E); [|done]. cbn zeta in E.
  rewrite 2 modify_step in E.
  apply phase_right in E as (sk_b & w2 & G2 & E); [|done]. cbn zeta in E.
  rewrite 2 modify_step in E.
  apply phase_right in E as (sk_r & w3 & G3 & E); [|done]. cbn zeta in E.
  rewrite modify_step in E.
  apply phase_right in E as (x & w4 & Exk & E); [|done]. cbn zeta in E.
  rewrite 2 modify_step in E. rewrite phase_send in E.
  apply res_right in E as (pub_a & Ea & E).
  rewrite pub_key_roundtrip in Ea. injection Ea as <-.
  rewrite modify_step in E. rewrite phase_receive in E.
  apply res_left in E as (pub_b & Eb & E). rewrite pub_key_roundtrip in Eb. injection Eb as <-.
  rewrite modify_step, phase_receive in E.
  apply res_left in E as (pub_x & Ex & E). rewrite pub_key_roundtrip in Ex. injection Ex as <-.
  rewrite modify_step in E.
  apply phase_right in E as (hb & w5 & G5 & E); [|apply quiet_btc_height].
  rewrite 3 gets_step in E.
  apply res_right in E as (sum & Es & E). apply res_right in E as (h & Eh & E).
  apply (proj1 (unwrap_Ok _ _)) in Eh. destruct (i64_lock_height _ _ _ _ Es Eh) as [Hh _].
  rewrite phase_receive in E.
  apply res_left in E as (lock_btc & Elb & E). apply (proj1 (unwrap_Ok _ _)) in Elb.
  rewrite parse_i64_fmt in Elb by done. injection Elb as <-.
  rewrite modify_step in E. cbn zeta in E. rewrite modify_step in E.
  apply res_left in E as (addr_a & Eaddr & E). apply (proj1 (unwrap_opt_Ok _ _)) in Eaddr.
  apply phase_left in E as (u1 & w6 & _ & E); [|apply quiet_pmap, quiet_import].
  apply quiet_phase_right in E as ([[txid addr_b] script_b] & sb1 & w7 & Ep7 & E); [|apply quiet_publish].
  pose proof (ensures_finish _ _ _ (Ok _, sb1) _ (publish_keeps _ _ _ _ _ _ _ _ _ _ _ eq_refl) Ep7) as Ec.
  apply publish_spec in Ep7 as (ltx & Esend & -> & -> & Eaddrb & Eout & Eins).
  cbn [snd] in Ec. cbn beta iota in E.
  rewrite 2 phase_receive in E. cbn beta iota zeta in E.
  rewrite Eaddr in Eaddrb. injection Eaddrb as <-. rewrite bool_decide_eq_true_2 in E by done.
  cbn [negb] in E. cbv iota in E. rewrite gets_step in E.
  apply phase_left in E as (ver & w8 & _ & E); [|apply quiet_verify_funds].
  destruct ver; cbn [negb] in E; [|by apply phase_fails_left in E].
  rewrite 2 modify_step in E.
  apply phase_left in E as (hg & w9 & _ & E); [|apply quiet_pmap, quiet_grin_height].
  rewrite gets_step in E.
  apply res_left in E as (glh & Eg & E). apply res_left in E as (li & Eli & E).
  apply (proj1 (unwrap_Ok _ _)) in Eli. destruct (i64_lock_height _ _ _ _ Eg Eli) as [Hli ->].
  rewrite modify_step, phase_send in E. cbn beta in E.
  apply res_right in E as (lg & Elg & E). apply (proj1 (unwrap_Ok _ _)) in Elg.
  rewrite parse_i64_fmt_u64 in Elg by done. injection Elg as <-.
  rewrite modify_step in E.
  injection Ec as Ep Esk Ex Er El.
  exists sk_a, sk_b, x, h, glh, ltx. eexists _, _, _, _. split; [|split; [|exact E]].
  - split; try reflexivity.
    + cbn. rewrite Ep, Hpub. reflexivity.
    + exact Esk.
    + exact Ex.
    + by apply finish_local_Ok in Exk as [Exk%create_private_key_ok _].
    + cbn. unfold pub_btc_of. by rewrite Hpub.
  - rewrite Hpub. split; [|exact Eout|exact Eins]. eexists _, w7. split; [exact Esend|].
    split; [grows|]. grows.
Qed.

Lemma set_up_core p sk_a sk_b x t tg txid sa sb sa' sb' :
  set_up p sk_a sk_b x t tg txid sa sb -> core_of sa' = core_of sa -> core_of sb' = core_of sb ->
  set_up p sk_a sk_b x t tg txid sa' sb'.
Proof. intros [] [= ] [= ]. split; congruence. Qed.

Lemma lock_published_later b p coins ops ltx w0 w1 w2 :
  lock_published b p coins ops ltx w0 w1 -> w_log w1 `suffix_of` w_log w2 ->
  lock_published b p coins ops ltx w0 w2.
Proof.
  intros [(w & w' & E & Hw0 & Hw1) Ho Hi] Hs. split; [|done|done]. exists w, w'.
  split; [done|]. split; [done|]. by etransitivity.
Qed.

Lemma setup_outcome g ba bb gb sa sb wa wb sa' wa' sb' wb' :
  sw_pub sa = sw_pub sb ->
  duet (locking_phase_swap_mw g ba sa) (locking_phase_swap_btc gb bb sb) wa wb
  = (done_ok tt sa' wa', done_ok tt sb' wb') ->
  exists sk_a sk_b x lock_btc lock_grin ltx,
    set_up (sw_pub sa) sk_a sk_b x lock_btc lock_grin (txid_to_string (btx_txid ltx)) sa' sb'
    /\ lock_published bb (sw_pub sa) (bs_inputs (prv_btc_of sb))
         (lock_script_ops (bpk_from_private_key sk_a) (bpk_from_private_key x)
            (bpk_from_private_key sk_b) lock_btc) ltx wb wb'.
Proof.
  intros Hp E. apply setup_exchange in E
    as (sk_a & sk_b & x & t & tg & ltx & sa1 & sb1 & w1 & w2 & HU & HL & E); [|done].
  destruct (ensures_duet _ _ _ _ _ _ _ _ _ _ (mw_tail_keeps _ g tg _ eq_refl)
    (btc_tail_keeps _ tg _ eq_refl) E) as [Ka Kb].
  exists sk_a, sk_b, x, t, tg, ltx. split; [by eapply set_up_core|].
  eapply lock_published_later; [exact HL|]. by eapply duet_grows.
Qed.
End setup.

(** ** The refund is ready *)
Section quiet_calls.
Context `{GrinCrates, !JsonRpcJson, !GrinCoreJson}.

Lemma quiet_push_grin g tx : quiet (push_transaction g tx).
Proof.
  unfold push_transaction, gcore_call.
  repeat first [ apply quiet_bind; [apply quiet_http_execute || done|]; intros ? | done ].
  unfold check_gresponse. case_match; [done|]. by case_match.
Qed.
End quiet_calls.

Ltac quiet_phase :=
  repeat first
    [ apply quiet_phase_bind; [|intros ? ?]
    | apply quiet_liftPh; first [apply quiet_send_raw | apply quiet_push_grin | done]
    | done ].

Section refund_ready.
Context `{BuildProfile, GC : GrinCrates, !TxLaws, !KeyLaws, BC : BitcoinCrates, !BitcoinLaws,
  HC : HexCrate, !HexLaws, !SlateJson, !SlateJsonLaws, !SerMPCtxJson, !SerMPCtxJsonLaws,
  !JsonRpcJson, !BitcoinCoreJson, !GrinCoreJson}.

Lemma u64_try_from_same x y : u64_try_from x = Ok y -> y = x.
Proof. unfold u64_try_from. case_match; [|done]. by intros [= <-]. Qed.

Lemma finish_lift_only {A} (p : P A) s w (a : A) s' w' :
  finish (liftPh p s) w = done_ok a s' w' -> finish p w = (Done (Ok a), w') /\ s = s'.
Proof. intros E. apply finish_pmap_Ok in E as (r & E & [= <- <-]). done. Qed.

Lemma phase_shared_output {A B} inp fund tl fund' (k : DSharedOutMwTxResult -> Phase A) s
    (k' : DSharedOutMwTxResult -> Phase B) s' wa wb (a : A) sa' wa' (b : B) sb' wb' :
  duet ((liftPh (dshared_out_mw_tx_alice inp fund tl) ≫= k) s)
       ((liftPh (dshared_out_mw_tx_bob fund') ≫= k') s') wa wb
  = (done_ok a sa' wa', done_ok b sb' wb') ->
  exists ra rb w1 w2, coin_shared fund fund' ra rb
    /\ duet (k ra s) (k' rb s') w1 w2 = (done_ok a sa' wa', done_ok b sb' wb').
Proof.
  intros E. unfold mbind, Phase_bind, liftPh in E.
  rewrite duet_assoc_left, duet_assoc_right in E.
  eapply (shared_output_run (fun z => is_ok z.1 = true) (fun z => is_ok z.1 = true)) in E;
    [exact E|intros []; done..|done|done].
Qed.

(** The coin both sides lock on the Grin side: one commitment, the sum of a commitment to
    the amount with Alice's blinding factor and one to zero with Bob's, each of whom
    keeps his own factor. *)
Definition coin_of_both (amount : Z) (com : Commitment) (sa sb : SwapSlate) : Prop :=
  exists blind_a blind_b com_a com_b,
    secp_commit amount blind_a = Some com_a /\ secp_commit 0 blind_b = Some com_b
    /\ secp_commit_sum [com_a; com_b] [] = Some com
    /\ mws_shared_coin (prv_mw_of sa) = Some (MWCoin_new com blind_a amount)
    /\ mws_shared_coin (prv_mw_of sb) = Some (MWCoin_new com blind_b amount).

(** A complete transaction that spends the coin of this commitment and nothing else, and
    can enter the chain only at the given height. *)
Definition refund_of (com : Commitment) (height : Z) (tx : Transaction) : Prop :=
  inputs_commits (tx_inputs tx) = [com] /\ locked_until height tx.

Lemma input_of_new_coin com k v i : input_of_coin (MWCoin_new com k v) = Ok i -> in_commit i.1 = com.
Proof.
  unfold input_of_coin. intros E. apply res_bind_Ok in E as (c & Ec & E).
  apply res_bind_Ok in E as (key & _ & [= <-]). cbn in Ec |- *.
  rewrite commitment_roundtrip in Ec. by injection Ec.
Qed.

(** What the last part of the setup leaves, on both sides. *)
Lemma tails g tg sa sb wa wb sa' wa' sb' wb' :
  mwp_amount (pub_mw_of sb) = mwp_amount (pub_mw_of sa) ->
  duet (mw_tail g tg sa) (btc_tail tg sb) wa wb = (done_ok tt sa' wa', done_ok tt sb' wb') ->
  exists com tx, coin_of_both (mwp_amount (pub_mw_of sa)) com sa' sb'
    /\ mws_refund_tx (prv_mw_of sa') = Some tx /\ refund_of com tg tx.
Proof.
  intros Ha E. unfold mw_tail, btc_tail in E. rewrite !gets_step, Ha in E.
  apply phase_shared_output in E as (ra & rb & w1 & w2 & Hs & E). cbn zeta in E.
  rewrite !modify_step in E. apply res_left in E as (ch & _ & E).
  apply res_left in E as (fa & _ & E). apply res_right in E as (fb & _ & E).
  apply res_right in E as (tg' & Etg & E). apply (proj1 (unwrap_Ok _ _)), u64_try_from_same in Etg.
  subst tg'. apply phase_split in E as (da & w3 & db & w4 & E & Ea & Eb); [|intros; quiet_phase..].
  apply duet_swap, shared_input_outcome in E as (_ & tx & i & Etx & Hl & Ei & Hi). rewrite !modify_step in Ea.
  apply finish_res_step in Ea as (ftx & _ & Ea). apply finish_lift_only in Ea as [_ <-].
  injection Eb as <- _.
  destruct Hs as (bla & blb & ca & cb & com & C1 & C2 & C3 & Era & Erb).
  rewrite Erb in Ei. apply input_of_new_coin in Ei. rewrite Ei in Hi.
  exists com, tx. split; [|cbn; done]. exists bla, blb, ca, cb. cbn. by rewrite Era, Erb.
Qed.

(** All a setup leaves. *)
Lemma setup_all g ba bb gb sa sb wa wb sa' wa' sb' wb' :
  sw_pub sa = sw_pub sb ->
  duet (locking_phase_swap_mw g ba sa) (locking_phase_swap_btc gb bb sb) wa wb
  = (done_ok tt sa' wa', done_ok tt sb' wb') ->
  exists sk_a sk_b x lock_btc lock_grin ltx com tx,
    set_up (sw_pub sa) sk_a sk_b x lock_btc lock_grin (txid_to_string (btx_txid ltx)) sa' sb'
    /\ lock_published bb (sw_pub sa) (bs_inputs (prv_btc_of sb))
         (lock_script_ops (bpk_from_private_key sk_a) (bpk_from_private_key x)
            (bpk_from_private_key sk_b) lock_btc) ltx wb wb'
    /\ coin_of_both (mwp_amount (pub_mw_of sa)) com sa' sb'
    /\ mws_refund_tx (prv_mw_of sa') = Some tx /\ refund_of com lock_grin tx.
Proof.
  intros Hp E. apply setup_exchange in E
    as (sk_a & sk_b & x & t & tg & ltx & sa1 & sb1 & w1 & w2 & HU & HL & Et); [|done].
  destruct (ensures_duet _ _ _ _ _ _ _ _ _ _ (mw_tail_keeps _ g tg _ eq_refl)
    (btc_tail_keeps _ tg _ eq_refl) Et) as [Ka Kb].
  pose proof (proj2 (duet_grows _ _ _ _ _ _ _ _ Et)) as Hg.
  apply tails in Et as (com & tx & Hc & Er & Hr).
  - exists sk_a, sk_b, x, t, tg, ltx, com, tx. split; [by eapply set_up_core|].
    split; [by eapply lock_published_later|]. unfold pub_mw_of in *.
    rewrite (su_pub_a _ _ _ _ _ _ _ _ _ HU) in Hc. done.
  - unfold pub_mw_of. by rewrite (su_pub_b _ _ _ _ _ _ _ _ _ HU).
Qed.

Lemma refund_mw_pushes g b s w s' w' tx :
  mws_refund_tx (prv_mw_of s) = Some tx ->
  finish (refund_phase_swap_mw g b s) w = done_ok tt s' w' ->
  exists w1, finish (push_transaction g tx) w1 = (Done (Ok tt), w') /\ s' = set_status FAILED s.
Proof.
  intros Etx E. unfold refund_phase_swap_mw in E.
  apply (finish_lift_step (can_refund g b s)) in E as (can & w1 & _ & E). destruct can; [|done].
  rewrite gets_res_step, Etx in E. apply finish_res_step in E as (tx' & [= <-] & E).
  apply finish_lift_step in E as ([] & w2 & Ep & E). injection E as <- <-. eauto.
Qed.

(** C2: What a setup leaves.  When the locking phases of the two sides run against
    each other to the end from the same public slate, both slates describe the same
    swap: keys, lock times and lock output, each secret on the machine it belongs to.
    The lock output is the first one of a transaction that spends Bob's coins, holds the
    agreed amount under the lock script of these keys, and was accepted by Bob's node
    during the setup.  And both hold a share of one Grin coin, to whose commitment
    Alice's factor contributes the agreed amount and Bob's nothing. *)
Theorem setup_agrees g ba bb gb sa sb wa wb sa' wa' sb' wb' :
  sw_pub sa = sw_pub sb ->
  duet (locking_phase_swap_mw g ba sa) (locking_phase_swap_btc gb bb sb) wa wb
  = (done_ok tt sa' wa', done_ok tt sb' wb') ->
  exists sk_a sk_b x lock_btc lock_grin ltx com,
    set_up (sw_pub sa) sk_a sk_b x lock_btc lock_grin (txid_to_string (btx_txid ltx)) sa' sb'
    /\ lock_published bb (sw_pub sa) (bs_inputs (prv_btc_of sb))
         (lock_script_ops (bpk_from_private_key sk_a) (bpk_from_private_key x)
            (bpk_from_private_key sk_b) lock_btc) ltx wb wb'
    /\ coin_of_both (mwp_amount (pub_mw_of sa)) com sa' sb'.
Proof.
  intros Hp E. apply setup_all in E
    as (sk_a & sk_b & x & t & tg & ltx & com & tx & HU & HL & Hc & _); [|done].
  by exists sk_a, sk_b, x, t, tg, ltx, com.
Qed.

(** C3: The way back on the Grin side.  After a setup Alice holds a complete transaction
    whose only input is the coin both sides share and which can enter the chain only at
    the agreed height; when her refund phase succeeds it pushed exactly this
    transaction and the slate is FAILED. *)
Theorem setup_prepares_refund g ba bb gb sa sb wa wb sa' wa' sb' wb' :
  sw_pub sa = sw_pub sb ->
  duet (locking_phase_swap_mw g ba sa) (locking_phase_swap_btc gb bb sb) wa wb
  = (done_ok tt sa' wa', done_ok tt sb' wb') ->
  exists com tx lock_grin,
    coin_of_both (mwp_amount (pub_mw_of sa)) com sa' sb'
    /\ mwp_lock_time (pub_mw_of sa') = Some lock_grin
    /\ mwp_lock_time (pub_mw_of sb') = Some lock_grin
    /\ mws_refund_tx (prv_mw_of sa') = Some tx
    /\ inputs_commits (tx_inputs tx) = [com] /\ locked_until lock_grin tx
    /\ forall g2 b2 w s2 w2, finish (refund_phase_swap_mw g2 b2 sa') w = done_ok tt s2 w2 ->
         exists w1, finish (push_transaction g2 tx) w1 = (Done (Ok tt), w2)
           /\ s2 = set_status FAILED sa'.
Proof.
  intros Hp E. apply setup_all in E
    as (sk_a & sk_b & x & t & tg & ltx & com & tx & HU & _ & Hc & Er & Hi & Hl); [|done].
  exists com, tx, tg. unfold pub_mw_of at 2 3.
  rewrite (su_pub_b _ _ _ _ _ _ _ _ _ HU), (su_pub_a _ _ _ _ _ _ _ _ _ HU).
  repeat (split; [done|]). intros. by eapply refund_mw_pushes.
Qed.
End refund_ready.

(** ** Execution *)

(** Both secp256k1 crates keep a key as its 32 bytes: reading the bytes of a Bitcoin
    key as a Grin key and those of the result as a Bitcoin key gives the key. *)
Class SameCurve `{GrinCrates, BitcoinCrates} :=
  same_key p k : sk_from_slice (private_key_bytes p) = Some k ->
    bsk_from_slice (sk_bytes k) = Some (key_key p).

Section execution.
Context `{BuildProfile, GC : GrinCrates, !KeyLaws, !AdaptorLaws, !TxLaws, BC : BitcoinCrates,
  !BitcoinLaws, !NetworkSigs, !SameCurve, HC : HexCrate, !HexLaws, !SlateJson, !SlateJsonLaws,
  !SerMPCtxJson, !SerMPCtxJsonLaws, !JsonRpcJson, !BitcoinCoreJson, !GrinCoreJson}.

Lemma quiet_enough g b s : quiet (check_if_enough_time g b s).
Proof.
  unfold check_if_enough_time.
  repeat first [ apply quiet_bind; [|intros ?] | apply quiet_pmap, quiet_grin_height
               | apply quiet_pmap, quiet_btc_height | case_match | done ].
Qed.

Tactic Notation "step" hyp(E) ident(y) ident(H) :=
  rewrite ?gets_res_step in E; apply finish_res_step in E as (y & H & E).

Lemma same_key_back x xg xb :
  key_compressed x = true /\ key_network x = Testnet ->
  grin_sk_from_btc_sk x = Ok xg -> private_key_from_grin_sk xg = Ok xb -> xb = x.
Proof.
  intros [Hc Hn] E1 E2. unfold grin_sk_from_btc_sk, private_key_from_grin_sk in *.
  apply (proj1 (unwrap_opt_Ok _ _)), same_key in E1. rewrite E1 in E2. cbn in E2.
  injection E2 as <-. destruct x; cbn in *. by subst.
Qed.

(** The transaction that spends a coin, signed: it has the coin as its only input, with
    the script that was asked for, and one output. *)
Lemma signed_shape out_pk lock amount fee tl tx tx' ls sig_ops :
  create_spend_lock_transaction out_pk lock amount fee tl = Ok tx -> same_but_scripts tx tx' ->
  (forall inp, btx_input tx !! 0%nat = Some inp -> exists msg,
     sighash_message tx 0 ls = Ok msg
     /\ btx_input tx' !! 0%nat = Some (with_script_sig inp (into_script (sig_ops msg)))) ->
  exists tid inp o msg, txid_from_str (bi_txid lock) = Some tid
    /\ btx_input tx' = [inp] /\ txin_previous_output inp = mkOutPoint tid (bi_vout lock)
    /\ btx_lock_time tx' = tl /\ sighash_message tx' 0 ls = Ok msg
    /\ txin_script_sig inp = into_script (sig_ops msg)
    /\ btx_output tx' = [o] /\ txout_script_pubkey o = new_p2pkh_of out_pk.
Proof.
  intros E1 Hsame Hsig. rewrite (sighash_message_same _ _ _ _ Hsame).
  destruct Hsame as (_ & El & Eo & Ei).
  unfold create_spend_lock_transaction in E1. apply res_bind_Ok in E1 as (tid & Et & E1).
  apply (proj1 (unwrap_opt_Ok _ _)) in Et. destruct (negb _); [done|].
  apply res_bind_Ok in E1 as (v & _ & [= <-]). cbn in Eo, Ei, El.
  destruct (Hsig _ eq_refl) as (msg & Em & Es).
  apply Forall2_cons_inv_l in Ei as (inp & l & [Hp _] & Hl & E3). apply Forall2_nil_inv_l in Hl as ->.
  rewrite E3 in Es. injection Es as Es.
  exists tid, inp, (mkTxOut v (new_p2pkh_of out_pk)), msg. rewrite <- Eo, <- El, Em, E3, Es. done.
Qed.

Lemma u32_height t y : u32_try_from t = Ok y -> y = t.
Proof. unfold u32_try_from. case_match; [|done]. by intros [= <-]. Qed.

(** Between the worlds [w0] and [w'] the node of [b] accepted a transaction, and nothing
    was done after it.  Its only input is the output [out], which it spends by the lock
    script with the given signature script, at the given lock time; its only output pays a
    fresh key and is the coin [coin]. *)
Definition claims (b : BitcoinCore) (w0 w' : World) (out : OutPoint) (ops : list ScriptOp)
    (sig_ops : BMessage -> list ScriptOp) (lock_time : Z) (sk : BPrivateKey) (coin : BTCInput) : Prop :=
  exists tx inp msg o w,
    finish (send_raw_transaction b tx) w = (Done (Ok tt), w') /\ w_log w0 `suffix_of` w_log w
    /\ btx_input tx = [inp] /\ txin_previous_output inp = out
    /\ sighash_message tx 0 (into_script ops) = Ok msg
    /\ txin_script_sig inp = into_script (sig_ops msg) /\ btx_lock_time tx = lock_time
    /\ spends tx 0 ops
    /\ btx_output tx = [o] /\ txout_script_pubkey o = new_p2pkh_of (bpk_from_private_key sk)
    /\ coin = BTCInput_new2 (txid_to_string (btx_txid tx)) 0 (txout_value o) sk
                (bpk_from_private_key sk) (txout_script_pubkey o).

(** The signature scripts of the two branches: both keys in the one, the refund key and
    the choice of the branch in the other. *)
Definition both_keys_sign (sk x : BPrivateKey) (ops : list ScriptOp) (msg : BMessage) : list ScriptOp :=
  redeemer_ops (bsign msg (key_key sk)) (bsign msg (key_key x)) (into_script ops).
Definition refund_key_signs (sk : BPrivateKey) (ops : list ScriptOp) (msg : BMessage) : list ScriptOp :=
  refund_ops (bsign msg (key_key sk)) (into_script ops).

Section outcome.
Context {p : SwapSlatePub} {sk_a sk_b x : BPrivateKey} {t tg : Z} {ltx : BTransaction} {sa sb : SwapSlate}
  (HU : set_up p sk_a sk_b x t tg (txid_to_string (btx_txid ltx)) sa sb).
Abbreviation ops := (lock_script_ops (bpk_from_private_key sk_a) (bpk_from_private_key x)
  (bpk_from_private_key sk_b) t).
Abbreviation lock_out := (mkOutPoint (btx_txid ltx) 0).

(** The end of Alice's phase: the spend of the lock with the two keys. *)
Lemma execution_claims_lock g ba bb gb wa wb sa' wa' sb' wb' :
  duet (exec_phase_swap_mw g ba sa) (exec_phase_swap_btc gb bb sb) wa wb
  = (done_ok tt sa' wa', done_ok tt sb' wb') ->
  (exists sk coin, claims ba wa wa' lock_out ops (both_keys_sign sk_a x ops) 0 sk coin
     /\ sa' = set_status FINISHED (set_swapped coin (set_status EXECUTING sa)))
  /\ exists fs gtx xg coin w, (exists s, finalize s = Ok fs) /\ sl_tx fs = Some gtx
     /\ tx_validate gtx = Ok tt /\ reveals fs xg /\ private_key_from_grin_sk xg = Ok x
     /\ finish (push_transaction gb gtx) w = (Done (Ok tt), wb') /\ w_log wb `suffix_of` w_log w
     /\ sb' = set_status FINISHED (set_swapped_coin coin (set_status EXECUTING sb)).
Proof.
  destruct HU as [Hpa Hpb Esk _ Ebx Hxk Ela _]. intros E. unfold exec_phase_swap_mw, exec_phase_swap_btc in E.
  apply (phase_left (check_if_enough_time g ba sa)) in E as (en & w1 & G1 & E); [|apply quiet_enough].
  destruct en; [|by apply phase_err_left in E].
  apply (phase_right _ (check_if_enough_time gb bb sb)) in E as (en & w2 & G2 & E);
    [|apply quiet_enough].
  destruct en; [|by apply phase_err_right in E].
  rewrite 2 modify_step, !gets_res_step in E.
  apply res_left in E as (shared_a & _ & E). apply res_right in E as (shared_b & _ & E).
  cbn zeta in E. rewrite !gets_res_step in E.
  apply res_left in E as (xt & Ext & E). apply res_left in E as (px & Epx' & E).
  apply res_left in E as (pxg & _ & E). apply res_left in E as (fund_a & _ & E).
  apply res_right in E as (x' & Ex & E). apply res_right in E as (xg & Exg & E).
  apply res_right in E as (fund_b & _ & E).
  apply phase_split in E as (ra & w3 & rb & w4 & E & Ea & Eb); [|intros; quiet_phase..].
  apply duet_grows in E as Hg. destruct Hg as [Ga Gb].
  apply contract_outcome in E as [(Exa & _ & _ & (fs & Efin) & _) Hrev].
  apply finish_lift_step in Ea as (sk & w5 & G5 & Ea). cbn zeta in Ea. rewrite !gets_res_step in Ea.
  unfold pub_btc_of, prv_btc_of in *. cbn in Ex, Ext. rewrite Hpa in Ext. injection Ext as <-.
  rewrite Ebx in Ex. cbn in Ex. rewrite priv_key_roundtrip in Ex. injection Ex as <-.
  step Ea pa Epa'. step Ea pb Epb'. step Ea px' Epx''. step Ea kb Exb. step Ea ska Eska.
  step Ea lock Elock. rewrite gets_step in Ea. step Ea rtx Ertx. step Ea tl Elt. step Ea stx Estx.
  step Ea o Eo. apply finish_lift_step in Ea as ([] & w6 & Esend & Ea). injection Ea as <- <-.
  cbn in Epa', Epb', Epx'', Eska, Elt, Elock.
  rewrite Hpa in Epa', Epb', Epx'', Elt. rewrite Esk in Eska. cbn in Epa', Epb', Epx'', Eska, Elt. injection Elt as <-.
  rewrite pub_key_roundtrip in Epa', Epb', Epx''. rewrite priv_key_roundtrip in Eska.
  injection Epa' as <-. injection Epb' as <-. injection Epx'' as <-. injection Eska as <-.
  rewrite Exa in Exb. pose proof (same_key_back x xg kb Hxk Exg Exb) as ->.
  apply (proj1 (unwrap_opt_Ok _ _)) in Elock, Eo. rewrite Ela in Elock. injection Elock as <-.
  pose proof (redeem_spends_lock _ _ _ _ _ _ _ _ _ _ Ertx Estx) as Hspends.
  apply sign_redeemer_spec in Estx as [Hsame Hsig].
  destruct (signed_shape _ _ _ _ _ _ _ _ (both_keys_sign sk_a x ops) Ertx Hsame Hsig)
    as (tid & inp & o' & msg & Etxid & Einp & Eprev & Elt & Emsg & Escr & Eout & Epay).
  rewrite Eout in Eo. injection Eo as ->. cbn in Etxid, Eprev. rewrite txid_from_to_string in Etxid.
  injection Etxid as <-.
  pose proof (finalised_tx _ _ (finalize_finalised _ _ Efin)) as Hft.
  destruct Hft as (? & ? & ? & ? & _ & _ & Efin' & Hv).
  match type of Hv with tx_validate ?T = _ => set (gtx := T) in *; assert (Egtx : sl_tx (cm_tx rb) = Some gtx) by by rewrite Efin' end.
  rewrite modify_step in Eb. apply finish_res_step in Eb as (gtx' & Egtx' & Eb).
  rewrite Egtx in Egtx'. injection Egtx' as <-.
  apply finish_lift_step in Eb as ([] & w7 & Epush & Eb). injection Eb as <- <-.
  split.
  - eexists sk, _. split; [|reflexivity]. exists stx, inp, msg, o, w5.
    split; [exact Esend|]. split; [|done]. clear Esend. grows. etransitivity; [|exact Ga]. grows.
  - eexists (cm_tx rb), gtx, xg, _, w4. split; [by exists fs|]. do 4 (split; [done|]).
    split; [exact Epush|]. split; [|reflexivity]. etransitivity; [|exact Gb]. grows.
Qed.

Lemma refund_claims_lock g bb w sb' w' :
  0 < t < lock_height_threshold ->
  finish (refund_phase_swap_btc g bb sb) w = done_ok tt sb' w' ->
  exists sk coin, claims bb w w' lock_out ops (refund_key_signs sk_b ops) t sk coin
    /\ sb' = set_status FAILED (set_refunded coin sb).
Proof.
  destruct HU as [Hpa Hpb _ Esk Ebx _ _ Elb]. intros Ht E. unfold refund_phase_swap_btc in E.
  apply (finish_lift_step (can_refund g bb sb)) in E as (can & w1 & G1 & E).
  destruct can; [|done]. apply finish_lift_step in E as (sk & w2 & G2 & E). cbn zeta in E.
  unfold pub_btc_of, prv_btc_of in *. rewrite Hpa in Hpb.
  step E pa Epa'. step E skb Eskb. step E x' Ex'. step E tl Etl. step E lock Elock.
  rewrite gets_step in E. step E tl32 Etl32. step E rtx Ertx. step E stx Estx.
  apply finish_lift_step in E as ([] & w3 & Esend & E). step E o Eo. injection E as <- <-.
  cbn in Epa', Eskb, Ex', Etl, Elock. rewrite Hpb in Epa', Etl. rewrite Esk in Eskb.
  rewrite Ebx in Ex'. cbn in Epa', Eskb, Ex', Etl. injection Etl as <-.
  rewrite pub_key_roundtrip in Epa'. rewrite !priv_key_roundtrip in *.
  injection Epa' as <-. injection Eskb as <-. injection Ex' as <-.
  apply (proj1 (unwrap_opt_Ok _ _)) in Elock, Eo. apply (proj1 (unwrap_Ok _ _)), u32_height in Etl32.
  subst tl32. rewrite Elb in Elock. injection Elock as <-.
  pose proof (refund_spends_lock _ _ _ _ _ _ _ _ _ _ Ht Ertx Estx) as Hspends.
  apply sign_refund_spec in Estx as [Hsame Hsig].
  destruct (signed_shape _ _ _ _ _ _ _ _ (refund_key_signs sk_b ops) Ertx Hsame Hsig)
    as (tid & inp & o' & msg & Etxid & Einp & Eprev & Elt & Emsg & Escr & Eout & Epay).
  rewrite Eout in Eo. injection Eo as ->. cbn in Etxid, Eprev. rewrite txid_from_to_string in Etxid.
  injection Etxid as <-.
  eexists sk, _. split; [|reflexivity]. exists stx, inp, msg, o, w2.
  split; [exact Esend|]. split; [|done]. clear Esend. grows.
Qed.
End outcome.

(** C1: The swap.  When setup and execution both run to their end, the last thing Alice
    did on the Bitcoin chain was to have a transaction accepted whose only input is the
    lock output of the transaction Bob published during the setup, and which spends it
    through the branch for both keys: signed with her key of the setup and with Bob's
    secret x.  That x is what the signature on Bob's finished Grin slate revealed to her,
    and the last thing Bob did was to push the transaction of this very slate, which is
    valid.  Her coin is on her slate and both slates are FINISHED. *)
Theorem swap_completes g ba bb gb sa sb wa wb sa1 wa1 sb1 wb1 g2 ba2 bb2 gb2 wa2 wb2 sa2 wa3 sb2 wb3 :
  sw_pub sa = sw_pub sb ->
  duet (locking_phase_swap_mw g ba sa) (locking_phase_swap_btc gb bb sb) wa wb
  = (done_ok tt sa1 wa1, done_ok tt sb1 wb1) ->
  duet (exec_phase_swap_mw g2 ba2 sa1) (exec_phase_swap_btc gb2 bb2 sb1) wa2 wb2
  = (done_ok tt sa2 wa3, done_ok tt sb2 wb3) ->
  exists sk_a sk_b x t tg ltx sk coin,
    let ops := lock_script_ops (bpk_from_private_key sk_a) (bpk_from_private_key x)
                 (bpk_from_private_key sk_b) t in
    set_up (sw_pub sa) sk_a sk_b x t tg (txid_to_string (btx_txid ltx)) sa1 sb1
    /\ lock_published bb (sw_pub sa) (bs_inputs (prv_btc_of sb)) ops ltx wb wb1
    /\ claims ba2 wa2 wa3 (mkOutPoint (btx_txid ltx) 0) ops (both_keys_sign sk_a x ops) 0 sk coin
    /\ (exists fs gtx xg w, (exists s, finalize s = Ok fs) /\ sl_tx fs = Some gtx
         /\ tx_validate gtx = Ok tt /\ reveals fs xg /\ private_key_from_grin_sk xg = Ok x
         /\ finish (push_transaction gb2 gtx) w = (Done (Ok tt), wb3)
         /\ w_log wb2 `suffix_of` w_log w)
    /\ bs_swapped (prv_btc_of sa2) = Some coin
    /\ pub_status (sw_pub sa2) = FINISHED /\ pub_status (sw_pub sb2) = FINISHED.
Proof.
  intros Hp E1 E2. apply setup_outcome in E1 as (sk_a & sk_b & x & t & tg & ltx & HU & HL); [|done].
  destruct (execution_claims_lock HU _ _ _ _ _ _ _ _ _ _ E2)
    as [(sk & coin & Hc & ->) (fs & gtx & xg & c & w & F1 & F2 & F3 & F4 & F5 & F6 & F7 & ->)].
  exists sk_a, sk_b, x, t, tg, ltx, sk, coin. cbn zeta. repeat (split; [done|]).
  split; [by exists fs, gtx, xg, w|]. done.
Qed.

(** C4: The way back on the Bitcoin side.  After a setup, a refund phase of Bob that
    succeeds ended with his node accepting a transaction whose only input is the lock
    output of the transaction he published during the setup, and which spends it through
    the refund branch, signed with his key of the setup and at the agreed lock time; the
    coin is on his slate, which is FAILED.  (For a lock time that Bitcoin reads as a
    block height: more than zero and less than 500000000.) *)
Theorem refund_returns_coins g ba bb gb sa sb wa wb sa1 wa1 sb1 wb1 g2 bb2 w2 sb2 w3 lock_btc :
  sw_pub sa = sw_pub sb ->
  duet (locking_phase_swap_mw g ba sa) (locking_phase_swap_btc gb bb sb) wa wb
  = (done_ok tt sa1 wa1, done_ok tt sb1 wb1) ->
  bp_lock_time (pub_btc_of sb1) = Some lock_btc -> 0 < lock_btc < lock_height_threshold ->
  finish (refund_phase_swap_btc g2 bb2 sb1) w2 = done_ok tt sb2 w3 ->
  exists sk_a sk_b x tg ltx sk coin,
    let ops := lock_script_ops (bpk_from_private_key sk_a) (bpk_from_private_key x)
                 (bpk_from_private_key sk_b) lock_btc in
    set_up (sw_pub sa) sk_a sk_b x lock_btc tg (txid_to_string (btx_txid ltx)) sa1 sb1
    /\ lock_published bb (sw_pub sa) (bs_inputs (prv_btc_of sb)) ops ltx wb wb1
    /\ claims bb2 w2 w3 (mkOutPoint (btx_txid ltx) 0) ops (refund_key_signs sk_b ops) lock_btc sk coin
    /\ bs_refunded (prv_btc_of sb2) = Some coin /\ pub_status (sw_pub sb2) = FAILED.
Proof.
  intros Hp E1 Et Hlt E2. apply setup_outcome in E1 as (sk_a & sk_b & x & t & tg & ltx & HU & HL); [|done].
  pose proof (su_pub_b _ _ _ _ _ _ _ _ _ HU) as Hb. rewrite (su_pub_a _ _ _ _ _ _ _ _ _ HU) in Hb.
  unfold pub_btc_of in Et. rewrite Hb in Et. injection Et as ->.
  destruct (refund_claims_lock HU _ _ _ _ _ Hlt E2) as (sk & coin & Hc & ->).
  exists sk_a, sk_b, x, tg, ltx, sk, coin. cbn zeta. by repeat (split; [done|]).
Qed.
End execution.
