(* ===== verification/Toy.v ===== *)
(** * A world small enough to compute in

    Concrete instances of every interface of [Crates] and of the text formats, with
    their laws: keys are integers, a public key is its secret, a commitment is the
    pair of its value and its key, and the signature equations hold over the
    integers.  Nothing here models code of the repository; it shows that the laws
    can hold together, and lets the programs of the other files run. *)
From S2P Require Import Prelude.
From S2P Require Import RustStd.
From S2P Require Import Crates.
From S2P Require Import SwapTypes.
From S2P Require Import Effects.
From S2P Require Import Http.
From S2P Require Import Float32.
From S2P Require Import BitcoinCore.
From S2P Require Import BtcRoutines.
From S2P Require Import BtcScript.
From S2P Require Import Slate.
From S2P Require Import SlateV4.
From S2P Require Import SlateBin.
From S2P Require Import GrinRoutines.
From S2P Require Import GrinCore.
From S2P Require Import Protocol.
From S2P Require Import SlateDisk.
From S2P Require Import Commands.
From S2P Require Import Main.
From S2P Require Import Swap.
From Stdlib Require Import Ascii DecimalString DecimalZ DecimalPos.

(** ** Text formats: a value is put in front of whatever follows *)
Class Codec (A : Type) := {
  put : A -> string -> string;
  get : string -> option (A * string);
  get_put a r : get (put a r) = Some (a, r);
}.

(** A string: each character behind a 1, then a 0. *)
Fixpoint put_string (s r : string) : string :=
  match s with
  | EmptyString => String "0" r
  | String c s' => String "1" (String c (put_string s' r))
  end.
Fixpoint get_string (s : string) : option (string * string) :=
  match s with
  | String m s1 =>
      if Ascii.eqb m "1" then
        match s1 with
        | String c s2 => '(x, r) ← get_string s2; Some (String c x, r)
        | EmptyString => None
        end
      else Some (EmptyString, s1)
  | EmptyString => None
  end.
#[export] Instance string_codec : Codec string.
Proof.
  refine {| put := put_string; get := get_string |}.
  induction a as [|c s IH]; intros r; [done|]. cbn. by rewrite IH.
Defined.

(** An integer: its decimal digits. *)
Definition dec_of (z : Z) : string := NilZero.string_of_int (Z.to_int z).
Definition of_dec (s : string) : option Z := Z.of_int <$> NilZero.int_of_string s.
Lemma of_dec_of z : of_dec (dec_of z) = Some z.
Proof.
  unfold of_dec, dec_of. rewrite NilZero.isi; [cbn; by rewrite DecimalZ.of_to|..];
    destruct z as [|p|p]; cbn; try done; intros [= E]; by apply DecimalPos.Unsigned.to_uint_nonnil in E.
Qed.

Definition iso_codec {A B} `{Codec B} (f : A -> B) (g : B -> A) (Hg : forall a, g (f a) = a) : Codec A.
Proof.
  refine {| put a r := put (f a) r; get s := '(b, r) ← get s; Some (g b, r) |}.
  intros a r. rewrite get_put. cbn. by rewrite Hg.
Defined.

#[export] Instance Z_codec : Codec Z.
Proof.
  refine (iso_codec dec_of (fun s => default 0 (of_dec s)) _). intros a. by rewrite of_dec_of.
Defined.

#[export] Instance unit_codec : Codec unit.
Proof. refine {| put _ r := r; get s := Some (tt, s) |}. by intros []. Defined.

#[export] Instance prod_codec {A B} `{Codec A, Codec B} : Codec (A * B).
Proof.
  refine {| put p r := put p.1 (put p.2 r); get s := '(a, r) ← get s; '(b, r) ← get r; Some ((a, b), r) |}.
  intros [a b] r. rewrite get_put. cbn. by rewrite get_put.
Defined.

#[export] Instance bool_codec : Codec bool.
Proof.
  refine {| put b r := String (if b : bool then "1" else "0") r;
            get s := match s with
                     | String c r => Some (Ascii.eqb c "1", r)
                     | EmptyString => None
                     end |}.
  by intros [] r.
Defined.

#[export] Instance option_codec {A} `{Codec A} : Codec (option A).
Proof.
  refine {| put o r := match o with Some a => put true (put a r) | None => put false r end;
            get s := '(b, r) ← get s;
                     if b : bool then '(a, r) ← get r; Some (Some a, r) else Some (None, r) |}.
  intros [a|] r; rewrite get_put; cbn; [by rewrite get_put|done].
Defined.

Fixpoint put_list {A} `{Codec A} (l : list A) (r : string) : string :=
  match l with [] => r | a :: l' => put a (put_list l' r) end.
Fixpoint get_list {A} `{Codec A} (n : nat) (s : string) : option (list A * string) :=
  match n with
  | O => Some ([], s)
  | S n' => '(a, r) ← get s; '(l, r) ← get_list n' r; Some (a :: l, r)
  end.
#[export] Instance list_codec {A} `{Codec A} : Codec (list A).
Proof.
  refine {| put l r := put (Z.of_nat (length l)) (put_list l r);
            get s := '(n, r) ← get s; get_list (Z.to_nat n) r |}.
  intros l r. rewrite get_put. cbn. rewrite Nat2Z.id.
  induction l as [|a l IH]; cbn; [done|]. rewrite get_put. cbn. by rewrite IH.
Defined.

(** A whole text. *)
Definition to_text {A} `{Codec A} (a : A) : string := put a "".
Definition of_text {A} `{Codec A} (s : string) : Res A :=
  match get s with Some (a, EmptyString) => Ok a | _ => Err "syntax error" end.
Lemma of_to_text {A} `{Codec A} (a : A) : of_text (to_text a) = Ok a.
Proof. unfold of_text, to_text. by rewrite get_put. Qed.

(** ** Grin *)
Record ToyTx {I O K : Type} := mkToyTx { tt_in : I; tt_out : list O; tt_ker : list K; tt_off : Z }.
Arguments ToyTx : clear implicits.
Arguments mkToyTx {I O K}.

(** The parts of a transaction, before there are types to speak of: an input is its
    features and its commitment, and so on. *)
Definition toy_commit : Type := Z * Z.
Definition toy_input : Type := bool * toy_commit.
Definition toy_inputs : Type := list toy_commit + list toy_input.
Definition toy_output : Type := bool * (toy_commit * toy_commit).
Definition toy_kernel : Type := (Z * (Z * Z)) * (toy_commit * (Z * Z)).
Definition toy_tx : Type := ToyTx toy_inputs toy_output toy_kernel.

#[export] Instance toy_types : GrinTypes.
Proof.
  refine {| SecretKey := Z; PublicKey := Z; Commitment := Z * Z; RangeProof := Z * Z;
            Signature := Z * Z; BlindingFactor := Z; Message := Z; FeeFields := Z;
            NRDRelativeHeight := Z; Transaction := toy_tx; Uuid := bool; DalekPublicKey := unit;
            DalekSignature := unit; Identifier := ascii; BuildElem := bool * Z |}; apply _.
Defined.

Definition feature_bool (f : OutputFeatures) : bool := match f with OFPlain => false | OFCoinbase => true end.
Definition bool_feature (b : bool) : OutputFeatures := if b then OFCoinbase else OFPlain.
Definition of_input (i : Input) : toy_input := (feature_bool (in_features i), in_commit i).
Definition to_input (i : toy_input) : Input := mkInput (bool_feature i.1) i.2.
Definition of_output (o : Output) : toy_output := (feature_bool (out_features o), (out_commit o, out_proof o)).
Definition to_output (o : toy_output) : Output := mkOutput (bool_feature o.1) o.2.1 o.2.2.
Definition of_inputs (i : Inputs) : toy_inputs :=
  match i with CommitOnly l => inl l | FeaturesAndCommit l => inr (of_input <$> l) end.
Definition to_inputs (i : toy_inputs) : Inputs :=
  match i with inl l => CommitOnly l | inr l => FeaturesAndCommit (to_input <$> l) end.
Definition of_features (f : KernelFeatures) : Z * (Z * Z) :=
  match f with
  | KPlain fee => (0, (fee, 0))
  | KCoinbase => (1, (0, 0))
  | KHeightLocked fee h => (2, (fee, h))
  | KNoRecentDuplicate fee h => (3, (fee, h))
  end.
Definition to_features (f : Z * (Z * Z)) : KernelFeatures :=
  match f with
  | (0, (fee, _)) => KPlain fee
  | (1, _) => KCoinbase
  | (2, (fee, h)) => KHeightLocked fee h
  | (_, (fee, h)) => KNoRecentDuplicate fee h
  end.
Definition of_kernel (k : TxKernel) : toy_kernel := (of_features (kern_features k), (kern_excess k, kern_sig k)).
Definition to_kernel (k : toy_kernel) : TxKernel := mkKernel (to_features k.1) k.2.1 k.2.2.

Lemma to_of_input i : to_input (of_input i) = i.
Proof. by destruct i as [[] c]. Qed.
Lemma to_of_output o : to_output (of_output o) = o.
Proof. by destruct o as [[] c p]. Qed.
Lemma to_of_inputs i : to_inputs (of_inputs i) = i.
Proof.
  destruct i as [l|l]; cbn; [done|]. f_equal. rewrite <- list_fmap_compose.
  induction l as [|x l IH]; cbn; [done|]. rewrite to_of_input. f_equal. exact IH.
Qed.
Lemma to_of_kernel k : to_kernel (of_kernel k) = k.
Proof. by destruct k as [[] e s]. Qed.
Lemma to_of_outputs (l : list Output) : to_output <$> (of_output <$> l) = l.
Proof.
  rewrite <- list_fmap_compose. induction l as [|x l IH]; cbn; [done|].
  rewrite to_of_output. f_equal. exact IH.
Qed.
Lemma to_of_kernels (l : list TxKernel) : to_kernel <$> (of_kernel <$> l) = l.
Proof.
  rewrite <- list_fmap_compose. induction l as [|x l IH]; cbn; [done|].
  rewrite to_of_kernel. f_equal. exact IH.
Qed.

Definition nonzero (z : Z) : option Z := if z =? 0 then None else Some z.
Definition sum_Z (l : list Z) : Z := foldr Z.add 0 l.
Definition add_commit2 (a b : Z * Z) : Z * Z := (a.1 + b.1, a.2 + b.2).
Definition sum_commit (l : list (Z * Z)) : Z * Z := foldr add_commit2 (0, 0) l.
Definition toy_read (s : string) : Z := default 0 (of_dec s).

(** The challenge of the Schnorr signatures, and the check of one. *)
Definition toy_e (nonce_sum pub_sum msg : Z) : Z := 1 + (nonce_sum + 3 * pub_sum + 7 * msg) mod 101.
Definition toy_sign (key nonce nonce_sum pub_sum msg x : Z) : Z * Z :=
  (nonce, nonce + toy_e nonce_sum pub_sum msg * key + x).
Definition toy_check (sig : Z * Z) (pub nonce_sum pub_sum msg x : Z) : bool :=
  sig.2 =? sig.1 + toy_e nonce_sum pub_sum msg * pub + x.
Definition toy_msg (f : KernelFeatures) : Z :=
  let '(a, (b, c)) := of_features f in a + 10 * b + 1000 * c.
Definition feature_fee (f : KernelFeatures) : Z := (of_features f).2.1.
Definition toy_fee (i o k : nat) : Z := Z.of_nat (2 + 4 * o + k - i).

(** A transaction is valid when its values balance: outputs and fees against inputs,
    and the kernels' excess and the offset against the blinding factors. *)
Definition toy_balances (t : toy_tx) : bool :=
  let ins := sum_commit (inputs_commits (to_inputs (tt_in t))) in
  let outs := sum_commit (out_commit <$> (to_output <$> tt_out t)) in
  let kers := to_kernel <$> tt_ker t in
  let excess := sum_commit (kern_excess <$> kers) in
  let fees := sum_Z (feature_fee <$> (kern_features <$> kers)) in
  (outs.1 + fees =? ins.1) && (outs.2 - ins.2 =? excess.2 + tt_off t).

Definition with_in (i : toy_inputs) (t : toy_tx) : toy_tx := mkToyTx i (tt_out t) (tt_ker t) (tt_off t).
Definition with_out (o : list toy_output) (t : toy_tx) : toy_tx := mkToyTx (tt_in t) o (tt_ker t) (tt_off t).
Definition with_ker (k : list toy_kernel) (t : toy_tx) : toy_tx := mkToyTx (tt_in t) (tt_out t) k (tt_off t).
Definition with_off (o : Z) (t : toy_tx) : toy_tx := mkToyTx (tt_in t) (tt_out t) (tt_ker t) o.

(** The inputs and outputs one adds: the blinding factor is the value and one. *)
Definition toy_build (t : toy_tx) (e : bool * Z) : toy_tx :=
  let c := (e.2, e.2 + 1) in
  if e.1 then with_out (tt_out t ++ [(false, (c, c))]) t
  else with_in (match tt_in t with inl l => inl (l ++ [c]) | inr l => inr (l ++ [(false, c)]) end) t.

Definition toy_blind_op (o : BlindOp) : Z := match o with AddBF b => b | SubBF b => - b end.

(** The two-party proof: the first step gives the points, the second the share of
    tau_x, the last the proof for the commitment it is given. *)
Definition toy_multisig (commits : list (Z * Z)) (step : Z) : MultisigOut :=
  {| mo_proof := if step =? 0 then head commits else None;
     mo_tau_x := if step =? 2 then Some 1 else None;
     mo_t_1 := if step =? 1 then Some 1 else None;
     mo_t_2 := if step =? 1 then Some 1 else None |}.

#[export] Instance toy_crates : GrinCrates := {|
  sk_new seed := Z.abs seed + 1;
  ZERO_KEY := 0;
  sk_from_slice s := of_dec s ≫= nonzero;
  sk_bytes k := if k =? 0 then zero_key_hex else dec_of k;
  sk_add_assign a b := nonzero (a + b);
  sk_neg_assign a := Some (- a);
  pk_new := 0;
  pk_is_valid p := negb (p =? 0);
  pk_from_secret_key := nonzero;
  pk_from_combination l := ok_or "IncorrectCommitSum" (nonzero (sum_Z l));
  pk_serialize_compressed := dec_of;
  pk_from_slice := of_dec;
  secp_commit v k := Some (v, k);
  secp_commit_sum p n := let a := sum_commit p in let b := sum_commit n in Some (a.1 - b.1, a.2 - b.2);
  commit_bytes c := String "c" (put c "");
  commit_from_vec s := match s with
    | String _ s => match get s with Some (c, _) => c | None => (0, 0) end
    | EmptyString => (0, 0)
    end;
  commit_from_pubkey p := Ok (0, p);
  bullet_proof v k _ _ := (v, k);
  verify_bullet_proof c p := bool_decide (c = p);
  bullet_proof_multisig _ _ _ _ _ _ commits _ step := toy_multisig commits step;
  sign_single msg key nonce x pn pb _ :=
    n ← nonce; ns ← pn; ps ← pb; Some (toy_sign key n ns ps msg (default 0 x));
  verify_single sig msg pn pub pb x _ :=
    match pn, pb with
    | Some ns, Some ps => toy_check sig pub ns ps msg (default 0 x)
    | _, _ => false
    end;
  calculate_partial_sig key nonce ns ps msg := Ok (toy_sign key nonce ns (default 0 ps) msg 0);
  verify_partial_sig sig ns pub ps msg :=
    if toy_check sig pub ns (default 0 ps) msg 0 then Ok tt else Err "InvalidSignature";
  add_signatures sigs ns := Ok (ns, sum_Z (snd <$> sigs));
  verify_completed_sig sig pub ps msg :=
    if toy_check sig pub sig.1 (default 0 ps) msg 0 then Ok tt else Err "InvalidSignature";
  sig_to_raw_data sig := "................................" +:+ dec_of sig.2;
  sig_from_raw_data _ := Some (0, 0);
  bf_zero := 0;
  bf_from_secret_key k := k;
  bf_secret_key b := Some b;
  bf_split b o := Some (b - o);
  keychain_blind_sum ops := Ok (sum_Z (toy_blind_op <$> ops));
  keychain_derive_key amount _ := Ok (amount + 1);
  identifier_zero := Ascii.zero;
  fee_new _ fee := Some fee;
  fee_fee f _ := f;
  fee_zero := 0;
  ff_is_zero f := f =? 0;
  tx_fee := toy_fee;
  YEAR_HEIGHT := 524160;
  tx_empty := mkToyTx (inl []) [] [] 0;
  tx_new i o k := mkToyTx (of_inputs i) (of_output <$> o) (of_kernel <$> k) 0;
  tx_inputs t := to_inputs (tt_in t);
  tx_outputs t := to_output <$> tt_out t;
  tx_kernels t := to_kernel <$> tt_ker t;
  tx_offset := tt_off;
  tx_set_offset := with_off;
  tx_with_output o t := with_out (of_output o :: tt_out t) t;
  tx_with_kernel k t := with_ker (of_kernel k :: tt_ker t) t;
  tx_replace_kernel k t := with_ker [of_kernel k] t;
  tx_replace_inputs i t := with_in (of_inputs i) t;
  tx_replace_outputs o t := with_out (of_output <$> o) t;
  tx_fee_at t _ := sum_Z (feature_fee <$> (kern_features <$> (to_kernel <$> tt_ker t)));
  tx_validate t := if toy_balances t then Ok tt else Err "KernelSumMismatch";
  partial_transaction t l := Ok (foldl toy_build t l, 0);
  amount_to_hr_string n _ := fmt_u64 n;
  inputs_from_slice l := FeaturesAndCommit l;
  kernel_with_features f := mkKernel f (0, 0) (0, 0);
  kernel_verify k :=
    if toy_check (kern_sig k) (kern_excess k).2 (kern_sig k).1 (kern_excess k).2 (toy_msg (kern_features k)) 0
    then Ok tt else Err "IncorrectSignature";
  kernel_sig_msg f := Ok (toy_msg f);
  nrd_height_new h := Ok h;
  uuid_new_v4 := Z.odd;
|}.

#[export] Instance toy_tx_laws : TxLaws.
Proof.
  split; try done; cbn; intros.
  - apply to_of_inputs.
  - apply to_of_outputs.
  - by rewrite to_of_kernel.
  - by rewrite to_of_output.
  - by rewrite to_of_inputs.
  - by rewrite to_of_outputs.
  - match goal with H : _ = [] |- _ => destruct (tt_ker t); [|done] end. cbn. by rewrite to_of_kernel.
Qed.

Lemma nonzero_Some z y : nonzero z = Some y <-> y = z /\ z <> 0.
Proof. unfold nonzero. destruct (Z.eqb_spec z 0); naive_solver. Qed.

#[export] Instance toy_key_laws : KeyLaws.
Proof.
  split; cbn; intros.
  - match goal with H : nonzero _ = _ |- _ => apply (proj1 (nonzero_Some _ _)) in H as [-> H] end.
    by apply negb_true_iff, Z.eqb_neq.
  - match goal with H : ok_or _ _ = _ |- _ => apply (proj1 (ok_or_Ok _ _ _)), (proj1 (nonzero_Some _ _)) in H as [-> H] end.
    by apply negb_true_iff, Z.eqb_neq.
  - apply of_dec_of.
  - rewrite (proj2 (Z.eqb_neq k 0)) by done. rewrite of_dec_of. cbn. by apply nonzero_Some.
  - change (match get (put c "") with Some (a, _) => a | None => (0, 0) end = c). by rewrite get_put.
  - match goal with H : Some _ = Some _ |- _ => injection H as <- end. by rewrite Z.add_opp_diag_r.
Qed.

#[export] Instance toy_adaptor : AdaptorLaws.
Proof.
  intros msg key nonce x pn pb fn sig apt s t u v Es Ea Hs Ht Hu Hv.
  cbn in Es, Ea. destruct pn as [ns|], pb as [ps|]; cbn in Es, Ea; try done.
  injection Es as <-. injection Ea as <-.
  assert (Hsc : forall r z : Z, sig_scalar ((r, z) : Z * Z) = nonzero z).
  { intros r z. unfold sig_scalar. cbn.
    assert (E : forall a, String.substring 0 (String.length a) a = a).
    { induction a as [|c a IH]; [done|]. cbn. by rewrite IH. }
    assert (E2 : forall a, String.substring 32 (String.length ("................................" +:+ a) - 32)
                             ("................................" +:+ a) = a).
    { intros a. change (String.substring 0 (32 + String.length a - 32) a = a).
      rewrite Nat.add_comm, Nat.add_sub. apply E. }
    by rewrite E2, of_dec_of. }
  unfold toy_sign in Hs, Ht. rewrite Hsc in Hs, Ht. cbn in Hu, Hv.
  apply (proj1 (nonzero_Some _ _)) in Hs as [-> _], Ht as [-> _], Hv as [-> _]. injection Hu as <-.
  unfold toy_sign. cbn. lia.
Qed.

(** ** Bitcoin *)
#[export] Instance toy_bitcoin_types : BitcoinTypes := {|
  BSecretKey := Z; BPublicKey := Z; BSignature := string * Z; BMessage := string;
  Script := string; Txid := string; Address := string |}.

#[export] Instance network_codec : Codec Network.
Proof.
  refine (iso_codec (B := bool) (fun n => match n with Bitcoin => true | Testnet => false end)
            (fun b : bool => if b then Bitcoin else Testnet) _); by intros [].
Defined.
#[export] Instance private_key_codec : Codec BPrivateKey.
Proof.
  refine (iso_codec (B := bool * (Network * Z)) (fun k => (key_compressed k, (key_network k, (key_key k : Z))))
            (fun x => mkPrivateKey x.1 x.2.1 x.2.2) _); by intros [].
Defined.

(** Opcodes and scripts. *)
Definition opcode_num (o : Opcode) : Z :=
  match o with
  | OP_IF => 0 | OP_ELSE => 1 | OP_ENDIF => 2 | OP_CLTV => 3 | OP_DROP => 4 | OP_CHECKSIG => 5
  | OP_CHECKMULTISIG => 6 | OP_PUSHNUM_2 => 7 | OP_PUSHBYTES_0 => 8
  end.
Definition script_op_text (o : ScriptOp) : string -> string :=
  match o with
  | PushOpcode o => put (0, opcode_num o)
  | PushInt n => put (1, n)
  | PushKey k => put (2, (k : Z))
  | PushSlice b => fun r => put 3 (put b r)
  end.
Definition toy_script (l : list ScriptOp) : string := foldr script_op_text "" l.

#[export] Instance outpoint_codec : Codec OutPoint.
Proof.
  refine (iso_codec (B := string * Z) (fun o => (op_txid o : string, op_vout o)) (fun x => mkOutPoint x.1 x.2) _); by intros [].
Defined.
#[export] Instance txin_codec : Codec TxIn.
Proof.
  refine (iso_codec (B := OutPoint * (string * (Z * list string))) (fun i => (txin_previous_output i, (txin_script_sig i : string,
                                (txin_sequence i, txin_witness i))))
            (fun x => mkTxIn x.1 x.2.1 x.2.2.1 x.2.2.2) _); by intros [].
Defined.
#[export] Instance txout_codec : Codec TxOut.
Proof.
  refine (iso_codec (B := Z * string) (fun o => (txout_value o, txout_script_pubkey o : string))
            (fun x => mkTxOut x.1 x.2) _); by intros [].
Defined.
#[export] Instance btx_codec : Codec BTransaction.
Proof.
  refine (iso_codec (B := (Z * Z) * (list TxIn * list TxOut)) (fun t => ((btx_version t, btx_lock_time t), (btx_input t, btx_output t)))
            (fun x => mkBTx x.1.1 x.1.2 x.2.1 x.2.2) _); by intros [].
Defined.

(** What a signature commits to: everything but the signature scripts. *)
Definition blank_txin (j : TxIn) : OutPoint * (Z * list string) :=
  (txin_previous_output j, (txin_sequence j, txin_witness j)).
Definition toy_sighash (t : BTransaction) (i : nat) (s : string) (flag : Z) : string :=
  to_text ((btx_version t, btx_lock_time t), (blank_txin <$> btx_input t, (btx_output t, (Z.of_nat i, (s, flag))))).

#[export] Instance toy_bitcoin : BitcoinCrates := {|
  bsk_new seed := Z.abs seed + 1;
  bsk_from_slice := of_dec;
  to_wif k := to_text k;
  from_wif s := match of_text s with Ok k => Some k | _ => None end;
  private_key_bytes k := dec_of (key_key k);
  bpk_from_private_key k := key_key k;
  bpk_to_string := dec_of;
  bpk_from_str := of_dec;
  bpk_bytes := dec_of;
  txid_from_str s := Some s;
  txid_to_string s := s;
  btx_txid t := "tx" +:+ dec_of (sum_Z (txout_value <$> btx_output t));
  script_empty := "";
  into_script := toy_script;
  new_p2sh_of s := "H" +:+ s;
  new_p2pkh_of k := "K" +:+ dec_of k;
  script_to_bytes s := s;
  script_from_bytes s := s;
  signature_hash := toy_sighash;
  message_from_slice s := Some s;
  bsign m k := (m, k);
  serialize_der s := to_text (s.1, s.2);
  address_from_script s _ := Some s;
  address_to_string s := s;
  btx_serialize t := to_text t;
  btx_deserialize s := match of_text s with Ok t => Some t | _ => None end;
|}.

#[export] Instance toy_hex : HexCrate := {| hex_encode s := s; hex_decode s := Some s |}.
#[export] Instance toy_hex_laws : HexLaws := {| hex_decode_encode _ := eq_refl |}.

#[export] Instance toy_bitcoin_laws : BitcoinLaws.
Proof.
  split; intros; cbn [from_wif to_wif bpk_from_str bpk_to_string btx_deserialize btx_serialize txid_from_str txid_to_string toy_bitcoin];
    try (by rewrite of_to_text); [apply of_dec_of|done|done].
Qed.

#[export] Instance toy_network : NetworkSigs.
Proof.
  refine {| net_check_sig m b pk := bool_decide (b = serialize_der (m, (pk : Z)) +:+ byte_string SIGHASH_ALL) |}.
  - intros m k b ->. by apply bool_decide_eq_true.
  - intros Hp t u i s f (Ev & El & Eo & Hi). cbn. unfold toy_sighash. rewrite Ev, El, Eo.
    replace (blank_txin <$> btx_input t) with (blank_txin <$> btx_input u); [done|].
    induction Hi as [|a b la lb (E1 & E2 & E3) _ IH]; cbn; [done|].
    rewrite IH. unfold blank_txin. by rewrite E1, E2, E3.
Defined.

#[export] Instance toy_curve : SameCurve.
Proof.
  intros p k. cbn. rewrite of_dec_of. cbn. intros [-> Hk]%nonzero_Some.
  rewrite (proj2 (Z.eqb_neq _ 0)) by done. apply of_dec_of.
Qed.

#[export] Instance toy_zero_key : ZeroKeyHex.
Proof.
  assert (E : of_dec zero_key_hex = Some 0) by (vm_compute; reflexivity).
  split; [done|]. intros k. unfold serialize_secret_key. cbn.
  destruct (Z.eqb_spec k 0); [done|]. intros E2. rewrite <- E2, of_dec_of in E. congruence.
Qed.

(** ** Texts of the messages and of the files *)
#[export] Instance participant_codec : Codec ParticipantDataV4.
Proof.
  refine (iso_codec (B := (Z * Z) * option (Z * Z)) (fun d => ((v4_xs d : Z, v4_nonce d : Z), (v4_part d : option (Z * Z))))
            (fun x => mkParticipantDataV4 x.1.1 x.1.2 x.2) _); by intros [].
Defined.
#[export] Instance com_codec : Codec CommitsV4.
Proof.
  refine (iso_codec (B := Z * ((Z * Z) * option (Z * Z))) (fun c => (com_f c : Z, (com_c c : Z * Z, com_p c : option (Z * Z))))
            (fun x => mkCommitsV4 x.1 x.2.1 x.2.2) _); by intros [].
Defined.
#[export] Instance payment_codec : Codec PaymentInfoV4.
Proof.
  refine (iso_codec (B := (unit * unit) * option unit) (fun p => ((v4_saddr p : unit, v4_raddr p : unit), v4_rsig p : option unit))
            (fun x => mkPaymentInfoV4 x.1.1 x.1.2 x.2) _); by intros [].
Defined.
#[export] Instance args_codec : Codec KernelFeaturesArgsV4.
Proof. refine (iso_codec (B := Z) lock_hgt mkKernelFeaturesArgsV4 _); by intros []. Defined.
Definition state_num (s : SlateStateV4) : Z :=
  match s with
  | UnknownV4 => 0 | Standard1V4 => 1 | Standard2V4 => 2 | Standard3V4 => 3
  | Invoice1V4 => 4 | Invoice2V4 => 5 | Invoice3V4 => 6
  end.
Definition num_state (n : Z) : SlateStateV4 :=
  match n with
  | 1 => Standard1V4 | 2 => Standard2V4 | 3 => Standard3V4 | 4 => Invoice1V4 | 5 => Invoice2V4
  | 6 => Invoice3V4 | _ => UnknownV4
  end.
#[export] Instance state_codec : Codec SlateStateV4.
Proof. refine (iso_codec (B := Z) state_num num_state _); by intros []. Defined.
#[export] Instance version_codec : Codec VersionCompatInfoV4.
Proof.
  refine (iso_codec (B := Z * Z) (fun v => (v4_version v, v4_block_header_version v))
            (fun x => mkVersionCompatInfoV4 x.1 x.2) _); by intros [].
Defined.
#[export] Instance slate_codec : Codec SlateV4.
Proof.
  refine (iso_codec (B := (VersionCompatInfoV4 * (bool * (SlateStateV4 * Z))) * ((Z * (Z * (Z * (Z * Z)))) * (list ParticipantDataV4 * (option (list CommitsV4) * (option PaymentInfoV4 * option KernelFeaturesArgsV4)))))
    (fun s => ((v4_ver s, (v4_id s : bool, (v4_sta s, v4_off s : Z))),
       ((v4_num_parts s, (v4_amt s, (v4_fee s : Z, (v4_feat s, v4_ttl s)))),
        (v4_sigs s, (v4_coms s, (v4_proof s, v4_feat_args s))))))
    (fun x => mkSlateV4 x.1.1 x.1.2.1 x.1.2.2.1 x.1.2.2.2 x.2.1.1 x.2.1.2.1 x.2.1.2.2.1 x.2.1.2.2.2.1
       x.2.1.2.2.2.2 x.2.2.1 x.2.2.2.1 x.2.2.2.2.1 x.2.2.2.2.2) _); by intros [].
Defined.

#[export] Instance toy_slate_json : SlateJson := {|
  slate_v4_to_json s := Ok (to_text s);
  versioned_slate_of_json s := v ← of_text s; Ok (VS4 v) |}.
#[export] Instance toy_slate_json_laws : SlateJsonLaws.
Proof. intros s _. exists (to_text s). split; [done|]. cbn [versioned_slate_of_json toy_slate_json]. by rewrite of_to_text. Qed.

(** ** The binary form: what the library writes *)
Definition put_written {A} `{Codec A} (a : A) : Written := Ok (put a "").
Definition get_read {A} `{Codec A} : Reader A := fun s => ok_or "UnexpectedEof" (get s).

(** Nothing is written differently because of what follows. *)
Class CodecApp (A : Type) `{Codec A} := put_app (a : A) (r s : string) : put a (r +:+ s) = put a r +:+ s.
#[export] Instance string_codec_app : CodecApp string.
Proof.
  intros a r s. induction a as [|c a IH]; [done|].
  change (String "1" (String c (put a (r +:+ s))) = String "1" (String c (put a r +:+ s))). by rewrite IH.
Qed.
#[export] Instance Z_codec_app : CodecApp Z.
Proof. intros a r s. apply (string_codec_app (dec_of a)). Qed.
#[export] Instance prod_codec_app {A B} `{CodecApp A, CodecApp B} : CodecApp (A * B).
Proof. intros [a b] r s. cbn. by rewrite !put_app. Qed.

Lemma toy_reads {A} `{CodecApp A} (a : A) : reads (put_written a) get_read a.
Proof. intros b r [= <-]. unfold get_read. rewrite <- put_app. cbn. by rewrite get_put. Qed.

Fixpoint take_chars (n : nat) (s : string) : option (string * string) :=
  match n, s with
  | O, _ => Some (EmptyString, s)
  | S n', String c s' => '(x, r) ← take_chars n' s'; Some (String c x, r)
  | S _, EmptyString => None
  end.
Lemma take_chars_app b r : take_chars (String.length b) (b +:+ r) = Some (b, r).
Proof.
  induction b as [|c b IH]; [by destruct r|].
  change (('(x, r') ← take_chars (String.length b) (b +:+ r); Some (String c x, r')) = Some (String c b, r)).
  by rewrite IH.
Qed.

(** A byte is a character. *)
Definition toy_write_u8 (n : Z) : Written := Ok (String (ascii_of_N (Z.to_N n)) "").
Definition toy_read_u8 : Reader Z := fun s =>
  match s with
  | String c r => Ok (Z.of_N (N_of_ascii c), r)
  | EmptyString => Err "UnexpectedEof"
  end.

Fixpoint zeros (n : nat) : string :=
  match n with O => EmptyString | S n' => String "0" (zeros n') end.
Lemma zeros_length n : String.length (zeros n) = n.
Proof. induction n as [|n IH]; [done|]. cbn. by rewrite IH. Qed.
Definition toy_uuid (u : bool) : string := String (if u then "1" else "0") (zeros 15).

(** Big-endian numbers of [k] bytes. *)
Fixpoint be (k : nat) (n : Z) : string :=
  match k with
  | O => EmptyString
  | S k' => String (ascii_of_N (Z.to_N (n / 256 ^ Z.of_nat k' mod 256))) (be k' n)
  end.
Fixpoint of_be (k : nat) (acc : Z) (s : string) : option (Z * string) :=
  match k, s with
  | O, _ => Some (acc, s)
  | S k', String c s' => of_be k' (acc * 256 + Z.of_N (N_of_ascii c)) s'
  | S _, EmptyString => None
  end.
Definition read_be (k : nat) : Reader Z := fun s => ok_or "UnexpectedEof" (of_be k 0 s).
Lemma of_be_be k n acc r : of_be k acc (be k n +:+ r) = Some (acc * 256 ^ Z.of_nat k + n mod 256 ^ Z.of_nat k, r).
Proof.
  revert acc. induction k as [|k IH]; intros acc; cbn [be of_be].
  - change (Some (acc, r) = Some (acc * 1 + n mod 1, r)). rewrite Z.mod_1_r. do 2 f_equal. lia.
  - rewrite append_cons, N_ascii_embedding, Z2N.id by (pose proof (Z.mod_pos_bound (n / 256 ^ Z.of_nat k) 256); lia).
    rewrite IH. do 2 f_equal. rewrite Nat2Z.inj_succ, Z.pow_succ_r, (Z.mul_comm 256), Z.rem_mul_r by lia. lia.
Qed.
Lemma be_reads k n : 0 <= n < 256 ^ Z.of_nat k -> reads (Ok (be k n)) (read_be k) n.
Proof. intros Hn b r [= <-]. unfold read_be. by rewrite of_be_be, Z.mod_small by lia. Qed.
Lemma be_size k n : String.length (be k n) = k.
Proof. induction k as [|k IH]; [done|]. cbn. by rewrite IH. Qed.

#[export] Instance toy_bin : BinCrates.
Proof.
  refine {|
    write_u8 := toy_write_u8; read_u8 := toy_read_u8;
    write_u16 n := Ok (be 2 n); read_u16 := read_be 2;
    write_u64 := put_written; read_u64 := get_read;
    write_fixed_bytes b := Ok b;
    read_fixed_bytes n s := ok_or "UnexpectedEof" (take_chars n s);
    pk_write := put_written; pk_read := get_read;
    sig_write := put_written; sig_read := get_read;
    commit_write := put_written; commit_read := get_read;
    proof_write := put_written; proof_read := get_read;
    bf_write := put_written; bf_read := get_read;
    fee_write := put_written; fee_read := get_read;
    of_write f := toy_write_u8 (if feature_bool f then 1 else 0);
    of_read := n ← toy_read_u8; mret (bool_feature (n =? 1));
    uuid_as_bytes := toy_uuid;
    uuid_from_bytes s := match s with String c _ => Ascii.eqb c "1" | EmptyString => false end;
    dalek_pk_bytes _ := zeros 32; dalek_pk_from_bytes _ := Some tt;
    dalek_sig_bytes _ := zeros 64; dalek_sig_from_bytes _ := Some tt |}.
Defined.

Lemma toy_u8_reads n : 0 <= n < 256 -> reads (toy_write_u8 n) toy_read_u8 n.
Proof.
  intros Hn b r [= <-].
  change (Ok (Z.of_N (N_of_ascii (ascii_of_N (Z.to_N n))), r) = Ok (n, r)).
  rewrite N_ascii_embedding, Z2N.id by lia. done.
Qed.

#[export] Instance toy_bin_laws : BinLaws.
Proof.
  split; intros; try apply toy_reads.
  - by apply toy_u8_reads.
  - by apply (be_reads 2).
  - match goal with H : String.length _ = _ |- _ => rewrite <- H end.
    intros x r [= <-]. cbn. by rewrite take_chars_app.
  - match goal with o : OutputFeatures |- _ => destruct o end; by intros b r [= <-].
  - apply (f_equal S), (zeros_length 15).
  - by match goal with u : Uuid |- _ => destruct u end.
  - apply (zeros_length 32).
  - by match goal with u : DalekPublicKey |- _ => destruct u end.
  - apply (zeros_length 64).
  - by match goal with u : DalekSignature |- _ => destruct u end.
Qed.

#[export] Instance ser_ctx_codec : Codec SerMPCtx.
Proof.
  refine (iso_codec (B := (string * string) * (Z * (string * (string * string))))
    (fun c => ((ser_t_1 c, ser_t_2 c), (ser_amount c, (ser_shared_nonce c, (ser_commit c, ser_tau_x c)))))
    (fun x => mkSerMPCtx x.1.1 x.1.2 x.2.1 x.2.2.1 x.2.2.2.1 x.2.2.2.2) _); by intros [].
Defined.
#[export] Instance toy_ctx_json : SerMPCtxJson := {|
  ser_mp_ctx_to_json c := to_text c; ser_mp_ctx_of_json := of_text |}.
#[export] Instance toy_ctx_json_laws : SerMPCtxJsonLaws.
Proof. intros c. apply of_to_text. Qed.

(** The two halves of a swap slate. *)
#[export] Instance swap_type_codec : Codec SwapType.
Proof.
  refine (iso_codec (B := bool) (fun t => match t with OFFERED => true | REQUESTED => false end)
            (fun b => if b then OFFERED else REQUESTED) _). by intros [].
Defined.
Definition status_num (s : SwapStatus) : Z :=
  match s with INITIALIZED => 0 | SETUP => 1 | EXECUTING => 2 | FINISHED => 3 | FAILED => 4 end.
Definition num_status (n : Z) : SwapStatus :=
  match n with 0 => INITIALIZED | 1 => SETUP | 2 => EXECUTING | 3 => FINISHED | _ => FAILED end.
#[export] Instance status_codec : Codec SwapStatus.
Proof. refine (iso_codec (B := Z) status_num num_status _). by intros []. Defined.
#[export] Instance mw_pub_codec : Codec MWPub.
Proof.
  refine (iso_codec (B := (Z * Z) * (option Z * SwapType))
    (fun m => ((mwp_amount m, mwp_timelock m), (mwp_lock_time m, mwp_swap_type m)))
    (fun x => mkMWPub x.1.1 x.1.2 x.2.1 x.2.2) _). by intros [].
Defined.
#[export] Instance btc_pub_codec : Codec BTCPub.
Proof.
  refine (iso_codec
    (B := (Z * Z) * (SwapType * (option Z * (option string * (option string * option string)))))
    (fun b => ((bp_amount b, bp_timelock b),
               (bp_swap_type b, (bp_lock_time b, (bp_pub_a b, (bp_pub_b b, bp_pub_x b))))))
    (fun x => mkBTCPub x.1.1 x.1.2 x.2.1 x.2.2.1 x.2.2.2.1 x.2.2.2.2.1 x.2.2.2.2.2) _). by intros [].
Defined.
#[export] Instance meta_codec : Codec Meta.
Proof.
  refine (iso_codec (B := string * string) (fun m => (meta_server m, meta_port m))
            (fun x => mkMeta x.1 x.2) _). by intros [].
Defined.
#[export] Instance pub_codec : Codec SwapSlatePub.
Proof.
  refine (iso_codec (B := (SwapStatus * MWPub) * (BTCPub * Meta))
    (fun p => ((pub_status p, pub_mw p), (pub_btc p, pub_meta p)))
    (fun x => mkSwapSlatePub x.1.1 x.1.2 x.2.1 x.2.2) _). by intros [].
Defined.
#[export] Instance coin_codec : Codec MWCoin.
Proof.
  refine (iso_codec (B := string * (string * Z))
    (fun c => (coin_commitment c, (coin_blinding_factor c, coin_value c)))
    (fun x => mkMWCoin x.1 x.2.1 x.2.2) _). by intros [].
Defined.
#[export] Instance btc_input_codec : Codec BTCInput.
Proof.
  refine (iso_codec (B := (string * (Z * Z)) * (string * (string * string)))
    (fun i => ((bi_txid i, (bi_vout i, bi_value i)), (bi_secret i, (bi_pub_key i, bi_pub_script i))))
    (fun x => mkBTCInput x.1.1 x.1.2.1 x.1.2.2 x.2.1 x.2.2.1 x.2.2.2) _). by intros [].
Defined.
#[export] Instance sum_codec {A B} `{Codec A, Codec B} : Codec (A + B).
Proof.
  refine {| put s r := match s with inl a => put true (put a r) | inr b => put false (put b r) end;
            get s := '(c, r) ← get s;
                     if c : bool then '(a, r) ← get r; Some (inl a, r)
                     else '(b, r) ← get r; Some (inr b, r) |}.
  intros [a|b] r; rewrite get_put; cbn; by rewrite get_put.
Defined.
#[export] Instance toy_tx_codec : Codec toy_tx.
Proof.
  refine (iso_codec (B := (toy_inputs * list toy_output) * (list toy_kernel * Z))
    (fun t => ((tt_in t, tt_out t), (tt_ker t, tt_off t)))
    (fun x => mkToyTx x.1.1 x.1.2 x.2.1 x.2.2) _). by intros [].
Defined.
#[export] Instance mw_prv_codec : Codec MWPriv.
Proof.
  refine (iso_codec (B := (list MWCoin * Z) *
      (option MWCoin * (option MWCoin * (option MWCoin * (option MWCoin * option toy_tx)))))
    (fun m => ((mws_inputs m, mws_partial_key m), (mws_shared_coin m, (mws_change_coin m,
       (mws_refund_coin m, (mws_swapped_coin m, mws_refund_tx m))))))
    (fun x => mkMWPriv x.1.1 x.1.2 x.2.1 x.2.2.1 x.2.2.2.1 x.2.2.2.2.1 x.2.2.2.2.2) _). by intros [].
Defined.
#[export] Instance btc_prv_codec : Codec BTCPriv.
Proof.
  refine (iso_codec (B := (list BTCInput * Z) * ((option string * (option string * option string)) *
      (option BTCInput * (option BTCInput * (option BTCInput * option BTCInput)))))
    (fun b => ((bs_inputs b, bs_witness b), ((bs_sk b, (bs_x b, bs_r_sk b)),
       (bs_change b, (bs_swapped b, (bs_lock b, bs_refunded b))))))
    (fun x => mkBTCPriv x.1.1 x.1.2 x.2.1.1 x.2.1.2.1 x.2.1.2.2 x.2.2.1 x.2.2.2.1 x.2.2.2.2.1
       x.2.2.2.2.2) _). by intros [].
Defined.
#[export] Instance prv_codec : Codec SwapSlatePriv.
Proof.
  refine (iso_codec (B := MWPriv * BTCPriv) (fun p => (prv_mw p, prv_btc p))
            (fun x => mkSwapSlatePriv x.1 x.2) _). by intros [].
Defined.
#[export] Instance toy_swap_json : SwapSlateJson := {|
  pub_to_json p := to_text p; pub_of_json := of_text;
  prv_to_json p := to_text p; prv_of_json := of_text |}.
#[export] Instance toy_swap_json_laws : SwapSlateJsonLaws.
Proof. split; intros; apply of_to_text. Qed.
#[export] Instance toy_sha : Sha256 := fun s => s.

(** ** The nodes *)
#[export] Instance toy_rpc : JsonRpcJson := fun r => rpc_method r.
#[export] Instance toy_bitcoin_json : BitcoinCoreJson := {|
  parse_network_info _ := Ok (mkJsonRpcResponse None None "id");
  parse_unit_response _ := Ok (mkJsonRpcResponse None None "id");
  parse_list_unspent s :=
    n ← parse_u64 s;
    Ok (mkJsonRpcResponse (Some [mkUTXO "" 0 "" "" "" (f32_of_sats n) 1 true true true]) None "id");
  parse_block_count s := n ← parse_u64 s; Ok (mkBlockCountResponse n None "id");
  parse_send_raw_tx _ := Ok (mkJsonRpcResponse None None "id") |}.
#[export] Instance toy_grin_json : GrinCoreJson := {|
  parse_get_tip s :=
    n ← parse_u64 s; Ok (mkJsonRPCResponse "id" "2.0" (Some (mkGetTipResult (mkGetTipResultOk n "" "" 0))) None);
  parse_push_transaction _ := Ok (mkJsonRPCResponse "id" "2.0" None None) |}.

(** Nodes at the given heights, which report [balance] for every address. *)
Definition nodes (btc_height grin_height balance : Z) (l : list Event) (r : WireRequest) : WireReply :=
  WireText 200
    (if bool_decide (wire_body r = "getblockcount") then fmt_u64 btc_height
     else if bool_decide (wire_body r = "get_tip") then fmt_u64 grin_height
     else if bool_decide (wire_body r = "listunspent") then fmt_u64 balance
     else "").

Definition toy_world (seed btc_height grin_height balance : Z) : World :=
  MkWorld (MkTape (fun n => seed + Z.of_nat n) 0) [] [] (fun _ => true)
    (nodes btc_height grin_height balance) [].

Definition toy_btc : BitcoinCore :=
  mkBitcoinCore (mkBtcNodeSettings "btc" "user" "pass" 18332 "id") (RequestFactory_new None).
Definition toy_grin : GrinCore :=
  mkGrinCore 0 (mkGrinNodeSettings "grin" "user" "pass" 13413 "id") (RequestFactory_new None).
Definition toy_settings : Settings :=
  mkSettings (bcore_settings toy_btc) (gcore_settings toy_grin) "127.0.0.1" "8080" "slates".
#[export] Instance toy_settings_json : SettingsJson := fun _ => Ok toy_settings.
#[export] Instance toy_clients : MaxClients := 4%nat.
#[export] Instance toy_profile : BuildProfile := true.

(** A swap of 1000 nanogrin for 50000 satoshis, as both sides have it after their
    imports: Alice owns the Grin. *)
Definition toy_pub : SwapSlatePub :=
  mkSwapSlatePub INITIALIZED (mkMWPub 1000 120 None OFFERED)
    (mkBTCPub 50000 12 REQUESTED None None None None) (mkMeta "127.0.0.1" "8080").
Definition toy_coin : MWCoin := MWCoin_new (2000, 77) 77 2000.
Definition toy_input_key : BPrivateKey := mkPrivateKey true Testnet 99.
Definition toy_btc_input : BTCInput :=
  BTCInput_new2 "funds" 0 60000 toy_input_key (bpk_from_private_key toy_input_key)
    (new_p2pkh_of (bpk_from_private_key toy_input_key)).
Definition toy_alice : SwapSlate := push_mw_input toy_coin (mkSwapSlate 7 toy_pub empty_priv).
Definition toy_bob : SwapSlate := push_btc_input toy_btc_input (mkSwapSlate 7 toy_pub empty_priv).

(** A conversation that succeeded, and what its sides returned. *)
Definition both_ok {A B} (r : (Outcome (Res A * SwapSlate) * World) * (Outcome (Res B * SwapSlate) * World)) :
    bool :=
  match r with
  | ((Done (Ok _, _), _), (Done (Ok _, _), _)) => true
  | _ => false
  end.
Lemma both_ok_spec (r : (Outcome (Res unit * SwapSlate) * World) * (Outcome (Res unit * SwapSlate) * World)) :
  both_ok r = true ->
  exists sa wa sb wb, r = (done_ok tt sa wa, done_ok tt sb wb).
Proof.
  destruct r as [[[[[[]|e1|e1] sa]| | |] wa] [[[[[]|e2|e2] sb]| | |] wb]]; try done. intros _. by eexists _, _, _, _.
Defined.
