(* ===== verification/ToyWallet.v ===== *)
(** * The world of [Toy], with a wallet in it

    Instances of the wallet's interfaces and of their laws: an identifier is one
    character, a keychain is its root key, masking is exclusive or.  Base 32 is the
    real one. *)
From S2P Require Import Prelude.
From S2P Require Import RustStd.
From S2P Require Import Crates.
From S2P Require Import Effects.
From S2P Require Import Slate.
From S2P Require Import SlateV4.
From S2P Require Import SlateBin.
From S2P Require Import StateM.
From S2P Require Import Wallet.
From S2P Require Import Address.
From S2P Require Import Selection.
From S2P Require Import Updater.
From S2P Require Import WalletTx.
From S2P Require Import Scan.
From S2P Require Import Owner.
From S2P Require Import Api.
From S2P Require Import SlateDisk.
From S2P Require Import Toy.
From Stdlib Require Import Ascii.

(** ** Identifiers, paths and keys of the data base *)
Definition toy_id_bytes (i : ascii) : string := String i (zeros 16).
Definition toy_id_path (i : ascii) : ExtKeychainPath := mkPath 2 [Z.of_N (N_of_ascii i); 0; 0; 0].
Definition toy_path_id (p : ExtKeychainPath) : ascii :=
  ascii_of_N (Z.to_N (if kp_depth p =? 2 then nth 0 (kp_path p) 0 else 100 + nth 2 (kp_path p) 0)).

Lemma append_inj_same_length (a b c d : string) :
  String.length b = String.length d -> a +:+ b = c +:+ d -> a = c /\ b = d.
Proof.
  intros Hl. revert c. induction a as [|x a IH]; intros [|y c] E.
  - by split.
  - apply (f_equal String.length) in E. rewrite !length_append in E. cbn in E. lia.
  - apply (f_equal String.length) in E. rewrite !length_append in E. cbn in E. lia.
  - rewrite !append_cons in E. injection E as -> E. by destruct (IH c E) as [-> ->].
Qed.
Lemma be_bytes_inj n n' : in_u64 n -> in_u64 n' -> be_bytes 8 n = be_bytes 8 n' -> n = n'.
Proof.
  intros Hn Hn' E. pose proof (be_value_bytes 8 n 0 Hn) as V. rewrite E, (be_value_bytes 8 n' 0 Hn') in V. lia.
Qed.

#[export] Instance toy_wallet : WalletCrates.
Proof.
  refine {|
    id_to_bytes := toy_id_bytes; id_to_path := toy_id_path; id_from_path := toy_path_id;
    id_to_string i := String i "";
    last_path_index p := nth (Z.to_nat (kp_depth p) - 1) (kp_path p) 0;
    uuid_to_string u := if u : bool then "1" else "0";
    Keychain := Z;
    kc_root_key k := Ok k;
    kc_mask_master_key m k := Ok (Z.lxor m k);
    kc_commit k v i := Ok (v, k + Z.of_N (N_of_ascii i));
    kc_address_key k i := Ok (k + Z.of_N (N_of_ascii i));
    blake2b s := s;
    sk_xor k m := Z.lxor k (toy_read m);
    sk_eqb := Z.eqb;
    sk_new_test n := n;
    create_secnonce n := Ok (Z.abs n + 1);
    to_key p k := p +:+ k;
    to_key_u64 p k n := p +:+ k +:+ be_bytes 8 n;
    batch_iter_sees_writes := true; disk_answer := fun _ _ => FileWritten;
    build_input v _ := (false, v); build_coinbase_input v _ := (false, v); build_output v _ := (true, v);
    fee_try_from n := Some n;
    fee_as_opt f := nonzero f;
    tx_ser_vec t := Ok (to_text (t : toy_tx));
    tx_deserialize s := of_text (A := toy_tx) s;
    secp_commit_value v := Ok (v, 0) |}; apply _.
Defined.

#[export] Instance toy_wallet_laws : WalletLaws.
Proof.
  split.
  - intros i j E. by injection E.
  - done.
  - intros u. apply (f_equal S), (zeros_length 15).
  - intros p k k' E. by apply append_inj_l in E.
  - intros p k n k' n' Hn Hn' E. apply append_inj_l, append_inj_same_length in E as [-> E].
    + by apply be_bytes_inj in E as ->.
    + by rewrite !be_bytes_length.
  - intros p k k'. change (String.length (p +:+ k) + String.length k' = String.length (p +:+ k') + String.length k)%nat.
    rewrite !length_append. lia.
  - intros p k n. change (String.length (p +:+ k +:+ be_bytes 8 n) = String.length (p +:+ k) + 8)%nat.
    rewrite (length_append p), (length_append k), (length_append p k), be_bytes_length. lia.
  - intros k m. change (Z.lxor (Z.lxor k (toy_read m)) (toy_read m) = k).
    by rewrite Z.lxor_assoc, Z.lxor_nilpotent, Z.lxor_0_r.
  - apply Z.eqb_eq.
Qed.

(** ** Base 32 *)
Definition bits5 : Type := bool * bool * bool * bool * bool.
Definition bit (b : bool) (n : nat) : nat := if b then n else O.
Definition num5 (x : bits5) : nat :=
  let '(a, b, c, d, e) := x in (bit a 16 + bit b 8 + bit c 4 + bit d 2 + bit e 1)%nat.
Definition digit (x : bits5) : ascii :=
  ascii_of_nat (if (num5 x <? 26)%nat then 65 + num5 x else 24 + num5 x)%nat.
Definition undigit (c : ascii) : bits5 :=
  let k := nat_of_ascii c in
  let n := (if k <? 65 then k - 24 else k - 65)%nat in
  (Nat.testbit n 4, Nat.testbit n 3, Nat.testbit n 2, Nat.testbit n 1, Nat.testbit n 0).
Lemma undigit_digit x : undigit (digit x) = x.
Proof. by destruct x as [[[[[] []] []] []] []]. Qed.
Lemma digit_char x : base32_char (digit x) = true.
Proof. by destruct x as [[[[[] []] []] []] []]. Qed.

(** Eight digits for five characters. *)
Fixpoint toy_base32 (s : string) : string :=
  match s with
  | String (Ascii a0 a1 a2 a3 a4 a5 a6 a7) (String (Ascii b0 b1 b2 b3 b4 b5 b6 b7)
      (String (Ascii c0 c1 c2 c3 c4 c5 c6 c7) (String (Ascii d0 d1 d2 d3 d4 d5 d6 d7)
      (String (Ascii e0 e1 e2 e3 e4 e5 e6 e7) r)))) =>
      String (digit (a7, a6, a5, a4, a3)) (String (digit (a2, a1, a0, b7, b6))
      (String (digit (b5, b4, b3, b2, b1)) (String (digit (b0, c7, c6, c5, c4))
      (String (digit (c3, c2, c1, c0, d7)) (String (digit (d6, d5, d4, d3, d2))
      (String (digit (d1, d0, e7, e6, e5)) (String (digit (e4, e3, e2, e1, e0)) (toy_base32 r))))))))
  | _ => EmptyString
  end.
Definition five_chars (x1 x2 x3 x4 x5 x6 x7 x8 : bits5) (r : string) : string :=
  let '(a7, a6, a5, a4, a3) := x1 in let '(a2, a1, a0, b7, b6) := x2 in
  let '(b5, b4, b3, b2, b1) := x3 in let '(b0, c7, c6, c5, c4) := x4 in
  let '(c3, c2, c1, c0, d7) := x5 in let '(d6, d5, d4, d3, d2) := x6 in
  let '(d1, d0, e7, e6, e5) := x7 in let '(e4, e3, e2, e1, e0) := x8 in
  String (Ascii a0 a1 a2 a3 a4 a5 a6 a7) (String (Ascii b0 b1 b2 b3 b4 b5 b6 b7)
    (String (Ascii c0 c1 c2 c3 c4 c5 c6 c7) (String (Ascii d0 d1 d2 d3 d4 d5 d6 d7)
    (String (Ascii e0 e1 e2 e3 e4 e5 e6 e7) r)))).
Fixpoint toy_unbase32 (s : string) : string :=
  match s with
  | String x1 (String x2 (String x3 (String x4 (String x5 (String x6 (String x7 (String x8 r))))))) =>
      five_chars (undigit x1) (undigit x2) (undigit x3) (undigit x4) (undigit x5) (undigit x6) (undigit x7)
        (undigit x8) (toy_unbase32 r)
  | _ => EmptyString
  end.

Lemma base32_groups n s :
  String.length s = (5 * n)%nat ->
  toy_unbase32 (toy_base32 s) = s /\ String.length (toy_base32 s) = (8 * n)%nat
  /\ all_chars base32_char (toy_base32 s) = true.
Proof.
  revert s. induction n as [|n IH]; intros s Hs; [by destruct s|].
  destruct s as [|[] [|[] [|[] [|[] [|[] r]]]]]; cbn [String.length] in Hs; try lia.
  destruct (IH r) as (E & L & A); [lia|]. cbn [toy_base32 toy_unbase32 String.length all_chars].
  rewrite !undigit_digit, !digit_char, E, L, A. split_and!; [done|lia|done].
Qed.

#[export] Instance toy_address : AddressCrates := {|
  DalekSecretKey := unit;
  dalek_sk_from_bytes _ := Some tt;
  dalek_public _ := tt;
  sha3_256 _ := zeros 32;
  base32_encode := toy_base32;
  base32_decode s := Some (toy_unbase32 s);
  bech32_encode p b := if utf8_valid (to_text (p, b)) then Ok (to_text (p, b)) else Err "Bech32";
  bech32_decode s := of_text s;
  is_mainnet := true |}.
#[export] Instance toy_address_laws : AddressLaws.
Proof.
  split.
  - intros s. apply (zeros_length 32).
  - intros s Hs. apply (f_equal Some). by apply (base32_groups 7).
  - intros s Hs. by apply (base32_groups 7).
  - intros s Hs. by apply (base32_groups 7).
  - intros p b s E. unfold bech32_encode, toy_address in E. destruct (utf8_valid (to_text (p, b))); [|discriminate E]. assert (s = to_text (p, b)) as -> by congruence.
    apply (of_to_text (p, b)).
  - intros p b s E. unfold bech32_encode, toy_address in E. destruct (utf8_valid (to_text (p, b))) eqn:Hu; [|discriminate E]. assert (s = to_text (p, b)) as -> by congruence.
    unfold from_utf8. by rewrite Hu.
Qed.

(** ** Hexadecimal, in small letters *)
Definition hex_digit (n : nat) : ascii := ascii_of_nat (if (n <? 10)%nat then 48 + n else 87 + n)%nat.
Definition hex_value (c : ascii) : option nat :=
  let k := nat_of_ascii c in
  if ((48 <=? k) && (k <=? 57))%nat then Some (k - 48)%nat
  else if ((97 <=? k) && (k <=? 102))%nat then Some (k - 87)%nat else None.
Fixpoint hex_of (s : string) : string :=
  match s with
  | EmptyString => EmptyString
  | String c r => String (hex_digit (nat_of_ascii c / 16)) (String (hex_digit (nat_of_ascii c mod 16)) (hex_of r))
  end.
Fixpoint of_hex (s : string) : option string :=
  match s with
  | EmptyString => Some EmptyString
  | String x (String y r) =>
      a ← hex_value x; b ← hex_value y; r ← of_hex r; Some (String (ascii_of_nat (16 * a + b)) r)
  | String _ EmptyString => None
  end.
Definition real_hex : HexCrate := {| hex_encode := hex_of; hex_decode := of_hex |}.

(** ** Node and signatures *)
#[export] Instance toy_node : NodeClient := {|
  nc_get_chain_tip _ := Ok (1000, "");
  nc_get_outputs_from_node _ l := Ok ((fun c => (c, ("", 950, 1))) <$> l);
  nc_get_kernel _ c _ _ := Ok (Some (mkKernel KCoinbase c (0, 0), 990, 7));
  nc_post_tx _ _ _ := Ok tt;
  nc_valid_header_version _ v := v =? 3;
  coinbase_maturity := 1440;
  block_reward fees := 60 + fees;
  reward_output _ fees _ := Ok (mkOutput OFCoinbase (60 + fees, 1) (60 + fees, 1), mkKernel KCoinbase (0, 1) (0, 0)) |}.
#[export] Instance toy_dalek : DalekCrates.
Proof. refine {| dalek_sign _ _ := tt; dalek_verify _ _ _ := true |}; apply _. Defined.
#[export] Instance toy_dalek_laws : DalekLaws.
Proof. done. Qed.

(** ** Scanning: a commitment opens when its key is that of a character *)
Definition toy_rewind (k : Z) (c : Z * Z) : option (Z * ascii) :=
  let i := c.2 - k in if (0 <=? i) && (i <? 256) then Some (c.1, ascii_of_N (Z.to_N i)) else None.
#[export] Instance toy_scan : ScanCrates := {|
  nc_get_outputs_by_pmmr_index _ _ _ _ :=
    Ok (9, 9, [((300, 104), (1, 1), false, 30, 7); ((70, 106), (1, 1), false, 60, 8); ((1, 5000), (1, 1), false, 70, 9)]);
  nc_height_range_to_pmmr_indices _ _ _ := Ok (1, 9);
  WEEK_HEIGHT := 10080;
  rewind_legacy _ _ _ := Ok None;
  rewind k c _ := Ok (toy_rewind k c);
  parent_path _ := "P"%char;
  hash_order _ l := l |}.
#[export] Instance toy_scan_laws : ScanLaws.
Proof. by intros n l. Qed.
#[export] Instance toy_owner : OwnerCrates.
Proof. refine {| tx_aggregate_fee_fields t _ := Ok (tx_fee_at t 0) |}. Defined.
