(* ===== verification/Witnesses.v ===== *)
(** * The theorems at work

    For each property with hypotheses, an input where they hold: the programs run in
    the world of [Toy], and the theorem is applied to what they return. *)
From S2P Require Import Prelude.
From S2P Require Import RustStd.
From S2P Require Import Crates.
From S2P Require Import SwapTypes.
From S2P Require Import Effects.
From S2P Require Import Tcp.
From S2P Require Import Http.
From S2P Require Import Float32.
From S2P Require Import BitcoinCore.
From S2P Require Import BtcRoutines.
From S2P Require Import BtcScript.
From S2P Require Import Slate.
From S2P Require Import SlateV4.
From S2P Require Import SlateBin.
From S2P Require Import GrinRoutines.
From S2P Require Import GrinCore.
From S2P Require Import GrinTx.
From S2P Require Import Protocol.
From S2P Require Import SlateDisk.
From S2P Require Import Commands.
From S2P Require Import Main.
From S2P Require Import Swap.
From S2P Require Import Toy.

Definition slate_of (d : SwapSlate) (r : Outcome (Res unit * SwapSlate) * World) : SwapSlate :=
  match r with (Done (_, s), _) => s | _ => d end.

Lemma both_ok_run d (r : (Outcome (Res unit * SwapSlate) * World) * (Outcome (Res unit * SwapSlate) * World)) :
  both_ok r = true ->
  r = (done_ok tt (slate_of d r.1) r.1.2, done_ok tt (slate_of d r.2) r.2.2).
Proof. intros E. by destruct (both_ok_spec r E) as (sa & wa & sb & wb & ->). Defined.

Definition is_done_ok (r : Outcome (Res unit * SwapSlate) * World) : bool :=
  match r with (Done (Ok _, _), _) => true | _ => false end.
Lemma done_ok_run d (r : Outcome (Res unit * SwapSlate) * World) :
  is_done_ok r = true -> r = done_ok tt (slate_of d r) r.2.
Proof. by destruct r as [[[[[]|e|e] s]| | |] w]. Defined.

(** ** A swap from its setup to its end, or to its refund *)
Definition setup_run :=
  duet (locking_phase_swap_mw toy_grin toy_btc toy_alice) (locking_phase_swap_btc toy_grin toy_btc toy_bob)
    (toy_world 10 100 1000 50000) (toy_world 500 100 1000 50000).
Definition alice1 : SwapSlate := slate_of toy_alice setup_run.1.
Definition bob1 : SwapSlate := slate_of toy_alice setup_run.2.
Definition exec_run :=
  duet (exec_phase_swap_mw toy_grin toy_btc alice1) (exec_phase_swap_btc toy_grin toy_btc bob1)
    (toy_world 1000 100 1000 50000) (toy_world 2000 100 1000 50000).
Definition refund_run :=
  finish (refund_phase_swap_btc toy_grin toy_btc bob1) (toy_world 3000 200 2000 50000).

Definition world_a1 : World := setup_run.1.2.
Definition world_b1 : World := setup_run.2.2.
Definition alice2 : SwapSlate := slate_of alice1 exec_run.1.
Definition bob2 : SwapSlate := slate_of alice1 exec_run.2.
Definition world_a2 : World := exec_run.1.2.
Definition world_b2 : World := exec_run.2.2.

(** The names of the runs are to be unfolded before the runs are computed. *)
#[local] Strategy -100 [setup_run exec_run refund_run alice1 bob1 alice2 bob2
  world_a1 world_b1 world_a2 world_b2].

Lemma setup_run_eq : setup_run
  = (done_ok tt alice1 world_a1, done_ok tt bob1 world_b1).
Proof. exact (both_ok_run toy_alice setup_run ltac:(vm_compute; reflexivity)). Qed.
Lemma exec_run_eq : exec_run
  = (done_ok tt alice2 world_a2, done_ok tt bob2 world_b2).
Proof. exact (both_ok_run alice1 exec_run ltac:(vm_compute; reflexivity)). Qed.
Lemma refund_run_eq : refund_run = done_ok tt (slate_of bob1 refund_run) refund_run.2.
Proof. exact (done_ok_run bob1 refund_run ltac:(vm_compute; reflexivity)). Qed.

Lemma setup_agrees_witness :
  sw_pub toy_alice = sw_pub toy_bob /\ both_ok setup_run = true
  /\ exists sk_a sk_b x lock_btc lock_grin ltx com,
       set_up toy_pub sk_a sk_b x lock_btc lock_grin (txid_to_string (btx_txid ltx)) alice1 bob1
       /\ lock_published toy_btc toy_pub (bs_inputs (prv_btc_of toy_bob))
            (lock_script_ops (bpk_from_private_key sk_a) (bpk_from_private_key x)
               (bpk_from_private_key sk_b) lock_btc) ltx (toy_world 500 100 1000 50000) world_b1
       /\ coin_of_both (mwp_amount (pub_mw_of toy_alice)) com alice1 bob1.
Proof.
  split; [reflexivity|]. split; [vm_compute; reflexivity|].
  exact (setup_agrees toy_grin toy_btc toy_btc toy_grin toy_alice toy_bob
    (toy_world 10 100 1000 50000) (toy_world 500 100 1000 50000) alice1 world_a1 bob1 world_b1 eq_refl setup_run_eq).
Defined.

Lemma swap_completes_witness :
  both_ok setup_run = true /\ both_ok exec_run = true
  /\ exists sk_a x ltx ops sk coin,
       claims toy_btc (toy_world 1000 100 1000 50000) world_a2 (mkOutPoint (btx_txid ltx) 0) ops
         (both_keys_sign sk_a x ops) 0 sk coin
       /\ bs_swapped (prv_btc_of alice2) = Some coin
       /\ pub_status (sw_pub alice2) = FINISHED.
Proof.
  split; [vm_compute; reflexivity|]. split; [vm_compute; reflexivity|].
  destruct (swap_completes toy_grin toy_btc toy_btc toy_grin toy_alice toy_bob
    (toy_world 10 100 1000 50000) (toy_world 500 100 1000 50000) alice1 world_a1 bob1 world_b1
    toy_grin toy_btc toy_btc toy_grin
    (toy_world 1000 100 1000 50000) (toy_world 2000 100 1000 50000) alice2 world_a2 bob2 world_b2 eq_refl setup_run_eq exec_run_eq)
    as (sk_a & sk_b & x & t & tg & ltx & sk & coin & _ & _ & Hc & _ & Hs & Hf & _).
  eexists sk_a, x, ltx, _, sk, coin. split; [exact Hc|]. split; [exact Hs|exact Hf].
Defined.

Lemma refund_returns_coins_witness :
  is_done_ok refund_run = true
  /\ exists sk_b ltx ops sk coin,
       claims toy_btc (toy_world 3000 200 2000 50000) refund_run.2 (mkOutPoint (btx_txid ltx) 0) ops
         (refund_key_signs sk_b ops) 112 sk coin
       /\ bs_refunded (prv_btc_of (slate_of bob1 refund_run)) = Some coin.
Proof.
  split; [vm_compute; reflexivity|].
  assert (Et : bp_lock_time (pub_btc_of bob1) = Some 112) by (vm_compute; reflexivity).
  assert (Hlt : 0 < 112 < lock_height_threshold) by (unfold lock_height_threshold; lia).
  destruct (refund_returns_coins toy_grin toy_btc toy_btc toy_grin toy_alice toy_bob
    (toy_world 10 100 1000 50000) (toy_world 500 100 1000 50000) alice1 world_a1 bob1 world_b1
    toy_grin toy_btc (toy_world 3000 200 2000 50000) (slate_of bob1 refund_run) refund_run.2 112 eq_refl setup_run_eq Et Hlt refund_run_eq)
    as (sk_a & sk_b & x & tg & ltx & sk & coin & _ & _ & Hc & Er & _).
  eexists sk_b, ltx, _, sk, coin. split; [exact Hc|exact Er].
Defined.

Lemma setup_prepares_refund_witness :
  both_ok setup_run = true
  /\ exists com tx lock_grin, coin_of_both (mwp_amount (pub_mw_of toy_alice)) com alice1 bob1
       /\ mws_refund_tx (prv_mw_of alice1) = Some tx
       /\ inputs_commits (tx_inputs tx) = [com] /\ locked_until lock_grin tx.
Proof.
  split; [vm_compute; reflexivity|].
  destruct (setup_prepares_refund toy_grin toy_btc toy_btc toy_grin toy_alice toy_bob
    (toy_world 10 100 1000 50000) (toy_world 500 100 1000 50000) alice1 world_a1 bob1 world_b1
    eq_refl setup_run_eq) as (com & tx & lg & Hc & _ & _ & Er & Hi & Hl & _).
  exists com, tx, lg. split; [exact Hc|]. split; [exact Er|]. split; [exact Hi|exact Hl].
Defined.

(** ** The Grin protocols *)
Definition p_ok {A B} (r : (Outcome (Res A) * World) * (Outcome (Res B) * World)) : bool :=
  match r with ((Done (Ok _), _), (Done (Ok _), _)) => true | _ => false end.
Lemma p_ok_run {A B} (r : (Outcome (Res A) * World) * (Outcome (Res B) * World)) :
  p_ok r = true -> exists a wa b wb, r = ((Done (Ok a), wa), (Done (Ok b), wb)).
Proof.
  destruct r as [[[[a|e1|e1]| | |] wa] [[[b|e2|e2]| | |] wb]]; try done. intros _. by eexists _, _, _, _.
Defined.

Definition share (s : SwapSlate) : MWCoin := default toy_coin (mws_shared_coin (prv_mw_of s)).
Definition world_c : World := toy_world 1000 100 1000 50000.
Definition world_d : World := toy_world 2000 100 1000 50000.

Lemma shared_output_agrees_witness :
  exists ra rb, p_ok (duet (dshared_out_mw_tx_alice [toy_coin] 1000 0) (dshared_out_mw_tx_bob 1000)
                        world_c world_d) = true
    /\ coin_commitment (ds_shared_coin ra) = coin_commitment (ds_shared_coin rb)
    /\ coin_value (ds_shared_coin ra) = 1000.
Proof.
  assert (Ek : p_ok (duet (dshared_out_mw_tx_alice [toy_coin] 1000 0) (dshared_out_mw_tx_bob 1000)
                        world_c world_d) = true) by (vm_compute; reflexivity).
  destruct (p_ok_run _ Ek) as (ra & wa & rb & wb & E).
  exists ra, rb. split; [exact Ek|].
  destruct (shared_output_agrees [toy_coin] 1000 0 1000 world_c world_d ra wa rb wb E)
    as (ka & kb & ca & cb & com & _ & _ & _ & Ea & Eb).
  rewrite Ea, Eb. split; reflexivity.
Defined.

Lemma shared_input_locked_witness :
  exists rb tx k fee, sl_tx (db_tx rb) = Some tx /\ tx_kernels tx = [k]
    /\ kern_features k = KHeightLocked fee 1120.
Proof.
  assert (Ek : p_ok (duet (dshared_inp_mw_tx_alice (share bob1) 994 1120)
                       (dshared_inp_mw_tx_bob (share alice1) 994 1120) world_c world_d) = true)
    by (vm_compute; reflexivity).
  destruct (p_ok_run _ Ek) as (ra & wa & rb & wb & E).
  destruct (shared_input_locked (share bob1) (share alice1) 994 1120 994 1120 world_c world_d ra wa rb wb E)
    as (_ & tx & k & fee & Et & Ek' & _ & Ef).
  exists rb, tx, k, fee. split; [exact Et|]. split; [exact Ek'|exact Ef].
Defined.

Lemma contract_reveals_witness_witness :
  exists ra, p_ok (duet (dcontract_mw_tx_alice (share alice1) 994 0 42)
                     (dcontract_mw_tx_bob (share bob1) 994 0 42) world_c world_d) = true
    /\ cm_x ra = 42.
Proof.
  assert (Ek : p_ok (duet (dcontract_mw_tx_alice (share alice1) 994 0 42)
                       (dcontract_mw_tx_bob (share bob1) 994 0 42) world_c world_d) = true)
    by (vm_compute; reflexivity).
  destruct (p_ok_run _ Ek) as (ra & wa & rb & wb & E).
  exists ra. split; [exact Ek|].
  exact (proj1 (contract_reveals_witness (share alice1) (share bob1) 994 0 994 0 42 42 world_c world_d
    ra wa rb wb E)).
Defined.

(** ** Slates and coins *)
Definition res_ok {A} (r : Res A) : bool := match r with Ok _ => true | _ => false end.
Definition res_get {A} (d : A) (r : Res A) : A := match r with Ok a => a | _ => d end.
Lemma res_ok_get {A} (d : A) (r : Res A) : res_ok r = true -> r = Ok (res_get d r).
Proof. by destruct r. Defined.
Lemma tape_ok_get {A} (d : A) (r : Res A * Tape) : res_ok r.1 = true -> r = (Ok (res_get d r.1), r.2).
Proof. by destruct r as [[] t]. Defined.

Definition tape0 : Tape := MkTape (fun n => 1000 + Z.of_nat n) 0.
Definition empty_slate : Slate :=
  mkSlate (mkVersionCompatInfo 0 0) 2 false Standard1 None 0 0 0 0 0 [] None None.
Definition spent : Res SpendCoinsResult * Tape := spend_coins [toy_coin] 1000 1120 2 2 tape0.
Definition spent_result : SpendCoinsResult := res_get (mkSpendCoinsResult empty_slate 0 0 None) spent.1.
Definition slate1 : Slate := sc_slate spent_result.
#[local] Strategy -100 [spent spent_result slate1].

Lemma spend_coins_conserves_witness :
  res_ok spent.1 = true /\ spend_result [toy_coin] 1000 1120 (toy_fee 1 2 1) 2 spent_result.
Proof.
  assert (Ek : res_ok spent.1 = true) by (vm_compute; reflexivity).
  split; [exact Ek|].
  refine (proj1 (proj2 (proj2 (proj2 (spend_coins_conserves [toy_coin] 1000 1120 2 2 tape0 spent_result
    spent.2 _ _ _ _ (tape_ok_get _ spent Ek)))))).
  - split; [constructor; [vm_compute; split; congruence|constructor]|]. vm_compute; repeat split; congruence.
  - vm_compute; repeat split; congruence.
  - vm_compute; repeat split; congruence.
  - vm_compute; repeat split; congruence.
Defined.

Lemma spend_coins_refuses_witness :
  (spend_coins [toy_coin; toy_coin] 1000 0 2 2 tape0).1
  = Err "Spend coins function failed, duplicate input coins provided".
Proof.
  refine (spend_coins_refuses [toy_coin; toy_coin] 1000 0 2 2 tape0
    "Spend coins function failed, duplicate input coins provided" _ _).
  - split; [repeat constructor; vm_compute; congruence|]. vm_compute; repeat split; congruence.
  - vm_compute; reflexivity.
Defined.

Definition received : Res RecvCoinsResult * Tape := recv_coins slate1 1000 tape0.
Definition slate2 : Slate := rc_slate (res_get (mkRecvCoinsResult empty_slate toy_coin) received.1).
Definition signed : Res Slate :=
  fill_round_2 slate2 (sc_sig_key spent_result) (sc_sig_nonce spent_result).
Definition slate3 : Slate := res_get empty_slate signed.
Definition finished : Res Slate := finalize slate3.
Definition slate4 : Slate := res_get empty_slate finished.
Definition context0 : Context_ :=
  mkContext Ascii.zero 42 43 42 43 [] [] 0 None None None None.
#[local] Strategy -100 [received slate2 signed slate3 finished slate4].

Lemma finalize_sound_witness : res_ok finished = true /\ finalised slate3 slate4.
Proof.
  assert (Ek : res_ok finished = true) by (vm_compute; reflexivity).
  split; [exact Ek|]. exact (proj1 (finalize_sound slate3 slate4) (res_ok_get empty_slate finished Ek)).
Defined.

Lemma msg_to_sign_kernel_witness :
  exists msg f, msg_to_sign slate2 = Ok msg /\ kernel_sig_msg f = Ok msg.
Proof.
  assert (Ek : res_ok (msg_to_sign slate2) = true) by (vm_compute; reflexivity).
  destruct (msg_to_sign_kernel slate2 _ (res_ok_get 0 (msg_to_sign slate2) Ek)) as (f & Ef & _).
  exists (res_get 0 (msg_to_sign slate2)), f. split; [apply res_ok_get, Ek|exact Ef].
Defined.

Lemma fill_round_2_frame_witness :
  res_ok signed = true /\ verify_part_sigs slate2 = Ok tt
  /\ length (sl_participant_data slate3) = 2%nat.
Proof.
  assert (Ek : res_ok signed = true) by (vm_compute; reflexivity).
  split; [exact Ek|].
  destruct (fill_round_2_frame slate2 _ _ slate3 (res_ok_get empty_slate signed Ek)) as (Hv & _ & Hl & _).
  split; [exact Hv|]. rewrite Hl. vm_compute. reflexivity.
Defined.

Lemma fill_round_1_once_witness :
  exists s', fill_round_1 slate1 context0 = Ok s'
    /\ exists k n sig others, sl_participant_data s' = others ++ [mkParticipantData k n sig].
Proof.
  assert (Ek : res_ok (fill_round_1 slate1 context0) = true) by (vm_compute; reflexivity).
  eexists. split; [exact (res_ok_get empty_slate _ Ek)|].
  destruct (fill_round_1_once slate1 context0 _ (res_ok_get empty_slate _ Ek)) as (k & n & sig & others & Ho & _).
  exists k, n, sig, others. exact Ho.
Defined.

(** A slate on its way to the peer. *)
Definition travelled : Res Slate * Tape := slate_of_v4 (v4_of_slate slate1) tape0.
Definition slate1' : Slate := res_get empty_slate travelled.1.
#[local] Strategy -100 [travelled slate1'].

Lemma slate_v4_roundtrip_witness :
  res_ok travelled.1 = true /\ set_sl_tx None slate1' = set_sl_tx None slate1.
Proof.
  assert (Ek : res_ok travelled.1 = true) by (vm_compute; reflexivity).
  split; [exact Ek|].
  exact (proj1 (slate_v4_roundtrip slate1 tape0 slate1' travelled.2 (tape_ok_get empty_slate travelled Ek))).
Defined.

Lemma height_lock_lost_on_the_wire_witness :
  res_ok travelled.1 = true
  /\ kernel_features slate1' = Ok (KHeightLocked (sl_fee_fields slate1) 1120).
Proof.
  assert (Ek : res_ok travelled.1 = true) by (vm_compute; reflexivity).
  split; [exact Ek|].
  refine (proj1 (proj2 (height_lock_lost_on_the_wire slate1 (mkKernelFeaturesArgs 1120) tape0 slate1' travelled.2
    _ _ _ (tape_ok_get empty_slate travelled Ek)))).
  - vm_compute. reflexivity.
  - vm_compute. reflexivity.
  - vm_compute. discriminate.
Defined.

(** The same slate in its binary form, and with a no-recent-duplicate kernel. *)
Definition written (s : Slate) : Res string := bin_serialize (v4_of_slate s).
Definition bytes_of (s : Slate) : string := res_get "" (written s).
Definition no_slate_v4 : SlateV4 := v4_of_slate empty_slate.
Definition read_back (s : Slate) : SlateV4 := res_get no_slate_v4 (bin_visit_bytes (bytes_of s)).
Definition nrd_slate : Slate :=
  mkSlate (sl_version_info slate1) (sl_num_participants slate1) (sl_id slate1) (sl_state slate1)
    (sl_tx slate1) (sl_amount slate1) (sl_fee_fields slate1) (sl_ttl_cutoff_height slate1) 3
    (sl_offset slate1) (sl_participant_data slate1) (sl_payment_proof slate1)
    (Some (mkKernelFeaturesArgs 1440)).
Definition nrd_back : Res Slate * Tape := slate_of_v4 (read_back nrd_slate) tape0.
#[local] Strategy -100 [bytes_of read_back nrd_slate nrd_back].

Lemma slate_bin_roundtrip_witness :
  res_ok (written slate1) = true /\ v4_ttl (read_back slate1) = sl_ttl_cutoff_height slate1.
Proof.
  assert (Ek : res_ok (written slate1) = true) by (vm_compute; reflexivity).
  split; [exact Ek|]. unfold read_back, bytes_of.
  assert (Hf : bin_fits (v4_of_slate slate1))
    by (split; vm_compute; repeat split; try discriminate; exact I).
  rewrite (proj2 (slate_bin_roundtrip (v4_of_slate slate1) _ "" Hf (res_ok_get "" (written slate1) Ek))).
  reflexivity.
Defined.

Lemma nrd_lock_lost_in_binary_witness :
  res_ok (msg_to_sign nrd_slate) = true
  /\ res_ok nrd_back.1 = true
  /\ msg_to_sign (res_get empty_slate nrd_back.1) = Err "KernelFeaturesMissing(lock_height)".
Proof.
  assert (Ew : res_ok (written nrd_slate) = true) by (vm_compute; reflexivity).
  assert (Er : res_ok (bin_visit_bytes (bytes_of nrd_slate)) = true) by (vm_compute; reflexivity).
  assert (Eb : res_ok nrd_back.1 = true) by (vm_compute; reflexivity).
  split; [vm_compute; reflexivity|]. split; [exact Eb|].
  refine (proj1 (nrd_lock_lost_in_binary nrd_slate (bytes_of nrd_slate) (read_back nrd_slate) tape0
    (res_get empty_slate nrd_back.1) nrd_back.2 _ (res_ok_get "" _ Ew) (res_ok_get no_slate_v4 _ Er)
    (tape_ok_get empty_slate nrd_back Eb)) _).
  - split; vm_compute; repeat split; try discriminate; exact I.
  - reflexivity.
Defined.

(** 257 participants: one of them is read back. *)
Definition crowd : list ParticipantDataV4 := repeat (mkParticipantDataV4 (3 : Z) (4 : Z) None) 257.
Definition crowd_bytes : Res string := sigs_write crowd.
Lemma sigs_cut_off_witness :
  res_ok crowd_bytes = true
  /\ exists rest, sigs_read (res_get "" crowd_bytes +:+ "") = Ok (take 1 crowd, rest +:+ "").
Proof.
  assert (Ek : res_ok crowd_bytes = true) by (vm_compute; reflexivity). split; [exact Ek|].
  destruct (sigs_cut_off crowd _ "" (res_ok_get "" crowd_bytes Ek)) as (rest & E & _).
  exists rest. exact E.
Defined.

(** ** Bitcoin transactions *)
(** Public keys 5 to 8. *)
Definition pk (k : Z) : BPublicKey := k.
Definition lock_built (fee : Z) : Res BTransaction :=
  create_lock_transaction (pk 5) (pk 6) (pk 7) (pk 8) [toy_btc_input] 50000 fee 112.
Definition no_btx : BTransaction := mkBTx 0 0 [] [].

Lemma lock_transaction_conserves_witness :
  (exists tx change, lock_built 100 = Ok tx /\ txout_value <$> btx_output tx = [50000; change]
     /\ btc_total [toy_btc_input] = 50000 + change + 100)
  /\ exists e, lock_built 10001 = Err e /\ btc_total [toy_btc_input] < 60001.
Proof.
  assert (H1 : res_ok (lock_built 100) = true) by (vm_compute; reflexivity).
  assert (H2 : lock_built 10001 = Err "Input coin amount is too little") by (vm_compute; reflexivity).
  pose proof (fun fee => lock_transaction_conserves (pk 5) (pk 6) (pk 7) (pk 8) [toy_btc_input] 50000 fee 112
    ltac:(repeat constructor; vm_compute; congruence) ltac:(vm_compute; split; congruence) ltac:(lia)) as H.
  split.
  - specialize (H 100 ltac:(lia) ltac:(vm_compute; split; congruence)). fold (lock_built 100) in H.
    rewrite (res_ok_get no_btx _ H1) in H. destruct H as (_ & change & Eo & Hc & _).
    exists (res_get no_btx (lock_built 100)), change. split; [exact (res_ok_get no_btx _ H1)|].
    rewrite Eo. split; [reflexivity|exact Hc].
  - specialize (H 10001 ltac:(lia) ltac:(vm_compute; split; congruence)). fold (lock_built 10001) in H.
    rewrite H2 in H. destruct H as [He Hlt]. eexists. split; [exact H2|exact Hlt].
Defined.

Definition lock_coin : BTCInput := mkBTCInput "tx0" 0 50000 "" "" "".
Lemma spend_lock_cases_witness :
  create_spend_lock_transaction (pk 5) lock_coin 50000 60000 112 = Panic "attempt to subtract with overflow".
Proof.
  rewrite (spend_lock_cases (pk 5) lock_coin 50000 60000 112 "tx0"); [vm_compute; reflexivity|reflexivity|..];
    vm_compute; split; congruence.
Defined.

(** The redeemer's transaction, and the stack its signature script leaves. *)
Definition redeeming : Res BTransaction := create_spend_lock_transaction (pk 5) lock_coin 50000 100 0.
Definition redeem_tx : BTransaction := res_get no_btx redeeming.
Definition redeem_inp : TxIn := default (mkTxIn (mkOutPoint "" 0) "" 0 []) (btx_input redeem_tx !! 0%nat).
Definition redeem_msg : string := toy_sighash redeem_tx 0 (toy_script (lock_script_ops (pk 5) (pk 6) (pk 7) 112)) SIGHASH_ALL.
Definition signature_by (k : Z) : string :=
  serialize_der (redeem_msg, k) +:+ byte_string SIGHASH_ALL.
Definition redeem_stack : list Item :=
  p2sh_stack [PushOpcode OP_PUSHBYTES_0; PushSlice (signature_by 5); PushSlice (signature_by 6);
              PushOpcode OP_PUSHBYTES_0; PushSlice (toy_script (lock_script_ops (pk 5) (pk 6) (pk 7) 112))].

Lemma final_transaction_never_refunds_witness :
  accepts (BtcScript.spend_ctx redeem_tx redeem_msg redeem_inp) (lock_script_ops (pk 5) (pk 6) (pk 7) 112) redeem_stack = true
  /\ swap_way (pk 5) (pk 6) (BtcScript.spend_ctx redeem_tx redeem_msg redeem_inp).
Proof.
  assert (Ea : accepts (BtcScript.spend_ctx redeem_tx redeem_msg redeem_inp) (lock_script_ops (pk 5) (pk 6) (pk 7) 112) redeem_stack = true)
    by (vm_compute; reflexivity).
  split; [exact Ea|].
  refine (final_transaction_never_refunds (pk 5) (pk 6) (pk 7) 112 (pk 5) lock_coin 50000 100 redeem_tx redeem_inp redeem_msg
    redeem_stack _ _ Ea).
  - vm_compute. reflexivity.
  - vm_compute. reflexivity.
Defined.

(** ** The guards of the protocol *)
Definition got {A} (r : Outcome (Res A) * World) : bool :=
  match r with (Done (Ok _), _) => true | _ => false end.
Definition got_value {A} (d : A) (r : Outcome (Res A) * World) : A :=
  match r with (Done (Ok a), _) => a | _ => d end.
Lemma got_ok {A} (d : A) (r : Outcome (Res A) * World) : got r = true -> r = (Done (Ok (got_value d r)), r.2).
Proof. by destruct r as [[[]| | |] w]. Defined.

Definition address_of (s : string) : Address := s.
Definition somewhere : Address := address_of "address".

Lemma verify_funds_sound_witness :
  exists r w', finish (verify_funds toy_btc somewhere 50000 3) world_c = (Done r, w')
    /\ slept (w_log w') <= slept (w_log world_c) + 60 * 3.
Proof.
  destruct (verify_funds_sound toy_btc somewhere 50000 3 world_c eq_refl) as (r & w' & E & Hs & _).
  exists r, w'. split; [exact E|exact Hs].
Defined.

(** Chains at heights 1000 and 100. *)
Definition tip_run := finish (get_block_height toy_grin) world_c.
Definition count_run := finish (get_current_block_height toy_btc) tip_run.2.
#[local] Strategy -100 [tip_run count_run].
Lemma heights_c : heights toy_grin toy_btc world_c (got_value 0 tip_run) (got_value 0 count_run) count_run.2.
Proof.
  exists tip_run.2. split.
  - exact (got_ok 0 tip_run ltac:(vm_compute; reflexivity)).
  - exact (got_ok 0 count_run ltac:(vm_compute; reflexivity)).
Defined.
Lemma tip_is : got_value 0 tip_run = 1000.
Proof. vm_compute. reflexivity. Defined.
Lemma count_is : got_value 0 count_run = 100.
Proof. vm_compute. reflexivity. Defined.

Lemma execution_and_refund_windows_witness :
  mwp_lock_time (pub_mw_of alice1) = Some 1120
  /\ finish (refund_phase_swap_mw toy_grin toy_btc alice1) world_c
     = (Done (Err "Can't refund yet, too early", alice1), count_run.2).
Proof.
  assert (Em : mwp_lock_time (pub_mw_of alice1) = Some 1120) by (vm_compute; reflexivity).
  assert (Eb : bp_lock_time (pub_btc_of alice1) = Some 112) by (vm_compute; reflexivity).
  split; [exact Em|].
  refine (proj1 (proj2 (execution_and_refund_windows toy_grin toy_btc alice1 world_c count_run.2
    (got_value 0 tip_run) (got_value 0 count_run) 1120 112 Em Eb _ _ _ _ heights_c)) _
    (refund_phase_swap_mw toy_grin toy_btc) _).
  1-4: rewrite ?tip_is, ?count_is; vm_compute; split; congruence.
  - rewrite tip_is, count_is. lia.
  - left. reflexivity.
Defined.

(** Half an hour after a setup at height 1000. *)
Definition short_slate : SwapSlate :=
  mkSwapSlate 7 (mkSwapSlatePub SETUP (mkMWPub 1000 30 (Some 1030) OFFERED)
    (mkBTCPub 50000 3 REQUESTED (Some 103) None None None) (mkMeta "127.0.0.1" "8080")) empty_priv.
Lemma short_swap_never_executes_witness :
  finish (exec_phase_swap_mw toy_grin toy_btc short_slate) world_c
  = (Done (Err "Not enough time left to execute atomic swap", short_slate), count_run.2).
Proof.
  refine (proj1 (short_swap_never_executes toy_grin toy_btc short_slate world_c count_run.2
    (got_value 0 tip_run) (got_value 0 count_run) 103 1000 30 eq_refl _ eq_refl _ eq_refl _ _ _ _ heights_c)).
  - lia.
  - rewrite tip_is. lia.
  - vm_compute; split; congruence.
  - vm_compute; split; congruence.
  - rewrite tip_is. vm_compute; split; congruence.
  - rewrite count_is. vm_compute; split; congruence.
Defined.

(** ** The disk *)
Definition empty_disk : Disk := mkDisk ∅ (fun _ => true).
Lemma small_7 : in_u64 7.
Proof. vm_compute. split; congruence. Defined.

Lemma slate_disk_roundtrip_witness :
  exists d', write_slate_to_disk toy_alice "slates" true true empty_disk = (Ok tt, d')
    /\ read_slate_from_disk 7 "slates" d' = Ok toy_alice.
Proof.
  destruct (slate_disk_roundtrip toy_alice "slates" empty_disk small_7 (conj eq_refl eq_refl))
    as (d' & Ew & Er & _).
  exists d'. split; [exact Ew|exact Er].
Defined.

Definition alice_disk : Disk := (write_slate_to_disk toy_alice "slates" true true empty_disk).2.
Lemma accept_discards_private_witness :
  exists d', create_priv_from_pub 7 "slates" alice_disk = (Ok (mkSwapSlate 7 toy_pub empty_priv), d')
    /\ read_slate_from_disk 7 "slates" d' = Ok (mkSwapSlate 7 toy_pub empty_priv).
Proof.
  destruct (accept_discards_private 7 "slates" alice_disk (pub_to_json toy_pub) toy_pub small_7)
    as (d' & Ec & Er & _).
  - split; vm_compute; reflexivity.
  - vm_compute. reflexivity.
  - vm_compute. reflexivity.
  - exists d'. split; [exact Ec|exact Er].
Defined.

(** ** Sessions *)
Definition bob_disk : Disk := (write_slate_to_disk toy_bob "slates" true true empty_disk).2.
Definition cores0 : Cores := mkCores toy_btc toy_grin (mkGrinTx toy_grin).
Definition checksum7 : string := pub_to_json toy_pub.

(** The same slate, gone on without Alice. *)
Definition toy_bob_setup : SwapSlate := set_status SETUP toy_bob.
Definition bob_setup_disk : Disk := (write_slate_to_disk toy_bob_setup "slates" true true empty_disk).2.

Lemma sessions_pair_witness :
  (exists c1 wa1 wb1,
    duet (execute (mkLock 7) toy_settings alice_disk)
         (serve_client toy_settings cores0 toy_bob bob_disk) world_c world_d
    = paired locking_phase_swap_mw locking_phase_swap_btc c1 cores0 toy_alice toy_bob alice_disk wa1 wb1)
  /\ exists wa1 wb1,
    duet (execute (mkCancel 7) toy_settings alice_disk)
         (serve_client toy_settings cores0 toy_bob_setup bob_setup_disk) world_c world_d
    = ((Done (Err "Checksums didn't match", alice_disk), wa1), (Done (Ok None), wb1)).
Proof.
  split.
  - refine (proj1 (proj1 (sessions_pair toy_settings toy_settings cores0 toy_alice toy_bob alice_disk bob_disk
      checksum7 checksum7 _ _ _ world_c world_d) _ eq_refl) _); vm_compute; reflexivity.
  - refine (proj2 (proj2 (proj2 (sessions_pair toy_settings toy_settings cores0 toy_alice toy_bob_setup alice_disk bob_setup_disk
      checksum7 (pub_to_json (sw_pub toy_bob_setup)) _ _ _ world_c world_d) _))); vm_compute; reflexivity.
Defined.

Definition strangers : World :=
  MkWorld tape0 [] [["0000"; "OK"]] (fun _ => true) (nodes 100 1000 50000) [].

Lemma listener_fuel_witness :
  run (serve 2 toy_settings cores0 toy_bob bob_disk) strangers
  = run (serve 9 toy_settings cores0 toy_bob bob_disk) strangers.
Proof. apply (listener_fuel toy_settings cores0 toy_bob bob_disk 2 9 strangers); cbn; lia. Defined.

Lemma listener_drops_stranger_witness :
  exists w', run (serve 3 toy_settings cores0 toy_bob bob_disk) strangers
             = run (serve 2 toy_settings cores0 toy_bob bob_disk) w'
    /\ w_clients w' = [].
Proof.
  destruct (listener_drops_stranger toy_settings cores0 toy_bob bob_disk 2 strangers checksum7 "0000" ["OK"] [])
    as (w' & E & Ec & _).
  - vm_compute. reflexivity.
  - vm_compute. reflexivity.
  - reflexivity.
  - exists w'. split; [exact E|exact Ec].
Defined.

(** ** The command line *)
Definition init_args : list (string * string) :=
  [("from-currency", "grin"); ("to-currency", "btc"); ("from-amount", "1000"); ("to-amount", "50000");
   ("timeout", "120")].
Definition init_matches : ArgMatches := mkMatches [] (Some ("init", mkMatches init_args None)).
Definition settings_disk : Disk := mkDisk {["config/settings.json" := "{}"]} (fun _ => true).

Lemma parser_finds_arguments_witness :
  conforms swap_app init_matches /\ parse_arguments init_matches <> Panic none_unwrapped.
Proof.
  assert (Hc : conforms swap_app init_matches).
  { apply (conforms_sub swap_app [] (mkApp "init"
      ["from-currency"; "to-currency"; "from-amount"; "to-amount"; "timeout"] [])); [constructor|left|].
    constructor. repeat constructor; by eexists. }
  split; [exact Hc|]. exact (parser_finds_arguments init_matches Hc).
Defined.

Lemma parse_init_limits_witness :
  exists from to fa ta timeout,
    parse_init (mkMatches init_args None) = Ok (Box (mkInit from to fa ta (timeout / 10) timeout))
    /\ 0 <= timeout <= 7200.
Proof.
  assert (E : parse_init (mkMatches init_args None) = Ok (Box (mkInit GRIN BTC 1000 50000 12 120)))
    by reflexivity.
  destruct (parse_init_limits _ _ E) as (from & to & fa & ta & timeout & Ec & _ & _ & Ht & _).
  exists from, to, fa, ta, timeout. rewrite <- Ec. split; [exact E|exact Ht].
Defined.

Lemma failed_command_leaves_disk_witness :
  ensures (fun x => is_ok x.1 = false -> x.2 = settings_disk)
    (main (fun _ => None) 7 init_matches settings_disk).
Proof.
  apply (failed_command_leaves_disk (fun _ => None) 7 init_matches settings_disk).
  - reflexivity.
  - intros args. cbn. congruence.
Defined.

Lemma init_creates_slate_witness :
  exists d' w' s, run (main (fun _ => None) 7 init_matches settings_disk) world_c = (Done (Ok tt, d'), w')
    /\ read_slate_from_disk 1000 "slates" d' = Ok s /\ pub_status (sw_pub s) = INITIALIZED.
Proof.
  assert (Ef : d_files settings_disk !! "config/settings.json" = Some "{}") by (vm_compute; reflexivity).
  assert (Ep : parse_settings "{}" = Ok toy_settings) by reflexivity.
  assert (Ea : parse_arguments init_matches = Ok (Box (mkInit GRIN BTC 1000 50000 12 120)))
    by reflexivity.
  destruct (init_creates_slate (fun _ => None) 7 init_matches settings_disk world_c GRIN BTC 1000 50000 12 120
    "{}" toy_settings (fun _ => eq_refl) Ef Ep ltac:(lia) Ea) as [_ Hc].
  destruct (Hc ltac:(discriminate)) as (d' & w' & s & Er & Es & Hs & _).
  exists d', w', s. split; [exact Er|]. split; [exact Es|exact Hs].
Defined.

(** ** The byte stream *)
Lemma wire_refines_witness :
  exists a w',
    run (_ ← send_msg "hello"; receive_msg) (set_inbox ["ok"] world_c) = (Done a, w')
    /\ run_wire (_ ← send_msg "hello"; receive_msg) (set_inbox ["ok"] world_c)
        (Bytes.mkStream [Bytes.Chunk ("ACK" +:+ newline_s); Bytes.Chunk "o"; Bytes.Chunk ("k" +:+ newline_s)]
           [Bytes.Took 2; Bytes.Took 3; Bytes.Took 1; Bytes.Took 3; Bytes.Took 1] "")
      = (Bytes.IOk a, w', Bytes.mkStream [] [] ("hello" +:+ newline_s +:+ "ACK" +:+ newline_s)).
Proof.
  assert (Hn : Bytes.accepts newline_s [Bytes.Took 1])
    by (apply (Bytes.accepts_piece 0 newline_s ""); [reflexivity|constructor]).
  apply (wire_refines (_ ← send_msg "hello"; receive_msg) (set_inbox ["ok"] world_c)
    [Bytes.Chunk ("ACK" +:+ newline_s); Bytes.Chunk "o"; Bytes.Chunk ("k" +:+ newline_s)]
    [Bytes.Took 2; Bytes.Took 3; Bytes.Took 1; Bytes.Took 3; Bytes.Took 1]
    ("hello" +:+ newline_s +:+ "ACK" +:+ newline_s) [] [] "").
  apply (paced_send "hello" _ _ [Bytes.Chunk ("ACK" +:+ newline_s)] _ [Bytes.Took 2; Bytes.Took 3; Bytes.Took 1]
    [Bytes.Took 3; Bytes.Took 1] ("ACK" +:+ newline_s)).
  - by apply Bytes.line_last; vm_compute; repeat split.
  - exists [Bytes.Took 2; Bytes.Took 3], [Bytes.Took 1]. split; [reflexivity|]. split; [|exact Hn].
    apply (Bytes.accepts_piece 1 "he" "llo"); [reflexivity|].
    apply (Bytes.accepts_piece 2 "llo" ""); [reflexivity|constructor].
  - apply (paced_recv _ _ "ok" [] [Bytes.Chunk "o"; Bytes.Chunk ("k" +:+ newline_s)] []
      [Bytes.Took 3; Bytes.Took 1] [] ""); [reflexivity|..|constructor].
    + apply (Bytes.line_piece "o" "k"); [|apply Bytes.line_last]; vm_compute; repeat split; congruence.
    + reflexivity.
    + vm_compute. split; congruence.
    + exists [Bytes.Took 3], [Bytes.Took 1]. split; [reflexivity|]. split; [|exact Hn].
      apply (Bytes.accepts_piece 2 "ACK" ""); [reflexivity|constructor].
Defined.
