(* ===== verification/WalletWitnesses.v ===== *)
(** * The theorems on the wallet at work

    A wallet with three coins: what it selects, locks and cancels, and what the node
    and the summary make of it. *)
From S2P Require Import Prelude.
From S2P Require Import RustStd.
From S2P Require Import Crates.
From S2P Require Import Effects.
From S2P Require Import Slate.
From S2P Require Import SlateV4.
From S2P Require Import SlateBin.
From S2P Require Import StateM.
From S2P Require Import Wallet.
From S2P Require Import Address.
From S2P Require Import Selection.
From S2P Require Import Updater.
From S2P Require Import WalletTx.
From S2P Require Import Toy.
From S2P Require Import ToyWallet.
From Stdlib Require Import Ascii.

(** ** A wallet *)
Definition purse : Identifier := "P"%char.
Definition coin (key : Identifier) (value height : Z) (st : OutputStatus) : OutputData :=
  {| od_root_key_id := purse; od_key_id := key; od_n_child := 0; od_commit := None; od_mmr_index := None;
     od_value := value; od_status := st; od_height := height; od_lock_height := 0; od_is_coinbase := false;
     od_tx_log_entry := None |}.
Definition coins : list OutputData := [coin "a"%char 1000 10 Unspent; coin "b"%char 500 20 Unspent; coin "c"%char 300 30 Spent].
Definition purse_db : Db :=
  set_db_confirmed_height {[to_key CONFIRMED_HEIGHT_PREFIX (id_to_bytes purse) := 900]}
    (set_db_outputs (list_to_map ((fun o => (own_key o, o)) <$> coins)) empty_db).
Definition wallet0 : Wallet :=
  mkWallet purse_db None ∅ (Some 5) (Some "5") purse 0 (MkTape (fun n => 40 + Z.of_nat n) 0).

Lemma purse_keyed : keyed (wa_db wallet0).
Proof. unfold keyed. refine (bool_decide_unpack _ _). vm_compute. exact I. Defined.

Lemma ok_run {A} (d : A) (r : Res A * Wallet) : is_ok r.1 = true ->
  r = (Ok (match r.1 with Ok a => a | _ => d end), r.2).
Proof. by destruct r as [[a|e|e] w]. Defined.

Lemma selection_decides_witness :
  exists coins fee, select_coins_and_fee 600 1000 10 500 1 false purse wallet0 = (Ok (coins, total_of coins, 600, fee), wallet0)
    /\ 600 + fee <= total_of coins.
Proof.
  assert (Ee : eligible_outputs 1000 10 purse (db_iter (db_outputs (wa_db wallet0)))
             = Ok [coin "b"%char 500 20 Unspent; coin "a"%char 1000 10 Unspent]) by (vm_compute; reflexivity).
  destruct (selection_decides 600 1000 10 500 1 false purse wallet0 _ Ee) as [(cs & fee & E & _ & _ & Hf & _)|(n & _ & Hlt & [->|[->|Hz]])].
  - split; [unfold u64_modulus; lia|]. vm_compute. repeat constructor; discriminate.
  - split; [vm_compute; repeat constructor; discriminate|]. vm_compute. reflexivity.
  - lia.
  - lia.
  - intros k n Hk Hn. cbn in Hk. unfold tx_fee, toy_crates, toy_fee.
    apply elem_of_cons in Hn as [->|Hn%list_elem_of_singleton]; [|subst n]; unfold u64_modulus; lia.
  - exists cs, fee. by split.
  - vm_compute in Hlt. discriminate Hlt.
  - vm_compute in Hlt. discriminate Hlt.
  - vm_compute in Hz. discriminate Hz.
Defined.

(** 999 in ten parts of 99 and a remainder that is taken modulo 99. *)
Lemma change_exact_witness :
  exists parts l w', inputs_and_change [coin "a"%char 1000 10 Unspent] None 1 0 10 true wallet0 = (Ok (parts, l), w')
    /\ length l = 10%nat /\ sum_amounts l = 999.
Proof.
  assert (Hr : is_ok (inputs_and_change [coin "a"%char 1000 10 Unspent] None 1 0 10 true wallet0).1 = true)
    by (vm_compute; reflexivity).
  pose proof (ok_run ([], []) _ Hr) as E. destruct (match _ with Ok a => a | _ => _ end) as [parts l] eqn:El.
  destruct (change_exact [coin "a"%char 1000 10 Unspent] None 1 0 10 true wallet0 _ _ E) as (_ & _ & H).
  - split; [vm_compute; repeat constructor; discriminate|]. vm_compute. reflexivity.
  - lia.
  - lia.
  - cbn. lia.
  - destruct (H ltac:(cbn; lia) parts l eq_refl) as (_ & _ & Hl & Hs & _). exists parts, l. eexists. split; [exact E|].
    split; [exact Hl|]. apply Hs. vm_compute. reflexivity.
Defined.

(** ** A payment of both coins, locked and cancelled *)
Definition slate0 : Slate :=
  mkSlate (mkVersionCompatInfo 4 3) 2 true Standard1 (Some tx_empty) 1200 5 0 0 0
    [mkParticipantData 7 9 None] (Some (mkPaymentInfo tt tt (Some tt))) None.
Definition context0 : Context_ :=
  mkContext purse 42 43 42 43 [("d"%char, None, 295)] [("a"%char, None, 1000); ("b"%char, None, 500)] 1200 (Some 5)
    (Some 0) None None.
Definition locked_run := lock_tx_context None slate0 1000 context0 None wallet0.
Definition wallet1 : Wallet := locked_run.2.
Definition cancel_run := cancel_tx None purse (Some 0) None wallet1.
Definition wallet2 : Wallet := cancel_run.2.

Lemma unit_run (r : Res unit * Wallet) : is_ok r.1 = true -> r = (Ok tt, r.2).
Proof. by destruct r as [[[]|e|e] w]. Defined.
Lemma locked_run_eq : lock_tx_context None slate0 1000 context0 None wallet0 = (Ok tt, wallet1).
Proof. exact (unit_run locked_run ltac:(vm_compute; reflexivity)). Defined.
Lemma cancel_run_eq : cancel_tx None purse (Some 0) None wallet1 = (Ok tt, wallet2).
Proof. exact (unit_run cancel_run ltac:(vm_compute; reflexivity)). Defined.
Lemma outputs0_distinct : NoDup ((fun p => p.1.1) <$> ctx_output_ids context0).
Proof. apply NoDup_singleton. Defined.

Lemma lock_tx_context_effect_witness :
  is_ok locked_run.1 = true /\ lock_effect slate0 1000 context0 (wa_db wallet0) (wa_db wallet1).
Proof.
  split; [vm_compute; reflexivity|].
  exact (proj1 (lock_tx_context_effect None slate0 1000 context0 None wallet0 wallet1 locked_run_eq purse_keyed outputs0_distinct)).
Defined.

Lemma wallet1_keyed : keyed (wa_db wallet1).
Proof. unfold keyed. refine (bool_decide_unpack _ _). vm_compute. exact I. Defined.

Lemma cancel_tx_decides_witness :
  exists t w', matching purse (Some 0) None (wa_db wallet1) = [t]
    /\ cancel_tx None purse (Some 0) None wallet1 = (Ok tt, w')
    /\ cancel_effect purse t (wa_db wallet1) (wa_db w').
Proof.
  assert (Hm : length (matching purse (Some 0) None (wa_db wallet1)) = 1%nat) by (vm_compute; reflexivity).
  destruct (matching purse (Some 0) None (wa_db wallet1)) as [|t [|t' l]] eqn:E; [discriminate|clear Hm|discriminate].
  assert (Hc : cancellable t).
  { assert (Ht : cancellable (default t (head (matching purse (Some 0) None (wa_db wallet1))))); [|by rewrite E in Ht].
    vm_compute. split; [left|reflexivity]. }
  destruct (cancel_tx_decides None purse (Some 0) None wallet1 wallet1_keyed) as [_ H].
  destruct (H t E Hc) as [(w' & Er & He & _)|Hd].
  - exists t, w'. split; [reflexivity|]. split; [exact Er|exact He].
  - exfalso. apply (f_equal (fun d => size (db_outputs d))) in Hd. vm_compute in Hd. discriminate Hd.
Defined.

Lemma cancel_after_lock_witness :
  is_ok locked_run.1 = true /\ is_ok cancel_run.1 = true
  /\ db_outputs (wa_db wallet2) !! own_key (coin "a"%char 1000 10 Unspent)
     = Some (set_od_tx_log_entry (Some 0) (coin "a"%char 1000 10 Unspent)).
Proof.
  split; [vm_compute; reflexivity|]. split; [vm_compute; reflexivity|].
  destruct (cancel_after_lock None None slate0 1000 context0 None wallet0 wallet1 wallet2 locked_run_eq cancel_run_eq
    purse_keyed outputs0_distinct) as (Hin & _).
  - intros k o Hk (_ & Hl & _). assert (Hn : map_Forall (fun _ o => od_tx_log_entry o = None) (db_outputs (wa_db wallet0))).
    { apply map_Forall_to_list. vm_compute. repeat constructor. }
    rewrite (Hn k o Hk) in Hl. discriminate Hl.
  - intros p o _ Ho. assert (Hn : map_Forall (fun _ o => od_root_key_id o = purse) (db_outputs (wa_db wallet0))).
    { apply map_Forall_to_list. vm_compute. repeat constructor. }
    exact (Hn _ o Ho).
  - intros p [->|[->|[]%elem_of_nil]%elem_of_cons]%elem_of_cons; vm_compute; intros H; inversion H as [|? ? ? H1]; inversion H1.
  - destruct (Hin ("a"%char, None, 1000)) as (o & E0 & E1); [left|]. vm_compute in E0. injection E0 as <-. exact E1.
Defined.

(** ** The chain and the summary *)
Definition on_chain : ApiOutputs := [((1000, 102), ("", 950, 1))].
Definition asked : WalletOutputs :=
  [((1000, 102), ("a"%char, None, None, true)); ((500, 103), ("b"%char, None, None, true))].
Definition refresh_run := apply_api_outputs None asked on_chain [] 1000 purse wallet0.

Lemma refresh_transitions_witness :
  is_ok refresh_run.1 = true
  /\ exists o, db_outputs (wa_db refresh_run.2) !! own_key (coin "b"%char 500 20 Unspent) = Some o /\ od_status o = Spent.
Proof.
  split; [vm_compute; reflexivity|].
  destruct (refresh_transitions None asked on_chain [] 1000 purse wallet0 refresh_run.2
    (unit_run refresh_run ltac:(vm_compute; reflexivity)) purse_keyed) as [_ H].
  - vm_compute. apply NoDup_cons. split; [|apply NoDup_singleton]. intros H%list_elem_of_singleton. discriminate H.
  - destruct H as (_ & _ & H & _); [vm_compute; discriminate|].
    destruct (H ((500, 103), ("b"%char, None, None, true)) (coin "b"%char 500 20 Unspent)) as (o & Eo & _ & _ & Es).
    + right. left.
    + vm_compute. reflexivity.
    + exists o. split; [exact Eo|]. rewrite Es. reflexivity.
Defined.

Lemma summary_of_funds_witness :
  exists i, retrieve_info purse 10 wallet0 = (Ok i, wallet0) /\ wi_amount_currently_spendable i = 1500.
Proof.
  assert (Hh : heights_ok (confirmed_height wallet0) (db_iter (db_outputs (wa_db wallet0)))).
  { split; [vm_compute; split; congruence|]. vm_compute. repeat constructor; discriminate. }
  destruct (summary_of_funds purse 10 wallet0 Hh) as (i & Ei & _ & _ & _ & Hs).
  - split; [vm_compute; repeat constructor; discriminate|]. vm_compute. reflexivity.
  - exists i. split; [exact Ei|]. destruct Hs as (E & EE & ->).
    + lia.
    + assert (Hf : Forall (fun o => od_lock_height o <= confirmed_height wallet0)
        (of_account purse (db_iter (db_outputs (wa_db wallet0))))) by (vm_compute; repeat constructor; discriminate).
      intros o Ho _. rewrite Forall_forall in Hf. exact (Hf o Ho).
    + assert (EE' : eligible_outputs (confirmed_height wallet0) 10 purse (db_iter (db_outputs (wa_db wallet0)))
             = Ok [coin "b"%char 500 20 Unspent; coin "a"%char 1000 10 Unspent]) by (vm_compute; reflexivity).
      rewrite EE' in EE. injection EE as <-. reflexivity.
Defined.

(** ** Contexts and proofs *)
Definition context_run := with_batch None (_ ← save_private_context "id" context0; commit) wallet0.
Lemma private_context_roundtrip_witness :
  is_ok context_run.1 = true /\ get_private_context None "id" context_run.2 = (Ok context0, context_run.2).
Proof.
  split; [vm_compute; reflexivity|].
  exact (proj1 (private_context_roundtrip None "id" context0 wallet0 context_run.2
    (unit_run context_run ltac:(vm_compute; reflexivity)))).
Defined.

Definition excess0 : Commitment := (1234567, 12345678).
Lemma payment_proof_message_roundtrip_witness :
  String.length (commit_bytes excess0) = 33%nat
  /\ exists msg, payment_proof_message 1200 excess0 tt = Ok msg /\ decode_payment_proof_message msg = Ok (1200, excess0, tt).
Proof.
  split; [vm_compute; reflexivity|]. eexists. split; [reflexivity|].
  apply (payment_proof_message_roundtrip 1200 excess0 tt); [split; vm_compute; congruence|vm_compute; reflexivity|reflexivity].
Defined.

(** The entry of a payment for which a proof was asked. *)
Definition check_run := verify_slate_payment_proof None purse context0 slate0 wallet1.
Lemma payment_proof_checked_witness :
  is_ok check_run.1 = true /\ exists tx, tl_payment_proof tx = Some (mkStoredProofInfo tt (Some tt) 0 tt None).
Proof.
  split; [vm_compute; reflexivity|].
  destruct (payment_proof_checked None purse context0 slate0 wallet1 check_run.2
    (unit_run check_run ltac:(vm_compute; reflexivity))) as (_ & tx & rest & El & H). cbn [sl_payment_proof slate0] in H.
  destruct H as (orig & index & k & key & excess & msg & sig & Et & _). exists tx.
  assert (Hl : forall t, t ∈ db_iter (db_tx_log (wa_db wallet1)) -> tl_payment_proof t = Some (mkStoredProofInfo tt (Some tt) 0 tt None)).
  { apply Forall_forall. vm_compute. repeat constructor. }
  apply Hl. assert (Hin : tx ∈ tx :: rest) by left. rewrite <- El in Hin.
  rewrite sort_by_key_perm in Hin. by apply list_elem_of_filter in Hin as [_ Hin].
Defined.

(** ** Addresses *)
Definition key_bytes : string := "the thirty-two bytes of a key...".
Lemma onion_address_roundtrip_witness :
  @hex_decode real_hex (to_ov3_str key_bytes) = None
  /\ @ov3_try_from _ _ _ _ _ real_hex (to_ov3_str key_bytes) = Ok key_bytes.
Proof.
  assert (E : @hex_decode real_hex (to_ov3_str key_bytes) = None) by (vm_compute; reflexivity). split; [exact E|].
  exact (proj1 (onion_address_roundtrip (H3 := real_hex) key_bytes ltac:(vm_compute; reflexivity)) E).
Defined.
Lemma slatepack_address_roundtrip_witness :
  exists s, SlatepackAddress_to_string (SlatepackAddress_new tt) = Ok s
  /\ SlatepackAddress_from_str s = Ok (SlatepackAddress_new tt).
Proof.
  eexists. split; [reflexivity|].
  exact (proj1 (slatepack_address_roundtrip (SlatepackAddress_new tt) _ "" eq_refl)).
Defined.
