(* ===== verification/ApiWitnesses.v ===== *)
(** * The interfaces of a wallet at work

    A payment between two wallets, from the first slate to the proof that the verifier
    accepts; a scan; a wallet without its node; and four situations in which the code
    does what it does not mean to. *)
From S2P Require Import Prelude.
From S2P Require Import RustStd.
From S2P Require Import Crates.
From S2P Require Import Effects.
From S2P Require Import Slate.
From S2P Require Import SlateV4.
From S2P Require Import SlateBin.
From S2P Require Import StateM.
From S2P Require Import Wallet.
From S2P Require Import Address.
From S2P Require Import Selection.
From S2P Require Import Updater.
From S2P Require Import WalletTx.
From S2P Require Import Scan.
From S2P Require Import Owner.
From S2P Require Import Foreign.
From S2P Require Import Api.
From S2P Require Import Toy.
From S2P Require Import ToyWallet.
From S2P Require Import WalletWitnesses.
From Stdlib Require Import Ascii.

(** ** A payment, from one wallet to another *)
Definition result {A} (d : A) (r : Res A * Wallet) : A := match r.1 with Ok a => a | _ => d end.
Lemma ran {A} (d : A) (r : Res A * Wallet) : is_ok r.1 = true -> r = (Ok (result d r), r.2).
Proof. by destruct r as [[a|e|e] w]. Defined.

Definition args0 : InitTxArgs :=
  mkInitTxArgs None 1200 10 500 1 false None None (Some (SlatepackAddress_new tt)) None None None.
Definition sent_run := init_send_tx None args0 false wallet0.
Definition slate1 : Slate := result slate0 sent_run.
Definition receiver0 : Wallet := mkWallet empty_db None ∅ (Some 77) (Some "77") purse 0 (MkTape (fun n => 140 + 7 * Z.of_nat n) 0).
Definition receive_run := receive_tx None slate1 None false receiver0.
Definition slate2 : Slate := result slate0 receive_run.
Definition lock_run := tx_lock_outputs None slate2 sent_run.2.
Definition finalize_run := owner_finalize None slate2 lock_run.2.
Definition slate3 : Slate := result slate0 finalize_run.

Lemma receive_run_eq : receive_tx None slate1 None false receiver0 = (Ok slate2, receive_run.2).
Proof. exact (ran slate0 receive_run ltac:(vm_compute; reflexivity)). Defined.
Lemma finalize_run_eq : owner_finalize None slate2 lock_run.2 = (Ok slate3, finalize_run.2).
Proof. exact (ran slate0 finalize_run ltac:(vm_compute; reflexivity)). Defined.
Lemma receiver_account w : wa_parent_key_id w = purse -> account_or_active None w = (Ok purse, w).
Proof. intros <-. reflexivity. Defined.

Lemma receive_tx_once_witness :
  is_ok receive_run.1 = true /\ sl_amount slate2 = 0 /\ refuses (receive_tx None slate1 None false) receive_run.2.
Proof.
  split; [vm_compute; reflexivity|].
  destruct (receive_tx_once None slate1 None false receiver0 slate2 receive_run.2 purse receive_run_eq
    (receiver_account receiver0 eq_refl)) as (_ & _ & _ & Ha & _ & _ & H).
  split; [exact Ha|]. apply (H slate1 None None eq_refl). apply receiver_account. vm_compute. reflexivity.
Defined.

Lemma finalize_completes_once_witness :
  is_ok finalize_run.1 = true /\ refuses (owner_finalize None slate2) finalize_run.2.
Proof.
  split; [vm_compute; reflexivity|].
  destruct (finalize_completes_once None slate2 lock_run.2 slate3 finalize_run.2 finalize_run_eq)
    as (_ & _ & H).
  exact (proj1 (H slate2 None eq_refl)).
Defined.

Definition context1 : Context_ := result context0 (get_private_context None (context_id slate2) lock_run.2).
Lemma context1_eq : get_private_context None (context_id slate2) lock_run.2 = (Ok context1, lock_run.2).
Proof.
  assert (Hr : is_ok (get_private_context None (context_id slate2) lock_run.2).1 = true) by (vm_compute; reflexivity).
  pose proof (ran context0 _ Hr) as E. pose proof (get_context_Ok _ _ _ _ _ E) as Hw. rewrite Hw in E. exact E.
Qed.
Definition entry1 : TxLogEntry :=
  default (TxLogEntry_new 0 purse TxSent 0) (head (entries_for (sl_id slate2) (wa_db finalize_run.2))).
Definition info1 : PaymentInfo := mkPaymentInfo tt tt (Some tt).
Lemma keychain1_eq : keychain None receiver0 = (Ok 77, receiver0).
Proof.
  assert (E : (keychain None receiver0).1 = Ok 77) by (vm_compute; reflexivity).
  destruct (keychain None receiver0) as [r w1] eqn:Ek. cbn in E. subst r. by rewrite (keychain_Ok _ _ _ _ Ek).
Qed.
Lemma exported_proof_verifies_witness :
  exists proof mine, retrieve_payment_proof 0 None false None (Some (sl_id slate2)) finalize_run.2 = (Ok proof, finalize_run.2)
    /\ pp_amount proof = 1200
    /\ (verify_payment_proof None proof receiver0).1
       = Ok (bool_decide (mine = sender_address info1), bool_decide (mine = receiver_address info1)).
Proof.
  destruct (exported_proof_verifies None slate2 lock_run.2 slate3 finalize_run.2 info1
    context1 entry1 0 finalize_run_eq) as (proof & E & Ea & _ & _ & _ & _ & H & _).
  - vm_compute. reflexivity.
  - exact context1_eq.
  - vm_compute. reflexivity.
  - vm_compute. reflexivity.
  - vm_compute. reflexivity.
  - vm_compute. discriminate.
  - vm_compute. discriminate.
  - vm_compute. discriminate.
  - vm_compute. reflexivity.
  - vm_compute. reflexivity.
  - exists proof. exists tt. split; [exact E|]. split; [rewrite Ea; vm_compute; reflexivity|].
    apply (H (fun n => ex_intro _ _ eq_refl) None receiver0 77 tt keychain1_eq). vm_compute. reflexivity.
Defined.

(** ** Up to date: a payment with change whose limit the tip has reached

    The chain knows the wallet's coins, but neither the change nor the kernel. *)
Definition slow_chain : NodeClient := {|
  nc_get_chain_tip _ := Ok (1000, "");
  nc_get_outputs_from_node _ l := Ok ((fun c => (c, ("", 950, 1))) <$> filter (fun c : Z * Z => c.1 <> 291) l);
  nc_get_kernel _ _ _ _ := Ok None;
  nc_post_tx _ _ _ := Ok tt;
  nc_valid_header_version _ v := v =? 3;
  coinbase_maturity := 1440;
  block_reward fees := 60 + fees;
  reward_output _ _ _ := Err "" |}.
Definition args_late : InitTxArgs := mkInitTxArgs None 1200 10 500 1 false None (Some 0) None None None None.
Definition sent_late := init_send_tx None args_late false wallet0.
Definition lock_late_run := tx_lock_outputs None (result slate0 sent_late) sent_late.2.
Definition refreshed_late := refresh_outputs (H4 := slow_chain) None purse true lock_late_run.2.
Definition update_run := update_wallet_state (H4 := slow_chain) 10 None true lock_late_run.2.
Definition late_entry : TxLogEntry :=
  default (TxLogEntry_new 0 purse TxSent 7) (head (db_iter (db_tx_log (wa_db refreshed_late.2)))).
Lemma refresh_cancels_expired_witness :
  update_run.1 = Ok true
  /\ late_entry ∈ db_iter (db_tx_log (wa_db refreshed_late.2)) /\ is_outstanding late_entry = true
  /\ expired 1000 late_entry
  /\ exists t', log_entry (wa_db update_run.2) purse (tl_id late_entry) = Some t' /\ is_cancelled t' /\ tl_confirmed t' = false.
Proof.
  assert (E : update_run.1 = Ok true) by (vm_compute; reflexivity).
  assert (Hin : late_entry ∈ db_iter (db_tx_log (wa_db refreshed_late.2))) by (vm_compute; left).
  assert (Ho : is_outstanding late_entry = true) by (vm_compute; reflexivity).
  assert (Hx : expired 1000 late_entry) by (eexists; split; vm_compute; [reflexivity|discriminate]).
  assert (Hp : tl_parent_key_id late_entry = purse) by (vm_compute; reflexivity).
  assert (Hr : wa_parent_key_id lock_late_run.2 = purse) by (vm_compute; reflexivity).
  split; [exact E|]. split; [exact Hin|]. split; [exact Ho|]. split; [exact Hx|].
  destruct (refresh_cancels_expired (H4 := slow_chain) 10 None true lock_late_run.2 update_run.2)
    as (w1 & n & tip & E1 & Et & _ & _ & H).
  - change (update_run = (Ok true, update_run.2)). rewrite <- E. by destruct update_run.
  - cbn in Et. injection Et as <-. rewrite Hr in E1, H. fold refreshed_late in E1. rewrite E1 in Hin.
    exact (H late_entry Hin Hp Ho Hx).
Defined.

Definition scan_run := scan 10 None true 1 1000 wallet0.
Lemma scan_repairs_witness :
  is_ok scan_run.1 = true
  /\ exists chain_outs mine, repaired true mine chain_outs (wa_db wallet0) (wa_db scan_run.2).
Proof.
  assert (E : is_ok scan_run.1 = true) by (vm_compute; reflexivity). split; [exact E|].
  destruct (scan_repairs 10 None true 1 1000 wallet0 _ scan_run.2 (ran (mkScannedBlockInfo 0 "" 0 0) scan_run E))
    as (k & chain_outs & mine & n & range & _ & _ & _ & _ & H & _).
  exists chain_outs, mine. exact H.
Defined.
(** The coin that was spent is back, and the one the wallet did not know. *)
Example scan_run_outputs :
  (fun o => (od_value o, od_status o)) <$> db_iter (db_outputs (wa_db scan_run.2))
  = [(1000, Unspent); (500, Unspent); (300, Unspent); (70, Unspent)].
Proof. vm_compute. reflexivity. Qed.

Definition no_chain : NodeClient := {|
  nc_get_chain_tip _ := Err "ClientCallback";
  nc_get_outputs_from_node _ _ := Err "ClientCallback";
  nc_get_kernel _ _ _ _ := Err "ClientCallback";
  nc_post_tx _ _ _ := Err "ClientCallback";
  nc_valid_header_version _ v := v =? 3;
  coinbase_maturity := 1440;
  block_reward fees := 60 + fees;
  reward_output _ _ _ := Err "" |}.
Lemma offline_changes_nothing_witness :
  update_wallet_state (H4 := no_chain) 10 None false wallet0 = (Ok false, asked_once wallet0).
Proof.
  assert (H : no_node (H4 := no_chain)).
  { intros n. exists "ClientCallback". split; [reflexivity|]. discriminate. }
  destruct (offline_changes_nothing (H4 := no_chain) 10 None wallet0 H) as (_ & Hu & _). exact (Hu false).
Defined.

(** ** What the code does not mean to do

    A payment with an expiry and without change whose kernel the node knows: its type is
    confirmed in step 2 of the refresh and cancelled in step 5, which the cancelling
    refuses, and the whole refresh fails with it. *)
Definition args_expiring : InitTxArgs := mkInitTxArgs None 1495 10 500 1 false None (Some 0) None None None None.
Definition sent_expiring := init_send_tx None args_expiring false wallet0.
Definition lock_expiring := tx_lock_outputs None (result slate0 sent_expiring) sent_expiring.2.
Definition first_refresh := update_wallet_state 10 None false lock_expiring.2.
Example confirmed_expired_refresh_fails :
  lock_expiring.1 = Ok tt
  /\ first_refresh.1 = Err "TransactionNotCancellable(0)"
  /\ (fun t => (tl_id t, tl_tx_type t, tl_confirmed t)) <$> db_iter (db_tx_log (wa_db first_refresh.2))
     = [(0, TxSent, true); (1, TxReceived, true)]
  /\ (update_wallet_state 10 None false first_refresh.2).1 = Ok true.
Proof. split_and!; vm_compute; reflexivity. Qed.

(** The label of a restored account is made from the number of accounts there are: an
    account that already has this label is overwritten, its path forgotten. *)
Definition two_accounts : Wallet :=
  set_wa_db (set_db_accounts (list_to_map
    ((fun a => (to_key ACCOUNT_PATH_MAPPING_PREFIX (ap_label a), a))
       <$> [mkAcctPathMapping "default" "D"%char; mkAcctPathMapping "account_2" "E"%char]))
    (wa_db wallet0)) wallet0.
Example restored_account_overwrites :
  let after := (scan 10 None false 1 1000 two_accounts).2 in
  map ap_path (db_iter (db_accounts (wa_db two_accounts))) = ["E"; "D"]%char
  /\ map ap_path (db_iter (db_accounts (wa_db after))) = ["P"; "D"]%char.
Proof. split; vm_compute; reflexivity. Qed.
