(* ===== verification/PackWitnesses.v ===== *)
(** * Slatepacks at work

    Instances of the classes of [Slatepack], [Armor] and [Packer], and a slate that is
    packed for a recipient, armored, and read by it. *)
From S2P Require Import Prelude.
From S2P Require Import RustStd.
From S2P Require Import Crates.
From S2P Require Import Effects.
From S2P Require Import Slate.
From S2P Require Import SlateV4.
From S2P Require Import SlateBin.
From S2P Require Import StateM.
From S2P Require Import Wallet.
From S2P Require Import Address.
From S2P Require Import Slatepack.
From S2P Require Import Armor.
From S2P Require Import Selection.
From S2P Require Import Updater.
From S2P Require Import WalletTx.
From S2P Require Import Scan.
From S2P Require Import Owner.
From S2P Require Import Packer.
From S2P Require Import Foreign.
From S2P Require Import Api.
From S2P Require Import Invariant.
From S2P Require Import Toy.
From S2P Require Import ToyWallet.
From S2P Require Import WalletWitnesses.
From S2P Require Import ApiWitnesses.
From Stdlib Require Import Ascii.

(** ** Instances *)
Definition toy_take (n : Z) : Reader string := fun s => ok_or "UnexpectedEof" (take_chars (Z.to_nat n) s).
Definition toy_read_bytes : Reader string := n ← read_be 8; toy_take n.
Definition toy_enclose (s : string) : string := String "R" s.
#[export] Instance toy_slatepack : SlatepackCrates.
Proof.
  refine {|
    write_u32 n := Ok (be 4 n); read_u32 := read_be 4;
    write_bytes b := Ok (be 8 (len b) +:+ b);
    read_bytes_len_prefix := toy_read_bytes;
    be_write_u32 := be 4;
    be_read_u32 s := match of_be 4 0 s with Some (n, _) => n | None => 0 end;
    sha512 _ := zeros 64; dalek_sk_bytes _ := zeros 32;
    StaticSecret := unit; XPublicKey := unit;
    static_secret _ := tt; x_public _ := tt; edwards_to_montgomery _ := Some tt;
    age_encrypt _ _ data := Ok (toy_enclose data);
    age_decryptor _ := Ok Recipients;
    age_decrypt _ s := match s with String _ data => Ok data | EmptyString => Err "Age" end |}.
Defined.
#[export] Instance toy_slatepack_laws : SlatepackLaws.
Proof.
  split.
  - intros n Hn. by apply (be_reads 4).
  - intros b Hb x r [= <-]. rewrite append_assoc.
    change ((read_be 8 ≫= toy_take) (be 8 (len b) +:+ (b +:+ r)) = Ok (b, r)).
    erewrite rbind_run by (apply (be_reads 8 (len b)); [unfold len; change (256 ^ Z.of_nat 8) with (2 ^ 64); lia|done]).
    unfold toy_take, len. rewrite Nat2Z.id. by rewrite take_chars_app.
  - done.
  - intros n. apply (be_size 4).
  - intros n Hn. change (match of_be 4 0 (be 4 n) with Some (m, _) => m | None => 0 end = n).
    rewrite <- (append_nil_r (be 4 n)), of_be_be, Z.mod_small by exact Hn. lia.
  - intros c s. by eexists.
  - by intros n b [= <-].
  - intros n b [= <-]. apply (be_size 2).
  - intros s b [= <-]. rewrite length_append. lia.
  - by intros s b [= <-].
  - intros s. apply (zeros_length 64).
  - intros k. apply (zeros_length 32).
  - done.
  - by intros n keys data enc sec [= <-] _.
Qed.

(** Base 58 with sixteen of its digits. *)
Definition nibble (n : nat) : ascii := ascii_of_nat (if (n <? 11)%nat then 97 + n else 98 + n)%nat.
Definition of_nibble (c : ascii) : nat := let n := nat_of_ascii c in (if (n <? 108)%nat then n - 97 else n - 98)%nat.
Fixpoint toy_58 (s : string) : string :=
  match s with
  | EmptyString => EmptyString
  | String c r => String (nibble (nat_of_ascii c / 16)) (String (nibble (nat_of_ascii c mod 16)) (toy_58 r))
  end.
Fixpoint of_toy_58 (s : string) : string :=
  match s with
  | String x (String y r) => String (ascii_of_nat (16 * of_nibble x + of_nibble y)) (of_toy_58 r)
  | _ => EmptyString
  end.
Lemma nibbles c :
  ascii_of_nat (16 * of_nibble (nibble (nat_of_ascii c / 16)) + of_nibble (nibble (nat_of_ascii c mod 16))) = c
  /\ base58_char (nibble (nat_of_ascii c / 16)) = true /\ base58_char (nibble (nat_of_ascii c mod 16)) = true.
Proof. destruct c as [[] [] [] [] [] [] [] []]; by vm_compute. Qed.

#[export] Instance toy_armor : ArmorCrates := {|
  sha256 s := be 4 (len s) +:+ zeros 28;
  bs58_encode := toy_58;
  bs58_decode s := Some (of_toy_58 s);
  max_tx_weight := 40000 |}.
#[export] Instance toy_armor_laws : ArmorLaws.
Proof.
  split.
  - intros s. apply (f_equal (fun n => 4 + n)%nat (zeros_length 28)).
  - intros s. apply (f_equal Some). change (of_toy_58 (toy_58 s) = s). induction s as [|c s IH]; [done|]. cbn [toy_58 of_toy_58].
    rewrite IH. f_equal. apply nibbles.
  - intros s. change (String.length s <= String.length (toy_58 s))%nat. induction s as [|c s IH]; cbn; lia.
  - intros s. change (all_chars base58_char (toy_58 s) = true). induction s as [|c s IH]; [done|].
    cbn [toy_58 all_chars]. destruct (nibbles c) as (_ & -> & ->). exact IH.
Qed.
#[export] Instance toy_slatepack_json : SlatepackJson := {| slatepack_of_json _ := Err "expected value" |}.

(** ** A slate on its way *)
Definition toy_key : DalekSecretKey.
Proof. exact tt. Defined.
Definition toy_addr : SlatepackAddress := SlatepackAddress_new tt.
Definition pack_run := create_slatepack_message None slate1 (Some 0) [toy_addr] sent_run.2.
Definition message : string := result "" pack_run.
Lemma pack_run_eq :
  create_slatepack_message None slate1 (Some 0) [toy_addr] sent_run.2 = (Ok message, pack_run.2).
Proof. exact (ran "" pack_run ltac:(vm_compute; reflexivity)). Defined.
Lemma slate1_fits : bin_fits (v4_of_slate slate1).
Proof. split; vm_compute; repeat split; congruence. Qed.

Definition address_run := get_slatepack_address None 0 receiver0.
Lemma address_run_eq : get_slatepack_address None 0 receiver0 = (Ok toy_addr, receiver0).
Proof.
  assert (Hr : is_ok address_run.1 = true) by (vm_compute; reflexivity).
  pose proof (ran toy_addr address_run Hr) as E. pose proof (get_address_same _ _ _ _ _ E) as Hw. rewrite Hw in E.
  assert (result toy_addr address_run = toy_addr) as <- by (vm_compute; reflexivity). exact E.
Qed.
Lemma message_delivered_witness :
  exists payload sender, decode_slatepack_message None message [0] receiver0 = (Ok (packed sender payload), receiver0)
    /\ sender = Some toy_addr.
Proof.
  destruct (message_delivered None slate1 (Some 0) [toy_addr] sent_run.2 message pack_run.2 None [0] receiver0
    pack_run_eq) as (payload & sender & E & _ & (a & -> & Ea) & _).
  - exists toy_addr, receiver0. split; [exact address_run_eq|by left].
  - exact slate1_fits.
  - vm_compute. discriminate.
  - vm_compute. discriminate.
  - exists payload, (Some a). split; [exact E|].
    assert (Ha : (get_slatepack_address None 0 sent_run.2).1 = Ok toy_addr) by (vm_compute; reflexivity).
    rewrite Ea in Ha. cbn in Ha. by injection Ha as <-.
Defined.

Definition test_pack : Slatepack :=
  mkSlatepack (mkSlatepackVersion 1 0) 0 (Some toy_addr)
    (mkSlatepackEncMetadata None [toy_addr]) "payload" true.
Definition tape0 : Tape := MkTape (fun n => 60 + Z.of_nat n) 0.
Definition pack_of (r : Res Slatepack * Tape) : Slatepack := match r.1 with Ok s => s | _ => test_pack end.
Definition encrypted : Slatepack := pack_of (try_encrypt_payload [toy_addr] test_pack tape0).
Lemma packed_ok (r : Res Slatepack * Tape) : is_ok r.1 = true -> r = (Ok (pack_of r), r.2).
Proof. by destruct r as [[a|e|e] t]. Qed.
Lemma encrypt_run_eq :
  try_encrypt_payload [toy_addr] test_pack tape0
  = (Ok encrypted, (try_encrypt_payload [toy_addr] test_pack tape0).2).
Proof. apply packed_ok. vm_compute. reflexivity. Qed.
Lemma encrypted_slatepack_opens_witness :
  sp_mode encrypted = 1 /\ (sp_payload <$> try_decrypt_payload (Some toy_key) (on_the_wire encrypted)) = Ok "payload".
Proof.
  destruct (encrypted_slatepack_opens [toy_addr] test_pack encrypted _ _ toy_key toy_addr
    encrypt_run_eq) as (Hm & _ & _ & ->); [by left|reflexivity|vm_compute; reflexivity|].
  split; [exact Hm|reflexivity].
Defined.

Definition armored : string := match SlatepackArmor_encode test_pack with Ok s => s | _ => "" end.
Lemma armor_roundtrip_witness :
  exists bytes, slatepack_write test_pack = Ok bytes /\ SlatepackArmor_decode armored = Ok bytes.
Proof.
  destruct (armor_roundtrip test_pack armored) as (bytes & Eb & Ed & _); [vm_compute; reflexivity|].
  by exists bytes.
Defined.
Lemma slatepack_bin_roundtrip_witness :
  exists b, slatepack_write test_pack = Ok b /\ slatepack_read (b +:+ "rest") = Ok (on_the_wire test_pack, "rest").
Proof.
  destruct (slatepack_write test_pack) as [b|e|e] eqn:E; [|vm_compute in E; discriminate E..].
  exists b. split; [done|]. apply (proj1 (slatepack_bin_roundtrip test_pack b "rest" ltac:(vm_compute; split_and!; congruence))).
  exact E.
Defined.

(** A quoted and re-wrapped message is read; but only when nothing stands in front of the
    header, since [deser_slatepack] looks for it at the very start. *)
Definition quoted : string :=
  "BEGINSLATEPACK. " +:+ String (ascii_of_nat 10) "> " +:+ toy_58 (generate_check "xy" +:+ "xy") +:+ ". ENDSLATEPACK.".
Example quoted_message :
  SlatepackArmor_decode quoted = Ok "xy"
  /\ SlatepackArmor_decode ("> " +:+ quoted) = Ok "xy"
  /\ unarmor quoted = Ok "xy" /\ unarmor ("> " +:+ quoted) = Ok ("> " +:+ quoted).
Proof. split_and!; vm_compute; reflexivity. Qed.

(** The rest of a message that was cut off, pasted into the wallet. *)
Example truncated_message :
  is_panic (deser_slatepack no_packer "BEGINSLATEPACK. abcd" true) = true
  /\ is_panic (deser_slatepack no_packer "BEGINSLATEPACK. a. ENDSLATEPACK." true) = true.
Proof. split; vm_compute; reflexivity. Qed.

(** ** A wallet that is asked this and that *)
Definition new_wallet : Wallet := LMDBBackend_new empty_db ∅ (MkTape (fun n => 140 + 7 * Z.of_nat n) 0).
(** A key, a payment received twice, of which the second is refused, a new account, a scan and a payment that
    cannot be made. *)
Definition asked_for : list (option SecretKey * Command) :=
  [(None, CKeychain 77 false true); (None, CReceive slate1 None false); (None, CReceive slate1 None false);
   (None, CAccount "savings"); (None, CScan 10 (Some 1) true); (None, CActivate "savings");
   (None, CSend args0 false); (None, CCoinbase (mkBlockFees 0 1000 None) true)].
Definition asked_wallet : Wallet := foldl call new_wallet asked_for.
Lemma wallet_stays_well_formed_witness :
  well_formed asked_wallet /\ log_entry (wa_db asked_wallet) default_path (next_log_id (wa_db asked_wallet) default_path) = None.
Proof.
  destruct (wallet_stays_well_formed new_wallet asked_for (opened_well_formed empty_db _ _ empty_well_formed)) as (Hw & _ & Hn).
  split; [exact Hw|]. exact (Hn eq_refl default_path).
Defined.
Example asked_wallet_log :
  (length (map_to_list (db_tx_log (wa_db asked_wallet))), next_log_id (wa_db asked_wallet) default_path) = (3%nat, 1).
Proof. vm_compute. reflexivity. Qed.
