(* ===== verification/LifeWitnesses.v ===== *)
(** * The life of a wallet at work

    Instances of the classes of [Seed] and [Lifecycle]: a seal is the key in front of the
    seed, a phrase is the seed after a word.  A wallet is created, opened, gets another password,
    is used and closed; on a disk that fails the seed stays where it was. *)
From S2P Require Import Prelude.
From S2P Require Import RustStd.
From S2P Require Import Crates.
From S2P Require Import Effects.
From S2P Require Import Slate.
From S2P Require Import SlateV4.
From S2P Require Import SlateBin.
From S2P Require Import StateM.
From S2P Require Import Wallet.
From S2P Require Import Address.
From S2P Require Import Slatepack.
From S2P Require Import Armor.
From S2P Require Import Selection.
From S2P Require Import Updater.
From S2P Require Import WalletTx.
From S2P Require Import Scan.
From S2P Require Import Owner.
From S2P Require Import Packer.
From S2P Require Import Foreign.
From S2P Require Import Api.
From S2P Require Import Invariant.
From S2P Require Import Seed.
From S2P Require Import Lifecycle.
From S2P Require Import Toy.
From S2P Require Import ToyWallet.
From S2P Require Import WalletWitnesses.
From S2P Require Import ApiWitnesses.
From S2P Require Import PackWitnesses.
From Stdlib Require Import Ascii.

(** ** Instances *)
Fixpoint ones (n : nat) : string := match n with O => "|" | S n' => String "1" (ones n') end.
Fixpoint count_ones (s : string) : option (nat * string) :=
  match s with
  | String "1" s' => '(n, r) ← count_ones s'; Some (S n, r)
  | String "|" s' => Some (O, s')
  | _ => None
  end.
Lemma count_ones_ones n r : count_ones (ones n +:+ r) = Some (n, r).
Proof. induction n as [|n IH]; [done|]. cbn [ones]. rewrite append_cons. cbn [count_ones]. by rewrite IH. Qed.

Definition toy_seal (key nonce plain : string) : string := ones (String.length key) +:+ key +:+ plain +:+ zeros 16.
Definition toy_unseal (s : string) : option (string * string) := '(n, r) ← count_ones s; take_chars n r.
Definition toy_open (key nonce sealed : string) : option string :=
  '(k, r) ← toy_unseal sealed; if bool_decide (k = key) then Some r else None.
Lemma unseal_seal key nonce plain : toy_unseal (toy_seal key nonce plain) = Some (key, plain +:+ zeros 16).
Proof. unfold toy_unseal, toy_seal. rewrite count_ones_ones. cbn. apply take_chars_app. Qed.

Definition PHRASE : string := "phrase ".
Definition toy_to_entropy (p : string) : option string :=
  if starts_with PHRASE p then Some (drop_chars 7 p) else None.
Definition toy_ews_json (e : EncryptedWalletSeed) : string :=
  hex_of (to_text (ews_encrypted_seed e, ews_salt e, ews_nonce e)).
Definition toy_json_ews (s : string) : option EncryptedWalletSeed :=
  b ← of_hex s;
  match of_text (A := string * string * string) b with
  | Ok (x, y, z) => Some (mkEncryptedWalletSeed x y z)
  | _ => None
  end.
Lemma of_hex_of s : of_hex (hex_of s) = Some s.
Proof.
  induction s as [|c s IH]; [done|]. cbn [hex_of of_hex]. rewrite IH.
  destruct c as [[] [] [] [] [] [] [] []]; vm_compute; reflexivity.
Qed.
Lemma hex_of_plain s : all_chars plain_ascii (hex_of s) = true.
Proof.
  induction s as [|c s IH]; [done|]. cbn [hex_of all_chars]. rewrite IH.
  destruct c as [[] [] [] [] [] [] [] []]; vm_compute; reflexivity.
Qed.

#[export] Instance toy_seeds : SeedCrates := {|
  pbkdf2_derive salt password := salt +:+ password;
  seal_append_tag key nonce plain := Some (toy_seal key nonce plain);
  open_in_place := toy_open;
  to_entropy := toy_to_entropy;
  from_entropy s := Some (PHRASE +:+ s);
  ews_to_json := toy_ews_json;
  ews_of_json := toy_json_ews;
  blake2b_32 s := s |}.
#[export] Instance toy_seed_laws : SeedLaws.
Proof.
  split.
  - intros key nonce plain sealed [= <-]. exists (zeros 16). split; [done|]. cbn [open_in_place toy_seeds]. unfold toy_open.
    rewrite unseal_seal. cbn. by rewrite bool_decide_eq_true_2.
  - intros key key' nonce sealed plain plain'. cbn [open_in_place toy_seeds]. unfold toy_open.
    destruct (toy_unseal sealed) as [[k r]|]; [|done]. cbn. do 2 case_bool_decide; congruence.
  - intros seed phrase [= <-]. cbn [to_entropy toy_seeds]. unfold toy_to_entropy. by destruct seed.
  - intros [x y z]. cbn [ews_of_json ews_to_json toy_seeds]. unfold toy_json_ews, toy_ews_json.
    cbn [ews_encrypted_seed ews_salt ews_nonce]. rewrite of_hex_of. cbn [mbind option_bind]. by rewrite of_to_text.
  - intros e. apply utf8_plain, hex_of_plain.
Qed.
#[export] Instance toy_seed_keychain : SeedKeychain := fun seed => Ok (len seed).
#[export] Instance good_disk : DiskFaults := fun _ => false.
(** A disk on which the eighth operation fails. *)
Definition bad_disk : DiskFaults := fun n => n =? 7.

(** ** A life *)
Definition provider0 : Provider := DefaultLCProvider_new (mkDisk ∅ ∅ (MkTape (fun n => 7 * Z.of_nat n) 0)) ∅.
Definition phrase0 : string := "phrase 0123456789abcdef".
Definition seed0 : string := "0123456789abcdef".
Definition dir0 : string := "default/wallet_data".
Definition create_run := create_wallet (Some phrase0) 32 "old" false provider0.
Definition created : Provider := create_run.2.
Lemma phrase_seed seed : from_mnemonic phrase0 = Ok seed -> seed = seed0.
Proof. intros E. assert (E0 : from_mnemonic phrase0 = Ok seed0) by reflexivity. rewrite E in E0. by injection E0. Qed.
Lemma create_run_eq : create_wallet (Some phrase0) 32 "old" false provider0 = (Ok tt, created).
Proof.
  assert (E : is_ok create_run.1 = true) by (vm_compute; reflexivity).
  change (create_run = (Ok tt, create_run.2)). destruct create_run as [[[]|e|e] p]; [reflexivity|discriminate E..].
Defined.

Lemma created_wallet_opens_witness :
  exists w p2, open_wallet "old" false false created = (Ok None, p2) /\ pr_backend p2 = Some (Some dir0, w)
    /\ wallet_opened dir0 16 (Some phrase0) w.
Proof.
  destruct (created_wallet_opens (Some phrase0) 32 "old" provider0 created create_run_eq) as (seed & Hp & Ho & _).
  pose proof (phrase_seed seed (Hp phrase0 eq_refl)) as ->.
  apply (Ho 16 16 false); [intros n; reflexivity|reflexivity|reflexivity].
Defined.

(** Used, closed, with another password; with the phrase put in once more; and a second wallet. *)
Definition events0 : list Event :=
  [EOpen "old" false false; ECommand None (CReceive slate1 None false); EPassword "old" "new"; EClose;
   EPassword "old" "newer"; ERecover "no phrase" "x"; ERecover phrase0 "again"; EDirectory "other";
   ECreate None 32 "second"; EOpen "second" true false; EMnemonic "second"].
Lemma seed_never_lost_witness :
  holds seed0 ["old"; "new"; "newer"; "x"; "again"; "second"] (pr_disk (foldl live created events0)).
Proof.
  destruct (seed_never_lost (Some phrase0) 32 "old" provider0 created events0 create_run_eq) as (seed & Hp & Hh).
  - intros Hin. repeat (apply elem_of_cons in Hin as [Hin|Hin]; [discriminate Hin|]). by apply elem_of_nil in Hin.
  - pose proof (phrase_seed seed (Hp phrase0 eq_refl)) as ->. exact Hh.
Defined.
(** The files that are left: the seed of each wallet, and what a phrase that was none has moved away. *)
Example events0_files :
  (map_to_list (dk_files (pr_disk (foldl live created events0)))).*1
  = ["other/wallet_data/wallet.seed"; "default/wallet_data/wallet.seed.bak"; "default/wallet_data/wallet.seed"].
Proof. vm_compute. reflexivity. Qed.

Definition change_run := change_seed_password dir0 "old" "new" (pr_disk created).
Lemma password_change_exact_witness : exists d', change_run = (Ok tt, d') /\ seed_file dir0 "new" seed0 d'.
Proof.
  pose proof (password_change_exact dir0 "old" "new" (pr_disk created)) as [Hex Hrun].
  assert (Hs : seed_file dir0 "old" seed0 (pr_disk created)).
  { eexists. split; [vm_compute; reflexivity|]. split; vm_compute; reflexivity. }
  destruct (Hrun seed0) as [d' E]; [intros n; reflexivity|intros k n x; by eexists|exact Hs|by eexists| |].
  - vm_compute. intros Hx. done.
  - exists d'. split; [exact E|]. destruct (Hex d' E) as (seed & c & Hc & Hr & Hn & _).
    destruct Hs as (c' & Hc' & _ & Hr'). rewrite Hc in Hc'. injection Hc' as <-. by rewrite (read_seed_one _ _ _ _ _ Hr Hr') in Hn.
Defined.

(** The disk fails when the seed is written again: half of a file is in its place, and the seed is
    in the backup, for the old password. *)
Definition failing_run :=
  change_seed_password (H3 := bad_disk) dir0 "old" "new" (set_dk_tape (MkTape Z.of_nat 0) (pr_disk created)).
Example failing_run_keeps_backup :
  failing_run.1 = Err "Lifecycle(Error opening wallet seed file)"
  /\ (fun c => read_seed c "old") <$> dk_files failing_run.2 !! backup_base dir0 = Some (Ok seed0)
  /\ (fun c => is_ok (read_seed c "new")) <$> dk_files failing_run.2 !! seed_path dir0 = Some false.
Proof. split_and!; vm_compute; reflexivity. Qed.
