(* ===== verification/NetToy.v ===== *)
(** * The world of [Toy], with its servers

    Instances of the classes of [Json], [NodeHttp], [Sender], [Facade], [Rpc], [SecureApi] and
    [Server], with their laws: a value is a tree, and its text an injective code; base 64
    is a code of two characters for one; the product of keys is that of their numbers. *)
From S2P Require Import Prelude.
From S2P Require Import RustStd.
From S2P Require Import Crates.
From S2P Require Import Effects.
From S2P Require Import Slate.
From S2P Require Import SlateV4.
From S2P Require Import SlateBin.
From S2P Require Import StateM.
From S2P Require Import Wallet.
From S2P Require Import Address.
From S2P Require Import Selection.
From S2P Require Import WalletTx.
From S2P Require Import Slatepack.
From S2P Require Import Serde.
From S2P Require Import Armor.
From S2P Require Import Updater.
From S2P Require Import Scan.
From S2P Require Import Owner.
From S2P Require Import Packer.
From S2P Require Import Foreign.
From S2P Require Import Invariant.
From S2P Require Import Seed.
From S2P Require Import Lifecycle.
From S2P Require Import Json.
From S2P Require Import NodeHttp.
From S2P Require Import Sender.
From S2P Require Import Facade.
From S2P Require Import UpdaterThread.
From S2P Require Import Rpc.
From S2P Require Import SecureApi.
From S2P Require Import Server.
From S2P Require Import Api.
From S2P Require Import Toy.
From S2P Require Import ToyWallet.
From S2P Require Import WalletWitnesses.
From S2P Require Import ApiWitnesses.
From S2P Require Import PackWitnesses.
From S2P Require Import LifeWitnesses.
From Stdlib Require Import Ascii.

(** ** Values and their texts *)
Notation jv := Tree.
Notation JNull := TNull (only parsing).
Notation JBool := TBool (only parsing).
Notation JNum := TNum (only parsing).
Notation JStr := TStr (only parsing).
Notation JArr := TArr (only parsing).
Notation JObj := TObj (only parsing).
(** In front of what follows: a mark, then the parts. *)
Fixpoint put_jv (v : jv) (r : string) : string :=
  let fix puts (l : list jv) (r : string) : string :=
    match l with [] => String "." r | x :: l' => String "," (put_jv x (puts l' r)) end in
  let fix put_pairs (l : list (string * jv)) (r : string) : string :=
    match l with [] => String "." r | (k, x) :: l' => String "," (put k (put_jv x (put_pairs l' r))) end in
  match v with
  | JNull => String "n" r
  | JBool b => String "b" (put b r)
  | JNum n => String "i" (put n r)
  | JStr s => String "s" (put s r)
  | JArr l => String "a" (puts l r)
  | JObj l => String "o" (put_pairs l r)
  end.
Fixpoint put_jvs (l : list jv) (r : string) : string :=
  match l with [] => String "." r | x :: l' => String "," (put_jv x (put_jvs l' r)) end.
Fixpoint put_jpairs (l : list (string * jv)) (r : string) : string :=
  match l with [] => String "." r | (k, x) :: l' => String "," (put k (put_jv x (put_jpairs l' r))) end.
Lemma put_jv_arr l r : put_jv (JArr l) r = String "a" (put_jvs l r).
Proof. done. Qed.
Lemma put_jv_obj l r : put_jv (JObj l) r = String "o" (put_jpairs l r).
Proof. cbn. f_equal. Qed.

Fixpoint jsize (v : jv) : nat :=
  match v with
  | JArr l => S (S (foldr (fun x n => S (jsize x + n)) O l))
  | JObj l => S (S (foldr (fun p n => S (jsize p.2 + n)) O l))
  | _ => 1
  end.
Fixpoint get_jv (fuel : nat) (s : string) : option (jv * string) :=
  match fuel with
  | O => None
  | S fuel' =>
      match s with
      | String "n" r => Some (JNull, r)
      | String "b" r => '(b, r) ← get r; Some (JBool b, r)
      | String "i" r => '(n, r) ← get r; Some (JNum n, r)
      | String "s" r => '(x, r) ← get r; Some (JStr x, r)
      | String "a" r => '(l, r) ← get_jvs fuel' r; Some (JArr l, r)
      | String "o" r => '(l, r) ← get_jpairs fuel' r; Some (JObj l, r)
      | _ => None
      end
  end
with get_jvs (fuel : nat) (s : string) : option (list jv * string) :=
  match fuel with
  | O => None
  | S fuel' =>
      match s with
      | String "." r => Some ([], r)
      | String "," r => '(x, r) ← get_jv fuel' r; '(l, r) ← get_jvs fuel' r; Some (x :: l, r)
      | _ => None
      end
  end
with get_jpairs (fuel : nat) (s : string) : option (list (string * jv) * string) :=
  match fuel with
  | O => None
  | S fuel' =>
      match s with
      | String "." r => Some ([], r)
      | String "," r => '(k, r) ← get r; '(x, r) ← get_jv fuel' r; '(l, r) ← get_jpairs fuel' r; Some ((k, x) :: l, r)
      | _ => None
      end
  end.

Section jv_induction.
Context (P : jv -> Prop) (Hnull : P JNull) (Hbool : forall b, P (JBool b)) (Hnum : forall n, P (JNum n)) (Hstr : forall s, P (JStr s))
  (Harr : forall l, Forall P l -> P (JArr l)) (Hobj : forall l, Forall (fun p => P p.2) l -> P (JObj l)).
Fixpoint jv_nested_ind (v : jv) : P v :=
  match v with
  | JNull => Hnull | JBool b => Hbool b | JNum n => Hnum n | JStr s => Hstr s
  | JArr l => Harr l ((fix go l : Forall P l :=
      match l with [] => Forall_nil_2 _ | x :: l' => Forall_cons_2 _ _ _ (jv_nested_ind x) (go l') end) l)
  | JObj l => Hobj l ((fix go l : Forall (fun p => P p.2) l :=
      match l with [] => Forall_nil_2 _ | x :: l' => Forall_cons_2 _ _ _ (jv_nested_ind x.2) (go l') end) l)
  end.
End jv_induction.

Lemma get_put_jv v : forall fuel r, (jsize v <= fuel)%nat -> get_jv fuel (put_jv v r) = Some (v, r).
Proof.
  induction v as [|b|n|s|l IH|l IH] using jv_nested_ind; intros fuel r Hf; (destruct fuel as [|fuel]; [cbn in Hf; lia|]).
  - done.
  - cbn [put_jv get_jv]. rewrite get_put. done.
  - cbn [put_jv get_jv]. rewrite get_put. done.
  - cbn [put_jv get_jv]. rewrite get_put. done.
  - rewrite put_jv_arr. cbn [get_jv]. assert (Hl : get_jvs fuel (put_jvs l r) = Some (l, r)); [|by rewrite Hl].
    cbn [jsize] in Hf. apply le_S_n in Hf. revert fuel Hf. induction IH as [|x l Hx _ IHl]; intros fuel Hf;
      (destruct fuel as [|fuel]; [cbn in Hf; lia|]); [done|]. cbn [foldr] in Hf. cbn [put_jvs get_jvs].
    rewrite Hx by lia. cbn [mbind option_bind]. rewrite IHl by lia. done.
  - rewrite put_jv_obj. cbn [get_jv]. assert (Hl : get_jpairs fuel (put_jpairs l r) = Some (l, r)); [|by rewrite Hl].
    cbn [jsize] in Hf. apply le_S_n in Hf. revert fuel Hf. induction IH as [|[k x] l Hx _ IHl]; intros fuel Hf;
      (destruct fuel as [|fuel]; [cbn in Hf; lia|]); [done|]. cbn [foldr snd] in *. cbn [put_jpairs get_jpairs].
    rewrite get_put. cbn [mbind option_bind]. rewrite Hx by lia. cbn [mbind option_bind]. rewrite IHl by lia. done.
Qed.

#[export] Instance jv_codec : Codec jv.
Proof.
  refine {| put v r := put (Z.of_nat (jsize v)) (put_jv v r); get s := '(n, r) ← get s; get_jv (Z.to_nat n) r |}.
  intros v r. rewrite get_put. cbn. rewrite Nat2Z.id. by apply get_put_jv.
Defined.
Lemma jv_text_inj (x y : jv) : to_text x = to_text y -> x = y.
Proof. intros E. apply (f_equal (of_text (A := jv))) in E. rewrite !of_to_text in E. congruence. Qed.
#[export] Instance jv_eq : EqDecision jv := fun x y =>
  match decide (to_text x = to_text y) with
  | left E => left (jv_text_inj x y E)
  | right N => right (fun E => N (f_equal to_text E))
  end.

(** ** JSON *)
Definition toy_index (v : jv) (k : string) : jv :=
  match v with JObj l => default JNull (snd <$> find (fun p => bool_decide (p.1 = k)) l) | _ => JNull end.
Definition toy_json_text (v : jv) : string := hex_of (to_text v).
Definition toy_json_parse (s : string) : Res jv := b ← ok_or "expected value" (of_hex s); of_text b.
Lemma toy_parse_text (v : jv) : toy_json_parse (toy_json_text v) = Ok v.
Proof. unfold toy_json_parse, toy_json_text. rewrite of_hex_of. exact (of_to_text v). Qed.
#[export] Instance toy_json : JsonCrate := {|
  Value := jv; jnull := JNull; jbool := JBool; jnum := JNum; jstr := JStr; jarr := JArr; jobj := JObj;
  jindex := toy_index;
  jas_str v := match v with JStr s => Some s | _ => None end;
  jis_object v := match v with JObj _ => true | _ => false end;
  jdisplay := toy_json_text;
  json_from_str := toy_json_parse |}.
#[export] Instance toy_json_laws : JsonLaws.
Proof. split; try done. intros v. exact (toy_parse_text v). Qed.
(** A type whose values are texts. *)
Definition from_text {A} `{Codec A} : FromJson A := fun v => match v with JStr s => of_text s | _ => Err "invalid type" end.
Definition as_text {A} `{Codec A} (a : A) : jv := JStr (to_text a).

(** ** The JSON-RPC client and the node *)
#[export] Instance rpc_error_codec : Codec RpcError.
Proof.
  refine (iso_codec (fun e => (re_code e, re_message e, re_data e)) (fun '(c, m, d) => mkRpcError c m d) _). by intros [].
Defined.
#[export] Instance response_codec : Codec Response.
Proof.
  refine (iso_codec (fun r => (rs_result r, rs_error r, rs_id r, rs_jsonrpc r)) (fun '(r, e, i, j) => mkResponse r e i j) _).
  by intros [].
Defined.
#[export] Instance toy_rpc_json : RpcJson := {|
  request_to_string r := to_text (rq_method r, rq_params r);
  response_from_str := of_text;
  debug_error := re_message;
  debug_response _ := "Response" |}.
#[export] Instance toy_uri : UriCrate := fun _ => true.

#[export] Instance version_resp_codec : Codec GetVersionResp.
Proof. refine (iso_codec (fun v => (gv_node_version v, gv_block_header_version v)) (fun '(v, b) => mkGetVersionResp v b) _). by intros []. Defined.
#[export] Instance tip_codec : Codec GetTipResp.
Proof.
  refine (iso_codec (fun t => (gt_height t, gt_last_block_pushed t, gt_prev_block_to_last t, gt_total_difficulty t))
    (fun '(h, l, p, d) => mkGetTipResp h l p d) _). by intros [].
Defined.
#[export] Instance kernel_codec : Codec TxKernel.
Proof. refine (iso_codec of_kernel to_kernel to_of_kernel). Defined.
#[export] Instance located_codec : Codec LocatedTxKernel.
Proof. refine (iso_codec (fun k => (lk_tx_kernel k, lk_height k, lk_mmr_index k)) (fun '(k, h, i) => mkLocatedTxKernel k h i) _). by intros []. Defined.
#[export] Instance output_printable_codec : Codec OutputPrintable.
Proof.
  refine (iso_codec
    (fun o => (match op_output_type o with OutputCoinbase => true | OutputTransaction => false end, op_commit o, op_spent o,
               op_proof o, op_block_height o, op_mmr_index o))
    (fun '(t, c, s, p, h, i) => mkOutputPrintable (if t : bool then OutputCoinbase else OutputTransaction) c s p h i) _).
  by intros [[] ? ? ? ? ?].
Defined.
#[export] Instance listing_codec : Codec OutputListing.
Proof.
  refine (iso_codec (fun l => (ol_highest_index l, ol_last_retrieved_index l, ol_outputs l)) (fun '(h, i, l) => mkOutputListing h i l) _).
  by intros [].
Defined.
(** Two outputs to a request; the last reply comes in first. *)
#[export] Instance toy_node_json : NodeJson := {|
  version_from_value := from_text; tip_from_value := from_text; kernel_from_value := from_text;
  outputs_from_value := from_text; listing_from_value := from_text;
  value_from_value := fun v => Ok v;
  tx_to_value t := as_text (A := toy_tx) t;
  output_range_proof _ := Err "no proof";
  debug_output _ := "OutputPrintable"; debug_commit _ := "Commitment";
  grin_output_query_size := Some "2";
  completion _ k := rev (seq 0 k) |}.
#[export] Instance toy_node_json_laws : NodeJsonLaws.
Proof. intros n k. cbn. by rewrite <- Permutation_rev. Qed.

(** ** The sender, and the keys of a handshake *)
#[export] Instance toy_sender : SenderCrates.
Proof.
  refine {| socket_addr_v4 s := Some s; tor_launch _ _ _ := Ok tt;
            slate_to_value v := match v with VS4 s => as_text (A := SlateV4) s end;
            u16_from_value := fun v => match v with JNum n => Ok n | _ => Err "invalid type" end;
            strings_from_value := from_text |}.
Defined.
#[export] Instance toy_node_versions : NodeVersions := fun _ => None.
#[export] Instance toy_ecdh : EcdhCrate := fun p k => Ok (p * k : Z).
#[export] Instance toy_ecdh_laws : EcdhLaws.
Proof.
  intros a b pa pb Ha Hb. cbn in *. apply (proj1 (nonzero_Some _ _)) in Ha as [-> _], Hb as [-> _]. unfold pk_mul, toy_ecdh. f_equal. lia.
Qed.

(** ** Sealing *)
#[export] Instance json_id_codec : Codec JsonId.
Proof.
  refine (iso_codec (fun i => match i with IntId n => inl n | StrId s => inr s end)
    (fun x => match x with inl n => IntId n | inr s => StrId s end) _). by intros [].
Defined.
Definition toy_string (v : jv) : option string := match v with JStr s => Some s | _ => None end.
Definition toy_request (v : jv) : option EncryptedRequest :=
  jsonrpc ← toy_string (toy_index v "jsonrpc"); method ← toy_string (toy_index v "method");
  id ← (match toy_index v "id" with JNum n => Some (IntId n) | JStr s => Some (StrId s) | _ => None end);
  nonce ← toy_string (toy_index (toy_index v "params") "nonce"); body ← toy_string (toy_index (toy_index v "params") "body_enc");
  Some (mkEncryptedRequest jsonrpc method id (mkEncryptedBody nonce body)).
#[export] Instance toy_sealing : SealCrates := {|
  aes_seal key nonce plain := Some (toy_seal key nonce plain);
  aes_open := toy_open;
  seal_base64 := {| base64_encode := hex_of; base64_decode := of_hex |};
  json_pretty := toy_json_text;
  ser_string_or_u64 := JNum;
  encrypted_request_of_value := fun v => ok_or "missing field" (toy_request v);
  string_map_of_value := fun v => match v with
    | JObj l => res_map (fun p => match p.2 with JStr s => Ok (p.1, s) | _ => Err "invalid type" end) l
    | _ => Err "invalid type"
    end;
  value_map_of_value := fun v => match v with JObj l => Ok l | _ => Err "invalid type" end |}.
#[export] Instance toy_seal_laws : SealLaws.
Proof.
  split.
  - intros key nonce plain sealed [= <-]. exists (zeros 16). split; [done|]. cbn. unfold toy_open. rewrite unseal_seal. cbn.
    by rewrite bool_decide_eq_true_2.
  - split. intros s. apply of_hex_of.
  - by intros [j m [n|n] [no b]].
  - intros v. apply utf8_plain, hex_of_plain.
Qed.

(** ** The servers: a few of the methods *)
Definition toy_arg (v : jv) (k : string) : jv := toy_index (toy_index v "params") k.
Definition toy_token (v : jv) : Token := match toy_arg v "token" with JNum n => Some n | _ => None end.
Definition toy_text_arg (v : jv) (k : string) : string := default "" (toy_string (toy_arg v k)).
Definition toy_owner_calls (v : jv) : list OwnerCall :=
  match toy_string (toy_index v "method") with
  | None => []
  | Some m =>
      filter (fun c => method_name c = m)
        [RpcInitSecureApi (match toy_arg v "ecdh_pubkey" with JNum n => n | _ => 0 end); RpcAccounts (toy_token v);
         RpcCreateWallet (toy_string (toy_arg v "mnemonic")) 32 (toy_text_arg v "password"); RpcOpenWallet (toy_text_arg v "password");
         RpcCloseWallet; RpcSetTopLevelDirectory (toy_text_arg v "dir"); RpcStopUpdater; RpcStartUpdater (toy_token v) 1]
  end.
Definition toy_owner_result (r : OwnerOk) : jv :=
  match r with
  | OkPubkey k => JStr (hex_encode (pk_serialize_compressed k))
  | OkToken (Some k) => JStr (hex_encode (sk_bytes k))
  | OkAccounts l => JArr ((fun a => JStr (ap_label a)) <$> l)
  | OkString s => JStr s
  | _ => JNull
  end.
Definition toy_owner_reply (v : jv) (l : list (OwnerOk + string)) : option jv :=
  match l with
  | [] => None
  | inl r :: _ => Some (JObj [("id", toy_index v "id"); ("result", JObj [("Ok", toy_owner_result r)])])
  | inr e :: _ => Some (JObj [("id", toy_index v "id"); ("result", JObj [("Err", JStr e)])])
  end.
#[export] Instance toy_servers : RpcServers := {|
  owner_calls := toy_owner_calls; owner_reply := toy_owner_reply;
  foreign_calls v := if bool_decide (toy_string (toy_index v "method") = Some "check_version") then [FrpcCheckVersion] else [];
  foreign_reply _ l := match l with [] => None | _ => Some (JObj [("result", JNull)]) end |}.
#[export] Instance toy_server_laws : RpcServerLaws.
Proof.
  intros v m c Hm Hc. cbn in Hm, Hc. unfold toy_owner_calls in Hc.
  change (toy_string (toy_index v "method") = Some m) in Hm. rewrite Hm in Hc. by apply list_elem_of_filter in Hc as [Hc _].
Qed.
#[export] Instance toy_handshake : HandshakeReplies.
Proof.
  split.
  - intros v k k' _. eexists. split_and!; done.
  - intros v k e answer _ [= <-]. done.
Qed.
