(* ===== verification/NetWitnesses.v ===== *)
(** * The servers and the network at work

    A client makes a handshake and creates a wallet over the sealed channel; a node is asked for
    outputs in several requests; updaters are started and stopped. *)
From S2P Require Import Prelude.
From S2P Require Import RustStd.
From S2P Require Import Crates.
From S2P Require Import Effects.
From S2P Require Import Slate.
From S2P Require Import SlateV4.
From S2P Require Import SlateBin.
From S2P Require Import StateM.
From S2P Require Import Wallet.
From S2P Require Import Address.
From S2P Require Import Selection.
From S2P Require Import WalletTx.
From S2P Require Import Slatepack.
From S2P Require Import Armor.
From S2P Require Import Updater.
From S2P Require Import Scan.
From S2P Require Import Owner.
From S2P Require Import Packer.
From S2P Require Import Foreign.
From S2P Require Import Invariant.
From S2P Require Import Seed.
From S2P Require Import Lifecycle.
From S2P Require Import Json.
From S2P Require Import NodeHttp.
From S2P Require Import Sender.
From S2P Require Import Facade.
From S2P Require Import UpdaterThread.
From S2P Require Import Rpc.
From S2P Require Import SecureApi.
From S2P Require Import Server.
From S2P Require Import Api.
From S2P Require Import Toy.
From S2P Require Import ToyWallet.
From S2P Require Import WalletWitnesses.
From S2P Require Import ApiWitnesses.
From S2P Require Import PackWitnesses.
From S2P Require Import LifeWitnesses.
From S2P Require Import NetToy.

(** A run that ends well. *)
Definition value_of {A S} (d : A) (p : Res A * S) : A := match p.1 with Ok a => a | _ => d end.
Lemma run_Ok {A S} (d : A) (p : Res A * S) : is_ok p.1 = true -> p = (Ok (value_of d p), p.2).
Proof. by destruct p as [[] s]. Qed.

(** ** Outputs *)
Definition node0 : HTTPNodeClient := HTTPNodeClient_new "http://127.0.0.1:3413" None.
Definition chain0 (c : Commitment) : option (Z * Z) :=
  let '(v, k) := (c : Z * Z) in if 10 <? v then Some (v * 2, k) else None.
Definition told (c : Commitment) : option OutputPrintable :=
  '(h, i) ← chain0 c; Some (mkOutputPrintable OutputTransaction c false None (Some h) i).
Definition asked (params : Value) : list (Z * Z) :=
  match params : jv with
  | JArr (JArr l :: _) => omap (fun v => (commit_from_vec : string -> Z * Z) <$> toy_string v) l
  | _ => []
  end.
Definition node_reply (r : WireRequest) : WireReply :=
  match of_text (A := string * jv) (wire_body r) with
  | Ok (_, params) => WireText 200 (to_text (A := Response) (mkResponse (Some (JObj [("Ok", as_text (A := list OutputPrintable) (omap told (asked params)))])) None (JNum 1) (Some "2.0")))
  | _ => WireText 400 ""
  end.
Definition world1 : World := MkWorld (MkTape (fun n => 7 * Z.of_nat n + 3) 0) [] [] (fun _ => true) (fun _ r => node_reply r) [].
Lemma asked_outputs (cs : list (Z * Z)) : asked (outputs_params (hex_commit <$> cs)) = cs.
Proof.
  induction cs as [|c cs IH]; [done|].
  exact (f_equal2 cons (commit_from_bytes c) IH).
Qed.
Lemma node0_honest : honest_node node0 chain0 world1.
Proof.
  intros evs cs. cbn [w_nodes world1]. unfold node_reply, outputs_wire, rpc_wire. cbn [wire_body].
  change (request_to_string ?r) with (to_text (rq_method r, rq_params r)). rewrite of_to_text. cbn [rq_params build_request].
  rewrite asked_outputs. do 3 eexists. exists (omap told cs). split_and!; [done|apply of_to_text| |]. {
    change (map_err json_error (of_text (A := list OutputPrintable) (to_text (omap told cs))) = Ok (omap told cs)). by rewrite of_to_text. }
  split.
  - intros o (c & Hc & Ho)%list_elem_of_omap. unfold told in Ho. destruct (chain0 c) as [[h i]|] eqn:E; [|done].
    injection Ho as <-. cbn. split; [done|]. by exists h, i.
  - intros c Hc [[h i] E]. exists (mkOutputPrintable OutputTransaction c false None (Some h) i). split; [|done].
    apply list_elem_of_omap. exists c. split; [done|]. unfold told. by rewrite E.
Qed.
Definition cs0 : list Commitment := [(11, 1); (3, 2); (20, 5)].
Lemma outputs_query_exact_witness :
  exists m, ends (node_get_outputs node0 cs0) world1 = Ok m /\ map_get ((20, 5) : Commitment) m = entry chain0 (20, 5) /\ map_get ((3, 2) : Commitment) m = None.
Proof.
  destruct (proj1 (outputs_query_exact node0 chain0 cs0 world1) eq_refl) as (m & E & Hm); [by intros Hx|exact node0_honest|].
  exists m. split; [exact E|]. split; [exact (Hm (20, 5))|exact (Hm (3, 2))].
Defined.

(** ** The handshake *)
Definition disk1 : Disk := mkDisk ∅ ∅ (MkTape (fun n => 7 * Z.of_nat n) 0).
Definition server0 : Server := Server_new (mkHost (DefaultLCProvider_new disk1 ∅) world1) None None true.
Definition init_request : Value :=
  JObj [("method", JStr "init_secure_api"); ("id", JNum 1); ("params", JObj [("ecdh_pubkey", JNum 1234567)])].
Definition init_run := owner_call_api 5 (Some (toy_json_text init_request)) server0.
Definition reply1 : Value := value_of JNull init_run.
Definition server1 : Server := init_run.2.
Lemma init_run_eq : owner_call_api 5 (Some (toy_json_text init_request)) server0 = (Ok reply1, server1).
Proof. apply run_Ok. vm_compute. reflexivity. Qed.
Definition create_request : Value :=
  JObj [("method", JStr "create_wallet"); ("id", JNum 2);
        ("params", JObj [("mnemonic", JStr phrase0); ("password", JStr "pw")])].
Definition key0 : SecretKey := default (ZERO_KEY : SecretKey) (sv_shared_key server1).
Definition create_run1 := handle_owner 5 create_request (sv_sys server1).
Definition answer1 : Value := default (JNull : jv) (value_of None create_run1).
Lemma create_run1_eq : handle_owner 5 create_request (sv_sys server1) = (Ok (Some answer1), create_run1.2).
Proof.
  change (create_run1 = (Ok (Some answer1), create_run1.2)). rewrite (run_Ok None create_run1) at 1 by (vm_compute; reflexivity).
  f_equal.
Qed.
Definition sealed_create : EncryptedRequest :=
  match request_from_json (zeros 12) (IntId 2) create_request key0 with Ok r => r | _ => mkEncryptedRequest "" "" (IntId 0) (mkEncryptedBody "" "") end.
Lemma sealed_create_eq : request_from_json (zeros 12) (IntId 2) create_request key0 = Ok sealed_create.
Proof. reflexivity. Qed.
Definition client_key : SecretKey := (1234567 : Z).
Definition server_key : PublicKey := (4 : Z).
Lemma handshake_serves_witness :
  shared_key_of server_key client_key = Ok key0
  /\ exists resp h2, owner_call_api 5 (Some (jdisplay (request_value sealed_create))) server1 = (Ok (response_value resp), h2)
     /\ response_decrypt resp key0 = Ok (check_error_response answer1).2.
Proof.
  destruct (handshake_serves 5 client_key client_key (toy_json_text init_request) init_request server0 reply1 server1 server_key)
    as (_ & key & Hs & Hk & Hserve).
  - reflexivity.
  - exact (toy_parse_text init_request).
  - reflexivity.
  - reflexivity.
  - exact init_run_eq.
  - vm_compute. reflexivity.
  - assert (Ek : sv_shared_key server1 = Some key0) by (vm_compute; reflexivity). rewrite Ek in Hk. apply (inj Some) in Hk as <-.
    split; [exact Hs|].
    destruct (Hserve (zeros 12) (IntId 2) create_request sealed_create answer1 create_run1.2) as (resp & h2 & E & _ & _ & Hd);
      [by intros k n x; eexists|reflexivity|exact sealed_create_eq|reflexivity|exact create_run1_eq|].
    exists resp, h2. split; [exact E|exact Hd].
Defined.

(** ** Who is obeyed *)
Definition sealed_text : string := jdisplay (request_value sealed_create).
Definition sealed_run := owner_call_api 5 (Some sealed_text) server1.
Definition files_of (h : Server) : nat := length (map_to_list (dk_files (pr_disk (h_provider (oa_host (sv_api h)))))).
#[local] Strategy -100 [sealed_run].
Lemma owner_api_sealed_witness :
  files_of sealed_run.2 = 1%nat
  /\ exists v key id req, json_from_str sealed_text = Ok v /\ sv_shared_key server1 = Some key
     /\ decrypt_request (Some key) v = Ok (inl (id, req)) /\ forall reply, sealed_run.1 = Ok reply -> sealed_reply key id req reply.
Proof.
  assert (Hf : files_of sealed_run.2 = 1%nat) by (vm_compute; reflexivity). split; [exact Hf|].
  destruct (owner_api_sealed 5 (Some sealed_text) server1 sealed_run.1 sealed_run.2) as (text & v & key & id & req & E & Ej & _ & Ek & Ed & Hr).
  - exact (surjective_pairing sealed_run).
  - intros Hg. assert (H1 : files_of sealed_run.2 = files_of server1) by (unfold files_of; unfold guarded in Hg; congruence).
    rewrite Hf in H1. vm_compute in H1. discriminate H1.
  - injection E as <-. exists v, key, id, req. split; [exact Ej|]. split; [exact Ek|]. split; [exact Ed|exact Hr].
Defined.

(** ** Stores *)
Definition server2 : Server := (owner_post 5 (Some sealed_text) (owner_post 5 (Some (toy_json_text init_request)) server0).2).2.
Lemma served_wallets_well_formed_witness :
  files_of server2 = 1%nat /\ sound (h_provider (oa_host (sv_api server2))).
Proof.
  split; [vm_compute; reflexivity|].
  apply (served_wallets_well_formed 5 disk1 world1 None None true server2).
  exact (rtc_l _ _ _ _ (serve_owner 5 (Some (toy_json_text init_request)) server0) (rtc_once _ _ (serve_owner 5 (Some sealed_text) _))).
Defined.

(** ** Updaters *)
Definition idle : OwnerApi := set_oa_updater_running true (Owner_new (mkHost provider0 world1)).
Definition sys0 : Sys := mkSys idle [] (Some (AtRound, None)).
Definition sys1 : Sys := mkSys (set_oa_updater_running false idle) [] None.
Lemma stop_ends_updater_witness :
  steps 5 [LStop; LRound; LLeave] sys0 sys1
  /\ (count_of is_round [LRound; LLeave] <= 1)%nat /\ (sy_running sys1 <> None -> exists l s'', of_thread l = true /\ step 5 l sys1 s'').
Proof.
  assert (Hs : steps 5 [LStop; LRound; LLeave] sys0 sys1).
  { eapply steps_cons; [apply step_stop|]. eapply steps_cons; [apply (step_round 5 _ [] None (set_oa_updater_running false idle)); reflexivity|].
    eapply steps_cons; [by apply step_leave|]. apply steps_nil. }
  split; [exact Hs|]. destruct (stop_ends_updater 5 sys0 [LRound; LLeave] sys1) as (H1 & _ & _ & H4);
    [reflexivity|repeat constructor|exact Hs|]. split; [exact H1|exact H4].
Defined.
Definition sys2 : Sys := mkSys (set_oa_updater_messages [UpdateWarning "b"] idle) [] None.
Lemma messages_in_order_witness :
  exists s, steps 5 [LMessage (UpdateWarning "a"); LMessage (UpdateWarning "b"); LRead 1] (mkSys idle [] None) s
    /\ [UpdateWarning "a"; UpdateWarning "b"]
       = delivered [LMessage (UpdateWarning "a"); LMessage (UpdateWarning "b"); LRead 1] [] ++ rev (oa_updater_messages (sy_api s)).
Proof.
  eexists. assert (Hs : steps 5 [LMessage (UpdateWarning "a"); LMessage (UpdateWarning "b"); LRead 1] (mkSys idle [] None) sys2).
  { eapply steps_cons; [apply step_message|]. eapply steps_cons; [apply step_message|].
    eapply steps_cons; [apply step_read|]. apply steps_nil. }
  split; [exact Hs|]. refine (proj2 (messages_in_order 5 _ (mkSys idle [] None) sys2 Hs _) _); cbn.
  - unfold MESSAGE_QUEUE_MAX_LEN. lia.
  - repeat split; apply Nat.ltb_lt; vm_compute; reflexivity.
Defined.
