(* ===== verification/CmdWitnesses.v ===== *)
(** * The commands of the wallet at work

    An invoice that is paid after two answers, and one that is paid because the input ended; a wallet
    that locks coins and is then asked other things; and three situations in which the code does
    what it does not mean to. *)
From S2P Require Import Prelude.
From S2P Require Import RustStd.
From S2P Require Import Crates.
From S2P Require Import Effects.
From S2P Require Import Slate.
From S2P Require Import SlateV4.
From S2P Require Import SlateBin.
From S2P Require Import StateM.
From S2P Require Import Wallet.
From S2P Require Import Address.
From S2P Require Import Selection.
From S2P Require Import WalletTx.
From S2P Require Import Slatepack.
From S2P Require Import Armor.
From S2P Require Import Updater.
From S2P Require Import Scan.
From S2P Require Import Owner.
From S2P Require Import Packer.
From S2P Require Import Foreign.
From S2P Require Import Invariant.
From S2P Require Import Locks.
From S2P Require Import Seed.
From S2P Require Import Lifecycle.
From S2P Require Import Json.
From S2P Require Import NodeHttp.
From S2P Require Import Sender.
From S2P Require Import Facade.
From S2P Require Import Sound.
From S2P Require Import Rpc.
From S2P Require Import Foreign.
From S2P Require Import Api.
From S2P Require Import Toy.
From S2P Require Import ToyWallet.
From S2P Require Import WalletWitnesses.
From S2P Require Import ApiWitnesses.
From S2P Require Import PackWitnesses.
From S2P Require Import LifeWitnesses.
From S2P Require Import NetToy.
From S2P Require Import NetWitnesses.
From S2P Require Import WalletCmd.
From S2P Require Import WalletArgs.
From Stdlib Require Import Ascii.
#[local] Open Scope Z_scope.

(** ** Locked coins *)
Lemma purse_well_formed : well_formed wallet0.
Proof.
  split; [reflexivity|]. split; [exact purse_keyed|apply map_Forall_empty..].
Defined.
Definition locked_wallet : Wallet := call (call wallet0 (None, CSend args0 false)) (None, CLock slate2).
Lemma locked_well_formed : well_formed locked_wallet.
Proof. apply call_keeps. apply call_keeps. exact purse_well_formed. Defined.
Definition key_a : Identifier := "a"%char.
(** A second payment is begun, and what there is is looked at. *)
Definition then_asked : list (option SecretKey * Command) :=
  [(None, CSummary 5 true 10); (None, CSend args_expiring false); (None, CInvoice (mkIssueInvoiceTxArgs None 7 None) false)].
Lemma only_locking_locks_witness :
  locked_in (wa_db (foldl call locked_wallet then_asked)) key_a /\ locked_in (wa_db locked_wallet) key_a
  /\ ~ locked_in (wa_db wallet0) key_a.
Proof.
  assert (Hl : locked_in (wa_db (foldl call locked_wallet then_asked)) key_a).
  { exists (output_key key_a None). eexists. split_and!; vm_compute; reflexivity. }
  split_and!; [exact Hl| |].
  - apply (only_locking_locks locked_wallet then_asked key_a locked_well_formed); [|exact Hl].
    intros c Hc. repeat (apply elem_of_cons in Hc as [->|Hc]; [reflexivity|]). by apply elem_of_nil in Hc.
  - intros (k & o & Hk & Ho & Hs).
    assert (Hf : map_Forall (fun _ x => ~ (od_key_id x = key_a /\ od_status x = Locked)) (db_outputs (wa_db wallet0)))
      by (refine (bool_decide_unpack _ _); vm_compute; exact I).
    exact (Hf k o Hk (conj Ho Hs)).
Defined.

(** ** Paying an invoice *)
#[local] Instance toy_args : ArgCrates := {| amount_from_hr_string := parse_u64; uuid_parse s := Ok (bool_decide (s = "1")) |}.
Definition toy_matches (l : list (string * string)) : Matches :=
  {| value_of name := snd <$> find (fun p => bool_decide (p.1 = name)) l;
     is_present name := is_some (snd <$> find (fun p => bool_decide (p.1 = name)) l);
     value_present name v E := f_equal is_some E |}.
Definition pay_matches : Matches := toy_matches [("minimum_confirmations", "10"); ("selection_strategy", "smallest")].
Definition invoice7 : Slate := set_sl_amount 7 slate0.
Definition shell0 (lines : list ReadResult) : Shell := mkShell (Owner_new (mkHost provider0 world1)) lines [].
Definition typed : list ReadResult := [Input "yes"; OtherSignal; Input " 7 "; Input "more"].
Definition paid_args : ProcessInvoiceArgs :=
  mkProcessInvoiceArgs 10 "smallest" None 500 invoice7 false None false None.
Definition pay_run := parse_process_invoice_args pay_matches true invoice7 None (shell0 typed).
Lemma pay_run_eq : parse_process_invoice_args pay_matches true invoice7 None (shell0 typed) = (Ok paid_args, pay_run.2).
Proof.
  assert (E : pay_run.1 = Ok paid_args) by (vm_compute; reflexivity). unfold pay_run in *.
  destruct (parse_process_invoice_args _ _ _ _ _) as [r s']. cbn in *. by rewrite E.
Defined.
Lemma invoice_paid_on_demand_witness :
  sh_owner pay_run.2 = Owner_new (mkHost provider0 world1) /\ sh_in pay_run.2 = [Input "more"]
  /\ exists refused rest, typed = refused ++ rest
       /\ ((exists line, rest = Input line :: sh_in pay_run.2 /\ trim line = "7") \/ rest = [] \/ rest = Eof :: sh_in pay_run.2).
Proof.
  destruct (invoice_paid_on_demand pay_matches invoice7 None (shell0 typed) paid_args pay_run.2 pay_run_eq)
    as (H0 & _ & _ & refused & rest & H1 & _ & _ & H2).
  split; [exact H0|]. split; [vm_compute; reflexivity|]. exists refused, rest. split; [exact H1|exact H2].
Defined.
(** The user closes the input at the question, and the invoice is paid. *)
Example end_of_input_is_yes :
  (parse_process_invoice_args pay_matches true invoice7 None (shell0 [Input "no"; Eof])).1 = Ok paid_args.
Proof. vm_compute. reflexivity. Qed.

(** ** Numbers of payments *)
(** The number of a payment is cut to 32 bits: the payment with number 5 is cancelled. *)
Example id_wraps : parse_cancel_args (toy_matches [("id", "4294967301")]) = Ok (mkCancelArgs (Some 5) None "").
Proof. vm_compute. reflexivity. Qed.
(** And [repost] without one panics. *)
Example repost_needs_id : is_panic (parse_repost_args (toy_matches [])) = true.
Proof. vm_compute. reflexivity. Qed.

(** ** A payment to be locked late *)
Definition late_args : InitTxArgs := mkInitTxArgs None 1200 10 500 1 false None None None None (Some true) None.
Definition late_run := init_send_tx None late_args false wallet0.
Definition late_slate : Slate := result slate0 late_run.
Definition late_lock_run := tx_lock_outputs None late_slate late_run.2.
Definition late_reply : Slate := result slate0 (receive_tx None late_slate None false receiver0).
Definition late_final := owner_finalize None late_reply late_lock_run.2.
(** The command [send] locks at once all the same: the log gets an entry without coins, and a second one when the payment
    is finalized; afterwards the payment cannot be cancelled by its slate any more. *)
Example late_lock_entered_twice :
  ((fun t => (tl_id t, tl_num_inputs t, tl_amount_debited t)) <$> db_iter (db_tx_log (wa_db late_lock_run.2)),
   (fun t => (tl_id t, tl_num_inputs t, tl_amount_debited t)) <$> db_iter (db_tx_log (wa_db late_final.2)),
   (cancel_tx None purse None (Some (sl_id late_slate)) late_final.2).1)
  = ([(0, 0, 0)], [(0, 0, 0); (1, 2, 1500)], Err "TransactionDoesntExist(1)").
Proof. vm_compute. reflexivity. Qed.
