(* ===== verification/Visitor.v ===== *)
(** * A derived visitor

    An implementation of [SerdeCrate] as the derive macro of serde generates it.  The visitor
    takes the entries of a map in their order, whatever it is: the first one that cannot be
    read ends it, unknown names are passed over, a name that comes twice is an error.  A
    sequence is read by position. *)
From S2P Require Import Prelude.
From S2P Require Import RustStd.
From S2P Require Import Serde.
#[local] Open Scope Z_scope.

(** ** Primitive types *)
Definition bad_type {A} : Res A := Err "invalid type".
Definition read_string (t : Tree) : Res string := match t with TStr s => Ok s | _ => bad_type end.
Definition read_option {A} (de : Tree -> Res A) (t : Tree) : Res (option A) :=
  match t with TNull => Ok None | _ => x ← de t; Ok (Some x) end.
Definition read_uint (max : Z) (t : Tree) : Res Z :=
  match t with TNum n => if (0 <=? n) && (n <=? max) then Ok n else Err "invalid value" | _ => bad_type end.
Definition read_vec {A} (de : Tree -> Res A) (t : Tree) : Res (list A) :=
  match t with TArr l => res_map de l | _ => bad_type end.

(** ** Structs: what a visitor has seen *)
Fixpoint Seen (fs : list Field) : Type :=
  match fs with [] => unit | f :: fs' => option (fd_type f) * Seen fs' end.
Fixpoint nothing (fs : list Field) : Seen fs :=
  match fs with [] => tt | f :: fs' => (None, nothing fs') end.

(** [visit_map], entry by entry *)
Fixpoint visit_entry (fs : list Field) (k : string) (t : Tree) : Seen fs -> Res (Seen fs) :=
  match fs with
  | [] => fun acc => Ok acc
  | f :: fs' => fun acc =>
      if decide (fd_name f = k) then
        match acc.1 with
        | Some _ => Err "duplicate field"
        | None => x ← fd_de f t; Ok (Some x, acc.2)
        end
      else rest ← visit_entry fs' k t acc.2; Ok (acc.1, rest)
  end.
Fixpoint visit_map (fs : list Field) (l : list (string * Tree)) (acc : Seen fs) : Res (Seen fs) :=
  match l with [] => Ok acc | e :: l' => acc ← visit_entry fs e.1 e.2 acc; visit_map fs l' acc end.
Fixpoint close_struct (fs : list Field) : Seen fs -> Res (Vals fs) :=
  match fs with
  | [] => fun _ => Ok tt
  | f :: fs' => fun acc =>
      x ← match acc.1 with Some x => Ok x | None => ok_or "missing field" (fd_default f) end;
      xs ← close_struct fs' acc.2; Ok (x, xs)
  end.
Fixpoint visit_seq (fs : list Field) (l : list Tree) : Res (Vals fs) :=
  match fs, l with
  | [], [] => Ok tt
  | [], _ :: _ => Err "invalid length"
  | f :: fs', t :: l' => x ← fd_de f t; xs ← visit_seq fs' l'; Ok (x, xs)
  | f :: fs', [] => x ← ok_or "invalid length" (fd_default f); xs ← visit_seq fs' []; Ok (x, xs)
  end.

#[export] Instance visitor : SerdeCrate := {|
  de_string := read_string; de_option := @read_option; de_vec := @read_vec; de_uint := read_uint;
  ser_struct fs v := TObj (entries fs v);
  de_struct fs t :=
    match t with
    | TObj l => acc ← visit_map fs l (nothing fs); close_struct fs acc
    | TArr l => visit_seq fs l
    | _ => bad_type
    end |}.

(** What is there of the values of a struct once its own entries were visited. *)
Fixpoint written (fs : list Field) : Vals fs -> Seen fs :=
  match fs with
  | [] => fun _ => tt
  | f :: fs' => fun v => (if fd_skip f v.1 then None else Some v.1, written fs' v.2)
  end.

(** A name not seen so far. *)
Fixpoint unseen (fs : list Field) (k : string) : Seen fs -> Prop :=
  match fs with
  | [] => fun _ => True
  | f :: fs' => fun acc => if decide (fd_name f = k) then acc.1 = None else unseen fs' k acc.2
  end.

(** ** Lemmas *)
Lemma visit_unknown fs k t acc : k ∉ names fs -> visit_entry fs k t acc = Ok acc.
Proof.
  induction fs as [|f fs IH]; cbn; [done|]. intros [Hk Hks]%not_elem_of_cons.
  case_decide; [by subst|]. rewrite (IH acc.2 Hks). by destruct acc.
Qed.
(** Entries under unknown names do nothing. *)
Lemma visit_map_known fs l : forall acc, visit_map fs l acc = visit_map fs (filter (known fs) l) acc.
Proof.
  induction l as [|[k t] l IH]; intros acc; [done|]. rewrite filter_cons. case_decide as Hk; cbn.
  - destruct (visit_entry fs k t acc); cbn; [apply IH|done..].
  - rewrite (visit_unknown _ _ _ _ Hk). apply IH.
Qed.

(** Two entries under different names may be visited in either order. *)
Lemma visit_swap fs k k' t t' acc a1 a2 :
  k <> k' -> visit_entry fs k t acc = Ok a1 -> visit_entry fs k' t' a1 = Ok a2 ->
  exists b, visit_entry fs k' t' acc = Ok b /\ visit_entry fs k t b = Ok a2.
Proof.
  intros Hk. revert acc a1 a2; induction fs as [|f fs IH]; intros acc a1 a2; cbn; [naive_solver|].
  destruct (decide (fd_name f = k)) as [E|E], (decide (fd_name f = k')) as [E'|E']; [congruence|..].
  - destruct acc as [[?|] acc]; cbn; [done|]. intros (x & Ex & [= <-])%res_bind_Ok (rest & Er & [= <-])%res_bind_Ok.
    cbn in Er. rewrite Er. cbn. eexists. split; [done|]. cbn. by rewrite Ex.
  - intros (rest & Er & [= <-])%res_bind_Ok. cbn. destruct acc as [[?|] acc]; cbn in *; [done|].
    intros (x & Ex & [= <-])%res_bind_Ok. rewrite Ex. cbn. eexists. split; [done|]. cbn. by rewrite Er.
  - intros (r1 & E1 & [= <-])%res_bind_Ok (r2 & E2 & [= <-])%res_bind_Ok. cbn in *.
    destruct (IH _ _ _ E1 E2) as (b & -> & Eb). cbn. eexists. split; [done|]. cbn. by rewrite Eb.
Qed.
Lemma visit_permutation fs l l' : l ≡ₚ l' -> NoDup l.*1 -> forall acc r, visit_map fs l acc = Ok r -> visit_map fs l' acc = Ok r.
Proof.
  induction 1 as [|e l l' Hl IH|e e' l|l l' l'' H1 IH1 H2 IH2]; intros Hn acc r E; [done|..].
  - cbn in *. apply NoDup_cons in Hn as [_ Hn]. apply res_bind_Ok in E as (a & -> & E). cbn. by apply IH.
  - cbn in *. apply NoDup_cons in Hn as [Hd _]. apply not_elem_of_cons in Hd as [Hd _].
    apply res_bind_Ok in E as (a1 & E1 & E). apply res_bind_Ok in E as (a2 & E2 & E).
    destruct (visit_swap _ _ _ _ _ _ _ _ Hd E1 E2) as (b & -> & Eb). cbn. by rewrite Eb.
  - apply IH2; [|by apply IH1]. by rewrite <- H1.
Qed.

(** The entries of other fields leave a field alone. *)
Lemma visit_tail f fs l o acc acc' :
  fd_name f ∉ l.*1 -> visit_map fs l acc = Ok acc' -> visit_map (f :: fs) l (o, acc) = Ok (o, acc').
Proof.
  revert acc; induction l as [|[k t] l IH]; intros acc; [by intros _ [= <-]|]. cbn. intros [Hk Hl]%not_elem_of_cons.
  intros (a & Ea & E)%res_bind_Ok. case_decide; [done|]. rewrite Ea. cbn. by apply IH.
Qed.
Lemma visit_entries fs v : NoDup (names fs) -> vals_ok fs v -> visit_map fs (entries fs v) (nothing fs) = Ok (written fs v).
Proof.
  induction fs as [|f fs IH]; [done|]. intros [Hf Hn]%NoDup_cons [Ho Hv]. unfold field_ok in Ho.
  assert (Hr : fd_name f ∉ (entries fs v.2).*1).
  { intros (e & E & He)%list_elem_of_fmap. apply Hf. cbn in E. rewrite E. by apply entries_names in He. }
  specialize (IH _ Hn Hv). cbn [entries written nothing].
  destruct (fd_skip f v.1); [by apply visit_tail|]. cbn [visit_map visit_entry fst snd].
  rewrite decide_True by done. rewrite Ho. cbn. by apply visit_tail.
Qed.
Lemma close_written fs v : vals_ok fs v -> close_struct fs (written fs v) = Ok v.
Proof.
  induction fs as [|f fs IH]; [by destruct v|]. intros [Ho Hv]. unfold field_ok in Ho. cbn.
  rewrite (IH _ Hv). destruct v as [x v]. cbn in *. destruct (fd_skip f x); [by rewrite Ho|done].
Qed.

(** *** Entries that end a visit *)
Lemma unseen_nothing fs k : unseen fs k (nothing fs).
Proof. induction fs as [|f fs IH]; cbn; [done|]. by case_decide. Qed.
Lemma visit_entry_unseen fs k k' t acc acc' : k <> k' -> visit_entry fs k' t acc = Ok acc' -> unseen fs k acc -> unseen fs k acc'.
Proof.
  intros Hk. revert acc acc'; induction fs as [|f fs IH]; intros acc acc'; cbn; [done|].
  repeat case_decide; [congruence|..].
  - destruct acc.1; [done|]. by intros (r & E & [= <-])%res_bind_Ok.
  - by intros (r & E & [= <-])%res_bind_Ok.
  - intros (r & E & [= <-])%res_bind_Ok. cbn. by apply IH.
Qed.
Lemma visit_map_unseen fs k l : forall acc acc', k ∉ l.*1 -> visit_map fs l acc = Ok acc' -> unseen fs k acc -> unseen fs k acc'.
Proof.
  induction l as [|[k' t] l IH]; intros acc acc'; cbn; [by intros _ [= <-]|]. intros [Hk Hl]%not_elem_of_cons (a & Ea & E)%res_bind_Ok Hu.
  eapply IH; [done|exact E|]. by eapply visit_entry_unseen.
Qed.
Lemma visit_entry_panic fs k t e acc : unseen fs k acc -> panics_on fs k t e -> visit_entry fs k t acc = Panic e.
Proof.
  induction fs as [|f fs IH]; cbn; [done|]. case_decide; [by intros -> ->|]. intros Hu Hp. by rewrite IH.
Qed.
(** Entries that can be read, each once, are read. *)
Lemma visit_reads fs l acc :
  NoDup l.*1 -> Forall (fun p => reads_entry fs p.1 p.2) l -> (forall k, k ∈ l.*1 -> unseen fs k acc) ->
  exists acc', visit_map fs l acc = Ok acc'.
Proof.
  revert acc; induction l as [|[k t] l IH]; intros acc; [by eexists|]. cbn. intros [Hk Hn]%NoDup_cons [Hr Hl]%Forall_cons Hu.
  assert (He : exists a, visit_entry fs k t acc = Ok a).
  { specialize (Hu k ltac:(by left)). clear -Hr Hu. induction fs as [|f fs IH]; cbn in *; [by eexists|]. case_decide.
    - destruct Hr as (x & Ex). rewrite Hu, Ex. by eexists.
    - destruct (IH acc.2 Hr Hu) as (a & E). exists (acc.1, a). cbn. exact (f_equal (fun r => rest ← r; Ok (acc.1, rest)) E). }
  destruct He as (a & Ea). rewrite Ea. cbn. apply IH; [done..|]. intros k' Hk'.
  eapply visit_entry_unseen; [|exact Ea|apply Hu; by right]. intros ->. done.
Qed.

(** ** The laws *)
#[export] Instance visitor_laws : SerdeLaws.
Proof.
  split; try done.
  - by intros [].
  - by intros A de [].
  - intros max n []. cbn. by rewrite (proj2 (Z.leb_le _ _)), (proj2 (Z.leb_le _ _)).
  - intros fs v l Hn Hv Hl. cbn. rewrite visit_map_known.
    erewrite visit_permutation; [|by symmetry|by apply entries_nodup|by apply visit_entries]. by apply close_written.
  - intros fs l k t l2 e Hn Hl Hk Hp.
    destruct (visit_reads fs l (nothing fs) Hn Hl) as (acc & Ea); [intros; apply unseen_nothing|].
    cbn. assert (E : visit_map fs (l ++ (k, t) :: l2) (nothing fs) = Panic e); [|by rewrite E].
    assert (Hu : unseen fs k acc) by (eapply visit_map_unseen; [done|exact Ea|apply unseen_nothing]).
    revert Ea. generalize (nothing fs) as acc0. clear -Hu Hp. induction l as [|e' l IH]; intros acc0; cbn.
    + intros [= ->]. by rewrite (visit_entry_panic _ _ _ _ _ Hu Hp).
    + by intros (a & -> & E)%res_bind_Ok; apply IH.
Qed.

(** A name that comes twice is refused, if nothing is wrong in front of it. *)
Lemma visit_twice fs k t t' acc acc' : k ∈ names fs -> visit_entry fs k t acc = Ok acc' -> visit_entry fs k t' acc' = Err "duplicate field".
Proof.
  revert acc acc'; induction fs as [|f fs IH]; intros acc acc'; cbn; [by intros ?%elem_of_nil|]. case_decide.
  - intros _. destruct acc.1; [done|]. by intros (x & _ & [= <-])%res_bind_Ok.
  - intros [?|Hk]%elem_of_cons; [congruence|]. intros (r & E & [= <-])%res_bind_Ok. cbn. by rewrite (IH _ _ Hk E).
Qed.
