(* ===== verification/SerWitnesses.v ===== *)
(** * The JSON of slates at work

    The world of [Toy] with its parameters of [Ser]; the JSON of a slate with a payment
    proof; what comes after the proof when its signature was cut off; a few texts of
    ser.rs. *)
From S2P Require Import Prelude.
From S2P Require Import RustStd.
From S2P Require Import Crates.
From S2P Require Import Effects.
From S2P Require Import Slate.
From S2P Require Import SlateV4.
From S2P Require Import SlateBin.
From S2P Require Import StateM.
From S2P Require Import Wallet.
From S2P Require Import Address.
From S2P Require Import Serde.
From S2P Require Import Visitor.
From S2P Require Import Ser.
From S2P Require Import Toy.
From S2P Require Import ToyWallet.
From S2P Require Import WalletWitnesses.
From S2P Require Import LifeWitnesses.
From S2P Require Import NetToy.
From Stdlib Require Import Ascii.
#[local] Open Scope Z_scope.

(** ** The parameters *)
Definition toy_num (t : Tree) : Res Z := match t with TNum n => Ok n | _ => bad_type end.
Definition toy_of_text {A} `{Codec A} (t : Tree) : Res A := s ← read_string t; of_text s.
#[export] Instance toy_ser : SerCrates := {|
  dalek_sk_bytes _ := zeros 32;
  xDalekPublicKey := unit; x_pk_bytes _ := zeros 32; x_pk_from _ := tt;
  rangeproof_bytes p := to_text (A := Z * Z) p; rangeproof_deserialize s := of_text (A := Z * Z) s;
  blind_as_hex := TNum; blind_from_hex := toy_num;
  commitment_as_hex c := TStr (to_text (A := Z * Z) c); commitment_from_hex := toy_of_text (A := Z * Z);
  rangeproof_as_hex p := TStr (to_text (A := Z * Z) p);
  pubkey_ser := TNum; pubkey_de := toy_num;
  sig_ser s := TStr (to_text (A := Z * Z) s);
  option_sig_ser := ser_option (fun s => TStr (to_text (A := Z * Z) s)); option_sig_de := read_option (toy_of_text (A := Z * Z));
  string_or_u64_ser n := TStr (fmt_u64 n);
  string_or_u64_de t := match t with TStr s => parse_u64 s | _ => read_uint (u64_modulus - 1) t end;
  fee_ser := TNum; fee_de := toy_num;
  uuid_ser := TBool; uuid_de t := match t with TBool b => Ok b | _ => bad_type end;
  identifier_ser c := TStr (String c "") |}.
#[export] Instance toy_ser_laws : SerLaws.
Proof.
  split; try done; intros.
  - by match goal with k : DalekSecretKey |- _ => destruct k end.
  - by match goal with k : xDalekPublicKey |- _ => destruct k end.
  - apply (of_to_text (A := Z * Z)).
  - apply (of_to_text (A := Z * Z)).
  - exact (f_equal (fun r : Res (Z * Z) => x ← r; Ok (Some x)) (of_to_text (A := Z * Z) s)).
  - by apply parse_u64_fmt.
  - by apply Z.eqb_eq.
Qed.
#[export] Instance toy_base64 : Base64Crate := {| base64_encode := hex_of; base64_decode := of_hex |}.
#[export] Instance toy_base64_laws : Base64Laws.
Proof. split. intros b. apply of_hex_of. Qed.
#[export] Instance toy_serde_text : SerdeText := {| tree_to_string := toy_json_text; tree_from_str := toy_json_parse |}.
#[export] Instance toy_serde_text_laws : SerdeTextLaws.
Proof. intros t. apply toy_parse_text. Qed.

(** ** A slate with a proof *)
Definition slate_entries : list (string * Tree) := entries slate_v4_fields (slate_v4_vals (v4_of_slate slate0)).
Lemma slate0_typed : typed_slate_v4 (v4_of_slate slate0).
Proof.
  unfold typed_slate_v4. cbn. unfold in_u64, u64_modulus. repeat match goal with |- _ /\ _ => split end; try lia; try done.
  intros coms [= <-]. constructor.
Defined.
Lemma slate0_valid : valid_slate slate0.
Proof. apply Forall_singleton. split; reflexivity. Defined.
(** Backwards, and with a stranger. *)
Lemma slate_json_roundtrip_witness :
  slate_entries.*1 = ["ver"; "id"; "sta"; "amt"; "fee"; "sigs"; "coms"; "proof"]
  /\ versioned_slate_de (TObj (("memo", TNull) :: reverse slate_entries)) = Ok (VS4 (v4_of_slate slate0)).
Proof.
  split; [reflexivity|]. apply (proj1 (slate_json_roundtrip slate0 slate0_typed slate0_valid)).
  rewrite filter_cons_False by by apply (bool_decide_unpack _). rewrite reverse_Permutation. unfold slate_entries. by rewrite filter_known_entries.
Defined.
Definition request_id : @Uuid toy_types := true.
Definition version43 : VersionCompatInfoV4 := mkVersionCompatInfoV4 4 3.
Lemma required_entries_suffice_witness :
  version_info_ser version43 = TStr "4:3" /\ slate_state_ser Invoice1V4 = TStr "I1"
  /\ versioned_slate_de (TObj [("sigs", ser_vec participant_v4_ser []); ("sta", slate_state_ser Invoice1V4); ("id", uuid_ser request_id);
                               ("ver", version_info_ser version43)])
     = Ok (VS4 (mkSlateV4 version43 request_id Invoice1V4 bf_zero 2 0 fee_zero 0 0 [] None None None)).
Proof.
  split; [reflexivity|]. split; [reflexivity|].
  apply (required_entries_suffice version43 request_id Invoice1V4 []); cbn; [lia..|constructor].
Defined.

(** ** A signature that was cut off *)
Definition front : list (string * Tree) := take 7 slate_entries.
Lemma short_proof_signature_panics_witness :
  front.*1 = ["ver"; "id"; "sta"; "amt"; "fee"; "sigs"; "coms"]
  /\ deserialize_upgrade (H1 := ser_slate_json) (tree_to_string (TObj (front ++ ("proof",
       TObj [("saddr", dalek_pubkey_ser tt); ("raddr", dalek_pubkey_ser tt); ("rsig", TStr "cut off")]) :: []))) (MkTape (fun _ => 0) 0)
     = (Panic "range end index out of range", MkTape (fun _ => 0) 0).
Proof.
  split; [reflexivity|].
  refine (proj1 (short_proof_signature_panics front tt tt "cut off" "cut off" [] [] (MkTape (fun _ => 0) 0) _ _ _ eq_refl _)).
  - by apply (bool_decide_unpack _).
  - apply Forall_take, entries_read; [exact slate_v4_names|]. exact (slate_v4_vals_ok _ slate0_typed (valid_slate_v4 _ slate0_valid)).
  - by apply (bool_decide_unpack _).
  - cbn. lia.
Defined.
(** What follows the 64 bytes is not looked at. *)
Example long_signature_read : option_dalek_sig_de (to_hex (zeros 64 +:+ "and more")) = Ok (Some tt).
Proof. reflexivity. Qed.
Example version_text : version_info_de (TStr "+4:003") = Ok (mkVersionCompatInfoV4 4 3)
  /\ version_info_de (TStr "4:70000") = Err "Cannot parse version: number too large to fit in target type"
  /\ version_info_de (TStr "4") = Err "Cannot parse version".
Proof. by split_and!. Qed.
(** Twice the same name, a name that is missing, a slate by position. *)
Example refused_slates :
  is_ok (versioned_slate_de (TObj (("sta", TStr "S1") :: slate_entries))) = false
  /\ is_ok (versioned_slate_de (TObj (tail slate_entries))) = false
  /\ is_ok (versioned_slate_de (TArr ([TStr "4:3"; TBool true; TStr "NA"; TNum 0; TNum 2; TStr "7"; TNum 0; TNum 0; TStr "0"; TArr []]))) = true.
Proof. by vm_compute. Qed.
